(* ===== verification/_CoqProject ===== *)
-Q . S2P
Prelude.v
Sha256.v
Json.v
Authority.v
Protocol.v
Journal.v
Validation.v
Store.v
Session.v
SessionOps.v
Cgroup.v
Containment.v
Clone.v
Native.v
Outbox.v
Delivery.v
LateUsage.v
Wire.v
Control.v
SessionStore.v
Flush.v
Retry.v
RunFlush.v
TerminalQueue.v
ProviderAction.v
AuthorityProps.v
JsonProps.v
CompactProps.v
RereadProps.v
Samples.v
Lifecycle.v
OutboxFacts.v
Traces.v
StoreProps.v
Refinement.v
TerminalProps.v
EventProps.v
CommandProps.v
RunProps.v
DeliveryProps.v
LateUsageProps.v
SessionSteps.v
SessionProps.v
SessionClosing.v
ContainmentProps.v
ScanProps.v
AdmissionProps.v
GateProps.v
WireProps.v
ControlProps.v
FlushProps.v
LateFlushProps.v
RetryProps.v
RunFlushProps.v
TerminalQueueProps.v
Witnesses.v
SessionWitnesses.v
WireWitnesses.v
FlushWitnesses.v
RunFlushWitnesses.v
