(* ===== verification/Prelude.v ===== *)
(** * Verification of the symmetry daemon's durable state

    symmetry runs coding agents on worker machines. Its daemon (Go,
    src/daemon) claims runs from a control plane, launches an agent for each
    in a contained process tree, and reports events, results and accounting
    back. Everything the daemon must not forget or do twice across a crash is
    in the files of its state package; this development models that package,
    the records of the authority and protocol packages it stores, the checks
    the control client makes on every answer, the loop that sends Goal
    receipts and takes them off the queue, and the frames the daemon's Linux
    owner exchanges with the root launcher and the gate. It proves that the
    files keep what they promise, that a record leaves them only by an answer
    of the control plane, and that the frames mean what was sent.

    ** The parts and the files that model them

    - Prelude (below) and Sha256: the Go idioms every part uses, and SHA-256,
      by which file names, digests and identities are made. Json: the
      encoding/json decoder, compaction and the canonical form.
    - Authority: src/daemon/internal/authority/authority.go, the records of
      containment supervisors, handoffs, stop receipts and clones with their
      validity.
    - Protocol: fences, run events, transitions, subjects, evidence and usage
      of src/daemon/internal/protocol.
    - Journal, Validation: the run journal of state.go with every nested
      record and every check of validateJournal.
    - Store: the files of the run journals, the load-validate-write cycle,
      claims and imports. Outbox: events, transitions, commands, terminal
      settlement and cleanup. ProviderAction: provider_action.go. Cgroup,
      Containment, Clone: cgroup reservations and native admission, process
      markers with supervisor handoffs and scans, clone workspaces and
      accounting recovery. Delivery, LateUsage: goal_delivery.go, the Goal
      receipts of a run and the usage ledger that outlives its journal.
    - Session, SessionOps, SessionStore: goal_session.go, the journals of
      retained native sessions, their mutations, and the store with its
      per-lineage index.
    - Wire: launcher_linux.go of src/daemon/native/linux-gate/protocol, the
      owner configuration, the frames of a launch, the guarded RELEASE of a
      command with its descriptors and deadline, and the clone status frames.
      The gate that reads a RELEASE is a C program and not modelled; the Go
      reader of that frame is the one its tests use.
    - Control: validation.go and the request methods of client.go in
      src/daemon/internal/control, with the exchange itself as an argument.
    - Flush: the part of src/daemon/internal/app/app.go that sends Goal
      deliveries and late usage. The control API is an interface there and a
      record here ([GoalControlAPI]); what the daemon relies on is the class
      [CheckedAPI], and the client of Control is an instance of it.
    - Retry, RunFlush: the outbox of a run in app.go, supervisory.go and
      cleanup.go of the same package: flushRun, which sends deliveries, events,
      transitions and acknowledgements, the loop of flushAll around it, and the
      table of failed runs with its back-off. While a request of the flush is
      in flight, one of a Goal delivery included, the rest of the daemon may
      change the files in any way. TerminalQueue: the
      loops of app.go that record the end of a run and read it back after each
      error.

    A component's state is a record, a handler is a function on it that
    returns the new state and a result, and a handler of the Go code is
    composed the same way here: an argument check, then the callback under
    mutateJournal or mutateGoalSession. Lifecycle and SessionSteps collect the
    operations as requests and run sequences of them; Traces and OutboxFacts
    turn a sequence of requests into the steps of one journal.

    ** What the theorems show

    - CompactProps, RereadProps, StoreProps, Refinement: compaction of raw
      JSON changes no value, so a journal read back from its file validates
      again; every file of a reachable store that decodes holds a valid journal
      under its own name, a mutation is all or nothing, a claim never overwrites,
      and the files refine a map from runs to journals that changes one run at
      a time.
    - TerminalProps, EventProps, CommandProps, RunProps: the end of a run is
      final and settles every obligation, event numbers are not reused,
      commands and provider actions are accepted and dispatched once, output
      stays within its budget, usage does not regress.
    - DeliveryProps, LateUsageProps: a ready Goal receipt is kept until it is
      answered, and answered once; evidence is committed with the terminal
      transition; accounting survives the deletion of the journal and is not
      counted twice, except by a second deletion of a run whose journal settled
      usage after the first one failed, which is a defect of the archive.
    - SessionProps, SessionClosing: the lineage index answers as a scan would
      after any failures, a lineage has one live session at most, a session
      keeps its identity and history, a stop certificate is consumed once, and
      every session can be closed.
    - AuthorityProps, ContainmentProps, ScanProps, AdmissionProps, GateProps,
      JsonProps: a process owner leaves only with proof of its stop, a
      released run stays empty, reservations and scan ledgers only advance, a
      reservation excludes every other run, the launcher's authenticator
      round-trips, and the parser's fuel is enough.
    - WireProps: a launch result and a checkout receipt decode exactly to what
      they were encoded from, so does a RELEASE with the Go reader, a valid
      command fits its frame, and a configuration has one text.
    - ControlProps: a registration answers exactly the runtimes registered, an
      accepted acknowledgement is the one that was sent, payloads are compared
      up to member order and number notation, the UUID checks of three
      packages agree.
    - FlushProps, LateFlushProps: a record is settled only by an answer that
      matches it or ends it, the second check of a receipt agrees with the
      client's, both loops end, and late usage drains when it is accepted.
    - TerminalQueueProps: the end of a run that is reported as recorded is the
      one that was meant, also when a write failed after it landed.
    - RetryProps, RunFlushProps: a run is held back for good only by a last
      failure that is not retried and leaves nothing to deliver, a failed Goal
      receipt is due again within thirty seconds, a terminal is sent after every
      receipt and after the events that were pending when the last receipts were
      sent, and a run whose containment is held after a conclusive verdict is
      flushed without end.
    - Samples, Witnesses, SessionWitnesses, WireWitnesses, FlushWitnesses,
      RunFlushWitnesses: concrete journals, sessions, frames and exchanges at
      which the theorems are applied.

    ** Conventions, bounds and parameters

    Integers are Z, with [wrap64] and the width checks of the code where it
    can overflow. Strings are byte strings; text fields are valid UTF-8, so
    that encoding/json writes back what it read apart from the raw messages it
    compacts. Times are instants. A validator is a bool, or one error where
    its messages are not told apart. A file operation takes its outcome as an
    argument ([io], [file_io], [session_io]): unreadable, a write that fails
    before the rename, and one that fails after it. The methods hold the
    store's mutex from the load to the write, so a sequence of requests is
    what concurrent callers can see.

    The JSON parser runs on fuel, twice the length of its input and two, which
    JsonProps shows is enough; [FormatInt] has 20 digits of fuel, enough for
    64 bits. The loops of Flush run on fuel; FlushProps bounds their rounds by
    two for each pending record and three more, LateFlushProps by the pending
    records of a ledger. The theorems on RunFlush hold for any fuel, that is for
    every prefix of a flush. Parameters are type classes: [AdmissionParser]
    (the JSON-schema validator of an admission, a third-party package; the law
    [LayoutFree] of CompactProps says that it accepts an admission without its
    white space too, and StoreProps uses it), [JournalEncoder] (the
    size of an encoded journal, None for an encoding error), [Platform] (GOOS
    and GOARCH), [GrantCodec] (the JSON of a clone grant in a frame),
    [Credentials] (the user and group of the process) and [FingerprintEncoder]
    (the digest of a journal in the retry table).

    ** Not modelled

    The rest of the application loop (src/daemon/internal/app: processes,
    timers, goroutines, the cleanup of workspaces and the tables in memory),
    the C gate (src/daemon/native/linux-gate/c-gate), the platform containment
    (system calls and sockets; of it only the two release snapshots), the execution and harness
    adapters (child processes and third-party protocols), the workspace (git
    and file trees), the configuration, the commands, and the control plane,
    which is another program in Elixir. Of the modelled packages: HTTP and the
    decoder of the control client, its context snapshot and provider action
    endpoint, machine identity and enrollment (random keys), the reader that
    walks a clone before its cleanup, the listing of journals, the task-result
    validators and wire envelopes of protocol. *)

From Stdlib Require Export ZArith Lia String Ascii List Bool.
From stdpp Require Export base tactics option list strings gmap.

#[global] Open Scope Z_scope.

(** ** Prelude: the shared vocabulary

    The Go idioms every component uses, once: the error-carrying result of
    a call, [len], [strings.TrimSpace], hexadecimal strings, the wrap-around
    of [int64] and [uint64], functional record update for the Go structs,
    and the proof automation. *)

(** ** Errors and results *)

(** A Go [error] value: an opaque message ([errors.New]; no caller reads its
    text, which is abbreviated where several messages share one check), the
    typed [NotFoundError] of the state package, or one of its sentinels.
    [NilDereference] is the run-time panic of a nil pointer, which no caller
    recovers. *)
Inductive error : Type :=
| Errorf (message : string)
| NilDereference
| NotFoundError (resource : string)
| ErrProviderActionConflict
| ErrProviderActionIntentNotFound
| ErrProviderActionNotAllowed
| ErrProviderActionCapacity
| ErrGoalDeliveryConflict
| ErrGoalSessionConflict
| ErrGoalSessionUncertain
| ErrGoalSessionOwnerMismatch
| ErrGoalSessionVersionMismatch
| ErrGoalSessionWorkspaceMismatch
| ErrGoalSessionClosed
| ErrGoalSessionNotAttached
| ErrGoalSessionCompatibilityIncomplete.

(** The pair [(T, error)] returned by a Go function: exactly one side is
    meaningful. *)
Inductive result (A : Type) : Type :=
| Ok (a : A)
| Err (e : error).
Arguments Ok {A} a.
Arguments Err {A} e.

Definition rbind {A B} (r : result A) (k : A -> result B) : result B :=
  match r with Ok a => k a | Err e => Err e end.

Definition is_ok {A} (r : result A) : bool :=
  match r with Ok _ => true | Err _ => false end.

(** A [for] loop over a slice that threads a state and stops at the first
    error. *)
Fixpoint for_each {A S} (f : S -> A -> result S) (s : S) (l : list A) : result S :=
  match l with
  | [] => Ok s
  | x :: l' => rbind (f s x) (fun s' => for_each f s' l')
  end.

Declare Scope go_scope.
Delimit Scope go_scope with go.

(** [if err := f(); err != nil { return err }] *)
Notation "'try' x <- e ;; k" := (rbind e (fun x => k))
  (at level 100, x pattern, e at level 99, k at level 200, right associativity) : go_scope.
Notation "'check' e ;; k" := (rbind e (fun _ : unit => k))
  (at level 100, e at level 99, k at level 200, right associativity) : go_scope.
(** [if c { return errors.New(m) }] *)
Notation "'reject' c 'with' m ;; k" := (if c then Err m else k)
  (at level 100, c at level 99, m at level 99, k at level 200, right associativity) : go_scope.
#[global] Open Scope go_scope.

(** ** Strings *)

Notation "a =s b" := (String.eqb a b) (at level 70) : go_scope.
Notation "a <>s b" := (negb (String.eqb a b)) (at level 70) : go_scope.

(** [len(s)]: the number of bytes. *)
Definition len (s : string) : Z := Z.of_nat (String.length s).

Definition llen {A} (l : list A) : Z := Z.of_nat (length l).

Definition byte_at (c : ascii) : Z := Z.of_nat (nat_of_ascii c).

(** [strings.TrimSpace(s) == ""]: every rune of [s] is Unicode white space.
    The multi-byte cases are the UTF-8 encodings of U+0085, U+00A0, U+1680,
    U+2000..U+200A, U+2028, U+2029, U+202F, U+205F and U+3000. *)
Definition ascii_space (b : Z) : bool := (9 <=? b) && (b <=? 13) || (b =? 32).

Definition space2 (b1 b2 : Z) : bool := (b1 =? 194) && ((b2 =? 133) || (b2 =? 160)).

Definition space3 (b1 b2 b3 : Z) : bool :=
  (b1 =? 225) && (b2 =? 154) && (b3 =? 128)
  || (b1 =? 226) && (b2 =? 128) &&
     ((128 <=? b3) && (b3 <=? 138) || (b3 =? 168) || (b3 =? 169) || (b3 =? 175))
  || (b1 =? 226) && (b2 =? 129) && (b3 =? 159)
  || (b1 =? 227) && (b2 =? 128) && (b3 =? 128).

Fixpoint blank (s : string) : bool :=
  match s with
  | EmptyString => true
  | String a s1 =>
      if ascii_space (byte_at a) then blank s1
      else match s1 with
           | EmptyString => false
           | String b s2 =>
               if space2 (byte_at a) (byte_at b) then blank s2
               else match s2 with
                    | EmptyString => false
                    | String c s3 =>
                        if space3 (byte_at a) (byte_at b) (byte_at c) then blank s3 else false
                    end
           end
  end.

(** [strings.TrimSpace]: drop the white-space runes at both ends. *)
Fixpoint trim_left (s : string) : string :=
  match s with
  | EmptyString => EmptyString
  | String a s1 =>
      if ascii_space (byte_at a) then trim_left s1
      else match s1 with
           | EmptyString => s
           | String b s2 =>
               if space2 (byte_at a) (byte_at b) then trim_left s2
               else match s2 with
                    | EmptyString => s
                    | String c s3 =>
                        if space3 (byte_at a) (byte_at b) (byte_at c) then trim_left s3 else s
                    end
           end
  end.

Fixpoint trim_right (s : string) : string :=
  if blank s then EmptyString
  else match s with
       | EmptyString => EmptyString
       | String a s1 => String a (trim_right s1)
       end.

Definition TrimSpace (s : string) : string := trim_right (trim_left s).

Fixpoint string_forallb (p : ascii -> bool) (s : string) : bool :=
  match s with
  | EmptyString => true
  | String a s' => p a && string_forallb p s'
  end.

Definition lower_hex_digit (a : ascii) : bool :=
  let b := byte_at a in (48 <=? b) && (b <=? 57) || (97 <=? b) && (b <=? 102).

Definition hex_digit (a : ascii) : bool :=
  let b := byte_at a in lower_hex_digit a || (65 <=? b) && (b <=? 70).

(** [hex.DecodeString(s)] succeeds: an even number of hexadecimal digits. *)
Definition hex_decodes (s : string) : bool :=
  Z.even (len s) && string_forallb hex_digit s.

Definition string_in (x : string) (l : list string) : bool := existsb (String.eqb x) l.

Fixpoint repeat_ascii (a : ascii) (n : nat) : string :=
  match n with O => EmptyString | S n' => String a (repeat_ascii a n') end.

(** [strconv.FormatInt(n, 10)] *)
Definition digit_char (d : Z) : ascii := ascii_of_nat (Z.to_nat (48 + d)).

Fixpoint format_pos (fuel : nat) (n : Z) (acc : string) : string :=
  match fuel with
  | O => acc
  | S fuel' =>
      let acc' := String (digit_char (n mod 10)) acc in
      if n / 10 =? 0 then acc' else format_pos fuel' (n / 10) acc'
  end.

Definition FormatInt (n : Z) : string :=
  if n <? 0 then String "-" (format_pos 20 (- n) "") else format_pos 20 n "".

(** ** Machine integers *)

Definition wrap64 (n : Z) : Z := (n + 2 ^ 63) mod 2 ^ 64 - 2 ^ 63.
Definition wrapu64 (n : Z) : Z := n mod 2 ^ 64.
Definition maxUint64 : Z := 2 ^ 64 - 1.
Definition maxInt64 : Z := 2 ^ 63 - 1.

Definition in_int64 (n : Z) : Prop := - 2 ^ 63 <= n < 2 ^ 63.

Lemma wrap64_id n : in_int64 n -> wrap64 n = n.
Proof. unfold in_int64, wrap64. intros. rewrite Z.mod_small; lia. Qed.

Lemma wrap64_range n : in_int64 (wrap64 n).
Proof.
  unfold in_int64, wrap64.
  pose proof (Z.mod_pos_bound (n + 2 ^ 63) (2 ^ 64)). lia.
Qed.

(** The successor of an [int64] either is the mathematical one or wraps to
    the minimum, which is negative. *)
Lemma wrap64_succ n :
  in_int64 n -> wrap64 (n + 1) = n + 1 /\ n < maxInt64 \/ wrap64 (n + 1) = - 2 ^ 63.
Proof.
  unfold in_int64, maxInt64. intros H.
  destruct (decide (n = 2 ^ 63 - 1)) as [->|].
  - right. reflexivity.
  - left. split; [apply wrap64_id; unfold in_int64; lia | lia].
Qed.

(** ** Time

    A [time.Time] is the instant it denotes, in nanoseconds after the zero
    time; [IsZero] holds of the zero instant only, and [Equal], [After] and
    [Before] compare instants. *)
Abbreviation time := Z (only parsing).
Definition IsZero (t : time) : bool := t =? 0.

(** ** Functional record update

    [r <| field := v |>] is the Go assignment [r.field = v] on a value. A
    [Setter] instance is derived from the field list of the record. *)
Class Setter {R T} (proj : R -> T) : Type := setf : (T -> T) -> R -> R.
Arguments setf {R T} proj {Setter} f r /.

Notation "r <| proj := v |>" := (setf proj (fun _ => v) r)
  (at level 1, left associativity, proj at level 0) : go_scope.

Ltac derive_setter eta proj :=
  let f := fresh "f" in let r := fresh "r" in
  intros f r;
  let b := eval cbv beta delta [eta] in (eta r) in
  lazymatch b with
  | context C [proj r] => let b' := context C [f (proj r)] in exact b'
  end.

(** ** Options as Go pointers *)

Definition is_nil {A} (o : option A) : bool := match o with None => true | Some _ => false end.
Definition non_nil {A} (o : option A) : bool := negb (is_nil o).

(** [p != nil && f( *p)] *)
Definition some_and {A} (o : option A) (f : A -> bool) : bool :=
  match o with None => false | Some a => f a end.
(** [p == nil || f( *p)] *)
Definition none_or {A} (o : option A) (f : A -> bool) : bool :=
  match o with None => true | Some a => f a end.

(** Equality of optional values through the pointee's [Equal] method. *)
Definition ptr_equal {A} (eqb : A -> A -> bool) (l r : option A) : bool :=
  match l, r with
  | None, None => true
  | Some a, Some b => eqb a b
  | _, _ => false
  end.

(** A boolean comparison that decides equality: what an [Equal] method
    promises to the compare-and-set mutations that rely on it. *)
Class EqbSpec {A} (eqb : A -> A -> bool) : Prop :=
  eqb_iff : forall x y, eqb x y = true <-> x = y.

#[export] Instance string_eqb_spec : EqbSpec String.eqb := String.eqb_eq.
#[export] Instance Z_eqb_spec : EqbSpec Z.eqb := Z.eqb_eq.
#[export] Instance bool_eqb_spec : EqbSpec Bool.eqb := eqb_true_iff.

#[export] Instance ptr_equal_spec {A} (eqb : A -> A -> bool) `{!EqbSpec eqb} :
  EqbSpec (ptr_equal eqb).
Proof.
  intros [a|] [b|]; simpl; [|done..]. rewrite eqb_iff. naive_solver.
Qed.

#[export] Instance bool_decide_spec `{EqDecision A} :
  EqbSpec (fun x y : A => bool_decide (x = y)).
Proof. intros x y. apply bool_decide_eq_true. Qed.

Lemma eqb_eq {A} (eqb : A -> A -> bool) `{!EqbSpec eqb} x y : eqb x y = true -> x = y.
Proof. apply (eqb_iff x y). Qed.

(** Turn a successful comparison into an equality. *)
Ltac eqb_subst H :=
  match type of H with ?eqb ?x ?y = true => apply (eqb_eq eqb) in H; subst end.

(** A comparison that decides equality gives decidable equality. *)
Definition eqb_decision {A} (eqb : A -> A -> bool) `{!EqbSpec eqb} : EqDecision A :=
  fun x y => match bool_dec (eqb x y) true with
             | left E => left (proj1 (eqb_iff x y) E)
             | right N => right (fun E => N (proj2 (eqb_iff x y) E))
             end.

(** Prove that a field-by-field comparison of two records is equality. *)
Ltac break_equal H :=
  lazymatch type of H with
  | (_ && _) = true =>
      let E := fresh "E" in
      apply andb_prop in H as [H E]; apply (proj1 (eqb_iff _ _)) in E; break_equal H
  | _ => apply (proj1 (eqb_iff _ _)) in H
  end.

Ltac solve_equal x y :=
  let H := fresh "H" in
  split;
  [ destruct x, y; cbn; intros H; break_equal H; subst; reflexivity
  | intros <-; repeat (apply andb_true_intro; split);
    apply (proj2 (eqb_iff _ _)); reflexivity ].

(** ** Lists *)

Section Lists.
Context {A : Type}.

(** [slices.Contains] / a scan returning on the first match. *)
Fixpoint update_first (p : A -> bool) (f : A -> A) (l : list A) : list A :=
  match l with
  | [] => []
  | x :: l' => if p x then f x :: l' else x :: update_first p f l'
  end.

Lemma update_first_length p f l : length (update_first p f l) = length l.
Proof. induction l as [|x l IH]; simpl; [done|]. destruct (p x); simpl; congruence. Qed.

Lemma update_first_map {B} (g : A -> B) p f l :
  (forall x, p x = true -> g (f x) = g x) -> map g (update_first p f l) = map g l.
Proof.
  intros H. induction l as [|x l IH]; simpl; [done|].
  destruct (p x) eqn:E; simpl; [rewrite H by done; done | congruence].
Qed.

(** The members of a list seen so far are pairwise distinct under a key. *)
Fixpoint distinct_keys (key : A -> string) (seen : list string) (l : list A) : bool :=
  match l with
  | [] => true
  | x :: l' => negb (string_in (key x) seen) && distinct_keys key (key x :: seen) l'
  end.
End Lists.

Lemma string_in_spec x l : string_in x l = true <-> In x l.
Proof.
  unfold string_in. rewrite existsb_exists. split.
  - intros (y & Hy & E%String.eqb_eq). by subst.
  - intros H. exists x. by rewrite String.eqb_refl.
Qed.

Lemma string_in_false x l : string_in x l = false <-> ~ In x l.
Proof. rewrite <- string_in_spec. destruct (string_in x l); split; congruence. Qed.

(** The running duplicate check of the validators is [NoDup]. *)
Lemma distinct_keys_spec {A} (key : A -> string) seen l :
  distinct_keys key seen l = true <->
  List.NoDup (map key l) /\ (forall x, In x l -> ~ In (key x) seen).
Proof.
  revert seen. induction l as [|x l IH]; intros seen; simpl.
  - split; [intros _; split; [constructor|easy] | done].
  - rewrite andb_true_iff, negb_true_iff, string_in_false, IH. split.
    + intros (Hx & Hnd & Hl). split.
      * constructor; [|done]. rewrite in_map_iff. intros (y & E & Hy).
        apply (Hl y Hy). left. done.
      * intros y [<-|Hy]; [done|]. intros Hin. apply (Hl y Hy). by right.
    + intros [Hnd Hl]. inversion_clear Hnd as [|? ? Hnin Hnd']. split_and!; [by apply Hl; left|done|].
      intros y Hy [E|Hin]; [|by apply (Hl y (or_intror Hy))].
      apply Hnin. rewrite E. by apply in_map.
Qed.

(** ** Automation *)

Lemma rbind_ok {A B} (r : result A) (k : A -> result B) b :
  rbind r k = Ok b <-> exists a, r = Ok a /\ k a = Ok b.
Proof. destruct r; simpl; split; [eauto|by intros (? & [= ->] & ?)|done|by intros (? & ? & ?)]. Qed.

Lemma if_reject_ok {A} (c : bool) e (k : result A) a :
  (if c then Err e else k) = Ok a <-> c = false /\ k = Ok a.
Proof. destruct c; split; intros H; simplify_eq; try done; by destruct H. Qed.

Lemma Ok_inj {A} (a b : A) : Ok a = Ok b -> a = b.
Proof. congruence. Qed.

(** Break a successful run of a Go body into the checks it passed. *)
Ltac inv_ok :=
  repeat match goal with
  | H : rbind _ _ = Ok _ |- _ =>
      let a := fresh "a" in let E := fresh "E" in
      apply rbind_ok in H as (a & E & H); cbv beta in H
  | H : (if ?c then Err _ else _) = Ok _ |- _ =>
      let E := fresh "E" in apply if_reject_ok in H as [E H]
  | H : Ok _ = Ok _ |- _ => apply Ok_inj in H
  | H : Err _ = Ok _ |- _ => discriminate H
  end.

Lemma for_each_Forall {A S} (f : S -> A -> result S) (P : A -> Prop) s l s' :
  (forall s x s', f s x = Ok s' -> P x) -> for_each f s l = Ok s' -> Forall P l.
Proof.
  intros Hf. revert s. induction l as [|x l IH]; cbn [for_each]; intros s Hrun; [constructor|]. inv_ok.
  constructor; [by eapply Hf|by eapply IH].
Qed.

Lemma some_and_true {A} (o : option A) f : some_and o f = true <-> exists a, o = Some a /\ f a = true.
Proof. destruct o; simpl; naive_solver. Qed.

Lemma none_or_true {A} (o : option A) f : none_or o f = true <-> forall a, o = Some a -> f a = true.
Proof. destruct o; simpl; naive_solver. Qed.

Lemma is_nil_true {A} (o : option A) : is_nil o = true <-> o = None.
Proof. by destruct o. Qed.

Create HintDb go discriminated.

(** Turn boolean tests into propositions. *)
Ltac breflect :=
  repeat match goal with
  | H : (_ && _) = true |- _ => apply andb_true_iff in H as [? H]
  | H : is_nil _ = true |- _ => apply is_nil_true in H
  | H : (_ || _) = false |- _ => apply orb_false_iff in H as [? H]
  | H : negb _ = true |- _ => apply negb_true_iff in H
  | H : negb _ = false |- _ => apply negb_false_iff in H
  | H : (_ =s _) = true |- _ => apply String.eqb_eq in H
  | H : (_ =s _) = false |- _ => apply String.eqb_neq in H
  | H : (_ =? _) = true |- _ => apply Z.eqb_eq in H
  | H : (_ =? _) = false |- _ => apply Z.eqb_neq in H
  | H : (_ <? _) = true |- _ => apply Z.ltb_lt in H
  | H : (_ <? _) = false |- _ => apply Z.ltb_ge in H
  | H : (_ <=? _) = true |- _ => apply Z.leb_le in H
  | H : (_ <=? _) = false |- _ => apply Z.leb_gt in H
  end.

(** ** Strings and decimal numbers *)

Local Open Scope string_scope.
Local Open Scope Z_scope.

Lemma append_nil_l (t : string) : "" ++ t = t.
Proof. reflexivity. Qed.

Lemma append_cons (a : ascii) (s t : string) : String a s ++ t = String a (s ++ t).
Proof. reflexivity. Qed.

Lemma append_inj_l (p s t : string) : p ++ s = p ++ t -> s = t.
Proof. induction p as [|a p IH]; [done|]. rewrite !append_cons. intros [= E]. auto. Qed.

Lemma append_assoc (s t u : string) : (s ++ t) ++ u = s ++ (t ++ u).
Proof. induction s as [|a s IH]; [done|]. by rewrite !append_cons, IH. Qed.

Lemma append_length (s t : string) : String.length (s ++ t) = (String.length s + String.length t)%nat.
Proof. induction s as [|a s IH]; [done|]. rewrite append_cons. simpl. by rewrite IH. Qed.

(** Two strings of equal length in front of anything. *)
Lemma append_inj_r (s1 s2 t1 t2 : string) :
  String.length s1 = String.length s2 -> s1 ++ t1 = s2 ++ t2 -> s1 = s2 /\ t1 = t2.
Proof.
  revert s2. induction s1 as [|a s1 IH]; intros [|b s2] Hl; try discriminate; [done|].
  rewrite !append_cons. intros E. injection E as -> E. injection Hl as Hl. apply IH in E as [-> ->]; done.
Qed.

Lemma append_inj_tail (s t u : string) : s ++ u = t ++ u -> s = t.
Proof.
  intros E. apply append_inj_r in E as [-> _]; [done|].
  apply (f_equal String.length) in E. rewrite !append_length in E. lia.
Qed.

Fixpoint digits_value (s : string) (v : Z) : Z :=
  match s with
  | EmptyString => v
  | String c s' => digits_value s' (10 * v + (byte_at c - 48))
  end.

Lemma byte_at_digit d : 0 <= d < 10 -> byte_at (digit_char d) = 48 + d.
Proof.
  intros Hd. unfold byte_at, digit_char. rewrite nat_ascii_embedding by lia. lia.
Qed.

Lemma digits_value_format fuel n acc :
  0 <= n < 10 ^ Z.of_nat fuel -> digits_value (format_pos fuel n acc) 0 = digits_value acc n.
Proof.
  revert n acc. induction fuel as [|fuel IH]; intros n acc Hn.
  { simpl in Hn. assert (n = 0) as -> by lia. done. }
  simpl. pose proof (Z.div_mod n 10). pose proof (Z.mod_pos_bound n 10).
  assert (10 ^ Z.of_nat (S fuel) = 10 * 10 ^ Z.of_nat fuel) as Hpow
    by (rewrite Nat2Z.inj_succ, Z.pow_succ_r by lia; lia).
  destruct (n / 10 =? 0) eqn:E; breflect.
  - simpl. rewrite byte_at_digit by lia. f_equal. lia.
  - rewrite IH by (split; [apply Z.div_pos; lia | apply Z.div_lt_upper_bound; lia]).
    simpl. rewrite byte_at_digit by lia. f_equal. lia.
Qed.

Lemma FormatInt_value n : 0 <= n <= maxInt64 -> digits_value (FormatInt n) 0 = n.
Proof.
  unfold maxInt64, FormatInt. intros Hn. destruct (n <? 0) eqn:E; breflect; [lia|].
  rewrite digits_value_format; [done|]. split; [lia|]. change (10 ^ Z.of_nat 20) with (10 ^ 20). lia.
Qed.
