(* ===== verification/Sha256.v ===== *)
(** * SHA-256

    [crypto/sha256.Sum256] followed by [hex.EncodeToString], as the daemon
    uses them for journal file names and for the digests that bind a durable
    intent. FIPS 180-4 on 32-bit words kept as [Z], executable so that a
    digest in a theorem's witness evaluates. Nothing in the development
    assumes that the function is injective: where a theorem compares
    digests, its conclusion names the collision as the alternative. *)

From S2P Require Import Prelude.

Definition w32 (n : Z) : Z := Z.land n 4294967295.
Definition rotr (k x : Z) : Z := w32 (Z.lor (Z.shiftr x k) (Z.shiftl x (32 - k))).

Definition Ch (x y z : Z) : Z := Z.lxor (Z.land x y) (Z.land (Z.lxor x 4294967295) z).
Definition Maj (x y z : Z) : Z := Z.lxor (Z.lxor (Z.land x y) (Z.land x z)) (Z.land y z).
Definition bsig0 (x : Z) : Z := Z.lxor (Z.lxor (rotr 2 x) (rotr 13 x)) (rotr 22 x).
Definition bsig1 (x : Z) : Z := Z.lxor (Z.lxor (rotr 6 x) (rotr 11 x)) (rotr 25 x).
Definition ssig0 (x : Z) : Z := Z.lxor (Z.lxor (rotr 7 x) (rotr 18 x)) (Z.shiftr x 3).
Definition ssig1 (x : Z) : Z := Z.lxor (Z.lxor (rotr 17 x) (rotr 19 x)) (Z.shiftr x 10).

(** The round constants are the first 32 bits of the fractional parts of the
    cube roots of the first sixty-four primes, the initial state those of the
    square roots of the first eight. *)
Fixpoint trial (d : Z) (fuel : nat) (n : Z) : bool :=
  match fuel with
  | O => true
  | S fuel' => if n <? d * d then true else if n mod d =? 0 then false else trial (d + 1) fuel' n
  end.

Definition primes : list Z := List.filter (trial 2 18) (map (fun n => Z.of_nat n + 2) (seq 0 310)).

Fixpoint cube_root (bits : nat) (r n : Z) : Z :=
  match bits with
  | O => r
  | S bits' =>
      let r' := r + Z.shiftl 1 (Z.of_nat bits') in
      cube_root bits' (if r' * r' * r' <=? n then r' else r) n
  end.

Definition K256 : list Z := Eval vm_compute in map (fun p => w32 (cube_root 36 0 (Z.shiftl p 96))) primes.

Record sha_state := mkSha { sa : Z; sb : Z; sc : Z; sd : Z; se : Z; sf : Z; sg : Z; sh : Z }.

Definition square_bits (i : nat) : Z := w32 (Z.sqrt (Z.shiftl (nth i primes 0) 64)).

Definition H256 : sha_state := Eval vm_compute in
  mkSha (square_bits 0) (square_bits 1) (square_bits 2) (square_bits 3)
        (square_bits 4) (square_bits 5) (square_bits 6) (square_bits 7).

Definition sha_round (s : sha_state) (k w : Z) : sha_state :=
  let t1 := w32 (sh s + bsig1 (se s) + Ch (se s) (sf s) (sg s) + k + w) in
  let t2 := w32 (bsig0 (sa s) + Maj (sa s) (sb s) (sc s)) in
  mkSha (w32 (t1 + t2)) (sa s) (sb s) (sc s) (w32 (sd s + t1)) (se s) (sf s) (sg s).

(** Consume the schedule as a sliding window of sixteen words. *)
Fixpoint sha_rounds (ks : list Z) (win : list Z) (s : sha_state) : sha_state :=
  match ks, win with
  | k :: ks', w :: win' =>
      let next := w32 (ssig1 (nth 14 win 0) + nth 9 win 0 + ssig0 (nth 1 win 0) + w) in
      sha_rounds ks' (win' ++ [next]) (sha_round s k w)
  | _, _ => s
  end.

Definition sha_add (s t : sha_state) : sha_state :=
  mkSha (w32 (sa s + sa t)) (w32 (sb s + sb t)) (w32 (sc s + sc t)) (w32 (sd s + sd t))
        (w32 (se s + se t)) (w32 (sf s + sf t)) (w32 (sg s + sg t)) (w32 (sh s + sh t)).

Definition sha_block (s : sha_state) (words : list Z) : sha_state :=
  sha_add s (sha_rounds K256 words s).

Fixpoint string_bytes (s : string) : list Z :=
  match s with EmptyString => [] | String a s' => byte_at a :: string_bytes s' end.

Fixpoint be_bytes (n : nat) (x : Z) : list Z :=
  match n with
  | O => []
  | S n' => Z.land (Z.shiftr x (8 * Z.of_nat n')) 255 :: be_bytes n' x
  end.

Fixpoint be_words (l : list Z) : list Z :=
  match l with
  | a :: b :: c :: d :: l' =>
      Z.shiftl a 24 + Z.shiftl b 16 + Z.shiftl c 8 + d :: be_words l'
  | _ => []
  end.

Definition sha_pad (l : list Z) : list Z :=
  let n := length l in
  l ++ [128] ++ repeat 0 (Z.to_nat ((55 - Z.of_nat n) mod 64)) ++ be_bytes 8 (8 * Z.of_nat n).

Fixpoint sha_blocks (n : nat) (words : list Z) (s : sha_state) : sha_state :=
  match n with
  | O => s
  | S n' => sha_blocks n' (skipn 16 words) (sha_block s (firstn 16 words))
  end.

Definition nibble_char (d : Z) : ascii :=
  ascii_of_nat (Z.to_nat (if d <? 10 then 48 + d else 87 + d)).

Fixpoint hex_encode (l : list Z) : string :=
  match l with
  | [] => EmptyString
  | b :: l' => String (nibble_char (Z.shiftr b 4)) (String (nibble_char (Z.land b 15)) (hex_encode l'))
  end.

Definition sha_out (s : sha_state) : list Z :=
  be_bytes 4 (sa s) ++ be_bytes 4 (sb s) ++ be_bytes 4 (sc s) ++ be_bytes 4 (sd s) ++
  be_bytes 4 (se s) ++ be_bytes 4 (sf s) ++ be_bytes 4 (sg s) ++ be_bytes 4 (sh s).

(** [sha256.Sum256] *)
Definition sha256 (l : list Z) : list Z :=
  let words := be_words (sha_pad l) in
  sha_out (sha_blocks (Nat.div (length words) 16) words H256).

(** [hex.EncodeToString(sha256.Sum256([]byte(s)))] *)
Definition sha256_hex (s : string) : string := hex_encode (sha256 (string_bytes s)).

(** crypto/hmac with SHA-256, for a key of at most one block. *)
Definition hmac_sha256 (key message : list Z) : list Z :=
  let padded := key ++ repeat 0 (64 - length key) in
  sha256 (map (Z.lxor 92) padded ++ sha256 (map (Z.lxor 54) padded ++ message)).

(** Two different inputs with one digest. *)
Definition sha256_collision (x y : string) : Prop := x <> y /\ sha256_hex x = sha256_hex y.

Example sha256_abc :
  sha256_hex "abc" = "ba7816bf8f01cfea414140de5dae2223b00361a396177a9cb410ff61f20015ad"%string.
Proof. vm_compute. reflexivity. Qed.

(** The digest is sixty-four lower-case hexadecimal digits whatever the
    input: the shape every persisted digest is validated against. *)
Lemma hex_encode_length l : String.length (hex_encode l) = (2 * length l)%nat.
Proof. induction l; simpl; lia. Qed.

Lemma be_bytes_length n x : length (be_bytes n x) = n.
Proof. induction n; simpl; congruence. Qed.

Lemma be_bytes_range n x : Forall (fun b => 0 <= b < 256) (be_bytes n x).
Proof.
  induction n as [|n IH]; simpl; constructor; [|done].
  change 255 with (Z.ones 8). rewrite Z.land_ones by lia.
  apply Z.mod_pos_bound. lia.
Qed.

Lemma nibble_char_hex d : 0 <= d < 16 -> lower_hex_digit (nibble_char d) = true.
Proof.
  intros H. assert (exists n : nat, (n < 16)%nat /\ d = Z.of_nat n) as (n & Hn & ->)
    by (exists (Z.to_nat d); lia).
  do 16 (destruct n as [|n]; [reflexivity|]). lia.
Qed.

Lemma hex_encode_hex l :
  Forall (fun b => 0 <= b < 256) l -> string_forallb lower_hex_digit (hex_encode l) = true.
Proof.
  induction 1 as [|b l Hb _ IH]; [done|]. simpl.
  rewrite !nibble_char_hex; [done| |].
  - change 15 with (Z.ones 4). rewrite Z.land_ones by lia. apply Z.mod_pos_bound. lia.
  - rewrite Z.shiftr_div_pow2 by lia. change (2 ^ 4) with 16. split.
    + apply Z.div_pos; lia.
    + apply Z.div_lt_upper_bound; lia.
Qed.

Lemma sha_out_length s : length (sha_out s) = 32%nat.
Proof. unfold sha_out. rewrite !length_app, !be_bytes_length. reflexivity. Qed.

Lemma sha_out_range s : Forall (fun b => 0 <= b < 256) (sha_out s).
Proof. unfold sha_out. repeat (apply Forall_app; split); apply be_bytes_range. Qed.

Lemma sha256_hex_len s : len (sha256_hex s) = 64.
Proof. unfold len, sha256_hex, sha256. rewrite hex_encode_length, sha_out_length. reflexivity. Qed.

Lemma sha256_hex_lower s : string_forallb lower_hex_digit (sha256_hex s) = true.
Proof. apply hex_encode_hex, sha_out_range. Qed.

#[global] Opaque sha256_hex.

Lemma lower_hex_is_hex s :
  string_forallb lower_hex_digit s = true -> string_forallb hex_digit s = true.
Proof.
  induction s as [|a s IH]; [done|]. simpl. rewrite !andb_true_iff.
  intros [H1 H2]. split; [|auto]. unfold hex_digit. by rewrite H1.
Qed.

Lemma sha256_hex_decodes s : hex_decodes (sha256_hex s) = true.
Proof.
  unfold hex_decodes. rewrite sha256_hex_len.
  rewrite (lower_hex_is_hex _ (sha256_hex_lower s)). reflexivity.
Qed.

Lemma sha256_hex_nonempty s : sha256_hex s <> EmptyString.
Proof. intros E. pose proof (sha256_hex_len s) as H. rewrite E in H. discriminate. Qed.

(** Equal digests mean equal inputs or a collision. *)
Lemma sha256_eq_inv x y :
  sha256_hex x = sha256_hex y -> x = y \/ sha256_collision x y.
Proof.
  intros H. destruct (decide (x = y)) as [->|Hne]; [by left | right; by split].
Qed.

#[export] Hint Resolve sha256_hex_len sha256_hex_decodes sha256_hex_nonempty : go.
