(* ===== verification/Json.v ===== *)
(** * JSON as the daemon reads and writes it

    The part of [encoding/json] the daemon relies on, on byte strings: UTF-8
    runes, the value grammar with its nesting limit ([json.Valid]), the
    decoding of string literals, string escaping with and without HTML
    escaping, compaction of a [json.RawMessage], and decoding into a struct
    of strings. On top of it the repository's own
    [protocol.RejectDuplicateJSONMembers]
    (src/daemon/internal/protocol/goal_evidence_batch.go). *)

From S2P Require Import Prelude.

Open Scope string_scope.
Open Scope Z_scope.

(** ** UTF-8 *)

Definition cont (b : Z) : bool := (128 <=? b) && (b <=? 191).
Definition between (lo b hi : Z) : bool := (lo <=? b) && (b <=? hi).

(** The number of bytes of the valid encoding at the head of [s]; 0 when
    [utf8.DecodeRune] reports an invalid one (or the string is empty). *)
Definition rune_size (s : string) : nat :=
  match s with
  | "" => 0%nat
  | String a s1 =>
      let b0 := byte_at a in
      if b0 <? 128 then 1%nat else
      match s1 with
      | "" => 0%nat
      | String b s2 =>
          let b1 := byte_at b in
          if between 194 b0 223 then (if cont b1 then 2%nat else 0%nat) else
          match s2 with
          | "" => 0%nat
          | String c s3 =>
              let b2 := byte_at c in
              if between 224 b0 239 then
                if cont b2 &&
                   between (if b0 =? 224 then 160 else 128) b1 (if b0 =? 237 then 159 else 191)
                then 3%nat else 0%nat
              else
              match s3 with
              | "" => 0%nat
              | String d _ =>
                  if between 240 b0 244 && cont b2 && cont (byte_at d) &&
                     between (if b0 =? 240 then 144 else 128) b1 (if b0 =? 244 then 143 else 191)
                  then 4%nat else 0%nat
              end
          end
      end
  end.

Fixpoint sdrop (n : nat) (s : string) : string :=
  match n, s with
  | S n', String _ s' => sdrop n' s'
  | _, _ => s
  end.

Fixpoint stake (n : nat) (s : string) : string :=
  match n, s with
  | S n', String a s' => String a (stake n' s')
  | _, _ => ""
  end.

(** [utf8.ValidString] and [utf8.RuneCountInString]; every step consumes at
    least one byte, so [String.length s] steps suffice. *)
Fixpoint valid_utf8_fuel (fuel : nat) (s : string) : bool :=
  match s, fuel with
  | "", _ => true
  | _, O => false
  | _, S fuel' =>
      match rune_size s with O => false | n => valid_utf8_fuel fuel' (sdrop n s) end
  end.
Definition ValidString (s : string) : bool := valid_utf8_fuel (String.length s) s.

Fixpoint rune_count_fuel (fuel : nat) (s : string) : Z :=
  match s, fuel with
  | "", _ | _, O => 0
  | _, S fuel' => 1 + rune_count_fuel fuel' (sdrop (Nat.max 1 (rune_size s)) s)
  end.
Definition RuneCountInString (s : string) : Z := rune_count_fuel (String.length s) s.

Definition chr (b : Z) : ascii := ascii_of_nat (Z.to_nat b).

(** [utf8.AppendRune] *)
Definition encode_rune (r : Z) : string :=
  if r <? 128 then String (chr r) ""
  else if r <? 2048 then
    String (chr (192 + r / 64)) (String (chr (128 + r mod 64)) "")
  else if r <? 65536 then
    String (chr (224 + r / 4096)) (String (chr (128 + r / 64 mod 64)) (String (chr (128 + r mod 64)) ""))
  else
    String (chr (240 + r / 262144)) (String (chr (128 + r / 4096 mod 64))
      (String (chr (128 + r / 64 mod 64)) (String (chr (128 + r mod 64)) ""))).

Definition RuneError : string := encode_rune 65533.

(** ** String literals *)

Definition hex_value (a : ascii) : Z :=
  let b := byte_at a in
  if between 48 b 57 then b - 48 else if between 97 b 102 then b - 87 else b - 55.

(** The four hexadecimal digits of a [\uXXXX] escape. *)
Definition getu4 (s : string) : option (Z * string) :=
  match s with
  | String a (String b (String c (String d r))) =>
      if hex_digit a && hex_digit b && hex_digit c && hex_digit d
      then Some (((hex_value a * 16 + hex_value b) * 16 + hex_value c) * 16 + hex_value d, r)
      else None
  | _ => None
  end.

Definition simple_escape (a : ascii) : option ascii :=
  match byte_at a with
  | 34 => Some (chr 34)
  | 92 => Some "\"%char
  | 47 => Some "/"%char
  | 98 => Some (chr 8)
  | 102 => Some (chr 12)
  | 110 => Some (chr 10)
  | 114 => Some (chr 13)
  | 116 => Some (chr 9)
  | _ => None
  end.

(** Scan a literal after its opening quote: its raw body and what follows the
    closing quote. Control bytes, bad escapes and a missing quote fail. *)
Fixpoint scan_string (s : string) : option (string * string) :=
  match s with
  | "" => None
  | String a s1 =>
      let b := byte_at a in
      if b =? 34 then Some ("", s1)
      else if b <? 32 then None
      else if b =? 92 then
        match s1 with
        | "" => None
        | String e s2 =>
            if byte_at e =? 117 then
              match s2 with
              | String h1 (String h2 (String h3 (String h4 s3))) =>
                  if hex_digit h1 && hex_digit h2 && hex_digit h3 && hex_digit h4 then
                    match scan_string s3 with
                    | Some (raw, rest) =>
                        Some (String a (String e (String h1 (String h2 (String h3 (String h4 raw))))), rest)
                    | None => None
                    end
                  else None
              | _ => None
              end
            else match simple_escape e with
                 | None => None
                 | Some _ =>
                     match scan_string s2 with
                     | Some (raw, rest) => Some (String a (String e raw), rest)
                     | None => None
                     end
                 end
        end
      else match scan_string s1 with
           | Some (raw, rest) => Some (String a raw, rest)
           | None => None
           end
  end.

Definition surrogate (r : Z) : bool := between 55296 r 57343.

(** The bytes a raw literal body denotes: escapes resolved, surrogate pairs
    combined, unpaired surrogates and invalid UTF-8 replaced by U+FFFD. *)
Fixpoint unquote_fuel (fuel : nat) (s : string) : string :=
  match fuel with
  | O => ""
  | S fuel' =>
      match s with
      | "" => ""
      | String a s1 =>
          if byte_at a =? 92 then
            match s1 with
            | "" => ""
            | String e s2 =>
                if byte_at e =? 117 then
                  match getu4 s2 with
                  | None => ""
                  | Some (r, s3) =>
                      if surrogate r then
                        match s3 with
                        | String b (String u s4) =>
                            match (if (byte_at b =? 92) && (byte_at u =? 117) then getu4 s4 else None) with
                            | Some (r2, s5) =>
                                if between 55296 r 56319 && between 56320 r2 57343
                                then encode_rune ((r - 55296) * 1024 + (r2 - 56320) + 65536)
                                     ++ unquote_fuel fuel' s5
                                else RuneError ++ unquote_fuel fuel' s3
                            | None => RuneError ++ unquote_fuel fuel' s3
                            end
                        | _ => RuneError ++ unquote_fuel fuel' s3
                        end
                      else encode_rune r ++ unquote_fuel fuel' s3
                  end
                else match simple_escape e with
                     | Some c => String c (unquote_fuel fuel' s2)
                     | None => ""
                     end
            end
          else match rune_size s with
               | O => RuneError ++ unquote_fuel fuel' s1
               | n => stake n s ++ unquote_fuel fuel' (sdrop n s)
               end
      end
  end.
Definition unquote (raw : string) : string := unquote_fuel (String.length raw) raw.

(** ** The value grammar *)

Inductive json : Type :=
| JNull
| JBool (b : bool)
| JNumber (literal : string)
| JString (s : string)
| JArray (l : list json)
| JObject (l : list (string * json)).

Definition json_space (a : ascii) : bool :=
  let b := byte_at a in (b =? 32) || (b =? 9) || (b =? 10) || (b =? 13).

Fixpoint skip_ws (s : string) : string :=
  match s with
  | String a s' => if json_space a then skip_ws s' else s
  | "" => ""
  end.

Definition is_digit (a : ascii) : bool := between 48 (byte_at a) 57.

Fixpoint span_digits (s : string) : string * string :=
  match s with
  | String a s' =>
      if is_digit a then let '(ds, r) := span_digits s' in (String a ds, r) else ("", s)
  | "" => ("", "")
  end.

Definition scan_int (s : string) : option (string * string) :=
  match s with
  | String a s' =>
      if byte_at a =? 48 then Some (String a "", s')
      else if between 49 (byte_at a) 57
      then let '(ds, r) := span_digits s' in Some (String a ds, r)
      else None
  | "" => None
  end.

Definition scan_frac (s : string) : option (string * string) :=
  match s with
  | String a s' =>
      if byte_at a =? 46 then
        match span_digits s' with ("", _) => None | (ds, r) => Some (String a ds, r) end
      else Some ("", s)
  | "" => Some ("", "")
  end.

Definition scan_exp (s : string) : option (string * string) :=
  match s with
  | String a s' =>
      if (byte_at a =? 101) || (byte_at a =? 69) then
        let '(sign, s'') :=
          match s' with
          | String c r => if (byte_at c =? 43) || (byte_at c =? 45) then (String c "", r) else ("", s')
          | "" => ("", "")
          end in
        match span_digits s'' with
        | ("", _) => None
        | (ds, r) => Some (String a (sign ++ ds), r)
        end
      else Some ("", s)
  | "" => Some ("", "")
  end.

(** A number literal, kept as its text ([json.Number]). *)
Definition scan_number (s : string) : option (string * string) :=
  let '(sign, s1) :=
    match s with
    | String a r => if byte_at a =? 45 then (String a "", r) else ("", s)
    | "" => ("", "")
    end in
  match scan_int s1 with
  | None => None
  | Some (i, s2) =>
      match scan_frac s2 with
      | None => None
      | Some (f, s3) =>
          match scan_exp s3 with
          | None => None
          | Some (e, rest) => Some (sign ++ i ++ f ++ e, rest)
          end
      end
  end.

Fixpoint strip_prefix (p s : string) : option string :=
  match p, s with
  | "", _ => Some s
  | String a p', String b s' => if Ascii.eqb a b then strip_prefix p' s' else None
  | _, _ => None
  end.

(** encoding/json refuses more than 10000 open arrays and objects. *)
Definition maxNestingDepth : Z := 10000.

(** [parse_value fuel depth s] reads one value after optional white space and
    returns it with the unread input. *)
Fixpoint parse_value (fuel : nat) (depth : Z) (s : string) : option (json * string) :=
  match fuel with
  | O => None
  | S fuel' =>
      match skip_ws s with
      | "" => None
      | String a r as s0 =>
          let b := byte_at a in
          if b =? 34 then
            match scan_string r with
            | Some (raw, rest) => Some (JString (unquote raw), rest)
            | None => None
            end
          else if b =? 91 then
            if maxNestingDepth <? depth + 1 then None else
            match skip_ws r with
            | String c r' =>
                if byte_at c =? 93 then Some (JArray [], r')
                else match parse_elements fuel' (depth + 1) r with
                     | Some (l, rest) => Some (JArray l, rest)
                     | None => None
                     end
            | "" => None
            end
          else if b =? 123 then
            if maxNestingDepth <? depth + 1 then None else
            match skip_ws r with
            | String c r' =>
                if byte_at c =? 125 then Some (JObject [], r')
                else match parse_members fuel' (depth + 1) r with
                     | Some (l, rest) => Some (JObject l, rest)
                     | None => None
                     end
            | "" => None
            end
          else if b =? 110 then
            match strip_prefix "null" s0 with Some rest => Some (JNull, rest) | None => None end
          else if b =? 116 then
            match strip_prefix "true" s0 with Some rest => Some (JBool true, rest) | None => None end
          else if b =? 102 then
            match strip_prefix "false" s0 with Some rest => Some (JBool false, rest) | None => None end
          else
            match scan_number s0 with
            | Some (lit, rest) => Some (JNumber lit, rest)
            | None => None
            end
      end
  end
with parse_elements (fuel : nat) (depth : Z) (s : string) : option (list json * string) :=
  match fuel with
  | O => None
  | S fuel' =>
      match parse_value fuel' depth s with
      | None => None
      | Some (v, r) =>
          match skip_ws r with
          | String c r' =>
              if byte_at c =? 93 then Some ([v], r')
              else if byte_at c =? 44 then
                match parse_elements fuel' depth r' with
                | Some (l, rest) => Some (v :: l, rest)
                | None => None
                end
              else None
          | "" => None
          end
      end
  end
with parse_members (fuel : nat) (depth : Z) (s : string) : option (list (string * json) * string) :=
  match fuel with
  | O => None
  | S fuel' =>
      match skip_ws s with
      | String q r0 =>
          if byte_at q =? 34 then
            match scan_string r0 with
            | None => None
            | Some (raw, r1) =>
                match skip_ws r1 with
                | String c r2 =>
                    if byte_at c =? 58 then
                      match parse_value fuel' depth r2 with
                      | None => None
                      | Some (v, r3) =>
                          match skip_ws r3 with
                          | String d r4 =>
                              if byte_at d =? 125 then Some ([(unquote raw, v)], r4)
                              else if byte_at d =? 44 then
                                match parse_members fuel' depth r4 with
                                | Some (l, rest) => Some ((unquote raw, v) :: l, rest)
                                | None => None
                                end
                              else None
                          | "" => None
                          end
                      end
                    else None
                | "" => None
                end
            end
          else None
      | "" => None
      end
  end.

(** A whole document: one value and trailing white space. Every two calls
    consume a byte, so the fuel never runs out (proved in JsonProps.v). *)
Definition parse_fuel (s : string) : nat := (2 * String.length s + 2)%nat.

Definition parse_document (s : string) : option json :=
  match parse_value (parse_fuel s) 0 s with
  | Some (v, rest) => match skip_ws rest with "" => Some v | _ => None end
  | None => None
  end.

(** [json.Valid] *)
Definition json_Valid (s : string) : bool := non_nil (parse_document s).

(** ** Duplicate members (protocol.RejectDuplicateJSONMembers, scanJSONValue) *)

Fixpoint no_duplicate_members (v : json) : bool :=
  match v with
  | JArray l => forallb no_duplicate_members l
  | JObject l =>
      distinct_keys fst [] l && forallb (fun m => no_duplicate_members m.2) l
  | _ => true
  end.

Definition RejectDuplicateJSONMembers (data : string) : bool :=
  match parse_document data with
  | Some v => no_duplicate_members v
  | None => false
  end.

(** ** Writing *)

Definition hex4 (r : Z) : string :=
  let d k := let n := r / k mod 16 in String (chr (if n <? 10 then 48 + n else 87 + n)) "" in
  d 4096 ++ d 256 ++ d 16 ++ d 1.

Definition escape_ascii (html : bool) (a : ascii) : string :=
  let b := byte_at a in
  if (b =? 34) || (b =? 92) then String "\" (String a "")
  else if b =? 8 then "\b"
  else if b =? 12 then "\f"
  else if b =? 10 then "\n"
  else if b =? 13 then "\r"
  else if b =? 9 then "\t"
  else if (b <? 32) || html && ((b =? 60) || (b =? 62) || (b =? 38)) then "\u" ++ hex4 b
  else String a "".

(** The body encoding/json writes for a string: [html] is the encoder's
    SetEscapeHTML setting. U+2028 and U+2029 are always escaped. *)
Fixpoint escape_fuel (fuel : nat) (html : bool) (s : string) : string :=
  match fuel with
  | O => ""
  | S fuel' =>
      match s with
      | "" => ""
      | String a s1 =>
          if byte_at a <? 128 then escape_ascii html a ++ escape_fuel fuel' html s1
          else match rune_size s with
               | O => "\ufffd" ++ escape_fuel fuel' html s1
               | n =>
                   let r := stake n s in
                   (if r =s encode_rune 8232 then "\u2028"
                    else if r =s encode_rune 8233 then "\u2029" else r)
                   ++ escape_fuel fuel' html (sdrop n s)
               end
      end
  end.
Definition escape (html : bool) (s : string) : string := escape_fuel (String.length s) html s.

Definition quote : string := String (chr 34) "".

Definition encode_string (html : bool) (s : string) : string := quote ++ escape html s ++ quote.

(** [json.Compact] as the encoder applies it to a [json.RawMessage]: white
    space outside string literals is dropped; with [html], [<], [>], [&] and
    the two line separators are escaped. *)
Fixpoint compact_from (html in_string escaped : bool) (s : string) : string :=
  match s with
  | "" => ""
  | String a s1 =>
      let b := byte_at a in
      if html && ((b =? 60) || (b =? 62) || (b =? 38)) then
        "\u" ++ hex4 b ++ compact_from html in_string false s1
      else if in_string then
        String a (if escaped then compact_from html true false s1
                  else if b =? 92 then compact_from html true true s1
                  else compact_from html (negb (b =? 34)) false s1)
      else if json_space a then compact_from html false false s1
      else String a (compact_from html (b =? 34) false s1)
  end.

(** The two separators are single runes, so escaping them commutes with the
    byte scan above. *)
Fixpoint escape_separators (s : string) : string :=
  match s with
  | "" => ""
  | String a s1 =>
      match s1 with
      | String b (String c r) =>
          if (byte_at a =? 226) && (byte_at b =? 128) && (byte_at c =? 168) then "\u2028" ++ escape_separators r
          else if (byte_at a =? 226) && (byte_at b =? 128) && (byte_at c =? 169) then "\u2029" ++ escape_separators r
          else String a (escape_separators s1)
      | _ => s
      end
  end.

Definition compact (html : bool) (s : string) : string :=
  if html then escape_separators (compact_from true false false s) else compact_from false false false s.

(** A nil [json.RawMessage] is written as [null], a valid one compacted. *)
Definition encode_raw (html : bool) (s : string) : option string :=
  if s =s "" then Some "null"
  else if json_Valid s then Some (compact html s) else None.

(** ** Decoding into a struct of strings *)

(** encoding/json matches a member to a field name exactly or after case
    folding; the non-ASCII runes that fold to ASCII letters are U+017F (S)
    and U+212A (K). *)
Fixpoint fold_name (s : string) : string :=
  match s with
  | "" => ""
  | String a s1 =>
      let b := byte_at a in
      if between 97 b 122 then String (chr (b - 32)) (fold_name s1)
      else match s1 with
           | String c s2 =>
               if (b =? 197) && (byte_at c =? 191) then String "S" (fold_name s2)
               else match s2 with
                    | String d s3 =>
                        if (b =? 226) && (byte_at c =? 132) && (byte_at d =? 170)
                        then String "K" (fold_name s3)
                        else String a (fold_name s1)
                    | "" => String a (fold_name s1)
                    end
           | "" => String a ""
           end
  end.

Definition field_matches (name key : string) : bool :=
  (key =s name) || (fold_name key =s fold_name name).

(** The last member assigned to a string field wins; [null] leaves the zero
    value, any other type is a decoding error. *)
Fixpoint string_field (name : string) (acc : string) (l : list (string * json)) : option string :=
  match l with
  | [] => Some acc
  | (k, v) :: l' =>
      if field_matches name k then
        match v with
        | JString s => string_field name s l'
        | JNull => string_field name acc l'
        | _ => None
        end
      else string_field name acc l'
  end.

(** [json.Unmarshal] into a struct whose fields are all strings: the list of
    their values, [None] when it returns an error. *)
Definition unmarshal_strings (names : list string) (data : string) : option (list string) :=
  match parse_document data with
  | Some (JObject l) =>
      fold_right (fun n acc => match string_field n "" l, acc with
                               | Some v, Some vs => Some (v :: vs)
                               | _, _ => None
                               end) (Some []) names
  | Some JNull => Some (map (fun _ => "") names)
  | _ => None
  end.
