(* ===== verification/Authority.v ===== *)
(** * Authority: the durable containment and clone evidence

    src/daemon/internal/authority/authority.go: the records a run journal
    carries about who owns a native process tree and a machine-local clone,
    their shape checks ([Validate]), their subject checks ([ValidFor] and
    the like) and their comparisons ([Equal], [SameLaunch]). One [Module] per
    Go struct, its fields in the source's order and names. A check is the
    boolean [err == nil] of the Go method: no caller reads the message.
    Pointers are options; [Clone] methods are the identity on values and
    have no counterpart. *)

From S2P Require Import Prelude Sha256.
Open Scope string_scope.
Open Scope Z_scope.

(** ** Bounded strings, hexadecimal tokens and canonical paths *)

Definition SupervisorVersion : Z := 1.
Definition SupervisorHandoffVersion : Z := 1.
Definition SupervisorHandoffAbortProofVersion : Z := 1.
Definition SupervisorVersionV2 : Z := 2.
Definition SupervisorHandoffVersionV2 : Z := 2.
Definition LinuxCgroupIdentityVersion : Z := 2.
Definition LinuxCgroupAbortProofVersion : Z := 2.
Definition LinuxCloneVersion : Z := 2.
Definition SecretBytes : Z := 32.
Definition TokenBytes : Z := 16.
Definition LinuxCloneNonceBytes : Z := 32.
Definition LinuxCloneMaxSeedBytes : Z := 512 * 2 ^ 20.
Definition OwnerKindLinuxHelper : string := "linux_helper".
Definition OwnerKindLegacyWindows : string := "legacy_windows".
Definition LinuxCgroupTargetBirthTrustedAGate : string := "trusted_a_gate".
Definition LinuxCgroupStopProofHelper : string := "helper".
Definition LinuxCgroupStopProofMirror : string := "mirror".
Definition SupervisorHandoffAbortDisposition : string := "preauth_aborted".

Definition validBounded (value : string) (max : Z) : bool := negb (blank value) && (len value <=? max).
Definition validOptionalBounded (value : string) (max : Z) : bool := (value =s "") || validBounded value max.
Definition validHex (value : string) (length : Z) : bool := (len value =? length) && hex_decodes value.

(** [value == strings.ToLower(value)], always asked together with a
    hexadecimal test, which already excludes non-ASCII text. *)
Definition is_lower (value : string) : bool :=
  string_forallb (fun a => negb ((65 <=? byte_at a) && (byte_at a <=? 90))) value.
Definition validLowerHex (value : string) (length : Z) : bool := is_lower value && validHex value length.
Definition validOptionalHex (value : string) (length : Z) : bool := (value =s "") || validHex value length.

Definition validOwner (kind context : string) : bool :=
  if kind =s "" then context =s ""
  else ((kind =s OwnerKindLinuxHelper) || (kind =s OwnerKindLegacyWindows)) && validBounded context 4096.

Definition byte_is (s : string) (n : nat) (c : ascii) : bool :=
  match String.get n s with Some a => Ascii.eqb a c | None => false end.

Fixpoint remove_byte (c : ascii) (s : string) : string :=
  match s with
  | "" => ""
  | String a s' => if Ascii.eqb a c then remove_byte c s' else String a (remove_byte c s')
  end.

Fixpoint contains_byte (p : ascii -> bool) (s : string) : bool :=
  match s with "" => false | String a s' => p a || contains_byte p s' end.

(** [strings.Split(s, "/")] *)
Fixpoint split_slash (s : string) : list string :=
  match s with
  | "" => [""]
  | String a s' =>
      if Ascii.eqb a "/" then "" :: split_slash s'
      else match split_slash s' with
           | [] => [String a ""]
           | h :: t => String a h :: t
           end
  end.

(** [path.Clean] on a rooted path: empty and [.] elements vanish, [..]
    removes the element before it and stops at the root. *)
Fixpoint clean_elements (stack : list string) (elements : list string) : list string :=
  match elements with
  | [] => rev stack
  | e :: rest =>
      if (e =s "") || (e =s ".") then clean_elements stack rest
      else if e =s ".." then clean_elements (tl stack) rest
      else clean_elements (e :: stack) rest
  end.

Definition join_rooted (elements : list string) : string :=
  match elements with
  | [] => "/"
  | _ => fold_right (fun e acc => "/" ++ e ++ acc) "" elements
  end.

Definition path_IsAbs (value : string) : bool := byte_is value 0 "/".
Definition path_Clean_rooted (value : string) : string := join_rooted (clean_elements [] (split_slash value)).

Definition validBootID (value : string) : bool :=
  (len value =? 36) && byte_is value 8 "-" && byte_is value 13 "-" && byte_is value 18 "-" && byte_is value 23 "-" &&
  is_lower value && validHex (remove_byte "-" value) 32.

Definition validCanonicalCgroupPath (value : string) : bool :=
  validBounded value 4096 && (value <>s "/") && negb (contains_byte (fun a => byte_at a =? 0) value) &&
  negb (contains_byte (fun a => byte_at a =? 92) value) && path_IsAbs value && (path_Clean_rooted value =s value).

Definition validRandomLeafName (value : string) : bool :=
  (len value =? TokenBytes * 2) && is_lower value && validHex value (TokenBytes * 2) &&
  negb (contains_byte (fun a => Ascii.eqb a "/" || (byte_at a =? 92) || Ascii.eqb a ".") value).

Definition isASCIIAlphaNumeric (a : ascii) : bool :=
  let b := byte_at a in
  (65 <=? b) && (b <=? 90) || (97 <=? b) && (b <=? 122) || (48 <=? b) && (b <=? 57).

Definition validLinuxCloneRunID (value : string) : bool :=
  match value with
  | "" => false
  | String a rest =>
      (len value <=? 128) && isASCIIAlphaNumeric a &&
      string_forallb (fun c => isASCIIAlphaNumeric c || Ascii.eqb c "." || Ascii.eqb c "_" || Ascii.eqb c "-") rest
  end.

Definition validLinuxCloneGitObjectID (value : string) : bool :=
  ((len value =? 40) || (len value =? 64)) && validLowerHex value (len value).

Fixpoint string_forallb_at (p : nat -> ascii -> bool) (n : nat) (s : string) : bool :=
  match s with "" => true | String a s' => p n a && string_forallb_at p (S n) s' end.

Definition dash_position (n : nat) : bool :=
  (n =? 8)%nat || (n =? 13)%nat || (n =? 18)%nat || (n =? 23)%nat.

Definition validLinuxCloneResourceID (value : string) : bool :=
  (len value =? 36) && byte_is value 8 "-" && byte_is value 13 "-" && byte_is value 18 "-" && byte_is value 23 "-" &&
  string_forallb_at (fun n a => dash_position n || lower_hex_digit a) 0 value.

Fixpoint has_prefix (p s : string) : bool :=
  match p, s with
  | "", _ => true
  | String a p', String b s' => Ascii.eqb a b && has_prefix p' s'
  | _, _ => false
  end.

(** [strings.TrimPrefix] *)
Fixpoint trim_prefix_len (n : nat) (s : string) : string :=
  match n, s with S n', String _ s' => trim_prefix_len n' s' | _, _ => s end.

Definition validLinuxCloneDigest (value : string) : bool :=
  (len value =? 71) && has_prefix "sha256:" value && validLowerHex (trim_prefix_len 7 value) 64.

Definition validLinuxClonePath (value : string) : bool :=
  (1 <? len value) && (len value <=? 32768) && path_IsAbs value && (path_Clean_rooted value =s value) &&
  negb (contains_byte (fun a => (byte_at a =? 0) || (byte_at a =? 13) || (byte_at a =? 10)) value).

Definition linuxClonePathsOverlap (left right : string) : bool :=
  (left =s right) || has_prefix (right ++ "/") left || has_prefix (left ++ "/") right.

Definition validLinuxClonePromotionRef (value : string) : bool :=
  has_prefix "refs/heads/symmetry/clone-v2/promoted/" value && validLowerHex (trim_prefix_len 38 value) 64.

Definition nul : string := String Ascii.zero "".

(** [LinuxCloneRunKeyHash] and the two refs derived from it; [None] is the
    error of an invalid key. *)
Definition LinuxCloneRunKeyHash (runID : string) (generation : Z) : option string :=
  if negb (validLinuxCloneRunID runID) || (generation <=? 0) then None
  else Some (sha256_hex (runID ++ nul ++ FormatInt generation)).

Definition LinuxCloneBaseRef (runID : string) (generation : Z) : option string :=
  option_map (fun h => "refs/heads/symmetry/clone-v2/base/" ++ h) (LinuxCloneRunKeyHash runID generation).

Definition LinuxClonePromotionRef (runID : string) (generation : Z) : option string :=
  option_map (fun h => "refs/heads/symmetry/clone-v2/promoted/" ++ h) (LinuxCloneRunKeyHash runID generation).

Fixpoint strip_suffix (suffix s : string) : option string :=
  if s =s suffix then Some "" else
  match s with
  | "" => None
  | String a s' => option_map (String a) (strip_suffix suffix s')
  end.

(** ** Cgroup identities *)

Module LinuxCgroupParentIdentity.
Record t : Type := mk {
  BootID : string;
  MountID : Z;
  Device : Z;
  Inode : Z;
  Path : string
}.
#[export] Instance eq_dec : EqDecision t.
Proof. solve_decision. Defined.

Definition Validate (value : t) : bool :=
  validBootID value.(BootID) && negb (value.(MountID) =? 0) && negb (value.(Device) =? 0) &&
  negb (value.(Inode) =? 0) && validCanonicalCgroupPath value.(Path).
Definition Equal (value other : t) : bool := bool_decide (value = other).
#[export] Instance Equal_spec : EqbSpec Equal := bool_decide_spec.
End LinuxCgroupParentIdentity.
#[export] Existing Instance LinuxCgroupParentIdentity.eq_dec.
#[export] Existing Instance LinuxCgroupParentIdentity.Equal_spec.

Module LinuxCgroupIdentity.
Record t : Type := mk {
  Version : Z;
  Parent : LinuxCgroupParentIdentity.t;
  LeafName : string;
  LeafDevice : Z;
  LeafInode : Z
}.
#[export] Instance eq_dec : EqDecision t.
Proof. solve_decision. Defined.

Definition Validate (value : t) : bool :=
  (value.(Version) =? LinuxCgroupIdentityVersion) && LinuxCgroupParentIdentity.Validate value.(Parent) &&
  validRandomLeafName value.(LeafName) &&
  (len value.(Parent).(LinuxCgroupParentIdentity.Path) + 1 + len value.(LeafName) <=? 4096) &&
  negb (value.(LeafDevice) =? 0) && negb (value.(LeafInode) =? 0).
Definition Equal (value other : t) : bool := bool_decide (value = other).
#[export] Instance Equal_spec : EqbSpec Equal := bool_decide_spec.
End LinuxCgroupIdentity.
#[export] Existing Instance LinuxCgroupIdentity.eq_dec.
#[export] Existing Instance LinuxCgroupIdentity.Equal_spec.

Module LinuxCgroupProcessIdentity.
Record t : Type := mk {
  PID : Z;
  Identity : string
}.
#[export] Instance eq_dec : EqDecision t.
Proof. solve_decision. Defined.

Definition Validate (value : t) : bool := (0 <? value.(PID)) && validBounded value.(Identity) 4096.
Definition Equal (value other : t) : bool := bool_decide (value = other).
#[export] Instance Equal_spec : EqbSpec Equal := bool_decide_spec.
End LinuxCgroupProcessIdentity.
#[export] Existing Instance LinuxCgroupProcessIdentity.eq_dec.
#[export] Existing Instance LinuxCgroupProcessIdentity.Equal_spec.

(** The exact wait proof: recursive, because an adopted child's proof carries
    the proof that its helper exited. *)
Module LinuxCgroupExitProof.
Set Warnings "-register-all".

Inductive t : Type := mk {
  Version : Z;
  Process : LinuxCgroupProcessIdentity.t;
  Witness : LinuxCgroupProcessIdentity.t;
  Waited : bool;
  Reaped : bool;
  HelperExit : option t
}.

Fixpoint Validate (value : t) : bool :=
  match value with
  | mk v p u w r h =>
      (v =? LinuxCgroupIdentityVersion) && LinuxCgroupProcessIdentity.Validate p &&
      LinuxCgroupProcessIdentity.Validate u && w && r &&
      match h with
      | None => true
      | Some h' => is_nil h'.(HelperExit) && Validate h'
      end
  end.

Fixpoint Equal (value other : t) : bool :=
  match value, other with
  | mk v p u w r h, mk v' p' u' w' r' h' =>
      (v =? v') && LinuxCgroupProcessIdentity.Equal p p' && LinuxCgroupProcessIdentity.Equal u u' &&
      Bool.eqb w w' && Bool.eqb r r' &&
      match h, h' with
      | None, None => true
      | Some x, Some y => Equal x y
      | _, _ => false
      end
  end.

#[export] Instance Equal_spec : EqbSpec Equal.
Proof.
  unfold EqbSpec. fix IH 1. intros [v p u w r h] [v' p' u' w' r' h']. simpl.
  rewrite !andb_true_iff, !eqb_iff.
  destruct h as [h|], h' as [h'|];
    [rewrite (IH h h'); clear IH | clear IH..]; naive_solver.
Qed.

#[export] Instance eq_dec : EqDecision t.
Proof. exact (eqb_decision Equal). Defined.

Definition ValidFor (value : t) (process witness : LinuxCgroupProcessIdentity.t) : bool :=
  Validate value && is_nil value.(HelperExit) &&
  LinuxCgroupProcessIdentity.Equal value.(Process) process &&
  LinuxCgroupProcessIdentity.Equal value.(Witness) witness.

Definition ValidForOwnedDescendant (value : t) (process helper anchor : LinuxCgroupProcessIdentity.t)
    (helperExit : option t) : bool :=
  if negb (Validate value) || negb (LinuxCgroupProcessIdentity.Equal value.(Process) process) then false
  else if LinuxCgroupProcessIdentity.Equal value.(Witness) helper then is_nil value.(HelperExit)
  else LinuxCgroupProcessIdentity.Equal value.(Witness) anchor &&
       some_and helperExit (fun he => some_and value.(HelperExit) (fun vhe =>
         ValidFor he helper anchor && Equal vhe he)).
End LinuxCgroupExitProof.
#[export] Existing Instance LinuxCgroupExitProof.eq_dec.
#[export] Existing Instance LinuxCgroupExitProof.Equal_spec.

(** ** The pre-gate stop: a launcher that never produced a gate *)

Module LinuxCgroupGateProductionResult.
Record t : Type := mk {
  Version : Z;
  LaunchToken : string;
  Launcher : LinuxCgroupProcessIdentity.t;
  Outcome : string;
  Authenticator : string
}.

Definition ValidateFor (value : t) (launchToken : string) (launcher : LinuxCgroupProcessIdentity.t) : bool :=
  (value.(Version) =? LinuxCgroupIdentityVersion) && (value.(LaunchToken) =s launchToken) &&
  validLowerHex value.(LaunchToken) (TokenBytes * 2) &&
  LinuxCgroupProcessIdentity.Equal value.(Launcher) launcher &&
  LinuxCgroupProcessIdentity.Validate value.(Launcher) && (value.(Outcome) =s "never_created") &&
  validLowerHex value.(Authenticator) 64.
Definition Equal (value other : t) : bool :=
  (value.(Version) =? other.(Version)) &&
  (value.(LaunchToken) =s other.(LaunchToken)) &&
  LinuxCgroupProcessIdentity.Equal value.(Launcher) other.(Launcher) &&
  (value.(Outcome) =s other.(Outcome)) &&
  (value.(Authenticator) =s other.(Authenticator)).
#[export] Instance Equal_spec : EqbSpec Equal.
Proof. intros x y. unfold Equal. solve_equal x y. Qed.
#[export] Instance eq_dec : EqDecision t.
Proof. exact (eqb_decision Equal). Defined.
End LinuxCgroupGateProductionResult.
#[export] Existing Instance LinuxCgroupGateProductionResult.eq_dec.
#[export] Existing Instance LinuxCgroupGateProductionResult.Equal_spec.

Module LinuxCgroupPreGateStopProof.
Record t : Type := mk {
  Version : Z;
  Kind : string;
  Issuer : LinuxCgroupProcessIdentity.t;
  Reaper : LinuxCgroupProcessIdentity.t;
  PinnedLeafFD : bool;
  CgroupKillAcknowledged : bool;
  CgroupPopulatedZero : bool;
  NoMigrationObserved : bool;
  ProducerFenced : bool;
  DescendantsReaped : bool;
  LauncherExit : LinuxCgroupExitProof.t;
  HelperExit : option LinuxCgroupExitProof.t;
  GateOutcome : LinuxCgroupGateProductionResult.t
}.
Definition Equal (value other : t) : bool :=
  (value.(Version) =? other.(Version)) &&
  (value.(Kind) =s other.(Kind)) &&
  LinuxCgroupProcessIdentity.Equal value.(Issuer) other.(Issuer) &&
  LinuxCgroupProcessIdentity.Equal value.(Reaper) other.(Reaper) &&
  Bool.eqb value.(PinnedLeafFD) other.(PinnedLeafFD) &&
  Bool.eqb value.(CgroupKillAcknowledged) other.(CgroupKillAcknowledged) &&
  Bool.eqb value.(CgroupPopulatedZero) other.(CgroupPopulatedZero) &&
  Bool.eqb value.(NoMigrationObserved) other.(NoMigrationObserved) &&
  Bool.eqb value.(ProducerFenced) other.(ProducerFenced) &&
  Bool.eqb value.(DescendantsReaped) other.(DescendantsReaped) &&
  LinuxCgroupExitProof.Equal value.(LauncherExit) other.(LauncherExit) &&
  ptr_equal LinuxCgroupExitProof.Equal value.(HelperExit) other.(HelperExit) &&
  LinuxCgroupGateProductionResult.Equal value.(GateOutcome) other.(GateOutcome).
#[export] Instance Equal_spec : EqbSpec Equal.
Proof. intros x y. unfold Equal. solve_equal x y. Qed.
#[export] Instance eq_dec : EqDecision t.
Proof. exact (eqb_decision Equal). Defined.
End LinuxCgroupPreGateStopProof.
#[export] Existing Instance LinuxCgroupPreGateStopProof.eq_dec.
#[export] Existing Instance LinuxCgroupPreGateStopProof.Equal_spec.

Module LinuxCgroupPreGateStopReceipt.
Record t : Type := mk {
  Version : Z;
  LaunchToken : string;
  CgroupIdentity : LinuxCgroupIdentity.t;
  OwnerUID : Z;
  LauncherUID : Z;
  Anchor : LinuxCgroupProcessIdentity.t;
  Helper : LinuxCgroupProcessIdentity.t;
  Launcher : LinuxCgroupProcessIdentity.t;
  Mirror : LinuxCgroupProcessIdentity.t;
  Proof : LinuxCgroupPreGateStopProof.t
}.
Definition Equal (value other : t) : bool :=
  (value.(Version) =? other.(Version)) &&
  (value.(LaunchToken) =s other.(LaunchToken)) &&
  LinuxCgroupIdentity.Equal value.(CgroupIdentity) other.(CgroupIdentity) &&
  (value.(OwnerUID) =? other.(OwnerUID)) &&
  (value.(LauncherUID) =? other.(LauncherUID)) &&
  LinuxCgroupProcessIdentity.Equal value.(Anchor) other.(Anchor) &&
  LinuxCgroupProcessIdentity.Equal value.(Helper) other.(Helper) &&
  LinuxCgroupProcessIdentity.Equal value.(Launcher) other.(Launcher) &&
  LinuxCgroupProcessIdentity.Equal value.(Mirror) other.(Mirror) &&
  LinuxCgroupPreGateStopProof.Equal value.(Proof) other.(Proof).
#[export] Instance Equal_spec : EqbSpec Equal.
Proof. intros x y. unfold Equal. solve_equal x y. Qed.
#[export] Instance eq_dec : EqDecision t.
Proof. exact (eqb_decision Equal). Defined.

(** [LinuxCgroupPreGateStopProof.ValidateFor(receipt)] *)
Definition ProofValidateFor (proof : LinuxCgroupPreGateStopProof.t) (receipt : t) : bool :=
  let helperExit := proof.(LinuxCgroupPreGateStopProof.HelperExit) in
  let kind := proof.(LinuxCgroupPreGateStopProof.Kind) in
  let launcherExit := proof.(LinuxCgroupPreGateStopProof.LauncherExit) in
  (proof.(LinuxCgroupPreGateStopProof.Version) =? LinuxCgroupIdentityVersion) &&
  ((kind =s LinuxCgroupStopProofHelper) || (kind =s LinuxCgroupStopProofMirror)) &&
  LinuxCgroupProcessIdentity.Validate proof.(LinuxCgroupPreGateStopProof.Issuer) &&
  LinuxCgroupProcessIdentity.Validate proof.(LinuxCgroupPreGateStopProof.Reaper) &&
  proof.(LinuxCgroupPreGateStopProof.PinnedLeafFD) &&
  proof.(LinuxCgroupPreGateStopProof.CgroupKillAcknowledged) &&
  proof.(LinuxCgroupPreGateStopProof.CgroupPopulatedZero) &&
  proof.(LinuxCgroupPreGateStopProof.NoMigrationObserved) &&
  proof.(LinuxCgroupPreGateStopProof.ProducerFenced) &&
  proof.(LinuxCgroupPreGateStopProof.DescendantsReaped) &&
  LinuxCgroupGateProductionResult.ValidateFor proof.(LinuxCgroupPreGateStopProof.GateOutcome)
    receipt.(LaunchToken) receipt.(Launcher) &&
  LinuxCgroupExitProof.ValidForOwnedDescendant launcherExit
    receipt.(Launcher) receipt.(Helper) receipt.(Anchor) helperExit &&
  (if kind =s LinuxCgroupStopProofHelper then
     LinuxCgroupProcessIdentity.Equal proof.(LinuxCgroupPreGateStopProof.Issuer) receipt.(Helper) &&
     LinuxCgroupProcessIdentity.Equal proof.(LinuxCgroupPreGateStopProof.Reaper) receipt.(Helper) &&
     is_nil helperExit &&
     LinuxCgroupExitProof.ValidForOwnedDescendant launcherExit
       receipt.(Launcher) receipt.(Helper) receipt.(Anchor) None
   else
     LinuxCgroupProcessIdentity.Equal proof.(LinuxCgroupPreGateStopProof.Issuer) receipt.(Mirror) &&
     LinuxCgroupProcessIdentity.Equal proof.(LinuxCgroupPreGateStopProof.Reaper) receipt.(Anchor) &&
     some_and helperExit (fun he => LinuxCgroupExitProof.ValidFor he receipt.(Helper) receipt.(Anchor))).

Definition Validate (receipt : t) : bool :=
  let eq := LinuxCgroupProcessIdentity.Equal in
  (receipt.(Version) =? LinuxCgroupIdentityVersion) && validLowerHex receipt.(LaunchToken) (TokenBytes * 2) &&
  LinuxCgroupIdentity.Validate receipt.(CgroupIdentity) && negb (receipt.(OwnerUID) =? 0) &&
  (receipt.(LauncherUID) =? 0) && LinuxCgroupProcessIdentity.Validate receipt.(Anchor) &&
  LinuxCgroupProcessIdentity.Validate receipt.(Helper) && LinuxCgroupProcessIdentity.Validate receipt.(Launcher) &&
  LinuxCgroupProcessIdentity.Validate receipt.(Mirror) &&
  (receipt.(CgroupIdentity).(LinuxCgroupIdentity.LeafName) <>s "") &&
  ProofValidateFor receipt.(Proof) receipt &&
  negb (eq receipt.(Anchor) receipt.(Helper) || eq receipt.(Anchor) receipt.(Launcher) ||
        eq receipt.(Anchor) receipt.(Mirror) || eq receipt.(Helper) receipt.(Launcher) ||
        eq receipt.(Helper) receipt.(Mirror) || eq receipt.(Launcher) receipt.(Mirror)).

Definition ValidFor (receipt : t) (launchToken : string) (identity : LinuxCgroupIdentity.t)
    (ownerUID launcherUID : Z) (anchor helper launcher mirror : LinuxCgroupProcessIdentity.t)
    (launcherExit : LinuxCgroupExitProof.t) (helperExit : option LinuxCgroupExitProof.t) : bool :=
  let eq := LinuxCgroupProcessIdentity.Equal in
  Validate receipt && (receipt.(LaunchToken) =s launchToken) &&
  LinuxCgroupIdentity.Equal receipt.(CgroupIdentity) identity && (receipt.(OwnerUID) =? ownerUID) &&
  (receipt.(LauncherUID) =? launcherUID) && eq receipt.(Anchor) anchor && eq receipt.(Helper) helper &&
  eq receipt.(Launcher) launcher && eq receipt.(Mirror) mirror &&
  LinuxCgroupExitProof.Equal receipt.(Proof).(LinuxCgroupPreGateStopProof.LauncherExit) launcherExit &&
  ptr_equal LinuxCgroupExitProof.Equal receipt.(Proof).(LinuxCgroupPreGateStopProof.HelperExit) helperExit.
End LinuxCgroupPreGateStopReceipt.
#[export] Existing Instance LinuxCgroupPreGateStopReceipt.eq_dec.
#[export] Existing Instance LinuxCgroupPreGateStopReceipt.Equal_spec.

Module LinuxCgroupPreGateReleaseProof.
Record t : Type := mk {
  Version : Z;
  Receipt : LinuxCgroupPreGateStopReceipt.t;
  LeafDisposition : string
}.
Definition Equal (value other : t) : bool :=
  (value.(Version) =? other.(Version)) &&
  LinuxCgroupPreGateStopReceipt.Equal value.(Receipt) other.(Receipt) &&
  (value.(LeafDisposition) =s other.(LeafDisposition)).
#[export] Instance Equal_spec : EqbSpec Equal.
Proof. intros x y. unfold Equal. solve_equal x y. Qed.
#[export] Instance eq_dec : EqDecision t.
Proof. exact (eqb_decision Equal). Defined.

Definition Validate (proof : t) : bool :=
  (proof.(Version) =? LinuxCgroupIdentityVersion) && LinuxCgroupPreGateStopReceipt.Validate proof.(Receipt) &&
  ((proof.(LeafDisposition) =s "removed") || (proof.(LeafDisposition) =s "absent_after_receipt")).
Definition ValidFor (proof : t) (receipt : LinuxCgroupPreGateStopReceipt.t) : bool :=
  Validate proof && LinuxCgroupPreGateStopReceipt.Equal proof.(Receipt) receipt.
End LinuxCgroupPreGateReleaseProof.
#[export] Existing Instance LinuxCgroupPreGateReleaseProof.eq_dec.
#[export] Existing Instance LinuxCgroupPreGateReleaseProof.Equal_spec.

(** ** The trusted gate and the abort of a reservation *)

Module LinuxCgroupGateIdentity.
Record t : Type := mk {
  Process : LinuxCgroupProcessIdentity.t;
  HostUID : Z;
  ObservedAt : time;
  BirthKind : string;
  Cgroup : LinuxCgroupIdentity.t;
  BornInLeaf : bool;
  TrustedImage : bool
}.
Definition Equal (value other : t) : bool :=
  LinuxCgroupProcessIdentity.Equal value.(Process) other.(Process) &&
  (value.(HostUID) =? other.(HostUID)) &&
  (value.(ObservedAt) =? other.(ObservedAt)) &&
  (value.(BirthKind) =s other.(BirthKind)) &&
  LinuxCgroupIdentity.Equal value.(Cgroup) other.(Cgroup) &&
  Bool.eqb value.(BornInLeaf) other.(BornInLeaf) &&
  Bool.eqb value.(TrustedImage) other.(TrustedImage).
#[export] Instance Equal_spec : EqbSpec Equal.
Proof. intros x y. unfold Equal. solve_equal x y. Qed.
#[export] Instance eq_dec : EqDecision t.
Proof. exact (eqb_decision Equal). Defined.

Definition Validate (value : t) : bool :=
  LinuxCgroupProcessIdentity.Validate value.(Process) && negb (value.(HostUID) =? 0) &&
  negb (IsZero value.(ObservedAt)) && (value.(BirthKind) =s LinuxCgroupTargetBirthTrustedAGate) &&
  LinuxCgroupIdentity.Validate value.(Cgroup) && value.(BornInLeaf) && value.(TrustedImage).
End LinuxCgroupGateIdentity.
#[export] Existing Instance LinuxCgroupGateIdentity.eq_dec.
#[export] Existing Instance LinuxCgroupGateIdentity.Equal_spec.

Module LinuxCgroupReservationAbortProof.
Record t : Type := mk {
  Version : Z;
  LaunchToken : string;
  Parent : LinuxCgroupParentIdentity.t;
  LeafName : string;
  CreateStarted : bool;
  LauncherGrantPossible : bool;
  LeafIdentity : option LinuxCgroupIdentity.t;
  LeafDisposition : string;
  OwnerUID : Z;
  Anchor : LinuxCgroupProcessIdentity.t;
  Mirror : LinuxCgroupProcessIdentity.t;
  Helper : option LinuxCgroupProcessIdentity.t;
  Launcher : option LinuxCgroupProcessIdentity.t;
  Witness : LinuxCgroupProcessIdentity.t;
  HelperExit : option LinuxCgroupExitProof.t;
  LauncherExit : option LinuxCgroupExitProof.t;
  CreatorFenced : bool;
  NoProducerCanAct : bool;
  ParentUnchanged : bool;
  LeafEmpty : bool;
  LeafAbsent : bool;
  LeafNeverAppeared : bool;
  RmdirSucceeded : bool;
  RmdirOutcomeUnknown : bool
}.
Definition Equal (value other : t) : bool :=
  (value.(Version) =? other.(Version)) &&
  (value.(LaunchToken) =s other.(LaunchToken)) &&
  LinuxCgroupParentIdentity.Equal value.(Parent) other.(Parent) &&
  (value.(LeafName) =s other.(LeafName)) &&
  Bool.eqb value.(CreateStarted) other.(CreateStarted) &&
  Bool.eqb value.(LauncherGrantPossible) other.(LauncherGrantPossible) &&
  ptr_equal LinuxCgroupIdentity.Equal value.(LeafIdentity) other.(LeafIdentity) &&
  (value.(LeafDisposition) =s other.(LeafDisposition)) &&
  (value.(OwnerUID) =? other.(OwnerUID)) &&
  LinuxCgroupProcessIdentity.Equal value.(Anchor) other.(Anchor) &&
  LinuxCgroupProcessIdentity.Equal value.(Mirror) other.(Mirror) &&
  ptr_equal LinuxCgroupProcessIdentity.Equal value.(Helper) other.(Helper) &&
  ptr_equal LinuxCgroupProcessIdentity.Equal value.(Launcher) other.(Launcher) &&
  LinuxCgroupProcessIdentity.Equal value.(Witness) other.(Witness) &&
  ptr_equal LinuxCgroupExitProof.Equal value.(HelperExit) other.(HelperExit) &&
  ptr_equal LinuxCgroupExitProof.Equal value.(LauncherExit) other.(LauncherExit) &&
  Bool.eqb value.(CreatorFenced) other.(CreatorFenced) &&
  Bool.eqb value.(NoProducerCanAct) other.(NoProducerCanAct) &&
  Bool.eqb value.(ParentUnchanged) other.(ParentUnchanged) &&
  Bool.eqb value.(LeafEmpty) other.(LeafEmpty) &&
  Bool.eqb value.(LeafAbsent) other.(LeafAbsent) &&
  Bool.eqb value.(LeafNeverAppeared) other.(LeafNeverAppeared) &&
  Bool.eqb value.(RmdirSucceeded) other.(RmdirSucceeded) &&
  Bool.eqb value.(RmdirOutcomeUnknown) other.(RmdirOutcomeUnknown).
#[export] Instance Equal_spec : EqbSpec Equal.
Proof. intros x y. unfold Equal. solve_equal x y. Qed.
#[export] Instance eq_dec : EqDecision t.
Proof. exact (eqb_decision Equal). Defined.

Definition Validate (proof : t) : bool :=
  let disposition := proof.(LeafDisposition) in
  (proof.(Version) =? LinuxCgroupAbortProofVersion) && validLowerHex proof.(LaunchToken) (TokenBytes * 2) &&
  LinuxCgroupParentIdentity.Validate proof.(Parent) && validRandomLeafName proof.(LeafName) &&
  negb (proof.(OwnerUID) =? 0) && LinuxCgroupProcessIdentity.Validate proof.(Anchor) &&
  LinuxCgroupProcessIdentity.Validate proof.(Mirror) && LinuxCgroupProcessIdentity.Validate proof.(Witness) &&
  proof.(CreatorFenced) && proof.(NoProducerCanAct) && proof.(ParentUnchanged) &&
  negb proof.(LauncherGrantPossible) &&
  (if disposition =s "never_created" then
     is_nil proof.(LeafIdentity) && proof.(LeafAbsent) && negb proof.(LeafEmpty) &&
     Bool.eqb proof.(LeafNeverAppeared) proof.(CreateStarted) && negb proof.(RmdirSucceeded) &&
     negb proof.(RmdirOutcomeUnknown) && is_nil proof.(HelperExit) && is_nil proof.(Helper) &&
     is_nil proof.(Launcher) && is_nil proof.(LauncherExit)
   else if (disposition =s "removed_empty") || (disposition =s "absent_after_rmdir") then
     proof.(CreateStarted) &&
     some_and proof.(LeafIdentity) (fun leaf =>
       LinuxCgroupIdentity.Validate leaf && (leaf.(LinuxCgroupIdentity.LeafName) =s proof.(LeafName)) &&
       LinuxCgroupParentIdentity.Equal leaf.(LinuxCgroupIdentity.Parent) proof.(Parent)) &&
     proof.(LeafEmpty) && proof.(LeafAbsent) && negb proof.(LeafNeverAppeared) &&
     none_or proof.(Helper) LinuxCgroupProcessIdentity.Validate &&
     none_or proof.(Launcher) LinuxCgroupProcessIdentity.Validate &&
     none_or proof.(HelperExit) (fun he => some_and proof.(Helper) (fun h =>
       LinuxCgroupExitProof.ValidFor he h proof.(Anchor))) &&
     none_or proof.(LauncherExit) (fun le => some_and proof.(Launcher) (fun l => some_and proof.(Helper) (fun h =>
       LinuxCgroupExitProof.ValidForOwnedDescendant le l h proof.(Anchor) proof.(HelperExit)))) &&
     (if disposition =s "removed_empty"
      then proof.(RmdirSucceeded) && negb proof.(RmdirOutcomeUnknown)
      else negb proof.(RmdirSucceeded) && proof.(RmdirOutcomeUnknown))
   else false).

Definition ValidFor (proof : t) (launchToken : string) (parent : LinuxCgroupParentIdentity.t) (leafName : string)
    (createStarted : bool) (ownerUID : Z) (anchor mirror : LinuxCgroupProcessIdentity.t)
    (helper launcher : option LinuxCgroupProcessIdentity.t) : bool :=
  Validate proof && (proof.(LaunchToken) =s launchToken) && LinuxCgroupParentIdentity.Equal proof.(Parent) parent &&
  (proof.(LeafName) =s leafName) && Bool.eqb proof.(CreateStarted) createStarted && (proof.(OwnerUID) =? ownerUID) &&
  LinuxCgroupProcessIdentity.Equal proof.(Anchor) anchor && LinuxCgroupProcessIdentity.Equal proof.(Mirror) mirror &&
  ptr_equal LinuxCgroupProcessIdentity.Equal proof.(Helper) helper &&
  ptr_equal LinuxCgroupProcessIdentity.Equal proof.(Launcher) launcher &&
  LinuxCgroupProcessIdentity.Equal proof.(Witness) anchor.
End LinuxCgroupReservationAbortProof.
#[export] Existing Instance LinuxCgroupReservationAbortProof.eq_dec.
#[export] Existing Instance LinuxCgroupReservationAbortProof.Equal_spec.

(** ** Stop receipts and the supervisor that owns a process tree *)

Module LinuxCgroupStopProof.
Record t : Type := mk {
  Version : Z;
  Kind : string;
  Issuer : LinuxCgroupProcessIdentity.t;
  Reaper : LinuxCgroupProcessIdentity.t;
  PinnedLeafFD : bool;
  CgroupKillAcknowledged : bool;
  CgroupPopulatedZero : bool;
  NoMigrationObserved : bool;
  ProducerFenced : bool;
  DescendantsReaped : bool;
  LauncherExit : LinuxCgroupExitProof.t;
  GateExit : LinuxCgroupExitProof.t;
  HelperExit : option LinuxCgroupExitProof.t
}.
Definition Equal (value other : t) : bool :=
  (value.(Version) =? other.(Version)) &&
  (value.(Kind) =s other.(Kind)) &&
  LinuxCgroupProcessIdentity.Equal value.(Issuer) other.(Issuer) &&
  LinuxCgroupProcessIdentity.Equal value.(Reaper) other.(Reaper) &&
  Bool.eqb value.(PinnedLeafFD) other.(PinnedLeafFD) &&
  Bool.eqb value.(CgroupKillAcknowledged) other.(CgroupKillAcknowledged) &&
  Bool.eqb value.(CgroupPopulatedZero) other.(CgroupPopulatedZero) &&
  Bool.eqb value.(NoMigrationObserved) other.(NoMigrationObserved) &&
  Bool.eqb value.(ProducerFenced) other.(ProducerFenced) &&
  Bool.eqb value.(DescendantsReaped) other.(DescendantsReaped) &&
  LinuxCgroupExitProof.Equal value.(LauncherExit) other.(LauncherExit) &&
  LinuxCgroupExitProof.Equal value.(GateExit) other.(GateExit) &&
  ptr_equal LinuxCgroupExitProof.Equal value.(HelperExit) other.(HelperExit).
#[export] Instance Equal_spec : EqbSpec Equal.
Proof. intros x y. unfold Equal. solve_equal x y. Qed.
#[export] Instance eq_dec : EqDecision t.
Proof. exact (eqb_decision Equal). Defined.
End LinuxCgroupStopProof.
#[export] Existing Instance LinuxCgroupStopProof.eq_dec.
#[export] Existing Instance LinuxCgroupStopProof.Equal_spec.

Module StopReceipt.
Record t : Type := mk {
  Version : Z;
  Status : string;
  OwnerKind : string;
  OwnerContext : string;
  TargetPID : Z;
  TargetIdentity : string;
  OwnerUID : Z;
  LauncherUID : Z;
  PipeToken : string;
  JobID : string;
  SupervisorPID : Z;
  SupervisorIdentity : string;
  ActiveProcesses : Z;
  TargetBirthKind : string;
  CgroupIdentity : option LinuxCgroupIdentity.t;
  LinuxProof : option LinuxCgroupStopProof.t
}.
Definition Equal (value other : t) : bool :=
  (value.(Version) =? other.(Version)) &&
  (value.(Status) =s other.(Status)) &&
  (value.(OwnerKind) =s other.(OwnerKind)) &&
  (value.(OwnerContext) =s other.(OwnerContext)) &&
  (value.(TargetPID) =? other.(TargetPID)) &&
  (value.(TargetIdentity) =s other.(TargetIdentity)) &&
  (value.(OwnerUID) =? other.(OwnerUID)) &&
  (value.(LauncherUID) =? other.(LauncherUID)) &&
  (value.(PipeToken) =s other.(PipeToken)) &&
  (value.(JobID) =s other.(JobID)) &&
  (value.(SupervisorPID) =? other.(SupervisorPID)) &&
  (value.(SupervisorIdentity) =s other.(SupervisorIdentity)) &&
  (value.(ActiveProcesses) =? other.(ActiveProcesses)) &&
  (value.(TargetBirthKind) =s other.(TargetBirthKind)) &&
  ptr_equal LinuxCgroupIdentity.Equal value.(CgroupIdentity) other.(CgroupIdentity) &&
  ptr_equal LinuxCgroupStopProof.Equal value.(LinuxProof) other.(LinuxProof).
#[export] Instance Equal_spec : EqbSpec Equal.
Proof. intros x y. unfold Equal. solve_equal x y. Qed.
#[export] Instance eq_dec : EqDecision t.
Proof. exact (eqb_decision Equal). Defined.
End StopReceipt.
#[export] Existing Instance StopReceipt.eq_dec.
#[export] Existing Instance StopReceipt.Equal_spec.

Module SupervisorScanUpdate.
Record t : Type := mk {
  SupervisorPID : Z;
  SupervisorIdentity : string;
  MirrorIdentity : string;
  Owner : string;
  Sequence : Z;
  Phase : string;
  FailureKind : string
}.
#[export] Instance eq_dec : EqDecision t.
Proof. solve_decision. Defined.
End SupervisorScanUpdate.
#[export] Existing Instance SupervisorScanUpdate.eq_dec.

(** [validateV2SupervisorFields]: the v2 identity is complete and no two
    producer roles name one process. *)
Definition validateV2SupervisorFields (launchToken ownerKind ownerContext : string) (targetPID : Z)
    (targetIdentity : string) (supervisorPID : Z) (supervisorIdentity targetBirthKind : string)
    (ownerUID launcherUID : Z) (cgroup : option LinuxCgroupIdentity.t) (anchorPID : Z) (anchorIdentity : string)
    (launcherPID : Z) (launcherIdentity : string) (launcherExit : option LinuxCgroupExitProof.t)
    (mirror : option LinuxCgroupProcessIdentity.t) (creatorSessionID : option Z) (requireHelper : bool) : bool :=
  let eq := LinuxCgroupProcessIdentity.Equal in
  let launcher := LinuxCgroupProcessIdentity.mk launcherPID launcherIdentity in
  let anchor := LinuxCgroupProcessIdentity.mk anchorPID anchorIdentity in
  let target := LinuxCgroupProcessIdentity.mk targetPID targetIdentity in
  let helper := LinuxCgroupProcessIdentity.mk supervisorPID supervisorIdentity in
  validLowerHex launchToken (TokenBytes * 2) && (ownerKind =s OwnerKindLinuxHelper) && validBounded ownerContext 4096 &&
  (0 <? targetPID) && validBounded targetIdentity 4096 && (targetBirthKind =s LinuxCgroupTargetBirthTrustedAGate) &&
  negb (ownerUID =? 0) && (launcherUID =? 0) && some_and cgroup LinuxCgroupIdentity.Validate &&
  (0 <? anchorPID) && validBounded anchorIdentity 4096 &&
  (0 <? launcherPID) && validBounded launcherIdentity 4096 && is_nil creatorSessionID &&
  some_and launcherExit (fun le =>
    LinuxCgroupExitProof.Validate le && eq le.(LinuxCgroupExitProof.Process) launcher &&
    (if eq le.(LinuxCgroupExitProof.Witness) anchor
     then some_and le.(LinuxCgroupExitProof.HelperExit) (fun he =>
            LinuxCgroupExitProof.ValidFor he he.(LinuxCgroupExitProof.Process) anchor)
     else is_nil le.(LinuxCgroupExitProof.HelperExit)) &&
    negb (eq target anchor || eq target launcher || eq anchor launcher) &&
    (0 <=? supervisorPID) && Bool.eqb (supervisorPID =? 0) (blank supervisorIdentity) &&
    validOptionalBounded supervisorIdentity 4096 && negb (requireHelper && (supervisorPID =? 0)) &&
    (if supervisorPID =? 0 then is_nil mirror
     else
       LinuxCgroupProcessIdentity.Validate helper &&
       some_and mirror (fun m =>
         LinuxCgroupProcessIdentity.Validate m &&
         negb (eq le.(LinuxCgroupExitProof.Witness) anchor &&
               negb (some_and le.(LinuxCgroupExitProof.HelperExit) (fun he =>
                       LinuxCgroupExitProof.ValidFor he helper anchor))) &&
         LinuxCgroupExitProof.ValidForOwnedDescendant le launcher helper anchor
           le.(LinuxCgroupExitProof.HelperExit) &&
         negb (eq target helper || eq target m || eq anchor helper || eq anchor m ||
               eq helper launcher || eq helper m || eq launcher m)))).

Definition hasV2SupervisorFields (targetBirthKind : string) (cgroup : option LinuxCgroupIdentity.t) (anchorPID : Z)
    (anchorIdentity : string) (launcherPID : Z) (launcherIdentity : string)
    (launcherExit : option LinuxCgroupExitProof.t) (mirror : option LinuxCgroupProcessIdentity.t) : bool :=
  (targetBirthKind <>s "") || non_nil cgroup || negb (anchorPID =? 0) || (anchorIdentity <>s "") ||
  negb (launcherPID =? 0) || (launcherIdentity <>s "") || non_nil launcherExit || non_nil mirror.

Module Supervisor.
Record t : Type := mk {
  Version : Z;
  Secret : string;
  LaunchToken : string;
  OwnerKind : string;
  OwnerContext : string;
  TargetPID : Z;
  TargetIdentity : string;
  OwnerUID : Z;
  LauncherUID : Z;
  PipeToken : string;
  JobID : string;
  SupervisorPID : Z;
  SupervisorIdentity : string;
  TargetBirthKind : string;
  CgroupIdentity : option LinuxCgroupIdentity.t;
  AnchorPID : Z;
  AnchorIdentity : string;
  LauncherPID : Z;
  LauncherIdentity : string;
  LauncherExit : option LinuxCgroupExitProof.t;
  Mirror : option LinuxCgroupProcessIdentity.t;
  CreatorSessionID : option Z;
  StopReceipt : option StopReceipt.t
}.
(** Assignment to the fields that are set after construction. *)
Definition eta (r : t) : t :=
  mk r.(Version) r.(Secret) r.(LaunchToken) r.(OwnerKind) r.(OwnerContext) r.(TargetPID) r.(TargetIdentity)
    r.(OwnerUID) r.(LauncherUID) r.(PipeToken) r.(JobID) r.(SupervisorPID) r.(SupervisorIdentity)
    r.(TargetBirthKind) r.(CgroupIdentity) r.(AnchorPID) r.(AnchorIdentity) r.(LauncherPID)
    r.(LauncherIdentity) r.(LauncherExit) r.(Mirror) r.(CreatorSessionID) r.(StopReceipt).
#[global] Instance set_StopReceipt : Setter StopReceipt := ltac:(derive_setter eta StopReceipt).
Definition Equal (value other : t) : bool :=
  (value.(Version) =? other.(Version)) &&
  (value.(Secret) =s other.(Secret)) &&
  (value.(LaunchToken) =s other.(LaunchToken)) &&
  (value.(OwnerKind) =s other.(OwnerKind)) &&
  (value.(OwnerContext) =s other.(OwnerContext)) &&
  (value.(TargetPID) =? other.(TargetPID)) &&
  (value.(TargetIdentity) =s other.(TargetIdentity)) &&
  (value.(OwnerUID) =? other.(OwnerUID)) &&
  (value.(LauncherUID) =? other.(LauncherUID)) &&
  (value.(PipeToken) =s other.(PipeToken)) &&
  (value.(JobID) =s other.(JobID)) &&
  (value.(SupervisorPID) =? other.(SupervisorPID)) &&
  (value.(SupervisorIdentity) =s other.(SupervisorIdentity)) &&
  (value.(TargetBirthKind) =s other.(TargetBirthKind)) &&
  ptr_equal LinuxCgroupIdentity.Equal value.(CgroupIdentity) other.(CgroupIdentity) &&
  (value.(AnchorPID) =? other.(AnchorPID)) &&
  (value.(AnchorIdentity) =s other.(AnchorIdentity)) &&
  (value.(LauncherPID) =? other.(LauncherPID)) &&
  (value.(LauncherIdentity) =s other.(LauncherIdentity)) &&
  ptr_equal LinuxCgroupExitProof.Equal value.(LauncherExit) other.(LauncherExit) &&
  ptr_equal LinuxCgroupProcessIdentity.Equal value.(Mirror) other.(Mirror) &&
  ptr_equal Z.eqb value.(CreatorSessionID) other.(CreatorSessionID) &&
  ptr_equal StopReceipt.Equal value.(StopReceipt) other.(StopReceipt).
#[export] Instance Equal_spec : EqbSpec Equal.
Proof. intros x y. unfold Equal. solve_equal x y. Qed.
#[export] Instance eq_dec : EqDecision t.
Proof. exact (eqb_decision Equal). Defined.

Definition helperProcess (value : t) : LinuxCgroupProcessIdentity.t :=
  LinuxCgroupProcessIdentity.mk value.(SupervisorPID) value.(SupervisorIdentity).
Definition anchorProcess (value : t) : LinuxCgroupProcessIdentity.t :=
  LinuxCgroupProcessIdentity.mk value.(AnchorPID) value.(AnchorIdentity).
Definition launcherProcess (value : t) : LinuxCgroupProcessIdentity.t :=
  LinuxCgroupProcessIdentity.mk value.(LauncherPID) value.(LauncherIdentity).
Definition targetProcess (value : t) : LinuxCgroupProcessIdentity.t :=
  LinuxCgroupProcessIdentity.mk value.(TargetPID) value.(TargetIdentity).

(** [LinuxCgroupStopProof.ValidateFor(value)] *)
Definition StopProofValidateFor (proof : LinuxCgroupStopProof.t) (value : t) : bool :=
  let eq := LinuxCgroupProcessIdentity.Equal in
  let owned := LinuxCgroupExitProof.ValidForOwnedDescendant in
  let helper := helperProcess value in
  let anchor := anchorProcess value in
  let launcher := launcherProcess value in
  let target := targetProcess value in
  let helperExit := proof.(LinuxCgroupStopProof.HelperExit) in
  let launcherExit := proof.(LinuxCgroupStopProof.LauncherExit) in
  let gateExit := proof.(LinuxCgroupStopProof.GateExit) in
  (value.(Version) =? SupervisorVersionV2) &&
  (proof.(LinuxCgroupStopProof.Version) =? LinuxCgroupIdentityVersion) &&
  LinuxCgroupProcessIdentity.Validate proof.(LinuxCgroupStopProof.Issuer) &&
  LinuxCgroupProcessIdentity.Validate proof.(LinuxCgroupStopProof.Reaper) &&
  proof.(LinuxCgroupStopProof.PinnedLeafFD) && proof.(LinuxCgroupStopProof.CgroupKillAcknowledged) &&
  proof.(LinuxCgroupStopProof.CgroupPopulatedZero) && proof.(LinuxCgroupStopProof.NoMigrationObserved) &&
  proof.(LinuxCgroupStopProof.ProducerFenced) && proof.(LinuxCgroupStopProof.DescendantsReaped) &&
  some_and value.(LauncherExit) (fun le => LinuxCgroupExitProof.Equal launcherExit le) &&
  (if proof.(LinuxCgroupStopProof.Kind) =s LinuxCgroupStopProofHelper then
     eq proof.(LinuxCgroupStopProof.Issuer) helper && eq proof.(LinuxCgroupStopProof.Reaper) helper &&
     is_nil helperExit && owned gateExit target helper anchor None && owned launcherExit launcher helper anchor None
   else if proof.(LinuxCgroupStopProof.Kind) =s LinuxCgroupStopProofMirror then
     some_and value.(Mirror) (fun m => eq proof.(LinuxCgroupStopProof.Issuer) m) &&
     eq proof.(LinuxCgroupStopProof.Reaper) anchor &&
     some_and helperExit (fun he => LinuxCgroupExitProof.ValidFor he helper anchor) &&
     owned gateExit target helper anchor helperExit && owned launcherExit launcher helper anchor helperExit
   else false) &&
  LinuxCgroupExitProof.Validate launcherExit && eq launcherExit.(LinuxCgroupExitProof.Process) launcher.

(** [StopReceipt.ValidFor(value)] *)
Definition ReceiptValidFor (receipt : StopReceipt.t) (value : t) : bool :=
  if value.(Version) =? SupervisorVersionV2 then
    (receipt.(StopReceipt.Version) =? SupervisorVersionV2) && (receipt.(StopReceipt.Status) =s "stopped") &&
    (receipt.(StopReceipt.ActiveProcesses) =? 0) &&
    (receipt.(StopReceipt.OwnerKind) =s value.(OwnerKind)) && (receipt.(StopReceipt.OwnerContext) =s value.(OwnerContext)) &&
    (receipt.(StopReceipt.TargetPID) =? value.(TargetPID)) && (receipt.(StopReceipt.TargetIdentity) =s value.(TargetIdentity)) &&
    (receipt.(StopReceipt.OwnerUID) =? value.(OwnerUID)) && (receipt.(StopReceipt.LauncherUID) =? value.(LauncherUID)) &&
    (receipt.(StopReceipt.PipeToken) =s value.(PipeToken)) && (receipt.(StopReceipt.JobID) =s value.(JobID)) &&
    (receipt.(StopReceipt.SupervisorPID) =? value.(SupervisorPID)) &&
    (receipt.(StopReceipt.SupervisorIdentity) =s value.(SupervisorIdentity)) &&
    (receipt.(StopReceipt.TargetBirthKind) =s value.(TargetBirthKind)) &&
    ptr_equal LinuxCgroupIdentity.Equal receipt.(StopReceipt.CgroupIdentity) value.(CgroupIdentity) &&
    some_and receipt.(StopReceipt.LinuxProof) (fun proof => StopProofValidateFor proof value)
  else
    (receipt.(StopReceipt.Version) =? SupervisorVersion) && (receipt.(StopReceipt.Status) =s "stopped") &&
    (receipt.(StopReceipt.ActiveProcesses) =? 0) &&
    (receipt.(StopReceipt.OwnerKind) =s value.(OwnerKind)) && (receipt.(StopReceipt.OwnerContext) =s value.(OwnerContext)) &&
    (receipt.(StopReceipt.TargetPID) =? value.(TargetPID)) && (receipt.(StopReceipt.TargetIdentity) =s value.(TargetIdentity)) &&
    (receipt.(StopReceipt.OwnerUID) =? 0) && (receipt.(StopReceipt.LauncherUID) =? 0) &&
    (receipt.(StopReceipt.PipeToken) =s value.(PipeToken)) && (receipt.(StopReceipt.JobID) =s value.(JobID)) &&
    (receipt.(StopReceipt.SupervisorPID) =? value.(SupervisorPID)) &&
    (receipt.(StopReceipt.SupervisorIdentity) =s value.(SupervisorIdentity)) &&
    (receipt.(StopReceipt.TargetBirthKind) =s "") && is_nil receipt.(StopReceipt.CgroupIdentity) &&
    is_nil receipt.(StopReceipt.LinuxProof).

Definition Validate (value : t) : bool :=
  if value.(Version) =? SupervisorVersionV2 then
    validateV2SupervisorFields value.(LaunchToken) value.(OwnerKind) value.(OwnerContext) value.(TargetPID)
      value.(TargetIdentity) value.(SupervisorPID) value.(SupervisorIdentity) value.(TargetBirthKind)
      value.(OwnerUID) value.(LauncherUID) value.(CgroupIdentity) value.(AnchorPID) value.(AnchorIdentity)
      value.(LauncherPID) value.(LauncherIdentity) value.(LauncherExit) value.(Mirror) value.(CreatorSessionID) true &&
    validLowerHex value.(Secret) (SecretBytes * 2) && validLowerHex value.(PipeToken) (TokenBytes * 2) &&
    validLowerHex value.(JobID) (TokenBytes * 2) &&
    none_or value.(StopReceipt) (fun receipt => ReceiptValidFor receipt value)
  else
    (value.(Version) =? SupervisorVersion) && (0 <? value.(TargetPID)) && (0 <? value.(SupervisorPID)) &&
    (value.(OwnerUID) =? 0) && (value.(LauncherUID) =? 0) &&
    negb (hasV2SupervisorFields value.(TargetBirthKind) value.(CgroupIdentity) value.(AnchorPID) value.(AnchorIdentity)
            value.(LauncherPID) value.(LauncherIdentity) value.(LauncherExit) value.(Mirror)) &&
    validOwner value.(OwnerKind) value.(OwnerContext) &&
    negb ((value.(OwnerKind) =s OwnerKindLinuxHelper) && non_nil value.(CreatorSessionID)) &&
    validHex value.(Secret) (SecretBytes * 2) && validOptionalHex value.(LaunchToken) (TokenBytes * 2) &&
    validHex value.(PipeToken) (TokenBytes * 2) && validHex value.(JobID) (TokenBytes * 2) &&
    validBounded value.(TargetIdentity) 4096 && validBounded value.(SupervisorIdentity) 4096 &&
    none_or value.(StopReceipt) (fun receipt => ReceiptValidFor receipt value).
End Supervisor.
#[export] Existing Instance Supervisor.eq_dec.
#[export] Existing Instance Supervisor.Equal_spec.

(** ** The pre-authority handoff *)

Module SupervisorHandoff.
Record t : Type := mk {
  Version : Z;
  LaunchToken : string;
  Secret : string;
  OwnerKind : string;
  OwnerContext : string;
  TargetPID : Z;
  TargetIdentity : string;
  OwnerUID : Z;
  LauncherUID : Z;
  PipeToken : string;
  JobID : string;
  SupervisorPID : Z;
  SupervisorIdentity : string;
  TargetBirthKind : string;
  CgroupIdentity : option LinuxCgroupIdentity.t;
  AnchorPID : Z;
  AnchorIdentity : string;
  LauncherPID : Z;
  LauncherIdentity : string;
  LauncherExit : option LinuxCgroupExitProof.t;
  Mirror : option LinuxCgroupProcessIdentity.t;
  CreatorSessionID : option Z;
  StopReceipt : option StopReceipt.t;
  ScanUpdate : option SupervisorScanUpdate.t
}.
(** Assignment to the fields that are set after construction. *)
Definition eta (r : t) : t :=
  mk r.(Version) r.(LaunchToken) r.(Secret) r.(OwnerKind) r.(OwnerContext) r.(TargetPID) r.(TargetIdentity)
    r.(OwnerUID) r.(LauncherUID) r.(PipeToken) r.(JobID) r.(SupervisorPID) r.(SupervisorIdentity)
    r.(TargetBirthKind) r.(CgroupIdentity) r.(AnchorPID) r.(AnchorIdentity) r.(LauncherPID)
    r.(LauncherIdentity) r.(LauncherExit) r.(Mirror) r.(CreatorSessionID) r.(StopReceipt) r.(ScanUpdate).
#[global] Instance set_SupervisorPID : Setter SupervisorPID := ltac:(derive_setter eta SupervisorPID).
#[global] Instance set_SupervisorIdentity : Setter SupervisorIdentity := ltac:(derive_setter eta SupervisorIdentity).
#[global] Instance set_Mirror : Setter Mirror := ltac:(derive_setter eta Mirror).
#[global] Instance set_StopReceipt : Setter StopReceipt := ltac:(derive_setter eta StopReceipt).
#[global] Instance set_ScanUpdate : Setter ScanUpdate := ltac:(derive_setter eta ScanUpdate).
#[export] Instance eq_dec : EqDecision t.
Proof. solve_decision. Defined.

(** Every durable field; the request-only [ScanUpdate] is excluded. *)
Definition Equal (value other : t) : bool :=
  (value.(Version) =? other.(Version)) &&
  (value.(LaunchToken) =s other.(LaunchToken)) &&
  (value.(Secret) =s other.(Secret)) &&
  (value.(OwnerKind) =s other.(OwnerKind)) &&
  (value.(OwnerContext) =s other.(OwnerContext)) &&
  (value.(TargetPID) =? other.(TargetPID)) &&
  (value.(TargetIdentity) =s other.(TargetIdentity)) &&
  (value.(OwnerUID) =? other.(OwnerUID)) &&
  (value.(LauncherUID) =? other.(LauncherUID)) &&
  (value.(PipeToken) =s other.(PipeToken)) &&
  (value.(JobID) =s other.(JobID)) &&
  (value.(SupervisorPID) =? other.(SupervisorPID)) &&
  (value.(SupervisorIdentity) =s other.(SupervisorIdentity)) &&
  (value.(TargetBirthKind) =s other.(TargetBirthKind)) &&
  ptr_equal LinuxCgroupIdentity.Equal value.(CgroupIdentity) other.(CgroupIdentity) &&
  (value.(AnchorPID) =? other.(AnchorPID)) &&
  (value.(AnchorIdentity) =s other.(AnchorIdentity)) &&
  (value.(LauncherPID) =? other.(LauncherPID)) &&
  (value.(LauncherIdentity) =s other.(LauncherIdentity)) &&
  ptr_equal LinuxCgroupExitProof.Equal value.(LauncherExit) other.(LauncherExit) &&
  ptr_equal LinuxCgroupProcessIdentity.Equal value.(Mirror) other.(Mirror) &&
  ptr_equal Z.eqb value.(CreatorSessionID) other.(CreatorSessionID) &&
  ptr_equal StopReceipt.Equal value.(StopReceipt) other.(StopReceipt).

Definition SameLaunch (value other : t) : bool :=
  (value.(Version) =? other.(Version)) && (value.(LaunchToken) =s other.(LaunchToken)) &&
  (value.(Secret) =s other.(Secret)) && (value.(OwnerKind) =s other.(OwnerKind)) &&
  (value.(OwnerContext) =s other.(OwnerContext)) && (value.(TargetPID) =? other.(TargetPID)) &&
  (value.(TargetIdentity) =s other.(TargetIdentity)) && (value.(PipeToken) =s other.(PipeToken)) &&
  (value.(JobID) =s other.(JobID)) && (value.(TargetBirthKind) =s other.(TargetBirthKind)) &&
  (value.(OwnerUID) =? other.(OwnerUID)) && (value.(LauncherUID) =? other.(LauncherUID)) &&
  ptr_equal LinuxCgroupIdentity.Equal value.(CgroupIdentity) other.(CgroupIdentity) &&
  (value.(AnchorPID) =? other.(AnchorPID)) && (value.(AnchorIdentity) =s other.(AnchorIdentity)) &&
  (value.(LauncherPID) =? other.(LauncherPID)) && (value.(LauncherIdentity) =s other.(LauncherIdentity)) &&
  ptr_equal LinuxCgroupExitProof.Equal value.(LauncherExit) other.(LauncherExit) &&
  ptr_equal Z.eqb value.(CreatorSessionID) other.(CreatorSessionID).

Definition supervisorFromHandoff (value : t) : Supervisor.t :=
  Supervisor.mk
    value.(Version) value.(Secret) value.(LaunchToken) value.(OwnerKind) value.(OwnerContext)
    value.(TargetPID) value.(TargetIdentity) value.(OwnerUID) value.(LauncherUID) value.(PipeToken)
    value.(JobID) value.(SupervisorPID) value.(SupervisorIdentity) value.(TargetBirthKind)
    value.(CgroupIdentity) value.(AnchorPID) value.(AnchorIdentity) value.(LauncherPID)
    value.(LauncherIdentity) value.(LauncherExit) value.(Mirror) value.(CreatorSessionID) None.

(** [StopReceipt.ValidForHandoff(value)] *)
Definition ReceiptValidForHandoff (receipt : StopReceipt.t) (value : t) : bool :=
  if value.(Version) =? SupervisorHandoffVersionV2 then
    (0 <? value.(SupervisorPID)) && non_nil value.(Mirror) &&
    (receipt.(StopReceipt.Version) =? SupervisorVersionV2) &&
    (receipt.(StopReceipt.Status) =s "stopped") && (receipt.(StopReceipt.ActiveProcesses) =? 0) &&
    (receipt.(StopReceipt.OwnerKind) =s value.(OwnerKind)) && (receipt.(StopReceipt.OwnerContext) =s value.(OwnerContext)) &&
    (receipt.(StopReceipt.TargetPID) =? value.(TargetPID)) && (receipt.(StopReceipt.TargetIdentity) =s value.(TargetIdentity)) &&
    (receipt.(StopReceipt.OwnerUID) =? value.(OwnerUID)) && (receipt.(StopReceipt.LauncherUID) =? value.(LauncherUID)) &&
    (receipt.(StopReceipt.PipeToken) =s value.(PipeToken)) && (receipt.(StopReceipt.JobID) =s value.(JobID)) &&
    (receipt.(StopReceipt.SupervisorPID) =? value.(SupervisorPID)) &&
    (receipt.(StopReceipt.SupervisorIdentity) =s value.(SupervisorIdentity)) &&
    (receipt.(StopReceipt.TargetBirthKind) =s value.(TargetBirthKind)) &&
    ptr_equal LinuxCgroupIdentity.Equal receipt.(StopReceipt.CgroupIdentity) value.(CgroupIdentity) &&
    some_and receipt.(StopReceipt.LinuxProof) (fun proof =>
      Supervisor.StopProofValidateFor proof (supervisorFromHandoff value))
  else
    (receipt.(StopReceipt.Version) =? SupervisorVersion) && (receipt.(StopReceipt.Status) =s "stopped") &&
    (receipt.(StopReceipt.ActiveProcesses) =? 0) &&
    (receipt.(StopReceipt.OwnerKind) =s value.(OwnerKind)) && (receipt.(StopReceipt.OwnerContext) =s value.(OwnerContext)) &&
    (receipt.(StopReceipt.TargetPID) =? value.(TargetPID)) && (receipt.(StopReceipt.TargetIdentity) =s value.(TargetIdentity)) &&
    (receipt.(StopReceipt.OwnerUID) =? 0) && (receipt.(StopReceipt.LauncherUID) =? 0) &&
    (receipt.(StopReceipt.PipeToken) =s value.(PipeToken)) && (receipt.(StopReceipt.JobID) =s value.(JobID)) &&
    (receipt.(StopReceipt.SupervisorPID) =? value.(SupervisorPID)) &&
    (receipt.(StopReceipt.SupervisorIdentity) =s value.(SupervisorIdentity)) &&
    (receipt.(StopReceipt.TargetBirthKind) =s "") && is_nil receipt.(StopReceipt.CgroupIdentity) &&
    is_nil receipt.(StopReceipt.LinuxProof).

Definition validScanUpdate (value : t) (update : SupervisorScanUpdate.t) : bool :=
  let phase := update.(SupervisorScanUpdate.Phase) in
  (value.(OwnerKind) =s OwnerKindLinuxHelper) && (value.(SupervisorPID) =? 0) && (value.(SupervisorIdentity) =s "") &&
  (len update.(SupervisorScanUpdate.MirrorIdentity) =? TokenBytes * 2) &&
  validHex update.(SupervisorScanUpdate.MirrorIdentity) (TokenBytes * 2) &&
  negb (update.(SupervisorScanUpdate.Sequence) =? 0) &&
  (if phase =s "initialize" then
     (update.(SupervisorScanUpdate.Owner) =s "mirror") && (update.(SupervisorScanUpdate.Sequence) =? 1) &&
     (update.(SupervisorScanUpdate.SupervisorPID) =? 0) && (update.(SupervisorScanUpdate.SupervisorIdentity) =s "") &&
     (update.(SupervisorScanUpdate.FailureKind) =s "")
   else
     (0 <? update.(SupervisorScanUpdate.SupervisorPID)) &&
     validBounded update.(SupervisorScanUpdate.SupervisorIdentity) 4096 &&
     ((update.(SupervisorScanUpdate.Owner) =s "helper") || (update.(SupervisorScanUpdate.Owner) =s "mirror")) &&
     (if string_in phase ["begin"; "clean"; "retire"; "seal"; "assert_clean"; "assert_sealed"; "assert_all_sealed"]
      then update.(SupervisorScanUpdate.FailureKind) =s ""
      else if phase =s "unproven" then validBounded update.(SupervisorScanUpdate.FailureKind) 128
      else false)).

Definition Validate (value : t) : bool :=
  if value.(Version) =? SupervisorHandoffVersionV2 then
    is_nil value.(ScanUpdate) &&
    validateV2SupervisorFields value.(LaunchToken) value.(OwnerKind) value.(OwnerContext) value.(TargetPID)
      value.(TargetIdentity) value.(SupervisorPID) value.(SupervisorIdentity) value.(TargetBirthKind)
      value.(OwnerUID) value.(LauncherUID) value.(CgroupIdentity) value.(AnchorPID) value.(AnchorIdentity)
      value.(LauncherPID) value.(LauncherIdentity) value.(LauncherExit) value.(Mirror) value.(CreatorSessionID) false &&
    validLowerHex value.(Secret) (SecretBytes * 2) && validLowerHex value.(PipeToken) (TokenBytes * 2) &&
    validLowerHex value.(JobID) (TokenBytes * 2) &&
    none_or value.(StopReceipt) (fun receipt =>
      (0 <? value.(SupervisorPID)) && non_nil value.(Mirror) && ReceiptValidForHandoff receipt value)
  else
    (value.(Version) =? SupervisorHandoffVersion) && validHex value.(LaunchToken) (TokenBytes * 2) &&
    (0 <? value.(TargetPID)) && (value.(OwnerUID) =? 0) && (value.(LauncherUID) =? 0) &&
    negb (hasV2SupervisorFields value.(TargetBirthKind) value.(CgroupIdentity) value.(AnchorPID) value.(AnchorIdentity)
            value.(LauncherPID) value.(LauncherIdentity) value.(LauncherExit) value.(Mirror)) &&
    validHex value.(Secret) (SecretBytes * 2) && validHex value.(PipeToken) (TokenBytes * 2) &&
    validHex value.(JobID) (TokenBytes * 2) && validBounded value.(TargetIdentity) 4096 &&
    validOwner value.(OwnerKind) value.(OwnerContext) &&
    negb ((value.(OwnerKind) =s OwnerKindLinuxHelper) && non_nil value.(CreatorSessionID)) &&
    Bool.eqb (value.(SupervisorPID) =? 0) (blank value.(SupervisorIdentity)) && (0 <=? value.(SupervisorPID)) &&
    validOptionalBounded value.(SupervisorIdentity) 4096 &&
    none_or value.(StopReceipt) (fun receipt =>
      (0 <? value.(SupervisorPID)) && ReceiptValidForHandoff receipt value) &&
    none_or value.(ScanUpdate) (validScanUpdate value).

(** The committed authority of a bound handoff; [None] is the error. *)
Definition ToSupervisor (value : t) : option Supervisor.t :=
  let result :=
    Supervisor.mk
      value.(Version) value.(Secret) value.(LaunchToken) value.(OwnerKind) value.(OwnerContext)
      value.(TargetPID) value.(TargetIdentity) value.(OwnerUID) value.(LauncherUID) value.(PipeToken)
      value.(JobID) value.(SupervisorPID) value.(SupervisorIdentity) value.(TargetBirthKind)
      value.(CgroupIdentity) value.(AnchorPID) value.(AnchorIdentity) value.(LauncherPID)
      value.(LauncherIdentity) value.(LauncherExit) value.(Mirror) value.(CreatorSessionID)
      value.(StopReceipt) in
  if negb (Validate value) then None
  else if non_nil value.(ScanUpdate) then None
  else if (value.(SupervisorPID) <=? 0) || blank value.(SupervisorIdentity) then None
  else if Supervisor.Validate result then Some result else None.
End SupervisorHandoff.
#[export] Existing Instance SupervisorHandoff.eq_dec.

Module SupervisorHandoffReleaseProof.
Record t : Type := mk {
  Version : Z;
  Status : string;
  LaunchToken : string;
  OwnerKind : string;
  OwnerContext : string;
  TargetPID : Z;
  TargetIdentity : string;
  OwnerUID : Z;
  LauncherUID : Z;
  PipeToken : string;
  JobID : string;
  SupervisorPID : Z;
  SupervisorIdentity : string;
  TargetBirthKind : string;
  CgroupIdentity : option LinuxCgroupIdentity.t;
  AnchorPID : Z;
  AnchorIdentity : string;
  LauncherPID : Z;
  LauncherIdentity : string;
  LauncherExit : option LinuxCgroupExitProof.t;
  Mirror : option LinuxCgroupProcessIdentity.t;
  LeafDisposition : string;
  StopReceipt : option StopReceipt.t;
  CreatorSessionID : option Z
}.
Definition Equal (value other : t) : bool :=
  (value.(Version) =? other.(Version)) &&
  (value.(Status) =s other.(Status)) &&
  (value.(LaunchToken) =s other.(LaunchToken)) &&
  (value.(OwnerKind) =s other.(OwnerKind)) &&
  (value.(OwnerContext) =s other.(OwnerContext)) &&
  (value.(TargetPID) =? other.(TargetPID)) &&
  (value.(TargetIdentity) =s other.(TargetIdentity)) &&
  (value.(OwnerUID) =? other.(OwnerUID)) &&
  (value.(LauncherUID) =? other.(LauncherUID)) &&
  (value.(PipeToken) =s other.(PipeToken)) &&
  (value.(JobID) =s other.(JobID)) &&
  (value.(SupervisorPID) =? other.(SupervisorPID)) &&
  (value.(SupervisorIdentity) =s other.(SupervisorIdentity)) &&
  (value.(TargetBirthKind) =s other.(TargetBirthKind)) &&
  ptr_equal LinuxCgroupIdentity.Equal value.(CgroupIdentity) other.(CgroupIdentity) &&
  (value.(AnchorPID) =? other.(AnchorPID)) &&
  (value.(AnchorIdentity) =s other.(AnchorIdentity)) &&
  (value.(LauncherPID) =? other.(LauncherPID)) &&
  (value.(LauncherIdentity) =s other.(LauncherIdentity)) &&
  ptr_equal LinuxCgroupExitProof.Equal value.(LauncherExit) other.(LauncherExit) &&
  ptr_equal LinuxCgroupProcessIdentity.Equal value.(Mirror) other.(Mirror) &&
  (value.(LeafDisposition) =s other.(LeafDisposition)) &&
  ptr_equal StopReceipt.Equal value.(StopReceipt) other.(StopReceipt) &&
  ptr_equal Z.eqb value.(CreatorSessionID) other.(CreatorSessionID).
#[export] Instance Equal_spec : EqbSpec Equal.
Proof. intros x y. unfold Equal. solve_equal x y. Qed.
#[export] Instance eq_dec : EqDecision t.
Proof. exact (eqb_decision Equal). Defined.

Definition supervisorFromReleaseProof (value : t) : Supervisor.t :=
  Supervisor.mk
    SupervisorVersionV2 "" value.(LaunchToken) value.(OwnerKind) value.(OwnerContext) value.(TargetPID)
    value.(TargetIdentity) value.(OwnerUID) value.(LauncherUID) value.(PipeToken) value.(JobID)
    value.(SupervisorPID) value.(SupervisorIdentity) value.(TargetBirthKind) value.(CgroupIdentity)
    value.(AnchorPID) value.(AnchorIdentity) value.(LauncherPID) value.(LauncherIdentity)
    value.(LauncherExit) value.(Mirror) None value.(StopReceipt).

Definition Validate (proof : t) : bool :=
  if proof.(Version) =? SupervisorHandoffVersionV2 then
    (proof.(Status) =s "released") && validLowerHex proof.(LaunchToken) (TokenBytes * 2) &&
    validateV2SupervisorFields proof.(LaunchToken) proof.(OwnerKind) proof.(OwnerContext) proof.(TargetPID)
      proof.(TargetIdentity) proof.(SupervisorPID) proof.(SupervisorIdentity) proof.(TargetBirthKind)
      proof.(OwnerUID) proof.(LauncherUID) proof.(CgroupIdentity) proof.(AnchorPID) proof.(AnchorIdentity)
      proof.(LauncherPID) proof.(LauncherIdentity) proof.(LauncherExit) proof.(Mirror) proof.(CreatorSessionID) true &&
    ((proof.(LeafDisposition) =s "removed") || (proof.(LeafDisposition) =s "absent_after_receipt")) &&
    validLowerHex proof.(PipeToken) (TokenBytes * 2) && validLowerHex proof.(JobID) (TokenBytes * 2) &&
    some_and proof.(StopReceipt) (fun receipt => Supervisor.ReceiptValidFor receipt (supervisorFromReleaseProof proof))
  else
    (proof.(Version) =? SupervisorHandoffVersion) && (proof.(Status) =s "released") &&
    validHex proof.(LaunchToken) (TokenBytes * 2) && (0 <? proof.(TargetPID)) && (0 <=? proof.(SupervisorPID)) &&
    validOwner proof.(OwnerKind) proof.(OwnerContext) &&
    (proof.(OwnerUID) =? 0) && (proof.(LauncherUID) =? 0) && is_nil proof.(StopReceipt) &&
    negb (hasV2SupervisorFields proof.(TargetBirthKind) proof.(CgroupIdentity) proof.(AnchorPID) proof.(AnchorIdentity)
            proof.(LauncherPID) proof.(LauncherIdentity) proof.(LauncherExit) proof.(Mirror)) &&
    (proof.(LeafDisposition) =s "") &&
    validHex proof.(PipeToken) (TokenBytes * 2) && validHex proof.(JobID) (TokenBytes * 2) &&
    validBounded proof.(TargetIdentity) 4096 &&
    Bool.eqb (proof.(SupervisorPID) =? 0) (blank proof.(SupervisorIdentity)) &&
    validOptionalBounded proof.(SupervisorIdentity) 4096 &&
    negb ((proof.(OwnerKind) =s OwnerKindLinuxHelper) && non_nil proof.(CreatorSessionID)).

Definition ValidFor (proof : t) (value : SupervisorHandoff.t) : bool :=
  if value.(SupervisorHandoff.Version) =? SupervisorHandoffVersionV2 then
    (proof.(Version) =? SupervisorHandoffVersionV2) && (proof.(Status) =s "released") &&
    (proof.(LaunchToken) =s value.(SupervisorHandoff.LaunchToken)) &&
    (proof.(OwnerKind) =s value.(SupervisorHandoff.OwnerKind)) &&
    (proof.(OwnerContext) =s value.(SupervisorHandoff.OwnerContext)) &&
    (proof.(TargetPID) =? value.(SupervisorHandoff.TargetPID)) &&
    (proof.(TargetIdentity) =s value.(SupervisorHandoff.TargetIdentity)) &&
    (proof.(OwnerUID) =? value.(SupervisorHandoff.OwnerUID)) &&
    (proof.(LauncherUID) =? value.(SupervisorHandoff.LauncherUID)) &&
    (proof.(PipeToken) =s value.(SupervisorHandoff.PipeToken)) && (proof.(JobID) =s value.(SupervisorHandoff.JobID)) &&
    (proof.(SupervisorPID) =? value.(SupervisorHandoff.SupervisorPID)) &&
    (proof.(SupervisorIdentity) =s value.(SupervisorHandoff.SupervisorIdentity)) &&
    (proof.(TargetBirthKind) =s value.(SupervisorHandoff.TargetBirthKind)) &&
    ptr_equal LinuxCgroupIdentity.Equal proof.(CgroupIdentity) value.(SupervisorHandoff.CgroupIdentity) &&
    (proof.(AnchorPID) =? value.(SupervisorHandoff.AnchorPID)) &&
    (proof.(AnchorIdentity) =s value.(SupervisorHandoff.AnchorIdentity)) &&
    (proof.(LauncherPID) =? value.(SupervisorHandoff.LauncherPID)) &&
    (proof.(LauncherIdentity) =s value.(SupervisorHandoff.LauncherIdentity)) &&
    ptr_equal LinuxCgroupExitProof.Equal proof.(LauncherExit) value.(SupervisorHandoff.LauncherExit) &&
    ptr_equal LinuxCgroupProcessIdentity.Equal proof.(Mirror) value.(SupervisorHandoff.Mirror) &&
    ((proof.(LeafDisposition) =s "removed") || (proof.(LeafDisposition) =s "absent_after_receipt")) &&
    some_and proof.(StopReceipt) (fun p => some_and value.(SupervisorHandoff.StopReceipt) (fun v => StopReceipt.Equal p v))
  else
    (proof.(Version) =? SupervisorHandoffVersion) && (proof.(Status) =s "released") &&
    (proof.(LaunchToken) =s value.(SupervisorHandoff.LaunchToken)) &&
    (proof.(OwnerKind) =s value.(SupervisorHandoff.OwnerKind)) &&
    (proof.(OwnerContext) =s value.(SupervisorHandoff.OwnerContext)) &&
    (proof.(TargetPID) =? value.(SupervisorHandoff.TargetPID)) &&
    (proof.(TargetIdentity) =s value.(SupervisorHandoff.TargetIdentity)) &&
    (proof.(PipeToken) =s value.(SupervisorHandoff.PipeToken)) && (proof.(JobID) =s value.(SupervisorHandoff.JobID)) &&
    (proof.(SupervisorPID) =? value.(SupervisorHandoff.SupervisorPID)) &&
    (proof.(SupervisorIdentity) =s value.(SupervisorHandoff.SupervisorIdentity)) &&
    ptr_equal Z.eqb proof.(CreatorSessionID) value.(SupervisorHandoff.CreatorSessionID) &&
    (proof.(OwnerUID) =? 0) && (proof.(LauncherUID) =? 0) && (proof.(LeafDisposition) =s "") &&
    is_nil proof.(StopReceipt) &&
    negb (hasV2SupervisorFields proof.(TargetBirthKind) proof.(CgroupIdentity) proof.(AnchorPID) proof.(AnchorIdentity)
            proof.(LauncherPID) proof.(LauncherIdentity) proof.(LauncherExit) proof.(Mirror)).

Definition ValidForSupervisor (proof : t) (value : Supervisor.t) : bool :=
  (value.(Supervisor.Version) =? SupervisorVersionV2) && (proof.(Version) =? SupervisorHandoffVersionV2) &&
  (proof.(Status) =s "released") && (proof.(LaunchToken) =s value.(Supervisor.LaunchToken)) &&
  (proof.(OwnerKind) =s value.(Supervisor.OwnerKind)) && (proof.(OwnerContext) =s value.(Supervisor.OwnerContext)) &&
  (proof.(TargetPID) =? value.(Supervisor.TargetPID)) && (proof.(TargetIdentity) =s value.(Supervisor.TargetIdentity)) &&
  (proof.(OwnerUID) =? value.(Supervisor.OwnerUID)) && (proof.(LauncherUID) =? value.(Supervisor.LauncherUID)) &&
  (proof.(PipeToken) =s value.(Supervisor.PipeToken)) && (proof.(JobID) =s value.(Supervisor.JobID)) &&
  (proof.(SupervisorPID) =? value.(Supervisor.SupervisorPID)) &&
  (proof.(SupervisorIdentity) =s value.(Supervisor.SupervisorIdentity)) &&
  (proof.(TargetBirthKind) =s value.(Supervisor.TargetBirthKind)) &&
  ptr_equal LinuxCgroupIdentity.Equal proof.(CgroupIdentity) value.(Supervisor.CgroupIdentity) &&
  (proof.(AnchorPID) =? value.(Supervisor.AnchorPID)) && (proof.(AnchorIdentity) =s value.(Supervisor.AnchorIdentity)) &&
  (proof.(LauncherPID) =? value.(Supervisor.LauncherPID)) &&
  (proof.(LauncherIdentity) =s value.(Supervisor.LauncherIdentity)) &&
  ptr_equal LinuxCgroupExitProof.Equal proof.(LauncherExit) value.(Supervisor.LauncherExit) &&
  ptr_equal LinuxCgroupProcessIdentity.Equal proof.(Mirror) value.(Supervisor.Mirror) &&
  ((proof.(LeafDisposition) =s "removed") || (proof.(LeafDisposition) =s "absent_after_receipt")) &&
  some_and proof.(StopReceipt) (fun p => some_and value.(Supervisor.StopReceipt) (fun v => StopReceipt.Equal p v)).
End SupervisorHandoffReleaseProof.
#[export] Existing Instance SupervisorHandoffReleaseProof.eq_dec.
#[export] Existing Instance SupervisorHandoffReleaseProof.Equal_spec.

Module SupervisorHandoffAbortProof.
Record t : Type := mk {
  Version : Z;
  Disposition : string;
  LaunchToken : string;
  JobID : string;
  OwnerKind : string;
  OwnerContext : string;
  TargetPID : Z;
  TargetIdentity : string;
  SupervisorPID : Z;
  SupervisorIdentity : string;
  CreatorSessionID : option Z
}.
#[export] Instance eq_dec : EqDecision t.
Proof. solve_decision. Defined.

Definition Validate (proof : t) : bool :=
  (proof.(Version) =? SupervisorHandoffAbortProofVersion) &&
  (proof.(Disposition) =s SupervisorHandoffAbortDisposition) && validHex proof.(LaunchToken) (TokenBytes * 2) &&
  validHex proof.(JobID) (TokenBytes * 2) && (0 <? proof.(TargetPID)) && (0 <=? proof.(SupervisorPID)) &&
  validOwner proof.(OwnerKind) proof.(OwnerContext) && validBounded proof.(TargetIdentity) 4096 &&
  Bool.eqb (proof.(SupervisorPID) =? 0) (blank proof.(SupervisorIdentity)) &&
  validOptionalBounded proof.(SupervisorIdentity) 4096 &&
  negb ((proof.(OwnerKind) =s OwnerKindLinuxHelper) && non_nil proof.(CreatorSessionID)) &&
  negb ((proof.(OwnerKind) <>s OwnerKindLinuxHelper) && is_nil proof.(CreatorSessionID)).

Definition ValidFor (proof : t) (value : SupervisorHandoff.t) : bool :=
  (value.(SupervisorHandoff.Version) =? SupervisorHandoffVersion) &&
  (proof.(Version) =? SupervisorHandoffAbortProofVersion) &&
  (proof.(Disposition) =s SupervisorHandoffAbortDisposition) &&
  (proof.(LaunchToken) =s value.(SupervisorHandoff.LaunchToken)) && (proof.(JobID) =s value.(SupervisorHandoff.JobID)) &&
  (proof.(OwnerKind) =s value.(SupervisorHandoff.OwnerKind)) &&
  (proof.(OwnerContext) =s value.(SupervisorHandoff.OwnerContext)) &&
  (proof.(TargetPID) =? value.(SupervisorHandoff.TargetPID)) &&
  (proof.(TargetIdentity) =s value.(SupervisorHandoff.TargetIdentity)) &&
  (proof.(SupervisorPID) =? value.(SupervisorHandoff.SupervisorPID)) &&
  (proof.(SupervisorIdentity) =s value.(SupervisorHandoff.SupervisorIdentity)) &&
  ((proof.(OwnerKind) =s OwnerKindLinuxHelper) ||
   non_nil proof.(CreatorSessionID) && non_nil value.(SupervisorHandoff.CreatorSessionID)) &&
  ptr_equal Z.eqb proof.(CreatorSessionID) value.(SupervisorHandoff.CreatorSessionID).
End SupervisorHandoffAbortProof.
#[export] Existing Instance SupervisorHandoffAbortProof.eq_dec.

(** ** The machine-local clone and its evidence *)

Definition LinuxCloneTargetDispositionRemoved : string := "removed".

Module LinuxCloneIntent.
Record t : Type := mk {
  Version : Z;
  RunID : string;
  Generation : Z;
  BindingKey : string;
  ResourceID : string;
  BaseCommit : string;
  BaseTreeDigest : string;
  Nonce : string;
  SeedPath : string;
  Target : string
}.
Definition Equal (value other : t) : bool :=
  (value.(Version) =? other.(Version)) &&
  (value.(RunID) =s other.(RunID)) &&
  (value.(Generation) =? other.(Generation)) &&
  (value.(BindingKey) =s other.(BindingKey)) &&
  (value.(ResourceID) =s other.(ResourceID)) &&
  (value.(BaseCommit) =s other.(BaseCommit)) &&
  (value.(BaseTreeDigest) =s other.(BaseTreeDigest)) &&
  (value.(Nonce) =s other.(Nonce)) &&
  (value.(SeedPath) =s other.(SeedPath)) &&
  (value.(Target) =s other.(Target)).
#[export] Instance Equal_spec : EqbSpec Equal.
Proof. intros x y. unfold Equal. solve_equal x y. Qed.
#[export] Instance eq_dec : EqDecision t.
Proof. exact (eqb_decision Equal). Defined.
(** [linuxCloneWorkspaceRootFromIntent]: the configured root, if the target
    follows the deterministic binding/RunKey layout. *)
Definition linuxCloneWorkspaceRootFromIntent (intent : t) : option string :=
  let suffix := "/binding-" ++ intent.(BindingKey) ++ "/run-" ++ intent.(RunID) ++
                "/generation-" ++ FormatInt intent.(Generation) in
  match strip_suffix suffix intent.(Target) with
  | None => None
  | Some stripped =>
      let root := if stripped =s "" then "/" else stripped in
      if negb (validLinuxClonePath root) || (root =s "/") then None else Some root
  end.

Definition validate (requireRunRefLayout : bool) (value : t) : bool :=
  (value.(Version) =? LinuxCloneVersion) && validLinuxCloneRunID value.(RunID) && (0 <? value.(Generation)) &&
  validLinuxCloneRunID value.(BindingKey) && validLinuxCloneResourceID value.(ResourceID) &&
  validLinuxCloneGitObjectID value.(BaseCommit) &&
  validLinuxCloneDigest value.(BaseTreeDigest) && validLowerHex value.(Nonce) (LinuxCloneNonceBytes * 2) &&
  validLinuxClonePath value.(SeedPath) && validLinuxClonePath value.(Target) &&
  negb (linuxClonePathsOverlap value.(SeedPath) value.(Target)) &&
  (negb requireRunRefLayout || non_nil (linuxCloneWorkspaceRootFromIntent value)).

Definition Validate (value : t) : bool := validate true value.
Definition ValidateForJournal (value : t) : bool := validate false value.

Definition LinuxCloneWorkspaceRoot (intent : t) : option string :=
  if negb (Validate intent) then None else linuxCloneWorkspaceRootFromIntent intent.
End LinuxCloneIntent.
#[export] Existing Instance LinuxCloneIntent.eq_dec.
#[export] Existing Instance LinuxCloneIntent.Equal_spec.

Module LinuxCloneSeedReceipt.
Record t : Type := mk {
  Version : Z;
  BaseCommit : string;
  Digest : string;
  Size : Z;
  Device : Z;
  Inode : Z
}.
Definition Equal (value other : t) : bool :=
  (value.(Version) =? other.(Version)) &&
  (value.(BaseCommit) =s other.(BaseCommit)) &&
  (value.(Digest) =s other.(Digest)) &&
  (value.(Size) =? other.(Size)) &&
  (value.(Device) =? other.(Device)) &&
  (value.(Inode) =? other.(Inode)).
#[export] Instance Equal_spec : EqbSpec Equal.
Proof. intros x y. unfold Equal. solve_equal x y. Qed.
#[export] Instance eq_dec : EqDecision t.
Proof. exact (eqb_decision Equal). Defined.
Definition Validate (value : t) : bool :=
  (value.(Version) =? LinuxCloneVersion) && validLinuxCloneGitObjectID value.(BaseCommit) &&
  validLinuxCloneDigest value.(Digest) && (0 <? value.(Size)) && (value.(Size) <=? LinuxCloneMaxSeedBytes) &&
  negb (value.(Inode) =? 0).
End LinuxCloneSeedReceipt.
#[export] Existing Instance LinuxCloneSeedReceipt.eq_dec.
#[export] Existing Instance LinuxCloneSeedReceipt.Equal_spec.

Module LinuxCloneGrant.
Record t : Type := mk {
  Intent : LinuxCloneIntent.t;
  Seed : LinuxCloneSeedReceipt.t
}.
Definition Equal (value other : t) : bool :=
  LinuxCloneIntent.Equal value.(Intent) other.(Intent) &&
  LinuxCloneSeedReceipt.Equal value.(Seed) other.(Seed).
#[export] Instance Equal_spec : EqbSpec Equal.
Proof. intros x y. unfold Equal. solve_equal x y. Qed.
#[export] Instance eq_dec : EqDecision t.
Proof. exact (eqb_decision Equal). Defined.
Definition Validate (value : t) : bool :=
  LinuxCloneIntent.Validate value.(Intent) && LinuxCloneSeedReceipt.Validate value.(Seed) &&
  (value.(Seed).(LinuxCloneSeedReceipt.BaseCommit) =s value.(Intent).(LinuxCloneIntent.BaseCommit)).
End LinuxCloneGrant.
#[export] Existing Instance LinuxCloneGrant.eq_dec.
#[export] Existing Instance LinuxCloneGrant.Equal_spec.

Module LinuxCloneCheckoutReceipt.
Record t : Type := mk {
  Version : Z;
  RunID : string;
  Generation : Z;
  BindingKey : string;
  ResourceID : string;
  Target : string;
  Nonce : string;
  SeedDigest : string;
  BaseCommit : string;
  TargetDevice : Z;
  TargetInode : Z
}.
Definition Equal (value other : t) : bool :=
  (value.(Version) =? other.(Version)) &&
  (value.(RunID) =s other.(RunID)) &&
  (value.(Generation) =? other.(Generation)) &&
  (value.(BindingKey) =s other.(BindingKey)) &&
  (value.(ResourceID) =s other.(ResourceID)) &&
  (value.(Target) =s other.(Target)) &&
  (value.(Nonce) =s other.(Nonce)) &&
  (value.(SeedDigest) =s other.(SeedDigest)) &&
  (value.(BaseCommit) =s other.(BaseCommit)) &&
  (value.(TargetDevice) =? other.(TargetDevice)) &&
  (value.(TargetInode) =? other.(TargetInode)).
#[export] Instance Equal_spec : EqbSpec Equal.
Proof. intros x y. unfold Equal. solve_equal x y. Qed.
#[export] Instance eq_dec : EqDecision t.
Proof. exact (eqb_decision Equal). Defined.
Definition Validate (value : t) : bool :=
  (value.(Version) =? LinuxCloneVersion) && validLinuxCloneRunID value.(RunID) && (0 <? value.(Generation)) &&
  validLinuxCloneRunID value.(BindingKey) && validLinuxCloneResourceID value.(ResourceID) &&
  validLinuxClonePath value.(Target) &&
  validLowerHex value.(Nonce) (LinuxCloneNonceBytes * 2) && validLinuxCloneDigest value.(SeedDigest) &&
  validLinuxCloneGitObjectID value.(BaseCommit) && negb (value.(TargetInode) =? 0).
End LinuxCloneCheckoutReceipt.
#[export] Existing Instance LinuxCloneCheckoutReceipt.eq_dec.
#[export] Existing Instance LinuxCloneCheckoutReceipt.Equal_spec.

Module LinuxClonePromotionReceipt.
Record t : Type := mk {
  Version : Z;
  Commit : string;
  TreeDigest : string;
  Ref : string
}.
Definition Equal (value other : t) : bool :=
  (value.(Version) =? other.(Version)) &&
  (value.(Commit) =s other.(Commit)) &&
  (value.(TreeDigest) =s other.(TreeDigest)) &&
  (value.(Ref) =s other.(Ref)).
#[export] Instance Equal_spec : EqbSpec Equal.
Proof. intros x y. unfold Equal. solve_equal x y. Qed.
#[export] Instance eq_dec : EqDecision t.
Proof. exact (eqb_decision Equal). Defined.
Definition Validate (value : t) : bool :=
  (value.(Version) =? LinuxCloneVersion) && validLinuxCloneGitObjectID value.(Commit) &&
  validLinuxCloneDigest value.(TreeDigest) && validLinuxClonePromotionRef value.(Ref).
End LinuxClonePromotionReceipt.
#[export] Existing Instance LinuxClonePromotionReceipt.eq_dec.
#[export] Existing Instance LinuxClonePromotionReceipt.Equal_spec.

Module LinuxClonePromotionIntent.
Record t : Type := mk {
  Version : Z;
  ResourceID : string;
  Commit : string;
  TreeDigest : string
}.
Definition Equal (value other : t) : bool :=
  (value.(Version) =? other.(Version)) &&
  (value.(ResourceID) =s other.(ResourceID)) &&
  (value.(Commit) =s other.(Commit)) &&
  (value.(TreeDigest) =s other.(TreeDigest)).
#[export] Instance Equal_spec : EqbSpec Equal.
Proof. intros x y. unfold Equal. solve_equal x y. Qed.
#[export] Instance eq_dec : EqDecision t.
Proof. exact (eqb_decision Equal). Defined.
Definition Validate (intent : t) : bool :=
  (intent.(Version) =? LinuxCloneVersion) && validLinuxCloneResourceID intent.(ResourceID) &&
  validLinuxCloneGitObjectID intent.(Commit) && validLinuxCloneDigest intent.(TreeDigest).
End LinuxClonePromotionIntent.
#[export] Existing Instance LinuxClonePromotionIntent.eq_dec.
#[export] Existing Instance LinuxClonePromotionIntent.Equal_spec.

Module LinuxCloneAbortProof.
Record t : Type := mk {
  Version : Z;
  Intent : LinuxCloneIntent.t;
  SeedReceipt : option LinuxCloneSeedReceipt.t;
  PreGateReleaseProof : option LinuxCgroupPreGateReleaseProof.t;
  CgroupAbortProof : option LinuxCgroupReservationAbortProof.t;
  NormalReleaseProof : option SupervisorHandoffReleaseProof.t;
  BaseRef : string;
  PromotionRef : string;
  TargetAbsent : bool;
  SeedAbsent : bool;
  BaseRefAbsent : bool;
  PromotionRefAbsent : bool
}.
Definition Equal (value other : t) : bool :=
  (value.(Version) =? other.(Version)) &&
  LinuxCloneIntent.Equal value.(Intent) other.(Intent) &&
  ptr_equal LinuxCloneSeedReceipt.Equal value.(SeedReceipt) other.(SeedReceipt) &&
  ptr_equal LinuxCgroupPreGateReleaseProof.Equal value.(PreGateReleaseProof) other.(PreGateReleaseProof) &&
  ptr_equal LinuxCgroupReservationAbortProof.Equal value.(CgroupAbortProof) other.(CgroupAbortProof) &&
  ptr_equal SupervisorHandoffReleaseProof.Equal value.(NormalReleaseProof) other.(NormalReleaseProof) &&
  (value.(BaseRef) =s other.(BaseRef)) &&
  (value.(PromotionRef) =s other.(PromotionRef)) &&
  Bool.eqb value.(TargetAbsent) other.(TargetAbsent) &&
  Bool.eqb value.(SeedAbsent) other.(SeedAbsent) &&
  Bool.eqb value.(BaseRefAbsent) other.(BaseRefAbsent) &&
  Bool.eqb value.(PromotionRefAbsent) other.(PromotionRefAbsent).
#[export] Instance Equal_spec : EqbSpec Equal.
Proof. intros x y. unfold Equal. solve_equal x y. Qed.
#[export] Instance eq_dec : EqDecision t.
Proof. exact (eqb_decision Equal). Defined.
Definition countLinuxCloneAbortHistories (proof : t) : Z :=
  (if non_nil proof.(PreGateReleaseProof) then 1 else 0) +
  (if non_nil proof.(CgroupAbortProof) then 1 else 0) +
  (if non_nil proof.(NormalReleaseProof) then 1 else 0).

Definition validate (allowLegacyJournalEvidence : bool) (proof : t) : bool :=
  let intent := proof.(Intent) in
  (proof.(Version) =? LinuxCloneVersion) &&
  (if allowLegacyJournalEvidence then LinuxCloneIntent.ValidateForJournal intent
   else LinuxCloneIntent.Validate intent) &&
  some_and (LinuxCloneBaseRef intent.(LinuxCloneIntent.RunID) intent.(LinuxCloneIntent.Generation))
    (fun baseRef => proof.(BaseRef) =s baseRef) &&
  some_and (LinuxClonePromotionRef intent.(LinuxCloneIntent.RunID) intent.(LinuxCloneIntent.Generation))
    (fun promotionRef => proof.(PromotionRef) =s promotionRef) &&
  proof.(TargetAbsent) && proof.(SeedAbsent) && proof.(BaseRefAbsent) && proof.(PromotionRefAbsent) &&
  (countLinuxCloneAbortHistories proof <=? 1) &&
  none_or proof.(SeedReceipt) (fun seed =>
    LinuxCloneSeedReceipt.Validate seed &&
    (seed.(LinuxCloneSeedReceipt.BaseCommit) =s intent.(LinuxCloneIntent.BaseCommit))) &&
  none_or proof.(PreGateReleaseProof) LinuxCgroupPreGateReleaseProof.Validate &&
  none_or proof.(CgroupAbortProof) LinuxCgroupReservationAbortProof.Validate &&
  none_or proof.(NormalReleaseProof) (fun release =>
    SupervisorHandoffReleaseProof.Validate release &&
    (release.(SupervisorHandoffReleaseProof.Version) =? SupervisorHandoffVersionV2) &&
    non_nil release.(SupervisorHandoffReleaseProof.StopReceipt) && allowLegacyJournalEvidence).

Definition Validate (proof : t) : bool := validate false proof.
Definition ValidateForJournal (proof : t) : bool := validate true proof.
End LinuxCloneAbortProof.
#[export] Existing Instance LinuxCloneAbortProof.eq_dec.
#[export] Existing Instance LinuxCloneAbortProof.Equal_spec.

Module LinuxCloneCleanupIntent.
Record t : Type := mk {
  Version : Z;
  Intent : LinuxCloneIntent.t;
  FenceDigest : string;
  RootPath : string;
  BaseRef : string;
  SeedReceipt : LinuxCloneSeedReceipt.t;
  CheckoutReceipt : LinuxCloneCheckoutReceipt.t;
  PromotionIntent : LinuxClonePromotionIntent.t;
  PromotionReceipt : LinuxClonePromotionReceipt.t;
  NormalReleaseProof : SupervisorHandoffReleaseProof.t;
  ArtifactEvidenceID : string;
  ArtifactEvidenceKey : string;
  ArtifactSubjectHash : string;
  ArtifactDeliveryDigest : string
}.
Definition Equal (value other : t) : bool :=
  (value.(Version) =? other.(Version)) &&
  LinuxCloneIntent.Equal value.(Intent) other.(Intent) &&
  (value.(FenceDigest) =s other.(FenceDigest)) &&
  (value.(RootPath) =s other.(RootPath)) &&
  (value.(BaseRef) =s other.(BaseRef)) &&
  LinuxCloneSeedReceipt.Equal value.(SeedReceipt) other.(SeedReceipt) &&
  LinuxCloneCheckoutReceipt.Equal value.(CheckoutReceipt) other.(CheckoutReceipt) &&
  LinuxClonePromotionIntent.Equal value.(PromotionIntent) other.(PromotionIntent) &&
  LinuxClonePromotionReceipt.Equal value.(PromotionReceipt) other.(PromotionReceipt) &&
  SupervisorHandoffReleaseProof.Equal value.(NormalReleaseProof) other.(NormalReleaseProof) &&
  (value.(ArtifactEvidenceID) =s other.(ArtifactEvidenceID)) &&
  (value.(ArtifactEvidenceKey) =s other.(ArtifactEvidenceKey)) &&
  (value.(ArtifactSubjectHash) =s other.(ArtifactSubjectHash)) &&
  (value.(ArtifactDeliveryDigest) =s other.(ArtifactDeliveryDigest)).
#[export] Instance Equal_spec : EqbSpec Equal.
Proof. intros x y. unfold Equal. solve_equal x y. Qed.
#[export] Instance eq_dec : EqDecision t.
Proof. exact (eqb_decision Equal). Defined.
Definition Validate (intent : t) : bool :=
  let clone := intent.(Intent) in
  let checkout := intent.(CheckoutReceipt) in
  (intent.(Version) =? LinuxCloneVersion) && LinuxCloneIntent.Validate clone &&
  some_and (LinuxCloneIntent.LinuxCloneWorkspaceRoot clone) (fun root => intent.(RootPath) =s root) &&
  some_and (LinuxCloneBaseRef clone.(LinuxCloneIntent.RunID) clone.(LinuxCloneIntent.Generation))
    (fun baseRef => intent.(BaseRef) =s baseRef) &&
  validLinuxCloneDigest intent.(FenceDigest) &&
  LinuxCloneSeedReceipt.Validate intent.(SeedReceipt) &&
  (intent.(SeedReceipt).(LinuxCloneSeedReceipt.BaseCommit) =s clone.(LinuxCloneIntent.BaseCommit)) &&
  LinuxCloneCheckoutReceipt.Validate checkout &&
  LinuxCloneCheckoutReceipt.Equal checkout
    (LinuxCloneCheckoutReceipt.mk LinuxCloneVersion clone.(LinuxCloneIntent.RunID)
      clone.(LinuxCloneIntent.Generation) clone.(LinuxCloneIntent.BindingKey) clone.(LinuxCloneIntent.ResourceID)
      clone.(LinuxCloneIntent.Target) clone.(LinuxCloneIntent.Nonce)
      intent.(SeedReceipt).(LinuxCloneSeedReceipt.Digest) clone.(LinuxCloneIntent.BaseCommit)
      checkout.(LinuxCloneCheckoutReceipt.TargetDevice) checkout.(LinuxCloneCheckoutReceipt.TargetInode)) &&
  LinuxClonePromotionIntent.Validate intent.(PromotionIntent) &&
  (intent.(PromotionIntent).(LinuxClonePromotionIntent.ResourceID) =s clone.(LinuxCloneIntent.ResourceID)) &&
  (len intent.(PromotionIntent).(LinuxClonePromotionIntent.Commit) =? len clone.(LinuxCloneIntent.BaseCommit)) &&
  LinuxClonePromotionReceipt.Validate intent.(PromotionReceipt) &&
  (intent.(PromotionReceipt).(LinuxClonePromotionReceipt.Commit) =s
     intent.(PromotionIntent).(LinuxClonePromotionIntent.Commit)) &&
  (intent.(PromotionReceipt).(LinuxClonePromotionReceipt.TreeDigest) =s
     intent.(PromotionIntent).(LinuxClonePromotionIntent.TreeDigest)) &&
  some_and (LinuxClonePromotionRef clone.(LinuxCloneIntent.RunID) clone.(LinuxCloneIntent.Generation))
    (fun promotionRef => intent.(PromotionReceipt).(LinuxClonePromotionReceipt.Ref) =s promotionRef) &&
  SupervisorHandoffReleaseProof.Validate intent.(NormalReleaseProof) &&
  (intent.(NormalReleaseProof).(SupervisorHandoffReleaseProof.Version) =? SupervisorHandoffVersionV2) &&
  non_nil intent.(NormalReleaseProof).(SupervisorHandoffReleaseProof.StopReceipt) &&
  validLinuxCloneResourceID intent.(ArtifactEvidenceID) &&
  validBounded intent.(ArtifactEvidenceKey) 4096 && validLinuxCloneDigest intent.(ArtifactSubjectHash) &&
  validLowerHex intent.(ArtifactDeliveryDigest) 64.
End LinuxCloneCleanupIntent.
#[export] Existing Instance LinuxCloneCleanupIntent.eq_dec.
#[export] Existing Instance LinuxCloneCleanupIntent.Equal_spec.

Module LinuxCloneTargetRemovalProof.
Record t : Type := mk {
  Version : Z;
  Intent : LinuxCloneCleanupIntent.t;
  RootDevice : Z;
  RootInode : Z;
  TargetDevice : Z;
  TargetInode : Z;
  Disposition : string;
  PathRewalkVerified : bool;
  BOwnedMountConfined : bool;
  TargetNlinkZero : bool;
  RootDeleterUID : Z;
  RootDeleter : LinuxCgroupProcessIdentity.t;
  RootDeleterExit : LinuxCgroupExitProof.t
}.
Definition Equal (value other : t) : bool :=
  (value.(Version) =? other.(Version)) &&
  LinuxCloneCleanupIntent.Equal value.(Intent) other.(Intent) &&
  (value.(RootDevice) =? other.(RootDevice)) &&
  (value.(RootInode) =? other.(RootInode)) &&
  (value.(TargetDevice) =? other.(TargetDevice)) &&
  (value.(TargetInode) =? other.(TargetInode)) &&
  (value.(Disposition) =s other.(Disposition)) &&
  Bool.eqb value.(PathRewalkVerified) other.(PathRewalkVerified) &&
  Bool.eqb value.(BOwnedMountConfined) other.(BOwnedMountConfined) &&
  Bool.eqb value.(TargetNlinkZero) other.(TargetNlinkZero) &&
  (value.(RootDeleterUID) =? other.(RootDeleterUID)) &&
  LinuxCgroupProcessIdentity.Equal value.(RootDeleter) other.(RootDeleter) &&
  LinuxCgroupExitProof.Equal value.(RootDeleterExit) other.(RootDeleterExit).
#[export] Instance Equal_spec : EqbSpec Equal.
Proof. intros x y. unfold Equal. solve_equal x y. Qed.
#[export] Instance eq_dec : EqDecision t.
Proof. exact (eqb_decision Equal). Defined.
Definition Validate (proof : t) : bool :=
  let release := proof.(Intent).(LinuxCloneCleanupIntent.NormalReleaseProof) in
  let checkout := proof.(Intent).(LinuxCloneCleanupIntent.CheckoutReceipt) in
  let witness := LinuxCgroupProcessIdentity.mk release.(SupervisorHandoffReleaseProof.AnchorPID)
                   release.(SupervisorHandoffReleaseProof.AnchorIdentity) in
  (proof.(Version) =? LinuxCloneVersion) && LinuxCloneCleanupIntent.Validate proof.(Intent) &&
  negb (proof.(RootInode) =? 0) &&
  (proof.(TargetDevice) =? checkout.(LinuxCloneCheckoutReceipt.TargetDevice)) &&
  (proof.(TargetInode) =? checkout.(LinuxCloneCheckoutReceipt.TargetInode)) && negb (proof.(TargetInode) =? 0) &&
  (proof.(Disposition) =s LinuxCloneTargetDispositionRemoved) && proof.(TargetNlinkZero) &&
  proof.(PathRewalkVerified) && proof.(BOwnedMountConfined) && (proof.(RootDeleterUID) =? 0) &&
  LinuxCgroupProcessIdentity.Validate proof.(RootDeleter) && LinuxCgroupExitProof.Validate proof.(RootDeleterExit) &&
  negb (LinuxCgroupProcessIdentity.Equal proof.(RootDeleter) witness) &&
  LinuxCgroupExitProof.ValidFor proof.(RootDeleterExit) proof.(RootDeleter) witness.
End LinuxCloneTargetRemovalProof.
#[export] Existing Instance LinuxCloneTargetRemovalProof.eq_dec.
#[export] Existing Instance LinuxCloneTargetRemovalProof.Equal_spec.

Module LinuxCloneCleanupProof.
Record t : Type := mk {
  Version : Z;
  Intent : LinuxCloneCleanupIntent.t;
  TargetRemovalProof : LinuxCloneTargetRemovalProof.t;
  SeedAbsent : bool;
  BaseRefAbsent : bool;
  ScratchAbsent : bool;
  PromotionRefPresent : bool
}.
Definition Equal (value other : t) : bool :=
  (value.(Version) =? other.(Version)) &&
  LinuxCloneCleanupIntent.Equal value.(Intent) other.(Intent) &&
  LinuxCloneTargetRemovalProof.Equal value.(TargetRemovalProof) other.(TargetRemovalProof) &&
  Bool.eqb value.(SeedAbsent) other.(SeedAbsent) &&
  Bool.eqb value.(BaseRefAbsent) other.(BaseRefAbsent) &&
  Bool.eqb value.(ScratchAbsent) other.(ScratchAbsent) &&
  Bool.eqb value.(PromotionRefPresent) other.(PromotionRefPresent).
#[export] Instance Equal_spec : EqbSpec Equal.
Proof. intros x y. unfold Equal. solve_equal x y. Qed.
#[export] Instance eq_dec : EqDecision t.
Proof. exact (eqb_decision Equal). Defined.
Definition Validate (proof : t) : bool :=
  (proof.(Version) =? LinuxCloneVersion) && LinuxCloneCleanupIntent.Validate proof.(Intent) &&
  LinuxCloneTargetRemovalProof.Validate proof.(TargetRemovalProof) &&
  LinuxCloneCleanupIntent.Equal proof.(TargetRemovalProof).(LinuxCloneTargetRemovalProof.Intent) proof.(Intent) &&
  proof.(SeedAbsent) && proof.(BaseRefAbsent) && proof.(ScratchAbsent) && proof.(PromotionRefPresent).
End LinuxCloneCleanupProof.
#[export] Existing Instance LinuxCloneCleanupProof.eq_dec.
#[export] Existing Instance LinuxCloneCleanupProof.Equal_spec.
