(* ===== verification/Protocol.v ===== *)
(** * Protocol: the wire types the run journal stores

    src/daemon/internal/protocol: the fence, events, transitions,
    acknowledgements and work of protocol v1 (protocol.go), the Subject and
    its canonical hash (goal_subject.go), the field validators
    (goal_validation.go), the evidence and usage envelopes
    (goal_results.go) and the recognition of an admission inside a work input
    (goal_admission.go). A validator is the boolean [err == nil]. The JSON
    written by encoding/json for these structs is written out, because the
    state package hashes it. *)

From S2P Require Import Prelude Sha256 Json Authority.
Open Scope string_scope.
Open Scope Z_scope.

(** ** Field validators (goal_subject.go, goal_validation.go) *)

Definition MaxJSONSafeInteger : Z := 9007199254740991.

Definition nth_byte (n : nat) (s : string) : Z :=
  match String.get n s with Some a => byte_at a | None => -1 end.

(** A rune loop over [value] that accepts ASCII runes only rejects at the
    first non-ASCII byte, so the loops below are byte loops. *)
Definition validateUUID (value : string) : bool :=
  (len value =? 36) &&
  string_forallb_at (fun n a => if dash_position n then Ascii.eqb a "-" else lower_hex_digit a) 0 value &&
  between 49 (nth_byte 14 value) 53 &&
  (let v := nth_byte 19 value in (v =? 56) || (v =? 57) || (v =? 97) || (v =? 98)).

Definition validateGitObjectID (value : string) : bool :=
  ((len value =? 40) || (len value =? 64)) && string_forallb lower_hex_digit value.

Definition validateSHA256 (value : string) : bool :=
  (len value =? 71) && has_prefix "sha256:" value && string_forallb lower_hex_digit (trim_prefix_len 7 value).

Definition validateSafeNonNegativeInt (value : Z) : bool := (0 <=? value) && (value <=? MaxJSONSafeInteger).

Definition identifier_punctuation (a : ascii) : bool :=
  Ascii.eqb a "." || Ascii.eqb a "_" || Ascii.eqb a ":" || Ascii.eqb a "-".

Definition validateShortIdentifier (value : string) : bool :=
  (1 <=? len value) && (len value <=? 128) &&
  match value with
  | "" => false
  | String a rest =>
      isASCIIAlphaNumeric a &&
      string_forallb (fun c => isASCIIAlphaNumeric c || identifier_punctuation c) rest
  end.

Definition validateLongText (value : string) : bool :=
  ValidString value && (1 <=? RuneCountInString value) && (RuneCountInString value <=? 16384).

Fixpoint contains_double_slash (s : string) : bool :=
  match s with
  | String a ((String b _) as s') => Ascii.eqb a "/" && Ascii.eqb b "/" || contains_double_slash s'
  | _ => false
  end.

Definition validateCommitPath (value : string) : bool :=
  ValidString value && (1 <=? RuneCountInString value) && (RuneCountInString value <=? 1024) &&
  negb (byte_is value 0 "/") && negb (contains_byte (fun a => (byte_at a =? 0) || (byte_at a =? 92)) value) &&
  negb (contains_double_slash value) && forallb (fun part => part <>s "..") (split_slash value).

Fixpoint decimal_value (acc : Z) (s : string) : Z :=
  match s with "" => acc | String a s' => decimal_value (acc * 10 + (byte_at a - 48)) s' end.

(** [strconv.ParseUint(value, 10, 63)] on digits: in range of a bigint. *)
Definition ValidateMicroUSD (value : string) : bool :=
  (value <>s "") && (len value <=? 19) && negb ((1 <? len value) && byte_is value 0 "0") &&
  string_forallb is_digit value && (decimal_value 0 value <? 2 ^ 63).

(** [time.Parse(time.RFC3339Nano, value)] on a value that ends in [Z]: the
    layout's fields in order. The hour may have one digit, and the fraction,
    of any length, may follow a comma or a period. *)
Definition fixed2 (s : string) : option (Z * string) :=
  match s with
  | String a (String b r) =>
      if is_digit a && is_digit b then Some ((byte_at a - 48) * 10 + (byte_at b - 48), r) else None
  | _ => None
  end.

Definition getnum_hour (s : string) : option (Z * string) :=
  match s with
  | String a r =>
      if is_digit a then
        match r with
        | String b r' =>
            if is_digit b then Some ((byte_at a - 48) * 10 + (byte_at b - 48), r') else Some (byte_at a - 48, r)
        | "" => Some (byte_at a - 48, "")
        end
      else None
  | "" => None
  end.

Definition expect (c : ascii) (s : string) : option string :=
  match s with String a r => if Ascii.eqb a c then Some r else None | "" => None end.

Definition is_leap (year : Z) : bool :=
  (year mod 4 =? 0) && (negb (year mod 100 =? 0) || (year mod 400 =? 0)).

Definition daysIn (month year : Z) : Z :=
  if month =? 2 then if is_leap year then 29 else 28
  else if (month =? 4) || (month =? 6) || (month =? 9) || (month =? 11) then 30 else 31.

Definition skip_fraction (s : string) : string :=
  match s with
  | String c (String d _ as r) =>
      if (Ascii.eqb c "." || Ascii.eqb c ",") && is_digit d then (span_digits r).2 else s
  | _ => s
  end.

Definition parses_RFC3339Nano_Z (s : string) : bool :=
  match
    y1 ← fixed2 s; y2 ← fixed2 y1.2; s1 ← expect "-" y2.2;
    mo ← fixed2 s1; s2 ← expect "-" mo.2;
    d ← fixed2 s2; s3 ← expect "T" d.2;
    h ← getnum_hour s3; s4 ← expect ":" h.2;
    mi ← fixed2 s4; s5 ← expect ":" mi.2;
    se ← fixed2 s5;
    rest ← expect "Z" (skip_fraction se.2);
    Some (y1.1 * 100 + y2.1, mo.1, d.1, h.1, mi.1, se.1, rest)
  with
  | Some (year, month, day, hour, minute, second, rest) =>
      between 1 month 12 && between 1 day (daysIn month year) && (hour <=? 23) && (minute <=? 59) &&
      (second <=? 59) && (rest =s "")
  | None => false
  end.

Definition validateUTCTimestamp (value : string) : bool :=
  negb (blank value) && non_nil (strip_suffix "Z" value) && parses_RFC3339Nano_Z value.

(** ** Writing structs as encoding/json does *)

Fixpoint join_comma (l : list string) : string :=
  match l with
  | [] => ""
  | [x] => x
  | x :: l' => x ++ "," ++ join_comma l'
  end.

Definition enc_object (fields : list (string * string)) : string :=
  "{" ++ join_comma (map (fun f => quote ++ f.1 ++ quote ++ ":" ++ f.2) fields) ++ "}".
Definition enc_array (items : list string) : string := "[" ++ join_comma items ++ "]".
Definition enc_bool (b : bool) : string := if b then "true" else "false".
(** [html] is the encoder's SetEscapeHTML setting: on for [json.Marshal],
    off for the journal writer. *)
Definition enc_str (html : bool) (s : string) : string := encode_string html s.
Definition enc_ptr {A} (enc : A -> string) (o : option A) : string :=
  match o with None => "null" | Some a => enc a end.

(** A field tagged [omitempty]. *)
Definition omit_ptr {A} (name : string) (enc : A -> string) (o : option A) : list (string * string) :=
  match o with None => [] | Some a => [(name, enc a)] end.
Definition omit_str (html : bool) (name value : string) : list (string * string) :=
  if value =s "" then [] else [(name, enc_str html value)].
Definition omit_bool (name : string) (value : bool) : list (string * string) :=
  if value then [(name, "true")] else [].

(** ** Protocol v1 (protocol.go) *)

Module Fence.
Record t : Type := mk {
  RuntimeID : string;
  RuntimeEpoch : Z;
  Generation : Z;
  ClaimID : string;
  LeaseToken : string
}.
#[export] Instance eq_dec : EqDecision t.
Proof. solve_decision. Defined.
Definition zero : t := mk "" 0 0 "" "".
Definition encode (html : bool) (fence : t) : string :=
  enc_object [("runtime_id", enc_str html fence.(RuntimeID)); ("runtime_epoch", FormatInt fence.(RuntimeEpoch));
              ("generation", FormatInt fence.(Generation)); ("claim_id", enc_str html fence.(ClaimID));
              ("lease_token", enc_str html fence.(LeaseToken))].
End Fence.
#[export] Existing Instance Fence.eq_dec.

(** [left == right] on comparable structs. *)
Definition sameFence (left right : Fence.t) : bool := bool_decide (left = right).
Definition isZeroFence (fence : Fence.t) : bool := bool_decide (fence = Fence.zero).

Module RunEvent.
Record t : Type := mk {
  EventID : string;
  Sequence : Z;
  Kind : string;
  OccurredAt : time;
  Payload : string
}.
#[export] Instance eq_dec : EqDecision t.
Proof. solve_decision. Defined.
End RunEvent.
#[export] Existing Instance RunEvent.eq_dec.

Module StateTransitionRequest.
Record t : Type := mk {
  fence : Fence.t;
  TransitionID : string;
  State : string;
  Payload : string
}.
#[export] Instance eq_dec : EqDecision t.
Proof. solve_decision. Defined.
End StateTransitionRequest.
#[export] Existing Instance StateTransitionRequest.eq_dec.

Module CommandAcknowledgement.
Record t : Type := mk {
  fence : Fence.t;
  RunID : string;
  CommandID : string;
  Outcome : string;
  AckID : string
}.
#[export] Instance eq_dec : EqDecision t.
Proof. solve_decision. Defined.
End CommandAcknowledgement.
#[export] Existing Instance CommandAcknowledgement.eq_dec.

(** [Work] without [present], the decoder's note of which fields were sent,
    which only the control client reads. *)
Module Work.
Record t : Type := mk {
  Goal : string;
  AgentProfile : string;
  Workspace : string;
  Input : string;
  RequiredCapabilities : gmap string bool
}.
#[export] Instance eq_dec : EqDecision t.
Proof. solve_decision. Defined.
End Work.
#[export] Existing Instance Work.eq_dec.

(** The fields of [ClaimResponse] that reach the journal. *)
Module ClaimResponse.
Record t : Type := mk {
  RunID : string;
  Generation : Z;
  ClaimID : string;
  LeaseToken : string;
  LeaseExpiresAt : time;
  work : Work.t
}.
End ClaimResponse.

(** ** Canonical JSON (goal_subject.go) *)

(** The value [encoding/json] decodes into a [map] keeps the last of two
    equal keys, and [sort.Strings] orders keys bytewise. *)
Fixpoint insert_member {A} (key : string) (value : A) (l : list (string * A)) : list (string * A) :=
  match l with
  | [] => [(key, value)]
  | (k, v) :: l' =>
      match String.compare key k with
      | Lt => (key, value) :: l
      | Eq => (key, value) :: l'
      | Gt => (k, v) :: insert_member key value l'
      end
  end.

Definition sorted_members {A} (l : list (string * A)) : list (string * A) :=
  fold_left (fun acc m => insert_member m.1 m.2 acc) l [].

Definition simple_escape_letter (b : Z) : bool :=
  (b =? 92) || (b =? 34) || (b =? 47) || (b =? 98) || (b =? 102) || (b =? 110) || (b =? 114) || (b =? 116).

Fixpoint normalizeJSONStringLineSeparators (encoded : string) : string :=
  match encoded with
  | "" => ""
  | String a r1 =>
      if negb (byte_at a =? 92) then String a (normalizeJSONStringLineSeparators r1)
      else match r1 with
           | "" => String a ""
           | String b r2 =>
               if simple_escape_letter (byte_at b) then String a (String b (normalizeJSONStringLineSeparators r2))
               else if byte_at b =? 117 then
                 match r2 with
                 | String c (String d (String e (String f r))) =>
                     let code := String c (String d (String e (String f ""))) in
                     (if code =s "2028" then encode_rune 8232
                      else if code =s "2029" then encode_rune 8233
                      else String a (String b code)) ++ normalizeJSONStringLineSeparators r
                 | _ => String a (normalizeJSONStringLineSeparators r1)
                 end
               else String a (normalizeJSONStringLineSeparators r1)
           end
  end.

Definition marshalJSONString (value : string) : string :=
  normalizeJSONStringLineSeparators (encode_string false value).

Fixpoint writeCanonicalJSON (value : json) : string :=
  match value with
  | JNull => "null"
  | JBool b => if b then "true" else "false"
  | JNumber lit => if lit =s "-0" then "0" else lit
  | JString s => marshalJSONString s
  | JArray l => "[" ++ join_comma (map writeCanonicalJSON l) ++ "]"
  | JObject l =>
      "{" ++ join_comma (map (fun m => marshalJSONString m.1 ++ ":" ++ m.2)
                           (sorted_members (map (fun m => (m.1, writeCanonicalJSON m.2)) l))) ++ "}"
  end.

Definition CanonicalizeJSON (data : string) : option string :=
  if negb (ValidString data) then None else option_map writeCanonicalJSON (parse_document data).

Module Subject.
Record t : Type := mk {
  ResourceID : string;
  Commit : string;
  TreeDigest : string
}.
#[export] Instance eq_dec : EqDecision t.
Proof. solve_decision. Defined.

Definition Validate (subject : t) : bool :=
  validateUUID subject.(ResourceID) && validateGitObjectID subject.(Commit) && validateSHA256 subject.(TreeDigest).

Definition encode (html : bool) (subject : t) : string :=
  enc_object [("resource_id", enc_str html subject.(ResourceID)); ("commit", enc_str html subject.(Commit));
              ("tree_digest", enc_str html subject.(TreeDigest))].

Definition CanonicalJSON (subject : t) : option string :=
  if negb (Validate subject) then None else CanonicalizeJSON (encode true subject).

Definition Hash (subject : t) : option string :=
  option_map (fun canonical => "sha256:" ++ sha256_hex canonical) (CanonicalJSON subject).
End Subject.
#[export] Existing Instance Subject.eq_dec.

(** ** Evidence (goal_results.go)

    [present] is the decoder's map from member name to raw text: nil on a
    value the daemon built itself. *)

Abbreviation presence := (gmap string string) (only parsing).
Definition has_field (present : presence) (name : string) : bool := non_nil (present !! name).
Definition has_null_field (present : presence) (name : string) : bool :=
  some_and (present !! name) (fun raw => raw =s "null").

Definition EvidenceCheck : string := "check".
Definition EvidenceArtifact : string := "artifact".
Definition EvidenceReview : string := "review".
Definition EvidenceObservation : string := "observation".

Definition validEvidenceKind (kind : string) : bool :=
  string_in kind [EvidenceCheck; EvidenceArtifact; EvidenceReview; EvidenceObservation].
Definition validateEvidenceVerdict (verdict : string) : bool :=
  string_in verdict ["passed"; "failed"; "unknown"; "not_applicable"].

Module SourceRef.
Record t : Type := mk {
  Kind : string;
  Ref : string;
  ValidatorProfile : option string;
  SubjectHash : option string;
  ResourceID : option string;
  Commit : option string;
  Path : option string;
  ReviewTaskID : option string;
  ExternalRef : option string;
  present : presence
}.
#[export] Instance eq_dec : EqDecision t.
Proof. solve_decision. Defined.

Definition Validate (source : t) : bool :=
  validEvidenceKind source.(Kind) && validateShortIdentifier source.(Ref) &&
  none_or source.(ResourceID) validateUUID &&
  negb (has_null_field source.(present) "resource_id" || has_null_field source.(present) "commit") &&
  none_or source.(Commit) validateGitObjectID && none_or source.(ValidatorProfile) validateShortIdentifier &&
  none_or source.(SubjectHash) validateSHA256 && none_or source.(Path) validateCommitPath &&
  none_or source.(ReviewTaskID) validateUUID && none_or source.(ExternalRef) validateLongText.

Definition hasField (source : t) (name : string) : bool := has_field source.(present) name.
Definition hasArtifactIdentity (source : t) : bool :=
  non_nil source.(ResourceID) || non_nil source.(Commit) || non_nil source.(Path) ||
  hasField source "resource_id" || hasField source "commit" || hasField source "path".
Definition hasReviewIdentity (source : t) : bool := non_nil source.(ReviewTaskID) || hasField source "review_task_id".
Definition hasObservationIdentity (source : t) : bool := non_nil source.(ExternalRef) || hasField source "external_ref".

Definition fields (html : bool) (source : t) : list (string * string) :=
  [("kind", enc_str html source.(Kind)); ("ref", enc_str html source.(Ref))] ++
  omit_ptr "validator_profile" (enc_str html) source.(ValidatorProfile) ++
  omit_ptr "subject_hash" (enc_str html) source.(SubjectHash) ++ omit_ptr "resource_id" (enc_str html) source.(ResourceID) ++
  omit_ptr "commit" (enc_str html) source.(Commit) ++ omit_ptr "path" (enc_str html) source.(Path) ++
  omit_ptr "review_task_id" (enc_str html) source.(ReviewTaskID) ++ omit_ptr "external_ref" (enc_str html) source.(ExternalRef).
End SourceRef.
#[export] Existing Instance SourceRef.eq_dec.

Module OutputRef.
Record t : Type := mk {
  Kind : string;
  Value : string
}.
#[export] Instance eq_dec : EqDecision t.
Proof. solve_decision. Defined.
Definition Validate (output : t) : bool :=
  ((output.(Kind) =s "inline") || (output.(Kind) =s "artifact")) && validateLongText output.(Value).
Definition encode (html : bool) (output : t) : string :=
  enc_object [("kind", enc_str html output.(Kind)); ("value", enc_str html output.(Value))].
End OutputRef.
#[export] Existing Instance OutputRef.eq_dec.

Module ReviewFinding.
Record t : Type := mk {
  Severity : string;
  Code : option string;
  Summary : string;
  Detail : option string;
  present : presence
}.
#[export] Instance eq_dec : EqDecision t.
Proof. solve_decision. Defined.
Definition Validate (finding : t) : bool :=
  string_in finding.(Severity) ["info"; "low"; "medium"; "high"; "critical"] &&
  validateLongText finding.(Summary) && none_or finding.(Code) validateShortIdentifier &&
  negb (has_null_field finding.(present) "code" || has_null_field finding.(present) "detail") &&
  none_or finding.(Detail) validateLongText.
Definition fields (html : bool) (finding : t) : list (string * string) :=
  [("severity", enc_str html finding.(Severity))] ++ omit_ptr "code" (enc_str html) finding.(Code) ++
  [("summary", enc_str html finding.(Summary))] ++ omit_ptr "detail" (enc_str html) finding.(Detail).
End ReviewFinding.
#[export] Existing Instance ReviewFinding.eq_dec.

Module Receipt.
Record t : Type := mk {
  PredicateID : option string;
  subject : option Subject.t;
  ProfileDigest : option string;
  CommandArgvDigest : option string;
  ExitCode : option Z;
  SubjectHash : option string;
  StartedAt : option string;
  FinishedAt : option string;
  outputRef : option OutputRef.t;
  ResourceID : option string;
  Commit : option string;
  Path : option string;
  ContentDigest : option string;
  ReviewTaskID : option string;
  (** [None] is the nil slice, [Some []] the empty one. *)
  Findings : option (list ReviewFinding.t);
  Verdict : option string;
  ExternalRef : option string;
  ObservedAt : option string;
  Note : option string;
  present : presence
}.
#[export] Instance eq_dec : EqDecision t.
Proof. solve_decision. Defined.

Definition hasField (receipt : t) (name : string) : bool := has_field receipt.(present) name.

Definition allowed (kind : string) : list string :=
  ["predicate_id"; "subject"; "subject_hash"] ++
  (if kind =s EvidenceCheck then
     ["profile_digest"; "command_argv_digest"; "exit_code"; "started_at"; "finished_at"; "output_ref"]
   else if kind =s EvidenceArtifact then ["resource_id"; "commit"; "path"; "content_digest"]
   else if kind =s EvidenceReview then ["review_task_id"; "findings"; "verdict"]
   else ["external_ref"; "observed_at"; "note"]).

Definition validateForKind (receipt : t) (kind : string) : bool :=
  forallb (fun m => string_in m.1 (allowed kind)) (map_to_list receipt.(present)) &&
  some_and receipt.(PredicateID) validateShortIdentifier &&
  some_and receipt.(subject) Subject.Validate && some_and receipt.(SubjectHash) validateSHA256 &&
  (if kind =s EvidenceCheck then
     some_and receipt.(ProfileDigest) validateSHA256 && some_and receipt.(CommandArgvDigest) validateSHA256 &&
     some_and receipt.(ExitCode) (fun code => between 0 code 255) &&
     some_and receipt.(StartedAt) validateUTCTimestamp && some_and receipt.(FinishedAt) validateUTCTimestamp &&
     some_and receipt.(outputRef) OutputRef.Validate
   else if kind =s EvidenceArtifact then
     some_and receipt.(ResourceID) validateUUID && some_and receipt.(Commit) validateGitObjectID &&
     some_and receipt.(Path) validateCommitPath && some_and receipt.(ContentDigest) validateSHA256
   else if kind =s EvidenceReview then
     hasField receipt "findings" && some_and receipt.(ReviewTaskID) validateUUID &&
     some_and receipt.(Verdict) validateEvidenceVerdict &&
     some_and receipt.(Findings) (fun findings =>
       (llen findings <=? 512) && forallb ReviewFinding.Validate findings)
   else if kind =s EvidenceObservation then
     some_and receipt.(ExternalRef) validateLongText && some_and receipt.(ObservedAt) validateUTCTimestamp &&
     some_and receipt.(Note) validateLongText
   else false).

(** [omitempty] drops an empty [Findings] slice as well as a nil one. *)
Definition findings_field (html : bool) (findings : option (list ReviewFinding.t)) : list (string * string) :=
  match findings with
  | None | Some [] => []
  | Some l => [("findings", enc_array (map (fun f => enc_object (ReviewFinding.fields html f)) l))]
  end.

Definition fields (html : bool) (receipt : t) : list (string * string) :=
  omit_ptr "predicate_id" (enc_str html) receipt.(PredicateID) ++
  omit_ptr "subject" (Subject.encode html) receipt.(subject) ++
  omit_ptr "profile_digest" (enc_str html) receipt.(ProfileDigest) ++
  omit_ptr "command_argv_digest" (enc_str html) receipt.(CommandArgvDigest) ++
  omit_ptr "exit_code" FormatInt receipt.(ExitCode) ++
  omit_ptr "subject_hash" (enc_str html) receipt.(SubjectHash) ++
  omit_ptr "started_at" (enc_str html) receipt.(StartedAt) ++ omit_ptr "finished_at" (enc_str html) receipt.(FinishedAt) ++
  omit_ptr "output_ref" (OutputRef.encode html) receipt.(outputRef) ++
  omit_ptr "resource_id" (enc_str html) receipt.(ResourceID) ++ omit_ptr "commit" (enc_str html) receipt.(Commit) ++
  omit_ptr "path" (enc_str html) receipt.(Path) ++ omit_ptr "content_digest" (enc_str html) receipt.(ContentDigest) ++
  omit_ptr "review_task_id" (enc_str html) receipt.(ReviewTaskID) ++ findings_field html receipt.(Findings) ++
  omit_ptr "verdict" (enc_str html) receipt.(Verdict) ++ omit_ptr "external_ref" (enc_str html) receipt.(ExternalRef) ++
  omit_ptr "observed_at" (enc_str html) receipt.(ObservedAt) ++ omit_ptr "note" (enc_str html) receipt.(Note).
End Receipt.
#[export] Existing Instance Receipt.eq_dec.

Module Evidence.
Record t : Type := mk {
  SchemaVersion : string;
  EvidenceID : string;
  RunID : string;
  EvidenceKey : string;
  Kind : string;
  subject : Subject.t;
  SubjectHash : string;
  sourceRef : SourceRef.t;
  SourceRevision : string;
  ValidatorProfile : option string;
  Verdict : string;
  Payload : Receipt.t;
  ObservedAt : string
}.
#[export] Instance eq_dec : EqDecision t.
Proof. solve_decision. Defined.

(** [left != nil && right != nil && *left == *right] *)
Definition same_ptr (left right : option string) : bool :=
  some_and left (fun l => some_and right (fun r => l =s r)).

Definition validSourceIdentity (evidence : t) : bool :=
  let source := evidence.(sourceRef) in
  if evidence.(Kind) =s EvidenceCheck then
    non_nil source.(SourceRef.ValidatorProfile) &&
    negb (SourceRef.hasArtifactIdentity source || SourceRef.hasReviewIdentity source ||
          SourceRef.hasObservationIdentity source)
  else if evidence.(Kind) =s EvidenceArtifact then
    non_nil source.(SourceRef.ResourceID) && non_nil source.(SourceRef.Commit) && non_nil source.(SourceRef.Path) &&
    negb (SourceRef.hasField source "validator_profile" || SourceRef.hasReviewIdentity source ||
          SourceRef.hasObservationIdentity source)
  else if evidence.(Kind) =s EvidenceReview then
    non_nil source.(SourceRef.ReviewTaskID) &&
    negb (SourceRef.hasField source "validator_profile" || SourceRef.hasArtifactIdentity source ||
          SourceRef.hasObservationIdentity source)
  else
    non_nil source.(SourceRef.ExternalRef) &&
    negb (SourceRef.hasField source "validator_profile" || SourceRef.hasArtifactIdentity source ||
          SourceRef.hasReviewIdentity source).

Definition validPayloadIdentity (evidence : t) : bool :=
  let source := evidence.(sourceRef) in
  let payload := evidence.(Payload) in
  if evidence.(Kind) =s EvidenceArtifact then
    same_ptr source.(SourceRef.ResourceID) payload.(Receipt.ResourceID) &&
    same_ptr source.(SourceRef.Commit) payload.(Receipt.Commit) &&
    same_ptr source.(SourceRef.Path) payload.(Receipt.Path) &&
    some_and payload.(Receipt.ResourceID) (fun id => id =s evidence.(subject).(Subject.ResourceID)) &&
    some_and payload.(Receipt.Commit) (fun commit => commit =s evidence.(subject).(Subject.Commit))
  else if evidence.(Kind) =s EvidenceReview then
    same_ptr source.(SourceRef.ReviewTaskID) payload.(Receipt.ReviewTaskID)
  else if evidence.(Kind) =s EvidenceObservation then
    same_ptr source.(SourceRef.ExternalRef) payload.(Receipt.ExternalRef)
  else true.

Definition Validate (evidence : t) : bool :=
  let source := evidence.(sourceRef) in
  let kind := evidence.(Kind) in
  (evidence.(SchemaVersion) =s "symmetry.evidence.v1") && validateUUID evidence.(EvidenceID) &&
  validateUUID evidence.(RunID) && validateShortIdentifier evidence.(EvidenceKey) && validEvidenceKind kind &&
  validateSHA256 evidence.(SubjectHash) && Subject.Validate evidence.(subject) &&
  some_and (Subject.Hash evidence.(subject)) (fun computed => computed =s evidence.(SubjectHash)) &&
  SourceRef.Validate source && (source.(SourceRef.Kind) =s kind) &&
  some_and source.(SourceRef.SubjectHash) (fun h => h =s evidence.(SubjectHash)) &&
  negb (((kind =s EvidenceCheck) || (kind =s EvidenceArtifact) || (kind =s EvidenceReview)) &&
        is_nil evidence.(ValidatorProfile)) &&
  none_or evidence.(ValidatorProfile) validateShortIdentifier &&
  none_or source.(SourceRef.ValidatorProfile) (fun p => none_or evidence.(ValidatorProfile) (fun q => p =s q)) &&
  negb ((kind =s EvidenceCheck) && is_nil source.(SourceRef.ValidatorProfile)) &&
  validSourceIdentity evidence && validateShortIdentifier evidence.(SourceRevision) &&
  validateEvidenceVerdict evidence.(Verdict) && Receipt.validateForKind evidence.(Payload) kind &&
  negb ((kind =s EvidenceReview) &&
        some_and evidence.(Payload).(Receipt.Verdict) (fun v => v <>s evidence.(Verdict))) &&
  some_and evidence.(Payload).(Receipt.subject) (fun s => bool_decide (s = evidence.(subject))) &&
  some_and evidence.(Payload).(Receipt.SubjectHash) (fun h => h =s evidence.(SubjectHash)) &&
  validPayloadIdentity evidence && validateUTCTimestamp evidence.(ObservedAt).

Definition encode (html : bool) (evidence : t) : string :=
  enc_object
    [("schema_version", enc_str html evidence.(SchemaVersion)); ("evidence_id", enc_str html evidence.(EvidenceID));
     ("run_id", enc_str html evidence.(RunID)); ("evidence_key", enc_str html evidence.(EvidenceKey));
     ("kind", enc_str html evidence.(Kind)); ("subject", Subject.encode html evidence.(subject));
     ("subject_hash", enc_str html evidence.(SubjectHash));
     ("source_ref", enc_object (SourceRef.fields html evidence.(sourceRef)));
     ("source_revision", enc_str html evidence.(SourceRevision));
     ("validator_profile", enc_ptr (enc_str html) evidence.(ValidatorProfile)); ("verdict", enc_str html evidence.(Verdict));
     ("payload", enc_object (Receipt.fields html evidence.(Payload))); ("observed_at", enc_str html evidence.(ObservedAt))].

(** What [UnmarshalJSON] makes of [encode evidence]: the same values, the
    members that were written noted as present, an empty findings slice
    lost; and an error when the result does not validate. *)
Definition written (fields : list (string * string)) : presence := list_to_map fields.

Definition reread_source (source : SourceRef.t) : SourceRef.t :=
  SourceRef.mk source.(SourceRef.Kind) source.(SourceRef.Ref) source.(SourceRef.ValidatorProfile)
    source.(SourceRef.SubjectHash) source.(SourceRef.ResourceID) source.(SourceRef.Commit) source.(SourceRef.Path)
    source.(SourceRef.ReviewTaskID) source.(SourceRef.ExternalRef) (written (SourceRef.fields false source)).

Definition reread_finding (finding : ReviewFinding.t) : ReviewFinding.t :=
  ReviewFinding.mk finding.(ReviewFinding.Severity) finding.(ReviewFinding.Code) finding.(ReviewFinding.Summary)
    finding.(ReviewFinding.Detail) (written (ReviewFinding.fields false finding)).

Definition reread_findings (findings : option (list ReviewFinding.t)) : option (list ReviewFinding.t) :=
  match findings with
  | None | Some [] => None
  | Some l => Some (map reread_finding l)
  end.

Definition reread_receipt (receipt : Receipt.t) : Receipt.t :=
  Receipt.mk receipt.(Receipt.PredicateID) receipt.(Receipt.subject) receipt.(Receipt.ProfileDigest)
    receipt.(Receipt.CommandArgvDigest) receipt.(Receipt.ExitCode) receipt.(Receipt.SubjectHash)
    receipt.(Receipt.StartedAt) receipt.(Receipt.FinishedAt) receipt.(Receipt.outputRef)
    receipt.(Receipt.ResourceID) receipt.(Receipt.Commit) receipt.(Receipt.Path) receipt.(Receipt.ContentDigest)
    receipt.(Receipt.ReviewTaskID) (reread_findings receipt.(Receipt.Findings)) receipt.(Receipt.Verdict)
    receipt.(Receipt.ExternalRef) receipt.(Receipt.ObservedAt) receipt.(Receipt.Note)
    (written (Receipt.fields false receipt)).

Definition reread (evidence : t) : t :=
  mk evidence.(SchemaVersion) evidence.(EvidenceID) evidence.(RunID) evidence.(EvidenceKey) evidence.(Kind)
    evidence.(subject) evidence.(SubjectHash) (reread_source evidence.(sourceRef)) evidence.(SourceRevision)
    evidence.(ValidatorProfile) evidence.(Verdict) (reread_receipt evidence.(Payload)) evidence.(ObservedAt).
End Evidence.
#[export] Existing Instance Evidence.eq_dec.

Module Usage.
Record t : Type := mk {
  SchemaVersion : string;
  UsageID : string;
  RunID : string;
  UsageKey : string;
  Provider : string;
  Model : string;
  InputTokens : option Z;
  OutputTokens : option Z;
  CachedInputTokens : option Z;
  CostMicrousd : option string;
  CostBasis : string;
  PriceVersion : option string;
  SupersedesID : option string;
  ObservedAt : string
}.
#[export] Instance eq_dec : EqDecision t.
Proof. solve_decision. Defined.

Definition Validate (usage : t) : bool :=
  (usage.(SchemaVersion) =s "symmetry.usage.v1") && validateUUID usage.(UsageID) && validateUUID usage.(RunID) &&
  validateShortIdentifier usage.(UsageKey) && validateShortIdentifier usage.(Provider) &&
  validateShortIdentifier usage.(Model) && none_or usage.(InputTokens) validateSafeNonNegativeInt &&
  none_or usage.(OutputTokens) validateSafeNonNegativeInt &&
  none_or usage.(CachedInputTokens) validateSafeNonNegativeInt &&
  (if (usage.(CostBasis) =s "reported") || (usage.(CostBasis) =s "estimated") then
     some_and usage.(CostMicrousd) ValidateMicroUSD
   else (usage.(CostBasis) =s "unknown") && is_nil usage.(CostMicrousd)) &&
  none_or usage.(PriceVersion) validateShortIdentifier && none_or usage.(SupersedesID) validateUUID &&
  validateUTCTimestamp usage.(ObservedAt).

Definition encode (html : bool) (usage : t) : string :=
  enc_object
    [("schema_version", enc_str html usage.(SchemaVersion)); ("usage_id", enc_str html usage.(UsageID));
     ("run_id", enc_str html usage.(RunID)); ("usage_key", enc_str html usage.(UsageKey));
     ("provider", enc_str html usage.(Provider)); ("model", enc_str html usage.(Model));
     ("input_tokens", enc_ptr FormatInt usage.(InputTokens)); ("output_tokens", enc_ptr FormatInt usage.(OutputTokens));
     ("cached_input_tokens", enc_ptr FormatInt usage.(CachedInputTokens));
     ("cost_microusd", enc_ptr (enc_str html) usage.(CostMicrousd)); ("cost_basis", enc_str html usage.(CostBasis));
     ("price_version", enc_ptr (enc_str html) usage.(PriceVersion));
     ("supersedes_id", enc_ptr (enc_str html) usage.(SupersedesID)); ("observed_at", enc_str html usage.(ObservedAt))].
End Usage.
#[export] Existing Instance Usage.eq_dec.

(** ** Recognising an admission inside a work input (goal_admission.go) *)

(** The fields of an [Admission] the state package reads. *)
Module Admission.
Record t : Type := mk {
  Purpose : string;
  subject : Subject.t
}.
End Admission.

(** [json.Unmarshal] of an object into [map[string]json.RawMessage]: the
    members with the bytes of their values, in order. *)
Definition slice_until (s rest : string) : string := stake (String.length s - String.length rest) s.

Fixpoint raw_members_from (fuel : nat) (s : string) : option (list (string * string)) :=
  match fuel with
  | O => None
  | S fuel' =>
      r0 ← expect (chr 34) (skip_ws s);
      '(raw, r1) ← scan_string r0;
      r2 ← expect ":" (skip_ws r1);
      let v := skip_ws r2 in
      '(_, r3) ← parse_value (parse_fuel v) 1 v;
      let member := (unquote raw, slice_until v r3) in
      match skip_ws r3 with
      | String c r4 =>
          if Ascii.eqb c "}" then Some [member]
          else if Ascii.eqb c "," then option_map (cons member) (raw_members_from fuel' r4) else None
      | "" => None
      end
  end.

Definition raw_members (data : string) : option (list (string * string)) :=
  match parse_document data with
  | Some (JObject []) => Some []
  | Some (JObject _) =>
      match skip_ws data with String _ r => raw_members_from (String.length r) r | "" => None end
  | _ => None
  end.

Fixpoint last_member (key : string) (l : list (string * string)) : option string :=
  match l with
  | [] => None
  | (k, v) :: l' => match last_member key l' with Some r => Some r | None => if k =s key then Some v else None end
  end.

Definition count_member (key : string) (l : list (string * string)) : nat :=
  length (filter (fun m => m.1 = key) l).

(** [RejectDuplicateTopLevelJSONMembers]: among the watched names only. *)
Definition top_level_unique (members : list string) (l : list (string * string)) : bool :=
  forallb (fun name => (count_member name l <=? 1)%nat) members.

Definition AdmissionSchemaVersion : string := "symmetry.admission.v1".

(** [admissionInputSchemaVersion]: outer [None] is the error, inner [None]
    an absent member. *)
Definition admissionInputSchemaVersion (fields : list (string * string)) : option (option string) :=
  match last_member "schema_version" fields with
  | None => Some None
  | Some raw =>
      match parse_document raw with
      | Some (JString s) => if s =s "" then None else Some (Some s)
      | _ => None
      end
  end.

Definition isAdmissionShapedInput (fields : list (string * string)) : bool :=
  existsb (fun m => string_in m.1
    ["admission_id"; "context_snapshot_id"; "context_hash"; "session_mode"; "requested_session_id";
     "handoff_source_run_id"; "limits"; "validation_of_task_id"; "provider_scope"]) fields.

Definition isUnsupportedAdmissionSchema (schemaVersion : string) : bool :=
  let trimmed := TrimSpace schemaVersion in
  (schemaVersion <>s AdmissionSchemaVersion) &&
  ((trimmed =s "symmetry.admission") || has_prefix "symmetry.admission." trimmed).

Definition not_an_object (trimmed : string) : bool :=
  (len trimmed =? 0) || (trimmed =s "null") || negb (byte_is trimmed 0 "{").

(** [ParseAdmission] checks an envelope against the generated JSON schemas
    with a third-party validator: a parameter of everything that reads an
    admission. *)
Class AdmissionParser : Type := ParseAdmission : string -> option Admission.t.

Section Admissions.
Context `{AdmissionParser}.

(** [ParseAdmissionInput]: [None] is an error, [Some None] an input that is
    no admission. *)
Definition ParseAdmissionInput (input : string) : option (option Admission.t) :=
  let trimmed := TrimSpace input in
  if not_an_object trimmed then Some None else
  fields ← raw_members trimmed;
  if negb (top_level_unique ["goal_admission"; "schema_version"] fields) then None else
  outerSchema ← admissionInputSchemaVersion fields;
  match last_member "goal_admission" fields with
  | Some nested =>
      if some_and outerSchema (fun v => v =s AdmissionSchemaVersion) then None
      else if some_and outerSchema isUnsupportedAdmissionSchema then None
      else if isAdmissionShapedInput fields then None
      else
        let nested := TrimSpace nested in
        if not_an_object nested then Some None else
        nestedFields ← raw_members nested;
        if negb (top_level_unique ["schema_version"] nestedFields) then None else
        nestedSchema ← admissionInputSchemaVersion nestedFields;
        match nestedSchema with
        | None => if isAdmissionShapedInput nestedFields then None else Some None
        | Some v => if v <>s AdmissionSchemaVersion then None else option_map Some (ParseAdmission nested)
        end
  | None =>
      match outerSchema with
      | None => if isAdmissionShapedInput fields then None else Some None
      | Some v =>
          if v <>s AdmissionSchemaVersion then
            if isUnsupportedAdmissionSchema v || isAdmissionShapedInput fields then None else Some None
          else option_map Some (ParseAdmission trimmed)
      end
  end.
End Admissions.
