(* ===== verification/Journal.v ===== *)
(** * Journal: the durable run record and its parts

    src/daemon/internal/state: the structs a [RunJournal] is made of
    (state.go, control.go, provider_action.go, goal_delivery.go,
    goal_usage.go) with their own shape checks, the journal itself with its
    field updates, and the predicates on it that do not touch the file
    system. [validateJournal] is in Validation.v. *)

From S2P Require Import Prelude Sha256 Json Authority Protocol.
Open Scope string_scope.
Open Scope Z_scope.

(** ** Shared checks *)

Definition validRequiredString (value : string) (limit : Z) : bool := negb (blank value) && (len value <=? limit).

(** [validHex]: [hex.DecodeString] succeeds. *)
Definition validStateHex (value : string) : bool := hex_decodes value.
Definition validStateLowerHex (value : string) (length : Z) : bool :=
  (len value =? length) && is_lower value && validStateHex value.
Definition validDigest (value : string) : bool := (len value =? 64) && validStateHex value.

Definition validRawMessage (message : string) : bool :=
  (len message =? 0) || json_Valid message && RejectDuplicateJSONMembers message.

Definition isTerminalTransitionState (state : string) : bool := string_in state ["completed"; "failed"; "cancelled"].

Definition validCommandAcknowledgementOutcome (outcome : string) : bool :=
  string_in outcome ["applied"; "rejected"; "failed"].

Module RunKey.
Record t : Type := mk {
  RunID : string;
  Generation : Z
}.
#[export] Instance eq_dec : EqDecision t.
Proof. solve_decision. Defined.
End RunKey.
#[export] Existing Instance RunKey.eq_dec.

Definition validateKey (key : RunKey.t) : bool :=
  negb (blank key.(RunKey.RunID) || (4096 <? len key.(RunKey.RunID)) || (key.(RunKey.Generation) <=? 0)).

(** ** The cgroup reservation (state.go, [LinuxCgroupReservation]) *)

Module LinuxCgroupReservation.
Record t : Type := mk {
  Version : Z;
  LaunchToken : string;
  Secret : string;
  PipeToken : string;
  JobID : string;
  OwnerUID : Z;
  LauncherUID : Z;
  RecoveryEndpoint : string;
  Parent : LinuxCgroupParentIdentity.t;
  LeafName : string;
  CreateStarted : bool;
  LauncherGrantPossible : bool;
  LeafIdentity : option LinuxCgroupIdentity.t;
  Anchor : LinuxCgroupProcessIdentity.t;
  Helper : option LinuxCgroupProcessIdentity.t;
  Launcher : option LinuxCgroupProcessIdentity.t;
  LauncherExit : option LinuxCgroupExitProof.t;
  Gate : option LinuxCgroupGateIdentity.t;
  HelperExit : option LinuxCgroupExitProof.t;
  Mirror : option LinuxCgroupProcessIdentity.t;
  AbortProof : option LinuxCgroupReservationAbortProof.t;
  PreGateStopReceipt : option LinuxCgroupPreGateStopReceipt.t
}.
#[export] Instance eq_dec : EqDecision t.
Proof. solve_decision. Defined.
Definition Equal (value other : t) : bool :=
  (value.(Version) =? other.(Version)) &&
  (value.(LaunchToken) =s other.(LaunchToken)) &&
  (value.(Secret) =s other.(Secret)) &&
  (value.(PipeToken) =s other.(PipeToken)) &&
  (value.(JobID) =s other.(JobID)) &&
  (value.(OwnerUID) =? other.(OwnerUID)) &&
  (value.(LauncherUID) =? other.(LauncherUID)) &&
  (value.(RecoveryEndpoint) =s other.(RecoveryEndpoint)) &&
  LinuxCgroupParentIdentity.Equal value.(Parent) other.(Parent) &&
  (value.(LeafName) =s other.(LeafName)) &&
  Bool.eqb value.(CreateStarted) other.(CreateStarted) &&
  Bool.eqb value.(LauncherGrantPossible) other.(LauncherGrantPossible) &&
  ptr_equal LinuxCgroupIdentity.Equal value.(LeafIdentity) other.(LeafIdentity) &&
  LinuxCgroupProcessIdentity.Equal value.(Anchor) other.(Anchor) &&
  ptr_equal LinuxCgroupProcessIdentity.Equal value.(Helper) other.(Helper) &&
  ptr_equal LinuxCgroupProcessIdentity.Equal value.(Launcher) other.(Launcher) &&
  ptr_equal LinuxCgroupExitProof.Equal value.(LauncherExit) other.(LauncherExit) &&
  ptr_equal LinuxCgroupGateIdentity.Equal value.(Gate) other.(Gate) &&
  ptr_equal LinuxCgroupExitProof.Equal value.(HelperExit) other.(HelperExit) &&
  ptr_equal LinuxCgroupProcessIdentity.Equal value.(Mirror) other.(Mirror) &&
  ptr_equal LinuxCgroupReservationAbortProof.Equal value.(AbortProof) other.(AbortProof) &&
  ptr_equal LinuxCgroupPreGateStopReceipt.Equal value.(PreGateStopReceipt) other.(PreGateStopReceipt).
#[export] Instance Equal_spec : EqbSpec Equal.
Proof. intros x y. unfold Equal. solve_equal x y. Qed.
Definition eta (r : t) : t :=
  mk r.(Version) r.(LaunchToken) r.(Secret) r.(PipeToken) r.(JobID) r.(OwnerUID) r.(LauncherUID)
     r.(RecoveryEndpoint) r.(Parent) r.(LeafName) r.(CreateStarted) r.(LauncherGrantPossible)
     r.(LeafIdentity) r.(Anchor) r.(Helper) r.(Launcher) r.(LauncherExit) r.(Gate) r.(HelperExit) r.(Mirror)
     r.(AbortProof) r.(PreGateStopReceipt).
#[global] Instance set_Version : Setter Version := ltac:(derive_setter eta Version).
#[global] Instance set_LaunchToken : Setter LaunchToken := ltac:(derive_setter eta LaunchToken).
#[global] Instance set_Secret : Setter Secret := ltac:(derive_setter eta Secret).
#[global] Instance set_PipeToken : Setter PipeToken := ltac:(derive_setter eta PipeToken).
#[global] Instance set_JobID : Setter JobID := ltac:(derive_setter eta JobID).
#[global] Instance set_OwnerUID : Setter OwnerUID := ltac:(derive_setter eta OwnerUID).
#[global] Instance set_LauncherUID : Setter LauncherUID := ltac:(derive_setter eta LauncherUID).
#[global] Instance set_RecoveryEndpoint : Setter RecoveryEndpoint := ltac:(derive_setter eta RecoveryEndpoint).
#[global] Instance set_Parent : Setter Parent := ltac:(derive_setter eta Parent).
#[global] Instance set_LeafName : Setter LeafName := ltac:(derive_setter eta LeafName).
#[global] Instance set_CreateStarted : Setter CreateStarted := ltac:(derive_setter eta CreateStarted).
#[global] Instance set_LauncherGrantPossible : Setter LauncherGrantPossible := ltac:(derive_setter eta LauncherGrantPossible).
#[global] Instance set_LeafIdentity : Setter LeafIdentity := ltac:(derive_setter eta LeafIdentity).
#[global] Instance set_Anchor : Setter Anchor := ltac:(derive_setter eta Anchor).
#[global] Instance set_Helper : Setter Helper := ltac:(derive_setter eta Helper).
#[global] Instance set_Launcher : Setter Launcher := ltac:(derive_setter eta Launcher).
#[global] Instance set_LauncherExit : Setter LauncherExit := ltac:(derive_setter eta LauncherExit).
#[global] Instance set_Gate : Setter Gate := ltac:(derive_setter eta Gate).
#[global] Instance set_HelperExit : Setter HelperExit := ltac:(derive_setter eta HelperExit).
#[global] Instance set_Mirror : Setter Mirror := ltac:(derive_setter eta Mirror).
#[global] Instance set_AbortProof : Setter AbortProof := ltac:(derive_setter eta AbortProof).
#[global] Instance set_PreGateStopReceipt : Setter PreGateStopReceipt := ltac:(derive_setter eta PreGateStopReceipt).

(** [linuxCgroupReservationAbortMatches]; its callers have checked that the
    mirror is bound. *)
Definition AbortMatches (reservation : t) (proof : LinuxCgroupReservationAbortProof.t) : bool :=
  (reservation.(Version) =? 2) && LinuxCgroupReservationAbortProof.Validate proof &&
  negb reservation.(LauncherGrantPossible) &&
  some_and reservation.(Mirror) (fun mirror =>
    LinuxCgroupReservationAbortProof.ValidFor proof reservation.(LaunchToken) reservation.(Parent)
      reservation.(LeafName) reservation.(CreateStarted) reservation.(OwnerUID) reservation.(Anchor) mirror
      reservation.(Helper) reservation.(Launcher)) &&
  none_or reservation.(AbortProof) (fun current => LinuxCgroupReservationAbortProof.Equal current proof) &&
  is_nil reservation.(Gate) && is_nil reservation.(PreGateStopReceipt) &&
  (let disposition := proof.(LinuxCgroupReservationAbortProof.LeafDisposition) in
   if disposition =s "never_created" then
     is_nil reservation.(LeafIdentity) && is_nil reservation.(Helper) && is_nil reservation.(HelperExit) &&
     is_nil reservation.(Launcher) && is_nil reservation.(LauncherExit) &&
     is_nil proof.(LinuxCgroupReservationAbortProof.LeafIdentity) &&
     is_nil proof.(LinuxCgroupReservationAbortProof.LauncherExit) &&
     negb proof.(LinuxCgroupReservationAbortProof.LauncherGrantPossible)
   else if (disposition =s "removed_empty") || (disposition =s "absent_after_rmdir") then
     some_and reservation.(LeafIdentity) (fun leaf =>
       some_and proof.(LinuxCgroupReservationAbortProof.LeafIdentity) (LinuxCgroupIdentity.Equal leaf)) &&
     proof.(LinuxCgroupReservationAbortProof.LeafEmpty) && proof.(LinuxCgroupReservationAbortProof.LeafAbsent) &&
     negb proof.(LinuxCgroupReservationAbortProof.LauncherGrantPossible) &&
     match reservation.(Launcher) with
     | None =>
         is_nil reservation.(LauncherExit) && is_nil proof.(LinuxCgroupReservationAbortProof.LauncherExit)
     | Some launcher =>
         some_and reservation.(LauncherExit) (fun exit =>
           some_and proof.(LinuxCgroupReservationAbortProof.LauncherExit) (fun proven =>
             LinuxCgroupExitProof.Equal exit proven &&
             some_and reservation.(Helper) (fun helper =>
               LinuxCgroupExitProof.ValidForOwnedDescendant proven launcher helper reservation.(Anchor)
                 reservation.(HelperExit))))
     end &&
     match reservation.(Helper) with
     | None => is_nil reservation.(HelperExit) && is_nil proof.(LinuxCgroupReservationAbortProof.HelperExit)
     | Some helper =>
         some_and reservation.(HelperExit) (fun exit =>
           some_and proof.(LinuxCgroupReservationAbortProof.HelperExit) (fun proven =>
             LinuxCgroupExitProof.Equal exit proven &&
             LinuxCgroupExitProof.ValidFor proven helper reservation.(Anchor)))
     end
   else false).

(** [Validate] up to the pre-gate receipt, which is checked against the
    reservation without it. *)
Definition validShape (value : t) : bool :=
  (value.(Version) =? 2) && validStateLowerHex value.(LaunchToken) (TokenBytes * 2) &&
  validStateLowerHex value.(Secret) (SecretBytes * 2) && validStateLowerHex value.(PipeToken) (TokenBytes * 2) &&
  validStateLowerHex value.(JobID) (TokenBytes * 2) && validRequiredString value.(RecoveryEndpoint) 4096 &&
  negb (value.(OwnerUID) =? 0) && (value.(LauncherUID) =? 0) &&
  negb (contains_byte (fun a => byte_at a =? 0) value.(RecoveryEndpoint)) &&
  LinuxCgroupParentIdentity.Validate value.(Parent) && validStateLowerHex value.(LeafName) (TokenBytes * 2) &&
  LinuxCgroupProcessIdentity.Validate value.(Anchor) && some_and value.(Mirror) LinuxCgroupProcessIdentity.Validate.

Definition validProducers (value : t) : bool :=
  let eq := LinuxCgroupProcessIdentity.Equal in
  none_or value.(LeafIdentity) (fun leaf =>
    value.(CreateStarted) && LinuxCgroupIdentity.Validate leaf &&
    LinuxCgroupParentIdentity.Equal leaf.(LinuxCgroupIdentity.Parent) value.(Parent) &&
    (leaf.(LinuxCgroupIdentity.LeafName) =s value.(LeafName))) &&
  none_or value.(Helper) (fun helper =>
    non_nil value.(LeafIdentity) && LinuxCgroupProcessIdentity.Validate helper && negb (eq helper value.(Anchor))) &&
  none_or value.(Launcher) (fun launcher =>
    some_and value.(Helper) (fun helper =>
      LinuxCgroupProcessIdentity.Validate launcher && negb (eq launcher value.(Anchor)) &&
      negb (eq launcher helper))) &&
  negb (value.(LauncherGrantPossible) && is_nil value.(Launcher)) &&
  none_or value.(LauncherExit) (fun exit =>
    some_and value.(Launcher) (fun launcher => some_and value.(Helper) (fun helper =>
      LinuxCgroupExitProof.ValidForOwnedDescendant exit launcher helper value.(Anchor) value.(HelperExit)))) &&
  none_or value.(Gate) (fun gate =>
    value.(LauncherGrantPossible) && non_nil value.(LauncherExit) &&
    some_and value.(LeafIdentity) (fun leaf =>
      LinuxCgroupGateIdentity.Validate gate && (gate.(LinuxCgroupGateIdentity.HostUID) =? value.(OwnerUID)) &&
      LinuxCgroupIdentity.Equal gate.(LinuxCgroupGateIdentity.Cgroup) leaf) &&
    negb (eq gate.(LinuxCgroupGateIdentity.Process) value.(Anchor)) &&
    none_or value.(Helper) (fun helper => negb (eq gate.(LinuxCgroupGateIdentity.Process) helper)) &&
    none_or value.(Launcher) (fun launcher => negb (eq gate.(LinuxCgroupGateIdentity.Process) launcher))) &&
  none_or value.(HelperExit) (fun exit =>
    some_and value.(Helper) (fun helper => LinuxCgroupExitProof.ValidFor exit helper value.(Anchor))) &&
  some_and value.(Mirror) (fun mirror =>
    negb (eq mirror value.(Anchor)) && none_or value.(Helper) (fun helper => negb (eq mirror helper)) &&
    none_or value.(Launcher) (fun launcher => negb (eq mirror launcher)) &&
    none_or value.(Gate) (fun gate => negb (eq mirror gate.(LinuxCgroupGateIdentity.Process)))).

Definition validAbort (value : t) : bool :=
  none_or value.(AbortProof) (fun proof =>
    AbortMatches value proof &&
    negb (non_nil value.(HelperExit) && is_nil proof.(LinuxCgroupReservationAbortProof.HelperExit) ||
          non_nil value.(LauncherExit) && is_nil proof.(LinuxCgroupReservationAbortProof.LauncherExit))) &&
  (value.(CreateStarted) ||
   is_nil value.(LeafIdentity) && is_nil value.(Helper) && is_nil value.(Launcher) &&
   is_nil value.(LauncherExit) && is_nil value.(Gate) && is_nil value.(HelperExit) &&
   none_or value.(AbortProof) (fun proof =>
     proof.(LinuxCgroupReservationAbortProof.LeafDisposition) =s "never_created")).

(** [ValidateWithoutPreGateReceipt] *)
Definition ValidateWithoutPreGateReceipt (value : t) : bool :=
  let value := value <| PreGateStopReceipt := None |> in
  validShape value && validProducers value && validAbort value.

(** [linuxCgroupPreGateReceiptMatchesReservation] *)
Definition PreGateReceiptMatches (reservation : t) (receipt : LinuxCgroupPreGateStopReceipt.t) : bool :=
  (reservation.(Version) =? 2) && ValidateWithoutPreGateReceipt reservation &&
  reservation.(CreateStarted) && reservation.(LauncherGrantPossible) && is_nil reservation.(Gate) &&
  is_nil reservation.(AbortProof) &&
  none_or reservation.(PreGateStopReceipt) (fun current => LinuxCgroupPreGateStopReceipt.Equal current receipt) &&
  some_and reservation.(LeafIdentity) (fun leaf => some_and reservation.(Helper) (fun helper =>
    some_and reservation.(Launcher) (fun launcher => some_and reservation.(LauncherExit) (fun exit =>
      some_and reservation.(Mirror) (fun mirror =>
        LinuxCgroupPreGateStopReceipt.ValidFor receipt reservation.(LaunchToken) leaf reservation.(OwnerUID)
          reservation.(LauncherUID) reservation.(Anchor) helper launcher mirror exit
          reservation.(HelperExit)))))).

Definition Validate (value : t) : bool :=
  validShape value && validProducers value && validAbort value &&
  none_or value.(PreGateStopReceipt) (fun receipt =>
    PreGateReceiptMatches value receipt && is_nil value.(AbortProof)).
End LinuxCgroupReservation.
#[export] Existing Instance LinuxCgroupReservation.eq_dec.
#[export] Existing Instance LinuxCgroupReservation.Equal_spec.

(** ** Scan fences (state.go, [ContainmentScanProgress]) *)

Module ContainmentScanProgress.
Record t : Type := mk {
  PendingSequence : Z;
  CleanResultSequence : Z;
  CompletedSequence : Z;
  SealedSequence : Z;
  UnprovenSequence : Z;
  FailureKind : string
}.
#[export] Instance eq_dec : EqDecision t.
Proof. solve_decision. Defined.
Definition eta (r : t) : t :=
  mk r.(PendingSequence) r.(CleanResultSequence) r.(CompletedSequence) r.(SealedSequence)
     r.(UnprovenSequence) r.(FailureKind).
#[global] Instance set_PendingSequence : Setter PendingSequence := ltac:(derive_setter eta PendingSequence).
#[global] Instance set_CleanResultSequence : Setter CleanResultSequence := ltac:(derive_setter eta CleanResultSequence).
#[global] Instance set_CompletedSequence : Setter CompletedSequence := ltac:(derive_setter eta CompletedSequence).
#[global] Instance set_SealedSequence : Setter SealedSequence := ltac:(derive_setter eta SealedSequence).
#[global] Instance set_UnprovenSequence : Setter UnprovenSequence := ltac:(derive_setter eta UnprovenSequence).
#[global] Instance set_FailureKind : Setter FailureKind := ltac:(derive_setter eta FailureKind).

Definition sealed (progress : t) : bool :=
  (0 <? progress.(CompletedSequence)) && (progress.(SealedSequence) =? progress.(CompletedSequence)) &&
  (progress.(PendingSequence) =? 0) && (progress.(CleanResultSequence) =? 0) &&
  (progress.(UnprovenSequence) =? 0) && (progress.(FailureKind) =s "").

Definition clean (progress : t) : bool :=
  (progress.(PendingSequence) =? 0) && (progress.(CleanResultSequence) =? 0) &&
  (progress.(UnprovenSequence) =? 0) && (0 <? progress.(CompletedSequence)).

(** [validContainmentScanProgress]; [^uint64(0)] is the largest counter. *)
Definition valid (progress : t) : bool :=
  let next := wrapu64 (progress.(CompletedSequence) + 1) in
  let exhausted := progress.(CompletedSequence) =? maxUint64 in
  negb (negb (progress.(SealedSequence) =? 0) &&
        ((progress.(CompletedSequence) =? 0) || negb (progress.(SealedSequence) =? progress.(CompletedSequence)) ||
         negb (progress.(PendingSequence) =? 0) || negb (progress.(CleanResultSequence) =? 0) ||
         negb (progress.(UnprovenSequence) =? 0) || (progress.(FailureKind) <>s ""))) &&
  negb (negb (progress.(PendingSequence) =? 0) &&
        (negb (progress.(UnprovenSequence) =? 0) || exhausted || negb (progress.(PendingSequence) =? next))) &&
  negb (negb (progress.(CleanResultSequence) =? 0) &&
        (negb (progress.(PendingSequence) =? progress.(CleanResultSequence)) || exhausted ||
         negb (progress.(CleanResultSequence) =? next) || negb (progress.(UnprovenSequence) =? 0))) &&
  (if progress.(UnprovenSequence) =? 0 then progress.(FailureKind) =s ""
   else (progress.(PendingSequence) =? 0) && (progress.(CleanResultSequence) =? 0) &&
        validRequiredString progress.(FailureKind) 128 &&
        (negb exhausted && (progress.(UnprovenSequence) =? next) ||
         (progress.(UnprovenSequence) =? progress.(CompletedSequence)) &&
         (progress.(FailureKind) =s "clean_retire_ack_failure"))).
End ContainmentScanProgress.
#[export] Existing Instance ContainmentScanProgress.eq_dec.

Module ContainmentScanJournal.
Record t : Type := mk {
  Version : Z;
  LaunchToken : string;
  TargetPID : Z;
  TargetIdentity : string;
  SupervisorPID : Z;
  SupervisorIdentity : string;
  MirrorIdentity : string;
  Helper : ContainmentScanProgress.t;
  Mirror : ContainmentScanProgress.t
}.
#[export] Instance eq_dec : EqDecision t.
Proof. solve_decision. Defined.
Definition eta (r : t) : t :=
  mk r.(Version) r.(LaunchToken) r.(TargetPID) r.(TargetIdentity) r.(SupervisorPID) r.(SupervisorIdentity)
     r.(MirrorIdentity) r.(Helper) r.(Mirror).
#[global] Instance set_Helper : Setter Helper := ltac:(derive_setter eta Helper).
#[global] Instance set_Mirror : Setter Mirror := ltac:(derive_setter eta Mirror).

Definition clean (scans : t) : bool :=
  ContainmentScanProgress.clean scans.(Helper) && ContainmentScanProgress.clean scans.(Mirror).
Definition sealed (scans : t) : bool :=
  ContainmentScanProgress.sealed scans.(Helper) && ContainmentScanProgress.sealed scans.(Mirror).

Definition matchesHandoff (scans : t) (handoff : SupervisorHandoff.t) : bool :=
  (scans.(Version) =? 1) && (scans.(LaunchToken) =s handoff.(SupervisorHandoff.LaunchToken)) &&
  (scans.(TargetPID) =? handoff.(SupervisorHandoff.TargetPID)) &&
  (scans.(TargetIdentity) =s handoff.(SupervisorHandoff.TargetIdentity)) &&
  (scans.(SupervisorPID) =? handoff.(SupervisorHandoff.SupervisorPID)) &&
  (scans.(SupervisorIdentity) =s handoff.(SupervisorHandoff.SupervisorIdentity)).

Definition matchesAuthority (scans : t) (value : Supervisor.t) : bool :=
  (scans.(Version) =? 1) && (scans.(LaunchToken) =s value.(Supervisor.LaunchToken)) &&
  (scans.(TargetPID) =? value.(Supervisor.TargetPID)) &&
  (scans.(TargetIdentity) =s value.(Supervisor.TargetIdentity)) &&
  (scans.(SupervisorPID) =? value.(Supervisor.SupervisorPID)) &&
  (scans.(SupervisorIdentity) =s value.(Supervisor.SupervisorIdentity)).
End ContainmentScanJournal.
#[export] Existing Instance ContainmentScanJournal.eq_dec.

(** ** Command intents, provider actions and usage *)

Module NativeUsageTerminalRecovery.
Record t : Type := mk {
  State : string;
  Payload : string;
  CommandID : string;
  CommandOutcome : string
}.
#[export] Instance eq_dec : EqDecision t.
Proof. solve_decision. Defined.
(** [validNativeUsageTerminalRecovery] on a non-nil settlement. *)
Definition valid (settlement : t) : bool :=
  isTerminalTransitionState settlement.(State) && validRawMessage settlement.(Payload) &&
  (if settlement.(CommandID) =s "" then settlement.(CommandOutcome) =s ""
   else validRequiredString settlement.(CommandID) 4096 &&
        validCommandAcknowledgementOutcome settlement.(CommandOutcome)).
End NativeUsageTerminalRecovery.
#[export] Existing Instance NativeUsageTerminalRecovery.eq_dec.

Module InputCommandIntent.
Record t : Type := mk {
  CommandID : string;
  PayloadDigest : string;
  RunningTransitionID : string;
  AckID : string;
  EventSequenceBarrier : Z;
  Outcome : string;
  AcknowledgementDelivered : bool
}.
#[export] Instance eq_dec : EqDecision t.
Proof. solve_decision. Defined.
Definition eta (r : t) : t :=
  mk r.(CommandID) r.(PayloadDigest) r.(RunningTransitionID) r.(AckID) r.(EventSequenceBarrier) r.(Outcome)
     r.(AcknowledgementDelivered).
#[global] Instance set_Outcome : Setter Outcome := ltac:(derive_setter eta Outcome).
#[global] Instance set_AcknowledgementDelivered : Setter AcknowledgementDelivered := ltac:(derive_setter eta AcknowledgementDelivered).

Definition validOutcome (outcome : string) : bool := string_in outcome [""; "applied"; "failed"].
Definition valid (intent : t) : bool :=
  validRequiredString intent.(CommandID) 4096 && validDigest intent.(PayloadDigest) &&
  validRequiredString intent.(RunningTransitionID) 4096 && validRequiredString intent.(AckID) 4096 &&
  (0 <=? intent.(EventSequenceBarrier)) && validOutcome intent.(Outcome) &&
  (negb intent.(AcknowledgementDelivered) || (intent.(Outcome) <>s "")).
End InputCommandIntent.
#[export] Existing Instance InputCommandIntent.eq_dec.

Module ControlCommandIntent.
Record t : Type := mk {
  CommandID : string;
  Kind : string;
  PayloadDigest : string;
  TransitionID : string;
  AckID : string;
  Outcome : string;
  AcknowledgementDelivered : bool
}.
#[export] Instance eq_dec : EqDecision t.
Proof. solve_decision. Defined.
Definition eta (r : t) : t :=
  mk r.(CommandID) r.(Kind) r.(PayloadDigest) r.(TransitionID) r.(AckID) r.(Outcome)
     r.(AcknowledgementDelivered).
#[global] Instance set_Outcome : Setter Outcome := ltac:(derive_setter eta Outcome).
#[global] Instance set_AcknowledgementDelivered : Setter AcknowledgementDelivered := ltac:(derive_setter eta AcknowledgementDelivered).

Definition validOutcome (outcome : string) : bool := string_in outcome [""; "applied"; "rejected"; "failed"].
Definition valid (intent : t) : bool :=
  validRequiredString intent.(CommandID) 4096 && string_in intent.(Kind) ["guidance"; "pause"; "resume"] &&
  validDigest intent.(PayloadDigest) &&
  ((intent.(Kind) =s "guidance") || validRequiredString intent.(TransitionID) 4096) &&
  (len intent.(TransitionID) <=? 4096) && validRequiredString intent.(AckID) 4096 &&
  validOutcome intent.(Outcome) && (negb intent.(AcknowledgementDelivered) || (intent.(Outcome) <>s "")).
End ControlCommandIntent.
#[export] Existing Instance ControlCommandIntent.eq_dec.

(** [encodeProviderActionJSONValue]: members keep their order, numbers their
    spelling. *)
Fixpoint encodeProviderActionJSONValue (value : json) : string :=
  match value with
  | JNull => "null"
  | JBool b => if b then "true" else "false"
  | JNumber lit => lit
  | JString s => marshalJSONString s
  | JArray l => "[" ++ join_comma (map encodeProviderActionJSONValue l) ++ "]"
  | JObject l =>
      "{" ++ join_comma (map (fun m => marshalJSONString m.1 ++ ":" ++ encodeProviderActionJSONValue m.2) l) ++ "}"
  end.

Definition normalizeProviderActionResult (result : string) : option string :=
  if len result =? 0 then None else
  match parse_document result with
  | Some (JObject l) =>
      if no_duplicate_members (JObject l) then Some (encodeProviderActionJSONValue (JObject l)) else None
  | _ => None
  end.

Definition maxProviderActionResultBytes : Z := 64 * 1024.

Definition validProviderActionResult (result : string) : bool :=
  some_and (normalizeProviderActionResult result) (fun normalized => len normalized <=? maxProviderActionResultBytes).

Definition providerActionResultsEqual (left right : string) : bool :=
  (left =s right) ||
  negb ((len left =? 0) || (len right =? 0)) &&
  some_and (normalizeProviderActionResult left) (fun l =>
    some_and (normalizeProviderActionResult right) (fun r => l =s r)).

Module ProviderActionIntent.
Record t : Type := mk {
  ActionID : string;
  ActionKey : string;
  RequestDigest : string;
  ResourceID : string;
  Operation : string;
  Outcome : string;
  Result : string;
  FailureCode : string
}.
#[export] Instance eq_dec : EqDecision t.
Proof. solve_decision. Defined.
Definition eta (r : t) : t :=
  mk r.(ActionID) r.(ActionKey) r.(RequestDigest) r.(ResourceID) r.(Operation) r.(Outcome) r.(Result)
     r.(FailureCode).
#[global] Instance set_Outcome : Setter Outcome := ltac:(derive_setter eta Outcome).
#[global] Instance set_Result : Setter Result := ltac:(derive_setter eta Result).
#[global] Instance set_FailureCode : Setter FailureCode := ltac:(derive_setter eta FailureCode).

Definition validIdentity (intent : t) : bool :=
  validRequiredString intent.(ActionID) 256 && validRequiredString intent.(ActionKey) 256 &&
  validDigest intent.(RequestDigest) && validRequiredString intent.(ResourceID) 256 &&
  string_in intent.(Operation) ["resource.sync"; "change.upsert"; "change.update"].

Definition validPrepared (intent : t) : bool :=
  validIdentity intent && (intent.(Outcome) =s "") && (len intent.(Result) =? 0) && (intent.(FailureCode) =s "").

Definition validCompleted (intent : t) : bool :=
  validIdentity intent &&
  (if intent.(Outcome) =s "succeeded" then
     validProviderActionResult intent.(Result) && (intent.(FailureCode) =s "")
   else if intent.(Outcome) =s "failed" then
     (len intent.(Result) =? 0) && validRequiredString intent.(FailureCode) 256
   else if intent.(Outcome) =s "unknown" then
     ((len intent.(Result) =? 0) || validProviderActionResult intent.(Result)) &&
     validRequiredString intent.(FailureCode) 256
   else false).

Definition sameIdentity (left right : t) : bool :=
  (left.(ActionID) =s right.(ActionID)) && (left.(ActionKey) =s right.(ActionKey)) &&
  (left.(RequestDigest) =s right.(RequestDigest)) && (left.(ResourceID) =s right.(ResourceID)) &&
  (left.(Operation) =s right.(Operation)).

Definition same (left right : t) : bool :=
  sameIdentity left right && (left.(Outcome) =s right.(Outcome)) &&
  providerActionResultsEqual left.(Result) right.(Result) && (left.(FailureCode) =s right.(FailureCode)).
End ProviderActionIntent.
#[export] Existing Instance ProviderActionIntent.eq_dec.

Module NativeUsageObservation.
Record t : Type := mk {
  SchemaVersion : Z;
  InputTokens : Z;
  OutputTokens : Z;
  CachedInputTokens : Z;
  ReasoningOutputTokens : Z;
  TotalTokens : Z;
  ObservedAt : time
}.
#[export] Instance eq_dec : EqDecision t.
Proof. solve_decision. Defined.
Definition Validate (observation : t) : bool :=
  (observation.(SchemaVersion) =? 1) && negb (IsZero observation.(ObservedAt)) &&
  (0 <=? observation.(InputTokens)) && (0 <=? observation.(OutputTokens)) &&
  (0 <=? observation.(CachedInputTokens)) && (0 <=? observation.(ReasoningOutputTokens)) &&
  (0 <=? observation.(TotalTokens)).

Definition Covers (observation expected : t) : bool :=
  (expected.(InputTokens) <=? observation.(InputTokens)) && (expected.(OutputTokens) <=? observation.(OutputTokens)) &&
  (expected.(CachedInputTokens) <=? observation.(CachedInputTokens)) &&
  (expected.(ReasoningOutputTokens) <=? observation.(ReasoningOutputTokens)) &&
  (expected.(TotalTokens) <=? observation.(TotalTokens)).

(** [nativeUsageObservationRegresses] *)
Definition regresses (previous next : t) : bool :=
  negb (Covers next previous) || Covers previous next && (next.(ObservedAt) <? previous.(ObservedAt)).
End NativeUsageObservation.
#[export] Existing Instance NativeUsageObservation.eq_dec.

(** ** Goal deliveries (goal_delivery.go) *)

Module GoalSessionAttachDelivery.
Record t : Type := mk {
  GoalID : string;
  LocalHandleID : string;
  BindingID : string;
  ServerIssuedBinding : bool;
  HarnessKind : string;
  HarnessVersion : string;
  AdapterVersion : string;
  WorkspaceFingerprint : string;
  Workspace : string;
  RepositoryResourceID : option string
}.
#[export] Instance eq_dec : EqDecision t.
Proof. solve_decision. Defined.
(** [validateGoalSessionAttachDelivery] *)
Definition valid (payload : t) : bool :=
  validRequiredString payload.(GoalID) 4096 && validateUUID payload.(LocalHandleID) &&
  validRequiredString payload.(HarnessKind) 256 && validRequiredString payload.(HarnessVersion) 4096 &&
  validRequiredString payload.(AdapterVersion) 4096 && validRequiredString payload.(WorkspaceFingerprint) 4096 &&
  validRequiredString payload.(Workspace) 32768 &&
  ((payload.(BindingID) =s "") || validateUUID payload.(BindingID)) &&
  ((payload.(BindingID) =s "") && negb payload.(ServerIssuedBinding) ||
   negb ((payload.(BindingID) <>s "") && payload.(ServerIssuedBinding)) &&
   none_or payload.(RepositoryResourceID) (fun id => validRequiredString id 4096)).

Definition encode (html : bool) (payload : t) : string :=
  enc_object
    ([("goal_id", enc_str html payload.(GoalID)); ("local_handle_id", enc_str html payload.(LocalHandleID))] ++
     omit_str html "binding_id" payload.(BindingID) ++
     omit_bool "server_issued_binding" payload.(ServerIssuedBinding) ++
     [("harness_kind", enc_str html payload.(HarnessKind)); ("harness_version", enc_str html payload.(HarnessVersion));
      ("adapter_version", enc_str html payload.(AdapterVersion));
      ("workspace_fingerprint", enc_str html payload.(WorkspaceFingerprint));
      ("workspace", enc_str html payload.(Workspace))] ++
     omit_ptr "repository_resource_id" (enc_str html) payload.(RepositoryResourceID)).
End GoalSessionAttachDelivery.
#[export] Existing Instance GoalSessionAttachDelivery.eq_dec.

Module GoalSessionStoppedDelivery.
Record t : Type := mk {
  SessionID : string;
  LocalHandleID : string;
  BindingID : string
}.
#[export] Instance eq_dec : EqDecision t.
Proof. solve_decision. Defined.
Definition valid (payload : t) : bool :=
  validateUUID payload.(SessionID) && validateUUID payload.(LocalHandleID) && validateUUID payload.(BindingID).
Definition encode (html : bool) (payload : t) : string :=
  enc_object [("session_id", enc_str html payload.(SessionID)); ("local_handle_id", enc_str html payload.(LocalHandleID));
              ("binding_id", enc_str html payload.(BindingID))].
End GoalSessionStoppedDelivery.
#[export] Existing Instance GoalSessionStoppedDelivery.eq_dec.

Definition GoalDeliverySessionAttach : string := "session_attach".
Definition GoalDeliverySessionStopped : string := "session_stopped".
Definition GoalDeliveryEvidence : string := "evidence".
Definition GoalDeliveryUsage : string := "usage".

Module GoalDelivery.
Record t : Type := mk {
  Kind : string;
  DeliveryID : string;
  PayloadDigest : string;
  fence : Fence.t;
  Ready : bool;
  SessionAttach : option GoalSessionAttachDelivery.t;
  SessionStopped : option GoalSessionStoppedDelivery.t;
  evidence : option Evidence.t;
  usage : option Usage.t
}.
#[export] Instance eq_dec : EqDecision t.
Proof. solve_decision. Defined.
Definition eta (r : t) : t :=
  mk r.(Kind) r.(DeliveryID) r.(PayloadDigest) r.(fence) r.(Ready) r.(SessionAttach) r.(SessionStopped)
     r.(evidence) r.(usage).
#[global] Instance set_PayloadDigest : Setter PayloadDigest := ltac:(derive_setter eta PayloadDigest).
#[global] Instance set_fence : Setter fence := ltac:(derive_setter eta fence).
#[global] Instance set_Ready : Setter Ready := ltac:(derive_setter eta Ready).
#[global] Instance set_evidence : Setter evidence := ltac:(derive_setter eta evidence).

Definition validKind (kind : string) : bool :=
  string_in kind [GoalDeliverySessionAttach; GoalDeliverySessionStopped; GoalDeliveryEvidence; GoalDeliveryUsage].

(** [goalDeliveryDigest]: the fields of an anonymous struct are written
    under their Go names. *)
Definition digestEnvelope (delivery : t) : string :=
  let kind := ("Kind", enc_str true delivery.(Kind)) in
  let id := ("DeliveryID", enc_str true delivery.(DeliveryID)) in
  let fence := ("Fence", Fence.encode true delivery.(fence)) in
  let attach := ("SessionAttach", enc_ptr (GoalSessionAttachDelivery.encode true) delivery.(SessionAttach)) in
  let stopped := ("SessionStopped", enc_ptr (GoalSessionStoppedDelivery.encode true) delivery.(SessionStopped)) in
  let evidence := ("Evidence", enc_ptr (Evidence.encode true) delivery.(evidence)) in
  let usage := ("Usage", enc_ptr (Usage.encode true) delivery.(usage)) in
  enc_object (if delivery.(Kind) =s GoalDeliverySessionStopped
              then [kind; id; fence; attach; stopped; evidence; usage]
              else [kind; id; fence; attach; evidence; usage]).
Definition digest (delivery : t) : string := sha256_hex (digestEnvelope delivery).

Definition encode (html : bool) (delivery : t) : string :=
  enc_object
    ([("kind", enc_str html delivery.(Kind)); ("delivery_id", enc_str html delivery.(DeliveryID));
      ("payload_digest", enc_str html delivery.(PayloadDigest)); ("fence", Fence.encode html delivery.(fence))] ++
     omit_bool "ready" delivery.(Ready) ++
     omit_ptr "session_attach" (GoalSessionAttachDelivery.encode html) delivery.(SessionAttach) ++
     omit_ptr "session_stopped" (GoalSessionStoppedDelivery.encode html) delivery.(SessionStopped) ++
     omit_ptr "evidence" (Evidence.encode html) delivery.(evidence) ++
     omit_ptr "usage" (Usage.encode html) delivery.(usage)).

(** [equalGoalDelivery]: equal JSON once [Ready] is cleared. *)
Definition equal (left right : t) : bool :=
  encode true (left <| Ready := false |>) =s encode true (right <| Ready := false |>).

(** [prepareGoalDelivery]: check the body against its kind and stamp the
    digest. *)
Definition validBody (runID : string) (delivery : t) : bool :=
  if delivery.(Kind) =s GoalDeliverySessionAttach then
    is_nil delivery.(SessionStopped) && is_nil delivery.(evidence) && is_nil delivery.(usage) &&
    some_and delivery.(SessionAttach) (fun payload =>
      (delivery.(DeliveryID) =s payload.(GoalSessionAttachDelivery.LocalHandleID)) &&
      GoalSessionAttachDelivery.valid payload)
  else if delivery.(Kind) =s GoalDeliverySessionStopped then
    is_nil delivery.(SessionAttach) && is_nil delivery.(evidence) && is_nil delivery.(usage) && delivery.(Ready) &&
    some_and delivery.(SessionStopped) (fun payload =>
      (delivery.(DeliveryID) =s payload.(GoalSessionStoppedDelivery.BindingID)) &&
      GoalSessionStoppedDelivery.valid payload)
  else if delivery.(Kind) =s GoalDeliveryEvidence then
    is_nil delivery.(SessionAttach) && is_nil delivery.(SessionStopped) && is_nil delivery.(usage) &&
    delivery.(Ready) &&
    some_and delivery.(evidence) (fun body =>
      (delivery.(DeliveryID) =s body.(Evidence.EvidenceKey)) && (body.(Evidence.RunID) =s runID) &&
      Evidence.Validate body)
  else
    is_nil delivery.(SessionAttach) && is_nil delivery.(SessionStopped) && is_nil delivery.(evidence) &&
    delivery.(Ready) &&
    some_and delivery.(usage) (fun body =>
      (delivery.(DeliveryID) =s body.(Usage.UsageKey)) && (body.(Usage.RunID) =s runID) && Usage.Validate body).

Definition prepare (runID : string) (delivery : t) : result t :=
  reject isZeroFence delivery.(fence) with Errorf "Goal delivery fence is invalid" ;;
  reject negb (validKind delivery.(Kind)) || negb (validRequiredString delivery.(DeliveryID) 4096)
    with Errorf "Goal delivery is invalid" ;;
  reject negb (validBody runID delivery) with Errorf "Goal delivery body is invalid" ;;
  let d := digest delivery in
  reject (delivery.(PayloadDigest) <>s "") && (delivery.(PayloadDigest) <>s d) with ErrGoalDeliveryConflict ;;
  Ok (delivery <| PayloadDigest := d |>).

(** [validatePersistedGoalDelivery] *)
Definition validatePersisted (runID : string) (delivery : t) : result unit :=
  reject negb (validDigest delivery.(PayloadDigest)) with Errorf "Goal delivery payload digest is invalid" ;;
  try prepared <- prepare runID (delivery <| PayloadDigest := "" |>) ;;
  reject prepared.(PayloadDigest) <>s delivery.(PayloadDigest) with ErrGoalDeliveryConflict ;;
  Ok tt.
End GoalDelivery.
#[export] Existing Instance GoalDelivery.eq_dec.

Module GoalDeliveryRetirement.
Record t : Type := mk {
  Delivery : GoalDelivery.t;
  StatusCode : Z;
  Code : string;
  Message : string;
  RetiredAt : time
}.
#[export] Instance eq_dec : EqDecision t.
Proof. solve_decision. Defined.
(** [validateGoalDeliveryRetirement] *)
Definition validate (runID : string) (fence : Fence.t) (retired : t) : result unit :=
  reject negb (between 400 retired.(StatusCode) 599) || negb (validRequiredString retired.(Code) 256) ||
         negb (validRequiredString retired.(Message) 4096) || IsZero retired.(RetiredAt) ||
         negb (sameFence retired.(Delivery).(GoalDelivery.fence) fence)
    with Errorf "Goal delivery retirement is invalid" ;;
  GoalDelivery.validatePersisted runID retired.(Delivery).
End GoalDeliveryRetirement.
#[export] Existing Instance GoalDeliveryRetirement.eq_dec.

(** ** The run journal (state.go, [RunJournal]) *)

Module RunJournal.
Record t : Type := mk {
  RunID : string;
  Generation : Z;
  RuntimeKey : string;
  RuntimeID : string;
  ClaimedRuntimeEpoch : Z;
  ClaimID : string;
  LeaseToken : string;
  LeaseExpiresAt : time;
  LocalState : string;
  TerminalPendingAt : time;
  TerminalState : string;
  TerminalTaskResultKind : string;
  TerminalIntentDigest : string;
  TerminalCommandDigest : string;
  TerminalSettlementDigest : string;
  TerminalVerdict : string;
  TerminalResolvedAt : time;
  Work : Work.t;
  WorkspacePath : string;
  WorkspaceRecoveryRequired : bool;
  RetainWorkspace : bool;
  WorkspaceBindingKey : string;
  LinuxCloneIntent : option LinuxCloneIntent.t;
  LinuxCloneSeedReceipt : option LinuxCloneSeedReceipt.t;
  LinuxCloneCheckoutReceipt : option LinuxCloneCheckoutReceipt.t;
  LinuxClonePromotionIntent : option LinuxClonePromotionIntent.t;
  LinuxClonePromotionReceipt : option LinuxClonePromotionReceipt.t;
  LinuxCloneAbortPending : bool;
  LinuxCloneAbortProof : option LinuxCloneAbortProof.t;
  LinuxCloneCleanupPending : bool;
  LinuxCloneCleanupIntent : option LinuxCloneCleanupIntent.t;
  LinuxCloneTargetRemovalProof : option LinuxCloneTargetRemovalProof.t;
  LinuxCloneCleanupProof : option LinuxCloneCleanupProof.t;
  PID : Z;
  ProcessIdentity : string;
  StartedAt : time;
  ContainmentAuthority : option Supervisor.t;
  ContainmentHandoff : option SupervisorHandoff.t;
  ContainmentCgroup : option LinuxCgroupReservation.t;
  ContainmentCgroupReleaseProof : option SupervisorHandoffReleaseProof.t;
  ContainmentCgroupPreGateReleaseProof : option LinuxCgroupPreGateReleaseProof.t;
  ContainmentScans : option ContainmentScanJournal.t;
  ContainmentUnproven : bool;
  LastEventSequence : Z;
  PendingEvents : list RunEvent.t;
  DroppedOutputChunks : Z;
  DroppedOutputBytes : Z;
  PendingTransitions : list StateTransitionRequest.t;
  AttemptedTransitionIDs : list string;
  PendingCommandAcknowledgements : list CommandAcknowledgement.t;
  PendingGoalDeliveries : list GoalDelivery.t;
  DeliveredGoalDeliveries : list GoalDelivery.t;
  RetiredGoalDeliveries : list GoalDeliveryRetirement.t;
  GoalDeliveryEnabled : bool;
  NativeUsageObservation : option NativeUsageObservation.t;
  NativeUsageRecoveryRequired : bool;
  NativeUsageTerminalRecovery : option NativeUsageTerminalRecovery.t;
  InputCommandIntent : option InputCommandIntent.t;
  ControlCommandIntents : list ControlCommandIntent.t;
  ProviderActionIntents : list ProviderActionIntent.t
}.
Definition eta (r : t) : t :=
  mk r.(RunID) r.(Generation) r.(RuntimeKey) r.(RuntimeID) r.(ClaimedRuntimeEpoch) r.(ClaimID) r.(LeaseToken)
     r.(LeaseExpiresAt) r.(LocalState) r.(TerminalPendingAt) r.(TerminalState) r.(TerminalTaskResultKind)
     r.(TerminalIntentDigest) r.(TerminalCommandDigest) r.(TerminalSettlementDigest) r.(TerminalVerdict)
     r.(TerminalResolvedAt) r.(Work) r.(WorkspacePath) r.(WorkspaceRecoveryRequired) r.(RetainWorkspace)
     r.(WorkspaceBindingKey) r.(LinuxCloneIntent) r.(LinuxCloneSeedReceipt) r.(LinuxCloneCheckoutReceipt)
     r.(LinuxClonePromotionIntent) r.(LinuxClonePromotionReceipt) r.(LinuxCloneAbortPending)
     r.(LinuxCloneAbortProof) r.(LinuxCloneCleanupPending) r.(LinuxCloneCleanupIntent)
     r.(LinuxCloneTargetRemovalProof) r.(LinuxCloneCleanupProof) r.(PID) r.(ProcessIdentity) r.(StartedAt)
     r.(ContainmentAuthority) r.(ContainmentHandoff) r.(ContainmentCgroup) r.(ContainmentCgroupReleaseProof)
     r.(ContainmentCgroupPreGateReleaseProof) r.(ContainmentScans) r.(ContainmentUnproven)
     r.(LastEventSequence) r.(PendingEvents) r.(DroppedOutputChunks) r.(DroppedOutputBytes)
     r.(PendingTransitions) r.(AttemptedTransitionIDs) r.(PendingCommandAcknowledgements)
     r.(PendingGoalDeliveries) r.(DeliveredGoalDeliveries) r.(RetiredGoalDeliveries) r.(GoalDeliveryEnabled)
     r.(NativeUsageObservation) r.(NativeUsageRecoveryRequired) r.(NativeUsageTerminalRecovery)
     r.(InputCommandIntent) r.(ControlCommandIntents) r.(ProviderActionIntents).
#[global] Instance set_RunID : Setter RunID := ltac:(derive_setter eta RunID).
#[global] Instance set_Generation : Setter Generation := ltac:(derive_setter eta Generation).
#[global] Instance set_RuntimeKey : Setter RuntimeKey := ltac:(derive_setter eta RuntimeKey).
#[global] Instance set_RuntimeID : Setter RuntimeID := ltac:(derive_setter eta RuntimeID).
#[global] Instance set_ClaimedRuntimeEpoch : Setter ClaimedRuntimeEpoch := ltac:(derive_setter eta ClaimedRuntimeEpoch).
#[global] Instance set_ClaimID : Setter ClaimID := ltac:(derive_setter eta ClaimID).
#[global] Instance set_LeaseToken : Setter LeaseToken := ltac:(derive_setter eta LeaseToken).
#[global] Instance set_LeaseExpiresAt : Setter LeaseExpiresAt := ltac:(derive_setter eta LeaseExpiresAt).
#[global] Instance set_LocalState : Setter LocalState := ltac:(derive_setter eta LocalState).
#[global] Instance set_TerminalPendingAt : Setter TerminalPendingAt := ltac:(derive_setter eta TerminalPendingAt).
#[global] Instance set_TerminalState : Setter TerminalState := ltac:(derive_setter eta TerminalState).
#[global] Instance set_TerminalTaskResultKind : Setter TerminalTaskResultKind := ltac:(derive_setter eta TerminalTaskResultKind).
#[global] Instance set_TerminalIntentDigest : Setter TerminalIntentDigest := ltac:(derive_setter eta TerminalIntentDigest).
#[global] Instance set_TerminalCommandDigest : Setter TerminalCommandDigest := ltac:(derive_setter eta TerminalCommandDigest).
#[global] Instance set_TerminalSettlementDigest : Setter TerminalSettlementDigest := ltac:(derive_setter eta TerminalSettlementDigest).
#[global] Instance set_TerminalVerdict : Setter TerminalVerdict := ltac:(derive_setter eta TerminalVerdict).
#[global] Instance set_TerminalResolvedAt : Setter TerminalResolvedAt := ltac:(derive_setter eta TerminalResolvedAt).
#[global] Instance set_Work : Setter Work := ltac:(derive_setter eta Work).
#[global] Instance set_WorkspacePath : Setter WorkspacePath := ltac:(derive_setter eta WorkspacePath).
#[global] Instance set_WorkspaceRecoveryRequired : Setter WorkspaceRecoveryRequired := ltac:(derive_setter eta WorkspaceRecoveryRequired).
#[global] Instance set_RetainWorkspace : Setter RetainWorkspace := ltac:(derive_setter eta RetainWorkspace).
#[global] Instance set_WorkspaceBindingKey : Setter WorkspaceBindingKey := ltac:(derive_setter eta WorkspaceBindingKey).
#[global] Instance set_LinuxCloneIntent : Setter LinuxCloneIntent := ltac:(derive_setter eta LinuxCloneIntent).
#[global] Instance set_LinuxCloneSeedReceipt : Setter LinuxCloneSeedReceipt := ltac:(derive_setter eta LinuxCloneSeedReceipt).
#[global] Instance set_LinuxCloneCheckoutReceipt : Setter LinuxCloneCheckoutReceipt := ltac:(derive_setter eta LinuxCloneCheckoutReceipt).
#[global] Instance set_LinuxClonePromotionIntent : Setter LinuxClonePromotionIntent := ltac:(derive_setter eta LinuxClonePromotionIntent).
#[global] Instance set_LinuxClonePromotionReceipt : Setter LinuxClonePromotionReceipt := ltac:(derive_setter eta LinuxClonePromotionReceipt).
#[global] Instance set_LinuxCloneAbortPending : Setter LinuxCloneAbortPending := ltac:(derive_setter eta LinuxCloneAbortPending).
#[global] Instance set_LinuxCloneAbortProof : Setter LinuxCloneAbortProof := ltac:(derive_setter eta LinuxCloneAbortProof).
#[global] Instance set_LinuxCloneCleanupPending : Setter LinuxCloneCleanupPending := ltac:(derive_setter eta LinuxCloneCleanupPending).
#[global] Instance set_LinuxCloneCleanupIntent : Setter LinuxCloneCleanupIntent := ltac:(derive_setter eta LinuxCloneCleanupIntent).
#[global] Instance set_LinuxCloneTargetRemovalProof : Setter LinuxCloneTargetRemovalProof := ltac:(derive_setter eta LinuxCloneTargetRemovalProof).
#[global] Instance set_LinuxCloneCleanupProof : Setter LinuxCloneCleanupProof := ltac:(derive_setter eta LinuxCloneCleanupProof).
#[global] Instance set_PID : Setter PID := ltac:(derive_setter eta PID).
#[global] Instance set_ProcessIdentity : Setter ProcessIdentity := ltac:(derive_setter eta ProcessIdentity).
#[global] Instance set_StartedAt : Setter StartedAt := ltac:(derive_setter eta StartedAt).
#[global] Instance set_ContainmentAuthority : Setter ContainmentAuthority := ltac:(derive_setter eta ContainmentAuthority).
#[global] Instance set_ContainmentHandoff : Setter ContainmentHandoff := ltac:(derive_setter eta ContainmentHandoff).
#[global] Instance set_ContainmentCgroup : Setter ContainmentCgroup := ltac:(derive_setter eta ContainmentCgroup).
#[global] Instance set_ContainmentCgroupReleaseProof : Setter ContainmentCgroupReleaseProof := ltac:(derive_setter eta ContainmentCgroupReleaseProof).
#[global] Instance set_ContainmentCgroupPreGateReleaseProof : Setter ContainmentCgroupPreGateReleaseProof := ltac:(derive_setter eta ContainmentCgroupPreGateReleaseProof).
#[global] Instance set_ContainmentScans : Setter ContainmentScans := ltac:(derive_setter eta ContainmentScans).
#[global] Instance set_ContainmentUnproven : Setter ContainmentUnproven := ltac:(derive_setter eta ContainmentUnproven).
#[global] Instance set_LastEventSequence : Setter LastEventSequence := ltac:(derive_setter eta LastEventSequence).
#[global] Instance set_PendingEvents : Setter PendingEvents := ltac:(derive_setter eta PendingEvents).
#[global] Instance set_DroppedOutputChunks : Setter DroppedOutputChunks := ltac:(derive_setter eta DroppedOutputChunks).
#[global] Instance set_DroppedOutputBytes : Setter DroppedOutputBytes := ltac:(derive_setter eta DroppedOutputBytes).
#[global] Instance set_PendingTransitions : Setter PendingTransitions := ltac:(derive_setter eta PendingTransitions).
#[global] Instance set_AttemptedTransitionIDs : Setter AttemptedTransitionIDs := ltac:(derive_setter eta AttemptedTransitionIDs).
#[global] Instance set_PendingCommandAcknowledgements : Setter PendingCommandAcknowledgements := ltac:(derive_setter eta PendingCommandAcknowledgements).
#[global] Instance set_PendingGoalDeliveries : Setter PendingGoalDeliveries := ltac:(derive_setter eta PendingGoalDeliveries).
#[global] Instance set_DeliveredGoalDeliveries : Setter DeliveredGoalDeliveries := ltac:(derive_setter eta DeliveredGoalDeliveries).
#[global] Instance set_RetiredGoalDeliveries : Setter RetiredGoalDeliveries := ltac:(derive_setter eta RetiredGoalDeliveries).
#[global] Instance set_GoalDeliveryEnabled : Setter GoalDeliveryEnabled := ltac:(derive_setter eta GoalDeliveryEnabled).
#[global] Instance set_NativeUsageObservation : Setter NativeUsageObservation := ltac:(derive_setter eta NativeUsageObservation).
#[global] Instance set_NativeUsageRecoveryRequired : Setter NativeUsageRecoveryRequired := ltac:(derive_setter eta NativeUsageRecoveryRequired).
#[global] Instance set_NativeUsageTerminalRecovery : Setter NativeUsageTerminalRecovery := ltac:(derive_setter eta NativeUsageTerminalRecovery).
#[global] Instance set_InputCommandIntent : Setter InputCommandIntent := ltac:(derive_setter eta InputCommandIntent).
#[global] Instance set_ControlCommandIntents : Setter ControlCommandIntents := ltac:(derive_setter eta ControlCommandIntents).
#[global] Instance set_ProviderActionIntents : Setter ProviderActionIntents := ltac:(derive_setter eta ProviderActionIntents).

(** A journal with every field the zero value, as a Go composite literal
    starts from. *)
Definition zero : t :=
  mk "" 0 "" "" 0 "" "" 0 "" 0 "" "" "" "" "" "" 0 (Work.mk "" "" "" "" ∅) "" false false "" None None None None None false None false None None None 0 "" 0 None None None None None None false 0 [] 0 0 [] [] [] [] [] [] false None false None None [] [].

Definition Key (journal : t) : RunKey.t := RunKey.mk journal.(RunID) journal.(Generation).

Definition fence (journal : t) : Fence.t :=
  Fence.mk journal.(RuntimeID) journal.(ClaimedRuntimeEpoch) journal.(Generation) journal.(ClaimID)
    journal.(LeaseToken).

Definition hasClaimGrant (journal : t) : bool := negb (blank journal.(LeaseToken)) && negb (IsZero journal.(LeaseExpiresAt)).

Definition HasProcessDetails (journal : t) : bool :=
  negb (journal.(PID) =? 0) || (journal.(ProcessIdentity) <>s "") || negb (IsZero journal.(StartedAt)).

Definition HasPendingContainment (journal : t) : bool :=
  non_nil journal.(ContainmentAuthority) || non_nil journal.(ContainmentHandoff) ||
  non_nil journal.(ContainmentScans) ||
  some_and journal.(ContainmentCgroup) (fun reservation => is_nil reservation.(LinuxCgroupReservation.AbortProof)).

Definition HasPendingGoalDeliveries (journal : t) : bool := negb (llen journal.(PendingGoalDeliveries) =? 0).
End RunJournal.

(** Compute field accesses through assignments. [journal_compute] is for
    goals on a journal given by its fields. *)
Ltac journal_compute :=
  lazy beta iota delta
    [setf
      RunJournal.set_RunID RunJournal.set_Generation RunJournal.set_RuntimeKey RunJournal.set_RuntimeID
      RunJournal.set_ClaimedRuntimeEpoch RunJournal.set_ClaimID RunJournal.set_LeaseToken
      RunJournal.set_LeaseExpiresAt RunJournal.set_LocalState RunJournal.set_TerminalPendingAt
      RunJournal.set_TerminalState RunJournal.set_TerminalTaskResultKind RunJournal.set_TerminalIntentDigest
      RunJournal.set_TerminalCommandDigest RunJournal.set_TerminalSettlementDigest RunJournal.set_TerminalVerdict
      RunJournal.set_TerminalResolvedAt RunJournal.set_Work RunJournal.set_WorkspacePath
      RunJournal.set_WorkspaceRecoveryRequired RunJournal.set_RetainWorkspace RunJournal.set_WorkspaceBindingKey
      RunJournal.set_LinuxCloneIntent RunJournal.set_LinuxCloneSeedReceipt RunJournal.set_LinuxCloneCheckoutReceipt
      RunJournal.set_LinuxClonePromotionIntent RunJournal.set_LinuxClonePromotionReceipt
      RunJournal.set_LinuxCloneAbortPending RunJournal.set_LinuxCloneAbortProof
      RunJournal.set_LinuxCloneCleanupPending RunJournal.set_LinuxCloneCleanupIntent
      RunJournal.set_LinuxCloneTargetRemovalProof RunJournal.set_LinuxCloneCleanupProof RunJournal.set_PID
      RunJournal.set_ProcessIdentity RunJournal.set_StartedAt RunJournal.set_ContainmentAuthority
      RunJournal.set_ContainmentHandoff RunJournal.set_ContainmentCgroup
      RunJournal.set_ContainmentCgroupReleaseProof RunJournal.set_ContainmentCgroupPreGateReleaseProof
      RunJournal.set_ContainmentScans RunJournal.set_ContainmentUnproven RunJournal.set_LastEventSequence
      RunJournal.set_PendingEvents RunJournal.set_DroppedOutputChunks RunJournal.set_DroppedOutputBytes
      RunJournal.set_PendingTransitions RunJournal.set_AttemptedTransitionIDs
      RunJournal.set_PendingCommandAcknowledgements RunJournal.set_PendingGoalDeliveries
      RunJournal.set_DeliveredGoalDeliveries RunJournal.set_RetiredGoalDeliveries RunJournal.set_GoalDeliveryEnabled
      RunJournal.set_NativeUsageObservation RunJournal.set_NativeUsageRecoveryRequired
      RunJournal.set_NativeUsageTerminalRecovery RunJournal.set_InputCommandIntent
      RunJournal.set_ControlCommandIntents RunJournal.set_ProviderActionIntents
      RunJournal.RunID RunJournal.Generation RunJournal.RuntimeKey RunJournal.RuntimeID
      RunJournal.ClaimedRuntimeEpoch RunJournal.ClaimID RunJournal.LeaseToken RunJournal.LeaseExpiresAt
      RunJournal.LocalState RunJournal.TerminalPendingAt RunJournal.TerminalState RunJournal.TerminalTaskResultKind
      RunJournal.TerminalIntentDigest RunJournal.TerminalCommandDigest RunJournal.TerminalSettlementDigest
      RunJournal.TerminalVerdict RunJournal.TerminalResolvedAt RunJournal.Work RunJournal.WorkspacePath
      RunJournal.WorkspaceRecoveryRequired RunJournal.RetainWorkspace RunJournal.WorkspaceBindingKey
      RunJournal.LinuxCloneIntent RunJournal.LinuxCloneSeedReceipt RunJournal.LinuxCloneCheckoutReceipt
      RunJournal.LinuxClonePromotionIntent RunJournal.LinuxClonePromotionReceipt RunJournal.LinuxCloneAbortPending
      RunJournal.LinuxCloneAbortProof RunJournal.LinuxCloneCleanupPending RunJournal.LinuxCloneCleanupIntent
      RunJournal.LinuxCloneTargetRemovalProof RunJournal.LinuxCloneCleanupProof RunJournal.PID
      RunJournal.ProcessIdentity RunJournal.StartedAt RunJournal.ContainmentAuthority RunJournal.ContainmentHandoff
      RunJournal.ContainmentCgroup RunJournal.ContainmentCgroupReleaseProof
      RunJournal.ContainmentCgroupPreGateReleaseProof RunJournal.ContainmentScans RunJournal.ContainmentUnproven
      RunJournal.LastEventSequence RunJournal.PendingEvents RunJournal.DroppedOutputChunks
      RunJournal.DroppedOutputBytes RunJournal.PendingTransitions RunJournal.AttemptedTransitionIDs
      RunJournal.PendingCommandAcknowledgements RunJournal.PendingGoalDeliveries RunJournal.DeliveredGoalDeliveries
      RunJournal.RetiredGoalDeliveries RunJournal.GoalDeliveryEnabled RunJournal.NativeUsageObservation
      RunJournal.NativeUsageRecoveryRequired RunJournal.NativeUsageTerminalRecovery RunJournal.InputCommandIntent
      RunJournal.ControlCommandIntents RunJournal.ProviderActionIntents].

Ltac journal_simpl_in H :=
  cbn [setf
      RunJournal.set_RunID RunJournal.set_Generation RunJournal.set_RuntimeKey RunJournal.set_RuntimeID
      RunJournal.set_ClaimedRuntimeEpoch RunJournal.set_ClaimID RunJournal.set_LeaseToken
      RunJournal.set_LeaseExpiresAt RunJournal.set_LocalState RunJournal.set_TerminalPendingAt
      RunJournal.set_TerminalState RunJournal.set_TerminalTaskResultKind RunJournal.set_TerminalIntentDigest
      RunJournal.set_TerminalCommandDigest RunJournal.set_TerminalSettlementDigest RunJournal.set_TerminalVerdict
      RunJournal.set_TerminalResolvedAt RunJournal.set_Work RunJournal.set_WorkspacePath
      RunJournal.set_WorkspaceRecoveryRequired RunJournal.set_RetainWorkspace RunJournal.set_WorkspaceBindingKey
      RunJournal.set_LinuxCloneIntent RunJournal.set_LinuxCloneSeedReceipt RunJournal.set_LinuxCloneCheckoutReceipt
      RunJournal.set_LinuxClonePromotionIntent RunJournal.set_LinuxClonePromotionReceipt
      RunJournal.set_LinuxCloneAbortPending RunJournal.set_LinuxCloneAbortProof
      RunJournal.set_LinuxCloneCleanupPending RunJournal.set_LinuxCloneCleanupIntent
      RunJournal.set_LinuxCloneTargetRemovalProof RunJournal.set_LinuxCloneCleanupProof RunJournal.set_PID
      RunJournal.set_ProcessIdentity RunJournal.set_StartedAt RunJournal.set_ContainmentAuthority
      RunJournal.set_ContainmentHandoff RunJournal.set_ContainmentCgroup
      RunJournal.set_ContainmentCgroupReleaseProof RunJournal.set_ContainmentCgroupPreGateReleaseProof
      RunJournal.set_ContainmentScans RunJournal.set_ContainmentUnproven RunJournal.set_LastEventSequence
      RunJournal.set_PendingEvents RunJournal.set_DroppedOutputChunks RunJournal.set_DroppedOutputBytes
      RunJournal.set_PendingTransitions RunJournal.set_AttemptedTransitionIDs
      RunJournal.set_PendingCommandAcknowledgements RunJournal.set_PendingGoalDeliveries
      RunJournal.set_DeliveredGoalDeliveries RunJournal.set_RetiredGoalDeliveries RunJournal.set_GoalDeliveryEnabled
      RunJournal.set_NativeUsageObservation RunJournal.set_NativeUsageRecoveryRequired
      RunJournal.set_NativeUsageTerminalRecovery RunJournal.set_InputCommandIntent
      RunJournal.set_ControlCommandIntents RunJournal.set_ProviderActionIntents
      RunJournal.RunID RunJournal.Generation RunJournal.RuntimeKey RunJournal.RuntimeID
      RunJournal.ClaimedRuntimeEpoch RunJournal.ClaimID RunJournal.LeaseToken RunJournal.LeaseExpiresAt
      RunJournal.LocalState RunJournal.TerminalPendingAt RunJournal.TerminalState RunJournal.TerminalTaskResultKind
      RunJournal.TerminalIntentDigest RunJournal.TerminalCommandDigest RunJournal.TerminalSettlementDigest
      RunJournal.TerminalVerdict RunJournal.TerminalResolvedAt RunJournal.Work RunJournal.WorkspacePath
      RunJournal.WorkspaceRecoveryRequired RunJournal.RetainWorkspace RunJournal.WorkspaceBindingKey
      RunJournal.LinuxCloneIntent RunJournal.LinuxCloneSeedReceipt RunJournal.LinuxCloneCheckoutReceipt
      RunJournal.LinuxClonePromotionIntent RunJournal.LinuxClonePromotionReceipt RunJournal.LinuxCloneAbortPending
      RunJournal.LinuxCloneAbortProof RunJournal.LinuxCloneCleanupPending RunJournal.LinuxCloneCleanupIntent
      RunJournal.LinuxCloneTargetRemovalProof RunJournal.LinuxCloneCleanupProof RunJournal.PID
      RunJournal.ProcessIdentity RunJournal.StartedAt RunJournal.ContainmentAuthority RunJournal.ContainmentHandoff
      RunJournal.ContainmentCgroup RunJournal.ContainmentCgroupReleaseProof
      RunJournal.ContainmentCgroupPreGateReleaseProof RunJournal.ContainmentScans RunJournal.ContainmentUnproven
      RunJournal.LastEventSequence RunJournal.PendingEvents RunJournal.DroppedOutputChunks
      RunJournal.DroppedOutputBytes RunJournal.PendingTransitions RunJournal.AttemptedTransitionIDs
      RunJournal.PendingCommandAcknowledgements RunJournal.PendingGoalDeliveries RunJournal.DeliveredGoalDeliveries
      RunJournal.RetiredGoalDeliveries RunJournal.GoalDeliveryEnabled RunJournal.NativeUsageObservation
      RunJournal.NativeUsageRecoveryRequired RunJournal.NativeUsageTerminalRecovery RunJournal.InputCommandIntent
      RunJournal.ControlCommandIntents RunJournal.ProviderActionIntents] in H.

Ltac journal_simpl :=
  cbn [setf
      RunJournal.set_RunID RunJournal.set_Generation RunJournal.set_RuntimeKey RunJournal.set_RuntimeID
      RunJournal.set_ClaimedRuntimeEpoch RunJournal.set_ClaimID RunJournal.set_LeaseToken
      RunJournal.set_LeaseExpiresAt RunJournal.set_LocalState RunJournal.set_TerminalPendingAt
      RunJournal.set_TerminalState RunJournal.set_TerminalTaskResultKind RunJournal.set_TerminalIntentDigest
      RunJournal.set_TerminalCommandDigest RunJournal.set_TerminalSettlementDigest RunJournal.set_TerminalVerdict
      RunJournal.set_TerminalResolvedAt RunJournal.set_Work RunJournal.set_WorkspacePath
      RunJournal.set_WorkspaceRecoveryRequired RunJournal.set_RetainWorkspace RunJournal.set_WorkspaceBindingKey
      RunJournal.set_LinuxCloneIntent RunJournal.set_LinuxCloneSeedReceipt RunJournal.set_LinuxCloneCheckoutReceipt
      RunJournal.set_LinuxClonePromotionIntent RunJournal.set_LinuxClonePromotionReceipt
      RunJournal.set_LinuxCloneAbortPending RunJournal.set_LinuxCloneAbortProof
      RunJournal.set_LinuxCloneCleanupPending RunJournal.set_LinuxCloneCleanupIntent
      RunJournal.set_LinuxCloneTargetRemovalProof RunJournal.set_LinuxCloneCleanupProof RunJournal.set_PID
      RunJournal.set_ProcessIdentity RunJournal.set_StartedAt RunJournal.set_ContainmentAuthority
      RunJournal.set_ContainmentHandoff RunJournal.set_ContainmentCgroup
      RunJournal.set_ContainmentCgroupReleaseProof RunJournal.set_ContainmentCgroupPreGateReleaseProof
      RunJournal.set_ContainmentScans RunJournal.set_ContainmentUnproven RunJournal.set_LastEventSequence
      RunJournal.set_PendingEvents RunJournal.set_DroppedOutputChunks RunJournal.set_DroppedOutputBytes
      RunJournal.set_PendingTransitions RunJournal.set_AttemptedTransitionIDs
      RunJournal.set_PendingCommandAcknowledgements RunJournal.set_PendingGoalDeliveries
      RunJournal.set_DeliveredGoalDeliveries RunJournal.set_RetiredGoalDeliveries RunJournal.set_GoalDeliveryEnabled
      RunJournal.set_NativeUsageObservation RunJournal.set_NativeUsageRecoveryRequired
      RunJournal.set_NativeUsageTerminalRecovery RunJournal.set_InputCommandIntent
      RunJournal.set_ControlCommandIntents RunJournal.set_ProviderActionIntents
      RunJournal.RunID RunJournal.Generation RunJournal.RuntimeKey RunJournal.RuntimeID
      RunJournal.ClaimedRuntimeEpoch RunJournal.ClaimID RunJournal.LeaseToken RunJournal.LeaseExpiresAt
      RunJournal.LocalState RunJournal.TerminalPendingAt RunJournal.TerminalState RunJournal.TerminalTaskResultKind
      RunJournal.TerminalIntentDigest RunJournal.TerminalCommandDigest RunJournal.TerminalSettlementDigest
      RunJournal.TerminalVerdict RunJournal.TerminalResolvedAt RunJournal.Work RunJournal.WorkspacePath
      RunJournal.WorkspaceRecoveryRequired RunJournal.RetainWorkspace RunJournal.WorkspaceBindingKey
      RunJournal.LinuxCloneIntent RunJournal.LinuxCloneSeedReceipt RunJournal.LinuxCloneCheckoutReceipt
      RunJournal.LinuxClonePromotionIntent RunJournal.LinuxClonePromotionReceipt RunJournal.LinuxCloneAbortPending
      RunJournal.LinuxCloneAbortProof RunJournal.LinuxCloneCleanupPending RunJournal.LinuxCloneCleanupIntent
      RunJournal.LinuxCloneTargetRemovalProof RunJournal.LinuxCloneCleanupProof RunJournal.PID
      RunJournal.ProcessIdentity RunJournal.StartedAt RunJournal.ContainmentAuthority RunJournal.ContainmentHandoff
      RunJournal.ContainmentCgroup RunJournal.ContainmentCgroupReleaseProof
      RunJournal.ContainmentCgroupPreGateReleaseProof RunJournal.ContainmentScans RunJournal.ContainmentUnproven
      RunJournal.LastEventSequence RunJournal.PendingEvents RunJournal.DroppedOutputChunks
      RunJournal.DroppedOutputBytes RunJournal.PendingTransitions RunJournal.AttemptedTransitionIDs
      RunJournal.PendingCommandAcknowledgements RunJournal.PendingGoalDeliveries RunJournal.DeliveredGoalDeliveries
      RunJournal.RetiredGoalDeliveries RunJournal.GoalDeliveryEnabled RunJournal.NativeUsageObservation
      RunJournal.NativeUsageRecoveryRequired RunJournal.NativeUsageTerminalRecovery RunJournal.InputCommandIntent
      RunJournal.ControlCommandIntents RunJournal.ProviderActionIntents].
