(* ===== verification/Validation.v ===== *)
(** * Validation: when a run journal is well formed

    src/daemon/internal/state/state.go, [validateJournal] and what it calls:
    the invariant every journal satisfies before it is written and after it
    is read. The function is one sequence of checks in the source; here each
    group of checks is a definition of its own, and [validateJournal] runs
    them in the source's order. *)

From S2P Require Import Prelude Sha256 Json Authority Protocol Journal.
Import RunJournal.
Open Scope string_scope.
Open Scope Z_scope.

Definition invalid : error := Errorf "run journal is invalid".

(** ** Matching a reservation with its owner (state.go, 5329-5389) *)

Definition linuxCgroupReservationMatchesHandoff (reservation : LinuxCgroupReservation.t)
    (handoff : SupervisorHandoff.t) (requireBound : bool) : bool :=
  LinuxCgroupReservation.Validate reservation &&
  is_nil reservation.(LinuxCgroupReservation.PreGateStopReceipt) &&
  (handoff.(SupervisorHandoff.Version) =? SupervisorHandoffVersionV2) &&
  reservation.(LinuxCgroupReservation.LauncherGrantPossible) &&
  (handoff.(SupervisorHandoff.LaunchToken) =s reservation.(LinuxCgroupReservation.LaunchToken)) &&
  (handoff.(SupervisorHandoff.Secret) =s reservation.(LinuxCgroupReservation.Secret)) &&
  (handoff.(SupervisorHandoff.PipeToken) =s reservation.(LinuxCgroupReservation.PipeToken)) &&
  (handoff.(SupervisorHandoff.JobID) =s reservation.(LinuxCgroupReservation.JobID)) &&
  (handoff.(SupervisorHandoff.OwnerKind) =s OwnerKindLinuxHelper) &&
  (handoff.(SupervisorHandoff.OwnerContext) =s reservation.(LinuxCgroupReservation.RecoveryEndpoint)) &&
  (handoff.(SupervisorHandoff.OwnerUID) =? reservation.(LinuxCgroupReservation.OwnerUID)) &&
  (handoff.(SupervisorHandoff.LauncherUID) =? reservation.(LinuxCgroupReservation.LauncherUID)) &&
  (handoff.(SupervisorHandoff.AnchorPID) =?
     reservation.(LinuxCgroupReservation.Anchor).(LinuxCgroupProcessIdentity.PID)) &&
  (handoff.(SupervisorHandoff.AnchorIdentity) =s
     reservation.(LinuxCgroupReservation.Anchor).(LinuxCgroupProcessIdentity.Identity)) &&
  some_and reservation.(LinuxCgroupReservation.Gate) (fun gate =>
    (handoff.(SupervisorHandoff.TargetBirthKind) =s gate.(LinuxCgroupGateIdentity.BirthKind)) &&
    (handoff.(SupervisorHandoff.TargetPID) =?
       gate.(LinuxCgroupGateIdentity.Process).(LinuxCgroupProcessIdentity.PID)) &&
    (handoff.(SupervisorHandoff.TargetIdentity) =s
       gate.(LinuxCgroupGateIdentity.Process).(LinuxCgroupProcessIdentity.Identity))) &&
  some_and reservation.(LinuxCgroupReservation.LeafIdentity) (fun leaf =>
    some_and handoff.(SupervisorHandoff.CgroupIdentity) (fun cgroup => LinuxCgroupIdentity.Equal cgroup leaf)) &&
  some_and reservation.(LinuxCgroupReservation.Launcher) (fun launcher =>
    (handoff.(SupervisorHandoff.LauncherPID) =? launcher.(LinuxCgroupProcessIdentity.PID)) &&
    (handoff.(SupervisorHandoff.LauncherIdentity) =s launcher.(LinuxCgroupProcessIdentity.Identity))) &&
  some_and reservation.(LinuxCgroupReservation.LauncherExit) (fun exit =>
    some_and handoff.(SupervisorHandoff.LauncherExit) (fun e => LinuxCgroupExitProof.Equal e exit)) &&
  some_and reservation.(LinuxCgroupReservation.Helper) (fun helper =>
    if handoff.(SupervisorHandoff.SupervisorPID) =? 0 then
      negb requireBound && (handoff.(SupervisorHandoff.SupervisorIdentity) =s "") &&
      is_nil handoff.(SupervisorHandoff.Mirror) && non_nil reservation.(LinuxCgroupReservation.Mirror)
    else
      requireBound && (handoff.(SupervisorHandoff.SupervisorPID) =? helper.(LinuxCgroupProcessIdentity.PID)) &&
      (handoff.(SupervisorHandoff.SupervisorIdentity) =s helper.(LinuxCgroupProcessIdentity.Identity)) &&
      non_nil reservation.(LinuxCgroupReservation.Mirror) &&
      ptr_equal LinuxCgroupProcessIdentity.Equal handoff.(SupervisorHandoff.Mirror)
        reservation.(LinuxCgroupReservation.Mirror)).

Definition linuxCgroupReservationMatchesAuthority (reservation : LinuxCgroupReservation.t) (value : Supervisor.t) : bool :=
  LinuxCgroupReservation.Validate reservation && is_nil reservation.(LinuxCgroupReservation.AbortProof) &&
  is_nil reservation.(LinuxCgroupReservation.PreGateStopReceipt) &&
  reservation.(LinuxCgroupReservation.LauncherGrantPossible) &&
  (value.(Supervisor.Version) =? SupervisorVersionV2) && non_nil reservation.(LinuxCgroupReservation.Mirror) &&
  (value.(Supervisor.LaunchToken) =s reservation.(LinuxCgroupReservation.LaunchToken)) &&
  (value.(Supervisor.Secret) =s reservation.(LinuxCgroupReservation.Secret)) &&
  (value.(Supervisor.PipeToken) =s reservation.(LinuxCgroupReservation.PipeToken)) &&
  (value.(Supervisor.JobID) =s reservation.(LinuxCgroupReservation.JobID)) &&
  (value.(Supervisor.OwnerKind) =s OwnerKindLinuxHelper) &&
  (value.(Supervisor.OwnerContext) =s reservation.(LinuxCgroupReservation.RecoveryEndpoint)) &&
  (value.(Supervisor.OwnerUID) =? reservation.(LinuxCgroupReservation.OwnerUID)) &&
  (value.(Supervisor.LauncherUID) =? reservation.(LinuxCgroupReservation.LauncherUID)) &&
  some_and reservation.(LinuxCgroupReservation.Gate) (fun gate =>
    (value.(Supervisor.TargetBirthKind) =s gate.(LinuxCgroupGateIdentity.BirthKind)) &&
    (value.(Supervisor.TargetPID) =? gate.(LinuxCgroupGateIdentity.Process).(LinuxCgroupProcessIdentity.PID)) &&
    (value.(Supervisor.TargetIdentity) =s
       gate.(LinuxCgroupGateIdentity.Process).(LinuxCgroupProcessIdentity.Identity))) &&
  some_and reservation.(LinuxCgroupReservation.LeafIdentity) (fun leaf =>
    some_and value.(Supervisor.CgroupIdentity) (fun cgroup => LinuxCgroupIdentity.Equal cgroup leaf)) &&
  (value.(Supervisor.AnchorPID) =?
     reservation.(LinuxCgroupReservation.Anchor).(LinuxCgroupProcessIdentity.PID)) &&
  (value.(Supervisor.AnchorIdentity) =s
     reservation.(LinuxCgroupReservation.Anchor).(LinuxCgroupProcessIdentity.Identity)) &&
  some_and reservation.(LinuxCgroupReservation.Launcher) (fun launcher =>
    (value.(Supervisor.LauncherPID) =? launcher.(LinuxCgroupProcessIdentity.PID)) &&
    (value.(Supervisor.LauncherIdentity) =s launcher.(LinuxCgroupProcessIdentity.Identity))) &&
  some_and reservation.(LinuxCgroupReservation.LauncherExit) (fun exit =>
    some_and value.(Supervisor.LauncherExit) (fun e => LinuxCgroupExitProof.Equal e exit)) &&
  some_and reservation.(LinuxCgroupReservation.Helper) (fun helper =>
    (value.(Supervisor.SupervisorPID) =? helper.(LinuxCgroupProcessIdentity.PID)) &&
    (value.(Supervisor.SupervisorIdentity) =s helper.(LinuxCgroupProcessIdentity.Identity))) &&
  ptr_equal LinuxCgroupProcessIdentity.Equal value.(Supervisor.Mirror) reservation.(LinuxCgroupReservation.Mirror).

(** ** Containment (state.go, 5543-5641) *)

Definition validateProcess (journal : RunJournal.t) : result unit :=
  reject negb (validRequiredString journal.(RuntimeKey) 4096) || negb (validRequiredString journal.(RuntimeID) 4096) ||
         (journal.(ClaimedRuntimeEpoch) <=? 0) || negb (validRequiredString journal.(ClaimID) 4096) ||
         negb (validRequiredString journal.(LocalState) 256) || (32768 <? len journal.(WorkspacePath)) ||
         negb (validRequiredString journal.(WorkspaceBindingKey) 4096) || (journal.(PID) <? 0) ||
         (4096 <? len journal.(ProcessIdentity)) || (journal.(LastEventSequence) <? 0) with invalid ;;
  reject (journal.(PID) =? 0) &&
         (negb (IsZero journal.(StartedAt)) || (journal.(ProcessIdentity) <>s "") ||
          non_nil journal.(ContainmentAuthority)) with Errorf "run journal process details are invalid" ;;
  reject (0 <? journal.(PID)) &&
         (IsZero journal.(StartedAt) || negb (validRequiredString journal.(ProcessIdentity) 4096))
    with Errorf "run journal process details are invalid" ;;
  reject journal.(ContainmentUnproven) && negb (HasProcessDetails journal) && is_nil journal.(ContainmentHandoff) &&
         is_nil journal.(ContainmentScans) && is_nil journal.(ContainmentCgroup)
    with Errorf "run journal containment uncertainty is invalid" ;;
  Ok tt.

Definition validateAuthority (journal : RunJournal.t) : result unit :=
  match journal.(ContainmentAuthority) with
  | None => Ok tt
  | Some value =>
      reject negb (Supervisor.Validate value) || negb (value.(Supervisor.TargetPID) =? journal.(PID)) ||
             (value.(Supervisor.TargetIdentity) <>s journal.(ProcessIdentity))
        with Errorf "run journal containment authority is invalid" ;;
      if value.(Supervisor.Version) =? SupervisorVersionV2 then
        reject negb (some_and journal.(ContainmentCgroup) (fun reservation =>
                 linuxCgroupReservationMatchesAuthority reservation value &&
                 some_and reservation.(LinuxCgroupReservation.Gate) (fun gate =>
                   journal.(StartedAt) =? gate.(LinuxCgroupGateIdentity.ObservedAt)))) ||
               non_nil journal.(ContainmentScans) || non_nil journal.(ContainmentCgroupReleaseProof) ||
               non_nil value.(Supervisor.StopReceipt) && journal.(ContainmentUnproven)
          with Errorf "run journal v2 containment authority is invalid" ;;
        Ok tt
      else
        reject non_nil journal.(ContainmentCgroup)
          with Errorf "v1 containment authority cannot use a v2 cgroup reservation" ;;
        Ok tt
  end.

Definition validateHandoff (journal : RunJournal.t) : result unit :=
  match journal.(ContainmentHandoff) with
  | None => Ok tt
  | Some handoff =>
      reject non_nil journal.(ContainmentAuthority) || HasProcessDetails journal || negb (hasClaimGrant journal) ||
             negb (SupervisorHandoff.Validate handoff)
        with Errorf "run journal containment handoff is invalid" ;;
      if handoff.(SupervisorHandoff.Version) =? SupervisorHandoffVersionV2 then
        reject negb (some_and journal.(ContainmentCgroup) (fun reservation =>
                 linuxCgroupReservationMatchesHandoff reservation handoff
                   (0 <? handoff.(SupervisorHandoff.SupervisorPID)))) ||
               non_nil journal.(ContainmentScans) || non_nil journal.(ContainmentCgroupReleaseProof) ||
               non_nil handoff.(SupervisorHandoff.StopReceipt) && journal.(ContainmentUnproven)
          with Errorf "run journal v2 containment handoff is invalid" ;;
        Ok tt
      else
        reject non_nil journal.(ContainmentCgroup)
          with Errorf "v1 containment handoff cannot use a v2 cgroup reservation" ;;
        Ok tt
  end.

Definition activeOwner (journal : RunJournal.t) : bool :=
  journal.(ContainmentUnproven) || non_nil journal.(ContainmentAuthority) || non_nil journal.(ContainmentHandoff) ||
  HasProcessDetails journal.

Definition validateCgroup (journal : RunJournal.t) : result unit :=
  match journal.(ContainmentCgroup) with
  | None => Ok tt
  | Some reservation =>
      reject negb (LinuxCgroupReservation.Validate reservation) || negb (hasClaimGrant journal) ||
             non_nil journal.(ContainmentScans) with Errorf "run journal v2 cgroup reservation is invalid" ;;
      reject non_nil reservation.(LinuxCgroupReservation.AbortProof) && activeOwner journal
        with Errorf "run journal aborted cgroup reservation has active owner state" ;;
      reject non_nil reservation.(LinuxCgroupReservation.PreGateStopReceipt) && activeOwner journal
        with Errorf "run journal pre-gate cgroup receipt has active owner state" ;;
      reject is_nil journal.(ContainmentAuthority) && is_nil journal.(ContainmentHandoff) && HasProcessDetails journal
        with Errorf "uncommitted v2 cgroup reservation has process authority" ;;
      reject some_and journal.(ContainmentAuthority) (fun value =>
               negb (value.(Supervisor.Version) =? SupervisorVersionV2))
        with Errorf "v2 cgroup reservation cannot accompany a v1 authority" ;;
      reject some_and journal.(ContainmentHandoff) (fun handoff =>
               negb (handoff.(SupervisorHandoff.Version) =? SupervisorHandoffVersionV2))
        with Errorf "v2 cgroup reservation cannot accompany a v1 handoff" ;;
      Ok tt
  end.

Definition validateScans (journal : RunJournal.t) : result unit :=
  match journal.(ContainmentScans) with
  | None => Ok tt
  | Some scans =>
      reject non_nil journal.(ContainmentCgroup) || negb (scans.(ContainmentScanJournal.Version) =? 1) ||
             negb (len scans.(ContainmentScanJournal.LaunchToken) =? TokenBytes * 2) ||
             negb (validStateHex scans.(ContainmentScanJournal.LaunchToken)) ||
             negb (len scans.(ContainmentScanJournal.MirrorIdentity) =? TokenBytes * 2) ||
             negb (validStateHex scans.(ContainmentScanJournal.MirrorIdentity)) ||
             (scans.(ContainmentScanJournal.TargetPID) <=? 0) ||
             negb (validRequiredString scans.(ContainmentScanJournal.TargetIdentity) 4096) ||
             (scans.(ContainmentScanJournal.SupervisorPID) <=? 0) ||
             negb (validRequiredString scans.(ContainmentScanJournal.SupervisorIdentity) 4096) ||
             negb (ContainmentScanProgress.valid scans.(ContainmentScanJournal.Helper)) ||
             negb (ContainmentScanProgress.valid scans.(ContainmentScanJournal.Mirror))
        with Errorf "run journal containment scan state is invalid" ;;
      check
        match journal.(ContainmentHandoff), journal.(ContainmentAuthority) with
        | Some handoff, _ =>
            reject (handoff.(SupervisorHandoff.OwnerKind) <>s OwnerKindLinuxHelper) ||
                   (handoff.(SupervisorHandoff.SupervisorPID) <=? 0) ||
                   negb (ContainmentScanJournal.matchesHandoff scans handoff)
              with Errorf "run journal containment scan handoff is invalid" ;; Ok tt
        | None, Some value =>
            reject (value.(Supervisor.OwnerKind) <>s OwnerKindLinuxHelper) ||
                   negb (ContainmentScanJournal.matchesAuthority scans value)
              with Errorf "run journal containment scan authority is invalid" ;; Ok tt
        | None, None => Err (Errorf "run journal containment scan state has no Linux owner")
        end ;;
      reject (negb (scans.(ContainmentScanJournal.Helper).(ContainmentScanProgress.UnprovenSequence) =? 0) ||
              negb (scans.(ContainmentScanJournal.Mirror).(ContainmentScanProgress.UnprovenSequence) =? 0)) &&
             negb journal.(ContainmentUnproven)
        with Errorf "run journal containment scan failure is not sticky" ;;
      Ok tt
  end.

(** Nothing of the process or its containment may remain beside a release
    tombstone. *)
Definition containmentRemains (journal : RunJournal.t) : bool :=
  non_nil journal.(ContainmentAuthority) || non_nil journal.(ContainmentHandoff) ||
  non_nil journal.(ContainmentCgroup) || non_nil journal.(ContainmentScans) || HasProcessDetails journal ||
  negb (journal.(PID) =? 0) || (journal.(ProcessIdentity) <>s "") || negb (IsZero journal.(StartedAt)) ||
  journal.(ContainmentUnproven).

Definition validateReleaseProofs (journal : RunJournal.t) : result unit :=
  reject some_and journal.(ContainmentCgroupReleaseProof) (fun proof =>
           negb (SupervisorHandoffReleaseProof.Validate proof) ||
           negb (proof.(SupervisorHandoffReleaseProof.Version) =? SupervisorHandoffVersionV2) ||
           non_nil journal.(ContainmentCgroupPreGateReleaseProof) || containmentRemains journal)
    with Errorf "run journal v2 cgroup release proof is invalid" ;;
  reject some_and journal.(ContainmentCgroupPreGateReleaseProof) (fun proof =>
           negb (LinuxCgroupPreGateReleaseProof.Validate proof) ||
           non_nil journal.(ContainmentCgroupReleaseProof) || containmentRemains journal)
    with Errorf "run journal pre-gate cgroup release proof is invalid" ;;
  Ok tt.

(** ** Lease, work and terminal state (state.go, 5642-5664, 5780-5813) *)

Definition validWork (work : Work.t) : bool :=
  (len work.(Work.Goal) <=? 65536) && (len work.(Work.AgentProfile) <=? 4096) &&
  (len work.(Work.Workspace) <=? 4096) && validRawMessage work.(Work.Input).

Definition TerminalVerdictAccepted : string := "accepted".
Definition TerminalVerdictOwnershipLost : string := "ownership_lost".
Definition TerminalVerdictGraceExpired : string := "terminal_grace_expired".

Definition IsConclusiveTerminalVerdict (verdict : string) : bool :=
  (verdict =s TerminalVerdictOwnershipLost) || (verdict =s TerminalVerdictGraceExpired).

Definition validTerminalVerdict (verdict : string) : bool :=
  string_in verdict [TerminalVerdictAccepted; TerminalVerdictOwnershipLost; TerminalVerdictGraceExpired].

Definition TaskResultCandidateCompletion : string := "candidate_completion".

Definition validTaskResultKind (kind : string) : bool :=
  string_in kind ["progress"; TaskResultCandidateCompletion; "blocked"; "repair_required"; "replan_required";
                  "failed"; "plan_proposed"].

Definition hasPendingTerminalTransition (transitions : list StateTransitionRequest.t) : bool :=
  existsb (fun transition => isTerminalTransitionState transition.(StateTransitionRequest.State)) transitions.

Definition terminalFieldsUnset (journal : RunJournal.t) : bool :=
  IsZero journal.(TerminalPendingAt) && (journal.(TerminalState) =s "") &&
  (journal.(TerminalTaskResultKind) =s "") && (journal.(TerminalIntentDigest) =s "") &&
  (journal.(TerminalCommandDigest) =s "") && (journal.(TerminalSettlementDigest) =s "") &&
  (journal.(TerminalVerdict) =s "") && IsZero journal.(TerminalResolvedAt).

Definition validOptionalDigest (value : string) : bool := (value =s "") || validDigest value.

Definition validTerminalState (journal : RunJournal.t) : bool :=
  none_or journal.(NativeUsageTerminalRecovery) NativeUsageTerminalRecovery.valid &&
  (if (journal.(LocalState) <>s "terminal_pending") && (journal.(LocalState) <>s "cleanup_pending") then
     negb (hasPendingTerminalTransition journal.(PendingTransitions)) && terminalFieldsUnset journal
   else
     negb (IsZero journal.(TerminalPendingAt)) && isTerminalTransitionState journal.(TerminalState) &&
     ((journal.(TerminalTaskResultKind) =s "") || validTaskResultKind journal.(TerminalTaskResultKind)) &&
     validOptionalDigest journal.(TerminalIntentDigest) && validOptionalDigest journal.(TerminalCommandDigest) &&
     validOptionalDigest journal.(TerminalSettlementDigest) &&
     (if journal.(LocalState) =s "cleanup_pending" then
        validTerminalVerdict journal.(TerminalVerdict) && negb (IsZero journal.(TerminalResolvedAt)) &&
        (llen journal.(PendingEvents) =? 0) && (llen journal.(PendingTransitions) =? 0) &&
        (llen journal.(PendingCommandAcknowledgements) =? 0) && (llen journal.(AttemptedTransitionIDs) =? 0)
      else if journal.(TerminalVerdict) =s "" then IsZero journal.(TerminalResolvedAt)
      else validTerminalVerdict journal.(TerminalVerdict) && negb (IsZero journal.(TerminalResolvedAt)))).

Definition validateLeaseAndTerminal (journal : RunJournal.t) : result unit :=
  reject negb (Bool.eqb (blank journal.(LeaseToken)) (IsZero journal.(LeaseExpiresAt))) ||
         (65536 <? len journal.(LeaseToken)) || negb (validWork journal.(Work)) with invalid ;;
  reject negb (validTerminalState journal) with invalid ;;
  reject non_nil journal.(NativeUsageTerminalRecovery) && negb journal.(NativeUsageRecoveryRequired) with invalid ;;
  reject (journal.(DroppedOutputChunks) <? 0) || (journal.(DroppedOutputBytes) <? 0) with invalid ;;
  reject negb (hasClaimGrant journal) &&
         (negb (journal.(PID) =? 0) || negb (IsZero journal.(StartedAt)) || non_nil journal.(ContainmentCgroup) ||
          non_nil journal.(LinuxCloneIntent) || non_nil journal.(LinuxCloneSeedReceipt) ||
          non_nil journal.(LinuxCloneCheckoutReceipt) || non_nil journal.(LinuxClonePromotionIntent) ||
          non_nil journal.(LinuxClonePromotionReceipt) || journal.(LinuxCloneAbortPending) ||
          non_nil journal.(LinuxCloneAbortProof) || negb (llen journal.(PendingEvents) =? 0) ||
          negb (journal.(DroppedOutputChunks) =? 0) || negb (journal.(DroppedOutputBytes) =? 0) ||
          negb (llen journal.(PendingTransitions) =? 0) ||
          negb (llen journal.(PendingCommandAcknowledgements) =? 0)) with invalid ;;
  Ok tt.

(** ** Machine-local clone (state.go, 4592-4841) *)

Definition linuxCloneCheckoutMatches (intent : LinuxCloneIntent.t) (seed : LinuxCloneSeedReceipt.t)
    (receipt : LinuxCloneCheckoutReceipt.t) : bool :=
  LinuxCloneCheckoutReceipt.Validate receipt &&
  (receipt.(LinuxCloneCheckoutReceipt.RunID) =s intent.(LinuxCloneIntent.RunID)) &&
  (receipt.(LinuxCloneCheckoutReceipt.Generation) =? intent.(LinuxCloneIntent.Generation)) &&
  (receipt.(LinuxCloneCheckoutReceipt.BindingKey) =s intent.(LinuxCloneIntent.BindingKey)) &&
  (receipt.(LinuxCloneCheckoutReceipt.ResourceID) =s intent.(LinuxCloneIntent.ResourceID)) &&
  (receipt.(LinuxCloneCheckoutReceipt.Target) =s intent.(LinuxCloneIntent.Target)) &&
  (receipt.(LinuxCloneCheckoutReceipt.Nonce) =s intent.(LinuxCloneIntent.Nonce)) &&
  (receipt.(LinuxCloneCheckoutReceipt.SeedDigest) =s seed.(LinuxCloneSeedReceipt.Digest)) &&
  (receipt.(LinuxCloneCheckoutReceipt.BaseCommit) =s intent.(LinuxCloneIntent.BaseCommit)) &&
  (seed.(LinuxCloneSeedReceipt.BaseCommit) =s intent.(LinuxCloneIntent.BaseCommit)).

Definition linuxCloneStopProven (journal : RunJournal.t) : bool :=
  some_and journal.(ContainmentAuthority) (fun owner =>
    (owner.(Supervisor.Version) =? SupervisorVersionV2) &&
    some_and owner.(Supervisor.StopReceipt) (fun receipt => Supervisor.ReceiptValidFor receipt owner)) ||
  some_and journal.(ContainmentCgroupReleaseProof) (fun release =>
    (release.(SupervisorHandoffReleaseProof.Version) =? SupervisorHandoffVersionV2) &&
    SupervisorHandoffReleaseProof.Validate release).

Definition linuxCloneAbortNoActiveOwner (journal : RunJournal.t) : bool :=
  negb (HasProcessDetails journal) && is_nil journal.(ContainmentAuthority) && is_nil journal.(ContainmentHandoff) &&
  is_nil journal.(ContainmentScans) && negb journal.(ContainmentUnproven) && negb (HasPendingContainment journal).

Definition linuxCloneAbortPendingReleaseUnresolved (journal : RunJournal.t) : bool :=
  linuxCloneAbortNoActiveOwner journal && is_nil journal.(ContainmentCgroup) &&
  is_nil journal.(ContainmentCgroupPreGateReleaseProof) &&
  some_and journal.(ContainmentCgroupReleaseProof) (fun release =>
    SupervisorHandoffReleaseProof.Validate release &&
    (release.(SupervisorHandoffReleaseProof.Version) =? SupervisorHandoffVersionV2) &&
    non_nil release.(SupervisorHandoffReleaseProof.StopReceipt)).

Definition linuxCloneAbortFenceAvailable (journal : RunJournal.t) : bool :=
  linuxCloneAbortNoActiveOwner journal && is_nil journal.(ContainmentCgroupReleaseProof) &&
  match journal.(ContainmentCgroup), journal.(ContainmentCgroupPreGateReleaseProof) with
  | Some reservation, preGate =>
      some_and reservation.(LinuxCgroupReservation.AbortProof) (fun proof =>
        is_nil reservation.(LinuxCgroupReservation.PreGateStopReceipt) &&
        is_nil reservation.(LinuxCgroupReservation.Gate) &&
        LinuxCgroupReservation.AbortMatches reservation proof && is_nil preGate)
  | None, Some proof =>
      (proof.(LinuxCgroupPreGateReleaseProof.Version) =? SupervisorHandoffVersionV2) &&
      LinuxCgroupPreGateReleaseProof.Validate proof
  | None, None => true
  end.

Definition linuxCloneAbortHistoryMatches (journal : RunJournal.t) (proof : option LinuxCloneAbortProof.t) : bool :=
  let noHistory := is_nil journal.(ContainmentCgroup) && is_nil journal.(ContainmentCgroupReleaseProof) &&
                   is_nil journal.(ContainmentCgroupPreGateReleaseProof) in
  linuxCloneAbortNoActiveOwner journal &&
  none_or proof (fun p => is_nil p.(LinuxCloneAbortProof.NormalReleaseProof)) &&
  match proof with
  | None => noHistory
  | Some p =>
      match p.(LinuxCloneAbortProof.CgroupAbortProof), p.(LinuxCloneAbortProof.PreGateReleaseProof) with
      | Some abort, preGate =>
          is_nil preGate &&
          some_and journal.(ContainmentCgroup) (fun reservation =>
            some_and reservation.(LinuxCgroupReservation.AbortProof) (fun current =>
              LinuxCgroupReservationAbortProof.Equal current abort) &&
            LinuxCgroupReservation.AbortMatches reservation abort) &&
          is_nil journal.(ContainmentCgroupReleaseProof) && is_nil journal.(ContainmentCgroupPreGateReleaseProof)
      | None, Some preGate =>
          is_nil journal.(ContainmentCgroup) && is_nil journal.(ContainmentCgroupReleaseProof) &&
          some_and journal.(ContainmentCgroupPreGateReleaseProof) (fun current =>
            LinuxCgroupPreGateReleaseProof.Equal current preGate)
      | None, None => noHistory
      end
  end.

Definition noCloneCleanup (journal : RunJournal.t) : bool :=
  negb journal.(LinuxCloneCleanupPending) && is_nil journal.(LinuxCloneCleanupIntent) &&
  is_nil journal.(LinuxCloneTargetRemovalProof) && is_nil journal.(LinuxCloneCleanupProof).

Section Clone.
Context `{AdmissionParser}.

Definition requireLinuxCloneJournalFenceSubject (journal : RunJournal.t) (intent : LinuxCloneIntent.t) : bool :=
  match ParseAdmissionInput journal.(Work).(Work.Input) with
  | Some (Some admission) =>
      let subject := admission.(Admission.subject) in
      Subject.Validate subject && (subject.(Subject.ResourceID) =s intent.(LinuxCloneIntent.ResourceID)) &&
      (subject.(Subject.Commit) =s intent.(LinuxCloneIntent.BaseCommit)) &&
      (subject.(Subject.TreeDigest) =s intent.(LinuxCloneIntent.BaseTreeDigest))
  | _ => false
  end.

(** [linuxCloneDeliveredArtifactIdentity]: evidence ID, key, subject hash
    and delivery digest of the delivered candidate artifact. *)
Definition artifactDelivery (journal : RunJournal.t) (subject : Subject.t) (subjectHash : string)
    (delivery : GoalDelivery.t) : option (string * string * string * string) :=
  match delivery.(GoalDelivery.evidence) with
  | None => None
  | Some evidence =>
      if (delivery.(GoalDelivery.Kind) =s GoalDeliveryEvidence) && delivery.(GoalDelivery.Ready) &&
         sameFence delivery.(GoalDelivery.fence) (fence journal) &&
         (delivery.(GoalDelivery.DeliveryID) =s evidence.(Evidence.EvidenceKey)) &&
         validDigest delivery.(GoalDelivery.PayloadDigest) && Evidence.Validate evidence &&
         (evidence.(Evidence.RunID) =s journal.(RunID)) && (evidence.(Evidence.Kind) =s EvidenceArtifact) &&
         bool_decide (evidence.(Evidence.subject) = subject) && (evidence.(Evidence.SubjectHash) =s subjectHash)
      then match GoalDelivery.prepare journal.(RunID) (delivery <| GoalDelivery.PayloadDigest := "" |>) with
           | Ok prepared =>
               if prepared.(GoalDelivery.PayloadDigest) =s delivery.(GoalDelivery.PayloadDigest)
               then Some (evidence.(Evidence.EvidenceID), evidence.(Evidence.EvidenceKey),
                          evidence.(Evidence.SubjectHash), delivery.(GoalDelivery.PayloadDigest))
               else None
           | Err _ => None
           end
      else None
  end.

Fixpoint first_some {A B} (f : A -> option B) (l : list A) : option B :=
  match l with
  | [] => None
  | x :: l' => match f x with Some b => Some b | None => first_some f l' end
  end.

Definition linuxCloneDeliveredArtifactIdentity (journal : RunJournal.t) : option (string * string * string * string) :=
  intent ← journal.(LinuxClonePromotionIntent);
  if negb (journal.(GoalDeliveryEnabled) && (journal.(TerminalState) =s "completed") &&
           (journal.(TerminalTaskResultKind) =s TaskResultCandidateCompletion)) then None else
  match ParseAdmissionInput journal.(Work).(Work.Input) with
  | Some (Some admission) =>
      if (admission.(Admission.Purpose) <>s "implement") ||
         (admission.(Admission.subject).(Subject.ResourceID) <>s intent.(LinuxClonePromotionIntent.ResourceID))
      then None
      else
        let subject := Subject.mk intent.(LinuxClonePromotionIntent.ResourceID)
                         intent.(LinuxClonePromotionIntent.Commit) intent.(LinuxClonePromotionIntent.TreeDigest) in
        subjectHash ← Subject.Hash subject;
        first_some (artifactDelivery journal subject subjectHash) journal.(DeliveredGoalDeliveries)
  | _ => None
  end.

Definition linuxCloneCleanupIntentFromJournal (journal : RunJournal.t) : option LinuxCloneCleanupIntent.t :=
  intent ← journal.(LinuxCloneIntent);
  seed ← journal.(LinuxCloneSeedReceipt);
  checkout ← journal.(LinuxCloneCheckoutReceipt);
  promotionIntent ← journal.(LinuxClonePromotionIntent);
  promotion ← journal.(LinuxClonePromotionReceipt);
  release ← journal.(ContainmentCgroupReleaseProof);
  root ← LinuxCloneIntent.LinuxCloneWorkspaceRoot intent;
  baseRef ← LinuxCloneBaseRef journal.(RunID) journal.(Generation);
  '(evidenceID, evidenceKey, subjectHash, digest) ← linuxCloneDeliveredArtifactIdentity journal;
  let cleanup :=
    LinuxCloneCleanupIntent.mk LinuxCloneVersion intent
      ("sha256:" ++ sha256_hex (Fence.encode true (fence journal))) root baseRef seed checkout promotionIntent
      promotion release evidenceID evidenceKey subjectHash digest in
  if LinuxCloneCleanupIntent.Validate cleanup then Some cleanup else None.

Definition validateCloneAbort (journal : RunJournal.t) (intent : LinuxCloneIntent.t) : result unit :=
  reject non_nil journal.(LinuxCloneCheckoutReceipt) || non_nil journal.(LinuxClonePromotionIntent) ||
         non_nil journal.(LinuxClonePromotionReceipt) with Errorf "run journal Linux clone abort state is invalid" ;;
  reject negb (noCloneCleanup journal) with Errorf "run journal clone abort conflicts with normal cleanup" ;;
  match journal.(LinuxCloneAbortProof) with
  | None =>
      reject negb (linuxCloneAbortFenceAvailable journal) && negb (linuxCloneAbortPendingReleaseUnresolved journal)
        with Errorf "run journal Linux clone abort lost its producer fence" ;;
      reject (journal.(WorkspacePath) <>s intent.(LinuxCloneIntent.Target)) ||
             negb journal.(WorkspaceRecoveryRequired)
        with Errorf "run journal pending clone abort lost its reserved target" ;;
      Ok tt
  | Some proof =>
      reject negb (LinuxCloneAbortProof.ValidateForJournal proof) ||
             negb (LinuxCloneIntent.Equal proof.(LinuxCloneAbortProof.Intent) intent) ||
             (journal.(WorkspacePath) <>s "") || journal.(WorkspaceRecoveryRequired)
        with Errorf "run journal Linux clone abort proof is invalid" ;;
      check
        match proof.(LinuxCloneAbortProof.NormalReleaseProof) with
        | Some release =>
            reject negb (linuxCloneAbortPendingReleaseUnresolved journal) ||
                   negb (some_and journal.(ContainmentCgroupReleaseProof) (fun current =>
                           SupervisorHandoffReleaseProof.Equal current release))
              with Errorf "legacy normal-release Linux clone abort remains unresolved" ;; Ok tt
        | None =>
            reject negb (linuxCloneAbortHistoryMatches journal (Some proof))
              with Errorf "run journal Linux clone abort proof lacks exact no-gate history" ;; Ok tt
        end ;;
      reject some_and journal.(LinuxCloneSeedReceipt) (fun seed =>
               negb (some_and proof.(LinuxCloneAbortProof.SeedReceipt) (LinuxCloneSeedReceipt.Equal seed)))
        with Errorf "run journal Linux clone abort proof lost its bound seed receipt" ;;
      Ok tt
  end.

Definition validateCloneCleanup (journal : RunJournal.t) (intent : LinuxCloneIntent.t) : result unit :=
  match journal.(LinuxCloneCleanupIntent) with
  | None =>
      reject negb (noCloneCleanup journal) || (journal.(WorkspacePath) <>s intent.(LinuxCloneIntent.Target))
        with Errorf "run journal Linux clone cleanup stage is invalid" ;; Ok tt
  | Some stored =>
      match linuxCloneCleanupIntentFromJournal journal with
      | None => Err (Errorf "run journal Linux clone cleanup intent is invalid")
      | Some cleanupIntent =>
          reject negb (LinuxCloneCleanupIntent.Equal cleanupIntent stored)
            with Errorf "run journal Linux clone cleanup intent is invalid" ;;
          let removed := fun proof =>
            LinuxCloneTargetRemovalProof.Validate proof &&
            LinuxCloneCleanupIntent.Equal proof.(LinuxCloneTargetRemovalProof.Intent) cleanupIntent in
          if journal.(LinuxCloneCleanupPending) then
            reject non_nil journal.(LinuxCloneCleanupProof) ||
                   (journal.(WorkspacePath) <>s intent.(LinuxCloneIntent.Target)) ||
                   negb journal.(WorkspaceRecoveryRequired)
              with Errorf "run journal pending Linux clone cleanup stage is invalid" ;;
            reject negb (none_or journal.(LinuxCloneTargetRemovalProof) removed)
              with Errorf "run journal pending Linux clone target-removal proof is invalid" ;;
            Ok tt
          else
            reject negb (some_and journal.(LinuxCloneTargetRemovalProof) (fun removal =>
                     removed removal &&
                     some_and journal.(LinuxCloneCleanupProof) (fun cleanup =>
                       LinuxCloneCleanupProof.Validate cleanup &&
                       LinuxCloneCleanupIntent.Equal cleanup.(LinuxCloneCleanupProof.Intent) cleanupIntent &&
                       LinuxCloneTargetRemovalProof.Equal cleanup.(LinuxCloneCleanupProof.TargetRemovalProof)
                         removal))) ||
                   (journal.(WorkspacePath) <>s "") || journal.(WorkspaceRecoveryRequired)
              with Errorf "run journal Linux clone cleanup proof is invalid" ;;
            Ok tt
      end
  end.

Definition validateClonePromotion (journal : RunJournal.t) (intent : LinuxCloneIntent.t) : result unit :=
  let ref := LinuxClonePromotionRef journal.(RunID) journal.(Generation) in
  let sameLength := fun commit => len commit =? len intent.(LinuxCloneIntent.BaseCommit) in
  match journal.(LinuxClonePromotionIntent), journal.(LinuxClonePromotionReceipt) with
  | None, promotion =>
      reject negb (noCloneCleanup journal) with Errorf "run journal Linux clone promotion receipt has no intent" ;;
      match promotion with
      | None =>
          reject journal.(WorkspacePath) <>s intent.(LinuxCloneIntent.Target)
            with Errorf "run journal Linux clone target path changed" ;; Ok tt
      | Some receipt =>
          reject negb (LinuxClonePromotionReceipt.Validate receipt) ||
                 negb (some_and ref (fun r => receipt.(LinuxClonePromotionReceipt.Ref) =s r)) ||
                 negb (sameLength receipt.(LinuxClonePromotionReceipt.Commit)) ||
                 negb (linuxCloneStopProven journal) ||
                 (journal.(WorkspacePath) <>s intent.(LinuxCloneIntent.Target))
            with Errorf "run journal legacy Linux clone promotion receipt is invalid" ;; Ok tt
      end
  | Some promotionIntent, promotion =>
      reject negb (LinuxClonePromotionIntent.Validate promotionIntent) ||
             (promotionIntent.(LinuxClonePromotionIntent.ResourceID) <>s intent.(LinuxCloneIntent.ResourceID)) ||
             negb (sameLength promotionIntent.(LinuxClonePromotionIntent.Commit)) ||
             negb (linuxCloneStopProven journal)
        with Errorf "run journal Linux clone promotion intent is invalid" ;;
      match promotion with
      | None =>
          reject negb (noCloneCleanup journal) || (journal.(WorkspacePath) <>s intent.(LinuxCloneIntent.Target))
            with Errorf "run journal Linux clone cleanup has no promotion receipt" ;; Ok tt
      | Some receipt =>
          reject negb (LinuxClonePromotionReceipt.Validate receipt) ||
                 negb (some_and ref (fun r => receipt.(LinuxClonePromotionReceipt.Ref) =s r)) ||
                 (receipt.(LinuxClonePromotionReceipt.Commit) <>s
                    promotionIntent.(LinuxClonePromotionIntent.Commit)) ||
                 (receipt.(LinuxClonePromotionReceipt.TreeDigest) <>s
                    promotionIntent.(LinuxClonePromotionIntent.TreeDigest)) ||
                 negb (linuxCloneStopProven journal)
            with Errorf "run journal Linux clone promotion receipt is invalid" ;;
          validateCloneCleanup journal intent
      end
  end.

(** [validateLinuxCloneJournal]. A checkout receipt without a seed receipt
    reaches [*seed] with [seed] nil. *)
Definition validateLinuxCloneJournal (journal : RunJournal.t) : result unit :=
  match journal.(LinuxCloneIntent) with
  | None =>
      reject non_nil journal.(LinuxCloneSeedReceipt) || non_nil journal.(LinuxCloneCheckoutReceipt) ||
             non_nil journal.(LinuxClonePromotionIntent) || non_nil journal.(LinuxClonePromotionReceipt) ||
             journal.(LinuxCloneAbortPending) || non_nil journal.(LinuxCloneAbortProof) ||
             negb (noCloneCleanup journal) with Errorf "run journal has Linux clone evidence without an intent" ;;
      Ok tt
  | Some intent =>
      reject negb (LinuxCloneIntent.ValidateForJournal intent) ||
             (intent.(LinuxCloneIntent.RunID) <>s journal.(RunID)) ||
             negb (intent.(LinuxCloneIntent.Generation) =? journal.(Generation)) ||
             (intent.(LinuxCloneIntent.BindingKey) <>s journal.(WorkspaceBindingKey)) ||
             negb (hasClaimGrant journal) with Errorf "run journal Linux clone intent is invalid" ;;
      reject negb (requireLinuxCloneJournalFenceSubject journal intent)
        with Errorf "run journal Linux clone intent does not match admitted Subject" ;;
      reject some_and journal.(LinuxCloneSeedReceipt) (fun seed =>
               negb (LinuxCloneSeedReceipt.Validate seed) ||
               (seed.(LinuxCloneSeedReceipt.BaseCommit) <>s intent.(LinuxCloneIntent.BaseCommit)))
        with Errorf "run journal Linux clone seed receipt is invalid" ;;
      reject journal.(LinuxCloneAbortPending) && non_nil journal.(LinuxCloneAbortProof)
        with Errorf "run journal Linux clone abort is both pending and complete" ;;
      if journal.(LinuxCloneAbortPending) || non_nil journal.(LinuxCloneAbortProof)
      then validateCloneAbort journal intent
      else
        match journal.(LinuxCloneCheckoutReceipt), journal.(LinuxCloneSeedReceipt) with
        | None, _ =>
            reject non_nil journal.(LinuxClonePromotionIntent) || non_nil journal.(LinuxClonePromotionReceipt) ||
                   negb (noCloneCleanup journal) || (journal.(WorkspacePath) <>s intent.(LinuxCloneIntent.Target))
              with Errorf "run journal Linux clone promotion has no checkout receipt" ;;
            Ok tt
        | Some _, None => Err NilDereference
        | Some checkout, Some seed =>
            reject negb (linuxCloneCheckoutMatches intent seed checkout)
              with Errorf "run journal Linux clone checkout receipt is invalid" ;;
            validateClonePromotion journal intent
        end
  end.
End Clone.

(** ** The outbox (state.go, 5668-5721) *)

Definition validEvent (event : RunEvent.t) : bool :=
  validRequiredString event.(RunEvent.EventID) 4096 && (0 <? event.(RunEvent.Sequence)) &&
  validRequiredString event.(RunEvent.Kind) 256 && negb (IsZero event.(RunEvent.OccurredAt)) &&
  validRawMessage event.(RunEvent.Payload).

Definition validTransition (transition : StateTransitionRequest.t) : bool :=
  validRequiredString transition.(StateTransitionRequest.TransitionID) 4096 &&
  validRequiredString transition.(StateTransitionRequest.State) 256 &&
  validRawMessage transition.(StateTransitionRequest.Payload).

(** Sequences increase strictly and stay within the last assigned one. *)
Fixpoint validEvents (last limit : Z) (events : list RunEvent.t) : bool :=
  match events with
  | [] => true
  | event :: rest =>
      validEvent event && (last <? event.(RunEvent.Sequence)) && (event.(RunEvent.Sequence) <=? limit) &&
      validEvents event.(RunEvent.Sequence) limit rest
  end.

Definition validAttemptedTransitions (attempted : list string) (pending : list StateTransitionRequest.t) : bool :=
  forallb (fun id => validRequiredString id 4096 &&
                     string_in id (map StateTransitionRequest.TransitionID pending)) attempted &&
  distinct_keys id [] attempted.

Definition validAcknowledgement (acknowledgement : CommandAcknowledgement.t) (journal : RunJournal.t) : bool :=
  (acknowledgement.(CommandAcknowledgement.RunID) =s journal.(RunID)) &&
  validRequiredString acknowledgement.(CommandAcknowledgement.CommandID) 4096 &&
  validRequiredString acknowledgement.(CommandAcknowledgement.Outcome) 256 &&
  validRequiredString acknowledgement.(CommandAcknowledgement.AckID) 4096 &&
  sameFence acknowledgement.(CommandAcknowledgement.fence) (fence journal).

Definition validateOutbox (journal : RunJournal.t) : result unit :=
  reject negb (validEvents 0 journal.(LastEventSequence) journal.(PendingEvents)) with invalid ;;
  reject negb (forallb (fun transition =>
           validTransition transition && sameFence transition.(StateTransitionRequest.fence) (fence journal))
           journal.(PendingTransitions)) with invalid ;;
  reject negb (validAttemptedTransitions journal.(AttemptedTransitionIDs) journal.(PendingTransitions)) with invalid ;;
  reject negb (forallb (fun ack => validAcknowledgement ack journal) journal.(PendingCommandAcknowledgements)) ||
         negb (distinct_keys CommandAcknowledgement.CommandID [] journal.(PendingCommandAcknowledgements))
    with invalid ;;
  Ok tt.

(** ** Goal deliveries (goal_delivery.go, [validateGoalDeliveries]) *)

Definition deliveryIdentity (delivery : GoalDelivery.t) : string :=
  delivery.(GoalDelivery.Kind) ++ nul ++ delivery.(GoalDelivery.DeliveryID).

Definition addIdentity (seen : list string) (identity : string) : result (list string) :=
  reject string_in identity seen with Errorf "Goal delivery is duplicated" ;;
  Ok (identity :: seen).

Definition validateGoalDeliveries (journal : RunJournal.t) : result unit :=
  try seen <- for_each (fun seen delivery =>
      reject negb (sameFence delivery.(GoalDelivery.fence) (fence journal))
        with Errorf "Goal delivery fence does not match journal" ;;
      check GoalDelivery.validatePersisted journal.(RunID) delivery ;;
      addIdentity seen (deliveryIdentity delivery)) [] journal.(PendingGoalDeliveries) ;;
  try seen <- for_each (fun seen delivery =>
      reject negb delivery.(GoalDelivery.Ready) || negb (sameFence delivery.(GoalDelivery.fence) (fence journal))
        with Errorf "Goal delivered record is invalid" ;;
      check GoalDelivery.validatePersisted journal.(RunID) delivery ;;
      addIdentity seen (deliveryIdentity delivery)) seen journal.(DeliveredGoalDeliveries) ;;
  try seen <- for_each (fun seen retired =>
      check GoalDeliveryRetirement.validate journal.(RunID) (fence journal) retired ;;
      addIdentity seen (deliveryIdentity retired.(GoalDeliveryRetirement.Delivery))) seen
      journal.(RetiredGoalDeliveries) ;;
  reject negb journal.(GoalDeliveryEnabled) &&
         (negb (llen journal.(PendingGoalDeliveries) =? 0) || negb (llen journal.(DeliveredGoalDeliveries) =? 0) ||
          negb (llen journal.(RetiredGoalDeliveries) =? 0)) with Errorf "Goal delivery marker is invalid" ;;
  Ok tt.

(** ** Command intents (state.go, 5708-5727; control.go) *)

(** The first acknowledgement with the intent's ack ID decides. *)
Definition inputAcknowledgementPending (intent : InputCommandIntent.t) (acks : list CommandAcknowledgement.t) : bool :=
  match List.find (fun ack => ack.(CommandAcknowledgement.AckID) =s intent.(InputCommandIntent.AckID)) acks with
  | None => false
  | Some ack =>
      (ack.(CommandAcknowledgement.CommandID) =s intent.(InputCommandIntent.CommandID)) &&
      (ack.(CommandAcknowledgement.Outcome) =s intent.(InputCommandIntent.Outcome))
  end.

Definition validateInputCommandIntent (journal : RunJournal.t) : result unit :=
  match journal.(InputCommandIntent) with
  | None => Ok tt
  | Some intent =>
      reject negb (InputCommandIntent.valid intent) ||
             (journal.(LastEventSequence) <? intent.(InputCommandIntent.EventSequenceBarrier))
        with Errorf "run journal input command intent is invalid" ;;
      let pending := inputAcknowledgementPending intent journal.(PendingCommandAcknowledgements) in
      reject (intent.(InputCommandIntent.Outcome) =s "") && pending
        with Errorf "unresolved input command has an acknowledgement" ;;
      reject (intent.(InputCommandIntent.Outcome) <>s "") &&
             Bool.eqb intent.(InputCommandIntent.AcknowledgementDelivered) pending
        with Errorf "input command acknowledgement delivery is invalid" ;;
      Ok tt
  end.

(** [json.Unmarshal] into the command receipt's three strings. *)
Definition controlReceipt (payload : string) : option (string * string * string) :=
  match unmarshal_strings ["command_id"; "kind"; "outcome"] payload with
  | Some [commandID; kind; outcome] => Some (commandID, kind, outcome)
  | _ => None
  end.

Definition transitionCommandID (payload : string) : option string :=
  match unmarshal_strings ["command_id"] payload with Some [commandID] => Some commandID | _ => None end.

Definition eventContradicts (intent : ControlCommandIntent.t) (event : RunEvent.t) : bool :=
  (event.(RunEvent.Kind) =s "command_applied") &&
  some_and (controlReceipt event.(RunEvent.Payload)) (fun '(commandID, kind, outcome) =>
    (commandID =s intent.(ControlCommandIntent.CommandID)) &&
    ((kind <>s intent.(ControlCommandIntent.Kind)) || (outcome <>s intent.(ControlCommandIntent.Outcome)) ||
     (intent.(ControlCommandIntent.Outcome) =s ""))).

Definition transitionContradicts (intent : ControlCommandIntent.t) (transition : StateTransitionRequest.t) : bool :=
  let expectedState := if intent.(ControlCommandIntent.Kind) =s "resume" then "running" else "paused" in
  (intent.(ControlCommandIntent.TransitionID) <>s "") &&
  (transition.(StateTransitionRequest.TransitionID) =s intent.(ControlCommandIntent.TransitionID)) &&
  ((intent.(ControlCommandIntent.Kind) =s "guidance") || (intent.(ControlCommandIntent.Outcome) <>s "applied") ||
   (transition.(StateTransitionRequest.State) <>s expectedState) ||
   negb (some_and (transitionCommandID transition.(StateTransitionRequest.Payload)) (fun commandID =>
           commandID =s intent.(ControlCommandIntent.CommandID)))).

Definition acknowledges (intent : ControlCommandIntent.t) (ack : CommandAcknowledgement.t) : bool :=
  (ack.(CommandAcknowledgement.CommandID) =s intent.(ControlCommandIntent.CommandID)) ||
  (ack.(CommandAcknowledgement.AckID) =s intent.(ControlCommandIntent.AckID)).

Definition acknowledgementContradicts (intent : ControlCommandIntent.t) (ack : CommandAcknowledgement.t) : bool :=
  acknowledges intent ack &&
  ((ack.(CommandAcknowledgement.CommandID) <>s intent.(ControlCommandIntent.CommandID)) ||
   (ack.(CommandAcknowledgement.AckID) <>s intent.(ControlCommandIntent.AckID)) ||
   (ack.(CommandAcknowledgement.Outcome) <>s intent.(ControlCommandIntent.Outcome))).

(** The identifiers seen so far and whether a lifecycle command is open. *)
Record seenControls : Type := mkSeen {
  seenCommands : list string;
  seenAcks : list string;
  seenTransitions : list string;
  pendingLifecycle : bool
}.

Definition validateControlCommandIntent (journal : RunJournal.t) (seen : seenControls)
    (intent : ControlCommandIntent.t) : result seenControls :=
  let commandID := intent.(ControlCommandIntent.CommandID) in
  let ackID := intent.(ControlCommandIntent.AckID) in
  let transitionID := intent.(ControlCommandIntent.TransitionID) in
  let outcome := intent.(ControlCommandIntent.Outcome) in
  let open := (outcome =s "") && (intent.(ControlCommandIntent.Kind) <>s "guidance") in
  reject negb (hasClaimGrant journal) || negb (ControlCommandIntent.valid intent) ||
         string_in commandID seen.(seenCommands) || string_in ackID seen.(seenAcks) ||
         (transitionID <>s "") && string_in transitionID seen.(seenTransitions)
    with Errorf "run journal control command intent is invalid" ;;
  reject open && seen.(pendingLifecycle) with Errorf "multiple lifecycle control commands are pending" ;;
  reject existsb (acknowledgementContradicts intent) journal.(PendingCommandAcknowledgements)
    with Errorf "control command acknowledgement does not match intent" ;;
  let pending := existsb (acknowledges intent) journal.(PendingCommandAcknowledgements) in
  reject (outcome =s "") && pending ||
         (outcome <>s "") && Bool.eqb intent.(ControlCommandIntent.AcknowledgementDelivered) pending
    with Errorf "control command acknowledgement delivery is invalid" ;;
  reject (outcome =s "") &&
         ((journal.(LocalState) =s "terminal_pending") || (journal.(LocalState) =s "cleanup_pending"))
    with Errorf "terminal journal has an unresolved control command" ;;
  reject existsb (eventContradicts intent) journal.(PendingEvents)
    with Errorf "control command receipt does not match intent" ;;
  reject existsb (transitionContradicts intent) journal.(PendingTransitions)
    with Errorf "control command transition does not match intent" ;;
  Ok (mkSeen (commandID :: seen.(seenCommands)) (ackID :: seen.(seenAcks))
       (if transitionID =s "" then seen.(seenTransitions) else transitionID :: seen.(seenTransitions))
       (seen.(pendingLifecycle) || open)).

Definition initialSeen (journal : RunJournal.t) : seenControls :=
  match journal.(InputCommandIntent) with
  | None => mkSeen [] [] [] false
  | Some input =>
      mkSeen [input.(InputCommandIntent.CommandID)] [input.(InputCommandIntent.AckID)]
        [input.(InputCommandIntent.RunningTransitionID)] false
  end.

Definition validateControlCommandIntents (journal : RunJournal.t) : result unit :=
  try _ <- for_each (validateControlCommandIntent journal) (initialSeen journal) journal.(ControlCommandIntents) ;;
  Ok tt.

(** ** Provider actions (provider_action.go, [validateProviderActionIntents]) *)

Definition terminalLocalState (state : string) : bool := (state =s "terminal_pending") || (state =s "cleanup_pending").

Definition validateProviderActionIntents (journal : RunJournal.t) : result unit :=
  let intents := journal.(ProviderActionIntents) in
  reject negb (hasClaimGrant journal) && negb (llen intents =? 0)
    with Errorf "run journal provider action intents are invalid" ;;
  reject negb (forallb (fun intent => ProviderActionIntent.validPrepared intent ||
                                      ProviderActionIntent.validCompleted intent) intents)
    with Errorf "run journal provider action intent is invalid" ;;
  reject negb (distinct_keys ProviderActionIntent.ActionKey [] intents)
    with Errorf "run journal provider action key is duplicated" ;;
  reject negb (distinct_keys ProviderActionIntent.ActionID [] intents)
    with Errorf "run journal provider action ID is duplicated" ;;
  reject terminalLocalState journal.(LocalState) &&
         existsb (fun intent => intent.(ProviderActionIntent.Outcome) =s "") intents
    with Errorf "terminal run journal has an unresolved provider action" ;;
  Ok tt.

(** ** The journal invariant *)

Section Journal.
Context `{AdmissionParser}.

Definition validateJournal (journal : RunJournal.t) : result unit :=
  reject negb (validateKey (Key journal)) with Errorf "run key is invalid" ;;
  check validateProcess journal ;;
  check validateAuthority journal ;;
  check validateHandoff journal ;;
  check validateCgroup journal ;;
  check validateScans journal ;;
  check validateReleaseProofs journal ;;
  check validateLeaseAndTerminal journal ;;
  check validateLinuxCloneJournal journal ;;
  check validateOutbox journal ;;
  check validateGoalDeliveries journal ;;
  reject negb (none_or journal.(NativeUsageObservation) NativeUsageObservation.Validate)
    with Errorf "native usage observation is invalid" ;;
  check validateInputCommandIntent journal ;;
  check validateControlCommandIntents journal ;;
  check validateProviderActionIntents journal ;;
  Ok tt.

Definition valid_journal (journal : RunJournal.t) : Prop := validateJournal journal = Ok tt.
#[export] Instance valid_journal_dec journal : Decision (valid_journal journal).
Proof.
  unfold valid_journal. destruct (validateJournal journal) as [[]|e]; [by left|right; discriminate].
Defined.
End Journal.
