(* ===== verification/Store.v ===== *)
(** * Store: the journal files of one daemon

    src/daemon/internal/state/state.go: the [Store] with its lock, the file
    each run key is kept in, and the load, validate, write cycle every
    mutation goes through ([mutateJournal], [mutateJournalIfChanged],
    [SaveClaimIntent], [SaveClaimGrant], [SaveJournal]).

    A file is what the decoder makes of its bytes: a journal, or bytes that
    do not decode. Writing a journal stores its [reread]: encoding/json
    compacts every raw message, writes a nil payload as [null], and the
    decoder checks each evidence body again. Text fields are valid UTF-8.
    An operation takes the outcome of the file operations it performs. *)

From S2P Require Import Prelude Sha256 Json Authority Protocol Journal Validation.
Import RunJournal.
Open Scope string_scope.
Open Scope Z_scope.

(** ** Re-reading what was written *)

Definition reread_payload (payload : string) : string :=
  if payload =s "" then "null" else compact false payload.

Definition reread_omitted (payload : string) : string :=
  if payload =s "" then "" else compact false payload.

Definition reread_event (event : RunEvent.t) : RunEvent.t :=
  RunEvent.mk event.(RunEvent.EventID) event.(RunEvent.Sequence) event.(RunEvent.Kind) event.(RunEvent.OccurredAt)
    (reread_payload event.(RunEvent.Payload)).

Definition reread_transition (transition : StateTransitionRequest.t) : StateTransitionRequest.t :=
  StateTransitionRequest.mk transition.(StateTransitionRequest.fence) transition.(StateTransitionRequest.TransitionID)
    transition.(StateTransitionRequest.State) (reread_payload transition.(StateTransitionRequest.Payload)).

Definition reread_work (work : Work.t) : Work.t :=
  Work.mk work.(Work.Goal) work.(Work.AgentProfile) work.(Work.Workspace) (reread_omitted work.(Work.Input))
    work.(Work.RequiredCapabilities).

Definition reread_recovery (settlement : NativeUsageTerminalRecovery.t) : NativeUsageTerminalRecovery.t :=
  NativeUsageTerminalRecovery.mk settlement.(NativeUsageTerminalRecovery.State)
    (reread_payload settlement.(NativeUsageTerminalRecovery.Payload))
    settlement.(NativeUsageTerminalRecovery.CommandID) settlement.(NativeUsageTerminalRecovery.CommandOutcome).

Definition reread_delivery (delivery : GoalDelivery.t) : GoalDelivery.t :=
  delivery <| GoalDelivery.evidence := option_map Evidence.reread delivery.(GoalDelivery.evidence) |>.

Definition reread_retirement (retired : GoalDeliveryRetirement.t) : GoalDeliveryRetirement.t :=
  GoalDeliveryRetirement.mk (reread_delivery retired.(GoalDeliveryRetirement.Delivery))
    retired.(GoalDeliveryRetirement.StatusCode) retired.(GoalDeliveryRetirement.Code)
    retired.(GoalDeliveryRetirement.Message) retired.(GoalDeliveryRetirement.RetiredAt).

Definition reread_action (intent : ProviderActionIntent.t) : ProviderActionIntent.t :=
  intent <| ProviderActionIntent.Result := reread_omitted intent.(ProviderActionIntent.Result) |>.

Definition reread_fields (journal : RunJournal.t) : RunJournal.t :=
  journal
    <| Work := reread_work journal.(Work) |>
    <| PendingEvents := map reread_event journal.(PendingEvents) |>
    <| PendingTransitions := map reread_transition journal.(PendingTransitions) |>
    <| PendingGoalDeliveries := map reread_delivery journal.(PendingGoalDeliveries) |>
    <| DeliveredGoalDeliveries := map reread_delivery journal.(DeliveredGoalDeliveries) |>
    <| RetiredGoalDeliveries := map reread_retirement journal.(RetiredGoalDeliveries) |>
    <| NativeUsageTerminalRecovery := option_map reread_recovery journal.(NativeUsageTerminalRecovery) |>
    <| ProviderActionIntents := map reread_action journal.(ProviderActionIntents) |>.

(** Evidence decodes through [Evidence.UnmarshalJSON], which validates it. *)
Definition decodable_delivery (delivery : GoalDelivery.t) : bool :=
  none_or delivery.(GoalDelivery.evidence) Evidence.Validate && none_or delivery.(GoalDelivery.usage) Usage.Validate.

Definition decodable (journal : RunJournal.t) : bool :=
  forallb decodable_delivery journal.(PendingGoalDeliveries) &&
  forallb decodable_delivery journal.(DeliveredGoalDeliveries) &&
  forallb (fun retired => decodable_delivery retired.(GoalDeliveryRetirement.Delivery))
    journal.(RetiredGoalDeliveries).

Inductive file : Type :=
| Decodes (journal : RunJournal.t)
| Undecodable.

Definition written (journal : RunJournal.t) : file :=
  let stored := reread_fields journal in if decodable stored then Decodes stored else Undecodable.

(** ** The store *)

Record Store : Type := mkStore {
  locked : bool;
  closed : bool;
  runs : gmap string file
}.

Definition with_runs (store : Store) (files : gmap string file) : Store :=
  mkStore store.(locked) store.(closed) files.

(** What the file system does with a write of [writeAtomic]: it fails before
    the rename, succeeds, or fails while syncing the directory, after the
    rename has made the new content visible. *)
Inductive write_outcome : Type := WriteOK | WriteFailed | SyncFailed.

Record io : Type := mkIO {
  readable : bool;
  write : write_outcome
}.

Definition io_ok : io := mkIO true WriteOK.

Definition journalPath (key : RunKey.t) : string :=
  "journal-" ++ sha256_hex (key.(RunKey.RunID) ++ nul ++ FormatInt key.(RunKey.Generation)) ++ ".json".

Definition ensureOpenLocked (store : Store) : result unit :=
  reject store.(closed) || negb store.(locked) with Errorf "state store is closed" ;; Ok tt.

(** [Close]: idempotent, and releases the lock once. *)
Definition Close (store : Store) : Store := mkStore false true store.(runs).

Definition maxJournalFileBytes : Z := 4 * 2 ^ 20.

(** The number of bytes encoding/json writes for a journal, [None] for an
    encoding error. *)
Class JournalEncoder : Type := serializeRunJournal : RunJournal.t -> option Z.

Definition hasUnresolvedProviderActions (journal : RunJournal.t) : bool :=
  existsb (fun intent => intent.(ProviderActionIntent.Outcome) =s "") journal.(ProviderActionIntents).

(** The largest legal completion, written into every open intent. *)
Definition maxProviderActionResult : string :=
  "{" ++ quote ++ "payload" ++ quote ++ ":" ++ quote ++
  repeat_ascii "x" (Z.to_nat (maxProviderActionResultBytes - 14)) ++ quote ++ "}".
Definition maxProviderFailureCodeForCapacity : string := repeat_ascii Ascii.zero 256.

Definition reserveCompletions (intents : list ProviderActionIntent.t) : list ProviderActionIntent.t :=
  map (fun intent =>
         if intent.(ProviderActionIntent.Outcome) <>s "" then intent
         else intent <| ProviderActionIntent.Outcome := "unknown" |>
                     <| ProviderActionIntent.Result := maxProviderActionResult |>
                     <| ProviderActionIntent.FailureCode := maxProviderFailureCodeForCapacity |>) intents.

(** [ClaimIntent]: what is saved before a claim request is sent. *)
Module ClaimIntent.
Record t : Type := mk {
  Key : RunKey.t;
  RuntimeKey : string;
  RuntimeID : string;
  RuntimeEpoch : Z;
  ClaimID : string;
  LocalState : string;
  work : Work.t;
  WorkspacePath : string;
  WorkspaceBindingKey : string
}.
End ClaimIntent.

Section Store.
Context `{AdmissionParser} `{JournalEncoder}.

Definition fits (journal : RunJournal.t) : bool :=
  some_and (serializeRunJournal journal) (fun size => size <=? maxJournalFileBytes).

(** [loadJournalLocked] *)
Definition loadJournalLocked (fs : io) (store : Store) (key : RunKey.t) : result RunJournal.t :=
  match store.(runs) !! journalPath key with
  | None => Err (NotFoundError "run journal")
  | Some content =>
      reject negb fs.(readable) with Errorf "read run journal" ;;
      match content with
      | Undecodable => Err (Errorf "decode run journal")
      | Decodes journal =>
          match validateJournal journal with
          | Err NilDereference => Err NilDereference
          | Err _ => Err (Errorf "invalid run journal")
          | Ok _ =>
              reject negb (bool_decide (Key journal = key))
                with Errorf "run journal does not match requested key" ;;
              Ok journal
          end
      end
  end.

(** [saveJournalLocked] *)
Definition saveJournalLocked (fs : io) (store : Store) (journal : RunJournal.t) : Store * result unit :=
  match validateJournal journal with
  | Err e => (store, Err e)
  | Ok _ =>
      if negb (fits journal) then (store, Err ErrProviderActionCapacity)
      else
        let updated := with_runs store (<[journalPath (Key journal) := written journal]> store.(runs)) in
        match fs.(write) with
        | WriteOK => (updated, Ok tt)
        | WriteFailed => (store, Err (Errorf "write run journal"))
        | SyncFailed => (updated, Err (Errorf "write run journal"))
        end
  end.

(** [validateJournalSaveCapacity] *)
Definition validateJournalSaveCapacity (journal : RunJournal.t) : result unit :=
  reject negb (fits journal) with ErrProviderActionCapacity ;;
  if negb (hasUnresolvedProviderActions journal) then Ok tt
  else
    reject negb (fits (journal <| ProviderActionIntents := reserveCompletions journal.(ProviderActionIntents) |>))
      with ErrProviderActionCapacity ;;
    Ok tt.

Definition saveJournalWithCapacityGuardLocked (fs : io) (store : Store) (journal : RunJournal.t) : Store * result unit :=
  match validateJournalSaveCapacity journal with
  | Err e => (store, Err e)
  | Ok _ => saveJournalLocked fs store journal
  end.

Definition saved (outcome : Store * result unit) (journal : RunJournal.t) : Store * result RunJournal.t :=
  (outcome.1, rbind outcome.2 (fun _ => Ok journal)).

(** [mutateJournal]: the callback's changes are lost on any error. *)
Definition mutateJournal (fs : io) (store : Store) (key : RunKey.t)
    (mutate : RunJournal.t -> result RunJournal.t) : Store * result RunJournal.t :=
  if negb (validateKey key) then (store, Err (Errorf "run key is invalid")) else
  match ensureOpenLocked store with
  | Err e => (store, Err e)
  | Ok _ =>
      match rbind (loadJournalLocked fs store key) mutate with
      | Err e => (store, Err e)
      | Ok journal => saved (saveJournalWithCapacityGuardLocked fs store journal) journal
      end
  end.

(** [mutateJournalIfChanged]: the callback also says whether to write. *)
Definition mutateJournalIfChanged (fs : io) (store : Store) (key : RunKey.t)
    (mutate : RunJournal.t -> result (RunJournal.t * bool)) : Store * result RunJournal.t :=
  if negb (validateKey key) then (store, Err (Errorf "run key is invalid")) else
  match ensureOpenLocked store with
  | Err e => (store, Err e)
  | Ok _ =>
      match rbind (loadJournalLocked fs store key) mutate with
      | Err e => (store, Err e)
      | Ok (journal, changed) =>
          if changed : bool then saved (saveJournalWithCapacityGuardLocked fs store journal) journal
          else (store, Ok journal)
      end
  end.

(** A mutation whose callback sets a captured flag: false when the
    callback fails or is not reached, the callback's flag even when the
    write then fails. *)
Definition mutateJournalFlag (fs : io) (store : Store) (key : RunKey.t)
    (mutate : RunJournal.t -> result (RunJournal.t * bool)) : Store * (bool * result RunJournal.t) :=
  let flag := match rbind (loadJournalLocked fs store key) mutate with
              | Ok (_, flag) => flag && validateKey key && is_ok (ensureOpenLocked store)
              | Err _ => false
              end in
  let outcome := mutateJournal fs store key (fun journal => rbind (mutate journal) (fun r => Ok r.1)) in
  (outcome.1, (flag, outcome.2)).

Definition LoadJournal (fs : io) (store : Store) (key : RunKey.t) : result RunJournal.t :=
  reject negb (validateKey key) with Errorf "run key is invalid" ;;
  check ensureOpenLocked store ;;
  loadJournalLocked fs store key.

(** [SaveClaimIntent] and [SaveClaimGrant] *)
Definition claimJournal (intent : ClaimIntent.t) : RunJournal.t :=
  RunJournal.zero
    <| RunID := intent.(ClaimIntent.Key).(RunKey.RunID) |>
    <| Generation := intent.(ClaimIntent.Key).(RunKey.Generation) |>
    <| RuntimeKey := intent.(ClaimIntent.RuntimeKey) |>
    <| RuntimeID := intent.(ClaimIntent.RuntimeID) |>
    <| ClaimedRuntimeEpoch := intent.(ClaimIntent.RuntimeEpoch) |>
    <| ClaimID := intent.(ClaimIntent.ClaimID) |>
    <| LocalState := if intent.(ClaimIntent.LocalState) =s "" then "claiming" else intent.(ClaimIntent.LocalState) |>
    <| Work := intent.(ClaimIntent.work) |>
    <| WorkspacePath := intent.(ClaimIntent.WorkspacePath) |>
    <| WorkspaceBindingKey := intent.(ClaimIntent.WorkspaceBindingKey) |>.

Definition SaveClaimIntent (fs : io) (store : Store) (intent : ClaimIntent.t) : Store * result RunJournal.t :=
  let journal := claimJournal intent in
  if negb (validateKey intent.(ClaimIntent.Key)) then (store, Err (Errorf "run key is invalid")) else
  if negb (validRequiredString intent.(ClaimIntent.WorkspaceBindingKey) 4096)
  then (store, Err (Errorf "workspace binding key is invalid")) else
  match rbind (validateJournal journal) (fun _ => ensureOpenLocked store) with
  | Err e => (store, Err e)
  | Ok _ =>
      match loadJournalLocked fs store intent.(ClaimIntent.Key) with
      | Ok existing =>
          if (existing.(ClaimID) <>s intent.(ClaimIntent.ClaimID)) ||
             (existing.(RuntimeID) <>s intent.(ClaimIntent.RuntimeID)) ||
             negb (existing.(ClaimedRuntimeEpoch) =? intent.(ClaimIntent.RuntimeEpoch))
          then (store, Err (Errorf "claim intent conflicts with existing journal"))
          else (store, Ok existing)
      | Err (NotFoundError _) => saved (saveJournalWithCapacityGuardLocked fs store journal) journal
      | Err e => (store, Err e)
      end
  end.

(** [sameWork]: the required capabilities are not compared. *)
Definition sameWork (left right : Work.t) : bool :=
  (left.(Work.Goal) =s right.(Work.Goal)) && (left.(Work.AgentProfile) =s right.(Work.AgentProfile)) &&
  (left.(Work.Workspace) =s right.(Work.Workspace)) && (left.(Work.Input) =s right.(Work.Input)).

Definition applyClaimGrant (key : RunKey.t) (grant : ClaimResponse.t) (journal : RunJournal.t) : result RunJournal.t :=
  reject (grant.(ClaimResponse.RunID) <>s key.(RunKey.RunID)) ||
         negb (grant.(ClaimResponse.Generation) =? key.(RunKey.Generation)) ||
         (grant.(ClaimResponse.ClaimID) <>s journal.(ClaimID)) || blank grant.(ClaimResponse.LeaseToken) ||
         IsZero grant.(ClaimResponse.LeaseExpiresAt) with Errorf "claim grant does not match journal" ;;
  if non_nil journal.(ContainmentCgroup) || non_nil journal.(LinuxCloneIntent) then
    reject (journal.(LeaseToken) <>s grant.(ClaimResponse.LeaseToken)) ||
           negb (journal.(LeaseExpiresAt) =? grant.(ClaimResponse.LeaseExpiresAt)) ||
           negb (sameWork journal.(Work) grant.(ClaimResponse.work))
      with Errorf "claim grant cannot replace a v2 run authority fence" ;;
    Ok journal
  else
    reject non_nil journal.(ContainmentCgroupReleaseProof)
      with Errorf "claim grant cannot change after v2 containment release" ;;
    reject non_nil journal.(ContainmentCgroupPreGateReleaseProof)
      with Errorf "claim grant cannot change after v2 pre-gate release" ;;
    Ok (journal <| LeaseToken := grant.(ClaimResponse.LeaseToken) |>
                <| LeaseExpiresAt := grant.(ClaimResponse.LeaseExpiresAt) |>
                <| Work := grant.(ClaimResponse.work) |>
                <| LocalState := "claimed" |>).

Definition SaveClaimGrant (fs : io) (store : Store) (key : RunKey.t) (grant : ClaimResponse.t) : Store * result RunJournal.t :=
  mutateJournal fs store key (applyClaimGrant key grant).

(** [SaveJournal]: a whole-journal replacement may not touch what has a
    dedicated mutation. *)
Definition dedicatedUnchanged (current journal : RunJournal.t) : result unit :=
  reject non_nil current.(LinuxCloneIntent) && current.(RetainWorkspace) && negb journal.(RetainWorkspace)
    with Errorf "Linux clone retention requires a dedicated evidence-checked clear" ;;
  reject non_nil current.(LinuxCloneIntent) &&
         (current.(LinuxCloneCleanupPending) || non_nil current.(LinuxCloneCleanupIntent)) &&
         negb (Bool.eqb current.(RetainWorkspace) journal.(RetainWorkspace))
    with Errorf "Linux clone retention cannot change after normal cleanup has begun" ;;
  reject negb (ptr_equal SupervisorHandoffReleaseProof.Equal current.(ContainmentCgroupReleaseProof)
                 journal.(ContainmentCgroupReleaseProof))
    with Errorf "v2 cgroup release proof requires dedicated clear mutation" ;;
  reject negb (ptr_equal LinuxCgroupPreGateReleaseProof.Equal current.(ContainmentCgroupPreGateReleaseProof)
                 journal.(ContainmentCgroupPreGateReleaseProof))
    with Errorf "v2 pre-gate release proof requires dedicated clear mutation" ;;
  reject negb (ptr_equal LinuxCloneIntent.Equal current.(LinuxCloneIntent) journal.(LinuxCloneIntent) &&
               ptr_equal LinuxCloneSeedReceipt.Equal current.(LinuxCloneSeedReceipt) journal.(LinuxCloneSeedReceipt) &&
               ptr_equal LinuxCloneCheckoutReceipt.Equal current.(LinuxCloneCheckoutReceipt)
                 journal.(LinuxCloneCheckoutReceipt) &&
               ptr_equal LinuxClonePromotionIntent.Equal current.(LinuxClonePromotionIntent)
                 journal.(LinuxClonePromotionIntent) &&
               ptr_equal LinuxClonePromotionReceipt.Equal current.(LinuxClonePromotionReceipt)
                 journal.(LinuxClonePromotionReceipt) &&
               Bool.eqb current.(LinuxCloneAbortPending) journal.(LinuxCloneAbortPending) &&
               ptr_equal LinuxCloneAbortProof.Equal current.(LinuxCloneAbortProof) journal.(LinuxCloneAbortProof) &&
               Bool.eqb current.(LinuxCloneCleanupPending) journal.(LinuxCloneCleanupPending) &&
               ptr_equal LinuxCloneCleanupIntent.Equal current.(LinuxCloneCleanupIntent)
                 journal.(LinuxCloneCleanupIntent) &&
               ptr_equal LinuxCloneTargetRemovalProof.Equal current.(LinuxCloneTargetRemovalProof)
                 journal.(LinuxCloneTargetRemovalProof) &&
               ptr_equal LinuxCloneCleanupProof.Equal current.(LinuxCloneCleanupProof)
                 journal.(LinuxCloneCleanupProof))
    with Errorf "Linux clone authority requires dedicated mutation" ;;
  reject (non_nil current.(ContainmentCgroup) || non_nil journal.(ContainmentCgroup) ||
          non_nil current.(LinuxCloneIntent) || non_nil journal.(LinuxCloneIntent)) &&
         ((current.(RuntimeKey) <>s journal.(RuntimeKey)) || (current.(RuntimeID) <>s journal.(RuntimeID)) ||
          negb (current.(ClaimedRuntimeEpoch) =? journal.(ClaimedRuntimeEpoch)) ||
          (current.(ClaimID) <>s journal.(ClaimID)) || (current.(LeaseToken) <>s journal.(LeaseToken)) ||
          negb (current.(LeaseExpiresAt) =? journal.(LeaseExpiresAt)))
    with Errorf "run fence requires dedicated mutation while v2 authority is reserved" ;;
  reject current.(TerminalTaskResultKind) <>s journal.(TerminalTaskResultKind)
    with Errorf "terminal task result kind is immutable" ;;
  reject negb (current.(PID) =? journal.(PID)) || (current.(ProcessIdentity) <>s journal.(ProcessIdentity)) ||
         negb (current.(StartedAt) =? journal.(StartedAt)) with Errorf "process details require dedicated mutation" ;;
  reject negb (Bool.eqb current.(ContainmentUnproven) journal.(ContainmentUnproven))
    with Errorf "containment uncertainty requires dedicated mutation" ;;
  reject negb (ptr_equal Supervisor.Equal current.(ContainmentAuthority) journal.(ContainmentAuthority))
    with Errorf "containment authority requires dedicated mutation" ;;
  reject negb (ptr_equal SupervisorHandoff.Equal current.(ContainmentHandoff) journal.(ContainmentHandoff))
    with Errorf "containment handoff requires dedicated mutation" ;;
  reject negb (ptr_equal LinuxCgroupReservation.Equal current.(ContainmentCgroup) journal.(ContainmentCgroup))
    with Errorf "v2 cgroup reservation requires dedicated mutation" ;;
  reject negb (bool_decide (current.(ContainmentScans) = journal.(ContainmentScans)))
    with Errorf "containment scan progress requires dedicated mutation" ;;
  reject negb (Bool.eqb (current.(LocalState) =s "cleanup_pending") (journal.(LocalState) =s "cleanup_pending"))
    with Errorf "cleanup state requires dedicated transition" ;;
  Ok tt.

Definition noDedicatedState (journal : RunJournal.t) : result unit :=
  reject non_nil journal.(ContainmentAuthority) with Errorf "containment authority requires dedicated mutation" ;;
  reject non_nil journal.(ContainmentHandoff) with Errorf "containment handoff requires dedicated mutation" ;;
  reject non_nil journal.(ContainmentScans) with Errorf "containment scan progress requires dedicated mutation" ;;
  reject non_nil journal.(ContainmentCgroup) with Errorf "v2 cgroup reservation requires dedicated mutation" ;;
  reject non_nil journal.(ContainmentCgroupReleaseProof)
    with Errorf "v2 cgroup release proof requires dedicated clear mutation" ;;
  reject non_nil journal.(ContainmentCgroupPreGateReleaseProof)
    with Errorf "v2 pre-gate release proof requires dedicated clear mutation" ;;
  reject non_nil journal.(LinuxCloneIntent) || non_nil journal.(LinuxCloneSeedReceipt) ||
         non_nil journal.(LinuxCloneCheckoutReceipt) || non_nil journal.(LinuxClonePromotionIntent) ||
         non_nil journal.(LinuxClonePromotionReceipt) || journal.(LinuxCloneAbortPending) ||
         non_nil journal.(LinuxCloneAbortProof) || negb (noCloneCleanup journal)
    with Errorf "Linux clone authority requires dedicated mutation" ;;
  Ok tt.

Definition SaveJournal (fs : io) (store : Store) (journal : RunJournal.t) : Store * result unit :=
  match rbind (validateJournal journal) (fun _ => ensureOpenLocked store) with
  | Err e => (store, Err e)
  | Ok _ =>
      let allowed := match loadJournalLocked fs store (Key journal) with
                     | Ok current => dedicatedUnchanged current journal
                     | Err (NotFoundError _) => noDedicatedState journal
                     | Err e => Err e
                     end in
      match allowed with
      | Err e => (store, Err e)
      | Ok _ => saveJournalLocked fs store journal
      end
  end.

(** ** Mutations of the workspace and recovery markers *)

Definition setLocalState (localState : string) (journal : RunJournal.t) : result RunJournal.t :=
  reject negb (Bool.eqb (journal.(LocalState) =s "cleanup_pending") (localState =s "cleanup_pending"))
    with Errorf "cleanup state requires dedicated transition" ;;
  Ok (journal <| LocalState := localState |>).

Definition SetLocalState (fs : io) (store : Store) (key : RunKey.t) (localState : string) : Store * result RunJournal.t :=
  if blank localState || (256 <? len localState) then (store, Err (Errorf "local state is invalid"))
  else mutateJournal fs store key (setLocalState localState).

Definition SetWorkspacePath (fs : io) (store : Store) (key : RunKey.t) (path : string) : Store * result RunJournal.t :=
  if (path =s "") || (32768 <? len path) then (store, Err (Errorf "workspace path is invalid"))
  else mutateJournal fs store key (fun journal => Ok (journal <| WorkspacePath := path |>)).

Definition MarkWorkspaceRecoveryRequired (fs : io) (store : Store) (key : RunKey.t) : Store * result RunJournal.t :=
  mutateJournal fs store key (fun journal => Ok (journal <| WorkspaceRecoveryRequired := true |>)).

Definition retainWorkspace (journal : RunJournal.t) : result RunJournal.t :=
  reject non_nil journal.(LinuxCloneIntent) && negb (noCloneCleanup journal)
    with Errorf "Linux clone retention cannot be added after normal cleanup has begun" ;;
  Ok (journal <| RetainWorkspace := true |>).

Definition RetainWorkspace (fs : io) (store : Store) (key : RunKey.t) : Store * result RunJournal.t :=
  mutateJournal fs store key retainWorkspace.

(** [RecordNativeUsageObservation] (goal_usage.go) *)
Definition recordUsage (observation : NativeUsageObservation.t) (journal : RunJournal.t) : result RunJournal.t :=
  if some_and journal.(NativeUsageObservation) (fun previous =>
       NativeUsageObservation.regresses previous observation)
  then Ok journal
  else Ok (journal <| NativeUsageObservation := Some observation |>).

Definition RecordNativeUsageObservation (fs : io) (store : Store) (key : RunKey.t)
    (observation : NativeUsageObservation.t) : Store * result RunJournal.t :=
  if negb (validateKey key) then (store, Err (Errorf "run key is invalid")) else
  if negb (NativeUsageObservation.Validate observation)
  then (store, Err (Errorf "native usage observation is invalid"))
  else mutateJournal fs store key (recordUsage observation).
End Store.
