(* ===== verification/Session.v ===== *)
(** * Session: the journal of a retained native session

    src/daemon/internal/state/goal_session.go: the records a Goal session is
    made of (84-330), their shape checks (1598-1773, 1945-2004), the file a
    session is kept in and its load (1299-1311). A Goal session outlives the
    run that launched it; the delivery queue of a run reads it before it lets
    an attach receipt go out. *)

From S2P Require Import Prelude Sha256 Json Authority Protocol Journal Validation Store.
Open Scope string_scope.
Open Scope Z_scope.

Definition goalSessionSchemaVersion : Z := 1.
Definition goalSessionConsumedStopLimit : Z := 4096.

Definition GoalSessionStateAvailable : string := "available".
Definition GoalSessionStateBusy : string := "busy".
Definition GoalSessionStateUnavailable : string := "unavailable".
Definition GoalSessionStateClosed : string := "closed".

Definition GoalSessionLaunchStateIntent : string := "intent".
Definition GoalSessionLaunchStateLaunching : string := "launching".
Definition GoalSessionLaunchStateAttached : string := "attached".
Definition GoalSessionLaunchStateUncertain : string := "uncertain".
Definition GoalSessionLaunchStateClosed : string := "closed".

Definition GoalSessionModeFresh : string := "fresh".
Definition GoalSessionModeResume : string := "resume".
Definition GoalSessionModeHandoff : string := "handoff".

Definition validGoalSessionState (value : string) : bool :=
  string_in value [GoalSessionStateAvailable; GoalSessionStateBusy; GoalSessionStateUnavailable; GoalSessionStateClosed].
Definition validGoalSessionLaunchState (value : string) : bool :=
  string_in value [GoalSessionLaunchStateIntent; GoalSessionLaunchStateLaunching; GoalSessionLaunchStateAttached;
                   GoalSessionLaunchStateUncertain; GoalSessionLaunchStateClosed].
Definition validGoalSessionMode (value : string) : bool :=
  string_in value [GoalSessionModeFresh; GoalSessionModeResume; GoalSessionModeHandoff].

(** [validGoalSessionUUID] is [protocol.validateUUID] without its messages. *)
Definition validGoalSessionUUID (value : string) : bool := validateUUID value.

Module GoalSessionKey.
Record t : Type := mk { GoalID : string; LocalHandleID : string }.
#[export] Instance eq_dec : EqDecision t.
Proof. solve_decision. Defined.
End GoalSessionKey.
#[export] Existing Instance GoalSessionKey.eq_dec.

(** [validateGoalSessionKey] *)
Definition validateGoalSessionKey (key : GoalSessionKey.t) : bool :=
  validRequiredString key.(GoalSessionKey.GoalID) 4096 && validRequiredString key.(GoalSessionKey.LocalHandleID) 4096.

Module GoalSessionLineageKey.
Record t : Type := mk { GoalID : string; WorkItemID : string; TaskID : string }.
#[export] Instance eq_dec : EqDecision t.
Proof. solve_decision. Defined.
End GoalSessionLineageKey.
#[export] Existing Instance GoalSessionLineageKey.eq_dec.

(** [validateGoalSessionLineageKey] *)
Definition validateGoalSessionLineageKey (lineage : GoalSessionLineageKey.t) : bool :=
  validRequiredString lineage.(GoalSessionLineageKey.GoalID) 4096 &&
  (len lineage.(GoalSessionLineageKey.WorkItemID) <=? 4096) && (len lineage.(GoalSessionLineageKey.TaskID) <=? 4096).

Module WorkspaceOwnerRunKey.
Record t : Type := mk { RunID : string; Generation : Z }.
#[export] Instance eq_dec : EqDecision t.
Proof. solve_decision. Defined.
Definition zero : t := mk "" 0.
Definition valid (key : t) : bool := validRequiredString key.(RunID) 4096 && (0 <? key.(Generation)).
End WorkspaceOwnerRunKey.
#[export] Existing Instance WorkspaceOwnerRunKey.eq_dec.

Module GoalSessionLaunchIntent.
Record t : Type := mk {
  LaunchIntentID : string;
  GoalID : string;
  GoalRevision : Z;
  WorkItemID : string;
  TaskID : string;
  RunID : string;
  Generation : Z;
  AdmissionID : string;
  HandoffSourceRunID : string;
  LocalHandleID : string;
  BindingID : string;
  OwnerID : string;
  MachineID : string;
  RuntimeID : string;
  RuntimeEpoch : Z;
  DaemonInstanceID : string;
  HarnessKind : string;
  HarnessVersion : string;
  AdapterVersion : string;
  AdapterProtocolVersion : Z;
  WorkspaceFingerprint : string;
  WorkspacePath : string;
  workspaceOwnerRunKey : WorkspaceOwnerRunKey.t;
  RepositoryResourceID : string;
  SessionMode : string
}.
#[export] Instance eq_dec : EqDecision t.
Proof. solve_decision. Defined.

Definition eta (r : t) : t :=
  mk r.(LaunchIntentID) r.(GoalID) r.(GoalRevision) r.(WorkItemID) r.(TaskID) r.(RunID) r.(Generation)
     r.(AdmissionID) r.(HandoffSourceRunID) r.(LocalHandleID) r.(BindingID) r.(OwnerID) r.(MachineID)
     r.(RuntimeID) r.(RuntimeEpoch) r.(DaemonInstanceID) r.(HarnessKind) r.(HarnessVersion) r.(AdapterVersion)
     r.(AdapterProtocolVersion) r.(WorkspaceFingerprint) r.(WorkspacePath) r.(workspaceOwnerRunKey)
     r.(RepositoryResourceID) r.(SessionMode).
#[global] Instance set_LaunchIntentID : Setter LaunchIntentID := ltac:(derive_setter eta LaunchIntentID).
#[global] Instance set_TaskID : Setter TaskID := ltac:(derive_setter eta TaskID).
#[global] Instance set_RunID : Setter RunID := ltac:(derive_setter eta RunID).
#[global] Instance set_Generation : Setter Generation := ltac:(derive_setter eta Generation).
#[global] Instance set_AdmissionID : Setter AdmissionID := ltac:(derive_setter eta AdmissionID).
#[global] Instance set_HandoffSourceRunID : Setter HandoffSourceRunID := ltac:(derive_setter eta HandoffSourceRunID).
#[global] Instance set_LocalHandleID : Setter LocalHandleID := ltac:(derive_setter eta LocalHandleID).
#[global] Instance set_BindingID : Setter BindingID := ltac:(derive_setter eta BindingID).
#[global] Instance set_RuntimeEpoch : Setter RuntimeEpoch := ltac:(derive_setter eta RuntimeEpoch).
#[global] Instance set_workspaceOwnerRunKey : Setter workspaceOwnerRunKey := ltac:(derive_setter eta workspaceOwnerRunKey).
#[global] Instance set_SessionMode : Setter SessionMode := ltac:(derive_setter eta SessionMode).

Definition Key (intent : t) : GoalSessionKey.t := GoalSessionKey.mk intent.(GoalID) intent.(LocalHandleID).
Definition LineageKey (intent : t) : GoalSessionLineageKey.t :=
  GoalSessionLineageKey.mk intent.(GoalID) intent.(WorkItemID) intent.(TaskID).

(** [validateGoalSessionIntent] *)
Definition validate (intent : t) : bool :=
  validateGoalSessionKey (Key intent) && validRequiredString intent.(LaunchIntentID) 4096 &&
  (0 <? intent.(GoalRevision)) && (0 <=? intent.(Generation)) && (len intent.(WorkItemID) <=? 4096) &&
  (len intent.(TaskID) <=? 4096) && (len intent.(RunID) <=? 4096) && (len intent.(AdmissionID) <=? 4096) &&
  (len intent.(HandoffSourceRunID) <=? 36) && (len intent.(WorkspacePath) <=? 32768) &&
  negb ((intent.(RunID) <>s "") && (intent.(Generation) <=? 0)) &&
  (len intent.(OwnerID) <=? 4096) && (len intent.(MachineID) <=? 4096) && (len intent.(RuntimeID) <=? 4096) &&
  (len intent.(DaemonInstanceID) <=? 4096) &&
  negb ((intent.(OwnerID) =s "") && (intent.(MachineID) =s "") && (intent.(RuntimeID) =s "") &&
        (intent.(DaemonInstanceID) =s "")) &&
  (0 <=? intent.(RuntimeEpoch)) && validRequiredString intent.(HarnessKind) 4096 &&
  validRequiredString intent.(HarnessVersion) 4096 && validRequiredString intent.(AdapterVersion) 4096 &&
  (0 <? intent.(AdapterProtocolVersion)) && validRequiredString intent.(WorkspaceFingerprint) 4096 &&
  validGoalSessionMode intent.(SessionMode) &&
  ((intent.(RepositoryResourceID) =s "") || validGoalSessionUUID intent.(RepositoryResourceID)) &&
  (bool_decide (intent.(workspaceOwnerRunKey) = WorkspaceOwnerRunKey.zero) ||
   WorkspaceOwnerRunKey.valid intent.(workspaceOwnerRunKey)) &&
  ((intent.(BindingID) =s "") || validGoalSessionUUID intent.(BindingID)) &&
  (if intent.(SessionMode) =s GoalSessionModeHandoff then validGoalSessionUUID intent.(HandoffSourceRunID)
   else intent.(HandoffSourceRunID) =s "").
End GoalSessionLaunchIntent.
#[export] Existing Instance GoalSessionLaunchIntent.eq_dec.

Module GoalSessionControlAttachment.
Record t : Type := mk {
  RunID : string;
  Generation : Z;
  TaskID : string;
  AdmissionID : string;
  SessionID : string;
  BindingID : string;
  ReceiptID : string
}.
#[export] Instance eq_dec : EqDecision t.
Proof. solve_decision. Defined.
(** [validGoalSessionControlAttachment] *)
Definition valid (attachment : t) : bool :=
  validRequiredString attachment.(RunID) 4096 && (0 <? attachment.(Generation)) &&
  validRequiredString attachment.(TaskID) 4096 && validRequiredString attachment.(AdmissionID) 4096 &&
  validGoalSessionUUID attachment.(SessionID) && validGoalSessionUUID attachment.(BindingID) &&
  validGoalSessionUUID attachment.(ReceiptID).
End GoalSessionControlAttachment.
#[export] Existing Instance GoalSessionControlAttachment.eq_dec.

Module GoalSessionControlAttachmentLineage.
Record t : Type := mk { Original : GoalSessionControlAttachment.t; Current : GoalSessionControlAttachment.t }.
#[export] Instance eq_dec : EqDecision t.
Proof. solve_decision. Defined.
(** [validGoalSessionControlAttachmentLineage] *)
Definition valid (lineage : t) : bool :=
  GoalSessionControlAttachment.valid lineage.(Original) && GoalSessionControlAttachment.valid lineage.(Current) &&
  (lineage.(Original).(GoalSessionControlAttachment.SessionID) =s
   lineage.(Current).(GoalSessionControlAttachment.SessionID)).
End GoalSessionControlAttachmentLineage.
#[export] Existing Instance GoalSessionControlAttachmentLineage.eq_dec.

Module GoalSessionStopCertificate.
Record t : Type := mk {
  RunID : string;
  Generation : Z;
  SessionID : string;
  LocalHandleID : string;
  BindingID : string;
  DeliveryDigest : string;
  ReceiptID : string
}.
#[export] Instance eq_dec : EqDecision t.
Proof. solve_decision. Defined.
(** [validGoalSessionStopCertificate] *)
Definition valid (certificate : t) : bool :=
  validRequiredString certificate.(RunID) 4096 && (0 <? certificate.(Generation)) &&
  validGoalSessionUUID certificate.(SessionID) && validGoalSessionUUID certificate.(LocalHandleID) &&
  validGoalSessionUUID certificate.(BindingID) && validDigest certificate.(DeliveryDigest) &&
  validGoalSessionUUID certificate.(ReceiptID).

(** [validGoalSessionConsumedStopCertificateHistory] *)
Fixpoint distinct_valid (seen certificates : list t) : bool :=
  match certificates with
  | [] => true
  | certificate :: rest =>
      valid certificate && negb (bool_decide (certificate ∈ seen)) && distinct_valid (certificate :: seen) rest
  end.
Definition validHistory (certificates : list t) : bool :=
  negb (llen certificates =? 0) && (llen certificates <=? goalSessionConsumedStopLimit) &&
  distinct_valid [] certificates.
End GoalSessionStopCertificate.
#[export] Existing Instance GoalSessionStopCertificate.eq_dec.

Module GoalSessionJournal.
Record t : Type := mk {
  intent : GoalSessionLaunchIntent.t;
  SchemaVersion : Z;
  SessionState : string;
  LaunchState : string;
  LaunchAttempted : bool;
  LaunchAttemptedAt : time;
  RecoveryRequired : bool;
  NativeSessionID : string;
  NativeSessionFilename : string;
  ControlSessionID : string;
  ControlAttachmentReceiptID : string;
  ControlAttachmentLineage : option GoalSessionControlAttachmentLineage.t;
  ResumeSourceStopCertificate : option GoalSessionStopCertificate.t;
  ConsumedStopCertificates : option (list GoalSessionStopCertificate.t);
  ResumeStartPending : bool;
  ResumeNativeStopKnown : bool;
  ResumeTerminalReason : string;
  StopCertificate : option GoalSessionStopCertificate.t;
  UncertainReason : string;
  CreatedAt : time;
  UpdatedAt : time
}.
#[export] Instance eq_dec : EqDecision t.
Proof. solve_decision. Defined.

Definition eta (r : t) : t :=
  mk r.(intent) r.(SchemaVersion) r.(SessionState) r.(LaunchState) r.(LaunchAttempted) r.(LaunchAttemptedAt)
     r.(RecoveryRequired) r.(NativeSessionID) r.(NativeSessionFilename) r.(ControlSessionID)
     r.(ControlAttachmentReceiptID) r.(ControlAttachmentLineage) r.(ResumeSourceStopCertificate)
     r.(ConsumedStopCertificates) r.(ResumeStartPending) r.(ResumeNativeStopKnown) r.(ResumeTerminalReason)
     r.(StopCertificate) r.(UncertainReason) r.(CreatedAt) r.(UpdatedAt).
#[global] Instance set_intent : Setter intent := ltac:(derive_setter eta intent).
#[global] Instance set_SessionState : Setter SessionState := ltac:(derive_setter eta SessionState).
#[global] Instance set_LaunchState : Setter LaunchState := ltac:(derive_setter eta LaunchState).
#[global] Instance set_LaunchAttempted : Setter LaunchAttempted := ltac:(derive_setter eta LaunchAttempted).
#[global] Instance set_LaunchAttemptedAt : Setter LaunchAttemptedAt := ltac:(derive_setter eta LaunchAttemptedAt).
#[global] Instance set_RecoveryRequired : Setter RecoveryRequired := ltac:(derive_setter eta RecoveryRequired).
#[global] Instance set_NativeSessionID : Setter NativeSessionID := ltac:(derive_setter eta NativeSessionID).
#[global] Instance set_NativeSessionFilename : Setter NativeSessionFilename := ltac:(derive_setter eta NativeSessionFilename).
#[global] Instance set_ControlSessionID : Setter ControlSessionID := ltac:(derive_setter eta ControlSessionID).
#[global] Instance set_ControlAttachmentReceiptID : Setter ControlAttachmentReceiptID := ltac:(derive_setter eta ControlAttachmentReceiptID).
#[global] Instance set_ControlAttachmentLineage : Setter ControlAttachmentLineage := ltac:(derive_setter eta ControlAttachmentLineage).
#[global] Instance set_ResumeSourceStopCertificate : Setter ResumeSourceStopCertificate := ltac:(derive_setter eta ResumeSourceStopCertificate).
#[global] Instance set_ConsumedStopCertificates : Setter ConsumedStopCertificates := ltac:(derive_setter eta ConsumedStopCertificates).
#[global] Instance set_ResumeStartPending : Setter ResumeStartPending := ltac:(derive_setter eta ResumeStartPending).
#[global] Instance set_ResumeNativeStopKnown : Setter ResumeNativeStopKnown := ltac:(derive_setter eta ResumeNativeStopKnown).
#[global] Instance set_ResumeTerminalReason : Setter ResumeTerminalReason := ltac:(derive_setter eta ResumeTerminalReason).
#[global] Instance set_StopCertificate : Setter StopCertificate := ltac:(derive_setter eta StopCertificate).
#[global] Instance set_UncertainReason : Setter UncertainReason := ltac:(derive_setter eta UncertainReason).
#[global] Instance set_UpdatedAt : Setter UpdatedAt := ltac:(derive_setter eta UpdatedAt).

Definition Key (journal : t) : GoalSessionKey.t := GoalSessionLaunchIntent.Key journal.(intent).
Definition LineageKey (journal : t) : GoalSessionLineageKey.t := GoalSessionLaunchIntent.LineageKey journal.(intent).

Definition NeedsReconciliation (journal : t) : bool :=
  journal.(RecoveryRequired) ||
  journal.(LaunchAttempted) && (journal.(LaunchState) <>s GoalSessionLaunchStateAttached) &&
  (journal.(LaunchState) <>s GoalSessionLaunchStateClosed).

Definition HasKnownRetainedResumeNativeStop (journal : t) : bool :=
  journal.(ResumeNativeStopKnown) &&
  (journal.(intent).(GoalSessionLaunchIntent.SessionMode) =s GoalSessionModeResume) &&
  non_nil journal.(ResumeSourceStopCertificate) && is_nil journal.(StopCertificate) &&
  (journal.(SessionState) =s GoalSessionStateUnavailable) &&
  (journal.(LaunchState) =s GoalSessionLaunchStateAttached) && (journal.(NativeSessionID) <>s "") &&
  negb (NeedsReconciliation journal).

(** [goalSessionControlAttachment], [matchesGoalSessionControlAttachment] *)
Definition controlAttachment (journal : t) (sessionID bindingID receiptID : string) : GoalSessionControlAttachment.t :=
  GoalSessionControlAttachment.mk journal.(intent).(GoalSessionLaunchIntent.RunID)
    journal.(intent).(GoalSessionLaunchIntent.Generation) journal.(intent).(GoalSessionLaunchIntent.TaskID)
    journal.(intent).(GoalSessionLaunchIntent.AdmissionID) sessionID bindingID receiptID.

Definition matchesControlAttachment (attachment : GoalSessionControlAttachment.t) (journal : t) : bool :=
  bool_decide (attachment = controlAttachment journal journal.(ControlSessionID)
                              journal.(intent).(GoalSessionLaunchIntent.BindingID) journal.(ControlAttachmentReceiptID)).

Definition HasVerifiedControlAttachment (journal : t) : bool :=
  (journal.(LaunchState) =s GoalSessionLaunchStateAttached) && (journal.(NativeSessionID) <>s "") &&
  validGoalSessionUUID journal.(ControlSessionID) &&
  validGoalSessionUUID journal.(intent).(GoalSessionLaunchIntent.BindingID) &&
  validGoalSessionUUID journal.(ControlAttachmentReceiptID) &&
  some_and journal.(ControlAttachmentLineage) (fun lineage =>
    GoalSessionControlAttachmentLineage.valid lineage &&
    matchesControlAttachment lineage.(GoalSessionControlAttachmentLineage.Current) journal).

Definition IsLegacyControlAttachment (journal : t) : bool :=
  (journal.(LaunchState) =s GoalSessionLaunchStateAttached) && (journal.(NativeSessionID) <>s "") &&
  validGoalSessionUUID journal.(ControlSessionID) &&
  validGoalSessionUUID journal.(intent).(GoalSessionLaunchIntent.BindingID) &&
  is_nil journal.(ControlAttachmentLineage).

(** [validateGoalSessionJournal], in the order of the source: the shape of
    the record, its launch state, its control attachment and its
    certificates. *)
Definition validShape (journal : t) : bool :=
  (journal.(SchemaVersion) =? goalSessionSchemaVersion) && negb (IsZero journal.(CreatedAt)) &&
  negb (IsZero journal.(UpdatedAt)) && GoalSessionLaunchIntent.validate journal.(intent) &&
  validGoalSessionState journal.(SessionState) && validGoalSessionLaunchState journal.(LaunchState) &&
  (len journal.(NativeSessionID) <=? 65536) && (len journal.(NativeSessionFilename) <=? 32768) &&
  (len journal.(UncertainReason) <=? 4096) &&
  ((journal.(ControlSessionID) =s "") || validGoalSessionUUID journal.(ControlSessionID)) &&
  ((journal.(ControlAttachmentReceiptID) =s "") || validGoalSessionUUID journal.(ControlAttachmentReceiptID)).

Definition validLaunch (journal : t) : bool :=
  let at_ state := journal.(LaunchState) =s state in
  Bool.eqb (IsZero journal.(LaunchAttemptedAt)) (negb journal.(LaunchAttempted)) &&
  negb (at_ GoalSessionLaunchStateIntent && journal.(LaunchAttempted)) &&
  negb (at_ GoalSessionLaunchStateLaunching && negb journal.(LaunchAttempted)) &&
  negb (at_ GoalSessionLaunchStateAttached && (negb journal.(LaunchAttempted) || (journal.(NativeSessionID) =s ""))) &&
  negb (at_ GoalSessionLaunchStateUncertain && negb (NeedsReconciliation journal)) &&
  negb (at_ GoalSessionLaunchStateClosed && (journal.(SessionState) <>s GoalSessionStateClosed)) &&
  Bool.eqb journal.(RecoveryRequired) (NeedsReconciliation journal) &&
  negb (at_ GoalSessionLaunchStateAttached && (journal.(UncertainReason) <>s "")) &&
  negb (negb (at_ GoalSessionLaunchStateAttached) &&
        ((journal.(NativeSessionID) <>s "") || (journal.(NativeSessionFilename) <>s ""))).

Definition validAttachment (journal : t) : bool :=
  negb (((journal.(ControlSessionID) <>s "") || (journal.(ControlAttachmentReceiptID) <>s "")) &&
        ((journal.(LaunchState) <>s GoalSessionLaunchStateAttached) ||
         (journal.(intent).(GoalSessionLaunchIntent.BindingID) =s "") || (journal.(ControlSessionID) =s ""))) &&
  none_or journal.(ControlAttachmentLineage) (fun lineage =>
    GoalSessionControlAttachmentLineage.valid lineage &&
    ((journal.(ControlSessionID) =s "") ||
     (lineage.(GoalSessionControlAttachmentLineage.Original).(GoalSessionControlAttachment.SessionID) =s
      journal.(ControlSessionID)) &&
     (lineage.(GoalSessionControlAttachmentLineage.Current).(GoalSessionControlAttachment.SessionID) =s
      journal.(ControlSessionID)))).

Definition validCertificates (journal : t) : bool :=
  none_or journal.(ResumeSourceStopCertificate) GoalSessionStopCertificate.valid &&
  none_or journal.(ConsumedStopCertificates) GoalSessionStopCertificate.validHistory &&
  none_or journal.(ResumeSourceStopCertificate) (fun source =>
    none_or journal.(ConsumedStopCertificates) (fun history => bool_decide (source ∈ history))) &&
  negb (journal.(ResumeStartPending) &&
        ((journal.(intent).(GoalSessionLaunchIntent.SessionMode) <>s GoalSessionModeResume) ||
         is_nil journal.(ResumeSourceStopCertificate) || non_nil journal.(StopCertificate) ||
         (journal.(SessionState) <>s GoalSessionStateBusy) ||
         (journal.(LaunchState) <>s GoalSessionLaunchStateAttached) || (journal.(NativeSessionID) =s ""))) &&
  negb (journal.(ResumeNativeStopKnown) && negb (HasKnownRetainedResumeNativeStop journal)) &&
  negb ((journal.(ResumeTerminalReason) <>s "") &&
        (negb (HasKnownRetainedResumeNativeStop journal) || (journal.(ResumeTerminalReason) <>s "resume_rejected"))) &&
  none_or journal.(StopCertificate) (fun certificate =>
    GoalSessionStopCertificate.valid certificate && (journal.(SessionState) =s GoalSessionStateAvailable) &&
    (journal.(ControlSessionID) =s certificate.(GoalSessionStopCertificate.SessionID)) &&
    (journal.(intent).(GoalSessionLaunchIntent.BindingID) =s certificate.(GoalSessionStopCertificate.BindingID)) &&
    (journal.(intent).(GoalSessionLaunchIntent.RunID) =s certificate.(GoalSessionStopCertificate.RunID)) &&
    (journal.(intent).(GoalSessionLaunchIntent.Generation) =? certificate.(GoalSessionStopCertificate.Generation)) &&
    (journal.(intent).(GoalSessionLaunchIntent.LocalHandleID) =s certificate.(GoalSessionStopCertificate.LocalHandleID))).

Definition validate (journal : t) : bool :=
  validShape journal && validLaunch journal && validAttachment journal && validCertificates journal.
End GoalSessionJournal.
#[export] Existing Instance GoalSessionJournal.eq_dec.

(** [validateGoalSessionHandle] *)
Definition validateGoalSessionHandle (nativeSessionID nativeSessionFilename : string) : bool :=
  validRequiredString nativeSessionID 65536 && (len nativeSessionFilename <=? 32768).

Definition goalSessionPath (key : GoalSessionKey.t) : string :=
  "session-" ++ sha256_hex (key.(GoalSessionKey.GoalID) ++ nul ++ key.(GoalSessionKey.LocalHandleID)) ++ ".json".

(** A session file is what its decoder makes of its bytes. *)
Inductive session_file : Type :=
| SessionDecodes (journal : GoalSessionJournal.t)
| SessionUndecodable.

(** [loadGoalSessionPathLocked] *)
Definition loadGoalSessionPathLocked (readable : bool) (sessions : gmap string session_file) (path : string)
    : result GoalSessionJournal.t :=
  match sessions !! path with
  | None => Err (NotFoundError "goal session journal")
  | Some content =>
      reject negb readable with Errorf "read goal session journal" ;;
      match content with
      | SessionUndecodable => Err (Errorf "decode goal session journal")
      | SessionDecodes journal =>
          reject negb (GoalSessionJournal.validate journal) with Errorf "invalid goal session journal" ;;
          reject path <>s goalSessionPath (GoalSessionJournal.Key journal)
            with Errorf "goal session journal does not match requested key" ;;
          Ok journal
      end
  end.
