(* ===== verification/SessionOps.v ===== *)
(** * SessionOps: the life of a native session, one journal at a time

    src/daemon/internal/state/goal_session.go: what each mutation does to the
    journal of one session, from the launch intent through attachment, stop,
    availability and resume to its close, and the comparisons of owner,
    version and workspace that guard a resume or a reconciliation. The files
    the journals are kept in, and the index over them, are in
    SessionStore.v. *)

From S2P Require Import Prelude Sha256 Json Authority Protocol Journal Validation Store Session.
Import GoalSessionJournal.
Open Scope string_scope.
Open Scope Z_scope.

Module GoalSessionHandle.
Record t : Type := mk { NativeSessionID : string; NativeSessionFilename : string }.
Definition validate (handle : t) : result unit :=
  reject negb (validateGoalSessionHandle handle.(NativeSessionID) handle.(NativeSessionFilename))
    with Errorf "goal session native handle is invalid" ;;
  Ok tt.
End GoalSessionHandle.

Module GoalSessionCompatibility.
Record t : Type := mk {
  OwnerID : string;
  MachineID : string;
  RuntimeID : string;
  RuntimeEpoch : Z;
  DaemonInstanceID : string;
  HarnessKind : string;
  HarnessVersion : string;
  AdapterVersion : string;
  AdapterProtocolVersion : Z;
  WorkspaceFingerprint : string;
  RepositoryResourceID : string
}.
#[export] Instance eq_dec : EqDecision t.
Proof. solve_decision. Defined.
Definition zero : t := mk "" "" "" 0 "" "" "" "" 0 "" "".

(** [completeGoalSessionResumeCompatibility] *)
Definition complete (value : t) : bool :=
  validRequiredString value.(MachineID) 4096 && validRequiredString value.(RuntimeID) 4096 &&
  validRequiredString value.(HarnessKind) 4096 && validRequiredString value.(HarnessVersion) 4096 &&
  validRequiredString value.(AdapterVersion) 4096 && (0 <? value.(AdapterProtocolVersion)) &&
  validRequiredString value.(WorkspaceFingerprint) 4096 && validGoalSessionUUID value.(RepositoryResourceID).
End GoalSessionCompatibility.
#[export] Existing Instance GoalSessionCompatibility.eq_dec.
Import GoalSessionCompatibility (OwnerID, MachineID, RuntimeID, RuntimeEpoch, DaemonInstanceID, HarnessKind,
  HarnessVersion, AdapterVersion, AdapterProtocolVersion, WorkspaceFingerprint, RepositoryResourceID).

(** [Compatibility] *)
Definition Compatibility (journal : GoalSessionJournal.t) : GoalSessionCompatibility.t :=
  let recorded := journal.(intent) in
  GoalSessionCompatibility.mk recorded.(GoalSessionLaunchIntent.OwnerID) recorded.(GoalSessionLaunchIntent.MachineID)
    recorded.(GoalSessionLaunchIntent.RuntimeID) recorded.(GoalSessionLaunchIntent.RuntimeEpoch)
    recorded.(GoalSessionLaunchIntent.DaemonInstanceID) recorded.(GoalSessionLaunchIntent.HarnessKind)
    recorded.(GoalSessionLaunchIntent.HarnessVersion) recorded.(GoalSessionLaunchIntent.AdapterVersion)
    recorded.(GoalSessionLaunchIntent.AdapterProtocolVersion) recorded.(GoalSessionLaunchIntent.WorkspaceFingerprint)
    recorded.(GoalSessionLaunchIntent.RepositoryResourceID).

Definition IsUncertainLaunch (journal : GoalSessionJournal.t) : bool :=
  (journal.(LaunchState) =s GoalSessionLaunchStateUncertain) || NeedsReconciliation journal.

(** What a session shows to the control plane: no native identity. *)
Module GoalSessionControlProjection.
Record t : Type := mk {
  GoalID : string;
  GoalRevision : Z;
  WorkItemID : string;
  TaskID : string;
  RunID : string;
  Generation : Z;
  AdmissionID : string;
  LocalHandleID : string;
  OwnerID : string;
  MachineID : string;
  RuntimeID : string;
  RuntimeEpoch : Z;
  HarnessKind : string;
  HarnessVersion : string;
  AdapterVersion : string;
  AdapterProtocolVersion : Z;
  WorkspaceFingerprint : string;
  SessionState : string;
  LaunchState : string;
  RecoveryRequired : bool
}.
End GoalSessionControlProjection.

Definition ControlProjection (journal : GoalSessionJournal.t) : GoalSessionControlProjection.t :=
  let recorded := journal.(intent) in
  GoalSessionControlProjection.mk recorded.(GoalSessionLaunchIntent.GoalID) recorded.(GoalSessionLaunchIntent.GoalRevision)
    recorded.(GoalSessionLaunchIntent.WorkItemID) recorded.(GoalSessionLaunchIntent.TaskID)
    recorded.(GoalSessionLaunchIntent.RunID) recorded.(GoalSessionLaunchIntent.Generation)
    recorded.(GoalSessionLaunchIntent.AdmissionID)
    recorded.(GoalSessionLaunchIntent.LocalHandleID)
    recorded.(GoalSessionLaunchIntent.OwnerID) recorded.(GoalSessionLaunchIntent.MachineID)
    recorded.(GoalSessionLaunchIntent.RuntimeID)
    recorded.(GoalSessionLaunchIntent.RuntimeEpoch)
    recorded.(GoalSessionLaunchIntent.HarnessKind)
    recorded.(GoalSessionLaunchIntent.HarnessVersion)
    recorded.(GoalSessionLaunchIntent.AdapterVersion)
    recorded.(GoalSessionLaunchIntent.AdapterProtocolVersion)
    recorded.(GoalSessionLaunchIntent.WorkspaceFingerprint)
    journal.(SessionState) journal.(LaunchState) (NeedsReconciliation journal).

(** [compareGoalSessionIdentity]: a zero value is a wildcard. *)
Definition differs (expected recorded : string) : bool := (expected <>s "") && (recorded <>s expected).
Definition differsZ (expected recorded : Z) : bool := (0 <? expected) && negb (recorded =? expected).

Definition compareGoalSessionIdentity (journal : GoalSessionJournal.t) (expected : GoalSessionCompatibility.t) : result unit :=
  let recorded := Compatibility journal in
  reject differs expected.(OwnerID) recorded.(OwnerID) || differs expected.(MachineID) recorded.(MachineID) ||
         differs expected.(RuntimeID) recorded.(RuntimeID) || differsZ expected.(RuntimeEpoch) recorded.(RuntimeEpoch) ||
         differs expected.(DaemonInstanceID) recorded.(DaemonInstanceID) with ErrGoalSessionOwnerMismatch ;;
  reject differs expected.(HarnessKind) recorded.(HarnessKind) ||
         differs expected.(HarnessVersion) recorded.(HarnessVersion) ||
         differs expected.(AdapterVersion) recorded.(AdapterVersion) ||
         differsZ expected.(AdapterProtocolVersion) recorded.(AdapterProtocolVersion) with ErrGoalSessionVersionMismatch ;;
  reject differs expected.(WorkspaceFingerprint) recorded.(WorkspaceFingerprint) ||
         differs expected.(RepositoryResourceID) recorded.(RepositoryResourceID) with ErrGoalSessionWorkspaceMismatch ;;
  Ok tt.

(** [compareGoalSessionCompatibility] *)
Definition compareGoalSessionCompatibility (journal : GoalSessionJournal.t) (expected : GoalSessionCompatibility.t)
    : result unit :=
  check compareGoalSessionIdentity journal expected ;;
  reject (journal.(LaunchState) =s GoalSessionLaunchStateClosed) || (journal.(SessionState) =s GoalSessionStateClosed)
    with ErrGoalSessionClosed ;;
  reject NeedsReconciliation journal with ErrGoalSessionUncertain ;;
  reject IsLegacyControlAttachment journal || negb (HasVerifiedControlAttachment journal)
    with ErrGoalSessionCompatibilityIncomplete ;;
  reject (journal.(LaunchState) <>s GoalSessionLaunchStateAttached) || (journal.(NativeSessionID) =s "")
    with ErrGoalSessionNotAttached ;;
  Ok tt.

(** [compareGoalSessionIdentityStrict]: every recorded field, exactly. *)
Definition missing (recorded expected : string) : bool := (recorded <>s "") && (expected =s "").

Definition compareGoalSessionIdentityStrict (journal : GoalSessionJournal.t) (expected : GoalSessionCompatibility.t)
    : result unit :=
  let recorded := Compatibility journal in
  reject bool_decide (expected = GoalSessionCompatibility.zero) || missing recorded.(OwnerID) expected.(OwnerID) ||
         missing recorded.(MachineID) expected.(MachineID) || missing recorded.(RuntimeID) expected.(RuntimeID) ||
         (0 <? recorded.(RuntimeEpoch)) && (expected.(RuntimeEpoch) <=? 0) ||
         missing recorded.(DaemonInstanceID) expected.(DaemonInstanceID) ||
         missing recorded.(HarnessKind) expected.(HarnessKind) ||
         missing recorded.(HarnessVersion) expected.(HarnessVersion) ||
         missing recorded.(AdapterVersion) expected.(AdapterVersion) ||
         (0 <? recorded.(AdapterProtocolVersion)) && (expected.(AdapterProtocolVersion) <=? 0) ||
         missing recorded.(WorkspaceFingerprint) expected.(WorkspaceFingerprint) ||
         missing recorded.(RepositoryResourceID) expected.(RepositoryResourceID)
    with ErrGoalSessionCompatibilityIncomplete ;;
  reject (expected.(OwnerID) <>s recorded.(OwnerID)) || (expected.(MachineID) <>s recorded.(MachineID)) ||
         (expected.(RuntimeID) <>s recorded.(RuntimeID)) || negb (expected.(RuntimeEpoch) =? recorded.(RuntimeEpoch)) ||
         (expected.(DaemonInstanceID) <>s recorded.(DaemonInstanceID)) with ErrGoalSessionOwnerMismatch ;;
  reject (expected.(HarnessKind) <>s recorded.(HarnessKind)) || (expected.(HarnessVersion) <>s recorded.(HarnessVersion)) ||
         (expected.(AdapterVersion) <>s recorded.(AdapterVersion)) ||
         negb (expected.(AdapterProtocolVersion) =? recorded.(AdapterProtocolVersion)) with ErrGoalSessionVersionMismatch ;;
  reject (expected.(WorkspaceFingerprint) <>s recorded.(WorkspaceFingerprint)) ||
         (expected.(RepositoryResourceID) <>s recorded.(RepositoryResourceID)) with ErrGoalSessionWorkspaceMismatch ;;
  Ok tt.

(** [compareGoalSessionResumeCompatibilityFields] *)
Definition compareGoalSessionResumeCompatibilityFields (journal : GoalSessionJournal.t)
    (expected : GoalSessionCompatibility.t) : result unit :=
  let recorded := Compatibility journal in
  reject negb (GoalSessionCompatibility.complete expected) || negb (GoalSessionCompatibility.complete recorded)
    with ErrGoalSessionCompatibilityIncomplete ;;
  reject (recorded.(MachineID) <>s expected.(MachineID)) || (recorded.(RuntimeID) <>s expected.(RuntimeID))
    with ErrGoalSessionOwnerMismatch ;;
  reject (recorded.(HarnessKind) <>s expected.(HarnessKind)) || (recorded.(HarnessVersion) <>s expected.(HarnessVersion)) ||
         (recorded.(AdapterVersion) <>s expected.(AdapterVersion)) ||
         negb (recorded.(AdapterProtocolVersion) =? expected.(AdapterProtocolVersion)) with ErrGoalSessionVersionMismatch ;;
  reject (recorded.(WorkspaceFingerprint) <>s expected.(WorkspaceFingerprint)) ||
         (recorded.(RepositoryResourceID) <>s expected.(RepositoryResourceID)) with ErrGoalSessionWorkspaceMismatch ;;
  Ok tt.

Definition compareGoalSessionResumeCompatibility (journal : GoalSessionJournal.t) (expected : GoalSessionCompatibility.t)
    : result unit :=
  check compareGoalSessionResumeCompatibilityFields journal expected ;;
  reject negb ((Compatibility journal).(RuntimeEpoch) =? expected.(RuntimeEpoch)) with ErrGoalSessionOwnerMismatch ;;
  Ok tt.

(** ** Launch *)

(** [normalizeGoalSessionIntent]: the IDs come from the random generator. *)
Definition normalizeGoalSessionIntent (newLaunchID newHandleID : option string) (launch : GoalSessionLaunchIntent.t)
    : result GoalSessionLaunchIntent.t :=
  try launch <- (if launch.(GoalSessionLaunchIntent.LaunchIntentID) =s "" then
                   match newLaunchID with
                   | None => Err (Errorf "generate identifier")
                   | Some id => Ok (launch <| GoalSessionLaunchIntent.LaunchIntentID := id |>)
                   end
                 else Ok launch) ;;
  try launch <- (if launch.(GoalSessionLaunchIntent.LocalHandleID) =s "" then
                   match newHandleID with
                   | None => Err (Errorf "generate identifier")
                   | Some id => Ok (launch <| GoalSessionLaunchIntent.LocalHandleID := id |>)
                   end
                 else Ok launch) ;;
  let launch := if launch.(GoalSessionLaunchIntent.SessionMode) =s ""
                then launch <| GoalSessionLaunchIntent.SessionMode := GoalSessionModeFresh |> else launch in
  let launch :=
    if bool_decide (launch.(GoalSessionLaunchIntent.workspaceOwnerRunKey) = WorkspaceOwnerRunKey.zero) &&
       (launch.(GoalSessionLaunchIntent.RunID) <>s "") && (0 <? launch.(GoalSessionLaunchIntent.Generation))
    then launch <| GoalSessionLaunchIntent.workspaceOwnerRunKey :=
           WorkspaceOwnerRunKey.mk launch.(GoalSessionLaunchIntent.RunID) launch.(GoalSessionLaunchIntent.Generation) |>
    else launch in
  reject negb (GoalSessionLaunchIntent.validate launch) with Errorf "goal session launch intent is invalid" ;;
  Ok launch.

(** The journal [SaveGoalSessionLaunchIntent] writes. *)
Definition launchJournal (launch : GoalSessionLaunchIntent.t) (now : time) : GoalSessionJournal.t :=
  GoalSessionJournal.mk launch goalSessionSchemaVersion GoalSessionStateBusy GoalSessionLaunchStateIntent
    false 0 false "" "" "" "" None None None false false "" None "" now now.

Definition isClosed (journal : GoalSessionJournal.t) : bool :=
  (journal.(LaunchState) =s GoalSessionLaunchStateClosed) || (journal.(SessionState) =s GoalSessionStateClosed).

Definition fullyClosed (journal : GoalSessionJournal.t) : bool :=
  (journal.(LaunchState) =s GoalSessionLaunchStateClosed) && (journal.(SessionState) =s GoalSessionStateClosed).

Definition notAttached (journal : GoalSessionJournal.t) : bool :=
  (journal.(LaunchState) <>s GoalSessionLaunchStateAttached) || (journal.(NativeSessionID) =s "").

Definition markLaunchStarted (at_ : time) (journal : GoalSessionJournal.t) : result GoalSessionJournal.t :=
  reject isClosed journal with ErrGoalSessionClosed ;;
  reject NeedsReconciliation journal with ErrGoalSessionUncertain ;;
  reject journal.(LaunchState) =s GoalSessionLaunchStateAttached
    with Errorf "goal session native handle is already attached" ;;
  Ok (journal <| LaunchState := GoalSessionLaunchStateLaunching |> <| SessionState := GoalSessionStateBusy |>
              <| LaunchAttempted := true |> <| LaunchAttemptedAt := at_ |> <| RecoveryRequired := true |>
              <| UpdatedAt := at_ |>).

(** The five assignments that close a launch without a native effect. *)
Definition closeLaunch (now : time) (journal : GoalSessionJournal.t) : GoalSessionJournal.t :=
  journal <| LaunchState := GoalSessionLaunchStateClosed |> <| SessionState := GoalSessionStateClosed |>
          <| RecoveryRequired := false |> <| UncertainReason := "" |> <| UpdatedAt := now |>.

Definition beforeLaunch (journal : GoalSessionJournal.t) : bool :=
  (journal.(LaunchState) =s GoalSessionLaunchStateIntent) && negb journal.(LaunchAttempted) &&
  negb journal.(RecoveryRequired) && (journal.(NativeSessionID) =s "") && (journal.(NativeSessionFilename) =s "").

Definition abortBeforeNativeStart (now : time) (journal : GoalSessionJournal.t) : result GoalSessionJournal.t :=
  if fullyClosed journal then Ok journal
  else if beforeLaunch journal then Ok (closeLaunch now journal)
  else
    reject (journal.(LaunchState) <>s GoalSessionLaunchStateLaunching) || negb journal.(LaunchAttempted) ||
           (journal.(NativeSessionID) <>s "") || (journal.(NativeSessionFilename) <>s "") with ErrGoalSessionUncertain ;;
    Ok (closeLaunch now journal).

Definition attemptedAt (now : time) (journal : GoalSessionJournal.t) : time :=
  if IsZero journal.(LaunchAttemptedAt) then now else journal.(LaunchAttemptedAt).

Definition persistHandle (handle : GoalSessionHandle.t) (expected : option GoalSessionCompatibility.t) (now : time)
    (journal : GoalSessionJournal.t) : result GoalSessionJournal.t :=
  check (match expected with None => Ok tt | Some value => compareGoalSessionIdentity journal value end) ;;
  reject isClosed journal with ErrGoalSessionClosed ;;
  reject (journal.(LaunchState) =s GoalSessionLaunchStateUncertain) ||
         NeedsReconciliation journal && (journal.(LaunchState) <>s GoalSessionLaunchStateLaunching)
    with ErrGoalSessionUncertain ;;
  if journal.(LaunchState) =s GoalSessionLaunchStateAttached then
    reject (journal.(NativeSessionID) <>s handle.(GoalSessionHandle.NativeSessionID)) ||
           (journal.(NativeSessionFilename) <>s handle.(GoalSessionHandle.NativeSessionFilename))
      with ErrGoalSessionConflict ;;
    Ok journal
  else
    Ok (journal <| NativeSessionID := handle.(GoalSessionHandle.NativeSessionID) |>
                <| NativeSessionFilename := handle.(GoalSessionHandle.NativeSessionFilename) |>
                <| LaunchState := GoalSessionLaunchStateAttached |> <| LaunchAttempted := true |>
                <| LaunchAttemptedAt := attemptedAt now journal |> <| RecoveryRequired := false |>
                <| UncertainReason := "" |> <| UpdatedAt := now |>).

(** ** Attachment to the control plane *)

Definition persistControlAttachment (controlSessionID bindingID receiptID : string) (serverIssuedBinding : bool)
    (now : time) (journal : GoalSessionJournal.t) : result GoalSessionJournal.t :=
  let current := journal.(intent).(GoalSessionLaunchIntent.BindingID) in
  reject NeedsReconciliation journal with ErrGoalSessionUncertain ;;
  reject notAttached journal with ErrGoalSessionNotAttached ;;
  reject (current <>s "") && (current <>s bindingID) with ErrGoalSessionConflict ;;
  reject (current =s "") && negb serverIssuedBinding with ErrGoalSessionConflict ;;
  reject (journal.(ControlSessionID) <>s "") && (journal.(ControlSessionID) <>s controlSessionID)
    with ErrGoalSessionConflict ;;
  reject (journal.(ControlAttachmentReceiptID) <>s "") && (journal.(ControlAttachmentReceiptID) <>s receiptID)
    with ErrGoalSessionConflict ;;
  let attachment := controlAttachment journal controlSessionID bindingID receiptID in
  try lineage <- (
    match journal.(ControlAttachmentLineage) with
    | Some lineage =>
        reject lineage.(GoalSessionControlAttachmentLineage.Original).(GoalSessionControlAttachment.SessionID)
                 <>s controlSessionID with ErrGoalSessionConflict ;;
        Ok (GoalSessionControlAttachmentLineage.mk lineage.(GoalSessionControlAttachmentLineage.Original) attachment)
    | None => Ok (GoalSessionControlAttachmentLineage.mk attachment attachment)
    end) ;;
  Ok (journal <| ControlAttachmentLineage := Some lineage |> <| ControlSessionID := controlSessionID |>
              <| ControlAttachmentReceiptID := receiptID |>
              <| intent := journal.(intent) <| GoalSessionLaunchIntent.BindingID := bindingID |> |>
              <| UpdatedAt := now |>).

(** ** Stop certificates *)

Module GoalSessionResumeRebind.
Record t : Type := mk {
  RunID : string;
  Generation : Z;
  TaskID : string;
  AdmissionID : string;
  BindingID : string;
  ExactStopCertificate : GoalSessionStopCertificate.t;
  compatibility : GoalSessionCompatibility.t
}.

(** [validateGoalSessionResumeRebind] *)
Definition validate (rebind : t) : result unit :=
  reject negb (validRequiredString rebind.(RunID) 4096) || (rebind.(Generation) <=? 0) ||
         negb (validRequiredString rebind.(TaskID) 4096) || negb (validRequiredString rebind.(AdmissionID) 4096) ||
         negb (validGoalSessionUUID rebind.(BindingID)) ||
         negb (GoalSessionStopCertificate.valid rebind.(ExactStopCertificate))
    with Errorf "goal session resume rebind is invalid" ;;
  reject rebind.(compatibility).(RuntimeEpoch) <=? 0 with ErrGoalSessionCompatibilityIncomplete ;;
  reject negb (GoalSessionCompatibility.complete rebind.(compatibility)) with ErrGoalSessionCompatibilityIncomplete ;;
  reject (rebind.(RunID) =s rebind.(ExactStopCertificate).(GoalSessionStopCertificate.RunID)) ||
         (rebind.(BindingID) =s rebind.(ExactStopCertificate).(GoalSessionStopCertificate.BindingID))
    with ErrGoalSessionConflict ;;
  Ok tt.
End GoalSessionResumeRebind.

(** [appendConsumedStopCertificate] *)
Definition consumed (journal : GoalSessionJournal.t) : list GoalSessionStopCertificate.t :=
  match journal.(ConsumedStopCertificates) with Some certificates => certificates | None => [] end.

Definition appendConsumedStopCertificate (certificate : GoalSessionStopCertificate.t) (journal : GoalSessionJournal.t)
    : result GoalSessionJournal.t :=
  reject negb (GoalSessionStopCertificate.valid certificate)
    with Errorf "goal session consumed stop receipt is invalid" ;;
  reject bool_decide (certificate ∈ consumed journal) with ErrGoalSessionConflict ;;
  reject goalSessionConsumedStopLimit <=? llen (consumed journal) with ErrGoalSessionConflict ;;
  Ok (journal <| ConsumedStopCertificates := Some (consumed journal ++ [certificate])%list |>).

(** [sameGoalSessionCertificateExecution] *)
Definition sameExecution (left right : GoalSessionStopCertificate.t) : bool :=
  (left.(GoalSessionStopCertificate.RunID) =s right.(GoalSessionStopCertificate.RunID)) &&
  (left.(GoalSessionStopCertificate.Generation) =? right.(GoalSessionStopCertificate.Generation)) &&
  (left.(GoalSessionStopCertificate.SessionID) =s right.(GoalSessionStopCertificate.SessionID)) &&
  (left.(GoalSessionStopCertificate.LocalHandleID) =s right.(GoalSessionStopCertificate.LocalHandleID)).

(** [consumedStopCertificate]: [Some true] an exact receipt, [Some false]
    other data for the same execution, [None] unknown. The first record that
    matches decides. *)
Fixpoint consumedIn (certificate : GoalSessionStopCertificate.t) (l : list GoalSessionStopCertificate.t) : option bool :=
  match l with
  | [] => None
  | existing :: rest =>
      if bool_decide (existing = certificate) then Some true
      else if sameExecution existing certificate then Some false else consumedIn certificate rest
  end.

Definition consumedStopCertificate (certificate : GoalSessionStopCertificate.t) (journal : GoalSessionJournal.t)
    : option bool :=
  match journal.(ConsumedStopCertificates) with
  | Some certificates => consumedIn certificate certificates
  | None => match journal.(ResumeSourceStopCertificate) with Some source => consumedIn certificate [source] | None => None end
  end.

(** [resumeTargetConflictsWithConsumedHistory] *)
Definition resumeTargetConflicts (rebind : GoalSessionResumeRebind.t) (journal : GoalSessionJournal.t) : bool :=
  existsb (fun certificate =>
    (rebind.(GoalSessionResumeRebind.RunID) =s certificate.(GoalSessionStopCertificate.RunID)) ||
    (rebind.(GoalSessionResumeRebind.BindingID) =s certificate.(GoalSessionStopCertificate.BindingID))) (consumed journal).

(** ** Resume *)

(** [sameGoalSessionResumeTarget] *)
Definition sameResumeTarget (rebind : GoalSessionResumeRebind.t) (journal : GoalSessionJournal.t) : bool :=
  let current := journal.(intent) in
  (current.(GoalSessionLaunchIntent.RunID) =s rebind.(GoalSessionResumeRebind.RunID)) &&
  (current.(GoalSessionLaunchIntent.Generation) =? rebind.(GoalSessionResumeRebind.Generation)) &&
  (current.(GoalSessionLaunchIntent.TaskID) =s rebind.(GoalSessionResumeRebind.TaskID)) &&
  (current.(GoalSessionLaunchIntent.AdmissionID) =s rebind.(GoalSessionResumeRebind.AdmissionID)) &&
  (current.(GoalSessionLaunchIntent.BindingID) =s rebind.(GoalSessionResumeRebind.BindingID)) &&
  (current.(GoalSessionLaunchIntent.SessionMode) =s GoalSessionModeResume) &&
  (journal.(SessionState) =s GoalSessionStateBusy) && (journal.(LaunchState) =s GoalSessionLaunchStateAttached) &&
  is_nil journal.(StopCertificate) && (journal.(ControlAttachmentReceiptID) =s "") &&
  some_and journal.(ResumeSourceStopCertificate) (fun source =>
    bool_decide (source = rebind.(GoalSessionResumeRebind.ExactStopCertificate))) &&
  journal.(ResumeStartPending) && (journal.(NativeSessionID) <>s "") && negb (NeedsReconciliation journal).

(** [validateGoalSessionResumeSource] *)
Definition validateResumeSource (rebind : GoalSessionResumeRebind.t) (journal : GoalSessionJournal.t) : result unit :=
  reject isClosed journal with ErrGoalSessionClosed ;;
  reject NeedsReconciliation journal with ErrGoalSessionUncertain ;;
  reject non_nil journal.(ResumeSourceStopCertificate) with ErrGoalSessionConflict ;;
  reject (journal.(SessionState) <>s GoalSessionStateAvailable) || notAttached journal ||
         negb (HasVerifiedControlAttachment journal) || is_nil journal.(StopCertificate) ||
         negb (WorkspaceOwnerRunKey.valid journal.(intent).(GoalSessionLaunchIntent.workspaceOwnerRunKey)) ||
         (journal.(intent).(GoalSessionLaunchIntent.RepositoryResourceID) =s "")
    with ErrGoalSessionCompatibilityIncomplete ;;
  reject negb (some_and journal.(StopCertificate) (fun certificate =>
           bool_decide (certificate = rebind.(GoalSessionResumeRebind.ExactStopCertificate)))) with ErrGoalSessionConflict ;;
  check compareGoalSessionResumeCompatibilityFields journal rebind.(GoalSessionResumeRebind.compatibility) ;;
  reject rebind.(GoalSessionResumeRebind.compatibility).(RuntimeEpoch) <?
           journal.(intent).(GoalSessionLaunchIntent.RuntimeEpoch) with ErrGoalSessionOwnerMismatch ;;
  Ok tt.

(** The lineage a rebind moves the session to. *)
Definition targetLineage (rebind : GoalSessionResumeRebind.t) (journal : GoalSessionJournal.t) : GoalSessionLineageKey.t :=
  GoalSessionLineageKey.mk journal.(intent).(GoalSessionLaunchIntent.GoalID)
    journal.(intent).(GoalSessionLaunchIntent.WorkItemID) rebind.(GoalSessionResumeRebind.TaskID).

(** The assignments of [RebindGoalSessionForResume]. *)
Definition applyRebind (rebind : GoalSessionResumeRebind.t) (now : time) (journal : GoalSessionJournal.t)
    : result GoalSessionJournal.t :=
  let source := rebind.(GoalSessionResumeRebind.ExactStopCertificate) in
  try journal <- appendConsumedStopCertificate source
    (journal <| intent := journal.(intent)
                  <| GoalSessionLaunchIntent.RunID := rebind.(GoalSessionResumeRebind.RunID) |>
                  <| GoalSessionLaunchIntent.Generation := rebind.(GoalSessionResumeRebind.Generation) |>
                  <| GoalSessionLaunchIntent.TaskID := rebind.(GoalSessionResumeRebind.TaskID) |>
                  <| GoalSessionLaunchIntent.AdmissionID := rebind.(GoalSessionResumeRebind.AdmissionID) |>
                  <| GoalSessionLaunchIntent.BindingID := rebind.(GoalSessionResumeRebind.BindingID) |>
                  <| GoalSessionLaunchIntent.RuntimeEpoch :=
                       rebind.(GoalSessionResumeRebind.compatibility).(RuntimeEpoch) |>
                  <| GoalSessionLaunchIntent.SessionMode := GoalSessionModeResume |>
                  <| GoalSessionLaunchIntent.HandoffSourceRunID := "" |> |>
             <| ControlAttachmentReceiptID := "" |> <| ResumeSourceStopCertificate := Some source |>) ;;
  Ok (journal <| ResumeStartPending := true |> <| ResumeNativeStopKnown := false |> <| ResumeTerminalReason := "" |>
              <| StopCertificate := None |> <| SessionState := GoalSessionStateBusy |>
              <| LaunchState := GoalSessionLaunchStateAttached |> <| LaunchAttempted := true |>
              <| RecoveryRequired := false |> <| UncertainReason := "" |> <| UpdatedAt := now |>).

Definition markResumeStartAttempted (now : time) (journal : GoalSessionJournal.t) : result GoalSessionJournal.t :=
  reject isClosed journal with ErrGoalSessionClosed ;;
  reject NeedsReconciliation journal with ErrGoalSessionUncertain ;;
  reject (journal.(intent).(GoalSessionLaunchIntent.SessionMode) <>s GoalSessionModeResume) ||
         is_nil journal.(ResumeSourceStopCertificate) || non_nil journal.(StopCertificate) ||
         journal.(ResumeNativeStopKnown) || (journal.(SessionState) <>s GoalSessionStateBusy) || notAttached journal
    with ErrGoalSessionConflict ;;
  if negb journal.(ResumeStartPending) then Ok journal
  else Ok (journal <| ResumeStartPending := false |> <| UpdatedAt := now |>).

Definition resumeStoppable (journal : GoalSessionJournal.t) : result unit :=
  reject isClosed journal with ErrGoalSessionClosed ;;
  reject NeedsReconciliation journal with ErrGoalSessionUncertain ;;
  reject (journal.(intent).(GoalSessionLaunchIntent.SessionMode) <>s GoalSessionModeResume) ||
         is_nil journal.(ResumeSourceStopCertificate) || non_nil journal.(StopCertificate) || notAttached journal ||
         (journal.(SessionState) <>s GoalSessionStateBusy) && (journal.(SessionState) <>s GoalSessionStateUnavailable)
    with ErrGoalSessionConflict ;;
  Ok tt.

Definition resumeStopped (reason : string) (now : time) (journal : GoalSessionJournal.t) : GoalSessionJournal.t :=
  journal <| SessionState := GoalSessionStateUnavailable |> <| ResumeStartPending := false |>
          <| ResumeNativeStopKnown := true |> <| ResumeTerminalReason := reason |> <| UpdatedAt := now |>.

Definition markResumeNativeStopped (now : time) (journal : GoalSessionJournal.t) : result GoalSessionJournal.t :=
  check resumeStoppable journal ;;
  if journal.(ResumeNativeStopKnown) then Ok journal else Ok (resumeStopped "" now journal).

Definition markResumeRejected (now : time) (journal : GoalSessionJournal.t) : result GoalSessionJournal.t :=
  check resumeStoppable journal ;;
  if journal.(ResumeNativeStopKnown) then
    if journal.(ResumeTerminalReason) =s "resume_rejected" then Ok journal
    else
      reject journal.(ResumeTerminalReason) <>s "" with ErrGoalSessionConflict ;;
      Ok (journal <| ResumeTerminalReason := "resume_rejected" |> <| UpdatedAt := now |>)
  else Ok (resumeStopped "resume_rejected" now journal).

(** ** Stop and availability *)

Definition markStoppedPending (now : time) (journal : GoalSessionJournal.t) : result GoalSessionJournal.t :=
  reject NeedsReconciliation journal with ErrGoalSessionUncertain ;;
  reject notAttached journal with ErrGoalSessionNotAttached ;;
  reject IsLegacyControlAttachment journal || negb (HasVerifiedControlAttachment journal)
    with ErrGoalSessionCompatibilityIncomplete ;;
  reject journal.(ResumeStartPending) with ErrGoalSessionConflict ;;
  reject negb (validGoalSessionUUID journal.(ControlSessionID)) ||
         negb (validGoalSessionUUID journal.(intent).(GoalSessionLaunchIntent.BindingID)) with ErrGoalSessionConflict ;;
  reject (journal.(SessionState) <>s GoalSessionStateBusy) && (journal.(SessionState) <>s GoalSessionStateUnavailable)
    with ErrGoalSessionConflict ;;
  let journal := journal <| SessionState := GoalSessionStateUnavailable |> in
  Ok ((if journal.(intent).(GoalSessionLaunchIntent.SessionMode) =s GoalSessionModeResume
       then journal <| ResumeNativeStopKnown := true |> else journal) <| UpdatedAt := now |>).

Definition certificateMatches (certificate : GoalSessionStopCertificate.t) (journal : GoalSessionJournal.t) : bool :=
  negb (notAttached journal) && (journal.(ControlSessionID) =s certificate.(GoalSessionStopCertificate.SessionID)) &&
  (journal.(intent).(GoalSessionLaunchIntent.BindingID) =s certificate.(GoalSessionStopCertificate.BindingID)) &&
  (journal.(intent).(GoalSessionLaunchIntent.RunID) =s certificate.(GoalSessionStopCertificate.RunID)) &&
  (journal.(intent).(GoalSessionLaunchIntent.Generation) =? certificate.(GoalSessionStopCertificate.Generation)) &&
  (journal.(intent).(GoalSessionLaunchIntent.LocalHandleID) =s certificate.(GoalSessionStopCertificate.LocalHandleID)).

Definition markAvailable (certificate : GoalSessionStopCertificate.t) (now : time) (journal : GoalSessionJournal.t)
    : result GoalSessionJournal.t :=
  match consumedStopCertificate certificate journal with
  | Some true => Ok journal
  | Some false => Err ErrGoalSessionConflict
  | None =>
      reject NeedsReconciliation journal with ErrGoalSessionUncertain ;;
      reject IsLegacyControlAttachment journal || negb (HasVerifiedControlAttachment journal)
        with ErrGoalSessionCompatibilityIncomplete ;;
      reject negb (certificateMatches certificate journal) with ErrGoalSessionConflict ;;
      match journal.(StopCertificate) with
      | Some recorded => reject negb (bool_decide (recorded = certificate)) with ErrGoalSessionConflict ;; Ok journal
      | None =>
          reject (journal.(SessionState) <>s GoalSessionStateUnavailable) &&
                 (journal.(SessionState) <>s GoalSessionStateAvailable) with ErrGoalSessionConflict ;;
          try journal <- (
            match journal.(ResumeSourceStopCertificate), journal.(ConsumedStopCertificates) with
            | Some source, None => appendConsumedStopCertificate source journal
            | _, _ => Ok journal
            end) ;;
          Ok (journal <| SessionState := GoalSessionStateAvailable |> <| StopCertificate := Some certificate |>
                      <| ResumeSourceStopCertificate := None |> <| ResumeStartPending := false |>
                      <| ResumeNativeStopKnown := false |> <| ResumeTerminalReason := "" |> <| UpdatedAt := now |>)
      end
  end.

(** ** Uncertainty and close *)

(** What every operation that gives up a native handle clears. *)
Definition dropHandle (journal : GoalSessionJournal.t) : GoalSessionJournal.t :=
  journal <| NativeSessionID := "" |> <| NativeSessionFilename := "" |> <| ControlSessionID := "" |>
          <| ControlAttachmentReceiptID := "" |> <| StopCertificate := None |> <| ResumeStartPending := false |>
          <| ResumeNativeStopKnown := false |> <| ResumeTerminalReason := "" |>.

Definition markUncertain (reason : string) (now : time) (journal : GoalSessionJournal.t) : result GoalSessionJournal.t :=
  reject isClosed journal with ErrGoalSessionClosed ;;
  if beforeLaunch journal then Ok (closeLaunch now journal)
  else
    Ok ((dropHandle journal) <| LaunchState := GoalSessionLaunchStateUncertain |>
          <| SessionState := GoalSessionStateUnavailable |> <| LaunchAttempted := true |>
          <| LaunchAttemptedAt := attemptedAt now journal |> <| RecoveryRequired := true |>
          <| UncertainReason := reason |> <| UpdatedAt := now |>).

Definition notAwaiting : error := Errorf "goal session is not awaiting reconciliation".

Definition resolveUncertain (handle : GoalSessionHandle.t) (expected : GoalSessionCompatibility.t) (now : time)
    (journal : GoalSessionJournal.t) : result GoalSessionJournal.t :=
  check compareGoalSessionIdentityStrict journal expected ;;
  reject negb (NeedsReconciliation journal) with notAwaiting ;;
  Ok (journal <| NativeSessionID := handle.(GoalSessionHandle.NativeSessionID) |>
              <| NativeSessionFilename := handle.(GoalSessionHandle.NativeSessionFilename) |>
              <| LaunchState := GoalSessionLaunchStateAttached |> <| SessionState := GoalSessionStateBusy |>
              <| ResumeStartPending := false |> <| ResumeNativeStopKnown := false |> <| ResumeTerminalReason := "" |>
              <| RecoveryRequired := false |> <| UncertainReason := "" |> <| LaunchAttempted := true |>
              <| LaunchAttemptedAt := attemptedAt now journal |> <| UpdatedAt := now |>).

Definition resolveUncertainStopped (expected : GoalSessionCompatibility.t) (now : time) (journal : GoalSessionJournal.t)
    : result GoalSessionJournal.t :=
  check compareGoalSessionIdentityStrict journal expected ;;
  if negb (NeedsReconciliation journal) then
    if fullyClosed journal then Ok journal else Err notAwaiting
  else
    Ok ((dropHandle journal) <| SessionState := GoalSessionStateClosed |> <| LaunchState := GoalSessionLaunchStateClosed |>
          <| RecoveryRequired := false |> <| UncertainReason := "" |> <| UpdatedAt := now |>).

Definition closeSession (now : time) (journal : GoalSessionJournal.t) : result GoalSessionJournal.t :=
  if fullyClosed journal then Ok journal else
  reject NeedsReconciliation journal with ErrGoalSessionUncertain ;;
  reject notAttached journal with ErrGoalSessionNotAttached ;;
  Ok ((dropHandle journal) <| SessionState := GoalSessionStateClosed |> <| LaunchState := GoalSessionLaunchStateClosed |>
        <| UpdatedAt := now |>).

Definition setSessionState (sessionState : string) (now : time) (journal : GoalSessionJournal.t)
    : result GoalSessionJournal.t :=
  reject isClosed journal with ErrGoalSessionClosed ;;
  reject journal.(ResumeStartPending) && (sessionState <>s GoalSessionStateBusy) with ErrGoalSessionConflict ;;
  Ok (journal <| SessionState := sessionState |> <| UpdatedAt := now |>).
