(* ===== verification/Cgroup.v ===== *)
(** * Cgroup: native admission and the v2 cgroup reservation

    src/daemon/internal/state/state.go (339-553, 2324-2762),
    cgroup_release_linux.go and the launcher's authenticator of
    src/daemon/native/linux-gate/protocol/gate_production_linux.go. A run that
    executes natively on Linux first reserves a leaf cgroup; the reservation
    then records, one compare-and-set at a time, the creation of the leaf, its
    identity, the helper, the launcher, the grant, the launcher's exit and the
    gate, or the proof that it ended before the gate.

    A callback that scans the other journals takes the verdict of the scan
    as the function [admission]; the method computes it from the store. *)

From S2P Require Import Prelude Sha256 Json Authority Protocol Journal Validation Store.
Import RunJournal.
Open Scope string_scope.
Open Scope Z_scope.

(** [runtime.GOOS] and [runtime.GOARCH] of the running daemon. *)
Class Platform : Type := { GOOS : string; GOARCH : string }.

#[export] Instance RunKey_countable : Countable RunKey.t :=
  inj_countable' (fun key => (key.(RunKey.RunID), key.(RunKey.Generation))) (fun p => RunKey.mk p.1 p.2)
    (fun key => match key with RunKey.mk _ _ => eq_refl end).

(** The owners the daemon attests to be live, with their fences. *)
Abbreviation owners := (gmap RunKey.t Fence.t) (only parsing).

(** A method that rejects its arguments does not touch the store. *)
Definition checked {A} (store : Store) (arguments : result unit) (operation : Store * result A) : Store * result A :=
  match arguments with Ok _ => operation | Err e => (store, Err e) end.

(** ** The launcher's authenticator (gate_production_linux.go) *)

Definition le_bytes4 (n : Z) : list Z :=
  [Z.land n 255; Z.land (Z.shiftr n 8) 255; Z.land (Z.shiftr n 16) 255; Z.land (Z.shiftr n 24) 255].

Definition appendLengthPrefixed (destination : list Z) (value : string) : list Z :=
  destination ++ le_bytes4 (len value) ++ string_bytes value.

Fixpoint hex_bytes (s : string) : list Z :=
  match s with
  | String a (String b s') => (16 * hex_value a + hex_value b) :: hex_bytes s'
  | _ => []
  end.

(** [decodeCanonicalHex]: [None] is the error. *)
Definition decodeCanonicalHex (value : string) (expectedBytes : Z) : option (list Z) :=
  if (len value =? 2 * expectedBytes) && string_forallb lower_hex_digit value then Some (hex_bytes value) else None.

Definition gateProductionDomain : list Z := (string_bytes "symmetry-linux-gate-production-v1" ++ [0])%list.

Definition SignGateNeverProducedAuthenticator (secretHex launchToken : string)
    (launcher : LinuxCgroupProcessIdentity.t) : option string :=
  match decodeCanonicalHex secretHex SecretBytes with
  | None => None
  | Some secretKey =>
      if negb (non_nil (decodeCanonicalHex launchToken TokenBytes)) || negb (LinuxCgroupProcessIdentity.Validate launcher)
      then None
      else
        let payload := appendLengthPrefixed gateProductionDomain launchToken in
        let payload := (payload ++ le_bytes4 launcher.(LinuxCgroupProcessIdentity.PID))%list in
        let payload := appendLengthPrefixed payload launcher.(LinuxCgroupProcessIdentity.Identity) in
        let payload := appendLengthPrefixed payload "never_created" in
        Some (hex_encode (hmac_sha256 secretKey payload))
  end.

Definition VerifyGateNeverProducedAuthenticator (secretHex : string) (result : LinuxCgroupGateProductionResult.t) : bool :=
  LinuxCgroupGateProductionResult.ValidateFor result result.(LinuxCgroupGateProductionResult.LaunchToken)
    result.(LinuxCgroupGateProductionResult.Launcher) &&
  some_and (SignGateNeverProducedAuthenticator secretHex result.(LinuxCgroupGateProductionResult.LaunchToken)
              result.(LinuxCgroupGateProductionResult.Launcher)) (fun want =>
    some_and (decodeCanonicalHex result.(LinuxCgroupGateProductionResult.Authenticator) 32) (fun got =>
      bool_decide (got = hex_bytes want))).

Example hmac_vector :
  hex_encode (hmac_sha256 (repeat 97 32) (string_bytes "msg")) =
    "87d1278e8a8f5750ba973ab5b850735bf3232a5a35c96ecb085166a5b2cafd51".
Proof. vm_compute. reflexivity. Qed.

(** ** Native admission *)

Definition validLinuxV2AdmissionFence (key : RunKey.t) (fence : Fence.t) : bool :=
  validateKey key && (fence.(Fence.Generation) =? key.(RunKey.Generation)) &&
  validRequiredString fence.(Fence.RuntimeID) 4096 && (0 <? fence.(Fence.RuntimeEpoch)) &&
  validRequiredString fence.(Fence.ClaimID) 4096 && validRequiredString fence.(Fence.LeaseToken) 65536.

Definition linuxClonePathAliases (left right : string) : bool :=
  (left =s right) || has_prefix (right ++ "/") left || has_prefix (left ++ "/") right.

Definition linuxV2TargetCanStartNativeEffects (journal : RunJournal.t) (now : time) : bool :=
  hasClaimGrant journal && (now <? journal.(LeaseExpiresAt)) && negb journal.(NativeUsageRecoveryRequired) &&
  negb journal.(ContainmentUnproven) && (journal.(TerminalState) =s "") && (journal.(TerminalVerdict) =s "") &&
  negb (hasPendingTerminalTransition journal.(PendingTransitions)) && negb journal.(LinuxCloneAbortPending) &&
  is_nil journal.(LinuxCloneAbortProof) && noCloneCleanup journal &&
  ((journal.(LocalState) =s "claimed") || (journal.(LocalState) =s "running")).

Definition linuxV2JournalHasPendingEffects (journal : RunJournal.t) : bool :=
  non_nil journal.(ContainmentCgroup) || non_nil journal.(ContainmentCgroupReleaseProof) ||
  non_nil journal.(ContainmentCgroupPreGateReleaseProof) || non_nil journal.(LinuxCloneIntent) ||
  non_nil journal.(LinuxCloneSeedReceipt) || non_nil journal.(LinuxCloneCheckoutReceipt) ||
  non_nil journal.(LinuxClonePromotionIntent) || non_nil journal.(LinuxClonePromotionReceipt) ||
  journal.(LinuxCloneAbortPending) || non_nil journal.(LinuxCloneAbortProof) || negb (noCloneCleanup journal).

(** [requireLinuxScansCleanForAuthority], [requireLinuxScansSealedForAuthority]
    and the same for a handoff. *)
Definition requireLinuxScansCleanForAuthority (journal : RunJournal.t) (value : Supervisor.t) : result unit :=
  if value.(Supervisor.OwnerKind) <>s OwnerKindLinuxHelper then Ok tt else
  reject negb (some_and journal.(ContainmentScans) (fun scans => ContainmentScanJournal.matchesAuthority scans value))
    with Errorf "Linux supervisor scan fence is missing or mismatched" ;;
  reject journal.(ContainmentUnproven) || negb (some_and journal.(ContainmentScans) ContainmentScanJournal.clean)
    with Errorf "Linux supervisor scan evidence is unresolved" ;;
  Ok tt.

Definition requireLinuxScansSealedForAuthority (journal : RunJournal.t) (value : Supervisor.t) : result unit :=
  if value.(Supervisor.OwnerKind) <>s OwnerKindLinuxHelper then Ok tt else
  reject negb (some_and journal.(ContainmentScans) (fun scans => ContainmentScanJournal.matchesAuthority scans value))
    with Errorf "Linux supervisor scan fence is missing or mismatched" ;;
  reject journal.(ContainmentUnproven) || negb (some_and journal.(ContainmentScans) ContainmentScanJournal.sealed)
    with Errorf "Linux supervisor scan seals are unresolved" ;;
  Ok tt.

Definition requireLinuxScansSealedForHandoff (journal : RunJournal.t) (handoff : SupervisorHandoff.t) : result unit :=
  if handoff.(SupervisorHandoff.OwnerKind) <>s OwnerKindLinuxHelper then Ok tt else
  reject (handoff.(SupervisorHandoff.SupervisorPID) <=? 0) || (handoff.(SupervisorHandoff.SupervisorIdentity) =s "") ||
         negb (some_and journal.(ContainmentScans) (fun scans => ContainmentScanJournal.matchesHandoff scans handoff))
    with Errorf "Linux supervisor scan fence is missing or mismatched" ;;
  reject journal.(ContainmentUnproven) || negb (some_and journal.(ContainmentScans) ContainmentScanJournal.sealed)
    with Errorf "Linux supervisor scan seals are unresolved" ;;
  Ok tt.

Definition linuxV1StopReceiptSafelyRetires (journal : RunJournal.t) (owner : Supervisor.t) : bool :=
  string_in journal.(LocalState) ["terminal_pending"; "cleanup_pending"; "stale"] &&
  Supervisor.Validate owner && (owner.(Supervisor.Version) =? SupervisorVersion) &&
  some_and owner.(Supervisor.StopReceipt) (fun receipt => Supervisor.ReceiptValidFor receipt owner) &&
  HasProcessDetails journal && (journal.(PID) =? owner.(Supervisor.TargetPID)) &&
  (journal.(ProcessIdentity) =s owner.(Supervisor.TargetIdentity)) && is_nil journal.(ContainmentHandoff) &&
  is_nil journal.(ContainmentCgroup) && is_nil journal.(ContainmentCgroupReleaseProof) &&
  is_nil journal.(ContainmentCgroupPreGateReleaseProof) && negb journal.(ContainmentUnproven) &&
  negb journal.(NativeUsageRecoveryRequired) && is_ok (requireLinuxScansSealedForAuthority journal owner) &&
  negb (linuxV2JournalHasPendingEffects journal).

Section Admission.
Context `{AdmissionParser} `{JournalEncoder}.

Definition linuxCloneCleanupIntentMatchesJournal (journal : RunJournal.t) (expected : LinuxCloneCleanupIntent.t) : bool :=
  some_and (linuxCloneCleanupIntentFromJournal journal) (fun actual => LinuxCloneCleanupIntent.Equal actual expected).

Definition linuxV2ReleasedCloneStateSafe (journal : RunJournal.t) : bool :=
  if journal.(LinuxCloneAbortPending) || non_nil journal.(LinuxCloneAbortProof) || journal.(LinuxCloneCleanupPending)
  then false else
  match journal.(LinuxCloneIntent) with
  | None =>
      is_nil journal.(LinuxCloneSeedReceipt) && is_nil journal.(LinuxCloneCheckoutReceipt) &&
      is_nil journal.(LinuxClonePromotionIntent) && is_nil journal.(LinuxClonePromotionReceipt) &&
      is_nil journal.(LinuxCloneCleanupIntent) && is_nil journal.(LinuxCloneTargetRemovalProof) &&
      is_nil journal.(LinuxCloneCleanupProof) && (journal.(WorkspacePath) =s "") &&
      negb journal.(WorkspaceRecoveryRequired) && negb journal.(RunJournal.RetainWorkspace)
  | Some intent =>
      LinuxCloneIntent.ValidateForJournal intent &&
      match journal.(LinuxCloneCleanupProof) with
      | Some proof =>
          some_and journal.(LinuxCloneCleanupIntent) (fun cleanup =>
          some_and journal.(LinuxCloneTargetRemovalProof) (fun removal =>
            LinuxCloneCleanupIntent.Validate cleanup && LinuxCloneTargetRemovalProof.Validate removal &&
            LinuxCloneCleanupProof.Validate proof &&
            LinuxCloneIntent.Equal cleanup.(LinuxCloneCleanupIntent.Intent) intent &&
            LinuxCloneCleanupIntent.Equal removal.(LinuxCloneTargetRemovalProof.Intent) cleanup &&
            LinuxCloneCleanupIntent.Equal proof.(LinuxCloneCleanupProof.Intent) cleanup &&
            LinuxCloneTargetRemovalProof.Equal proof.(LinuxCloneCleanupProof.TargetRemovalProof) removal &&
            linuxCloneCleanupIntentMatchesJournal journal cleanup)) &&
          (journal.(WorkspacePath) =s "") && negb journal.(WorkspaceRecoveryRequired) &&
          negb journal.(RunJournal.RetainWorkspace)
      | None =>
          is_nil journal.(LinuxCloneCleanupIntent) && is_nil journal.(LinuxCloneTargetRemovalProof) &&
          some_and journal.(LinuxCloneCheckoutReceipt) (fun checkout =>
            LinuxCloneCheckoutReceipt.Validate checkout &&
            (checkout.(LinuxCloneCheckoutReceipt.Target) =s intent.(LinuxCloneIntent.Target))) &&
          (journal.(WorkspacePath) =s intent.(LinuxCloneIntent.Target)) &&
          journal.(WorkspaceRecoveryRequired) && journal.(RunJournal.RetainWorkspace)
      end
  end.

Definition noActiveMarkers (journal : RunJournal.t) : bool :=
  negb (HasProcessDetails journal) && is_nil journal.(ContainmentAuthority) && is_nil journal.(ContainmentHandoff) &&
  is_nil journal.(ContainmentScans) && negb journal.(ContainmentUnproven).

Definition linuxV2ForeignJournalIsSafelyRetired (journal : RunJournal.t) : bool :=
  match journal.(ContainmentCgroupReleaseProof) with
  | Some release =>
      noActiveMarkers journal && is_nil journal.(ContainmentCgroup) &&
      is_nil journal.(ContainmentCgroupPreGateReleaseProof) && SupervisorHandoffReleaseProof.Validate release &&
      (release.(SupervisorHandoffReleaseProof.Version) =? SupervisorHandoffVersionV2) &&
      non_nil release.(SupervisorHandoffReleaseProof.StopReceipt) &&
      ((release.(SupervisorHandoffReleaseProof.LeafDisposition) =s "removed") ||
       (release.(SupervisorHandoffReleaseProof.LeafDisposition) =s "absent_after_receipt")) &&
      linuxV2ReleasedCloneStateSafe journal
  | None =>
      match journal.(ContainmentCgroupPreGateReleaseProof) with
      | Some release =>
          noActiveMarkers journal && is_nil journal.(ContainmentCgroup) &&
          LinuxCgroupPreGateReleaseProof.Validate release &&
          (release.(LinuxCgroupPreGateReleaseProof.Version) =? SupervisorHandoffVersionV2) &&
          (release.(LinuxCgroupPreGateReleaseProof.Receipt).(LinuxCgroupPreGateStopReceipt.Proof)
             .(LinuxCgroupPreGateStopProof.GateOutcome).(LinuxCgroupGateProductionResult.Outcome) =s "never_created")
      | None =>
          match journal.(ContainmentCgroup) ≫= LinuxCgroupReservation.AbortProof with
          | Some proof =>
              noActiveMarkers journal && some_and journal.(ContainmentCgroup) (fun reservation =>
                LinuxCgroupReservation.Validate reservation && LinuxCgroupReservation.AbortMatches reservation proof)
          | None =>
              match journal.(LinuxCloneAbortProof) with
              | Some proof =>
                  noActiveMarkers journal && LinuxCloneAbortProof.Validate proof &&
                  linuxCloneAbortHistoryMatches journal (Some proof)
              | None =>
                  some_and journal.(ContainmentAuthority) (fun owner =>
                    (owner.(Supervisor.Version) =? SupervisorVersion) && non_nil owner.(Supervisor.StopReceipt) &&
                    linuxV1StopReceiptSafelyRetires journal owner)
              end
          end
      end
  end.

Definition linuxV2ForeignOwnerIsHealthy (journal : RunJournal.t) (now : time) : bool :=
  string_in journal.(LocalState) ["claimed"; "running"; "paused"; "waiting_for_input"] &&
  some_and journal.(ContainmentCgroup) (fun reservation => some_and journal.(ContainmentAuthority) (fun owner =>
    (owner.(Supervisor.Version) =? SupervisorVersionV2) && is_nil owner.(Supervisor.StopReceipt) &&
    LinuxCgroupReservation.Validate reservation && is_nil reservation.(LinuxCgroupReservation.AbortProof) &&
    is_nil reservation.(LinuxCgroupReservation.PreGateStopReceipt) &&
    linuxCgroupReservationMatchesAuthority reservation owner &&
    (journal.(PID) =? owner.(Supervisor.TargetPID)) &&
    (journal.(ProcessIdentity) =s owner.(Supervisor.TargetIdentity)))) &&
  is_nil journal.(ContainmentHandoff) && is_nil journal.(ContainmentCgroupReleaseProof) &&
  is_nil journal.(ContainmentCgroupPreGateReleaseProof) && is_nil journal.(ContainmentScans) &&
  negb journal.(ContainmentUnproven) && negb journal.(LinuxCloneAbortPending) && is_nil journal.(LinuxCloneAbortProof) &&
  noCloneCleanup journal && HasProcessDetails journal && (journal.(TerminalState) =s "") &&
  (journal.(TerminalVerdict) =s "") && negb journal.(NativeUsageRecoveryRequired) &&
  (now <? journal.(LeaseExpiresAt)) && hasClaimGrant journal.

(** [readJournalEntryLocked] *)
Definition readJournalEntryLocked (fs : io) (entry : string * file) : result RunJournal.t :=
  reject negb fs.(readable) with Errorf "read run journal" ;;
  match entry.2 with
  | Undecodable => Err (Errorf "decode run journal")
  | Decodes journal =>
      match validateJournal journal with
      | Err NilDereference => Err NilDereference
      | Err _ => Err (Errorf "invalid run journal")
      | Ok _ =>
          reject journalPath (Key journal) <>s entry.1 with Errorf "run journal file does not match its key" ;;
          Ok journal
      end
  end.

(** [forEachJournalLocked], the visitor threading what it counts. The
    directory lists journals in no particular order. *)
Fixpoint forEachJournal {A} (fs : io) (visit : A -> RunJournal.t -> result A) (entries : list (string * file)) (acc : A)
    : result A :=
  match entries with
  | [] => Ok acc
  | entry :: rest =>
      try journal <- readJournalEntryLocked fs entry ;;
      try acc <- visit acc journal ;;
      forEachJournal fs visit rest acc
  end.

Definition clonePathsFree (cloneIntent : option LinuxCloneIntent.t) (foreign : RunJournal.t) : bool :=
  none_or cloneIntent (fun mine => none_or foreign.(LinuxCloneIntent) (fun other =>
    non_nil foreign.(LinuxCloneAbortProof) && negb foreign.(LinuxCloneAbortPending) ||
    negb (linuxClonePathAliases mine.(LinuxCloneIntent.SeedPath) other.(LinuxCloneIntent.SeedPath) ||
          linuxClonePathAliases mine.(LinuxCloneIntent.Target) other.(LinuxCloneIntent.Target) ||
          linuxClonePathAliases mine.(LinuxCloneIntent.SeedPath) other.(LinuxCloneIntent.Target) ||
          linuxClonePathAliases mine.(LinuxCloneIntent.Target) other.(LinuxCloneIntent.SeedPath)))).

Definition leafPathFree (reservation : option LinuxCgroupReservation.t) (foreign : RunJournal.t) : bool :=
  none_or reservation (fun mine => none_or foreign.(ContainmentCgroup) (fun other =>
    negb ((other.(LinuxCgroupReservation.Parent).(LinuxCgroupParentIdentity.Path) =s
             mine.(LinuxCgroupReservation.Parent).(LinuxCgroupParentIdentity.Path)) &&
          (other.(LinuxCgroupReservation.LeafName) =s mine.(LinuxCgroupReservation.LeafName))))).

(** The visitor of [scanLinuxV2NativeAdmissionLocked]; it threads
    [matchedLiveOwners] and [targetFound]. *)
Definition visitAdmission (targetKey : option RunKey.t) (targetFence : Fence.t) (now : time) (liveOwners : owners)
    (reservation : option LinuxCgroupReservation.t) (cloneIntent : option LinuxCloneIntent.t)
    (acc : nat * bool) (foreign : RunJournal.t) : result (nat * bool) :=
  let key := Key foreign in
  let live := liveOwners !! key in
  if some_and targetKey (fun target => bool_decide (key = target)) then
    reject negb (sameFence (fence foreign) targetFence)
      with Errorf "Linux v2 admission target changed fence during Store scan" ;;
    Ok (if non_nil live then S acc.1 else acc.1, true)
  else
    try matched <- (
      match live with
      | Some liveFence =>
          reject negb (sameFence liveFence (fence foreign)) || negb (linuxV2ForeignOwnerIsHealthy foreign now)
            with Errorf "foreign Linux v2 live-owner snapshot is stale or unhealthy" ;;
          Ok (S acc.1)
      | None =>
          reject negb (linuxV2ForeignJournalIsSafelyRetired foreign)
            with Errorf "foreign RunJournal has unresolved native ownership" ;;
          Ok acc.1
      end) ;;
    reject negb (clonePathsFree cloneIntent foreign) with Errorf "Linux clone seed or target path is already reserved" ;;
    reject negb (leafPathFree reservation foreign) with Errorf "Linux cgroup leaf path is already reserved" ;;
    Ok (matched, acc.2).

Definition scanLinuxV2NativeAdmissionLocked (fs : io) (store : Store) (targetKey : option RunKey.t)
    (targetFence : Fence.t) (now : time) (liveOwners : owners) (reservation : option LinuxCgroupReservation.t)
    (cloneIntent : option LinuxCloneIntent.t) : result unit :=
  reject IsZero now with Errorf "Linux v2 admission clock is missing" ;;
  reject negb (forallb (fun '(key, fence) =>
           validLinuxV2AdmissionFence key fence &&
           negb (some_and targetKey (fun target => bool_decide (key = target)) && negb (sameFence fence targetFence)))
           (map_to_list liveOwners))
    with Errorf "Linux v2 live-owner snapshot contains an invalid RunKey/fence" ;;
  try acc <- forEachJournal fs (visitAdmission targetKey targetFence now liveOwners reservation cloneIntent)
    (map_to_list store.(runs)) (0%nat, is_nil targetKey) ;;
  reject negb acc.2 with Errorf "Linux v2 admission target journal is missing from the locked Store scan" ;;
  reject negb (acc.1 =? size liveOwners)%nat
    with Errorf "Linux v2 live-owner snapshot has no current RunJournal for every fenced owner" ;;
  Ok tt.

(** What [checkLinuxV2NativeAdmissionLocked] is given. *)
Definition admission : Type :=
  RunJournal.t -> RunKey.t -> Fence.t -> time -> owners -> option LinuxCgroupReservation.t ->
  option LinuxCloneIntent.t -> result unit.

Definition checkLinuxV2NativeAdmissionLocked (fs : io) (store : Store) : admission :=
  fun target key fence' now liveOwners reservation cloneIntent =>
  reject negb (bool_decide (Key target = key)) || negb (sameFence (fence target) fence') ||
         negb (hasClaimGrant target) || negb (validLinuxV2AdmissionFence key fence') || IsZero now
    with Errorf "Linux v2 native admission target RunKey/fence is stale" ;;
  reject negb (linuxV2TargetCanStartNativeEffects target now)
    with Errorf "Linux v2 native admission target lease or lifecycle is not effect-ready" ;;
  scanLinuxV2NativeAdmissionLocked fs store (Some key) fence' now liveOwners reservation cloneIntent.

Context `{Platform}.

Definition linuxAmd64 : bool := (GOOS =s "linux") && (GOARCH =s "amd64").

Definition requireLinuxV2NativeAdmissionPlatform : result unit :=
  reject negb linuxAmd64 with Errorf "Linux v2 native admission is supported only on Linux/amd64" ;; Ok tt.

Definition CheckLinuxV2NativeAdmissionBeforeClaim (fs : io) (store : Store) (now : time) (liveOwners : owners) : result unit :=
  check requireLinuxV2NativeAdmissionPlatform ;;
  reject IsZero now with Errorf "Linux v2 native admission time is missing" ;;
  check ensureOpenLocked store ;;
  scanLinuxV2NativeAdmissionLocked fs store None Fence.zero now liveOwners None None.

Definition CheckLinuxV2NativeAdmission (fs : io) (store : Store) (key : RunKey.t) (fence' : Fence.t) (now : time)
    (liveOwners : owners) : result unit :=
  check requireLinuxV2NativeAdmissionPlatform ;;
  reject negb (validateKey key) || negb (validLinuxV2AdmissionFence key fence') || IsZero now
    with Errorf "Linux v2 native admission RunKey, fence, or time is invalid" ;;
  check ensureOpenLocked store ;;
  try journal <- loadJournalLocked fs store key ;;
  checkLinuxV2NativeAdmissionLocked fs store journal key fence' now liveOwners None None.
End Admission.

(** ** The stages of a reservation

    Each stage is a compare-and-set: [expected] is what the caller read,
    [after] what it wants stored; finding [after] already there is a replay. *)

Definition exactCgroupMutationStage (journal : RunJournal.t) (expected after : LinuxCgroupReservation.t) : result bool :=
  match journal.(ContainmentCgroup) with
  | Some current =>
      reject negb (hasClaimGrant journal) || (journal.(LocalState) =s "cleanup_pending") ||
             non_nil expected.(LinuxCgroupReservation.AbortProof) ||
             non_nil expected.(LinuxCgroupReservation.PreGateStopReceipt)
        with Errorf "Linux cgroup reservation is not mutable" ;;
      reject negb (LinuxCgroupReservation.Validate after) with Errorf "Linux cgroup reservation is invalid" ;;
      if LinuxCgroupReservation.Equal current after then Ok true
      else if LinuxCgroupReservation.Equal current expected then Ok false
      else Err (Errorf "Linux cgroup reservation compare-and-set mismatch")
  | None => Err (Errorf "Linux cgroup reservation is not mutable")
  end.

Definition stageCgroup (expected after : LinuxCgroupReservation.t) (journal : RunJournal.t) : result RunJournal.t :=
  try replayed <- exactCgroupMutationStage journal expected after ;;
  Ok (if replayed : bool then journal else journal <| ContainmentCgroup := Some after |>).

(** Nothing has happened yet. *)
Definition beforeCreation (reservation : LinuxCgroupReservation.t) : bool :=
  negb reservation.(LinuxCgroupReservation.CreateStarted) && is_nil reservation.(LinuxCgroupReservation.LeafIdentity) &&
  is_nil reservation.(LinuxCgroupReservation.Helper) && is_nil reservation.(LinuxCgroupReservation.Launcher) &&
  is_nil reservation.(LinuxCgroupReservation.LauncherExit) && is_nil reservation.(LinuxCgroupReservation.Gate) &&
  is_nil reservation.(LinuxCgroupReservation.HelperExit).

Definition invalid_reservation : error := Errorf "Linux cgroup reservation is invalid".

Section Stages.
Context `{AdmissionParser} `{JournalEncoder} `{Platform}.

Definition reserveArguments (reservation : LinuxCgroupReservation.t) : result unit :=
  check requireLinuxV2NativeAdmissionPlatform ;;
  reject negb (LinuxCgroupReservation.Validate reservation) with invalid_reservation ;;
  reject negb (beforeCreation reservation) || non_nil reservation.(LinuxCgroupReservation.AbortProof) ||
         non_nil reservation.(LinuxCgroupReservation.PreGateStopReceipt) ||
         is_nil reservation.(LinuxCgroupReservation.Mirror)
    with Errorf "Linux cgroup reservation must precede creation" ;;
  Ok tt.

Definition reserveLinuxCgroup (admits : admission) (key : RunKey.t) (fence' : Fence.t)
    (reservation : LinuxCgroupReservation.t) (now : time) (liveOwners : owners) (journal : RunJournal.t)
    : result RunJournal.t :=
  reject negb (hasClaimGrant journal) with Errorf "journal has no claim grant" ;;
  reject negb (sameFence (fence journal) fence') || negb (validLinuxV2AdmissionFence key fence')
    with Errorf "Linux cgroup reservation RunKey/fence is stale" ;;
  check admits journal key fence' now liveOwners (Some reservation) None ;;
  reject journal.(LinuxCloneAbortPending) || non_nil journal.(LinuxCloneAbortProof)
    with Errorf "Linux cgroup reservation is fenced by clone abort" ;;
  reject (journal.(LocalState) =s "cleanup_pending") || HasProcessDetails journal ||
         non_nil journal.(ContainmentAuthority) || non_nil journal.(ContainmentHandoff) ||
         non_nil journal.(ContainmentScans) || journal.(ContainmentUnproven) ||
         non_nil journal.(ContainmentCgroupReleaseProof) || non_nil journal.(ContainmentCgroupPreGateReleaseProof)
    with Errorf "Linux cgroup reservation conflicts with existing containment" ;;
  match journal.(ContainmentCgroup) with
  | Some current =>
      if LinuxCgroupReservation.Equal current reservation then Ok journal
      else Err (Errorf "Linux cgroup reservation conflicts with journal")
  | None => Ok (journal <| ContainmentCgroup := Some reservation |>)
  end.

Definition ReserveLinuxCgroup (fs : io) (store : Store) (key : RunKey.t) (fence' : Fence.t)
    (reservation : LinuxCgroupReservation.t) (now : time) (liveOwners : owners) : Store * result RunJournal.t :=
  checked store (reserveArguments reservation)
    (mutateJournal fs store key
       (reserveLinuxCgroup (checkLinuxV2NativeAdmissionLocked fs store) key fence' reservation now liveOwners)).

Definition createStartedArguments (expected : LinuxCgroupReservation.t) : result unit :=
  check requireLinuxV2NativeAdmissionPlatform ;;
  reject negb (LinuxCgroupReservation.Validate expected) with invalid_reservation ;;
  reject negb (beforeCreation expected) with Errorf "Linux cgroup creation intent expected value is invalid" ;;
  Ok tt.

Definition markLinuxCgroupCreateStarted (admits : admission) (key : RunKey.t) (fence' : Fence.t)
    (expected : LinuxCgroupReservation.t) (now : time) (liveOwners : owners) (journal : RunJournal.t)
    : result RunJournal.t :=
  reject negb (sameFence (fence journal) fence') || negb (validLinuxV2AdmissionFence key fence')
    with Errorf "Linux cgroup creation RunKey/fence is stale" ;;
  check admits journal key fence' now liveOwners None None ;;
  stageCgroup expected (expected <| LinuxCgroupReservation.CreateStarted := true |>) journal.

Definition MarkLinuxCgroupCreateStarted (fs : io) (store : Store) (key : RunKey.t) (fence' : Fence.t)
    (expected : LinuxCgroupReservation.t) (now : time) (liveOwners : owners) : Store * result RunJournal.t :=
  checked store (createStartedArguments expected)
    (mutateJournal fs store key
       (markLinuxCgroupCreateStarted (checkLinuxV2NativeAdmissionLocked fs store) key fence' expected now liveOwners)).

Definition leafArguments (expected : LinuxCgroupReservation.t) (measured : LinuxCgroupIdentity.t) : result unit :=
  reject negb (LinuxCgroupReservation.Validate expected) with invalid_reservation ;;
  reject negb (LinuxCgroupIdentity.Validate measured) with Errorf "Linux cgroup identity is invalid" ;;
  reject negb expected.(LinuxCgroupReservation.CreateStarted) ||
         (measured.(LinuxCgroupIdentity.LeafName) <>s expected.(LinuxCgroupReservation.LeafName)) ||
         negb (LinuxCgroupParentIdentity.Equal measured.(LinuxCgroupIdentity.Parent) expected.(LinuxCgroupReservation.Parent))
    with Errorf "measured Linux cgroup leaf does not match reservation" ;;
  Ok tt.

Definition bindLinuxCgroupLeaf (expected : LinuxCgroupReservation.t) (measured : LinuxCgroupIdentity.t)
    (journal : RunJournal.t) : result RunJournal.t :=
  reject non_nil expected.(LinuxCgroupReservation.LeafIdentity) || non_nil expected.(LinuxCgroupReservation.Helper) ||
         non_nil expected.(LinuxCgroupReservation.Launcher) || non_nil expected.(LinuxCgroupReservation.Gate)
    with Errorf "Linux cgroup leaf must bind before its producers" ;;
  stageCgroup expected (expected <| LinuxCgroupReservation.LeafIdentity := Some measured |>) journal.

Definition BindLinuxCgroupLeaf (fs : io) (store : Store) (key : RunKey.t) (expected : LinuxCgroupReservation.t)
    (measured : LinuxCgroupIdentity.t) : Store * result RunJournal.t :=
  checked store (leafArguments expected measured)
    (mutateJournal fs store key (bindLinuxCgroupLeaf expected measured)).

Definition processArguments (expected : LinuxCgroupReservation.t) (process : LinuxCgroupProcessIdentity.t) : result unit :=
  reject negb (LinuxCgroupReservation.Validate expected) with invalid_reservation ;;
  reject negb (LinuxCgroupProcessIdentity.Validate process) with Errorf "Linux cgroup process identity is invalid" ;;
  Ok tt.

Definition committed (journal : RunJournal.t) : bool :=
  non_nil journal.(ContainmentHandoff) || non_nil journal.(ContainmentAuthority).

Definition bindLinuxCgroupHelper (expected : LinuxCgroupReservation.t) (helper : LinuxCgroupProcessIdentity.t)
    (journal : RunJournal.t) : result RunJournal.t :=
  reject is_nil expected.(LinuxCgroupReservation.LeafIdentity) || non_nil expected.(LinuxCgroupReservation.Helper) ||
         non_nil expected.(LinuxCgroupReservation.Launcher) || non_nil expected.(LinuxCgroupReservation.Gate) ||
         non_nil expected.(LinuxCgroupReservation.AbortProof) ||
         non_nil expected.(LinuxCgroupReservation.PreGateStopReceipt) || committed journal
    with Errorf "Linux cgroup helper bind is out of order" ;;
  stageCgroup expected (expected <| LinuxCgroupReservation.Helper := Some helper |>) journal.

Definition BindLinuxCgroupHelper (fs : io) (store : Store) (key : RunKey.t) (expected : LinuxCgroupReservation.t)
    (helper : LinuxCgroupProcessIdentity.t) : Store * result RunJournal.t :=
  checked store (processArguments expected helper)
    (mutateJournal fs store key (bindLinuxCgroupHelper expected helper)).

Definition bindLinuxCgroupLauncher (expected : LinuxCgroupReservation.t) (launcher : LinuxCgroupProcessIdentity.t)
    (journal : RunJournal.t) : result RunJournal.t :=
  reject is_nil expected.(LinuxCgroupReservation.LeafIdentity) || is_nil expected.(LinuxCgroupReservation.Helper) ||
         non_nil expected.(LinuxCgroupReservation.Launcher) || non_nil expected.(LinuxCgroupReservation.LauncherExit) ||
         non_nil expected.(LinuxCgroupReservation.Gate) || committed journal
    with Errorf "Linux cgroup launcher bind is out of order" ;;
  stageCgroup expected (expected <| LinuxCgroupReservation.Launcher := Some launcher |>) journal.

Definition BindLinuxCgroupLauncher (fs : io) (store : Store) (key : RunKey.t) (expected : LinuxCgroupReservation.t)
    (launcher : LinuxCgroupProcessIdentity.t) : Store * result RunJournal.t :=
  checked store (processArguments expected launcher)
    (mutateJournal fs store key (bindLinuxCgroupLauncher expected launcher)).

Definition grantArguments (expected : LinuxCgroupReservation.t) : result unit :=
  check requireLinuxV2NativeAdmissionPlatform ;;
  reject negb (LinuxCgroupReservation.Validate expected) with invalid_reservation ;;
  reject is_nil expected.(LinuxCgroupReservation.Launcher) || expected.(LinuxCgroupReservation.LauncherGrantPossible) ||
         non_nil expected.(LinuxCgroupReservation.LauncherExit) || non_nil expected.(LinuxCgroupReservation.Gate) ||
         non_nil expected.(LinuxCgroupReservation.AbortProof)
    with Errorf "Linux cgroup launcher grant expected value is invalid" ;;
  Ok tt.

Definition armLinuxCgroupLauncherGrant (admits : admission) (key : RunKey.t) (fence' : Fence.t)
    (expected : LinuxCgroupReservation.t) (now : time) (liveOwners : owners) (journal : RunJournal.t)
    : result RunJournal.t :=
  reject negb (sameFence (fence journal) fence') || negb (validLinuxV2AdmissionFence key fence')
    with Errorf "Linux cgroup launcher grant RunKey/fence is stale" ;;
  check admits journal key fence' now liveOwners None None ;;
  reject committed journal || is_nil journal.(ContainmentCgroup)
    with Errorf "Linux cgroup launcher grant has no pending reservation" ;;
  stageCgroup expected (expected <| LinuxCgroupReservation.LauncherGrantPossible := true |>) journal.

Definition ArmLinuxCgroupLauncherGrant (fs : io) (store : Store) (key : RunKey.t) (fence' : Fence.t)
    (expected : LinuxCgroupReservation.t) (now : time) (liveOwners : owners) : Store * result RunJournal.t :=
  checked store (grantArguments expected)
    (mutateJournal fs store key
       (armLinuxCgroupLauncherGrant (checkLinuxV2NativeAdmissionLocked fs store) key fence' expected now liveOwners)).

Definition exitArguments (expected : LinuxCgroupReservation.t) (proof : LinuxCgroupExitProof.t) : result unit :=
  reject negb (LinuxCgroupReservation.Validate expected) with invalid_reservation ;;
  reject negb (LinuxCgroupExitProof.Validate proof) with Errorf "Linux cgroup exit proof is invalid" ;;
  Ok tt.

Definition recordLinuxCgroupLauncherExit (expected : LinuxCgroupReservation.t) (proof : LinuxCgroupExitProof.t)
    (journal : RunJournal.t) : result RunJournal.t :=
  reject negb (some_and expected.(LinuxCgroupReservation.Launcher) (fun launcher =>
           some_and expected.(LinuxCgroupReservation.Helper) (fun helper =>
             LinuxCgroupExitProof.ValidForOwnedDescendant proof launcher helper expected.(LinuxCgroupReservation.Anchor)
               expected.(LinuxCgroupReservation.HelperExit)))) ||
         non_nil expected.(LinuxCgroupReservation.LauncherExit)
    with Errorf "Linux cgroup launcher exit proof does not match producer" ;;
  stageCgroup expected (expected <| LinuxCgroupReservation.LauncherExit := Some proof |>) journal.

Definition RecordLinuxCgroupLauncherExit (fs : io) (store : Store) (key : RunKey.t) (expected : LinuxCgroupReservation.t)
    (proof : LinuxCgroupExitProof.t) : Store * result RunJournal.t :=
  checked store (exitArguments expected proof)
    (mutateJournal fs store key (recordLinuxCgroupLauncherExit expected proof)).

Definition gateArguments (expected : LinuxCgroupReservation.t) (gate : LinuxCgroupGateIdentity.t) : result unit :=
  reject negb (LinuxCgroupReservation.Validate expected) with invalid_reservation ;;
  reject negb (LinuxCgroupGateIdentity.Validate gate) with Errorf "Linux cgroup gate identity is invalid" ;;
  Ok tt.

Definition bindLinuxCgroupGate (expected : LinuxCgroupReservation.t) (gate : LinuxCgroupGateIdentity.t)
    (journal : RunJournal.t) : result RunJournal.t :=
  reject negb (some_and expected.(LinuxCgroupReservation.LeafIdentity) (fun leaf =>
           LinuxCgroupIdentity.Equal gate.(LinuxCgroupGateIdentity.Cgroup) leaf)) ||
         is_nil expected.(LinuxCgroupReservation.Helper) || is_nil expected.(LinuxCgroupReservation.LauncherExit) ||
         non_nil expected.(LinuxCgroupReservation.Gate) || committed journal
    with Errorf "Linux cgroup gate bind is out of order" ;;
  stageCgroup expected (expected <| LinuxCgroupReservation.Gate := Some gate |>) journal.

Definition BindLinuxCgroupGate (fs : io) (store : Store) (key : RunKey.t) (expected : LinuxCgroupReservation.t)
    (gate : LinuxCgroupGateIdentity.t) : Store * result RunJournal.t :=
  checked store (gateArguments expected gate)
    (mutateJournal fs store key (bindLinuxCgroupGate expected gate)).

Definition recordLinuxCgroupHelperExit (expected : LinuxCgroupReservation.t) (proof : LinuxCgroupExitProof.t)
    (journal : RunJournal.t) : result RunJournal.t :=
  reject some_and journal.(ContainmentHandoff) (fun handoff => non_nil handoff.(SupervisorHandoff.StopReceipt)) ||
         some_and journal.(ContainmentAuthority) (fun value => non_nil value.(Supervisor.StopReceipt))
    with Errorf "Linux cgroup helper exit cannot follow a durable stop receipt" ;;
  reject negb (some_and expected.(LinuxCgroupReservation.Helper) (fun helper =>
           LinuxCgroupExitProof.ValidFor proof helper expected.(LinuxCgroupReservation.Anchor))) ||
         non_nil expected.(LinuxCgroupReservation.HelperExit)
    with Errorf "Linux cgroup helper exit proof does not match producer" ;;
  stageCgroup expected (expected <| LinuxCgroupReservation.HelperExit := Some proof |>) journal.

Definition RecordLinuxCgroupHelperExit (fs : io) (store : Store) (key : RunKey.t) (expected : LinuxCgroupReservation.t)
    (proof : LinuxCgroupExitProof.t) : Store * result RunJournal.t :=
  checked store (exitArguments expected proof)
    (mutateJournal fs store key (recordLinuxCgroupHelperExit expected proof)).

(** *** Ending before the gate *)

Definition noOwner (journal : RunJournal.t) : bool :=
  is_nil journal.(ContainmentAuthority) && is_nil journal.(ContainmentHandoff) && is_nil journal.(ContainmentScans) &&
  negb (HasProcessDetails journal) && negb journal.(ContainmentUnproven).

Definition applyLinuxCgroupReservationAbort (expected : LinuxCgroupReservation.t)
    (proof : LinuxCgroupReservationAbortProof.t) (journal : RunJournal.t) : result RunJournal.t :=
  match journal.(ContainmentCgroup) with
  | None => Err (Errorf "Linux cgroup reservation abort compare-and-set mismatch")
  | Some current =>
      match current.(LinuxCgroupReservation.AbortProof) with
      | Some recorded =>
          if LinuxCgroupReservation.Equal (current <| LinuxCgroupReservation.AbortProof := None |>) expected &&
             LinuxCgroupReservationAbortProof.Equal recorded proof && noOwner journal
          then Ok journal
          else Err (Errorf "Linux cgroup reservation abort replay conflicts with journal")
      | None =>
          reject negb (LinuxCgroupReservation.Equal current expected) || negb (noOwner journal)
            with Errorf "Linux cgroup reservation abort compare-and-set mismatch" ;;
          reject negb (LinuxCgroupReservation.AbortMatches current proof)
            with Errorf "Linux cgroup reservation abort has a live or unidentified producer" ;;
          Ok (journal <| ContainmentCgroup := Some (current <| LinuxCgroupReservation.AbortProof := Some proof |>) |>)
      end
  end.

Definition abortArguments (expected : LinuxCgroupReservation.t) (proof : LinuxCgroupReservationAbortProof.t) : result unit :=
  reject negb (LinuxCgroupReservation.Validate expected) with invalid_reservation ;;
  reject negb (LinuxCgroupReservationAbortProof.Validate proof) with Errorf "Linux cgroup abort proof is invalid" ;;
  reject negb (some_and expected.(LinuxCgroupReservation.Mirror) (fun mirror =>
           LinuxCgroupReservationAbortProof.ValidFor proof expected.(LinuxCgroupReservation.LaunchToken)
             expected.(LinuxCgroupReservation.Parent) expected.(LinuxCgroupReservation.LeafName)
             expected.(LinuxCgroupReservation.CreateStarted) expected.(LinuxCgroupReservation.OwnerUID)
             expected.(LinuxCgroupReservation.Anchor) mirror expected.(LinuxCgroupReservation.Helper)
             expected.(LinuxCgroupReservation.Launcher))) ||
         non_nil expected.(LinuxCgroupReservation.AbortProof) ||
         non_nil expected.(LinuxCgroupReservation.PreGateStopReceipt) || non_nil expected.(LinuxCgroupReservation.Gate)
    with Errorf "Linux cgroup reservation abort proof does not match a pre-effect owner" ;;
  Ok tt.

Definition AbortLinuxCgroupReservation (fs : io) (store : Store) (key : RunKey.t) (expected : LinuxCgroupReservation.t)
    (proof : LinuxCgroupReservationAbortProof.t) : Store * result RunJournal.t :=
  checked store (abortArguments expected proof)
    (mutateJournal fs store key (applyLinuxCgroupReservationAbort expected proof)).

(** The tombstone of a reservation whose creation was never started. *)
Definition neverCreatedProof (expected : LinuxCgroupReservation.t) (mirror : LinuxCgroupProcessIdentity.t)
    : LinuxCgroupReservationAbortProof.t :=
  LinuxCgroupReservationAbortProof.mk LinuxCgroupAbortProofVersion expected.(LinuxCgroupReservation.LaunchToken)
    expected.(LinuxCgroupReservation.Parent) expected.(LinuxCgroupReservation.LeafName) false false None "never_created"
    expected.(LinuxCgroupReservation.OwnerUID) expected.(LinuxCgroupReservation.Anchor) mirror None None
    expected.(LinuxCgroupReservation.Anchor) None None true true true false true false false false.

(** The arguments of [AbortNeverCreatedLinuxCgroupReservation]: the proof it
    records, or the error. *)
Definition neverCreatedArguments (expected : LinuxCgroupReservation.t) : result LinuxCgroupReservationAbortProof.t :=
  reject negb (LinuxCgroupReservation.Validate expected) || negb (beforeCreation expected) ||
         non_nil expected.(LinuxCgroupReservation.AbortProof) ||
         non_nil expected.(LinuxCgroupReservation.PreGateStopReceipt) ||
         expected.(LinuxCgroupReservation.LauncherGrantPossible)
    with Errorf "Linux cgroup reservation is not a never-created state" ;;
  match expected.(LinuxCgroupReservation.Mirror) with
  | None => Err (Errorf "Linux cgroup reservation is not a never-created state")
  | Some mirror =>
      let proof := neverCreatedProof expected mirror in
      reject negb (LinuxCgroupReservationAbortProof.Validate proof) ||
             negb (LinuxCgroupReservation.AbortMatches expected proof)
        with Errorf "Linux cgroup never-created tombstone is invalid" ;;
      Ok proof
  end.

Definition abortNeverCreated (fence' : Fence.t) (expected : LinuxCgroupReservation.t)
    (proof : LinuxCgroupReservationAbortProof.t) (journal : RunJournal.t) : result RunJournal.t :=
  reject negb (sameFence (fence journal) fence') || negb (hasClaimGrant journal)
    with Errorf "Linux cgroup never-created abort has a stale RunKey fence" ;;
  applyLinuxCgroupReservationAbort expected proof journal.

Definition AbortNeverCreatedLinuxCgroupReservation (fs : io) (store : Store) (key : RunKey.t) (fence' : Fence.t)
    (expected : LinuxCgroupReservation.t) : Store * result RunJournal.t :=
  match neverCreatedArguments expected with
  | Err e => (store, Err e)
  | Ok proof => mutateJournal fs store key (abortNeverCreated fence' expected proof)
  end.

(** cgroup_release_linux.go *)
Definition preGateArguments (expected : LinuxCgroupReservation.t) (receipt : LinuxCgroupPreGateStopReceipt.t) : result unit :=
  reject negb (LinuxCgroupReservation.Validate expected) with invalid_reservation ;;
  reject negb (LinuxCgroupPreGateStopReceipt.Validate receipt) with Errorf "pre-gate stop receipt is invalid" ;;
  reject non_nil expected.(LinuxCgroupReservation.PreGateStopReceipt) ||
         negb (LinuxCgroupReservation.PreGateReceiptMatches expected receipt)
    with Errorf "pre-gate stop receipt does not match the exact reservation" ;;
  reject negb (VerifyGateNeverProducedAuthenticator expected.(LinuxCgroupReservation.Secret)
                 receipt.(LinuxCgroupPreGateStopReceipt.Proof).(LinuxCgroupPreGateStopProof.GateOutcome))
    with Errorf "pre-gate root launcher outcome authentication failed" ;;
  Ok tt.

Definition recordPreGateStopReceipt (expected : LinuxCgroupReservation.t) (receipt : LinuxCgroupPreGateStopReceipt.t)
    (journal : RunJournal.t) : result RunJournal.t :=
  reject negb (noOwner journal) || is_nil journal.(ContainmentCgroup)
    with Errorf "pre-gate stop receipt has an active or mismatched owner" ;;
  stageCgroup expected (expected <| LinuxCgroupReservation.PreGateStopReceipt := Some receipt |>) journal.

Definition RecordLinuxCgroupPreGateStopReceipt (fs : io) (store : Store) (key : RunKey.t)
    (expected : LinuxCgroupReservation.t) (receipt : LinuxCgroupPreGateStopReceipt.t) : Store * result RunJournal.t :=
  checked store (preGateArguments expected receipt)
    (mutateJournal fs store key (recordPreGateStopReceipt expected receipt)).

(** What the platform issued when it removed a leaf: the release of an
    owner, or of a reservation that never had a gate. Only a removal that
    succeeded makes one. *)
Inductive LinuxCgroupV2Release : Type :=
| NotIssued
| OwnerRelease (proof : SupervisorHandoffReleaseProof.t)
| PreGateRelease (proof : LinuxCgroupPreGateReleaseProof.t).

(** [Snapshot] and [SnapshotPreGate] (linux_cgroup_v2_linux.go) *)
Definition Snapshot (release : LinuxCgroupV2Release) : option SupervisorHandoffReleaseProof.t :=
  match release with
  | OwnerRelease proof => if SupervisorHandoffReleaseProof.Validate proof then Some proof else None
  | _ => None
  end.
Definition SnapshotPreGate (release : LinuxCgroupV2Release) : option LinuxCgroupPreGateReleaseProof.t :=
  match release with
  | PreGateRelease proof => if LinuxCgroupPreGateReleaseProof.Validate proof then Some proof else None
  | _ => None
  end.

Definition clearReservationArguments (expected : LinuxCgroupReservation.t) (release : LinuxCgroupV2Release)
    : result LinuxCgroupPreGateReleaseProof.t :=
  reject negb (LinuxCgroupReservation.Validate expected) with invalid_reservation ;;
  match expected.(LinuxCgroupReservation.PreGateStopReceipt) with
  | None => Err (Errorf "pre-gate reservation has no exact durable stop receipt")
  | Some receipt =>
      reject negb (LinuxCgroupReservation.PreGateReceiptMatches expected receipt)
        with Errorf "pre-gate reservation has no exact durable stop receipt" ;;
      match SnapshotPreGate release with
      | None => Err (Errorf "platform has not issued a pre-gate cgroup release")
      | Some proof =>
          reject negb (LinuxCgroupPreGateReleaseProof.Validate proof) with Errorf "pre-gate release proof is invalid" ;;
          reject negb (LinuxCgroupPreGateReleaseProof.ValidFor proof receipt)
            with Errorf "pre-gate platform release does not match its durable stop receipt" ;;
          Ok proof
      end
  end.

Definition clearLinuxCgroupReservation (expected : LinuxCgroupReservation.t) (proof : LinuxCgroupPreGateReleaseProof.t)
    (journal : RunJournal.t) : result RunJournal.t :=
  match journal.(ContainmentCgroup) with
  | None =>
      if some_and journal.(ContainmentCgroupPreGateReleaseProof) (fun recorded =>
           LinuxCgroupPreGateReleaseProof.Equal recorded proof) &&
         is_nil journal.(ContainmentCgroupReleaseProof) && noOwner journal && (journal.(PID) =? 0)
      then Ok journal
      else Err (Errorf "pre-gate cgroup reservation is not pending")
  | Some current =>
      reject negb (LinuxCgroupReservation.Equal current expected) || negb (noOwner journal) ||
             negb (journal.(PID) =? 0) || non_nil journal.(ContainmentCgroupReleaseProof) ||
             non_nil journal.(ContainmentCgroupPreGateReleaseProof) ||
             negb (some_and current.(LinuxCgroupReservation.PreGateStopReceipt) (fun receipt =>
               some_and expected.(LinuxCgroupReservation.PreGateStopReceipt) (fun wanted =>
                 LinuxCgroupPreGateStopReceipt.Equal receipt wanted) &&
               LinuxCgroupReservation.PreGateReceiptMatches current receipt))
        with Errorf "pre-gate reservation release compare-and-set mismatch" ;;
      Ok (journal <| ContainmentCgroup := None |> <| ContainmentCgroupPreGateReleaseProof := Some proof |>)
  end.

Definition ClearLinuxCgroupReservationV2 (fs : io) (store : Store) (key : RunKey.t) (expected : LinuxCgroupReservation.t)
    (release : LinuxCgroupV2Release) : Store * result RunJournal.t :=
  match clearReservationArguments expected release with
  | Err e => (store, Err e)
  | Ok proof => mutateJournal fs store key (clearLinuxCgroupReservation expected proof)
  end.
End Stages.
