(* ===== verification/Containment.v ===== *)
(** * Containment: process markers, supervisor handoffs and stop receipts

    src/daemon/internal/state/state.go (2100-2318, 2764-3611) and
    cgroup_release_linux.go. A native process is registered either directly
    (v1) or through a handoff that is prepared, bound to its helper and then
    committed into a process marker with its authority. A marker leaves the
    journal only with evidence that the process stopped. Each operation is a
    check of its arguments, a callback on the loaded journal, and the method
    that runs both. *)

From S2P Require Import Prelude Sha256 Json Authority Protocol Journal Validation Store Cgroup.
Import RunJournal.
Open Scope string_scope.
Open Scope Z_scope.

(** ** Process markers *)

Definition processDetailsArguments (pid : Z) (identity : string) (startedAt : time) : result unit :=
  reject (pid <=? 0) || negb (validRequiredString identity 4096) || IsZero startedAt
    with Errorf "process details are invalid" ;;
  Ok tt.

(** The run must not be fenced, cloned or contained by a cgroup. *)
Definition launchFence (journal : RunJournal.t) : result unit :=
  reject journal.(LinuxCloneAbortPending) || non_nil journal.(LinuxCloneAbortProof)
    with Errorf "process launch is fenced by Linux clone abort" ;;
  reject non_nil journal.(LinuxCloneIntent) with Errorf "Linux clone run requires v2 cgroup process registration" ;;
  Ok tt.

Definition registrationFence (journal : RunJournal.t) : result unit :=
  reject non_nil journal.(ContainmentCgroup) with Errorf "process details require v2 cgroup handoff mutation" ;;
  reject non_nil journal.(ContainmentCgroupReleaseProof)
    with Errorf "process details cannot be recreated after v2 containment release" ;;
  reject non_nil journal.(ContainmentCgroupPreGateReleaseProof)
    with Errorf "process details cannot be recreated after v2 pre-gate release" ;;
  Ok tt.

Definition handoffFence (journal : RunJournal.t) : result unit :=
  reject non_nil journal.(ContainmentHandoff) with Errorf "process details require supervisor handoff mutation" ;; Ok tt.

Definition sameMarker (journal : RunJournal.t) (pid : Z) (identity : string) : bool :=
  (journal.(PID) =? pid) && (journal.(ProcessIdentity) =s identity).

Definition with_marker (journal : RunJournal.t) (pid : Z) (identity : string) (startedAt : time) : RunJournal.t :=
  journal <| PID := pid |> <| ProcessIdentity := identity |> <| StartedAt := startedAt |>.

(** The marker itself: written once, or found unchanged. *)
Definition registerProcess (pid : Z) (identity : string) (startedAt : time) (journal : RunJournal.t) : result RunJournal.t :=
  reject journal.(LocalState) =s "cleanup_pending" with Errorf "cannot register process details during cleanup" ;;
  if HasProcessDetails journal then
    reject negb (sameMarker journal pid identity) with Errorf "process details cannot replace an uncleared owner" ;;
    Ok journal
  else Ok (with_marker journal pid identity startedAt).

Definition setProcessDetails (pid : Z) (identity : string) (startedAt : time) (journal : RunJournal.t)
    : result RunJournal.t :=
  reject negb (hasClaimGrant journal) with Errorf "journal has no claim grant" ;;
  check launchFence journal ;;
  check registrationFence journal ;;
  check handoffFence journal ;;
  registerProcess pid identity startedAt journal.

(** A retry after a stop-receipt write keeps the recorded authority. *)
Definition retainedAuthority (current value : Supervisor.t) : bool :=
  Supervisor.Equal current value ||
  Supervisor.Equal (current <| Supervisor.StopReceipt := None |>) (value <| Supervisor.StopReceipt := None |>) &&
  non_nil current.(Supervisor.StopReceipt) && is_nil value.(Supervisor.StopReceipt).

Definition bindAuthority (value : Supervisor.t) (journal : RunJournal.t) : result RunJournal.t :=
  match journal.(ContainmentAuthority) with
  | Some current =>
      reject negb (retainedAuthority current value)
        with Errorf "containment authority cannot replace an uncleared owner" ;;
      Ok journal
  | None => Ok (journal <| ContainmentAuthority := Some value |>)
  end.

Definition v1AuthorityArguments (pid : Z) (identity : string) (value : Supervisor.t) : result unit :=
  reject negb (Supervisor.Validate value) with Errorf "supervisor authority is invalid" ;;
  reject value.(Supervisor.Version) =? SupervisorVersionV2
    with Errorf "v2 containment authority requires supervisor handoff commit" ;;
  reject negb (value.(Supervisor.TargetPID) =? pid) || (value.(Supervisor.TargetIdentity) <>s identity)
    with Errorf "containment authority target does not match process details" ;;
  Ok tt.

Definition withAuthorityArguments (pid : Z) (identity : string) (startedAt : time) (value : Supervisor.t) : result unit :=
  check processDetailsArguments pid identity startedAt ;;
  v1AuthorityArguments pid identity value.

Definition setProcessDetailsWithAuthority (pid : Z) (identity : string) (startedAt : time) (value : Supervisor.t)
    (journal : RunJournal.t) : result RunJournal.t :=
  reject negb (hasClaimGrant journal) with Errorf "journal has no claim grant" ;;
  check launchFence journal ;;
  check handoffFence journal ;;
  check registrationFence journal ;;
  try journal <- registerProcess pid identity startedAt journal ;;
  bindAuthority value journal.

Definition setAuthorityArguments (pid : Z) (identity : string) (value : Supervisor.t) : result unit :=
  reject (pid <=? 0) || blank identity with Errorf "process details are invalid" ;;
  v1AuthorityArguments pid identity value.

Definition setContainmentAuthority (pid : Z) (identity : string) (value : Supervisor.t) (journal : RunJournal.t)
    : result RunJournal.t :=
  check launchFence journal ;;
  reject non_nil journal.(ContainmentCgroup) with Errorf "v2 containment authority requires supervisor handoff commit" ;;
  reject non_nil journal.(ContainmentCgroupReleaseProof)
    with Errorf "v2 containment authority cannot be recreated after release" ;;
  reject non_nil journal.(ContainmentCgroupPreGateReleaseProof)
    with Errorf "v2 pre-gate containment authority cannot be recreated after release" ;;
  reject non_nil journal.(ContainmentHandoff) with Errorf "containment authority requires supervisor handoff mutation" ;;
  reject negb (sameMarker journal pid identity) || IsZero journal.(StartedAt)
    with Errorf "containment authority requires a persisted process marker" ;;
  bindAuthority value journal.

Definition markerArguments (pid : Z) (identity : string) : result unit :=
  reject (pid <=? 0) || negb (validRequiredString identity 4096) with Errorf "process details are invalid" ;; Ok tt.

Definition markContainmentUnproven (pid : Z) (identity : string) (journal : RunJournal.t) : result RunJournal.t :=
  reject negb (sameMarker journal pid identity) || negb (HasProcessDetails journal)
    with Errorf "containment uncertainty requires the exact process marker" ;;
  Ok (journal <| ContainmentUnproven := true |>).

Definition clearContainmentUnproven (pid : Z) (identity : string) (journal : RunJournal.t) : result RunJournal.t :=
  reject non_nil journal.(ContainmentCgroup)
    with Errorf "v2 containment uncertainty clears only with an exact stop receipt" ;;
  if negb (HasProcessDetails journal) then Ok journal else
  reject negb (sameMarker journal pid identity)
    with Errorf "persisted process details changed during containment proof" ;;
  reject negb (none_or journal.(ContainmentScans) ContainmentScanJournal.clean)
    with Errorf "containment scan uncertainty is sticky" ;;
  reject some_and journal.(ContainmentAuthority) (fun value => value.(Supervisor.OwnerKind) =s OwnerKindLinuxHelper) &&
         is_nil journal.(ContainmentScans) with Errorf "Linux containment scan fence is missing" ;;
  Ok (journal <| ContainmentUnproven := false |>).

Definition clearProcessDetails (pid : Z) (identity : string) (journal : RunJournal.t) : result RunJournal.t :=
  reject non_nil journal.(ContainmentCgroup) ||
         some_and journal.(ContainmentAuthority) (fun value => value.(Supervisor.Version) =? SupervisorVersionV2)
    with Errorf "v2 process details require ClearProcessDetailsV2" ;;
  reject non_nil journal.(ContainmentHandoff) with Errorf "process details require supervisor handoff mutation" ;;
  if negb (HasProcessDetails journal) then Ok journal else
  reject negb (sameMarker journal pid identity) with Errorf "persisted process details changed during termination" ;;
  reject journal.(ContainmentUnproven) with Errorf "containment stop proof is unresolved" ;;
  check (match journal.(ContainmentAuthority) with
         | None => Ok tt
         | Some value =>
             check requireLinuxScansSealedForAuthority journal value ;;
             reject negb (some_and value.(Supervisor.StopReceipt) (fun receipt => Supervisor.ReceiptValidFor receipt value))
               with Errorf "containment stop receipt is required before clearing process details" ;;
             Ok tt
         end) ;;
  Ok ((with_marker journal 0 "" 0) <| ContainmentAuthority := None |> <| ContainmentScans := None |>).

(** ** Preparing and binding a handoff *)

Definition prepareV1Handoff (handoff : SupervisorHandoff.t) (journal : RunJournal.t) : result RunJournal.t :=
  reject negb (hasClaimGrant journal) with Errorf "journal has no claim grant" ;;
  reject non_nil journal.(LinuxCloneIntent) with Errorf "Linux clone run requires v2 cgroup supervisor handoff" ;;
  reject journal.(LinuxCloneAbortPending) || non_nil journal.(LinuxCloneAbortProof)
    with Errorf "supervisor handoff is fenced by Linux clone abort" ;;
  reject journal.(LocalState) =s "cleanup_pending" with Errorf "cannot prepare supervisor handoff during cleanup" ;;
  reject HasProcessDetails journal || non_nil journal.(ContainmentAuthority)
    with Errorf "supervisor handoff conflicts with committed containment" ;;
  reject non_nil journal.(ContainmentCgroupReleaseProof)
    with Errorf "supervisor handoff cannot be recreated after v2 containment release" ;;
  reject non_nil journal.(ContainmentCgroupPreGateReleaseProof)
    with Errorf "supervisor handoff cannot be recreated after v2 pre-gate release" ;;
  match journal.(ContainmentHandoff) with
  | None => Ok (journal <| ContainmentHandoff := Some handoff |>)
  | Some current =>
      reject negb (SupervisorHandoff.SameLaunch current handoff) with Errorf "supervisor handoff conflicts with journal" ;;
      reject negb (current.(SupervisorHandoff.SupervisorPID) =? 0) && negb (handoff.(SupervisorHandoff.SupervisorPID) =? 0) &&
             (negb (current.(SupervisorHandoff.SupervisorPID) =? handoff.(SupervisorHandoff.SupervisorPID)) ||
              (current.(SupervisorHandoff.SupervisorIdentity) <>s handoff.(SupervisorHandoff.SupervisorIdentity)))
        with Errorf "supervisor handoff helper identity conflicts with journal" ;;
      reject (current.(SupervisorHandoff.SupervisorPID) =? 0) && negb (handoff.(SupervisorHandoff.SupervisorPID) =? 0)
        with Errorf "supervisor handoff helper identity requires dedicated bind" ;;
      Ok journal
  end.

(** [prepareLinuxCgroupSupervisorHandoff] *)
Definition unboundV2 (handoff : SupervisorHandoff.t) : bool :=
  (handoff.(SupervisorHandoff.Version) =? SupervisorHandoffVersionV2) && (handoff.(SupervisorHandoff.SupervisorPID) =? 0) &&
  (handoff.(SupervisorHandoff.SupervisorIdentity) =s "") && is_nil handoff.(SupervisorHandoff.Mirror) &&
  is_nil handoff.(SupervisorHandoff.StopReceipt).

Definition prepareV2Handoff (handoff : SupervisorHandoff.t) (journal : RunJournal.t) : result RunJournal.t :=
  reject negb (hasClaimGrant journal) || (journal.(LocalState) =s "cleanup_pending") || HasProcessDetails journal ||
         journal.(LinuxCloneAbortPending) || non_nil journal.(LinuxCloneAbortProof) ||
         non_nil journal.(ContainmentAuthority) || non_nil journal.(ContainmentScans) || journal.(ContainmentUnproven) ||
         non_nil journal.(ContainmentCgroupReleaseProof) || non_nil journal.(ContainmentCgroupPreGateReleaseProof)
    with Errorf "Linux cgroup supervisor handoff conflicts with journal" ;;
  reject negb (some_and journal.(ContainmentCgroup) (fun reservation =>
           linuxCgroupReservationMatchesHandoff reservation handoff false))
    with Errorf "Linux cgroup supervisor handoff does not match a complete leaf reservation" ;;
  match journal.(ContainmentHandoff) with
  | None => Ok (journal <| ContainmentHandoff := Some handoff |>)
  | Some current =>
      reject negb (SupervisorHandoff.Equal current handoff) || non_nil current.(SupervisorHandoff.StopReceipt) ||
             negb (some_and journal.(ContainmentCgroup) (fun reservation =>
               linuxCgroupReservationMatchesHandoff reservation current (0 <? current.(SupervisorHandoff.SupervisorPID))))
        with Errorf "Linux cgroup supervisor handoff conflicts with journal" ;;
      Ok journal
  end.

(** The effect of one scan phase on the progress of its owner; the flag is
    set by a failed scan. *)
Definition scanStep (update : SupervisorScanUpdate.t) (unproven : bool) (scans : ContainmentScanJournal.t)
    (progress : ContainmentScanProgress.t) : result (ContainmentScanProgress.t * bool) :=
  let sequence := update.(SupervisorScanUpdate.Sequence) in
  let phase := update.(SupervisorScanUpdate.Phase) in
  let failure := update.(SupervisorScanUpdate.FailureKind) in
  let pending := progress.(ContainmentScanProgress.PendingSequence) in
  let clean := progress.(ContainmentScanProgress.CleanResultSequence) in
  let completed := progress.(ContainmentScanProgress.CompletedSequence) in
  let sealed := progress.(ContainmentScanProgress.SealedSequence) in
  let failed := progress.(ContainmentScanProgress.UnprovenSequence) in
  let idle := (pending =? 0) && (clean =? 0) && (completed =? sequence) in
  if phase =s "begin" then
    reject negb (sealed =? 0) || negb (failed =? 0) || negb (pending =? 0) && negb (pending =? sequence)
      with Errorf "supervisor scan begin conflicts with unresolved sequence" ;;
    if pending =? sequence then
      reject negb (clean =? 0) with Errorf "supervisor scan is awaiting fence retirement" ;;
      Ok (progress, unproven)
    else
      reject (completed =? maxUint64) || negb (sequence =? wrapu64 (completed + 1))
        with Errorf "supervisor scan begin sequence is stale or out of order" ;;
      Ok (progress <| ContainmentScanProgress.PendingSequence := sequence |>, unproven)
  else if phase =s "clean" then
    reject negb (sealed =? 0) || negb (failed =? 0) || unproven
      with Errorf "supervisor scan cannot clear unresolved observation" ;;
    if pending =? sequence then
      reject negb (clean =? 0) && negb (clean =? sequence)
        with Errorf "supervisor clean scan result conflicts with pending sequence" ;;
      Ok (progress <| ContainmentScanProgress.CleanResultSequence := sequence |>, unproven)
    else if idle then Ok (progress, unproven)
    else Err (Errorf "supervisor clean scan sequence is not pending")
  else if phase =s "retire" then
    reject negb (sealed =? 0) || negb (failed =? 0) || unproven
      with Errorf "supervisor scan fence cannot retire unresolved observation" ;;
    if (pending =? sequence) && (clean =? sequence) then
      Ok (progress <| ContainmentScanProgress.PendingSequence := 0 |>
                   <| ContainmentScanProgress.CleanResultSequence := 0 |>
                   <| ContainmentScanProgress.CompletedSequence := sequence |>, unproven)
    else if idle then Ok (progress, unproven)
    else Err (Errorf "supervisor scan result is not durably ready for retirement")
  else if phase =s "seal" then
    if (sealed =? sequence) && ContainmentScanProgress.sealed progress then Ok (progress, unproven)
    else
      reject negb (sealed =? 0) || negb (pending =? 0) || negb (clean =? 0) || negb (failed =? 0) || unproven ||
             (completed =? 0) || negb (completed =? sequence) || (progress.(ContainmentScanProgress.FailureKind) <>s "")
        with Errorf "supervisor scan seal does not match a final clean sequence" ;;
      Ok (progress <| ContainmentScanProgress.SealedSequence := sequence |>, unproven)
  else if phase =s "unproven" then
    if (failed =? sequence) && (progress.(ContainmentScanProgress.FailureKind) =s failure) then Ok (progress, unproven)
    else
      let preScanBeginFailure :=
        (failure =s "pre_scan_ack_failure") && (pending =? 0) && (clean =? 0) && (sealed =? 0) &&
        negb (completed =? maxUint64) && (sequence =? wrapu64 (completed + 1)) in
      let cleanRetireFailure :=
        (pending =? 0) && (completed =? sequence) && (failure =s "clean_retire_ack_failure") in
      reject negb (sealed =? 0) || negb (failed =? 0) ||
             negb (pending =? sequence) && negb cleanRetireFailure && negb preScanBeginFailure
        with Errorf "supervisor unproven scan sequence is not pending" ;;
      Ok (progress <| ContainmentScanProgress.PendingSequence := 0 |>
                   <| ContainmentScanProgress.CleanResultSequence := 0 |>
                   <| ContainmentScanProgress.UnprovenSequence := sequence |>
                   <| ContainmentScanProgress.FailureKind := failure |>, true)
  else if phase =s "assert_clean" then
    reject negb (sequence =? completed) || unproven || negb (ContainmentScanJournal.clean scans)
      with Errorf "Linux containment scan evidence is unresolved" ;;
    Ok (progress, unproven)
  else if phase =s "assert_sealed" then
    reject negb (sequence =? sealed) || unproven || negb (ContainmentScanProgress.sealed progress)
      with Errorf "Linux containment scan owner seal is unresolved" ;;
    Ok (progress, unproven)
  else if phase =s "assert_all_sealed" then
    reject negb (sequence =? sealed) || unproven || negb (ContainmentScanJournal.sealed scans)
      with Errorf "Linux containment scan seals are unresolved" ;;
    Ok (progress, unproven)
  else Err (Errorf "supervisor scan update phase is invalid").

(** The handoff or authority a scan update speaks for. *)
Definition scanOwnerActive (expected : SupervisorHandoff.t) (journal : RunJournal.t) : result unit :=
  match journal.(ContainmentHandoff) with
  | Some current =>
      reject non_nil current.(SupervisorHandoff.StopReceipt) || negb (SupervisorHandoff.Equal current expected)
        with Errorf "supervisor scan update handoff identity mismatch" ;;
      Ok tt
  | None =>
      match SupervisorHandoff.ToSupervisor expected with
      | None => Err (Errorf "supervisor handoff is not complete")
      | Some value =>
          match journal.(ContainmentAuthority) with
          | None => Err (Errorf "supervisor scan update has no active containment authority")
          | Some current =>
              reject non_nil current.(Supervisor.StopReceipt) ||
                     negb (sameMarker journal value.(Supervisor.TargetPID) value.(Supervisor.TargetIdentity))
                with Errorf "supervisor scan update has no active containment authority" ;;
              reject negb (Supervisor.Equal (current <| Supervisor.StopReceipt := None |>) value)
                with Errorf "supervisor scan update authority identity mismatch" ;;
              Ok tt
          end
      end
  end.

Definition recordSupervisorScanUpdate (request : SupervisorHandoff.t) (update : SupervisorScanUpdate.t)
    (journal : RunJournal.t) : result RunJournal.t :=
  let expected :=
    request <| SupervisorHandoff.ScanUpdate := None |>
            <| SupervisorHandoff.SupervisorPID := update.(SupervisorScanUpdate.SupervisorPID) |>
            <| SupervisorHandoff.SupervisorIdentity := update.(SupervisorScanUpdate.SupervisorIdentity) |> in
  reject journal.(LocalState) =s "cleanup_pending"
    with Errorf "Linux containment scan update arrived during cleanup" ;;
  reject journal.(ContainmentUnproven) && (update.(SupervisorScanUpdate.Phase) <>s "unproven")
    with Errorf "Linux containment observation is already unresolved" ;;
  check scanOwnerActive expected journal ;;
  match journal.(ContainmentScans) with
  | None => Err (Errorf "supervisor scan update fence is missing or mismatched")
  | Some scans =>
      reject negb (ContainmentScanJournal.matchesHandoff scans expected) ||
             (scans.(ContainmentScanJournal.MirrorIdentity) <>s update.(SupervisorScanUpdate.MirrorIdentity))
        with Errorf "supervisor scan update fence is missing or mismatched" ;;
      if update.(SupervisorScanUpdate.Owner) =s "mirror" then
        try next <- scanStep update journal.(ContainmentUnproven) scans scans.(ContainmentScanJournal.Mirror) ;;
        Ok (journal <| ContainmentScans := Some (scans <| ContainmentScanJournal.Mirror := next.1 |>) |>
                    <| ContainmentUnproven := next.2 |>)
      else
        try next <- scanStep update journal.(ContainmentUnproven) scans scans.(ContainmentScanJournal.Helper) ;;
        Ok (journal <| ContainmentScans := Some (scans <| ContainmentScanJournal.Helper := next.1 |>) |>
                    <| ContainmentUnproven := next.2 |>)
  end.

Definition prepareHandoffArguments (handoff : SupervisorHandoff.t) : result unit :=
  reject negb (SupervisorHandoff.Validate handoff) with Errorf "supervisor handoff is invalid" ;;
  if handoff.(SupervisorHandoff.Version) =? SupervisorHandoffVersionV2 then
    reject negb (unboundV2 handoff) with Errorf "Linux cgroup supervisor handoff prepare value is invalid" ;; Ok tt
  else
    reject is_nil handoff.(SupervisorHandoff.ScanUpdate) && non_nil handoff.(SupervisorHandoff.StopReceipt)
      with Errorf "supervisor handoff stop receipt requires dedicated mutation" ;;
    Ok tt.

Definition prepareSupervisorHandoff (handoff : SupervisorHandoff.t) (journal : RunJournal.t) : result RunJournal.t :=
  if handoff.(SupervisorHandoff.Version) =? SupervisorHandoffVersionV2 then prepareV2Handoff handoff journal
  else match handoff.(SupervisorHandoff.ScanUpdate) with
       | Some update => recordSupervisorScanUpdate handoff update journal
       | None => prepareV1Handoff handoff journal
       end.

Definition bindV2Arguments (expected : SupervisorHandoff.t) (helper mirror : LinuxCgroupProcessIdentity.t) : result unit :=
  reject negb (SupervisorHandoff.Validate expected) with Errorf "supervisor handoff is invalid" ;;
  reject negb (unboundV2 expected) with Errorf "Linux cgroup supervisor bind expected value is invalid" ;;
  reject negb (LinuxCgroupProcessIdentity.Validate helper) || negb (LinuxCgroupProcessIdentity.Validate mirror)
    with Errorf "Linux cgroup process identity is invalid" ;;
  Ok tt.

Definition bindSupervisorHandoffV2 (expected : SupervisorHandoff.t) (helper mirror : LinuxCgroupProcessIdentity.t)
    (journal : RunJournal.t) : result RunJournal.t :=
  let after :=
    expected <| SupervisorHandoff.SupervisorPID := helper.(LinuxCgroupProcessIdentity.PID) |>
             <| SupervisorHandoff.SupervisorIdentity := helper.(LinuxCgroupProcessIdentity.Identity) |>
             <| SupervisorHandoff.Mirror := Some mirror |> in
  reject negb (hasClaimGrant journal) || (journal.(LocalState) =s "cleanup_pending") ||
         non_nil journal.(ContainmentScans) || non_nil journal.(ContainmentAuthority) || HasProcessDetails journal ||
         journal.(ContainmentUnproven) ||
         negb (some_and journal.(ContainmentCgroup) (fun reservation =>
           some_and reservation.(LinuxCgroupReservation.Helper) (fun h => LinuxCgroupProcessIdentity.Equal h helper) &&
           non_nil reservation.(LinuxCgroupReservation.Gate) &&
           some_and reservation.(LinuxCgroupReservation.Mirror) (fun m => LinuxCgroupProcessIdentity.Equal m mirror)))
    with Errorf "Linux cgroup supervisor bind has no matching producer reservation" ;;
  match journal.(ContainmentHandoff) with
  | None => Err (Errorf "Linux cgroup supervisor handoff compare-and-set mismatch")
  | Some current =>
      reject negb (SupervisorHandoff.SameLaunch current expected) || non_nil current.(SupervisorHandoff.StopReceipt)
        with Errorf "Linux cgroup supervisor handoff compare-and-set mismatch" ;;
      if SupervisorHandoff.Equal current after then Ok journal
      else
        reject negb (SupervisorHandoff.Equal current expected)
          with Errorf "Linux cgroup supervisor handoff compare-and-set mismatch" ;;
        Ok (journal <| ContainmentHandoff := Some after |>)
  end.

Definition bindArguments (expected : SupervisorHandoff.t) (pid : Z) (identity : string) : result unit :=
  reject negb (SupervisorHandoff.Validate expected) with Errorf "supervisor handoff is invalid" ;;
  reject expected.(SupervisorHandoff.Version) =? SupervisorHandoffVersionV2
    with Errorf "v2 handoff requires BindSupervisorHandoffV2" ;;
  check (if expected.(SupervisorHandoff.OwnerKind) =s OwnerKindLinuxHelper then
           reject negb (some_and expected.(SupervisorHandoff.ScanUpdate) (fun update =>
                    (update.(SupervisorScanUpdate.Phase) =s "initialize") &&
                    (update.(SupervisorScanUpdate.Owner) =s "mirror") && (update.(SupervisorScanUpdate.Sequence) =? 1) &&
                    (update.(SupervisorScanUpdate.MirrorIdentity) <>s "")))
             with Errorf "Linux supervisor bind requires an exact mirror scan identity" ;; Ok tt
         else
           reject non_nil expected.(SupervisorHandoff.ScanUpdate)
             with Errorf "non-Linux supervisor bind cannot carry scan state" ;; Ok tt) ;;
  reject (pid <=? 0) || negb (validRequiredString identity 4096)
    with Errorf "supervisor handoff helper identity is invalid" ;;
  reject non_nil expected.(SupervisorHandoff.StopReceipt)
    with Errorf "supervisor handoff helper cannot be rebound after stop receipt" ;;
  Ok tt.

(** The scan ledger a Linux helper was bound with. *)
Definition boundScans (journal : RunJournal.t) (current : SupervisorHandoff.t) (mirrorIdentity : string) : bool :=
  (current.(SupervisorHandoff.OwnerKind) <>s OwnerKindLinuxHelper) ||
  some_and journal.(ContainmentScans) (fun scans =>
    ContainmentScanJournal.matchesHandoff scans current &&
    (scans.(ContainmentScanJournal.MirrorIdentity) =s mirrorIdentity)).

Definition firstScan : ContainmentScanProgress.t := ContainmentScanProgress.mk 1 0 0 0 0 "".

Definition bindSupervisorHandoff (expected : SupervisorHandoff.t) (pid : Z) (identity : string) (journal : RunJournal.t)
    : result RunJournal.t :=
  let mirrorIdentity :=
    match expected.(SupervisorHandoff.ScanUpdate) with
    | Some update => update.(SupervisorScanUpdate.MirrorIdentity) | None => "" end in
  let base := expected <| SupervisorHandoff.ScanUpdate := None |> in
  match journal.(ContainmentHandoff) with
  | None => Err (Errorf "supervisor handoff is not pending")
  | Some current =>
      let same := (current.(SupervisorHandoff.SupervisorPID) =? pid) &&
                  (current.(SupervisorHandoff.SupervisorIdentity) =s identity) in
      if negb (SupervisorHandoff.Equal current base) then
        if (base.(SupervisorHandoff.SupervisorPID) =? 0) && (base.(SupervisorHandoff.SupervisorIdentity) =s "") &&
           is_nil base.(SupervisorHandoff.StopReceipt) && SupervisorHandoff.SameLaunch current base && same &&
           is_nil current.(SupervisorHandoff.StopReceipt)
        then
          reject negb (boundScans journal current mirrorIdentity)
            with Errorf "Linux supervisor bind scan identity conflicts with journal" ;;
          Ok journal
        else Err (Errorf "supervisor handoff compare-and-set mismatch")
      else if negb (current.(SupervisorHandoff.SupervisorPID) =? 0) ||
              (current.(SupervisorHandoff.SupervisorIdentity) <>s "") then
        reject negb same with Errorf "supervisor handoff helper identity conflicts with journal" ;;
        reject negb (boundScans journal current mirrorIdentity)
          with Errorf "Linux supervisor handoff scan fence is missing or mismatched" ;;
        Ok journal
      else
        let bound := current <| SupervisorHandoff.SupervisorPID := pid |>
                             <| SupervisorHandoff.SupervisorIdentity := identity |> in
        if current.(SupervisorHandoff.OwnerKind) =s OwnerKindLinuxHelper then
          reject journal.(ContainmentUnproven) || non_nil journal.(ContainmentScans)
            with Errorf "Linux supervisor handoff cannot bind over unresolved scan state" ;;
          let scans := ContainmentScanJournal.mk 1 current.(SupervisorHandoff.LaunchToken)
            current.(SupervisorHandoff.TargetPID) current.(SupervisorHandoff.TargetIdentity) pid identity mirrorIdentity
            firstScan firstScan in
          Ok (journal <| ContainmentScans := Some scans |> <| ContainmentHandoff := Some bound |>)
        else Ok (journal <| ContainmentHandoff := Some bound |>)
  end.

(** ** Committing a handoff *)

(** The arguments of [CommitSupervisorHandoff]: the authority to commit. *)
Definition commitArguments (expected : SupervisorHandoff.t) (startedAt : time) : result Supervisor.t :=
  reject negb (SupervisorHandoff.Validate expected) with Errorf "supervisor handoff is invalid" ;;
  reject non_nil expected.(SupervisorHandoff.StopReceipt) with Errorf "supervisor handoff stop receipt cannot commit" ;;
  reject IsZero startedAt with Errorf "supervisor handoff start time is invalid" ;;
  match SupervisorHandoff.ToSupervisor expected with
  | None => Err (Errorf "supervisor handoff is not complete")
  | Some value => Ok value
  end.

(** A commit whose reply was lost finds the authority already committed. *)
Definition commitReplay (value : Supervisor.t) (startedAt : time) (journal : RunJournal.t) : result RunJournal.t :=
  let v2 := value.(Supervisor.Version) =? SupervisorVersionV2 in
  match journal.(ContainmentAuthority) with
  | None => Err (Errorf "supervisor handoff is not pending")
  | Some current =>
      reject negb (sameMarker journal value.(Supervisor.TargetPID) value.(Supervisor.TargetIdentity)) ||
             IsZero journal.(StartedAt) with Errorf "supervisor handoff is not pending" ;;
      reject v2 && negb (journal.(StartedAt) =? startedAt)
        with Errorf "v2 supervisor handoff commit timestamp changed during replay" ;;
      reject v2 && non_nil current.(Supervisor.StopReceipt)
        with Errorf "v2 handoff commit replay must precede receipt advancement" ;;
      reject negb (Supervisor.Equal (current <| Supervisor.StopReceipt := None |>) (value <| Supervisor.StopReceipt := None |>))
        with Errorf "supervisor handoff is not pending" ;;
      if v2 then
        reject journal.(ContainmentUnproven) ||
               negb (some_and journal.(ContainmentCgroup) (fun reservation =>
                 linuxCgroupReservationMatchesAuthority reservation current))
          with Errorf "v2 committed authority has no matching cgroup reservation" ;;
        Ok journal
      else
        check requireLinuxScansCleanForAuthority journal current ;;
        reject journal.(ContainmentUnproven) with Errorf "Linux supervisor initial scan observation is unresolved" ;;
        Ok journal
  end.

(** The producers of a Linux handoff are fenced before it is committed. *)
Definition initialFences (expected : SupervisorHandoff.t) (value : Supervisor.t) (journal : RunJournal.t) : result unit :=
  if value.(Supervisor.OwnerKind) <>s OwnerKindLinuxHelper then Ok tt
  else if value.(Supervisor.Version) =? SupervisorVersionV2 then
    reject journal.(ContainmentUnproven) || non_nil journal.(ContainmentScans) ||
           negb (some_and journal.(ContainmentCgroup) (fun reservation =>
             is_nil reservation.(LinuxCgroupReservation.HelperExit) &&
             linuxCgroupReservationMatchesHandoff reservation expected true))
      with Errorf "Linux cgroup initial producer fences are unresolved" ;;
    Ok tt
  else
    reject journal.(ContainmentUnproven) ||
           negb (some_and journal.(ContainmentScans) (fun scans =>
             ContainmentScanJournal.matchesHandoff scans expected && ContainmentScanJournal.clean scans))
      with Errorf "Linux supervisor initial scan fences are unresolved" ;;
    Ok tt.

Definition commitSupervisorHandoff (expected : SupervisorHandoff.t) (value : Supervisor.t) (startedAt : time)
    (journal : RunJournal.t) : result RunJournal.t :=
  reject (value.(Supervisor.Version) =? SupervisorVersionV2) &&
         negb (some_and (journal.(ContainmentCgroup) ≫= LinuxCgroupReservation.Gate) (fun gate =>
           LinuxCgroupProcessIdentity.Equal gate.(LinuxCgroupGateIdentity.Process) (Supervisor.targetProcess value) &&
           (startedAt =? gate.(LinuxCgroupGateIdentity.ObservedAt))))
    with Errorf "v2 supervisor handoff commit time must match durable gate observation" ;;
  match journal.(ContainmentHandoff) with
  | None => commitReplay value startedAt journal
  | Some current =>
      reject negb (SupervisorHandoff.Equal current expected) with Errorf "supervisor handoff compare-and-set mismatch" ;;
      reject HasProcessDetails journal || non_nil journal.(ContainmentAuthority)
        with Errorf "supervisor handoff conflicts with committed containment" ;;
      reject negb (hasClaimGrant journal) with Errorf "journal has no claim grant" ;;
      check initialFences expected value journal ;;
      reject journal.(LocalState) =s "cleanup_pending" with Errorf "cannot commit supervisor handoff during cleanup" ;;
      Ok ((with_marker journal value.(Supervisor.TargetPID) value.(Supervisor.TargetIdentity) startedAt)
            <| ContainmentAuthority := Some value |> <| ContainmentHandoff := None |>)
  end.

(** ** Stop receipts *)

(** The authority a complete reservation stands for. *)
Definition reservedAuthority (reservation : LinuxCgroupReservation.t) (helper launcher : LinuxCgroupProcessIdentity.t)
    (gate : LinuxCgroupGateIdentity.t) : Supervisor.t :=
  Supervisor.mk SupervisorVersionV2 reservation.(LinuxCgroupReservation.Secret)
    reservation.(LinuxCgroupReservation.LaunchToken) OwnerKindLinuxHelper
    reservation.(LinuxCgroupReservation.RecoveryEndpoint)
    gate.(LinuxCgroupGateIdentity.Process).(LinuxCgroupProcessIdentity.PID)
    gate.(LinuxCgroupGateIdentity.Process).(LinuxCgroupProcessIdentity.Identity)
    reservation.(LinuxCgroupReservation.OwnerUID) reservation.(LinuxCgroupReservation.LauncherUID)
    reservation.(LinuxCgroupReservation.PipeToken) reservation.(LinuxCgroupReservation.JobID)
    helper.(LinuxCgroupProcessIdentity.PID) helper.(LinuxCgroupProcessIdentity.Identity)
    gate.(LinuxCgroupGateIdentity.BirthKind) reservation.(LinuxCgroupReservation.LeafIdentity)
    reservation.(LinuxCgroupReservation.Anchor).(LinuxCgroupProcessIdentity.PID)
    reservation.(LinuxCgroupReservation.Anchor).(LinuxCgroupProcessIdentity.Identity)
    launcher.(LinuxCgroupProcessIdentity.PID) launcher.(LinuxCgroupProcessIdentity.Identity)
    reservation.(LinuxCgroupReservation.LauncherExit) reservation.(LinuxCgroupReservation.Mirror) None None.

Definition linuxCgroupReceiptMatchesReservation (reservation : LinuxCgroupReservation.t) (receipt : StopReceipt.t) : bool :=
  LinuxCgroupReservation.Validate reservation && is_nil reservation.(LinuxCgroupReservation.AbortProof) &&
  is_nil reservation.(LinuxCgroupReservation.PreGateStopReceipt) &&
  reservation.(LinuxCgroupReservation.LauncherGrantPossible) &&
  non_nil reservation.(LinuxCgroupReservation.LeafIdentity) &&
  non_nil reservation.(LinuxCgroupReservation.LauncherExit) && non_nil reservation.(LinuxCgroupReservation.Mirror) &&
  some_and reservation.(LinuxCgroupReservation.Helper) (fun helper =>
  some_and reservation.(LinuxCgroupReservation.Launcher) (fun launcher =>
  some_and reservation.(LinuxCgroupReservation.Gate) (fun gate =>
    let value := reservedAuthority reservation helper launcher gate in
    Supervisor.Validate value && Supervisor.ReceiptValidFor receipt value &&
    some_and receipt.(StopReceipt.LinuxProof) (fun proof =>
      if proof.(LinuxCgroupStopProof.Kind) =s LinuxCgroupStopProofMirror then
        some_and reservation.(LinuxCgroupReservation.HelperExit) (fun exit =>
          some_and proof.(LinuxCgroupStopProof.HelperExit) (fun proven => LinuxCgroupExitProof.Equal proven exit))
      else (proof.(LinuxCgroupStopProof.Kind) =s LinuxCgroupStopProofHelper) &&
           is_nil reservation.(LinuxCgroupReservation.HelperExit))))).

Definition sameBoundV2Handoff (left right : SupervisorHandoff.t) : bool :=
  (left.(SupervisorHandoff.Version) =? SupervisorHandoffVersionV2) &&
  (right.(SupervisorHandoff.Version) =? SupervisorHandoffVersionV2) && SupervisorHandoff.SameLaunch left right &&
  (left.(SupervisorHandoff.SupervisorPID) =? right.(SupervisorHandoff.SupervisorPID)) &&
  (left.(SupervisorHandoff.SupervisorIdentity) =s right.(SupervisorHandoff.SupervisorIdentity)) &&
  ptr_equal LinuxCgroupProcessIdentity.Equal left.(SupervisorHandoff.Mirror) right.(SupervisorHandoff.Mirror).

(** A receipt is recorded once; the same one again is a replay. *)
Definition witnessOnce (recorded : option StopReceipt.t) (receipt : StopReceipt.t) : result bool :=
  match recorded with
  | Some existing =>
      if StopReceipt.Equal existing receipt then Ok false
      else Err (Errorf "stop receipt cannot replace an existing witness")
  | None => Ok true
  end.

Definition handoffReceipt (current : SupervisorHandoff.t) (receipt : StopReceipt.t) (journal : RunJournal.t)
    : result RunJournal.t :=
  try fresh <- witnessOnce current.(SupervisorHandoff.StopReceipt) receipt ;;
  Ok (if fresh : bool
      then journal <| ContainmentHandoff := Some (current <| SupervisorHandoff.StopReceipt := Some receipt |>) |>
      else journal).

Definition authorityReceipt (current : Supervisor.t) (receipt : StopReceipt.t) (journal : RunJournal.t)
    : result RunJournal.t :=
  try fresh <- witnessOnce current.(Supervisor.StopReceipt) receipt ;;
  Ok (if fresh : bool
      then journal <| ContainmentAuthority := Some (current <| Supervisor.StopReceipt := Some receipt |>) |>
      else journal).

(** A v2 receipt also settles the uncertainty it was requested for. *)
Definition proven (before after : RunJournal.t) (recorded : option StopReceipt.t) : RunJournal.t :=
  if is_nil recorded then after <| ContainmentUnproven := false |> else before.

Definition handoffReceiptArguments (expected : SupervisorHandoff.t) (receipt : StopReceipt.t) : result unit :=
  reject negb (SupervisorHandoff.Validate expected) with Errorf "supervisor handoff is invalid" ;;
  reject (expected.(SupervisorHandoff.SupervisorPID) <=? 0) || (expected.(SupervisorHandoff.SupervisorIdentity) =s "") ||
         (expected.(SupervisorHandoff.Version) =? SupervisorHandoffVersionV2) && is_nil expected.(SupervisorHandoff.Mirror)
    with Errorf "supervisor handoff stop receipt requires a bound helper" ;;
  reject negb (SupervisorHandoff.ReceiptValidForHandoff receipt expected)
    with Errorf "supervisor handoff stop receipt does not match handoff" ;;
  Ok tt.

Definition recordV1HandoffReceipt (expected : SupervisorHandoff.t) (receipt : StopReceipt.t) (journal : RunJournal.t)
    : result RunJournal.t :=
  let unresolved := Errorf "supervisor handoff scan observation is unresolved" in
  match journal.(ContainmentHandoff) with
  | Some current =>
      reject negb (SupervisorHandoff.Equal current expected) &&
             negb (SupervisorHandoff.SameLaunch current expected &&
                   (current.(SupervisorHandoff.SupervisorPID) =? expected.(SupervisorHandoff.SupervisorPID)) &&
                   (current.(SupervisorHandoff.SupervisorIdentity) =s expected.(SupervisorHandoff.SupervisorIdentity)) &&
                   some_and current.(SupervisorHandoff.StopReceipt) (fun existing => StopReceipt.Equal existing receipt))
        with Errorf "supervisor handoff compare-and-set mismatch" ;;
      reject journal.(ContainmentUnproven) with unresolved ;;
      check requireLinuxScansSealedForHandoff journal current ;;
      handoffReceipt current receipt journal
  | None =>
      match SupervisorHandoff.ToSupervisor expected, journal.(ContainmentAuthority) with
      | None, _ => Err (Errorf "supervisor handoff is not complete")
      | Some _, None => Err (Errorf "supervisor handoff is not pending or committed")
      | Some value, Some current =>
          reject negb (sameMarker journal value.(Supervisor.TargetPID) value.(Supervisor.TargetIdentity))
            with Errorf "supervisor handoff is not pending or committed" ;;
          reject journal.(ContainmentUnproven) with unresolved ;;
          check requireLinuxScansSealedForAuthority journal current ;;
          reject negb (Supervisor.Equal (current <| Supervisor.StopReceipt := None |>)
                         (value <| Supervisor.StopReceipt := None |>))
            with Errorf "supervisor handoff committed authority conflicts with handoff" ;;
          authorityReceipt current receipt journal
      end
  end.

(** [recordLinuxCgroupSupervisorStopReceipt] *)
Definition recordV2HandoffReceipt (expected : SupervisorHandoff.t) (receipt : StopReceipt.t) (journal : RunJournal.t)
    : result RunJournal.t :=
  reject non_nil journal.(ContainmentScans) ||
         negb (some_and journal.(ContainmentCgroup) (fun reservation =>
           linuxCgroupReceiptMatchesReservation reservation receipt))
    with Errorf "v2 stop receipt has no matching cgroup producer reservation" ;;
  match journal.(ContainmentHandoff) with
  | Some current =>
      reject negb (sameBoundV2Handoff current expected) with Errorf "v2 supervisor handoff compare-and-set mismatch" ;;
      reject is_nil current.(SupervisorHandoff.StopReceipt) && negb (SupervisorHandoff.Equal current expected)
        with Errorf "v2 supervisor handoff compare-and-set mismatch" ;;
      try after <- handoffReceipt current receipt journal ;;
      Ok (proven journal after current.(SupervisorHandoff.StopReceipt))
  | None =>
      match SupervisorHandoff.ToSupervisor expected, journal.(ContainmentAuthority) with
      | None, _ => Err (Errorf "supervisor handoff is not complete")
      | Some _, None => Err (Errorf "v2 supervisor handoff is not pending or committed")
      | Some value, Some current =>
          reject negb (current.(Supervisor.Version) =? SupervisorVersionV2) ||
                 negb (sameMarker journal value.(Supervisor.TargetPID) value.(Supervisor.TargetIdentity))
            with Errorf "v2 supervisor handoff is not pending or committed" ;;
          reject negb (Supervisor.Equal (current <| Supervisor.StopReceipt := None |>)
                         (value <| Supervisor.StopReceipt := None |>)) ||
                 negb (some_and journal.(ContainmentCgroup) (fun reservation =>
                   linuxCgroupReservationMatchesAuthority reservation current))
            with Errorf "v2 committed authority conflicts with handoff" ;;
          try after <- authorityReceipt current receipt journal ;;
          Ok (proven journal after current.(Supervisor.StopReceipt))
      end
  end.

Definition recordSupervisorHandoffStopReceipt (expected : SupervisorHandoff.t) (receipt : StopReceipt.t)
    (journal : RunJournal.t) : result RunJournal.t :=
  if expected.(SupervisorHandoff.Version) =? SupervisorHandoffVersionV2
  then recordV2HandoffReceipt expected receipt journal
  else recordV1HandoffReceipt expected receipt journal.

Definition recordContainmentStopReceipt (pid : Z) (identity : string) (receipt : StopReceipt.t) (journal : RunJournal.t)
    : result RunJournal.t :=
  reject non_nil journal.(ContainmentHandoff)
    with Errorf "containment stop receipt requires supervisor handoff mutation" ;;
  match journal.(ContainmentAuthority) with
  | None => Err (Errorf "containment stop receipt has no matching authority")
  | Some current =>
      reject negb (sameMarker journal pid identity) with Errorf "containment stop receipt has no matching authority" ;;
      if current.(Supervisor.Version) =? SupervisorVersionV2 then
        reject non_nil journal.(ContainmentScans) ||
               negb (some_and journal.(ContainmentCgroup) (fun reservation =>
                 linuxCgroupReservationMatchesAuthority reservation current &&
                 linuxCgroupReceiptMatchesReservation reservation receipt)) ||
               negb (Supervisor.ReceiptValidFor receipt current)
          with Errorf "v2 containment stop receipt does not match exact cgroup authority" ;;
        try after <- authorityReceipt current receipt journal ;;
        Ok (proven journal after current.(Supervisor.StopReceipt))
      else
        reject non_nil journal.(ContainmentCgroup)
          with Errorf "v1 containment receipt cannot act on a v2 cgroup reservation" ;;
        reject journal.(ContainmentUnproven) with Errorf "containment scan observation is unresolved" ;;
        check requireLinuxScansSealedForAuthority journal current ;;
        reject negb (Supervisor.ReceiptValidFor receipt current)
          with Errorf "containment stop receipt does not match containment authority" ;;
        authorityReceipt current receipt journal
  end.

Definition recoverySealArguments (expected : Supervisor.t) (sequence : Z) : result unit :=
  reject negb (Supervisor.Validate expected) with Errorf "supervisor authority is invalid" ;;
  reject (expected.(Supervisor.OwnerKind) <>s OwnerKindLinuxHelper) || non_nil expected.(Supervisor.StopReceipt) ||
         (sequence =? 0) with Errorf "Linux helper recovery scan seal identity is invalid" ;;
  Ok tt.

Definition recordSupervisorRecoveryScanSeal (expected : Supervisor.t) (sequence : Z) (journal : RunJournal.t)
    : result RunJournal.t :=
  match journal.(ContainmentAuthority), journal.(ContainmentScans) with
  | None, _ => Err (Errorf "Linux helper recovery seal has no active matching authority")
  | Some current, scans =>
      reject negb (sameMarker journal expected.(Supervisor.TargetPID) expected.(Supervisor.TargetIdentity)) ||
             non_nil current.(Supervisor.StopReceipt)
        with Errorf "Linux helper recovery seal has no active matching authority" ;;
      reject negb (Supervisor.Equal (current <| Supervisor.StopReceipt := None |>)
                     (expected <| Supervisor.StopReceipt := None |>))
        with Errorf "Linux helper recovery seal authority identity mismatch" ;;
      match scans with
      | None => Err (Errorf "Linux helper recovery seal scan fence is missing or mismatched")
      | Some scans =>
          reject negb (ContainmentScanJournal.matchesAuthority scans expected)
            with Errorf "Linux helper recovery seal scan fence is missing or mismatched" ;;
          reject journal.(ContainmentUnproven) ||
                 negb (ContainmentScanProgress.sealed scans.(ContainmentScanJournal.Mirror))
            with Errorf "Linux helper recovery seal requires a durable clean mirror seal" ;;
          let progress := scans.(ContainmentScanJournal.Helper) in
          let completed := progress.(ContainmentScanProgress.CompletedSequence) in
          if (progress.(ContainmentScanProgress.SealedSequence) =? sequence) && ContainmentScanProgress.sealed progress
          then Ok journal
          else
            reject (completed =? 0) || (completed =? maxUint64) || negb (sequence =? wrapu64 (completed + 1)) ||
                   negb (progress.(ContainmentScanProgress.PendingSequence) =? 0) ||
                   negb (progress.(ContainmentScanProgress.CleanResultSequence) =? 0) ||
                   negb (progress.(ContainmentScanProgress.SealedSequence) =? 0) ||
                   negb (progress.(ContainmentScanProgress.UnprovenSequence) =? 0) ||
                   (progress.(ContainmentScanProgress.FailureKind) <>s "")
              with Errorf "Linux helper recovery scan proof is not the exact next clean sequence" ;;
            Ok (journal <| ContainmentScans := Some (scans <| ContainmentScanJournal.Helper :=
                  progress <| ContainmentScanProgress.CompletedSequence := sequence |>
                           <| ContainmentScanProgress.SealedSequence := sequence |> |>) |>)
      end
  end.

(** ** Releasing a handoff or a committed process *)

Definition clearHandoffArguments (expected : SupervisorHandoff.t) (proof : SupervisorHandoffReleaseProof.t) : result unit :=
  reject negb (SupervisorHandoff.Validate expected) with Errorf "supervisor handoff is invalid" ;;
  reject expected.(SupervisorHandoff.Version) =? SupervisorHandoffVersionV2
    with Errorf "v2 supervisor handoff release requires a platform cgroup release" ;;
  reject is_nil expected.(SupervisorHandoff.StopReceipt)
    with Errorf "supervisor handoff stop receipt is required before release" ;;
  reject negb (SupervisorHandoffReleaseProof.Validate proof) with Errorf "supervisor release proof is invalid" ;;
  reject negb (SupervisorHandoffReleaseProof.ValidFor proof expected)
    with Errorf "supervisor handoff release proof does not match handoff" ;;
  Ok tt.

Definition clearSupervisorHandoff (expected : SupervisorHandoff.t) (proof : SupervisorHandoffReleaseProof.t)
    (journal : RunJournal.t) : result RunJournal.t :=
  match journal.(ContainmentHandoff) with
  | None =>
      reject non_nil journal.(ContainmentAuthority) || HasProcessDetails journal
        with Errorf "supervisor handoff is not pending" ;;
      Ok journal
  | Some current =>
      reject negb (SupervisorHandoff.Equal current expected) with Errorf "supervisor handoff compare-and-set mismatch" ;;
      reject journal.(ContainmentUnproven) with Errorf "supervisor handoff has unresolved containment observation" ;;
      check requireLinuxScansSealedForHandoff journal expected ;;
      reject negb (SupervisorHandoffReleaseProof.ValidFor proof current)
        with Errorf "supervisor handoff release proof does not match journal" ;;
      reject negb (some_and current.(SupervisorHandoff.StopReceipt) (fun receipt =>
               SupervisorHandoff.ReceiptValidForHandoff receipt current &&
               some_and expected.(SupervisorHandoff.StopReceipt) (fun wanted => StopReceipt.Equal receipt wanted)))
        with Errorf "supervisor handoff stop receipt is invalid" ;;
      Ok (journal <| ContainmentHandoff := None |> <| ContainmentScans := None |>)
  end.

Definition initialPrecommitLinuxScanProgressAbortable (progress : ContainmentScanProgress.t) : bool :=
  (progress.(ContainmentScanProgress.UnprovenSequence) =? 0) && (progress.(ContainmentScanProgress.FailureKind) =s "") &&
  (progress.(ContainmentScanProgress.CompletedSequence) <=? 1) && (progress.(ContainmentScanProgress.PendingSequence) <=? 1) &&
  (progress.(ContainmentScanProgress.CleanResultSequence) <=? 1) && (progress.(ContainmentScanProgress.SealedSequence) <=? 1) &&
  (if progress.(ContainmentScanProgress.CompletedSequence) =? 0 then
     (progress.(ContainmentScanProgress.PendingSequence) =? 1) && (progress.(ContainmentScanProgress.SealedSequence) =? 0)
   else
     (progress.(ContainmentScanProgress.PendingSequence) =? 0) &&
     (progress.(ContainmentScanProgress.CleanResultSequence) =? 0) &&
     ((progress.(ContainmentScanProgress.SealedSequence) =? 0) ||
      (progress.(ContainmentScanProgress.SealedSequence) =? progress.(ContainmentScanProgress.CompletedSequence)))).

Definition initialPrecommitLinuxScansAbortable (scans : ContainmentScanJournal.t) : bool :=
  initialPrecommitLinuxScanProgressAbortable scans.(ContainmentScanJournal.Helper) &&
  initialPrecommitLinuxScanProgressAbortable scans.(ContainmentScanJournal.Mirror).

Definition abortHandoffArguments (expected : SupervisorHandoff.t) (proof : SupervisorHandoffAbortProof.t) : result unit :=
  reject negb (SupervisorHandoff.Validate expected) with Errorf "supervisor handoff is invalid" ;;
  reject expected.(SupervisorHandoff.Version) =? SupervisorHandoffVersionV2
    with Errorf "v2 cgroup handoff cannot use the v1 pre-authority abort path" ;;
  reject non_nil expected.(SupervisorHandoff.StopReceipt)
    with Errorf "supervisor handoff abort cannot carry a stop receipt" ;;
  reject negb (SupervisorHandoffAbortProof.Validate proof) with Errorf "supervisor abort proof is invalid" ;;
  reject negb (SupervisorHandoffAbortProof.ValidFor proof expected)
    with Errorf "supervisor handoff abort proof does not match handoff" ;;
  Ok tt.

Definition clearSupervisorHandoffAfterAbort (expected : SupervisorHandoff.t) (proof : SupervisorHandoffAbortProof.t)
    (journal : RunJournal.t) : result (RunJournal.t * bool) :=
  match journal.(ContainmentHandoff) with
  | None => Err (Errorf "supervisor handoff is not pending")
  | Some current =>
      reject negb (SupervisorHandoff.Equal current expected) with Errorf "supervisor handoff compare-and-set mismatch" ;;
      reject non_nil current.(SupervisorHandoff.StopReceipt)
        with Errorf "supervisor handoff abort cannot clear a durable stop receipt" ;;
      reject non_nil journal.(ContainmentAuthority) || HasProcessDetails journal
        with Errorf "supervisor handoff abort conflicts with committed containment" ;;
      reject negb (SupervisorHandoffAbortProof.ValidFor proof current)
        with Errorf "supervisor handoff abort proof does not match journal" ;;
      reject journal.(ContainmentUnproven) with Errorf "supervisor handoff has unresolved containment observation" ;;
      check (if expected.(SupervisorHandoff.OwnerKind) <>s OwnerKindLinuxHelper then Ok tt
             else if expected.(SupervisorHandoff.SupervisorPID) =? 0 then
               reject non_nil journal.(ContainmentScans)
                 with Errorf "unbound Linux handoff unexpectedly has scan state" ;; Ok tt
             else
               reject negb (some_and journal.(ContainmentScans) (fun scans =>
                        ContainmentScanJournal.matchesHandoff scans expected &&
                        initialPrecommitLinuxScansAbortable scans))
                 with Errorf "Linux supervisor pre-commit scan state is unresolved" ;; Ok tt) ;;
      Ok (journal <| ContainmentHandoff := None |> <| ContainmentScans := None |>, true)
  end.

(** [linuxCgroupReleaseSnapshot] *)
Definition linuxCgroupReleaseSnapshot (release : LinuxCgroupV2Release) : result SupervisorHandoffReleaseProof.t :=
  match Snapshot release with
  | None => Err (Errorf "platform has not issued a Linux cgroup v2 release")
  | Some proof =>
      reject negb (SupervisorHandoffReleaseProof.Validate proof) with Errorf "supervisor release proof is invalid" ;;
      Ok proof
  end.

Definition clearHandoffV2Arguments (expected : SupervisorHandoff.t) (release : LinuxCgroupV2Release)
    : result SupervisorHandoffReleaseProof.t :=
  try proof <- linuxCgroupReleaseSnapshot release ;;
  reject negb (SupervisorHandoff.Validate expected) with Errorf "supervisor handoff is invalid" ;;
  reject negb (expected.(SupervisorHandoff.Version) =? SupervisorHandoffVersionV2) ||
         negb (some_and expected.(SupervisorHandoff.StopReceipt) (fun receipt =>
           SupervisorHandoff.ReceiptValidForHandoff receipt expected)) ||
         negb (SupervisorHandoffReleaseProof.ValidFor proof expected)
    with Errorf "v2 supervisor handoff release does not match its durable receipt" ;;
  Ok proof.

Definition clearSupervisorHandoffV2 (expected : SupervisorHandoff.t) (proof : SupervisorHandoffReleaseProof.t)
    (journal : RunJournal.t) : result RunJournal.t :=
  match journal.(ContainmentHandoff) with
  | None =>
      if some_and journal.(ContainmentCgroupReleaseProof) (fun recorded =>
           SupervisorHandoffReleaseProof.Equal recorded proof) &&
         is_nil journal.(ContainmentAuthority) && negb (HasProcessDetails journal) &&
         is_nil journal.(ContainmentCgroup) && is_nil journal.(ContainmentScans)
      then Ok journal
      else Err (Errorf "v2 supervisor handoff is not pending")
  | Some current =>
      reject negb (sameBoundV2Handoff current expected) ||
             negb (some_and current.(SupervisorHandoff.StopReceipt) (fun receipt =>
               some_and expected.(SupervisorHandoff.StopReceipt) (fun wanted => StopReceipt.Equal receipt wanted) &&
               some_and journal.(ContainmentCgroup) (fun reservation =>
                 linuxCgroupReservationMatchesHandoff reservation current true &&
                 linuxCgroupReceiptMatchesReservation reservation receipt))) ||
             negb (SupervisorHandoffReleaseProof.ValidFor proof current)
        with Errorf "v2 supervisor handoff release compare-and-set mismatch" ;;
      reject journal.(ContainmentUnproven) || non_nil journal.(ContainmentScans) ||
             non_nil journal.(ContainmentAuthority) || HasProcessDetails journal
        with Errorf "v2 supervisor handoff release state is unresolved" ;;
      Ok (journal <| ContainmentHandoff := None |> <| ContainmentCgroup := None |> <| ContainmentScans := None |>
                  <| ContainmentCgroupReleaseProof := Some proof |>)
  end.

Definition clearProcessV2Arguments (pid : Z) (identity : string) (release : LinuxCgroupV2Release)
    : result SupervisorHandoffReleaseProof.t :=
  check markerArguments pid identity ;;
  try proof <- linuxCgroupReleaseSnapshot release ;;
  reject negb (proof.(SupervisorHandoffReleaseProof.Version) =? SupervisorHandoffVersionV2) ||
         negb (proof.(SupervisorHandoffReleaseProof.TargetPID) =? pid) ||
         (proof.(SupervisorHandoffReleaseProof.TargetIdentity) <>s identity)
    with Errorf "v2 process release does not match the expected target" ;;
  Ok proof.

Definition clearProcessDetailsV2 (pid : Z) (identity : string) (proof : SupervisorHandoffReleaseProof.t)
    (journal : RunJournal.t) : result RunJournal.t :=
  if negb (HasProcessDetails journal) && (journal.(PID) =? 0) && (journal.(ProcessIdentity) =s "") &&
     IsZero journal.(StartedAt) && is_nil journal.(ContainmentAuthority) && is_nil journal.(ContainmentHandoff) &&
     is_nil journal.(ContainmentCgroup)
  then
    reject negb (some_and journal.(ContainmentCgroupReleaseProof) (fun recorded =>
             SupervisorHandoffReleaseProof.Equal recorded proof))
      with Errorf "v2 process release replay does not match the durable release tombstone" ;;
    Ok journal
  else
    match journal.(ContainmentAuthority), journal.(ContainmentCgroup) with
    | Some current, Some reservation =>
        reject non_nil journal.(ContainmentHandoff) || negb (sameMarker journal pid identity) ||
               negb (current.(Supervisor.Version) =? SupervisorVersionV2) || non_nil journal.(ContainmentScans) ||
               journal.(ContainmentUnproven)
          with Errorf "v2 process clear identity is unresolved or mismatched" ;;
        reject negb (current.(Supervisor.TargetPID) =? pid) || (current.(Supervisor.TargetIdentity) <>s identity) ||
               negb (some_and current.(Supervisor.StopReceipt) (fun receipt =>
                 Supervisor.ReceiptValidFor receipt current &&
                 SupervisorHandoffReleaseProof.ValidForSupervisor proof current &&
                 linuxCgroupReservationMatchesAuthority reservation current &&
                 linuxCgroupReceiptMatchesReservation reservation receipt))
          with Errorf "v2 process clear requires exact durable receipt and platform release" ;;
        Ok ((with_marker journal 0 "" 0) <| ContainmentAuthority := None |> <| ContainmentCgroup := None |>
              <| ContainmentScans := None |> <| ContainmentCgroupReleaseProof := Some proof |>)
    | _, _ => Err (Errorf "v2 process clear identity is unresolved or mismatched")
    end.

(** ** The methods *)

Section Methods.
Context `{AdmissionParser} `{JournalEncoder}.

Definition SetProcessDetails (fs : io) (store : Store) (key : RunKey.t) (pid : Z) (identity : string) (startedAt : time)
    : Store * result RunJournal.t :=
  checked store (processDetailsArguments pid identity startedAt)
    (mutateJournal fs store key (setProcessDetails pid identity startedAt)).

Definition SetProcessDetailsWithAuthority (fs : io) (store : Store) (key : RunKey.t) (pid : Z) (identity : string)
    (startedAt : time) (value : Supervisor.t) : Store * result RunJournal.t :=
  checked store (withAuthorityArguments pid identity startedAt value)
    (mutateJournal fs store key (setProcessDetailsWithAuthority pid identity startedAt value)).

Definition SetContainmentAuthority (fs : io) (store : Store) (key : RunKey.t) (pid : Z) (identity : string)
    (value : Supervisor.t) : Store * result RunJournal.t :=
  checked store (setAuthorityArguments pid identity value)
    (mutateJournal fs store key (setContainmentAuthority pid identity value)).

Definition MarkContainmentUnproven (fs : io) (store : Store) (key : RunKey.t) (pid : Z) (identity : string)
    : Store * result RunJournal.t :=
  checked store (markerArguments pid identity) (mutateJournal fs store key (markContainmentUnproven pid identity)).

Definition ClearContainmentUnproven (fs : io) (store : Store) (key : RunKey.t) (pid : Z) (identity : string)
    : Store * result RunJournal.t :=
  checked store (markerArguments pid identity) (mutateJournal fs store key (clearContainmentUnproven pid identity)).

Definition ClearProcessDetails (fs : io) (store : Store) (key : RunKey.t) (pid : Z) (identity : string)
    : Store * result RunJournal.t :=
  checked store (markerArguments pid identity) (mutateJournal fs store key (clearProcessDetails pid identity)).

Definition PrepareSupervisorHandoff (fs : io) (store : Store) (key : RunKey.t) (handoff : SupervisorHandoff.t)
    : Store * result RunJournal.t :=
  checked store (prepareHandoffArguments handoff) (mutateJournal fs store key (prepareSupervisorHandoff handoff)).

Definition BindSupervisorHandoffV2 (fs : io) (store : Store) (key : RunKey.t) (expected : SupervisorHandoff.t)
    (helper mirror : LinuxCgroupProcessIdentity.t) : Store * result RunJournal.t :=
  checked store (bindV2Arguments expected helper mirror)
    (mutateJournal fs store key (bindSupervisorHandoffV2 expected helper mirror)).

Definition BindSupervisorHandoff (fs : io) (store : Store) (key : RunKey.t) (expected : SupervisorHandoff.t) (pid : Z)
    (identity : string) : Store * result RunJournal.t :=
  checked store (bindArguments expected pid identity)
    (mutateJournal fs store key (bindSupervisorHandoff expected pid identity)).

Definition CommitSupervisorHandoff (fs : io) (store : Store) (key : RunKey.t) (expected : SupervisorHandoff.t)
    (startedAt : time) : Store * result RunJournal.t :=
  match commitArguments expected startedAt with
  | Err e => (store, Err e)
  | Ok value => mutateJournal fs store key (commitSupervisorHandoff expected value startedAt)
  end.

Definition RecordSupervisorHandoffStopReceipt (fs : io) (store : Store) (key : RunKey.t) (expected : SupervisorHandoff.t)
    (receipt : StopReceipt.t) : Store * result RunJournal.t :=
  checked store (handoffReceiptArguments expected receipt)
    (mutateJournal fs store key (recordSupervisorHandoffStopReceipt expected receipt)).

Definition RecordContainmentStopReceipt (fs : io) (store : Store) (key : RunKey.t) (pid : Z) (identity : string)
    (receipt : StopReceipt.t) : Store * result RunJournal.t :=
  mutateJournal fs store key (recordContainmentStopReceipt pid identity receipt).

Definition RecordSupervisorRecoveryScanSeal (fs : io) (store : Store) (key : RunKey.t) (expected : Supervisor.t)
    (sequence : Z) : Store * result RunJournal.t :=
  checked store (recoverySealArguments expected sequence)
    (mutateJournal fs store key (recordSupervisorRecoveryScanSeal expected sequence)).

Definition ClearSupervisorHandoff (fs : io) (store : Store) (key : RunKey.t) (expected : SupervisorHandoff.t)
    (proof : SupervisorHandoffReleaseProof.t) : Store * result RunJournal.t :=
  checked store (clearHandoffArguments expected proof)
    (mutateJournal fs store key (clearSupervisorHandoff expected proof)).

Definition ClearSupervisorHandoffAfterAbort (fs : io) (store : Store) (key : RunKey.t) (expected : SupervisorHandoff.t)
    (proof : SupervisorHandoffAbortProof.t) : Store * result RunJournal.t :=
  checked store (abortHandoffArguments expected proof)
    (mutateJournalIfChanged fs store key (clearSupervisorHandoffAfterAbort expected proof)).

Definition ClearSupervisorHandoffV2 (fs : io) (store : Store) (key : RunKey.t) (expected : SupervisorHandoff.t)
    (release : LinuxCgroupV2Release) : Store * result RunJournal.t :=
  match clearHandoffV2Arguments expected release with
  | Err e => (store, Err e)
  | Ok proof => mutateJournal fs store key (clearSupervisorHandoffV2 expected proof)
  end.

Definition ClearProcessDetailsV2 (fs : io) (store : Store) (key : RunKey.t) (pid : Z) (identity : string)
    (release : LinuxCgroupV2Release) : Store * result RunJournal.t :=
  match clearProcessV2Arguments pid identity release with
  | Err e => (store, Err e)
  | Ok proof => mutateJournal fs store key (clearProcessDetailsV2 pid identity proof)
  end.
End Methods.
