(* ===== verification/Clone.v ===== *)
(** * Clone: the Linux clone of a run, and accounting recovery

    src/daemon/internal/state/state.go (725-894, 1322-1762, 1879-1939). A run
    on Linux works in a clone that is reserved, seeded, checked out by the
    contained agent, promoted after the agent stopped and finally removed;
    every stage records its evidence once and in order. Before the checkout
    the clone may instead be fenced and aborted. *)

From S2P Require Import Prelude Sha256 Json Authority Protocol Journal Validation Store Cgroup.
Import RunJournal.
Open Scope string_scope.
Open Scope Z_scope.

Definition linuxCloneStageCanAdvance (journal : RunJournal.t) : bool :=
  (journal.(LocalState) <>s "terminal_pending") && (journal.(LocalState) <>s "cleanup_pending") &&
  (journal.(LocalState) <>s "stale") && negb journal.(LinuxCloneAbortPending) && is_nil journal.(LinuxCloneAbortProof).

Definition linuxCloneCommittedGateReady (journal : RunJournal.t) : bool :=
  negb (string_in journal.(LocalState) ["terminal_pending"; "cleanup_pending"; "stale"]) &&
  HasProcessDetails journal && negb journal.(ContainmentUnproven) && is_nil journal.(ContainmentHandoff) &&
  some_and journal.(ContainmentCgroup) (fun reservation =>
  some_and reservation.(LinuxCgroupReservation.Gate) (fun gate =>
  some_and journal.(ContainmentAuthority) (fun owner =>
    (owner.(Supervisor.Version) =? SupervisorVersionV2) && Supervisor.Validate owner &&
    is_nil owner.(Supervisor.StopReceipt) && linuxCgroupReservationMatchesAuthority reservation owner &&
    (owner.(Supervisor.TargetPID) =? journal.(PID)) && (owner.(Supervisor.TargetIdentity) =s journal.(ProcessIdentity)) &&
    (gate.(LinuxCgroupGateIdentity.Process).(LinuxCgroupProcessIdentity.PID) =? journal.(PID)) &&
    (gate.(LinuxCgroupGateIdentity.Process).(LinuxCgroupProcessIdentity.Identity) =s journal.(ProcessIdentity))))).

Definition abortFenced (journal : RunJournal.t) : bool :=
  journal.(LinuxCloneAbortPending) || non_nil journal.(LinuxCloneAbortProof).

Definition reservedIntent (journal : RunJournal.t) (intent : LinuxCloneIntent.t) : bool :=
  some_and journal.(LinuxCloneIntent) (fun reserved => LinuxCloneIntent.Equal reserved intent).

(** The workspace a clone stage claims or gives back. *)
Definition claim_workspace (journal : RunJournal.t) (intent : LinuxCloneIntent.t) : RunJournal.t :=
  journal <| WorkspacePath := intent.(LinuxCloneIntent.Target) |>
          <| WorkspaceBindingKey := intent.(LinuxCloneIntent.BindingKey) |>
          <| WorkspaceRecoveryRequired := true |>.
Definition drop_workspace (journal : RunJournal.t) : RunJournal.t :=
  journal <| WorkspacePath := "" |> <| WorkspaceRecoveryRequired := false |>.

Section Clone.
Context `{AdmissionParser} `{JournalEncoder} `{Platform}.

Definition requireLinuxClonePlatform : result unit :=
  reject negb linuxAmd64 with Errorf "Linux clone-v2 mutations are supported only on Linux/amd64" ;; Ok tt.

Definition requireLinuxCloneJournalFence (journal : RunJournal.t) (fence' : Fence.t) (intent : LinuxCloneIntent.t)
    : result unit :=
  reject negb (LinuxCloneIntent.Validate intent) || (intent.(LinuxCloneIntent.RunID) <>s journal.(RunID)) ||
         negb (intent.(LinuxCloneIntent.Generation) =? journal.(Generation)) ||
         negb (sameFence (fence journal) fence') || negb (hasClaimGrant journal)
    with Errorf "Linux clone RunKey or fence is stale" ;;
  reject intent.(LinuxCloneIntent.BindingKey) <>s journal.(WorkspaceBindingKey)
    with Errorf "Linux clone binding key does not match the journal" ;;
  reject negb (requireLinuxCloneJournalFenceSubject journal intent)
    with Errorf "Linux clone intent does not match the current admitted Subject" ;;
  Ok tt.

(** ** Reserve, seed, check out, promote *)

Definition reserveCloneArguments (key : RunKey.t) (intent : LinuxCloneIntent.t) : result unit :=
  check requireLinuxClonePlatform ;;
  reject negb (LinuxCloneIntent.Validate intent) || (intent.(LinuxCloneIntent.RunID) <>s key.(RunKey.RunID)) ||
         negb (intent.(LinuxCloneIntent.Generation) =? key.(RunKey.Generation))
    with Errorf "Linux clone intent does not match RunKey" ;;
  Ok tt.

Definition reserveLinuxCloneIntent (admits : admission) (key : RunKey.t) (fence' : Fence.t) (intent : LinuxCloneIntent.t)
    (now : time) (liveOwners : owners) (journal : RunJournal.t) : result RunJournal.t :=
  check requireLinuxCloneJournalFence journal fence' intent ;;
  check admits journal key fence' now liveOwners None (Some intent) ;;
  match journal.(LinuxCloneIntent) with
  | Some reserved =>
      reject negb (LinuxCloneIntent.Equal reserved intent) with Errorf "Linux clone intent cannot be replaced" ;;
      reject abortFenced journal with Errorf "Linux clone intent is fenced for pre-checkout abort" ;;
      Ok journal
  | None =>
      reject string_in journal.(LocalState) ["terminal_pending"; "cleanup_pending"; "stale"] ||
             HasProcessDetails journal || non_nil journal.(ContainmentHandoff) || non_nil journal.(ContainmentAuthority) ||
             non_nil journal.(ContainmentCgroup) || non_nil journal.(ContainmentCgroupReleaseProof) ||
             non_nil journal.(ContainmentCgroupPreGateReleaseProof)
        with Errorf "Linux clone intent must be reserved before process containment or terminal cleanup" ;;
      reject journal.(WorkspacePath) <>s ""
        with Errorf "Linux clone intent cannot adopt a pre-existing workspace path" ;;
      Ok (claim_workspace (journal <| LinuxCloneIntent := Some intent |>) intent)
  end.

Definition ReserveLinuxCloneIntent (fs : io) (store : Store) (key : RunKey.t) (fence' : Fence.t)
    (intent : LinuxCloneIntent.t) (now : time) (liveOwners : owners) : Store * result RunJournal.t :=
  checked store (reserveCloneArguments key intent)
    (mutateJournal fs store key
       (reserveLinuxCloneIntent (checkLinuxV2NativeAdmissionLocked fs store) key fence' intent now liveOwners)).

Definition seedArguments (intent : LinuxCloneIntent.t) (seed : LinuxCloneSeedReceipt.t) : result unit :=
  check requireLinuxClonePlatform ;;
  reject negb (LinuxCloneSeedReceipt.Validate seed) ||
         (seed.(LinuxCloneSeedReceipt.BaseCommit) <>s intent.(LinuxCloneIntent.BaseCommit))
    with Errorf "Linux clone seed receipt does not match its intent" ;;
  Ok tt.

Definition bindLinuxCloneSeed (fence' : Fence.t) (intent : LinuxCloneIntent.t) (seed : LinuxCloneSeedReceipt.t)
    (journal : RunJournal.t) : result RunJournal.t :=
  check requireLinuxCloneJournalFence journal fence' intent ;;
  reject negb (reservedIntent journal intent) with Errorf "Linux clone seed intent is not durably reserved" ;;
  match journal.(LinuxCloneSeedReceipt) with
  | Some recorded =>
      reject negb (LinuxCloneSeedReceipt.Equal recorded seed) with Errorf "Linux clone seed receipt cannot be changed" ;;
      Ok journal
  | None =>
      reject abortFenced journal || negb (linuxCloneStageCanAdvance journal)
        with Errorf "Linux clone seed cannot advance after abort or terminal fencing" ;;
      Ok (journal <| LinuxCloneSeedReceipt := Some seed |>)
  end.

Definition BindLinuxCloneSeed (fs : io) (store : Store) (key : RunKey.t) (fence' : Fence.t) (intent : LinuxCloneIntent.t)
    (seed : LinuxCloneSeedReceipt.t) : Store * result RunJournal.t :=
  checked store (seedArguments intent seed) (mutateJournal fs store key (bindLinuxCloneSeed fence' intent seed)).

Definition checkoutArguments (receipt : LinuxCloneCheckoutReceipt.t) : result unit :=
  check requireLinuxClonePlatform ;;
  reject negb (LinuxCloneCheckoutReceipt.Validate receipt) with Errorf "Linux clone checkout receipt is invalid" ;; Ok tt.

Definition recordLinuxCloneCheckoutReady (fence' : Fence.t) (intent : LinuxCloneIntent.t)
    (receipt : LinuxCloneCheckoutReceipt.t) (journal : RunJournal.t) : result RunJournal.t :=
  check requireLinuxCloneJournalFence journal fence' intent ;;
  match journal.(LinuxCloneSeedReceipt) with
  | None => Err (Errorf "Linux clone checkout is missing its reserved intent or seed")
  | Some seed =>
      reject negb (reservedIntent journal intent)
        with Errorf "Linux clone checkout is missing its reserved intent or seed" ;;
      reject abortFenced journal with Errorf "Linux clone checkout is fenced for pre-checkout abort" ;;
      reject negb (linuxCloneCheckoutMatches intent seed receipt)
        with Errorf "Linux clone checkout receipt does not match its intent and seed" ;;
      match journal.(LinuxCloneCheckoutReceipt) with
      | Some recorded =>
          reject negb (LinuxCloneCheckoutReceipt.Equal recorded receipt)
            with Errorf "Linux clone checkout receipt cannot be changed" ;;
          Ok journal
      | None =>
          reject negb (linuxCloneStageCanAdvance journal)
            with Errorf "Linux clone checkout cannot advance after terminal fencing" ;;
          reject negb (linuxCloneCommittedGateReady journal)
            with Errorf "Linux clone checkout requires committed v2 gate authority" ;;
          Ok (journal <| LinuxCloneCheckoutReceipt := Some receipt |>)
      end
  end.

Definition RecordLinuxCloneCheckoutReady (fs : io) (store : Store) (key : RunKey.t) (fence' : Fence.t)
    (intent : LinuxCloneIntent.t) (receipt : LinuxCloneCheckoutReceipt.t) : Store * result RunJournal.t :=
  checked store (checkoutArguments receipt)
    (mutateJournal fs store key (recordLinuxCloneCheckoutReady fence' intent receipt)).

Definition promotionArguments (intent : LinuxCloneIntent.t) (candidate : LinuxClonePromotionIntent.t) : result unit :=
  check requireLinuxClonePlatform ;;
  reject negb (LinuxClonePromotionIntent.Validate candidate) with Errorf "Linux clone promotion intent is invalid" ;;
  reject (candidate.(LinuxClonePromotionIntent.ResourceID) <>s intent.(LinuxCloneIntent.ResourceID)) ||
         negb (len candidate.(LinuxClonePromotionIntent.Commit) =? len intent.(LinuxCloneIntent.BaseCommit))
    with Errorf "Linux clone promotion candidate does not match its resource or object format" ;;
  Ok tt.

(** The agent stopped, and its containment has not been released. *)
Definition stoppedUnreleased (journal : RunJournal.t) : bool :=
  some_and journal.(ContainmentAuthority) (fun owner =>
    (owner.(Supervisor.Version) =? SupervisorVersionV2) &&
    some_and owner.(Supervisor.StopReceipt) (fun receipt => Supervisor.ReceiptValidFor receipt owner)) &&
  non_nil journal.(ContainmentCgroup) && is_nil journal.(ContainmentHandoff) &&
  is_nil journal.(ContainmentCgroupReleaseProof) && negb journal.(ContainmentUnproven) && HasProcessDetails journal.

Definition reserveLinuxClonePromotion (fence' : Fence.t) (intent : LinuxCloneIntent.t)
    (candidate : LinuxClonePromotionIntent.t) (now : time) (journal : RunJournal.t) : result RunJournal.t :=
  check requireLinuxCloneJournalFence journal fence' intent ;;
  reject negb (linuxV2TargetCanStartNativeEffects journal now)
    with Errorf "Linux clone promotion target lease or lifecycle is not effect-ready" ;;
  reject negb (reservedIntent journal intent) || is_nil journal.(LinuxCloneSeedReceipt) ||
         is_nil journal.(LinuxCloneCheckoutReceipt)
    with Errorf "Linux clone promotion intent is missing its reserved checkout evidence" ;;
  reject abortFenced journal with Errorf "Linux clone promotion is fenced for pre-checkout abort" ;;
  match journal.(LinuxClonePromotionIntent) with
  | Some recorded =>
      reject negb (LinuxClonePromotionIntent.Equal recorded candidate)
        with Errorf "Linux clone promotion intent cannot be changed" ;;
      Ok journal
  | None =>
      reject non_nil journal.(LinuxClonePromotionReceipt)
        with Errorf "legacy Linux clone promotion receipt has no pre-effect candidate intent" ;;
      reject negb (linuxCloneStageCanAdvance journal)
        with Errorf "Linux clone promotion intent cannot advance after terminal fencing" ;;
      reject negb (stoppedUnreleased journal)
        with Errorf "Linux clone promotion intent requires the durable v2 stop receipt before release" ;;
      Ok (journal <| LinuxClonePromotionIntent := Some candidate |>)
  end.

Definition ReserveLinuxClonePromotion (fs : io) (store : Store) (key : RunKey.t) (fence' : Fence.t)
    (intent : LinuxCloneIntent.t) (candidate : LinuxClonePromotionIntent.t) (now : time) : Store * result RunJournal.t :=
  checked store (promotionArguments intent candidate)
    (mutateJournal fs store key (reserveLinuxClonePromotion fence' intent candidate now)).

Definition promotionReceiptArguments (key : RunKey.t) (intent : LinuxCloneIntent.t)
    (candidate : LinuxClonePromotionIntent.t) (receipt : LinuxClonePromotionReceipt.t) : result unit :=
  check requireLinuxClonePlatform ;;
  reject negb (LinuxClonePromotionIntent.Validate candidate) || negb (LinuxClonePromotionReceipt.Validate receipt) ||
         (candidate.(LinuxClonePromotionIntent.ResourceID) <>s intent.(LinuxCloneIntent.ResourceID)) ||
         negb (len candidate.(LinuxClonePromotionIntent.Commit) =? len intent.(LinuxCloneIntent.BaseCommit)) ||
         negb (receipt.(LinuxClonePromotionReceipt.Version) =? candidate.(LinuxClonePromotionIntent.Version)) ||
         (receipt.(LinuxClonePromotionReceipt.Commit) <>s candidate.(LinuxClonePromotionIntent.Commit)) ||
         (receipt.(LinuxClonePromotionReceipt.TreeDigest) <>s candidate.(LinuxClonePromotionIntent.TreeDigest))
    with Errorf "Linux clone promotion receipt does not match candidate intent" ;;
  reject negb (some_and (LinuxClonePromotionRef key.(RunKey.RunID) key.(RunKey.Generation)) (fun ref =>
           receipt.(LinuxClonePromotionReceipt.Ref) =s ref))
    with Errorf "Linux clone promotion ref does not match RunKey" ;;
  Ok tt.

Definition recordLinuxClonePromotion (fence' : Fence.t) (intent : LinuxCloneIntent.t)
    (candidate : LinuxClonePromotionIntent.t) (receipt : LinuxClonePromotionReceipt.t) (journal : RunJournal.t)
    : result RunJournal.t :=
  check requireLinuxCloneJournalFence journal fence' intent ;;
  reject negb (reservedIntent journal intent) || is_nil journal.(LinuxCloneSeedReceipt) ||
         is_nil journal.(LinuxCloneCheckoutReceipt) ||
         negb (some_and journal.(LinuxClonePromotionIntent) (fun recorded =>
           LinuxClonePromotionIntent.Equal recorded candidate))
    with Errorf "Linux clone promotion receipt has no exact durable intent" ;;
  reject abortFenced journal || negb (linuxCloneStopProven journal)
    with Errorf "Linux clone promotion receipt lacks durable physical-stop evidence" ;;
  match journal.(LinuxClonePromotionReceipt) with
  | Some recorded =>
      reject negb (LinuxClonePromotionReceipt.Equal recorded receipt)
        with Errorf "Linux clone promotion receipt cannot be changed" ;;
      Ok journal
  | None => Ok (journal <| LinuxClonePromotionReceipt := Some receipt |>)
  end.

Definition RecordLinuxClonePromotion (fs : io) (store : Store) (key : RunKey.t) (fence' : Fence.t)
    (intent : LinuxCloneIntent.t) (candidate : LinuxClonePromotionIntent.t) (receipt : LinuxClonePromotionReceipt.t)
    : Store * result RunJournal.t :=
  checked store (promotionReceiptArguments key intent candidate receipt)
    (mutateJournal fs store key (recordLinuxClonePromotion fence' intent candidate receipt)).

(** ** Abort before the checkout *)

Definition fenceCloneArguments (intent : LinuxCloneIntent.t) : result unit :=
  check requireLinuxClonePlatform ;;
  reject negb (LinuxCloneIntent.Validate intent) with Errorf "Linux clone intent is invalid" ;; Ok tt.

Definition fenceLinuxCloneBeforeCheckout (fence' : Fence.t) (intent : LinuxCloneIntent.t) (journal : RunJournal.t)
    : result RunJournal.t :=
  check requireLinuxCloneJournalFence journal fence' intent ;;
  reject negb (reservedIntent journal intent) || non_nil journal.(LinuxCloneCheckoutReceipt) ||
         non_nil journal.(LinuxClonePromotionReceipt)
    with Errorf "Linux clone is not eligible for pre-checkout abort fencing" ;;
  match journal.(LinuxCloneAbortProof) with
  | Some proof =>
      reject negb (LinuxCloneAbortProof.Validate proof) || negb (linuxCloneAbortHistoryMatches journal (Some proof)) ||
             negb (LinuxCloneIntent.Equal proof.(LinuxCloneAbortProof.Intent) intent) || journal.(LinuxCloneAbortPending)
        with Errorf "Linux clone abort fence conflicts with completed proof" ;;
      Ok journal
  | None =>
      reject negb (linuxCloneAbortFenceAvailable journal)
        with Errorf "Linux clone abort fence requires no producer or a durable no-gate abort proof" ;;
      if journal.(LinuxCloneAbortPending) then Ok journal
      else Ok (claim_workspace (journal <| LinuxCloneAbortPending := true |>) intent)
  end.

Definition FenceLinuxCloneBeforeCheckout (fs : io) (store : Store) (key : RunKey.t) (fence' : Fence.t)
    (intent : LinuxCloneIntent.t) : Store * result RunJournal.t :=
  checked store (fenceCloneArguments intent)
    (mutateJournal fs store key (fenceLinuxCloneBeforeCheckout fence' intent)).

Definition cloneAbortArguments (proof : LinuxCloneAbortProof.t) : result unit :=
  check requireLinuxClonePlatform ;;
  reject negb (LinuxCloneAbortProof.Validate proof) with Errorf "Linux clone abort proof is invalid" ;; Ok tt.

Definition completeLinuxCloneAbort (fence' : Fence.t) (intent : LinuxCloneIntent.t) (proof : LinuxCloneAbortProof.t)
    (journal : RunJournal.t) : result RunJournal.t :=
  check requireLinuxCloneJournalFence journal fence' intent ;;
  reject negb (reservedIntent journal intent) || negb (LinuxCloneIntent.Equal proof.(LinuxCloneAbortProof.Intent) intent) ||
         non_nil journal.(LinuxCloneCheckoutReceipt) || non_nil journal.(LinuxClonePromotionReceipt)
    with Errorf "Linux clone abort proof does not match a pre-checkout intent" ;;
  match journal.(LinuxCloneAbortProof) with
  | Some recorded =>
      reject negb (LinuxCloneAbortProof.Equal recorded proof) || journal.(LinuxCloneAbortPending)
        with Errorf "Linux clone abort proof replay conflicts with journal" ;;
      Ok journal
  | None =>
      reject negb journal.(LinuxCloneAbortPending)
        with Errorf "Linux clone abort completion has no durable creator fence" ;;
      reject negb (none_or journal.(LinuxCloneSeedReceipt) (fun seed =>
               some_and proof.(LinuxCloneAbortProof.SeedReceipt) (fun proven => LinuxCloneSeedReceipt.Equal seed proven)))
        with Errorf "Linux clone abort proof does not preserve the bound seed receipt" ;;
      reject negb (linuxCloneAbortHistoryMatches journal (Some proof))
        with Errorf "Linux clone abort proof does not match durable no-gate history" ;;
      Ok (drop_workspace (journal <| LinuxCloneAbortProof := Some proof |> <| LinuxCloneAbortPending := false |>))
  end.

Definition CompleteLinuxCloneAbort (fs : io) (store : Store) (key : RunKey.t) (fence' : Fence.t)
    (intent : LinuxCloneIntent.t) (proof : LinuxCloneAbortProof.t) : Store * result RunJournal.t :=
  checked store (cloneAbortArguments proof)
    (mutateJournal fs store key (completeLinuxCloneAbort fence' intent proof)).

Definition clearLinuxCloneNoTargetRetention (fence' : Fence.t) (proof : LinuxCloneAbortProof.t) (journal : RunJournal.t)
    : result RunJournal.t :=
  check requireLinuxCloneJournalFence journal fence' proof.(LinuxCloneAbortProof.Intent) ;;
  reject negb (reservedIntent journal proof.(LinuxCloneAbortProof.Intent)) || journal.(LinuxCloneAbortPending) ||
         negb (some_and journal.(LinuxCloneAbortProof) (fun recorded => LinuxCloneAbortProof.Equal recorded proof)) ||
         non_nil journal.(LinuxCloneCheckoutReceipt) || non_nil journal.(LinuxClonePromotionReceipt) ||
         (journal.(WorkspacePath) <>s "") || journal.(WorkspaceRecoveryRequired) ||
         negb (linuxCloneAbortHistoryMatches journal (Some proof))
    with Errorf "Linux clone retention clear lacks exact no-target abort proof" ;;
  Ok (journal <| RunJournal.RetainWorkspace := false |>).

Definition ClearLinuxCloneNoTargetRetention (fs : io) (store : Store) (key : RunKey.t) (fence' : Fence.t)
    (proof : LinuxCloneAbortProof.t) : Store * result RunJournal.t :=
  checked store (cloneAbortArguments proof)
    (mutateJournal fs store key (clearLinuxCloneNoTargetRetention fence' proof)).

(** ** Cleanup after promotion *)

Definition linuxCloneExactArtifactDelivered (journal : RunJournal.t) : bool :=
  non_nil (linuxCloneDeliveredArtifactIdentity journal).

Definition settledForCleanup (journal : RunJournal.t) (key : RunKey.t) (fence' : Fence.t) (now : time) : bool :=
  linuxAmd64 && bool_decide (Key journal = key) && sameFence (fence journal) fence' &&
  ((journal.(LocalState) =s "cleanup_pending") || (journal.(LocalState) =s "stale")) &&
  negb ((journal.(LocalState) =s "stale") && (journal.(TerminalState) =s "") && (now <? journal.(LeaseExpiresAt))) &&
  negb (HasProcessDetails journal) && negb (HasPendingContainment journal) &&
  match journal.(PendingCommandAcknowledgements), journal.(PendingTransitions), journal.(PendingEvents) with
  | [], [], [] => true | _, _, _ => false end &&
  negb (HasPendingGoalDeliveries journal) && negb journal.(NativeUsageRecoveryRequired).

Definition LinuxCloneCleanupBeginEligible (journal : RunJournal.t) (key : RunKey.t) (fence' : Fence.t) (now : time) : bool :=
  settledForCleanup journal key fence' now && (journal.(TerminalState) =s "completed") &&
  validTerminalVerdict journal.(TerminalVerdict) && (journal.(TerminalTaskResultKind) =s TaskResultCandidateCompletion) &&
  journal.(GoalDeliveryEnabled) && negb journal.(RunJournal.RetainWorkspace) && negb (abortFenced journal) &&
  is_nil journal.(ContainmentAuthority) && is_nil journal.(ContainmentHandoff) && is_nil journal.(ContainmentCgroup) &&
  is_nil journal.(ContainmentScans) && negb journal.(ContainmentUnproven) &&
  is_nil journal.(ContainmentCgroupPreGateReleaseProof) &&
  some_and journal.(ContainmentCgroupReleaseProof) (fun release =>
    SupervisorHandoffReleaseProof.Validate release &&
    (release.(SupervisorHandoffReleaseProof.Version) =? SupervisorHandoffVersionV2) &&
    non_nil release.(SupervisorHandoffReleaseProof.StopReceipt)) &&
  negb (hasUnresolvedProviderActions journal) && linuxCloneExactArtifactDelivered journal &&
  is_ok (validateLinuxCloneJournal journal) && is_nil journal.(LinuxCloneCleanupProof) &&
  some_and (linuxCloneCleanupIntentFromJournal journal) (fun cleanup =>
    if journal.(LinuxCloneCleanupPending)
    then some_and journal.(LinuxCloneCleanupIntent) (fun recorded => LinuxCloneCleanupIntent.Equal recorded cleanup)
    else is_nil journal.(LinuxCloneCleanupIntent)).

Definition linuxCloneArtifactReceiptRequired (journal : RunJournal.t) : bool :=
  if negb journal.(GoalDeliveryEnabled) || (journal.(TerminalState) <>s "completed") then false else
  match ParseAdmissionInput journal.(Work).(Work.Input) with
  | Some (Some admission) =>
      if admission.(Admission.Purpose) <>s "implement" then false
      else if journal.(TerminalTaskResultKind) =s TaskResultCandidateCompletion then
        negb (existsb (fun delivery =>
          (delivery.(GoalDelivery.Kind) =s GoalDeliveryEvidence) &&
          some_and delivery.(GoalDelivery.evidence) (fun evidence => evidence.(Evidence.Kind) =s EvidenceArtifact))
          journal.(DeliveredGoalDeliveries))
      else negb (string_in journal.(TerminalTaskResultKind)
                   ["progress"; "blocked"; "repair_required"; "replan_required"; "failed"; "plan_proposed"])
  | _ => true
  end.

Definition LinuxCloneCleanupEligible (journal : RunJournal.t) (key : RunKey.t) (fence' : Fence.t) (now : time) : bool :=
  settledForCleanup journal key fence' now && non_nil journal.(LinuxCloneIntent) &&
  negb (linuxCloneArtifactReceiptRequired journal) && is_ok (validateLinuxCloneJournal journal) &&
  match journal.(LinuxCloneAbortProof) with
  | Some proof =>
      LinuxCloneAbortProof.Validate proof && linuxCloneAbortHistoryMatches journal (Some proof) &&
      negb journal.(RunJournal.RetainWorkspace) && negb journal.(LinuxCloneAbortPending) && noCloneCleanup journal &&
      is_nil journal.(LinuxCloneCheckoutReceipt) && is_nil journal.(LinuxClonePromotionIntent) &&
      is_nil journal.(LinuxClonePromotionReceipt) && (journal.(WorkspacePath) =s "") &&
      negb journal.(WorkspaceRecoveryRequired)
  | None =>
      negb journal.(LinuxCloneAbortPending) && negb journal.(LinuxCloneCleanupPending) &&
      negb journal.(RunJournal.RetainWorkspace) && (journal.(TerminalState) =s "completed") &&
      some_and journal.(LinuxCloneCleanupIntent) (fun cleanup =>
      some_and journal.(LinuxCloneTargetRemovalProof) (fun removal =>
      some_and journal.(LinuxCloneCleanupProof) (fun proof =>
        LinuxCloneTargetRemovalProof.Validate removal &&
        LinuxCloneTargetRemovalProof.Equal proof.(LinuxCloneCleanupProof.TargetRemovalProof) removal &&
        LinuxCloneCleanupProof.Validate proof && LinuxCloneCleanupIntent.Equal proof.(LinuxCloneCleanupProof.Intent) cleanup &&
        linuxCloneCleanupIntentMatchesJournal journal cleanup))) &&
      linuxCloneExactArtifactDelivered journal && (journal.(WorkspacePath) =s "") &&
      negb journal.(WorkspaceRecoveryRequired)
  end.

Definition LinuxCloneCleanupIntentForJournal (journal : RunJournal.t) (now : time) : option LinuxCloneCleanupIntent.t :=
  match linuxCloneCleanupIntentFromJournal journal with
  | None => None
  | Some derived =>
      match journal.(LinuxCloneCleanupIntent) with
      | Some recorded => if LinuxCloneCleanupIntent.Equal recorded derived then Some recorded else None
      | None => if LinuxCloneCleanupBeginEligible journal (Key journal) (fence journal) now then Some derived else None
      end
  end.

Definition staleFence (journal : RunJournal.t) (key : RunKey.t) (fence' : Fence.t) : bool :=
  negb (bool_decide (Key journal = key)) || negb (sameFence (fence journal) fence').

Definition beginLinuxCloneCleanup (key : RunKey.t) (fence' : Fence.t) (now : time) (journal : RunJournal.t)
    : result RunJournal.t :=
  reject staleFence journal key fence' with Errorf "Linux clone cleanup RunKey fence is stale" ;;
  match journal.(LinuxCloneCleanupIntent) with
  | Some recorded =>
      match LinuxCloneCleanupIntentForJournal journal now with
      | None => Err (Errorf "Linux clone cleanup intent readback is invalid")
      | Some intent =>
          reject negb (LinuxCloneCleanupIntent.Equal recorded intent)
            with Errorf "Linux clone cleanup intent readback is invalid" ;;
          match journal.(LinuxCloneCleanupProof) with
          | Some proof =>
              reject journal.(LinuxCloneCleanupPending) ||
                     negb (LinuxCloneCleanupIntent.Equal proof.(LinuxCloneCleanupProof.Intent) intent)
                with Errorf "Linux clone cleanup proof conflicts with its intent" ;;
              Ok journal
          | None =>
              reject negb journal.(LinuxCloneCleanupPending) ||
                     negb (LinuxCloneCleanupBeginEligible journal key fence' now)
                with Errorf "Linux clone cleanup intent is not durably pending" ;;
              Ok journal
          end
      end
  | None =>
      reject journal.(LinuxCloneCleanupPending) || non_nil journal.(LinuxCloneCleanupProof) ||
             negb (LinuxCloneCleanupBeginEligible journal key fence' now)
        with Errorf "Linux clone cleanup is not eligible to begin" ;;
      match linuxCloneCleanupIntentFromJournal journal with
      | None => Err (Errorf "Linux clone cleanup intent lacks complete promotion and release evidence")
      | Some intent =>
          Ok (claim_workspace (journal <| LinuxCloneCleanupIntent := Some intent |> <| LinuxCloneCleanupPending := true |>)
                intent.(LinuxCloneCleanupIntent.Intent))
      end
  end.

Definition BeginLinuxCloneCleanup (fs : io) (store : Store) (key : RunKey.t) (fence' : Fence.t) (now : time)
    : Store * result RunJournal.t :=
  checked store requireLinuxClonePlatform (mutateJournal fs store key (beginLinuxCloneCleanup key fence' now)).

(** The pending cleanup the caller speaks for is the journal's own. *)
Definition cleanupPending (journal : RunJournal.t) (key : RunKey.t) (fence' : Fence.t) (now : time)
    (expected : LinuxCloneCleanupIntent.t) : bool :=
  journal.(LinuxCloneCleanupPending) &&
  some_and journal.(LinuxCloneCleanupIntent) (fun recorded => LinuxCloneCleanupIntent.Equal recorded expected) &&
  linuxCloneCleanupIntentMatchesJournal journal expected && LinuxCloneCleanupBeginEligible journal key fence' now.

Definition removalArguments (expected : LinuxCloneCleanupIntent.t) (proof : LinuxCloneTargetRemovalProof.t) : result unit :=
  check requireLinuxClonePlatform ;;
  reject negb (LinuxCloneCleanupIntent.Validate expected) || negb (LinuxCloneTargetRemovalProof.Validate proof) ||
         (proof.(LinuxCloneTargetRemovalProof.Disposition) <>s LinuxCloneTargetDispositionRemoved) ||
         negb proof.(LinuxCloneTargetRemovalProof.TargetNlinkZero) ||
         negb (LinuxCloneCleanupIntent.Equal proof.(LinuxCloneTargetRemovalProof.Intent) expected)
    with Errorf "Linux clone target-removal proof does not match cleanup intent" ;;
  Ok tt.

Definition recordLinuxCloneTargetRemoval (key : RunKey.t) (fence' : Fence.t) (expected : LinuxCloneCleanupIntent.t)
    (proof : LinuxCloneTargetRemovalProof.t) (now : time) (journal : RunJournal.t) : result RunJournal.t :=
  reject staleFence journal key fence' with Errorf "Linux clone target-removal fence is stale" ;;
  reject negb (cleanupPending journal key fence' now expected)
    with Errorf "Linux clone target-removal proof lacks its exact pending cleanup intent and gates" ;;
  match journal.(LinuxCloneTargetRemovalProof) with
  | Some recorded =>
      reject negb (LinuxCloneTargetRemovalProof.Equal recorded proof)
        with Errorf "Linux clone target-removal proof replay conflicts with journal" ;;
      Ok journal
  | None => Ok (journal <| LinuxCloneTargetRemovalProof := Some proof |>)
  end.

Definition RecordLinuxCloneTargetRemoval (fs : io) (store : Store) (key : RunKey.t) (fence' : Fence.t)
    (expected : LinuxCloneCleanupIntent.t) (proof : LinuxCloneTargetRemovalProof.t) (now : time)
    : Store * result RunJournal.t :=
  checked store (removalArguments expected proof)
    (mutateJournal fs store key (recordLinuxCloneTargetRemoval key fence' expected proof now)).

Definition cleanupProofArguments (expected : LinuxCloneCleanupIntent.t) (proof : LinuxCloneCleanupProof.t) : result unit :=
  check requireLinuxClonePlatform ;;
  reject negb (LinuxCloneCleanupIntent.Validate expected) || negb (LinuxCloneCleanupProof.Validate proof) ||
         negb (LinuxCloneCleanupIntent.Equal proof.(LinuxCloneCleanupProof.Intent) expected)
    with Errorf "Linux clone cleanup proof does not match cleanup intent" ;;
  Ok tt.

Definition removalRecorded (journal : RunJournal.t) (proof : LinuxCloneCleanupProof.t) : bool :=
  some_and journal.(LinuxCloneTargetRemovalProof) (fun removal =>
    LinuxCloneTargetRemovalProof.Equal removal proof.(LinuxCloneCleanupProof.TargetRemovalProof)).

Definition completeLinuxCloneCleanup (key : RunKey.t) (fence' : Fence.t) (expected : LinuxCloneCleanupIntent.t)
    (proof : LinuxCloneCleanupProof.t) (now : time) (journal : RunJournal.t) : result RunJournal.t :=
  reject staleFence journal key fence' with Errorf "Linux clone cleanup completion fence is stale" ;;
  match journal.(LinuxCloneCleanupProof) with
  | Some recorded =>
      reject journal.(LinuxCloneCleanupPending) || negb (removalRecorded journal proof) ||
             negb (some_and journal.(LinuxCloneCleanupIntent) (fun intent => LinuxCloneCleanupIntent.Equal intent expected)) ||
             negb (LinuxCloneCleanupProof.Equal recorded proof)
        with Errorf "Linux clone cleanup proof replay conflicts with journal" ;;
      Ok journal
  | None =>
      reject negb (cleanupPending journal key fence' now expected) || negb (removalRecorded journal proof) ||
             negb (LinuxCloneCleanupIntent.Equal proof.(LinuxCloneCleanupProof.Intent) expected)
        with Errorf "Linux clone cleanup completion lacks its exact pending intent and gates" ;;
      Ok (drop_workspace (journal <| LinuxCloneCleanupProof := Some proof |> <| LinuxCloneCleanupPending := false |>))
  end.

Definition CompleteLinuxCloneCleanup (fs : io) (store : Store) (key : RunKey.t) (fence' : Fence.t)
    (expected : LinuxCloneCleanupIntent.t) (proof : LinuxCloneCleanupProof.t) (now : time) : Store * result RunJournal.t :=
  checked store (cleanupProofArguments expected proof)
    (mutateJournal fs store key (completeLinuxCloneCleanup key fence' expected proof now)).
End Clone.

(** ** Accounting recovery *)

Definition mergeNativeUsageTerminalRecovery (settlement : option NativeUsageTerminalRecovery.t) (journal : RunJournal.t)
    : result RunJournal.t :=
  match settlement with
  | None => Ok journal
  | Some value =>
      reject negb (NativeUsageTerminalRecovery.valid value) with Errorf "native usage terminal recovery is invalid" ;;
      match journal.(NativeUsageTerminalRecovery) with
      | None => Ok (journal <| NativeUsageTerminalRecovery := Some value |>)
      | Some recorded =>
          reject negb (bool_decide (recorded = value)) with ErrGoalDeliveryConflict ;;
          Ok journal
      end
  end.

Definition markNativeUsageRecoverySettlement (settlement : option NativeUsageTerminalRecovery.t) (journal : RunJournal.t)
    : result RunJournal.t :=
  mergeNativeUsageTerminalRecovery settlement (journal <| NativeUsageRecoveryRequired := true |>).

Definition hasExactUsageDelivery (journal : RunJournal.t) (usage : Usage.t) : bool :=
  match GoalDelivery.prepare journal.(RunID)
          (GoalDelivery.mk GoalDeliveryUsage usage.(Usage.UsageKey) "" (fence journal) true None None None (Some usage)) with
  | Err _ => false
  | Ok delivery =>
      let exact candidate :=
        (candidate.(GoalDelivery.PayloadDigest) =s delivery.(GoalDelivery.PayloadDigest)) &&
        GoalDelivery.equal candidate delivery in
      existsb exact journal.(PendingGoalDeliveries) || existsb exact journal.(DeliveredGoalDeliveries) ||
      existsb (fun retired => exact retired.(GoalDeliveryRetirement.Delivery)) journal.(RetiredGoalDeliveries)
  end.

Definition clearUsageArguments (key : RunKey.t) (usage : Usage.t) : result unit :=
  reject negb (Usage.Validate usage) with Errorf "usage is invalid" ;;
  reject usage.(Usage.RunID) <>s key.(RunKey.RunID)
    with Errorf "native usage recovery run ID does not match journal" ;;
  Ok tt.

Definition clearNativeUsageRecoveryRequired (usage : Usage.t) (journal : RunJournal.t) : result RunJournal.t :=
  if negb journal.(NativeUsageRecoveryRequired) then Ok journal else
  reject negb (hasExactUsageDelivery journal usage) with Errorf "native usage recovery delivery is not durable" ;;
  Ok (journal <| NativeUsageRecoveryRequired := false |> <| NativeUsageTerminalRecovery := None |>).

Section Accounting.
Context `{AdmissionParser} `{JournalEncoder}.

Definition MarkNativeUsageRecoverySettlement (fs : io) (store : Store) (key : RunKey.t)
    (settlement : option NativeUsageTerminalRecovery.t) : Store * result RunJournal.t :=
  mutateJournal fs store key (markNativeUsageRecoverySettlement settlement).

Definition MarkNativeUsageRecoveryRequired (fs : io) (store : Store) (key : RunKey.t) : Store * result RunJournal.t :=
  MarkNativeUsageRecoverySettlement fs store key None.

Definition ClearNativeUsageRecoveryRequired (fs : io) (store : Store) (key : RunKey.t) (usage : Usage.t)
    : Store * result RunJournal.t :=
  checked store (clearUsageArguments key usage)
    (mutateJournal fs store key (clearNativeUsageRecoveryRequired usage)).
End Accounting.
