(* ===== verification/Native.v ===== *)
(** * Native: the containment and clone requests of a store

    The exported methods of [Store] that Cgroup.v, Containment.v and Clone.v
    model, as one type of requests: [native_execute] runs a method on the
    store and [native_callback] is the change it asks for, its argument checks
    included. [clear_native] forgets the fields these methods may write, so
    that [native_frame] says what they leave alone: the outbox, the commands,
    the provider actions, the lifecycle state and the terminal outcome. *)

From S2P Require Import Prelude Sha256 Json Authority Protocol Journal Validation Store Cgroup Containment Clone.
Import RunJournal.
Open Scope string_scope.
Open Scope Z_scope.

Inductive native : Type :=
| OpSetProcessDetails (pid : Z) (identity : string) (startedAt : time)
| OpSetProcessDetailsWithAuthority (pid : Z) (identity : string) (startedAt : time) (value : Supervisor.t)
| OpSetContainmentAuthority (pid : Z) (identity : string) (value : Supervisor.t)
| OpMarkContainmentUnproven (pid : Z) (identity : string)
| OpClearContainmentUnproven (pid : Z) (identity : string)
| OpClearProcessDetails (pid : Z) (identity : string)
| OpPrepareSupervisorHandoff (handoff : SupervisorHandoff.t)
| OpBindSupervisorHandoffV2 (expected : SupervisorHandoff.t) (helper mirror : LinuxCgroupProcessIdentity.t)
| OpBindSupervisorHandoff (expected : SupervisorHandoff.t) (pid : Z) (identity : string)
| OpCommitSupervisorHandoff (expected : SupervisorHandoff.t) (startedAt : time)
| OpRecordSupervisorHandoffStopReceipt (expected : SupervisorHandoff.t) (receipt : StopReceipt.t)
| OpRecordContainmentStopReceipt (pid : Z) (identity : string) (receipt : StopReceipt.t)
| OpRecordSupervisorRecoveryScanSeal (expected : Supervisor.t) (sequence : Z)
| OpClearSupervisorHandoff (expected : SupervisorHandoff.t) (proof : SupervisorHandoffReleaseProof.t)
| OpClearSupervisorHandoffAfterAbort (expected : SupervisorHandoff.t) (proof : SupervisorHandoffAbortProof.t)
| OpClearSupervisorHandoffV2 (expected : SupervisorHandoff.t) (release : LinuxCgroupV2Release)
| OpClearProcessDetailsV2 (pid : Z) (identity : string) (release : LinuxCgroupV2Release)
| OpReserveLinuxCgroup (fence' : Fence.t) (expected : LinuxCgroupReservation.t) (now : time) (liveOwners : owners)
| OpMarkLinuxCgroupCreateStarted (fence' : Fence.t) (expected : LinuxCgroupReservation.t) (now : time) (liveOwners : owners)
| OpBindLinuxCgroupLeaf (expected : LinuxCgroupReservation.t) (measured : LinuxCgroupIdentity.t)
| OpBindLinuxCgroupHelper (expected : LinuxCgroupReservation.t) (helper : LinuxCgroupProcessIdentity.t)
| OpBindLinuxCgroupLauncher (expected : LinuxCgroupReservation.t) (launcher : LinuxCgroupProcessIdentity.t)
| OpArmLinuxCgroupLauncherGrant (fence' : Fence.t) (expected : LinuxCgroupReservation.t) (now : time) (liveOwners : owners)
| OpRecordLinuxCgroupLauncherExit (expected : LinuxCgroupReservation.t) (proof : LinuxCgroupExitProof.t)
| OpBindLinuxCgroupGate (expected : LinuxCgroupReservation.t) (gate : LinuxCgroupGateIdentity.t)
| OpRecordLinuxCgroupHelperExit (expected : LinuxCgroupReservation.t) (proof : LinuxCgroupExitProof.t)
| OpAbortLinuxCgroupReservation (expected : LinuxCgroupReservation.t) (proof : LinuxCgroupReservationAbortProof.t)
| OpAbortNeverCreatedLinuxCgroupReservation (fence' : Fence.t) (expected : LinuxCgroupReservation.t)
| OpRecordLinuxCgroupPreGateStopReceipt (expected : LinuxCgroupReservation.t) (receipt : LinuxCgroupPreGateStopReceipt.t)
| OpClearLinuxCgroupReservationV2 (expected : LinuxCgroupReservation.t) (release : LinuxCgroupV2Release)
| OpReserveLinuxCloneIntent (fence' : Fence.t) (intent : LinuxCloneIntent.t) (now : time) (liveOwners : owners)
| OpBindLinuxCloneSeed (fence' : Fence.t) (intent : LinuxCloneIntent.t) (seed : LinuxCloneSeedReceipt.t)
| OpRecordLinuxCloneCheckoutReady (fence' : Fence.t) (intent : LinuxCloneIntent.t) (receipt : LinuxCloneCheckoutReceipt.t)
| OpReserveLinuxClonePromotion (fence' : Fence.t) (intent : LinuxCloneIntent.t) (candidate : LinuxClonePromotionIntent.t) (now : time)
| OpRecordLinuxClonePromotion (fence' : Fence.t) (intent : LinuxCloneIntent.t) (candidate : LinuxClonePromotionIntent.t) (receipt : LinuxClonePromotionReceipt.t)
| OpFenceLinuxCloneBeforeCheckout (fence' : Fence.t) (intent : LinuxCloneIntent.t)
| OpCompleteLinuxCloneAbort (fence' : Fence.t) (intent : LinuxCloneIntent.t) (proof : LinuxCloneAbortProof.t)
| OpClearLinuxCloneNoTargetRetention (fence' : Fence.t) (proof : LinuxCloneAbortProof.t)
| OpBeginLinuxCloneCleanup (fence' : Fence.t) (now : time)
| OpRecordLinuxCloneTargetRemoval (fence' : Fence.t) (expected : LinuxCloneCleanupIntent.t) (proof : LinuxCloneTargetRemovalProof.t) (now : time)
| OpCompleteLinuxCloneCleanup (fence' : Fence.t) (expected : LinuxCloneCleanupIntent.t) (proof : LinuxCloneCleanupProof.t) (now : time)
| OpMarkNativeUsageRecoverySettlement (settlement : option NativeUsageTerminalRecovery.t)
| OpClearNativeUsageRecoveryRequired (usage : Usage.t).

(** The journal of a callback that also returns a flag. *)
Definition drop_flag (r : result (RunJournal.t * bool)) : result RunJournal.t := rbind r (fun p => Ok p.1).

Section Native.
Context `{AdmissionParser} `{Platform}.

(** The change a native request makes to the loaded journal; [admits] is the
    scan of the other runs, made against the store the request came to. *)
Definition native_callback (admits : admission) (key : RunKey.t) (r : native) (journal : RunJournal.t) : result RunJournal.t :=
  match r with
  | OpSetProcessDetails pid identity startedAt =>
      check processDetailsArguments pid identity startedAt ;;
      setProcessDetails pid identity startedAt journal
  | OpSetProcessDetailsWithAuthority pid identity startedAt value =>
      check withAuthorityArguments pid identity startedAt value ;;
      setProcessDetailsWithAuthority pid identity startedAt value journal
  | OpSetContainmentAuthority pid identity value =>
      check setAuthorityArguments pid identity value ;;
      setContainmentAuthority pid identity value journal
  | OpMarkContainmentUnproven pid identity =>
      check markerArguments pid identity ;;
      markContainmentUnproven pid identity journal
  | OpClearContainmentUnproven pid identity =>
      check markerArguments pid identity ;;
      clearContainmentUnproven pid identity journal
  | OpClearProcessDetails pid identity =>
      check markerArguments pid identity ;;
      clearProcessDetails pid identity journal
  | OpPrepareSupervisorHandoff handoff =>
      check prepareHandoffArguments handoff ;;
      prepareSupervisorHandoff handoff journal
  | OpBindSupervisorHandoffV2 expected helper mirror =>
      check bindV2Arguments expected helper mirror ;;
      bindSupervisorHandoffV2 expected helper mirror journal
  | OpBindSupervisorHandoff expected pid identity =>
      check bindArguments expected pid identity ;;
      bindSupervisorHandoff expected pid identity journal
  | OpCommitSupervisorHandoff expected startedAt =>
      try argument <- commitArguments expected startedAt ;;
      commitSupervisorHandoff expected argument startedAt journal
  | OpRecordSupervisorHandoffStopReceipt expected receipt =>
      check handoffReceiptArguments expected receipt ;;
      recordSupervisorHandoffStopReceipt expected receipt journal
  | OpRecordContainmentStopReceipt pid identity receipt =>
      recordContainmentStopReceipt pid identity receipt journal
  | OpRecordSupervisorRecoveryScanSeal expected sequence =>
      check recoverySealArguments expected sequence ;;
      recordSupervisorRecoveryScanSeal expected sequence journal
  | OpClearSupervisorHandoff expected proof =>
      check clearHandoffArguments expected proof ;;
      clearSupervisorHandoff expected proof journal
  | OpClearSupervisorHandoffAfterAbort expected proof =>
      check abortHandoffArguments expected proof ;;
      drop_flag (clearSupervisorHandoffAfterAbort expected proof journal)
  | OpClearSupervisorHandoffV2 expected release =>
      try argument <- clearHandoffV2Arguments expected release ;;
      clearSupervisorHandoffV2 expected argument journal
  | OpClearProcessDetailsV2 pid identity release =>
      try argument <- clearProcessV2Arguments pid identity release ;;
      clearProcessDetailsV2 pid identity argument journal
  | OpReserveLinuxCgroup fence' expected now liveOwners =>
      check reserveArguments expected ;;
      reserveLinuxCgroup admits key fence' expected now liveOwners journal
  | OpMarkLinuxCgroupCreateStarted fence' expected now liveOwners =>
      check createStartedArguments expected ;;
      markLinuxCgroupCreateStarted admits key fence' expected now liveOwners journal
  | OpBindLinuxCgroupLeaf expected measured =>
      check leafArguments expected measured ;;
      bindLinuxCgroupLeaf expected measured journal
  | OpBindLinuxCgroupHelper expected helper =>
      check processArguments expected helper ;;
      bindLinuxCgroupHelper expected helper journal
  | OpBindLinuxCgroupLauncher expected launcher =>
      check processArguments expected launcher ;;
      bindLinuxCgroupLauncher expected launcher journal
  | OpArmLinuxCgroupLauncherGrant fence' expected now liveOwners =>
      check grantArguments expected ;;
      armLinuxCgroupLauncherGrant admits key fence' expected now liveOwners journal
  | OpRecordLinuxCgroupLauncherExit expected proof =>
      check exitArguments expected proof ;;
      recordLinuxCgroupLauncherExit expected proof journal
  | OpBindLinuxCgroupGate expected gate =>
      check gateArguments expected gate ;;
      bindLinuxCgroupGate expected gate journal
  | OpRecordLinuxCgroupHelperExit expected proof =>
      check exitArguments expected proof ;;
      recordLinuxCgroupHelperExit expected proof journal
  | OpAbortLinuxCgroupReservation expected proof =>
      check abortArguments expected proof ;;
      applyLinuxCgroupReservationAbort expected proof journal
  | OpAbortNeverCreatedLinuxCgroupReservation fence' expected =>
      try argument <- neverCreatedArguments expected ;;
      abortNeverCreated fence' expected argument journal
  | OpRecordLinuxCgroupPreGateStopReceipt expected receipt =>
      check preGateArguments expected receipt ;;
      recordPreGateStopReceipt expected receipt journal
  | OpClearLinuxCgroupReservationV2 expected release =>
      try argument <- clearReservationArguments expected release ;;
      clearLinuxCgroupReservation expected argument journal
  | OpReserveLinuxCloneIntent fence' intent now liveOwners =>
      check reserveCloneArguments key intent ;;
      reserveLinuxCloneIntent admits key fence' intent now liveOwners journal
  | OpBindLinuxCloneSeed fence' intent seed =>
      check seedArguments intent seed ;;
      bindLinuxCloneSeed fence' intent seed journal
  | OpRecordLinuxCloneCheckoutReady fence' intent receipt =>
      check checkoutArguments receipt ;;
      recordLinuxCloneCheckoutReady fence' intent receipt journal
  | OpReserveLinuxClonePromotion fence' intent candidate now =>
      check promotionArguments intent candidate ;;
      reserveLinuxClonePromotion fence' intent candidate now journal
  | OpRecordLinuxClonePromotion fence' intent candidate receipt =>
      check promotionReceiptArguments key intent candidate receipt ;;
      recordLinuxClonePromotion fence' intent candidate receipt journal
  | OpFenceLinuxCloneBeforeCheckout fence' intent =>
      check fenceCloneArguments intent ;;
      fenceLinuxCloneBeforeCheckout fence' intent journal
  | OpCompleteLinuxCloneAbort fence' intent proof =>
      check cloneAbortArguments proof ;;
      completeLinuxCloneAbort fence' intent proof journal
  | OpClearLinuxCloneNoTargetRetention fence' proof =>
      check cloneAbortArguments proof ;;
      clearLinuxCloneNoTargetRetention fence' proof journal
  | OpBeginLinuxCloneCleanup fence' now =>
      check requireLinuxClonePlatform ;;
      beginLinuxCloneCleanup key fence' now journal
  | OpRecordLinuxCloneTargetRemoval fence' expected proof now =>
      check removalArguments expected proof ;;
      recordLinuxCloneTargetRemoval key fence' expected proof now journal
  | OpCompleteLinuxCloneCleanup fence' expected proof now =>
      check cleanupProofArguments expected proof ;;
      completeLinuxCloneCleanup key fence' expected proof now journal
  | OpMarkNativeUsageRecoverySettlement settlement =>
      markNativeUsageRecoverySettlement settlement journal
  | OpClearNativeUsageRecoveryRequired usage =>
      check clearUsageArguments key usage ;;
      clearNativeUsageRecoveryRequired usage journal
  end.

Context `{JournalEncoder}.

(** One served request: the exported method, with its error discarded. *)
Definition native_execute (fs : io) (store : Store) (key : RunKey.t) (r : native) : Store :=
  match r with
  | OpSetProcessDetails pid identity startedAt =>
      (SetProcessDetails fs store key pid identity startedAt).1
  | OpSetProcessDetailsWithAuthority pid identity startedAt value =>
      (SetProcessDetailsWithAuthority fs store key pid identity startedAt value).1
  | OpSetContainmentAuthority pid identity value =>
      (SetContainmentAuthority fs store key pid identity value).1
  | OpMarkContainmentUnproven pid identity =>
      (MarkContainmentUnproven fs store key pid identity).1
  | OpClearContainmentUnproven pid identity =>
      (ClearContainmentUnproven fs store key pid identity).1
  | OpClearProcessDetails pid identity =>
      (ClearProcessDetails fs store key pid identity).1
  | OpPrepareSupervisorHandoff handoff =>
      (PrepareSupervisorHandoff fs store key handoff).1
  | OpBindSupervisorHandoffV2 expected helper mirror =>
      (BindSupervisorHandoffV2 fs store key expected helper mirror).1
  | OpBindSupervisorHandoff expected pid identity =>
      (BindSupervisorHandoff fs store key expected pid identity).1
  | OpCommitSupervisorHandoff expected startedAt =>
      (CommitSupervisorHandoff fs store key expected startedAt).1
  | OpRecordSupervisorHandoffStopReceipt expected receipt =>
      (RecordSupervisorHandoffStopReceipt fs store key expected receipt).1
  | OpRecordContainmentStopReceipt pid identity receipt =>
      (RecordContainmentStopReceipt fs store key pid identity receipt).1
  | OpRecordSupervisorRecoveryScanSeal expected sequence =>
      (RecordSupervisorRecoveryScanSeal fs store key expected sequence).1
  | OpClearSupervisorHandoff expected proof =>
      (ClearSupervisorHandoff fs store key expected proof).1
  | OpClearSupervisorHandoffAfterAbort expected proof =>
      (ClearSupervisorHandoffAfterAbort fs store key expected proof).1
  | OpClearSupervisorHandoffV2 expected release =>
      (ClearSupervisorHandoffV2 fs store key expected release).1
  | OpClearProcessDetailsV2 pid identity release =>
      (ClearProcessDetailsV2 fs store key pid identity release).1
  | OpReserveLinuxCgroup fence' expected now liveOwners =>
      (ReserveLinuxCgroup fs store key fence' expected now liveOwners).1
  | OpMarkLinuxCgroupCreateStarted fence' expected now liveOwners =>
      (MarkLinuxCgroupCreateStarted fs store key fence' expected now liveOwners).1
  | OpBindLinuxCgroupLeaf expected measured =>
      (BindLinuxCgroupLeaf fs store key expected measured).1
  | OpBindLinuxCgroupHelper expected helper =>
      (BindLinuxCgroupHelper fs store key expected helper).1
  | OpBindLinuxCgroupLauncher expected launcher =>
      (BindLinuxCgroupLauncher fs store key expected launcher).1
  | OpArmLinuxCgroupLauncherGrant fence' expected now liveOwners =>
      (ArmLinuxCgroupLauncherGrant fs store key fence' expected now liveOwners).1
  | OpRecordLinuxCgroupLauncherExit expected proof =>
      (RecordLinuxCgroupLauncherExit fs store key expected proof).1
  | OpBindLinuxCgroupGate expected gate =>
      (BindLinuxCgroupGate fs store key expected gate).1
  | OpRecordLinuxCgroupHelperExit expected proof =>
      (RecordLinuxCgroupHelperExit fs store key expected proof).1
  | OpAbortLinuxCgroupReservation expected proof =>
      (AbortLinuxCgroupReservation fs store key expected proof).1
  | OpAbortNeverCreatedLinuxCgroupReservation fence' expected =>
      (AbortNeverCreatedLinuxCgroupReservation fs store key fence' expected).1
  | OpRecordLinuxCgroupPreGateStopReceipt expected receipt =>
      (RecordLinuxCgroupPreGateStopReceipt fs store key expected receipt).1
  | OpClearLinuxCgroupReservationV2 expected release =>
      (ClearLinuxCgroupReservationV2 fs store key expected release).1
  | OpReserveLinuxCloneIntent fence' intent now liveOwners =>
      (ReserveLinuxCloneIntent fs store key fence' intent now liveOwners).1
  | OpBindLinuxCloneSeed fence' intent seed =>
      (BindLinuxCloneSeed fs store key fence' intent seed).1
  | OpRecordLinuxCloneCheckoutReady fence' intent receipt =>
      (RecordLinuxCloneCheckoutReady fs store key fence' intent receipt).1
  | OpReserveLinuxClonePromotion fence' intent candidate now =>
      (ReserveLinuxClonePromotion fs store key fence' intent candidate now).1
  | OpRecordLinuxClonePromotion fence' intent candidate receipt =>
      (RecordLinuxClonePromotion fs store key fence' intent candidate receipt).1
  | OpFenceLinuxCloneBeforeCheckout fence' intent =>
      (FenceLinuxCloneBeforeCheckout fs store key fence' intent).1
  | OpCompleteLinuxCloneAbort fence' intent proof =>
      (CompleteLinuxCloneAbort fs store key fence' intent proof).1
  | OpClearLinuxCloneNoTargetRetention fence' proof =>
      (ClearLinuxCloneNoTargetRetention fs store key fence' proof).1
  | OpBeginLinuxCloneCleanup fence' now =>
      (BeginLinuxCloneCleanup fs store key fence' now).1
  | OpRecordLinuxCloneTargetRemoval fence' expected proof now =>
      (RecordLinuxCloneTargetRemoval fs store key fence' expected proof now).1
  | OpCompleteLinuxCloneCleanup fence' expected proof now =>
      (CompleteLinuxCloneCleanup fs store key fence' expected proof now).1
  | OpMarkNativeUsageRecoverySettlement settlement =>
      (MarkNativeUsageRecoverySettlement fs store key settlement).1
  | OpClearNativeUsageRecoveryRequired usage =>
      (ClearNativeUsageRecoveryRequired fs store key usage).1
  end.
End Native.

(** The fields the native requests may write. *)
Definition clear_native (journal : RunJournal.t) : RunJournal.t :=
  journal <| PID := 0 |> <| ProcessIdentity := "" |> <| StartedAt := 0 |> <| ContainmentAuthority := None |>
          <| ContainmentHandoff := None |> <| ContainmentScans := None |> <| ContainmentUnproven := false |>
          <| ContainmentCgroup := None |> <| ContainmentCgroupReleaseProof := None |>
          <| ContainmentCgroupPreGateReleaseProof := None |> <| LinuxCloneIntent := None |>
          <| LinuxCloneSeedReceipt := None |> <| LinuxCloneCheckoutReceipt := None |>
          <| LinuxClonePromotionIntent := None |> <| LinuxClonePromotionReceipt := None |>
          <| LinuxCloneAbortPending := false |> <| LinuxCloneAbortProof := None |>
          <| LinuxCloneCleanupPending := false |> <| LinuxCloneCleanupIntent := None |>
          <| LinuxCloneTargetRemovalProof := None |> <| LinuxCloneCleanupProof := None |>
          <| WorkspacePath := "" |> <| WorkspaceBindingKey := "" |> <| WorkspaceRecoveryRequired := false |>
          <| RunJournal.RetainWorkspace := false |> <| NativeUsageRecoveryRequired := false |>
          <| NativeUsageTerminalRecovery := None |>.

(** Recording a receipt writes it where there is none, or finds it there. *)
Lemma witnessOnce_inv recorded receipt fresh :
  witnessOnce recorded receipt = Ok fresh ->
  fresh = false /\ recorded = Some receipt \/ fresh = true /\ recorded = None.
Proof.
  unfold witnessOnce. destruct recorded as [existing|]; [|intros; inv_ok; by right].
  destruct (StopReceipt.Equal existing receipt) eqn:E; intros; inv_ok. eqb_subst E. by left.
Qed.

Lemma handoffReceipt_inv current receipt journal after :
  handoffReceipt current receipt journal = Ok after ->
  current.(SupervisorHandoff.StopReceipt) = Some receipt /\ after = journal \/
  current.(SupervisorHandoff.StopReceipt) = None /\
  after = journal <| ContainmentHandoff := Some (current <| SupervisorHandoff.StopReceipt := Some receipt |>) |>.
Proof.
  unfold handoffReceipt. intros Hrun. inv_ok. subst. apply witnessOnce_inv in E as [[-> ->]|[-> ->]];
    [left|right]; done.
Qed.

Lemma authorityReceipt_inv current receipt journal after :
  authorityReceipt current receipt journal = Ok after ->
  current.(Supervisor.StopReceipt) = Some receipt /\ after = journal \/
  current.(Supervisor.StopReceipt) = None /\
  after = journal <| ContainmentAuthority := Some (current <| Supervisor.StopReceipt := Some receipt |>) |>.
Proof.
  unfold authorityReceipt. intros Hrun. inv_ok. subst. apply witnessOnce_inv in E as [[-> ->]|[-> ->]];
    [left|right]; done.
Qed.

(** A stage of a reservation: a replay, or the compare-and-set. *)
Lemma stageCgroup_inv expected after journal journal' :
  stageCgroup expected after journal = Ok journal' ->
  journal.(ContainmentCgroup) = Some after /\ journal' = journal \/
  journal.(ContainmentCgroup) = Some expected /\ expected.(LinuxCgroupReservation.AbortProof) = None /\
  expected.(LinuxCgroupReservation.PreGateStopReceipt) = None /\ LinuxCgroupReservation.Validate after = true /\
  journal' = journal <| ContainmentCgroup := Some after |>.
Proof.
  unfold stageCgroup, exactCgroupMutationStage. intros Hrun. inv_ok. subst.
  destruct (ContainmentCgroup journal) as [current|]; [|done]. inv_ok. breflect.
  destruct (LinuxCgroupReservation.Equal current after) eqn:Ea; inv_ok; subst.
  - eqb_subst Ea. by left.
  - destruct (LinuxCgroupReservation.Equal current expected) eqn:Ee; inv_ok. subst. eqb_subst Ee.
    right. unfold non_nil in *. breflect. done.
Qed.

(** The bodies of the callbacks, and their successful branches. *)
Ltac open_native H :=
  cbv [native_callback drop_flag setProcessDetails registerProcess setProcessDetailsWithAuthority setContainmentAuthority bindAuthority
       markContainmentUnproven clearContainmentUnproven clearProcessDetails prepareSupervisorHandoff prepareV1Handoff
       prepareV2Handoff recordSupervisorScanUpdate bindSupervisorHandoffV2 bindSupervisorHandoff
       commitSupervisorHandoff commitReplay recordSupervisorHandoffStopReceipt recordV1HandoffReceipt
       recordV2HandoffReceipt recordContainmentStopReceipt
       recordSupervisorRecoveryScanSeal clearSupervisorHandoff clearSupervisorHandoffAfterAbort clearSupervisorHandoffV2
       clearProcessDetailsV2 reserveLinuxCgroup markLinuxCgroupCreateStarted bindLinuxCgroupLeaf bindLinuxCgroupHelper
       bindLinuxCgroupLauncher armLinuxCgroupLauncherGrant recordLinuxCgroupLauncherExit bindLinuxCgroupGate
       recordLinuxCgroupHelperExit applyLinuxCgroupReservationAbort abortNeverCreated recordPreGateStopReceipt
       clearLinuxCgroupReservation reserveLinuxCloneIntent bindLinuxCloneSeed recordLinuxCloneCheckoutReady
       reserveLinuxClonePromotion recordLinuxClonePromotion fenceLinuxCloneBeforeCheckout completeLinuxCloneAbort
       clearLinuxCloneNoTargetRetention beginLinuxCloneCleanup recordLinuxCloneTargetRemoval completeLinuxCloneCleanup
       markNativeUsageRecoverySettlement mergeNativeUsageTerminalRecovery clearNativeUsageRecoveryRequired] in H.

Ltac invert_native :=
  repeat first
    [ progress inv_ok
    | match goal with
      | H : handoffReceipt _ _ _ = Ok _ |- _ =>
          let R := fresh "Hrecorded" in apply handoffReceipt_inv in H as [[R ->]|[R ->]]; rewrite ?R in *
      | H : authorityReceipt _ _ _ = Ok _ |- _ =>
          let R := fresh "Hrecorded" in apply authorityReceipt_inv in H as [[R ->]|[R ->]]; rewrite ?R in *
      | H : stageCgroup _ _ _ = Ok _ |- _ =>
          let C := fresh "Hcurrent" in apply stageCgroup_inv in H as [[C ->]|(C & ? & ? & ? & ->)]
      end
    | match goal with H : match ?x with _ => _ end = Ok _ |- _ => destruct x eqn:? end ];
  subst; cbn [proven is_nil] in *.

Section Frame.
Context `{AdmissionParser} `{Platform}.

Lemma clone_fence_binding journal fence' intent a :
  requireLinuxCloneJournalFence journal fence' intent = Ok a ->
  intent.(LinuxCloneIntent.BindingKey) = journal.(WorkspaceBindingKey).
Proof. unfold requireLinuxCloneJournalFence. intros Hrun. inv_ok. by breflect. Qed.

(** The intent a cleanup is derived from is the journal's own. *)
Lemma cleanup_binding journal key fence' now cleanup :
  LinuxCloneCleanupBeginEligible journal key fence' now = true ->
  linuxCloneCleanupIntentFromJournal journal = Some cleanup ->
  cleanup.(LinuxCloneCleanupIntent.Intent).(LinuxCloneIntent.BindingKey) = journal.(WorkspaceBindingKey).
Proof.
  unfold LinuxCloneCleanupBeginEligible. intros Heligible Hfrom. breflect.
  match goal with Hv : is_ok (validateLinuxCloneJournal _) = true |- _ => rename Hv into Hvalid end.
  unfold linuxCloneCleanupIntentFromJournal in Hfrom. apply bind_Some in Hfrom as (intent & Hintent & Hfrom).
  assert (cleanup.(LinuxCloneCleanupIntent.Intent) = intent) as ->.
  { do 7 (apply bind_Some in Hfrom as (? & _ & Hfrom)).
    apply bind_Some in Hfrom as ([[[? ?] ?] ?] & _ & Hfrom). cbv zeta in Hfrom.
    destruct (LinuxCloneCleanupIntent.Validate _); [|done]. by injection Hfrom as <-. }
  unfold validateLinuxCloneJournal in Hvalid. rewrite Hintent in Hvalid.
  match type of Hvalid with is_ok (if ?b then _ else _) = _ => destruct b eqn:Hb; [done|] end. by breflect.
Qed.

(** A native request keeps everything outside [clear_native], and the
    workspace binding. *)
Lemma native_frame admits key r journal journal' :
  native_callback admits key r journal = Ok journal' ->
  clear_native journal' = clear_native journal /\ journal'.(WorkspaceBindingKey) = journal.(WorkspaceBindingKey).
Proof.
  intros Hrun. destruct r; open_native Hrun; invert_native; try (split; reflexivity).
  all: split; [reflexivity|].
  all: try (eapply clone_fence_binding; eassumption).
  breflect. by eapply cleanup_binding.
Qed.

Lemma native_field {A} (field : RunJournal.t -> A) admits key r journal journal' :
  (forall j, field (clear_native j) = field j) ->
  native_callback admits key r journal = Ok journal' -> field journal' = field journal.
Proof. intros Hfield [Hframe _]%native_frame. by rewrite <- Hfield, Hframe, Hfield. Qed.
End Frame.

(** A field no native request writes. *)
Ltac native_kept H :=
  match goal with |- ?field _ = _ => exact (native_field field _ _ _ _ _ (fun j => eq_refl) H) end.
