(* ===== verification/Outbox.v ===== *)
(** * Outbox: events, transitions, acknowledgements and the terminal protocol

    src/daemon/internal/state/state.go (3613-4487) and control.go: what a run
    queues for the control plane before it sends it, and the one-way path
    from running through [terminal_pending] to [cleanup_pending]. Each
    operation is the callback it runs on the loaded journal (a function to a
    [result]) and, in the last section, that callback under
    [Store.mutateJournal]. *)

From S2P Require Import Prelude Sha256 Json Authority Protocol Journal Validation Store.
Import RunJournal.
Open Scope string_scope.
Open Scope Z_scope.

Definition no_grant : error := Errorf "journal has no claim grant".

(** ** Leases *)

Definition updateLeaseExpiry (expiry : time) (journal : RunJournal.t) : result RunJournal.t :=
  reject journal.(LeaseToken) =s "" with no_grant ;;
  Ok (journal <| LeaseExpiresAt := expiry |>).

Definition advanceLeaseExpiry (expiry : time) (journal : RunJournal.t) : result RunJournal.t :=
  reject journal.(LeaseToken) =s "" with no_grant ;;
  if terminalLocalState journal.(LocalState) then Ok journal
  else if journal.(LeaseExpiresAt) <? expiry then Ok (journal <| LeaseExpiresAt := expiry |>) else Ok journal.

(** ** Events *)

Definition nextSequence (journal : RunJournal.t) : Z := wrap64 (journal.(LastEventSequence) + 1).

Definition with_sequence (event : RunEvent.t) (sequence : Z) : RunEvent.t :=
  RunEvent.mk event.(RunEvent.EventID) sequence event.(RunEvent.Kind) event.(RunEvent.OccurredAt)
    event.(RunEvent.Payload).

Definition with_kind (event : RunEvent.t) (kind : string) : RunEvent.t :=
  RunEvent.mk event.(RunEvent.EventID) event.(RunEvent.Sequence) kind event.(RunEvent.OccurredAt)
    event.(RunEvent.Payload).

Definition appendEvent (journal : RunJournal.t) (event : RunEvent.t) (message : string) : result RunJournal.t :=
  reject negb (hasClaimGrant journal) with no_grant ;;
  reject blank event.(RunEvent.EventID) || blank event.(RunEvent.Kind) ||
         negb (event.(RunEvent.Sequence) =? nextSequence journal) || IsZero event.(RunEvent.OccurredAt) ||
         negb (validRawMessage event.(RunEvent.Payload)) with Errorf message ;;
  Ok (journal <| PendingEvents := (journal.(PendingEvents) ++ [event])%list |>
              <| LastEventSequence := event.(RunEvent.Sequence) |>).

Definition queueNextEvent (event : RunEvent.t) (journal : RunJournal.t) : result RunJournal.t :=
  appendEvent journal (with_sequence event (nextSequence journal)) "event is invalid".

Definition isOutput (event : RunEvent.t) : bool := event.(RunEvent.Kind) =s "output".

Fixpoint outputBytes (events : list RunEvent.t) : Z :=
  match events with
  | [] => 0
  | event :: rest => (if isOutput event then len event.(RunEvent.Payload) else 0) + outputBytes rest
  end.

(** [QueueOutputEvent]: the flag is [dropped]. *)
Definition queueOutputEvent (event : RunEvent.t) (budget : Z) (journal : RunJournal.t) : result (RunJournal.t * bool) :=
  reject negb (hasClaimGrant journal) with no_grant ;;
  reject negb (isOutput event) || negb (validRequiredString event.(RunEvent.EventID) 4096) ||
         IsZero event.(RunEvent.OccurredAt) || negb (validRawMessage event.(RunEvent.Payload))
    with Errorf "event is invalid" ;;
  let pending := outputBytes journal.(PendingEvents) in
  let payloadBytes := len event.(RunEvent.Payload) in
  if (0 <=? budget) && ((budget <? pending) || (budget - pending <? payloadBytes)) then
    Ok (journal <| DroppedOutputChunks := wrap64 (journal.(DroppedOutputChunks) + 1) |>
                <| DroppedOutputBytes := wrap64 (journal.(DroppedOutputBytes) + payloadBytes) |>, true)
  else rbind (queueNextEvent event journal) (fun journal => Ok (journal, false)).

(** [json.Marshal] of the two counters; map keys are sorted. *)
Definition truncatedPayload (journal : RunJournal.t) : string :=
  enc_object [("dropped_bytes", FormatInt journal.(DroppedOutputBytes));
              ("dropped_chunks", FormatInt journal.(DroppedOutputChunks))].

(** [appendOutputTruncatedMarker]; [newEventID] is [None] for a nil or
    failing generator. *)
Definition appendOutputTruncatedMarker (at_ : time) (newEventID : option string) (journal : RunJournal.t)
    : result (RunJournal.t * bool) :=
  reject negb (hasClaimGrant journal) with no_grant ;;
  if journal.(DroppedOutputChunks) =? 0 then Ok (journal, false) else
  match newEventID with
  | None => Err (Errorf "output truncation marker ID generator is unavailable")
  | Some eventID =>
      try journal' <- appendEvent journal
        (RunEvent.mk eventID (nextSequence journal) "output_truncated" at_ (truncatedPayload journal))
        "event is invalid" ;;
      Ok (journal' <| DroppedOutputChunks := 0 |> <| DroppedOutputBytes := 0 |>, true)
  end.

Definition removeEvents (events : list RunEvent.t) (ids : list string) : list RunEvent.t :=
  List.filter (fun event => negb (string_in event.(RunEvent.EventID) ids)) events.

Definition markEventsDelivered (ids : list string) (journal : RunJournal.t) : result RunJournal.t :=
  Ok (journal <| PendingEvents := removeEvents journal.(PendingEvents) ids |>).

Definition markEventsDeliveredAndQueueMarker (ids : list string) (at_ : time) (newEventID : option string)
    (journal : RunJournal.t) : result (RunJournal.t * bool) :=
  appendOutputTruncatedMarker at_ newEventID
    (journal <| PendingEvents := removeEvents journal.(PendingEvents) ids |>).

(** ** Transitions *)

Definition prepareTransition (journal : RunJournal.t) (transition : StateTransitionRequest.t)
    : result StateTransitionRequest.t :=
  reject negb (hasClaimGrant journal) with no_grant ;;
  reject blank transition.(StateTransitionRequest.TransitionID) || blank transition.(StateTransitionRequest.State) ||
         negb (validRawMessage transition.(StateTransitionRequest.Payload)) with Errorf "state transition is invalid" ;;
  let prepared := if isZeroFence transition.(StateTransitionRequest.fence)
                  then StateTransitionRequest.mk (fence journal) transition.(StateTransitionRequest.TransitionID)
                         transition.(StateTransitionRequest.State) transition.(StateTransitionRequest.Payload)
                  else transition in
  reject negb (sameFence prepared.(StateTransitionRequest.fence) (fence journal))
    with Errorf "state transition fence does not match journal" ;;
  Ok prepared.

Definition queueTransition (transition : StateTransitionRequest.t) (journal : RunJournal.t) : result RunJournal.t :=
  try prepared <- prepareTransition journal transition ;;
  Ok (journal <| PendingTransitions := (journal.(PendingTransitions) ++ [prepared])%list |>).

(** [QueueTransition] *)
Definition queuePlainTransition (transition : StateTransitionRequest.t) (journal : RunJournal.t) : result RunJournal.t :=
  reject isTerminalTransitionState transition.(StateTransitionRequest.State)
    with Errorf "terminal transition requires terminal queue" ;;
  queueTransition transition journal.

Definition queueRunningTransition (transition : StateTransitionRequest.t) (journal : RunJournal.t) : result RunJournal.t :=
  try prepared <- prepareTransition journal transition ;;
  reject prepared.(StateTransitionRequest.State) <>s "running" with Errorf "running transition state is invalid" ;;
  reject (journal.(LocalState) =s "terminal_pending") || hasPendingTerminalTransition journal.(PendingTransitions)
    with Errorf "running transition follows terminal transition" ;;
  Ok (journal <| PendingTransitions := (journal.(PendingTransitions) ++ [prepared])%list |> <| LocalState := "running" |>).

Definition hasPendingTransition (transitions : list StateTransitionRequest.t) (id : string) : bool :=
  existsb (fun transition => transition.(StateTransitionRequest.TransitionID) =s id) transitions.

Definition hasAttemptedTransition (attempted : list string) (id : string) : bool := string_in id attempted.

Definition retainAttemptedTransitions (attempted : list string) (pending : list StateTransitionRequest.t) : list string :=
  List.filter (hasPendingTransition pending) attempted.

(** Replace the payload of the last transition. *)
Fixpoint update_last {A} (f : A -> A) (l : list A) : list A :=
  match l with
  | [] => []
  | [x] => [f x]
  | x :: l' => x :: update_last f l'
  end.

Definition with_payload (payload : string) (transition : StateTransitionRequest.t) : StateTransitionRequest.t :=
  StateTransitionRequest.mk transition.(StateTransitionRequest.fence) transition.(StateTransitionRequest.TransitionID)
    transition.(StateTransitionRequest.State) payload.

Definition queueWaitingForInput (event : RunEvent.t) (transition : StateTransitionRequest.t) (journal : RunJournal.t)
    : result RunJournal.t :=
  let event := with_sequence event (nextSequence journal) in
  let message := "waiting event is invalid" in
  reject event.(RunEvent.Kind) <>s "waiting_for_input" with Errorf message ;;
  if journal.(LocalState) =s "paused" then appendEvent journal (with_kind event "agent_event") message
  else if (journal.(LocalState) =s "terminal_pending") || hasPendingTerminalTransition journal.(PendingTransitions)
  then appendEvent journal event message
  else
    try prepared <- prepareTransition journal transition ;;
    reject prepared.(StateTransitionRequest.State) <>s "waiting_for_input"
      with Errorf "waiting transition state is invalid" ;;
    try journal <- appendEvent journal event message ;;
    let transitions :=
      match last journal.(PendingTransitions) with
      | None =>
          if journal.(LocalState) <>s "waiting_for_input" then [prepared] else []
      | Some newest =>
          if newest.(StateTransitionRequest.State) =s "waiting_for_input" then
            if hasAttemptedTransition journal.(AttemptedTransitionIDs) newest.(StateTransitionRequest.TransitionID)
            then journal.(PendingTransitions)
            else update_last (with_payload prepared.(StateTransitionRequest.Payload)) journal.(PendingTransitions)
          else (journal.(PendingTransitions) ++ [prepared])%list
      end in
    Ok (journal <| PendingTransitions := transitions |> <| LocalState := "waiting_for_input" |>).

Definition removeTransitions (transitions : list StateTransitionRequest.t) (ids : list string)
    : list StateTransitionRequest.t :=
  List.filter (fun transition => negb (string_in transition.(StateTransitionRequest.TransitionID) ids)) transitions.

Definition markTransitionsDelivered (ids : list string) (journal : RunJournal.t) : result RunJournal.t :=
  let pending := removeTransitions journal.(PendingTransitions) ids in
  Ok (journal <| PendingTransitions := pending |>
              <| AttemptedTransitionIDs := retainAttemptedTransitions journal.(AttemptedTransitionIDs) pending |>).

Definition markTransitionAttempted (id : string) (journal : RunJournal.t) : result RunJournal.t :=
  reject negb (hasPendingTransition journal.(PendingTransitions) id) with Errorf "transition is not pending" ;;
  if hasAttemptedTransition journal.(AttemptedTransitionIDs) id then Ok journal
  else Ok (journal <| AttemptedTransitionIDs := (journal.(AttemptedTransitionIDs) ++ [id])%list |>).

(** ** Command acknowledgements *)

Definition CommandAcknowledgementRetired (journal : RunJournal.t) : bool :=
  (journal.(LocalState) =s "cleanup_pending") ||
  (journal.(LocalState) =s "terminal_pending") && IsConclusiveTerminalVerdict journal.(TerminalVerdict).

(** The run ID and fence a caller left empty are filled in. *)
Definition completeAcknowledgement (journal : RunJournal.t) (ack : CommandAcknowledgement.t) : CommandAcknowledgement.t :=
  CommandAcknowledgement.mk
    (if isZeroFence ack.(CommandAcknowledgement.fence) then fence journal else ack.(CommandAcknowledgement.fence))
    (if ack.(CommandAcknowledgement.RunID) =s "" then journal.(RunID) else ack.(CommandAcknowledgement.RunID))
    ack.(CommandAcknowledgement.CommandID) ack.(CommandAcknowledgement.Outcome) ack.(CommandAcknowledgement.AckID).

Definition queueCommandAcknowledgement (ack : CommandAcknowledgement.t) (journal : RunJournal.t) : result RunJournal.t :=
  reject negb (hasClaimGrant journal) with no_grant ;;
  reject CommandAcknowledgementRetired journal with Errorf "command acknowledgement is no longer deliverable" ;;
  let ack := completeAcknowledgement journal ack in
  reject (ack.(CommandAcknowledgement.RunID) <>s journal.(RunID)) || blank ack.(CommandAcknowledgement.CommandID) ||
         negb (validCommandAcknowledgementOutcome ack.(CommandAcknowledgement.Outcome)) ||
         blank ack.(CommandAcknowledgement.AckID) with Errorf "command acknowledgement is invalid" ;;
  reject negb (sameFence ack.(CommandAcknowledgement.fence) (fence journal))
    with Errorf "command acknowledgement fence does not match journal" ;;
  match List.find (fun pending =>
          pending.(CommandAcknowledgement.CommandID) =s ack.(CommandAcknowledgement.CommandID))
          journal.(PendingCommandAcknowledgements) with
  | Some pending =>
      if pending.(CommandAcknowledgement.Outcome) =s ack.(CommandAcknowledgement.Outcome) then Ok journal
      else Err (Errorf "command acknowledgement outcome conflicts with pending acknowledgement")
  | None =>
      Ok (journal <| PendingCommandAcknowledgements := (journal.(PendingCommandAcknowledgements) ++ [ack])%list |>)
  end.

(** An acknowledgement whose run ID and fence the queue fills in. *)
Definition ack_of (commandID outcome ackID : string) : CommandAcknowledgement.t :=
  CommandAcknowledgement.mk Fence.zero "" commandID outcome ackID.

Definition removeAcknowledgements (acks : list CommandAcknowledgement.t) (ids : list string)
    : list CommandAcknowledgement.t :=
  List.filter (fun ack => negb (string_in ack.(CommandAcknowledgement.AckID) ids)) acks.

Definition markInputDelivered (ids : list string) (intent : option InputCommandIntent.t)
    : result (option InputCommandIntent.t) :=
  match intent with
  | Some value =>
      if string_in value.(InputCommandIntent.AckID) ids then
        if value.(InputCommandIntent.Outcome) =s ""
        then Err (Errorf "input command acknowledgement is unresolved")
        else Ok (Some (value <| InputCommandIntent.AcknowledgementDelivered := true |>))
      else Ok intent
  | None => Ok None
  end.

Fixpoint markControlsDelivered (ids : list string) (intents : list ControlCommandIntent.t)
    : result (list ControlCommandIntent.t) :=
  match intents with
  | [] => Ok []
  | intent :: rest =>
      try intent <- (
        if string_in intent.(ControlCommandIntent.AckID) ids then
          if intent.(ControlCommandIntent.Outcome) =s ""
          then Err (Errorf "control command acknowledgement is unresolved")
          else Ok (intent <| ControlCommandIntent.AcknowledgementDelivered := true |>)
        else Ok intent) ;;
      try rest <- markControlsDelivered ids rest ;;
      Ok (intent :: rest)
  end.

Definition markCommandAcknowledgementsDelivered (ids : list string) (journal : RunJournal.t) : result RunJournal.t :=
  try input <- markInputDelivered ids journal.(InputCommandIntent) ;;
  try controls <- markControlsDelivered ids journal.(ControlCommandIntents) ;;
  Ok (journal <| PendingCommandAcknowledgements := removeAcknowledgements journal.(PendingCommandAcknowledgements) ids |>
              <| InputCommandIntent := input |>
              <| ControlCommandIntents := controls |>).

(** ** Input commands *)

(** [json.Marshal(map[string]string{"command_id": id})] *)
Definition commandPayload (commandID : string) : string := enc_object [("command_id", enc_str true commandID)].

(** [PrepareProvideInput]: the flag is [created]. *)
Definition prepareProvideInput (intent : InputCommandIntent.t) (journal : RunJournal.t) : result (RunJournal.t * bool) :=
  let conflict := Errorf "input command conflicts with journal" in
  let create :=
    reject journal.(LocalState) <>s "waiting_for_input" with Errorf "journal is not waiting for input" ;;
    let prepared :=
      InputCommandIntent.mk intent.(InputCommandIntent.CommandID) intent.(InputCommandIntent.PayloadDigest)
        intent.(InputCommandIntent.RunningTransitionID) intent.(InputCommandIntent.AckID)
        journal.(LastEventSequence) intent.(InputCommandIntent.Outcome)
        intent.(InputCommandIntent.AcknowledgementDelivered) in
    Ok (journal <| InputCommandIntent := Some prepared |>, true) in
  match journal.(InputCommandIntent) with
  | None => create
  | Some current =>
      if current.(InputCommandIntent.CommandID) =s intent.(InputCommandIntent.CommandID) then
        if current.(InputCommandIntent.PayloadDigest) =s intent.(InputCommandIntent.PayloadDigest)
        then Ok (journal, false) else Err conflict
      else if negb current.(InputCommandIntent.AcknowledgementDelivered) ||
              (journal.(LocalState) <>s "waiting_for_input")
      then Err conflict
      else create
  end.

Definition completeProvideInput (commandID payloadDigest outcome : string) (journal : RunJournal.t) : result RunJournal.t :=
  match journal.(InputCommandIntent) with
  | None => Err (Errorf "input command intent does not match journal")
  | Some intent =>
      reject (intent.(InputCommandIntent.CommandID) <>s commandID) ||
             (intent.(InputCommandIntent.PayloadDigest) <>s payloadDigest)
        with Errorf "input command intent does not match journal" ;;
      let settled := intent.(InputCommandIntent.Outcome) in
      if (settled <>s "") && (settled <>s outcome) then Ok journal else
      let intent := intent <| InputCommandIntent.Outcome := outcome |> in
      let journal := journal <| InputCommandIntent := Some intent |> in
      if intent.(InputCommandIntent.AcknowledgementDelivered) then Ok journal else
      try journal <- (
        if (outcome =s "applied") && (journal.(LocalState) =s "waiting_for_input") then
          try prepared <- prepareTransition journal
            (StateTransitionRequest.mk Fence.zero intent.(InputCommandIntent.RunningTransitionID) "running"
               (commandPayload intent.(InputCommandIntent.CommandID))) ;;
          let pending := journal.(PendingTransitions) in
          Ok (journal <| PendingTransitions :=
                           (if hasPendingTransition pending prepared.(StateTransitionRequest.TransitionID)
                            then pending else pending ++ [prepared])%list |>
                      <| LocalState := "running" |>)
        else Ok journal) ;;
      queueCommandAcknowledgement
        (CommandAcknowledgement.mk Fence.zero journal.(RunID) intent.(InputCommandIntent.CommandID)
           intent.(InputCommandIntent.Outcome) intent.(InputCommandIntent.AckID)) journal
  end.

Definition settleUnresolvedInputCommand (journal : RunJournal.t) : result RunJournal.t :=
  match journal.(InputCommandIntent) with
  | Some intent =>
      if intent.(InputCommandIntent.Outcome) <>s "" then Ok journal
      else queueCommandAcknowledgement
             (CommandAcknowledgement.mk Fence.zero journal.(RunID) intent.(InputCommandIntent.CommandID) "failed"
                intent.(InputCommandIntent.AckID))
             (journal <| InputCommandIntent := Some (intent <| InputCommandIntent.Outcome := "failed" |>) |>)
  | None => Ok journal
  end.

(** ** Control commands (control.go) *)

Definition controlAllowed (kind localState : string) : bool :=
  if kind =s "guidance" then (localState =s "running") || (localState =s "paused")
  else if kind =s "pause" then localState =s "running"
  else if kind =s "resume" then localState =s "paused"
  else false.

(** [PrepareControlCommand]: the flag is [created]. *)
Definition prepareControlCommand (intent : ControlCommandIntent.t) (journal : RunJournal.t)
    : result (RunJournal.t * bool) :=
  match List.find (fun current =>
          current.(ControlCommandIntent.CommandID) =s intent.(ControlCommandIntent.CommandID))
          journal.(ControlCommandIntents) with
  | Some current =>
      reject (current.(ControlCommandIntent.Kind) <>s intent.(ControlCommandIntent.Kind)) ||
             (current.(ControlCommandIntent.PayloadDigest) <>s intent.(ControlCommandIntent.PayloadDigest))
        with Errorf "control command conflicts with journal" ;;
      Ok (journal, false)
  | None =>
      reject negb (hasClaimGrant journal) ||
             negb (controlAllowed intent.(ControlCommandIntent.Kind) journal.(LocalState)) ||
             hasPendingTerminalTransition journal.(PendingTransitions)
        with Errorf "control command is not allowed in journal state" ;;
      reject (intent.(ControlCommandIntent.Kind) <>s "guidance") &&
             existsb (fun current => (current.(ControlCommandIntent.Kind) <>s "guidance") &&
                                     (current.(ControlCommandIntent.Outcome) =s "")) journal.(ControlCommandIntents)
        with Errorf "a lifecycle control command is already pending" ;;
      Ok (journal <| ControlCommandIntents := (journal.(ControlCommandIntents) ++ [intent])%list |>, true)
  end.

(** The receipt's payload with its outcome replaced: decoded into a map and
    written again with sorted keys. *)
Definition rejectedPayload (payload : string) : option string :=
  members ← raw_members payload;
  Some (enc_object (map (fun m => (escape true m.1, compact true m.2))
          (insert_member "outcome" (quote ++ "rejected" ++ quote) (sorted_members members)))).

(** [CompleteControlCommand] after the receipt check. *)
Definition completeControlCommand (commandID kind outcome : string) (event : RunEvent.t) (journal : RunJournal.t)
    : result RunJournal.t :=
  match List.find (fun intent => intent.(ControlCommandIntent.CommandID) =s commandID)
          journal.(ControlCommandIntents) with
  | None => Err (Errorf "control command intent does not match journal")
  | Some intent =>
      reject intent.(ControlCommandIntent.Kind) <>s kind with Errorf "control command intent does not match journal" ;;
      if intent.(ControlCommandIntent.Outcome) <>s "" then Ok journal else
      try receipt <- (
        if (outcome =s "applied") &&
           (negb (controlAllowed kind journal.(LocalState)) || hasPendingTerminalTransition journal.(PendingTransitions))
        then match rejectedPayload event.(RunEvent.Payload) with
             | None => Err (Errorf "control command receipt is invalid")
             | Some payload =>
                 Ok ("rejected", RunEvent.mk event.(RunEvent.EventID) event.(RunEvent.Sequence) event.(RunEvent.Kind)
                                   event.(RunEvent.OccurredAt) payload)
             end
        else Ok (outcome, event)) ;;
      let '(outcome, event) := receipt in
      try journal <- appendEvent journal (with_sequence event (nextSequence journal))
                       "control command receipt is invalid" ;;
      try journal <- (
        if (outcome =s "applied") && (kind <>s "guidance") then
          let localState := if kind =s "resume" then "running" else "paused" in
          try journal <- queueTransition
            (StateTransitionRequest.mk Fence.zero intent.(ControlCommandIntent.TransitionID) localState
               (commandPayload commandID)) journal ;;
          Ok (journal <| LocalState := localState |>)
        else Ok journal) ;;
      let settled := journal <| ControlCommandIntents :=
        update_first (fun current => current.(ControlCommandIntent.CommandID) =s commandID)
          (fun current => current <| ControlCommandIntent.Outcome := outcome |>) journal.(ControlCommandIntents) |> in
      queueCommandAcknowledgement
        (ack_of intent.(ControlCommandIntent.CommandID) outcome intent.(ControlCommandIntent.AckID)) settled
  end.

(** [settleUnresolvedControlCommands]: every open command is rejected and
    its acknowledgement queued, in order. *)
Fixpoint settleControls (settled intents : list ControlCommandIntent.t) (journal : RunJournal.t) : result RunJournal.t :=
  match intents with
  | [] => Ok (journal <| ControlCommandIntents := rev settled |>)
  | intent :: rest =>
      if intent.(ControlCommandIntent.Outcome) <>s "" then settleControls (intent :: settled) rest journal
      else
        try journal <- queueCommandAcknowledgement
          (ack_of intent.(ControlCommandIntent.CommandID) "rejected" intent.(ControlCommandIntent.AckID)) journal ;;
        settleControls (intent <| ControlCommandIntent.Outcome := "rejected" |> :: settled) rest journal
  end.

Definition settleUnresolvedControlCommands (journal : RunJournal.t) : result RunJournal.t :=
  settleControls [] journal.(ControlCommandIntents) journal.

(** [settleUnresolvedProviderActions] (provider_action.go): the flag is
    [changed]. *)
Definition settleAction (failureCode : string) (intent : ProviderActionIntent.t) : ProviderActionIntent.t :=
  if intent.(ProviderActionIntent.Outcome) <>s "" then intent
  else intent <| ProviderActionIntent.Outcome := "unknown" |>
              <| ProviderActionIntent.Result := "" |>
              <| ProviderActionIntent.FailureCode := failureCode |>.

Definition settleUnresolvedProviderActions (failureCode : string) (journal : RunJournal.t) : RunJournal.t * bool :=
  (journal <| ProviderActionIntents := map (settleAction failureCode) journal.(ProviderActionIntents) |>,
   hasUnresolvedProviderActions journal).

(** ** The terminal protocol *)

(** [serializeJSONWithoutHTMLEscaping] of the three digest envelopes. A nil
    payload is written as [null]; an embedded fence's fields come first. *)
Definition enc_raw (payload : string) : string := reread_payload payload.

Definition fence_fields (f : Fence.t) : list (string * string) :=
  [("runtime_id", enc_str false f.(Fence.RuntimeID)); ("runtime_epoch", FormatInt f.(Fence.RuntimeEpoch));
   ("generation", FormatInt f.(Fence.Generation)); ("claim_id", enc_str false f.(Fence.ClaimID));
   ("lease_token", enc_str false f.(Fence.LeaseToken))].

Definition intentEnvelope (f : Fence.t) (stateName payload : string) : string :=
  enc_object [("fence", Fence.encode false f); ("state", enc_str false stateName); ("payload", enc_raw payload)].

Definition terminalIntentDigest (journal : RunJournal.t) (stateName payload : string) : result string :=
  reject negb (isTerminalTransitionState stateName) || negb (validRawMessage payload)
    with Errorf "terminal intent is invalid" ;;
  Ok (sha256_hex (intentEnvelope (fence journal) stateName payload)).

Definition commandEnvelope (f : Fence.t) (runID commandID outcome : string) : string :=
  enc_object [("fence", Fence.encode false f); ("run_id", enc_str false runID);
              ("command_id", enc_str false commandID); ("outcome", enc_str false outcome)].

Definition terminalCommandIntentDigest (journal : RunJournal.t) (commandID outcome : string) : result string :=
  reject negb (validRequiredString commandID 4096) || negb (validCommandAcknowledgementOutcome outcome)
    with Errorf "terminal command intent is invalid" ;;
  Ok (sha256_hex (commandEnvelope (fence journal) journal.(RunID) commandID outcome)).

Definition terminalCommandDigest (journal : RunJournal.t) (ack : CommandAcknowledgement.t) : result string :=
  let ack := completeAcknowledgement journal ack in
  reject (ack.(CommandAcknowledgement.RunID) <>s journal.(RunID)) ||
         negb (sameFence ack.(CommandAcknowledgement.fence) (fence journal))
    with Errorf "terminal command acknowledgement does not match journal" ;;
  terminalCommandIntentDigest journal ack.(CommandAcknowledgement.CommandID) ack.(CommandAcknowledgement.Outcome).

Definition settlementEnvelope (transition : StateTransitionRequest.t) (ack : CommandAcknowledgement.t) : string :=
  enc_object
    [("transition", enc_object (fence_fields transition.(StateTransitionRequest.fence) ++
        [("transition_id", enc_str false transition.(StateTransitionRequest.TransitionID));
         ("state", enc_str false transition.(StateTransitionRequest.State));
         ("payload", enc_raw transition.(StateTransitionRequest.Payload))])%list);
     ("acknowledgement", enc_object (fence_fields ack.(CommandAcknowledgement.fence) ++
        [("run_id", enc_str false ack.(CommandAcknowledgement.RunID));
         ("command_id", enc_str false ack.(CommandAcknowledgement.CommandID));
         ("outcome", enc_str false ack.(CommandAcknowledgement.Outcome));
         ("ack_id", enc_str false ack.(CommandAcknowledgement.AckID))])%list)].

Definition terminalSettlementDigest (journal : RunJournal.t) (transition : StateTransitionRequest.t)
    (ack : CommandAcknowledgement.t) : result string :=
  try prepared <- prepareTransition journal transition ;;
  let ack := completeAcknowledgement journal ack in
  reject (ack.(CommandAcknowledgement.RunID) <>s journal.(RunID)) || blank ack.(CommandAcknowledgement.CommandID) ||
         negb (validCommandAcknowledgementOutcome ack.(CommandAcknowledgement.Outcome)) ||
         blank ack.(CommandAcknowledgement.AckID) ||
         negb (sameFence ack.(CommandAcknowledgement.fence) (fence journal))
    with Errorf "command acknowledgement is invalid" ;;
  Ok (sha256_hex (settlementEnvelope prepared ack)).

Definition pendingTerminal (transitions : list StateTransitionRequest.t) : option StateTransitionRequest.t :=
  List.find (fun transition => isTerminalTransitionState transition.(StateTransitionRequest.State)) transitions.

(** [pendingTerminalState] *)
Definition pendingTerminalState (transitions : list StateTransitionRequest.t) : string :=
  match pendingTerminal transitions with Some transition => transition.(StateTransitionRequest.State) | None => "" end.

(** [authoritativeTerminalTransition]: [Some (Some t)] a queued terminal
    transition, [Some None] one that was delivered, [None] none. *)
Definition authoritativeTerminalTransition (journal : RunJournal.t) : option (option StateTransitionRequest.t) :=
  match pendingTerminal journal.(PendingTransitions) with
  | Some transition => Some (Some transition)
  | None => if isTerminalTransitionState journal.(TerminalState) then Some None else None
  end.

Definition sameStateTransition (left right : StateTransitionRequest.t) : bool :=
  sameFence left.(StateTransitionRequest.fence) right.(StateTransitionRequest.fence) &&
  (left.(StateTransitionRequest.TransitionID) =s right.(StateTransitionRequest.TransitionID)) &&
  (left.(StateTransitionRequest.State) =s right.(StateTransitionRequest.State)) &&
  (left.(StateTransitionRequest.Payload) =s right.(StateTransitionRequest.Payload)).

Fixpoint last_json (key : string) (l : list (string * json)) : option json :=
  match l with
  | [] => None
  | (k, v) :: l' => match last_json key l' with Some r => Some r | None => if k =s key then Some v else None end
  end.

(** [json.Unmarshal] of the raw result into a struct with the one field
    [kind]. *)
Definition kind_of_result (v : json) : option string :=
  match v with
  | JNull => Some ""
  | JObject members => string_field "kind" "" members
  | _ => None
  end.

(** [terminalTaskResultKind]: [""] when the payload carries no task result. *)
Definition terminalTaskResultKind (payload : string) : result string :=
  match parse_document payload with
  | Some JNull => Ok ""
  | Some (JObject members) =>
      match last_json "task_result" members with
      | None => Ok ""
      | Some v =>
          match kind_of_result v with
          | Some kind => if validTaskResultKind kind then Ok kind
                         else Err (Errorf "completed terminal task result kind is invalid")
          | None => Err (Errorf "completed terminal task result kind is invalid")
          end
      end
  | _ => Err (Errorf "completed terminal payload is invalid")
  end.

Definition setTerminalPending (journal : RunJournal.t) (pendingAt : time) (terminalState : string) : RunJournal.t :=
  journal <| LocalState := "terminal_pending" |>
          <| TerminalPendingAt := if IsZero journal.(TerminalPendingAt) then pendingAt
                                  else journal.(TerminalPendingAt) |>
          <| TerminalState := terminalState |>.

(** Input, control and provider obligations are settled before the first
    terminal transition is recorded. *)
Definition settleObligations (journal : RunJournal.t) : result RunJournal.t :=
  try journal <- settleUnresolvedInputCommand journal ;;
  try journal <- settleUnresolvedControlCommands journal ;;
  Ok (settleUnresolvedProviderActions "run_terminal_unknown" journal).1.

Definition queueTerminalTransition (transition : StateTransitionRequest.t) (pendingAt : time) (journal : RunJournal.t)
    : result RunJournal.t :=
  reject journal.(TerminalVerdict) <>s "" with Errorf "terminal verdict is already recorded" ;;
  try prepared <- prepareTransition journal transition ;;
  reject negb (isTerminalTransitionState prepared.(StateTransitionRequest.State))
    with Errorf "terminal transition state is invalid" ;;
  try intentDigest <- terminalIntentDigest journal prepared.(StateTransitionRequest.State)
                        prepared.(StateTransitionRequest.Payload) ;;
  reject (journal.(TerminalIntentDigest) <>s "") && (journal.(TerminalIntentDigest) <>s intentDigest)
    with Errorf "terminal intent conflicts with journal" ;;
  match authoritativeTerminalTransition journal with
  | Some existing =>
      reject negb (some_and existing (fun t => sameStateTransition t prepared))
        with Errorf "terminal transition conflicts with journal" ;;
      Ok (journal <| TerminalIntentDigest := intentDigest |>)
  | None =>
      try journal <- settleObligations journal ;;
      let state := prepared.(StateTransitionRequest.State) in
      if state =s "cancelled" then
        let pending := [prepared] in
        Ok (setTerminalPending
              (journal <| RetainWorkspace := true |>
                       <| PendingTransitions := pending |>
                       <| AttemptedTransitionIDs := retainAttemptedTransitions journal.(AttemptedTransitionIDs) pending |>
                       <| TerminalIntentDigest := intentDigest |>) pendingAt state)
      else if pendingTerminalState journal.(PendingTransitions) <>s "" then
        Ok (setTerminalPending journal pendingAt (pendingTerminalState journal.(PendingTransitions)))
      else
        try kind <- (if state =s "completed" then terminalTaskResultKind prepared.(StateTransitionRequest.Payload)
                     else Ok journal.(TerminalTaskResultKind)) ;;
        Ok (setTerminalPending
              (journal <| TerminalTaskResultKind := kind |>
                       <| PendingTransitions := (journal.(PendingTransitions) ++ [prepared])%list |>
                       <| TerminalIntentDigest := intentDigest |>) pendingAt state)
  end.

Definition failUnresolvedProvideInput (transition : StateTransitionRequest.t) (pendingAt : time) (journal : RunJournal.t)
    : result RunJournal.t :=
  if none_or journal.(InputCommandIntent) (fun intent => intent.(InputCommandIntent.Outcome) <>s "") then Ok journal
  else if terminalLocalState journal.(LocalState) then settleUnresolvedInputCommand journal
  else queueTerminalTransition transition pendingAt journal.

(** [queueTerminalTransitionAndAcknowledgementAt] *)
Definition queueTerminalSettlement (transition : StateTransitionRequest.t) (ack : CommandAcknowledgement.t)
    (pendingAt : time) (requiredState : string) (journal : RunJournal.t) : result RunJournal.t :=
  try journal <- queueTerminalTransition transition pendingAt journal ;;
  reject (requiredState <>s "") && (journal.(TerminalState) <>s requiredState)
    with Errorf "terminal transition state is invalid" ;;
  try journal <- queueCommandAcknowledgement ack journal ;;
  try commandDigest <- terminalCommandDigest journal ack ;;
  reject (journal.(TerminalCommandDigest) <>s "") && (journal.(TerminalCommandDigest) <>s commandDigest)
    with Errorf "terminal command intent conflicts with journal" ;;
  let journal := journal <| TerminalCommandDigest := commandDigest |> in
  try digest <- terminalSettlementDigest journal transition ack ;;
  reject (journal.(TerminalSettlementDigest) <>s "") && (journal.(TerminalSettlementDigest) <>s digest)
    with Errorf "terminal settlement conflicts with journal" ;;
  Ok (journal <| TerminalSettlementDigest := digest |>).

(** [TerminalIntentMatches], [TerminalCommandIntentMatches] and
    [TerminalSettlementMatches]: whether it matches, and whether the journal
    can tell. *)
Definition TerminalIntentMatches (journal : RunJournal.t) (stateName payload : string) : bool * bool :=
  if journal.(TerminalIntentDigest) =s "" then
    match pendingTerminal journal.(PendingTransitions) with
    | Some transition =>
        ((transition.(StateTransitionRequest.State) =s stateName) &&
         (transition.(StateTransitionRequest.Payload) =s payload), true)
    | None => (false, journal.(TerminalState) <>s "")
    end
  else match terminalIntentDigest journal stateName payload with
       | Err _ => (false, true)
       | Ok digest => (digest =s journal.(TerminalIntentDigest), true)
       end.

Definition TerminalCommandIntentMatches (journal : RunJournal.t) (commandID outcome : string) : bool * bool :=
  if journal.(TerminalCommandDigest) =s "" then
    match List.find (fun ack => ack.(CommandAcknowledgement.CommandID) =s commandID)
            journal.(PendingCommandAcknowledgements) with
    | Some ack => (ack.(CommandAcknowledgement.Outcome) =s outcome, true)
    | None => (false, false)
    end
  else match terminalCommandIntentDigest journal commandID outcome with
       | Err _ => (false, true)
       | Ok digest => (digest =s journal.(TerminalCommandDigest), true)
       end.

Definition TerminalSettlementMatches (journal : RunJournal.t) (transition : StateTransitionRequest.t)
    (ack : CommandAcknowledgement.t) : bool * bool :=
  if journal.(TerminalSettlementDigest) =s "" then (false, false)
  else match terminalSettlementDigest journal transition ack with
       | Err _ => (false, true)
       | Ok digest => (digest =s journal.(TerminalSettlementDigest), true)
       end.

(** ** Verdicts and cleanup *)

Definition resolveTerminal (verdict : string) (resolvedAt : time) (journal : RunJournal.t) : result RunJournal.t :=
  reject journal.(LocalState) <>s "terminal_pending" with Errorf "journal is not terminal pending" ;;
  if journal.(TerminalVerdict) <>s "" then
    reject journal.(TerminalVerdict) <>s verdict with Errorf "terminal verdict conflicts with journal" ;; Ok journal
  else
    reject IsZero journal.(TerminalPendingAt) || negb (isTerminalTransitionState journal.(TerminalState))
      with Errorf "journal terminal state is invalid" ;;
    Ok (journal <| TerminalVerdict := verdict |> <| TerminalResolvedAt := resolvedAt |>).

Definition ownershipRemains (journal : RunJournal.t) : bool := HasProcessDetails journal || HasPendingContainment journal.

Definition resolveTerminalForCleanup (verdict : string) (resolvedAt : time) (journal : RunJournal.t) : result RunJournal.t :=
  if journal.(LocalState) =s "cleanup_pending" then
    reject journal.(TerminalVerdict) <>s verdict with Errorf "terminal verdict conflicts with journal" ;;
    Ok (if ownershipRemains journal then journal <| LocalState := "terminal_pending" |> else journal)
  else
    reject journal.(LocalState) <>s "terminal_pending" with Errorf "journal is not terminal pending" ;;
    reject (journal.(TerminalVerdict) <>s "") && (journal.(TerminalVerdict) <>s verdict)
      with Errorf "terminal verdict conflicts with journal" ;;
    reject IsZero journal.(TerminalPendingAt) || negb (isTerminalTransitionState journal.(TerminalState))
      with Errorf "journal terminal state is invalid" ;;
    let journal := if journal.(TerminalVerdict) =s ""
                   then journal <| TerminalVerdict := verdict |> <| TerminalResolvedAt := resolvedAt |>
                   else journal in
    let journal := (settleUnresolvedProviderActions "run_terminal_unknown" journal).1 in
    let journal := if (journal.(TerminalState) <>s "completed") && negb (llen journal.(ControlCommandIntents) =? 0)
                   then journal <| RetainWorkspace := true |> else journal in
    let journal := journal <| PendingEvents := [] |>
                           <| PendingTransitions := [] |>
                           <| AttemptedTransitionIDs := [] |>
                           <| PendingCommandAcknowledgements := [] |>
                           <| InputCommandIntent := None |>
                           <| ControlCommandIntents := [] |> in
    Ok (if ownershipRemains journal then journal else journal <| LocalState := "cleanup_pending" |>).

Definition receiptDelivered (outcome : string) (delivered : bool) : bool := (outcome <>s "") && delivered.

Definition enterCleanupPending (journal : RunJournal.t) : result RunJournal.t :=
  reject ownershipRemains journal with Errorf "process stop evidence remains pending" ;;
  if journal.(LocalState) =s "cleanup_pending" then Ok journal else
  reject (journal.(LocalState) <>s "terminal_pending") || negb (validTerminalVerdict journal.(TerminalVerdict))
    with Errorf "journal is not cleanup eligible" ;;
  reject journal.(NativeUsageRecoveryRequired) with Errorf "native usage recovery remains pending" ;;
  reject some_and journal.(InputCommandIntent) (fun intent =>
           negb (receiptDelivered intent.(InputCommandIntent.Outcome) intent.(InputCommandIntent.AcknowledgementDelivered)))
    with Errorf "input command receipt is not delivered" ;;
  try journal <- (
    if journal.(TerminalVerdict) =s TerminalVerdictAccepted then
      reject negb (forallb (fun intent =>
               receiptDelivered intent.(ControlCommandIntent.Outcome)
                 intent.(ControlCommandIntent.AcknowledgementDelivered)) journal.(ControlCommandIntents))
        with Errorf "control command receipt is not delivered" ;;
      reject negb (llen journal.(PendingTransitions) =? 0) || negb (llen journal.(PendingCommandAcknowledgements) =? 0) ||
             negb (llen journal.(PendingGoalDeliveries) =? 0) with Errorf "accepted terminal delivery is incomplete" ;;
      Ok journal
    else Ok (journal <| PendingTransitions := [] |>
                     <| PendingCommandAcknowledgements := [] |>
                     <| ControlCommandIntents := [] |>)) ;;
  Ok (journal <| PendingEvents := [] |>
              <| AttemptedTransitionIDs := [] |>
              <| LocalState := "cleanup_pending" |>).

(** ** The operations on the store *)

Section Operations.
Context `{AdmissionParser} `{JournalEncoder}.
Implicit Types (fs : io) (store : Store) (key : RunKey.t).

Definition UpdateLeaseExpiry fs store key (expiry : time) :=
  if IsZero expiry then (store, Err (Errorf "lease expiry is invalid"))
  else mutateJournal fs store key (updateLeaseExpiry expiry).

Definition AdvanceLeaseExpiry fs store key (expiry : time) :=
  if IsZero expiry then (store, Err (Errorf "lease expiry is invalid"))
  else mutateJournal fs store key (advanceLeaseExpiry expiry).

Definition QueueEvent fs store key event :=
  mutateJournal fs store key (fun journal => appendEvent journal event "event is invalid").

Definition QueueNextEvent fs store key event := mutateJournal fs store key (queueNextEvent event).

(** No drop is reported when the counter update was not persisted. *)
Definition QueueOutputEvent fs store key event budget : Store * (bool * result RunJournal.t) :=
  let outcome := mutateJournalFlag fs store key (queueOutputEvent event budget) in
  (outcome.1, (outcome.2.1 && is_ok outcome.2.2, outcome.2.2)).

Definition QueueOutputTruncatedMarker fs store key at_ newEventID :=
  mutateJournalFlag fs store key (appendOutputTruncatedMarker at_ newEventID).

Definition MarkEventsDeliveredAndQueueOutputTruncatedMarker fs store key ids at_ newEventID :=
  mutateJournalFlag fs store key (markEventsDeliveredAndQueueMarker ids at_ newEventID).

Definition QueueWaitingForInput fs store key event transition :=
  mutateJournal fs store key (queueWaitingForInput event transition).

Definition MarkEventsDelivered fs store key ids := mutateJournal fs store key (markEventsDelivered ids).

Definition QueueTransition fs store key transition := mutateJournal fs store key (queuePlainTransition transition).

Definition QueueRunningTransition fs store key transition :=
  mutateJournal fs store key (queueRunningTransition transition).

Definition MarkTransitionsDelivered fs store key ids := mutateJournal fs store key (markTransitionsDelivered ids).

Definition MarkTransitionAttempted fs store key id :=
  if negb (validRequiredString id 4096) then (store, Err (Errorf "transition ID is invalid"))
  else mutateJournal fs store key (markTransitionAttempted id).

Definition QueueCommandAcknowledgement fs store key ack := mutateJournal fs store key (queueCommandAcknowledgement ack).

Definition MarkCommandAcknowledgementsDelivered fs store key ids :=
  mutateJournal fs store key (markCommandAcknowledgementsDelivered ids).

Definition PrepareProvideInput fs store key intent : Store * (bool * result RunJournal.t) :=
  if negb (InputCommandIntent.valid intent) || (intent.(InputCommandIntent.Outcome) <>s "") ||
     intent.(InputCommandIntent.AcknowledgementDelivered)
  then (store, (false, Err (Errorf "input command intent is invalid")))
  else mutateJournalFlag fs store key (prepareProvideInput intent).

Definition CompleteProvideInput fs store key commandID payloadDigest outcome :=
  if negb (InputCommandIntent.validOutcome outcome) then (store, Err (Errorf "input command outcome is invalid"))
  else mutateJournal fs store key (completeProvideInput commandID payloadDigest outcome).

Definition FailUnresolvedProvideInput fs store key transition (pendingAt : time) :=
  if IsZero pendingAt then (store, Err (Errorf "terminal pending time is invalid"))
  else mutateJournal fs store key (failUnresolvedProvideInput transition pendingAt).

Definition PrepareControlCommand fs store key intent : Store * (bool * result RunJournal.t) :=
  if negb (ControlCommandIntent.valid intent) || (intent.(ControlCommandIntent.Outcome) <>s "") ||
     intent.(ControlCommandIntent.AcknowledgementDelivered)
  then (store, (false, Err (Errorf "control command intent is invalid")))
  else
    let outcome := mutateJournalFlag fs store key (prepareControlCommand intent) in
    (outcome.1, (outcome.2.1 && is_ok outcome.2.2, outcome.2.2)).

Definition CompleteControlCommand fs store key commandID kind outcome event :=
  if negb (ControlCommandIntent.validOutcome outcome) || (outcome =s "")
  then (store, Err (Errorf "control command outcome is invalid"))
  else if (event.(RunEvent.Kind) <>s "command_applied") ||
          negb (bool_decide (controlReceipt event.(RunEvent.Payload) = Some (commandID, kind, outcome)))
  then (store, Err (Errorf "control command receipt does not match command"))
  else mutateJournal fs store key (completeControlCommand commandID kind outcome event).

Definition QueueTerminalTransitionAt fs store key transition (pendingAt : time) :=
  if IsZero pendingAt then (store, Err (Errorf "terminal pending time is invalid"))
  else mutateJournal fs store key (queueTerminalTransition transition pendingAt).

Definition QueueTerminalTransitionAndAcknowledgementAt fs store key transition ack (pendingAt : time) :=
  if IsZero pendingAt then (store, Err (Errorf "terminal pending time is invalid"))
  else mutateJournal fs store key (queueTerminalSettlement transition ack pendingAt "").

Definition QueueCancelledTransitionAndAcknowledgementAt fs store key transition ack (pendingAt : time) :=
  if IsZero pendingAt then (store, Err (Errorf "terminal pending time is invalid"))
  else mutateJournal fs store key (queueTerminalSettlement transition ack pendingAt "cancelled").

Definition ResolveTerminal fs store key verdict (resolvedAt : time) :=
  if negb (validTerminalVerdict verdict) || IsZero resolvedAt then (store, Err (Errorf "terminal verdict is invalid"))
  else mutateJournal fs store key (resolveTerminal verdict resolvedAt).

Definition ResolveTerminalForCleanup fs store key verdict (resolvedAt : time) :=
  if negb (IsConclusiveTerminalVerdict verdict) || IsZero resolvedAt
  then (store, Err (Errorf "terminal cleanup verdict is invalid"))
  else mutateJournal fs store key (resolveTerminalForCleanup verdict resolvedAt).

Definition EnterCleanupPending fs store key := mutateJournal fs store key enterCleanupPending.
End Operations.
