(* ===== verification/Delivery.v ===== *)
(** * Delivery: the Goal receipts a run owes the control plane

    src/daemon/internal/state/goal_delivery.go (97-643): session attachments,
    session stops, evidence and usage are queued as immutable records, then
    marked delivered when the control plane acknowledged exactly that record,
    or retired when it rejected it. Evidence can be queued together with the
    terminal transition that refers to it. An operation is the check of its
    arguments, the callback on the loaded journal, and the method that runs
    both; the methods that first look for a late usage ledger are completed
    in LateUsage.v. *)

From S2P Require Import Prelude Sha256 Json Authority Protocol Journal Validation Store Session.
From S2P Require Import Cgroup Containment Clone Outbox.
Import RunJournal.
Open Scope string_scope.
Open Scope Z_scope.

Section TakeFirst.
Context {A : Type}.

(** The first match of a loop, and the slice without it. *)
Fixpoint take_first (p : A -> bool) (l : list A) : option (A * list A) :=
  match l with
  | [] => None
  | x :: l' =>
      if p x then Some (x, l')
      else option_map (fun '(found, rest) => (found, x :: rest)) (take_first p l')
  end.

Lemma take_first_some p l x rest :
  take_first p l = Some (x, rest) -> p x = true /\ Permutation l (x :: rest) /\ sublist rest l.
Proof.
  revert rest. induction l as [|y l IH]; simpl; [done|]. intros rest.
  destruct (p y) eqn:Hp; [intros [= -> ->]; split_and!; [done|done|by constructor]|].
  destruct (take_first p l) as [[found l']|]; simpl; [|done]. intros [= -> <-].
  destruct (IH _ eq_refl) as (? & HP & ?). split_and!; [done| |by constructor].
  rewrite HP. by constructor.
Qed.
End TakeFirst.

(** ** The records the methods queue *)

Definition attachDelivery (payload : GoalSessionAttachDelivery.t) : GoalDelivery.t :=
  GoalDelivery.mk GoalDeliverySessionAttach payload.(GoalSessionAttachDelivery.LocalHandleID) "" Fence.zero false
    (Some payload) None None None.
Definition stoppedDelivery (payload : GoalSessionStoppedDelivery.t) : GoalDelivery.t :=
  GoalDelivery.mk GoalDeliverySessionStopped payload.(GoalSessionStoppedDelivery.BindingID) "" Fence.zero true
    None (Some payload) None None.
Definition evidenceDelivery (evidence : Evidence.t) : GoalDelivery.t :=
  GoalDelivery.mk GoalDeliveryEvidence evidence.(Evidence.EvidenceKey) "" Fence.zero true None None (Some evidence) None.
Definition usageDelivery (usage : Usage.t) : GoalDelivery.t :=
  GoalDelivery.mk GoalDeliveryUsage usage.(Usage.UsageKey) "" Fence.zero true None None None (Some usage).

Definition sameDeliveryIdentity (left right : GoalDelivery.t) : bool :=
  (left.(GoalDelivery.Kind) =s right.(GoalDelivery.Kind)) &&
  (left.(GoalDelivery.DeliveryID) =s right.(GoalDelivery.DeliveryID)).

Definition exactDelivery (left right : GoalDelivery.t) : bool :=
  (left.(GoalDelivery.PayloadDigest) =s right.(GoalDelivery.PayloadDigest)) && GoalDelivery.equal left right.

(** [compareGoalEvidenceDelivery] *)
Definition compareGoalEvidenceDelivery (existing candidate : GoalDelivery.t) : result bool :=
  match existing.(GoalDelivery.evidence), candidate.(GoalDelivery.evidence) with
  | Some recorded, Some proposed =>
      if (existing.(GoalDelivery.Kind) <>s GoalDeliveryEvidence) || (candidate.(GoalDelivery.Kind) <>s GoalDeliveryEvidence)
      then Ok false
      else if (existing.(GoalDelivery.DeliveryID) <>s candidate.(GoalDelivery.DeliveryID)) &&
              (recorded.(Evidence.EvidenceID) <>s proposed.(Evidence.EvidenceID))
      then Ok false
      else if exactDelivery existing candidate then Ok true
      else Err ErrGoalDeliveryConflict
  | _, _ => Ok false
  end.

(** [rejectGoalEvidenceIdentityConflict] *)
Definition history (journal : RunJournal.t) : list GoalDelivery.t :=
  (journal.(PendingGoalDeliveries) ++ journal.(DeliveredGoalDeliveries) ++
   map GoalDeliveryRetirement.Delivery journal.(RetiredGoalDeliveries))%list.

Definition rejectGoalEvidenceIdentityConflict (journal : RunJournal.t) (candidate : GoalDelivery.t) : result unit :=
  if (candidate.(GoalDelivery.Kind) <>s GoalDeliveryEvidence) || is_nil candidate.(GoalDelivery.evidence) then Ok tt
  else for_each (fun _ existing => try _ <- compareGoalEvidenceDelivery existing candidate ;; Ok tt) tt (history journal).

(** The common tail of [queueGoalDeliveryOnJournal] and
    [QueueNativeUsageRecoverySettlement]: replay, conflict or append. *)
Definition enqueueGoalDelivery (delivery : GoalDelivery.t) (journal : RunJournal.t) : result RunJournal.t :=
  match List.find (fun pending => sameDeliveryIdentity pending delivery) journal.(PendingGoalDeliveries) with
  | Some pending => if exactDelivery pending delivery then Ok journal else Err ErrGoalDeliveryConflict
  | None =>
      reject existsb (fun retired => sameDeliveryIdentity retired.(GoalDeliveryRetirement.Delivery) delivery)
               journal.(RetiredGoalDeliveries) with ErrGoalDeliveryConflict ;;
      match List.find (fun delivered => sameDeliveryIdentity delivered delivery) journal.(DeliveredGoalDeliveries) with
      | Some delivered => if exactDelivery delivered delivery then Ok journal else Err ErrGoalDeliveryConflict
      | None =>
          Ok (journal <| PendingGoalDeliveries := (journal.(PendingGoalDeliveries) ++ [delivery])%list |>
                      <| GoalDeliveryEnabled := true |>)
      end
  end.

Definition queueGoalDeliveryOnJournal (delivery : GoalDelivery.t) (journal : RunJournal.t) : result RunJournal.t :=
  reject negb (hasClaimGrant journal) with no_grant ;;
  try prepared <- GoalDelivery.prepare journal.(RunID) (delivery <| GoalDelivery.fence := fence journal |>) ;;
  check rejectGoalEvidenceIdentityConflict journal prepared ;;
  enqueueGoalDelivery prepared journal.

(** ** Session attachments *)

(** The binding checks of [QueueGoalSessionAttach]. *)
Definition attachArguments (payload : GoalSessionAttachDelivery.t) : result unit :=
  let bindingID := payload.(GoalSessionAttachDelivery.BindingID) in
  let issued := payload.(GoalSessionAttachDelivery.ServerIssuedBinding) in
  reject (bindingID =s "") && negb issued || (bindingID <>s "") && issued
    with Errorf "Goal session attach binding authority is invalid" ;;
  reject (bindingID <>s "") && negb (validGoalSessionUUID bindingID)
    with Errorf "Goal session attach binding ID is invalid" ;;
  Ok tt.

(** [fmt.Errorf] with [%w] keeps what the error is. *)
Definition wrap_error (prefix : string) (e : error) : error :=
  match e with Errorf message => Errorf (prefix ++ message) | e => e end.

Definition sameGoalSessionAttachRepositoryResource (sessionResourceID : string) (deliveryResourceID : option string) : bool :=
  match deliveryResourceID with None => sessionResourceID =s "" | Some id => sessionResourceID =s id end.

(** The part of [validateGoalSessionAttachDeliveryReadyLocked] that compares
    the session with the run and with the queued record. *)
Definition sessionMatchesAttach (session : GoalSessionJournal.t) (journal : RunJournal.t)
    (payload : GoalSessionAttachDelivery.t) (localHandleID : string) : bool :=
  let intent := session.(GoalSessionJournal.intent) in
  (intent.(GoalSessionLaunchIntent.GoalID) =s payload.(GoalSessionAttachDelivery.GoalID)) &&
  (intent.(GoalSessionLaunchIntent.LocalHandleID) =s localHandleID) &&
  (intent.(GoalSessionLaunchIntent.RunID) =s journal.(RunID)) &&
  (intent.(GoalSessionLaunchIntent.Generation) =? journal.(Generation)) &&
  (intent.(GoalSessionLaunchIntent.RuntimeID) =s journal.(RuntimeID)) &&
  (intent.(GoalSessionLaunchIntent.RuntimeEpoch) =? journal.(ClaimedRuntimeEpoch)) &&
  (intent.(GoalSessionLaunchIntent.HarnessKind) =s payload.(GoalSessionAttachDelivery.HarnessKind)) &&
  (intent.(GoalSessionLaunchIntent.HarnessVersion) =s payload.(GoalSessionAttachDelivery.HarnessVersion)) &&
  (intent.(GoalSessionLaunchIntent.AdapterVersion) =s payload.(GoalSessionAttachDelivery.AdapterVersion)) &&
  (intent.(GoalSessionLaunchIntent.WorkspaceFingerprint) =s payload.(GoalSessionAttachDelivery.WorkspaceFingerprint)) &&
  sameGoalSessionAttachRepositoryResource intent.(GoalSessionLaunchIntent.RepositoryResourceID)
    payload.(GoalSessionAttachDelivery.RepositoryResourceID).

Definition validateGoalSessionAttachDeliveryReadyLocked (readable : bool) (sessions : gmap string session_file)
    (journal : RunJournal.t) (delivery : GoalDelivery.t) (localHandleID : string) : result unit :=
  match delivery.(GoalDelivery.SessionAttach) with
  | None => Err ErrGoalDeliveryConflict
  | Some payload =>
      reject (delivery.(GoalDelivery.DeliveryID) <>s localHandleID) ||
             (payload.(GoalSessionAttachDelivery.LocalHandleID) <>s localHandleID) ||
             negb (validRequiredString payload.(GoalSessionAttachDelivery.GoalID) 4096)
        with ErrGoalDeliveryConflict ;;
      match loadGoalSessionPathLocked readable sessions
              (goalSessionPath (GoalSessionKey.mk payload.(GoalSessionAttachDelivery.GoalID) localHandleID)) with
      | Err e => Err (wrap_error "load Goal session for attach delivery: " e)
      | Ok session =>
          reject negb (sessionMatchesAttach session journal payload localHandleID) with ErrGoalDeliveryConflict ;;
          reject GoalSessionJournal.NeedsReconciliation session with ErrGoalSessionUncertain ;;
          reject (session.(GoalSessionJournal.LaunchState) <>s GoalSessionLaunchStateAttached) ||
                 negb (validateGoalSessionHandle session.(GoalSessionJournal.NativeSessionID)
                         session.(GoalSessionJournal.NativeSessionFilename))
            with ErrGoalSessionNotAttached ;;
          let intent := session.(GoalSessionJournal.intent) in
          if (intent.(GoalSessionLaunchIntent.SessionMode) =s GoalSessionModeResume) ||
             negb payload.(GoalSessionAttachDelivery.ServerIssuedBinding) then
            reject intent.(GoalSessionLaunchIntent.BindingID) <>s payload.(GoalSessionAttachDelivery.BindingID)
              with ErrGoalDeliveryConflict ;;
            Ok tt
          else
            reject intent.(GoalSessionLaunchIntent.BindingID) <>s "" with ErrGoalDeliveryConflict ;;
            Ok tt
      end
  end.

Definition isAttach (localHandleID : string) (delivery : GoalDelivery.t) : bool :=
  (delivery.(GoalDelivery.Kind) =s GoalDeliverySessionAttach) && (delivery.(GoalDelivery.DeliveryID) =s localHandleID).

Definition attachID (localHandleID : string) : result unit :=
  reject negb (validRequiredString localHandleID 4096) with Errorf "Goal session attach delivery ID is invalid" ;; Ok tt.

Definition markGoalSessionAttachDeliveryReady (readable : bool) (sessions : gmap string session_file)
    (localHandleID : string) (journal : RunJournal.t) : result RunJournal.t :=
  match List.find (isAttach localHandleID) journal.(PendingGoalDeliveries) with
  | None => Err (Errorf "Goal session attach delivery is not pending")
  | Some delivery =>
      if delivery.(GoalDelivery.Ready) then Ok journal else
      check validateGoalSessionAttachDeliveryReadyLocked readable sessions journal delivery localHandleID ;;
      Ok (journal <| PendingGoalDeliveries :=
            update_first (isAttach localHandleID) (fun delivery => delivery <| GoalDelivery.Ready := true |>)
              journal.(PendingGoalDeliveries) |>)
  end.

Definition discardUnreadyGoalSessionAttachDelivery (localHandleID : string) (journal : RunJournal.t)
    : result RunJournal.t :=
  match take_first (isAttach localHandleID) journal.(PendingGoalDeliveries) with
  | None => Err (Errorf "Goal session attach delivery is not pending")
  | Some (delivery, rest) =>
      reject delivery.(GoalDelivery.Ready) with ErrGoalDeliveryConflict ;;
      Ok (journal <| PendingGoalDeliveries := rest |>)
  end.

(** ** Evidence with the terminal transition that refers to it *)

(** [prepareGoalEvidenceDeliveries]: one round of the loop, which threads the
    keys and IDs seen and the records prepared, and the loop. *)
Definition prepareGoalEvidence (journal : RunJournal.t) (acc : list string * list string * list GoalDelivery.t)
    (item : Evidence.t) : result (list string * list string * list GoalDelivery.t) :=
  let '(seenKeys, seenIDs, deliveries) := acc in
  reject string_in item.(Evidence.EvidenceKey) seenKeys
    with Errorf "Goal evidence set contains a duplicate evidence key" ;;
  reject string_in item.(Evidence.EvidenceID) seenIDs
    with Errorf "Goal evidence set contains a duplicate evidence ID" ;;
  try record <- GoalDelivery.prepare journal.(RunID) ((evidenceDelivery item) <| GoalDelivery.fence := fence journal |>) ;;
  Ok (item.(Evidence.EvidenceKey) :: seenKeys, item.(Evidence.EvidenceID) :: seenIDs, (deliveries ++ [record])%list).

Definition prepareGoalEvidenceDeliveries (journal : RunJournal.t) (evidence : list Evidence.t)
    : result (list GoalDelivery.t) :=
  reject llen evidence =? 0 with Errorf "Goal evidence set must not be empty" ;;
  try acc <- for_each (prepareGoalEvidence journal) ([], [], []) evidence ;;
  Ok acc.2.

(** [json.Unmarshal] into [map[string]json.RawMessage], not [null]. *)
Definition unmarshal_object (v : json) : option (list (string * json)) :=
  match v with JObject members => Some members | _ => None end.

(** [json.Unmarshal] into [[]string]: a [null] element leaves [""]. *)
Fixpoint unmarshal_string_elements (l : list json) : option (list string) :=
  match l with
  | [] => Some []
  | JString s :: l' => option_map (cons s) (unmarshal_string_elements l')
  | JNull :: l' => option_map (cons "") (unmarshal_string_elements l')
  | _ :: _ => None
  end.

Definition unmarshal_string_slice (v : json) : option (list string) :=
  match v with JNull => Some [] | JArray l => unmarshal_string_elements l | _ => None end.

Definition checkEvidenceRefs (refs : json) : result (list string) :=
  match unmarshal_string_slice refs with
  | None | Some [] => Err (Errorf "terminal transition evidence references are invalid")
  | Some values =>
      try _ <- for_each (fun seen value =>
          reject negb (validRequiredString value 4096) with Errorf "terminal transition evidence reference is invalid" ;;
          reject string_in value seen with Errorf "terminal transition evidence references are duplicated" ;;
          Ok (value :: seen)) [] values ;;
      Ok values
  end.

Definition refsMissing : error := Errorf "terminal transition evidence references are missing".

(** [terminalEvidenceRefs] *)
Definition terminalEvidenceRefs (payload : string) : result (list string) :=
  reject payload =s "" with refsMissing ;;
  match parse_document payload ≫= unmarshal_object with
  | None => Err (Errorf "terminal transition payload is invalid")
  | Some envelope =>
      match last_json "evidence_refs" envelope, last_json "task_result" envelope with
      | Some _, Some _ => Err (Errorf "terminal transition evidence references are ambiguous")
      | None, None => Err refsMissing
      | Some refs, None => checkEvidenceRefs refs
      | None, Some taskResult =>
          match unmarshal_object taskResult with
          | None => Err (Errorf "terminal task result is invalid")
          | Some task =>
              match last_json "evidence_refs" task with
              | None => Err refsMissing
              | Some refs => checkEvidenceRefs refs
              end
          end
      end
  end.

(** [sameEvidenceIDSet]: [seen] loses each reference that a delivery has. *)
Fixpoint removeIDs (seen : gset string) (deliveries : list GoalDelivery.t) : option (gset string) :=
  match deliveries with
  | [] => Some seen
  | delivery :: rest =>
      match delivery.(GoalDelivery.evidence) with
      | None => None
      | Some evidence =>
          if decide (evidence.(Evidence.EvidenceID) ∈ seen)
          then removeIDs (seen ∖ {[evidence.(Evidence.EvidenceID)]}) rest else None
      end
  end.

Definition sameEvidenceIDSet (refs : list string) (deliveries : list GoalDelivery.t) : bool :=
  (llen refs =? llen deliveries) && distinct_keys id [] refs &&
  some_and (removeIDs (list_to_set refs) deliveries) (fun seen => bool_decide (seen = ∅)).

(** One loop of [requireExactGoalEvidenceDelivery]: the first match decides. *)
Definition findExactEvidence (l : list GoalDelivery.t) (candidate : GoalDelivery.t) : result bool :=
  for_each (fun (matched : bool) existing => if matched then Ok true else compareGoalEvidenceDelivery existing candidate)
    false l.

Definition requireExactGoalEvidenceDelivery (journal : RunJournal.t) (candidate : GoalDelivery.t) : result unit :=
  try pending <- findExactEvidence journal.(PendingGoalDeliveries) candidate ;;
  if pending then Ok tt else
  try delivered <- findExactEvidence journal.(DeliveredGoalDeliveries) candidate ;;
  if delivered then Ok tt else
  try retired <- findExactEvidence (map GoalDeliveryRetirement.Delivery journal.(RetiredGoalDeliveries)) candidate ;;
  if retired then Err ErrGoalDeliveryConflict
  else Err (Errorf "required Goal evidence delivery is not durable").

Definition matchedDeliveries (journal : RunJournal.t) (evidence : list Evidence.t)
    (prepared : StateTransitionRequest.t) : result (list GoalDelivery.t) :=
  try refs <- terminalEvidenceRefs prepared.(StateTransitionRequest.Payload) ;;
  try deliveries <- prepareGoalEvidenceDeliveries journal evidence ;;
  reject negb (sameEvidenceIDSet refs deliveries)
    with Errorf "terminal transition evidence references do not match deliveries" ;;
  Ok deliveries.

Definition queueGoalEvidenceAndTerminalTransition (evidence : list Evidence.t) (transition : StateTransitionRequest.t)
    (pendingAt : time) (journal : RunJournal.t) : result RunJournal.t :=
  try prepared <- prepareTransition journal transition ;;
  reject negb (isTerminalTransitionState prepared.(StateTransitionRequest.State))
    with Errorf "terminal transition state is invalid" ;;
  match authoritativeTerminalTransition journal with
  | Some existing =>
      reject negb (some_and existing (fun t => sameStateTransition t prepared)) with ErrGoalDeliveryConflict ;;
      try deliveries <- matchedDeliveries journal evidence prepared ;;
      check for_each (fun _ delivery => requireExactGoalEvidenceDelivery journal delivery) tt deliveries ;;
      Ok journal
  | None =>
      try deliveries <- matchedDeliveries journal evidence prepared ;;
      try queued <- for_each (fun journal delivery => queueGoalDeliveryOnJournal delivery journal) journal deliveries ;;
      queueTerminalTransition prepared pendingAt queued
  end.

Definition evidenceAndTerminalArguments (evidence : list Evidence.t) (pendingAt : time) : result unit :=
  reject llen evidence =? 0 with Errorf "Goal evidence set must not be empty" ;;
  reject IsZero pendingAt with Errorf "terminal pending time is invalid" ;;
  Ok tt.

(** ** Usage recovery *)

Definition queueNativeUsageRecoverySettlement (usage : Usage.t) (settlement : option NativeUsageTerminalRecovery.t)
    (journal : RunJournal.t) : result RunJournal.t :=
  reject negb (hasClaimGrant journal) with no_grant ;;
  try merged <- mergeNativeUsageTerminalRecovery settlement (journal <| NativeUsageRecoveryRequired := true |>) ;;
  try prepared <- GoalDelivery.prepare merged.(RunID) ((usageDelivery usage) <| GoalDelivery.fence := fence merged |>) ;;
  enqueueGoalDelivery prepared merged.

(** ** Acknowledged and rejected deliveries *)

Definition isDelivery (kind deliveryID : string) (delivery : GoalDelivery.t) : bool :=
  (delivery.(GoalDelivery.Kind) =s kind) && (delivery.(GoalDelivery.DeliveryID) =s deliveryID).

Definition retireArguments (kind deliveryID payloadDigest : string) (statusCode : Z) (code message : string)
    (retiredAt : time) : result unit :=
  reject negb (GoalDelivery.validKind kind) || negb (validRequiredString deliveryID 4096) ||
         negb (validDigest payloadDigest) || (statusCode <? 400) || (599 <? statusCode) ||
         negb (validRequiredString code 256) || negb (validRequiredString message 4096) || IsZero retiredAt
    with Errorf "Goal delivery retirement is invalid" ;;
  Ok tt.

Definition retireGoalDelivery (kind deliveryID payloadDigest : string) (statusCode : Z) (code message : string)
    (retiredAt : time) (journal : RunJournal.t) : result RunJournal.t :=
  match take_first (isDelivery kind deliveryID) journal.(PendingGoalDeliveries) with
  | None => Err (Errorf "Goal delivery is not pending")
  | Some (pending, rest) =>
      reject pending.(GoalDelivery.PayloadDigest) <>s payloadDigest with ErrGoalDeliveryConflict ;;
      Ok (journal <| PendingGoalDeliveries := rest |>
                  <| RetiredGoalDeliveries := (journal.(RetiredGoalDeliveries) ++
                       [GoalDeliveryRetirement.mk pending statusCode code message retiredAt])%list |>)
  end.

Definition deliveredArguments (kind deliveryID payloadDigest : string) : result unit :=
  reject negb (GoalDelivery.validKind kind) || negb (validRequiredString deliveryID 4096) ||
         negb (validDigest payloadDigest) with Errorf "Goal delivery receipt is invalid" ;;
  Ok tt.

Definition markGoalDeliveryDelivered (kind deliveryID payloadDigest : string) (journal : RunJournal.t)
    : result RunJournal.t :=
  match List.find (isDelivery kind deliveryID) journal.(DeliveredGoalDeliveries) with
  | Some delivered =>
      reject delivered.(GoalDelivery.PayloadDigest) <>s payloadDigest with ErrGoalDeliveryConflict ;; Ok journal
  | None =>
      match take_first (isDelivery kind deliveryID) journal.(PendingGoalDeliveries) with
      | None => Err (Errorf "Goal delivery is not pending")
      | Some (pending, rest) =>
          reject pending.(GoalDelivery.PayloadDigest) <>s payloadDigest with ErrGoalDeliveryConflict ;;
          reject negb pending.(GoalDelivery.Ready) with Errorf "Goal delivery was not ready for delivery" ;;
          Ok (journal <| PendingGoalDeliveries := rest |>
                      <| DeliveredGoalDeliveries := (journal.(DeliveredGoalDeliveries) ++ [pending])%list |>)
      end
  end.

(** ** The requests *)

Inductive delivery : Type :=
| OpQueueGoalSessionAttach (payload : GoalSessionAttachDelivery.t)
| OpQueueGoalSessionStopped (payload : GoalSessionStoppedDelivery.t)
| OpMarkGoalSessionAttachDeliveryReady (sessionReadable : bool) (sessions : gmap string session_file)
    (localHandleID : string)
| OpDiscardUnreadyGoalSessionAttachDelivery (localHandleID : string)
| OpQueueGoalEvidence (evidence : Evidence.t)
| OpQueueGoalEvidenceAndTerminalTransition (evidence : list Evidence.t) (transition : StateTransitionRequest.t)
    (pendingAt : time)
| OpQueueGoalUsage (usage : Usage.t)
| OpQueueNativeUsageRecoverySettlement (usage : Usage.t) (settlement : option NativeUsageTerminalRecovery.t)
| OpRetireGoalDelivery (kind deliveryID payloadDigest : string) (statusCode : Z) (code message : string)
    (retiredAt : time)
| OpMarkGoalDeliveryDelivered (kind deliveryID payloadDigest : string).

(** The change a request asks for. An attachment becomes ready against the
    session files of that moment; [sessionReadable] is the outcome of reading
    one. *)
Definition delivery_callback (key : RunKey.t) (op : delivery) (journal : RunJournal.t)
    : result RunJournal.t :=
  match op with
  | OpQueueGoalSessionAttach payload =>
      check attachArguments payload ;; queueGoalDeliveryOnJournal (attachDelivery payload) journal
  | OpQueueGoalSessionStopped payload => queueGoalDeliveryOnJournal (stoppedDelivery payload) journal
  | OpMarkGoalSessionAttachDeliveryReady sessionReadable sessions localHandleID =>
      check attachID localHandleID ;; markGoalSessionAttachDeliveryReady sessionReadable sessions localHandleID journal
  | OpDiscardUnreadyGoalSessionAttachDelivery localHandleID =>
      check attachID localHandleID ;; discardUnreadyGoalSessionAttachDelivery localHandleID journal
  | OpQueueGoalEvidence evidence => queueGoalDeliveryOnJournal (evidenceDelivery evidence) journal
  | OpQueueGoalEvidenceAndTerminalTransition evidence transition pendingAt =>
      check evidenceAndTerminalArguments evidence pendingAt ;;
      queueGoalEvidenceAndTerminalTransition evidence transition pendingAt journal
  | OpQueueGoalUsage usage => queueGoalDeliveryOnJournal (usageDelivery usage) journal
  | OpQueueNativeUsageRecoverySettlement usage settlement =>
      check clearUsageArguments key usage ;; queueNativeUsageRecoverySettlement usage settlement journal
  | OpRetireGoalDelivery kind deliveryID payloadDigest statusCode code message retiredAt =>
      check retireArguments kind deliveryID payloadDigest statusCode code message retiredAt ;;
      retireGoalDelivery kind deliveryID payloadDigest statusCode code message retiredAt journal
  | OpMarkGoalDeliveryDelivered kind deliveryID payloadDigest =>
      check deliveredArguments kind deliveryID payloadDigest ;;
      markGoalDeliveryDelivered kind deliveryID payloadDigest journal
  end.

Section Methods.
Context `{AdmissionParser} `{JournalEncoder}.

(** [queueGoalDelivery] *)
Definition queueGoalDelivery (fs : io) (store : Store) (key : RunKey.t) (record : GoalDelivery.t)
    : Store * result RunJournal.t :=
  mutateJournal fs store key (queueGoalDeliveryOnJournal record).

Definition QueueGoalSessionStopped (fs : io) (store : Store) (key : RunKey.t) (payload : GoalSessionStoppedDelivery.t)
    : Store * result RunJournal.t :=
  queueGoalDelivery fs store key (stoppedDelivery payload).

Definition MarkGoalSessionAttachDeliveryReady (fs : io) (store : Store) (key : RunKey.t)
    (sessionReadable : bool) (sessions : gmap string session_file) (localHandleID : string) : Store * result RunJournal.t :=
  checked store (attachID localHandleID)
    (mutateJournal fs store key (markGoalSessionAttachDeliveryReady sessionReadable sessions localHandleID)).

Definition DiscardUnreadyGoalSessionAttachDelivery (fs : io) (store : Store) (key : RunKey.t) (localHandleID : string)
    : Store * result RunJournal.t :=
  checked store (attachID localHandleID)
    (mutateJournal fs store key (discardUnreadyGoalSessionAttachDelivery localHandleID)).

Definition QueueGoalEvidenceAndTerminalTransition (fs : io) (store : Store) (key : RunKey.t)
    (evidence : list Evidence.t) (transition : StateTransitionRequest.t) (pendingAt : time) : Store * result RunJournal.t :=
  checked store (evidenceAndTerminalArguments evidence pendingAt)
    (mutateJournal fs store key (queueGoalEvidenceAndTerminalTransition evidence transition pendingAt)).

Definition QueueNativeUsageRecoverySettlement (fs : io) (store : Store) (key : RunKey.t) (usage : Usage.t)
    (settlement : option NativeUsageTerminalRecovery.t) : Store * result RunJournal.t :=
  checked store (clearUsageArguments key usage)
    (mutateJournal fs store key (queueNativeUsageRecoverySettlement usage settlement)).

Definition RetireGoalDelivery (fs : io) (store : Store) (key : RunKey.t) (kind deliveryID payloadDigest : string)
    (statusCode : Z) (code message : string) (retiredAt : time) : Store * result RunJournal.t :=
  checked store (retireArguments kind deliveryID payloadDigest statusCode code message retiredAt)
    (mutateJournal fs store key (retireGoalDelivery kind deliveryID payloadDigest statusCode code message retiredAt)).

Definition MarkGoalDeliveryDelivered (fs : io) (store : Store) (key : RunKey.t) (kind deliveryID payloadDigest : string)
    : Store * result RunJournal.t :=
  checked store (deliveredArguments kind deliveryID payloadDigest)
    (mutateJournal fs store key (markGoalDeliveryDelivered kind deliveryID payloadDigest)).

(** One request. The attach, evidence and usage methods are here without
    their look at the late usage ledger. *)
Definition delivery_execute (fs : io) (store : Store) (key : RunKey.t) (op : delivery) : Store :=
  match op with
  | OpQueueGoalSessionAttach payload =>
      (checked store (attachArguments payload) (queueGoalDelivery fs store key (attachDelivery payload))).1
  | OpQueueGoalSessionStopped payload => (QueueGoalSessionStopped fs store key payload).1
  | OpMarkGoalSessionAttachDeliveryReady sessionReadable sessions id =>
      (MarkGoalSessionAttachDeliveryReady fs store key sessionReadable sessions id).1
  | OpDiscardUnreadyGoalSessionAttachDelivery id => (DiscardUnreadyGoalSessionAttachDelivery fs store key id).1
  | OpQueueGoalEvidence evidence => (queueGoalDelivery fs store key (evidenceDelivery evidence)).1
  | OpQueueGoalEvidenceAndTerminalTransition evidence transition pendingAt =>
      (QueueGoalEvidenceAndTerminalTransition fs store key evidence transition pendingAt).1
  | OpQueueGoalUsage usage => (queueGoalDelivery fs store key (usageDelivery usage)).1
  | OpQueueNativeUsageRecoverySettlement usage settlement =>
      (QueueNativeUsageRecoverySettlement fs store key usage settlement).1
  | OpRetireGoalDelivery kind deliveryID payloadDigest statusCode code message retiredAt =>
      (RetireGoalDelivery fs store key kind deliveryID payloadDigest statusCode code message retiredAt).1
  | OpMarkGoalDeliveryDelivered kind deliveryID payloadDigest =>
      (MarkGoalDeliveryDelivered fs store key kind deliveryID payloadDigest).1
  end.
End Methods.

(** ** What a delivery request leaves alone *)

Definition clear_delivery (journal : RunJournal.t) : RunJournal.t :=
  journal <| PendingGoalDeliveries := [] |> <| DeliveredGoalDeliveries := [] |> <| RetiredGoalDeliveries := [] |>
          <| GoalDeliveryEnabled := false |> <| NativeUsageRecoveryRequired := false |>
          <| NativeUsageTerminalRecovery := None |>.

Definition delivery_only (before after : RunJournal.t) : Prop := clear_delivery after = clear_delivery before.

#[export] Instance delivery_only_preorder : PreOrder delivery_only.
Proof. unfold delivery_only. split; [done|intros ? ? ? -> ->; done]. Qed.

Lemma delivery_only_field {A} (field : RunJournal.t -> A) before after :
  (forall j, field (clear_delivery j) = field j) -> delivery_only before after -> field after = field before.
Proof. unfold delivery_only. intros Hfield Hframe. by rewrite <- Hfield, Hframe, Hfield. Qed.

(** A field the delivery queue does not write. *)
Ltac delivery_kept H :=
  match goal with |- ?field _ = _ => exact (delivery_only_field field _ _ (fun j => eq_refl) H) end.

(** A queued record was there already, or was appended. *)
Lemma enqueueGoalDelivery_inv record journal journal' :
  enqueueGoalDelivery record journal = Ok journal' ->
  journal' = journal /\
  (exists existing, In existing (journal.(PendingGoalDeliveries) ++ journal.(DeliveredGoalDeliveries))%list /\
    sameDeliveryIdentity existing record = true /\ exactDelivery existing record = true) \/
  (forall existing, In existing (history journal) -> sameDeliveryIdentity existing record = false) /\
  journal' = journal <| PendingGoalDeliveries := (journal.(PendingGoalDeliveries) ++ [record])%list |>
                     <| GoalDeliveryEnabled := true |>.
Proof.
  unfold enqueueGoalDelivery, history. intros Hrun.
  destruct (List.find _ (PendingGoalDeliveries journal)) as [pending|] eqn:Hp.
  - apply find_some in Hp as [Hin Hid]. destruct (exactDelivery pending record) eqn:He; inv_ok. left. split; [done|].
    exists pending. split_and!; [apply in_or_app; by left|done|done].
  - inv_ok. destruct (List.find _ (DeliveredGoalDeliveries journal)) as [delivered|] eqn:Hd.
    + apply find_some in Hd as [Hin Hid]. destruct (exactDelivery delivered record) eqn:He; inv_ok. left. split; [done|].
      exists delivered. split_and!; [apply in_or_app; by right|done|done].
    + inv_ok. right. split; [|done]. intros existing Hin.
      repeat apply in_app_or in Hin as [Hin|Hin]; [by apply (find_none _ _ Hp)|by apply (find_none _ _ Hd)|].
      apply in_map_iff in Hin as (retired & <- & Hin).
      destruct (sameDeliveryIdentity _ record) eqn:Hs; [|done]. exfalso.
      match goal with He : existsb _ _ = false |- _ => apply not_true_iff_false in He; apply He end.
      apply existsb_exists. by exists retired.
Qed.

Lemma queueGoalDelivery_frame record journal journal' :
  queueGoalDeliveryOnJournal record journal = Ok journal' -> delivery_only journal journal'.
Proof.
  unfold queueGoalDeliveryOnJournal. intros Hrun. inv_ok.
  by apply enqueueGoalDelivery_inv in Hrun as [[-> _]|[_ ->]].
Qed.

Lemma queueDeliveries_frame records journal journal' :
  for_each (fun journal record => queueGoalDeliveryOnJournal record journal) journal records = Ok journal' ->
  delivery_only journal journal'.
Proof.
  revert journal. induction records as [|record records IH]; simpl; intros journal Hrun; inv_ok; [by subst|].
  etrans; [by eapply queueGoalDelivery_frame|by apply IH].
Qed.

Lemma usageRecovery_frame usage settlement journal journal' :
  queueNativeUsageRecoverySettlement usage settlement journal = Ok journal' -> delivery_only journal journal'.
Proof.
  unfold queueNativeUsageRecoverySettlement, mergeNativeUsageTerminalRecovery. intros Hrun. inv_ok.
  assert (delivery_only journal a) as Hmerged.
  { destruct settlement; inv_ok; [|by subst]. destruct (NativeUsageTerminalRecovery _); inv_ok; by subst. }
  etrans; [exact Hmerged|]. by apply enqueueGoalDelivery_inv in Hrun as [[-> _]|[_ ->]].
Qed.

(** A delivery request changes the delivery fields only, and then may queue
    the terminal transition. *)
Lemma delivery_inv key op journal journal' :
  delivery_callback key op journal = Ok journal' ->
  exists queued, delivery_only journal queued /\
    (journal' = queued \/ exists transition pendingAt, queueTerminalTransition transition pendingAt queued = Ok journal').
Proof.
  intros Hrun. destruct op; cbv [delivery_callback markGoalSessionAttachDeliveryReady
    discardUnreadyGoalSessionAttachDelivery queueGoalEvidenceAndTerminalTransition retireGoalDelivery
    markGoalDeliveryDelivered] in Hrun; inv_ok;
    try (exists journal'; split; [first [by eapply queueGoalDelivery_frame|by eapply usageRecovery_frame]|by left]).
  - destruct (List.find _ _) as [found|]; inv_ok. destruct (GoalDelivery.Ready found); inv_ok;
      exists journal'; (split; [by subst|by left]).
  - destruct (take_first _ _) as [[found rest]|]; inv_ok. exists journal'. split; [by subst|by left].
  - destruct (authoritativeTerminalTransition journal); inv_ok; [exists journal'; split; [by subst|by left]|].
    eexists. split; [by eapply queueDeliveries_frame|]. right. by eexists _, _.
  - destruct (take_first _ _) as [[found rest]|]; inv_ok. exists journal'. split; [by subst|by left].
  - destruct (List.find _ _) as [found|]; inv_ok; [exists journal'; split; [by subst|by left]|].
    destruct (take_first _ _) as [[found rest]|]; inv_ok. exists journal'. split; [by subst|by left].
Qed.
