(* ===== verification/LateUsage.v ===== *)
(** * LateUsage: accounting after the run journal is gone

    src/daemon/internal/state/goal_delivery.go (82-95, 99-124, 226-246,
    307-326, 826-1092) and state.go (1941-2000). Deleting the journal of a run
    with Goal deliveries first archives its usage receipts in a ledger file,
    which keeps accepting and delivering usage under the fence of the run. The
    methods that queue an attachment, evidence or usage look for a ledger
    before and after they look for the journal.

    The state is the journal store and the ledger files. Every file operation
    has its own outcome; a ledger write fails for whatever reason, a ledger
    over the size limit included. The clock is an argument. *)

From stdpp Require Import sorting.
From S2P Require Import Prelude Sha256 Json Authority Protocol Journal Validation Store Session.
From S2P Require Import Cgroup Containment Clone Outbox Delivery.
Import RunJournal.
Open Scope string_scope.
Open Scope Z_scope.

Definition lateGoalUsageLedgerSchemaVersion : Z := 1.

Module LateGoalUsageLedger.
Record t : Type := mk {
  SchemaVersion : Z;
  RunID : string;
  Generation : Z;
  fence : Fence.t;
  PendingUsageDeliveries : list GoalDelivery.t;
  DeliveredDeliveries : list GoalDelivery.t;
  RetiredDeliveries : list GoalDeliveryRetirement.t;
  CreatedAt : time;
  UpdatedAt : time
}.
Definition eta (r : t) : t :=
  mk r.(SchemaVersion) r.(RunID) r.(Generation) r.(fence) r.(PendingUsageDeliveries) r.(DeliveredDeliveries)
     r.(RetiredDeliveries) r.(CreatedAt) r.(UpdatedAt).
#[global] Instance set_PendingUsageDeliveries : Setter PendingUsageDeliveries := ltac:(derive_setter eta PendingUsageDeliveries).
#[global] Instance set_DeliveredDeliveries : Setter DeliveredDeliveries := ltac:(derive_setter eta DeliveredDeliveries).
#[global] Instance set_RetiredDeliveries : Setter RetiredDeliveries := ltac:(derive_setter eta RetiredDeliveries).
#[global] Instance set_UpdatedAt : Setter UpdatedAt := ltac:(derive_setter eta UpdatedAt).

Definition Key (ledger : t) : RunKey.t := RunKey.mk ledger.(RunID) ledger.(Generation).

(** [validateLateGoalUsageLedger] *)
Definition validDelivery (ledger : t) (delivery : GoalDelivery.t) : bool :=
  (delivery.(GoalDelivery.Kind) =s GoalDeliveryUsage) && sameFence delivery.(GoalDelivery.fence) ledger.(fence) &&
  is_ok (GoalDelivery.validatePersisted ledger.(RunID) delivery).

Definition addDeliveryID (seen : list string) (deliveryID : string) : result (list string) :=
  reject string_in deliveryID seen with Errorf "late Goal usage delivery is duplicated" ;;
  Ok (deliveryID :: seen).

Definition validate (ledger : t) : result unit :=
  reject negb (ledger.(SchemaVersion) =? lateGoalUsageLedgerSchemaVersion) || negb (validateKey (Key ledger)) ||
         negb (ledger.(fence).(Fence.Generation) =? ledger.(Generation)) || isZeroFence ledger.(fence) ||
         IsZero ledger.(CreatedAt) || IsZero ledger.(UpdatedAt) with Errorf "late Goal usage ledger is invalid" ;;
  try seen <- for_each (fun seen delivery =>
      reject negb (validDelivery ledger delivery) with Errorf "late Goal usage delivery is invalid" ;;
      addDeliveryID seen delivery.(GoalDelivery.DeliveryID)) [] ledger.(PendingUsageDeliveries) ;;
  try seen <- for_each (fun seen delivery =>
      reject negb delivery.(GoalDelivery.Ready) || negb (validDelivery ledger delivery)
        with Errorf "late Goal delivered usage is invalid" ;;
      addDeliveryID seen delivery.(GoalDelivery.DeliveryID)) seen ledger.(DeliveredDeliveries) ;;
  try _ <- for_each (fun seen retired =>
      let record := retired.(GoalDeliveryRetirement.Delivery) in
      reject negb (is_ok (GoalDeliveryRetirement.validate ledger.(RunID) ledger.(fence) retired)) ||
             (record.(GoalDelivery.Kind) <>s GoalDeliveryUsage) with Errorf "late Goal usage retirement is invalid" ;;
      addDeliveryID seen record.(GoalDelivery.DeliveryID)) seen ledger.(RetiredDeliveries) ;;
  Ok tt.
End LateGoalUsageLedger.

Import LateGoalUsageLedger (PendingUsageDeliveries, DeliveredDeliveries, RetiredDeliveries, UpdatedAt).

(** ** The ledger files *)

Inductive ledger_file : Type :=
| LedgerDecodes (ledger : LateGoalUsageLedger.t)
| LedgerUndecodable.

(** The file of a ledger once it is written: each record is read back
    through its own decoder. *)
Definition written_ledger (ledger : LateGoalUsageLedger.t) : ledger_file :=
  let stored := ledger
    <| PendingUsageDeliveries := map reread_delivery ledger.(PendingUsageDeliveries) |>
    <| DeliveredDeliveries := map reread_delivery ledger.(DeliveredDeliveries) |>
    <| RetiredDeliveries := map reread_retirement ledger.(RetiredDeliveries) |> in
  if forallb decodable_delivery stored.(PendingUsageDeliveries) && forallb decodable_delivery stored.(DeliveredDeliveries) &&
     forallb (fun retired => decodable_delivery retired.(GoalDeliveryRetirement.Delivery)) stored.(RetiredDeliveries)
  then LedgerDecodes stored else LedgerUndecodable.

Definition lateGoalUsagePath (key : RunKey.t) : string :=
  "usage-" ++ sha256_hex (key.(RunKey.RunID) ++ nul ++ FormatInt key.(RunKey.Generation)) ++ ".json".

Notation ledgers := (gmap string ledger_file).

(** [loadLateGoalUsagePathLocked] *)
Definition loadLateGoalUsagePathLocked (readable : bool) (files : ledgers) (path : string) : result LateGoalUsageLedger.t :=
  match files !! path with
  | None => Err (NotFoundError "late Goal usage ledger")
  | Some content =>
      reject negb readable with Errorf "read late Goal usage ledger" ;;
      match content with
      | LedgerUndecodable => Err (Errorf "decode late Goal usage ledger")
      | LedgerDecodes ledger =>
          reject negb (is_ok (LateGoalUsageLedger.validate ledger)) || (path <>s lateGoalUsagePath (LateGoalUsageLedger.Key ledger))
            with Errorf "invalid late Goal usage ledger" ;;
          Ok ledger
      end
  end.

Definition loadLateGoalUsageLocked (fs : io) (files : ledgers) (key : RunKey.t) : result LateGoalUsageLedger.t :=
  loadLateGoalUsagePathLocked fs.(readable) files (lateGoalUsagePath key).

(** [isLateGoalUsageFile] *)
Definition isLateGoalUsageFile (name : string) : bool :=
  (String.substring 0 6 name =s "usage-") && (String.substring (String.length name - 5) 5 name =s ".json") &&
  let digest := String.substring 6 (String.length name - 11) name in
  (len digest =? 64) && hex_decodes digest.

(** [saveLateGoalUsageLocked] *)
Definition saveLateGoalUsageLocked (fs : io) (files : ledgers) (ledger : LateGoalUsageLedger.t) : ledgers * result unit :=
  match LateGoalUsageLedger.validate ledger with
  | Err e => (files, Err e)
  | Ok _ =>
      let updated := <[lateGoalUsagePath (LateGoalUsageLedger.Key ledger) := written_ledger ledger]> files in
      match fs.(write) with
      | WriteOK => (updated, Ok tt)
      | WriteFailed => (files, Err (Errorf "write late Goal usage ledger"))
      | SyncFailed => (updated, Err (Errorf "write late Goal usage ledger"))
      end
  end.

(** ** Changes to a ledger *)

Definition queueLateUsage (usage : Usage.t) (ledger : LateGoalUsageLedger.t) : result (LateGoalUsageLedger.t * bool) :=
  try record <- GoalDelivery.prepare ledger.(LateGoalUsageLedger.RunID)
                  ((usageDelivery usage) <| GoalDelivery.fence := ledger.(LateGoalUsageLedger.fence) |>) ;;
  let sameID other := other.(GoalDelivery.DeliveryID) =s record.(GoalDelivery.DeliveryID) in
  match List.find sameID ledger.(PendingUsageDeliveries) with
  | Some pending => if exactDelivery pending record then Ok (ledger, false) else Err ErrGoalDeliveryConflict
  | None =>
      reject existsb (fun retired => sameID retired.(GoalDeliveryRetirement.Delivery)) ledger.(RetiredDeliveries)
        with ErrGoalDeliveryConflict ;;
      match List.find sameID ledger.(DeliveredDeliveries) with
      | Some delivered => if exactDelivery delivered record then Ok (ledger, false) else Err ErrGoalDeliveryConflict
      | None => Ok (ledger <| PendingUsageDeliveries := (ledger.(PendingUsageDeliveries) ++ [record])%list |>, true)
      end
  end.

Definition lateID (deliveryID : string) (delivery : GoalDelivery.t) : bool :=
  delivery.(GoalDelivery.DeliveryID) =s deliveryID.

Definition markLateDelivered (deliveryID payloadDigest : string) (ledger : LateGoalUsageLedger.t)
    : result LateGoalUsageLedger.t :=
  match List.find (lateID deliveryID) ledger.(DeliveredDeliveries) with
  | Some delivered =>
      reject delivered.(GoalDelivery.PayloadDigest) <>s payloadDigest with ErrGoalDeliveryConflict ;; Ok ledger
  | None =>
      match take_first (lateID deliveryID) ledger.(PendingUsageDeliveries) with
      | None => Err (Errorf "late Goal usage delivery is not pending")
      | Some (pending, rest) =>
          reject pending.(GoalDelivery.PayloadDigest) <>s payloadDigest with ErrGoalDeliveryConflict ;;
          Ok (ledger <| PendingUsageDeliveries := rest |>
                     <| DeliveredDeliveries := (ledger.(DeliveredDeliveries) ++ [pending])%list |>)
      end
  end.

Definition retireLate (deliveryID payloadDigest : string) (statusCode : Z) (code message : string) (retiredAt : time)
    (ledger : LateGoalUsageLedger.t) : result LateGoalUsageLedger.t :=
  reject (statusCode <? 400) || (599 <? statusCode) || negb (validRequiredString code 256) ||
         negb (validRequiredString message 4096) || IsZero retiredAt with Errorf "late Goal usage retirement is invalid" ;;
  match take_first (lateID deliveryID) ledger.(PendingUsageDeliveries) with
  | None => Err (Errorf "late Goal usage delivery is not pending")
  | Some (pending, rest) =>
      reject pending.(GoalDelivery.PayloadDigest) <>s payloadDigest with ErrGoalDeliveryConflict ;;
      Ok (ledger <| PendingUsageDeliveries := rest |>
                 <| RetiredDeliveries := (ledger.(RetiredDeliveries) ++
                      [GoalDeliveryRetirement.mk pending statusCode code message retiredAt])%list |>)
  end.

(** ** The daemon's files: run journals and usage ledgers *)

Record files : Type := mkFiles {
  store : Store;
  late : ledgers
}.

Definition with_late (state : files) (late' : ledgers) : files := mkFiles state.(store) late'.

(** The outcomes of the file operations of one method: on the ledger, on the
    journal, and on the ledger again after the journal. *)
Record file_io : Type := mkFileIO {
  ledger_io : io;
  journal_io : io;
  again_io : io
}.

Section Methods.
Context `{AdmissionParser} `{JournalEncoder} `{Platform}.

Definition LoadLateGoalUsage (fs : io) (state : files) (key : RunKey.t) : result LateGoalUsageLedger.t :=
  reject negb (validateKey key) with Errorf "run key is invalid" ;;
  check ensureOpenLocked state.(store) ;;
  loadLateGoalUsageLocked fs state.(late) key.

Definition QueueLateGoalUsage (fs : io) (state : files) (key : RunKey.t) (usage : Usage.t) (now : time)
    : files * result LateGoalUsageLedger.t :=
  match rbind (LoadLateGoalUsage fs state key) (queueLateUsage usage) with
  | Err e => (state, Err e)
  | Ok (ledger, false) => (state, Ok ledger)
  | Ok (ledger, true) =>
      let updated := ledger <| UpdatedAt := now |> in
      let outcome := saveLateGoalUsageLocked fs state.(late) updated in
      (with_late state outcome.1, rbind outcome.2 (fun _ => Ok updated))
  end.

(** [mutateLateGoalUsage] *)
Definition mutateLateGoalUsage (fs : io) (state : files) (key : RunKey.t)
    (mutate : LateGoalUsageLedger.t -> result LateGoalUsageLedger.t) (now : time)
    : files * result LateGoalUsageLedger.t :=
  match rbind (LoadLateGoalUsage fs state key) mutate with
  | Err e => (state, Err e)
  | Ok ledger =>
      let updated := ledger <| UpdatedAt := now |> in
      let outcome := saveLateGoalUsageLocked fs state.(late) updated in
      (with_late state outcome.1, rbind outcome.2 (fun _ => Ok updated))
  end.

Definition MarkLateGoalUsageDelivered (fs : io) (state : files) (key : RunKey.t) (deliveryID payloadDigest : string)
    (now : time) : files * result LateGoalUsageLedger.t :=
  mutateLateGoalUsage fs state key (markLateDelivered deliveryID payloadDigest) now.

Definition RetireLateGoalUsage (fs : io) (state : files) (key : RunKey.t) (deliveryID payloadDigest : string)
    (statusCode : Z) (code message : string) (retiredAt now : time) : files * result LateGoalUsageLedger.t :=
  mutateLateGoalUsage fs state key (retireLate deliveryID payloadDigest statusCode code message retiredAt) now.

(** [ListLateGoalUsage]: the ledger files in the order of [os.ReadDir], then
    sorted by run and generation. *)
Definition ledgerNames (late : ledgers) : list string :=
  merge_sort String.le (List.filter isLateGoalUsageFile (map_to_list late).*1).

Definition ledger_le (left right : LateGoalUsageLedger.t) : bool :=
  if left.(LateGoalUsageLedger.RunID) =s right.(LateGoalUsageLedger.RunID)
  then left.(LateGoalUsageLedger.Generation) <=? right.(LateGoalUsageLedger.Generation)
  else String.leb left.(LateGoalUsageLedger.RunID) right.(LateGoalUsageLedger.RunID).

Definition ListLateGoalUsage (listable : bool) (file_readable : string -> bool) (state : files)
    : result (list LateGoalUsageLedger.t) :=
  check ensureOpenLocked state.(store) ;;
  reject negb listable with Errorf "list late Goal usage ledgers" ;;
  try listed <- for_each (fun listed name =>
      try ledger <- loadLateGoalUsagePathLocked (file_readable name) state.(late) name ;;
      Ok (listed ++ [ledger])%list) [] (ledgerNames state.(late)) ;;
  Ok (merge_sort (fun left right => Is_true (ledger_le left right)) listed).

(** [archiveLateGoalUsageLocked]: the ledger of a run about to be deleted. An
    existing ledger takes over the settled records of the journal where it
    has none of its own. *)
Definition usageRecords (journal : RunJournal.t) : list GoalDelivery.t :=
  List.filter (fun record => record.(GoalDelivery.Kind) =s GoalDeliveryUsage) journal.(DeliveredGoalDeliveries).
Definition usageRetirements (journal : RunJournal.t) : list GoalDeliveryRetirement.t :=
  List.filter (fun retired => retired.(GoalDeliveryRetirement.Delivery).(GoalDelivery.Kind) =s GoalDeliveryUsage)
    journal.(RetiredGoalDeliveries).

Definition newLedger (journal : RunJournal.t) (now : time) : LateGoalUsageLedger.t :=
  LateGoalUsageLedger.mk lateGoalUsageLedgerSchemaVersion journal.(RunID) journal.(Generation) (fence journal) []
    (usageRecords journal) (usageRetirements journal) now now.

Definition mergeLedger (existing ledger : LateGoalUsageLedger.t) (now : time) : LateGoalUsageLedger.t :=
  let retired := if (llen existing.(RetiredDeliveries) =? 0) && negb (llen ledger.(RetiredDeliveries) =? 0)
                 then existing <| RetiredDeliveries := ledger.(RetiredDeliveries) |> <| UpdatedAt := now |>
                 else existing in
  if (llen retired.(DeliveredDeliveries) =? 0) && negb (llen ledger.(DeliveredDeliveries) =? 0)
  then retired <| DeliveredDeliveries := ledger.(DeliveredDeliveries) |> <| UpdatedAt := now |>
  else retired.

Definition archiveLateGoalUsageLocked (fs : io) (late : ledgers) (journal : RunJournal.t) (now : time)
    : ledgers * result unit :=
  let ledger := newLedger journal now in
  match loadLateGoalUsageLocked fs late (Key journal) with
  | Ok existing =>
      if negb (sameFence existing.(LateGoalUsageLedger.fence) ledger.(LateGoalUsageLedger.fence))
      then (late, Err ErrGoalDeliveryConflict)
      else
        let merged := mergeLedger existing ledger now in
        if negb (llen merged.(RetiredDeliveries) =? 0) || negb (llen merged.(DeliveredDeliveries) =? 0)
        then saveLateGoalUsageLocked fs late merged else (late, Ok tt)
  | Err (NotFoundError _) => saveLateGoalUsageLocked fs late ledger
  | Err e => (late, Err e)
  end.

(** What [os.Remove] and the sync of the directory do. *)
Inductive remove_outcome : Type := RemoveOK | RemoveMissing | RemoveFailed | RemoveSyncFailed.

Definition removeJournal (outcome : remove_outcome) (store : Store) (key : RunKey.t) : Store * result unit :=
  let removed := with_runs store (delete (journalPath key) store.(runs)) in
  match outcome with
  | RemoveOK => (removed, Ok tt)
  | RemoveMissing => (removed, Err (NotFoundError "run journal"))
  | RemoveFailed => (store, Err (Errorf "delete run journal"))
  | RemoveSyncFailed => (removed, Err (Errorf "sync directory"))
  end.

(** What a run may still owe, in the order [DeleteJournal] asks. *)
Definition deletable (key : RunKey.t) (now : time) (journal : RunJournal.t) : result unit :=
  reject HasProcessDetails journal with Errorf "process stop evidence remains pending" ;;
  reject HasPendingContainment journal with Errorf "containment state remains pending" ;;
  reject non_nil journal.(LinuxCloneIntent) && negb (LinuxCloneCleanupEligible journal key (fence journal) now)
    with Errorf "Linux clone journal is not eligible for workspace deletion" ;;
  reject negb (llen journal.(PendingCommandAcknowledgements) =? 0) with Errorf "command acknowledgement remains pending" ;;
  reject HasPendingGoalDeliveries journal with Errorf "run journal has pending Goal delivery" ;;
  reject journal.(NativeUsageRecoveryRequired) with Errorf "native usage recovery remains pending" ;;
  reject hasUnresolvedProviderActions journal with Errorf "provider action outcome remains pending" ;;
  Ok tt.

Definition DeleteJournal (fs : file_io) (removal : remove_outcome) (state : files) (key : RunKey.t) (now : time)
    : files * result unit :=
  if negb (validateKey key) then (state, Err (Errorf "run key is invalid")) else
  match rbind (ensureOpenLocked state.(store)) (fun _ =>
          try journal <- loadJournalLocked fs.(journal_io) state.(store) key ;;
          check deletable key now journal ;; Ok journal) with
  | Err e => (state, Err e)
  | Ok journal =>
      let '(late', archived) := if journal.(GoalDeliveryEnabled)
                                then archiveLateGoalUsageLocked fs.(ledger_io) state.(late) journal now
                                else (state.(late), Ok tt) in
      match archived with
      | Err e => (with_late state late', Err e)
      | Ok _ => let '(store', removed) := removeJournal removal state.(store) key in (mkFiles store' late', removed)
      end
  end.

(** ** The queueing methods with their look at the ledger *)

(** A receipt other than usage is refused once a ledger exists. *)
Definition unlessLate (fs : file_io) (state : files) (key : RunKey.t) (record : GoalDelivery.t)
    : files * result RunJournal.t :=
  match LoadLateGoalUsage fs.(ledger_io) state key with
  | Ok _ => (state, Err ErrGoalDeliveryConflict)
  | Err (NotFoundError _) =>
      let '(store', outcome) := queueGoalDelivery fs.(journal_io) state.(store) key record in
      let state' := mkFiles store' state.(late) in
      match outcome with
      | Err (NotFoundError resource) =>
          match LoadLateGoalUsage fs.(again_io) state' key with
          | Ok _ => (state', Err ErrGoalDeliveryConflict)
          | Err (NotFoundError _) => (state', Err (NotFoundError resource))
          | Err e => (state', Err e)
          end
      | outcome => (state', outcome)
      end
  | Err e => (state, Err e)
  end.

Definition QueueGoalSessionAttach (fs : file_io) (state : files) (key : RunKey.t) (payload : GoalSessionAttachDelivery.t)
    : files * result RunJournal.t :=
  match attachArguments payload with
  | Err e => (state, Err e)
  | Ok _ => unlessLate fs state key (attachDelivery payload)
  end.

Definition QueueGoalEvidence (fs : file_io) (state : files) (key : RunKey.t) (evidence : Evidence.t)
    : files * result RunJournal.t :=
  unlessLate fs state key (evidenceDelivery evidence).

(** The journal [QueueGoalUsage] returns when the ledger took the usage. *)
Definition keyOnly (key : RunKey.t) : RunJournal.t :=
  RunJournal.zero <| RunID := key.(RunKey.RunID) |> <| Generation := key.(RunKey.Generation) |>.

Definition QueueGoalUsage (fs : file_io) (state : files) (key : RunKey.t) (usage : Usage.t) (now : time)
    : files * result RunJournal.t :=
  match LoadLateGoalUsage fs.(ledger_io) state key with
  | Ok _ =>
      let '(state', queued) := QueueLateGoalUsage fs.(again_io) state key usage now in
      (state', rbind queued (fun _ => Ok (keyOnly key)))
  | Err (NotFoundError _) =>
      let '(store', outcome) := queueGoalDelivery fs.(journal_io) state.(store) key (usageDelivery usage) in
      let state' := mkFiles store' state.(late) in
      match outcome with
      | Err (NotFoundError _) =>
          let '(state'', queued) := QueueLateGoalUsage fs.(again_io) state' key usage now in
          (state'', rbind queued (fun _ => Ok (keyOnly key)))
      | outcome => (state', outcome)
      end
  | Err e => (state, Err e)
  end.
End Methods.
