(* ===== verification/Wire.v ===== *)
(** * Wire: the frames between the owner, the root launcher and the gate

    src/daemon/native/linux-gate/protocol/launcher_linux.go: the fixed owner
    configuration (560-633), the launch request and its result, the
    readiness and status frames, the guarded RELEASE that starts a native
    command, and the checkout receipt of a clone (2269-2664, 2736-3069). The
    owner sends a RELEASE with [encodeGuardedRelease]. The gate that reads it
    is the C program c-gate/gate.c, which is not modelled; [EncodeRelease] and
    [DecodeRelease] are the Go pair the tests use.

    A packet is a list of bytes. [slice] is a Go slice expression and [put]
    the copy into one; the little-endian integers of encoding/binary are [le]
    and [unle]. A descriptor that travels beside a RELEASE is what fstat and
    fcntl say of it ([File]); the clock and the credentials of the process are
    arguments, and the JSON form of a clone grant is a parameter,
    [GrantCodec]. *)

From S2P Require Import Prelude Sha256 Json Authority Protocol Journal Validation Store Cgroup.
Open Scope string_scope.
Open Scope Z_scope.

(** ** Bytes *)

Definition slice (packet : list Z) (from to : nat) : list Z := take (to - from) (drop from packet).

(** [copy(packet[off:], bytes)] within the packet *)
Definition put (packet : list Z) (off : nat) (bytes : list Z) : list Z :=
  (take off packet ++ bytes ++ drop (off + length bytes) packet)%list.

Fixpoint le (n : nat) (v : Z) : list Z :=
  match n with O => [] | S n' => v mod 256 :: le n' (v / 256) end.

Fixpoint unle (bytes : list Z) : Z :=
  match bytes with [] => 0 | b :: rest => b + 256 * unle rest end.

Fixpoint bytes_string (bytes : list Z) : string :=
  match bytes with [] => "" | b :: rest => String (ascii_of_nat (Z.to_nat b)) (bytes_string rest) end.

Definition zeros (n : nat) : list Z := repeat 0 n.

(** ** Constants *)

Definition launchMagic : list Z := string_bytes "SYMLA001".
Definition wireVersion : Z := 1.
Definition frameLaunchRequest : Z := 1.
Definition frameLaunchResult : Z := 2.
Definition frameGateReady : Z := 3.
Definition frameGateMap : Z := 4.
Definition frameGateParked : Z := 5.
Definition frameRelease : Z := 6.
Definition frameExecAttempt : Z := 7.
Definition frameExecFailure : Z := 8.
Definition frameLauncherReady : Z := 9.
Definition frameLauncherReadyFailure : Z := 10.
Definition frameBootstrapExecAttempt : Z := 20.
Definition frameCheckoutReady : Z := 21.
Definition frameCheckoutReadyAck : Z := 22.
Definition frameNativeExecAttempt : Z := 23.
Definition frameCloneBootstrapFailure : Z := 24.
Definition releaseWireVersion : Z := 2.
Definition releaseCloneWireVersion : Z := 3.
Definition cloneStatusWireVersion : Z := 3.
Definition launchRequestSize : nat := 92.
Definition launchResultSize : nat := 128.
Definition gateReadySize : nat := 16.
Definition gateMapSize : nat := 60.
Definition gateParkedSize : nat := 16.
Definition maxLauncherReadySize : Z := 512.
Definition launcherReadyFailureSize : nat := 16.
Definition cloneExecAttemptSize : nat := 28.
Definition cloneFailureSize : nat := 20.
Definition maxCloneStatusFrameSize : Z := 65536.
Definition execAttemptSize : nat := 28.
Definition execFailureSize : nat := 16.
Definition releaseHeaderSize : nat := 60.
Definition releaseFDCount : Z := 4.
Definition maxReleaseSize : Z := 131072.
Definition maxCommandString : Z := 16384.
Definition maxCommandVector : Z := 128.
Definition maxOwnerStateDirBytes : Z := 4095.
Definition maxInt32 : Z := 2 ^ 31 - 1.

(** ** Frames *)

Definition fixedFrame (kind : Z) (size : nat) : list Z :=
  let packet := zeros size in
  let packet := put packet 0 launchMagic in
  let packet := put packet 8 (le 2 wireVersion) in
  put packet 10 (le 2 kind).

(** The magic, version and type every frame starts with. *)
Definition header (packet : list Z) (version kind : Z) : bool :=
  bool_decide (slice packet 0 8 = launchMagic) && (unle (slice packet 8 10) =? version) &&
  (unle (slice packet 10 12) =? kind).

Definition validateFixedFrame (packet : list Z) (kind : Z) (size : nat) : result unit :=
  reject negb (length packet =? size)%nat || negb (header packet wireVersion kind)
    with Errorf "Linux owner fixed frame magic, version, type, or size is invalid" ;;
  Ok tt.

Definition cloneStatusFrame (kind : Z) (size : nat) : list Z :=
  put (fixedFrame kind size) 8 (le 2 cloneStatusWireVersion).

Definition validateCloneStatusFrame (packet : list Z) (kind : Z) (size : nat) : result unit :=
  reject negb (length packet =? size)%nat || negb (header packet cloneStatusWireVersion kind)
    with Errorf "Linux clone status frame version, type, or size is invalid" ;;
  Ok tt.

(** An error of [r] reported as [e]. *)
Definition instead {A} (r : result A) (e : error) : result A := match r with Ok x => Ok x | Err _ => Err e end.

(** Fields behind the header; [append] *)
Definition appendWireUint32 (destination : list Z) (value : Z) : list Z := (destination ++ le 4 value)%list.
Definition appendWireUint64 (destination : list Z) (value : Z) : list Z := (destination ++ le 8 value)%list.
Definition appendWireString (destination : list Z) (value : string) : list Z :=
  (appendWireUint32 destination (len value) ++ string_bytes value)%list.

(** A read returns the value and the position behind it. *)
Definition readWireUint32 (body : list Z) (position : nat) : result (Z * nat) :=
  reject llen body - Z.of_nat position <? 4 with Errorf "length-prefixed command body ended before uint32" ;;
  Ok (unle (slice body position (position + 4)), (position + 4)%nat).

Definition readWireUint64 (body : list Z) (position : nat) : result (Z * nat) :=
  reject llen body - Z.of_nat position <? 8 with Errorf "length-prefixed command body ended before uint64" ;;
  Ok (unle (slice body position (position + 8)), (position + 8)%nat).

Definition readWireString (body : list Z) (position : nat) : result (string * nat) :=
  try (length, position) <- readWireUint32 body position ;;
  reject (maxCommandString <? length) || (llen body - Z.of_nat position <? length)
    with Errorf "length-prefixed command string is oversized or truncated" ;;
  let value := slice body position (position + Z.to_nat length) in
  reject existsb (fun b => b =? 0) value with Errorf "length-prefixed command string contains NUL" ;;
  Ok (bytes_string value, (position + Z.to_nat length)%nat).

(** ** The owner configuration *)

Definition contains_nul (value : string) : bool := contains_byte (fun a => byte_at a =? 0) value.

Module OwnerConfig.
Record t : Type := mk { AUID : Z; AGID : Z; BUID : Z; BGID : Z; StateDir : string }.

Definition validateOwnerStateDir (stateDir : string) : bool :=
  (stateDir <>s "") && (len stateDir <=? maxOwnerStateDirBytes) && path_IsAbs stateDir &&
  (path_Clean_rooted stateDir =s stateDir) && (stateDir <>s "/") &&
  negb (contains_byte (fun a => (byte_at a <? 32) || (byte_at a =? 127)) stateDir) &&
  negb (existsb (fun component => (component =s "") || (component =s ".") || (component =s ".."))
          (split_slash (trim_prefix_len 1 stateDir))).

Definition Validate (config : t) : bool :=
  negb (config.(AUID) =? 0) && negb (config.(BUID) =? 0) && negb (config.(AUID) =? config.(BUID)) &&
  negb (config.(AGID) =? 0) && negb (config.(BGID) =? 0) && negb (config.(AGID) =? config.(BGID)) &&
  ((config.(StateDir) =s "") || validateOwnerStateDir config.(StateDir)).
End OwnerConfig.

(** [strings.Split(s, "\n")] *)
Fixpoint split_lines (s : string) : list string :=
  match s with
  | "" => [""]
  | String a s' =>
      if byte_at a =? 10 then "" :: split_lines s'
      else match split_lines s' with
           | [] => [String a ""]
           | h :: t => String a h :: t
           end
  end.

Definition decimal_digit (a : ascii) : bool := (48 <=? byte_at a) && (byte_at a <=? 57).

(** [strconv.ParseUint(text, 10, 32)], then the test that the text is what
    [strconv.FormatUint] prints *)
Definition canonicalUint32 (text : string) : option Z :=
  if (text <>s "") && string_forallb decimal_digit text then
    let parsed := digits_value text 0 in
    if (parsed <=? 2 ^ 32 - 1) && (FormatInt parsed =s text) then Some parsed else None
  else None.

(** The line [key=value] of the configuration. *)
Definition configLine (key line : string) : result Z :=
  reject negb (has_prefix (key ++ "=") line) with Errorf "fixed Linux owner config field is missing or reordered" ;;
  match canonicalUint32 (trim_prefix_len (String.length (key ++ "=")) line) with
  | None => Err (Errorf "fixed Linux owner config field is not a canonical uint32")
  | Some value => Ok value
  end.

Definition ownerConfigOf (auid agid buid bgid : string) (stateDir : option string) : result OwnerConfig.t :=
  try auid <- configLine "a_uid" auid ;;
  try agid <- configLine "a_gid" agid ;;
  try buid <- configLine "b_uid" buid ;;
  try bgid <- configLine "b_gid" bgid ;;
  try stateDir <- (match stateDir with
                   | None => Ok ""
                   | Some line =>
                       reject negb (has_prefix "state_dir=" line)
                         with Errorf "fixed Linux owner config state_dir field is missing or reordered" ;;
                       let stateDir := trim_prefix_len 10 line in
                       reject negb (OwnerConfig.validateOwnerStateDir stateDir)
                         with Errorf "fixed Linux owner StateDir must be a canonical absolute non-root path" ;;
                       Ok stateDir
                   end) ;;
  let config := OwnerConfig.mk auid agid buid bgid stateDir in
  reject negb (OwnerConfig.Validate config) with Errorf "Linux owner A and fixed native B must be distinct non-root IDs" ;;
  Ok config.

Definition parseOwnerConfig (data : string) : result OwnerConfig.t :=
  match split_lines data with
  | [version; auid; agid; buid; bgid; ""] =>
      reject version <>s "version=1" with Errorf "fixed Linux owner config has an invalid version or shape" ;;
      ownerConfigOf auid agid buid bgid None
  | [version; auid; agid; buid; bgid; stateDir; ""] =>
      reject version <>s "version=2" with Errorf "fixed Linux owner config has an invalid version or shape" ;;
      ownerConfigOf auid agid buid bgid (Some stateDir)
  | _ => Err (Errorf "fixed Linux owner config has an invalid version or shape")
  end.

(** ** The launcher's readiness *)

(** The identity of the transient launcher; its boot ID does not travel. *)
Module LauncherReady.
Record t : Type := mk { PID : Z; StartTime : Z; Identity : string }.
End LauncherReady.

Definition EncodeLauncherReady (identity : LauncherReady.t) : result (list Z) :=
  reject (identity.(LauncherReady.PID) <=? 1) || (maxInt32 <? identity.(LauncherReady.PID)) ||
         (identity.(LauncherReady.StartTime) =? 0) || (identity.(LauncherReady.Identity) =s "") ||
         (256 <? len identity.(LauncherReady.Identity)) || contains_nul identity.(LauncherReady.Identity)
    with Errorf "transient launcher readiness identity is invalid" ;;
  let packet := fixedFrame frameLauncherReady 12 in
  let packet := appendWireUint32 packet identity.(LauncherReady.PID) in
  let packet := (packet ++ le 8 identity.(LauncherReady.StartTime))%list in
  let packet := appendWireString packet identity.(LauncherReady.Identity) in
  reject maxLauncherReadySize <? llen packet with Errorf "transient launcher readiness frame exceeds its fixed bound" ;;
  Ok packet.

Definition DecodeLauncherReady (packet : list Z) : result LauncherReady.t :=
  reject (llen packet <? 29) || (maxLauncherReadySize <? llen packet) || negb (header packet wireVersion frameLauncherReady)
    with Errorf "transient launcher readiness magic, version, type, or size is invalid" ;;
  try (pid, position) <- instead (readWireUint32 packet 12) (Errorf "transient launcher readiness PID is invalid") ;;
  reject pid <=? 1 with Errorf "transient launcher readiness PID is invalid" ;;
  reject llen packet - Z.of_nat position <? 8 with Errorf "transient launcher readiness start time is truncated" ;;
  let startTime := unle (slice packet position (position + 8)) in
  try (identity, position) <- instead (readWireString packet (position + 8))
    (Errorf "transient launcher readiness identity is invalid or has trailing bytes") ;;
  reject (startTime =? 0) || (identity =s "") || (256 <? len identity) || negb (position =? length packet)%nat
    with Errorf "transient launcher readiness identity is invalid or has trailing bytes" ;;
  Ok (LauncherReady.mk pid startTime identity).

(** The stages are numbered from 1 to 8. *)
Definition LauncherReadyFailureEnvironment : Z := 1.
Definition LauncherReadyFailureEncoding : Z := 8.

Definition EncodeLauncherReadyFailure (stage : Z) : list Z :=
  put (fixedFrame frameLauncherReadyFailure launcherReadyFailureSize) 12 (le 4 stage).

Definition DecodeLauncherReadyFailure (packet : list Z) : result Z :=
  check instead (validateFixedFrame packet frameLauncherReadyFailure launcherReadyFailureSize)
    (Errorf "transient launcher readiness failure frame is malformed") ;;
  let stage := unle (slice packet 12 16) in
  reject (stage <? LauncherReadyFailureEnvironment) || (LauncherReadyFailureEncoding <? stage)
    with Errorf "transient launcher readiness failure stage is invalid" ;;
  Ok stage.

(** ** The launch request and its result *)

(** [hex.DecodeString] of a canonical token *)
Definition hexField (token : string) (size : Z) (message : string) : result (list Z) :=
  match decodeCanonicalHex token size with
  | None => Err (Errorf message)
  | Some bytes => Ok bytes
  end.

Module LaunchRequest.
Record t : Type := mk { ReleaseToken : list Z; LaunchToken : string; Secret : list Z }.
End LaunchRequest.

Definition encodeLaunchRequest (token : list Z) (launchToken secret : string) : result (list Z) :=
  try launchToken <- hexField launchToken TokenBytes "Linux prepare request launch token is invalid" ;;
  try secret <- hexField secret SecretBytes "Linux prepare request authority secret is invalid" ;;
  let packet := zeros launchRequestSize in
  let packet := put packet 0 launchMagic in
  let packet := put packet 8 (le 2 wireVersion) in
  let packet := put packet 10 (le 2 frameLaunchRequest) in
  let packet := put packet 12 token in
  let packet := put packet 44 launchToken in
  Ok (put packet 60 secret).

Definition DecodeLaunchRequest (packet : list Z) : result LaunchRequest.t :=
  reject negb (length packet =? launchRequestSize)%nat || negb (header packet wireVersion frameLaunchRequest)
    with Errorf "Linux owner prepare request magic, version, type, or size is invalid" ;;
  let request := LaunchRequest.mk (slice packet 12 44) (hex_encode (slice packet 44 60)) (slice packet 60 92) in
  reject bool_decide (request.(LaunchRequest.ReleaseToken) = zeros 32) ||
         (request.(LaunchRequest.LaunchToken) =s repeat_ascii "0" (Z.to_nat (TokenBytes * 2))) ||
         bool_decide (request.(LaunchRequest.Secret) = zeros 32)
    with Errorf "Linux owner prepare request carries an empty token or secret" ;;
  Ok request.

(** The gate as the launcher reports it; the boot ID does not travel. *)
Module ProcessIdentity.
Record t : Type := mk {
  PID : Z;
  StartTime : Z;
  UserNSDevice : Z;
  UserNSInode : Z;
  HostUID : Z;
  HostGID : Z;
  OwnerPID : Z
}.
End ProcessIdentity.
Import ProcessIdentity (PID, StartTime, UserNSDevice, UserNSInode, HostUID, HostGID, OwnerPID).

Definition LaunchStatusReady : Z := 0.
Definition LaunchStatusRejected : Z := 1.
Definition LaunchStatusUnresolved : Z := 2.
Definition LaunchStatusNeverProduced : Z := 3.

Module LaunchResult.
Record t : Type := mk {
  Status : Z;
  Errno : Z;
  Token : list Z;
  Identity : ProcessIdentity.t;
  Authenticator : list Z
}.
Definition validStatus (result : t) : bool :=
  negb ((LaunchStatusNeverProduced <? result.(Status)) || (maxInt32 <? result.(Errno))).
(** What a ready gate must carry. *)
Definition validIdentity (result : t) : bool :=
  negb ((result.(Status) =? LaunchStatusReady) &&
        ((result.(Identity).(PID) <=? 1) || (result.(Identity).(StartTime) =? 0) || (result.(Identity).(OwnerPID) <=? 1) ||
         (result.(Identity).(UserNSInode) =? 0))).
End LaunchResult.
Import LaunchResult (Status, Errno, Token, Identity, Authenticator).

Definition EncodeLaunchResult (result : LaunchResult.t) : Prelude.result (list Z) :=
  reject negb (LaunchResult.validStatus result) with Errorf "Linux owner launcher result status or errno is invalid" ;;
  let packet := fixedFrame frameLaunchResult launchResultSize in
  let packet := put packet 12 (le 4 result.(Status)) in
  let packet := put packet 16 (le 4 result.(Errno)) in
  let packet := put packet 20 result.(Token) in
  let packet := put packet 52 (le 4 result.(Identity).(PID)) in
  let packet := put packet 56 (le 4 result.(Identity).(HostUID)) in
  let packet := put packet 60 (le 4 result.(Identity).(HostGID)) in
  let packet := put packet 64 (le 4 result.(Identity).(OwnerPID)) in
  let packet := put packet 72 (le 8 result.(Identity).(StartTime)) in
  let packet := put packet 80 (le 8 result.(Identity).(UserNSDevice)) in
  let packet := put packet 88 (le 8 result.(Identity).(UserNSInode)) in
  Ok (put packet 96 result.(Authenticator)).

Definition DecodeLaunchResult (packet : list Z) : result LaunchResult.t :=
  reject negb (length packet =? launchResultSize)%nat || negb (header packet wireVersion frameLaunchResult)
    with Errorf "root launcher result magic, version, or type is invalid" ;;
  reject negb (unle (slice packet 68 72) =? 0) with Errorf "root launcher result reserved field is nonzero" ;;
  let result := LaunchResult.mk (unle (slice packet 12 16)) (unle (slice packet 16 20)) (slice packet 20 52)
    (ProcessIdentity.mk (unle (slice packet 52 56)) (unle (slice packet 72 80)) (unle (slice packet 80 88))
       (unle (slice packet 88 96)) (unle (slice packet 56 60)) (unle (slice packet 60 64)) (unle (slice packet 64 68)))
    (slice packet 96 128) in
  reject negb (LaunchResult.validStatus result) with Errorf "root launcher result status or errno is invalid" ;;
  reject negb (LaunchResult.validIdentity result) with Errorf "root launcher returned an invalid gate identity" ;;
  Ok result.

(** ** The gate *)

Definition EncodeGateReady : list Z := fixedFrame frameGateReady gateReadySize.
Definition ValidateGateReady (packet : list Z) : result unit := validateFixedFrame packet frameGateReady gateReadySize.

Definition EncodeGateMap (config : OwnerConfig.t) (token : list Z) : list Z :=
  let packet := fixedFrame frameGateMap gateMapSize in
  let packet := put packet 12 (le 4 config.(OwnerConfig.AUID)) in
  let packet := put packet 16 (le 4 config.(OwnerConfig.AGID)) in
  let packet := put packet 20 (le 4 config.(OwnerConfig.BUID)) in
  let packet := put packet 24 (le 4 config.(OwnerConfig.BGID)) in
  put packet 28 token.

Definition DecodeGateMap (packet : list Z) : result (OwnerConfig.t * list Z) :=
  check validateFixedFrame packet frameGateMap gateMapSize ;;
  let config := OwnerConfig.mk (unle (slice packet 12 16)) (unle (slice packet 16 20)) (unle (slice packet 20 24))
                  (unle (slice packet 24 28)) "" in
  reject negb (OwnerConfig.Validate config) with Errorf "Linux owner A and fixed native B must be distinct non-root IDs" ;;
  Ok (config, slice packet 28 60).

Definition EncodeGateParked : list Z := fixedFrame frameGateParked gateParkedSize.
Definition ValidateGateParked (packet : list Z) : result unit := validateFixedFrame packet frameGateParked gateParkedSize.

Definition EncodeExecAttempt (device inode : Z) : list Z :=
  put (put (fixedFrame frameExecAttempt execAttemptSize) 12 (le 8 device)) 20 (le 8 inode).

Definition EncodeExecFailure (errno : Z) : list Z := put (fixedFrame frameExecFailure execFailureSize) 12 (le 4 errno).

(** ** The guarded RELEASE *)

(** encoding/json on a clone grant: what [json.Marshal] prints, and what a
    decoder that refuses unknown fields and trailing data reads. *)
Class GrantCodec : Type := {
  marshalGrant : LinuxCloneGrant.t -> option (list Z);
  unmarshalGrant : list Z -> option LinuxCloneGrant.t
}.

(** *** Descriptors and the clock, as the kernel reports them *)

Module File.
(** [Stat] is what fstat answers and [Flags] what F_GETFL answers; [None] is an error. *)
Record stat : Type := mkstat { Mode : Z; Uid : Z; Gid : Z; Dev : Z; Ino : Z }.
Record t : Type := mk { Fd : Z; Stat : option stat; Flags : option Z }.
End File.

Definition S_IFMT : Z := 61440.
Definition S_IFIFO : Z := 4096.
Definition O_RDONLY : Z := 0.
Definition O_WRONLY : Z := 1.
Definition O_ACCMODE : Z := 3.
Definition O_PATH : Z := 2097152.

(** The user and group of the process. *)
Class Credentials : Type := { getuid : Z; getgid : Z }.

Definition ownedFifo `{Credentials} (stat : File.stat) : bool :=
  (Z.land stat.(File.Mode) S_IFMT =? S_IFIFO) && (stat.(File.Uid) =? getuid) && (stat.(File.Gid) =? getgid).

Definition samePipe (a b : File.stat) : bool := (a.(File.Dev) =? b.(File.Dev)) && (a.(File.Ino) =? b.(File.Ino)).

(** The body of the loop: one pipe against those before it. *)
Definition runnerPipe `{Credentials} (prior : list (Z * File.stat)) (wanted : option File.t * Z)
    : result (list (Z * File.stat)) :=
  match wanted with
  | (None, _) => Err (Errorf "native command requires Runner-owned stdin-read, stdout-write, and stderr-write pipes")
  | (Some file, access) =>
      reject file.(File.Fd) <? 0 with Errorf "native standard-I/O pipe descriptor is closed" ;;
      match file.(File.Stat) with
      | None => Err (Errorf "stat native standard-I/O pipe")
      | Some stat =>
          reject negb (ownedFifo stat) with Errorf "native standard-I/O descriptor is not an A-owned pipe" ;;
          reject negb (some_and file.(File.Flags) (fun flags => Z.land flags O_ACCMODE =? access))
            with Errorf "native standard-I/O pipe has the wrong access direction" ;;
          reject existsb (fun '(fd, earlier) => (fd =? file.(File.Fd)) || samePipe earlier stat) prior
            with Errorf "native stdin/stdout/stderr must be three distinct pipe ends" ;;
          Ok (prior ++ [(file.(File.Fd), stat)])%list
      end
  end.

Definition validateRunnerPipes `{Credentials} (stdin stdout stderr : option File.t) : result unit :=
  try _ <- for_each runnerPipe [] [(stdin, O_RDONLY); (stdout, O_WRONLY); (stderr, O_WRONLY)] ;;
  Ok tt.

(** The lease deadline: is it the zero time, does it carry a monotonic
    reading, and what [time.Until] answers (an int64 of nanoseconds). *)
Module Deadline.
Record t : Type := mk { IsZero : bool; Monotonic : bool; Until : Z }.
End Deadline.

Definition maxUint64 : Z := 2 ^ 64 - 1.
Definition nanosecondsPerSecond : Z := 1000000000.

(** [now] is what clock_gettime answers: seconds and nanoseconds, int64. *)
Definition monotonicDeadlineNS (now : option (Z * Z)) (deadline : Deadline.t) : result Z :=
  reject deadline.(Deadline.IsZero) with Errorf "Linux RELEASE requires an acknowledged monotonic lease deadline" ;;
  reject negb deadline.(Deadline.Monotonic) with Errorf "Linux RELEASE lease deadline has no monotonic component" ;;
  match now with
  | None => Err (Errorf "read CLOCK_MONOTONIC for RELEASE")
  | Some (sec, nsec) =>
      let remaining := deadline.(Deadline.Until) in
      reject remaining <=? 0 with Errorf "Linux RELEASE lease deadline has already expired" ;;
      reject (sec <? 0) || (nsec <? 0) || (1000000000 <=? nsec) with Errorf "CLOCK_MONOTONIC returned an invalid time" ;;
      reject maxUint64 / nanosecondsPerSecond <? sec with Errorf "CLOCK_MONOTONIC seconds overflow RELEASE deadline" ;;
      let baseNS := (sec * nanosecondsPerSecond) mod 2 ^ 64 in
      reject maxUint64 - baseNS <? nsec with Errorf "CLOCK_MONOTONIC nanoseconds overflow RELEASE deadline" ;;
      let nowNS := (baseNS + nsec) mod 2 ^ 64 in
      reject maxUint64 - nowNS <? remaining with Errorf "lease deadline overflows monotonic nanoseconds" ;;
      Ok ((nowNS + remaining) mod 2 ^ 64)
  end.

(** *** The command *)

Module NativeCommand.
Record t : Type := mk {
  Path : string;
  Args : list string;
  Env : list string;
  Dir : string;
  Stdin : option File.t;
  Stdout : option File.t;
  Stderr : option File.t;
  Clone : option LinuxCloneGrant.t
}.
End NativeCommand.
Import NativeCommand (Path, Args, Env, Dir, Stdin, Stdout, Stderr, Clone).

(** The key of [strings.Cut(value, "=")], if there is one *)
Fixpoint cut_key (value : string) : option string :=
  match value with
  | "" => None
  | String a rest => if byte_at a =? 61 then Some "" else option_map (String a) (cut_key rest)
  end.

Definition validArgument (value : string) : bool :=
  (value <>s "") && (len value <=? maxCommandString) && negb (contains_nul value).

Definition validEnvironment (value : string) : bool :=
  (len value <=? maxCommandString) && negb (contains_nul value) &&
  some_and (cut_key value) (fun key => (key <>s "") && negb (contains_nul key)).

Definition environmentKey (value : string) : string := match cut_key value with Some key => key | None => "" end.

Definition total_length (values : list string) : Z := fold_right (fun value total => len value + total) 0 values.

(** [validateFields] *)
Definition validateFields (command : NativeCommand.t) : bool :=
  path_IsAbs command.(Path) && (command.(Path) <>s "/") && (len command.(Path) <=? maxCommandString) &&
  negb (contains_nul command.(Path)) && path_IsAbs command.(Dir) && (len command.(Dir) <=? maxCommandString) &&
  negb (contains_nul command.(Dir)) && negb (llen command.(Args) =? 0) && (llen command.(Args) <=? maxCommandVector) &&
  (llen command.(Env) <=? maxCommandVector) &&
  none_or command.(Clone) (fun grant =>
    LinuxCloneGrant.Validate grant && (command.(Dir) =s grant.(LinuxCloneGrant.Intent).(LinuxCloneIntent.Target))) &&
  forallb validArgument command.(Args) && forallb validEnvironment command.(Env) &&
  distinct_keys environmentKey [] command.(Env) &&
  (len command.(Path) + len command.(Dir) + total_length command.(Args) + total_length command.(Env) <=?
   maxReleaseSize - Z.of_nat releaseHeaderSize - 4096).

Definition appendWireStrings (destination : list Z) (values : list string) : list Z :=
  fold_left appendWireString values (appendWireUint32 destination (llen values)).

Definition readWireStrings (body : list Z) (position : nat) (count : nat) : result (list string * nat) :=
  for_each (fun '(values, position) _ =>
    try (value, position) <- readWireString body position ;; Ok ((values ++ [value])%list, position))
    ([], position) (seq 0 count).

Section Release.
Context `{GrantCodec} `{Credentials}.

(** [NativeCommand.Validate] *)
Definition validateCommand (command : NativeCommand.t) : result unit :=
  reject negb (validateFields command) with Errorf "Linux owner native command is invalid" ;;
  validateRunnerPipes command.(Stdin) command.(Stdout) command.(Stderr).

(** The owner pipe must be none of the three; the descriptor of a nil
    [*os.File] is -1, which fstat refuses. *)
Definition aliases (stat : File.stat) (pipe : option File.t) : result unit :=
  match pipe with
  | None => Err (Errorf "stat native stdio while checking owner pipe")
  | Some pipe =>
      match pipe.(File.Stat) with
      | None => Err (Errorf "stat native stdio while checking owner pipe")
      | Some other => reject samePipe stat other with Errorf "Linux RELEASE owner pipe aliases a native stdio pipe" ;; Ok tt
      end
  end.

Definition validateReleaseOwnerPipe (ownerPipe : option File.t) (command : NativeCommand.t) : result unit :=
  match ownerPipe with
  | None => Err (Errorf "Linux RELEASE requires the helper-owned read-only owner pipe")
  | Some pipe =>
      reject pipe.(File.Fd) <? 0 with Errorf "Linux RELEASE owner pipe descriptor is closed" ;;
      match pipe.(File.Stat) with
      | None => Err (Errorf "stat helper owner pipe")
      | Some stat =>
          reject negb (ownedFifo stat) with Errorf "Linux RELEASE owner pipe is not an A-owned FIFO" ;;
          reject negb (some_and pipe.(File.Flags) (fun flags =>
                         (Z.land flags O_ACCMODE =? O_RDONLY) && (Z.land flags O_PATH =? 0)))
            with Errorf "Linux RELEASE owner pipe is not read-only" ;;
          check aliases stat command.(Stdin) ;;
          check aliases stat command.(Stdout) ;;
          aliases stat command.(Stderr)
      end
  end.

(** [encodeGuardedRelease] *)
Definition commandBody (command : NativeCommand.t) : list Z :=
  let body := appendWireString [] command.(Path) in
  let body := appendWireStrings body command.(Args) in
  let body := appendWireStrings body command.(Env) in
  appendWireString body command.(Dir).

Definition grantBody (command : NativeCommand.t) (body : list Z) : result (list Z * Z) :=
  match command.(Clone) with
  | None => Ok (body, releaseWireVersion)
  | Some grant =>
      match marshalGrant grant with
      | None => Err (Errorf "encode A-authorized Linux clone grant")
      | Some encoded =>
          reject (llen encoded =? 0) || (maxReleaseSize - Z.of_nat releaseHeaderSize - llen body - 4 <? llen encoded)
            with Errorf "Linux clone grant exceeds the guarded RELEASE bound" ;;
          Ok ((appendWireUint32 body (llen encoded) ++ encoded)%list, releaseCloneWireVersion)
      end
  end.

Definition encodeGuardedRelease (token : list Z) (command : NativeCommand.t) (deadlineNS : Z) : result (list Z) :=
  reject deadlineNS =? 0 with Errorf "Linux RELEASE requires a nonzero monotonic lease cutoff" ;;
  try (body, version) <- grantBody command (commandBody command) ;;
  reject maxReleaseSize - Z.of_nat releaseHeaderSize <? llen body
    with Errorf "Linux owner native command exceeds the release bound" ;;
  let packet := fixedFrame frameRelease (releaseHeaderSize + length body) in
  let packet := put packet 8 (le 2 version) in
  let packet := put packet 12 token in
  let packet := put packet 44 (le 4 (llen body)) in
  let packet := put packet 48 (le 4 releaseFDCount) in
  let packet := put packet 52 (le 8 deadlineNS) in
  Ok (put packet releaseHeaderSize body).

(** [EncodeRelease] under a guard: the owner pipe and the lease deadline *)
Definition EncodeRelease (now : option (Z * Z)) (token : list Z) (command : NativeCommand.t) (ownerPipe : option File.t)
    (leaseDeadline : Deadline.t) : result (list Z) :=
  check validateCommand command ;;
  check validateReleaseOwnerPipe ownerPipe command ;;
  try deadlineNS <- monotonicDeadlineNS now leaseDeadline ;;
  encodeGuardedRelease token command deadlineNS.

(** [decodeReleaseFrame] *)
Definition decodeGrant (version : Z) (body : list Z) (position : nat) : result (option LinuxCloneGrant.t * nat) :=
  if negb (version =? releaseCloneWireVersion) then Ok (None, position)
  else
    try (cloneSize, position) <- instead (readWireUint32 body position)
      (Errorf "Linux clone RELEASE grant payload is empty or truncated") ;;
    reject (cloneSize =? 0) || (llen body - Z.of_nat position <? cloneSize)
      with Errorf "Linux clone RELEASE grant payload is empty or truncated" ;;
    match unmarshalGrant (slice body position (position + Z.to_nat cloneSize)) with
    | None => Err (Errorf "decode Linux clone RELEASE grant")
    | Some grant =>
        reject negb (LinuxCloneGrant.Validate grant) with Errorf "validate Linux clone RELEASE grant" ;;
        Ok (Some grant, (position + Z.to_nat cloneSize)%nat)
    end.

Definition decodeCommand (version : Z) (body : list Z) : result NativeCommand.t :=
  try (path, position) <- readWireString body 0 ;;
  try (argc, position) <- instead (readWireUint32 body position) (Errorf "Linux owner RELEASE argv count is invalid") ;;
  reject (argc =? 0) || (maxCommandVector <? argc) with Errorf "Linux owner RELEASE argv count is invalid" ;;
  try (args, position) <- readWireStrings body position (Z.to_nat argc) ;;
  try (envc, position) <- instead (readWireUint32 body position) (Errorf "Linux owner RELEASE environment count is invalid") ;;
  reject maxCommandVector <? envc with Errorf "Linux owner RELEASE environment count is invalid" ;;
  try (env, position) <- readWireStrings body position (Z.to_nat envc) ;;
  try (dir, position) <- readWireString body position ;;
  try (clone, position) <- decodeGrant version body position ;;
  reject negb (position =? length body)%nat with Errorf "Linux owner RELEASE has trailing binary data" ;;
  Ok (NativeCommand.mk path args env dir None None None clone).

Definition withPipes (command : NativeCommand.t) (stdin stdout stderr : option File.t) : NativeCommand.t :=
  NativeCommand.mk command.(Path) command.(Args) command.(Env) command.(Dir) stdin stdout stderr command.(Clone).

(** [descriptors] are the four of the message; the bootstrap, which has none,
    passes [None] and only the fields are checked. *)
Definition decodeReleaseFrame (packet expectedToken : list Z)
    (descriptors : option (option File.t * option File.t * option File.t * option File.t)) (bootstrap : bool)
    : result (NativeCommand.t * Z) :=
  let version := unle (slice packet 8 10) in
  reject (llen packet <? Z.of_nat releaseHeaderSize) || (maxReleaseSize <? llen packet) ||
         negb (header packet releaseWireVersion frameRelease || header packet releaseCloneWireVersion frameRelease)
    with Errorf "Linux owner RELEASE v2/v3 header version or type is invalid" ;;
  reject bootstrap && negb (version =? releaseCloneWireVersion) with Errorf "clone bootstrap requires RELEASE v3" ;;
  reject negb (bool_decide (slice packet 12 44 = expectedToken)) with Errorf "Linux owner RELEASE token is stale" ;;
  reject negb (unle (slice packet 48 52) =? releaseFDCount)
    with Errorf "Linux owner RELEASE requires exactly four descriptors" ;;
  reject negb (unle (slice packet 44 48) =? llen packet - Z.of_nat releaseHeaderSize)
    with Errorf "Linux owner RELEASE body size is invalid" ;;
  let deadlineNS := unle (slice packet 52 60) in
  reject deadlineNS =? 0 with Errorf "Linux owner RELEASE monotonic deadline is empty" ;;
  try command <- decodeCommand version (drop releaseHeaderSize packet) ;;
  try command <- (match descriptors with
                  | Some (stdin, stdout, stderr, ownerPipe) =>
                      let command := withPipes command stdin stdout stderr in
                      check validateCommand command ;;
                      check validateReleaseOwnerPipe ownerPipe command ;;
                      Ok command
                  | None =>
                      reject negb (validateFields command) with Errorf "Linux owner native command is invalid" ;;
                      Ok command
                  end) ;;
  reject bootstrap && is_nil command.(Clone) with Errorf "clone bootstrap request lacks an A-authorized grant" ;;
  Ok (command, deadlineNS).

Definition DecodeRelease (packet expectedToken : list Z)
    (descriptors : option File.t * option File.t * option File.t * option File.t) : result (NativeCommand.t * Z) :=
  decodeReleaseFrame packet expectedToken (Some descriptors) false.

(** The bootstrap gets the frame with its token scrubbed and no descriptors. *)
Definition DecodeCloneBootstrapRequest (packet : list Z) : result (NativeCommand.t * Z) :=
  decodeReleaseFrame packet (zeros 32) None true.
End Release.

(** ** The status of a clone *)

Definition encodeCloneExecAttempt (kind device inode : Z) : list Z :=
  put (put (cloneStatusFrame kind cloneExecAttemptSize) 12 (le 8 device)) 20 (le 8 inode).

Definition decodeCloneExecAttempt (packet : list Z) (kind : Z) : result (Z * Z) :=
  check validateCloneStatusFrame packet kind cloneExecAttemptSize ;;
  let device := unle (slice packet 12 20) in
  let inode := unle (slice packet 20 28) in
  reject inode =? 0 with Errorf "Linux clone exec-attempt frame lacks an image inode" ;;
  Ok (device, inode).

Definition EncodeBootstrapExecAttempt (device inode : Z) : list Z := encodeCloneExecAttempt frameBootstrapExecAttempt device inode.
Definition DecodeBootstrapExecAttempt (packet : list Z) : result (Z * Z) := decodeCloneExecAttempt packet frameBootstrapExecAttempt.
Definition EncodeNativeExecAttempt (device inode : Z) : list Z := encodeCloneExecAttempt frameNativeExecAttempt device inode.
Definition DecodeNativeExecAttempt (packet : list Z) : result (Z * Z) := decodeCloneExecAttempt packet frameNativeExecAttempt.

Import LinuxCloneCheckoutReceipt (Version, RunID, Generation, BindingKey, ResourceID, Target, Nonce, SeedDigest, BaseCommit,
  TargetDevice, TargetInode).

Definition encodeCloneCheckoutReceipt (kind : Z) (receipt : LinuxCloneCheckoutReceipt.t) : result (list Z) :=
  reject negb (LinuxCloneCheckoutReceipt.Validate receipt) with Errorf "Linux clone checkout receipt is invalid" ;;
  let packet := cloneStatusFrame kind 12 in
  let packet := appendWireUint32 packet receipt.(Version) in
  let packet := appendWireString packet receipt.(RunID) in
  let packet := appendWireUint64 packet receipt.(Generation) in
  let packet := appendWireString packet receipt.(BindingKey) in
  let packet := appendWireString packet receipt.(ResourceID) in
  let packet := appendWireString packet receipt.(Target) in
  let packet := appendWireString packet receipt.(Nonce) in
  let packet := appendWireString packet receipt.(SeedDigest) in
  let packet := appendWireString packet receipt.(BaseCommit) in
  let packet := appendWireUint64 packet receipt.(TargetDevice) in
  let packet := appendWireUint64 packet receipt.(TargetInode) in
  reject maxCloneStatusFrameSize <? llen packet with Errorf "Linux clone checkout receipt exceeds the status frame bound" ;;
  Ok packet.

Definition decodeCloneCheckoutReceipt (packet : list Z) (kind : Z) : result LinuxCloneCheckoutReceipt.t :=
  reject (llen packet <? 12 + 4 + 4 + 1 + 8 + 4 * 6 + 16) || (maxCloneStatusFrameSize <? llen packet) ||
         negb (header packet cloneStatusWireVersion kind) with Errorf "Linux clone checkout frame header or size is invalid" ;;
  try (version, position) <- readWireUint32 packet 12 ;;
  try (runID, position) <- readWireString packet position ;;
  try (generation, position) <- instead (readWireUint64 packet position) (Errorf "Linux clone checkout generation is invalid") ;;
  reject maxInt64 <? generation with Errorf "Linux clone checkout generation is invalid" ;;
  try (bindingKey, position) <- readWireString packet position ;;
  try (resourceID, position) <- readWireString packet position ;;
  try (target, position) <- readWireString packet position ;;
  try (nonce, position) <- readWireString packet position ;;
  try (seedDigest, position) <- readWireString packet position ;;
  try (baseCommit, position) <- instead (readWireString packet position)
    (Errorf "Linux clone checkout image identity is truncated or has trailing bytes") ;;
  reject negb (llen packet - Z.of_nat position =? 16)
    with Errorf "Linux clone checkout image identity is truncated or has trailing bytes" ;;
  let receipt := LinuxCloneCheckoutReceipt.mk version runID generation bindingKey resourceID target nonce seedDigest baseCommit
    (unle (slice packet position (position + 8))) (unle (slice packet (position + 8) (position + 16))) in
  reject negb (LinuxCloneCheckoutReceipt.Validate receipt) with Errorf "Linux clone checkout receipt is invalid" ;;
  Ok receipt.

Definition EncodeCloneCheckoutReady (receipt : LinuxCloneCheckoutReceipt.t) : result (list Z) :=
  encodeCloneCheckoutReceipt frameCheckoutReady receipt.
Definition DecodeCloneCheckoutReady (packet : list Z) : result LinuxCloneCheckoutReceipt.t :=
  decodeCloneCheckoutReceipt packet frameCheckoutReady.
Definition EncodeCloneCheckoutReadyAck (receipt : LinuxCloneCheckoutReceipt.t) : result (list Z) :=
  encodeCloneCheckoutReceipt frameCheckoutReadyAck receipt.
Definition DecodeCloneCheckoutReadyAck (packet : list Z) : result LinuxCloneCheckoutReceipt.t :=
  decodeCloneCheckoutReceipt packet frameCheckoutReadyAck.

(** [validateCloneCheckoutReceipt]: the receipt against the grant A gave *)
Definition validateCloneCheckoutReceipt (grant : LinuxCloneGrant.t) (receipt : LinuxCloneCheckoutReceipt.t) : bool :=
  let intent := grant.(LinuxCloneGrant.Intent) in
  LinuxCloneCheckoutReceipt.Validate receipt && (receipt.(Version) =? intent.(LinuxCloneIntent.Version)) &&
  (receipt.(RunID) =s intent.(LinuxCloneIntent.RunID)) && (receipt.(Generation) =? intent.(LinuxCloneIntent.Generation)) &&
  (receipt.(BindingKey) =s intent.(LinuxCloneIntent.BindingKey)) &&
  (receipt.(ResourceID) =s intent.(LinuxCloneIntent.ResourceID)) && (receipt.(Target) =s intent.(LinuxCloneIntent.Target)) &&
  (receipt.(Nonce) =s intent.(LinuxCloneIntent.Nonce)) &&
  (receipt.(SeedDigest) =s grant.(LinuxCloneGrant.Seed).(LinuxCloneSeedReceipt.Digest)) &&
  (receipt.(BaseCommit) =s intent.(LinuxCloneIntent.BaseCommit)).

(** The stages of the bootstrap are numbered from 1 to 7. *)
Definition CloneFailureRequest : Z := 1.
Definition CloneFailureExec : Z := 7.

Definition validCloneFailure (stage errno : Z) : bool :=
  negb ((stage <? CloneFailureRequest) || (CloneFailureExec <? stage) || (errno =? 0) || (maxInt32 <? errno)).

Definition EncodeCloneBootstrapFailure (stage errno : Z) : result (list Z) :=
  reject negb (validCloneFailure stage errno) with Errorf "Linux clone bootstrap failure code is invalid" ;;
  Ok (put (put (cloneStatusFrame frameCloneBootstrapFailure cloneFailureSize) 12 (le 4 stage)) 16 (le 4 errno)).

Definition DecodeCloneBootstrapFailure (packet : list Z) : result (Z * Z) :=
  check instead (validateCloneStatusFrame packet frameCloneBootstrapFailure cloneFailureSize)
    (Errorf "Linux clone bootstrap failure frame is malformed") ;;
  let stage := unle (slice packet 12 16) in
  let errno := unle (slice packet 16 20) in
  reject negb (validCloneFailure stage errno) with Errorf "Linux clone bootstrap failure frame code is invalid" ;;
  Ok (stage, errno).

Example status_frame : DecodeCloneBootstrapFailure [83;89;77;76;65;48;48;49;3;0;24;0;2;0;0;0;13;0;0;0] = Ok (2, 13).
Proof. vm_compute. reflexivity. Qed.

Example config_file :
  parseOwnerConfig ("version=1" ++ String "010" ("a_uid=1000" ++ String "010" ("a_gid=1000" ++ String "010"
    ("b_uid=1001" ++ String "010" ("b_gid=1002" ++ String "010" ""))))) = Ok (OwnerConfig.mk 1000 1000 1001 1002 "").
Proof. vm_compute. reflexivity. Qed.
