(* ===== verification/Control.v ===== *)
(** * Control: what the daemon accepts from the control plane

    src/daemon/internal/control: the validators of validation.go that stand
    between a decoded response and the daemon, the resources of protocol.go
    they read, and the requests of client.go that use them.

    A response is what encoding/json made of a body: a slice or pointer the
    body lacked is [None], and [present] is the set of members it named. The
    exchange itself, HTTP and the decoder, is an argument of a client method:
    [reply], the status and the response, or the error of the transport. A
    validator is a bool; its messages are not told apart. *)

From S2P Require Import Prelude Sha256 Json Authority Protocol Journal.
From stdpp Require Import fin_maps.
Open Scope string_scope.
Open Scope Z_scope.

(** ** JSON values *)

(** The value of a number as [big.Rat] reads it: sign and digits, with the
    digits behind the point counted, and an exponent. *)
Definition has_exponent (a : ascii) : bool := Ascii.eqb a "e" || Ascii.eqb a "E".

(** A literal is split at its exponent, and its mantissa at the point. *)
Fixpoint cut_at (p : ascii -> bool) (s : string) : string * string :=
  match s with
  | "" => ("", "")
  | String a s' => if p a then ("", s') else let '(l, r) := cut_at p s' in (String a l, r)
  end.

Definition signed_value (s : string) : Z :=
  match s with
  | String a s' => if Ascii.eqb a "-" then - decimal_value 0 s' else if Ascii.eqb a "+" then decimal_value 0 s' else decimal_value 0 s
  | "" => 0
  end.

Definition negative (s : string) : bool := match s with String a _ => Ascii.eqb a "-" | "" => false end.

(** Numerator and power of ten of a literal of the JSON grammar. *)
Definition number_parts (literal : string) : Z * Z :=
  let '(mantissa, exponent) := cut_at has_exponent literal in
  let '(whole, fraction) := cut_at (fun a => Ascii.eqb a ".") mantissa in
  let digits := (if negative whole then trim_prefix_len 1 whole else whole) ++ fraction in
  let value := decimal_value 0 digits in
  ((if negative whole then - value else value), signed_value exponent - len fraction).

(** [Rat.SetString]: an exponent beyond an int64 does not scan, zero needs no
    power, and a power of ten beyond a million is refused. *)
Definition SetString (literal : string) : option (Z * Z) :=
  let '(value, power) := number_parts literal in
  let exponent := signed_value (snd (cut_at has_exponent literal)) in
  if (exponent <? - 2 ^ 63) || (2 ^ 63 <=? exponent) then None
  else if value =? 0 then Some (0, 0)
  else if 1000000 <? Z.abs power then None
  else Some (value, power).

(** [Rat.Cmp] on [v * 10^p]: cross multiplication *)
Definition sameRat (left right : Z * Z) : bool :=
  let '(v, p) := left in
  let '(w, q) := right in
  let low := Z.min p q in v * 10 ^ (p - low) =? w * 10 ^ (q - low).

Definition sameJSONNumber (left right : string) : bool :=
  match SetString left, SetString right with
  | Some l, Some r => sameRat l r
  | _, _ => false
  end.

(** A decoded [map[string]any] keeps the last of two equal members. *)
Fixpoint member {A} (key : string) (l : list (string * A)) : option A :=
  match l with
  | [] => None
  | (k, v) :: l' => match member key l' with Some r => Some r | None => if k =s key then Some v else None end
  end.

Definition map_size {A} (l : list (string * A)) : nat := size (list_to_set (map fst l) : gset string).

Fixpoint sameJSONValue (left right : json) {struct left} : bool :=
  match left, right with
  | JNull, JNull => true
  | JBool l, JBool r => Bool.eqb l r
  | JString l, JString r => l =s r
  | JNumber l, JNumber r => sameJSONNumber l r
  | JArray l, JArray r =>
      (length l =? length r)%nat &&
      (fix go l r :=
         match l, r with
         | x :: l', y :: r' => sameJSONValue x y && go l' r'
         | _, _ => true
         end) l r
  | JObject l, JObject r =>
      (map_size l =? map_size r)%nat &&
      (fix go l :=
         match l with
         | [] => true
         | (k, x) :: l' =>
             (* a member that a later one of the same name replaces is not in the map *)
             (non_nil (member k l') || match member k r with Some y => sameJSONValue x y | None => false end) && go l'
         end) l
  | _, _ => false
  end.

(** [Decoder.Decode] into a map reads the first value and leaves the rest;
    [null] is a nil map. *)
Definition decode_map (s : string) : option json :=
  match parse_value (parse_fuel s) 0 s with
  | Some (JObject l, _) => Some (JObject l)
  | Some (JNull, _) => Some (JObject [])
  | _ => None
  end.

Definition sameJSONObject (left right : string) : bool :=
  match decode_map left, decode_map right with
  | Some l, Some r => sameJSONValue l r
  | _, _ => false
  end.

Definition isJSONNull (value : string) : bool := TrimSpace value =s "null".

Definition validateJSONObject (value : string) : bool :=
  let trimmed := TrimSpace value in
  (trimmed <>s "") && (trimmed <>s "null") && non_nil (raw_members trimmed).

Definition validateNullableJSONObject (value : string) : bool :=
  let trimmed := TrimSpace value in
  (trimmed <>s "") && ((trimmed =s "null") || validateJSONObject trimmed).

(** ** Names and numbers *)

Definition validatePathID (value : string) : bool :=
  (value <>s "") && (value <>s ".") && (value <>s "..") &&
  string_forallb (fun a => isASCIIAlphaNumeric a || Ascii.eqb a "-" || Ascii.eqb a "_" || Ascii.eqb a ".") value.

(** The loop over bytes of [validateGoalUUID]. *)
Definition uuid_byte (n : nat) (a : ascii) : bool :=
  if dash_position n then Ascii.eqb a "-"
  else
    let character := byte_at a in
    negb ((65 <=? character) && (character <=? 70) || (character <? 48) || (102 <? character) ||
          (57 <? character) && (character <? 97)).

Definition validateGoalUUID (value : string) : bool :=
  (len value =? 36) && string_forallb_at uuid_byte 0 value &&
  (49 <=? nth_byte 14 value) && (nth_byte 14 value <=? 53) &&
  (let v := nth_byte 19 value in (v =? 56) || (v =? 57) || (v =? 97) || (v =? 98)).

Definition validGoalDigest (value : string) : bool :=
  if has_prefix "sha256:" value
  then (len value =? 71) && string_forallb lower_hex_digit (trim_prefix_len 7 value)
  else (len value =? 64) && string_forallb lower_hex_digit value.

Definition validateGoalSafePositiveInteger (value : Z) : bool := (0 <? value) && (value <=? MaxJSONSafeInteger).

Definition goalASCIIAlphaNumeric (a : ascii) : bool :=
  let value := byte_at a in
  (97 <=? value) && (value <=? 122) || (65 <=? value) && (value <=? 90) || (48 <=? value) && (value <=? 57).

(** A rune that is not ASCII is refused at its first byte. *)
Definition validateGoalShortIdentifier (value : string) : bool :=
  (1 <=? len value) && (len value <=? 128) &&
  string_forallb_at (fun n a => if (n =? 0)%nat then goalASCIIAlphaNumeric a
                                else goalASCIIAlphaNumeric a || Ascii.eqb a "." || Ascii.eqb a "_" || Ascii.eqb a ":" || Ascii.eqb a "-")
    0 value.

(** Word for word [validateUTCTimestamp] of protocol. *)
Definition validateGoalUTCTimestamp (value : string) : bool := validateUTCTimestamp value.

(** ** Work and commands *)

Definition HasField (present : gset string) (name : string) : bool := bool_decide (name ∈ present).

(** [presentFields]: the names of the members; [null] has none. *)
Definition presentFields (value : string) : option (gset string) :=
  match parse_document value with
  | Some JNull => Some ∅
  | _ => option_map (fun l => list_to_set (map fst l)) (raw_members value)
  end.

Module SentWork.
Record t : Type := mk {
  Goal : string;
  AgentProfile : string;
  Workspace : string;
  Input : string;
  RequiredCapabilities : option (gmap string bool);
  present : gset string
}.
End SentWork.

Definition validateWork (work : SentWork.t) : bool :=
  (work.(SentWork.Goal) <>s "") && (work.(SentWork.AgentProfile) <>s "") && (work.(SentWork.Workspace) <>s "") &&
  HasField work.(SentWork.present) "input" && validateNullableJSONObject work.(SentWork.Input) &&
  negb (HasField work.(SentWork.present) "required_capabilities" && is_nil work.(SentWork.RequiredCapabilities)).

Definition isSupervisoryCommand (kind : string) : bool := (kind =s "guidance") || (kind =s "pause") || (kind =s "resume").

(** [json.Unmarshal] of a member into a string; [null] leaves it empty. *)
Definition unmarshal_string (raw : string) : option string :=
  match parse_document raw with
  | Some (JString s) => Some s
  | Some JNull => Some ""
  | _ => None
  end.

Definition ValidateSupervisoryPayload (kind payload : string) : bool :=
  validateJSONObject payload &&
  match raw_members payload with
  | None => false
  | Some object =>
      if kind =s "guidance" then
        (map_size object =? 1)%nat &&
        match member "message" object with
        | None => false
        | Some raw => some_and (unmarshal_string raw) (fun message => negb (blank message) && (len message <=? 32768))
        end
      else (map_size object =? 0)%nat
  end.

Module Command.
Record t : Type := mk {
  CommandID : string;
  RunID : string;
  Generation : Z;
  Kind : string;
  Payload : string;
  IssuedAt : time
}.
End Command.

Definition validCommand (command : Command.t) : bool :=
  (command.(Command.CommandID) <>s "") && (command.(Command.RunID) <>s "") && (0 <? command.(Command.Generation)) &&
  (command.(Command.Kind) <>s "") && negb (IsZero command.(Command.IssuedAt)) &&
  (if command.(Command.Kind) =s "cancel" then sameJSONObject command.(Command.Payload) "{}"
   else if command.(Command.Kind) =s "provide_input" then validateJSONObject command.(Command.Payload)
   else if isSupervisoryCommand command.(Command.Kind)
        then ValidateSupervisoryPayload command.(Command.Kind) command.(Command.Payload)
   else false).

Definition validateCommands (commands : list Command.t) : bool := forallb validCommand commands.

Module Assignment.
Record t : Type := mk {
  RunID : string;
  TaskID : string;
  Generation : Z;
  AssignmentExpiresAt : time;
  Work : SentWork.t
}.
Definition valid (assignment : t) : bool :=
  (assignment.(RunID) <>s "") && (assignment.(TaskID) <>s "") && (0 <? assignment.(Generation)) &&
  negb (IsZero assignment.(AssignmentExpiresAt)) && validateWork assignment.(Work).
End Assignment.

Definition validateSnapshotParts (assignments : list Assignment.t) (commands : list Command.t) : bool :=
  forallb Assignment.valid assignments && validateCommands commands.

Module RuntimeSnapshot.
Record t : Type := mk { Assignments : option (list Assignment.t); Commands : option (list Command.t); ServerTime : time }.
End RuntimeSnapshot.

Definition validateRuntimeSnapshot (response : RuntimeSnapshot.t) : bool :=
  match response.(RuntimeSnapshot.Assignments), response.(RuntimeSnapshot.Commands) with
  | Some assignments, Some commands =>
      negb (IsZero response.(RuntimeSnapshot.ServerTime)) && validateSnapshotParts assignments commands
  | _, _ => false
  end.

(** ** Enrollment and sessions *)

Module EnrollResponse.
Record t : Type := mk { MachineID : string; MachineToken : string }.
End EnrollResponse.

Definition validateEnrollResponse (machineToken : string) (response : EnrollResponse.t) : bool :=
  (response.(EnrollResponse.MachineID) <>s "") && (response.(EnrollResponse.MachineToken) <>s "") &&
  validatePathID response.(EnrollResponse.MachineID) && (response.(EnrollResponse.MachineToken) =s machineToken).

Module RegisteredRuntime.
Record t : Type := mk { RuntimeKey : string; RuntimeID : string; RuntimeEpoch : Z }.
End RegisteredRuntime.

Module SessionRegistrationResponse.
Record t : Type := mk {
  Runtimes : option (list RegisteredRuntime.t);
  HeartbeatIntervalMS : Z;
  PollIntervalMS : Z;
  LeaseDurationMS : Z;
  WebSocketPath : string
}.
End SessionRegistrationResponse.

Definition MinimumLeaseDurationMS : Z := 30000.

(** The loop that fills [expected] from the keys of the request. *)
Fixpoint expectedKeys (expected : gset string) (keys : list string) : option (gset string) :=
  match keys with
  | [] => Some expected
  | key :: keys' =>
      if (key =s "") || bool_decide (key ∈ expected) then None else expectedKeys ({[key]} ∪ expected) keys'
  end.

(** The loop that takes each answered key out of [expected]. *)
Fixpoint answeredKeys (expected : gset string) (runtimes : list RegisteredRuntime.t) : option (gset string) :=
  match runtimes with
  | [] => Some expected
  | runtime :: runtimes' =>
      if (runtime.(RegisteredRuntime.RuntimeKey) =s "") || (runtime.(RegisteredRuntime.RuntimeID) =s "") ||
         (runtime.(RegisteredRuntime.RuntimeEpoch) <=? 0) then None
      else if negb (bool_decide (runtime.(RegisteredRuntime.RuntimeKey) ∈ expected)) then None
      else answeredKeys (expected ∖ {[runtime.(RegisteredRuntime.RuntimeKey)]}) runtimes'
  end.

(** [keys] are the runtime keys of the request. *)
Definition validateSessionResponse (keys : list string) (response : SessionRegistrationResponse.t) : bool :=
  match response.(SessionRegistrationResponse.Runtimes) with
  | None => false
  | Some runtimes =>
      (length runtimes =? length keys)%nat &&
      some_and (expectedKeys ∅ keys) (fun expected =>
        some_and (answeredKeys expected runtimes) (fun left => bool_decide (left = ∅))) &&
      (0 <? response.(SessionRegistrationResponse.HeartbeatIntervalMS)) &&
      (0 <? response.(SessionRegistrationResponse.PollIntervalMS)) &&
      (response.(SessionRegistrationResponse.WebSocketPath) <>s "") &&
      (MinimumLeaseDurationMS <=? response.(SessionRegistrationResponse.LeaseDurationMS))
  end.

(** ** Claims and leases *)

Module ClaimRequest.
Record t : Type := mk { RuntimeID : string; RuntimeEpoch : Z; Generation : Z; ClaimID : string }.
End ClaimRequest.

Module ProviderGrant.
Record t : Type := mk { ResourceID : string; Provider : string; Kind : string; Operations : list string }.
Definition validOperation (kind operation : string) : bool :=
  string_in operation ["resource.sync"; "change.upsert"; "change.update"] &&
  negb ((operation <>s "resource.sync") && (kind <>s "repository")).
Definition valid (grant : t) : bool :=
  negb (blank grant.(ResourceID)) && (len grant.(ResourceID) <=? 4096) && string_in grant.(Provider) ["github"; "azure_devops"] &&
  string_in grant.(Kind) ["repository"; "work_tracking"; "ci"] && negb (llen grant.(Operations) =? 0) &&
  forallb (validOperation grant.(Kind)) grant.(Operations) && distinct_keys (fun operation => operation) [] grant.(Operations).
End ProviderGrant.

Module ProviderAccess.
Record t : Type := mk { Path : string; Token : string; Grants : list ProviderGrant.t }.
End ProviderAccess.

Definition validateProviderAccess (access : ProviderAccess.t) : bool :=
  (access.(ProviderAccess.Path) =s "/api/v1/provider-actions") && negb (blank access.(ProviderAccess.Token)) &&
  (len access.(ProviderAccess.Token) <=? 65536) && negb (llen access.(ProviderAccess.Grants) =? 0) &&
  forallb ProviderGrant.valid access.(ProviderAccess.Grants).

Module SentClaim.
Record t : Type := mk {
  RunID : string;
  TaskID : string;
  Generation : Z;
  HarnessSessionID : option string;
  HarnessBindingID : option string;
  ClaimID : string;
  LeaseToken : string;
  LeaseExpiresAt : time;
  LeaseRemainingMS : Z;
  Work : SentWork.t;
  providerAccess : option ProviderAccess.t;
  present : gset string
}.
End SentClaim.

Definition validateClaimResponse (runID : string) (request : ClaimRequest.t) (response : SentClaim.t) : bool :=
  (response.(SentClaim.RunID) =s runID) && (response.(SentClaim.Generation) =? request.(ClaimRequest.Generation)) &&
  (response.(SentClaim.ClaimID) =s request.(ClaimRequest.ClaimID)) && (response.(SentClaim.TaskID) <>s "") &&
  (response.(SentClaim.LeaseToken) <>s "") && negb (IsZero response.(SentClaim.LeaseExpiresAt)) &&
  negb (HasField response.(SentClaim.present) "lease_remaining_ms" && (response.(SentClaim.LeaseRemainingMS) <=? 0)) &&
  validateWork response.(SentClaim.Work) &&
  negb (HasField response.(SentClaim.present) "provider_access" && is_nil response.(SentClaim.providerAccess)) &&
  none_or response.(SentClaim.providerAccess) validateProviderAccess &&
  (negb (HasField response.(SentClaim.present) "harness_session_id") ||
   none_or response.(SentClaim.HarnessSessionID) validateGoalUUID) &&
  (negb (HasField response.(SentClaim.present) "harness_binding_id") ||
   none_or response.(SentClaim.HarnessBindingID) validateGoalUUID).

Module LeaseHeartbeatResponse.
Record t : Type := mk { LeaseExpiresAt : time; LeaseRemainingMS : Z; Commands : option (list Command.t); present : gset string }.
End LeaseHeartbeatResponse.

Definition validateLeaseHeartbeatResponse (response : LeaseHeartbeatResponse.t) : bool :=
  negb (IsZero response.(LeaseHeartbeatResponse.LeaseExpiresAt)) &&
  some_and response.(LeaseHeartbeatResponse.Commands) (fun commands =>
    negb (HasField response.(LeaseHeartbeatResponse.present) "lease_remaining_ms" &&
          (response.(LeaseHeartbeatResponse.LeaseRemainingMS) <=? 0)) &&
    validateCommands commands).

Module ReconcileDecision.
Record t : Type := mk { RunID : string; Generation : Z; Decision : string; LeaseExpiresAt : option time }.
End ReconcileDecision.

Definition ReconcileContinue : string := "continue".
Definition ReconcileCancel : string := "cancel".
Definition ReconcileStaleStop : string := "stale_stop".
Definition ReconcileTerminal : string := "terminal".
Definition ReconcileUnknownStop : string := "unknown_stop".

Definition isReconcileDecision (value : string) : bool :=
  string_in value [ReconcileContinue; ReconcileCancel; ReconcileStaleStop; ReconcileTerminal; ReconcileUnknownStop].

Module ReconcileResponse.
Record t : Type := mk {
  Decisions : option (list ReconcileDecision.t);
  Assignments : option (list Assignment.t);
  Commands : option (list Command.t)
}.
Definition validDecision (decision : ReconcileDecision.t) : bool :=
  (decision.(ReconcileDecision.RunID) <>s "") && (0 <? decision.(ReconcileDecision.Generation)) &&
  isReconcileDecision decision.(ReconcileDecision.Decision) &&
  negb ((decision.(ReconcileDecision.Decision) =s ReconcileContinue) &&
        none_or decision.(ReconcileDecision.LeaseExpiresAt) IsZero).
End ReconcileResponse.

Definition validateReconcileResponse (response : ReconcileResponse.t) : bool :=
  match response.(ReconcileResponse.Decisions), response.(ReconcileResponse.Assignments), response.(ReconcileResponse.Commands) with
  | Some decisions, Some assignments, Some commands =>
      forallb ReconcileResponse.validDecision decisions && validateSnapshotParts assignments commands
  | _, _, _ => false
  end.

(** ** Runs and tasks *)

Definition isTransitionState (value : string) : bool :=
  string_in value ["running"; "paused"; "waiting_for_input"; "completed"; "failed"; "cancelled"].

Definition isTaskState (value : string) : bool :=
  string_in value ["queued"; "assigned"; "claimed"; "running"; "paused"; "waiting_for_input"; "cancelling"; "completed"; "failed";
                   "cancelled"].

Definition requiresTaskRun (state : string) : bool :=
  string_in state ["assigned"; "claimed"; "running"; "paused"; "waiting_for_input"; "cancelling"; "completed"; "failed"].

Definition validateTerminalPayloads (state result failure : string) : bool :=
  negb ((state =s "completed") && isJSONNull result) && negb ((state =s "failed") && isJSONNull failure) &&
  negb ((state <>s "completed") && negb (isJSONNull result)) && negb ((state <>s "failed") && negb (isJSONNull failure)).

Module Run.
Record t : Type := mk {
  RunID : string;
  TaskID : string;
  RuntimeID : string;
  Generation : Z;
  State : string;
  ClaimID : string;
  LeaseToken : string;
  LeaseExpiresAt : time;
  Result : string;
  Failure : string;
  present : gset string
}.
Definition required : list string :=
  ["run_id"; "task_id"; "runtime_id"; "generation"; "state"; "claim_id"; "lease_token"; "lease_expires_at"; "result"; "failure"].
End Run.

Definition validateTransitionResponse (runID : string) (request : StateTransitionRequest.t) (response : Run.t) : bool :=
  let fence := request.(StateTransitionRequest.fence) in
  forallb (HasField response.(Run.present)) Run.required &&
  (response.(Run.RunID) <>s "") && (response.(Run.TaskID) <>s "") && (response.(Run.RuntimeID) <>s "") &&
  (0 <? response.(Run.Generation)) && (response.(Run.State) <>s "") && (response.(Run.ClaimID) <>s "") &&
  (response.(Run.LeaseToken) <>s "") && negb (IsZero response.(Run.LeaseExpiresAt)) &&
  (response.(Run.RunID) =s runID) && (response.(Run.RuntimeID) =s fence.(Fence.RuntimeID)) &&
  (response.(Run.Generation) =? fence.(Fence.Generation)) && (response.(Run.ClaimID) =s fence.(Fence.ClaimID)) &&
  (response.(Run.LeaseToken) =s fence.(Fence.LeaseToken)) &&
  (response.(Run.State) =s request.(StateTransitionRequest.State)) && isTransitionState response.(Run.State) &&
  validateNullableJSONObject response.(Run.Result) && validateNullableJSONObject response.(Run.Failure) &&
  validateTerminalPayloads response.(Run.State) response.(Run.Result) response.(Run.Failure).

Module TaskCommandRequest.
Record t : Type := mk { Kind : string; Payload : string; Generation : Z; WaitingTransitionID : string }.
End TaskCommandRequest.

(** [bytes.TrimSpace(payload)] is empty *)
Definition validateTaskCommandRequest (request : TaskCommandRequest.t) : bool :=
  let kind := request.(TaskCommandRequest.Kind) in
  if kind =s "cancel" then TrimSpace request.(TaskCommandRequest.Payload) =s ""
  else if kind =s "provide_input" then validateJSONObject request.(TaskCommandRequest.Payload)
  else if isSupervisoryCommand kind
       then (0 <? request.(TaskCommandRequest.Generation)) && ValidateSupervisoryPayload kind request.(TaskCommandRequest.Payload)
  else false.

Module TaskCommand.
Record t : Type := mk {
  CommandID : string;
  TaskID : string;
  RunID : option string;
  Generation : option Z;
  Kind : string;
  Payload : string;
  State : string;
  IssuedAt : time;
  AppliedAt : option time;
  AcknowledgementID : option string;
  AcknowledgementOutcome : option string;
  AcknowledgedAt : option time;
  present : gset string
}.
Definition required : list string :=
  ["command_id"; "task_id"; "run_id"; "generation"; "kind"; "payload"; "state"; "issued_at"; "applied_at";
   "acknowledgement_id"; "acknowledgement_outcome"; "acknowledged_at"].

Definition runBound (response : t) : bool := non_nil response.(RunID).
Definition supervisory (response : t) : bool := isSupervisoryCommand response.(Kind).
Definition controlApplied (response : t) : bool := (response.(Kind) =s "cancel") || (response.(Kind) =s "retry").
(** Input and supervisory commands, which a running daemon answers. *)
Definition answered (response : t) : bool := supervisory response || (response.(Kind) =s "provide_input").
Definition outcome_is (response : t) (outcome : string) : bool :=
  some_and response.(AcknowledgementOutcome) (fun o => o =s outcome).
Definition set (at_ : option time) : bool := some_and at_ (fun at_ => negb (IsZero at_)).

Definition acknowledgementCount (response : t) : nat :=
  (Nat.b2n (non_nil response.(AcknowledgementID)) + Nat.b2n (non_nil response.(AcknowledgementOutcome)) +
   Nat.b2n (non_nil response.(AcknowledgedAt)))%nat.

Definition serverRejected (response : t) : bool :=
  answered response && (response.(State) =s "acknowledged") && is_nil response.(AcknowledgementID) &&
  outcome_is response "rejected" && set response.(AcknowledgedAt) && is_nil response.(AppliedAt).

Definition validIdentity (expectedTaskID : string) (response : t) : bool :=
  forallb (HasField response.(present)) required &&
  (response.(CommandID) <>s "") && (response.(TaskID) <>s "") && negb (IsZero response.(IssuedAt)) &&
  negb ((expectedTaskID <>s "") && (response.(TaskID) <>s expectedTaskID)) &&
  Bool.eqb (non_nil response.(RunID)) (non_nil response.(Generation)) &&
  none_or response.(RunID) (fun runID => runID <>s "") && none_or response.(Generation) (fun generation => 0 <? generation).

Definition validPayload (response : t) : bool :=
  (string_in response.(Kind) ["cancel"; "provide_input"; "retry"] || supervisory response) &&
  validateJSONObject response.(Payload) &&
  negb ((response.(Kind) =s "cancel") && negb (sameJSONObject response.(Payload) "{}")) &&
  (negb (supervisory response) || ValidateSupervisoryPayload response.(Kind) response.(Payload)).

(** [response.AcknowledgementID != nil] dereferences the other two, which a
    count of three guarantees. *)
Definition validAcknowledgement (response : t) : bool :=
  string_in response.(State) ["pending"; "applied"; "acknowledged"] &&
  ((acknowledgementCount response =? 0)%nat || (acknowledgementCount response =? 3)%nat || serverRejected response) &&
  none_or response.(AcknowledgementID) (fun id =>
    (id <>s "") && none_or response.(AcknowledgementOutcome) (fun o => o <>s "") &&
    none_or response.(AcknowledgedAt) (fun at_ => negb (IsZero at_))) &&
  none_or response.(AcknowledgementOutcome) (fun o => string_in o ["applied"; "rejected"; "failed"]).

Definition validState (response : t) : bool :=
  negb (negb (runBound response) && (negb (controlApplied response) || (response.(State) <>s "applied"))) &&
  negb ((response.(Kind) =s "provide_input") && negb (runBound response)) &&
  (if response.(State) =s "pending" then
     (response.(Kind) <>s "retry") && runBound response && is_nil response.(AppliedAt) && (acknowledgementCount response =? 0)%nat
   else if response.(State) =s "applied" then
     (controlApplied response || answered response) && set response.(AppliedAt) && (acknowledgementCount response =? 0)%nat
   else
     let retainedApplication := answered response && outcome_is response "applied" && set response.(AppliedAt) in
     (response.(Kind) <>s "retry") && runBound response && (is_nil response.(AppliedAt) || retainedApplication) &&
     ((acknowledgementCount response =? 3)%nat || serverRejected response)).
End TaskCommand.

Definition validateTaskCommandResource (expectedTaskID : string) (response : TaskCommand.t) : bool :=
  TaskCommand.validIdentity expectedTaskID response && TaskCommand.validPayload response &&
  TaskCommand.validAcknowledgement response && TaskCommand.validState response.

Definition sameCommandPayload (request : TaskCommandRequest.t) (response : string) : bool :=
  if request.(TaskCommandRequest.Kind) =s "cancel" then sameJSONObject "{}" response
  else sameJSONObject request.(TaskCommandRequest.Payload) response.

Definition validateTaskCommandResponse (expectedTaskID : string) (request : TaskCommandRequest.t) (response : TaskCommand.t)
    : bool :=
  let runlessCancellation :=
    (response.(TaskCommand.Kind) =s "cancel") && (response.(TaskCommand.State) =s "applied") &&
    is_nil response.(TaskCommand.RunID) && is_nil response.(TaskCommand.Generation) in
  validateTaskCommandResource expectedTaskID response &&
  (response.(TaskCommand.Kind) =s request.(TaskCommandRequest.Kind)) &&
  sameCommandPayload request response.(TaskCommand.Payload) &&
  negb ((0 <? request.(TaskCommandRequest.Generation)) && negb runlessCancellation &&
        negb (some_and response.(TaskCommand.Generation) (fun g => g =? request.(TaskCommandRequest.Generation)))).

Definition validateAcknowledgementResponse (commandID : string) (request : CommandAcknowledgement.t) (response : TaskCommand.t)
    : bool :=
  validateTaskCommandResource "" response && (response.(TaskCommand.CommandID) =s commandID) &&
  some_and response.(TaskCommand.RunID) (fun runID => runID =s request.(CommandAcknowledgement.RunID)) &&
  some_and response.(TaskCommand.Generation) (fun g => g =? request.(CommandAcknowledgement.fence).(Fence.Generation)) &&
  (response.(TaskCommand.State) =s "acknowledged") &&
  some_and response.(TaskCommand.AcknowledgementID) (fun id => id =s request.(CommandAcknowledgement.AckID)) &&
  some_and response.(TaskCommand.AcknowledgementOutcome) (fun o => o =s request.(CommandAcknowledgement.Outcome)).

Module TaskWaiting.
Record t : Type := mk {
  RunID : string;
  Generation : Z;
  TransitionID : string;
  Question : option string;
  Payload : string;
  RecordedAt : time;
  present : gset string
}.
Definition required : list string := ["run_id"; "generation"; "transition_id"; "question"; "payload"; "recorded_at"].
End TaskWaiting.

Module Task.
Record t : Type := mk {
  TaskID : string;
  State : string;
  RunID : option string;
  Generation : option Z;
  Work : option SentWork.t;
  Result : string;
  Failure : string;
  Waiting : option TaskWaiting.t;
  LatestCommand : option TaskCommand.t;
  present : gset string
}.
Definition required : list string :=
  ["task_id"; "state"; "run_id"; "generation"; "work"; "result"; "failure"; "waiting"; "latest_command"].
End Task.

Definition validateTaskWaiting (task : Task.t) (waiting : TaskWaiting.t) : bool :=
  forallb (HasField waiting.(TaskWaiting.present)) TaskWaiting.required &&
  (waiting.(TaskWaiting.RunID) <>s "") && (0 <? waiting.(TaskWaiting.Generation)) &&
  (waiting.(TaskWaiting.TransitionID) <>s "") && negb (IsZero waiting.(TaskWaiting.RecordedAt)) &&
  some_and task.(Task.RunID) (fun runID => waiting.(TaskWaiting.RunID) =s runID) &&
  some_and task.(Task.Generation) (fun generation => waiting.(TaskWaiting.Generation) =? generation) &&
  validateJSONObject waiting.(TaskWaiting.Payload).

Definition validateTaskResponse (expectedTaskID : string) (response : Task.t) : bool :=
  forallb (HasField response.(Task.present)) Task.required &&
  (response.(Task.TaskID) <>s "") && (response.(Task.State) <>s "") &&
  match response.(Task.Generation), response.(Task.Work) with
  | Some generation, Some work =>
      negb ((expectedTaskID <>s "") && (response.(Task.TaskID) <>s expectedTaskID)) && validateWork work &&
      validateNullableJSONObject response.(Task.Result) && validateNullableJSONObject response.(Task.Failure) &&
      isTaskState response.(Task.State) && (0 <? generation) &&
      none_or response.(Task.RunID) (fun runID => runID <>s "") &&
      negb (requiresTaskRun response.(Task.State) && is_nil response.(Task.RunID)) &&
      validateTerminalPayloads response.(Task.State) response.(Task.Result) response.(Task.Failure) &&
      match response.(Task.Waiting) with
      | None => response.(Task.State) <>s "waiting_for_input"
      | Some waiting => (response.(Task.State) =s "waiting_for_input") && validateTaskWaiting response waiting
      end &&
      none_or response.(Task.LatestCommand) (validateTaskCommandResource response.(Task.TaskID))
  | _, _ => false
  end.

(** ** Goal receipts *)

Definition validateGoalFence (runID : string) (fence : Fence.t) : bool :=
  validateGoalUUID runID && validateGoalUUID fence.(Fence.RuntimeID) && validateGoalUUID fence.(Fence.ClaimID) &&
  validateGoalUUID fence.(Fence.LeaseToken) && (0 <? fence.(Fence.RuntimeEpoch)) && (0 <? fence.(Fence.Generation)).

Module GoalSessionAttachRequest.
Record t : Type := mk {
  fence : Fence.t;
  LocalHandleID : string;
  BindingID : option string;
  HarnessKind : string;
  HarnessVersion : string;
  AdapterVersion : string;
  WorkspaceFingerprint : string;
  Workspace : string;
  RepositoryResourceID : option string
}.
End GoalSessionAttachRequest.

Definition validateGoalSessionAttach (runID : string) (request : GoalSessionAttachRequest.t) : bool :=
  validateGoalFence runID request.(GoalSessionAttachRequest.fence) &&
  negb (blank request.(GoalSessionAttachRequest.LocalHandleID)) && negb (blank request.(GoalSessionAttachRequest.HarnessVersion)) &&
  negb (blank request.(GoalSessionAttachRequest.AdapterVersion)) &&
  negb (blank request.(GoalSessionAttachRequest.WorkspaceFingerprint)) &&
  negb (blank request.(GoalSessionAttachRequest.Workspace)) &&
  string_in request.(GoalSessionAttachRequest.HarnessKind) ["codex"; "claude_code"; "pi"; "opencode"] &&
  none_or request.(GoalSessionAttachRequest.RepositoryResourceID) validateGoalUUID &&
  validateGoalUUID request.(GoalSessionAttachRequest.LocalHandleID) &&
  none_or request.(GoalSessionAttachRequest.BindingID) validateGoalUUID.

Module GoalSessionReceipt.
Record t : Type := mk {
  ID : string;
  SessionID : string;
  AttachmentReceiptID : string;
  GoalID : string;
  TaskID : string;
  RunID : string;
  MachineID : string;
  RuntimeID : string;
  RepositoryResourceID : string;
  ActiveRunID : string;
  HarnessKind : string;
  HarnessVersion : string;
  AdapterVersion : string;
  LocalHandleID : string;
  BindingID : string;
  WorkspaceFingerprint : string;
  Workspace : string;
  State : string;
  LockVersion : Z;
  InsertedAt : string;
  UpdatedAt : string
}.
End GoalSessionReceipt.
Import GoalSessionReceipt.

Definition optionalTimestamp (value : string) : bool := (value =s "") || validateGoalUTCTimestamp value.

Definition validateGoalSessionAttachmentReceipt (runID : string) (fence : Fence.t) (receipt : GoalSessionReceipt.t) : bool :=
  validateGoalFence runID fence && validateGoalUUID receipt.(ID) && validateGoalUUID receipt.(AttachmentReceiptID) &&
  validateGoalUUID receipt.(RunID) && (receipt.(RunID) =s runID) && (receipt.(State) =s "busy") &&
  forallb (fun field => field <>s "")
    [receipt.(SessionID); receipt.(GoalID); receipt.(TaskID); receipt.(MachineID); receipt.(RepositoryResourceID);
     receipt.(RuntimeID); receipt.(ActiveRunID); receipt.(LocalHandleID); receipt.(HarnessKind); receipt.(HarnessVersion);
     receipt.(AdapterVersion); receipt.(WorkspaceFingerprint)] &&
  forallb validateGoalUUID
    [receipt.(GoalID); receipt.(TaskID); receipt.(MachineID); receipt.(RepositoryResourceID); receipt.(LocalHandleID)] &&
  validateGoalUUID receipt.(RuntimeID) && (receipt.(RuntimeID) =s fence.(Fence.RuntimeID)) &&
  validateGoalUUID receipt.(ActiveRunID) && (receipt.(ActiveRunID) =s runID) &&
  validateGoalUUID receipt.(BindingID) && validateGoalUUID receipt.(SessionID) && (receipt.(SessionID) =s receipt.(ID)) &&
  (0 <=? receipt.(LockVersion)) && optionalTimestamp receipt.(InsertedAt) && optionalTimestamp receipt.(UpdatedAt).

Definition validateGoalSessionReceipt (runID : string) (request : GoalSessionAttachRequest.t) (receipt : GoalSessionReceipt.t)
    : bool :=
  validateGoalFence runID request.(GoalSessionAttachRequest.fence) &&
  validateGoalSessionAttachmentReceipt runID request.(GoalSessionAttachRequest.fence) receipt &&
  (receipt.(LocalHandleID) =s request.(GoalSessionAttachRequest.LocalHandleID)) &&
  none_or request.(GoalSessionAttachRequest.BindingID) (fun bindingID => receipt.(BindingID) =s bindingID) &&
  (receipt.(HarnessKind) =s request.(GoalSessionAttachRequest.HarnessKind)) &&
  (receipt.(HarnessVersion) =s request.(GoalSessionAttachRequest.HarnessVersion)) &&
  (receipt.(AdapterVersion) =s request.(GoalSessionAttachRequest.AdapterVersion)) &&
  (receipt.(WorkspaceFingerprint) =s request.(GoalSessionAttachRequest.WorkspaceFingerprint)) &&
  negb ((receipt.(Workspace) <>s "") && (receipt.(Workspace) <>s request.(GoalSessionAttachRequest.Workspace))) &&
  none_or request.(GoalSessionAttachRequest.RepositoryResourceID) (fun id => receipt.(RepositoryResourceID) =s id).

Definition validateGoalSessionAttachmentReadback (runID : string) (fence : Fence.t) (receipt : GoalSessionReceipt.t) : bool :=
  validateGoalSessionAttachmentReceipt runID fence receipt.

Module GoalSessionStoppedRequest.
Record t : Type := mk { fence : Fence.t; SessionID : string; LocalHandleID : string; BindingID : string }.
End GoalSessionStoppedRequest.

Definition validateGoalSessionStopped (runID : string) (request : GoalSessionStoppedRequest.t) : bool :=
  validateGoalFence runID request.(GoalSessionStoppedRequest.fence) &&
  validateGoalUUID request.(GoalSessionStoppedRequest.SessionID) &&
  validateGoalUUID request.(GoalSessionStoppedRequest.LocalHandleID) &&
  validateGoalUUID request.(GoalSessionStoppedRequest.BindingID).

Module GoalSessionStoppedReceipt.
Record t : Type := mk {
  ReceiptID : string;
  RunID : string;
  SessionID : string;
  LocalHandleID : string;
  BindingID : string;
  State : string;
  ActiveRunID : option string;
  LockVersion : Z
}.
End GoalSessionStoppedReceipt.

Definition validateGoalSessionStoppedReceipt (runID : string) (request : GoalSessionStoppedRequest.t)
    (receipt : GoalSessionStoppedReceipt.t) : bool :=
  validateGoalSessionStopped runID request &&
  forallb validateGoalUUID
    [receipt.(GoalSessionStoppedReceipt.ReceiptID); receipt.(GoalSessionStoppedReceipt.RunID);
     receipt.(GoalSessionStoppedReceipt.SessionID); receipt.(GoalSessionStoppedReceipt.LocalHandleID);
     receipt.(GoalSessionStoppedReceipt.BindingID)] &&
  (receipt.(GoalSessionStoppedReceipt.RunID) =s runID) &&
  (receipt.(GoalSessionStoppedReceipt.SessionID) =s request.(GoalSessionStoppedRequest.SessionID)) &&
  (receipt.(GoalSessionStoppedReceipt.LocalHandleID) =s request.(GoalSessionStoppedRequest.LocalHandleID)) &&
  (receipt.(GoalSessionStoppedReceipt.BindingID) =s request.(GoalSessionStoppedRequest.BindingID)) &&
  (receipt.(GoalSessionStoppedReceipt.State) =s "available") && is_nil receipt.(GoalSessionStoppedReceipt.ActiveRunID) &&
  (0 <? receipt.(GoalSessionStoppedReceipt.LockVersion)).

Definition validateGoalEvidence (runID : string) (fence : Fence.t) (evidence : Evidence.t) : bool :=
  validateGoalFence runID fence && (evidence.(Evidence.RunID) =s runID) && Evidence.Validate evidence.

Module GoalEvidenceReceipt.
Record t : Type := mk {
  ID : string;
  RunID : string;
  EvidenceKey : string;
  Kind : string;
  SubjectHash : string;
  Verdict : string;
  ObservedAt : string;
  Disposition : string
}.
End GoalEvidenceReceipt.

Definition validateGoalEvidenceReceipt (runID : string) (evidence : Evidence.t) (receipt : GoalEvidenceReceipt.t) : bool :=
  validateGoalUUID receipt.(GoalEvidenceReceipt.ID) && (receipt.(GoalEvidenceReceipt.ID) =s evidence.(Evidence.EvidenceID)) &&
  (receipt.(GoalEvidenceReceipt.RunID) =s runID) && validateGoalUUID receipt.(GoalEvidenceReceipt.RunID) &&
  (receipt.(GoalEvidenceReceipt.RunID) =s evidence.(Evidence.RunID)) &&
  (receipt.(GoalEvidenceReceipt.EvidenceKey) =s evidence.(Evidence.EvidenceKey)) &&
  validateGoalShortIdentifier receipt.(GoalEvidenceReceipt.EvidenceKey) &&
  (receipt.(GoalEvidenceReceipt.Kind) =s evidence.(Evidence.Kind)) &&
  (receipt.(GoalEvidenceReceipt.Verdict) =s evidence.(Evidence.Verdict)) &&
  (receipt.(GoalEvidenceReceipt.SubjectHash) =s evidence.(Evidence.SubjectHash)) &&
  validGoalDigest receipt.(GoalEvidenceReceipt.SubjectHash) &&
  optionalTimestamp receipt.(GoalEvidenceReceipt.ObservedAt) && (receipt.(GoalEvidenceReceipt.Disposition) =s "").

Module GoalEvidenceBatch.
Record t : Type := mk { SchemaVersion : string; RunID : string; Items : list Evidence.t }.
End GoalEvidenceBatch.

Definition maxGoalEvidenceBatchItems : Z := 256.

Definition validateGoalEvidenceBatch (runID : string) (fence : Fence.t) (batch : GoalEvidenceBatch.t) : bool :=
  validateGoalFence runID fence && (batch.(GoalEvidenceBatch.SchemaVersion) =s "symmetry.evidence_batch.v1") &&
  (batch.(GoalEvidenceBatch.RunID) =s runID) && negb (llen batch.(GoalEvidenceBatch.Items) =? 0) &&
  (llen batch.(GoalEvidenceBatch.Items) <=? maxGoalEvidenceBatchItems) &&
  forallb (validateGoalEvidence runID fence) batch.(GoalEvidenceBatch.Items) &&
  distinct_keys Evidence.EvidenceID [] batch.(GoalEvidenceBatch.Items) &&
  distinct_keys Evidence.EvidenceKey [] batch.(GoalEvidenceBatch.Items).

Module GoalEvidenceBatchReceipt.
Record t : Type := mk { RunID : string; Receipts : list GoalEvidenceReceipt.t }.
Definition validItem (runID : string) (evidence : Evidence.t) (item : GoalEvidenceReceipt.t) : bool :=
  string_in item.(GoalEvidenceReceipt.Disposition) ["created"; "replayed"] && (item.(GoalEvidenceReceipt.ObservedAt) <>s "") &&
  validateGoalEvidenceReceipt runID evidence
    (GoalEvidenceReceipt.mk item.(GoalEvidenceReceipt.ID) item.(GoalEvidenceReceipt.RunID) item.(GoalEvidenceReceipt.EvidenceKey)
       item.(GoalEvidenceReceipt.Kind) item.(GoalEvidenceReceipt.SubjectHash) item.(GoalEvidenceReceipt.Verdict)
       item.(GoalEvidenceReceipt.ObservedAt) "").
Definition created (receipts : list GoalEvidenceReceipt.t) : bool :=
  existsb (fun item => item.(GoalEvidenceReceipt.Disposition) =s "created") receipts.
End GoalEvidenceBatchReceipt.

Fixpoint zip_forallb {A B} (p : A -> B -> bool) (l : list A) (r : list B) : bool :=
  match l, r with x :: l', y :: r' => p x y && zip_forallb p l' r' | _, _ => true end.

Definition StatusOK : Z := 200.
Definition StatusCreated : Z := 201.

Definition validateGoalEvidenceBatchReceipt (statusCode : Z) (runID : string) (evidence : list Evidence.t)
    (receipt : GoalEvidenceBatchReceipt.t) : bool :=
  let receipts := receipt.(GoalEvidenceBatchReceipt.Receipts) in
  validateGoalUUID receipt.(GoalEvidenceBatchReceipt.RunID) && (receipt.(GoalEvidenceBatchReceipt.RunID) =s runID) &&
  (length receipts =? length evidence)%nat && zip_forallb (GoalEvidenceBatchReceipt.validItem runID) evidence receipts &&
  (statusCode =? if GoalEvidenceBatchReceipt.created receipts then StatusCreated else StatusOK).

Definition validateGoalUsage (runID : string) (fence : Fence.t) (usage : Usage.t) : bool :=
  validateGoalFence runID fence && (usage.(Usage.RunID) =s runID) && Usage.Validate usage.

Module GoalUsageReceipt.
Record t : Type := mk { ID : string; RunID : string; UsageKey : string; CostMicrousd : option string; CostBasis : string }.
End GoalUsageReceipt.

Definition equalGoalOptionalString (left right : option string) : bool :=
  match left, right with Some l, Some r => l =s r | None, None => true | _, _ => false end.

Definition validateGoalUsageReceipt (runID : string) (usage : Usage.t) (receipt : GoalUsageReceipt.t) : bool :=
  let cost := receipt.(GoalUsageReceipt.CostMicrousd) in
  let basis := receipt.(GoalUsageReceipt.CostBasis) in
  validateGoalUUID receipt.(GoalUsageReceipt.ID) && (receipt.(GoalUsageReceipt.ID) =s usage.(Usage.UsageID)) &&
  (receipt.(GoalUsageReceipt.RunID) =s runID) && validateGoalUUID receipt.(GoalUsageReceipt.RunID) &&
  (receipt.(GoalUsageReceipt.RunID) =s usage.(Usage.RunID)) && (receipt.(GoalUsageReceipt.UsageKey) =s usage.(Usage.UsageKey)) &&
  validateGoalShortIdentifier receipt.(GoalUsageReceipt.UsageKey) && (basis =s usage.(Usage.CostBasis)) &&
  equalGoalOptionalString cost usage.(Usage.CostMicrousd) &&
  (if (basis =s "reported") || (basis =s "estimated") then non_nil cost
   else if basis =s "unknown" then none_or cost ValidateMicroUSD else false) &&
  none_or cost ValidateMicroUSD.

(** ** The client *)

Definition IdempotencyConflict : string := "idempotency_conflict".
Definition OwnershipLost : string := "ownership_lost".
Definition TerminalGraceExpired : string := "terminal_grace_expired".
Definition StateConflict : string := "state_conflict".

(** The errors of a request. [LocalError] is a plain error: a request that is
    not sent, or a response that does not validate. [TransportError] tells
    whether [retryableTransportCause] holds of it, below or as a [url.Error]. *)
Inductive control_error : Type :=
| APIError (statusCode : Z) (code message : string) (retryAfter : Z) (retryAfterSet : bool)
| ResponseError
| LocalError
| CanceledError
| TransportError (retryable : bool).

Definition IsOwnershipLost (err : control_error) : bool :=
  match err with APIError _ code _ _ _ => code =s OwnershipLost | _ => false end.
Definition IsTerminalGraceExpired (err : control_error) : bool :=
  match err with APIError _ code _ _ _ => code =s TerminalGraceExpired | _ => false end.

Definition errorCodeForStatus (statusCode : Z) : string :=
  if statusCode =? 400 then "invalid_request" else if statusCode =? 401 then "unauthenticated"
  else if statusCode =? 403 then "forbidden" else if statusCode =? 404 then "not_found"
  else if statusCode =? 409 then StateConflict else if statusCode =? 410 then "assignment_expired"
  else if statusCode =? 422 then "invalid_transition" else if statusCode =? 429 then "rate_limited"
  else if statusCode =? 503 then "service_unavailable" else "unexpected_http_status".

(** [RetryDelay]: [done] is the context, already over. *)
Definition RetryDelay (done : bool) (err : control_error) (fallback : Z) : option Z :=
  if done then None
  else match err with
       | CanceledError => None
       | APIError statusCode _ _ retryAfter retryAfterSet =>
           if negb (statusCode =? 429) && (statusCode <? 500) then None
           else if retryAfterSet || (0 <? retryAfter) then Some retryAfter else Some fallback
       | ResponseError | LocalError => None
       | TransportError retryable => if retryable then Some fallback else None
       end.

(** What an exchange gave: an error, or a status with the decoded body. *)
Definition reply (R : Type) : Type := (control_error + Z * R)%type.

(** A request guarded by [allowed], whose answer must have one of the
    [statuses] ([[]] for any) and be [valid]; [invalid] is the error of a bad
    response. *)
Definition call {R} (allowed : bool) (statuses : list Z) (invalid : control_error) (valid : Z -> R -> bool) (answer : reply R)
    : control_error + R :=
  if negb allowed then inl LocalError
  else match answer with
       | inl err => inl err
       | inr (statusCode, response) =>
           if negb ((llen statuses =? 0) || existsb (Z.eqb statusCode) statuses) then inl ResponseError
           else if valid statusCode response then inr response else inl invalid
       end.

Definition Enroll (enrollmentKey machineToken : string) (answer : reply EnrollResponse.t) :=
  call (negb (blank enrollmentKey) && negb (blank machineToken)) [StatusOK; StatusCreated] LocalError
    (fun _ => validateEnrollResponse machineToken) answer.

Definition Heartbeat (runtimeID : string) (answer : reply RuntimeSnapshot.t) :=
  call (validatePathID runtimeID) [] LocalError (fun _ => validateRuntimeSnapshot) answer.

Definition Dispatch (runtimeID : string) (answer : reply RuntimeSnapshot.t) :=
  call (validatePathID runtimeID) [] LocalError (fun _ => validateRuntimeSnapshot) answer.

Definition Claim (runID : string) (request : ClaimRequest.t) (answer : reply SentClaim.t) :=
  call (validatePathID runID && validatePathID request.(ClaimRequest.ClaimID)) [] LocalError
    (fun _ => validateClaimResponse runID request) answer.

Definition RenewLease (runID : string) (answer : reply LeaseHeartbeatResponse.t) :=
  call (validatePathID runID) [] LocalError (fun _ => validateLeaseHeartbeatResponse) answer.

(** [requestNoContent]; the body of the answer must be empty *)
Definition AppendEvents (runID : string) (answer : reply string) :=
  call (validatePathID runID) [204] ResponseError (fun _ body => body =s "") answer.

Definition AttachHarnessSession (runID : string) (request : GoalSessionAttachRequest.t) (answer : reply GoalSessionReceipt.t) :=
  call (validateGoalSessionAttach runID request) [StatusOK; StatusCreated] LocalError
    (fun _ => validateGoalSessionReceipt runID request) answer.

Definition FetchHarnessSessionAttachment (runID : string) (fence : Fence.t) (answer : reply GoalSessionReceipt.t) :=
  call (validateGoalFence runID fence) [StatusOK] LocalError
    (fun _ => validateGoalSessionAttachmentReadback runID fence) answer.

Definition MarkHarnessSessionStopped (runID : string) (request : GoalSessionStoppedRequest.t)
    (answer : reply GoalSessionStoppedReceipt.t) :=
  call (validateGoalSessionStopped runID request) [StatusOK; StatusCreated] LocalError
    (fun _ => validateGoalSessionStoppedReceipt runID request) answer.

Definition AppendEvidence (runID : string) (fence : Fence.t) (evidence : Evidence.t) (answer : reply GoalEvidenceReceipt.t) :=
  call (validateGoalEvidence runID fence evidence) [StatusOK; StatusCreated] LocalError
    (fun _ => validateGoalEvidenceReceipt runID evidence) answer.

Definition AppendEvidenceBatch (runID : string) (fence : Fence.t) (evidence : list Evidence.t)
    (answer : reply GoalEvidenceBatchReceipt.t) :=
  call (validateGoalEvidenceBatch runID fence (GoalEvidenceBatch.mk "symmetry.evidence_batch.v1" runID evidence))
    [StatusOK; StatusCreated] LocalError (fun statusCode => validateGoalEvidenceBatchReceipt statusCode runID evidence) answer.

Definition RecordUsage (runID : string) (fence : Fence.t) (usage : Usage.t) (answer : reply GoalUsageReceipt.t) :=
  call (validateGoalUsage runID fence usage) [StatusOK; StatusCreated] LocalError
    (fun _ => validateGoalUsageReceipt runID usage) answer.

Definition Transition (runID : string) (request : StateTransitionRequest.t) (answer : reply Run.t) :=
  call (validatePathID runID && validatePathID request.(StateTransitionRequest.TransitionID)) [StatusOK] ResponseError
    (fun _ => validateTransitionResponse runID request) answer.

Definition Reconcile (runtimeID : string) (answer : reply ReconcileResponse.t) :=
  call (validatePathID runtimeID) [] LocalError (fun _ => validateReconcileResponse) answer.

Definition AcknowledgeCommand (commandID : string) (request : CommandAcknowledgement.t) (answer : reply TaskCommand.t) :=
  call (validatePathID commandID && (commandID =s request.(CommandAcknowledgement.CommandID)) &&
        validatePathID request.(CommandAcknowledgement.AckID)) [StatusOK] ResponseError
    (fun _ => validateAcknowledgementResponse commandID request) answer.

Definition SubmitTask (answer : reply Task.t) := call true [] LocalError (fun _ => validateTaskResponse "") answer.

Definition GetTask (taskID : string) (answer : reply Task.t) :=
  call (validatePathID taskID) [] LocalError (fun _ => validateTaskResponse taskID) answer.

Definition CreateTaskCommand (taskID idempotencyKey : string) (request : TaskCommandRequest.t) (answer : reply TaskCommand.t) :=
  call (validatePathID taskID && negb (blank idempotencyKey) && validateTaskCommandRequest request) [StatusOK; StatusCreated]
    LocalError (fun _ => validateTaskCommandResponse taskID request) answer.

Example number_forms :
  sameJSONValue (JObject [("a", JNumber "1.50e1"); ("b", JNull)]) (JObject [("b", JNull); ("a", JNumber "15")]) = true /\
  sameJSONValue (JObject [("a", JNumber "1"); ("a", JNull)]) (JObject [("a", JNull)]) = true /\
  sameJSONObject "null" "{}" = true.
Proof. vm_compute. repeat split. Qed.
