(* ===== verification/SessionStore.v ===== *)
(** * SessionStore: the session journals on disk and the index over them

    src/daemon/internal/state/goal_session.go: the directory of session
    journals, the per-lineage index derived from it (108-134, 1323-1523), the
    launch guard (1545-1572) and the methods of the store (435-1297) that
    load a journal, mutate it with the function of SessionOps.v, mark the
    index of its lineage dirty, publish the journal and rebuild the index.

    The state is the store, the session files and the index files, each keyed
    by its base name. Every file operation of a method has its own outcome in
    [session_io]; a write that fails leaves the old file, one that fails while
    it syncs the directory leaves the new one. encoding/json writes back the
    records as they are (text fields are valid UTF-8); a record over the size
    limit is a write that fails. Clock and random IDs are arguments. *)

From stdpp Require Import sorting.
From S2P Require Import Prelude Sha256 Json Authority Protocol Journal Validation Store Session SessionOps.
From S2P Require Import Cgroup Containment Clone Outbox Delivery LateUsage.
Import GoalSessionJournal.
Open Scope string_scope.
Open Scope Z_scope.

(** ** Lineages *)

Definition goalSessionLineageSchemaVersion : Z := 1.

Definition GoalSessionLineageStateFree : string := "free".
Definition GoalSessionLineageStateReserved : string := "reserved".
Definition GoalSessionLineageStateLaunching : string := "launching".
Definition GoalSessionLineageStateAttached : string := "attached".
Definition GoalSessionLineageStateUncertain : string := "uncertain".

Definition validGoalSessionLineageState (value : string) : bool :=
  string_in value [GoalSessionLineageStateReserved; GoalSessionLineageStateLaunching;
                   GoalSessionLineageStateAttached; GoalSessionLineageStateUncertain].

Definition lineageStateRank (state : string) : Z :=
  if state =s GoalSessionLineageStateReserved then 1
  else if state =s GoalSessionLineageStateAttached then 2
  else if state =s GoalSessionLineageStateLaunching then 3
  else if state =s GoalSessionLineageStateUncertain then 4
  else 0.

Definition goalSessionLineageStateForJournal (journal : GoalSessionJournal.t) : string :=
  if fullyClosed journal then GoalSessionLineageStateFree
  else if (journal.(LaunchState) =s GoalSessionLaunchStateUncertain) || NeedsReconciliation journal
  then GoalSessionLineageStateUncertain
  else if journal.(LaunchState) =s GoalSessionLaunchStateIntent then GoalSessionLineageStateReserved
  else if journal.(LaunchState) =s GoalSessionLaunchStateLaunching then GoalSessionLineageStateLaunching
  else if journal.(LaunchState) =s GoalSessionLaunchStateAttached then GoalSessionLineageStateAttached
  else GoalSessionLineageStateUncertain.

Module goalSessionLineageEntry.
Record t : Type := mk { SessionKey : GoalSessionKey.t; State : string; UpdatedAt : time }.
#[export] Instance eq_dec : EqDecision t.
Proof. solve_decision. Defined.
Definition valid (entry : t) : bool :=
  validateGoalSessionKey entry.(SessionKey) && validGoalSessionLineageState entry.(State) &&
  (entry.(State) <>s GoalSessionLineageStateFree) && negb (IsZero entry.(UpdatedAt)).
End goalSessionLineageEntry.

Module goalSessionLineageIndex.
Record t : Type := mk {
  SchemaVersion : Z;
  Lineage : GoalSessionLineageKey.t;
  Dirty : bool;
  Entries : list goalSessionLineageEntry.t
}.

Fixpoint distinct_valid (seen : list GoalSessionKey.t) (entries : list goalSessionLineageEntry.t) : bool :=
  match entries with
  | [] => true
  | entry :: rest =>
      goalSessionLineageEntry.valid entry &&
      negb (bool_decide (entry.(goalSessionLineageEntry.SessionKey) ∈ seen)) &&
      distinct_valid (entry.(goalSessionLineageEntry.SessionKey) :: seen) rest
  end.

(** [validateGoalSessionLineageIndex] *)
Definition validate (index : t) : bool :=
  (index.(SchemaVersion) =? goalSessionLineageSchemaVersion) && validateGoalSessionLineageKey index.(Lineage) &&
  (llen index.(Entries) <=? 4096) && distinct_valid [] index.(Entries).
End goalSessionLineageIndex.
Import goalSessionLineageIndex (Lineage, Dirty, Entries).

Inductive index_file : Type :=
| IndexDecodes (index : goalSessionLineageIndex.t)
| IndexUndecodable.

Definition goalSessionLineagePath (lineage : GoalSessionLineageKey.t) : string :=
  "lineage-" ++ sha256_hex (lineage.(GoalSessionLineageKey.GoalID) ++ nul ++ lineage.(GoalSessionLineageKey.WorkItemID) ++
                            nul ++ lineage.(GoalSessionLineageKey.TaskID)) ++ ".json".

(** The order [sort.Slice] sorts by; keys are distinct, so the sort is
    determined. *)
Definition key_le (left right : GoalSessionKey.t) : bool :=
  if left.(GoalSessionKey.GoalID) =s right.(GoalSessionKey.GoalID)
  then String.leb left.(GoalSessionKey.LocalHandleID) right.(GoalSessionKey.LocalHandleID)
  else String.leb left.(GoalSessionKey.GoalID) right.(GoalSessionKey.GoalID).

Definition sort_by {A} (key : A -> GoalSessionKey.t) : list A -> list A :=
  merge_sort (fun x y => Is_true (key_le (key x) (key y))).

Module GoalSessionLineageStatus.
Record t : Type := mk {
  Lineage : GoalSessionLineageKey.t;
  State : string;
  Blocking : bool;
  SessionKeys : list GoalSessionKey.t
}.
Definition BlocksNewLaunch (status : t) : bool := status.(Blocking).
End GoalSessionLineageStatus.

Definition strongest (state : string) (entry : goalSessionLineageEntry.t) : string :=
  if lineageStateRank state <? lineageStateRank entry.(goalSessionLineageEntry.State)
  then entry.(goalSessionLineageEntry.State) else state.

Definition goalSessionLineageStatus (index : goalSessionLineageIndex.t) : GoalSessionLineageStatus.t :=
  if llen index.(Entries) =? 0
  then GoalSessionLineageStatus.mk index.(Lineage) GoalSessionLineageStateFree false []
  else GoalSessionLineageStatus.mk index.(Lineage)
         (fold_left strongest index.(Entries) GoalSessionLineageStateFree) true
         (sort_by id (map goalSessionLineageEntry.SessionKey index.(Entries))).

(** ** Files and their outcomes *)

Module SessionFiles.
Record t : Type := mk {
  store : Store;
  sessions : gmap string session_file;
  indexes : gmap string index_file
}.
Definition with_sessions (state : t) (files : gmap string session_file) : t := mk state.(store) files state.(indexes).
Definition with_indexes (state : t) (files : gmap string index_file) : t := mk state.(store) state.(sessions) files.
End SessionFiles.
Import SessionFiles (store, sessions, indexes, with_sessions, with_indexes).

(** One listing of the directory: whether it can be read and its temporary
    files removed, and which of its files can be read. *)
Record scan_io : Type := mkScan { listable : bool; file_readable : string -> bool }.

(** One query of an index: its load, and the rebuild. *)
Record index_io : Type := mkIndexIO {
  index_readable : bool;
  rebuild_scan : scan_io;
  rebuild_write : write_outcome;
  rebuilt_readable : bool
}.

(** One method: the load of the journal, the launch guard, the dirty marks,
    the publication, the rebuilds of the two lineages. *)
Record session_io : Type := mkSessionIO {
  session_readable : bool;
  guard_io : index_io;
  guard_scan : scan_io;
  mark_write : write_outcome;
  target_mark_write : write_outcome;
  save_write : write_outcome;
  removal : remove_outcome;
  refresh_scan : scan_io;
  refresh_write : write_outcome;
  target_refresh_scan : scan_io;
  target_refresh_write : write_outcome
}.

Definition scan_ok : scan_io := mkScan true (fun _ => true).
Definition index_ok : index_io := mkIndexIO true scan_ok WriteOK true.
Definition session_ok : session_io :=
  mkSessionIO true index_ok scan_ok WriteOK WriteOK WriteOK RemoveOK scan_ok WriteOK scan_ok WriteOK.

(** [isGoalSessionFile] *)
Definition isGoalSessionFile (name : string) : bool :=
  (String.substring 0 8 name =s "session-") && (String.substring (String.length name - 5) 5 name =s ".json") &&
  let digest := String.substring 8 (String.length name - 13) name in
  (len digest =? 64) && hex_decodes digest.

(** [listGoalSessionsLocked]: every session file in the order of
    [os.ReadDir], then sorted by key. *)
Definition sessionNames (files : gmap string session_file) : list string :=
  merge_sort String.le (List.filter isGoalSessionFile (map_to_list files).*1).

Definition listGoalSessionsLocked (fs : scan_io) (files : gmap string session_file) : result (list GoalSessionJournal.t) :=
  reject negb fs.(listable) with Errorf "list goal session journal directory" ;;
  try journals <- for_each (fun listed name =>
      try journal <- loadGoalSessionPathLocked (fs.(file_readable) name) files name ;;
      Ok (listed ++ [journal])%list) [] (sessionNames files) ;;
  Ok (sort_by GoalSessionJournal.Key journals).

(** A file written under [path] by [writeAtomic]. *)
Definition written_under {A} (outcome : write_outcome) (path : string) (content : A) (what : string)
    (files : gmap string A) : gmap string A * result unit :=
  match outcome with
  | WriteOK => (<[path := content]> files, Ok tt)
  | WriteFailed => (files, Err (Errorf what))
  | SyncFailed => (<[path := content]> files, Err (Errorf what))
  end.

(** [saveGoalSessionJournalLocked] *)
Definition saveGoalSessionJournalLocked (outcome : write_outcome) (state : SessionFiles.t) (journal : GoalSessionJournal.t)
    : SessionFiles.t * result unit :=
  if negb (GoalSessionJournal.validate journal) then (state, Err (Errorf "goal session journal is invalid"))
  else
    let '(files, saved) := written_under outcome (goalSessionPath (GoalSessionJournal.Key journal))
                             (SessionDecodes journal) "write goal session journal" state.(sessions) in
    (with_sessions state files, saved).

(** [saveGoalSessionLineageIndexLocked] *)
Definition saveGoalSessionLineageIndexLocked (outcome : write_outcome) (state : SessionFiles.t)
    (index : goalSessionLineageIndex.t) : SessionFiles.t * result unit :=
  if negb (goalSessionLineageIndex.validate index) then (state, Err (Errorf "goal session lineage index is invalid"))
  else
    let '(files, saved) := written_under outcome (goalSessionLineagePath index.(Lineage)) (IndexDecodes index)
                             "write goal session lineage index" state.(indexes) in
    (with_indexes state files, saved).

(** [loadGoalSessionLineageIndexLocked] *)
Definition loadGoalSessionLineageIndexLocked (readable : bool) (files : gmap string index_file)
    (lineage : GoalSessionLineageKey.t) : result goalSessionLineageIndex.t :=
  reject negb (validateGoalSessionLineageKey lineage) with Errorf "goal session lineage is invalid" ;;
  match files !! goalSessionLineagePath lineage with
  | None => Err (NotFoundError "goal session lineage index")
  | Some content =>
      reject negb readable with Errorf "read goal session lineage index" ;;
      match content with
      | IndexUndecodable => Err (Errorf "decode goal session lineage index")
      | IndexDecodes index =>
          reject negb (goalSessionLineageIndex.validate index) with Errorf "invalid goal session lineage index" ;;
          reject negb (bool_decide (index.(Lineage) = lineage)) ||
                 (goalSessionLineagePath lineage <>s goalSessionLineagePath index.(Lineage))
            with Errorf "goal session lineage index does not match requested lineage" ;;
          Ok index
      end
  end.

(** [beginGoalSessionLineageMutationLocked] *)
Definition beginGoalSessionLineageMutationLocked (outcome : write_outcome) (state : SessionFiles.t)
    (lineage : GoalSessionLineageKey.t) : SessionFiles.t * result unit :=
  if negb (validateGoalSessionLineageKey lineage) then (state, Err (Errorf "goal session lineage is invalid"))
  else saveGoalSessionLineageIndexLocked outcome state
         (goalSessionLineageIndex.mk goalSessionLineageSchemaVersion lineage true []).

(** [refreshGoalSessionLineageIndexLocked] *)
Definition entryFor (journal : GoalSessionJournal.t) : goalSessionLineageEntry.t :=
  goalSessionLineageEntry.mk (GoalSessionJournal.Key journal) (goalSessionLineageStateForJournal journal)
    journal.(UpdatedAt).

Definition blocksLineage (lineage : GoalSessionLineageKey.t) (journal : GoalSessionJournal.t) : bool :=
  bool_decide (GoalSessionJournal.LineageKey journal = lineage) &&
  (goalSessionLineageStateForJournal journal <>s GoalSessionLineageStateFree).

Definition lineageEntries (lineage : GoalSessionLineageKey.t) (journals : list GoalSessionJournal.t)
    : list goalSessionLineageEntry.t :=
  sort_by goalSessionLineageEntry.SessionKey (map entryFor (List.filter (blocksLineage lineage) journals)).

Definition refreshGoalSessionLineageIndexLocked (scan : scan_io) (outcome : write_outcome) (state : SessionFiles.t)
    (lineage : GoalSessionLineageKey.t) : SessionFiles.t * result unit :=
  if negb (validateGoalSessionLineageKey lineage) then (state, Err (Errorf "goal session lineage is invalid"))
  else
    match listGoalSessionsLocked scan state.(sessions) with
    | Err e => (state, Err e)
    | Ok journals =>
        saveGoalSessionLineageIndexLocked outcome state
          (goalSessionLineageIndex.mk goalSessionLineageSchemaVersion lineage false (lineageEntries lineage journals))
    end.

(** [checkGoalSessionLineageLocked] *)
Definition checkGoalSessionLineageLocked (fs : index_io) (state : SessionFiles.t) (lineage : GoalSessionLineageKey.t)
    : SessionFiles.t * result GoalSessionLineageStatus.t :=
  let rebuild :=
    match refreshGoalSessionLineageIndexLocked fs.(rebuild_scan) fs.(rebuild_write) state lineage with
    | (state', Err e) => (state', Err e)
    | (state', Ok _) =>
        (state', try index <- loadGoalSessionLineageIndexLocked fs.(rebuilt_readable) state'.(indexes) lineage ;;
                 Ok (goalSessionLineageStatus index))
    end in
  match loadGoalSessionLineageIndexLocked fs.(index_readable) state.(indexes) lineage with
  | Err (NotFoundError _) => rebuild
  | Err e => (state, Err e)
  | Ok index => if index.(Dirty) then rebuild else (state, Ok (goalSessionLineageStatus index))
  end.

(** What a blocking status makes of a launch. *)
Definition launchBarrier (status : GoalSessionLineageStatus.t) : result unit :=
  if negb (GoalSessionLineageStatus.BlocksNewLaunch status) then Ok tt
  else if (status.(GoalSessionLineageStatus.State) =s GoalSessionLineageStateUncertain) ||
          (status.(GoalSessionLineageStatus.State) =s GoalSessionLineageStateLaunching)
  then Err ErrGoalSessionUncertain else Err ErrGoalSessionConflict.

(** [ensureLocalHandleAvailableLocked] *)
Definition handleConflict (launch : GoalSessionLaunchIntent.t) (_ : unit) (existing : GoalSessionJournal.t) : result unit :=
  let recorded := existing.(intent) in
  reject (recorded.(GoalSessionLaunchIntent.LocalHandleID) =s launch.(GoalSessionLaunchIntent.LocalHandleID)) &&
         negb (bool_decide (GoalSessionJournal.Key existing = GoalSessionLaunchIntent.Key launch))
    with ErrGoalSessionConflict ;;
  if bool_decide (GoalSessionJournal.LineageKey existing = GoalSessionLaunchIntent.LineageKey launch) &&
     (recorded.(GoalSessionLaunchIntent.RunID) =s launch.(GoalSessionLaunchIntent.RunID)) &&
     (recorded.(GoalSessionLaunchIntent.Generation) =? launch.(GoalSessionLaunchIntent.Generation)) &&
     (existing.(LaunchState) <>s GoalSessionLaunchStateClosed) && (existing.(SessionState) <>s GoalSessionStateClosed)
  then Err (if NeedsReconciliation existing then ErrGoalSessionUncertain else ErrGoalSessionConflict)
  else Ok tt.

Definition ensureLocalHandleAvailableLocked (fs : session_io) (state : SessionFiles.t) (launch : GoalSessionLaunchIntent.t)
    : SessionFiles.t * result unit :=
  let '(state', checked) := checkGoalSessionLineageLocked fs.(guard_io) state (GoalSessionLaunchIntent.LineageKey launch) in
  (state', try status <- checked ;;
           check launchBarrier status ;;
           try journals <- listGoalSessionsLocked fs.(guard_scan) state'.(sessions) ;;
           for_each (handleConflict launch) tt journals).

(** ** The methods of the store *)

(** What [SaveGoalSessionLaunchIntent] and [mutateGoalSession] do with a
    journal that changed: the dirty mark, the commit, and a rebuild whose
    failure only leaves the mark. *)
Definition publish (fs : session_io) (state : SessionFiles.t) (journal : GoalSessionJournal.t)
    : SessionFiles.t * result GoalSessionJournal.t :=
  match beginGoalSessionLineageMutationLocked fs.(mark_write) state (GoalSessionJournal.LineageKey journal) with
  | (marked, Err e) => (marked, Err e)
  | (marked, Ok _) =>
      match saveGoalSessionJournalLocked fs.(save_write) marked journal with
      | (saved, Err e) => (saved, Err e)
      | (saved, Ok _) =>
          ((refreshGoalSessionLineageIndexLocked fs.(refresh_scan) fs.(refresh_write) saved
              (GoalSessionJournal.LineageKey journal)).1, Ok journal)
      end
  end.

(** What [SaveGoalSessionLaunchIntent] returns: a journal, and for a replay
    of a launch whose outcome is unknown the error with it. *)
Definition SaveGoalSessionLaunchIntent (fs : session_io) (newLaunchID newHandleID : option string) (now : time)
    (state : SessionFiles.t) (launch : GoalSessionLaunchIntent.t) : SessionFiles.t * result GoalSessionJournal.t :=
  match rbind (normalizeGoalSessionIntent newLaunchID newHandleID launch) (fun launch =>
          check ensureOpenLocked state.(store) ;; Ok launch) with
  | Err e => (state, Err e)
  | Ok launch =>
      match loadGoalSessionPathLocked fs.(session_readable) state.(sessions)
              (goalSessionPath (GoalSessionLaunchIntent.Key launch)) with
      | Ok existing =>
          (state, if bool_decide (existing.(intent) = launch)
                  then reject NeedsReconciliation existing with ErrGoalSessionUncertain ;; Ok existing
                  else Err ErrGoalSessionConflict)
      | Err (NotFoundError _) =>
          match ensureLocalHandleAvailableLocked fs state launch with
          | (guarded, Err e) => (guarded, Err e)
          | (guarded, Ok _) =>
              if negb (GoalSessionJournal.validate (launchJournal launch now))
              then (guarded, Err (Errorf "goal session journal is invalid"))
              else publish fs guarded (launchJournal launch now)
          end
      | Err e => (state, Err e)
      end
  end.

(** The load [mutateGoalSession], [LoadGoalSession] and [DeleteGoalSession]
    share. *)
Definition LoadGoalSession (readable : bool) (state : SessionFiles.t) (key : GoalSessionKey.t)
    : result GoalSessionJournal.t :=
  reject negb (validateGoalSessionKey key) with Errorf "goal session key is invalid" ;;
  check ensureOpenLocked state.(store) ;;
  loadGoalSessionPathLocked readable state.(sessions) (goalSessionPath key).

(** [mutateGoalSession] *)
Definition mutateGoalSession (fs : session_io) (state : SessionFiles.t) (key : GoalSessionKey.t)
    (mutate : GoalSessionJournal.t -> result GoalSessionJournal.t) : SessionFiles.t * result GoalSessionJournal.t :=
  match rbind (LoadGoalSession fs.(session_readable) state key) mutate with
  | Err e => (state, Err e)
  | Ok journal =>
      if negb (GoalSessionJournal.validate journal) then (state, Err (Errorf "goal session journal is invalid"))
      else publish fs state journal
  end.

(** An argument check in front of a method. *)
Definition guarded {A} (state : SessionFiles.t) (arguments : result unit) (method : SessionFiles.t * result A)
    : SessionFiles.t * result A :=
  match arguments with Err e => (state, Err e) | Ok _ => method end.

Definition MarkGoalSessionLaunchStarted (fs : session_io) (state : SessionFiles.t) (key : GoalSessionKey.t) (at_ : time) :=
  guarded state (reject IsZero at_ with Errorf "launch start time is invalid" ;; Ok tt)
    (mutateGoalSession fs state key (markLaunchStarted at_)).

Definition AbortGoalSessionLaunchBeforeNativeStart (fs : session_io) (now : time) (state : SessionFiles.t)
    (key : GoalSessionKey.t) := mutateGoalSession fs state key (abortBeforeNativeStart now).

Definition PersistGoalSessionHandle (fs : session_io) (now : time) (state : SessionFiles.t) (key : GoalSessionKey.t)
    (handle : GoalSessionHandle.t) (expected : option GoalSessionCompatibility.t) :=
  guarded state (GoalSessionHandle.validate handle)
    (mutateGoalSession fs state key (persistHandle handle expected now)).

(** [AttachGoalSession] is [PersistGoalSessionHandle]. *)
Definition AttachGoalSession := PersistGoalSessionHandle.

Definition PersistGoalSessionControlAttachment (fs : session_io) (now : time) (state : SessionFiles.t)
    (key : GoalSessionKey.t) (controlSessionID bindingID receiptID : string) (serverIssuedBinding : bool) :=
  guarded state
    (reject negb (validGoalSessionUUID controlSessionID) || negb (validGoalSessionUUID bindingID) ||
            negb (validGoalSessionUUID receiptID) with Errorf "Goal session control attachment is invalid" ;; Ok tt)
    (mutateGoalSession fs state key (persistControlAttachment controlSessionID bindingID receiptID serverIssuedBinding now)).

Definition MarkGoalSessionResumeStartAttempted (fs : session_io) (now : time) (state : SessionFiles.t)
    (key : GoalSessionKey.t) := mutateGoalSession fs state key (markResumeStartAttempted now).

Definition MarkGoalSessionResumeNativeStopped (fs : session_io) (now : time) (state : SessionFiles.t)
    (key : GoalSessionKey.t) := mutateGoalSession fs state key (markResumeNativeStopped now).

Definition MarkGoalSessionResumeRejected (fs : session_io) (now : time) (state : SessionFiles.t)
    (key : GoalSessionKey.t) := mutateGoalSession fs state key (markResumeRejected now).

Definition MarkGoalSessionStoppedPending (fs : session_io) (now : time) (state : SessionFiles.t)
    (key : GoalSessionKey.t) := mutateGoalSession fs state key (markStoppedPending now).

Definition MarkGoalSessionAvailable (fs : session_io) (now : time) (state : SessionFiles.t) (key : GoalSessionKey.t)
    (certificate : GoalSessionStopCertificate.t) :=
  guarded state (reject negb (GoalSessionStopCertificate.valid certificate)
                   with Errorf "Goal session availability receipt is invalid" ;; Ok tt)
    (mutateGoalSession fs state key (markAvailable certificate now)).

Definition MarkGoalSessionUncertain (fs : session_io) (now : time) (state : SessionFiles.t) (key : GoalSessionKey.t)
    (reason : string) :=
  guarded state (reject negb (validRequiredString reason 4096) with Errorf "uncertain launch reason is invalid" ;; Ok tt)
    (mutateGoalSession fs state key (markUncertain reason now)).

Definition ResolveGoalSessionUncertain (fs : session_io) (now : time) (state : SessionFiles.t) (key : GoalSessionKey.t)
    (handle : GoalSessionHandle.t) (expected : GoalSessionCompatibility.t) :=
  guarded state (GoalSessionHandle.validate handle)
    (mutateGoalSession fs state key (resolveUncertain handle expected now)).

Definition ResolveGoalSessionUncertainStopped (fs : session_io) (now : time) (state : SessionFiles.t)
    (key : GoalSessionKey.t) (expected : GoalSessionCompatibility.t) :=
  mutateGoalSession fs state key (resolveUncertainStopped expected now).

Definition CloseGoalSession (fs : session_io) (now : time) (state : SessionFiles.t) (key : GoalSessionKey.t) :=
  mutateGoalSession fs state key (closeSession now).

Definition SetGoalSessionState (fs : session_io) (now : time) (state : SessionFiles.t) (key : GoalSessionKey.t)
    (sessionState : string) : SessionFiles.t * result GoalSessionJournal.t :=
  guarded state (reject negb (validGoalSessionState sessionState) with Errorf "goal session state is invalid" ;; Ok tt)
    (if sessionState =s GoalSessionStateClosed then CloseGoalSession fs now state key
     else guarded state (reject sessionState =s GoalSessionStateAvailable
                           with Errorf "available Goal session state requires a stop certificate" ;; Ok tt)
            (mutateGoalSession fs state key (setSessionState sessionState now))).

(** [RebindGoalSessionForResume]: the guard on the target lineage, the dirty
    marks of both lineages, the commit, the rebuilds. *)
Definition rebindTarget (fs : session_io) (state : SessionFiles.t) (previous target : GoalSessionLineageKey.t)
    : SessionFiles.t * result unit :=
  if bool_decide (target = previous) then (state, Ok tt)
  else let '(state', checked) := checkGoalSessionLineageLocked fs.(guard_io) state target in
       (state', try status <- checked ;; launchBarrier status).

Definition markBoth (fs : session_io) (state : SessionFiles.t) (previous target : GoalSessionLineageKey.t)
    : SessionFiles.t * result unit :=
  match beginGoalSessionLineageMutationLocked fs.(mark_write) state previous with
  | (marked, Err e) => (marked, Err e)
  | (marked, Ok _) =>
      if bool_decide (target = previous) then (marked, Ok tt)
      else beginGoalSessionLineageMutationLocked fs.(target_mark_write) marked target
  end.

Definition refreshBoth (fs : session_io) (state : SessionFiles.t) (previous target : GoalSessionLineageKey.t)
    : SessionFiles.t :=
  let refreshed := (refreshGoalSessionLineageIndexLocked fs.(refresh_scan) fs.(refresh_write) state previous).1 in
  if bool_decide (target = previous) then refreshed
  else (refreshGoalSessionLineageIndexLocked fs.(target_refresh_scan) fs.(target_refresh_write) refreshed target).1.

Definition rebindPublish (fs : session_io) (now : time) (state : SessionFiles.t) (journal : GoalSessionJournal.t)
    (rebind : GoalSessionResumeRebind.t) : SessionFiles.t * result GoalSessionJournal.t :=
  let previous := GoalSessionJournal.LineageKey journal in
  let target := targetLineage rebind journal in
  match rebindTarget fs state previous target with
  | (checked, Err e) => (checked, Err e)
  | (checked, Ok _) =>
      match markBoth fs checked previous target with
      | (marked, Err e) => (marked, Err e)
      | (marked, Ok _) =>
          match applyRebind rebind now journal with
          | Err e => (marked, Err e)
          | Ok rebound =>
              if negb (GoalSessionJournal.validate rebound) then (marked, Err (Errorf "goal session journal is invalid"))
              else
                match saveGoalSessionJournalLocked fs.(save_write) marked rebound with
                | (saved, Err e) => (saved, Err e)
                | (saved, Ok _) => (refreshBoth fs saved previous target, Ok rebound)
                end
          end
      end
  end.

Definition RebindGoalSessionForResume (fs : session_io) (now : time) (state : SessionFiles.t) (key : GoalSessionKey.t)
    (rebind : GoalSessionResumeRebind.t) : SessionFiles.t * result GoalSessionJournal.t :=
  match (reject negb (validateGoalSessionKey key) with Errorf "goal session key is invalid" ;;
         check GoalSessionResumeRebind.validate rebind ;;
         LoadGoalSession fs.(session_readable) state key) with
  | Err e => (state, Err e)
  | Ok journal =>
      if resumeTargetConflicts rebind journal then (state, Err ErrGoalSessionConflict)
      else if sameResumeTarget rebind journal then
        (state, check compareGoalSessionResumeCompatibility journal rebind.(GoalSessionResumeRebind.compatibility) ;;
                Ok journal)
      else
        match validateResumeSource rebind journal with
        | Err e => (state, Err e)
        | Ok _ => rebindPublish fs now state journal rebind
        end
  end.

Definition removeSession (outcome : remove_outcome) (state : SessionFiles.t) (key : GoalSessionKey.t)
    : SessionFiles.t * result unit :=
  let removed := with_sessions state (delete (goalSessionPath key) state.(sessions)) in
  match outcome with
  | RemoveOK => (removed, Ok tt)
  | RemoveMissing => (removed, Err (NotFoundError "goal session journal"))
  | RemoveFailed => (state, Err (Errorf "delete goal session journal"))
  | RemoveSyncFailed => (removed, Err (Errorf "sync directory"))
  end.

Definition DeleteGoalSession (fs : session_io) (state : SessionFiles.t) (key : GoalSessionKey.t)
    : SessionFiles.t * result unit :=
  match (try journal <- LoadGoalSession fs.(session_readable) state key ;;
         reject NeedsReconciliation journal with ErrGoalSessionUncertain ;;
         reject (journal.(SessionState) <>s GoalSessionStateClosed) && (journal.(LaunchState) <>s GoalSessionLaunchStateClosed)
           with Errorf "goal session is not closed" ;;
         Ok journal) with
  | Err e => (state, Err e)
  | Ok journal =>
      let lineage := GoalSessionJournal.LineageKey journal in
      match beginGoalSessionLineageMutationLocked fs.(mark_write) state lineage with
      | (marked, Err e) => (marked, Err e)
      | (marked, Ok _) =>
          match removeSession fs.(removal) marked key with
          | (removed, Err e) => (removed, Err e)
          | (removed, Ok _) =>
              ((refreshGoalSessionLineageIndexLocked fs.(refresh_scan) fs.(refresh_write) removed lineage).1, Ok tt)
          end
      end
  end.

(** ** Queries *)

Definition CheckGoalSessionLineage (fs : index_io) (state : SessionFiles.t) (lineage : GoalSessionLineageKey.t)
    : SessionFiles.t * result GoalSessionLineageStatus.t :=
  match (reject negb (validateGoalSessionLineageKey lineage) with Errorf "goal session lineage is invalid" ;;
         ensureOpenLocked state.(store)) with
  | Err e => (state, Err e)
  | Ok _ => checkGoalSessionLineageLocked fs state lineage
  end.

Definition EnsureGoalSessionLineageAvailable (fs : index_io) (state : SessionFiles.t) (lineage : GoalSessionLineageKey.t)
    : SessionFiles.t * result unit :=
  let '(state', checked) := CheckGoalSessionLineage fs state lineage in
  (state', try status <- checked ;; launchBarrier status).

Definition ListGoalSessions (fs : scan_io) (state : SessionFiles.t) : result (list GoalSessionJournal.t) :=
  check ensureOpenLocked state.(store) ;; listGoalSessionsLocked fs state.(sessions).

Definition LoadGoalSessionByHandle (fs : scan_io) (state : SessionFiles.t) (localHandleID : string)
    : result GoalSessionJournal.t :=
  reject negb (validRequiredString localHandleID 4096) with Errorf "local handle ID is invalid" ;;
  try journals <- ListGoalSessions fs state ;;
  match List.find (fun journal => journal.(intent).(GoalSessionLaunchIntent.LocalHandleID) =s localHandleID) journals with
  | Some journal => Ok journal
  | None => Err (NotFoundError "goal session journal")
  end.

Definition LoadGoalSessionByControlSessionID (fs : scan_io) (state : SessionFiles.t) (controlSessionID : string)
    : result GoalSessionJournal.t :=
  reject negb (validGoalSessionUUID controlSessionID) with Errorf "Control session ID is invalid" ;;
  try journals <- ListGoalSessions fs state ;;
  match List.filter (fun journal => journal.(ControlSessionID) =s controlSessionID) journals with
  | [] => Err (NotFoundError "goal session journal")
  | [journal] => Ok journal
  | _ => Err ErrGoalSessionConflict
  end.

Definition CheckGoalSessionCompatibility (readable : bool) (state : SessionFiles.t) (key : GoalSessionKey.t)
    (expected : GoalSessionCompatibility.t) : result unit :=
  try journal <- LoadGoalSession readable state key ;; compareGoalSessionCompatibility journal expected.
