(* ===== verification/Flush.v ===== *)
(** * Flush: the daemon sends what it owes the control plane

    src/daemon/internal/app/app.go (171-189, 536-541, 10810-11202):
    [deliverGoalDelivery] sends one durable record, has its receipt checked a
    second time, settles the session it is about and takes the record off the
    queue; [flushGoalDeliveries] repeats this while a record is ready;
    [flushLateGoalUsage] does it for the usage of deleted runs.

    The control API is an interface of the daemon, [GoalControlAPI], whose
    answers may differ at every attempt; [clientAPI] is the one over the
    client of Control.v. An attempt also carries the outcomes of its file
    operations and the clock; what the rest of the daemon does to the files
    while a record of a run is in flight is [meanwhile]. The loops run on fuel: FlushProps.v shows how
    much is enough. *)

From S2P Require Import Prelude Sha256 Json Authority Protocol Journal Validation Store Session SessionOps.
From S2P Require Import Cgroup Containment Clone Outbox Delivery LateUsage SessionStore Control.
Import RunJournal.
Open Scope string_scope.
Open Scope Z_scope.

(** ** The control API *)

(** The receipts of one attempt. The attachment may be read back twice: before
    the request, and after a conflict. The three flags are the type assertions
    on the interface. *)
Record GoalControlAPI : Type := mkGoalControlAPI {
  goalAPI : bool;
  readbackAPI : bool;
  stopAPI : bool;
  fetchAttachment : string -> Fence.t -> control_error + GoalSessionReceipt.t;
  attachSession : string -> GoalSessionAttachRequest.t -> control_error + GoalSessionReceipt.t;
  refetchAttachment : string -> Fence.t -> control_error + GoalSessionReceipt.t;
  markStopped : string -> GoalSessionStoppedRequest.t -> control_error + GoalSessionStoppedReceipt.t;
  appendEvidence : string -> Fence.t -> Evidence.t -> control_error + GoalEvidenceReceipt.t;
  recordUsage : string -> Fence.t -> Usage.t -> control_error + GoalUsageReceipt.t
}.

(** What the daemon relies on: a receipt is checked before it is returned. *)
Class CheckedAPI (api : GoalControlAPI) : Prop := {
  checked_goal : api.(goalAPI) = true;
  checked_stop : api.(stopAPI) = true;
  checked_attach : forall runID request receipt, api.(attachSession) runID request = inr receipt ->
    validateGoalSessionReceipt runID request receipt = true;
  checked_stopped : forall runID request receipt, api.(markStopped) runID request = inr receipt ->
    validateGoalSessionStoppedReceipt runID request receipt = true;
  checked_evidence : forall runID fence evidence receipt, api.(appendEvidence) runID fence evidence = inr receipt ->
    validateGoalEvidenceReceipt runID evidence receipt = true;
  checked_usage : forall runID fence usage receipt, api.(recordUsage) runID fence usage = inr receipt ->
    validateGoalUsageReceipt runID usage receipt = true
}.

(** The answers of a server during one attempt. *)
Record server : Type := mkServer {
  fetch_reply : string -> Fence.t -> reply GoalSessionReceipt.t;
  attach_reply : string -> GoalSessionAttachRequest.t -> reply GoalSessionReceipt.t;
  refetch_reply : string -> Fence.t -> reply GoalSessionReceipt.t;
  stopped_reply : string -> GoalSessionStoppedRequest.t -> reply GoalSessionStoppedReceipt.t;
  evidence_reply : string -> Fence.t -> Evidence.t -> reply GoalEvidenceReceipt.t;
  usage_reply : string -> Fence.t -> Usage.t -> reply GoalUsageReceipt.t
}.

Definition clientAPI (answers : server) : GoalControlAPI :=
  mkGoalControlAPI true true true
    (fun runID fence => FetchHarnessSessionAttachment runID fence (answers.(fetch_reply) runID fence))
    (fun runID request => AttachHarnessSession runID request (answers.(attach_reply) runID request))
    (fun runID fence => FetchHarnessSessionAttachment runID fence (answers.(refetch_reply) runID fence))
    (fun runID request => MarkHarnessSessionStopped runID request (answers.(stopped_reply) runID request))
    (fun runID fence evidence => AppendEvidence runID fence evidence (answers.(evidence_reply) runID fence evidence))
    (fun runID fence usage => RecordUsage runID fence usage (answers.(usage_reply) runID fence usage)).

(** ** Answers *)

(** [APIError.Error] *)
Definition errorText (code message : string) (statusCode : Z) : string :=
  "control API error: " ++ code ++ " (HTTP " ++ FormatInt statusCode ++ ")" ++ (if message =s "" then "" else ": " ++ message).

(** Status, code and message of a rejection that ends a delivery. *)
Definition definitiveGoalDeliveryRejection (kind : string) (err : control_error) : option (Z * string * string) :=
  match err with
  | APIError statusCode code message _ _ =>
      let rejection := Some (statusCode, code, if message =s "" then errorText code message statusCode else message) in
      if (statusCode =? 400) || (statusCode =? 404) || (statusCode =? 403) || (statusCode =? 422) then rejection
      else if statusCode =? 409 then
        if (kind =s GoalDeliverySessionAttach) && (code =s IdempotencyConflict) then None
        else if (kind =s GoalDeliveryUsage) && (code <>s IdempotencyConflict) then None
        else if (kind =s GoalDeliverySessionStopped) && (code =s StateConflict) then None
        else rejection
      else None
  | _ => None
  end.

Definition goalSessionAttachmentAbsent (err : control_error) : bool :=
  match err with APIError statusCode _ _ _ _ => statusCode =? 404 | _ => false end.

Definition goalSessionAttachmentIdempotencyConflict (err : control_error) : bool :=
  match err with APIError statusCode code _ _ _ => (statusCode =? 409) && (code =s IdempotencyConflict) | _ => false end.

Definition sameOptionalString (left right : option string) : bool :=
  match left, right with Some l, Some r => l =s r | None, None => true | _, _ => false end.

(** The receipt of an attempt; the other three pointers are nil. *)
Inductive goal_receipt : Type :=
| AttachReceipt (receipt : GoalSessionReceipt.t)
| StoppedReceipt (receipt : GoalSessionStoppedReceipt.t)
| EvidenceReceipt (receipt : GoalEvidenceReceipt.t)
| UsageReceipt (receipt : GoalUsageReceipt.t).

Definition attachReceiptMatches (runID : string) (fence : Fence.t) (payload : GoalSessionAttachDelivery.t)
    (attach : GoalSessionReceipt.t) : bool :=
  (attach.(GoalSessionReceipt.ID) <>s "") && (attach.(GoalSessionReceipt.AttachmentReceiptID) <>s "") &&
  (attach.(GoalSessionReceipt.GoalID) =s payload.(GoalSessionAttachDelivery.GoalID)) &&
  (attach.(GoalSessionReceipt.RunID) =s runID) && (attach.(GoalSessionReceipt.RuntimeID) =s fence.(Fence.RuntimeID)) &&
  (attach.(GoalSessionReceipt.ActiveRunID) =s runID) &&
  (attach.(GoalSessionReceipt.LocalHandleID) =s payload.(GoalSessionAttachDelivery.LocalHandleID)) &&
  (attach.(GoalSessionReceipt.HarnessKind) =s payload.(GoalSessionAttachDelivery.HarnessKind)) &&
  (attach.(GoalSessionReceipt.HarnessVersion) =s payload.(GoalSessionAttachDelivery.HarnessVersion)) &&
  (attach.(GoalSessionReceipt.AdapterVersion) =s payload.(GoalSessionAttachDelivery.AdapterVersion)) &&
  (attach.(GoalSessionReceipt.WorkspaceFingerprint) =s payload.(GoalSessionAttachDelivery.WorkspaceFingerprint)) &&
  (attach.(GoalSessionReceipt.State) =s GoalSessionStateBusy) &&
  negb ((payload.(GoalSessionAttachDelivery.BindingID) <>s "") &&
        (attach.(GoalSessionReceipt.BindingID) <>s payload.(GoalSessionAttachDelivery.BindingID)) ||
        (payload.(GoalSessionAttachDelivery.BindingID) =s "") && negb payload.(GoalSessionAttachDelivery.ServerIssuedBinding)) &&
  negb ((attach.(GoalSessionReceipt.Workspace) <>s "") &&
        (attach.(GoalSessionReceipt.Workspace) <>s payload.(GoalSessionAttachDelivery.Workspace))) &&
  none_or payload.(GoalSessionAttachDelivery.RepositoryResourceID) (fun id => attach.(GoalSessionReceipt.RepositoryResourceID) =s id).

Definition stoppedReceiptMatches (runID : string) (payload : GoalSessionStoppedDelivery.t)
    (stopped : GoalSessionStoppedReceipt.t) : bool :=
  (stopped.(GoalSessionStoppedReceipt.ReceiptID) <>s "") && (stopped.(GoalSessionStoppedReceipt.RunID) =s runID) &&
  (stopped.(GoalSessionStoppedReceipt.SessionID) =s payload.(GoalSessionStoppedDelivery.SessionID)) &&
  (stopped.(GoalSessionStoppedReceipt.LocalHandleID) =s payload.(GoalSessionStoppedDelivery.LocalHandleID)) &&
  (stopped.(GoalSessionStoppedReceipt.BindingID) =s payload.(GoalSessionStoppedDelivery.BindingID)) &&
  (stopped.(GoalSessionStoppedReceipt.State) =s GoalSessionStateAvailable) &&
  is_nil stopped.(GoalSessionStoppedReceipt.ActiveRunID) && (0 <? stopped.(GoalSessionStoppedReceipt.LockVersion)).

Definition evidenceReceiptMatches (runID : string) (evidence : Evidence.t) (receipt : GoalEvidenceReceipt.t) : bool :=
  (receipt.(GoalEvidenceReceipt.ID) =s evidence.(Evidence.EvidenceID)) && (receipt.(GoalEvidenceReceipt.RunID) =s runID) &&
  (receipt.(GoalEvidenceReceipt.EvidenceKey) =s evidence.(Evidence.EvidenceKey)) &&
  (receipt.(GoalEvidenceReceipt.Kind) =s evidence.(Evidence.Kind)) &&
  (receipt.(GoalEvidenceReceipt.SubjectHash) =s evidence.(Evidence.SubjectHash)) &&
  (receipt.(GoalEvidenceReceipt.Verdict) =s evidence.(Evidence.Verdict)).

Definition usageReceiptMatches (runID : string) (usage : Usage.t) (receipt : GoalUsageReceipt.t) : bool :=
  (receipt.(GoalUsageReceipt.ID) =s usage.(Usage.UsageID)) && (receipt.(GoalUsageReceipt.RunID) =s runID) &&
  (receipt.(GoalUsageReceipt.UsageKey) =s usage.(Usage.UsageKey)) && (receipt.(GoalUsageReceipt.CostBasis) =s usage.(Usage.CostBasis)) &&
  sameOptionalString receipt.(GoalUsageReceipt.CostMicrousd) usage.(Usage.CostMicrousd).

(** The second deletion barrier. *)
Definition validateGoalDeliveryReceipt (runID : string) (delivery : GoalDelivery.t) (receipt : goal_receipt) : bool :=
  let kind := delivery.(GoalDelivery.Kind) in
  if kind =s GoalDeliverySessionAttach then
    match delivery.(GoalDelivery.SessionAttach), receipt with
    | Some payload, AttachReceipt attach => attachReceiptMatches runID delivery.(GoalDelivery.fence) payload attach
    | _, _ => false
    end
  else if kind =s GoalDeliverySessionStopped then
    match delivery.(GoalDelivery.SessionStopped), receipt with
    | Some payload, StoppedReceipt stopped => stoppedReceiptMatches runID payload stopped
    | _, _ => false
    end
  else if kind =s GoalDeliveryEvidence then
    match delivery.(GoalDelivery.evidence), receipt with
    | Some evidence, EvidenceReceipt r => evidenceReceiptMatches runID evidence r
    | _, _ => false
    end
  else if kind =s GoalDeliveryUsage then
    match delivery.(GoalDelivery.usage), receipt with
    | Some usage, UsageReceipt r => usageReceiptMatches runID usage r
    | _, _ => false
    end
  else false.

(** ** One delivery *)

(** The outcomes of the file operations of an attempt, and its clocks. *)
Record attempt : Type := mkAttempt {
  control : GoalControlAPI;
  readback_scan : scan_io;
  session_scan : scan_io;
  session_files : session_io;
  queue_io : io;
  settle_io : io;
  clock : time;
  store_clock : time
}.

(** [errors.As] finds the API error of [ControlFailed] below the text that
    [fmt.Errorf] put around it; a [goalDeliveryRejectedError] is [Rejected]. *)
Inductive delivery_error : Type :=
| ControlFailed (err : control_error)
| StoreFailed (err : error)
| DeliveryInvalid
| ReceiptMismatch
| Rejected (err : control_error).

(** The request of an attachment; without a binding the server issues one. *)
Definition attachRequest (fence : Fence.t) (payload : GoalSessionAttachDelivery.t) : GoalSessionAttachRequest.t :=
  let bindingID := payload.(GoalSessionAttachDelivery.BindingID) in
  GoalSessionAttachRequest.mk fence payload.(GoalSessionAttachDelivery.LocalHandleID)
    (if blank bindingID then None else Some bindingID) payload.(GoalSessionAttachDelivery.HarnessKind)
    payload.(GoalSessionAttachDelivery.HarnessVersion) payload.(GoalSessionAttachDelivery.AdapterVersion)
    payload.(GoalSessionAttachDelivery.WorkspaceFingerprint) payload.(GoalSessionAttachDelivery.Workspace)
    payload.(GoalSessionAttachDelivery.RepositoryResourceID).

Definition sendAttach (a : attempt) (state : SessionFiles.t) (runID : string) (fence : Fence.t)
    (payload : GoalSessionAttachDelivery.t) : delivery_error + goal_receipt :=
  let api := a.(control) in
  if blank payload.(GoalSessionAttachDelivery.BindingID) && negb payload.(GoalSessionAttachDelivery.ServerIssuedBinding)
  then inl DeliveryInvalid else
  let readback :=
    match LoadGoalSessionByHandle a.(readback_scan) state payload.(GoalSessionAttachDelivery.LocalHandleID) with
    | Err e => inl (StoreFailed e)
    | Ok session =>
        if (session.(GoalSessionJournal.ControlSessionID) =s "") && api.(readbackAPI) then
          match api.(fetchAttachment) runID fence with
          | inr receipt => inr (Some receipt)
          | inl err => if goalSessionAttachmentAbsent err then inr None else inl (ControlFailed err)
          end
        else inr None
    end in
  match readback with
  | inl err => inl err
  | inr (Some receipt) => inr (AttachReceipt receipt)
  | inr None =>
      match api.(attachSession) runID (attachRequest fence payload) with
      | inr receipt => inr (AttachReceipt receipt)
      | inl err =>
          if goalSessionAttachmentIdempotencyConflict err && api.(readbackAPI) then
            match api.(refetchAttachment) runID fence with
            | inr receipt => inr (AttachReceipt receipt)
            | inl readErr => inl (ControlFailed readErr)
            end
          else inl (ControlFailed err)
      end
  end.

Definition from_control {R} (make : R -> goal_receipt) (answer : control_error + R) : delivery_error + goal_receipt :=
  match answer with inl err => inl (ControlFailed err) | inr receipt => inr (make receipt) end.

(** The switch of [deliverGoalDelivery] over the kind of the record. *)
Definition send (a : attempt) (state : SessionFiles.t) (runID : string) (delivery : GoalDelivery.t)
    : delivery_error + goal_receipt :=
  let kind := delivery.(GoalDelivery.Kind) in
  let fence := delivery.(GoalDelivery.fence) in
  if kind =s GoalDeliverySessionAttach then
    match delivery.(GoalDelivery.SessionAttach) with
    | None => inl DeliveryInvalid
    | Some payload => sendAttach a state runID fence payload
    end
  else if kind =s GoalDeliverySessionStopped then
    match delivery.(GoalDelivery.SessionStopped) with
    | None => inl DeliveryInvalid
    | Some payload =>
        if negb a.(control).(stopAPI) then inl DeliveryInvalid
        else from_control StoppedReceipt
               (a.(control).(markStopped) runID
                  (GoalSessionStoppedRequest.mk fence payload.(GoalSessionStoppedDelivery.SessionID)
                     payload.(GoalSessionStoppedDelivery.LocalHandleID) payload.(GoalSessionStoppedDelivery.BindingID)))
    end
  else if kind =s GoalDeliveryEvidence then
    match delivery.(GoalDelivery.evidence) with
    | None => inl DeliveryInvalid
    | Some evidence => from_control EvidenceReceipt (a.(control).(appendEvidence) runID fence evidence)
    end
  else if kind =s GoalDeliveryUsage then
    match delivery.(GoalDelivery.usage) with
    | None => inl DeliveryInvalid
    | Some usage => from_control UsageReceipt (a.(control).(recordUsage) runID fence usage)
    end
  else inl DeliveryInvalid.

Definition with_store (state : SessionFiles.t) (store' : Store) : SessionFiles.t :=
  SessionFiles.mk store' state.(SessionFiles.sessions) state.(SessionFiles.indexes).

Section Delivering.
Context `{AdmissionParser} `{JournalEncoder}.

(** The local session after a definitive rejection of its stop. *)
Definition closeRejected (a : attempt) (state : SessionFiles.t) (delivery : GoalDelivery.t)
    : SessionFiles.t * option delivery_error :=
  match delivery.(GoalDelivery.SessionStopped) with
  | Some payload =>
      if delivery.(GoalDelivery.Kind) =s GoalDeliverySessionStopped then
        match LoadGoalSessionByHandle a.(session_scan) state payload.(GoalSessionStoppedDelivery.LocalHandleID) with
        | Err e => (state, Some (StoreFailed e))
        | Ok session =>
            match CloseGoalSession a.(session_files) a.(store_clock) state (GoalSessionJournal.Key session) with
            | (state', Err e) => (state', Some (StoreFailed e))
            | (state', Ok _) => (state', None)
            end
        end
      else (state, None)
  | None => (state, None)
  end.

(** The session an accepted attachment is about, and the stop it may owe. *)
Definition settleAttach (a : attempt) (state : SessionFiles.t) (key : RunKey.t) (payload : GoalSessionAttachDelivery.t)
    (receipt : GoalSessionReceipt.t) : SessionFiles.t * option delivery_error :=
  match LoadGoalSessionByHandle a.(session_scan) state payload.(GoalSessionAttachDelivery.LocalHandleID) with
  | Err e => (state, Some (StoreFailed e))
  | Ok session =>
      let intent := session.(GoalSessionJournal.intent) in
      if (receipt.(GoalSessionReceipt.TaskID) <>s intent.(GoalSessionLaunchIntent.TaskID)) ||
         (receipt.(GoalSessionReceipt.MachineID) <>s intent.(GoalSessionLaunchIntent.MachineID))
      then (state, Some ReceiptMismatch)
      else
        match PersistGoalSessionControlAttachment a.(session_files) a.(store_clock) state (GoalSessionJournal.Key session)
                receipt.(GoalSessionReceipt.ID) receipt.(GoalSessionReceipt.BindingID)
                receipt.(GoalSessionReceipt.AttachmentReceiptID) payload.(GoalSessionAttachDelivery.ServerIssuedBinding) with
        | (state', Err e) => (state', Some (StoreFailed e))
        | (state', Ok persisted) =>
            if persisted.(GoalSessionJournal.SessionState) =s GoalSessionStateUnavailable then
              let persistedIntent := persisted.(GoalSessionJournal.intent) in
              let '(store', queued) :=
                QueueGoalSessionStopped a.(queue_io) state'.(SessionFiles.store) key
                  (GoalSessionStoppedDelivery.mk persisted.(GoalSessionJournal.ControlSessionID)
                     persistedIntent.(GoalSessionLaunchIntent.LocalHandleID) persistedIntent.(GoalSessionLaunchIntent.BindingID)) in
              (with_store state' store', match queued with Err e => Some (StoreFailed e) | Ok _ => None end)
            else (state', None)
        end
  end.

(** The session an accepted stop makes available again. *)
Definition settleStopped (a : attempt) (state : SessionFiles.t) (journal : RunJournal.t) (delivery : GoalDelivery.t)
    (payload : GoalSessionStoppedDelivery.t) (receipt : GoalSessionStoppedReceipt.t) : SessionFiles.t * option delivery_error :=
  match LoadGoalSessionByHandle a.(session_scan) state payload.(GoalSessionStoppedDelivery.LocalHandleID) with
  | Err e => (state, Some (StoreFailed e))
  | Ok session =>
      match MarkGoalSessionAvailable a.(session_files) a.(store_clock) state (GoalSessionJournal.Key session)
              (GoalSessionStopCertificate.mk journal.(RunID) journal.(Generation)
                 receipt.(GoalSessionStoppedReceipt.SessionID) receipt.(GoalSessionStoppedReceipt.LocalHandleID)
                 receipt.(GoalSessionStoppedReceipt.BindingID) delivery.(GoalDelivery.PayloadDigest)
                 receipt.(GoalSessionStoppedReceipt.ReceiptID)) with
      | (state', Err e) => (state', Some (StoreFailed e))
      | (state', Ok _) => (state', None)
      end
  end.

Definition settleSession (a : attempt) (state : SessionFiles.t) (journal : RunJournal.t) (delivery : GoalDelivery.t)
    (receipt : goal_receipt) : SessionFiles.t * option delivery_error :=
  match receipt, delivery.(GoalDelivery.SessionAttach), delivery.(GoalDelivery.SessionStopped) with
  | AttachReceipt attach, Some payload, _ => settleAttach a state (Key journal) payload attach
  | StoppedReceipt stopped, _, Some payload => settleStopped a state journal delivery payload stopped
  | _, _, _ => (state, None)
  end.

Definition attach_of (receipt : goal_receipt) : option GoalSessionReceipt.t :=
  match receipt with AttachReceipt attach => Some attach | _ => None end.

(** What [deliverGoalDelivery] returns, with the files it leaves. *)
Record outcome : Type := mkOutcome {
  files : SessionFiles.t;
  updated : RunJournal.t;
  attachReceipt : option GoalSessionReceipt.t;
  failure : option delivery_error
}.

(** A definitive rejection retires the record. *)
Definition retire (a : attempt) (state : SessionFiles.t) (journal : RunJournal.t) (delivery : GoalDelivery.t)
    (err : control_error) (rejection : Z * string * string) : outcome :=
  let '(statusCode, code, message) := rejection in
  match RetireGoalDelivery a.(settle_io) state.(SessionFiles.store) (Key journal) delivery.(GoalDelivery.Kind)
          delivery.(GoalDelivery.DeliveryID) delivery.(GoalDelivery.PayloadDigest) statusCode code message a.(clock) with
  | (store', Err e) => mkOutcome (with_store state store') journal None (Some (StoreFailed e))
  | (store', Ok retired) =>
      let '(state', closed) := closeRejected a (with_store state store') delivery in
      mkOutcome state' retired None (Some (match closed with Some e => e | None => Rejected err end))
  end.

(** A checked receipt settles the session and takes the record off the queue. *)
Definition settle (a : attempt) (state : SessionFiles.t) (journal : RunJournal.t) (delivery : GoalDelivery.t)
    (receipt : goal_receipt) : outcome :=
  match settleSession a state journal delivery receipt with
  | (state', Some e) => mkOutcome state' journal None (Some e)
  | (state', None) =>
      match MarkGoalDeliveryDelivered a.(settle_io) state'.(SessionFiles.store) (Key journal) delivery.(GoalDelivery.Kind)
              delivery.(GoalDelivery.DeliveryID) delivery.(GoalDelivery.PayloadDigest) with
      | (store', Err e) => mkOutcome (with_store state' store') journal None (Some (StoreFailed e))
      | (store', Ok delivered) => mkOutcome (with_store state' store') delivered (attach_of receipt) None
      end
  end.

(** [meanwhile] is what the rest of the daemon does to the files until the
    requests are answered: what follows the answer starts from those files. *)
Definition deliverGoalDelivery (meanwhile : SessionFiles.t -> SessionFiles.t) (a : attempt) (state : SessionFiles.t)
    (journal : RunJournal.t) (kind deliveryID : string) (validateAttach : option (GoalSessionReceipt.t -> bool)) : outcome :=
  let failed state e := mkOutcome state journal None (Some e) in
  match List.find (isDelivery kind deliveryID) journal.(PendingGoalDeliveries) with
  | None => failed state DeliveryInvalid
  | Some delivery =>
      if (kind =s GoalDeliverySessionAttach) && negb delivery.(GoalDelivery.Ready) then mkOutcome state journal None None
      else if negb a.(control).(goalAPI) then failed state DeliveryInvalid
      else
        let sent := send a state journal.(RunID) delivery in
        let state := meanwhile state in
        match sent with
        | inl (ControlFailed err) =>
            match definitiveGoalDeliveryRejection delivery.(GoalDelivery.Kind) err with
            | Some rejection => retire a state journal delivery err rejection
            | None => failed state (ControlFailed err)
            end
        | inl e => failed state e
        | inr receipt =>
            if negb (validateGoalDeliveryReceipt journal.(RunID) delivery receipt) then failed state ReceiptMismatch
            else if match attach_of receipt, validateAttach with
                    | Some attach, Some validate => negb (validate attach)
                    | _, _ => false
                    end
            then failed state ReceiptMismatch
            else settle a state journal delivery receipt
        end
  end.

(** ** The loop *)

Definition goalDeliveryReadyForFlush (journal : RunJournal.t) (delivery : GoalDelivery.t) : bool :=
  if negb delivery.(GoalDelivery.Ready) then false
  else if delivery.(GoalDelivery.Kind) <>s GoalDeliverySessionStopped then true
  else if journal.(LocalState) =s "terminal_pending" then
    (journal.(TerminalVerdict) =s TerminalVerdictAccepted) && (llen journal.(PendingTransitions) =? 0) ||
    IsConclusiveTerminalVerdict journal.(TerminalVerdict)
  else (journal.(LocalState) =s "stale") || (journal.(LocalState) =s "cleanup_pending").

(** Round [n] of the loop has the outcomes of [attempts n], with the files
    changed by [meanwhile n] until its answer; [None] is a loop that is still
    running. *)
Fixpoint flush (fuel : nat) (meanwhile : nat -> SessionFiles.t -> SessionFiles.t) (attempts : nat -> attempt) (n : nat)
    (state : SessionFiles.t) (journal : RunJournal.t) (attached : option GoalSessionReceipt.t) : option outcome :=
  match fuel with
  | O => None
  | S fuel' =>
      match List.find (goalDeliveryReadyForFlush journal) journal.(PendingGoalDeliveries) with
      | None => Some (mkOutcome state journal attached None)
      | Some delivery =>
          let o := deliverGoalDelivery (meanwhile n) (attempts n) state journal
                     delivery.(GoalDelivery.Kind) delivery.(GoalDelivery.DeliveryID) None in
          match o.(failure) with
          | Some (Rejected _) => flush fuel' meanwhile attempts (S n) o.(files) o.(updated) attached
          | Some e => Some (mkOutcome o.(files) journal attached (Some e))
          | None =>
              flush fuel' meanwhile attempts (S n) o.(files) o.(updated)
                (match o.(attachReceipt) with Some receipt => Some receipt | None => attached end)
          end
      end
  end.

Definition flushGoalDeliveriesWhile (fuel : nat) (meanwhile : nat -> SessionFiles.t -> SessionFiles.t) (attempts : nat -> attempt)
    (state : SessionFiles.t) (journal : RunJournal.t) : option outcome := flush fuel meanwhile attempts 0 state journal None.

(** The flush when nothing else changes the files. *)
Definition flushGoalDeliveries (fuel : nat) : (nat -> attempt) -> SessionFiles.t -> RunJournal.t -> option outcome :=
  flushGoalDeliveriesWhile fuel (fun _ state => state).
End Delivering.

(** ** Usage of deleted runs *)

(** The rounds for one ledger: the files, the number of attempts made, and
    whether the next ledger is looked at. *)
Fixpoint flushLedger (fuel : nat) (attempts : nat -> attempt) (n : nat) (state : LateUsage.files) (ledger : LateGoalUsageLedger.t)
    : option (LateUsage.files * nat * bool) :=
  match fuel with
  | O => None
  | S fuel' =>
      match ledger.(LateGoalUsageLedger.PendingUsageDeliveries) with
      | [] => Some (state, n, true)
      | delivery :: _ =>
          match delivery.(GoalDelivery.usage) with
          | None => Some (state, n, false)
          | Some usage =>
              let a := attempts n in
              let runID := ledger.(LateGoalUsageLedger.RunID) in
              let key := LateGoalUsageLedger.Key ledger in
              match a.(control).(recordUsage) runID ledger.(LateGoalUsageLedger.fence) usage with
              | inl err =>
                  match definitiveGoalDeliveryRejection GoalDeliveryUsage err with
                  | Some (statusCode, code, message) =>
                      match RetireLateGoalUsage a.(settle_io) state key delivery.(GoalDelivery.DeliveryID)
                              delivery.(GoalDelivery.PayloadDigest) statusCode code message a.(clock) a.(store_clock) with
                      | (state', Ok retired) => flushLedger fuel' attempts (S n) state' retired
                      | (state', Err _) => Some (state', S n, true)
                      end
                  | None => Some (state, S n, true)
                  end
              | inr receipt =>
                  if negb (validateGoalDeliveryReceipt runID delivery (UsageReceipt receipt)) then Some (state, S n, true)
                  else
                    match MarkLateGoalUsageDelivered a.(settle_io) state key delivery.(GoalDelivery.DeliveryID)
                            delivery.(GoalDelivery.PayloadDigest) a.(store_clock) with
                    | (state', Ok delivered) => flushLedger fuel' attempts (S n) state' delivered
                    | (state', Err _) => Some (state', S n, true)
                    end
              end
          end
      end
  end.

Fixpoint flushLedgers (fuel : nat) (attempts : nat -> attempt) (n : nat) (state : LateUsage.files)
    (ledgers : list LateGoalUsageLedger.t) : option LateUsage.files :=
  match ledgers with
  | [] => Some state
  | ledger :: rest =>
      match flushLedger fuel attempts n state ledger with
      | None => None
      | Some (state', n', true) => flushLedgers fuel attempts n' state' rest
      | Some (state', _, false) => Some state'
      end
  end.

(** Errors of the listing end it without a word. [fuel] bounds the rounds of
    each ledger. *)
Definition flushLateGoalUsage (fuel : nat) (attempts : nat -> attempt) (scan : scan_io) (state : LateUsage.files)
    : option LateUsage.files :=
  match ListLateGoalUsage scan.(listable) scan.(file_readable) state with
  | Err _ => Some state
  | Ok ledgers =>
      if negb (attempts 0%nat).(control).(goalAPI) then Some state else flushLedgers fuel attempts 0 state ledgers
  end.
