(* ===== verification/Retry.v ===== *)
(** * Retry: when the daemon tries a run's outbox again

    src/daemon/internal/app/app.go (43-48, 526-531, 10290-10469, 11821-11826):
    the table of the runs whose delivery failed. An entry belongs to a run and
    to the fingerprint of its journal; a journal that changed starts afresh.

    [recordOutboxFailure] holds the lock twice: it reads the entry, lets go of
    the lock to classify the error, and takes it again to write. The two
    sections are two definitions, so that other operations may come between
    them; [recordOutboxFailure] is the call nobody interrupts. *)

From S2P Require Import Prelude Sha256 Json Authority Protocol Journal Validation Store Cgroup Outbox Control.
Import RunJournal.
Open Scope string_scope.
Open Scope Z_scope.

Definition minimumInterval : Z := 10 ^ 9.
Definition retryMaximum : Z := 30 * 10 ^ 9.
Definition terminalGrace : Z := 8 * 60 * 10 ^ 9.

Definition nextRetryDelay (delay : Z) : Z := if delay <? retryMaximum / 2 then delay * 2 else retryMaximum.

(** ** The fingerprint of a journal *)

Module FingerprintValue.
Record t : Type := mk {
  Key : RunKey.t;
  fence : Fence.t;
  LocalState : string;
  LeaseExpiresAt : time;
  TerminalState : string;
  TerminalPendingAt : time;
  TerminalVerdict : string;
  TerminalIntentDigest : string;
  TerminalCommandDigest : string;
  TerminalSettlementDigest : string;
  PendingEventIDs : list string;
  PendingTransitionIDs : list string;
  AttemptedTransitionIDs : list string;
  PendingAcknowledgementIDs : list string;
  PendingGoalDeliveryIDs : list string;
  DeliveredGoalDeliveryIDs : list string;
  NativeUsageObservation : option NativeUsageObservation.t;
  NativeUsageRecovery : bool;
  NativeTerminalRecovery : option NativeUsageTerminalRecovery.t
}.
End FingerprintValue.

(** What encoding/json, crypto/sha256 and fmt make of the value: the digest of
    its JSON in hexadecimal, or its Go syntax when it has no JSON. *)
Class FingerprintEncoder : Type := encodeFingerprint : FingerprintValue.t -> string.

Definition deliveredID (delivery : GoalDelivery.t) : string :=
  delivery.(GoalDelivery.Kind) ++ ":" ++ delivery.(GoalDelivery.DeliveryID) ++ ":" ++ delivery.(GoalDelivery.PayloadDigest).

(** With [strconv.FormatBool] of the flag. *)
Definition pendingID (delivery : GoalDelivery.t) : string :=
  deliveredID delivery ++ ":" ++ enc_bool delivery.(GoalDelivery.Ready).

Definition fingerprintValue (journal : RunJournal.t) : FingerprintValue.t :=
  FingerprintValue.mk (Key journal) (fence journal) journal.(LocalState) journal.(LeaseExpiresAt) journal.(TerminalState)
    journal.(TerminalPendingAt) journal.(TerminalVerdict) journal.(TerminalIntentDigest) journal.(TerminalCommandDigest)
    journal.(TerminalSettlementDigest) (map RunEvent.EventID journal.(PendingEvents))
    (map StateTransitionRequest.TransitionID journal.(PendingTransitions)) journal.(AttemptedTransitionIDs)
    (map CommandAcknowledgement.AckID journal.(PendingCommandAcknowledgements))
    (map pendingID journal.(PendingGoalDeliveries)) (map deliveredID journal.(DeliveredGoalDeliveries))
    journal.(NativeUsageObservation) journal.(NativeUsageRecoveryRequired) journal.(NativeUsageTerminalRecovery).

Definition journalFingerprint `{FingerprintEncoder} (journal : RunJournal.t) : string :=
  encodeFingerprint (fingerprintValue journal).

(** ** The table *)

Module outboxRetry.
Record t : Type := mk {
  fingerprint : string;
  retryAt : time;
  delay : Z;
  permanent : bool
}.
End outboxRetry.

Abbreviation retries := (gmap RunKey.t outboxRetry.t) (only parsing).

Definition hasPendingStaleOutbox (journal : RunJournal.t) : bool :=
  HasPendingGoalDeliveries journal || negb (llen journal.(PendingCommandAcknowledgements) =? 0).

(** A journal [flushAll] looks up in the table before it is flushed. *)
Definition awaitsDelivery (journal : RunJournal.t) : bool :=
  (journal.(LocalState) =s "terminal_pending") ||
  (journal.(LocalState) =s "cleanup_pending") && HasPendingGoalDeliveries journal ||
  (journal.(LocalState) =s "stale") && hasPendingStaleOutbox journal.

(** The entry of a key, when it is about this fingerprint. *)
Definition current_entry (table : retries) (key : RunKey.t) (fingerprint : string) : option outboxRetry.t :=
  match table !! key with
  | Some entry => if entry.(outboxRetry.fingerprint) =s fingerprint then Some entry else None
  | None => None
  end.

Definition freshEntry (fingerprint : string) : outboxRetry.t := outboxRetry.mk fingerprint 0 minimumInterval false.

Definition outboxDue `{FingerprintEncoder} (table : retries) (now : time) (journal : RunJournal.t) : retries * bool :=
  let fingerprint := journalFingerprint journal in
  match current_entry table (Key journal) fingerprint with
  | None => (<[Key journal := freshEntry fingerprint]> table, true)
  | Some entry => (table, negb entry.(outboxRetry.permanent) && (entry.(outboxRetry.retryAt) <=? now))
  end.

(** [errors.As] sees the API and response errors of a request; any other error
    is a [LocalError], or a [TransportError] when it is a [net.Error], as the
    error numbers of file operations are. *)
Definition isAmbiguousTerminalDeliveryFailure (journal : RunJournal.t) (err : control_error) : bool :=
  ((journal.(LocalState) =s "terminal_pending") || (journal.(LocalState) =s "cleanup_pending")) &&
  match err with ResponseError => true | _ => false end.

Definition isOutboxMaintenanceFailure (journal : RunJournal.t) (err : control_error) : bool :=
  match err with
  | APIError _ _ _ _ _ | ResponseError => false
  | _ => (journal.(LocalState) =s "terminal_pending") && (journal.(TerminalVerdict) =s TerminalVerdictAccepted) &&
         (llen journal.(PendingTransitions) =? 0)
  end.

(** The first section: the entry of the journal and the delay to fall back on. *)
Definition noteOutboxFailure `{FingerprintEncoder} (table : retries) (journal : RunJournal.t) : retries * Z :=
  let fingerprint := journalFingerprint journal in
  let table' := match current_entry table (Key journal) fingerprint with
                | Some _ => table
                | None => <[Key journal := freshEntry fingerprint]> table
                end in
  let delay := from_option outboxRetry.delay minimumInterval (current_entry table (Key journal) fingerprint) in
  (table', if delay <=? 0 then minimumInterval else delay).

(** Without the lock: the delay of an error worth another attempt. [done] is
    the state of the context by then. *)
Definition outboxRetryDelay (done : bool) (journal : RunJournal.t) (err : control_error) (fallback : Z) : option Z :=
  match RetryDelay done err fallback with
  | Some delay => Some delay
  | None =>
      if isAmbiguousTerminalDeliveryFailure journal err then Some fallback
      else if HasPendingGoalDeliveries journal then Some fallback
      else if (journal.(LocalState) =s "stale") && negb (llen journal.(PendingCommandAcknowledgements) =? 0) then Some fallback
      else if isOutboxMaintenanceFailure journal err then Some fallback
      else None
  end.

(** No attempt is put off past the moment the terminal grace ends. *)
Definition retryTime (journal : RunJournal.t) (now : time) (delay : Z) : time :=
  let retryAt := now + delay in
  if (journal.(TerminalVerdict) =s "") && negb (IsZero journal.(LeaseExpiresAt)) then
    let deliveryDeadline := journal.(LeaseExpiresAt) + terminalGrace in
    if (now <? deliveryDeadline) && (deliveryDeadline <? retryAt) then deliveryDeadline else retryAt
  else retryAt.

(** The second section: an entry of another fingerprint is left alone. *)
Definition settleOutboxFailure `{FingerprintEncoder} (table : retries) (journal : RunJournal.t) (delay : option Z) (fallback : Z)
    (now : time) : retries :=
  let fingerprint := journalFingerprint journal in
  let key := Key journal in
  if some_and (table !! key) (fun current => current.(outboxRetry.fingerprint) <>s fingerprint) then table
  else match delay with
       | None => <[key := outboxRetry.mk fingerprint 0 fallback true]> table
       | Some delay =>
           let delay := if (journal.(LocalState) =s "terminal_pending") && (delay <? minimumInterval) then minimumInterval else delay in
           <[key := outboxRetry.mk fingerprint (retryTime journal now delay) (nextRetryDelay fallback) false]> table
       end.

(** [done] and [done'] are the state of the context at the start and when the
    error is classified. *)
Definition recordOutboxFailure `{FingerprintEncoder} (done done' : bool) (table : retries) (journal : RunJournal.t)
    (err : control_error) (now : time) : retries :=
  if done then table
  else
    let '(table', fallback) := noteOutboxFailure table journal in
    settleOutboxFailure table' journal (outboxRetryDelay done' journal err fallback) fallback now.

Definition clearOutboxRetry (table : retries) (key : RunKey.t) : retries := delete key table.

Definition pruneOutboxRetries (table : retries) (seen : gset RunKey.t) : retries :=
  filter (fun entry => entry.1 ∈ seen) table.
