(* ===== verification/RunFlush.v ===== *)
(** * RunFlush: the outbox of one run

    src/daemon/internal/app/app.go (10215-10288, 10554-10803, 11204-11340, 11453-11587),
    supervisory.go (241-271) and cleanup.go (893-899): [flushRun] sends what a
    run owes the control plane, Goal deliveries, events, transitions and
    acknowledgements, and writes to the journal what was answered.

    A [world] is the files, the number of steps taken, and what the daemon did
    so far. Step [n] has the answers, clocks and file faults of [moments n];
    while a request is in flight the rest of the daemon may change the files
    ([meanwhile], and [delivering] for the Goal deliveries). Two parts of the daemon that are not modelled are part of a
    moment too: what stopping a run whose lease is lost does to the files
    ([terminated]), and the queueing of a lost usage receipt and its terminal
    ([recover]). The daemon's tables in memory appear only as the flags the
    flush reads; the start of a cleanup is the result [Cleanup] or
    [Conclusive]. *)

From S2P Require Import Prelude Sha256 Json Authority Protocol Journal Validation Store Session SessionOps.
From S2P Require Import Cgroup Containment Clone Outbox Delivery LateUsage SessionStore Control Flush Retry.
Import RunJournal.
Open Scope string_scope.
Open Scope Z_scope.

(** ** Requests *)

Inductive outbox_request : Type :=
| EventsRequest (runID : string) (fence : Fence.t) (events : list RunEvent.t)
| TransitionRequest (runID : string) (transition : StateTransitionRequest.t)
| AcknowledgementRequest (commandID : string) (acknowledgement : CommandAcknowledgement.t).

(** [Conclusive] is an answer after which the cleanup of [target] was started;
    [Running] is a loop that has not ended within the fuel. *)
Inductive run_error : Type :=
| ControlError (err : control_error)
| StoreError (err : error)
| GoalError (err : delivery_error)
| NotPending
| OutboxChanged
| Conclusive (target : RunJournal.t) (err : control_error)
| Running.

(** One moment of the daemon. [recover] gives an error with the journal it is
    about, nothing when a live run owns the recovery, or the usage. *)
Record moment : Type := mkMoment {
  answer : outbox_request -> option control_error;
  meanwhile : SessionFiles.t -> SessionFiles.t;
  terminated : SessionFiles.t -> SessionFiles.t;
  recover : RunJournal.t -> SessionFiles.t -> SessionFiles.t * (RunJournal.t * run_error + option (RunJournal.t * Usage.t));
  deliveries : nat -> attempt;
  delivering : nat -> SessionFiles.t -> SessionFiles.t;
  disk : io;
  now : time;
  newID : option string;
  starting : bool;
  blocked : bool
}.

(** The answers of the client of Control.v to the three requests. *)
Definition failed {R} (answer : control_error + R) : option control_error :=
  match answer with inl err => Some err | inr _ => None end.

Definition clientAnswer (events : string -> Fence.t -> list RunEvent.t -> reply string)
    (transitions : string -> StateTransitionRequest.t -> reply Run.t)
    (acknowledgements : string -> CommandAcknowledgement.t -> reply TaskCommand.t) (request : outbox_request)
    : option control_error :=
  match request with
  | EventsRequest runID fence evs => failed (AppendEvents runID (events runID fence evs))
  | TransitionRequest runID transition => failed (Transition runID transition (transitions runID transition))
  | AcknowledgementRequest commandID ack => failed (AcknowledgeCommand commandID ack (acknowledgements commandID ack))
  end.

(** What the daemon did: a request with the files it was sent from, a flush of
    Goal deliveries with the files it began from, a slot given back, a run
    stopped for its lease. *)
Inductive action : Type :=
| Sent (request : outbox_request) (from : SessionFiles.t) (answered : option control_error)
| GoalsFlushed (from : SessionFiles.t)
| SlotReleased (key : RunKey.t)
| LeaseTerminated (journal : RunJournal.t) (reason : string).

Record world : Type := mkWorld {
  disk_files : SessionFiles.t;
  tick : nat;
  log : list action
}.

(** [Failed] has the journal of the [outboxFailure], as [Cleanup] has for an
    error of the cleanup of [target]; [Panic] is an index out of range. *)
Inductive run_result : Type :=
| Done
| Failed (journal : RunJournal.t) (err : run_error)
| Cleanup (journal target : RunJournal.t)
| Panic.

Definition isTerminalTransition (stateName : string) : bool := string_in stateName ["completed"; "failed"; "cancelled"].

Definition hasPendingAcknowledgement (journal : RunJournal.t) (acknowledgementID : string) : bool :=
  existsb (fun ack => ack.(CommandAcknowledgement.AckID) =s acknowledgementID) journal.(PendingCommandAcknowledgements).

Definition isTerminalPending (journal : RunJournal.t) : bool := journal.(LocalState) =s "terminal_pending".

Definition predecessorUnavailable (err : control_error) : bool := IsOwnershipLost err || IsTerminalGraceExpired err.

Definition terminalPredecessorUnavailable (err : run_error) : bool :=
  match err with ControlError err => predecessorUnavailable err | _ => false end.

Definition invalidatedSupervisoryAcknowledgement (journal : RunJournal.t) (acknowledgement : CommandAcknowledgement.t)
    (err : control_error) : bool :=
  match err with
  | APIError _ code _ _ _ =>
      (code =s StateConflict) &&
      existsb (fun intent => (intent.(ControlCommandIntent.CommandID) =s acknowledgement.(CommandAcknowledgement.CommandID)) &&
                             (intent.(ControlCommandIntent.AckID) =s acknowledgement.(CommandAcknowledgement.AckID)))
        journal.(ControlCommandIntents)
  | _ => false
  end.

(** An answer that lets go of an acknowledgement without its receipt. *)
Definition acknowledgementLost (journal : RunJournal.t) (acknowledgement : CommandAcknowledgement.t) (err : control_error) : bool :=
  predecessorUnavailable err || invalidatedSupervisoryAcknowledgement journal acknowledgement err.

Section Flushing.
Context `{AdmissionParser} `{JournalEncoder}.
Context (moments : nat -> moment) (restarting : bool).
Implicit Types (journal : RunJournal.t) (w : world) (key : RunKey.t).

(** ** Steps *)

Definition with_log (entry : action) (w : world) : world := mkWorld w.(disk_files) w.(tick) (w.(log) ++ [entry])%list.

Definition slot_released key w : world := with_log (SlotReleased key) w.

(** An operation on the run journals. *)
Definition store_op {A} (operation : moment -> Store -> Store * A) w : world * A :=
  let '(store', result) := operation (moments w.(tick)) w.(disk_files).(SessionFiles.store) in
  (mkWorld (with_store w.(disk_files) store') (S w.(tick)) w.(log), result).

Definition reload key w : world * result RunJournal.t :=
  store_op (fun m store => (store, LoadJournal m.(disk) store key)) w.

(** A request, and what the rest of the daemon does until it is answered. *)
Definition exchange (request : outbox_request) w : world * option control_error :=
  let m := moments w.(tick) in
  let answered := m.(answer) request in
  (mkWorld (m.(meanwhile) w.(disk_files)) (S w.(tick)) (w.(log) ++ [Sent request w.(disk_files) answered]), answered).

(** The journal handed on, and an error. *)
Definition handed : Type := (RunJournal.t * option run_error)%type.

(** An operation whose error leaves the caller with the journal it had. *)
Definition or_keep journal (outcome : world * result RunJournal.t) : world * handed :=
  match outcome with
  | (w, Ok updated) => (w, (updated, None))
  | (w, Err e) => (w, (journal, Some (StoreError e)))
  end.

(** [terminateForLease]: a run on its way out is left alone; another one is
    stopped, which changes the files as [terminated] says. *)
Definition terminateForLease journal (reason : string) w : world :=
  if isTerminalPending journal then w
  else
    let w := with_log (LeaseTerminated journal reason) w in
    mkWorld ((moments w.(tick)).(terminated) w.(disk_files)) (S w.(tick)) w.(log).

Definition handleOrdinaryDeliveryError journal (err : control_error) (ownershipReason : string) w : world * run_error :=
  (if IsOwnershipLost err && negb restarting then terminateForLease journal ownershipReason w else w, ControlError err).

(** ** Events *)

Definition queueOutputTruncatedMarker journal w : world * handed :=
  or_keep journal
    (store_op (fun m store =>
       let '(store', (_, result)) := QueueOutputTruncatedMarker m.(disk) store (Key journal) m.(now) m.(newID) in
       (store', result)) w).

Definition deliverEvents journal (events : list RunEvent.t) w : world * handed :=
  match events with
  | [] => if 0 <? journal.(DroppedOutputChunks) then queueOutputTruncatedMarker journal w else (w, (journal, None))
  | _ :: _ =>
      match exchange (EventsRequest journal.(RunID) (fence journal) events) w with
      | (w, Some err) =>
          match reload (Key journal) w with
          | (w, Err e) => (w, (journal, Some (StoreError e)))
          | (w, Ok current) =>
              if negb (isTerminalPending journal) && isTerminalPending current then (w, (current, Some OutboxChanged))
              else
                let '(w, e) := handleOrdinaryDeliveryError current err "event ownership lost" w in
                (w, (current, Some e))
          end
      | (w, None) =>
          or_keep journal
            (store_op (fun m store =>
               let '(store', (_, result)) :=
                 MarkEventsDeliveredAndQueueOutputTruncatedMarker m.(disk) store (Key journal) (map RunEvent.EventID events)
                   m.(now) m.(newID) in
               (store', result)) w)
      end
  end.

Definition deliverPendingEvents journal w : world * handed :=
  if (llen journal.(PendingEvents) =? 0) && (0 <? journal.(DroppedOutputChunks)) then queueOutputTruncatedMarker journal w
  else deliverEvents journal journal.(PendingEvents) w.

(** An applied input waits for the events that came before it. *)
Definition deliverEventsBeforeAppliedInputAcknowledgement journal w : world * handed :=
  match journal.(InputCommandIntent) with
  | Some intent =>
      if (intent.(InputCommandIntent.Outcome) <>s "applied") || intent.(InputCommandIntent.AcknowledgementDelivered)
      then deliverPendingEvents journal w
      else
        deliverEvents journal
          (List.filter (fun event => event.(RunEvent.Sequence) <=? intent.(InputCommandIntent.EventSequenceBarrier))
             journal.(PendingEvents)) w
  | None => deliverPendingEvents journal w
  end.

(** ** Acknowledgements *)

Definition markCommandAcknowledgementDelivered key (acknowledgement : CommandAcknowledgement.t) w : world * result RunJournal.t :=
  store_op (fun m store =>
    MarkCommandAcknowledgementsDelivered m.(disk) store key [acknowledgement.(CommandAcknowledgement.AckID)]) w.

(** A conclusive answer retires what the run still owes and starts its
    cleanup. *)
Definition handleTerminalDeliveryError journal (err : control_error) w : world * run_error :=
  let verdict := if IsOwnershipLost err then TerminalVerdictOwnershipLost
                 else if IsTerminalGraceExpired err then TerminalVerdictGraceExpired else "" in
  if isTerminalPending journal && (verdict <>s "") then
    match store_op (fun m store => ResolveTerminalForCleanup m.(disk) store (Key journal) verdict m.(now)) w with
    | (w, Err e) => (w, StoreError e)
    | (w, Ok updated) => (w, Conclusive updated err)
    end
  else (w, ControlError err).

Definition handleAcknowledgementDeliveryError journal (err : control_error) w : world * run_error :=
  if isTerminalPending journal then handleTerminalDeliveryError journal err w
  else handleOrdinaryDeliveryError journal err "ack ownership lost" w.

Definition retiresAcceptedAcknowledgement journal (acknowledgement : CommandAcknowledgement.t) (err : control_error) : bool :=
  isTerminalPending journal && (journal.(TerminalVerdict) =s TerminalVerdictAccepted) &&
  acknowledgementLost journal acknowledgement err.

Definition deliverAcknowledgement journal (acknowledgement : CommandAcknowledgement.t) w : world * handed :=
  let key := Key journal in
  let wasTerminal := isTerminalPending journal in
  let '(w, answered) := exchange (AcknowledgementRequest acknowledgement.(CommandAcknowledgement.CommandID) acknowledgement) w in
  match reload key w with
  | (w, Err e) => (w, (journal, Some (StoreError e)))
  | (w, Ok journal) =>
      if negb (hasPendingAcknowledgement journal acknowledgement.(CommandAcknowledgement.AckID))
      then (w, (journal, Some OutboxChanged))
      else
        match answered with
        | Some err =>
            if negb wasTerminal && isTerminalPending journal then (w, (journal, Some OutboxChanged))
            else if (journal.(LocalState) =s "stale") && acknowledgementLost journal acknowledgement err ||
                    retiresAcceptedAcknowledgement journal acknowledgement err
            then or_keep journal (markCommandAcknowledgementDelivered key acknowledgement w)
            else let '(w, e) := handleAcknowledgementDeliveryError journal err w in (w, (journal, Some e))
        | None =>
            or_keep journal
              (markCommandAcknowledgementDelivered key acknowledgement
                 (if isTerminalPending journal then slot_released key w else w))
        end
  end.

(** The journal, whether an acknowledgement was sent, and an error. *)
Definition sent_first journal (ackID : string) w : world * (RunJournal.t * bool * option run_error) :=
  match List.find (fun ack => ack.(CommandAcknowledgement.AckID) =s ackID) journal.(PendingCommandAcknowledgements) with
  | Some ack => let '(w, (updated, e)) := deliverAcknowledgement journal ack w in (w, (updated, true, e))
  | None => (w, (journal, false, Some NotPending))
  end.

Definition deliverAppliedControlAcknowledgement journal w : world * (RunJournal.t * bool * option run_error) :=
  if journal.(TerminalState) =s "cancelled" then (w, (journal, false, None))
  else
    match List.find (fun intent =>
            (intent.(ControlCommandIntent.Outcome) =s "applied") && negb intent.(ControlCommandIntent.AcknowledgementDelivered) &&
            negb (hasPendingTransition journal.(PendingTransitions) intent.(ControlCommandIntent.TransitionID)))
            journal.(ControlCommandIntents) with
    | Some intent => sent_first journal intent.(ControlCommandIntent.AckID) w
    | None => (w, (journal, false, None))
    end.

Definition deliverAppliedInputAcknowledgement journal w : world * (RunJournal.t * bool * option run_error) :=
  match journal.(InputCommandIntent) with
  | Some intent =>
      if (intent.(InputCommandIntent.Outcome) <>s "applied") || intent.(InputCommandIntent.AcknowledgementDelivered) ||
         hasPendingTransition journal.(PendingTransitions) intent.(InputCommandIntent.RunningTransitionID)
      then deliverAppliedControlAcknowledgement journal w
      else sent_first journal intent.(InputCommandIntent.AckID) w
  | None => deliverAppliedControlAcknowledgement journal w
  end.

Fixpoint deliverAcknowledgements (fuel : nat) journal w : world * handed :=
  match journal.(PendingCommandAcknowledgements) with
  | [] => (w, (journal, None))
  | acknowledgement :: _ =>
      match fuel with
      | O => (w, (journal, Some Running))
      | S fuel' =>
          match deliverAcknowledgement journal acknowledgement w with
          | (w, (updated, Some e)) => (w, (updated, Some e))
          | (w, (updated, None)) => deliverAcknowledgements fuel' updated w
          end
      end
  end.

(** ** Goal deliveries *)

Definition flushGoals (fuel : nat) journal w : world * handed :=
  let m := moments w.(tick) in
  let w := with_log (GoalsFlushed w.(disk_files)) w in
  match flushGoalDeliveriesWhile fuel m.(delivering) m.(deliveries) w.(disk_files) journal with
  | None => (w, (journal, Some Running))
  | Some o => (mkWorld o.(files) (S w.(tick)) w.(log), (o.(updated), option_map GoalError o.(failure)))
  end.

(** ** Transitions *)

(** What a terminal run no longer has to send before its terminal. *)
Definition retireOrdinaryTerminalOutbox journal w : world * result RunJournal.t :=
  let '(w, retired) :=
    if llen journal.(PendingEvents) =? 0 then (w, Ok journal)
    else store_op (fun m store => MarkEventsDelivered m.(disk) store (Key journal) (map RunEvent.EventID journal.(PendingEvents))) w in
  match retired with
  | Err e => (w, Err e)
  | Ok journal =>
      let transitionIDs := map StateTransitionRequest.TransitionID
        (List.filter (fun t => negb (isTerminalTransition t.(StateTransitionRequest.State))) journal.(PendingTransitions)) in
      if llen transitionIDs =? 0 then (w, Ok journal)
      else store_op (fun m store => MarkTransitionsDelivered m.(disk) store (Key journal) transitionIDs) w
  end.

Definition resolveTerminal journal (verdict : string) w : world * result RunJournal.t :=
  match store_op (fun m store => ResolveTerminal m.(disk) store (Key journal) verdict m.(now)) w with
  | (w, Err e) => (w, Err e)
  | (w, Ok updated) => (slot_released (Key journal) w, Ok updated)
  end.

(** How a part of the loop over the transitions ends: go on to the request,
    start the loop again, or leave. The flag is [predecessorsUnavailable]. *)
Inductive progress : Type :=
| Proceed (journal : RunJournal.t) (unavailable : bool)
| Again (journal : RunJournal.t) (unavailable : bool)
| Leave (result : run_result).

Definition retired_or_leave journal (outcome : world * result RunJournal.t) (next : RunJournal.t -> progress) : world * progress :=
  match outcome with
  | (w, Err e) => (w, Leave (Failed journal (StoreError e)))
  | (w, Ok updated) => (w, next updated)
  end.

(** Before a terminal: the acknowledgement of what was applied, and every
    event, unless the control plane no longer takes them. *)
Definition beforeTerminal journal (unavailable : bool) w : world * progress :=
  if unavailable then (w, Proceed journal true)
  else
    match deliverAppliedInputAcknowledgement journal w with
    | (w, (journal, _, Some e)) => (w, Leave (Failed journal e))
    | (w, (journal, delivered, None)) =>
        let settle (unavailable : bool) (journal : RunJournal.t) :=
          if (delivered : bool) || negb (llen journal.(PendingEvents) =? 0) then Again journal unavailable
          else Proceed journal unavailable in
        match deliverPendingEvents journal w with
        | (w, (journal, None)) => (w, settle false journal)
        | (w, (journal, Some e)) =>
            if terminalPredecessorUnavailable e
            then retired_or_leave journal (retireOrdinaryTerminalOutbox journal w) (settle true)
            else (w, Leave (Failed journal e))
        end
    end.

Definition beforeOrdinary journal (unavailable : bool) w : world * progress :=
  match deliverAppliedInputAcknowledgement journal w with
  | (w, (journal, _, Some e)) => (w, Leave (Failed journal e))
  | (w, (journal, false, None)) => (w, Proceed journal unavailable)
  | (w, (journal, true, None)) =>
      match deliverPendingEvents journal w with
      | (w, (journal, Some e)) => (w, Leave (Failed journal e))
      | (w, (journal, None)) => (w, Again journal unavailable)
      end
  end.

(** Right before a terminal is sent the journal is read again and its Goal
    deliveries are flushed. *)
Definition drainEvidence (fuel : nat) key journal (unavailable : bool) w : world * progress :=
  match journal.(PendingTransitions) with
  | [] => (w, Leave Panic)
  | transition :: _ =>
      if isTerminalTransition transition.(StateTransitionRequest.State) then
        match reload key w with
        | (w, Err e) => (w, Leave (Failed journal (StoreError e)))
        | (w, Ok journal) =>
            match flushGoals fuel journal w with
            | (w, (_, Some e)) => (w, Leave (Failed journal e))
            | (w, (journal, None)) =>
                (w, if llen journal.(PendingTransitions) =? 0 then Again journal unavailable else Proceed journal unavailable)
            end
        end
      else (w, Proceed journal unavailable)
  end.

(** The answer to a transition that is still pending. *)
Definition settleTransition key (wasTerminal : bool) journal (transition : StateTransitionRequest.t) (unavailable : bool)
    (answered : option control_error) w : world * progress :=
  let terminal := isTerminalTransition transition.(StateTransitionRequest.State) in
  match answered with
  | Some err =>
      if negb wasTerminal && isTerminalPending journal && negb terminal then (w, Leave (Failed journal OutboxChanged))
      else if terminal then
        let '(w, e) := handleTerminalDeliveryError journal err w in (w, Leave (Failed journal e))
      else if isTerminalPending journal && predecessorUnavailable err then
        retired_or_leave journal (retireOrdinaryTerminalOutbox journal w) (fun updated => Again updated true)
      else
        let '(w, e) := handleOrdinaryDeliveryError journal err "transition ownership lost" w in (w, Leave (Failed journal e))
  | None =>
      let '(w, resolved) :=
        if isTerminalPending journal && terminal then resolveTerminal journal TerminalVerdictAccepted w else (w, Ok journal) in
      match resolved with
      | Err e => (w, Leave (Failed journal (StoreError e)))
      | Ok journal =>
          retired_or_leave journal
            (store_op (fun m store =>
               MarkTransitionsDelivered m.(disk) store key [transition.(StateTransitionRequest.TransitionID)]) w)
            (fun updated => Again updated unavailable)
      end
  end.

Definition sendTransition key journal (unavailable : bool) w : world * progress :=
  match journal.(PendingTransitions) with
  | [] => (w, Leave Panic)
  | first :: _ =>
      match store_op (fun m store => MarkTransitionAttempted m.(disk) store key first.(StateTransitionRequest.TransitionID)) w with
      | (w, Err e) => (w, Leave (Failed journal (StoreError e)))
      | (w, Ok journal) =>
          match journal.(PendingTransitions) with
          | [] => (w, Leave Panic)
          | transition :: _ =>
              let '(w, answered) := exchange (TransitionRequest journal.(RunID) transition) w in
              match reload key w with
              | (w, Err e) => (w, Leave (Failed journal (StoreError e)))
              | (w, Ok current) =>
                  if negb (hasPendingTransition current.(PendingTransitions) transition.(StateTransitionRequest.TransitionID))
                  then (w, Leave (Failed current OutboxChanged))
                  else settleTransition key (isTerminalPending journal) current transition unavailable answered w
              end
          end
      end
  end.

(** The body of the loop. *)
Definition flushTransition (fuel : nat) key journal (next : StateTransitionRequest.t) (unavailable : bool) w : world * progress :=
  match (if isTerminalTransition next.(StateTransitionRequest.State) then beforeTerminal journal unavailable w
         else beforeOrdinary journal unavailable w) with
  | (w, Proceed journal unavailable) =>
      match drainEvidence fuel key journal unavailable w with
      | (w, Proceed journal unavailable) => sendTransition key journal unavailable w
      | other => other
      end
  | other => other
  end.

Fixpoint flushTransitions (fuel : nat) key journal (unavailable : bool) w : world * (run_result + RunJournal.t) :=
  match journal.(PendingTransitions) with
  | [] => (w, inr journal)
  | next :: _ =>
      match fuel with
      | O => (w, inl (Failed journal Running))
      | S fuel' =>
          match flushTransition fuel' key journal next unavailable w with
          | (w, Leave result) => (w, inl result)
          | (w, Again journal unavailable) | (w, Proceed journal unavailable) => flushTransitions fuel' key journal unavailable w
          end
      end
  end.

(** ** The run *)

(** When everything has been answered the run is cleaned up. *)
Definition finishRun (fuel : nat) key journal w : world * run_result :=
  match flushGoals fuel journal w with
  | (w, (journal, Some e)) => (w, Failed journal e)
  | (w, (journal, None)) =>
      if isTerminalPending journal && (journal.(TerminalVerdict) =s TerminalVerdictAccepted) &&
         (llen journal.(PendingEvents) =? 0) && (llen journal.(PendingTransitions) =? 0) &&
         (llen journal.(PendingCommandAcknowledgements) =? 0) && negb (HasPendingGoalDeliveries journal)
      then
        if HasProcessDetails journal || (moments w.(tick)).(blocked) then (slot_released key w, Done)
        else
          match store_op (fun m store => EnterCleanupPending m.(disk) store (Key journal)) w with
          | (w, Err e) => (w, Failed journal (StoreError e))
          | (w, Ok updated) => (w, Cleanup journal updated)
          end
      else (w, Done)
  end.

(** After the transitions. *)
Definition flushRest (fuel : nat) key journal w : world * run_result :=
  match deliverAppliedInputAcknowledgement journal w with
  | (w, (journal, _, Some e)) => (w, Failed journal e)
  | (w, (journal, delivered, None)) =>
      match (if delivered : bool then deliverPendingEvents journal w else (w, (journal, None))) with
      | (w, (journal, Some e)) => (w, Failed journal e)
      | (w, (journal, None)) =>
          match deliverAcknowledgements fuel journal w with
          | (w, (journal, Some e)) => (w, Failed journal e)
          | (w, (journal, None)) => finishRun fuel key journal w
          end
      end
  end.

(** The first events of a run; a terminal run goes on without them when the
    control plane no longer takes them. *)
Definition flushEvents journal w : world * progress :=
  match deliverEventsBeforeAppliedInputAcknowledgement journal w with
  | (w, (journal, None)) => (w, Proceed journal false)
  | (w, (journal, Some e)) =>
      if isTerminalPending journal && terminalPredecessorUnavailable e
      then retired_or_leave journal (retireOrdinaryTerminalOutbox journal w) (fun updated => Proceed updated true)
      else (w, Leave (Failed journal e))
  end.

Definition flushLive (fuel : nat) key journal w : world * run_result :=
  match flushGoals fuel journal w with
  | (w, (journal, Some e)) => (w, Failed journal e)
  | (w, (journal, None)) =>
      match flushEvents journal w with
      | (w, Leave result) => (w, result)
      | (w, Again journal unavailable) | (w, Proceed journal unavailable) =>
          match flushTransitions fuel key journal unavailable w with
          | (w, inl result) => (w, result)
          | (w, inr journal) => flushRest fuel key journal w
          end
      end
  end.

(** A stale run sends only its receipts and acknowledgements. *)
Definition flushStale (fuel : nat) journal w : world * run_result :=
  match flushGoals fuel journal w with
  | (w, (_, Some e)) => (w, Failed journal e)
  | (w, (journal, None)) =>
      match deliverAcknowledgements fuel journal w with
      | (w, (journal, Some e)) => (w, Failed journal e)
      | (w, (journal, None)) => (w, if hasPendingStaleOutbox journal then Done else Cleanup journal journal)
      end
  end.

Definition flushCleanup (fuel : nat) journal w : world * run_result :=
  match flushGoals fuel journal w with
  | (w, (_, Some e)) => (w, Failed journal e)
  | (w, (updated, None)) => (w, if HasPendingGoalDeliveries updated then Done else Cleanup journal updated)
  end.

Definition conclusive journal : bool :=
  isTerminalPending journal && (journal.(TerminalVerdict) <>s "") && (journal.(TerminalVerdict) <>s TerminalVerdictAccepted).

(** A run whose usage receipt was lost gets one, and a terminal, first. *)
Definition recoverUsage journal w : world * (run_result + RunJournal.t) :=
  if negb journal.(NativeUsageRecoveryRequired) then (w, inr journal)
  else
    let '(state', recovered) := (moments w.(tick)).(recover) journal w.(disk_files) in
    let w := mkWorld state' (S w.(tick)) w.(log) in
    match recovered with
    | inl (failedJournal, e) => (w, inl (Failed failedJournal e))
    | inr None => (w, inl Done)
    | inr (Some (queued, usage)) =>
        match store_op (fun m store => ClearNativeUsageRecoveryRequired m.(disk) store (Key journal) usage) w with
        | (w, Err e) => (w, inl (Failed queued (StoreError e)))
        | (w, Ok updated) => (w, inr updated)
        end
    end.

Fixpoint flushRun (fuel : nat) journal w : world * run_result :=
  match fuel with
  | O => (w, Failed journal Running)
  | S fuel' =>
      let key := Key journal in
      match recoverUsage journal w with
      | (w, inl result) => (w, result)
      | (w, inr journal) =>
          if journal.(LocalState) =s "stale" then flushStale fuel' journal w
          else if journal.(LocalState) =s "cleanup_pending" then flushCleanup fuel' journal w
          else if (moments w.(tick)).(starting) then (w, Done)
          else if conclusive journal then
            match store_op (fun m store => ResolveTerminalForCleanup m.(disk) store key journal.(TerminalVerdict) m.(now)) w with
            | (w, Err e) => (w, Failed journal (StoreError e))
            | (w, Ok updated) =>
                if negb (HasProcessDetails updated) then flushRun fuel' updated w
                else flushLive fuel' key updated (slot_released key w)
            end
          else flushLive fuel' key journal w
      end
  end.
End Flushing.

(** ** A run in a pass over all runs *)

(** An error as [errors.As] and [errors.Is] see it; [errno] tells the store
    errors that are a [net.Error], as error numbers of file operations are. *)
Definition as_control (errno : error -> bool) (err : run_error) : control_error :=
  let local e := if errno e then TransportError true else LocalError in
  match err with
  | ControlError e | Conclusive _ e | GoalError (ControlFailed e) | GoalError (Rejected e) => e
  | StoreError e | GoalError (StoreFailed e) => local e
  | GoalError _ | NotPending | OutboxChanged | Running => LocalError
  end.

(** The rest of the daemon at one round: the state of the context when the loop
    looks at it, when a failure is recorded and when it is classified; the
    clock; the errors of a cleanup. *)
Record round : Type := mkRound {
  cancelled : bool;
  cancelled_record : bool;
  cancelled_classify : bool;
  round_disk : io;
  round_now : time;
  cleanup_error : RunJournal.t -> option control_error;
  errno : error -> bool
}.

(** The error of [flushRun] with the journal of its [outboxFailure], and
    whether it is [errOutboxChanged]. *)
Definition flush_error (r : round) (result : run_result) : option (RunJournal.t * bool * control_error) :=
  match result with
  | Done | Panic => None
  | Failed failedJournal OutboxChanged => Some (failedJournal, true, LocalError)
  | Failed failedJournal (Conclusive target e) => Some (failedJournal, false, default e (r.(cleanup_error) target))
  | Failed failedJournal e => Some (failedJournal, false, as_control r.(errno) e)
  | Cleanup failedJournal target => option_map (fun e => (failedJournal, false, e)) (r.(cleanup_error) target)
  end.

(** A flush that has not come to an end, or has brought the daemon down. *)
Definition returns (result : run_result) : bool :=
  match result with Panic | Failed _ Running => false | _ => true end.

Record pass : Type := mkPass {
  pass_world : world;
  pass_retries : gmap RunKey.t outboxRetry.t;
  pass_seen : gset RunKey.t
}.

Definition note_seen (journal : RunJournal.t) (seen : gset RunKey.t) : gset RunKey.t :=
  if awaitsDelivery journal then {[Key journal]} ∪ seen else seen.

Section Pass.
Context `{AdmissionParser} `{JournalEncoder} `{FingerprintEncoder}.
Context (moments : nat -> moment) (rounds : nat -> round) (flushFuel : nat).

(** The loop of [flushAll] for one run. *)
Fixpoint flushJournal (fuel n : nat) (journal : RunJournal.t) (p : pass) : pass :=
  match fuel with
  | O => p
  | S fuel' =>
      let r := rounds n in
      let key := Key journal in
      if r.(cancelled) then p
      else if (journal.(LocalState) =s "cleanup_pending") && negb (HasPendingGoalDeliveries journal) then p
      else
        let terminal := awaitsDelivery journal in
        let seen := note_seen journal p.(pass_seen) in
        let '(retries, due) := if terminal then outboxDue p.(pass_retries) r.(round_now) journal else (p.(pass_retries), true) in
        if negb due then mkPass p.(pass_world) retries seen
        else
          let '(w, result) := flushRun moments false flushFuel journal p.(pass_world) in
          if negb (returns result) then mkPass w retries seen else
          let err := flush_error r result in
          let record (about : RunJournal.t) (e : control_error) :=
            recordOutboxFailure r.(cancelled_record) r.(cancelled_classify) retries about e r.(round_now) in
          match LoadJournal r.(round_disk) w.(disk_files).(SessionFiles.store) key with
          | Err (NotFoundError _) => mkPass w (clearOutboxRetry retries key) seen
          | Err _ =>
              mkPass w (match err with Some (_, _, e) => if terminal then record journal e else retries | None => retries end) seen
          | Ok current =>
              let seen := note_seen current seen in
              match err with
              | None => mkPass w (clearOutboxRetry retries key) seen
              | Some (failedJournal, changed, e) =>
                  if (changed : bool) || (journalFingerprint current <>s journalFingerprint failedJournal)
                  then flushJournal fuel' (S n) current (mkPass w (clearOutboxRetry retries key) seen)
                  else mkPass w (if awaitsDelivery current then record current e else retries) seen
              end
          end
  end.
End Pass.
