(* ===== verification/TerminalQueue.v ===== *)
(** * TerminalQueue: the daemon records the end of a run

    src/daemon/internal/app/app.go (7211-7247, 7282-7328, 9700-9709,
    11350-11451, 11612-11622): a terminal transition, alone or with the
    acknowledgement of the command that asked for it, is queued until the
    store takes it. An error of the store does not tell whether the write
    landed, so the journal is read back after each one and compared with what
    was to be written.

    Attempt [n] has the file faults of [attempts n] and what the rest of the
    daemon does to the store before the next attempt. The IDs and the encoded
    payload are arguments: their generators are I/O. *)

From S2P Require Import Prelude Sha256 Json Authority Protocol Journal Validation Store Outbox RunFlush.
Import RunJournal.
Open Scope string_scope.
Open Scope Z_scope.

(** ** What the journal says about its terminal *)

(** [Some None] is a terminal whose body is gone. *)
Definition durableTerminalTransition (journal : RunJournal.t) : option (option StateTransitionRequest.t) :=
  match List.find (fun t => isTerminalTransition t.(StateTransitionRequest.State)) journal.(PendingTransitions) with
  | Some transition => Some (Some transition)
  | None => if isTerminalTransition journal.(TerminalState) then Some None else None
  end.

Definition durableTerminalPresent (journal : RunJournal.t) : bool :=
  existsb (fun t => isTerminalTransition t.(StateTransitionRequest.State)) journal.(PendingTransitions) ||
  isTerminalTransition journal.(TerminalState).

Definition transitionWithJournalFence (transition : StateTransitionRequest.t) (journal : RunJournal.t)
    : StateTransitionRequest.t :=
  if isZeroFence transition.(StateTransitionRequest.fence)
  then StateTransitionRequest.mk (fence journal) transition.(StateTransitionRequest.TransitionID)
         transition.(StateTransitionRequest.State) transition.(StateTransitionRequest.Payload)
  else transition.

Definition sameStateTransitionRequest (left right : StateTransitionRequest.t) : bool :=
  sameFence left.(StateTransitionRequest.fence) right.(StateTransitionRequest.fence) &&
  (left.(StateTransitionRequest.TransitionID) =s right.(StateTransitionRequest.TransitionID)) &&
  (left.(StateTransitionRequest.State) =s right.(StateTransitionRequest.State)) &&
  (left.(StateTransitionRequest.Payload) =s right.(StateTransitionRequest.Payload)).

(** Whether it matches, whether there is one, and its state. *)
Definition terminalTransitionMatches (journal : RunJournal.t) (expected : StateTransitionRequest.t) : bool * bool * string :=
  match durableTerminalTransition journal with
  | None => (false, false, "")
  | Some None => (false, true, journal.(TerminalState))
  | Some (Some actual) =>
      (sameStateTransitionRequest actual (transitionWithJournalFence expected journal), true, actual.(StateTransitionRequest.State))
  end.

Definition sameCommandAcknowledgement (left right : CommandAcknowledgement.t) : bool :=
  sameFence left.(CommandAcknowledgement.fence) right.(CommandAcknowledgement.fence) &&
  (left.(CommandAcknowledgement.RunID) =s right.(CommandAcknowledgement.RunID)) &&
  (left.(CommandAcknowledgement.CommandID) =s right.(CommandAcknowledgement.CommandID)) &&
  (left.(CommandAcknowledgement.Outcome) =s right.(CommandAcknowledgement.Outcome)) &&
  (left.(CommandAcknowledgement.AckID) =s right.(CommandAcknowledgement.AckID)).

Definition acknowledgementWithJournalFence (acknowledgement : CommandAcknowledgement.t) (journal : RunJournal.t)
    : CommandAcknowledgement.t :=
  if isZeroFence acknowledgement.(CommandAcknowledgement.fence)
  then CommandAcknowledgement.mk (fence journal) acknowledgement.(CommandAcknowledgement.RunID)
         acknowledgement.(CommandAcknowledgement.CommandID) acknowledgement.(CommandAcknowledgement.Outcome)
         acknowledgement.(CommandAcknowledgement.AckID)
  else acknowledgement.

(** The first pending acknowledgement of the command or with the ID. *)
Definition pendingFor (journal : RunJournal.t) (acknowledgement : CommandAcknowledgement.t) : option CommandAcknowledgement.t :=
  List.find (fun pending =>
    (pending.(CommandAcknowledgement.CommandID) =s acknowledgement.(CommandAcknowledgement.CommandID)) ||
    (pending.(CommandAcknowledgement.AckID) =s acknowledgement.(CommandAcknowledgement.AckID)))
    journal.(PendingCommandAcknowledgements).

(** Whether the journal holds exactly this, and whether it holds another. *)
Definition terminalReceiptMatches (journal : RunJournal.t) (transition : StateTransitionRequest.t)
    (acknowledgement : CommandAcknowledgement.t) : bool * bool :=
  match TerminalSettlementMatches journal transition acknowledgement with
  | (matches, true) => (matches, negb matches)
  | (_, false) =>
      let transition := transitionWithJournalFence transition journal in
      let acknowledgement := acknowledgementWithJournalFence acknowledgement journal in
      let found := pendingFor journal acknowledgement in
      let match_ := some_and found (fun pending => sameCommandAcknowledgement pending acknowledgement) in
      let conflict := some_and found (fun pending => negb (sameCommandAcknowledgement pending acknowledgement)) in
      match durableTerminalTransition journal with
      | None => (false, conflict)
      | Some actual =>
          if match actual with
             | Some actual => sameStateTransitionRequest actual transition
             | None => journal.(TerminalState) =s transition.(StateTransitionRequest.State)
             end
          then (match_, negb match_)
          else (false, true)
      end
  end.

(** [activeRunState]: the state a run reports, if it reports one. *)
Definition activeRunState (journal : RunJournal.t) : option string :=
  if (journal.(LeaseToken) =s "") || (journal.(LocalState) =s "stale") || (journal.(LocalState) =s "claiming") then None
  else if string_in journal.(LocalState) ["claimed"; "running"; "paused"; "waiting_for_input"; "cancelling"]
  then Some journal.(LocalState) else None.

(** ** Queueing with retries *)

(** [cancelled] is the root context at the end of the wait. *)
Record queue_attempt : Type := mkQueueAttempt {
  queue_disk : io;
  readback_disk : io;
  retired_disk : io;
  others : Store -> Store;
  root_cancelled : bool
}.

(** [TerminalConflict] has the state that was expected and the one found;
    [Waiting] is a loop that has not ended within the fuel. *)
Inductive queue_outcome : Type :=
| Queued (pendingAt : time)
| TerminalConflict (expectedState actualState : string)
| AcknowledgementRetired
| ContextCancelled
| Waiting.

Section Queueing.
Context `{AdmissionParser} `{JournalEncoder} (attempts : nat -> queue_attempt).

Definition commandAcknowledgementRetired (fs : io) (store : Store) (key : RunKey.t) : bool :=
  match LoadJournal fs store key with
  | Err (NotFoundError _) => true
  | Err _ => false
  | Ok journal => CommandAcknowledgementRetired journal
  end.

(** The loop of [queueTerminalTransitionWithRetry]. *)
Fixpoint queueTerminalTransitionWithRetry (fuel n : nat) (store : Store) (key : RunKey.t) (transition : StateTransitionRequest.t)
    (enteredAt : time) : Store * queue_outcome :=
  match fuel with
  | O => (store, Waiting)
  | S fuel' =>
      let a := attempts n in
      let wait (store : Store) :=
        let store := a.(others) store in
        if a.(root_cancelled) then (store, ContextCancelled)
        else queueTerminalTransitionWithRetry fuel' (S n) store key transition enteredAt in
      match QueueTerminalTransitionAt a.(queue_disk) store key transition enteredAt with
      | (store, Ok journal) => (store, Queued journal.(TerminalPendingAt))
      | (store, Err _) =>
          match LoadJournal a.(readback_disk) store key with
          | Err _ => wait store
          | Ok existing =>
              match terminalTransitionMatches existing transition with
              | (true, _, _) => (store, Queued existing.(TerminalPendingAt))
              | (false, true, actualState) => (store, TerminalConflict transition.(StateTransitionRequest.State) actualState)
              | (false, false, _) => wait store
              end
          end
      end
  end.

(** The loop of [queueTerminalTransitionAndAcknowledgementWithContext]. *)
Fixpoint queueSettlementWithRetry (fuel n : nat) (store : Store) (key : RunKey.t) (transition : StateTransitionRequest.t)
    (acknowledgement : CommandAcknowledgement.t) (enteredAt : time) : Store * queue_outcome :=
  match fuel with
  | O => (store, Waiting)
  | S fuel' =>
      let a := attempts n in
      let wait (store : Store) :=
        if commandAcknowledgementRetired a.(retired_disk) store key then (store, AcknowledgementRetired)
        else
          let store := a.(others) store in
          if a.(root_cancelled) then (store, ContextCancelled)
          else queueSettlementWithRetry fuel' (S n) store key transition acknowledgement enteredAt in
      match QueueTerminalTransitionAndAcknowledgementAt a.(queue_disk) store key transition acknowledgement enteredAt with
      | (store, Ok journal) => (store, Queued journal.(TerminalPendingAt))
      | (store, Err _) =>
          match LoadJournal a.(readback_disk) store key with
          | Err _ => wait store
          | Ok existing =>
              match terminalReceiptMatches existing transition acknowledgement with
              | (true, _) => (store, Queued existing.(TerminalPendingAt))
              | (false, true) => (store, TerminalConflict transition.(StateTransitionRequest.State) existing.(TerminalState))
              | (false, false) => wait store
              end
          end
      end
  end.
End Queueing.
