(* ===== verification/ProviderAction.v ===== *)
(** * ProviderAction: external effects recorded before they happen

    src/daemon/internal/state/provider_action.go: a provider action is
    journalled before it is dispatched, completed at most once, and
    classified as [unknown] when the daemon cannot tell. Dispatch reserves
    room in the journal for the largest legal completion of every open
    action. *)

From S2P Require Import Prelude Sha256 Json Authority Protocol Journal Validation Store Outbox.
Import RunJournal.
Open Scope string_scope.
Open Scope Z_scope.

Definition maxProviderActionBytes : Z := maxJournalFileBytes / 2.

(** The bytes encoding/json writes for the intents, HTML escaping off. *)
Definition encodeIntent (intent : ProviderActionIntent.t) : string :=
  enc_object
    ([("action_id", enc_str false intent.(ProviderActionIntent.ActionID));
      ("action_key", enc_str false intent.(ProviderActionIntent.ActionKey));
      ("request_digest", enc_str false intent.(ProviderActionIntent.RequestDigest));
      ("resource_id", enc_str false intent.(ProviderActionIntent.ResourceID));
      ("operation", enc_str false intent.(ProviderActionIntent.Operation))] ++
     omit_str false "outcome" intent.(ProviderActionIntent.Outcome) ++
     (if intent.(ProviderActionIntent.Result) =s "" then []
      else [("result", compact false intent.(ProviderActionIntent.Result))]) ++
     omit_str false "failure_code" intent.(ProviderActionIntent.FailureCode))%list.

Definition encodeIntents (intents : list ProviderActionIntent.t) : string :=
  match intents with [] => "null" | _ => enc_array (map encodeIntent intents) end.

Definition providerActionDispatchAllowed (localState : string) : bool :=
  string_in localState ["claimed"; "running"; "waiting_for_input"].

(** [ValidateNewProviderActionResult] *)
Definition ValidateNewProviderActionResult (result : string) : Prelude.result unit :=
  reject negb (validProviderActionResult result) with Errorf "provider action result is invalid" ;;
  reject maxProviderActionResultBytes <? len (compact false result) with ErrProviderActionCapacity ;;
  Ok tt.

Section Operations.
Context `{AdmissionParser} `{JournalEncoder}.
Implicit Types (fs : io) (store : Store) (key : RunKey.t).

(** [validateProviderActionJournalSize] *)
Definition validateProviderActionJournalSize (journal : RunJournal.t) : result unit :=
  reject negb (fits journal) with ErrProviderActionCapacity ;; Ok tt.

Definition validateProviderActionDispatchCapacity (journal : RunJournal.t) : result unit :=
  reject maxProviderActionBytes <? len (encodeIntents journal.(ProviderActionIntents))
    with ErrProviderActionCapacity ;;
  validateProviderActionJournalSize
    (journal <| ProviderActionIntents := reserveCompletions journal.(ProviderActionIntents) |>).

(** [PrepareProviderAction]: the flag says that the action may be
    dispatched now. A replay is not written. *)
Definition prepareProviderAction (intent : ProviderActionIntent.t) (journal : RunJournal.t)
    : result (RunJournal.t * bool) :=
  match List.find (fun current =>
          (current.(ProviderActionIntent.ActionKey) =s intent.(ProviderActionIntent.ActionKey)) ||
          (current.(ProviderActionIntent.ActionID) =s intent.(ProviderActionIntent.ActionID)))
          journal.(ProviderActionIntents) with
  | Some current =>
      reject negb (ProviderActionIntent.sameIdentity current intent) with ErrProviderActionConflict ;;
      Ok (journal, false)
  | None =>
      reject negb (hasClaimGrant journal) || negb (providerActionDispatchAllowed journal.(LocalState))
        with ErrProviderActionNotAllowed ;;
      let candidate := journal <| ProviderActionIntents := (journal.(ProviderActionIntents) ++ [intent])%list |> in
      check validateProviderActionDispatchCapacity candidate ;;
      Ok (candidate, true)
  end.

Definition PrepareProviderAction fs store key (intent : ProviderActionIntent.t)
    : Store * result (RunJournal.t * bool) :=
  if negb (ProviderActionIntent.validPrepared intent)
  then (store, Err (Errorf "provider action intent is invalid")) else
  if negb (validateKey key) then (store, Err (Errorf "run key is invalid")) else
  match ensureOpenLocked store with
  | Err e => (store, Err e)
  | Ok _ =>
      match rbind (loadJournalLocked fs store key) (prepareProviderAction intent) with
      | Err e => (store, Err e)
      | Ok (journal, dispatch) =>
          if dispatch : bool then
            let outcome := saveJournalLocked fs store journal in
            (outcome.1, rbind outcome.2 (fun _ => Ok (journal, true)))
          else (store, Ok (journal, false))
      end
  end.

Definition replaceAction (actionID : string) (completed : ProviderActionIntent.t) (journal : RunJournal.t)
    : RunJournal.t :=
  journal <| ProviderActionIntents :=
    update_first (fun current => current.(ProviderActionIntent.ActionID) =s actionID) (fun _ => completed)
      journal.(ProviderActionIntents) |>.

Definition findAction (actionID : string) (journal : RunJournal.t) : option ProviderActionIntent.t :=
  List.find (fun current => current.(ProviderActionIntent.ActionID) =s actionID) journal.(ProviderActionIntents).

Definition completeProviderAction (completed : ProviderActionIntent.t) (journal : RunJournal.t)
    : result (RunJournal.t * bool) :=
  match findAction completed.(ProviderActionIntent.ActionID) journal with
  | None => Err ErrProviderActionIntentNotFound
  | Some current =>
      reject negb (ProviderActionIntent.sameIdentity current completed) with ErrProviderActionConflict ;;
      if current.(ProviderActionIntent.Outcome) <>s "" then
        reject negb (ProviderActionIntent.same current completed) with ErrProviderActionConflict ;;
        Ok (journal, false)
      else
        check (if (completed.(ProviderActionIntent.Outcome) =s "succeeded") ||
                  (completed.(ProviderActionIntent.Outcome) =s "unknown") &&
                  (0 <? len completed.(ProviderActionIntent.Result))
               then ValidateNewProviderActionResult completed.(ProviderActionIntent.Result) else Ok tt) ;;
        let journal := replaceAction completed.(ProviderActionIntent.ActionID) completed journal in
        check validateProviderActionJournalSize journal ;;
        Ok (journal, true)
  end.

Definition CompleteProviderAction fs store key (completed : ProviderActionIntent.t) :=
  if negb (ProviderActionIntent.validCompleted completed)
  then (store, Err (Errorf "provider action completion is invalid"))
  else mutateJournalIfChanged fs store key (completeProviderAction completed).

Definition recoverProviderActions (failureCode : string) (journal : RunJournal.t) : result (RunJournal.t * bool) :=
  let '(journal, changed) := settleUnresolvedProviderActions failureCode journal in
  if changed : bool then check validateProviderActionJournalSize journal ;; Ok (journal, true)
  else Ok (journal, false).

Definition RecoverProviderActions fs store key (failureCode : string) :=
  if negb (validRequiredString failureCode 256) then (store, Err (Errorf "provider action recovery code is invalid"))
  else mutateJournalIfChanged fs store key (recoverProviderActions failureCode).

Definition recoverProviderAction (actionID requestDigest failureCode : string) (journal : RunJournal.t)
    : result (RunJournal.t * bool) :=
  match findAction actionID journal with
  | None => Err ErrProviderActionIntentNotFound
  | Some intent =>
      reject intent.(ProviderActionIntent.RequestDigest) <>s requestDigest with ErrProviderActionConflict ;;
      if intent.(ProviderActionIntent.Outcome) =s "" then
        let journal := replaceAction actionID (settleAction failureCode intent) journal in
        check validateProviderActionJournalSize journal ;;
        Ok (journal, true)
      else Ok (journal, false)
  end.

Definition RecoverProviderAction fs store key (actionID requestDigest failureCode : string) :=
  if negb (validRequiredString actionID 256) || negb (validDigest requestDigest) ||
     negb (validRequiredString failureCode 256)
  then (store, Err (Errorf "provider action recovery identity is invalid"))
  else mutateJournalIfChanged fs store key (recoverProviderAction actionID requestDigest failureCode).
End Operations.
