(* ===== verification/AuthorityProps.v ===== *)
(** * AuthorityProps: what the containment evidence guarantees

    Theorems about Authority.v and the reservation of Journal.v: a valid
    bound handoff always becomes an authority, the process roles of an
    authority are distinct, a release proof carries a complete stop receipt,
    an aborted reservation never reached its gate, and the names of clone
    refs and workspaces determine the run. *)

From S2P Require Import Prelude Sha256 Json Authority Protocol Journal Validation Store.
Import RunJournal.
Open Scope string_scope.
Open Scope Z_scope.

(** ** NUL-separated names *)

Definition no_nul (s : string) : bool := string_forallb (fun a => negb (byte_at a =? 0)) s.

Lemma format_pos_no_nul fuel n acc : 0 <= n -> no_nul acc = true -> no_nul (format_pos fuel n acc) = true.
Proof.
  revert n acc. induction fuel as [|fuel IH]; intros n acc Hn Hacc; [done|]. simpl.
  assert (no_nul (String (digit_char (n mod 10)) acc) = true) as Hd.
  { unfold no_nul in *. simpl. rewrite byte_at_digit by (apply Z.mod_pos_bound; lia).
    pose proof (Z.mod_pos_bound n 10). rewrite Hacc, andb_true_r, negb_true_iff, Z.eqb_neq. lia. }
  destruct (_ =? 0); [done|]. apply IH; [|done]. apply Z.div_pos; lia.
Qed.

Lemma FormatInt_no_nul n : 0 <= n -> no_nul (FormatInt n) = true.
Proof.
  intros Hn. unfold FormatInt. destruct (n <? 0) eqn:E; breflect; [lia|]. by apply format_pos_no_nul.
Qed.

Lemma no_nul_app s t : no_nul (s ++ t) = no_nul s && no_nul t.
Proof.
  unfold no_nul. induction s as [|a s IH]; [done|]. rewrite append_cons. simpl. by rewrite IH, andb_assoc.
Qed.

(** The last NUL of a name separates its two parts. *)
Lemma nul_split s1 s2 t1 t2 :
  no_nul t1 = true -> no_nul t2 = true -> s1 ++ nul ++ t1 = s2 ++ nul ++ t2 -> s1 = s2 /\ t1 = t2.
Proof.
  intros H1 H2. unfold nul.
  revert s2. induction s1 as [|a s1 IH]; intros [|b s2]; rewrite ?append_cons, ?append_nil_l; intros E.
  - by injection E.
  - injection E as _ E. rewrite E, no_nul_app in H1. simpl in H1. by rewrite andb_false_r in H1.
  - injection E as _ E. rewrite <- E, no_nul_app in H2. simpl in H2. by rewrite andb_false_r in H2.
  - injection E as -> E. apply IH in E as [-> ->]. done.
Qed.

(** The name [runID NUL generation] determines both. *)
Lemma run_name_inj runID generation runID' generation' :
  0 < generation <= maxInt64 -> 0 < generation' <= maxInt64 ->
  runID ++ nul ++ FormatInt generation = runID' ++ nul ++ FormatInt generation' ->
  runID = runID' /\ generation = generation'.
Proof.
  intros Hg Hg' E. apply nul_split in E as [-> E]; [|apply FormatInt_no_nul; lia..]. split; [done|].
  apply (f_equal (fun s => digits_value s 0)) in E. rewrite !FormatInt_value in E by lia. done.
Qed.

(** ** Handoff and authority *)

(** A helper identity is required once one is bound. *)
Lemma v2_fields_require_helper lt ok oc tp ti sp si tb ou lu cg ap ai lp li le m cs :
  0 < sp ->
  validateV2SupervisorFields lt ok oc tp ti sp si tb ou lu cg ap ai lp li le m cs false = true ->
  validateV2SupervisorFields lt ok oc tp ti sp si tb ou lu cg ap ai lp li le m cs true = true.
Proof.
  intros Hsp. unfold validateV2SupervisorFields. assert ((sp =? 0) = false) as -> by (apply Z.eqb_neq; lia).
  by rewrite !andb_false_r.
Qed.

(** The authority a handoff describes, with its stop receipt. *)
Definition authority_of (value : SupervisorHandoff.t) : Supervisor.t :=
  Supervisor.mk
    value.(SupervisorHandoff.Version) value.(SupervisorHandoff.Secret) value.(SupervisorHandoff.LaunchToken)
    value.(SupervisorHandoff.OwnerKind) value.(SupervisorHandoff.OwnerContext) value.(SupervisorHandoff.TargetPID)
    value.(SupervisorHandoff.TargetIdentity) value.(SupervisorHandoff.OwnerUID) value.(SupervisorHandoff.LauncherUID)
    value.(SupervisorHandoff.PipeToken) value.(SupervisorHandoff.JobID) value.(SupervisorHandoff.SupervisorPID)
    value.(SupervisorHandoff.SupervisorIdentity) value.(SupervisorHandoff.TargetBirthKind)
    value.(SupervisorHandoff.CgroupIdentity) value.(SupervisorHandoff.AnchorPID)
    value.(SupervisorHandoff.AnchorIdentity) value.(SupervisorHandoff.LauncherPID)
    value.(SupervisorHandoff.LauncherIdentity) value.(SupervisorHandoff.LauncherExit) value.(SupervisorHandoff.Mirror)
    value.(SupervisorHandoff.CreatorSessionID) value.(SupervisorHandoff.StopReceipt).

Lemma receipt_carries_over receipt value :
  SupervisorHandoff.ReceiptValidForHandoff receipt value = true ->
  Supervisor.ReceiptValidFor receipt (authority_of value) = true.
Proof.
  unfold SupervisorHandoff.ReceiptValidForHandoff, Supervisor.ReceiptValidFor.
  change (Supervisor.Version (authority_of value)) with (SupervisorHandoff.Version value).
  change SupervisorHandoffVersionV2 with SupervisorVersionV2.
  destruct (_ =? _); [|done]. rewrite !andb_true_iff. intros Hv. by destruct_and!; split_and!.
Qed.

Lemma bounded_identity value : validOptionalBounded value 4096 = true -> blank value = false -> validBounded value 4096 = true.
Proof.
  unfold validOptionalBounded. intros [E|Hb]%orb_true_iff Hne; [|done]. apply String.eqb_eq in E. by subst.
Qed.

Lemma valid_authority_of value :
  SupervisorHandoff.Validate value = true -> 0 < value.(SupervisorHandoff.SupervisorPID) ->
  blank value.(SupervisorHandoff.SupervisorIdentity) = false -> Supervisor.Validate (authority_of value) = true.
Proof.
  unfold SupervisorHandoff.Validate, Supervisor.Validate. intros Hv Hpid Hident.
  change (Supervisor.Version (authority_of value)) with (SupervisorHandoff.Version value).
  change SupervisorHandoffVersionV2 with SupervisorVersionV2 in Hv. destruct (_ =? SupervisorVersionV2).
  - rewrite !andb_true_iff in Hv. destruct_and! Hv. rewrite !andb_true_iff. split_and!; try done.
    + by apply v2_fields_require_helper.
    + unfold none_or. change (Supervisor.StopReceipt (authority_of value)) with (SupervisorHandoff.StopReceipt value).
      destruct (SupervisorHandoff.StopReceipt value) as [receipt|]; [|done]. simpl in *. breflect.
      by apply receipt_carries_over.
  - rewrite !andb_true_iff in Hv. destruct_and! Hv. rewrite !andb_true_iff. split_and!; try done.
    + by apply Z.ltb_lt.
    + unfold validOptionalHex. apply orb_true_iff. by right.
    + by apply bounded_identity.
    + unfold none_or. change (Supervisor.StopReceipt (authority_of value)) with (SupervisorHandoff.StopReceipt value).
      destruct (SupervisorHandoff.StopReceipt value) as [receipt|]; [|done]. simpl in *. breflect.
      by apply receipt_carries_over.
Qed.

(** A valid handoff that is bound to a helper and carries no scan update
    always converts: [ToSupervisor] returns the authority with exactly its
    fields, and that authority is valid. No valid bound handoff is stuck. *)
Theorem bound_handoff_becomes_authority value :
  SupervisorHandoff.Validate value = true -> value.(SupervisorHandoff.ScanUpdate) = None ->
  0 < value.(SupervisorHandoff.SupervisorPID) -> blank value.(SupervisorHandoff.SupervisorIdentity) = false ->
  SupervisorHandoff.ToSupervisor value = Some (authority_of value) /\ Supervisor.Validate (authority_of value) = true.
Proof.
  intros Hv Hscan Hpid Hident. pose proof (valid_authority_of _ Hv Hpid Hident) as Hvalid. split; [|done].
  unfold SupervisorHandoff.ToSupervisor. rewrite Hv, Hscan, Hident. cbn [negb non_nil is_nil].
  rewrite (proj2 (Z.leb_gt _ _) Hpid). cbn [orb]. fold (authority_of value). by rewrite Hvalid.
Qed.

(** ** Roles *)

Lemma process_eq a b : LinuxCgroupProcessIdentity.Equal a b = false <-> a <> b.
Proof. unfold LinuxCgroupProcessIdentity.Equal. by rewrite bool_decide_eq_false. Qed.

Lemma process_eq_true a b : LinuxCgroupProcessIdentity.Equal a b = true <-> a = b.
Proof. unfold LinuxCgroupProcessIdentity.Equal. by rewrite bool_decide_eq_true. Qed.

(** The five processes of a valid v2 authority are pairwise distinct:
    target, helper, anchor, launcher and mirror; the owner is not root and
    the launcher is. *)
Theorem authority_roles_are_distinct value :
  Supervisor.Validate value = true -> value.(Supervisor.Version) = SupervisorVersionV2 ->
  exists mirror, value.(Supervisor.Mirror) = Some mirror /\
  List.NoDup [Supervisor.targetProcess value; Supervisor.helperProcess value; Supervisor.anchorProcess value;
              Supervisor.launcherProcess value; mirror] /\
  value.(Supervisor.OwnerUID) <> 0 /\ value.(Supervisor.LauncherUID) = 0.
Proof.
  unfold Supervisor.Validate. intros Hv Hver. rewrite Hver in Hv. cbn in Hv.
  breflect. match goal with Hf : validateV2SupervisorFields _ _ _ _ _ _ _ _ _ _ _ _ _ _ _ _ _ _ _ = true |- _ =>
    unfold validateV2SupervisorFields in Hf; clear Hv; rename Hf into Hv end.
  breflect. apply some_and_true in Hv as (exit & Hexit & Hv). breflect.
  match goal with Hn : true && (_ =? 0) = false |- _ => cbn [andb] in Hn; rewrite Hn in Hv end.
  breflect. apply some_and_true in Hv as (mirror & Hmirror & Hv). exists mirror. breflect.
  repeat match goal with Hn : LinuxCgroupProcessIdentity.Equal _ _ = false |- _ => apply process_eq in Hn end.
  split_and!; try done.
  unfold Supervisor.targetProcess, Supervisor.helperProcess, Supervisor.anchorProcess, Supervisor.launcherProcess.
  repeat constructor; simpl; naive_solver.
Qed.

(** ** Release and abort evidence *)

(** A valid v2 release proof carries a complete stop receipt: nothing of
    the run was alive, the leaf was killed through a pinned descriptor and
    seen empty, every producer was fenced and reaped, and the receipt was
    issued by the helper or by the mirror of that same authority. *)
Theorem v2_release_proves_stop proof :
  SupervisorHandoffReleaseProof.Validate proof = true ->
  proof.(SupervisorHandoffReleaseProof.Version) = SupervisorHandoffVersionV2 ->
  exists receipt stop,
    proof.(SupervisorHandoffReleaseProof.StopReceipt) = Some receipt /\
    receipt.(StopReceipt.Status) = "stopped" /\ receipt.(StopReceipt.ActiveProcesses) = 0 /\
    receipt.(StopReceipt.TargetPID) = proof.(SupervisorHandoffReleaseProof.TargetPID) /\
    receipt.(StopReceipt.CgroupIdentity) = proof.(SupervisorHandoffReleaseProof.CgroupIdentity) /\
    receipt.(StopReceipt.LinuxProof) = Some stop /\
    stop.(LinuxCgroupStopProof.PinnedLeafFD) = true /\ stop.(LinuxCgroupStopProof.CgroupKillAcknowledged) = true /\
    stop.(LinuxCgroupStopProof.CgroupPopulatedZero) = true /\ stop.(LinuxCgroupStopProof.NoMigrationObserved) = true /\
    stop.(LinuxCgroupStopProof.ProducerFenced) = true /\ stop.(LinuxCgroupStopProof.DescendantsReaped) = true /\
    (stop.(LinuxCgroupStopProof.Issuer) =
       Supervisor.helperProcess (SupervisorHandoffReleaseProof.supervisorFromReleaseProof proof) \/
     Some stop.(LinuxCgroupStopProof.Issuer) = proof.(SupervisorHandoffReleaseProof.Mirror)).
Proof.
  unfold SupervisorHandoffReleaseProof.Validate. intros Hv Hver. rewrite Hver in Hv. cbn in Hv. breflect.
  apply some_and_true in Hv as (receipt & Hreceipt & Hv). unfold Supervisor.ReceiptValidFor in Hv. cbn in Hv. breflect.
  apply some_and_true in Hv as (stop & Hstop & Hv). unfold Supervisor.StopProofValidateFor in Hv. breflect.
  exists receipt, stop. split_and!; try done.
  - by apply (proj1 (eqb_iff (eqb := ptr_equal LinuxCgroupIdentity.Equal) _ _)).
  - destruct (_ =s LinuxCgroupStopProofHelper); [left; breflect; by apply process_eq_true|right].
    destruct (_ =s LinuxCgroupStopProofMirror); [|done]. breflect.
    match goal with Hm : some_and (Supervisor.Mirror _) _ = true |- _ =>
      apply some_and_true in Hm as (mirror & Hm & E) end.
    apply process_eq_true in E. by rewrite E.
Qed.

(** The two ways a reservation can end before its gate exclude each
    other, and neither hides a started agent: a valid reservation never holds
    both an abort proof and a pre-gate stop receipt; with an abort proof the
    launcher was never granted, and with either there is no gate. *)
Theorem reservation_ends_once value :
  LinuxCgroupReservation.Validate value = true ->
  (value.(LinuxCgroupReservation.AbortProof) <> None ->
     value.(LinuxCgroupReservation.PreGateStopReceipt) = None /\ value.(LinuxCgroupReservation.Gate) = None /\
     value.(LinuxCgroupReservation.LauncherGrantPossible) = false) /\
  (value.(LinuxCgroupReservation.PreGateStopReceipt) <> None ->
     value.(LinuxCgroupReservation.AbortProof) = None /\ value.(LinuxCgroupReservation.Gate) = None /\
     value.(LinuxCgroupReservation.LauncherGrantPossible) = true /\
     value.(LinuxCgroupReservation.LeafIdentity) <> None).
Proof.
  unfold LinuxCgroupReservation.Validate, LinuxCgroupReservation.validAbort. intros Hv. breflect. split.
  - intros Habort. destruct (LinuxCgroupReservation.AbortProof value) as [proof|]; [|done]. cbn [none_or] in *. breflect.
    unfold LinuxCgroupReservation.AbortMatches in *. breflect. done.
  - intros Hpre. destruct (LinuxCgroupReservation.PreGateStopReceipt value) as [receipt|]; [|done].
    cbn [none_or] in *. breflect. unfold LinuxCgroupReservation.PreGateReceiptMatches in *. breflect.
    match goal with Hl : some_and (LinuxCgroupReservation.LeafIdentity value) _ = true |- _ =>
      apply some_and_true in Hl as (leaf & Hl & _) end.
    split_and!; congruence.
Qed.

(** ** Clone refs and workspaces *)

Lemma has_prefix_app p s : has_prefix p (p ++ s) = true.
Proof. induction p as [|a p IH]; [by destruct s|]. rewrite append_cons. simpl. by rewrite Ascii.eqb_refl. Qed.

Lemma trim_prefix_app p s : trim_prefix_len (String.length p) (p ++ s) = s.
Proof. induction p as [|a p IH]; [by destruct s|]. rewrite append_cons. simpl. done. Qed.

Lemma lower_hex_is_lower s : string_forallb lower_hex_digit s = true -> is_lower s = true.
Proof.
  unfold is_lower. induction s as [|a s IH]; simpl; [done|]. rewrite !andb_true_iff. intros [Ha Hs]. split; [|auto].
  unfold lower_hex_digit in Ha. rewrite orb_true_iff, !andb_true_iff, !Z.leb_le in Ha.
  apply negb_true_iff, andb_false_iff. rewrite !Z.leb_gt. lia.
Qed.

(** The promotion ref computed for a run is one the receipts accept, it
    differs from the base ref, and two runs share it only if they are the
    same run and generation or their names collide under SHA-256. *)
Theorem promotion_ref_identifies_run runID generation ref :
  generation <= maxInt64 -> LinuxClonePromotionRef runID generation = Some ref ->
  validLinuxClonePromotionRef ref = true /\ LinuxCloneBaseRef runID generation <> Some ref /\
  forall runID' generation', generation' <= maxInt64 -> LinuxClonePromotionRef runID' generation' = Some ref ->
    runID' = runID /\ generation' = generation \/
    sha256_collision (runID' ++ nul ++ FormatInt generation') (runID ++ nul ++ FormatInt generation).
Proof.
  unfold LinuxClonePromotionRef, LinuxCloneBaseRef, LinuxCloneRunKeyHash.
  destruct (_ || _) eqn:Hvalid; [done|]. breflect. intros Hmax [= <-]. split_and!.
  - unfold validLinuxClonePromotionRef. rewrite has_prefix_app. cbn [andb].
    change 38%nat with (String.length "refs/heads/symmetry/clone-v2/promoted/"). rewrite trim_prefix_app.
    unfold validLowerHex, validHex.
    rewrite (lower_hex_is_lower _ (sha256_hex_lower _)), sha256_hex_len, sha256_hex_decodes. done.
  - cbn [option_map]. by intros [=].
  - intros runID' generation' Hmax'. destruct (_ || _) eqn:Hvalid'; [done|]. breflect. cbn [option_map].
    intros E%(inj Some)%append_inj_l.
    apply sha256_eq_inv in E as [E|E]; [left|by right]. apply run_name_inj in E; [done|lia..].
Qed.

Lemma strip_suffix_app suffix s stripped : strip_suffix suffix s = Some stripped -> s = stripped ++ suffix.
Proof.
  revert stripped. induction s as [|a s IH]; intros stripped; cbn [strip_suffix].
  - destruct (_ =s suffix) eqn:E; [|done]. apply String.eqb_eq in E. by intros <-%(inj Some).
  - destruct (_ =s suffix) eqn:E; [apply String.eqb_eq in E; by intros <-%(inj Some)|].
    destruct (strip_suffix suffix s) as [t|]; [|done]. cbn [option_map]. intros <-%(inj Some).
    rewrite append_cons. f_equal. auto.
Qed.

(** The workspace root is recovered from a clone intent exactly: the
    target is that root followed by the binding, run and generation of the
    intent, and the root is an absolute clean path other than [/]. *)
Theorem workspace_root_and_target intent root :
  LinuxCloneIntent.LinuxCloneWorkspaceRoot intent = Some root ->
  intent.(LinuxCloneIntent.Target) =
    root ++ "/binding-" ++ intent.(LinuxCloneIntent.BindingKey) ++ "/run-" ++ intent.(LinuxCloneIntent.RunID) ++
    "/generation-" ++ FormatInt intent.(LinuxCloneIntent.Generation) /\
  validLinuxClonePath root = true /\ root <> "/".
Proof.
  unfold LinuxCloneIntent.LinuxCloneWorkspaceRoot, LinuxCloneIntent.linuxCloneWorkspaceRootFromIntent.
  destruct (negb _); [done|]. destruct (strip_suffix _ _) as [stripped|] eqn:Hstrip; [|done].
  apply strip_suffix_app in Hstrip. destruct (stripped =s "") eqn:Hempty; [done|].
  destruct (_ || _) eqn:Hroot; [done|]. intros <-%(inj Some). breflect. done.
Qed.

(** ** Whole-journal replacement *)

(** Every field that has a dedicated mutation. *)
Definition dedicated (journal : RunJournal.t) :=
  (journal.(LinuxCloneIntent), journal.(LinuxCloneSeedReceipt), journal.(LinuxCloneCheckoutReceipt),
   journal.(LinuxClonePromotionIntent), journal.(LinuxClonePromotionReceipt), journal.(LinuxCloneAbortPending),
   journal.(LinuxCloneAbortProof), journal.(LinuxCloneCleanupPending), journal.(LinuxCloneCleanupIntent),
   journal.(LinuxCloneTargetRemovalProof), journal.(LinuxCloneCleanupProof),
   journal.(ContainmentAuthority), journal.(ContainmentCgroup), journal.(ContainmentCgroupReleaseProof),
   journal.(ContainmentCgroupPreGateReleaseProof), journal.(ContainmentScans), journal.(ContainmentUnproven),
   (journal.(PID), journal.(ProcessIdentity), journal.(StartedAt), journal.(TerminalTaskResultKind))).

(** [SaveJournal] cannot change what has a dedicated mutation: a
    replacement it accepts over an existing journal agrees with it on the
    process details, every piece of containment and clone evidence, and the
    terminal task result kind, and it can neither enter nor leave cleanup. *)
Theorem import_keeps_dedicated_state current journal :
  dedicatedUnchanged current journal = Ok tt ->
  dedicated journal = dedicated current /\
  (journal.(LocalState) = "cleanup_pending" <-> current.(LocalState) = "cleanup_pending").
Proof.
  unfold dedicatedUnchanged, dedicated. intros Hrun. inv_ok. breflect.
  repeat match goal with
  | E : ptr_equal ?f _ _ = true |- _ => apply (proj1 (eqb_iff (eqb := ptr_equal f) _ _)) in E
  | E : Bool.eqb _ _ = true |- _ => apply eqb_prop in E
  | E : bool_decide _ = true |- _ => apply bool_decide_eq_true in E
  end.
  split; [congruence|]. rewrite <- !String.eqb_eq. split; intros Hc; congruence.
Qed.
