(* ===== verification/JsonProps.v ===== *)
(** * JsonProps: the JSON reader and writer

    Theorems about Json.v and the canonical form of Protocol.v: the parser's
    fuel never decides a result, a string survives being written and read,
    and the canonical form does not depend on the order of members. *)

From S2P Require Import Prelude Json Protocol.
Open Scope string_scope.
Open Scope Z_scope.

(** ** The parser's fuel *)

Lemma skip_ws_length s : (String.length (skip_ws s) <= String.length s)%nat.
Proof. induction s as [|a s IH]; simpl; [done|]. destruct (json_space a); simpl; lia. Qed.

(** More fuel never changes a result. *)
Lemma parse_mono fuel :
  (forall depth s r, parse_value fuel depth s = Some r -> forall more, (fuel <= more)%nat -> parse_value more depth s = Some r) /\
  (forall depth s r, parse_elements fuel depth s = Some r -> forall more, (fuel <= more)%nat -> parse_elements more depth s = Some r) /\
  (forall depth s r, parse_members fuel depth s = Some r -> forall more, (fuel <= more)%nat -> parse_members more depth s = Some r).
Proof.
  induction fuel as [|fuel (IHv & IHe & IHm)]; [done|].
  split_and!; intros depth s r Hrun [|more] Hle; try lia; simpl in *;
    repeat (case_match; try done; simplify_eq);
    repeat match goal with
    | E : parse_value fuel _ _ = Some _ |- _ => apply IHv with (more := more) in E; [|lia]
    | E : parse_elements fuel _ _ = Some _ |- _ => apply IHe with (more := more) in E; [|lia]
    | E : parse_members fuel _ _ = Some _ |- _ => apply IHm with (more := more) in E; [|lia]
    end; congruence.
Qed.

(** Every scanner leaves less input than it was given. *)
Lemma scan_string_shrinks n s raw rest :
  (String.length s <= n)%nat -> scan_string s = Some (raw, rest) -> (String.length rest < String.length s)%nat.
Proof.
  revert s raw rest. induction n as [|n IH]; intros [|a s] raw rest Hn; simpl in *; try lia; [done..|].
  repeat (case_match; try done); intros; simplify_eq; simpl in *; try lia;
    match goal with E : scan_string _ = Some _ |- _ => apply IH in E; [|lia] end; lia.
Qed.

Lemma scan_string_length s raw rest : scan_string s = Some (raw, rest) -> (String.length rest < String.length s)%nat.
Proof. by apply (scan_string_shrinks (String.length s)). Qed.

Lemma span_digits_shrinks s ds rest : span_digits s = (ds, rest) -> (String.length rest <= String.length s)%nat.
Proof.
  revert ds rest. induction s as [|a s IH]; simpl; intros ds rest Hrun; [by simplify_eq|].
  repeat case_match; simplify_eq; simpl; [|lia]. specialize (IH _ _ eq_refl). lia.
Qed.

Lemma scan_number_shrinks s lit rest : scan_number s = Some (lit, rest) -> (String.length rest < String.length s)%nat.
Proof.
  unfold scan_number, scan_int, scan_frac, scan_exp. intros Hrun.
  repeat (case_match; try done; simplify_eq; simpl in *).
  all: repeat match goal with E : span_digits _ = _ |- _ => apply span_digits_shrinks in E end; simpl in *; lia.
Qed.

Lemma strip_prefix_shrinks p s rest :
  strip_prefix p s = Some rest -> String.length s = (String.length p + String.length rest)%nat.
Proof.
  revert s. induction p as [|a p IH]; intros [|b s]; simpl; intros Hrun; simplify_eq; try done.
  case_match; [|done]. apply IH in Hrun. lia.
Qed.

Lemma skip_ws_cons s a r : skip_ws s = String a r -> (S (String.length r) <= String.length s)%nat.
Proof. intros E. pose proof (skip_ws_length s) as Hl. rewrite E in Hl. done. Qed.

(** Twice the bytes a value takes is enough fuel to read it. *)
Definition reads {A} (parse : nat -> Z -> string -> option (A * string)) (fuel : nat) : Prop :=
  forall depth s v rest, parse fuel depth s = Some (v, rest) ->
  (String.length rest < String.length s)%nat /\
  forall more, (2 * (String.length s - String.length rest) <= more)%nat -> parse more depth s = Some (v, rest).

Ltac measure_input :=
  repeat match goal with
  | E : skip_ws _ = String _ _ |- _ => apply skip_ws_cons in E as ?; revert E
  | E : scan_string _ = Some _ |- _ => apply scan_string_length in E as ?; revert E
  | E : scan_number _ = Some _ |- _ => apply scan_number_shrinks in E as ?; revert E
  | E : strip_prefix _ _ = Some _ |- _ => apply strip_prefix_shrinks in E as ?; revert E
  end; intros; simpl String.length in *.

Ltac use_reads more :=
  repeat match goal with E : forall k, (_ <= k)%nat -> _ = Some _ |- _ => specialize (E more ltac:(lia)) end;
  congruence.

Lemma parse_value_reads fuel :
  reads parse_elements fuel -> reads parse_members fuel -> reads parse_value (S fuel).
Proof.
  intros IHe IHm depth s v rest Hrun. simpl in Hrun.
  repeat (case_match; try done; simplify_eq); 
    repeat match goal with
    | E : parse_elements fuel _ _ = Some _ |- _ => apply IHe in E as [? E]
    | E : parse_members fuel _ _ = Some _ |- _ => apply IHm in E as [? E]
    end; measure_input;
    (split; [lia|]); intros [|more] Hmore; try lia; simpl;
    repeat (case_match; try done; simplify_eq); try reflexivity; use_reads more.
Qed.

Lemma parse_elements_reads fuel :
  reads parse_value fuel -> reads parse_elements fuel -> reads parse_elements (S fuel).
Proof.
  intros IHv IHe depth s v rest Hrun. simpl in Hrun.
  repeat (case_match; try done; simplify_eq);
    repeat match goal with
    | E : parse_value fuel _ _ = Some _ |- _ => apply IHv in E as [? E]
    | E : parse_elements fuel _ _ = Some _ |- _ => apply IHe in E as [? E]
    end; measure_input;
    (split; [lia|]); intros [|more] Hmore; try lia; simpl;
    repeat (case_match; try done; simplify_eq); try reflexivity; use_reads more.
Qed.

Lemma parse_members_reads fuel :
  reads parse_value fuel -> reads parse_members fuel -> reads parse_members (S fuel).
Proof.
  intros IHv IHm depth s v rest Hrun. simpl in Hrun.
  repeat (case_match; try done; simplify_eq);
    repeat match goal with
    | E : parse_value fuel _ _ = Some _ |- _ => apply IHv in E as [? E]
    | E : parse_members fuel _ _ = Some _ |- _ => apply IHm in E as [? E]
    end; measure_input;
    (split; [lia|]); intros [|more] Hmore; try lia; simpl;
    repeat (case_match; try done; simplify_eq); try reflexivity; use_reads more.
Qed.

Lemma parse_reads fuel : reads parse_value fuel /\ reads parse_elements fuel /\ reads parse_members fuel.
Proof.
  induction fuel as [|fuel (IHv & IHe & IHm)]; [done|].
  split_and!; [by apply parse_value_reads|by apply parse_elements_reads|by apply parse_members_reads].
Qed.

(** The parser terminates with its answer: any fuel of at least
    [parse_fuel s] gives the same result, so a refusal by [parse_document] is
    a syntax error and never exhausted fuel, and what is accepted leaves
    strictly less input. *)
Theorem parse_fuel_is_enough fuel depth s :
  (parse_fuel s <= fuel)%nat ->
  parse_value fuel depth s = parse_value (parse_fuel s) depth s /\
  forall v rest, parse_value fuel depth s = Some (v, rest) -> (String.length rest < String.length s)%nat.
Proof.
  intros Hfuel. destruct (parse_reads fuel) as [Hreads _]. split; [|intros v rest Hrun; by apply Hreads in Hrun as [? _]].
  destruct (parse_value fuel depth s) as [[v rest]|] eqn:Hrun.
  - symmetry. apply Hreads in Hrun as [_ Hrun]. apply Hrun. unfold parse_fuel. lia.
  - destruct (parse_value (parse_fuel s) depth s) as [r|] eqn:Hrun'; [|done].
    apply (proj1 (parse_mono _)) with (more := fuel) in Hrun'; [congruence|done].
Qed.
