(* ===== verification/CompactProps.v ===== *)
(** * CompactProps: white space does not matter

    encoding/json compacts a raw message when the journal is written. What
    the daemon reads out of such a message is the same afterwards: the value
    [parse_document] returns, the members of an object with their compacted
    texts ([raw_members]), and the admission [ParseAdmissionInput] finds. *)

From S2P Require Import Prelude Json Authority Protocol JsonProps.
Open Scope string_scope.
Open Scope Z_scope.

(** ** Strings *)

#[local] Arguments String.append _ _ : simpl nomatch.

Lemma append_nil_r (a : string) : a ++ "" = a.
Proof. induction a as [|x a IH]; cbn [String.append String.length plus]; [done|]. by rewrite IH. Qed.

Abbreviation tight := (compact_from false false false).

(** [balanced p]: compacting past [p] starts afresh after it. *)
Definition balanced (p : string) : Prop := forall t, tight (p ++ t) = tight p ++ tight t.

Lemma balanced_app p q : balanced p -> balanced q -> balanced (p ++ q).
Proof. intros Hp Hq t. rewrite append_assoc, Hp, Hq, Hp, append_assoc. done. Qed.

Lemma tight_app p q : balanced p -> tight (p ++ q) = tight p ++ tight q.
Proof. done. Qed.

(** Bytes the compaction copies. *)
Definition plain (a : ascii) : bool := negb (json_space a) && negb (byte_at a =? 34).
Definition all_plain : string -> bool := string_forallb plain.
Definition all_space : string -> bool := string_forallb json_space.

Lemma all_plain_app p q : all_plain (p ++ q) = all_plain p && all_plain q.
Proof. unfold all_plain. induction p as [|a p IH]; simpl; [done|]. rewrite IH. by destruct (plain a). Qed.

Lemma all_plain_cons a p : all_plain (String a p) = plain a && all_plain p.
Proof. done. Qed.

Lemma tight_plain p t : all_plain p = true -> tight (p ++ t) = p ++ tight t.
Proof.
  unfold all_plain. induction p as [|a p IH]; simpl; [done|]. intros [[Hs Hq]%andb_prop Hp]%andb_prop.
  apply negb_true_iff in Hs, Hq. rewrite Hs, Hq, IH; done.
Qed.

Lemma tight_plain_self p : all_plain p = true -> tight p = p.
Proof. intros Hp. pose proof (tight_plain p "" Hp) as E. simpl in E. by rewrite !append_nil_r in E. Qed.

Lemma balanced_plain p : all_plain p = true -> balanced p.
Proof. intros Hp t. by rewrite tight_plain, (tight_plain_self p). Qed.

Lemma tight_space p t : all_space p = true -> tight (p ++ t) = tight t.
Proof.
  unfold all_space. induction p as [|a p IH]; simpl; [done|]. intros [Hs Hp]%andb_prop. rewrite Hs. auto.
Qed.

Lemma tight_space_self p : all_space p = true -> tight p = "".
Proof. intros Hp. pose proof (tight_space p "" Hp) as E. by rewrite append_nil_r in E. Qed.

Lemma balanced_space p : all_space p = true -> balanced p.
Proof. intros Hp t. by rewrite tight_space, (tight_space_self p). Qed.

Lemma skip_ws_split s : exists w, s = w ++ skip_ws s /\ all_space w = true.
Proof.
  unfold all_space. induction s as [|a s (w & E & Hw)]; simpl; [by exists ""|].
  destruct (json_space a) eqn:Ha; [|by exists ""].
  exists (String a w). simpl. by rewrite Ha, Hw, <- E.
Qed.

Lemma tight_skip s : tight (skip_ws s) = tight s.
Proof. induction s as [|a s IH]; simpl; [done|]. destruct (json_space a) eqn:Ha; simpl; [done|]. by rewrite Ha. Qed.

Lemma skip_ws_stops s a r : skip_ws s = String a r -> json_space a = false.
Proof. induction s as [|b s IH]; simpl; [done|]. destruct (json_space b) eqn:Hb; [done|]. by intros [= <- <-]. Qed.

Lemma skip_ws_keeps a r : json_space a = false -> skip_ws (String a r) = String a r.
Proof. intros Ha. simpl. by rewrite Ha. Qed.

Lemma byte_at_inj a b : byte_at a = byte_at b -> a = b.
Proof. unfold byte_at. intros E%Nat2Z.inj. by rewrite <- (ascii_nat_embedding a), <- (ascii_nat_embedding b), E. Qed.

(** ** The scanners *)

Lemma hex_digit_copied h : hex_digit h = true -> (byte_at h =? 92) = false /\ (byte_at h =? 34) = false.
Proof. unfold hex_digit, lower_hex_digit. intros Hh. split; apply Z.eqb_neq; intros E; by rewrite E in Hh. Qed.

(** What a literal's body and its closing quote look like to the compaction. *)
Definition literal (raw : string) : Prop :=
  (forall t, compact_from false true false (raw ++ quote ++ t) = raw ++ quote ++ tight t) /\
  (forall t, scan_string (raw ++ quote ++ t) = Some (raw, t)).

Lemma scan_string_tight n s raw rest :
  (String.length s <= n)%nat -> scan_string s = Some (raw, rest) -> s = raw ++ quote ++ rest /\ literal raw.
Proof.
  revert s raw rest. induction n as [|n IH]; intros [|a s] raw rest Hn Hrun; [done|cbn in Hn; lia|done|].
  cbn [scan_string] in Hrun. cbn [String.length] in Hn.
  destruct (byte_at a =? 34) eqn:Hquote.
  { simplify_eq. apply Z.eqb_eq in Hquote. assert (a = chr 34) as -> by (by apply byte_at_inj). done. }
  destruct (byte_at a <? 32) eqn:Hctl; [done|].
  destruct (byte_at a =? 92) eqn:Hback.
  - destruct s as [|e s]; [done|]. cbn [String.length] in Hn. destruct (byte_at e =? 117) eqn:Hu.
    + destruct s as [|h1 [|h2 [|h3 [|h4 s]]]]; try done. cbn [String.length] in Hn.
      destruct (hex_digit h1 && hex_digit h2 && hex_digit h3 && hex_digit h4) eqn:Hhex; [|done].
      destruct (scan_string s) as [[raw' rest']|] eqn:Hrest; [|done]. simplify_eq.
      apply IH in Hrest as (-> & Htight & Hscan); [|lia].
      split; [done|]. split; intros t; cbn [String.append scan_string].
      * apply andb_prop in Hhex as [[[H1 H2]%andb_prop H3]%andb_prop H4].
        apply hex_digit_copied in H1 as [E1 F1], H2 as [E2 F2], H3 as [E3 F3], H4 as [E4 F4].
        cbn [compact_from andb]. rewrite Hback, E1, F1, E2, F2, E3, F3, E4, F4. cbn [negb]. by rewrite Htight.
      * by rewrite Hquote, Hctl, Hback, Hu, Hhex, Hscan.
    + destruct (simple_escape e) eqn:Hescape; [|done].
      destruct (scan_string s) as [[raw' rest']|] eqn:Hrest; [|done]. simplify_eq.
      apply IH in Hrest as (-> & Htight & Hscan); [|lia]. split; [done|]. split; intros t.
      * cbn [String.append compact_from andb]. by rewrite Hback, Htight.
      * cbn [String.append scan_string]. by rewrite Hquote, Hctl, Hback, Hu, Hescape, Hscan.
  - destruct (scan_string s) as [[raw' rest']|] eqn:Hrest; [|done]. simplify_eq.
    apply IH in Hrest as (-> & Htight & Hscan); [|lia]. split; [done|]. split; intros t.
    + cbn [String.append compact_from andb]. rewrite Hback, Hquote. cbn [negb]. by rewrite Htight.
    + cbn [String.append scan_string]. by rewrite Hquote, Hctl, Hback, Hscan.
Qed.

Lemma scan_string_inv s raw rest : scan_string s = Some (raw, rest) -> s = raw ++ quote ++ rest /\ literal raw.
Proof. by apply (scan_string_tight (String.length s)). Qed.

(** A whole literal. *)
Definition quoted (raw : string) : string := quote ++ raw ++ quote.

Lemma tight_quoted raw : literal raw -> tight (quoted raw) = quoted raw /\ balanced (quoted raw).
Proof.
  intros [Htight _].
  assert (forall t, tight (quoted raw ++ t) = quoted raw ++ tight t) as E.
  { intros t. unfold quoted. rewrite !append_assoc.
    change (tight (quote ++ ?x)) with (quote ++ compact_from false true false x). by rewrite Htight. }
  split; [|intros t; rewrite E].
  - rewrite <- (append_nil_r (quoted raw)) at 1. rewrite E. apply append_nil_r.
  - f_equal. rewrite <- (append_nil_r (quoted raw)) at 2. rewrite E. by rewrite append_nil_r.
Qed.

(** Nothing after a number can extend it. *)
Definition stops (p : ascii -> bool) (t : string) : Prop := match t with "" => True | String a _ => p a = false end.
Definition delimiter (t : string) : Prop :=
  match t with "" => True | String a _ => byte_at a = 44 \/ byte_at a = 93 \/ byte_at a = 125 end.
Definition in_fraction (a : ascii) : bool := is_digit a || (byte_at a =? 46).
Definition in_number (a : ascii) : bool :=
  is_digit a || (byte_at a =? 46) || (byte_at a =? 101) || (byte_at a =? 69).

Lemma delimiter_stops t : delimiter t -> stops in_number t.
Proof.
  destruct t as [|a t]; [done|]. cbn. unfold in_number, is_digit. intros [E|[E|E]]; rewrite E; done.
Qed.

Lemma span_digits_inv s ds rest :
  span_digits s = (ds, rest) ->
  s = ds ++ rest /\ string_forallb is_digit ds = true /\ forall t, stops is_digit t -> span_digits (ds ++ t) = (ds, t).
Proof.
  revert ds rest. induction s as [|a s IH]; cbn [span_digits]; intros ds rest Hrun.
  { simplify_eq. split_and!; [done..|]. intros [|a t]; cbn; [done|]. intros E. by rewrite E. }
  destruct (is_digit a) eqn:Ha.
  - destruct (span_digits s) as [ds' rest'] eqn:E. simplify_eq. destruct (IH _ _ eq_refl) as (-> & Hds & Hspan).
    split_and!; [done|cbn; by rewrite Ha|]. intros t Ht. cbn. by rewrite Ha, Hspan.
  - simplify_eq. split_and!; [done..|]. intros [|b t]; cbn; [done|]. intros E. by rewrite E.
Qed.

Lemma digits_plain ds : string_forallb is_digit ds = true -> all_plain ds = true.
Proof.
  unfold all_plain. induction ds as [|a ds IH]; cbn; [done|]. intros [Ha Hds]%andb_prop. rewrite (IH Hds), andb_true_r.
  revert Ha. unfold is_digit, plain, json_space, between. intros [H1 H2]%andb_prop. lia.
Qed.

Lemma byte_plain a b : byte_at a = b -> 34 < b -> plain a = true.
Proof. intros E Hb. unfold plain, json_space. rewrite E. lia. Qed.

Lemma stops_weaken (p q : ascii -> bool) t : (forall a, p a = true -> q a = true) -> stops q t -> stops p t.
Proof. intros Himp. destruct t as [|a t]; [done|]. cbn. intros Hq. destruct (p a) eqn:E; [|done]. apply Himp in E. congruence. Qed.

(** A scanner with the texts it takes and what may follow them. *)
Definition scans (scan : string -> option (string * string)) (follow : ascii -> bool) : Prop :=
  forall s lit rest, scan s = Some (lit, rest) ->
  s = lit ++ rest /\ all_plain lit = true /\ forall t, stops follow t -> scan (lit ++ t) = Some (lit, t).

Lemma scan_int_scans : scans scan_int is_digit.
Proof.
  intros [|a s] lit rest Hrun; [done|]. cbn [scan_int] in Hrun. destruct (byte_at a =? 48) eqn:Hz.
  { simplify_eq. split_and!; [done|cbn; rewrite (byte_plain a 48); [done|lia..]|]. intros t _. cbn. by rewrite Hz. }
  destruct (between 49 (byte_at a) 57) eqn:Hd; [|done]. destruct (span_digits s) as [ds r] eqn:E. simplify_eq.
  apply span_digits_inv in E as (-> & Hds & Hspan). split_and!; [done| |].
  - rewrite all_plain_cons, (digits_plain _ Hds), (byte_plain a (byte_at a)); [done..|]. unfold between in Hd. lia.
  - intros t Ht. cbn. by rewrite Hz, Hd, Hspan.
Qed.

Lemma scan_frac_scans : scans scan_frac in_fraction.
Proof.
  intros [|a s] lit rest Hrun; cbn [scan_frac] in Hrun.
  { simplify_eq. split_and!; [done..|]. intros [|b t]; cbn; [done|]. unfold in_fraction. intros E.
    by destruct (byte_at b =? 46); [destruct (is_digit b)|]. }
  destruct (byte_at a =? 46) eqn:Hdot.
  - destruct (span_digits s) as [ds r] eqn:E. apply span_digits_inv in E as (-> & Hds & Hspan).
    destruct ds as [|d ds]; [done|]. simplify_eq. split_and!; [done| |].
    + rewrite all_plain_cons, (digits_plain _ Hds), (byte_plain a 46); [done|lia..].
    + intros t Ht. cbn [String.append scan_frac]. rewrite Hdot.
      change (String d (ds ++ t)) with (String d ds ++ t). rewrite Hspan; [done|].
      revert Ht. apply stops_weaken. unfold in_fraction. intros b E. by rewrite E.
  - simplify_eq. split_and!; [done..|]. intros [|b t]; cbn; [done|]. unfold in_fraction. intros E.
    by destruct (byte_at b =? 46); [destruct (is_digit b)|].
Qed.

Lemma scan_exp_scans : scans scan_exp in_number.
Proof.
  intros [|a s] lit rest Hrun; cbn [scan_exp] in Hrun.
  { simplify_eq. split_and!; [done..|]. intros [|b t]; cbn; [done|]. unfold in_number. intros E.
    by destruct (byte_at b =? 101), (byte_at b =? 69), (is_digit b), (byte_at b =? 46). }
  destruct ((byte_at a =? 101) || (byte_at a =? 69)) eqn:Hexp.
  - assert (plain a = true) as Hpa by (apply (byte_plain a (byte_at a)); [done|lia]).
    destruct (match s with String c r => if (byte_at c =? 43) || (byte_at c =? 45) then (String c "", r) else ("", s)
              | "" => ("", "") end) as [sign s''] eqn:Hsplit. destruct (span_digits s'') as [ds r] eqn:E.
    apply span_digits_inv in E as (-> & Hds & Hspan). destruct ds as [|d ds]; [done|]. simplify_eq.
    assert (forall t, stops in_number t -> span_digits (String d ds ++ t) = (String d ds, t)) as Hdigits.
    { intros t Ht. apply Hspan. revert Ht. apply stops_weaken. unfold in_number. intros b E. by rewrite E. }
    assert ((byte_at d =? 43) || (byte_at d =? 45) = false) as Hnosign.
    { cbn in Hds. apply andb_prop in Hds as [Hd _]. unfold is_digit, between in Hd. lia. }
    destruct s as [|c s]; [by simplify_eq|]. destruct ((byte_at c =? 43) || (byte_at c =? 45)) eqn:Hsign; simplify_eq.
    + split_and!; [done| |].
      * cbn [String.append]. rewrite 2!all_plain_cons, (digits_plain _ Hds), Hpa, (byte_plain c (byte_at c)); [done..|lia].
      * intros t Ht. cbn [String.append scan_exp]. rewrite Hexp, Hsign.
        change (String d (ds ++ t)) with (String d ds ++ t). by rewrite Hdigits.
    + cbn [String.append]. split_and!; [by f_equal| |].
      * by rewrite all_plain_cons, (digits_plain _ Hds), Hpa.
      * intros t Ht. cbn [String.append scan_exp]. rewrite Hexp, Hnosign.
        change (String d (ds ++ t)) with (String d ds ++ t). by rewrite Hdigits.
  - simplify_eq. split_and!; [done..|]. intros [|b t]; cbn; [done|]. unfold in_number. intros E.
    by destruct (byte_at b =? 101), (byte_at b =? 69), (is_digit b), (byte_at b =? 46).
Qed.

Lemma scan_frac_head s f r t : scan_frac s = Some (f, r) -> stops is_digit t -> stops is_digit (f ++ t).
Proof.
  destruct s as [|a s]; cbn [scan_frac]; intros Hrun Ht; [by simplify_eq|].
  destruct (byte_at a =? 46) eqn:Ha; [|by simplify_eq]. apply Z.eqb_eq in Ha.
  destruct (span_digits s) as [[|d ds] r']; simplify_eq. cbn. unfold is_digit. by rewrite Ha.
Qed.

Lemma scan_exp_head s e r t : scan_exp s = Some (e, r) -> stops in_fraction t -> stops in_fraction (e ++ t).
Proof.
  destruct s as [|a s]; cbn [scan_exp]; intros Hrun Ht; [by simplify_eq|].
  destruct ((byte_at a =? 101) || (byte_at a =? 69)) eqn:Ha; [|by simplify_eq].
  repeat (case_match; try done); simplify_eq; cbn; unfold in_fraction, is_digit, between; lia.
Qed.

Lemma number_follow t : stops in_number t -> stops in_fraction t /\ stops is_digit t.
Proof.
  intros Ht. split; revert Ht; apply stops_weaken; unfold in_number, in_fraction; intros b E; [|by rewrite E].
  by rewrite E.
Qed.

Lemma fraction_follow t : stops in_fraction t -> stops is_digit t.
Proof. apply stops_weaken. unfold in_fraction. intros b E. by rewrite E. Qed.

Lemma scan_number_scans : scans scan_number in_number.
Proof.
  intros s lit rest Hrun. unfold scan_number in Hrun.
  destruct (match s with String a r => if byte_at a =? 45 then (String a "", r) else ("", s) | "" => ("", "") end)
    as [sign s1] eqn:Hsplit.
  destruct (scan_int s1) as [[i s2]|] eqn:Hint; [|done]. destruct (scan_frac s2) as [[f s3]|] eqn:Hfrac; [|done].
  destruct (scan_exp s3) as [[e s4]|] eqn:Hexp; [|done]. injection Hrun as <- <-.
  assert (exists b i', i = String b i') as (b & i' & Hi0).
  { destruct s1 as [|a s1]; [done|]. cbn in Hint. repeat (case_match; try done); simplify_eq; eauto. }
  pose proof (scan_int_scans _ _ _ Hint) as (-> & Hpi & Hi). pose proof (scan_frac_scans _ _ _ Hfrac) as (-> & Hpf & Hf).
  pose proof (scan_exp_scans _ _ _ Hexp) as (-> & Hpe & He).
  assert (all_plain sign = true /\ s = sign ++ i ++ f ++ e ++ s4 /\
          forall t, stops in_number t -> scan_number (sign ++ i ++ f ++ e ++ t) = Some (sign ++ i ++ f ++ e, t))
    as (Hps & -> & Hscan).
  2: { rewrite !append_assoc, !all_plain_app, Hps, Hpi, Hpf, Hpe. split_and!; [done..|].
       intros t Ht. rewrite !append_assoc. auto. }
  assert (forall t, stops in_number t ->
    match scan_int (i ++ f ++ e ++ t) with
    | None => None
    | Some (i, s2) => match scan_frac s2 with
                      | None => None
                      | Some (f, s3) => match scan_exp s3 with None => None | Some (e, rest) => Some (sign ++ i ++ f ++ e, rest) end
                      end
    end = Some (sign ++ i ++ f ++ e, t)) as Hbody.
  { intros t Ht. pose proof (number_follow t Ht) as [Hft Hdt]. pose proof (scan_exp_head _ _ _ _ Hexp Hft) as Hfe.
    rewrite Hi by (eapply scan_frac_head; [exact Hfrac|by apply fraction_follow]).
    by rewrite (Hf _ Hfe), (He _ Ht). }
  destruct s as [|a s].
  - injection Hsplit as <- Es. by rewrite Hi0 in Es.
  - destruct (byte_at a =? 45) eqn:Hm; injection Hsplit as <- Es.
    + rewrite Es. split_and!; [rewrite all_plain_cons, (byte_plain a 45); [done|lia..]|done|].
      intros t Ht. unfold scan_number. cbn [String.append]. rewrite Hm. exact (Hbody t Ht).
    + split_and!; [done..|]. intros t Ht. unfold scan_number. rewrite append_nil_l. specialize (Hbody t Ht).
      rewrite Hi0 in *. cbn [String.append] in *. injection Es as <- _. rewrite Hm. exact Hbody.
Qed.

Lemma strip_prefix_inv p s rest : strip_prefix p s = Some rest -> s = p ++ rest.
Proof.
  revert s. induction p as [|a p IH]; intros [|b s]; cbn; intros Hrun; simplify_eq; try done.
  destruct (Ascii.eqb a b) eqn:E; [|done]. apply Ascii.eqb_eq in E as ->. by rewrite (IH _ Hrun).
Qed.

Lemma strip_prefix_app p t : strip_prefix p (p ++ t) = Some t.
Proof. induction p as [|a p IH]; cbn; [done|]. by rewrite Ascii.eqb_refl. Qed.

(** ** The value grammar *)

(** What [parse] takes off its input can be compacted and read again. *)
Definition carries {A} (follow : string -> Prop) (shape : A -> string -> Prop)
    (parse : nat -> Z -> string -> option (A * string)) (fuel : nat) : Prop :=
  forall depth s v rest, parse fuel depth s = Some (v, rest) ->
  exists p, s = p ++ rest /\ balanced p /\ shape v p /\
    forall t, follow t -> parse fuel depth (tight p ++ t) = Some (v, t).

(** The text of an object ends with its brace. *)
Definition braced (p : string) : Prop := exists q, p = q ++ "}" /\ balanced q.
Definition shaped (v : json) (p : string) : Prop := match v with JObject _ => braced p | _ => True end.

Definition carried_value := carries delimiter shaped parse_value.
Definition carried_elements := carries (fun _ => True) (fun _ _ => True) parse_elements.
Definition carried_members := carries (fun _ => True) (fun _ p => braced p) parse_members.

Lemma mark_plain a : json_space a = false -> (byte_at a =? 34) = false -> forall t, tight (String a t) = String a (tight t).
Proof. intros Hs Hq t. cbn. by rewrite Hs, Hq. Qed.

Lemma mark_balanced a : json_space a = false -> (byte_at a =? 34) = false -> balanced (String a "").
Proof. intros Hs Hq t. cbn. by rewrite Hs, Hq. Qed.

(** Input up to a significant byte: white space, then the byte. *)
Lemma lead_split s a r :
  skip_ws s = String a r ->
  exists w, s = w ++ String a r /\ balanced w /\ tight w = "" /\ json_space a = false.
Proof.
  intros E. destruct (skip_ws_split s) as (w & Hs & Hw). exists w. rewrite <- E.
  split_and!; [done|by apply balanced_space|by apply tight_space_self|by eapply skip_ws_stops].
Qed.

(** The first byte read back is the one that was there. *)
Lemma carried_head {A} (parse : nat -> Z -> string -> option (A * string)) fuel depth p rest v a r t :
  (forall d, parse fuel d "" = None) -> balanced p -> parse fuel depth (tight p ++ "") = Some (v, "") ->
  skip_ws (p ++ rest) = String a r -> exists q, skip_ws (tight p ++ t) = String a q.
Proof.
  intros Hnone Hp Hrun Hskip. rewrite append_nil_r in Hrun. pose proof (skip_ws_stops _ _ _ Hskip) as Ha.
  pose proof (tight_skip (p ++ rest)) as E. rewrite Hskip, Hp in E. cbn in E. rewrite Ha in E.
  destruct (tight p) as [|b q]; [by rewrite Hnone in Hrun|]. injection E as <- _. cbn. rewrite Ha. by eexists.
Qed.

Lemma parse_elements_carries fuel :
  carried_value fuel -> carried_elements fuel -> carried_elements (S fuel).
Proof.
  intros IHv IHe depth s l rest Hrun. cbn [parse_elements] in Hrun.
  destruct (parse_value fuel depth s) as [[v r]|] eqn:Hv; [|done]. apply IHv in Hv as (p & -> & Hp & _ & Hv).
  destruct (skip_ws r) as [|c r'] eqn:Hskip; [done|]. apply lead_split in Hskip as (w & -> & Hw & Ew & Hc).
  destruct (byte_at c =? 93) eqn:H93.
  - injection Hrun as <- <-. apply Z.eqb_eq in H93 as Ec. exists (p ++ w ++ String c "").
    assert ((byte_at c =? 34) = false) as H34 by lia. pose proof (mark_balanced c Hc H34) as Hbc.
    split_and!; [by rewrite !append_assoc|by auto using balanced_app|done|]. intros t _.
    rewrite Hp, Hw, Ew, mark_plain, !append_assoc by done. cbn [String.append tight parse_elements].
    rewrite Hv by (cbn; lia). rewrite skip_ws_keeps, H93; done.
  - destruct (byte_at c =? 44) eqn:H44; [|done]. destruct (parse_elements fuel depth r') as [[l' rest']|] eqn:He; [|done].
    injection Hrun as <- <-. apply Z.eqb_eq in H44 as Ec. apply IHe in He as (p' & -> & Hp' & _ & He).
    assert ((byte_at c =? 34) = false) as H34 by lia. pose proof (mark_balanced c Hc H34) as Hbc.
    exists (p ++ w ++ String c "" ++ p'). split_and!; [by rewrite !append_assoc|by auto using balanced_app|done|]. intros t _.
    rewrite Hp, Hw, Ew, Hbc, mark_plain, !append_assoc by done. cbn [String.append tight parse_elements].
    rewrite Hv by (cbn; lia). rewrite skip_ws_keeps, H93, H44, He; done.
Qed.

Lemma byte_eqb a n : (byte_at a =? n) = true -> 0 <= n < 256 -> a = chr n.
Proof.
  intros E%Z.eqb_eq Hn. apply byte_at_inj. rewrite E. unfold byte_at, chr. rewrite nat_ascii_embedding by lia. lia.
Qed.

Lemma parse_members_carries fuel : carried_value fuel -> carried_members fuel -> carried_members (S fuel).
Proof.
  intros IHv IHm depth s l rest Hrun. cbn [parse_members] in Hrun.
  destruct (skip_ws s) as [|q r0] eqn:Hs0; [done|]. apply lead_split in Hs0 as (w0 & -> & Hw0 & Ew0 & _).
  destruct (byte_at q =? 34) eqn:Hq; [|done]. apply byte_eqb in Hq as ->; [|lia].
  destruct (scan_string r0) as [[raw r1]|] eqn:Hraw; [|done]. apply scan_string_inv in Hraw as (-> & Hraw).
  pose proof (tight_quoted raw Hraw) as [Eraw Braw]. pose proof (proj2 Hraw) as Hscan.
  destruct (skip_ws r1) as [|c r2] eqn:Hs1; [done|]. apply lead_split in Hs1 as (w1 & -> & Hw1 & Ew1 & Hc).
  destruct (byte_at c =? 58) eqn:H58; [|done]. assert ((byte_at c =? 34) = false) as Hc34 by lia.
  pose proof (mark_balanced c Hc Hc34) as Bc.
  destruct (parse_value fuel depth r2) as [[v r3]|] eqn:Hv; [|done]. apply IHv in Hv as (p & -> & Hp & _ & Hv).
  destruct (skip_ws r3) as [|d r4] eqn:Hs3; [done|]. apply lead_split in Hs3 as (w3 & -> & Hw3 & Ew3 & Hd).
  set (head := w0 ++ quoted raw ++ w1 ++ String c "" ++ p ++ w3).
  assert (balanced head) as Bhead by (unfold head; auto 10 using balanced_app).
  assert (tight head = quoted raw ++ String c (tight p)) as Ehead.
  { unfold head. rewrite Hw0, Ew0, Braw, Eraw, Hw1, Ew1, Bc, Hp, Ew3, mark_plain, append_nil_r by done. done. }
  assert (forall t, w0 ++ String (chr 34) (raw ++ quote ++ w1 ++ String c (p ++ w3 ++ t)) = head ++ t) as Hhead.
  { intros t. unfold head, quoted. by rewrite !append_assoc. }
  assert (forall t, parse_members (S fuel) depth (tight head ++ t) =
    match parse_value fuel depth (tight p ++ t) with
    | None => None
    | Some (v, r3) =>
        match skip_ws r3 with
        | String d r4 =>
            if byte_at d =? 125 then Some ([(unquote raw, v)], r4)
            else if byte_at d =? 44 then
              match parse_members fuel depth r4 with Some (l, rest) => Some ((unquote raw, v) :: l, rest) | None => None end
            else None
        | "" => None
        end
    end) as Hread.
  { intros t. rewrite Ehead. unfold quoted. rewrite !append_assoc. cbn [String.append].
    cbn [parse_members]. change (quote ++ ?x) with (String (chr 34) x). rewrite skip_ws_keeps by done.
    change (byte_at (chr 34) =? 34) with true. cbv iota. change (String (chr 34) ?x) with (quote ++ x).
    rewrite Hscan, skip_ws_keeps, H58 by done. done. }
  clearbody head. rewrite Hhead. destruct (byte_at d =? 125) eqn:H125.
  - injection Hrun as <- <-. pose proof (byte_eqb d 125 H125 ltac:(lia)) as Ed. change (chr 125) with "}"%char in Ed. subst d.
    exists (head ++ "}"). assert (balanced "}") as Bd by (by apply mark_balanced).
    split_and!; [by rewrite append_assoc|by apply balanced_app|by exists head|].
    intros t _. rewrite Bhead, append_assoc, Hread. change (tight "}") with "}". cbn [String.append].
    rewrite Hv by (cbn; lia). done.
  - destruct (byte_at d =? 44) eqn:H44; [|done]. destruct (parse_members fuel depth r4) as [[l' rest']|] eqn:Hm; [|done].
    injection Hrun as <- <-. apply IHm in Hm as (p' & -> & Hp' & (q & -> & Bq) & Hm).
    assert ((byte_at d =? 34) = false) as H34 by lia. pose proof (mark_balanced d Hd H34) as Hbd.
    exists (head ++ String d "" ++ q ++ "}").
    split_and!; [by rewrite !append_assoc|by auto using balanced_app| |].
    + exists (head ++ String d "" ++ q). split; [by rewrite !append_assoc|by auto using balanced_app].
    + intros t _. rewrite Bhead, append_assoc, Hread, Hbd, mark_plain by done. change (tight "") with "".
      cbn [String.append].
      rewrite Hv by (cbn; lia). rewrite skip_ws_keeps, H125, H44, Hm; done.
Qed.

(** [skip_ws] at a byte that is no white space. *)
Lemma tight_lead a q t : json_space a = false -> skip_ws (String a q ++ t) = String a (q ++ t).
Proof. intros Ha. cbn. by rewrite Ha. Qed.

(** A scalar: its text is copied, and reading it does not look further. *)
Lemma carry_scalar fuel depth w text rest v :
  balanced w -> tight w = "" -> balanced text -> tight text = text -> shaped v text ->
  (forall t, delimiter t -> parse_value (S fuel) depth (text ++ t) = Some (v, t)) ->
  exists p, w ++ text ++ rest = p ++ rest /\ balanced p /\ shaped v p /\
    forall t, delimiter t -> parse_value (S fuel) depth (tight p ++ t) = Some (v, t).
Proof.
  intros Bw Ew Bt Et Hshape Hparse. exists (w ++ text).
  assert (shaped v (w ++ text)) as Hshape'.
  { destruct v; try done. destruct Hshape as (q & -> & Bq). exists (w ++ q).
    split; [by rewrite append_assoc|by apply balanced_app]. }
  split_and!; [by rewrite append_assoc|by apply balanced_app|done|]. intros t Ht. rewrite Bw, Ew, Et. auto.
Qed.

(** What a value that starts with the byte [a] has to satisfy. *)
Definition carried_from (fuel : nat) (depth : Z) (a : ascii) (r : string) : Prop :=
  forall w v rest, balanced w -> tight w = "" -> parse_value (S fuel) depth (String a r) = Some (v, rest) ->
  exists p, w ++ String a r = p ++ rest /\ balanced p /\ shaped v p /\
    forall t, delimiter t -> parse_value (S fuel) depth (tight p ++ t) = Some (v, t).

Lemma carry_string fuel depth r : carried_from fuel depth (chr 34) r.
Proof.
  intros w v rest Bw Ew Hrun. cbn [parse_value] in Hrun. rewrite skip_ws_keeps in Hrun by done.
  change (byte_at (chr 34) =? 34) with true in Hrun. cbv iota in Hrun.
  destruct (scan_string r) as [[raw r1]|] eqn:Hraw; [|done]. injection Hrun as <- <-.
  apply scan_string_inv in Hraw as (-> & Hraw). pose proof (tight_quoted raw Hraw) as [Eraw Braw].
  change (String (chr 34) (raw ++ quote ++ r1)) with (quote ++ raw ++ quote ++ r1).
  assert (quote ++ raw ++ quote ++ r1 = quoted raw ++ r1) as -> by (unfold quoted; by rewrite !append_assoc).
  apply carry_scalar; [done..|]. intros t _. unfold quoted. rewrite !append_assoc.
  change (quote ++ ?x) with (String (chr 34) x). cbn [parse_value]. rewrite skip_ws_keeps by done.
  change (byte_at (chr 34) =? 34) with true. cbv iota. change (String (chr 34) ?x) with (quote ++ x).
  by rewrite (proj2 Hraw).
Qed.

Lemma carry_array fuel depth r : carried_elements fuel -> carried_from fuel depth "[" r.
Proof.
  intros IHe w v rest Bw Ew Hrun. cbn [parse_value] in Hrun. rewrite skip_ws_keeps in Hrun by done.
  assert (balanced "[") as Ba by (by apply mark_balanced). change (byte_at "[") with 91 in Hrun. cbn [Z.eqb Pos.eqb] in Hrun.
  assert (forall r, parse_value (S fuel) depth (String "[" r) =
    if maxNestingDepth <? depth + 1 then None else
    match skip_ws r with
    | String c r' => if byte_at c =? 93 then Some (JArray [], r')
        else match parse_elements fuel (depth + 1) r with Some (l, rest) => Some (JArray l, rest) | None => None end
    | "" => None
    end) as Hread by done.
  destruct (maxNestingDepth <? depth + 1) eqn:Hdepth; [done|]. destruct (skip_ws r) as [|c r'] eqn:Hskip; [done|].
  destruct (byte_at c =? 93) eqn:H93.
  - injection Hrun as <- <-. apply lead_split in Hskip as (w1 & -> & Bw1 & Ew1 & Hc).
    assert ((byte_at c =? 34) = false) as Hc34 by lia. pose proof (mark_balanced c Hc Hc34) as Bc.
    exists (w ++ "[" ++ w1 ++ String c "").
    split_and!; [by rewrite !append_assoc|by auto using balanced_app|done|]. intros t _.
    rewrite Bw, Ew, Ba, Bw1, Ew1, (mark_plain c) by done. change (tight "[") with "[". change (tight "") with "".
    cbn [String.append]. rewrite Hread, skip_ws_keeps, H93 by done. done.
  - destruct (parse_elements fuel (depth + 1) r) as [[l rest']|] eqn:He; [|done]. injection Hrun as <- <-.
    apply IHe in He as (p & -> & Bp & _ & He). exists (w ++ "[" ++ p).
    split_and!; [by rewrite !append_assoc|by auto using balanced_app|done|]. intros t _.
    rewrite Bw, Ew, Ba. change (tight "[") with "[". cbn [String.append]. rewrite Hread.
    destruct (carried_head parse_elements fuel (depth + 1) p rest' l c r' t) as [q Hq];
      [by destruct fuel as [|[]]|done|by apply He|done|]. by rewrite Hq, H93, He.
Qed.

Lemma carry_object fuel depth r : carried_members fuel -> carried_from fuel depth "{" r.
Proof.
  intros IHm w v rest Bw Ew Hrun. cbn [parse_value] in Hrun. rewrite skip_ws_keeps in Hrun by done.
  assert (balanced "{") as Ba by (by apply mark_balanced). change (byte_at "{") with 123 in Hrun. cbn [Z.eqb Pos.eqb] in Hrun.
  assert (forall r, parse_value (S fuel) depth (String "{" r) =
    if maxNestingDepth <? depth + 1 then None else
    match skip_ws r with
    | String c r' => if byte_at c =? 125 then Some (JObject [], r')
        else match parse_members fuel (depth + 1) r with Some (l, rest) => Some (JObject l, rest) | None => None end
    | "" => None
    end) as Hread by done.
  destruct (maxNestingDepth <? depth + 1) eqn:Hdepth; [done|]. destruct (skip_ws r) as [|c r'] eqn:Hskip; [done|].
  destruct (byte_at c =? 125) eqn:H125.
  - injection Hrun as <- <-. apply lead_split in Hskip as (w1 & -> & Bw1 & Ew1 & Hc).
    pose proof (byte_eqb c 125 H125 ltac:(lia)) as Ec. change (chr 125) with "}"%char in Ec. subst c.
    assert (balanced "}") as Bc by (by apply mark_balanced). exists (w ++ "{" ++ w1 ++ "}").
    split_and!; [by rewrite !append_assoc|by auto using balanced_app| |].
    { exists (w ++ "{" ++ w1). split; [by rewrite !append_assoc|by auto using balanced_app]. }
    intros t _. rewrite Bw, Ew, Ba, Bw1, Ew1. change (tight "{") with "{". change (tight "}") with "}".
    cbn [String.append]. by rewrite Hread.
  - destruct (parse_members fuel (depth + 1) r) as [[l rest']|] eqn:Hm; [|done]. injection Hrun as <- <-.
    apply IHm in Hm as (p & -> & Bp & (q & Eq & Bq) & Hm). exists (w ++ "{" ++ p).
    split_and!; [by rewrite !append_assoc|by auto using balanced_app| |].
    { exists (w ++ "{" ++ q). rewrite Eq. split; [by rewrite !append_assoc|by auto using balanced_app]. }
    intros t _. rewrite Bw, Ew, Ba. change (tight "{") with "{". cbn [String.append]. rewrite Hread.
    destruct (carried_head parse_members fuel (depth + 1) p rest' l c r' t) as [q' Hq];
      [by destruct fuel|done|by apply Hm|done|]. by rewrite Hq, H125, Hm.
Qed.

Lemma carry_number fuel depth w a r v rest :
  balanced w -> tight w = "" -> json_space a = false ->
  forallb (fun b => negb (byte_at a =? b)) [34; 91; 123; 110; 116; 102] = true ->
  parse_value (S fuel) depth (String a r) = Some (v, rest) ->
  exists p, w ++ String a r = p ++ rest /\ balanced p /\ shaped v p /\
    forall t, delimiter t -> parse_value (S fuel) depth (tight p ++ t) = Some (v, t).
Proof.
  cbn [forallb]. intros Bw Ew Ha Hbytes Hrun.
  apply andb_prop in Hbytes as [H34 [H91 [H123 [H110 [H116 [H102 _]%andb_prop]%andb_prop]%andb_prop]%andb_prop]%andb_prop].
  rewrite !negb_true_iff in *.
  assert (forall r, parse_value (S fuel) depth (String a r) =
    match scan_number (String a r) with Some (lit, rest) => Some (JNumber lit, rest) | None => None end) as Hread.
  { intros r0. cbn [parse_value]. by rewrite skip_ws_keeps, H34, H91, H123, H110, H116, H102. }
  rewrite Hread in Hrun. destruct (scan_number (String a r)) as [[lit r1]|] eqn:Hnum; [|done]. injection Hrun as <- <-.
  destruct lit as [|b lit].
  { exfalso. apply scan_number_shrinks in Hnum as Hlen. apply scan_number_scans in Hnum as (E & _).
    rewrite append_nil_l in E. rewrite E in Hlen. lia. }
  apply scan_number_scans in Hnum as (E & Hplain & Hscan). injection E as <- ->.
  change (String a (lit ++ r1)) with (String a lit ++ r1).
  apply carry_scalar; [done|done|by apply balanced_plain|by apply tight_plain_self|done|].
  intros t Ht%delimiter_stops. specialize (Hscan t Ht). cbn [String.append] in *. by rewrite Hread, Hscan.
Qed.

Lemma carry_word fuel depth w word a r v rest :
  balanced w -> tight w = "" -> all_plain word = true -> shaped v word ->
  (forall t, parse_value (S fuel) depth (word ++ t) = Some (v, t)) ->
  match strip_prefix word (String a r) with Some rest => Some (v, rest) | None => None end = Some (v, rest) ->
  exists p, w ++ String a r = p ++ rest /\ balanced p /\ shaped v p /\
    forall t, delimiter t -> parse_value (S fuel) depth (tight p ++ t) = Some (v, t).
Proof.
  intros Bw Ew Hplain Hshape Hread Hrun. destruct (strip_prefix word (String a r)) as [r1|] eqn:Hp; [|done].
  injection Hrun as ->. apply strip_prefix_inv in Hp as ->.
  apply carry_scalar; [done|done|by apply balanced_plain|by apply tight_plain_self|done|by auto].
Qed.

Lemma parse_value_carries fuel : carried_elements fuel -> carried_members fuel -> carried_value (S fuel).
Proof.
  intros IHe IHm depth s v rest Hrun.
  destruct (skip_ws s) as [|a r] eqn:Hs; [cbn [parse_value] in Hrun; by rewrite Hs in Hrun|].
  assert (parse_value (S fuel) depth (String a r) = Some (v, rest)) as Hhere.
  { rewrite <- Hrun. cbn [parse_value]. by rewrite Hs, skip_ws_keeps by (by eapply skip_ws_stops). }
  apply lead_split in Hs as (w & -> & Bw & Ew & Ha). clear Hrun.
  destruct (byte_at a =? 34) eqn:H34; [apply byte_eqb in H34 as ->; [by apply carry_string|lia]|].
  destruct (byte_at a =? 91) eqn:H91; [apply byte_eqb in H91 as ->; [by apply carry_array|lia]|].
  destruct (byte_at a =? 123) eqn:H123; [apply byte_eqb in H123 as ->; [by apply carry_object|lia]|].
  destruct (forallb (fun b => negb (byte_at a =? b)) [34; 91; 123; 110; 116; 102]) eqn:Hother; [by eapply carry_number|].
  cbn [parse_value] in Hhere. rewrite skip_ws_keeps, H34, H91, H123 in Hhere by done. cbn [forallb] in Hother.
  rewrite H34, H91, H123 in Hother. cbn [negb andb] in Hother.
  destruct (byte_at a =? 110) eqn:H110; [|destruct (byte_at a =? 116) eqn:H116; [|destruct (byte_at a =? 102) eqn:H102; [|done]]].
  - assert (v = JNull) as -> by (by case_match; simplify_eq). by apply (carry_word _ _ _ "null").
  - assert (v = JBool true) as -> by (by case_match; simplify_eq). by apply (carry_word _ _ _ "true").
  - assert (v = JBool false) as -> by (by case_match; simplify_eq). by apply (carry_word _ _ _ "false").
Qed.

Lemma parse_carries fuel : carried_value fuel /\ carried_elements fuel /\ carried_members fuel.
Proof.
  induction fuel as [|fuel (IHv & IHe & IHm)]; [done|].
  split_and!; [by apply parse_value_carries|by apply parse_elements_carries|by apply parse_members_carries].
Qed.

(** ** Documents *)

Lemma parse_value_enough fuel depth s v rest :
  parse_value fuel depth s = Some (v, rest) -> parse_value (parse_fuel s) depth s = Some (v, rest).
Proof. intros Hrun. destruct (parse_reads fuel) as [Hreads _]. apply Hreads in Hrun as [_ Hrun]. apply Hrun. unfold parse_fuel. lia. Qed.

Lemma tight_blank rest : skip_ws rest = "" -> tight rest = "".
Proof. intros E. by rewrite <- tight_skip, E. Qed.

(** The parts of a document. *)
Lemma document_split s v :
  parse_document s = Some v ->
  exists p rest, s = p ++ rest /\ all_space rest = true /\ balanced p /\ shaped v p /\ tight s = tight p /\
    forall t, delimiter t -> parse_value (parse_fuel s) 0 (tight p ++ t) = Some (v, t).
Proof.
  unfold parse_document. intros Hrun. destruct (parse_value (parse_fuel s) 0 s) as [[v' rest]|] eqn:Hv; [|done].
  destruct (skip_ws rest) eqn:Hrest; [|done]. injection Hrun as ->.
  destruct (parse_carries (parse_fuel s)) as [Hcarry _]. apply Hcarry in Hv as (p & E & Bp & Hshape & Hv).
  exists p, rest. split_and!; [done| |done|done| |done].
  - destruct (skip_ws_split rest) as (w & Ew & Hw). rewrite Hrest, append_nil_r in Ew. by rewrite Ew.
  - by rewrite E, Bp, (tight_blank rest), append_nil_r.
Qed.

(** Compacting a document does not change what it means. *)
Lemma parse_document_compact s v : parse_document s = Some v -> parse_document (compact false s) = Some v.
Proof.
  intros (p & rest & _ & _ & _ & _ & E & Hv)%document_split. cbn [compact]. specialize (Hv "" I).
  rewrite append_nil_r, <- E in Hv. apply parse_value_enough in Hv. unfold parse_document. by rewrite Hv.
Qed.

Lemma unmarshal_strings_compact names s fields :
  unmarshal_strings names s = Some fields -> unmarshal_strings names (compact false s) = Some fields.
Proof.
  unfold unmarshal_strings. destruct (parse_document s) as [v|] eqn:E; [|done].
  apply parse_document_compact in E. by rewrite E.
Qed.

(** The first byte of a value tells whether it is an object. *)
Definition is_object (v : json) : bool := match v with JObject _ => true | _ => false end.

Lemma value_lead fuel depth s v rest :
  parse_value fuel depth s = Some (v, rest) ->
  exists a r, skip_ws s = String a r /\ 32 < byte_at a < 128 /\ is_object v = Ascii.eqb a "{".
Proof.
  destruct fuel as [|fuel]; [done|].
  cbn [parse_value]. destruct (skip_ws s) as [|a r] eqn:Hs; [done|]. intros Hrun. exists a, r.
  destruct (Ascii.eqb a "{") eqn:Ha.
  { apply Ascii.eqb_eq in Ha as ->. split_and!; [done..|]. by repeat (case_match; try done; simplify_eq). }
  assert ((byte_at a =? 123) = false) as H123.
  { destruct (byte_at a =? 123) eqn:E; [|done]. apply byte_eqb in E as ->; [done|lia]. }
  assert (scan_number (String a r) <> None -> 32 < byte_at a < 128) as Hnum.
  { unfold scan_number. destruct (byte_at a =? 45) eqn:E; [lia|]. cbn [scan_int].
    destruct (byte_at a =? 48) eqn:E0; [lia|]. destruct (between 49 (byte_at a) 57) eqn:E1; [|done]. unfold between in E1. lia. }
  rewrite H123 in Hrun.
  repeat (case_match; try done; simplify_eq); (split; [done|]); (split; [|done]); first [by apply Hnum | lia].
Qed.

Lemma document_lead s v :
  parse_document s = Some v ->
  exists a r, skip_ws s = String a r /\ 32 < byte_at a < 128 /\ is_object v = Ascii.eqb a "{".
Proof.
  unfold parse_document. destruct (parse_value (parse_fuel s) 0 s) as [[v' rest]|] eqn:Hv; [|done].
  destruct (skip_ws rest); [|done]. intros [= <-]. by eapply value_lead.
Qed.

(** ** Members *)

Definition tight_member (m : string * string) : string * string := (m.1, compact false m.2).

Lemma slice_until_app p rest : slice_until (p ++ rest) rest = p.
Proof.
  unfold slice_until. rewrite append_length. replace (_ + _ - _)%nat with (String.length p) by lia.
  induction p as [|a p IH]; cbn; [by destruct rest|]. by rewrite IH.
Qed.

Lemma expect_inv c s r : expect c s = Some r -> s = String c r.
Proof. destruct s as [|a s]; [done|]. cbn. destruct (Ascii.eqb a c) eqn:E; [|done]. apply Ascii.eqb_eq in E as ->. by intros [= ->]. Qed.

Lemma expect_here c r : expect c (String c r) = Some r.
Proof. cbn. by rewrite Ascii.eqb_refl. Qed.

Lemma tight_head s a q : tight s = String a q -> json_space a = false.
Proof.
  induction s as [|b s IH]; cbn [compact_from andb]; [done|]. destruct (json_space b) eqn:Hb; [done|]. by intros [= <- _].
Qed.

(** One member at the head of compacted members. *)
Lemma raw_members_from_head more fuel raw p v t :
  literal raw -> (forall t, delimiter t -> parse_value fuel 1 (tight p ++ t) = Some (v, t)) -> delimiter t ->
  raw_members_from (S more) (quote ++ raw ++ quote ++ ":" ++ tight p ++ t) =
  match skip_ws t with
  | String c r4 =>
      if Ascii.eqb c "}" then Some [(unquote raw, tight p)]
      else if Ascii.eqb c "," then option_map (cons (unquote raw, tight p)) (raw_members_from more r4) else None
  | "" => None
  end.
Proof.
  intros Hraw Hv Ht. cbn [raw_members_from]. change (quote ++ ?x) with (String (chr 34) x). rewrite skip_ws_keeps by done.
  rewrite expect_here. cbn [mbind option_bind]. change (String (chr 34) ?x) with (quote ++ x).
  rewrite (proj2 Hraw). cbn [mbind option_bind String.append]. rewrite skip_ws_keeps, expect_here by done.
  cbn [mbind option_bind].
  assert (skip_ws (tight p ++ t) = tight p ++ t) as ->.
  { destruct (tight p) as [|a q] eqn:Eq; [by destruct fuel; specialize (Hv "" I)|]. apply tight_head in Eq. by apply tight_lead. }
  apply Hv, parse_value_enough in Ht as Ht. rewrite Ht. cbn [mbind option_bind]. by rewrite slice_until_app.
Qed.

Lemma raw_members_from_tight fuel s l :
  raw_members_from fuel s = Some l ->
  forall more, (String.length (tight s) <= more)%nat -> raw_members_from more (tight s) = Some (map tight_member l).
Proof.
  revert s l. induction fuel as [|fuel IH]; intros s l Hrun more Hmore; [done|]. cbn [raw_members_from] in Hrun.
  apply bind_Some in Hrun as (r0 & E0 & Hrun). apply bind_Some in Hrun as ([raw r1] & Hraw & Hrun).
  apply bind_Some in Hrun as (r2 & E2 & Hrun). apply bind_Some in Hrun as ([v r3] & Hv & Hrun).
  apply expect_inv, lead_split in E0 as (w0 & -> & Bw0 & Ew0 & _), E2 as (w1 & -> & Bw1 & Ew1 & _).
  apply scan_string_inv in Hraw as (-> & Hraw). pose proof (tight_quoted raw Hraw) as [Eraw Braw].
  destruct (parse_carries (parse_fuel (skip_ws r2))) as [Hcarry _]. apply Hcarry in Hv as (p & Ep & Bp & _ & Hv).
  rewrite Ep, slice_until_app in Hrun.
  destruct (skip_ws r3) as [|c r4] eqn:Hskip; [done|]. apply lead_split in Hskip as (w3 & -> & Bw3 & Ew3 & Hc).
  assert (tight (w0 ++ String (chr 34) (raw ++ quote ++ w1 ++ String ":" r2)) =
          quote ++ raw ++ quote ++ ":" ++ tight p ++ tight (String c r4)) as Et.
  { change (String (chr 34) ?x) with (quote ++ x).
    assert (quote ++ raw ++ quote ++ w1 ++ String ":" r2 = quoted raw ++ w1 ++ ":" ++ r2) as ->
      by (unfold quoted; by rewrite !append_assoc).
    rewrite Bw0, Ew0, Braw, Eraw, Bw1, Ew1. assert (balanced ":") as -> by (by apply mark_balanced).
    change (tight ":") with ":". rewrite <- (tight_skip r2), Ep, Bp, Bw3, Ew3. unfold quoted. by rewrite !append_assoc. }
  rewrite Et in *. destruct more as [|more]; [cbn in Hmore; lia|].
  destruct (Ascii.eqb c "}") eqn:Hclose; [|destruct (Ascii.eqb c ",") eqn:Hcomma; [|done]].
  - apply Ascii.eqb_eq in Hclose as ->. simplify_eq. rewrite mark_plain by done.
    rewrite (raw_members_from_head _ (parse_fuel (skip_ws r2)) _ _ v); [done|done|exact Hv|by right; right].
  - apply Ascii.eqb_eq in Hcomma as ->. destruct (raw_members_from fuel r4) as [l'|] eqn:Hrest; [|done].
    rewrite mark_plain in * by done. rewrite !append_length in Hmore. cbn [String.length] in Hmore.
    rewrite (raw_members_from_head _ (parse_fuel (skip_ws r2)) _ _ v); [|done|exact Hv|by left].
    rewrite skip_ws_keeps by done. change (Ascii.eqb "," "}") with false. change (Ascii.eqb "," ",") with true.
    cbv iota. rewrite (IH _ _ Hrest) by lia. injection Hrun as <-. done.
Qed.

Lemma raw_members_compact s l :
  raw_members s = Some l -> raw_members (compact false s) = Some (map tight_member l).
Proof.
  unfold raw_members. destruct (parse_document s) as [v|] eqn:Hdoc; [|done]. pose proof Hdoc as Hdoc'.
  apply parse_document_compact in Hdoc'. rewrite Hdoc'. apply document_lead in Hdoc as (a & r & Hs & _ & Ha).
  destruct v as [| | | | |members]; try done. symmetry in Ha. apply Ascii.eqb_eq in Ha as ->.
  destruct members as [|m members]; [by intros [= <-]|]. rewrite Hs. intros Hrun.
  cbn [compact] in *. rewrite <- tight_skip, Hs, mark_plain, skip_ws_keeps by done.
  eapply raw_members_from_tight; [exact Hrun|done].
Qed.

(** ** The admission inside a work input *)

Lemma last_member_tight key l : last_member key (map tight_member l) = option_map (compact false) (last_member key l).
Proof. induction l as [|[k v] l IH]; cbn; [done|]. rewrite IH. destruct (last_member key l); cbn; [done|]. by destruct (k =s key). Qed.

Lemma count_member_tight key l : count_member key (map tight_member l) = count_member key l.
Proof.
  unfold count_member. induction l as [|[k v] l IH]; [done|]. cbn [map tight_member]. rewrite !filter_cons.
  repeat case_decide; try done. by rewrite !length_cons, IH.
Qed.

Lemma top_level_unique_tight names l : top_level_unique names (map tight_member l) = top_level_unique names l.
Proof. unfold top_level_unique. induction names as [|n names IH]; cbn; [done|]. by rewrite IH, count_member_tight. Qed.

Lemma admissionShaped_tight l : isAdmissionShapedInput (map tight_member l) = isAdmissionShapedInput l.
Proof. unfold isAdmissionShapedInput. induction l as [|m l IH]; cbn [map existsb]; [done|]. by rewrite IH. Qed.

Lemma schemaVersion_tight l version :
  admissionInputSchemaVersion l = Some version -> admissionInputSchemaVersion (map tight_member l) = Some version.
Proof.
  unfold admissionInputSchemaVersion. rewrite last_member_tight. destruct (last_member "schema_version" l) as [raw|]; [|done].
  cbn [option_map]. destruct (parse_document raw) as [v|] eqn:E; [|done]. apply parse_document_compact in E. by rewrite E.
Qed.

(** The text of a member's value has no white space around it, and an
    object's ends with its brace. *)
Definition member_text (p : string) : Prop :=
  exists a r, p = String a r /\ 32 < byte_at a < 128 /\ (a = "{"%char -> braced p).

Lemma raw_members_from_texts fuel s l : raw_members_from fuel s = Some l -> Forall (fun m => member_text m.2) l.
Proof.
  revert s l. induction fuel as [|fuel IH]; intros s l Hrun; [done|]. cbn [raw_members_from] in Hrun.
  apply bind_Some in Hrun as (r0 & E0 & Hrun). apply bind_Some in Hrun as ([raw r1] & Hraw & Hrun).
  apply bind_Some in Hrun as (r2 & E2 & Hrun). apply bind_Some in Hrun as ([v r3] & Hv & Hrun).
  assert (member_text (slice_until (skip_ws r2) r3)) as Htext.
  { pose proof Hv as Hlead. apply value_lead in Hlead as (a & r & Hs & Ha & Hbrace).
    destruct (parse_reads (parse_fuel (skip_ws r2))) as [Hreads _]. apply Hreads in Hv as Hlen.
    destruct Hlen as [Hlen _]. destruct (parse_carries (parse_fuel (skip_ws r2))) as [Hcarry _].
    apply Hcarry in Hv as (p & Ep & Bp & Hshape & _). rewrite Ep in Hlen. rewrite Ep, slice_until_app.
    destruct p as [|b p]; [cbn in Hlen; lia|]. destruct (skip_ws_split (skip_ws r2)) as (w & Ew & Hw).
    assert (json_space b = false) as Hb by (by apply (skip_ws_stops r2 b (p ++ r3))).
    rewrite Ep in Hs. cbn [String.append skip_ws] in Hs. rewrite Hb in Hs. injection Hs as -> _.
    exists a, p. split_and!; [done|lia..|]. intros ->. cbn in Hbrace. by destruct v. }
  repeat (case_match; try done).
  - simplify_eq. by constructor.
  - destruct (raw_members_from fuel _) eqn:Hrest; [|done]. cbn in Hrun. simplify_eq. constructor; [done|]. by eapply IH.
Qed.

Lemma raw_members_text s l key text : raw_members s = Some l -> last_member key l = Some text -> member_text text.
Proof.
  intros Hrun. assert (Forall (fun m => member_text m.2) l) as Hall.
  { unfold raw_members in Hrun. repeat (case_match; try done; simplify_eq); [constructor|]. by eapply raw_members_from_texts. }
  clear Hrun. induction Hall as [|[k v] l Hm Hall IH]; cbn; [done|]. destruct (last_member key l) as [x|]; [auto|].
  destruct (k =s key); [|done]. by intros [= <-].
Qed.

Lemma trim_left_lead s a r : skip_ws s = String a r -> 32 < byte_at a < 128 -> trim_left s = String a r.
Proof.
  intros Hs Ha. induction s as [|b s IH]; cbn [skip_ws] in Hs; [done|]. cbn [trim_left]. destruct (json_space b) eqn:Hb.
  - assert (ascii_space (byte_at b) = true) as -> by (unfold json_space, ascii_space in *; lia). auto.
  - injection Hs as -> ->. assert (ascii_space (byte_at a) = false) as -> by (unfold ascii_space; lia).
    destruct r as [|c r]; [done|]. assert (space2 (byte_at a) (byte_at c) = false) as -> by (unfold space2; lia).
    destruct r as [|d r]; [done|]. by assert (space3 (byte_at a) (byte_at c) (byte_at d) = false) as -> by (unfold space3; lia).
Qed.

Lemma space2_brace b : space2 b 125 = false.
Proof. unfold space2. lia. Qed.
Lemma space3_brace b c : space3 125 b c = false /\ space3 b 125 c = false /\ space3 b c 125 = false.
Proof. unfold space3. lia. Qed.

(** A brace is no white space, and no rune it could belong to is. *)
Lemma blank_brace n q w : (String.length q <= n)%nat -> blank (q ++ String "}" w) = false.
Proof.
  change (byte_at "}") with 125 in *. revert q. induction n as [|n IH]; intros [|a [|b [|c q]]] Hn; cbn [String.length] in Hn; try lia.
  all: cbn [String.append blank]; change (byte_at "}") with 125.
  1,2: change (ascii_space 125) with false; change (space2 125 ?b) with false; cbv iota; destruct w as [|? [|? ?]];
    rewrite ?(proj1 (space3_brace _ _)); done.
  - destruct (ascii_space (byte_at a)); [by apply (IH "" ltac:(cbn; lia))|]. rewrite space2_brace.
    destruct w as [|c w]; [done|]. by rewrite (proj1 (proj2 (space3_brace _ _))).
  - destruct (ascii_space (byte_at a)); [by apply (IH (String b "") ltac:(cbn; lia))|].
    destruct (space2 _ _); [by apply (IH "" ltac:(cbn; lia))|]. by rewrite (proj2 (proj2 (space3_brace _ _))).
  - destruct (ascii_space (byte_at a)); [by apply (IH (String b (String c q)) ltac:(cbn; lia))|].
    destruct (space2 _ _); [by apply (IH (String c q) ltac:(cbn; lia))|].
    destruct (space3 _ _ _); [apply IH; lia|done].
Qed.

Lemma blank_space w : all_space w = true -> blank w = true.
Proof.
  unfold all_space. induction w as [|a w IH]; cbn [string_forallb blank]; [done|]. intros [Ha Hw]%andb_prop.
  assert (ascii_space (byte_at a) = true) as -> by (unfold json_space, ascii_space in *; lia). auto.
Qed.

Lemma trim_right_brace q w : all_space w = true -> trim_right (q ++ String "}" w) = q ++ "}".
Proof.
  intros Hw. induction q as [|a q IH]; cbn [String.append].
  - assert (trim_right w = "") as E by (destruct w; [done|]; cbn [trim_right]; by rewrite (blank_space _ Hw)).
    pose proof (blank_brace 0 "" w (le_n _)) as Eb. rewrite append_nil_l in Eb. cbn [trim_right]. by rewrite Eb, E.
  - cbn [trim_right]. pose proof (blank_brace _ (String a q) w (le_n _)) as E. cbn [String.append] in E. by rewrite E, IH.
Qed.

Lemma skip_ws_brace q w : skip_ws (q ++ String "}" w) = skip_ws q ++ String "}" w.
Proof. induction q as [|a q IH]; cbn [String.append skip_ws]; [done|]. by destruct (json_space a). Qed.

(** Trimming an object is what compaction does at its ends. *)
Lemma trim_object s l :
  parse_document s = Some (JObject l) -> tight (TrimSpace s) = tight s /\ TrimSpace (tight s) = tight s.
Proof.
  intros Hdoc. pose proof (document_lead _ _ Hdoc) as (a & r & Hs & Ha & Hbrace). symmetry in Hbrace.
  apply Ascii.eqb_eq in Hbrace as ->. apply document_split in Hdoc as (p & w & -> & Hw & Bp & (q & -> & Bq) & Et & _).
  assert (balanced "}") as Bb by (by apply mark_balanced). rewrite Et. unfold TrimSpace. split.
  - rewrite (trim_left_lead _ _ _ Hs Ha), <- Hs, append_assoc. cbn [String.append].
    rewrite skip_ws_brace, trim_right_brace by done. by rewrite <- (skip_ws_brace q ""), tight_skip.
  - pose proof (tight_skip ((q ++ "}") ++ w)) as Eh. rewrite Hs, Et, mark_plain in Eh by done.
    rewrite (trim_left_lead _ "{" (tight r)) by (by rewrite <- Eh || done). rewrite Eh, Bq. by apply (trim_right_brace (tight q) "").
Qed.

Lemma trim_lead s a r : skip_ws s = String a r -> 32 < byte_at a < 128 -> byte_is (TrimSpace s) 0 "{" = true -> a = "{"%char.
Proof.
  intros Hs Ha. unfold TrimSpace. rewrite (trim_left_lead _ _ _ Hs Ha). cbn [trim_right].
  destruct (blank _); [done|]. unfold byte_is. cbn. destruct (Ascii.eqb a "{") eqn:E; [|done]. by apply Ascii.eqb_eq in E.
Qed.

Lemma trim_member_text p : member_text p -> byte_is (TrimSpace p) 0 "{" = true -> TrimSpace p = p.
Proof.
  intros (a & r & -> & Ha & Hbrace) Hobject. assert (json_space a = false) as Hs by (unfold json_space; lia).
  assert (a = "{"%char) as ->. { eapply trim_lead; [by apply skip_ws_keeps|done|done]. }
  destruct (Hbrace eq_refl) as (q & E & Bq). rewrite E. unfold TrimSpace.
  rewrite (trim_left_lead _ "{" r) by (rewrite <- ?E; done). rewrite E. by apply (trim_right_brace q "").
Qed.

(** [ParseAdmission] is encoding/json and a schema validator: an admission
    it accepts it also accepts without the white space. *)
Class LayoutFree `{AdmissionParser} : Prop :=
  ParseAdmission_compact s admission :
    json_Valid s = true -> ParseAdmission s = Some admission -> ParseAdmission (compact false s) = Some admission.

Lemma raw_members_object s l : raw_members s = Some l -> exists members, parse_document s = Some (JObject members).
Proof. unfold raw_members. destruct (parse_document s) as [[| | | | |[|m ms]]|]; try done; eauto. Qed.

Lemma not_an_object_tight s l : parse_document s = Some (JObject l) -> not_an_object (tight s) = false.
Proof.
  intros (a & r & Hs & _ & Ha)%document_lead. symmetry in Ha. apply Ascii.eqb_eq in Ha as ->.
  rewrite <- tight_skip, Hs, mark_plain by done. unfold not_an_object.
  assert ((len (String "{" (tight r)) =? 0) = false) as -> by done. done.
Qed.

Section Admission.
Context `{LayoutFree}.

Lemma not_an_object_inv s : not_an_object s = false -> byte_is s 0 "{" = true.
Proof. unfold not_an_object. intros [_ E%negb_false_iff]%orb_false_iff. done. Qed.

(** Trimmed or compacted, an object has the same members. *)
Lemma members_compact s l :
  TrimSpace s = s \/ json_Valid s = true -> not_an_object (TrimSpace s) = false -> raw_members (TrimSpace s) = Some l ->
  not_an_object (TrimSpace (tight s)) = false /\ raw_members (TrimSpace (tight s)) = Some (map tight_member l) /\
  TrimSpace (tight s) = compact false (TrimSpace s) /\ json_Valid (TrimSpace s) = true.
Proof.
  intros Hvalid Hobject%not_an_object_inv Hmembers. pose proof (raw_members_object _ _ Hmembers) as [members Hdoc].
  assert (exists l, parse_document s = Some (JObject l)) as [l' Hs].
  { destruct Hvalid as [E|Hvalid]; [rewrite E in Hdoc; eauto|]. unfold json_Valid in Hvalid.
    destruct (parse_document s) as [v|] eqn:Hv; [|done]. apply document_lead in Hv as (a & r & Hlead & Ha & Hbrace).
    rewrite (trim_lead _ _ _ Hlead Ha Hobject) in Hbrace. destruct v; try done. eauto. }
  pose proof (trim_object _ _ Hs) as [E1 E2]. rewrite E2. cbn [compact]. rewrite E1. split_and!; [| |done|].
  - by eapply not_an_object_tight.
  - rewrite <- E1. by apply raw_members_compact.
  - unfold json_Valid. by rewrite Hdoc.
Qed.

(** The admission found in a work input is found in its compacted text. *)
Lemma ParseAdmissionInput_compact input admission :
  json_Valid input = true -> ParseAdmissionInput input = Some (Some admission) ->
  ParseAdmissionInput (compact false input) = Some (Some admission).
Proof.
  unfold ParseAdmissionInput. cbn [compact]. intros Hvalid Hrun. destruct (not_an_object (TrimSpace input)) eqn:Hobject; [done|].
  apply bind_Some in Hrun as (fields & Hfields & Hrun).
  destruct (members_compact input fields) as (Ho & Hm & Et & Hv); [by right|done|done|]. rewrite Ho, Hm. cbn [mbind option_bind].
  rewrite top_level_unique_tight, last_member_tight, admissionShaped_tight.
  destruct (negb (top_level_unique _ fields)); [done|]. apply bind_Some in Hrun as (outer & Houter & Hrun).
  rewrite (schemaVersion_tight _ _ Houter). cbn [mbind option_bind].
  destruct (last_member "goal_admission" fields) as [nested|] eqn:Hnested; cbn [option_map].
  - destruct (some_and outer (fun v => v =s AdmissionSchemaVersion)); [done|].
    destruct (some_and outer isUnsupportedAdmissionSchema); [done|]. destruct (isAdmissionShapedInput fields); [done|].
    destruct (not_an_object (TrimSpace nested)) eqn:Hno; [done|]. apply bind_Some in Hrun as (inner & Hinner & Hrun).
    assert (TrimSpace nested = nested) as En.
    { apply trim_member_text; [exact (raw_members_text _ _ _ _ Hfields Hnested)|by apply not_an_object_inv]. }
    destruct (members_compact nested inner) as (Ho' & Hm' & Et' & Hv'); [by left|done|done|]. cbn [compact].
    rewrite Ho', Hm'. cbn [mbind option_bind]. rewrite top_level_unique_tight, admissionShaped_tight.
    destruct (negb _); [done|]. apply bind_Some in Hrun as (version & Hversion & Hrun).
    rewrite (schemaVersion_tight _ _ Hversion). cbn [mbind option_bind]. destruct version as [v|]; [|by case_match].
    destruct (v <>s AdmissionSchemaVersion); [done|]. destruct (ParseAdmission (TrimSpace nested)) as [a|] eqn:Ha; [|done].
    injection Hrun as ->. apply ParseAdmission_compact in Ha; [|done]. by rewrite Et', Ha.
  - destruct outer as [v|]; [|by case_match]. destruct (v <>s AdmissionSchemaVersion); [by case_match|].
    destruct (ParseAdmission (TrimSpace input)) as [a|] eqn:Ha; [|done].
    injection Hrun as ->. apply ParseAdmission_compact in Ha; [|done]. by rewrite Et, Ha.
Qed.
End Admission.
