(* ===== verification/RereadProps.v ===== *)
(** * RereadProps: a valid journal stays valid on disk

    [reread_fields] is what encoding/json makes of a journal that is written
    and decoded. When the evidence bodies of a valid journal decode at all,
    the journal read back passes [validateJournal] again: every check reads
    the changed payloads through the JSON reader, the delivery digests are
    taken of the encoded bodies, and the admission in the work input is
    found again. *)

From S2P Require Import Prelude Sha256 Json Authority Protocol Journal Validation Store JsonProps CompactProps.
Import RunJournal.
Open Scope string_scope.
Open Scope Z_scope.

(** A field of the journal read back, replaced by what it holds. *)
Ltac read_field field value := assert (field = value) as -> by reflexivity.

(** ** Raw messages *)

Lemma valid_compact s : json_Valid s = true -> json_Valid (compact false s) = true.
Proof.
  unfold json_Valid. destruct (parse_document s) as [v|] eqn:E; [|done]. apply parse_document_compact in E. by rewrite E.
Qed.

Lemma unique_compact s : RejectDuplicateJSONMembers s = true -> RejectDuplicateJSONMembers (compact false s) = true.
Proof.
  unfold RejectDuplicateJSONMembers. destruct (parse_document s) as [v|] eqn:E; [|done].
  apply parse_document_compact in E. by rewrite E.
Qed.

Lemma len_zero s : (len s =? 0) = (s =s "").
Proof. destruct s; [done|]. unfold len. cbn [String.length]. apply Z.eqb_neq. lia. Qed.

Lemma validRawMessage_inv s : validRawMessage s = true -> s = "" \/ json_Valid s = true /\ RejectDuplicateJSONMembers s = true.
Proof.
  unfold validRawMessage. rewrite len_zero. destruct (s =s "") eqn:E; [apply String.eqb_eq in E; auto|].
  intros [Hv Hd]%andb_prop. auto.
Qed.

Lemma validRawMessage_compact s : validRawMessage s = true -> validRawMessage (compact false s) = true.
Proof.
  intros [->|[Hv Hd]]%validRawMessage_inv; [done|]. unfold validRawMessage.
  by rewrite (valid_compact s Hv), (unique_compact s Hd), orb_true_r.
Qed.

Lemma validRawMessage_payload s : validRawMessage s = true -> validRawMessage (reread_payload s) = true.
Proof. unfold reread_payload. destruct (s =s ""); [done|]. apply validRawMessage_compact. Qed.

Lemma validRawMessage_omitted s : validRawMessage s = true -> validRawMessage (reread_omitted s) = true.
Proof. unfold reread_omitted. destruct (s =s ""); [done|]. apply validRawMessage_compact. Qed.

(** Reading strings out of a payload: the same ones, or the zero values of a
    payload that was not there. *)
Lemma unmarshal_payload names s :
  validRawMessage s = true ->
  unmarshal_strings names (reread_payload s) = unmarshal_strings names s \/
  s = "" /\ unmarshal_strings names (reread_payload s) = Some (map (fun _ => "") names).
Proof.
  intros [->|[Hv _]]%validRawMessage_inv; [by right|]. left. unfold reread_payload.
  destruct (s =s "") eqn:E; [apply String.eqb_eq in E as ->; done|]. unfold json_Valid in Hv.
  destruct (parse_document s) as [v|] eqn:Hdoc; [|done]. pose proof (parse_document_compact _ _ Hdoc) as Hdoc'.
  unfold unmarshal_strings. by rewrite Hdoc, Hdoc'.
Qed.

Lemma for_each_map {A B S} (f : S -> A -> result S) (g : S -> B -> result S) (h : A -> B) l s s' :
  (forall s x s', In x l -> f s x = Ok s' -> g s (h x) = Ok s') ->
  for_each f s l = Ok s' -> for_each g s (map h l) = Ok s'.
Proof.
  revert s. induction l as [|x l IH]; intros s Hstep; cbn [for_each map]; [done|].
  intros (s1 & Hx & Hl)%rbind_ok. rewrite (Hstep _ _ _ (or_introl eq_refl) Hx). cbn [rbind].
  apply IH; [|done]. intros; apply Hstep; [by right|done].
Qed.

Lemma distinct_keys_map {A B} (key : A -> string) (key' : B -> string) (h : A -> B) seen l :
  (forall x, key' (h x) = key x) -> distinct_keys key' seen (map h l) = distinct_keys key seen l.
Proof. intros Hkey. revert seen. induction l as [|x l IH]; intros seen; cbn; [done|]. by rewrite Hkey, IH. Qed.

Lemma llen_map {A B} (h : A -> B) l : llen (map h l) = llen l.
Proof. unfold llen. by rewrite length_map. Qed.

(** ** Goal deliveries *)

Lemma finding_fields html finding : ReviewFinding.fields html (Evidence.reread_finding finding) = ReviewFinding.fields html finding.
Proof. done. Qed.

Lemma findings_field_reread html findings :
  Receipt.findings_field html (Evidence.reread_findings findings) = Receipt.findings_field html findings.
Proof. destruct findings as [[|f l]|]; [done| |done]. cbn. by rewrite map_map. Qed.

Lemma evidence_encode_reread html evidence : Evidence.encode html (Evidence.reread evidence) = Evidence.encode html evidence.
Proof.
  destruct evidence as [? ? ? ? ? ? ? ? ? ? ? payload ?]. unfold Evidence.encode, Evidence.reread.
  cbn [Evidence.SchemaVersion Evidence.EvidenceID Evidence.RunID Evidence.EvidenceKey Evidence.Kind Evidence.subject
       Evidence.SubjectHash Evidence.sourceRef Evidence.SourceRevision Evidence.ValidatorProfile Evidence.Verdict
       Evidence.Payload Evidence.ObservedAt].
  assert (Receipt.fields html (Evidence.reread_receipt payload) = Receipt.fields html payload) as ->; [|done].
  unfold Receipt.fields, Evidence.reread_receipt. cbn [Receipt.Findings]. by rewrite findings_field_reread.
Qed.

Lemma enc_evidence_reread html evidence :
  enc_ptr (Evidence.encode html) (option_map Evidence.reread evidence) = enc_ptr (Evidence.encode html) evidence.
Proof. destruct evidence as [e|]; [|done]. cbn. by rewrite evidence_encode_reread. Qed.

Lemma digest_reread delivery : GoalDelivery.digest (reread_delivery delivery) = GoalDelivery.digest delivery.
Proof.
  unfold GoalDelivery.digest, GoalDelivery.digestEnvelope, reread_delivery. cbn [GoalDelivery.evidence setf].
  destruct delivery. cbv [GoalDelivery.set_evidence GoalDelivery.Kind]. cbn.
  by rewrite enc_evidence_reread.
Qed.

Lemma is_nil_map {A B} (f : A -> B) o : is_nil (option_map f o) = is_nil o.
Proof. by destruct o. Qed.

(** A stored body passes its kind's check when it did before and decodes. *)
Lemma validBody_reread runID delivery :
  decodable_delivery (reread_delivery delivery) = true ->
  GoalDelivery.validBody runID delivery = true -> GoalDelivery.validBody runID (reread_delivery delivery) = true.
Proof.
  destruct delivery as [kind id digest fence ready attach stopped evidence usage].
  unfold decodable_delivery, GoalDelivery.validBody, reread_delivery. cbn.
  rewrite is_nil_map. intros [Hdec _]%andb_prop. repeat case_match; try done.
  intros Hbody. breflect. destruct evidence as [e|]; [|done]. cbn in *. breflect. subst.
  rewrite !String.eqb_refl, Hdec. repeat (apply andb_true_iff; split); done.
Qed.

Lemma prepare_reread runID delivery prepared :
  decodable_delivery (reread_delivery delivery) = true -> GoalDelivery.prepare runID delivery = Ok prepared ->
  GoalDelivery.prepare runID (reread_delivery delivery) = Ok (reread_delivery prepared).
Proof.
  unfold GoalDelivery.prepare. intros Hdec Hrun. inv_ok. rewrite digest_reread. subst.
  change (GoalDelivery.fence (reread_delivery delivery)) with (GoalDelivery.fence delivery).
  change (GoalDelivery.Kind (reread_delivery delivery)) with (GoalDelivery.Kind delivery).
  change (GoalDelivery.DeliveryID (reread_delivery delivery)) with (GoalDelivery.DeliveryID delivery).
  change (GoalDelivery.PayloadDigest (reread_delivery delivery)) with (GoalDelivery.PayloadDigest delivery).
  apply negb_false_iff in E1. rewrite E, E0, (validBody_reread _ _ Hdec E1), E2. done.
Qed.

Lemma reread_unstamped delivery :
  (reread_delivery delivery) <| GoalDelivery.PayloadDigest := "" |> =
  reread_delivery (delivery <| GoalDelivery.PayloadDigest := "" |>).
Proof. reflexivity. Qed.

Lemma validatePersisted_reread runID delivery :
  decodable_delivery (reread_delivery delivery) = true ->
  GoalDelivery.validatePersisted runID delivery = Ok tt -> GoalDelivery.validatePersisted runID (reread_delivery delivery) = Ok tt.
Proof.
  unfold GoalDelivery.validatePersisted. intros Hdec Hrun. inv_ok.
  change (GoalDelivery.PayloadDigest (reread_delivery delivery)) with (GoalDelivery.PayloadDigest delivery). rewrite E.
  rewrite reread_unstamped. erewrite prepare_reread; [|exact Hdec|exact E0].
  cbn [rbind].
  change (GoalDelivery.PayloadDigest (reread_delivery a)) with (GoalDelivery.PayloadDigest a). by rewrite E1.
Qed.

(** The journal read back, and that its bodies decode. *)
Definition rereadable (journal : RunJournal.t) : Prop := decodable (reread_fields journal) = true.

Lemma rereadable_inv journal :
  rereadable journal ->
  (forall d, In d journal.(PendingGoalDeliveries) -> decodable_delivery (reread_delivery d) = true) /\
  (forall d, In d journal.(DeliveredGoalDeliveries) -> decodable_delivery (reread_delivery d) = true) /\
  (forall r, In r journal.(RetiredGoalDeliveries) ->
     decodable_delivery (reread_delivery r.(GoalDeliveryRetirement.Delivery)) = true).
Proof.
  unfold rereadable, decodable. intros [[Hp Hd]%andb_prop Hr]%andb_prop. rewrite !forallb_forall in *.
  split_and!; [intros d Hin; apply Hp|intros d Hin; apply Hd|intros r Hin; apply (Hr (reread_retirement r))]; by apply in_map.
Qed.

(** Replace the loop over a mapped list by the result of the original loop. *)
Ltac rewrite_loop result loop :=
  lazymatch goal with
  | |- context [for_each ?g ?s (map ?h ?l)] =>
      assert (for_each g s (map h l) = Ok result) as ->; [eapply for_each_map; cycle 1; [exact loop|]|]
  end.

Lemma validateGoalDeliveries_reread journal :
  rereadable journal -> validateGoalDeliveries journal = Ok tt -> validateGoalDeliveries (reread_fields journal) = Ok tt.
Proof.
  intros (Hp & Hd & Hr)%rereadable_inv. unfold validateGoalDeliveries.
  intros (s1 & H1 & (s2 & H2 & (s3 & H3 & H4)%rbind_ok)%rbind_ok)%rbind_ok.
  read_field (PendingGoalDeliveries (reread_fields journal)) (map reread_delivery journal.(PendingGoalDeliveries)).
  read_field (DeliveredGoalDeliveries (reread_fields journal)) (map reread_delivery journal.(DeliveredGoalDeliveries)).
  read_field (RetiredGoalDeliveries (reread_fields journal)) (map reread_retirement journal.(RetiredGoalDeliveries)).
  read_field (fence (reread_fields journal)) (fence journal). read_field (RunID (reread_fields journal)) (RunID journal).
  read_field (GoalDeliveryEnabled (reread_fields journal)) (GoalDeliveryEnabled journal). rewrite !llen_map.
  rewrite_loop s1 H1.
  { intros s x s' Hin Hrun. clear H1 H2 H3 H4. cbv beta in Hrun. inv_ok.
    change (GoalDelivery.fence (reread_delivery x)) with (GoalDelivery.fence x). rewrite E.
    destruct a. rewrite (validatePersisted_reread _ _ (Hp _ Hin) E0). exact Hrun. }
  cbn [rbind]. rewrite_loop s2 H2.
  { intros s x s' Hin Hrun. clear H1 H2 H3 H4. cbv beta in Hrun. inv_ok.
    change (GoalDelivery.Ready (reread_delivery x)) with (GoalDelivery.Ready x).
    change (GoalDelivery.fence (reread_delivery x)) with (GoalDelivery.fence x). rewrite E.
    destruct a. rewrite (validatePersisted_reread _ _ (Hd _ Hin) E0). exact Hrun. }
  cbn [rbind]. rewrite_loop s3 H3.
  { intros s x s' Hin Hrun. clear H1 H2 H3 H4. cbv beta in Hrun. inv_ok. destruct a. unfold GoalDeliveryRetirement.validate in *. inv_ok.
    change (GoalDelivery.fence (GoalDeliveryRetirement.Delivery (reread_retirement x)))
      with (GoalDelivery.fence (GoalDeliveryRetirement.Delivery x)).
    cbn [GoalDeliveryRetirement.StatusCode GoalDeliveryRetirement.Code GoalDeliveryRetirement.Message
         GoalDeliveryRetirement.RetiredAt GoalDeliveryRetirement.Delivery reread_retirement]. rewrite E0.
    rewrite (validatePersisted_reread _ _ (Hr _ Hin) E). exact Hrun. }
  exact H4.
Qed.

(** ** The outbox *)

Lemma validEvent_reread event : validEvent event = true -> validEvent (reread_event event) = true.
Proof.
  unfold validEvent. intros [H1 H2]%andb_prop. apply andb_true_iff. split; [exact H1|by apply validRawMessage_payload].
Qed.

Lemma validEvents_reread last limit events :
  validEvents last limit events = true -> validEvents last limit (map reread_event events) = true.
Proof.
  revert last. induction events as [|event events IH]; intros last; cbn [validEvents map]; [done|].
  intros [[[H1 H2]%andb_prop H3]%andb_prop H4]%andb_prop. apply IH in H4. apply validEvent_reread in H1.
  change (RunEvent.Sequence (reread_event event)) with (RunEvent.Sequence event). by rewrite H1, H2, H3.
Qed.

Lemma validTransition_reread transition : validTransition transition = true -> validTransition (reread_transition transition) = true.
Proof.
  unfold validTransition. intros [H1 H2]%andb_prop. apply andb_true_iff. split; [exact H1|by apply validRawMessage_payload].
Qed.

Lemma transition_ids_reread transitions :
  map StateTransitionRequest.TransitionID (map reread_transition transitions) = map StateTransitionRequest.TransitionID transitions.
Proof. by rewrite map_map. Qed.

Lemma hasPendingTerminal_reread transitions :
  hasPendingTerminalTransition (map reread_transition transitions) = hasPendingTerminalTransition transitions.
Proof. unfold hasPendingTerminalTransition. induction transitions as [|t l IH]; cbn [map existsb]; [done|]. by rewrite IH. Qed.

Lemma validateOutbox_reread journal : validateOutbox journal = Ok tt -> validateOutbox (reread_fields journal) = Ok tt.
Proof.
  unfold validateOutbox. intros Hrun. inv_ok. clear Hrun.
  read_field (PendingEvents (reread_fields journal)) (map reread_event journal.(PendingEvents)).
  read_field (PendingTransitions (reread_fields journal)) (map reread_transition journal.(PendingTransitions)).
  apply negb_false_iff in E, E0.
  read_field (LastEventSequence (reread_fields journal)) (journal.(LastEventSequence)). rewrite validEvents_reread by done.
  assert (forallb (fun transition => validTransition transition &&
      sameFence transition.(StateTransitionRequest.fence) (fence (reread_fields journal)))
      (map reread_transition journal.(PendingTransitions)) = true) as ->.
  { apply forallb_forall. intros ? (t & <- & Hin)%in_map_iff. rewrite forallb_forall in E0.
    apply E0, andb_prop in Hin as [Ht Hf]. by rewrite (validTransition_reread _ Ht). }
  assert (validAttemptedTransitions (AttemptedTransitionIDs (reread_fields journal)) (map reread_transition journal.(PendingTransitions)) =
          validAttemptedTransitions journal.(AttemptedTransitionIDs) journal.(PendingTransitions)) as ->.
  { unfold validAttemptedTransitions. by rewrite transition_ids_reread. }
  rewrite E1. exact (proj2 (if_reject_ok _ _ _ _) (conj E2 eq_refl)).
Qed.

(** ** Commands and provider actions *)

Lemma eventContradicts_reread intent event :
  ControlCommandIntent.valid intent = true -> validEvent event = true ->
  eventContradicts intent (reread_event event) = true -> eventContradicts intent event = true.
Proof.
  intros Hintent [_ Hpayload]%andb_prop. unfold eventContradicts.
  change (RunEvent.Kind (reread_event event)) with (RunEvent.Kind event).
  change (RunEvent.Payload (reread_event event)) with (reread_payload (RunEvent.Payload event)). unfold controlReceipt.
  destruct (unmarshal_payload ["command_id"; "kind"; "outcome"] _ Hpayload) as [->|[_ ->]]; [done|].
  cbn [map some_and]. unfold ControlCommandIntent.valid, validRequiredString in Hintent. breflect.
  destruct ("" =s ControlCommandIntent.CommandID intent) eqn:Eid; [|by rewrite andb_false_r].
  apply String.eqb_eq in Eid. rewrite <- Eid in *. done.
Qed.

Lemma transitionContradicts_reread intent transition :
  ControlCommandIntent.valid intent = true -> validTransition transition = true ->
  transitionContradicts intent (reread_transition transition) = true -> transitionContradicts intent transition = true.
Proof.
  intros Hintent [_ Hpayload]%andb_prop. unfold transitionContradicts.
  change (StateTransitionRequest.TransitionID (reread_transition transition)) with (StateTransitionRequest.TransitionID transition).
  change (StateTransitionRequest.State (reread_transition transition)) with (StateTransitionRequest.State transition).
  change (StateTransitionRequest.Payload (reread_transition transition)) with (reread_payload (StateTransitionRequest.Payload transition)).
  unfold transitionCommandID. destruct (unmarshal_payload ["command_id"] _ Hpayload) as [->|[-> _]]; [done|].
  intros [H1 H2]%andb_prop. rewrite H1. cbn [andb]. by rewrite !orb_true_r.
Qed.

Lemma existsb_reread {A} (p : A -> bool) (h : A -> A) (q : A -> bool) l :
  forallb q l = true -> (forall x, q x = true -> p (h x) = true -> p x = true) ->
  existsb p l = false -> existsb p (map h l) = false.
Proof.
  intros Hq Himp. induction l as [|x l IH]; cbn in *; [done|]. apply andb_prop in Hq as [Hx Hl].
  intros [H1 H2]%orb_false_iff. rewrite (IH Hl H2), orb_false_r. destruct (p (h x)) eqn:E; [|done].
  apply Himp in E; congruence.
Qed.

Lemma validEvents_all last limit events : validEvents last limit events = true -> forallb validEvent events = true.
Proof.
  revert last. induction events as [|event events IH]; intros last; cbn [validEvents forallb]; [done|].
  intros [[[H1 H2]%andb_prop H3]%andb_prop H4%IH]%andb_prop. by rewrite H1, H4.
Qed.

Lemma validateControlCommandIntents_reread journal :
  validateOutbox journal = Ok tt ->
  validateControlCommandIntents journal = Ok tt -> validateControlCommandIntents (reread_fields journal) = Ok tt.
Proof.
  unfold validateOutbox. intros Hout. inv_ok. apply negb_false_iff in E, E0. apply validEvents_all in E.
  assert (forallb validTransition journal.(PendingTransitions) = true) as Ht.
  { rewrite forallb_forall in *. intros t Hin. by apply E0, andb_prop in Hin as [? _]. }
  clear Hout E0 E1 E2. unfold validateControlCommandIntents.
  intros (seen & Hloop & _)%rbind_ok.
  read_field (ControlCommandIntents (reread_fields journal)) (journal.(ControlCommandIntents)).
  rewrite <- (map_id journal.(ControlCommandIntents)). rewrite_loop seen Hloop; [|done].
  intros s intent s' _ Hrun. unfold validateControlCommandIntent in *.
  apply if_reject_ok in Hrun as [Hshape Hrun]. apply if_reject_ok in Hrun as [H1 Hrun]. apply if_reject_ok in Hrun as [H2 Hrun].
  apply if_reject_ok in Hrun as [H3 Hrun]. apply if_reject_ok in Hrun as [H4 Hrun]. apply if_reject_ok in Hrun as [H5 Hrun].
  apply if_reject_ok in Hrun as [H6 Hrun].
  assert (ControlCommandIntent.valid intent = true) as Hvalid.
  { clear - Hshape. destruct (ControlCommandIntent.valid intent); [done|]. by rewrite orb_true_r in Hshape. }
  apply if_reject_ok; split; [exact Hshape|]. apply if_reject_ok; split; [exact H1|]. apply if_reject_ok; split; [exact H2|].
  apply if_reject_ok; split; [exact H3|]. apply if_reject_ok; split; [exact H4|]. apply if_reject_ok; split.
  { apply (existsb_reread _ reread_event validEvent); [done| |done]. intros; by apply eventContradicts_reread. }
  apply if_reject_ok; split; [|exact Hrun].
  apply (existsb_reread _ reread_transition validTransition); [done| |done]. intros; by apply transitionContradicts_reread.
Qed.

Lemma normalize_reread result normalized :
  normalizeProviderActionResult result = Some normalized -> normalizeProviderActionResult (reread_omitted result) = Some normalized.
Proof.
  unfold normalizeProviderActionResult, reread_omitted. rewrite !len_zero. destruct (result =s "") eqn:E; [done|].
  destruct (parse_document result) as [v|] eqn:Hdoc; [|done]. apply parse_document_compact in Hdoc. rewrite Hdoc.
  destruct (compact false result =s "") eqn:Ec; [|done]. apply String.eqb_eq in Ec. by rewrite Ec in Hdoc.
Qed.

Lemma validResult_reread result : validProviderActionResult result = true -> validProviderActionResult (reread_omitted result) = true.
Proof.
  unfold validProviderActionResult. intros (normalized & Hn & Hlen)%some_and_true. by rewrite (normalize_reread _ _ Hn).
Qed.

Lemma validAction_reread intent :
  ProviderActionIntent.validPrepared intent || ProviderActionIntent.validCompleted intent = true ->
  ProviderActionIntent.validPrepared (reread_action intent) || ProviderActionIntent.validCompleted (reread_action intent) = true.
Proof.
  destruct intent as [id key digest resource operation outcome result code].
  unfold ProviderActionIntent.validPrepared, ProviderActionIntent.validCompleted, reread_action. cbn.
  change (ProviderActionIntent.validIdentity ?a) with
    (ProviderActionIntent.validIdentity (ProviderActionIntent.mk id key digest resource operation "" "" "")).
  assert ((len result =? 0) = true -> (len (reread_omitted result) =? 0) = true) as Hempty.
  { rewrite !len_zero. unfold reread_omitted. by destruct (result =s ""). }
  assert (validProviderActionResult result = true -> validProviderActionResult (reread_omitted result) = true) as Hresult
    by apply validResult_reread.
  intros [Hprepared|Hcompleted]%orb_prop; apply orb_true_iff; [left|right].
  - apply andb_prop in Hprepared as [[[Hid Hout]%andb_prop Hlen]%andb_prop Hcode]. by rewrite Hid, Hout, (Hempty Hlen).
  - apply andb_prop in Hcompleted as [Hid Hbody]. rewrite Hid. cbn [andb].
    destruct (outcome =s "succeeded"); [|destruct (outcome =s "failed"); [|destruct (outcome =s "unknown"); [|done]]];
      apply andb_prop in Hbody as [Hbody Hcode]; rewrite Hcode, andb_true_r; [by apply Hresult|by apply Hempty|].
    apply orb_true_iff. apply orb_prop in Hbody as [Hbody|Hbody]; auto.
Qed.

Lemma validateProviderActionIntents_reread journal :
  validateProviderActionIntents journal = Ok tt -> validateProviderActionIntents (reread_fields journal) = Ok tt.
Proof.
  unfold validateProviderActionIntents. intros Hrun. inv_ok. clear Hrun.
  read_field (ProviderActionIntents (reread_fields journal)) (map reread_action journal.(ProviderActionIntents)).
  read_field (hasClaimGrant (reread_fields journal)) (hasClaimGrant journal).
  read_field (LocalState (reread_fields journal)) (journal.(LocalState)). rewrite llen_map, E.
  assert (forallb (fun intent => ProviderActionIntent.validPrepared intent || ProviderActionIntent.validCompleted intent)
            (map reread_action journal.(ProviderActionIntents)) = true) as ->.
  { apply negb_false_iff in E0. rewrite forallb_forall in *. intros ? (intent & <- & Hin)%in_map_iff.
    by apply validAction_reread, E0. }
  rewrite (distinct_keys_map ProviderActionIntent.ActionKey ProviderActionIntent.ActionKey) by done.
  rewrite (distinct_keys_map ProviderActionIntent.ActionID ProviderActionIntent.ActionID) by done. rewrite E1, E2.
  assert (existsb (fun intent => intent.(ProviderActionIntent.Outcome) =s "") (map reread_action journal.(ProviderActionIntents)) =
          existsb (fun intent => intent.(ProviderActionIntent.Outcome) =s "") journal.(ProviderActionIntents)) as ->.
  { generalize journal.(ProviderActionIntents). intros l. induction l as [|x l IH]; cbn [map existsb]; [done|]. by rewrite IH. }
  by rewrite E3.
Qed.

(** ** Lease and terminal state *)

Lemma recovery_reread recovery :
  NativeUsageTerminalRecovery.valid recovery = true -> NativeUsageTerminalRecovery.valid (reread_recovery recovery) = true.
Proof.
  unfold NativeUsageTerminalRecovery.valid. intros [[Hstate Hpayload]%andb_prop Hcommand]%andb_prop.
  apply andb_true_iff. split; [|exact Hcommand]. apply andb_true_iff. split; [exact Hstate|].
  by apply validRawMessage_payload.
Qed.

Lemma validTerminalState_reread journal : validTerminalState journal = true -> validTerminalState (reread_fields journal) = true.
Proof.
  unfold validTerminalState. intros [Hrec Hrest]%andb_prop. apply andb_true_iff. split.
  - read_field (NativeUsageTerminalRecovery (reread_fields journal)) (option_map reread_recovery journal.(NativeUsageTerminalRecovery)).
    destruct journal.(NativeUsageTerminalRecovery) as [recovery|]; [|done]. by apply recovery_reread.
  - etransitivity; [|exact Hrest]. read_field (PendingTransitions (reread_fields journal)) (map reread_transition journal.(PendingTransitions)).
    read_field (PendingEvents (reread_fields journal)) (map reread_event journal.(PendingEvents)).
    rewrite hasPendingTerminal_reread, !llen_map. reflexivity.
Qed.

Lemma validWork_reread work : validWork work = true -> validWork (reread_work work) = true.
Proof.
  unfold validWork. intros [Hwork Hinput]%andb_prop. apply andb_true_iff. split; [exact Hwork|by apply validRawMessage_omitted].
Qed.

Lemma validateLeaseAndTerminal_reread journal :
  validateLeaseAndTerminal journal = Ok tt -> validateLeaseAndTerminal (reread_fields journal) = Ok tt.
Proof.
  unfold validateLeaseAndTerminal. intros Hrun. apply if_reject_ok in Hrun as [H1 Hrun]. apply if_reject_ok in Hrun as [H2 Hrun].
  apply orb_false_iff in H1 as [H1 Hwork%negb_false_iff]. apply negb_false_iff in H2.
  read_field (LeaseToken (reread_fields journal)) (journal.(LeaseToken)).
  read_field (LeaseExpiresAt (reread_fields journal)) (journal.(LeaseExpiresAt)).
  read_field (Work (reread_fields journal)) (reread_work journal.(Work)).
  rewrite H1, (validWork_reread _ Hwork), (validTerminalState_reread _ H2). cbn [negb orb].
  etransitivity; [|exact Hrun].
  read_field (NativeUsageTerminalRecovery (reread_fields journal)) (option_map reread_recovery journal.(NativeUsageTerminalRecovery)).
  read_field (PendingTransitions (reread_fields journal)) (map reread_transition journal.(PendingTransitions)).
  read_field (PendingEvents (reread_fields journal)) (map reread_event journal.(PendingEvents)).
  unfold non_nil at 1. rewrite is_nil_map, !llen_map. reflexivity.
Qed.

(** ** Machine-local clone *)

Lemma delivered_persisted journal :
  validateGoalDeliveries journal = Ok tt ->
  Forall (fun d => GoalDelivery.validatePersisted journal.(RunID) d = Ok tt) journal.(DeliveredGoalDeliveries).
Proof.
  unfold validateGoalDeliveries. intros (s1 & _ & (s2 & H2 & _)%rbind_ok)%rbind_ok.
  eapply for_each_Forall; [|exact H2]. cbv beta. intros s x s' Hrun. inv_ok. by destruct a.
Qed.

Lemma reread_prepared_evidence runID delivery evidence prepared :
  GoalDelivery.prepare runID delivery = Ok prepared -> delivery.(GoalDelivery.evidence) = Some evidence ->
  Evidence.Validate evidence = true.
Proof.
  unfold GoalDelivery.prepare. intros Hrun He. inv_ok. apply negb_false_iff in E1. unfold GoalDelivery.validBody in E1.
  rewrite He in E1. cbn [is_nil some_and] in E1. repeat case_match; breflect; done.
Qed.

Lemma artifact_reread journal subject subjectHash delivery :
  decodable_delivery (reread_delivery delivery) = true ->
  GoalDelivery.validatePersisted journal.(RunID) delivery = Ok tt ->
  artifactDelivery (reread_fields journal) subject subjectHash (reread_delivery delivery) =
  artifactDelivery journal subject subjectHash delivery.
Proof.
  intros Hdec Hpersisted. unfold GoalDelivery.validatePersisted in Hpersisted. inv_ok. clear Hpersisted.
  assert (forall e, delivery.(GoalDelivery.evidence) = Some e -> Evidence.Validate e = true) as Hvalid.
  { intros e He. by eapply reread_prepared_evidence. }
  unfold artifactDelivery.
  change (GoalDelivery.evidence (reread_delivery delivery)) with (option_map Evidence.reread delivery.(GoalDelivery.evidence)).
  destruct delivery.(GoalDelivery.evidence) as [e|] eqn:He; [|done]. cbn [option_map].
  read_field (RunID (reread_fields journal)) (journal.(RunID)). read_field (fence (reread_fields journal)) (fence journal).
  rewrite reread_unstamped. erewrite prepare_reread; [|exact Hdec|exact E0]. rewrite E0, (Hvalid e eq_refl).
  assert (Evidence.Validate (Evidence.reread e) = true) as ->.
  { unfold decodable_delivery in Hdec. apply andb_prop in Hdec as [Hdec _].
    change (GoalDelivery.evidence (reread_delivery delivery)) with (option_map Evidence.reread delivery.(GoalDelivery.evidence)) in Hdec.
    by rewrite He in Hdec. }
  reflexivity.
Qed.

Lemma first_some_map {A B C} (f : A -> option C) (g : B -> option C) (h : A -> B) l :
  Forall (fun x => g (h x) = f x) l -> first_some g (map h l) = first_some f l.
Proof. intros Hall. induction Hall as [|x l Hx Hl IH]; cbn [first_some map]; [done|]. by rewrite Hx, IH. Qed.

Section Clone.
Context `{LayoutFree}.

(** The admission a valid work input holds is found again. *)
Lemma admission_reread work admission :
  validWork work = true -> ParseAdmissionInput work.(Work.Input) = Some (Some admission) ->
  ParseAdmissionInput (reread_work work).(Work.Input) = Some (Some admission).
Proof.
  intros [_ Hinput]%andb_prop Hrun. cbn [reread_work Work.Input]. unfold reread_omitted.
  apply validRawMessage_inv in Hinput as [E|[Hvalid _]]; [by rewrite E in *|].
  destruct (Work.Input work =s "") eqn:E; [apply String.eqb_eq in E; by rewrite E in *|].
  by apply ParseAdmissionInput_compact.
Qed.

Lemma fenceSubject_reread journal intent :
  validWork journal.(Work) = true -> requireLinuxCloneJournalFenceSubject journal intent = true ->
  requireLinuxCloneJournalFenceSubject (reread_fields journal) intent = true.
Proof.
  intros Hwork. unfold requireLinuxCloneJournalFenceSubject.
  read_field (Work (reread_fields journal)) (reread_work journal.(Work)).
  destruct (ParseAdmissionInput _) as [[admission|]|] eqn:Ha; try done. by rewrite (admission_reread _ _ Hwork Ha).
Qed.

Lemma artifactIdentity_reread journal identity :
  validWork journal.(Work) = true -> rereadable journal -> validateGoalDeliveries journal = Ok tt ->
  linuxCloneDeliveredArtifactIdentity journal = Some identity ->
  linuxCloneDeliveredArtifactIdentity (reread_fields journal) = Some identity.
Proof.
  intros Hwork (_ & Hdec & _)%rereadable_inv Hpersisted%delivered_persisted. unfold linuxCloneDeliveredArtifactIdentity.
  read_field (Work (reread_fields journal)) (reread_work journal.(Work)).
  read_field (DeliveredGoalDeliveries (reread_fields journal)) (map reread_delivery journal.(DeliveredGoalDeliveries)).
  read_field (LinuxClonePromotionIntent (reread_fields journal)) (journal.(LinuxClonePromotionIntent)).
  intros (intent & -> & Hrun)%bind_Some. cbn [mbind option_bind].
  read_field (GoalDeliveryEnabled (reread_fields journal)) (journal.(GoalDeliveryEnabled)).
  read_field (TerminalState (reread_fields journal)) (journal.(TerminalState)).
  read_field (TerminalTaskResultKind (reread_fields journal)) (journal.(TerminalTaskResultKind)).
  destruct (negb _); [done|]. destruct (ParseAdmissionInput _) as [[admission|]|] eqn:Ha; try done.
  rewrite (admission_reread _ _ Hwork Ha). destruct (_ || _); [done|].
  apply bind_Some in Hrun as (subjectHash & Hhash & Hrun). rewrite Hhash. cbn [mbind option_bind].
  etransitivity; [apply first_some_map|exact Hrun].
  rewrite Forall_forall in Hpersisted |- *. intros d Hin. apply artifact_reread; [apply Hdec; by apply list_elem_of_In|auto].
Qed.

(** The cleanup intent is a function of these fields and the artifact. *)
Lemma cleanupIntent_frame before after identity cleanup :
  after.(LinuxCloneIntent) = before.(LinuxCloneIntent) -> after.(LinuxCloneSeedReceipt) = before.(LinuxCloneSeedReceipt) ->
  after.(LinuxCloneCheckoutReceipt) = before.(LinuxCloneCheckoutReceipt) ->
  after.(LinuxClonePromotionIntent) = before.(LinuxClonePromotionIntent) ->
  after.(LinuxClonePromotionReceipt) = before.(LinuxClonePromotionReceipt) ->
  after.(ContainmentCgroupReleaseProof) = before.(ContainmentCgroupReleaseProof) ->
  after.(RunID) = before.(RunID) -> after.(Generation) = before.(Generation) -> fence after = fence before ->
  linuxCloneDeliveredArtifactIdentity before = Some identity -> linuxCloneDeliveredArtifactIdentity after = Some identity ->
  linuxCloneCleanupIntentFromJournal before = Some cleanup -> linuxCloneCleanupIntentFromJournal after = Some cleanup.
Proof.
  unfold linuxCloneCleanupIntentFromJournal. intros -> -> -> -> -> -> -> -> -> Hbefore Hafter. rewrite Hbefore, Hafter.
  exact id.
Qed.

Lemma cleanupIntent_reread journal cleanup :
  validWork journal.(Work) = true -> rereadable journal -> validateGoalDeliveries journal = Ok tt ->
  linuxCloneCleanupIntentFromJournal journal = Some cleanup ->
  linuxCloneCleanupIntentFromJournal (reread_fields journal) = Some cleanup.
Proof.
  intros Hwork Hread Hdeliveries Hrun.
  assert (exists identity, linuxCloneDeliveredArtifactIdentity journal = Some identity) as [identity Hidentity].
  { unfold linuxCloneCleanupIntentFromJournal in Hrun. clear - Hrun.
    repeat (apply bind_Some in Hrun as (? & ? & Hrun)). eauto. }
  pose proof (artifactIdentity_reread _ _ Hwork Hread Hdeliveries Hidentity) as Hafter.
  revert Hidentity Hafter Hrun. by apply cleanupIntent_frame.
Qed.

Lemma validateCloneCleanup_reread journal intent :
  validWork journal.(Work) = true -> rereadable journal -> validateGoalDeliveries journal = Ok tt ->
  validateCloneCleanup journal intent = Ok tt -> validateCloneCleanup (reread_fields journal) intent = Ok tt.
Proof.
  intros Hwork Hread Hdeliveries. unfold validateCloneCleanup.
  read_field (LinuxCloneCleanupIntent (reread_fields journal)) (journal.(LinuxCloneCleanupIntent)).
  destruct journal.(LinuxCloneCleanupIntent) as [stored|]; [|exact id].
  destruct (linuxCloneCleanupIntentFromJournal journal) as [cleanup|] eqn:Hfrom; [|done].
  rewrite (cleanupIntent_reread _ _ Hwork Hread Hdeliveries Hfrom). exact id.
Qed.

Lemma validateClonePromotion_reread journal intent :
  validWork journal.(Work) = true -> rereadable journal -> validateGoalDeliveries journal = Ok tt ->
  validateClonePromotion journal intent = Ok tt -> validateClonePromotion (reread_fields journal) intent = Ok tt.
Proof.
  intros Hwork Hread Hdeliveries. unfold validateClonePromotion.
  read_field (LinuxClonePromotionIntent (reread_fields journal)) (journal.(LinuxClonePromotionIntent)).
  read_field (LinuxClonePromotionReceipt (reread_fields journal)) (journal.(LinuxClonePromotionReceipt)).
  destruct journal.(LinuxClonePromotionIntent) as [promotion|]; [|exact id].
  destruct journal.(LinuxClonePromotionReceipt) as [receipt|]; [|exact id].
  intros [H1 [H2 Hrun]%if_reject_ok]%if_reject_ok.
  apply if_reject_ok; split; [exact H1|]. apply if_reject_ok; split; [exact H2|]. by apply validateCloneCleanup_reread.
Qed.

Lemma validateLinuxCloneJournal_reread journal :
  validWork journal.(Work) = true -> rereadable journal -> validateGoalDeliveries journal = Ok tt ->
  validateLinuxCloneJournal journal = Ok tt -> validateLinuxCloneJournal (reread_fields journal) = Ok tt.
Proof.
  intros Hwork Hread Hdeliveries. unfold validateLinuxCloneJournal.
  read_field (LinuxCloneIntent (reread_fields journal)) (journal.(LinuxCloneIntent)).
  destruct journal.(LinuxCloneIntent) as [intent|]; [|exact id].
  intros [H1 [H2 Hrun]%if_reject_ok]%if_reject_ok. apply negb_false_iff in H2.
  apply if_reject_ok; split; [exact H1|].
  rewrite (fenceSubject_reread _ _ Hwork H2). cbn [negb].
  apply if_reject_ok in Hrun as [H3 Hrun]. apply if_reject_ok in Hrun as [H4 Hrun].
  apply if_reject_ok; split; [exact H3|]. apply if_reject_ok; split; [exact H4|].
  read_field (LinuxCloneAbortPending (reread_fields journal)) (journal.(LinuxCloneAbortPending)).
  read_field (LinuxCloneAbortProof (reread_fields journal)) (journal.(LinuxCloneAbortProof)).
  read_field (LinuxCloneCheckoutReceipt (reread_fields journal)) (journal.(LinuxCloneCheckoutReceipt)).
  read_field (LinuxCloneSeedReceipt (reread_fields journal)) (journal.(LinuxCloneSeedReceipt)).
  clear H1 H3 H4. destruct (LinuxCloneAbortPending journal || _); [exact Hrun|].
  destruct journal.(LinuxCloneCheckoutReceipt) as [checkout|]; [|exact Hrun].
  destruct journal.(LinuxCloneSeedReceipt) as [seed|]; [|exact Hrun].
  apply if_reject_ok in Hrun as [H5 Hrun]. apply if_reject_ok; split; [exact H5|]. by apply validateClonePromotion_reread.
Qed.

(** ** The journal *)

Lemma valid_work journal : validateLeaseAndTerminal journal = Ok tt -> validWork journal.(Work) = true.
Proof.
  unfold validateLeaseAndTerminal. intros [[_ Hwork%negb_false_iff]%orb_false_iff _]%if_reject_ok. done.
Qed.

(** What was valid when it was written is valid when it is read. *)
Lemma valid_reread journal : valid_journal journal -> rereadable journal -> valid_journal (reread_fields journal).
Proof.
  unfold valid_journal, validateJournal. intros [Hkey Hrun]%if_reject_ok Hread.
  apply rbind_ok in Hrun as ([] & H1 & Hrun). apply rbind_ok in Hrun as ([] & H2 & Hrun).
  apply rbind_ok in Hrun as ([] & H3 & Hrun). apply rbind_ok in Hrun as ([] & H4 & Hrun).
  apply rbind_ok in Hrun as ([] & H5 & Hrun). apply rbind_ok in Hrun as ([] & H6 & Hrun).
  apply rbind_ok in Hrun as ([] & H7 & Hrun). apply rbind_ok in Hrun as ([] & H8 & Hrun).
  apply rbind_ok in Hrun as ([] & H9 & Hrun). apply rbind_ok in Hrun as ([] & H10 & Hrun).
  apply if_reject_ok in Hrun as [H11 Hrun]. apply rbind_ok in Hrun as ([] & H12 & Hrun).
  apply rbind_ok in Hrun as ([] & H13 & Hrun). apply rbind_ok in Hrun as ([] & H14 & _).
  apply if_reject_ok; split; [exact Hkey|].
  assert (validateProcess (reread_fields journal) = Ok tt) as -> by exact H1.
  assert (validateAuthority (reread_fields journal) = Ok tt) as -> by exact H2.
  assert (validateHandoff (reread_fields journal) = Ok tt) as -> by exact H3.
  assert (validateCgroup (reread_fields journal) = Ok tt) as -> by exact H4.
  assert (validateScans (reread_fields journal) = Ok tt) as -> by exact H5.
  assert (validateReleaseProofs (reread_fields journal) = Ok tt) as -> by exact H6.
  rewrite (validateLeaseAndTerminal_reread _ H7).
  rewrite (validateLinuxCloneJournal_reread _ (valid_work _ H7) Hread H10 H8).
  rewrite (validateOutbox_reread _ H9), (validateGoalDeliveries_reread _ Hread H10). cbn [rbind].
  apply if_reject_ok; split; [exact H11|].
  assert (validateInputCommandIntent (reread_fields journal) = Ok tt) as -> by exact H12.
  by rewrite (validateControlCommandIntents_reread _ H9 H13), (validateProviderActionIntents_reread _ H14).
Qed.
End Clone.
