(* ===== verification/Samples.v ===== *)
(** * Samples: one concrete run

    Instances of the parameters of the model and the journals of a small
    run, on which the theorems are instantiated: a claim, a running journal
    with an open control command and an open provider action, one waiting for
    input, and one that has ended. *)

From S2P Require Import Prelude Sha256 Json Authority Protocol Journal Validation Store Outbox ProviderAction.
From S2P Require Import Cgroup Containment Clone Native.
Import RunJournal.
Open Scope string_scope.
Open Scope Z_scope.

Module Samples.
(** Every envelope admits the same work, and a journal takes a kilobyte. *)
Definition digest : string := repeat_ascii "a" 64.
Definition resource : string := "01234567-89ab-4def-8123-456789abcdef".
Definition subject : Subject.t := Subject.mk resource (repeat_ascii "1" 40) ("sha256:" ++ digest).
Definition parser : AdmissionParser := fun _ => Some (Admission.mk "implement" subject).
Definition encoder : JournalEncoder := fun _ => Some 1024.
Definition platform : Platform := {| GOOS := "linux"; GOARCH := "amd64" |}.

Definition key : RunKey.t := RunKey.mk "run-1" 1.
Definition work : Work.t := Work.mk "goal" "profile" "workspace" "{}" ∅.

Definition claim : ClaimIntent.t := ClaimIntent.mk key "runtime-key" "runtime-1" 1 "claim-1" "" work "" "binding-1".

Definition claimed : RunJournal.t :=
  (claimJournal claim) <| LeaseToken := "lease-1" |> <| LeaseExpiresAt := 1000 |> <| LocalState := "claimed" |>.

Definition control : ControlCommandIntent.t :=
  ControlCommandIntent.mk "command-1" "pause" digest "transition-pause" "ack-1" "" false.

Definition action : ProviderActionIntent.t :=
  ProviderActionIntent.mk "action-1" "key-1" digest "resource-1" "change.upsert" "" "" "".

Definition event : RunEvent.t := RunEvent.mk "event-1" 1 "agent_event" 5 "{}".

Definition running : RunJournal.t :=
  claimed <| LocalState := "running" |> <| ControlCommandIntents := [control] |> <| ProviderActionIntents := [action] |>
          <| PendingEvents := [event] |> <| LastEventSequence := 1 |>.

Definition input : InputCommandIntent.t := InputCommandIntent.mk "command-2" digest "transition-input" "ack-2" 1 "" false.

Definition waiting : RunJournal.t :=
  claimed <| LocalState := "waiting_for_input" |> <| InputCommandIntent := Some input |> <| LastEventSequence := 1 |>.

Definition failed (payload : string) : StateTransitionRequest.t :=
  StateTransitionRequest.mk Fence.zero "transition-end" "failed" payload.

Definition ended : RunJournal.t :=
  match queueTerminalTransition (failed "{}") 50 running with Ok journal => journal | Err _ => running end.

Definition accepted : RunJournal.t :=
  ended <| PendingTransitions := [] |> <| PendingCommandAcknowledgements := [] |> <| PendingEvents := [] |>
        <| ControlCommandIntents := [] |> <| TerminalVerdict := "accepted" |> <| TerminalResolvedAt := 60 |>.

Definition store_of (journal : RunJournal.t) : Store :=
  mkStore true false {[ journalPath (Key journal) := Decodes journal ]}.

(** The same run contained on Linux: the processes of the launch, the leaf
    cgroup, the reservation as it grows, and the handoff, authority, stop
    receipt and release proof that follow it. *)
Definition process (pid : Z) (name : string) : LinuxCgroupProcessIdentity.t := LinuxCgroupProcessIdentity.mk pid name.
Definition anchor := process 10 "anchor".
Definition helper := process 11 "helper".
Definition launcher := process 12 "launcher".
Definition mirror := process 13 "mirror".
Definition agent := process 14 "agent".

Definition token (a : ascii) : string := repeat_ascii a 32.
Definition parent : LinuxCgroupParentIdentity.t :=
  LinuxCgroupParentIdentity.mk "01234567-89ab-cdef-0123-456789abcdef" 1 2 3 "/sys/fs/cgroup/symmetry".
Definition leaf : LinuxCgroupIdentity.t := LinuxCgroupIdentity.mk 2 parent (token "b") 2 4.

Definition exit_of (process witness : LinuxCgroupProcessIdentity.t) : LinuxCgroupExitProof.t :=
  LinuxCgroupExitProof.mk 2 process witness true true None.

Definition reserved : LinuxCgroupReservation.t :=
  LinuxCgroupReservation.mk 2 (token "a") (repeat_ascii "c" 64) (token "d") (token "e") 1000 0 "/run/owner.sock" parent
    (token "b") false false None anchor None None None None None (Some mirror) None None.

Definition granted : LinuxCgroupReservation.t :=
  LinuxCgroupReservation.mk 2 (token "a") (repeat_ascii "c" 64) (token "d") (token "e") 1000 0 "/run/owner.sock" parent
    (token "b") true true (Some leaf) anchor (Some helper) (Some launcher) (Some (exit_of launcher helper)) None None
    (Some mirror) None None.

Definition gate : LinuxCgroupGateIdentity.t :=
  LinuxCgroupGateIdentity.mk agent 1000 20 LinuxCgroupTargetBirthTrustedAGate leaf true true.

Definition abort_proof : LinuxCgroupReservationAbortProof.t :=
  LinuxCgroupReservationAbortProof.mk LinuxCgroupAbortProofVersion (token "a") parent (token "b") false false None
    "never_created" 1000 anchor mirror None None anchor None None true true true false true false false false.

Definition pre_gate_proof : LinuxCgroupPreGateStopProof.t :=
  LinuxCgroupPreGateStopProof.mk 2 LinuxCgroupStopProofHelper helper helper true true true true true true
    (exit_of launcher helper) None
    (LinuxCgroupGateProductionResult.mk 2 (token "a") launcher "never_created" (repeat_ascii "f" 64)).

Definition pre_gate_receipt : LinuxCgroupPreGateStopReceipt.t :=
  LinuxCgroupPreGateStopReceipt.mk 2 (token "a") leaf 1000 0 anchor helper launcher mirror pre_gate_proof.

Definition stop_proof : LinuxCgroupStopProof.t :=
  LinuxCgroupStopProof.mk 2 LinuxCgroupStopProofHelper helper helper true true true true true true
    (exit_of launcher helper) (exit_of agent helper) None.

Definition stop_receipt : StopReceipt.t :=
  StopReceipt.mk 2 "stopped" OwnerKindLinuxHelper "/run/owner.sock" 14 "agent" 1000 0 (token "d") (token "e") 11 "helper" 0
    LinuxCgroupTargetBirthTrustedAGate (Some leaf) (Some stop_proof).

Definition handoff : SupervisorHandoff.t :=
  SupervisorHandoff.mk 2 (token "a") (repeat_ascii "c" 64) OwnerKindLinuxHelper "/run/owner.sock" 14 "agent" 1000 0
    (token "d") (token "e") 11 "helper" LinuxCgroupTargetBirthTrustedAGate (Some leaf) 10 "anchor" 12 "launcher"
    (Some (exit_of launcher helper)) (Some mirror) None (Some stop_receipt) None.

Definition release : SupervisorHandoffReleaseProof.t :=
  SupervisorHandoffReleaseProof.mk 2 "released" (token "a") OwnerKindLinuxHelper "/run/owner.sock" 14 "agent" 1000 0
    (token "d") (token "e") 11 "helper" LinuxCgroupTargetBirthTrustedAGate (Some leaf) 10 "anchor" 12 "launcher"
    (Some (exit_of launcher helper)) (Some mirror) "removed" (Some stop_receipt) None.

Definition clone : LinuxCloneIntent.t :=
  LinuxCloneIntent.mk LinuxCloneVersion "run-1" 1 "binding-1" resource (repeat_ascii "1" 40)
    ("sha256:" ++ digest) (repeat_ascii "2" 64) "/seed/one" "/work/binding-binding-1/run-run-1/generation-1".

Definition seed : LinuxCloneSeedReceipt.t :=
  LinuxCloneSeedReceipt.mk LinuxCloneVersion (repeat_ascii "1" 40) ("sha256:" ++ digest) 10 1 7.

(** The evidence of a review that found nothing. *)
Definition subject_hash : string := match Subject.Hash subject with Some hash => hash | None => EmptyString end.
Definition review : Evidence.t :=
  Evidence.mk "symmetry.evidence.v1" resource resource "review-1" EvidenceReview subject subject_hash
    (SourceRef.mk EvidenceReview "ref-1" None (Some subject_hash) None None None (Some resource) None ∅)
    "revision-1" (Some "profile-1") "passed"
    (Receipt.mk (Some "predicate-1") (Some subject) None None None (Some subject_hash) None None None None None None None
       (Some resource) (Some []) (Some "passed") None None None {[ "findings" := "[]" ]}) "2026-01-02T03:04:05Z".

(** A run with a UUID, and the transition that refers to its review. *)
Definition reviewed : RunJournal.t := claimed <| LocalState := "running" |> <| RunID := resource |>.
Definition review_failed : StateTransitionRequest.t :=
  failed (enc_object [("evidence_refs", "[" ++ enc_str true resource ++ "]")]).

(** A session stop, as queued. *)
Definition session_stop : GoalSessionStoppedDelivery.t := GoalSessionStoppedDelivery.mk resource resource resource.

(** The claim of admitted work. *)
Definition admitted : RunJournal.t :=
  claimed <| Work := Work.mk "goal" "profile" "workspace"
    (enc_object [("schema_version", enc_str true AdmissionSchemaVersion)]) ∅ |>.

(** The stages of a launch, from the reservation of the cgroup to its
    release; [launch] is the requests and [journal_after n] the journal when
    [n] of them were served. *)
Definition started := reserved <| LinuxCgroupReservation.CreateStarted := true |>.
Definition measured := started <| LinuxCgroupReservation.LeafIdentity := Some leaf |>.
Definition helped := measured <| LinuxCgroupReservation.Helper := Some helper |>.
Definition launched := helped <| LinuxCgroupReservation.Launcher := Some launcher |>.
Definition armed := launched <| LinuxCgroupReservation.LauncherGrantPossible := true |>.
Definition exited := armed <| LinuxCgroupReservation.LauncherExit := Some (exit_of launcher helper) |>.
Definition bound := handoff <| SupervisorHandoff.StopReceipt := None |>.
Definition unbound :=
  bound <| SupervisorHandoff.SupervisorPID := 0 |> <| SupervisorHandoff.SupervisorIdentity := "" |>
        <| SupervisorHandoff.Mirror := None |>.

Definition launch : list native :=
  [OpReserveLinuxCgroup (fence claimed) reserved 30 ∅; OpMarkLinuxCgroupCreateStarted (fence claimed) reserved 30 ∅;
   OpBindLinuxCgroupLeaf started leaf; OpBindLinuxCgroupHelper measured helper; OpBindLinuxCgroupLauncher helped launcher;
   OpArmLinuxCgroupLauncherGrant (fence claimed) launched 30 ∅;
   OpRecordLinuxCgroupLauncherExit armed (exit_of launcher helper); OpBindLinuxCgroupGate exited gate;
   OpPrepareSupervisorHandoff unbound; OpBindSupervisorHandoffV2 unbound helper mirror;
   OpCommitSupervisorHandoff bound 20; OpRecordContainmentStopReceipt 14 "agent" stop_receipt;
   OpClearProcessDetailsV2 14 "agent" (OwnerRelease release)].

#[local] Existing Instance parser.
#[local] Existing Instance encoder.
#[local] Existing Instance platform.

Definition serve_all (ops : list native) (journal : RunJournal.t) : Store :=
  foldl (fun store op => native_execute io_ok store key op) (store_of journal) ops.

Definition stored (store : Store) (k : RunKey.t) : RunJournal.t :=
  match store.(runs) !! journalPath k with Some (Decodes journal) => journal | _ => RunJournal.zero end.

Definition journal_after (n : nat) : RunJournal.t := stored (serve_all (take n launch) claimed) key.

(** The launch after its first request, with the stop receipt recorded, and
    after the release. *)
Definition holding : RunJournal.t := Eval vm_compute in journal_after 1.
Definition stopped : RunJournal.t := Eval vm_compute in journal_after 12.
Definition gone : RunJournal.t := Eval vm_compute in journal_after 13.

(** A v1 handoff and the reports of its scans. *)
Definition v1 : SupervisorHandoff.t :=
  SupervisorHandoff.mk 1 (token "a") (repeat_ascii "c" 64) OwnerKindLinuxHelper "/run/owner.sock" 14 "agent" 0 0
    (token "d") (token "e") 0 "" "" None 0 "" 0 "" None None None None None.
Definition initial : SupervisorScanUpdate.t := SupervisorScanUpdate.mk 0 "" (token "f") "mirror" 1 "initialize" "".
Definition scan (owner phase : string) : native :=
  OpPrepareSupervisorHandoff (v1 <| SupervisorHandoff.ScanUpdate :=
    Some (SupervisorScanUpdate.mk 11 "helper" (token "f") owner 1 phase "") |>).
Definition scanning : RunJournal.t := Eval vm_compute in
  stored (serve_all
    [OpPrepareSupervisorHandoff v1;
     OpBindSupervisorHandoff (v1 <| SupervisorHandoff.ScanUpdate := Some initial |>) 11 "helper";
     scan "helper" "clean"] claimed) key.
End Samples.
