(* ===== verification/Lifecycle.v ===== *)
(** * Lifecycle: the requests a store serves and the journal steps they make

    The daemon's main loop (src/daemon/internal/app) drives a run through the
    exported methods of [Store]. [request] lists the modelled ones, [execute]
    runs one of them on the store under some outcome of its file operations,
    and [callback] is the change it asks for. [step] is what a served request
    can do to the journal on disk: the callback succeeded, the result passed
    [validateJournal], and what is found later is its re-read form.

    The lemma is [execute_cases]: whatever the file system does, a request
    either leaves every file alone or replaces the one file of its run by the
    written form of a valid journal one [callback] away from the journal that
    was loaded. The containment and clone methods are [ReqNative] requests,
    the Goal delivery queue [ReqDelivery] ones. [SaveJournal], the recovery
    and import seam that replaces a whole journal, is modelled in Store.v and
    is not a request. *)

From S2P Require Import Prelude Sha256 Json Authority Protocol Journal Validation Store Outbox ProviderAction.
From S2P Require Import Cgroup Containment Clone Native Session Delivery.
Import RunJournal.
Open Scope string_scope.
Open Scope Z_scope.

Inductive request : Type :=
| ReqSaveClaimGrant (grant : ClaimResponse.t)
| ReqSetLocalState (localState : string)
| ReqSetWorkspacePath (path : string)
| ReqMarkWorkspaceRecoveryRequired
| ReqRetainWorkspace
| ReqRecordNativeUsageObservation (observation : NativeUsageObservation.t)
| ReqUpdateLeaseExpiry (expiry : time)
| ReqAdvanceLeaseExpiry (expiry : time)
| ReqQueueEvent (event : RunEvent.t)
| ReqQueueNextEvent (event : RunEvent.t)
| ReqQueueOutputEvent (event : RunEvent.t) (budget : Z)
| ReqQueueOutputTruncatedMarker (at_ : time) (newEventID : option string)
| ReqMarkEventsDeliveredAndQueueMarker (ids : list string) (at_ : time) (newEventID : option string)
| ReqQueueWaitingForInput (event : RunEvent.t) (transition : StateTransitionRequest.t)
| ReqMarkEventsDelivered (ids : list string)
| ReqQueueTransition (transition : StateTransitionRequest.t)
| ReqQueueRunningTransition (transition : StateTransitionRequest.t)
| ReqMarkTransitionsDelivered (ids : list string)
| ReqMarkTransitionAttempted (id : string)
| ReqQueueCommandAcknowledgement (ack : CommandAcknowledgement.t)
| ReqMarkCommandAcknowledgementsDelivered (ids : list string)
| ReqPrepareProvideInput (intent : InputCommandIntent.t)
| ReqCompleteProvideInput (commandID payloadDigest outcome : string)
| ReqFailUnresolvedProvideInput (transition : StateTransitionRequest.t) (pendingAt : time)
| ReqPrepareControlCommand (intent : ControlCommandIntent.t)
| ReqCompleteControlCommand (commandID kind outcome : string) (event : RunEvent.t)
| ReqQueueTerminalTransition (transition : StateTransitionRequest.t) (pendingAt : time)
| ReqQueueTerminalTransitionAndAcknowledgement (transition : StateTransitionRequest.t)
    (ack : CommandAcknowledgement.t) (pendingAt : time)
| ReqQueueCancelledTransitionAndAcknowledgement (transition : StateTransitionRequest.t)
    (ack : CommandAcknowledgement.t) (pendingAt : time)
| ReqResolveTerminal (verdict : string) (resolvedAt : time)
| ReqResolveTerminalForCleanup (verdict : string) (resolvedAt : time)
| ReqEnterCleanupPending
| ReqPrepareProviderAction (intent : ProviderActionIntent.t)
| ReqCompleteProviderAction (completed : ProviderActionIntent.t)
| ReqRecoverProviderActions (failureCode : string)
| ReqRecoverProviderAction (actionID requestDigest failureCode : string)
| ReqDelivery (op : delivery)
| ReqNative (r : native).

Section Lifecycle.
Context `{AdmissionParser} `{JournalEncoder} `{Platform}.

(** One served request: the exported method, with its error discarded. *)
Definition execute (fs : io) (store : Store) (key : RunKey.t) (r : request) : Store :=
  match r with
  | ReqSaveClaimGrant grant => (SaveClaimGrant fs store key grant).1
  | ReqSetLocalState localState => (SetLocalState fs store key localState).1
  | ReqSetWorkspacePath path => (SetWorkspacePath fs store key path).1
  | ReqMarkWorkspaceRecoveryRequired => (MarkWorkspaceRecoveryRequired fs store key).1
  | ReqRetainWorkspace => (Store.RetainWorkspace fs store key).1
  | ReqRecordNativeUsageObservation observation => (RecordNativeUsageObservation fs store key observation).1
  | ReqUpdateLeaseExpiry expiry => (UpdateLeaseExpiry fs store key expiry).1
  | ReqAdvanceLeaseExpiry expiry => (AdvanceLeaseExpiry fs store key expiry).1
  | ReqQueueEvent event => (QueueEvent fs store key event).1
  | ReqQueueNextEvent event => (QueueNextEvent fs store key event).1
  | ReqQueueOutputEvent event budget => (QueueOutputEvent fs store key event budget).1
  | ReqQueueOutputTruncatedMarker at_ id => (QueueOutputTruncatedMarker fs store key at_ id).1
  | ReqMarkEventsDeliveredAndQueueMarker ids at_ id =>
      (MarkEventsDeliveredAndQueueOutputTruncatedMarker fs store key ids at_ id).1
  | ReqQueueWaitingForInput event transition => (QueueWaitingForInput fs store key event transition).1
  | ReqMarkEventsDelivered ids => (MarkEventsDelivered fs store key ids).1
  | ReqQueueTransition transition => (QueueTransition fs store key transition).1
  | ReqQueueRunningTransition transition => (QueueRunningTransition fs store key transition).1
  | ReqMarkTransitionsDelivered ids => (MarkTransitionsDelivered fs store key ids).1
  | ReqMarkTransitionAttempted id => (MarkTransitionAttempted fs store key id).1
  | ReqQueueCommandAcknowledgement ack => (QueueCommandAcknowledgement fs store key ack).1
  | ReqMarkCommandAcknowledgementsDelivered ids => (MarkCommandAcknowledgementsDelivered fs store key ids).1
  | ReqPrepareProvideInput intent => (PrepareProvideInput fs store key intent).1
  | ReqCompleteProvideInput commandID digest outcome => (CompleteProvideInput fs store key commandID digest outcome).1
  | ReqFailUnresolvedProvideInput transition pendingAt =>
      (FailUnresolvedProvideInput fs store key transition pendingAt).1
  | ReqPrepareControlCommand intent => (PrepareControlCommand fs store key intent).1
  | ReqCompleteControlCommand commandID kind outcome event =>
      (CompleteControlCommand fs store key commandID kind outcome event).1
  | ReqQueueTerminalTransition transition pendingAt => (QueueTerminalTransitionAt fs store key transition pendingAt).1
  | ReqQueueTerminalTransitionAndAcknowledgement transition ack pendingAt =>
      (QueueTerminalTransitionAndAcknowledgementAt fs store key transition ack pendingAt).1
  | ReqQueueCancelledTransitionAndAcknowledgement transition ack pendingAt =>
      (QueueCancelledTransitionAndAcknowledgementAt fs store key transition ack pendingAt).1
  | ReqResolveTerminal verdict resolvedAt => (ResolveTerminal fs store key verdict resolvedAt).1
  | ReqResolveTerminalForCleanup verdict resolvedAt => (ResolveTerminalForCleanup fs store key verdict resolvedAt).1
  | ReqEnterCleanupPending => (EnterCleanupPending fs store key).1
  | ReqPrepareProviderAction intent => (PrepareProviderAction fs store key intent).1
  | ReqCompleteProviderAction completed => (CompleteProviderAction fs store key completed).1
  | ReqRecoverProviderActions failureCode => (RecoverProviderActions fs store key failureCode).1
  | ReqRecoverProviderAction actionID digest failureCode =>
      (RecoverProviderAction fs store key actionID digest failureCode).1
  | ReqDelivery op => delivery_execute fs store key op
  | ReqNative r => native_execute fs store key r
  end.

(** The argument checks a method makes before it opens the journal. *)
Definition admissible (r : request) : bool :=
  match r with
  | ReqSetLocalState localState => negb (blank localState)
  | ReqUpdateLeaseExpiry expiry | ReqAdvanceLeaseExpiry expiry => negb (IsZero expiry)
  | ReqRecordNativeUsageObservation observation => NativeUsageObservation.Validate observation
  | ReqPrepareProvideInput intent => intent.(InputCommandIntent.Outcome) =s ""
  | ReqCompleteProvideInput _ _ outcome => InputCommandIntent.validOutcome outcome
  | ReqPrepareControlCommand intent => intent.(ControlCommandIntent.Outcome) =s ""
  | ReqCompleteControlCommand _ _ outcome _ => ControlCommandIntent.validOutcome outcome && (outcome <>s "")
  | ReqFailUnresolvedProvideInput _ pendingAt | ReqQueueTerminalTransition _ pendingAt
  | ReqQueueTerminalTransitionAndAcknowledgement _ _ pendingAt
  | ReqQueueCancelledTransitionAndAcknowledgement _ _ pendingAt => negb (IsZero pendingAt)
  | ReqResolveTerminal verdict resolvedAt => validTerminalVerdict verdict && negb (IsZero resolvedAt)
  | ReqResolveTerminalForCleanup verdict resolvedAt => IsConclusiveTerminalVerdict verdict && negb (IsZero resolvedAt)
  | ReqPrepareProviderAction intent => ProviderActionIntent.validPrepared intent
  | ReqCompleteProviderAction completed => ProviderActionIntent.validCompleted completed
  | ReqRecoverProviderActions failureCode | ReqRecoverProviderAction _ _ failureCode =>
      validRequiredString failureCode 256
  | _ => true
  end.

(** The change a request makes to the loaded journal; [admits] is the scan of
    the other runs a containment request makes first. *)
Definition callback (admits : admission) (key : RunKey.t) (r : request) (journal : RunJournal.t) : result RunJournal.t :=
  match r with
  | ReqSaveClaimGrant grant => applyClaimGrant key grant journal
  | ReqSetLocalState localState => setLocalState localState journal
  | ReqSetWorkspacePath path => Ok (journal <| WorkspacePath := path |>)
  | ReqMarkWorkspaceRecoveryRequired => Ok (journal <| WorkspaceRecoveryRequired := true |>)
  | ReqRetainWorkspace => retainWorkspace journal
  | ReqRecordNativeUsageObservation observation => recordUsage observation journal
  | ReqUpdateLeaseExpiry expiry => updateLeaseExpiry expiry journal
  | ReqAdvanceLeaseExpiry expiry => advanceLeaseExpiry expiry journal
  | ReqQueueEvent event => appendEvent journal event "event is invalid"
  | ReqQueueNextEvent event => queueNextEvent event journal
  | ReqQueueOutputEvent event budget => drop_flag (queueOutputEvent event budget journal)
  | ReqQueueOutputTruncatedMarker at_ id => drop_flag (appendOutputTruncatedMarker at_ id journal)
  | ReqMarkEventsDeliveredAndQueueMarker ids at_ id =>
      drop_flag (markEventsDeliveredAndQueueMarker ids at_ id journal)
  | ReqQueueWaitingForInput event transition => queueWaitingForInput event transition journal
  | ReqMarkEventsDelivered ids => markEventsDelivered ids journal
  | ReqQueueTransition transition => queuePlainTransition transition journal
  | ReqQueueRunningTransition transition => queueRunningTransition transition journal
  | ReqMarkTransitionsDelivered ids => markTransitionsDelivered ids journal
  | ReqMarkTransitionAttempted id => markTransitionAttempted id journal
  | ReqQueueCommandAcknowledgement ack => queueCommandAcknowledgement ack journal
  | ReqMarkCommandAcknowledgementsDelivered ids => markCommandAcknowledgementsDelivered ids journal
  | ReqPrepareProvideInput intent => drop_flag (prepareProvideInput intent journal)
  | ReqCompleteProvideInput commandID digest outcome => completeProvideInput commandID digest outcome journal
  | ReqFailUnresolvedProvideInput transition pendingAt => failUnresolvedProvideInput transition pendingAt journal
  | ReqPrepareControlCommand intent => drop_flag (prepareControlCommand intent journal)
  | ReqCompleteControlCommand commandID kind outcome event =>
      completeControlCommand commandID kind outcome event journal
  | ReqQueueTerminalTransition transition pendingAt => queueTerminalTransition transition pendingAt journal
  | ReqQueueTerminalTransitionAndAcknowledgement transition ack pendingAt =>
      queueTerminalSettlement transition ack pendingAt "" journal
  | ReqQueueCancelledTransitionAndAcknowledgement transition ack pendingAt =>
      queueTerminalSettlement transition ack pendingAt "cancelled" journal
  | ReqResolveTerminal verdict resolvedAt => resolveTerminal verdict resolvedAt journal
  | ReqResolveTerminalForCleanup verdict resolvedAt => resolveTerminalForCleanup verdict resolvedAt journal
  | ReqEnterCleanupPending => enterCleanupPending journal
  | ReqPrepareProviderAction intent => drop_flag (prepareProviderAction intent journal)
  | ReqCompleteProviderAction completed => drop_flag (completeProviderAction completed journal)
  | ReqRecoverProviderActions failureCode => drop_flag (recoverProviderActions failureCode journal)
  | ReqRecoverProviderAction actionID digest failureCode =>
      drop_flag (recoverProviderAction actionID digest failureCode journal)
  | ReqDelivery op => delivery_callback key op journal
  | ReqNative r => native_callback admits key r journal
  end.

(** What a request did to the store. *)
Inductive refines (key : RunKey.t) (r : request) (store : Store) : Store -> Prop :=
| refines_nothing : refines key r store store
| refines_write fs journal updated :
    closed store = false -> locked store = true -> validateKey key = true -> admissible r = true ->
    loadJournalLocked fs store key = Ok journal ->
    callback (checkLinuxV2NativeAdmissionLocked fs store) key r journal = Ok updated ->
    valid_journal updated -> fits updated = true ->
    refines key r store
      (with_runs store (<[journalPath (Key updated) := written updated]> store.(runs))).
Hint Constructors refines : go.

Lemma ensureOpen_ok store : ensureOpenLocked store = Ok tt -> closed store = false /\ locked store = true.
Proof. unfold ensureOpenLocked. destruct (closed store), (locked store); naive_solver. Qed.

Lemma saveJournalLocked_cases fs store journal :
  (saveJournalLocked fs store journal).1 = store \/
  valid_journal journal /\ fits journal = true /\
  (saveJournalLocked fs store journal).1 =
    with_runs store (<[journalPath (Key journal) := written journal]> store.(runs)).
Proof.
  unfold saveJournalLocked, valid_journal.
  destruct (validateJournal journal) as [[]|e]; [|by left].
  destruct (fits journal); simpl; [|by left].
  destruct (write fs); simpl; eauto.
Qed.

Lemma guarded_cases fs store journal :
  (saveJournalWithCapacityGuardLocked fs store journal).1 = store \/
  valid_journal journal /\ fits journal = true /\
  (saveJournalWithCapacityGuardLocked fs store journal).1 =
    with_runs store (<[journalPath (Key journal) := written journal]> store.(runs)).
Proof.
  unfold saveJournalWithCapacityGuardLocked.
  destruct (validateJournalSaveCapacity journal); [apply saveJournalLocked_cases | by left].
Qed.

Lemma mutateJournal_refines fs store key r (f : RunJournal.t -> result RunJournal.t) :
  admissible r = true -> (forall journal, f journal = callback (checkLinuxV2NativeAdmissionLocked fs store) key r journal) ->
  refines key r store (mutateJournal fs store key f).1.
Proof.
  intros Hadm Hf. unfold mutateJournal.
  destruct (validateKey key) eqn:Hkey; simpl; [|constructor].
  destruct (ensureOpenLocked store) as [[]|] eqn:Hopen; [|constructor].
  apply ensureOpen_ok in Hopen as [Hclosed Hlocked].
  destruct (rbind _ _) as [updated|] eqn:E; [|constructor]. inv_ok. rewrite Hf in E.
  simpl. destruct (guarded_cases fs store updated) as [->|(? & ? & ->)]; econstructor; eauto.
Qed.

Lemma mutateJournalIfChanged_refines fs store key r (f : RunJournal.t -> result (RunJournal.t * bool)) :
  admissible r = true -> (forall journal, drop_flag (f journal) = callback (checkLinuxV2NativeAdmissionLocked fs store) key r journal) ->
  refines key r store (mutateJournalIfChanged fs store key f).1.
Proof.
  intros Hadm Hf. unfold mutateJournalIfChanged.
  destruct (validateKey key) eqn:Hkey; simpl; [|constructor].
  destruct (ensureOpenLocked store) as [[]|] eqn:Hopen; [|constructor].
  apply ensureOpen_ok in Hopen as [Hclosed Hlocked].
  destruct (rbind _ _) as [[updated []]|] eqn:E; [|constructor..]. inv_ok.
  simpl. destruct (guarded_cases fs store updated) as [->|(? & ? & ->)]; econstructor; eauto.
  rewrite <- Hf. unfold drop_flag. by rewrite E.
Qed.

Lemma mutateJournalFlag_refines fs store key r (f : RunJournal.t -> result (RunJournal.t * bool)) :
  admissible r = true -> (forall journal, drop_flag (f journal) = callback (checkLinuxV2NativeAdmissionLocked fs store) key r journal) ->
  refines key r store (mutateJournalFlag fs store key f).1.
Proof. intros. by apply mutateJournal_refines. Qed.

Lemma PrepareProviderAction_refines fs store key intent :
  refines key (ReqPrepareProviderAction intent) store (PrepareProviderAction fs store key intent).1.
Proof.
  unfold PrepareProviderAction.
  destruct (ProviderActionIntent.validPrepared intent) eqn:Hadm; simpl; [|constructor].
  destruct (validateKey key) eqn:Hkey; simpl; [|constructor].
  destruct (ensureOpenLocked store) as [[]|] eqn:Hopen; [|constructor].
  apply ensureOpen_ok in Hopen as [Hclosed Hlocked].
  destruct (rbind _ _) as [[updated []]|] eqn:E; [|constructor..]. inv_ok.
  simpl. destruct (saveJournalLocked_cases fs store updated) as [->|(? & ? & ->)]; econstructor; eauto.
  simpl. by rewrite E.
Qed.

Lemma native_refines fs store key r : refines key (ReqNative r) store (native_execute fs store key r).
Proof.
  destruct r; simpl;
    unfold SetProcessDetails, SetProcessDetailsWithAuthority, SetContainmentAuthority, MarkContainmentUnproven,
      ClearContainmentUnproven, ClearProcessDetails, PrepareSupervisorHandoff, BindSupervisorHandoffV2,
      BindSupervisorHandoff, CommitSupervisorHandoff, RecordSupervisorHandoffStopReceipt, RecordContainmentStopReceipt,
      RecordSupervisorRecoveryScanSeal, ClearSupervisorHandoff, ClearSupervisorHandoffAfterAbort,
      ClearSupervisorHandoffV2, ClearProcessDetailsV2, ReserveLinuxCgroup, MarkLinuxCgroupCreateStarted,
      BindLinuxCgroupLeaf, BindLinuxCgroupHelper, BindLinuxCgroupLauncher, ArmLinuxCgroupLauncherGrant,
      RecordLinuxCgroupLauncherExit, BindLinuxCgroupGate, RecordLinuxCgroupHelperExit, AbortLinuxCgroupReservation,
      AbortNeverCreatedLinuxCgroupReservation, RecordLinuxCgroupPreGateStopReceipt, ClearLinuxCgroupReservationV2,
      ReserveLinuxCloneIntent, BindLinuxCloneSeed, RecordLinuxCloneCheckoutReady, ReserveLinuxClonePromotion,
      RecordLinuxClonePromotion, FenceLinuxCloneBeforeCheckout, CompleteLinuxCloneAbort,
      ClearLinuxCloneNoTargetRetention, BeginLinuxCloneCleanup, RecordLinuxCloneTargetRemoval,
      CompleteLinuxCloneCleanup, MarkNativeUsageRecoverySettlement, ClearNativeUsageRecoveryRequired, checked;
    try match goal with |- context [match ?arguments with Ok _ => _ | Err _ => _ end] =>
      destruct arguments as [[]|] eqn:Harguments; [|constructor] end;
    first [apply mutateJournal_refines | apply mutateJournalIfChanged_refines]; try done;
    intros journal; cbv [callback native_callback]; by rewrite Harguments.
Qed.

Lemma delivery_refines fs store key op : refines key (ReqDelivery op) store (delivery_execute fs store key op).
Proof.
  destruct op; simpl;
    unfold QueueGoalSessionStopped, MarkGoalSessionAttachDeliveryReady, DiscardUnreadyGoalSessionAttachDelivery,
      QueueGoalEvidenceAndTerminalTransition, QueueNativeUsageRecoverySettlement, RetireGoalDelivery,
      MarkGoalDeliveryDelivered, queueGoalDelivery, checked;
    try match goal with |- context [match ?arguments with Ok _ => _ | Err _ => _ end] =>
      destruct arguments as [[]|] eqn:Harguments; [|constructor] end;
    apply mutateJournal_refines; try done;
    intros journal; cbv [callback delivery_callback]; by rewrite Harguments.
Qed.

(** Every method is a guarded application of its callback. *)
Lemma execute_cases fs store key r : refines key r store (execute fs store key r).
Proof.
  destruct r; simpl; first
    [ apply PrepareProviderAction_refines
    | apply native_refines
    | apply delivery_refines
    | apply mutateJournal_refines; done
    | unfold SetLocalState, SetWorkspacePath, RecordNativeUsageObservation, UpdateLeaseExpiry, AdvanceLeaseExpiry,
        MarkTransitionAttempted, PrepareProvideInput, CompleteProvideInput, FailUnresolvedProvideInput,
        PrepareControlCommand, CompleteControlCommand, QueueTerminalTransitionAt,
        QueueTerminalTransitionAndAcknowledgementAt, QueueCancelledTransitionAndAcknowledgementAt,
        ResolveTerminal, ResolveTerminalForCleanup, CompleteProviderAction, RecoverProviderActions,
        RecoverProviderAction, QueueOutputEvent, QueueOutputTruncatedMarker,
        MarkEventsDeliveredAndQueueOutputTruncatedMarker; repeat case_match; simpl;
      try constructor; breflect;
      first [apply mutateJournal_refines | apply mutateJournalFlag_refines | apply mutateJournalIfChanged_refines];
      simpl; try done; breflect;
      repeat match goal with E : ?x = false |- context [?x] => rewrite E | E : ?x = true |- context [?x] => rewrite E end;
      try done ].
  all: rewrite ?andb_true_iff, ?negb_true_iff, ?String.eqb_eq, ?String.eqb_neq in *; naive_solver.
Qed.
End Lifecycle.
