(* ===== verification/OutboxFacts.v ===== *)
(** * OutboxFacts: what each callback changes

    Inversion lemmas of the callbacks of Outbox.v and ProviderAction.v: a
    successful run is described by the fields it wrote and the checks it
    passed. The theorems about the lifecycle are proved from these. *)

From S2P Require Import Prelude Sha256 Json Authority Protocol Journal Validation Store Outbox ProviderAction Lifecycle.
From S2P Require Import Cgroup Containment Clone Native Session Delivery.
Import RunJournal.
Open Scope string_scope.
Open Scope Z_scope.

Lemma appendEvent_inv journal event message journal' :
  appendEvent journal event message = Ok journal' ->
  hasClaimGrant journal = true /\ event.(RunEvent.Sequence) = nextSequence journal /\
  journal' = journal <| PendingEvents := (journal.(PendingEvents) ++ [event])%list |>
                     <| LastEventSequence := event.(RunEvent.Sequence) |>.
Proof. unfold appendEvent. intros H. inv_ok. breflect. subst. done. Qed.

Lemma prepareTransition_inv journal transition prepared :
  prepareTransition journal transition = Ok prepared ->
  hasClaimGrant journal = true /\
  prepared.(StateTransitionRequest.TransitionID) = transition.(StateTransitionRequest.TransitionID) /\
  prepared.(StateTransitionRequest.State) = transition.(StateTransitionRequest.State) /\
  prepared.(StateTransitionRequest.Payload) = transition.(StateTransitionRequest.Payload) /\
  validRawMessage transition.(StateTransitionRequest.Payload) = true /\
  sameFence prepared.(StateTransitionRequest.fence) (fence journal) = true.
Proof.
  unfold prepareTransition. intros H. inv_ok. breflect. subst.
  destruct (isZeroFence _); done.
Qed.

Lemma queueTransition_inv journal transition journal' :
  queueTransition transition journal = Ok journal' ->
  exists prepared, prepareTransition journal transition = Ok prepared /\
    journal' = journal <| PendingTransitions := (journal.(PendingTransitions) ++ [prepared])%list |>.
Proof. unfold queueTransition. intros H. inv_ok. subst. eauto. Qed.

(** The acknowledgement of a command that has none pending is appended; one
    with the same outcome is a replay. *)
Lemma queueCommandAcknowledgement_inv ack journal journal' :
  queueCommandAcknowledgement ack journal = Ok journal' ->
  hasClaimGrant journal = true /\
  (exists pending, In pending journal.(PendingCommandAcknowledgements) /\
     pending.(CommandAcknowledgement.CommandID) = ack.(CommandAcknowledgement.CommandID) /\
     pending.(CommandAcknowledgement.Outcome) = ack.(CommandAcknowledgement.Outcome) /\
     journal' = journal) \/
  hasClaimGrant journal = true /\
  (forall pending, In pending journal.(PendingCommandAcknowledgements) ->
     pending.(CommandAcknowledgement.CommandID) <> ack.(CommandAcknowledgement.CommandID)) /\
  journal' = journal <| PendingCommandAcknowledgements :=
    (journal.(PendingCommandAcknowledgements) ++ [completeAcknowledgement journal ack])%list |>.
Proof.
  unfold queueCommandAcknowledgement. intros H. inv_ok. breflect.
  destruct (List.find _ _) as [pending|] eqn:Hfind.
  - apply find_some in Hfind as [Hin Hid]. case_match; [|done]. inv_ok. breflect. left. eauto 10.
  - inv_ok. right. split_and!; [done| |done]. intros pending Hin Heq.
    apply (find_none _ _ Hfind) in Hin. apply String.eqb_neq in Hin. done.
Qed.

(** Every acknowledgement helper changes nothing but the queue. *)
Lemma queueCommandAcknowledgement_frame ack journal journal' :
  queueCommandAcknowledgement ack journal = Ok journal' ->
  exists acks, journal' = journal <| PendingCommandAcknowledgements := acks |>.
Proof.
  intros [(_ & pending & _ & _ & _ & ->)|(_ & _ & ->)]%queueCommandAcknowledgement_inv; [|eauto].
  exists journal.(PendingCommandAcknowledgements). by destruct journal.
Qed.

Lemma settleUnresolvedInputCommand_frame journal journal' :
  settleUnresolvedInputCommand journal = Ok journal' ->
  exists input acks, journal' = journal <| InputCommandIntent := input |> <| PendingCommandAcknowledgements := acks |>.
Proof.
  unfold settleUnresolvedInputCommand. intros H. repeat case_match; inv_ok.
  - exists journal.(InputCommandIntent), journal.(PendingCommandAcknowledgements). subst. by destruct journal'.
  - apply queueCommandAcknowledgement_frame in H as [acks ->]. eauto.
  - exists journal.(InputCommandIntent), journal.(PendingCommandAcknowledgements). subst. by destruct journal'.
Qed.

Lemma settleControls_frame settled intents journal journal' :
  settleControls settled intents journal = Ok journal' ->
  exists controls acks,
    journal' = journal <| PendingCommandAcknowledgements := acks |> <| ControlCommandIntents := controls |>.
Proof.
  revert settled journal. induction intents as [|intent intents IH]; simpl; intros settled journal Hrun.
  - inv_ok. subst. exists (rev settled), journal.(PendingCommandAcknowledgements). by destruct journal.
  - case_match; [by eapply IH|]. inv_ok.
    apply queueCommandAcknowledgement_frame in E as [acks ->]. apply IH in Hrun as (controls & acks' & ->). eauto.
Qed.

(** Settling the obligations changes intents and acknowledgements only. *)
Lemma settleObligations_frame journal journal' :
  settleObligations journal = Ok journal' ->
  exists input acks controls actions,
    journal' = journal <| InputCommandIntent := input |> <| PendingCommandAcknowledgements := acks |>
                       <| ControlCommandIntents := controls |> <| ProviderActionIntents := actions |>.
Proof.
  unfold settleObligations. intros Hrun. apply rbind_ok in Hrun as (j1 & E1 & Hrun).
  apply rbind_ok in Hrun as (j2 & E2 & Hrun). inv_ok.
  apply settleUnresolvedInputCommand_frame in E1 as (input & acks & ->).
  apply settleControls_frame in E2 as (controls & acks' & ->). subst. by do 4 eexists.
Qed.

Lemma queueTerminalTransition_frame transition pendingAt journal journal' :
  queueTerminalTransition transition pendingAt journal = Ok journal' ->
  exists input acks controls actions retain pending attempted kind digest localState at_ state,
    journal' = journal <| InputCommandIntent := input |> <| PendingCommandAcknowledgements := acks |>
                       <| ControlCommandIntents := controls |> <| ProviderActionIntents := actions |>
                       <| RunJournal.RetainWorkspace := retain |> <| PendingTransitions := pending |>
                       <| AttemptedTransitionIDs := attempted |> <| TerminalTaskResultKind := kind |>
                       <| TerminalIntentDigest := digest |> <| LocalState := localState |>
                       <| TerminalPendingAt := at_ |> <| TerminalState := state |>.
Proof.
  intros Hrun.
  exists journal'.(InputCommandIntent), journal'.(PendingCommandAcknowledgements), journal'.(ControlCommandIntents),
    journal'.(ProviderActionIntents), journal'.(RunJournal.RetainWorkspace), journal'.(PendingTransitions),
    journal'.(AttemptedTransitionIDs), journal'.(TerminalTaskResultKind), journal'.(TerminalIntentDigest),
    journal'.(LocalState), journal'.(TerminalPendingAt), journal'.(TerminalState).
  revert Hrun. unfold queueTerminalTransition, setTerminalPending. intros Hrun. inv_ok. case_match; inv_ok.
  - subst. destruct journal. journal_compute. reflexivity.
  - match goal with Hs : settleObligations _ = _ |- _ =>
      apply settleObligations_frame in Hs as (input & acks & controls & actions & ->) end.
    repeat case_match; inv_ok; subst; destruct journal; journal_compute; reflexivity.
Qed.

(** Cleanup under a conclusive verdict settles or drops everything queued. *)
Lemma resolveTerminalForCleanup_inv verdict resolvedAt journal journal' :
  resolveTerminalForCleanup verdict resolvedAt journal = Ok journal' ->
  (journal.(LocalState) = "cleanup_pending" /\ journal.(TerminalVerdict) = verdict /\
   exists localState, (localState = "cleanup_pending" \/ localState = "terminal_pending") /\
     journal' = journal <| LocalState := localState |>) \/
  (journal.(LocalState) = "terminal_pending" /\
   (journal.(TerminalVerdict) = "" \/ journal.(TerminalVerdict) = verdict) /\
   exists at_ retain localState,
     (localState = "terminal_pending" \/ localState = "cleanup_pending" /\ ownershipRemains journal = false) /\
     (at_ = if journal.(TerminalVerdict) =s "" then resolvedAt else journal.(TerminalResolvedAt)) /\
     journal' = journal <| TerminalVerdict := verdict |> <| TerminalResolvedAt := at_ |>
       <| ProviderActionIntents := map (settleAction "run_terminal_unknown") journal.(ProviderActionIntents) |>
       <| RunJournal.RetainWorkspace := retain |> <| PendingEvents := [] |> <| PendingTransitions := [] |>
       <| AttemptedTransitionIDs := [] |> <| PendingCommandAcknowledgements := [] |>
       <| InputCommandIntent := None |> <| ControlCommandIntents := [] |> <| LocalState := localState |>).
Proof.
  unfold resolveTerminalForCleanup, settleUnresolvedProviderActions. intros Hrun.
  destruct (LocalState journal =s "cleanup_pending") eqn:Hcleanup; inv_ok; breflect.
  - left. split_and!; [done..|]. exists journal'.(LocalState). subst journal'.
    case_match; split; [by right|done|by left|by destruct journal].
  - right. split_and!; [done| |].
    { destruct (TerminalVerdict journal =s "") eqn:Hv; breflect; [by left|]. right.
      by destruct (TerminalVerdict journal =s verdict) eqn:Hv'; breflect. }
    exists journal'.(TerminalResolvedAt), journal'.(RunJournal.RetainWorkspace), journal'.(LocalState).
    destruct (TerminalVerdict journal =s "") eqn:Hv; subst journal'; cbv zeta beta; breflect; subst;
      repeat match goal with |- context [if ?b then _ else _] => destruct b eqn:? end;
      (split_and!; [first [left; exact E | right; split; [reflexivity|assumption]] | reflexivity |]);
      cbn [fst negb andb] in *; breflect; subst; destruct journal; journal_compute; try reflexivity.
Qed.

(** Break a successful callback into the writes it made. *)
Ltac invert_callback :=
  repeat first
    [ progress inv_ok
    | match goal with
      | H : appendEvent _ _ _ = Ok _ |- _ =>
          let G := fresh "Hgrant" in let S := fresh "Hseq" in apply appendEvent_inv in H as (G & S & ->)
      | H : queueTransition _ _ = Ok _ |- _ =>
          let p := fresh "prepared" in let P := fresh "Hprepared" in apply queueTransition_inv in H as (p & P & ->)
      | H : queueCommandAcknowledgement _ _ = Ok _ |- _ =>
          let a := fresh "acks" in apply queueCommandAcknowledgement_frame in H as (a & ->)
      | H : settleUnresolvedInputCommand _ = Ok _ |- _ =>
          let i := fresh "input" in let a := fresh "acks" in
          apply settleUnresolvedInputCommand_frame in H as (i & a & ->)
      | H : queueTerminalTransition _ _ _ = Ok _ |- _ =>
          apply queueTerminalTransition_frame in H as (? & ? & ? & ? & ? & ? & ? & ? & ? & ? & ? & ? & ->)
      | H : resolveTerminalForCleanup _ _ _ = Ok _ |- _ =>
          apply resolveTerminalForCleanup_inv in H
            as [(? & ? & ? & ? & ->)|(? & ? & ? & ? & ? & ? & ? & ->)]
      | H : match ?x with _ => _ end = Ok _ |- _ => destruct x eqn:?
      end ];
  subst.

(** The bodies [invert_callback] opens. *)
Ltac open_callback H :=
  cbv [callback drop_flag applyClaimGrant setLocalState retainWorkspace recordUsage updateLeaseExpiry advanceLeaseExpiry
       queueNextEvent queueOutputEvent appendOutputTruncatedMarker markEventsDeliveredAndQueueMarker
       queueWaitingForInput markEventsDelivered queuePlainTransition queueRunningTransition
       markTransitionsDelivered markTransitionAttempted markCommandAcknowledgementsDelivered
       prepareProvideInput completeProvideInput failUnresolvedProvideInput prepareControlCommand
       completeControlCommand queueTerminalSettlement resolveTerminal
       enterCleanupPending prepareProviderAction completeProviderAction recoverProviderActions
       recoverProviderAction settleUnresolvedProviderActions replaceAction] in H.

(** ** Acknowledgement queues *)

(** A queue holds the acknowledgement of a command with an outcome. *)
Definition acknowledged (journal : RunJournal.t) (commandID outcome : string) : Prop :=
  exists ack, In ack journal.(PendingCommandAcknowledgements) /\
    ack.(CommandAcknowledgement.CommandID) = commandID /\ ack.(CommandAcknowledgement.Outcome) = outcome.

Definition acks_grow (before after : RunJournal.t) : Prop :=
  incl before.(PendingCommandAcknowledgements) after.(PendingCommandAcknowledgements).

Lemma acknowledged_grow before after commandID outcome :
  acks_grow before after -> acknowledged before commandID outcome -> acknowledged after commandID outcome.
Proof. intros Hgrow (ack & Hin & Hid & Ho). exists ack. auto. Qed.

Lemma acknowledged_frame before after commandID outcome :
  after.(PendingCommandAcknowledgements) = before.(PendingCommandAcknowledgements) ->
  acknowledged before commandID outcome -> acknowledged after commandID outcome.
Proof. unfold acknowledged. by intros ->. Qed.

Lemma queueCommandAcknowledgement_acks ack journal journal' :
  queueCommandAcknowledgement ack journal = Ok journal' ->
  acks_grow journal journal' /\
  acknowledged journal' ack.(CommandAcknowledgement.CommandID) ack.(CommandAcknowledgement.Outcome).
Proof.
  unfold acks_grow, acknowledged.
  intros [(_ & pending & ? & ? & ? & ->)|(_ & _ & ->)]%queueCommandAcknowledgement_inv.
  - split; [apply incl_refl|eauto].
  - journal_simpl. split; [apply incl_appl, incl_refl|].
    exists (completeAcknowledgement journal ack). split; [|done]. apply in_or_app. right. by left.
Qed.

Lemma settleUnresolvedInputCommand_spec journal journal' :
  settleUnresolvedInputCommand journal = Ok journal' ->
  acks_grow journal journal' /\
  match journal.(InputCommandIntent) with
  | None => journal'.(InputCommandIntent) = None
  | Some intent =>
      if intent.(InputCommandIntent.Outcome) <>s "" then journal'.(InputCommandIntent) = Some intent
      else journal'.(InputCommandIntent) = Some (intent <| InputCommandIntent.Outcome := "failed" |>) /\
           acknowledged journal' intent.(InputCommandIntent.CommandID) "failed"
  end.
Proof.
  unfold settleUnresolvedInputCommand. intros Hrun.
  destruct (InputCommandIntent journal) as [intent|] eqn:Hinput; [destruct (negb _)|]; inv_ok; subst.
  - split; [apply incl_refl|done].
  - pose proof (queueCommandAcknowledgement_acks _ _ _ Hrun) as [Hgrow Hack].
    apply queueCommandAcknowledgement_frame in Hrun as [acks ->]. split; [done|]. split; [reflexivity|done].
  - split; [apply incl_refl|done].
Qed.

(** What settling does to one control command. *)
Definition rejectOpen (intent : ControlCommandIntent.t) : ControlCommandIntent.t :=
  if intent.(ControlCommandIntent.Outcome) <>s "" then intent
  else intent <| ControlCommandIntent.Outcome := "rejected" |>.

Lemma settleControls_spec settled intents journal journal' :
  settleControls settled intents journal = Ok journal' ->
  acks_grow journal journal' /\
  journal'.(ControlCommandIntents) = (rev settled ++ map rejectOpen intents)%list /\
  forall intent, In intent intents -> intent.(ControlCommandIntent.Outcome) = "" ->
    acknowledged journal' intent.(ControlCommandIntent.CommandID) "rejected".
Proof.
  revert settled journal. induction intents as [|intent intents IH]; simpl; intros settled journal Hrun.
  - inv_ok. subst. rewrite app_nil_r. split_and!; [apply incl_refl|reflexivity|easy].
  - unfold rejectOpen at 1. destruct (negb _) eqn:Hopen.
    + apply IH in Hrun as (Hgrow & Hc & Ha). rewrite Hc. simpl. rewrite <- app_assoc. split_and!; [done..|].
      intros i [<-|Hin] Ho; [by breflect|auto].
    + inv_ok. apply IH in Hrun as (Hgrow & Hc & Ha). rewrite Hc. simpl. rewrite <- app_assoc.
      pose proof (queueCommandAcknowledgement_acks _ _ _ E) as [Hgrow' Hack].
      split_and!; [by eapply incl_tran|done|].
      intros i [<-|Hin] Ho; [by eapply acknowledged_grow|auto].
Qed.

(** What identifies a run and the attempt that claimed it. *)
Definition identity (journal : RunJournal.t) :=
  (journal.(RunID), journal.(Generation), journal.(RuntimeKey), journal.(RuntimeID), journal.(ClaimedRuntimeEpoch),
   journal.(ClaimID), journal.(WorkspaceBindingKey)).

Section Facts.
Context `{AdmissionParser} `{JournalEncoder} `{Platform}.

Lemma native_identity admits key r journal journal' :
  native_callback admits key r journal = Ok journal' -> identity journal' = identity journal.
Proof.
  intros Hrun. pose proof (native_frame _ _ _ _ _ Hrun) as [_ Hbinding].
  pose proof (native_field (fun j => (RunID j, Generation j, RuntimeKey j, RuntimeID j, ClaimedRuntimeEpoch j, ClaimID j))
    _ _ _ _ _ (fun j => eq_refl) Hrun) as Hkept.
  unfold identity. rewrite Hbinding. by f_equal.
Qed.

(** What holds of a change that the delivery queue makes or keeps, and of
    the terminal transition, holds of every delivery request. *)
Lemma delivery_lift (R : RunJournal.t -> RunJournal.t -> Prop) key op before after :
  (forall j, R j j) -> (forall j1 j2 j3, delivery_only j1 j2 -> R j2 j3 -> R j1 j3) ->
  (forall transition pendingAt j j', queueTerminalTransition transition pendingAt j = Ok j' -> R j j') ->
  delivery_callback key op before = Ok after -> R before after.
Proof.
  intros Hrefl Hkeep Hterminal (queued & Honly & [->|(transition & pendingAt & Hrun)])%delivery_inv; eauto.
Qed.

Lemma terminal_identity transition pendingAt journal journal' :
  queueTerminalTransition transition pendingAt journal = Ok journal' -> identity journal' = identity journal.
Proof. intros Hrun. open_callback Hrun. by invert_callback. Qed.

Lemma delivery_identity key op journal journal' :
  delivery_callback key op journal = Ok journal' -> identity journal' = identity journal.
Proof.
  apply (delivery_lift (fun j j' => identity j' = identity j)); [done| |apply terminal_identity].
  intros j1 j2 j3 Honly ->. by apply delivery_only_field.
Qed.

(** No request changes what identifies the run. *)
Lemma callback_identity admits key r journal journal' :
  callback admits key r journal = Ok journal' -> identity journal' = identity journal.
Proof.
  intros Hrun. destruct r; [..|by eapply delivery_identity|by apply native_identity in Hrun]; open_callback Hrun; invert_callback; try reflexivity.
  all: try (match goal with p : _ * bool |- _ => destruct p end; simplify_eq; reflexivity). 
Qed.
End Facts.
