(* ===== verification/Traces.v ===== *)
(** * Traces: the store under a sequence of requests

    A trace is a list of served requests, each with the key it names and the
    outcome of its file operations: reads and writes may fail at any point
    and requests of several runs may interleave. [run_on_disk] says
    that what a trace does to the file of one run is a sequence of journal
    steps, so the theorems about [rtc step] are theorems about every store
    the daemon can produce. *)

From S2P Require Import Prelude Sha256 Json Authority Protocol Journal Validation Store Outbox ProviderAction.
From S2P Require Import Session Delivery Cgroup Containment Clone Native.
From S2P Require Import Lifecycle OutboxFacts.
From stdpp Require Import relations.
Import RunJournal.
Open Scope string_scope.
Open Scope Z_scope.

Section Traces.
Context `{AdmissionParser} `{JournalEncoder} `{Platform}.

(** From the journal that a request loads to the one the next load finds. *)
Inductive step (journal : RunJournal.t) : RunJournal.t -> Prop :=
| step_request admits r updated :
    valid_journal journal -> admissible r = true ->
    callback admits (Key journal) r journal = Ok updated -> valid_journal updated ->
    step journal (reread_fields updated).

Definition served : Type := io * RunKey.t * request.

Definition serve (store : Store) (s : served) : Store :=
  let '(fs, key, r) := s in execute fs store key r.

Fixpoint run (store : Store) (trace : list served) : Store :=
  match trace with
  | [] => store
  | s :: rest => run (serve store s) rest
  end.

(** The journal a read of the key's file finds. *)
Definition on_disk (store : Store) (key : RunKey.t) (journal : RunJournal.t) : Prop :=
  store.(runs) !! journalPath key = Some (Decodes journal) /\ Key journal = key.

Lemma load_inv fs store key journal :
  loadJournalLocked fs store key = Ok journal -> on_disk store key journal /\ valid_journal journal.
Proof.
  unfold loadJournalLocked, on_disk, valid_journal. intros Hload. repeat case_match; inv_ok; try done. subst.
  match goal with u : unit |- _ => destruct u end.
  match goal with Hk : negb _ = false |- _ => apply negb_false_iff, bool_decide_eq_true in Hk end. done.
Qed.

Lemma callback_key admits key r journal updated : callback admits key r journal = Ok updated -> Key updated = Key journal.
Proof.
  intros Hrun%callback_identity. unfold identity in Hrun. unfold Key. congruence.
Qed.

Lemma reread_key journal : Key (reread_fields journal) = Key journal.
Proof. reflexivity. Qed.

(** One request against one file: untouched, one step, or unreadable. *)
Inductive file_after (before : RunJournal.t) : option file -> Prop :=
| file_steps after : rtc step before after -> Key after = Key before -> file_after before (Some (Decodes after))
| file_lost : file_after before (Some Undecodable).

Lemma serve_file store s key journal :
  on_disk store key journal -> file_after journal ((serve store s).(runs) !! journalPath key).
Proof.
  intros [Hfile Hkey]. destruct s as [[fs key'] r]. simpl.
  destruct (execute_cases fs store key' r) as [|fs' loaded updated ? ? ? ? Hload Hrun ? ?].
  { rewrite Hfile. by constructor. }
  apply load_inv in Hload as [[Hfile' Hkey'] ?]. simpl.
  pose proof (callback_key _ _ _ _ _ Hrun) as Hsame.
  rewrite Hsame, Hkey'. destruct (decide (journalPath key' = journalPath key)) as [E|N].
  - rewrite E, lookup_insert_eq. unfold written. destruct (decodable _); [|constructor].
    rewrite E, Hfile in Hfile'. injection Hfile' as <-. constructor; [|by rewrite reread_key, Hsame].
    apply rtc_once. subst. econstructor; eauto.
  - rewrite lookup_insert_ne, Hfile by done. by constructor.
Qed.

Lemma serve_lost store s path :
  store.(runs) !! path = Some Undecodable -> (serve store s).(runs) !! path = Some Undecodable.
Proof.
  intros Hfile. destruct s as [[fs key'] r]. simpl.
  destruct (execute_cases fs store key' r) as [|fs' loaded updated ? ? ? ? Hload Hrun ? ?]; [done|].
  apply load_inv in Hload as [[Hfile' Hkey'] ?]. simpl.
  rewrite (callback_key _ _ _ _ _ Hrun), Hkey'. rewrite lookup_insert_ne; congruence.
Qed.

Lemma run_lost store trace path :
  store.(runs) !! path = Some Undecodable -> (run store trace).(runs) !! path = Some Undecodable.
Proof. revert store. induction trace; simpl; eauto using serve_lost. Qed.

Lemma run_file store trace key journal :
  on_disk store key journal -> file_after journal ((run store trace).(runs) !! journalPath key).
Proof.
  revert store journal. induction trace as [|s trace IH]; simpl; intros store journal Hdisk.
  { destruct Hdisk as [-> ?]. by constructor. }
  pose proof (serve_file store s key journal Hdisk) as Hafter. inversion Hafter as [after Hsteps Hkey E|E].
  - assert (on_disk (serve store s) key after) as Hdisk' by (split; [done|by rewrite Hkey; apply Hdisk]).
    apply IH in Hdisk'. inversion Hdisk' as [final Hsteps' Hkey' E'|E']; [|constructor].
    constructor; [by etrans|congruence].
  - rewrite run_lost by done. constructor.
Qed.

(** What a later read finds is reached by steps. *)
Lemma run_on_disk store trace key before after :
  on_disk store key before -> on_disk (run store trace) key after -> rtc step before after.
Proof.
  intros Hbefore [Hafter _]. pose proof (run_file _ trace _ _ Hbefore) as Hfile.
  rewrite Hafter in Hfile. by inversion Hfile.
Qed.
End Traces.
