(* ===== verification/StoreProps.v ===== *)
(** * StoreProps: what the journal store guarantees

    Theorems about Store.v and the traces of requests: every file of a
    reachable store is the written form of a valid journal kept under its own
    key, and when it decodes at all it holds a valid journal that loads; a
    mutation is all or nothing, runs are isolated from each other, a
    claim never overwrites a journal, and a closed store serves nothing. *)

From S2P Require Import Prelude Sha256 Json Authority Protocol Journal Validation Store Outbox ProviderAction.
From S2P Require Import Session Delivery Cgroup Containment Clone Native.
From S2P Require Import AuthorityProps CompactProps RereadProps Lifecycle OutboxFacts Traces.
From stdpp Require Import relations.
Import RunJournal.
Open Scope string_scope.
Open Scope Z_scope.

(** ** File names *)

Definition in_range_key (key : RunKey.t) : bool := validateKey key && (key.(RunKey.Generation) <=? maxInt64).

Lemma journalPath_digest key1 key2 :
  journalPath key1 = journalPath key2 ->
  sha256_hex (key1.(RunKey.RunID) ++ nul ++ FormatInt key1.(RunKey.Generation)) =
  sha256_hex (key2.(RunKey.RunID) ++ nul ++ FormatInt key2.(RunKey.Generation)).
Proof.
  unfold journalPath. intros E%append_inj_l. apply append_inj_r in E as [-> _]; [done|].
  pose proof (sha256_hex_len (key1.(RunKey.RunID) ++ nul ++ FormatInt key1.(RunKey.Generation))).
  pose proof (sha256_hex_len (key2.(RunKey.RunID) ++ nul ++ FormatInt key2.(RunKey.Generation))).
  unfold len in *. lia.
Qed.

(** Two run keys share a journal file only if they are the same key or
    the two names are a SHA-256 collision. *)
Theorem journalPath_injective key1 key2 :
  in_range_key key1 = true -> in_range_key key2 = true -> journalPath key1 = journalPath key2 ->
  key1 = key2 \/
  sha256_collision (key1.(RunKey.RunID) ++ nul ++ FormatInt key1.(RunKey.Generation))
                   (key2.(RunKey.RunID) ++ nul ++ FormatInt key2.(RunKey.Generation)).
Proof.
  unfold in_range_key, validateKey. intros H1 H2 E. breflect.
  apply journalPath_digest, sha256_eq_inv in E as [E|E]; [left|by right].
  apply run_name_inj in E as [? ?]; [|lia..]. destruct key1, key2; simpl in *; congruence.
Qed.

(** ** The store invariant *)

Section Store.
Context `{AdmissionParser} `{JournalEncoder} `{Platform}.

(** Every file holds what [saveJournalLocked] wrote of a valid journal that
    fits, under the path of that journal's key. *)
Definition well_formed (store : Store) : Prop :=
  forall path content, store.(runs) !! path = Some content ->
  exists journal, valid_journal journal /\ fits journal = true /\
    path = journalPath (Key journal) /\ content = written journal.

(** Everything that can happen to a store. *)
Inductive store_step (store : Store) : Store -> Prop :=
| step_serve s : store_step store (serve store s)
| step_claim fs intent : store_step store (SaveClaimIntent fs store intent).1
| step_import fs journal : store_step store (SaveJournal fs store journal).1
| step_close : store_step store (Close store).

Definition opened : Store := mkStore true false ∅.

Lemma well_formed_insert store journal :
  well_formed store -> valid_journal journal -> fits journal = true ->
  well_formed (with_runs store (<[journalPath (Key journal) := written journal]> store.(runs))).
Proof.
  intros Hwf Hvalid Hfits path content. simpl.
  rewrite lookup_insert_Some. intros [[<- <-]|[_ Hfile]]; eauto.
Qed.

Lemma well_formed_save fs store journal :
  well_formed store -> well_formed (saveJournalLocked fs store journal).1.
Proof.
  intros Hwf. destruct (saveJournalLocked_cases fs store journal) as [->|(? & ? & ->)];
    auto using well_formed_insert.
Qed.

Lemma well_formed_guarded fs store journal :
  well_formed store -> well_formed (saveJournalWithCapacityGuardLocked fs store journal).1.
Proof.
  intros Hwf. destruct (guarded_cases fs store journal) as [->|(? & ? & ->)]; auto using well_formed_insert.
Qed.

Lemma well_formed_serve store s : well_formed store -> well_formed (serve store s).
Proof.
  intros Hwf. destruct s as [[fs key] r]. simpl.
  destruct (execute_cases fs store key r); auto using well_formed_insert.
Qed.

Lemma well_formed_step store store' : store_step store store' -> well_formed store -> well_formed store'.
Proof.
  intros [s|fs intent|fs journal|] Hwf; [by apply well_formed_serve| | |done].
  - unfold SaveClaimIntent. repeat case_match; try done; by apply well_formed_guarded.
  - unfold SaveJournal. repeat case_match; try done; by apply well_formed_save.
Qed.

Lemma written_decodes journal stored :
  written journal = Decodes stored -> stored = reread_fields journal /\ rereadable journal.
Proof.
  unfold written, rereadable. generalize (reread_fields journal). intros r. destruct (decodable r) eqn:E; [|done].
  intros H'. split; [congruence|done].
Qed.

(** C1: whatever requests a newly opened store serves, and whatever the
    file system does, every file of it is the written form of a journal
    that passed [validateJournal] and the size limit, under its own key. A
    file that decodes holds a journal that again passes [validateJournal],
    although compaction and omitted fields have changed it: it lies under
    its own key and loads. Hypothesis [LayoutFree]: the schema validator
    accepts an admission without its white space too. *)
Theorem reachable_stores_well_formed `{!LayoutFree} store :
  rtc store_step opened store ->
  well_formed store /\
  forall path stored, store.(runs) !! path = Some (Decodes stored) ->
  path = journalPath (Key stored) /\ valid_journal stored /\
  forall fs, fs.(readable) = true -> loadJournalLocked fs store (Key stored) = Ok stored.
Proof.
  intros Hsteps. assert (well_formed store) as Hwf.
  { assert (well_formed opened) as Hinit by (intros path content; simpl; by rewrite lookup_empty).
    induction Hsteps; eauto using well_formed_step. }
  split; [done|]. intros path stored Hfile. destruct (Hwf _ _ Hfile) as (journal & Hvalid & _ & Hpath & Hwritten).
  symmetry in Hwritten. apply written_decodes in Hwritten as [E Hread].
  pose proof (valid_reread _ Hvalid Hread) as Hstored. assert (Key (reread_fields journal) = Key journal) as Hkey by done.
  rewrite <- Hkey, <- E in Hpath. rewrite <- E in Hstored. clear E Hkey. split_and!; [done|done|].
  intros fs Hfs. unfold loadJournalLocked. rewrite <- Hpath, Hfile, Hfs. cbn [negb]. unfold valid_journal in Hstored.
  by rewrite Hstored, bool_decide_eq_true_2.
Qed.

(** C2: a mutation is all or nothing. On success the file holds the new
    journal; on an error every file is as it was, unless the directory sync
    failed after the rename, and then the file holds the complete new
    journal. *)
Theorem mutateJournal_all_or_nothing fs store key f :
  let '(store', outcome) := mutateJournal fs store key f in
  let after journal := with_runs store (<[journalPath (Key journal) := written journal]> store.(runs)) in
  match outcome with
  | Ok journal =>
      valid_journal journal /\ fits journal = true /\ store' = after journal /\
      exists loaded, loadJournalLocked fs store key = Ok loaded /\ f loaded = Ok journal
  | Err _ =>
      store' = store \/
      fs.(write) = SyncFailed /\
      exists loaded journal, loadJournalLocked fs store key = Ok loaded /\ f loaded = Ok journal /\
        valid_journal journal /\ store' = after journal
  end.
Proof.
  destruct (mutateJournal fs store key f) as [store' outcome] eqn:Hrun. revert Hrun.
  unfold mutateJournal, saved, saveJournalWithCapacityGuardLocked, saveJournalLocked, valid_journal.
  repeat case_match; intros [= <- <-]; simpl; try (by left);
    repeat match goal with u : unit |- _ => destruct u end.
  all: inv_ok.
  - breflect. split_and!; [assumption..|reflexivity|]. by eexists.
  - right. split; [reflexivity|]. by exists a, a0.
Qed.

(** A request for one run leaves the file of every other run alone. *)
Theorem requests_are_isolated fs store key r path :
  path <> journalPath key -> (execute fs store key r).(runs) !! path = store.(runs) !! path.
Proof.
  intros Hne. destruct (execute_cases fs store key r) as [|fs' loaded updated ? ? ? ? Hload Hrun ? ?]; [done|].
  apply load_inv in Hload as [[_ Hkey] _]. simpl.
  rewrite (callback_key _ _ _ _ _ Hrun), Hkey. by rewrite lookup_insert_ne.
Qed.

Lemma load_found fs store key content :
  store.(runs) !! journalPath key = Some content ->
  forall resource, loadJournalLocked fs store key <> Err (NotFoundError resource).
Proof. intros Hfile resource. unfold loadJournalLocked. rewrite Hfile. by repeat case_match. Qed.

(** A claim never overwrites a journal: where a file exists, readable
    or not, [SaveClaimIntent] changes nothing, and it returns that file's
    journal exactly when the claim names the same claim, runtime and
    epoch. *)
Theorem claim_never_overwrites fs store intent content :
  store.(runs) !! journalPath intent.(ClaimIntent.Key) = Some content ->
  let outcome := SaveClaimIntent fs store intent in
  outcome.1 = store /\
  match outcome.2 with
  | Ok existing =>
      on_disk store intent.(ClaimIntent.Key) existing /\ valid_journal existing /\
      existing.(ClaimID) = intent.(ClaimIntent.ClaimID) /\
      existing.(RuntimeID) = intent.(ClaimIntent.RuntimeID) /\
      existing.(ClaimedRuntimeEpoch) = intent.(ClaimIntent.RuntimeEpoch)
  | Err _ => True
  end.
Proof.
  intros Hfile. pose proof (load_found fs store _ _ Hfile) as Hfound. cbv zeta. unfold SaveClaimIntent.
  destruct (negb (validateKey _)); [done|]. destruct (negb (validRequiredString _ _)); [done|].
  destruct (rbind _ _); [|done].
  destruct (loadJournalLocked _ _ _) as [existing|[]] eqn:Hload; try done; [|by destruct (Hfound resource)].
  apply load_inv in Hload as [? ?]. destruct (_ || _) eqn:Hsame; [done|]. breflect. done.
Qed.

(** A closed store serves no request: nothing is written and nothing
    is reported as saved. *)
Theorem closed_store_serves_nothing fs store key r journal f :
  closed store = true ->
  execute fs store key r = store /\
  (mutateJournal fs store key f).2 <> Ok journal /\ LoadJournal fs store key <> Ok journal.
Proof.
  intros Hclosed. split_and!.
  - destruct (execute_cases fs store key r); [done|congruence].
  - unfold mutateJournal, ensureOpenLocked. rewrite Hclosed. by case_match.
  - unfold LoadJournal, ensureOpenLocked. rewrite Hclosed. by case_match.
Qed.
End Store.
