(* ===== verification/Refinement.v ===== *)
(** * Refinement: the store as a map from runs to journals

    The abstract specification of the store: it holds at most one journal per
    run, and one event changes at most one of them, to what a step of the
    lifecycle, a claim or an import allows. The store keeps its journals in
    files named by a digest of the run, reads them back from JSON, may fail
    to read or write, and is shared by all runs; [contents] is what it stands
    for, and the theorem is a forward simulation. No assumption about digests
    is needed, since a file is only ever read as the run it names. *)

From S2P Require Import Prelude Sha256 Json Authority Protocol Journal Validation Store Outbox ProviderAction.
From S2P Require Import Session Delivery Cgroup Containment Clone Native Lifecycle OutboxFacts Traces StoreProps.
From stdpp Require Import relations.
Import RunJournal.
Open Scope string_scope.
Open Scope Z_scope.

Definition view : Type := RunKey.t -> option RunJournal.t.

(** A journal some of whose evidence does not decode cannot be read back. *)
Definition readback (journal : RunJournal.t) : option RunJournal.t := if decodable journal then Some journal else None.

Definition contents (store : Store) : view := fun key =>
  match store.(runs) !! journalPath key with
  | Some (Decodes journal) => if decide (Key journal = key) then Some journal else None
  | _ => None
  end.

(** C23: review evidence with an empty list of findings is valid when the daemon
    takes it, but [omitempty] leaves the list out of the written journal and
    the decoder rejects review evidence without it: the file of such a
    journal cannot be read again. *)
Theorem empty_review_does_not_reload evidence :
  evidence.(Evidence.Kind) = EvidenceReview -> evidence.(Evidence.Payload).(Receipt.Findings) = Some [] ->
  Evidence.Validate (Evidence.reread evidence) = false.
Proof.
  intros Hkind Hfindings. apply not_true_iff_false. unfold Evidence.Validate. cbv zeta. intros Hvalid. breflect.
  match goal with Hr : Receipt.validateForKind _ _ = true |- _ => rename Hr into Hreceipt end.
  change (Receipt.validateForKind (Evidence.reread_receipt evidence.(Evidence.Payload)) evidence.(Evidence.Kind) = true)
    in Hreceipt. rewrite Hkind in Hreceipt. unfold Receipt.validateForKind in Hreceipt.
  apply andb_true_iff in Hreceipt as [_ Hreview]. change (EvidenceReview =s EvidenceCheck) with false in Hreview.
  change (EvidenceReview =s EvidenceArtifact) with false in Hreview. rewrite String.eqb_refl in Hreview. breflect.
  unfold Evidence.reread_receipt in Hreview. rewrite Hfindings in Hreview. done.
Qed.

Section Refinement.
Context `{AdmissionParser} `{JournalEncoder} `{Platform}.

(** What may become of the journal of a run. *)
Inductive allowed (key : RunKey.t) : option RunJournal.t -> option RunJournal.t -> Prop :=
| allow_request journal next : step journal next -> allowed key (Some journal) (readback next)
| allow_claim intent :
    intent.(ClaimIntent.Key) = key -> valid_journal (claimJournal intent) ->
    allowed key None (readback (reread_fields (claimJournal intent)))
| allow_import_new journal :
    Key journal = key -> valid_journal journal -> noDedicatedState journal = Ok tt ->
    allowed key None (readback (reread_fields journal))
| allow_import current journal :
    Key journal = key -> valid_journal journal -> dedicatedUnchanged current journal = Ok tt ->
    allowed key (Some current) (readback (reread_fields journal)).

Definition spec_step (before after : view) : Prop :=
  (forall key, after key = before key) \/
  exists key, allowed key (before key) (after key) /\ forall other, other <> key -> after other = before other.

Lemma contents_other_run store key other journal :
  on_disk store key journal -> journalPath other = journalPath key -> other <> key -> contents store other = None.
Proof.
  intros [Hfile Hkey] Hpath Hne. unfold contents. rewrite Hpath, Hfile. case_decide; congruence.
Qed.

Lemma contents_absent store key other :
  store.(runs) !! journalPath key = None -> journalPath other = journalPath key -> contents store other = None.
Proof. intros Hfile Hpath. unfold contents. by rewrite Hpath, Hfile. Qed.

Lemma contents_on_disk store key journal : on_disk store key journal -> contents store key = Some journal.
Proof. intros [Hfile Hkey]. unfold contents. rewrite Hfile. by case_decide. Qed.

(** Writing the journal of a run changes what the store holds for that run
    only, also when another run has the same file name. *)
Lemma contents_write store key journal :
  Key journal = key ->
  (forall other, other <> key -> journalPath other = journalPath key -> contents store other = None) ->
  let store' := with_runs store (<[journalPath (Key journal) := written journal]> store.(runs)) in
  contents store' key = readback (reread_fields journal) /\
  forall other, other <> key -> contents store' other = contents store other.
Proof.
  intros <- Hothers store'. unfold contents, store', written, readback. simpl. split.
  - rewrite lookup_insert_eq. destruct (decodable _); [|done]. by rewrite decide_True.
  - intros other Hne. destruct (decide (journalPath other = journalPath (Key journal))) as [E|N].
    + rewrite E, lookup_insert_eq. specialize (Hothers _ Hne E). unfold contents in Hothers. rewrite E in Hothers.
      rewrite Hothers. destruct (decodable _); [|done]. rewrite decide_False; [done|]. rewrite reread_key. congruence.
    + by rewrite lookup_insert_ne.
Qed.

Lemma serve_spec store s : spec_step (contents store) (contents (serve store s)).
Proof.
  destruct s as [[fs key] r]. simpl.
  destruct (execute_cases fs store key r) as [|fs' loaded updated _ _ _ Hadm Hload Hrun Hvalid _]; [by left|].
  apply load_inv in Hload as [Hdisk Hloaded]. pose proof (callback_key _ _ _ _ _ Hrun) as Hsame.
  pose proof Hdisk as [_ Hkey].
  destruct (contents_write store key updated) as [Hwritten Hothers]; [congruence|by eauto using contents_other_run|].
  right. exists key. split; [|done]. rewrite (contents_on_disk _ _ _ Hdisk), Hwritten.
  apply allow_request. subst key. econstructor; eauto.
Qed.

Lemma save_spec store fs journal key :
  Key journal = key ->
  (forall other, other <> key -> journalPath other = journalPath key -> contents store other = None) ->
  (valid_journal journal -> allowed key (contents store key) (readback (reread_fields journal))) ->
  spec_step (contents store) (contents (saveJournalLocked fs store journal).1).
Proof.
  intros Hkey Hothers Hallowed. destruct (saveJournalLocked_cases fs store journal) as [->|(Hvalid & _ & ->)]; [by left|].
  destruct (contents_write store key journal) as [Hwritten Hkept]; [done..|].
  right. exists key. split; [|done]. rewrite Hwritten. auto.
Qed.

(** A failed load of a run that has no file. *)
Lemma load_not_found fs store key what :
  loadJournalLocked fs store key = Err (NotFoundError what) -> store.(runs) !! journalPath key = None.
Proof. unfold loadJournalLocked. by repeat case_match. Qed.

Lemma claim_spec store fs intent : spec_step (contents store) (contents (SaveClaimIntent fs store intent).1).
Proof.
  unfold SaveClaimIntent. repeat case_match; try (by left).
  match goal with Hload : loadJournalLocked _ _ _ = Err (NotFoundError _) |- _ => apply load_not_found in Hload as Habsent end.
  cbn [saved fst]. unfold saveJournalWithCapacityGuardLocked. case_match; [|by left].
  apply (save_spec _ _ _ intent.(ClaimIntent.Key)); [by destruct intent as [[]]|by eauto using contents_absent|].
  intros Hvalid. rewrite (contents_absent _ _ _ Habsent eq_refl). by apply allow_claim.
Qed.

Lemma import_spec store fs journal : spec_step (contents store) (contents (SaveJournal fs store journal).1).
Proof.
  unfold SaveJournal. case_match; [|by left]. destruct (loadJournalLocked fs store (Key journal)) as [current|e] eqn:Hload.
  - apply load_inv in Hload as [Hdisk _]. destruct (dedicatedUnchanged current journal) as [[]|] eqn:Hsame; [|by left].
    apply (save_spec _ _ _ (Key journal)); [done|by eauto using contents_other_run|].
    intros Hvalid. rewrite (contents_on_disk _ _ _ Hdisk). by apply allow_import.
  - destruct e; try (by left). apply load_not_found in Hload as Habsent.
    destruct (noDedicatedState journal) as [[]|] eqn:Hnew; [|by left].
    apply (save_spec _ _ _ (Key journal)); [done|by eauto using contents_absent|].
    intros Hvalid. rewrite (contents_absent _ _ _ Habsent eq_refl). by apply allow_import_new.
Qed.

(** C33: the store implements its specification. Whatever sequence of
    requests, claims and imports the daemon makes, in whatever order over
    all runs and whatever reads and writes fail, what the store stands for
    changes as the map from runs to journals may: one run at a time, by a
    step of the lifecycle from the journal it held, by the claim of a run it
    did not hold, or by an import that keeps the state with dedicated
    mutations. *)
Theorem store_refines_spec store store' :
  rtc store_step store store' -> rtc spec_step (contents store) (contents store').
Proof.
  induction 1 as [|s1 s2 s3 Hstep _ IH]; [done|]. eapply rtc_l; [|exact IH].
  destruct Hstep as [s|fs intent|fs journal|]; auto using serve_spec, claim_spec, import_spec. by left.
Qed.
End Refinement.
