(* ===== verification/TerminalProps.v ===== *)
(** * TerminalProps: the end of a run is decided once

    Theorems about the terminal protocol of Outbox.v: the outcome of a run is
    final along every trace, entering it settles every open obligation,
    replaying it changes nothing, and cleanup waits for delivery. *)

From S2P Require Import Prelude Sha256 Json Authority Protocol Journal Validation Store Outbox ProviderAction.
From S2P Require Import Session Delivery Cgroup Containment Clone Native.
From S2P Require Import Lifecycle OutboxFacts Traces.
From stdpp Require Import relations.
Import RunJournal.
Open Scope string_scope.
Open Scope Z_scope.

Definition terminal (journal : RunJournal.t) : Prop := terminalLocalState journal.(LocalState) = true.

Section Validity.
Context `{AdmissionParser}.

(** The parts of [validateJournal] the theorems use. *)
Lemma valid_parts journal :
  valid_journal journal ->
  validateLeaseAndTerminal journal = Ok tt /\ validateOutbox journal = Ok tt /\
  validateInputCommandIntent journal = Ok tt /\ validateControlCommandIntents journal = Ok tt /\
  validateProviderActionIntents journal = Ok tt /\
  none_or journal.(NativeUsageObservation) NativeUsageObservation.Validate = true.
Proof.
  unfold valid_journal, validateJournal. intros Hvalid.
  repeat (apply if_reject_ok in Hvalid as [? Hvalid] || apply rbind_ok in Hvalid as ([] & ? & Hvalid)).
  breflect. done.
Qed.

Lemma valid_terminal_state journal : valid_journal journal -> validTerminalState journal = true.
Proof.
  intros (Hlease & _)%valid_parts. unfold validateLeaseAndTerminal in Hlease. inv_ok. by breflect.
Qed.

Lemma terminal_state_set journal :
  valid_journal journal -> terminal journal ->
  isTerminalTransitionState journal.(TerminalState) = true /\ IsZero journal.(TerminalPendingAt) = false.
Proof.
  intros Hvalid%valid_terminal_state Hterm. unfold validTerminalState, terminal, terminalLocalState in *.
  rewrite <- negb_orb, Hterm in Hvalid. simpl in Hvalid. breflect. done.
Qed.

Lemma terminal_fields_unset journal :
  valid_journal journal -> terminalLocalState journal.(LocalState) = false ->
  terminalFieldsUnset journal = true /\ hasPendingTerminalTransition journal.(PendingTransitions) = false.
Proof.
  intros Hvalid%valid_terminal_state Hterm. unfold validTerminalState, terminalLocalState in *.
  rewrite <- negb_orb, Hterm in Hvalid. simpl in Hvalid. breflect. done.
Qed.

(** A valid journal is terminal exactly when it records a terminal state. *)
Lemma terminal_iff journal :
  valid_journal journal -> terminal journal <-> isTerminalTransitionState journal.(TerminalState) = true.
Proof.
  intros Hvalid. split; [intros Hterm; by apply terminal_state_set|]. intros Hstate. unfold terminal.
  destruct (terminalLocalState _) eqn:Hterm; [done|].
  apply terminal_fields_unset in Hterm as [Hunset _]; [|done]. unfold terminalFieldsUnset in Hunset. breflect.
  match goal with E : TerminalState journal = "" |- _ => rewrite E in Hstate end. done.
Qed.
End Validity.

(** ** The outcome is final *)

(** A field that, once set, keeps its value. *)
Definition write_once (before after : string) : Prop := before <> "" -> after = before.

Record same_outcome (before after : RunJournal.t) : Prop := {
  same_state : after.(TerminalState) = before.(TerminalState);
  same_pendingAt : after.(TerminalPendingAt) = before.(TerminalPendingAt);
  same_kind : after.(TerminalTaskResultKind) = before.(TerminalTaskResultKind);
  same_verdict : write_once before.(TerminalVerdict) after.(TerminalVerdict);
  same_resolvedAt : before.(TerminalVerdict) <> "" -> after.(TerminalResolvedAt) = before.(TerminalResolvedAt);
  same_intent : write_once before.(TerminalIntentDigest) after.(TerminalIntentDigest);
  same_command : write_once before.(TerminalCommandDigest) after.(TerminalCommandDigest);
  same_settlement : write_once before.(TerminalSettlementDigest) after.(TerminalSettlementDigest)
}.

#[export] Instance write_once_preorder : PreOrder write_once.
Proof.
  split; [by intros a|]. intros a b c Hab Hbc Ha. rewrite Hbc; [by apply Hab|]. by rewrite Hab.
Qed.

#[export] Instance same_outcome_preorder : PreOrder same_outcome.
Proof.
  split; [by intros j; split|].
  intros a b c [E1 E2 E3 Hv Hr Hi Hc Hs] [E1' E2' E3' Hv' Hr' Hi' Hc' Hs'].
  split; try (by etrans).
  intros Ha. rewrite Hr', Hr; [done..|]. by rewrite Hv.
Qed.

Lemma write_once_guard (before digest : string) :
  negb (before =s "") && negb (before =s digest) = false -> write_once before digest.
Proof. unfold write_once. intros Hguard Hset. apply String.eqb_neq in Hset. rewrite Hset in Hguard. cbn in Hguard. by breflect. Qed.

(** In a terminal journal a terminal transition can only be a replay. *)
Lemma queueTerminalTransition_replay transition pendingAt journal journal' :
  isTerminalTransitionState journal.(TerminalState) = true ->
  queueTerminalTransition transition pendingAt journal = Ok journal' ->
  exists digest, write_once journal.(TerminalIntentDigest) digest /\
    journal' = journal <| TerminalIntentDigest := digest |>.
Proof.
  unfold queueTerminalTransition, authoritativeTerminalTransition. intros Hstate Hrun. rewrite Hstate in Hrun.
  inv_ok. destruct (pendingTerminal _); inv_ok; subst; eauto using write_once_guard.
Qed.

Lemma queueTerminalSettlement_inv transition ack pendingAt required journal journal' :
  queueTerminalSettlement transition ack pendingAt required journal = Ok journal' ->
  exists queued acks command settlement,
    queueTerminalTransition transition pendingAt journal = Ok queued /\
    write_once queued.(TerminalCommandDigest) command /\ write_once queued.(TerminalSettlementDigest) settlement /\
    (required <> "" -> queued.(TerminalState) = required) /\
    journal' = queued <| PendingCommandAcknowledgements := acks |> <| TerminalCommandDigest := command |>
                      <| TerminalSettlementDigest := settlement |>.
Proof.
  unfold queueTerminalSettlement. intros Hrun. inv_ok. subst.
  apply queueCommandAcknowledgement_frame in E1 as [acks ->].
  exists a, acks, a1, a2. split_and!; [done|by apply write_once_guard|by apply write_once_guard| |done].
  intros Hreq. apply String.eqb_neq in Hreq. rewrite Hreq in E0. cbn in E0. by breflect.
Qed.

Lemma same_outcome_frame journal journal' :
  journal'.(TerminalState) = journal.(TerminalState) ->
  journal'.(TerminalPendingAt) = journal.(TerminalPendingAt) ->
  journal'.(TerminalTaskResultKind) = journal.(TerminalTaskResultKind) ->
  journal'.(TerminalVerdict) = journal.(TerminalVerdict) ->
  journal'.(TerminalResolvedAt) = journal.(TerminalResolvedAt) ->
  journal'.(TerminalIntentDigest) = journal.(TerminalIntentDigest) ->
  journal'.(TerminalCommandDigest) = journal.(TerminalCommandDigest) ->
  journal'.(TerminalSettlementDigest) = journal.(TerminalSettlementDigest) -> same_outcome journal journal'.
Proof. intros. split; unfold write_once; congruence. Qed.

Section Final.
Context `{AdmissionParser} `{JournalEncoder} `{Platform}.

Lemma settlement_same_outcome transition ack pendingAt required journal journal' :
  isTerminalTransitionState journal.(TerminalState) = true ->
  queueTerminalSettlement transition ack pendingAt required journal = Ok journal' -> same_outcome journal journal'.
Proof.
  intros Hstate Hrun.
  apply queueTerminalSettlement_inv in Hrun as (queued & acks & command & settlement & Hrun & Hc & Hs & _ & ->).
  apply queueTerminalTransition_replay in Hrun as (digest & Hd & ->); [|done]. by split.
Qed.

Lemma native_same_outcome admits key r journal journal' :
  native_callback admits key r journal = Ok journal' -> same_outcome journal journal'.
Proof.
  intros Hrun. apply same_outcome_frame; native_kept Hrun.
Qed.

Lemma delivery_same_outcome key op journal journal' :
  isTerminalTransitionState journal.(TerminalState) = true ->
  delivery_callback key op journal = Ok journal' -> same_outcome journal journal'.
Proof.
  intros Hstate (queued & Honly & Hcase)%delivery_inv.
  assert (same_outcome journal queued) as Hqueued by (apply same_outcome_frame; by delivery_kept Honly).
  destruct Hcase as [->|(transition & pendingAt & Hrun)]; [done|].
  assert (isTerminalTransitionState queued.(TerminalState) = true) as Hstate'
    by (by rewrite (delivery_only_field TerminalState _ _ (fun j => eq_refl) Honly)).
  apply queueTerminalTransition_replay in Hrun as (digest & Hd & ->); [|done]. etrans; [exact Hqueued|by split].
Qed.

(** A request on a terminal journal keeps its outcome. *)
Lemma callback_same_outcome admits key r journal journal' :
  isTerminalTransitionState journal.(TerminalState) = true ->
  callback admits key r journal = Ok journal' -> same_outcome journal journal'.
Proof.
  intros Hstate Hrun.
  destruct r; [..|by eapply delivery_same_outcome|by eapply native_same_outcome]; try (by eapply settlement_same_outcome); open_callback Hrun;
    try (apply queueTerminalTransition_replay in Hrun as (digest & Hd & ->); [by split|done]).
  all: try (invert_callback; by apply same_outcome_frame).
  - repeat case_match; [by inv_ok; subst|by invert_callback; apply same_outcome_frame|].
    apply queueTerminalTransition_replay in Hrun as (digest & Hd & ->); [|done]. by split.
  - inv_ok. destruct (negb (TerminalVerdict journal =s "")) eqn:Hv; inv_ok; subst; [by apply same_outcome_frame|].
    breflect. by split; try done; intros Hset.
  - apply resolveTerminalForCleanup_inv in Hrun
      as [(? & ? & ? & ? & ->)|(_ & Hv & at_ & retain & localState & _ & -> & ->)]; [by split|].
    split; try done.
    + by intros Hset; destruct Hv.
    + intros Hset%String.eqb_neq. journal_simpl. by rewrite Hset.
Qed.

Lemma reread_same_outcome journal : same_outcome journal (reread_fields journal).
Proof. by apply same_outcome_frame. Qed.

Lemma step_same_outcome journal after : terminal journal -> step journal after -> same_outcome journal after.
Proof.
  intros Hterm [admits r updated Hvalid _ Hrun _]. apply terminal_iff in Hterm; [|done].
  etrans; [by eapply callback_same_outcome|apply reread_same_outcome].
Qed.

(** A terminal journal stays terminal. *)
Lemma step_terminal journal after : terminal journal -> step journal after -> terminal after.
Proof.
  intros Hterm [admits r updated Hvalid _ Hrun Hvalid']. change (terminal updated).
  apply terminal_iff in Hterm; [|done]. apply terminal_iff; [done|].
  by rewrite (same_state _ _ (callback_same_outcome _ _ _ _ _ Hterm Hrun)).
Qed.

Lemma steps_final journal after :
  terminal journal -> rtc step journal after -> terminal after /\ same_outcome journal after.
Proof.
  intros Hterm Hsteps. induction Hsteps as [|j1 j2 j3 Hstep _ IH]; [done|].
  destruct IH as [Hterm' Hsame]; [by eapply step_terminal|].
  split; [done|]. etrans; [by eapply step_same_outcome|done].
Qed.

(** C7: the outcome of a run is final. Once the journal on disk is terminal,
    whatever requests follow, for this run or others and with whatever
    file-system failures, a journal found later is still terminal, with the
    same terminal state, pending time and task result kind, the same
    verdict and resolution time if it had one, and the same digests of the
    terminal intent, command and settlement if it had them. *)
Theorem terminal_outcome_is_final store trace key journal after :
  on_disk store key journal -> terminal journal -> on_disk (run store trace) key after ->
  terminal after /\ same_outcome journal after.
Proof. intros Hdisk Hterm Hafter. eauto using steps_final, run_on_disk. Qed.
End Final.

(** ** Entering the terminal state *)

Definition inputSettled (journal : RunJournal.t) : Prop :=
  forall intent, journal.(InputCommandIntent) = Some intent -> intent.(InputCommandIntent.Outcome) <> "".

Definition controlsSettled (journal : RunJournal.t) : Prop :=
  Forall (fun intent => intent.(ControlCommandIntent.Outcome) <> "") journal.(ControlCommandIntents).

Definition actionsSettled (journal : RunJournal.t) : Prop :=
  Forall (fun intent => intent.(ProviderActionIntent.Outcome) <> "") journal.(ProviderActionIntents).

(** Every open command of [before] is answered in [after]. *)
Definition answered (before after : RunJournal.t) : Prop :=
  (forall intent, before.(InputCommandIntent) = Some intent -> intent.(InputCommandIntent.Outcome) = "" ->
     acknowledged after intent.(InputCommandIntent.CommandID) "failed") /\
  (forall intent, In intent before.(ControlCommandIntents) -> intent.(ControlCommandIntent.Outcome) = "" ->
     acknowledged after intent.(ControlCommandIntent.CommandID) "rejected").

Lemma rejectOpen_settled intents :
  Forall (fun intent => intent.(ControlCommandIntent.Outcome) <> "") (map rejectOpen intents).
Proof.
  apply Forall_map, Forall_true. intros intent. unfold rejectOpen. destruct (negb _) eqn:Hopen; [|done].
  by breflect.
Qed.

Lemma settleAction_settled code intents :
  Forall (fun intent => intent.(ProviderActionIntent.Outcome) <> "") (map (settleAction code) intents).
Proof.
  apply Forall_map, Forall_true. intros intent. unfold settleAction. destruct (negb _) eqn:Hopen; [|done].
  by breflect.
Qed.

Lemma settleObligations_spec journal journal' :
  settleObligations journal = Ok journal' ->
  inputSettled journal' /\ controlsSettled journal' /\ actionsSettled journal' /\ answered journal journal'.
Proof.
  unfold settleObligations, settleUnresolvedControlCommands. intros Hrun.
  apply rbind_ok in Hrun as (j1 & Hi & Hrun). apply rbind_ok in Hrun as (j2 & Hc & Hrun). inv_ok.
  pose proof (settleUnresolvedInputCommand_spec _ _ Hi) as [_ Hinput].
  pose proof (settleControls_spec _ _ _ _ Hc) as (Hgrow & Hcontrols & Hanswered).
  assert (j1.(ControlCommandIntents) = journal.(ControlCommandIntents)) as Hcontrols1
    by (by apply settleUnresolvedInputCommand_frame in Hi as (? & ? & ->)).
  assert (j2.(InputCommandIntent) = j1.(InputCommandIntent)) as Hinput2
    by (by apply settleControls_frame in Hc as (? & ? & ->)).
  subst journal'. unfold inputSettled, controlsSettled, actionsSettled, answered.
  cbn [fst settleUnresolvedProviderActions]. split_and!.
  - change (forall intent, j2.(InputCommandIntent) = Some intent -> InputCommandIntent.Outcome intent <> "").
    rewrite Hinput2. intros intent Hin. rewrite Hin in Hinput.
    destruct (InputCommandIntent journal) as [i|]; [destruct (negb _) eqn:Hopen|]; [|destruct Hinput as [Hinput _]|];
      simplify_eq; [by breflect|done].
  - change (Forall (fun intent => ControlCommandIntent.Outcome intent <> "") j2.(ControlCommandIntents)).
    rewrite Hcontrols. apply rejectOpen_settled.
  - apply settleAction_settled.
  - intros intent Hin Ho. rewrite Hin, Ho in Hinput. simpl in Hinput. destruct Hinput as [_ Hack].
    apply (acknowledged_frame j2); [reflexivity|]. by apply (acknowledged_grow j1).
  - intros intent Hin Ho. apply (acknowledged_frame j2); [reflexivity|]. apply Hanswered; [by rewrite Hcontrols1|done].
Qed.

Lemma pendingTerminal_none transitions :
  hasPendingTerminalTransition transitions = false <-> pendingTerminal transitions = None.
Proof.
  unfold hasPendingTerminalTransition, pendingTerminal. induction transitions as [|t l IH]; simpl; [done|].
  by destruct (isTerminalTransitionState _).
Qed.

(** The first terminal transition of a run. *)
Record entered (transition : StateTransitionRequest.t) (pendingAt : time) (before settled after : RunJournal.t)
    (prepared : StateTransitionRequest.t) : Prop := {
  entered_prepared : prepareTransition before transition = Ok prepared;
  entered_terminal : isTerminalTransitionState prepared.(StateTransitionRequest.State) = true;
  entered_settled : settleObligations before = Ok settled;
  entered_digest : terminalIntentDigest before prepared.(StateTransitionRequest.State)
                     prepared.(StateTransitionRequest.Payload) = Ok after.(TerminalIntentDigest);
  entered_local : after.(LocalState) = "terminal_pending";
  entered_state : after.(TerminalState) = prepared.(StateTransitionRequest.State);
  entered_verdict : after.(TerminalVerdict) = "";
  entered_at : before.(TerminalPendingAt) = 0 -> after.(TerminalPendingAt) = pendingAt;
  entered_pending : after.(PendingTransitions) =
    if prepared.(StateTransitionRequest.State) =s "cancelled" then [prepared]
    else (before.(PendingTransitions) ++ [prepared])%list;
  entered_input : after.(InputCommandIntent) = settled.(InputCommandIntent);
  entered_controls : after.(ControlCommandIntents) = settled.(ControlCommandIntents);
  entered_actions : after.(ProviderActionIntents) = settled.(ProviderActionIntents);
  entered_acks : after.(PendingCommandAcknowledgements) = settled.(PendingCommandAcknowledgements)
}.

Lemma settleObligations_keeps journal settled :
  settleObligations journal = Ok settled ->
  settled.(PendingTransitions) = journal.(PendingTransitions) /\
  settled.(TerminalPendingAt) = journal.(TerminalPendingAt) /\
  settled.(TerminalVerdict) = journal.(TerminalVerdict) /\ fence settled = fence journal /\
  hasClaimGrant settled = hasClaimGrant journal.
Proof. intros (input & acks & controls & actions & ->)%settleObligations_frame. done. Qed.

Lemma queueTerminalTransition_enter transition pendingAt journal journal' :
  authoritativeTerminalTransition journal = None ->
  queueTerminalTransition transition pendingAt journal = Ok journal' ->
  exists settled prepared, entered transition pendingAt journal settled journal' prepared.
Proof.
  unfold queueTerminalTransition. intros Hauth Hrun. inv_ok. rewrite Hauth in Hrun. inv_ok.
  rename E4 into Hsettle, a1 into settled, a into prepared, a0 into digest. breflect.
  pose proof (settleObligations_keeps _ _ Hsettle) as (Hpending & Hat & Hverdict & _).
  assert (pendingTerminalState settled.(PendingTransitions) = "") as Hnone.
  { rewrite Hpending. unfold pendingTerminalState, authoritativeTerminalTransition in *.
    by destruct (pendingTerminal _). }
  exists settled, prepared. rewrite Hnone in Hrun.
  destruct (StateTransitionRequest.State prepared =s "cancelled") eqn:Hcancel; cbn in Hrun; inv_ok; subst journal'.
  - split; try done; try (by rewrite Hcancel); unfold setTerminalPending; journal_simpl.
    + congruence.
    + intros Hz. by rewrite Hat, Hz.
  - split; try done; try (by rewrite Hcancel, Hpending); unfold setTerminalPending; journal_simpl.
    + congruence.
    + intros Hz. by rewrite Hat, Hz.
Qed.

Lemma terminalIntentDigest_fence journal journal' stateName payload :
  fence journal' = fence journal ->
  terminalIntentDigest journal' stateName payload = terminalIntentDigest journal stateName payload.
Proof. unfold terminalIntentDigest. by intros ->. Qed.

Lemma prepareTransition_fence journal journal' transition :
  fence journal' = fence journal -> hasClaimGrant journal' = hasClaimGrant journal ->
  prepareTransition journal' transition = prepareTransition journal transition.
Proof. unfold prepareTransition. by intros -> ->. Qed.

Lemma pendingTerminal_reread transitions :
  pendingTerminal (map reread_transition transitions) = option_map reread_transition (pendingTerminal transitions).
Proof.
  unfold pendingTerminal. induction transitions as [|t l IH]; simpl; [done|].
  by destruct (isTerminalTransitionState _).
Qed.

Lemma pendingTerminal_app l t :
  pendingTerminal l = None -> isTerminalTransitionState t.(StateTransitionRequest.State) = true ->
  pendingTerminal (l ++ [t])%list = Some t.
Proof.
  unfold pendingTerminal. induction l as [|x l IH]; simpl; intros Hl Ht; [by rewrite Ht|].
  destruct (isTerminalTransitionState x.(StateTransitionRequest.State)); [done|auto].
Qed.

Lemma entered_found transition pendingAt journal settled journal' prepared :
  authoritativeTerminalTransition journal = None ->
  entered transition pendingAt journal settled journal' prepared ->
  pendingTerminal journal'.(PendingTransitions) = Some prepared.
Proof.
  intros Hauth Hent. rewrite (entered_pending _ _ _ _ _ _ Hent). pose proof (entered_terminal _ _ _ _ _ _ Hent) as Ht.
  case_match.
  - unfold pendingTerminal. simpl. by rewrite Ht.
  - apply pendingTerminal_app; [|done]. unfold authoritativeTerminalTransition in Hauth. by repeat case_match.
Qed.

Lemma entered_fence transition pendingAt journal journal' :
  queueTerminalTransition transition pendingAt journal = Ok journal' ->
  fence journal' = fence journal /\ hasClaimGrant journal' = hasClaimGrant journal.
Proof.
  by intros (? & ? & ? & ? & ? & ? & ? & ? & ? & ? & ? & ? & ->)%queueTerminalTransition_frame.
Qed.

Section Enter.
Context `{AdmissionParser}.

Lemma not_terminal_unauthoritative journal :
  valid_journal journal -> terminalLocalState journal.(LocalState) = false ->
  authoritativeTerminalTransition journal = None /\ journal.(TerminalPendingAt) = 0.
Proof.
  intros Hvalid Hterm. destruct (terminal_fields_unset _ Hvalid Hterm) as [Hunset Hnone].
  apply pendingTerminal_none in Hnone. unfold authoritativeTerminalTransition, terminalFieldsUnset, IsZero in *.
  breflect. rewrite Hnone. match goal with E : TerminalState journal = "" |- _ => by rewrite E end.
Qed.

(** C8: the first terminal transition of a valid run makes it terminal with
    the requested state and time, queues the transition, and leaves no
    obligation open: an open input command is failed and an open control
    command rejected, each with its acknowledgement queued, and an open
    provider action is classified. *)
Theorem terminal_transition_settles transition pendingAt journal journal' :
  valid_journal journal -> terminalLocalState journal.(LocalState) = false ->
  queueTerminalTransition transition pendingAt journal = Ok journal' ->
  terminal journal' /\ journal'.(TerminalState) = transition.(StateTransitionRequest.State) /\
  journal'.(TerminalPendingAt) = pendingAt /\
  (exists prepared, pendingTerminal journal'.(PendingTransitions) = Some prepared /\
     prepared.(StateTransitionRequest.TransitionID) = transition.(StateTransitionRequest.TransitionID)) /\
  inputSettled journal' /\ controlsSettled journal' /\ actionsSettled journal' /\ answered journal journal'.
Proof.
  intros Hvalid Hterm Hrun. destruct (not_terminal_unauthoritative _ Hvalid Hterm) as [Hauth Hzero].
  destruct (queueTerminalTransition_enter _ _ _ _ Hauth Hrun) as (settled & prepared & Hent).
  pose proof (entered_found _ _ _ _ _ _ Hauth Hent) as Hfound.
  destruct Hent as [Hprep _ Hsettle _ Hlocal Hstate _ Hat _ Hi Hc Ha Hk].
  apply prepareTransition_inv in Hprep as (_ & Hid & Hst & _).
  apply settleObligations_spec in Hsettle as (Hsi & Hsc & Hsa & Hans1 & Hans2).
  unfold inputSettled, controlsSettled, actionsSettled, answered, terminal in *. rewrite Hi, Hc, Ha, Hlocal.
  split_and!; eauto; [congruence|..]; eauto using acknowledged_frame.
Qed.

Lemma same_digest journal : journal <| TerminalIntentDigest := journal.(TerminalIntentDigest) |> = journal.
Proof. by destruct journal. Qed.

(** A second terminal transition against the queued one. *)
Lemma queueTerminalTransition_again transition later journal prepared queued :
  journal.(TerminalVerdict) = "" -> prepareTransition journal transition = Ok prepared ->
  isTerminalTransitionState prepared.(StateTransitionRequest.State) = true ->
  terminalIntentDigest journal prepared.(StateTransitionRequest.State) prepared.(StateTransitionRequest.Payload) =
    Ok journal.(TerminalIntentDigest) ->
  pendingTerminal journal.(PendingTransitions) = Some queued ->
  queueTerminalTransition transition later journal =
    if sameStateTransition queued prepared then Ok journal
    else Err (Errorf "terminal transition conflicts with journal").
Proof.
  intros Hverdict Hprep Ht Hdigest Hfound. unfold queueTerminalTransition, authoritativeTerminalTransition.
  rewrite Hverdict, Hprep. cbn [rbind negb String.eqb]. rewrite Ht, Hdigest. cbn [rbind negb].
  rewrite String.eqb_refl, andb_false_r, Hfound. cbn [some_and].
  destruct (sameStateTransition _ _); cbn [negb]; [by rewrite same_digest|done].
Qed.

Lemma sameStateTransition_reread t :
  sameStateTransition (reread_transition t) t = (reread_payload t.(StateTransitionRequest.Payload) =s
    t.(StateTransitionRequest.Payload)).
Proof.
  unfold sameStateTransition. simpl. rewrite (proj2 (eqb_iff (eqb := sameFence) _ _) eq_refl), !String.eqb_refl.
  done.
Qed.

(** C9: a terminal transition that was recorded, saved and read back is
    replayed without effect when its payload is the compact JSON the
    journal keeps; a payload that re-encoding changes (an empty one, or one
    with white space) is reported as a conflict. *)
Theorem terminal_replay_after_reload transition pendingAt later journal journal' :
  valid_journal journal -> terminalLocalState journal.(LocalState) = false ->
  queueTerminalTransition transition pendingAt journal = Ok journal' ->
  queueTerminalTransition transition later (reread_fields journal') =
    if reread_payload transition.(StateTransitionRequest.Payload) =s transition.(StateTransitionRequest.Payload)
    then Ok (reread_fields journal') else Err (Errorf "terminal transition conflicts with journal").
Proof.
  intros Hvalid Hterm Hrun. destruct (not_terminal_unauthoritative _ Hvalid Hterm) as [Hauth _].
  destruct (queueTerminalTransition_enter _ _ _ _ Hauth Hrun) as (settled & prepared & Hent).
  pose proof (entered_found _ _ _ _ _ _ Hauth Hent) as Hfound.
  destruct (entered_fence _ _ _ _ Hrun) as [Hfence Hgrant].
  destruct Hent as [Hprep Ht _ Hdigest _ _ Hverdict _ _ _ _ _ _].
  rewrite (queueTerminalTransition_again _ _ (reread_fields journal') prepared (reread_transition prepared)).
  - rewrite sameStateTransition_reread. by apply prepareTransition_inv in Hprep as (_ & _ & _ & -> & _).
  - exact Hverdict.
  - by rewrite (prepareTransition_fence journal).
  - done.
  - by rewrite (terminalIntentDigest_fence journal).
  - change (PendingTransitions (reread_fields journal')) with (map reread_transition (PendingTransitions journal')).
    by rewrite pendingTerminal_reread, Hfound.
Qed.
End Enter.
