(* ===== verification/EventProps.v ===== *)
(** * EventProps: the event log

    Theorems about the events a run queues: their sequence numbers are
    assigned once and never reused, the counter fails closed at the end of
    its range, and the output budget is respected with every drop counted. *)

From S2P Require Import Prelude Sha256 Json Authority Protocol Journal Validation Store Outbox ProviderAction.
From S2P Require Import Session Delivery Cgroup Containment Clone Native.
From S2P Require Import Lifecycle OutboxFacts Traces TerminalProps.
From stdpp Require Import relations.
Import RunJournal.
Open Scope string_scope.
Open Scope Z_scope.

(** ** Sequence numbers *)

(** What a callback may do to the log: drop events, or drop some and append
    one with the next number. *)
Inductive log_change (before after : RunJournal.t) : Prop :=
| log_kept :
    incl after.(PendingEvents) before.(PendingEvents) ->
    after.(LastEventSequence) = before.(LastEventSequence) -> log_change before after
| log_appended kept event :
    incl kept before.(PendingEvents) -> after.(PendingEvents) = (kept ++ [event])%list ->
    event.(RunEvent.Sequence) = nextSequence before ->
    after.(LastEventSequence) = nextSequence before -> log_change before after.

Lemma log_same before after :
  after.(PendingEvents) = before.(PendingEvents) -> after.(LastEventSequence) = before.(LastEventSequence) ->
  log_change before after.
Proof. intros Hp Hl. apply log_kept; [rewrite Hp; apply incl_refl|done]. Qed.

Lemma log_change_from before before' after :
  before'.(PendingEvents) = before.(PendingEvents) -> before'.(LastEventSequence) = before.(LastEventSequence) ->
  log_change before' after -> log_change before after.
Proof.
  intros Hp Hl [Hin Hlast|kept event Hin Hafter Hseq Hlast]; rewrite Hp in Hin;
    [apply log_kept|apply (log_appended _ _ kept event)]; unfold nextSequence in *; rewrite ?Hl in *; done.
Qed.

Lemma log_next before after event :
  after.(PendingEvents) = (before.(PendingEvents) ++ [event])%list ->
  event.(RunEvent.Sequence) = nextSequence before -> after.(LastEventSequence) = event.(RunEvent.Sequence) ->
  log_change before after.
Proof. intros Hp Hs Hl. eapply log_appended; [apply incl_refl|exact Hp|done|congruence]. Qed.

Lemma log_cleared before after :
  after.(PendingEvents) = [] -> after.(LastEventSequence) = before.(LastEventSequence) -> log_change before after.
Proof. intros Hp Hl. apply log_kept; [rewrite Hp; apply incl_nil_l|done]. Qed.

Lemma removeEvents_incl events ids : incl (removeEvents events ids) events.
Proof. apply incl_filter. Qed.

Section Log.
Context `{AdmissionParser} `{JournalEncoder} `{Platform}.

Lemma native_log admits key r before after : native_callback admits key r before = Ok after -> log_change before after.
Proof.
  intros Hrun. apply log_same; native_kept Hrun.
Qed.

Lemma terminal_log transition pendingAt before after :
  queueTerminalTransition transition pendingAt before = Ok after -> log_change before after.
Proof. intros Hrun. open_callback Hrun. invert_callback; by apply log_same. Qed.

Lemma delivery_log key op before after : delivery_callback key op before = Ok after -> log_change before after.
Proof.
  apply (delivery_lift log_change); [intros; by apply log_same| |apply terminal_log].
  intros j1 j2 j3 Honly. apply log_change_from; delivery_kept Honly.
Qed.

Lemma callback_log admits key r before after : callback admits key r before = Ok after -> log_change before after.
Proof.
  intros Hrun. destruct r; [..|by eapply delivery_log|by eapply native_log]; open_callback Hrun; invert_callback;
    try (by apply log_same); try (by apply log_cleared); try (by eapply log_next).
  - apply log_kept; [apply removeEvents_incl|done].
  - by eapply log_appended; [apply removeEvents_incl|reflexivity|..].
  - apply log_kept; [apply removeEvents_incl|done].
Qed.

Lemma validEvents_bounds last limit events event :
  validEvents last limit events = true -> In event events ->
  0 < event.(RunEvent.Sequence) /\ last < event.(RunEvent.Sequence) <= limit.
Proof.
  revert last. induction events as [|e events IH]; simpl; intros last Hvalid; [done|]. breflect.
  unfold validEvent in *. breflect. intros [<-|Hin]; [lia|]. apply IH in Hvalid; [lia|done].
Qed.

Lemma valid_events journal : valid_journal journal -> validEvents 0 journal.(LastEventSequence) journal.(PendingEvents) = true.
Proof. intros (_ & Hout & _)%valid_parts. unfold validateOutbox in Hout. inv_ok. by breflect. Qed.

(** The number of an appended event is the successor, or the save fails. *)
Lemma next_is_successor before after :
  in_int64 before.(LastEventSequence) -> valid_journal after ->
  (exists kept event, after.(PendingEvents) = (kept ++ [event])%list /\
     event.(RunEvent.Sequence) = nextSequence before) ->
  nextSequence before = before.(LastEventSequence) + 1.
Proof.
  intros Hrange Hvalid%valid_events (kept & event & Hp & Hs).
  apply (validEvents_bounds _ _ _ event) in Hvalid as [Hpos _]; [|rewrite Hp; apply in_or_app; right; by left].
  rewrite Hs in Hpos. unfold nextSequence in *. destruct (wrap64_succ _ Hrange) as [[-> _]|E]; lia.
Qed.

(** What identifies an event, whatever re-encoding does to its payload. *)
Definition event_id (event : RunEvent.t) :=
  (event.(RunEvent.EventID), event.(RunEvent.Sequence), event.(RunEvent.Kind), event.(RunEvent.OccurredAt)).

(** [after] continues the log of [before]. *)
Record log_extends (before after : RunJournal.t) : Prop := {
  extends_range : in_int64 after.(LastEventSequence);
  extends_last : before.(LastEventSequence) <= after.(LastEventSequence);
  extends_old : forall event, In event after.(PendingEvents) ->
    event.(RunEvent.Sequence) <= before.(LastEventSequence) ->
    In (event_id event) (map event_id before.(PendingEvents))
}.

Lemma callback_extends admits key r before after :
  in_int64 before.(LastEventSequence) -> valid_journal after -> callback admits key r before = Ok after ->
  log_extends before after.
Proof.
  intros Hrange Hvalid Hrun. destruct (callback_log _ _ _ _ _ Hrun) as [Hincl Hl|kept event Hincl Hp Hs Hl].
  - split; rewrite ?Hl; [done|lia|]. intros event Hin _. apply in_map. auto.
  - assert (nextSequence before = before.(LastEventSequence) + 1) as Hnext by eauto using next_is_successor.
    split; rewrite ?Hl; [apply wrap64_range|lia|]. intros e Hin Hle. rewrite Hp in Hin.
    apply in_app_or in Hin as [Hin|[<-|[]]]; [apply in_map; auto|lia].
Qed.

Lemma step_extends before after : in_int64 before.(LastEventSequence) -> step before after -> log_extends before after.
Proof.
  intros Hrange [admits r updated _ _ Hrun Hvalid]. destruct (callback_extends _ _ _ _ _ Hrange Hvalid Hrun) as [Hr Hl Ho].
  split; [done..|]. intros event Hin Hle. apply in_map_iff in Hin as (e & <- & Hin).
  change (event_id (reread_event e)) with (event_id e). auto.
Qed.

Lemma steps_extend before after : in_int64 before.(LastEventSequence) -> rtc step before after -> log_extends before after.
Proof.
  intros Hrange Hsteps. induction Hsteps as [j|j1 j2 j3 Hstep _ IH].
  - split; [done|lia|]. intros event Hin _. by apply in_map.
  - destruct (step_extends _ _ Hrange Hstep) as [Hr Hl Ho]. destruct (IH Hr) as [Hr' Hl' Ho'].
    split; [done|lia|]. intros event Hin Hle.
    assert (In (event_id event) (map event_id j2.(PendingEvents))) as Hin2 by (apply Ho'; [done|lia]).
    apply in_map_iff in Hin2 as (e & Hid & Hin2). rewrite <- Hid. apply Ho; [done|].
    unfold event_id in Hid. simplify_eq. congruence.
Qed.

(** C10: event sequence numbers are assigned once. Along every trace the last
    assigned number never decreases, and an event found later whose number
    was already assigned is one of the events that were pending then: no
    number is given to a second event, and a delivered event does not come
    back. *)
Theorem event_numbers_never_reused store trace key before after :
  in_int64 before.(LastEventSequence) -> on_disk store key before -> on_disk (run store trace) key after ->
  before.(LastEventSequence) <= after.(LastEventSequence) /\
  forall event, In event after.(PendingEvents) -> event.(RunEvent.Sequence) <= before.(LastEventSequence) ->
    In (event_id event) (map event_id before.(PendingEvents)).
Proof.
  intros Hrange Hbefore Hafter. destruct (steps_extend before after) as [_ Hl Ho]; eauto using run_on_disk.
Qed.

(** At the end of the [int64] range the log fails closed: no event is
    queued, nothing is written and the caller gets an error. *)
Theorem exhausted_sequence_fails_closed fs store key before event :
  on_disk store key before -> before.(LastEventSequence) = maxInt64 ->
  (QueueNextEvent fs store key event).1 = store /\ is_ok (QueueNextEvent fs store key event).2 = false.
Proof.
  intros [Hdisk _] Hmax. unfold QueueNextEvent, mutateJournal.
  destruct (negb (validateKey key)); [done|]. destruct (ensureOpenLocked store); [|done].
  destruct (rbind _ _) as [after|] eqn:Hrun; [|done]. inv_ok.
  rename a0 into loaded. apply load_inv in E as [[Hdisk' _] _].
  assert (loaded = before) as -> by congruence.
  enough (validateJournal after <> Ok tt) as Hinvalid.
  { unfold saved, saveJournalWithCapacityGuardLocked, saveJournalLocked.
    destruct (validateJournalSaveCapacity after); [|done]. by destruct (validateJournal after) as [[]|]. }
  intros Hvalid.
  unfold queueNextEvent in Hrun. apply appendEvent_inv in Hrun as (_ & Hseq & ->).
  assert (nextSequence before = before.(LastEventSequence) + 1) as Hnext.
  { eapply next_is_successor; [rewrite Hmax; done|exact Hvalid|]. do 2 eexists. split; [reflexivity|exact Hseq]. }
  unfold nextSequence in Hnext. rewrite Hmax in Hnext. done.
Qed.
End Log.

(** ** The output budget *)

Lemma outputBytes_app l1 l2 : outputBytes (l1 ++ l2)%list = outputBytes l1 + outputBytes l2.
Proof. induction l1 as [|e l1 IH]; simpl; [done|]. rewrite IH. lia. Qed.

Lemma outputBytes_nonneg l : 0 <= outputBytes l.
Proof. induction l as [|e l IH]; simpl; [done|]. destruct (isOutput e); unfold len; lia. Qed.

(** [QueueOutputEvent] keeps the bytes of pending output within the
    budget. An output event is queued exactly when it still fits; otherwise
    the log is unchanged and the drop is counted, one chunk and the bytes of
    its payload. *)
Theorem output_stays_within_budget event budget journal journal' dropped :
  0 <= budget -> queueOutputEvent event budget journal = Ok (journal', dropped) ->
  let size := len event.(RunEvent.Payload) in
  let total := outputBytes journal.(PendingEvents) + size in
  if dropped then
    budget < total /\ journal'.(PendingEvents) = journal.(PendingEvents) /\
    journal'.(LastEventSequence) = journal.(LastEventSequence) /\
    journal'.(DroppedOutputChunks) = wrap64 (journal.(DroppedOutputChunks) + 1) /\
    journal'.(DroppedOutputBytes) = wrap64 (journal.(DroppedOutputBytes) + size)
  else
    outputBytes journal'.(PendingEvents) = total /\ total <= budget /\
    journal'.(DroppedOutputChunks) = journal.(DroppedOutputChunks) /\
    journal'.(DroppedOutputBytes) = journal.(DroppedOutputBytes).
Proof.
  intros Hbudget Hrun. unfold queueOutputEvent in Hrun. inv_ok. breflect.
  destruct ((0 <=? budget) && _) eqn:Hfull; inv_ok; simplify_eq.
  - rewrite !andb_true_iff, orb_true_iff, !Z.ltb_lt in Hfull. split_and!; try done.
    pose proof (Nat2Z.is_nonneg (String.length event.(RunEvent.Payload))) as Hlen. fold (len event.(RunEvent.Payload)) in Hlen.
    lia.
  - rewrite (proj2 (Z.leb_le 0 budget) Hbudget) in Hfull. simpl in Hfull. breflect.
    match goal with Hq : queueNextEvent _ _ = Ok _ |- _ => apply appendEvent_inv in Hq as (_ & _ & ->) end.
    split_and!; [|lia|done..].
    change (outputBytes (journal.(PendingEvents) ++ [with_sequence event (nextSequence journal)])%list =
      outputBytes journal.(PendingEvents) + len event.(RunEvent.Payload)).
    rewrite outputBytes_app. simpl.
    change (isOutput (with_sequence event (nextSequence journal))) with (isOutput event).
    match goal with Hout : isOutput event = true |- _ => rewrite Hout end. simpl. lia.
Qed.

(** A truncation marker reports the counters it resets: one is queued
    exactly when chunks were dropped, and its payload carries both counts. *)
Theorem truncation_marker_reports_drops at_ newEventID journal journal' queued :
  appendOutputTruncatedMarker at_ newEventID journal = Ok (journal', queued) ->
  queued = negb (journal.(DroppedOutputChunks) =? 0) /\
  if queued then
    exists eventID, newEventID = Some eventID /\
    journal'.(PendingEvents) = (journal.(PendingEvents) ++
      [RunEvent.mk eventID (nextSequence journal) "output_truncated" at_ (truncatedPayload journal)])%list /\
    journal'.(DroppedOutputChunks) = 0 /\ journal'.(DroppedOutputBytes) = 0
  else journal' = journal.
Proof.
  unfold appendOutputTruncatedMarker. intros Hrun. inv_ok.
  destruct (DroppedOutputChunks journal =? 0); inv_ok; [by injection Hrun as <- <-|].
  destruct newEventID as [eventID|]; [|done]. inv_ok. injection Hrun as <- <-. split; [done|].
  apply appendEvent_inv in E0 as (_ & _ & ->). by exists eventID.
Qed.
