(* ===== verification/CommandProps.v ===== *)
(** * CommandProps: commands and provider actions are settled once

    Theorems about the durable intents of a run: a control command is
    accepted at most once, a provider action dispatched at most once, and a
    recorded outcome never changes. *)

From S2P Require Import Prelude Sha256 Json Authority Protocol Journal Validation Store Outbox ProviderAction.
From S2P Require Import Session Delivery Cgroup Containment Clone Native.
From S2P Require Import Lifecycle OutboxFacts Traces TerminalProps.
From stdpp Require Import relations.
Import RunJournal.
Open Scope string_scope.
Open Scope Z_scope.

(** ** Lists that grow at the end *)

Section Extends.
Context {A : Type} (R : A -> A -> Prop) `{!PreOrder R}.

(** Every element is kept, possibly updated, and new ones come last. *)
Definition extends (before after : list A) : Prop :=
  exists kept new, after = (kept ++ new)%list /\ Forall2 R before kept.

#[export] Instance extends_preorder : PreOrder extends.
Proof.
  split.
  - intros l. exists l, []. rewrite app_nil_r. split; [done|]. by apply Forall_Forall2_diag, Forall_true.
  - intros l1 l2 l3 (k1 & n1 & -> & H1) (k2 & n2 & -> & H2).
    apply Forall2_app_inv_l in H2 as (k & n & Hk & _ & ->).
    exists k, (n ++ n2)%list. rewrite app_assoc. split; [done|]. by transitivity k1.
Qed.

Lemma extends_app l x : extends l (l ++ [x])%list.
Proof. exists l, [x]. split; [done|]. by apply Forall_Forall2_diag, Forall_true. Qed.

Lemma extends_map f l : (forall x, R x (f x)) -> extends l (map f l).
Proof.
  intros Hf. exists (map f l), []. rewrite app_nil_r. split; [done|].
  induction l; simpl; constructor; auto.
Qed.

Lemma extends_update_first p f l x :
  List.find p l = Some x -> R x (f x) -> extends l (update_first p f l).
Proof.
  intros Hfind Hf. exists (update_first p f l), []. rewrite app_nil_r. split; [done|].
  induction l as [|y l IH]; simpl in *; [constructor|]. destruct (p y) eqn:E; simplify_eq.
  - constructor; [done|]. by apply Forall_Forall2_diag, Forall_true.
  - constructor; [done|auto].
Qed.

Lemma extends_in l l' x : extends l l' -> In x l -> exists y, In y l' /\ R x y.
Proof.
  intros (kept & new & -> & Hall) Hin.
  induction Hall as [|a b l kept Hab _ IH]; [done|]. destruct Hin as [<-|Hin].
  - exists b. split; [by left|done].
  - destruct (IH Hin) as (y & Hy & HR). exists y. split; [by right|done].
Qed.
End Extends.

(** ** Intents and their settlement *)

(** One control command, before and after: only its settlement moves, and it
    moves once. *)
Record control_evolves (before after : ControlCommandIntent.t) : Prop := {
  control_id : after.(ControlCommandIntent.CommandID) = before.(ControlCommandIntent.CommandID);
  control_kind : after.(ControlCommandIntent.Kind) = before.(ControlCommandIntent.Kind);
  control_digest : after.(ControlCommandIntent.PayloadDigest) = before.(ControlCommandIntent.PayloadDigest);
  control_ack : after.(ControlCommandIntent.AckID) = before.(ControlCommandIntent.AckID);
  control_outcome : write_once before.(ControlCommandIntent.Outcome) after.(ControlCommandIntent.Outcome);
  control_delivered : before.(ControlCommandIntent.AcknowledgementDelivered) = true ->
    after.(ControlCommandIntent.AcknowledgementDelivered) = true
}.

#[export] Instance control_evolves_preorder : PreOrder control_evolves.
Proof.
  split; [by split|]. intros a b c [] []. split; try congruence; [by etrans|auto].
Qed.

(** One provider action: its identity is fixed and its outcome written once. *)
Record action_evolves (before after : ProviderActionIntent.t) : Prop := {
  action_id : after.(ProviderActionIntent.ActionID) = before.(ProviderActionIntent.ActionID);
  action_key : after.(ProviderActionIntent.ActionKey) = before.(ProviderActionIntent.ActionKey);
  action_request : after.(ProviderActionIntent.RequestDigest) = before.(ProviderActionIntent.RequestDigest);
  action_resource : after.(ProviderActionIntent.ResourceID) = before.(ProviderActionIntent.ResourceID);
  action_operation : after.(ProviderActionIntent.Operation) = before.(ProviderActionIntent.Operation);
  action_outcome : write_once before.(ProviderActionIntent.Outcome) after.(ProviderActionIntent.Outcome);
  action_failure : before.(ProviderActionIntent.Outcome) <> "" ->
    after.(ProviderActionIntent.FailureCode) = before.(ProviderActionIntent.FailureCode)
}.

#[export] Instance action_evolves_preorder : PreOrder action_evolves.
Proof.
  split; [by split|]. intros a b c [? ? ? ? ? Ho Hf] [? ? ? ? ? Ho' Hf']. split; try congruence; [by etrans|].
  intros Ha. rewrite Hf'; [auto|]. by rewrite Ho.
Qed.

Lemma rejectOpen_evolves intent : control_evolves intent (rejectOpen intent).
Proof. unfold rejectOpen. destruct (negb _) eqn:E; breflect; [done|]. split; try done. intros ?. done. Qed.

Lemma settleAction_evolves code intent : action_evolves intent (settleAction code intent).
Proof. unfold settleAction. destruct (negb _) eqn:E; breflect; [done|]. split; try done; by intros Ho. Qed.

Lemma reread_action_evolves intent : action_evolves intent (reread_action intent).
Proof. by split. Qed.

Lemma markControlsDelivered_evolves ids intents intents' :
  markControlsDelivered ids intents = Ok intents' -> extends control_evolves intents intents'.
Proof.
  intros Hrun. exists intents', []. rewrite app_nil_r. split; [done|].
  revert intents' Hrun. induction intents as [|intent intents IH]; simpl; intros intents' Hrun; inv_ok; subst;
    [constructor|]. constructor; [|by apply IH].
  repeat case_match; inv_ok; subst; [by split|done].
Qed.

(** ** What settling does to the lists *)

Lemma settleObligations_lists journal settled :
  settleObligations journal = Ok settled ->
  settled.(ControlCommandIntents) = map rejectOpen journal.(ControlCommandIntents) /\
  settled.(ProviderActionIntents) = map (settleAction "run_terminal_unknown") journal.(ProviderActionIntents).
Proof.
  unfold settleObligations, settleUnresolvedControlCommands. intros Hrun.
  apply rbind_ok in Hrun as (j1 & Hi & Hrun). apply rbind_ok in Hrun as (j2 & Hc & Hrun). inv_ok.
  pose proof (settleControls_spec _ _ _ _ Hc) as (_ & Hcontrols & _).
  assert (j2.(ProviderActionIntents) = j1.(ProviderActionIntents)) as Ha2
    by (by apply settleControls_frame in Hc as (? & ? & ->)).
  apply settleUnresolvedInputCommand_frame in Hi as (? & ? & ->). subst settled.
  split; [exact Hcontrols|].
  change (map (settleAction "run_terminal_unknown") j2.(ProviderActionIntents) =
    map (settleAction "run_terminal_unknown") journal.(ProviderActionIntents)). by rewrite Ha2.
Qed.

Lemma queueTerminalTransition_lists transition pendingAt journal journal' :
  queueTerminalTransition transition pendingAt journal = Ok journal' ->
  extends control_evolves journal.(ControlCommandIntents) journal'.(ControlCommandIntents) /\
  extends action_evolves journal.(ProviderActionIntents) journal'.(ProviderActionIntents).
Proof.
  intros Hrun. destruct (authoritativeTerminalTransition journal) as [existing|] eqn:Hauth.
  - unfold queueTerminalTransition in Hrun. rewrite Hauth in Hrun. inv_ok. subst. done.
  - apply queueTerminalTransition_enter in Hrun as (settled & prepared & Hent); [|done].
    rewrite (entered_controls _ _ _ _ _ _ Hent), (entered_actions _ _ _ _ _ _ Hent).
    destruct (settleObligations_lists _ _ (entered_settled _ _ _ _ _ _ Hent)) as [-> ->].
    split; apply extends_map; auto using rejectOpen_evolves, settleAction_evolves.
Qed.

Lemma settlement_lists transition ack pendingAt required journal journal' :
  queueTerminalSettlement transition ack pendingAt required journal = Ok journal' ->
  extends control_evolves journal.(ControlCommandIntents) journal'.(ControlCommandIntents) /\
  extends action_evolves journal.(ProviderActionIntents) journal'.(ProviderActionIntents).
Proof.
  intros Hrun. apply queueTerminalSettlement_inv in Hrun as (queued & acks & command & settlement & Hrun & _ & _ & _ & ->).
  apply queueTerminalTransition_lists in Hrun. exact Hrun.
Qed.

Lemma failUnresolved_lists transition pendingAt journal journal' :
  failUnresolvedProvideInput transition pendingAt journal = Ok journal' ->
  extends control_evolves journal.(ControlCommandIntents) journal'.(ControlCommandIntents) /\
  extends action_evolves journal.(ProviderActionIntents) journal'.(ProviderActionIntents).
Proof.
  unfold failUnresolvedProvideInput. intros Hrun. repeat case_match.
  - inv_ok. by subst.
  - by apply settleUnresolvedInputCommand_frame in Hrun as (? & ? & ->).
  - by eapply queueTerminalTransition_lists.
Qed.

Lemma delivery_lists key op journal journal' :
  delivery_callback key op journal = Ok journal' ->
  extends control_evolves journal.(ControlCommandIntents) journal'.(ControlCommandIntents) /\
  extends action_evolves journal.(ProviderActionIntents) journal'.(ProviderActionIntents).
Proof.
  apply (delivery_lift (fun j j' => extends control_evolves j.(ControlCommandIntents) j'.(ControlCommandIntents) /\
    extends action_evolves j.(ProviderActionIntents) j'.(ProviderActionIntents))); [done| |].
  - intros j1 j2 j3 Honly. by rewrite (delivery_only_field ControlCommandIntents _ _ (fun j => eq_refl) Honly),
      (delivery_only_field ProviderActionIntents _ _ (fun j => eq_refl) Honly).
  - apply queueTerminalTransition_lists.
Qed.

Section Intents.
Context `{AdmissionParser} `{JournalEncoder} `{Platform}.

Lemma prepareProviderAction_inv intent journal journal' dispatch :
  prepareProviderAction intent journal = Ok (journal', dispatch) ->
  if dispatch then
    (forall current, In current journal.(ProviderActionIntents) ->
       current.(ProviderActionIntent.ActionKey) <> intent.(ProviderActionIntent.ActionKey) /\
       current.(ProviderActionIntent.ActionID) <> intent.(ProviderActionIntent.ActionID)) /\
    journal' = journal <| ProviderActionIntents := (journal.(ProviderActionIntents) ++ [intent])%list |>
  else journal' = journal.
Proof.
  unfold prepareProviderAction. intros Hrun. destruct (List.find _ _) eqn:Hfind; inv_ok; injection Hrun as <- <-; [done|].
  split; [|done]. intros current Hin. apply (find_none _ _ Hfind) in Hin. breflect. done.
Qed.

(** Completing and recovering replace one open intent, or change nothing. *)
Lemma sameIdentity_evolves current completed :
  ProviderActionIntent.sameIdentity current completed = true -> current.(ProviderActionIntent.Outcome) = "" ->
  action_evolves current completed.
Proof. unfold ProviderActionIntent.sameIdentity. intros Hsame Hopen. breflect. split; try done; by intros Ho. Qed.

Lemma completeProviderAction_evolves completed journal journal' changed :
  completeProviderAction completed journal = Ok (journal', changed) ->
  extends action_evolves journal.(ProviderActionIntents) journal'.(ProviderActionIntents).
Proof.
  unfold completeProviderAction, findAction, replaceAction. intros Hrun.
  destruct (List.find _ _) as [current|] eqn:Hfind; [|done]. inv_ok. breflect.
  destruct (negb (_ =s _)) eqn:Hopen; inv_ok; injection Hrun as <- <-; [done|]. breflect.
  eapply extends_update_first; [apply _|exact Hfind|]. by apply sameIdentity_evolves.
Qed.

Lemma recoverProviderAction_evolves actionID digest code journal journal' changed :
  recoverProviderAction actionID digest code journal = Ok (journal', changed) ->
  extends action_evolves journal.(ProviderActionIntents) journal'.(ProviderActionIntents).
Proof.
  unfold recoverProviderAction, findAction, replaceAction. intros Hrun.
  destruct (List.find _ _) as [current|] eqn:Hfind; [|done]. inv_ok. breflect.
  destruct (_ =s "") eqn:Hopen; inv_ok; injection Hrun as <- <-; [|done].
  eapply extends_update_first; [apply _|exact Hfind|]. apply settleAction_evolves.
Qed.

Lemma recoverProviderActions_evolves code journal journal' changed :
  recoverProviderActions code journal = Ok (journal', changed) ->
  extends action_evolves journal.(ProviderActionIntents) journal'.(ProviderActionIntents).
Proof.
  unfold recoverProviderActions, settleUnresolvedProviderActions. intros Hrun.
  destruct (hasUnresolvedProviderActions journal); inv_ok; injection Hrun as <- <-;
    apply extends_map, settleAction_evolves.
Qed.

(** No request drops a provider action or changes a recorded outcome. *)
Lemma callback_actions admits key r before after :
  callback admits key r before = Ok after ->
  extends action_evolves before.(ProviderActionIntents) after.(ProviderActionIntents).
Proof.
  intros Hrun. destruct r; [..|by eapply delivery_lists|by rewrite (native_field ProviderActionIntents _ _ _ _ _ (fun j => eq_refl) Hrun)];
    cbv [callback drop_flag] in Hrun; try (open_callback Hrun; invert_callback; reflexivity).
  - by eapply failUnresolved_lists.
  - by eapply queueTerminalTransition_lists.
  - by eapply settlement_lists.
  - by eapply settlement_lists.
  - apply resolveTerminalForCleanup_inv in Hrun
      as [(_ & _ & ? & _ & ->)|(_ & _ & ? & ? & ? & _ & _ & ->)]; [done|].
    apply extends_map, settleAction_evolves.
  - inv_ok. destruct a as [after' []]; subst; apply prepareProviderAction_inv in E; [destruct E as [_ E]|]; cbn [fst]; subst;
      [apply extends_app, _|done].
  - inv_ok. destruct a as [after' changed]. subst. by eapply completeProviderAction_evolves.
  - inv_ok. destruct a as [after' changed]. subst. by eapply recoverProviderActions_evolves.
  - inv_ok. destruct a as [after' changed]. subst. by eapply recoverProviderAction_evolves.
Qed.

Lemma completeControlCommand_evolves commandID kind outcome event journal journal' :
  completeControlCommand commandID kind outcome event journal = Ok journal' ->
  extends control_evolves journal.(ControlCommandIntents) journal'.(ControlCommandIntents).
Proof.
  unfold completeControlCommand. intros Hrun. destruct (List.find _ _) as [intent|] eqn:Hfind; [|done]. inv_ok.
  destruct (negb (_ =s "")) eqn:Hopen; [inv_ok; by subst|]. breflect.
  assert (forall o, extends control_evolves journal.(ControlCommandIntents)
    (update_first (fun current => current.(ControlCommandIntent.CommandID) =s commandID)
       (fun current => current <| ControlCommandIntent.Outcome := o |>) journal.(ControlCommandIntents))) as Hext.
  { intros o. eapply extends_update_first; [apply _|exact Hfind|]. split; try done; by intros Ho. }
  inv_ok. destruct a as [outcome' event']. invert_callback; apply Hext.
Qed.

(** Control commands are only dropped by the cleanup of an ended run. *)
Lemma callback_controls admits key r before after :
  callback admits key r before = Ok after ->
  before.(LocalState) = "terminal_pending" \/
  extends control_evolves before.(ControlCommandIntents) after.(ControlCommandIntents).
Proof.
  intros Hrun.
  destruct r; [..|by right; eapply delivery_lists|by right; rewrite (native_field ControlCommandIntents _ _ _ _ _ (fun j => eq_refl) Hrun)];
    cbv [callback drop_flag] in Hrun;
    try (right; open_callback Hrun; invert_callback; reflexivity).
  - right. unfold markCommandAcknowledgementsDelivered in Hrun. inv_ok. subst. by eapply markControlsDelivered_evolves.
  - right. by eapply failUnresolved_lists.
  - right. open_callback Hrun. invert_callback; [done|apply extends_app, _].
  - right. by eapply completeControlCommand_evolves.
  - right. by eapply queueTerminalTransition_lists.
  - right. by eapply settlement_lists.
  - right. by eapply settlement_lists.
  - apply resolveTerminalForCleanup_inv in Hrun as [(_ & _ & ? & _ & ->)|(Hp & _)]; [by right|by left].
  - unfold enterCleanupPending in Hrun. inv_ok.
    destruct (LocalState before =s "cleanup_pending"); [inv_ok; subst; by right|]. inv_ok. breflect. by left.
Qed.

(** ** Along a trace *)

Lemma steps_actions before after :
  rtc step before after -> extends action_evolves before.(ProviderActionIntents) after.(ProviderActionIntents).
Proof.
  intros Hsteps. induction Hsteps as [|j1 j2 j3 [admits r updated _ _ Hrun _] _ IH]; [done|].
  etrans; [by eapply callback_actions|]. etrans; [|exact IH].
  apply (extends_map action_evolves reread_action), reread_action_evolves.
Qed.

Lemma steps_controls before after :
  rtc step before after -> terminal after \/
  extends control_evolves before.(ControlCommandIntents) after.(ControlCommandIntents).
Proof.
  intros Hsteps. induction Hsteps as [j|j1 j2 j3 Hstep Hsteps IH]; [by right|].
  inversion Hstep as [admits r updated Hvalid Hadm Hrun Hvalid' E]. subst j2. destruct (callback_controls _ _ _ _ _ Hrun) as [Hend|Hext].
  - left. eapply steps_final; [|exact Hsteps]. eapply step_terminal; [|exact Hstep]. unfold terminal. by rewrite Hend.
  - destruct IH as [Hend|IH]; [by left|right]. etrans; [exact Hext|exact IH].
Qed.

Lemma provider_action_kept store trace key before after intent :
  on_disk store key before -> on_disk (run store trace) key after -> In intent before.(ProviderActionIntents) ->
  exists intent', In intent' after.(ProviderActionIntents) /\ action_evolves intent intent'.
Proof. intros Hb Ha Hin. eapply extends_in; [|done]. eauto using steps_actions, run_on_disk. Qed.

Lemma terminal_refuses_control kind journal : terminal journal -> controlAllowed kind journal.(LocalState) = false.
Proof.
  unfold terminal, terminalLocalState, controlAllowed. rewrite orb_true_iff, !String.eqb_eq.
  intros [-> | ->]; by repeat case_match.
Qed.

(** C14: a recorded provider action is never lost and its outcome never
    changes. Along every trace each action of the journal is still there,
    with the same identity, request and operation, and with the same outcome
    and failure code if it had one. *)
Theorem provider_action_outcome_is_final store trace key before after intent :
  on_disk store key before -> on_disk (run store trace) key after -> In intent before.(ProviderActionIntents) ->
  exists intent', In intent' after.(ProviderActionIntents) /\ action_evolves intent intent'.
Proof. eauto using provider_action_kept. Qed.

(** C15: a provider action is dispatched at most once. After the journal that
    permitted a dispatch was saved, no later prepare permits one for the same
    action key or action ID, whatever happened in between. *)
Theorem provider_action_dispatched_once store trace key journal journal1 intent later intent' later' :
  prepareProviderAction intent journal = Ok (journal1, true) ->
  on_disk store key (reread_fields journal1) -> on_disk (run store trace) key later ->
  prepareProviderAction intent' later = Ok (later', true) ->
  intent'.(ProviderActionIntent.ActionKey) <> intent.(ProviderActionIntent.ActionKey) /\
  intent'.(ProviderActionIntent.ActionID) <> intent.(ProviderActionIntent.ActionID).
Proof.
  intros Hfirst%prepareProviderAction_inv Hsaved Hlater [Hnone _]%prepareProviderAction_inv.
  assert (In (reread_action intent) (reread_fields journal1).(ProviderActionIntents)) as Hin.
  { destruct Hfirst as [_ ->]. apply (in_map reread_action), in_or_app. right. by left. }
  destruct (provider_action_kept _ _ _ _ _ _ Hsaved Hlater Hin) as (current & Hcurrent & [Hid Hkey _ _ _ _ _]).
  destruct (Hnone _ Hcurrent) as [Hne1 Hne2]. split; intros E; [apply Hne1|apply Hne2]; by rewrite E.
Qed.

(** C16: a control command is accepted at most once. After the journal that
    recorded it was saved, preparing the same command again never reports it
    as new: it is answered from the record, or refused. *)
Theorem control_command_accepted_once store trace key journal journal1 intent later intent' later' created :
  prepareControlCommand intent journal = Ok (journal1, true) ->
  on_disk store key (reread_fields journal1) -> on_disk (run store trace) key later ->
  intent'.(ControlCommandIntent.CommandID) = intent.(ControlCommandIntent.CommandID) ->
  prepareControlCommand intent' later = Ok (later', created) ->
  created = false /\ later' = later.
Proof.
  intros Hfirst Hsaved Hlater Hid Hagain.
  assert (In intent (reread_fields journal1).(ControlCommandIntents)) as Hin.
  { unfold prepareControlCommand in Hfirst. case_match; inv_ok; injection Hfirst as <-; [done|].
    apply in_or_app. right. by left. }
  unfold prepareControlCommand in Hagain. destruct (List.find _ _) as [current|] eqn:Hfind; inv_ok; [by injection Hagain|].
  destruct (steps_controls _ _ (run_on_disk _ _ _ _ _ Hsaved Hlater)) as [Hend|Hext]; breflect.
  - by apply terminal_refuses_control with (kind := intent'.(ControlCommandIntent.Kind)) in Hend; rewrite Hend in *.
  - destruct (extends_in _ _ _ _ Hext Hin) as (current & Hcurrent & Hevolves).
    apply (find_none _ _ Hfind) in Hcurrent. apply String.eqb_neq in Hcurrent.
    by rewrite (control_id _ _ Hevolves), Hid in Hcurrent.
Qed.

(** The outcome of a control command is final: while the run has not
    ended, every recorded command is still there with the same kind, payload
    and acknowledgement, and with the same outcome if it had one. *)
Theorem control_outcome_is_final store trace key before after intent :
  on_disk store key before -> on_disk (run store trace) key after -> ~ terminal after ->
  In intent before.(ControlCommandIntents) ->
  exists intent', In intent' after.(ControlCommandIntents) /\ control_evolves intent intent'.
Proof.
  intros Hb Ha Hrunning Hin. destruct (steps_controls before after) as [Hend|Hext]; [by eapply run_on_disk|done|].
  by eapply extends_in.
Qed.
End Intents.
