(* ===== verification/RunProps.v ===== *)
(** * RunProps: identity, usage, leases, waiting and cleanup

    Further theorems about the life of a run: what identifies it is fixed,
    reported usage never regresses, a lease only moves forward, a transition
    that may have been sent is not rewritten, and cleanup under an accepted
    verdict discards nothing that was not delivered. *)

From S2P Require Import Prelude Sha256 Json Authority Protocol Journal Validation Store Outbox ProviderAction.
From S2P Require Import Session Delivery Cgroup Containment Clone Native.
From S2P Require Import Lifecycle OutboxFacts Traces TerminalProps.
From stdpp Require Import relations.
Import RunJournal.
Open Scope string_scope.
Open Scope Z_scope.

Section Runs.
Context `{AdmissionParser} `{JournalEncoder} `{Platform}.

(** ** Identity *)

Lemma steps_identity before after : rtc step before after -> identity after = identity before.
Proof.
  induction 1 as [|j1 j2 j3 [admits r updated _ _ Hrun _] _ IH]; [done|].
  rewrite IH. by apply callback_identity in Hrun.
Qed.

(** C18: what identifies a run is fixed: along every trace the run ID,
    generation, runtime, claimed epoch, claim ID and workspace binding of its
    journal stay the same. *)
Theorem run_identity_is_fixed store trace key before after :
  on_disk store key before -> on_disk (run store trace) key after -> identity after = identity before.
Proof. eauto using steps_identity, run_on_disk. Qed.

(** ** Usage *)

(** [after] reports at least what [before] reported. *)
Definition usage_covers (before after : option NativeUsageObservation.t) : Prop :=
  forall previous, before = Some previous ->
  exists next, after = Some next /\ NativeUsageObservation.Covers next previous = true.

Lemma Covers_refl o : NativeUsageObservation.Covers o o = true.
Proof. unfold NativeUsageObservation.Covers. by rewrite !Z.leb_refl. Qed.

Lemma Covers_trans a b c :
  NativeUsageObservation.Covers b a = true -> NativeUsageObservation.Covers c b = true ->
  NativeUsageObservation.Covers c a = true.
Proof.
  unfold NativeUsageObservation.Covers. rewrite !andb_true_iff, !Z.leb_le. lia.
Qed.

#[export] Instance usage_covers_preorder : PreOrder usage_covers.
Proof.
  split.
  - intros o previous ->. eauto using Covers_refl.
  - intros a b c Hab Hbc previous Ha. destruct (Hab _ Ha) as (o & Hb & Ho). destruct (Hbc _ Hb) as (o' & Hc & Ho').
    eauto using Covers_trans.
Qed.

Lemma recordUsage_covers observation before after :
  recordUsage observation before = Ok after ->
  usage_covers before.(NativeUsageObservation) after.(NativeUsageObservation).
Proof.
  unfold recordUsage. intros Hrun. destruct (some_and _ _) eqn:Hreg; inv_ok; subst; [done|].
  intros previous Hprev. rewrite Hprev in Hreg. cbn [some_and] in Hreg.
  unfold NativeUsageObservation.regresses in Hreg. breflect. exists observation. by split.
Qed.

Lemma delivery_usage key op before after :
  delivery_callback key op before = Ok after -> usage_covers before.(NativeUsageObservation) after.(NativeUsageObservation).
Proof.
  apply (delivery_lift (fun j j' => usage_covers j.(NativeUsageObservation) j'.(NativeUsageObservation))); [done| |].
  - intros j1 j2 j3 Honly. by rewrite (delivery_only_field NativeUsageObservation _ _ (fun j => eq_refl) Honly).
  - intros transition pendingAt j j' Hrun. open_callback Hrun. by invert_callback.
Qed.

Lemma callback_usage admits key r before after :
  callback admits key r before = Ok after -> usage_covers before.(NativeUsageObservation) after.(NativeUsageObservation).
Proof.
  intros Hrun. destruct r; [..|by eapply delivery_usage|by rewrite (native_field NativeUsageObservation _ _ _ _ _ (fun j => eq_refl) Hrun)];
    try (by eapply recordUsage_covers); open_callback Hrun; invert_callback; try reflexivity.
  all: match goal with p : RunJournal.t * bool |- _ => destruct p; simplify_eq; reflexivity end.
Qed.

Lemma steps_usage before after :
  rtc step before after -> usage_covers before.(NativeUsageObservation) after.(NativeUsageObservation).
Proof.
  induction 1 as [|j1 j2 j3 [admits r updated _ _ Hrun _] _ IH]; [done|]. etrans; [by eapply callback_usage|exact IH].
Qed.

(** Recorded native usage never regresses: along every trace an
    observation is replaced only by one that reports at least as many input,
    output, cached, reasoning and total tokens. *)
Theorem native_usage_is_monotone store trace key before after previous :
  on_disk store key before -> on_disk (run store trace) key after ->
  before.(NativeUsageObservation) = Some previous ->
  exists next, after.(NativeUsageObservation) = Some next /\ NativeUsageObservation.Covers next previous = true.
Proof. intros Hb Ha. apply steps_usage. eauto using run_on_disk. Qed.
End Runs.

(** ** Terminal intent digests *)

Lemma terminal_states s : isTerminalTransitionState s = true -> s = "completed" \/ s = "failed" \/ s = "cancelled".
Proof. unfold isTerminalTransitionState. rewrite string_in_spec. simpl. naive_solver. Qed.

(** The digested bytes determine the state and the payload. *)
Lemma intentEnvelope_inj f s p s' p' :
  isTerminalTransitionState s = true -> isTerminalTransitionState s' = true ->
  intentEnvelope f s p = intentEnvelope f s' p' -> s = s' /\ enc_raw p = enc_raw p'.
Proof.
  intros Hs Hs'. unfold intentEnvelope, enc_object. cbn [map join_comma fst snd]. intros E.
  rewrite !append_assoc in E. do 11 apply append_inj_l in E.
  destruct (terminal_states _ Hs) as [->|[->| ->]]; destruct (terminal_states _ Hs') as [->|[->| ->]];
    try (apply (f_equal (String.get 3)) in E; vm_compute in E; discriminate E).
  all: split; [done|]. all: do 6 apply append_inj_l in E. all: by apply append_inj_tail in E.
Qed.

Lemma terminalIntentDigest_inv journal stateName payload digest :
  terminalIntentDigest journal stateName payload = Ok digest ->
  isTerminalTransitionState stateName = true /\ validRawMessage payload = true /\
  digest = sha256_hex (intentEnvelope (fence journal) stateName payload).
Proof. unfold terminalIntentDigest. intros Hrun. inv_ok. by breflect. Qed.

(** [TerminalIntentMatches] compares terminal intents: against a journal
    whose digest was taken from one state and payload, it answers yes for
    exactly the same state and a payload with the same compact JSON, unless
    the two envelopes are a SHA-256 collision. *)
Theorem terminal_intent_matches_exactly journal state0 payload0 stateName payload :
  terminalIntentDigest journal state0 payload0 = Ok journal.(TerminalIntentDigest) ->
  isTerminalTransitionState stateName = true -> validRawMessage payload = true ->
  let same := stateName = state0 /\ enc_raw payload = enc_raw payload0 in
  (same -> TerminalIntentMatches journal stateName payload = (true, true)) /\
  (TerminalIntentMatches journal stateName payload = (true, true) ->
   same \/ sha256_collision (intentEnvelope (fence journal) stateName payload)
                            (intentEnvelope (fence journal) state0 payload0)).
Proof.
  intros (Hs0 & Hp0 & Hd)%terminalIntentDigest_inv Hs Hp. unfold TerminalIntentMatches, terminalIntentDigest.
  rewrite Hs, Hp. cbn [negb orb]. rewrite Hd.
  destruct (_ =s "") eqn:Hempty; [apply String.eqb_eq, sha256_hex_nonempty in Hempty; done|]. split.
  - intros [-> Hraw]. unfold intentEnvelope. by rewrite Hraw, String.eqb_refl.
  - intros [= E%String.eqb_eq]. apply sha256_eq_inv in E as [E|E]; [left|by right]. by apply intentEnvelope_inj in E.
Qed.

(** ** Waiting for input *)

Lemma update_last_keeps {A} (f : A -> A) l x y :
  last l = Some y -> In x l -> x <> y -> In x (update_last f l).
Proof.
  induction l as [|a l IH]; [done|]. destruct l as [|b l]; simpl.
  - intros [= <-] [<-|[]] Hne. done.
  - intros Hlast [<-|Hin] Hne; [by left|]. right. by apply IH.
Qed.

Lemma update_last_length {A} (f : A -> A) l : length (update_last f l) = length l.
Proof. induction l as [|a [|b l] IH]; simpl in *; [done..|]. by rewrite IH. Qed.

(** Queueing a wait for input never rewrites a transition that may
    already have been sent: every pending transition whose ID was marked
    attempted is pending afterwards unchanged, and at most one transition is
    added. *)
Theorem waiting_keeps_attempted_transitions event transition journal journal' queued :
  queueWaitingForInput event transition journal = Ok journal' ->
  In queued journal.(PendingTransitions) ->
  In queued.(StateTransitionRequest.TransitionID) journal.(AttemptedTransitionIDs) ->
  In queued journal'.(PendingTransitions) /\
  (length journal'.(PendingTransitions) <= S (length journal.(PendingTransitions)))%nat.
Proof.
  unfold queueWaitingForInput, hasAttemptedTransition. intros Hrun Hin Hatt. inv_ok.
  destruct (LocalState journal =s "paused"); [apply appendEvent_inv in Hrun as (_ & _ & ->); split; [done|simpl; lia]|].
  destruct (_ || _); [apply appendEvent_inv in Hrun as (_ & _ & ->); split; [done|simpl; lia]|]. inv_ok.
  match goal with He : appendEvent _ _ _ = Ok ?j |- _ =>
    apply appendEvent_inv in He as (_ & _ & Hj);
    assert (j.(PendingTransitions) = journal.(PendingTransitions) /\
            j.(AttemptedTransitionIDs) = journal.(AttemptedTransitionIDs)) as [Hp Ha] by (by rewrite Hj);
    clear Hj; rewrite Hp, Ha in Hrun
  end.
  subst journal'. journal_simpl.
  destruct (last journal.(PendingTransitions)) as [newest|] eqn:Hlast;
    [|by apply last_None in Hlast; rewrite Hlast in Hin].
  destruct (StateTransitionRequest.State newest =s "waiting_for_input"); [destruct (string_in _ _) eqn:Hnewest|].
  - split; [done|lia].
  - rewrite update_last_length. split; [|lia]. eapply update_last_keeps; [done..|].
    intros ->. by apply string_in_false in Hnewest.
  - rewrite length_app. simpl. split; [apply in_or_app; by left|lia].
Qed.

(** ** Leases *)

(** [AdvanceLeaseExpiry] only moves a lease forward: the new expiry is
    the later of the two, an ended run keeps its lease, and nothing else of
    the journal changes. *)
Theorem lease_only_advances expiry journal journal' :
  advanceLeaseExpiry expiry journal = Ok journal' ->
  journal'.(LeaseExpiresAt) =
    (if terminalLocalState journal.(LocalState) then journal.(LeaseExpiresAt)
     else Z.max journal.(LeaseExpiresAt) expiry) /\
  journal' = journal <| LeaseExpiresAt := journal'.(LeaseExpiresAt) |>.
Proof.
  unfold advanceLeaseExpiry. intros Hrun. inv_ok.
  destruct (terminalLocalState _); [inv_ok; rewrite <- Hrun; split; [done|by destruct journal]|].
  destruct (_ <? expiry) eqn:Hlt; inv_ok; rewrite <- Hrun; breflect; (split; [|by destruct journal]).
  - journal_simpl. lia.
  - lia.
Qed.

(** ** Acknowledgements *)

Lemma distinct_commands `{AdmissionParser} journal :
  valid_journal journal ->
  List.NoDup (map CommandAcknowledgement.CommandID journal.(PendingCommandAcknowledgements)).
Proof.
  intros (_ & Hout & _)%valid_parts. unfold validateOutbox in Hout. inv_ok. breflect.
  match goal with Hd : distinct_keys _ [] _ = true |- _ => by apply distinct_keys_spec in Hd as [? _] end.
Qed.

Lemma NoDup_map_eq {A B} (f : A -> B) l x y :
  List.NoDup (map f l) -> In x l -> In y l -> f x = f y -> x = y.
Proof.
  induction l as [|a l IH]; simpl; [done|]. intros Hnd. inversion_clear Hnd as [|? ? Hnin Hnd'].
  intros [->|Hx] [->|Hy] E; [done| | |auto].
  - destruct Hnin. rewrite E. by apply in_map.
  - destruct Hnin. rewrite <- E. by apply in_map.
Qed.

(** A command has one acknowledgement: queueing one for a command of a
    valid journal that has a pending acknowledgement succeeds only with the
    same outcome, and then changes nothing; it never overwrites the pending
    outcome. *)
Theorem pending_acknowledgement_is_kept `{AdmissionParser} ack journal journal' pending :
  valid_journal journal -> In pending journal.(PendingCommandAcknowledgements) ->
  pending.(CommandAcknowledgement.CommandID) = ack.(CommandAcknowledgement.CommandID) ->
  queueCommandAcknowledgement ack journal = Ok journal' ->
  journal' = journal /\ pending.(CommandAcknowledgement.Outcome) = ack.(CommandAcknowledgement.Outcome).
Proof.
  intros Hvalid Hin Hid [(_ & first & Hfirst & Hid' & Ho & ->)|(_ & Hnone & _)]%queueCommandAcknowledgement_inv;
    [|by apply Hnone in Hin].
  split; [done|]. rewrite <- Ho. f_equal. apply distinct_commands in Hvalid.
  eapply NoDup_map_eq; [exact Hvalid|done..|congruence].
Qed.

(** ** Cleanup *)

(** Cleanup under an accepted verdict discards nothing undelivered. It
    succeeds only when no process, containment or usage recovery remains,
    when no transition, acknowledgement or goal delivery is pending, and when
    every command receipt was delivered; the commands are kept. *)
Theorem accepted_cleanup_discards_nothing journal journal' :
  journal.(LocalState) = "terminal_pending" -> journal.(TerminalVerdict) = TerminalVerdictAccepted ->
  enterCleanupPending journal = Ok journal' ->
  journal'.(LocalState) = "cleanup_pending" /\
  HasProcessDetails journal = false /\ HasPendingContainment journal = false /\
  journal.(NativeUsageRecoveryRequired) = false /\
  journal.(PendingTransitions) = [] /\ journal.(PendingCommandAcknowledgements) = [] /\
  journal.(PendingGoalDeliveries) = [] /\
  (forall intent, journal.(InputCommandIntent) = Some intent ->
     intent.(InputCommandIntent.Outcome) <> "" /\ intent.(InputCommandIntent.AcknowledgementDelivered) = true) /\
  (forall intent, In intent journal.(ControlCommandIntents) ->
     intent.(ControlCommandIntent.Outcome) <> "" /\ intent.(ControlCommandIntent.AcknowledgementDelivered) = true) /\
  journal'.(ControlCommandIntents) = journal.(ControlCommandIntents) /\
  journal'.(InputCommandIntent) = journal.(InputCommandIntent).
Proof.
  intros Hlocal Hverdict. unfold enterCleanupPending, ownershipRemains, receiptDelivered, llen.
  rewrite Hlocal, Hverdict. cbn [String.eqb Ascii.eqb Bool.eqb]. intros Hrun. inv_ok.
  rewrite String.eqb_refl in *. inv_ok. subst. breflect.
  split_and!; try done; try (apply length_zero_iff_nil; lia).
  - intros intent Hi. match goal with Hs : some_and _ _ = false |- _ => rewrite Hi in Hs; cbn [some_and] in Hs end.
    by breflect.
  - intros intent Hin.
    match goal with Hf : forallb _ _ = true |- _ => rewrite forallb_forall in Hf; apply Hf in Hin end. by breflect.
Qed.
