(* ===== verification/DeliveryProps.v ===== *)
(** * DeliveryProps: a Goal receipt is delivered or rejected once

    Theorems about the delivery queue: along every trace a receipt that may
    have been sent is kept until the control plane acknowledged or rejected
    it, and that answer is final; evidence enters the journal together with
    the terminal transition that names it, or not at all. *)

From S2P Require Import Prelude Sha256 Json Authority Protocol Journal Validation Store Outbox ProviderAction.
From S2P Require Import Session Delivery Cgroup Containment Clone Native.
From S2P Require Import Lifecycle OutboxFacts Traces TerminalProps.
From stdpp Require Import relations.
Import RunJournal.
Open Scope string_scope.
Open Scope Z_scope.

(** What the control plane knows a delivery by. *)
Definition receipt (delivery : GoalDelivery.t) :=
  (delivery.(GoalDelivery.Kind), delivery.(GoalDelivery.DeliveryID), delivery.(GoalDelivery.PayloadDigest),
   delivery.(GoalDelivery.fence)).

Definition rejection (retired : GoalDeliveryRetirement.t) :=
  (receipt retired.(GoalDeliveryRetirement.Delivery), retired.(GoalDeliveryRetirement.StatusCode),
   retired.(GoalDeliveryRetirement.Code), retired.(GoalDeliveryRetirement.Message),
   retired.(GoalDeliveryRetirement.RetiredAt)).

Definition delivered_receipts (journal : RunJournal.t) := map receipt journal.(DeliveredGoalDeliveries).
Definition rejected_receipts (journal : RunJournal.t) := map rejection journal.(RetiredGoalDeliveries).
Definition ready_receipts (journal : RunJournal.t) := map receipt (List.filter GoalDelivery.Ready journal.(PendingGoalDeliveries)).

(** A receipt that may have been sent is answered once, and its answer is
    final. *)
Record deliveries_kept (before after : RunJournal.t) : Prop := {
  kept_delivered : delivered_receipts before `prefix_of` delivered_receipts after;
  kept_rejected : rejected_receipts before `prefix_of` rejected_receipts after;
  kept_ready : forall r, In r (ready_receipts before) ->
    In r (ready_receipts after) \/ In r (delivered_receipts after) \/ In r (map (fun x => x.1.1.1.1) (rejected_receipts after))
}.

Lemma prefix_In {A} (l1 l2 : list A) x : l1 `prefix_of` l2 -> In x l1 -> In x l2.
Proof. intros [k ->] Hin. apply in_or_app. by left. Qed.

#[export] Instance deliveries_kept_preorder : PreOrder deliveries_kept.
Proof.
  split; [intros journal; split; [done..|by left]|].
  intros j1 j2 j3 [Hd Hr Hp] [Hd' Hr' Hp']. split; [by etrans..|]. intros r [Hin|[Hin|Hin]]%Hp; [by apply Hp'|..].
  - right; left. by eapply prefix_In.
  - right; right. eapply prefix_In; [|exact Hin]. destruct Hr' as [k ->]. rewrite map_app. by apply prefix_app_r.
Qed.

(** Two journals with the same queues. *)
Definition queues (journal : RunJournal.t) :=
  (journal.(PendingGoalDeliveries), journal.(DeliveredGoalDeliveries), journal.(RetiredGoalDeliveries)).

Lemma queues_kept before after : queues after = queues before -> deliveries_kept before after.
Proof.
  unfold queues. intros [= Hp Hd Hr]. split; unfold delivered_receipts, rejected_receipts, ready_receipts; rewrite ?Hp, ?Hd, ?Hr; [done..|by left].
Qed.

(** The records of the queue are read back with the receipts they had. *)
Lemma reread_receipt delivery : receipt (reread_delivery delivery) = receipt delivery.
Proof. done. Qed.

Lemma reread_deliveries journal : deliveries_kept journal (reread_fields journal).
Proof.
  split; unfold delivered_receipts, rejected_receipts, ready_receipts, reread_fields; journal_simpl.
  - by rewrite map_map.
  - by rewrite map_map.
  - intros r Hin. left. induction (PendingGoalDeliveries journal) as [|d l IH]; [done|]. cbn [map List.filter] in *.
    change (GoalDelivery.Ready (reread_delivery d)) with (GoalDelivery.Ready d).
    destruct (GoalDelivery.Ready d); [|auto]. destruct Hin as [<-|Hin]; [by left|right; auto].
Qed.

Lemma enqueue_kept record journal journal' :
  enqueueGoalDelivery record journal = Ok journal' -> deliveries_kept journal journal'.
Proof.
  intros [[-> _]|[_ ->]]%enqueueGoalDelivery_inv; [done|]. split; unfold delivered_receipts, rejected_receipts, ready_receipts; journal_simpl; [done..|].
  intros r Hin. left. rewrite List.filter_app, map_app. apply in_or_app. by left.
Qed.

Lemma queueGoalDelivery_kept record journal journal' :
  queueGoalDeliveryOnJournal record journal = Ok journal' -> deliveries_kept journal journal'.
Proof. unfold queueGoalDeliveryOnJournal. intros Hrun. inv_ok. by eapply enqueue_kept. Qed.

Lemma queueDeliveries_kept records journal journal' :
  for_each (fun journal record => queueGoalDeliveryOnJournal record journal) journal records = Ok journal' ->
  deliveries_kept journal journal'.
Proof.
  revert journal. induction records as [|record records IH]; simpl; intros journal Hrun; inv_ok; [by subst|].
  etrans; [by eapply queueGoalDelivery_kept|by apply IH].
Qed.

Lemma usageRecovery_kept usage settlement journal journal' :
  queueNativeUsageRecoverySettlement usage settlement journal = Ok journal' -> deliveries_kept journal journal'.
Proof.
  unfold queueNativeUsageRecoverySettlement, mergeNativeUsageTerminalRecovery. intros Hrun. inv_ok.
  etrans; [|by eapply enqueue_kept]. apply queues_kept.
  destruct settlement; inv_ok; [|by subst]. destruct (NativeUsageTerminalRecovery _); inv_ok; by subst.
Qed.

Lemma terminal_kept transition pendingAt journal journal' :
  queueTerminalTransition transition pendingAt journal = Ok journal' -> deliveries_kept journal journal'.
Proof. intros Hrun. apply queues_kept. open_callback Hrun. by invert_callback. Qed.

(** A ready record taken from the pending ones goes where it is put. *)
Lemma taken_kept p journal pending rest r :
  take_first p journal.(PendingGoalDeliveries) = Some (pending, rest) -> In r (ready_receipts journal) ->
  r = receipt pending \/ In r (map receipt (List.filter GoalDelivery.Ready rest)).
Proof.
  intros (_ & HP & _)%take_first_some (d & <- & [Hin Hready]%filter_In)%in_map_iff.
  apply (Permutation_in _ HP) in Hin as [->|Hin]; [by left|]. right. apply in_map_iff. exists d. by rewrite filter_In.
Qed.

Lemma ready_marked p r l :
  In r (map receipt (List.filter GoalDelivery.Ready l)) ->
  In r (map receipt (List.filter GoalDelivery.Ready
    (update_first p (fun d => d <| GoalDelivery.Ready := true |>) l))).
Proof.
  induction l as [|d l IH]; [done|]. cbn [update_first]. destruct (p d); cbn [List.filter map].
  - change (GoalDelivery.Ready (d <| GoalDelivery.Ready := true |>)) with true.
    destruct (GoalDelivery.Ready d); [done|]. by right.
  - destruct (GoalDelivery.Ready d); [|done]. intros [<-|Hin]; [by left|right; auto].
Qed.

Lemma discarded_ready p journal pending rest r :
  take_first p journal.(PendingGoalDeliveries) = Some (pending, rest) -> pending.(GoalDelivery.Ready) = false ->
  In r (ready_receipts journal) -> In r (ready_receipts (journal <| PendingGoalDeliveries := rest |>)).
Proof.
  intros (_ & HP & _)%take_first_some Hopen (d & <- & [Hin Hready]%filter_In)%in_map_iff.
  apply (Permutation_in _ HP) in Hin as [->|Hin]; [congruence|]. apply in_map_iff. exists d.
  split; [done|]. journal_simpl. by rewrite filter_In.
Qed.

Lemma delivery_kept_all key op journal journal' :
  delivery_callback key op journal = Ok journal' -> deliveries_kept journal journal'.
Proof.
  intros Hrun. destruct op; cbv [delivery_callback markGoalSessionAttachDeliveryReady
    discardUnreadyGoalSessionAttachDelivery queueGoalEvidenceAndTerminalTransition retireGoalDelivery
    markGoalDeliveryDelivered] in Hrun; inv_ok;
    try (first [by eapply queueGoalDelivery_kept|by eapply usageRecovery_kept]).
  - destruct (List.find _ _) as [found|]; inv_ok. destruct (GoalDelivery.Ready found); inv_ok; subst; [done|].
    split; unfold delivered_receipts, rejected_receipts, ready_receipts; journal_simpl; [done..|]. intros r Hin. left. by apply ready_marked.
  - destruct (take_first _ _) as [[found rest]|] eqn:Htake; inv_ok. subst.
    split; unfold delivered_receipts, rejected_receipts; journal_simpl; [done..|]. intros r Hin. left. by eapply discarded_ready.
  - destruct (authoritativeTerminalTransition journal); inv_ok; [by subst|].
    etrans; [by eapply queueDeliveries_kept|by eapply terminal_kept].
  - destruct (take_first _ _) as [[found rest]|] eqn:Htake; inv_ok. subst.
    split; unfold delivered_receipts, rejected_receipts, ready_receipts; journal_simpl; rewrite ?map_app; [done|by apply prefix_app_r|].
    intros r [->|Hin]%(taken_kept _ _ _ _ _ Htake); [right; right|by left].
    rewrite ?map_app. apply in_or_app. right. by left.
  - destruct (List.find _ _) as [found|]; inv_ok; [by subst|].
    destruct (take_first _ _) as [[found rest]|] eqn:Htake; inv_ok. subst.
    split; unfold delivered_receipts, rejected_receipts, ready_receipts; journal_simpl; rewrite ?map_app; [by apply prefix_app_r|done|].
    intros r [->|Hin]%(taken_kept _ _ _ _ _ Htake); [right; left|by left].
    apply in_or_app. right. by left.
Qed.

(** ** One record per identity *)

Lemma identities_loop {A} (identity : A -> string) (f : list string -> A -> result (list string)) seen l seen' :
  (forall seen x seen', f seen x = Ok seen' -> string_in (identity x) seen = false /\ seen' = identity x :: seen) ->
  for_each f seen l = Ok seen' -> List.NoDup seen -> List.NoDup seen' /\ seen' = (rev (map identity l) ++ seen)%list.
Proof.
  intros Hf. revert seen. induction l as [|x l IH]; simpl; intros seen Hrun Hnodup; inv_ok; [by subst|].
  apply Hf in E as [Hnew ->]. apply IH in Hrun as [? ->]; [|constructor; [by apply string_in_false|done]].
  split; [done|]. by rewrite <- app_assoc.
Qed.

Lemma NoDup_app_disjoint {A} (l1 l2 : list A) x : List.NoDup (l1 ++ l2)%list -> In x l1 -> ~ In x l2.
Proof.
  intros Hnodup H1 H2. apply NoDup_ListNoDup, NoDup_app in Hnodup as (_ & Hdisjoint & _).
  apply (Hdisjoint x); by apply list_elem_of_In.
Qed.

Lemma addIdentity_inv seen identity seen' :
  addIdentity seen identity = Ok seen' -> string_in identity seen = false /\ seen' = identity :: seen.
Proof. unfold addIdentity. intros Hrun. inv_ok. by subst. Qed.

(** In a valid journal a delivery is pending, delivered or rejected, and
    only one of them. *)
Lemma valid_identities `{AdmissionParser} journal :
  valid_journal journal -> List.NoDup (map deliveryIdentity (history journal)).
Proof.
  unfold valid_journal, validateJournal. intros Hvalid. inv_ok.
  match goal with Hd : validateGoalDeliveries _ = Ok _ |- _ => rename Hd into Hdeliveries end. clear Hvalid.
  unfold validateGoalDeliveries in Hdeliveries. apply rbind_ok in Hdeliveries as (s1 & H1 & Hdeliveries).
  apply rbind_ok in Hdeliveries as (s2 & H2 & Hdeliveries). apply rbind_ok in Hdeliveries as (s3 & H3 & _).
  apply (identities_loop deliveryIdentity) in H1 as [N1 Hseen1];
    [|intros; inv_ok; by apply addIdentity_inv|constructor].
  apply (identities_loop deliveryIdentity) in H2 as [N2 Hseen2]; [|intros; inv_ok; by apply addIdentity_inv|done].
  apply (identities_loop (fun r => deliveryIdentity r.(GoalDeliveryRetirement.Delivery))) in H3 as [N3 Hseen3];
    [|intros; inv_ok; by apply addIdentity_inv|done].
  eapply Permutation_NoDup; [|exact N3]. subst. unfold history. rewrite !map_app, map_map, app_nil_r.
  rewrite <- !Permutation_rev.
  by rewrite (Permutation_app_comm (map _ (DeliveredGoalDeliveries _))), Permutation_app_comm, <- app_assoc.
Qed.

Lemma answered_not_pending journal r :
  List.NoDup (map deliveryIdentity (history journal)) ->
  In r (delivered_receipts journal) \/ In r (map (fun x => x.1.1.1.1) (rejected_receipts journal)) ->
  ~ In r (map receipt journal.(PendingGoalDeliveries)).
Proof.
  unfold history, delivered_receipts, rejected_receipts. rewrite map_map. intros Hnodup Hanswered (d & <- & Hd)%in_map_iff.
  rewrite map_app in Hnodup. apply (in_map deliveryIdentity) in Hd.
  eapply NoDup_app_disjoint; [exact Hnodup|exact Hd|]. rewrite map_app, map_map. apply in_or_app.
  destruct Hanswered as [(d' & Heq & Hd')%in_map_iff|(d' & Heq & Hd')%in_map_iff]; [left|right];
    apply in_map_iff; exists d'; (split; [|done]); injection Heq as Hk Hi _ _; unfold deliveryIdentity; by rewrite Hk, Hi.
Qed.

Section Trace.
Context `{AdmissionParser} `{JournalEncoder} `{Platform}.

Lemma callback_kept admits key r before after : callback admits key r before = Ok after -> deliveries_kept before after.
Proof.
  intros Hrun. destruct r; [..|by eapply delivery_kept_all|apply queues_kept; by apply (native_field queues) in Hrun];
    apply queues_kept; open_callback Hrun; invert_callback; try reflexivity.
  all: match goal with p : RunJournal.t * bool |- _ => destruct p; simplify_eq; reflexivity end.
Qed.

Lemma steps_kept before after : rtc step before after -> deliveries_kept before after.
Proof.
  induction 1 as [|j1 j2 j3 [admits r updated _ _ Hrun _] _ IH]; [done|]. etrans; [by eapply callback_kept|].
  etrans; [apply reread_deliveries|exact IH].
Qed.

(** Only a session attachment waits in the queue before it may be sent. *)
Lemma valid_pending_ready journal delivery :
  valid_journal journal -> In delivery journal.(PendingGoalDeliveries) ->
  delivery.(GoalDelivery.Kind) <> GoalDeliverySessionAttach -> delivery.(GoalDelivery.Ready) = true.
Proof.
  unfold valid_journal, validateJournal. intros Hvalid Hin Hkind. inv_ok.
  match goal with Hd : validateGoalDeliveries _ = Ok _ |- _ => rename Hd into Hdeliveries end. clear Hvalid.
  unfold validateGoalDeliveries in Hdeliveries. apply rbind_ok in Hdeliveries as (seen & Hloop & _).
  eapply (for_each_Forall _ (fun d => d.(GoalDelivery.Kind) <> GoalDeliverySessionAttach -> d.(GoalDelivery.Ready) = true)) in Hloop.
  - rewrite List.Forall_forall in Hloop. auto.
  - cbv beta. intros s d s' Hrun Hd. inv_ok. unfold GoalDelivery.validatePersisted, GoalDelivery.prepare in *. inv_ok.
    match goal with Hb : negb (GoalDelivery.validBody _ _) = false |- _ => apply negb_false_iff in Hb; revert Hb end.
    unfold GoalDelivery.validBody. destruct d. cbn in *. apply String.eqb_neq in Hd. rewrite Hd.
    repeat case_match; intros; breflect; done.
Qed.

(** C13: a Goal receipt that may have been sent is kept until the control
    plane answers, and the answer is final. Between a journal on disk and
    what a load after any trace returns, everything delivered stays
    delivered, everything rejected stays rejected with its reason, in order;
    a ready receipt is still ready, or was delivered or rejected; and what
    was answered is never pending again. Every queued stop, evidence and
    usage record of a valid journal is ready, and so is kept; a session
    attachment is kept from the moment it is marked ready, before which it
    may be discarded. *)
Theorem delivery_is_answered_once fs store trace key before after :
  on_disk store key before -> loadJournalLocked fs (run store trace) key = Ok after ->
  deliveries_kept before after /\
  (forall r, In r (delivered_receipts before) \/ In r (map (fun x => x.1.1.1.1) (rejected_receipts before)) ->
     ~ In r (map receipt after.(PendingGoalDeliveries))) /\
  (valid_journal before -> forall delivery, In delivery before.(PendingGoalDeliveries) ->
     delivery.(GoalDelivery.Kind) <> GoalDeliverySessionAttach \/ delivery.(GoalDelivery.Ready) = true ->
     In (receipt delivery) (ready_receipts after) \/ In (receipt delivery) (delivered_receipts after) \/
     In (receipt delivery) (map (fun x => x.1.1.1.1) (rejected_receipts after))).
Proof.
  intros Hbefore [Hafter Hvalid]%load_inv. apply valid_identities in Hvalid.
  assert (deliveries_kept before after) as Hkept by (eapply steps_kept, run_on_disk; eassumption).
  split; [done|]. destruct Hkept as [Hd [k Hr] Hready]. split.
  - intros r Hanswered. apply answered_not_pending; [done|].
    rewrite Hr, map_app. destruct Hanswered as [?|?]; [left; by eapply prefix_In|right; apply in_or_app; by left].
  - intros Hv delivery Hin Hkind. apply Hready. apply in_map, filter_In. split; [done|].
    destruct Hkind; [by eapply valid_pending_ready|done].
Qed.
End Trace.

(** ** Evidence and the terminal transition that names it *)

(** A prepared record is its own preparation. *)
Lemma prepare_inv runID record prepared :
  GoalDelivery.prepare runID record = Ok prepared ->
  prepared = record <| GoalDelivery.PayloadDigest := GoalDelivery.digest record |>.
Proof. unfold GoalDelivery.prepare. intros Hrun. inv_ok. by subst. Qed.

Lemma prepare_again runID record prepared :
  GoalDelivery.prepare runID record = Ok prepared -> GoalDelivery.prepare runID prepared = Ok prepared.
Proof.
  intros Hrun. pose proof (prepare_inv _ _ _ Hrun) as Hprepared.
  assert (GoalDelivery.digest prepared = GoalDelivery.digest record) as Hdigest by (by subst; destruct record).
  assert (prepared.(GoalDelivery.PayloadDigest) = GoalDelivery.digest record) as Hstamp by (by subst; destruct record).
  assert (prepared <| GoalDelivery.PayloadDigest := GoalDelivery.digest prepared |> = prepared) as Hsame
    by (rewrite Hdigest, <- Hstamp; by destruct prepared).
  assert (prepared.(GoalDelivery.fence) = record.(GoalDelivery.fence) /\
          prepared.(GoalDelivery.Kind) = record.(GoalDelivery.Kind) /\
          prepared.(GoalDelivery.DeliveryID) = record.(GoalDelivery.DeliveryID) /\
          GoalDelivery.validBody runID prepared = GoalDelivery.validBody runID record) as (Hf & Hk & Hi & Hb)
    by (by subst; destruct record).
  unfold GoalDelivery.prepare in *. inv_ok. rewrite Hf, Hk, Hi, Hb, Hsame, Hstamp, Hdigest, E, E0, E1.
  by rewrite String.eqb_refl, andb_false_r.
Qed.

(** The record [item] is queued as. *)
Definition prepared_as (journal : RunJournal.t) (item : Evidence.t) (record : GoalDelivery.t) : Prop :=
  GoalDelivery.prepare journal.(RunID) ((evidenceDelivery item) <| GoalDelivery.fence := fence journal |>) = Ok record.

Lemma prepareEvidence_loop journal evidence acc acc' :
  for_each (prepareGoalEvidence journal) acc evidence = Ok acc' ->
  exists records, acc'.2 = (acc.2 ++ records)%list /\ Forall2 (prepared_as journal) evidence records.
Proof.
  revert acc. induction evidence as [|item evidence IH]; intros [[keys ids] records] Hrun; cbn [for_each] in Hrun.
  - inv_ok. subst. exists []. by rewrite app_nil_r.
  - unfold prepareGoalEvidence in Hrun at 1. inv_ok. apply IH in Hrun as (tail & -> & Htail). subst. cbn [snd].
    eexists (_ :: tail). rewrite <- app_assoc. split; [done|]. by constructor.
Qed.

Lemma prepareEvidence_inv journal evidence records :
  prepareGoalEvidenceDeliveries journal evidence = Ok records -> Forall2 (prepared_as journal) evidence records.
Proof.
  unfold prepareGoalEvidenceDeliveries. intros Hrun. inv_ok. subst. by apply prepareEvidence_loop in E0 as (? & -> & ?).
Qed.

Lemma prepared_evidence journal item record : prepared_as journal item record -> record.(GoalDelivery.evidence) = Some item.
Proof. intros ->%prepare_inv. done. Qed.

(** The references of the payload are the IDs of the deliveries. *)
Lemma removeIDs_spec seen records out :
  removeIDs seen records = Some out ->
  exists ids, Forall2 (fun record id => exists e, record.(GoalDelivery.evidence) = Some e /\ e.(Evidence.EvidenceID) = id)
    records ids /\ NoDup ids /\ list_to_set ids ∪ out = seen /\ list_to_set ids ## out.
Proof.
  revert seen. induction records as [|record records IH]; intros seen; cbn [removeIDs].
  - intros [= ->]. exists []. split_and!; [constructor|constructor|set_solver|set_solver].
  - destruct (GoalDelivery.evidence record) as [e|] eqn:He; [|done]. destruct (decide _) as [Hin|]; [|done].
    intros (ids & Hids & Hnodup & Hunion & Hdisj)%IH. exists (e.(Evidence.EvidenceID) :: ids). split_and!.
    + constructor; [|done]. by exists e.
    + constructor; [|done]. intros Hdup. assert (e.(Evidence.EvidenceID) ∈ (list_to_set ids : gset string)) by set_solver.
      set_solver.
    + rewrite list_to_set_cons, <- (assoc_L (∪)), Hunion. apply set_eq. intros x.
      destruct (decide (x = e.(Evidence.EvidenceID))); set_solver.
    + set_solver.
Qed.

Lemma same_evidence_ids journal refs evidence records :
  Forall2 (prepared_as journal) evidence records -> sameEvidenceIDSet refs records = true ->
  Permutation refs (map Evidence.EvidenceID evidence).
Proof.
  unfold sameEvidenceIDSet. intros Hprepared Hsame. breflect.
  match goal with Hd : distinct_keys _ _ _ = true |- _ => apply distinct_keys_spec in Hd as [Hrefs _] end.
  rewrite map_id in Hrefs. apply NoDup_ListNoDup in Hrefs.
  destruct (removeIDs _ records) as [out|] eqn:Hremove; [|done]. cbn [some_and] in *.
  match goal with Hb : bool_decide _ = true |- _ => apply bool_decide_eq_true in Hb as -> end.
  apply removeIDs_spec in Hremove as (ids & Hids & Hnodup & Hunion & _).
  assert (map Evidence.EvidenceID evidence = ids) as ->.
  { clear -Hprepared Hids. revert ids Hids. induction Hprepared as [|item record evidence records Hp _ IH]; intros ids Hids;
      inversion Hids as [|? id ? ids' (e & He & <-) Hids']; subst; [done|].
    rewrite (prepared_evidence _ _ _ Hp) in He. injection He as ->. cbn [map]. f_equal. by apply IH. }
  apply NoDup_Permutation; [done|done|]. intros x. set_solver.
Qed.

(** A record equal to [record] is pending or delivered. *)
Definition live (journal : RunJournal.t) : list GoalDelivery.t :=
  (journal.(PendingGoalDeliveries) ++ journal.(DeliveredGoalDeliveries))%list.
Definition durable (journal : RunJournal.t) (record : GoalDelivery.t) : Prop :=
  exists existing, In existing (live journal) /\ exactDelivery existing record = true.

Lemma durable_incl before after record : incl (live before) (live after) -> durable before record -> durable after record.
Proof. intros Hincl (existing & ? & ?). exists existing. auto. Qed.

Lemma exactDelivery_refl record : exactDelivery record record = true.
Proof. unfold exactDelivery, GoalDelivery.equal. by rewrite !String.eqb_refl. Qed.

Lemma queue_durable record journal journal' :
  GoalDelivery.prepare journal.(RunID) record = Ok record -> record.(GoalDelivery.fence) = fence journal ->
  queueGoalDeliveryOnJournal record journal = Ok journal' ->
  incl (live journal) (live journal') /\ durable journal' record.
Proof.
  intros Hprepared Hfence. unfold queueGoalDeliveryOnJournal.
  replace (record <| GoalDelivery.fence := fence journal |>) with record by (rewrite <- Hfence; destruct record; reflexivity).
  rewrite Hprepared. intros Hrun. inv_ok. subst a. apply enqueueGoalDelivery_inv in Hrun as [[-> (existing & Hin & _ & He)]|[_ ->]].
  - split; [apply incl_refl|]. by exists existing.
  - unfold durable, live. journal_simpl. split; [intros x; rewrite !in_app_iff; tauto|].
    exists record. split; [rewrite !in_app_iff; left; right; by left|apply exactDelivery_refl].
Qed.

Lemma queueDeliveries_durable records journal journal' :
  Forall (fun record => GoalDelivery.prepare journal.(RunID) record = Ok record /\ record.(GoalDelivery.fence) = fence journal)
    records ->
  for_each (fun journal record => queueGoalDeliveryOnJournal record journal) journal records = Ok journal' ->
  incl (live journal) (live journal') /\ Forall (durable journal') records.
Proof.
  revert journal. induction records as [|record records IH]; cbn [for_each]; intros journal Hready Hrun; inv_ok.
  { subst. split; [apply incl_refl|constructor]. }
  inversion Hready as [|? ? [Hprepared Hfence] Hrest]; subst.
  pose proof (queueGoalDelivery_frame _ _ _ E) as Hframe. apply queue_durable in E as [Hincl Hdurable]; [|done|done].
  apply IH in Hrun as [Hincl' Hall].
  - split; [by eapply incl_tran|]. constructor; [by eapply durable_incl|done].
  - eapply Forall_impl; [exact Hrest|]. cbn beta. intros other.
    by rewrite (delivery_only_field RunID _ _ (fun j => eq_refl) Hframe),
      (delivery_only_field fence _ _ (fun j => eq_refl) Hframe).
Qed.

Lemma findExact_durable l candidate :
  findExactEvidence l candidate = Ok true -> exists existing, In existing l /\ exactDelivery existing candidate = true.
Proof.
  unfold findExactEvidence. induction l as [|existing l IH]; cbn [for_each]; intros Hrun; [done|]. inv_ok.
  unfold compareGoalEvidenceDelivery in E. destruct a.
  - exists existing. split; [by left|]. by repeat case_match.
  - apply IH in Hrun as (other & ? & ?). exists other. split; [by right|done].
Qed.

Lemma requireExact_durable journal candidate :
  requireExactGoalEvidenceDelivery journal candidate = Ok tt -> durable journal candidate.
Proof.
  unfold requireExactGoalEvidenceDelivery, durable, live. intros Hrun. inv_ok. destruct a.
  { apply findExact_durable in E as (existing & ? & ?). exists existing. rewrite in_app_iff. by split; [left|]. }
  inv_ok. destruct a.
  { apply findExact_durable in E0 as (existing & ? & ?). exists existing. rewrite in_app_iff. by split; [right|]. }
  inv_ok.
Qed.

Lemma requireAll_durable journal records u :
  for_each (fun _ record => requireExactGoalEvidenceDelivery journal record) tt records = Ok u ->
  Forall (durable journal) records.
Proof.
  induction records as [|record records IH]; cbn [for_each]; intros Hrun; [constructor|]. inv_ok. destruct a.
  constructor; [by apply requireExact_durable|by apply IH].
Qed.

Lemma pendingTerminal_last transitions transition :
  pendingTerminal transitions = None -> isTerminalTransitionState transition.(StateTransitionRequest.State) = true ->
  pendingTerminal (transitions ++ [transition])%list = Some transition.
Proof.
  unfold pendingTerminal. induction transitions as [|t l IH]; simpl; intros Hnone Hterm; [by rewrite Hterm|].
  destruct (isTerminalTransitionState (StateTransitionRequest.State t)); [discriminate Hnone|by apply IH].
Qed.

(** The first terminal transition of a run becomes its authoritative one. *)
Lemma entered_authoritative transition pendingAt journal journal' :
  authoritativeTerminalTransition journal = None ->
  queueTerminalTransition transition pendingAt journal = Ok journal' ->
  exists queued, authoritativeTerminalTransition journal' = Some (Some queued) /\
    queued.(StateTransitionRequest.TransitionID) = transition.(StateTransitionRequest.TransitionID) /\
    queued.(StateTransitionRequest.State) = transition.(StateTransitionRequest.State) /\
    queued.(StateTransitionRequest.Payload) = transition.(StateTransitionRequest.Payload).
Proof.
  intros Hauth Hrun. destruct (queueTerminalTransition_enter _ _ _ _ Hauth Hrun) as (settled & queued & Hent).
  pose proof (prepareTransition_inv _ _ _ (entered_prepared _ _ _ _ _ _ Hent)) as (_ & ? & ? & ? & _).
  exists queued. split_and!; [|done..].
  assert (pendingTerminal journal'.(PendingTransitions) = Some queued) as Hpending.
  { rewrite (entered_pending _ _ _ _ _ _ Hent). pose proof (entered_terminal _ _ _ _ _ _ Hent) as Hterm.
    destruct (_ =s "cancelled"); [unfold pendingTerminal; simpl; by rewrite Hterm|].
    apply pendingTerminal_last; [|done]. unfold authoritativeTerminalTransition in Hauth. by destruct (pendingTerminal _). }
  unfold authoritativeTerminalTransition. by rewrite Hpending.
Qed.

Lemma matchedDeliveries_inv journal evidence prepared records :
  matchedDeliveries journal evidence prepared = Ok records ->
  Forall2 (prepared_as journal) evidence records /\
  exists refs, terminalEvidenceRefs prepared.(StateTransitionRequest.Payload) = Ok refs /\
    Permutation refs (map Evidence.EvidenceID evidence).
Proof.
  unfold matchedDeliveries. intros Hrun. inv_ok. subst.
  match goal with Hp : prepareGoalEvidenceDeliveries _ _ = Ok _ |- _ => apply prepareEvidence_inv in Hp as Hprepared end.
  split; [done|]. eexists. split; [done|]. eapply same_evidence_ids; [done|]. by breflect.
Qed.

Lemma terminal_live transition pendingAt journal journal' :
  queueTerminalTransition transition pendingAt journal = Ok journal' -> live journal' = live journal.
Proof. intros Hrun. open_callback Hrun. by invert_callback. Qed.

Lemma prepared_stable journal evidence records :
  Forall2 (prepared_as journal) evidence records ->
  Forall (fun record => GoalDelivery.prepare journal.(RunID) record = Ok record /\ record.(GoalDelivery.fence) = fence journal)
    records.
Proof.
  induction 1 as [|item record evidence records Hp _ IH]; [constructor|]. constructor; [|done].
  split; [by eapply prepare_again|]. apply prepare_inv in Hp as ->. done.
Qed.

Lemma durable_items journal journal' evidence records :
  Forall2 (prepared_as journal) evidence records -> Forall (durable journal') records ->
  forall item, In item evidence -> exists record, prepared_as journal item record /\ durable journal' record.
Proof.
  induction 1 as [|item record evidence records Hp _ IH]; intros Hall other Hin; [done|].
  inversion Hall; subst. destruct Hin as [<-|Hin]; [by exists record|by apply IH].
Qed.

