(* ===== verification/LateUsageProps.v ===== *)
(** * LateUsageProps: accounting survives the deletion of a run

    Theorems about LateUsage.v: a valid ledger is read back as it was
    written, no operation of the daemon loses a ledger or an answer recorded
    in it, and usage that was settled before a journal was deleted is not
    queued again after it. *)

From S2P Require Import Prelude Sha256 Json Authority Protocol Journal Validation Store Outbox ProviderAction.
From S2P Require Import Session Delivery LateUsage Cgroup Containment Clone Native.
From S2P Require Import Lifecycle OutboxFacts Traces TerminalProps DeliveryProps.
From stdpp Require Import relations.
Import RunJournal.
Import LateGoalUsageLedger (PendingUsageDeliveries, DeliveredDeliveries, RetiredDeliveries, UpdatedAt).
Open Scope string_scope.
Open Scope Z_scope.

(** ** A ledger is read back as it was written *)

(** A valid usage record carries a valid usage body and nothing else. *)
Lemma usage_record runID record :
  GoalDelivery.validatePersisted runID record = Ok tt -> record.(GoalDelivery.Kind) = GoalDeliveryUsage ->
  reread_delivery record = record /\ decodable_delivery record = true.
Proof.
  unfold GoalDelivery.validatePersisted, GoalDelivery.prepare. intros Hrun Hkind. inv_ok.
  match goal with Hb : negb (GoalDelivery.validBody _ _) = false |- _ => apply negb_false_iff in Hb; rename Hb into Hbody end.
  clear -Hkind Hbody. destruct record as [kind id digest fence ready attach stopped evidence usage].
  cbn [GoalDelivery.Kind] in Hkind. subst kind. destruct attach, stopped, evidence, ready; try discriminate Hbody.
  destruct usage as [usage|]; [|discriminate Hbody].
  change ((id =s usage.(Usage.UsageKey)) && (usage.(Usage.RunID) =s runID) && Usage.Validate usage = true) in Hbody.
  breflect. split; [done|]. unfold decodable_delivery. by cbn [GoalDelivery.evidence GoalDelivery.usage none_or].
Qed.

Definition ledger_records (ledger : LateGoalUsageLedger.t) : list GoalDelivery.t :=
  (ledger.(PendingUsageDeliveries) ++ ledger.(DeliveredDeliveries) ++
   map GoalDeliveryRetirement.Delivery ledger.(RetiredDeliveries))%list.

Lemma valid_ledger_records ledger :
  LateGoalUsageLedger.validate ledger = Ok tt ->
  Forall (fun record => reread_delivery record = record /\ decodable_delivery record = true) (ledger_records ledger).
Proof.
  unfold LateGoalUsageLedger.validate, ledger_records. intros Hvalid. inv_ok. clear Hvalid E.
  rewrite !Forall_app. split_and!; [| |apply Forall_map];
    (eapply for_each_Forall; [|eassumption]); cbn beta; intros seen x seen' Hrun; inv_ok;
    unfold LateGoalUsageLedger.validDelivery in *; breflect; unfold is_ok in *.
  - destruct (GoalDelivery.validatePersisted _ x) as [[]|] eqn:Hp; [|done]. by eapply usage_record.
  - destruct (GoalDelivery.validatePersisted _ x) as [[]|] eqn:Hp; [|done]. by eapply usage_record.
  - destruct (GoalDeliveryRetirement.validate _ _ x) as [[]|] eqn:Hp; [|done].
    unfold GoalDeliveryRetirement.validate in Hp. inv_ok. by eapply usage_record.
Qed.

Lemma map_same {A} (f : A -> A) l : Forall (fun x => f x = x) l -> map f l = l.
Proof. induction 1 as [|x l Hx _ IH]; [done|]. cbn [map]. by rewrite Hx, IH. Qed.

Lemma forallb_same {A} (p : A -> bool) l : Forall (fun x => p x = true) l -> forallb p l = true.
Proof. rewrite forallb_forall, Forall_forall. intros Hall x Hin. by apply Hall, list_elem_of_In. Qed.

(** A valid ledger is what its file decodes to. *)
Lemma ledger_written ledger :
  LateGoalUsageLedger.validate ledger = Ok tt -> written_ledger ledger = LedgerDecodes ledger.
Proof.
  intros Hrecords%valid_ledger_records. unfold ledger_records in Hrecords.
  rewrite !Forall_app, Forall_map in Hrecords. destruct Hrecords as (Hp & Hd & Hr).
  assert (map reread_delivery ledger.(PendingUsageDeliveries) = ledger.(PendingUsageDeliveries)) as Ep
    by (apply map_same; eapply Forall_impl; [exact Hp|by intros ? []]).
  assert (map reread_delivery ledger.(DeliveredDeliveries) = ledger.(DeliveredDeliveries)) as Ed
    by (apply map_same; eapply Forall_impl; [exact Hd|by intros ? []]).
  assert (map reread_retirement ledger.(RetiredDeliveries) = ledger.(RetiredDeliveries)) as Er.
  { apply map_same. eapply Forall_impl; [exact Hr|]. intros [] [Hsame _]. unfold reread_retirement.
    cbn [GoalDeliveryRetirement.Delivery compose] in *. by rewrite Hsame. }
  unfold written_ledger. rewrite Ep, Ed, Er. cbv zeta.
  replace (ledger <| PendingUsageDeliveries := ledger.(PendingUsageDeliveries) |>
                  <| DeliveredDeliveries := ledger.(DeliveredDeliveries) |>
                  <| RetiredDeliveries := ledger.(RetiredDeliveries) |>) with ledger by (by destruct ledger).
  rewrite (forallb_same _ _ (Forall_impl _ _ _ Hp (fun x H => proj2 H))),
    (forallb_same _ _ (Forall_impl _ _ _ Hd (fun x H => proj2 H))), (forallb_same _ ledger.(RetiredDeliveries)); [done|].
  eapply Forall_impl; [exact Hr|]. by intros x [].
Qed.

(** ** No answer is lost *)

Definition ledger_identity (ledger : LateGoalUsageLedger.t) :=
  (LateGoalUsageLedger.Key ledger, ledger.(LateGoalUsageLedger.fence), ledger.(LateGoalUsageLedger.CreatedAt)).

Definition late_delivered (ledger : LateGoalUsageLedger.t) := map receipt ledger.(DeliveredDeliveries).
Definition late_rejected (ledger : LateGoalUsageLedger.t) := map rejection ledger.(RetiredDeliveries).
Definition late_pending (ledger : LateGoalUsageLedger.t) := map receipt ledger.(PendingUsageDeliveries).

Record late_extends (before after : LateGoalUsageLedger.t) : Prop := {
  late_kept_identity : ledger_identity after = ledger_identity before;
  late_kept_delivered : late_delivered before `prefix_of` late_delivered after;
  late_kept_rejected : late_rejected before `prefix_of` late_rejected after;
  late_kept_pending : forall r, In r (late_pending before) ->
    In r (late_pending after) \/ In r (late_delivered after) \/ In r (map (fun x => x.1.1.1.1) (late_rejected after))
}.

#[export] Instance late_extends_preorder : PreOrder late_extends.
Proof.
  split; [intros ledger; split; [done..|by left]|].
  intros l1 l2 l3 [Hi Hd Hr Hp] [Hi' Hd' Hr' Hp']. split; [congruence|by etrans..|].
  intros r [Hin|[Hin|Hin]]%Hp; [by apply Hp'|..].
  - right; left. by eapply prefix_In.
  - right; right. eapply prefix_In; [|exact Hin]. destruct Hr' as [k ->]. rewrite map_app. by apply prefix_app_r.
Qed.

Lemma touched_kept ledger now : late_extends ledger (ledger <| UpdatedAt := now |>).
Proof. split; [done..|by left]. Qed.

Lemma queueLate_kept usage ledger ledger' changed :
  queueLateUsage usage ledger = Ok (ledger', changed) -> late_extends ledger ledger'.
Proof.
  unfold queueLateUsage. intros Hrun. inv_ok. repeat case_match; inv_ok; simplify_eq; try done.
  split; [done..|]. intros r Hin. left. unfold late_pending. cbn. rewrite map_app. apply in_or_app. by left.
Qed.

Lemma late_taken p ledger pending rest r :
  take_first p ledger.(PendingUsageDeliveries) = Some (pending, rest) -> In r (late_pending ledger) ->
  r = receipt pending \/ In r (map receipt rest).
Proof.
  intros (_ & HP & _)%take_first_some (d & <- & Hin)%in_map_iff.
  apply (Permutation_in _ HP) in Hin as [->|Hin]; [by left|right; by apply in_map].
Qed.

Lemma markLate_kept deliveryID digest ledger ledger' :
  markLateDelivered deliveryID digest ledger = Ok ledger' -> late_extends ledger ledger'.
Proof.
  unfold markLateDelivered. intros Hrun. destruct (List.find _ _); inv_ok; [by subst|].
  destruct (take_first _ _) as [[pending rest]|] eqn:Htake; inv_ok. subst.
  split; [done|unfold late_delivered; cbn; rewrite map_app; by apply prefix_app_r|done|].
  intros r [->|Hin]%(late_taken _ _ _ _ _ Htake); [right; left|by left].
  unfold late_delivered. cbn. rewrite map_app. apply in_or_app. right. by left.
Qed.

Lemma retireLate_kept deliveryID digest statusCode code message at_ ledger ledger' :
  retireLate deliveryID digest statusCode code message at_ ledger = Ok ledger' -> late_extends ledger ledger'.
Proof.
  unfold retireLate. intros Hrun. inv_ok. destruct (take_first _ _) as [[pending rest]|] eqn:Htake; inv_ok. subst.
  split; [done|done|unfold late_rejected; cbn; rewrite map_app; by apply prefix_app_r|].
  intros r [->|Hin]%(late_taken _ _ _ _ _ Htake); [right; right|by left].
  unfold late_rejected. cbn. rewrite !map_app. apply in_or_app. right. by left.
Qed.

Lemma merge_kept existing ledger now : late_extends existing (mergeLedger existing ledger now).
Proof.
  unfold mergeLedger. cbv zeta.
  destruct existing as [version run generation fence pending delivered retired created updated].
  destruct delivered, retired; repeat case_match; (split; [done|..|by left]);
    unfold late_delivered, late_rejected; cbn; first [done|apply prefix_nil].
Qed.

Section Files.
Context `{AdmissionParser} `{JournalEncoder} `{Platform}.

(** What the daemon does to its files: serve a request on a run journal,
    queue receipts, work on a ledger, delete a journal. *)
Inductive files_step (state : files) : files -> Prop :=
| files_request fs key r : files_step state (mkFiles (execute fs state.(store) key r) state.(late))
| files_attach fs key payload : files_step state (QueueGoalSessionAttach fs state key payload).1
| files_evidence fs key evidence : files_step state (QueueGoalEvidence fs state key evidence).1
| files_usage fs key usage now : files_step state (QueueGoalUsage fs state key usage now).1
| files_late_usage fs key usage now : files_step state (QueueLateGoalUsage fs state key usage now).1
| files_late_delivered fs key deliveryID digest now :
    files_step state (MarkLateGoalUsageDelivered fs state key deliveryID digest now).1
| files_late_retired fs key deliveryID digest statusCode code message at_ now :
    files_step state (RetireLateGoalUsage fs state key deliveryID digest statusCode code message at_ now).1
| files_delete fs removal key now : files_step state (DeleteJournal fs removal state key now).1.

(** Every ledger file holds a valid ledger under its own name. *)
Definition late_well_formed (late : ledgers) : Prop :=
  forall path content, late !! path = Some content ->
    exists ledger, content = LedgerDecodes ledger /\ LateGoalUsageLedger.validate ledger = Ok tt /\
      path = lateGoalUsagePath (LateGoalUsageLedger.Key ledger).

Definition ledgers_kept (before after : ledgers) : Prop :=
  late_well_formed before -> late_well_formed after /\
  forall path ledger, before !! path = Some (LedgerDecodes ledger) ->
    exists ledger', after !! path = Some (LedgerDecodes ledger') /\ late_extends ledger ledger'.

#[local] Instance ledgers_kept_preorder : PreOrder ledgers_kept.
Proof.
  split; [intros late Hwf; split; [done|]; intros path ledger Hfile; by exists ledger|].
  intros l1 l2 l3 H12 H23 Hwf. destruct (H12 Hwf) as [Hwf2 K12]. destruct (H23 Hwf2) as [Hwf3 K23]. split; [done|].
  intros path ledger Hfile. destruct (K12 _ _ Hfile) as (ledger2 & Hfile2 & ?).
  destruct (K23 _ _ Hfile2) as (ledger3 & ? & ?). exists ledger3. split; [done|by etrans].
Qed.

Lemma load_ledger fs late key ledger :
  loadLateGoalUsageLocked fs late key = Ok ledger ->
  late !! lateGoalUsagePath key = Some (LedgerDecodes ledger) /\ LateGoalUsageLedger.validate ledger = Ok tt /\
  lateGoalUsagePath key = lateGoalUsagePath (LateGoalUsageLedger.Key ledger).
Proof.
  unfold loadLateGoalUsageLocked, loadLateGoalUsagePathLocked. intros Hload. destruct (late !! _) as [[found|]|]; inv_ok; [|done..]. subst found. breflect.
  unfold is_ok in *. destruct (LateGoalUsageLedger.validate ledger) as [[]|]; done.
Qed.

(** A save replaces one file by a valid ledger. *)
Lemma save_ledger fs late ledger :
  (forall old, late !! lateGoalUsagePath (LateGoalUsageLedger.Key ledger) = Some (LedgerDecodes old) -> late_extends old ledger) ->
  ledgers_kept late (saveLateGoalUsageLocked fs late ledger).1.
Proof.
  intros Hkept. unfold saveLateGoalUsageLocked.
  destruct (LateGoalUsageLedger.validate ledger) as [[]|] eqn:Hvalid; [|done].
  assert (ledgers_kept late (<[lateGoalUsagePath (LateGoalUsageLedger.Key ledger) := written_ledger ledger]> late)) as Hinsert.
  { intros Hwf. rewrite (ledger_written _ Hvalid). split.
    - intros path content Hfile. apply lookup_insert_Some in Hfile as [[<- <-]|[_ Hfile]]; [by exists ledger|by apply Hwf].
    - intros path old Hfile. destruct (decide (path = lateGoalUsagePath (LateGoalUsageLedger.Key ledger))) as [->|Hne].
      + exists ledger. rewrite lookup_insert_eq. auto.
      + exists old. by rewrite lookup_insert_ne. }
  by destruct (write fs).
Qed.

(** A save of a changed ledger under the key it was loaded with. *)
Lemma resave_ledger fs fs' late key ledger ledger' :
  loadLateGoalUsageLocked fs late key = Ok ledger -> late_extends ledger ledger' ->
  ledgers_kept late (saveLateGoalUsageLocked fs' late ledger').1.
Proof.
  intros (Hfile & _ & Hpath)%load_ledger Hkept. apply save_ledger. intros old Hold.
  assert (LateGoalUsageLedger.Key ledger' = LateGoalUsageLedger.Key ledger) as Hkey
    by (destruct Hkept as [Hid _ _ _]; unfold ledger_identity in Hid; congruence).
  rewrite Hkey, <- Hpath, Hfile in Hold. by injection Hold as <-.
Qed.

Lemma LoadLate_ok fs state key ledger :
  LoadLateGoalUsage fs state key = Ok ledger -> loadLateGoalUsageLocked fs state.(late) key = Ok ledger.
Proof. unfold LoadLateGoalUsage. intros Hload. by inv_ok. Qed.

Lemma mutateLate_kept fs state key mutate now :
  (forall ledger ledger', mutate ledger = Ok ledger' -> late_extends ledger ledger') ->
  ledgers_kept state.(late) (mutateLateGoalUsage fs state key mutate now).1.(late).
Proof.
  intros Hmutate. unfold mutateLateGoalUsage. destruct (rbind _ _) as [ledger|] eqn:Hrun; [|done]. inv_ok.
  eapply resave_ledger; [by eapply LoadLate_ok|]. etrans; [by eapply Hmutate|apply touched_kept].
Qed.

Lemma queueLateUsage_late fs state key usage now :
  ledgers_kept state.(late) (QueueLateGoalUsage fs state key usage now).1.(late).
Proof.
  unfold QueueLateGoalUsage. destruct (rbind _ _) as [[ledger []]|] eqn:Hrun; [|done..]. inv_ok.
  eapply resave_ledger; [by eapply LoadLate_ok|]. etrans; [by eapply queueLate_kept|apply touched_kept].
Qed.

Lemma archive_kept fs late journal now : ledgers_kept late (archiveLateGoalUsageLocked fs late journal now).1.
Proof.
  unfold archiveLateGoalUsageLocked. destruct (loadLateGoalUsageLocked _ _ _) as [existing|e] eqn:Hload; cbv zeta.
  - repeat case_match; [done| |done]. eapply resave_ledger; [exact Hload|apply merge_kept].
  - destruct e; try done. apply save_ledger. intros old Hold. unfold loadLateGoalUsageLocked, loadLateGoalUsagePathLocked in Hload.
    change (LateGoalUsageLedger.Key (newLedger journal now)) with (Key journal) in Hold. rewrite Hold in Hload.
    by repeat case_match.
Qed.

Lemma files_step_late state state' : files_step state state' -> ledgers_kept state.(late) state'.(late).
Proof.
  destruct 1; [done|unfold QueueGoalSessionAttach|unfold QueueGoalEvidence|unfold QueueGoalUsage|
    apply queueLateUsage_late|apply mutateLate_kept, markLate_kept|apply mutateLate_kept, retireLate_kept|unfold DeleteJournal].
  - unfold unlessLate. by repeat case_match.
  - unfold unlessLate. by repeat case_match.
  - destruct (LoadLateGoalUsage _ _ _) as [ledger|e]; [|destruct e; try done].
    + destruct (QueueLateGoalUsage _ _ _ _ _) as [state' queued] eqn:Hqueue.
      pose proof (queueLateUsage_late (again_io fs) state key usage now) as Hkept. by rewrite Hqueue in Hkept.
    + destruct (queueGoalDelivery _ _ _ _) as [store' outcome].
      destruct outcome as [|e]; [done|]. destruct e; try done.
      destruct (QueueLateGoalUsage _ _ _ _ _) as [state' queued] eqn:Hqueue.
      pose proof (queueLateUsage_late (again_io fs) (mkFiles store' state.(late)) key usage now) as Hkept.
      by rewrite Hqueue in Hkept.
  - case_match; [done|]. destruct (rbind _ _) as [journal|]; [|done]. destruct (GoalDeliveryEnabled journal).
    + pose proof (archive_kept (ledger_io fs) state.(late) journal now) as Hkept.
      destruct (archiveLateGoalUsageLocked _ _ _ _) as [late' archived]. destruct archived; [|done].
      by destruct (removeJournal _ _ _).
    + by destruct (removeJournal _ _ _).
Qed.

(** A ledger along any sequence of operations. *)
Lemma ledgers_along state state' path ledger :
  late_well_formed state.(late) -> rtc files_step state state' ->
  state.(late) !! path = Some (LedgerDecodes ledger) ->
  exists ledger', state'.(late) !! path = Some (LedgerDecodes ledger') /\
    LateGoalUsageLedger.validate ledger' = Ok tt /\ late_extends ledger ledger'.
Proof.
  intros Hwf Hsteps Hfile. assert (ledgers_kept state.(late) state'.(late)) as Hkept.
  { clear -Hsteps. induction Hsteps; [done|]. etrans; [by apply files_step_late|done]. }
  destruct (Hkept Hwf) as [Hwf' Hall]. destruct (Hall _ _ Hfile) as (ledger' & Hfile' & ?).
  exists ledger'. split; [done|]. split; [|done]. by apply Hwf' in Hfile' as (? & [= <-] & ? & _).
Qed.

(** C21: no operation of the daemon loses late accounting. Along every
    sequence of requests, queued receipts, ledger operations and deletions,
    whatever reads and writes fail, the ledger of a run stays on disk, valid
    and under the same key and fence; a pending usage record stays until it
    is delivered or rejected, and both answers are final. *)
Theorem late_ledger_is_kept state state' path ledger :
  late_well_formed state.(late) -> rtc files_step state state' ->
  state.(late) !! path = Some (LedgerDecodes ledger) ->
  exists ledger', state'.(late) !! path = Some (LedgerDecodes ledger') /\
    LateGoalUsageLedger.validate ledger' = Ok tt /\ late_extends ledger ledger'.
Proof. apply ledgers_along. Qed.

(** ** Usage is settled once, before or after the deletion *)

Lemma valid_enabled journal :
  valid_journal journal -> history journal <> [] -> journal.(GoalDeliveryEnabled) = true.
Proof.
  unfold valid_journal, validateJournal. intros Hvalid Hsome. inv_ok.
  match goal with Hd : validateGoalDeliveries _ = Ok _ |- _ => rename Hd into Hdeliveries end. clear -Hdeliveries Hsome.
  unfold validateGoalDeliveries in Hdeliveries. do 3 (apply rbind_ok in Hdeliveries as (? & _ & Hdeliveries)).
  destruct (GoalDeliveryEnabled journal); [done|]. unfold history in Hsome.
  destruct (PendingGoalDeliveries journal), (DeliveredGoalDeliveries journal), (RetiredGoalDeliveries journal); done.
Qed.

(** A deletion without a ledger leaves one with exactly the settled usage. *)
Lemma delete_archives fs removal state state' key now :
  state.(late) !! lateGoalUsagePath key = None -> DeleteJournal fs removal state key now = (state', Ok tt) ->
  exists journal, loadJournalLocked fs.(journal_io) state.(store) key = Ok journal /\ deletable key now journal = Ok tt /\
    state'.(store) = with_runs state.(store) (delete (journalPath key) state.(store).(runs)) /\
    (journal.(GoalDeliveryEnabled) = true ->
     state'.(late) !! lateGoalUsagePath key = Some (LedgerDecodes (newLedger journal now)) /\
     LateGoalUsageLedger.validate (newLedger journal now) = Ok tt).
Proof.
  intros Hnone. unfold DeleteJournal. case_match; [done|]. destruct (rbind _ _) as [journal|] eqn:Hload; [|done].
  inv_ok. subst. match goal with u : unit |- _ => destruct u end.
  match goal with Hl : loadJournalLocked _ _ _ = Ok _ |- _ => pose proof (proj1 (load_inv _ _ _ _ Hl)) as [_ Hkey] end.
  assert (loadLateGoalUsageLocked (ledger_io fs) state.(late) (Key journal) = Err (NotFoundError "late Goal usage ledger"))
    as Habsent by (unfold loadLateGoalUsageLocked, loadLateGoalUsagePathLocked; by rewrite Hkey, Hnone).
  unfold archiveLateGoalUsageLocked, removeJournal. rewrite Habsent. cbv zeta. intros Hrun. exists journal.
  destruct (GoalDeliveryEnabled journal); [|by destruct removal; simplify_eq].
  unfold saveLateGoalUsageLocked in Hrun.
  destruct (LateGoalUsageLedger.validate _) as [[]|] eqn:Hvalid; [|done].
  destruct (write (ledger_io fs)); [|done..]. destruct removal; simplify_eq. split_and!; [done..|]. intros _. split; [|done].
  cbn [late]. change (LateGoalUsageLedger.Key (newLedger journal now)) with (Key journal).
  rewrite (ledger_written _ Hvalid). by rewrite lookup_insert_eq.
Qed.

(** A usage key the ledger has an answer for. *)
Definition settled_in (ledger : LateGoalUsageLedger.t) (deliveryID : string) : Prop :=
  In deliveryID (map GoalDelivery.DeliveryID ledger.(DeliveredDeliveries)) \/
  In deliveryID (map (fun retired => retired.(GoalDeliveryRetirement.Delivery).(GoalDelivery.DeliveryID)) ledger.(RetiredDeliveries)).

Lemma settled_extends before after deliveryID : late_extends before after -> settled_in before deliveryID -> settled_in after deliveryID.
Proof.
  intros [_ Hd Hr _] [(d & <- & Hin)%in_map_iff|(d & <- & Hin)%in_map_iff]; [left|right].
  - apply (in_map receipt) in Hin. apply (prefix_In _ _ _ Hd) in Hin as (d' & Heq & Hin)%in_map_iff.
    apply in_map_iff. exists d'. split; [|done]. unfold receipt in Heq. congruence.
  - apply (in_map rejection) in Hin. apply (prefix_In _ _ _ Hr) in Hin as (d' & Heq & Hin)%in_map_iff.
    apply in_map_iff. exists d'. split; [|done]. unfold rejection, receipt in Heq. congruence.
Qed.

(** An answered usage key is never queued again. *)
Lemma settled_not_requeued usage ledger queued changed :
  settled_in ledger usage.(Usage.UsageKey) -> queueLateUsage usage ledger = Ok (queued, changed) ->
  queued = ledger /\ changed = false.
Proof.
  intros Hsettled Hrun. unfold queueLateUsage in Hrun. apply rbind_ok in Hrun as (prepared & Hp & Hrun).
  apply prepare_inv in Hp as ->. cbv zeta in Hrun.
  destruct (List.find _ ledger.(PendingUsageDeliveries)) as [pending|]; [by destruct (exactDelivery pending _); simplify_eq|].
  destruct (existsb _ _) eqn:Hretired; [done|].
  destruct (List.find _ _) as [found|] eqn:Hfound; [by destruct (exactDelivery found _); simplify_eq|]. exfalso.
  destruct Hsettled as [(record & Hid & Hin)%in_map_iff|(retired & Hid & Hin)%in_map_iff].
  - apply (find_none _ _ Hfound) in Hin. change ((record.(GoalDelivery.DeliveryID) =s usage.(Usage.UsageKey)) = false) in Hin.
    by rewrite Hid, String.eqb_refl in Hin.
  - apply not_true_iff_false in Hretired. apply Hretired, existsb_exists. exists retired. split; [done|].
    by apply String.eqb_eq.
Qed.

(** With a ledger on disk that has the answer, queueing changes nothing. *)
Lemma settled_queue_is_noop fs state key usage now ledger :
  state.(late) !! lateGoalUsagePath key = Some (LedgerDecodes ledger) -> settled_in ledger usage.(Usage.UsageKey) ->
  (QueueGoalUsage fs state key usage now).1 = state.
Proof.
  intros Hfile Hsettled.
  assert (forall fs, match LoadLateGoalUsage fs state key with
    | Ok found => found = ledger | Err (NotFoundError _) => False | Err _ => True end) as Hlate.
  { intros fs0. unfold LoadLateGoalUsage, loadLateGoalUsageLocked, loadLateGoalUsagePathLocked, ensureOpenLocked. rewrite Hfile.
    repeat case_match; inv_ok; simplify_eq; try done. }
  unfold QueueGoalUsage. pose proof (Hlate (ledger_io fs)) as Hfirst.
  destruct (LoadLateGoalUsage (ledger_io fs) state key) as [found|e]; [|by destruct e]. clear Hfirst.
  unfold QueueLateGoalUsage. pose proof (Hlate (again_io fs)) as Hagain.
  destruct (LoadLateGoalUsage (again_io fs) state key) as [found'|e]; cbn [rbind]; [|done]. subst found'.
  destruct (queueLateUsage usage ledger) as [[queued changed]|] eqn:Hqueue; [|done].
  by apply (settled_not_requeued _ _ _ _ Hsettled) in Hqueue as [-> ->].
Qed.

(** What a journal has settled is what its new ledger has settled. *)
Lemma settled_new_ledger journal now record :
  In record (usageRecords journal ++ map GoalDeliveryRetirement.Delivery (usageRetirements journal))%list ->
  settled_in (newLedger journal now) record.(GoalDelivery.DeliveryID).
Proof.
  intros [Hin|(retired & <- & Hin)%in_map_iff]%in_app_or; [left|right]; cbn [newLedger DeliveredDeliveries RetiredDeliveries].
  - by apply in_map.
  - by apply (in_map (fun retired => retired.(GoalDeliveryRetirement.Delivery).(GoalDelivery.DeliveryID))).
Qed.

Lemma settled_enabled journal record :
  valid_journal journal ->
  In record (usageRecords journal ++ map GoalDeliveryRetirement.Delivery (usageRetirements journal))%list ->
  journal.(GoalDeliveryEnabled) = true.
Proof.
  intros Hvalid Hin. apply valid_enabled; [done|]. intros Hnil. unfold history in Hnil.
  apply app_eq_nil in Hnil as [_ [Hd Hr]%app_eq_nil]. unfold usageRecords, usageRetirements in Hin.
  rewrite Hd in Hin. by destruct (RetiredGoalDeliveries journal).
Qed.

(** C29: usage is counted once across the deletion of its run. When the
    journal of a run that has no ledger yet is deleted, the journal file is
    gone, and a usage record that was delivered or rejected before is never
    queued again: after any later requests, ledger operations and deletions,
    whatever reads and writes fail in them, [QueueGoalUsage] with its key,
    whatever the body, leaves every file as it is. *)
Theorem usage_is_counted_once fs removal state state' key now journal record later fs' usage now' :
  late_well_formed state.(late) -> state.(late) !! lateGoalUsagePath key = None ->
  loadJournalLocked fs.(journal_io) state.(store) key = Ok journal ->
  DeleteJournal fs removal state key now = (state', Ok tt) ->
  In record (usageRecords journal ++ map GoalDeliveryRetirement.Delivery (usageRetirements journal))%list ->
  record.(GoalDelivery.DeliveryID) = usage.(Usage.UsageKey) ->
  rtc files_step state' later ->
  state'.(store).(runs) !! journalPath key = None /\ (QueueGoalUsage fs' later key usage now').1 = later.
Proof.
  intros Hwf Hnone Hload Hdelete Hin Hid Hsteps.
  destruct (delete_archives _ _ _ _ _ _ Hnone Hdelete) as (journal' & Hload' & _ & Hstore & Harchive).
  rewrite Hload in Hload'. apply Ok_inj in Hload'. subst journal'. destruct (load_inv _ _ _ _ Hload) as [_ Hvalid].
  destruct (Harchive (settled_enabled _ _ Hvalid Hin)) as [Hfile _]. split; [rewrite Hstore; apply lookup_delete_eq|].
  assert (late_well_formed state'.(late)) as Hwf'.
  { pose proof (files_step_late _ _ (files_delete state fs removal key now)) as Hkept. rewrite Hdelete in Hkept.
    by destruct (Hkept Hwf). }
  destruct (ledgers_along _ _ _ _ Hwf' Hsteps Hfile) as (ledger & Hlater & _ & Hextends).
  eapply settled_queue_is_noop; [exact Hlater|]. eapply settled_extends; [exact Hextends|]. rewrite <- Hid.
  by apply settled_new_ledger.
Qed.

(** ** What an existing ledger does not take over *)

(** A stored usage record is the one [QueueGoalUsage] makes of its body. *)
Lemma persisted_usage runID record usage :
  GoalDelivery.validatePersisted runID record = Ok tt -> record.(GoalDelivery.Kind) = GoalDeliveryUsage ->
  record.(GoalDelivery.usage) = Some usage ->
  receipt record = receipt ((usageDelivery usage) <| GoalDelivery.fence := record.(GoalDelivery.fence) |>
    <| GoalDelivery.PayloadDigest := GoalDelivery.digest ((usageDelivery usage) <| GoalDelivery.fence := record.(GoalDelivery.fence) |>) |>).
Proof.
  unfold GoalDelivery.validatePersisted, GoalDelivery.prepare. intros Hrun Hkind Husage. inv_ok. subst.
  match goal with Hb : negb (GoalDelivery.validBody _ _) = false |- _ => apply negb_false_iff in Hb; rename Hb into Hbody end.
  match goal with Hd : (_ <>s record.(GoalDelivery.PayloadDigest)) = false |- _ =>
    apply negb_false_iff, String.eqb_eq in Hd; rename Hd into Hdigest end.
  clear -Hkind Husage Hbody Hdigest. destruct record as [kind id digest fence ready attach stopped evidence body].
  cbn [GoalDelivery.Kind GoalDelivery.usage] in Hkind, Husage. subst kind body.
  destruct attach, stopped, evidence, ready; try discriminate Hbody.
  change ((id =s usage.(Usage.UsageKey)) && (usage.(Usage.RunID) =s runID) && Usage.Validate usage = true) in Hbody.
  breflect. subst id. unfold receipt. rewrite <- Hdigest. reflexivity.
Qed.

Lemma delivered_record journal record :
  valid_journal journal -> In record journal.(DeliveredGoalDeliveries) ->
  record.(GoalDelivery.fence) = fence journal /\ GoalDelivery.validatePersisted journal.(RunID) record = Ok tt.
Proof.
  unfold valid_journal, validateJournal. intros Hvalid Hin. inv_ok.
  match goal with Hd : validateGoalDeliveries _ = Ok _ |- _ => rename Hd into Hdeliveries end. clear Hvalid.
  unfold validateGoalDeliveries in Hdeliveries. apply rbind_ok in Hdeliveries as (s1 & _ & Hdeliveries).
  apply rbind_ok in Hdeliveries as (s2 & Hloop & _).
  eapply (for_each_Forall _ (fun d => d.(GoalDelivery.fence) = fence journal /\
    GoalDelivery.validatePersisted journal.(RunID) d = Ok tt)) in Hloop.
  - rewrite List.Forall_forall in Hloop. auto.
  - cbv beta. clear. intros s d s' Hrun. inv_ok. destruct a. apply orb_false_iff in E as [_ E%negb_false_iff].
    by apply bool_decide_eq_true in E.
Qed.

Lemma not_settled_elsewhere journal record retired :
  valid_journal journal -> In record (usageRecords journal) -> In retired (usageRetirements journal) ->
  retired.(GoalDeliveryRetirement.Delivery).(GoalDelivery.DeliveryID) <> record.(GoalDelivery.DeliveryID).
Proof.
  intros Hvalid%valid_identities [Hr Hkr]%filter_In [Ht Hkt]%filter_In Heq. unfold history in Hvalid.
  apply String.eqb_eq in Hkr, Hkt. rewrite map_app in Hvalid. apply List.NoDup_app_remove_l in Hvalid. rewrite map_app in Hvalid.
  eapply NoDup_app_disjoint; [exact Hvalid|by apply (in_map deliveryIdentity)|].
  rewrite map_map. apply in_map_iff. exists retired. split; [|done]. unfold deliveryIdentity. by rewrite Heq, Hkr, Hkt.
Qed.

(** The ledger a deletion leaves when there was one with deliveries. *)
Lemma delete_merges fs removal state state' key now journal existing :
  loadJournalLocked fs.(journal_io) state.(store) key = Ok journal -> journal.(GoalDeliveryEnabled) = true ->
  loadLateGoalUsageLocked fs.(ledger_io) state.(late) key = Ok existing -> LateGoalUsageLedger.Key existing = key ->
  existing.(DeliveredDeliveries) <> [] -> DeleteJournal fs removal state key now = (state', Ok tt) ->
  existing.(LateGoalUsageLedger.fence) = fence journal /\
  state'.(late) !! lateGoalUsagePath key = Some (LedgerDecodes (mergeLedger existing (newLedger journal now) now)).
Proof.
  intros Hload Henabled Hlate Hkey Hsome. unfold DeleteJournal. case_match; [done|].
  destruct (rbind _ _) as [loaded|] eqn:Hrun; [|done]. inv_ok. subst. rewrite Hload in E0. apply Ok_inj in E0. subst loaded.
  pose proof (proj1 (load_inv _ _ _ _ Hload)) as [_ Hkeyed]. rewrite Henabled. unfold archiveLateGoalUsageLocked.
  rewrite Hkeyed, Hlate. cbv zeta.
  destruct (negb (sameFence _ _)) eqn:Hfence; [done|]. apply negb_false_iff, bool_decide_eq_true in Hfence.
  set (merged := mergeLedger existing (newLedger journal now) now).
  assert (LateGoalUsageLedger.Key merged = LateGoalUsageLedger.Key existing /\ merged.(DeliveredDeliveries) = existing.(DeliveredDeliveries))
    as [Hmk Hmd].
  { unfold merged, mergeLedger. cbv zeta. destruct existing as [v r g f pd dd rd c u]. cbn in Hsome.
    destruct dd; [done|]. by repeat case_match. }
  destruct (negb (llen merged.(RetiredDeliveries) =? 0) || _) eqn:Hnon.
  2:{ apply orb_false_iff in Hnon as [_ Hnon]. rewrite Hmd in Hnon. by destruct existing.(DeliveredDeliveries). }
  unfold saveLateGoalUsageLocked. destruct (LateGoalUsageLedger.validate merged) as [[]|] eqn:Hvalid; [|done].
  destruct (write (ledger_io fs)); [|done..]. rewrite (ledger_written _ Hvalid), Hmk.
  destruct (removeJournal _ _ _) as [store' removed]. intros [= <- ->]. cbn [late]. split; [done|]. apply lookup_insert_eq.
Qed.

(** The merged ledger knows nothing of a record the old one did not know. *)
Lemma merged_forgets existing journal now record :
  valid_journal journal -> In record (usageRecords journal) -> existing.(DeliveredDeliveries) <> [] ->
  ~ In record.(GoalDelivery.DeliveryID) (map GoalDelivery.DeliveryID (ledger_records existing)) ->
  ~ In record.(GoalDelivery.DeliveryID) (map GoalDelivery.DeliveryID (ledger_records (mergeLedger existing (newLedger journal now) now))).
Proof.
  intros Hvalid Hrecord Hsome Hunknown. unfold mergeLedger. cbv zeta.
  destruct existing as [v r g f pending delivered retired created updated]. cbn in Hsome, Hunknown.
  unfold ledger_records in *. cbn [PendingUsageDeliveries DeliveredDeliveries RetiredDeliveries] in *.
  destruct delivered as [|d delivered]; [done|].
  destruct retired as [|old retired]; cbn [llen length newLedger RetiredDeliveries DeliveredDeliveries];
    [|by repeat case_match].
  destruct (_ && negb (llen (usageRetirements journal) =? 0)); [|by repeat case_match].
  intros Hin. assert (In record.(GoalDelivery.DeliveryID) (map GoalDelivery.DeliveryID (pending ++ (d :: delivered) ++
    map GoalDeliveryRetirement.Delivery (usageRetirements journal)))%list) as Hin' by (revert Hin; by repeat case_match).
  clear Hin. rewrite !map_app, !in_app_iff, map_map in Hin', Hunknown. destruct Hin' as [Hin|[Hin|Hin]]; [tauto..|].
  apply in_map_iff in Hin as (old & Heq & Hin). by eapply not_settled_elsewhere in Heq.
Qed.

(** A usage record the ledger does not know is queued. *)
Lemma unknown_is_queued usage ledger queued changed :
  ~ In usage.(Usage.UsageKey) (map GoalDelivery.DeliveryID (ledger_records ledger)) ->
  queueLateUsage usage ledger = Ok (queued, changed) ->
  changed = true /\
  let record := (usageDelivery usage) <| GoalDelivery.fence := ledger.(LateGoalUsageLedger.fence) |> in
  queued = ledger <| PendingUsageDeliveries := (ledger.(PendingUsageDeliveries) ++
    [record <| GoalDelivery.PayloadDigest := GoalDelivery.digest record |>])%list |>.
Proof.
  unfold queueLateUsage, ledger_records. rewrite !map_app, !in_app_iff, map_map. intros Hunknown Hrun.
  apply rbind_ok in Hrun as (prepared & Hp & Hrun). apply prepare_inv in Hp as ->. cbv zeta in Hrun.
  assert (forall l, ~ In usage.(Usage.UsageKey) (map GoalDelivery.DeliveryID l) ->
    List.find (fun other => other.(GoalDelivery.DeliveryID) =s usage.(Usage.UsageKey)) l = None) as Hnone.
  { intros l Hl. destruct (List.find _ l) as [d|] eqn:E; [|done]. apply find_some in E as [Hin Hd].
    apply String.eqb_eq in Hd. destruct Hl. rewrite <- Hd. by apply in_map. }
  rewrite !Hnone in Hrun by tauto. destruct (existsb _ _); [done|]. simplify_eq. done.
Qed.

(** C11: the archive forgets settled usage when the run already has a ledger
    with deliveries. Such a ledger stays behind when the removal of a journal
    fails, and the journal can settle more usage before it is deleted again
    ([QueueNativeUsageRecoverySettlement] does not look at the ledger). The
    deletion then succeeds, and the usage record that had been delivered is
    queued for delivery again by a [QueueGoalUsage] with the same body. *)
Theorem archive_forgets_settled_usage fs removal state state' key now journal existing record usage fs' now' later returned :
  loadJournalLocked fs.(journal_io) state.(store) key = Ok journal ->
  loadLateGoalUsageLocked fs.(ledger_io) state.(late) key = Ok existing -> LateGoalUsageLedger.Key existing = key ->
  existing.(DeliveredDeliveries) <> [] ->
  In record (usageRecords journal) -> record.(GoalDelivery.usage) = Some usage ->
  ~ In record.(GoalDelivery.DeliveryID) (map GoalDelivery.DeliveryID (ledger_records existing)) ->
  DeleteJournal fs removal state key now = (state', Ok tt) ->
  QueueGoalUsage fs' state' key usage now' = (later, Ok returned) ->
  exists ledger, later.(late) !! lateGoalUsagePath key = Some (LedgerDecodes ledger) /\ In (receipt record) (late_pending ledger).
Proof.
  intros Hload Hlate Hkey Hsome Hin Husage Hunknown Hdelete Hqueue.
  destruct (load_inv _ _ _ _ Hload) as [_ Hvalid].
  pose proof (settled_enabled journal record Hvalid (in_or_app _ _ _ (or_introl Hin))) as Henabled.
  destruct (delete_merges _ _ _ _ _ _ _ _ Hload Henabled Hlate Hkey Hsome Hdelete) as [Hfence Hfile].
  pose proof (merged_forgets _ _ now _ Hvalid Hin Hsome Hunknown) as Hmerged.
  set (merged := mergeLedger existing (newLedger journal now) now) in *.
  assert (LateGoalUsageLedger.Key merged = key /\ merged.(LateGoalUsageLedger.fence) = fence journal) as [Hmk Hmf].
  { rewrite <- Hkey, <- Hfence. unfold merged, mergeLedger. by repeat case_match. }
  apply filter_In in Hin as [Hin Hkind]. apply String.eqb_eq in Hkind.
  destruct (delivered_record _ _ Hvalid Hin) as [Hrf Hpersisted].
  pose proof (persisted_usage _ _ _ Hpersisted Hkind Husage) as Hreceipt. rewrite Hrf, <- Hmf in Hreceipt.
  assert (record.(GoalDelivery.DeliveryID) = usage.(Usage.UsageKey)) as Hid by (unfold receipt in Hreceipt; cbn in Hreceipt; congruence).
  rewrite Hid in Hmerged. clearbody merged.
  unfold QueueGoalUsage, QueueLateGoalUsage, LoadLateGoalUsage, loadLateGoalUsageLocked, loadLateGoalUsagePathLocked in Hqueue.
  rewrite Hfile in Hqueue. destruct (negb (validateKey key)); [done|]. destruct (ensureOpenLocked _) as [[]|e] eqn:Hopen.
  2:{ unfold ensureOpenLocked in Hopen. destruct (_ || _) in Hopen; [|done]. injection Hopen as <-. done. }
  cbn [rbind] in Hqueue. destruct (negb (readable (ledger_io fs'))); [done|].
  destruct (_ || _); [done|]. destruct (negb (readable (again_io fs'))); [done|]. cbn [rbind] in Hqueue.
  destruct (queueLateUsage usage merged) as [[queued changed]|] eqn:Hrun; [|done].
  apply (unknown_is_queued _ _ _ _ Hmerged) in Hrun as [-> Hq]. cbv zeta in Hq.
  assert (exists updated, updated = queued <| UpdatedAt := now' |>) as [updated Hu] by eauto. rewrite <- Hu in Hqueue.
  assert (LateGoalUsageLedger.Key updated = key) as Huk by (rewrite Hu, <- Hmk, Hq; by destruct merged).
  assert (In (receipt record) (late_pending updated)) as Hpending.
  { rewrite Hreceipt, Hu, Hq. unfold late_pending. cbn. rewrite map_app. apply in_or_app. right. by left. }
  unfold saveLateGoalUsageLocked in Hqueue. destruct (LateGoalUsageLedger.validate updated) as [[]|] eqn:Hv; [|done].
  rewrite (ledger_written _ Hv), Huk in Hqueue. destruct (write (again_io fs')); [|done..].
  cbn [fst snd rbind] in Hqueue. injection Hqueue as <- _. exists updated. split; [|done]. apply lookup_insert_eq.
Qed.
End Files.
