(* ===== verification/SessionSteps.v ===== *)
(** * SessionSteps: what one operation does to one session

    The mutations of SessionOps.v as one type of steps, the requests of the
    session store as another, and the relation [evolves] between a session
    journal and its successor that every mutation and every rebind keeps. *)

From S2P Require Import Prelude Sha256 Json Authority Protocol Journal Validation Store Session SessionOps LateUsage SessionStore.
Import GoalSessionJournal.
Open Scope string_scope.
Open Scope Z_scope.

(** ** Mutations of one journal *)

Inductive session_mutation : Type :=
| MutLaunchStarted (at_ : time)
| MutAbort (now : time)
| MutHandle (handle : GoalSessionHandle.t) (expected : option GoalSessionCompatibility.t) (now : time)
| MutControl (controlSessionID bindingID receiptID : string) (serverIssuedBinding : bool) (now : time)
| MutResumeAttempted (now : time)
| MutResumeStopped (now : time)
| MutResumeRejected (now : time)
| MutStoppedPending (now : time)
| MutAvailable (certificate : GoalSessionStopCertificate.t) (now : time)
| MutUncertain (reason : string) (now : time)
| MutResolve (handle : GoalSessionHandle.t) (expected : GoalSessionCompatibility.t) (now : time)
| MutResolveStopped (expected : GoalSessionCompatibility.t) (now : time)
| MutClose (now : time)
| MutState (sessionState : string) (now : time).

Definition session_callback (m : session_mutation) : GoalSessionJournal.t -> result GoalSessionJournal.t :=
  match m with
  | MutLaunchStarted at_ => markLaunchStarted at_
  | MutAbort now => abortBeforeNativeStart now
  | MutHandle handle expected now => persistHandle handle expected now
  | MutControl sessionID bindingID receiptID issued now => persistControlAttachment sessionID bindingID receiptID issued now
  | MutResumeAttempted now => markResumeStartAttempted now
  | MutResumeStopped now => markResumeNativeStopped now
  | MutResumeRejected now => markResumeRejected now
  | MutStoppedPending now => markStoppedPending now
  | MutAvailable certificate now => markAvailable certificate now
  | MutUncertain reason now => markUncertain reason now
  | MutResolve handle expected now => resolveUncertain handle expected now
  | MutResolveStopped expected now => resolveUncertainStopped expected now
  | MutClose now => closeSession now
  | MutState sessionState now =>
      if sessionState =s GoalSessionStateClosed then closeSession now else setSessionState sessionState now
  end.

(** The method of the store that applies a mutation. *)
Definition session_method (m : session_mutation) (fs : session_io) (state : SessionFiles.t) (key : GoalSessionKey.t)
    : SessionFiles.t * result GoalSessionJournal.t :=
  match m with
  | MutLaunchStarted at_ => MarkGoalSessionLaunchStarted fs state key at_
  | MutAbort now => AbortGoalSessionLaunchBeforeNativeStart fs now state key
  | MutHandle handle expected now => PersistGoalSessionHandle fs now state key handle expected
  | MutControl sessionID bindingID receiptID issued now =>
      PersistGoalSessionControlAttachment fs now state key sessionID bindingID receiptID issued
  | MutResumeAttempted now => MarkGoalSessionResumeStartAttempted fs now state key
  | MutResumeStopped now => MarkGoalSessionResumeNativeStopped fs now state key
  | MutResumeRejected now => MarkGoalSessionResumeRejected fs now state key
  | MutStoppedPending now => MarkGoalSessionStoppedPending fs now state key
  | MutAvailable certificate now => MarkGoalSessionAvailable fs now state key certificate
  | MutUncertain reason now => MarkGoalSessionUncertain fs now state key reason
  | MutResolve handle expected now => ResolveGoalSessionUncertain fs now state key handle expected
  | MutResolveStopped expected now => ResolveGoalSessionUncertainStopped fs now state key expected
  | MutClose now => CloseGoalSession fs now state key
  | MutState sessionState now => SetGoalSessionState fs now state key sessionState
  end.

(** A method refuses its arguments, or mutates the journal. *)
Lemma session_method_mutates m fs state key :
  (exists e, session_method m fs state key = (state, Err e)) \/
  session_method m fs state key = mutateGoalSession fs state key (session_callback m).
Proof.
  destruct m; cbn [session_method session_callback]; try (by right);
    unfold MarkGoalSessionLaunchStarted, PersistGoalSessionHandle, PersistGoalSessionControlAttachment,
      MarkGoalSessionAvailable, MarkGoalSessionUncertain, ResolveGoalSessionUncertain, SetGoalSessionState,
      GoalSessionHandle.validate, CloseGoalSession, guarded;
    repeat match goal with |- context [if ?c then _ else _] => destruct c end; first [by right|left; by eexists].
Qed.

(** ** How a session evolves *)

(** A session is closed as a whole, and then needs no reconciliation. *)
Definition settled (journal : GoalSessionJournal.t) : Prop :=
  isClosed journal = true -> fullyClosed journal = true /\ journal.(RecoveryRequired) = false.

Definition original (journal : GoalSessionJournal.t) : option GoalSessionControlAttachment.t :=
  option_map GoalSessionControlAttachmentLineage.Original journal.(ControlAttachmentLineage).

(** What owns the session: everything of its compatibility but the epoch of
    the runtime, and the run that owns the workspace. *)
Definition ownership (journal : GoalSessionJournal.t) :=
  let recorded := journal.(intent) in
  (recorded.(GoalSessionLaunchIntent.LaunchIntentID), recorded.(GoalSessionLaunchIntent.GoalRevision),
   recorded.(GoalSessionLaunchIntent.WorkItemID), recorded.(GoalSessionLaunchIntent.OwnerID),
   recorded.(GoalSessionLaunchIntent.MachineID), recorded.(GoalSessionLaunchIntent.RuntimeID),
   recorded.(GoalSessionLaunchIntent.DaemonInstanceID),
   (recorded.(GoalSessionLaunchIntent.HarnessKind), recorded.(GoalSessionLaunchIntent.HarnessVersion),
    recorded.(GoalSessionLaunchIntent.AdapterVersion), recorded.(GoalSessionLaunchIntent.AdapterProtocolVersion)),
   (recorded.(GoalSessionLaunchIntent.WorkspaceFingerprint), recorded.(GoalSessionLaunchIntent.WorkspacePath),
    recorded.(GoalSessionLaunchIntent.workspaceOwnerRunKey), recorded.(GoalSessionLaunchIntent.RepositoryResourceID))).

Record evolves (before after : GoalSessionJournal.t) : Prop := {
  evolves_key : GoalSessionJournal.Key after = GoalSessionJournal.Key before;
  evolves_created : after.(CreatedAt) = before.(CreatedAt);
  evolves_owner : ownership after = ownership before;
  evolves_epoch : before.(intent).(GoalSessionLaunchIntent.RuntimeEpoch) <= after.(intent).(GoalSessionLaunchIntent.RuntimeEpoch);
  evolves_history : consumed before `prefix_of` consumed after;
  evolves_original : forall attachment, original before = Some attachment -> original after = Some attachment;
  evolves_closed : fullyClosed before = true -> after = before
}.

#[export] Instance evolves_preorder : PreOrder evolves.
Proof.
  split; [by split|]. intros j1 j2 j3 [] []. split; [congruence..|lia|by etrans|auto|].
  intros Hclosed. assert (j2 = j1) as -> by auto. auto.
Qed.

(** A mutation changes an open journal, and not its lineage. *)
Record mutation_frame (before after : GoalSessionJournal.t) : Prop := {
  frame_evolves : evolves before after;
  frame_lineage : GoalSessionJournal.LineageKey after = GoalSessionJournal.LineageKey before;
  frame_settled : settled after
}.

Lemma frame_refl journal : settled journal -> mutation_frame journal journal.
Proof. by split. Qed.

Lemma open_fields journal :
  isClosed journal = false ->
  (journal.(LaunchState) =s GoalSessionLaunchStateClosed) = false /\
  (journal.(SessionState) =s GoalSessionStateClosed) = false /\ fullyClosed journal = false.
Proof. unfold isClosed, fullyClosed. intros [-> ->]%orb_false_iff. done. Qed.

(** ** Sessions that are still open *)

Lemma open_launch journal : isClosed journal = false -> (journal.(LaunchState) =s GoalSessionLaunchStateClosed) = false.
Proof. by intros (? & _ & _)%open_fields. Qed.

Lemma open_session journal : isClosed journal = false -> (journal.(SessionState) =s GoalSessionStateClosed) = false.
Proof. by intros (_ & ? & _)%open_fields. Qed.

Lemma live_launch journal :
  settled journal -> (journal.(LaunchState) =s GoalSessionLaunchStateClosed) = false -> isClosed journal = false.
Proof.
  intros Hsettled Hlaunch. destruct (isClosed journal) eqn:Hclosed; [|done]. destruct (Hsettled Hclosed) as [Hfull _].
  unfold fullyClosed in Hfull. by rewrite Hlaunch in Hfull.
Qed.

Lemma launch_at journal state :
  (journal.(LaunchState) =s state) = true -> state <> GoalSessionLaunchStateClosed ->
  (journal.(LaunchState) =s GoalSessionLaunchStateClosed) = false.
Proof. intros ->%String.eqb_eq Hne. by apply String.eqb_neq. Qed.

Lemma live_attached journal : settled journal -> notAttached journal = false -> isClosed journal = false.
Proof.
  intros Hsettled Hattached. apply live_launch; [done|]. unfold notAttached in Hattached. breflect.
  eapply launch_at; [by apply String.eqb_eq|done].
Qed.

Lemma live_needs journal : settled journal -> NeedsReconciliation journal = true -> isClosed journal = false.
Proof.
  intros Hsettled Hneeds. destruct (isClosed journal) eqn:Hclosed; [|done]. destruct (Hsettled Hclosed) as [Hfull Hrec].
  unfold fullyClosed in Hfull. unfold NeedsReconciliation in Hneeds. rewrite Hrec in Hneeds.
  cbn [orb] in Hneeds. breflect. congruence.
Qed.

Lemma live_before journal : settled journal -> beforeLaunch journal = true -> isClosed journal = false.
Proof.
  intros Hsettled Hbefore. apply live_launch; [done|]. unfold beforeLaunch in Hbefore.
  rewrite !andb_true_iff in Hbefore. destruct Hbefore as [[[[Hbefore _] _] _] _]. by eapply launch_at.
Qed.

(** A mutation of an open journal that keeps what identifies it. *)
Lemma frame_open before after :
  isClosed before = false ->
  ownership after = ownership before ->
  GoalSessionJournal.Key after = GoalSessionJournal.Key before ->
  GoalSessionJournal.LineageKey after = GoalSessionJournal.LineageKey before ->
  after.(CreatedAt) = before.(CreatedAt) ->
  after.(intent).(GoalSessionLaunchIntent.RuntimeEpoch) = before.(intent).(GoalSessionLaunchIntent.RuntimeEpoch) ->
  consumed before `prefix_of` consumed after ->
  (forall attachment, original before = Some attachment -> original after = Some attachment) ->
  settled after -> mutation_frame before after.
Proof.
  intros (_ & _ & Hopen)%open_fields Howner Hkey Hlineage Hcreated Hepoch Hhistory Horiginal Hsettled.
  split; [split; [done..|lia|done|done|congruence]|done|done].
Qed.

Lemma settled_launch journal :
  isClosed journal = false -> settled journal.
Proof. intros Hopen Hclosed. congruence. Qed.

(** The fields of a mutation that it does not assign. *)
Ltac frame_kept :=
  apply frame_open; [try assumption|reflexivity|reflexivity|reflexivity|reflexivity|reflexivity|try reflexivity|try (intros; assumption)|].

Lemma closed_by_parts journal :
  (journal.(LaunchState) =s GoalSessionLaunchStateClosed) = false ->
  (journal.(SessionState) =s GoalSessionStateClosed) = false -> settled journal.
Proof. intros H1 H2. apply settled_launch. unfold isClosed. by rewrite H1, H2. Qed.

Lemma settled_closed journal :
  fullyClosed journal = true -> journal.(RecoveryRequired) = false -> settled journal.
Proof. by intros ?? _. Qed.

(** A mutation that leaves both states as they are. *)
Lemma settled_same before after :
  isClosed before = false -> after.(LaunchState) = before.(LaunchState) -> after.(SessionState) = before.(SessionState) ->
  settled after.
Proof. intros Hopen Hl Hs. apply settled_launch. unfold isClosed in *. by rewrite Hl, Hs. Qed.

Lemma closeLaunch_frame now journal : isClosed journal = false -> mutation_frame journal (closeLaunch now journal).
Proof. intros Hopen. frame_kept. by apply settled_closed. Qed.

Lemma markLaunchStarted_frame at_ j j' : markLaunchStarted at_ j = Ok j' -> mutation_frame j j'.
Proof. unfold markLaunchStarted. intros Hrun. inv_ok. subst j'. frame_kept. by apply closed_by_parts. Qed.

Lemma abort_frame now j j' : settled j -> abortBeforeNativeStart now j = Ok j' -> mutation_frame j j'.
Proof.
  unfold abortBeforeNativeStart. intros Hsettled Hrun. destruct (fullyClosed j); [inv_ok; subst; by apply frame_refl|].
  destruct (beforeLaunch j) eqn:Hbefore; inv_ok; subst j'; apply closeLaunch_frame; [by apply live_before|].
  apply live_launch; [done|]. breflect. eapply launch_at; [by apply String.eqb_eq|done].
Qed.

Lemma persistHandle_frame handle expected now j j' :
  settled j -> persistHandle handle expected now j = Ok j' -> mutation_frame j j'.
Proof.
  unfold persistHandle. intros Hsettled Hrun. inv_ok. destruct (LaunchState j =s GoalSessionLaunchStateAttached); inv_ok; subst j'; [by apply frame_refl|].
  frame_kept. apply closed_by_parts; [done|]. by apply (open_session j).
Qed.

Lemma persistControlAttachment_frame sessionID bindingID receiptID issued now j j' :
  settled j -> persistControlAttachment sessionID bindingID receiptID issued now j = Ok j' -> mutation_frame j j'.
Proof.
  unfold persistControlAttachment. cbv zeta. intros Hsettled Hrun. inv_ok.
  assert (isClosed j = false) as Hopen by by apply live_attached.
  subst j'. frame_kept; [|by eapply settled_same]. intros attachment. unfold original.
  cbn [ControlAttachmentLineage setf set_ControlAttachmentLineage set_ControlSessionID set_ControlAttachmentReceiptID set_intent set_UpdatedAt].
  destruct (ControlAttachmentLineage j) as [lineage|]; [|done]. inv_ok. subst. done.
Qed.

Lemma resumeAttempted_frame now j j' : settled j -> markResumeStartAttempted now j = Ok j' -> mutation_frame j j'.
Proof.
  unfold markResumeStartAttempted. intros Hsettled Hrun. inv_ok. destruct (ResumeStartPending j); cbn [negb] in Hrun; inv_ok; subst j'.
  - frame_kept. by eapply settled_same.
  - by apply frame_refl.
Qed.

Lemma resumeStopped_frame reason now j : resumeStoppable j = Ok tt -> mutation_frame j (resumeStopped reason now j).
Proof.
  unfold resumeStoppable. intros Hrun. inv_ok. frame_kept. apply closed_by_parts; [|done].
  by apply (open_launch j).
Qed.

Lemma resumeNativeStopped_frame now j j' : settled j -> markResumeNativeStopped now j = Ok j' -> mutation_frame j j'.
Proof.
  unfold markResumeNativeStopped. intros Hsettled Hrun. inv_ok. destruct a. destruct (ResumeNativeStopKnown j); inv_ok; subst j'.
  - by apply frame_refl.
  - by apply resumeStopped_frame.
Qed.

Lemma resumeRejected_frame now j j' : settled j -> markResumeRejected now j = Ok j' -> mutation_frame j j'.
Proof.
  unfold markResumeRejected. intros Hsettled Hrun. inv_ok. destruct a. destruct (ResumeNativeStopKnown j).
  - destruct (ResumeTerminalReason j =s "resume_rejected"); inv_ok; subst j'; [by apply frame_refl|].
    unfold resumeStoppable in E. inv_ok. frame_kept. by eapply settled_same.
  - inv_ok. subst j'. by apply resumeStopped_frame.
Qed.

Lemma stoppedPending_frame now j j' : settled j -> markStoppedPending now j = Ok j' -> mutation_frame j j'.
Proof.
  unfold markStoppedPending. cbv zeta. intros Hsettled Hrun. inv_ok.
  assert (isClosed j = false) as Hopen by by apply live_attached. subst j'.
  destruct (_ =s GoalSessionModeResume); frame_kept; (apply closed_by_parts; [by apply (open_launch j)|done]).
Qed.

Lemma append_prefix certificate j j' :
  appendConsumedStopCertificate certificate j = Ok j' -> consumed j' = (consumed j ++ [certificate])%list /\
  certificate ∉ consumed j /\
  j' = j <| ConsumedStopCertificates := Some (consumed j ++ [certificate])%list |>.
Proof.
  unfold appendConsumedStopCertificate. intros Hrun. inv_ok. subst j'. split; [done|]. split; [|done].
  by eapply bool_decide_eq_false_1.
Qed.

Lemma available_frame certificate now j j' : settled j -> markAvailable certificate now j = Ok j' -> mutation_frame j j'.
Proof.
  unfold markAvailable. intros Hsettled Hrun.
  destruct (consumedStopCertificate certificate j) as [[]|]; [inv_ok; subst; by apply frame_refl|done|].
  inv_ok. destruct (StopCertificate j); [inv_ok; subst; by apply frame_refl|]. inv_ok.
  assert (isClosed j = false) as Hopen.
  { apply live_attached; [done|]. unfold certificateMatches in *. by breflect. }
  subst j'. rename a into mid. assert (consumed j `prefix_of` consumed mid /\ (mid = j \/ exists h, mid = j <| ConsumedStopCertificates := h |>)) as [Hprefix Hmid].
  { destruct (ResumeSourceStopCertificate j), (ConsumedStopCertificates j) eqn:Hc; inv_ok; subst; try (split; [done|by left]).
    match goal with Ha : appendConsumedStopCertificate _ _ = _ |- _ => apply append_prefix in Ha as (-> & _ & ->) end.
    split; [by eexists|right; by eexists]. }
  destruct Hmid as [->|[h ->]]; frame_kept; try done; (apply closed_by_parts; [by apply (open_launch j)|done]).
Qed.

Lemma uncertain_frame reason now j j' : settled j -> markUncertain reason now j = Ok j' -> mutation_frame j j'.
Proof.
  unfold markUncertain. intros Hsettled Hrun. inv_ok. destruct (beforeLaunch j); inv_ok; subst j'.
  - by apply closeLaunch_frame.
  - frame_kept. by apply closed_by_parts.
Qed.

Lemma resolve_frame handle expected now j j' : settled j -> resolveUncertain handle expected now j = Ok j' -> mutation_frame j j'.
Proof.
  unfold resolveUncertain. intros Hsettled Hrun. inv_ok. breflect. subst j'.
  assert (isClosed j = false) as Hopen by by apply live_needs. frame_kept. by apply closed_by_parts.
Qed.

Lemma resolveStopped_frame expected now j j' : settled j -> resolveUncertainStopped expected now j = Ok j' -> mutation_frame j j'.
Proof.
  unfold resolveUncertainStopped. intros Hsettled Hrun. inv_ok. destruct (NeedsReconciliation j) eqn:Hneeds; cbn [negb] in Hrun.
  - inv_ok. subst j'. assert (isClosed j = false) as Hopen by by apply live_needs. frame_kept. by apply settled_closed.
  - destruct (fullyClosed j); inv_ok. subst j'. by apply frame_refl.
Qed.

Lemma close_frame now j j' : settled j -> closeSession now j = Ok j' -> mutation_frame j j'.
Proof.
  unfold closeSession. intros Hsettled Hrun. destruct (fullyClosed j); [inv_ok; subst; by apply frame_refl|]. inv_ok. subst j'.
  assert (isClosed j = false) as Hopen by by apply live_attached. frame_kept. apply settled_closed; [done|].
  unfold NeedsReconciliation in *. breflect. done.
Qed.

Lemma state_frame sessionState now j j' :
  sessionState <> GoalSessionStateClosed -> setSessionState sessionState now j = Ok j' -> mutation_frame j j'.
Proof.
  unfold setSessionState. intros Hne Hrun. inv_ok. subst j'. frame_kept.
  apply closed_by_parts; [by apply (open_launch j)|by apply String.eqb_neq].
Qed.

(** Every mutation keeps the identity, the ownership and the lineage of the
    session, only appends to its history, and leaves a closed one alone. *)
Lemma session_callback_frame m j j' : settled j -> session_callback m j = Ok j' -> mutation_frame j j'.
Proof.
  intros Hsettled. destruct m; cbn [session_callback];
    eauto using markLaunchStarted_frame, abort_frame, persistHandle_frame, persistControlAttachment_frame,
      resumeAttempted_frame, resumeNativeStopped_frame, resumeRejected_frame, stoppedPending_frame, available_frame,
      uncertain_frame, resolve_frame, resolveStopped_frame, close_frame.
  destruct (sessionState =s GoalSessionStateClosed) eqn:Hclosed; [by apply close_frame|].
  apply state_frame. by apply String.eqb_neq.
Qed.

(** ** Resume *)

(** A rebind consumes one certificate the session has not consumed before
    and moves it to the lineage of the new task. *)
Lemma applyRebind_evolves rebind now j j' :
  validateResumeSource rebind j = Ok tt -> applyRebind rebind now j = Ok j' ->
  evolves j j' /\ settled j' /\ GoalSessionJournal.LineageKey j' = targetLineage rebind j /\
  rebind.(GoalSessionResumeRebind.ExactStopCertificate) ∉ consumed j /\
  consumed j' = (consumed j ++ [rebind.(GoalSessionResumeRebind.ExactStopCertificate)])%list.
Proof.
  unfold validateResumeSource, applyRebind. cbv zeta. intros Hsource Hrun. inv_ok. subst j'.
  match goal with Ha : appendConsumedStopCertificate _ _ = _ |- _ => apply append_prefix in Ha as (_ & Hfresh & ->) end.
  change (rebind.(GoalSessionResumeRebind.ExactStopCertificate) ∉ consumed j) in Hfresh.
  match goal with Hc : isClosed j = false |- _ => rename Hc into Hopen end.
  pose proof (open_fields _ Hopen) as (_ & _ & Hfull). breflect.
  split; [split|split; [by apply closed_by_parts|split; [reflexivity|split; [exact Hfresh|reflexivity]]]];
    [reflexivity|reflexivity|reflexivity| | |by intros|congruence].
  - match goal with He : _ <= _ |- _ => exact He end.
  - by exists [rebind.(GoalSessionResumeRebind.ExactStopCertificate)].
Qed.

Lemma source_open rebind j : validateResumeSource rebind j = Ok tt -> fullyClosed j = false.
Proof. unfold validateResumeSource. intros Hsource. apply if_reject_ok in Hsource as [Hopen _]. by apply open_fields in Hopen as (_ & _ & ?). Qed.

(** ** Requests of the session store *)

Inductive session_request : Type :=
| SessionLaunch (newLaunchID newHandleID : option string) (now : time) (launch : GoalSessionLaunchIntent.t)
| SessionMutate (key : GoalSessionKey.t) (m : session_mutation)
| SessionRebind (now : time) (key : GoalSessionKey.t) (rebind : GoalSessionResumeRebind.t)
| SessionDelete (key : GoalSessionKey.t)
| SessionCheck (lineage : GoalSessionLineageKey.t).

Definition session_execute (state : SessionFiles.t) (call : session_io * session_request) : SessionFiles.t :=
  let '(fs, request) := call in
  match request with
  | SessionLaunch newLaunchID newHandleID now launch => (SaveGoalSessionLaunchIntent fs newLaunchID newHandleID now state launch).1
  | SessionMutate key m => (session_method m fs state key).1
  | SessionRebind now key rebind => (RebindGoalSessionForResume fs now state key rebind).1
  | SessionDelete key => (DeleteGoalSession fs state key).1
  | SessionCheck lineage => (CheckGoalSessionLineage fs.(guard_io) state lineage).1
  end.

Definition session_run (state : SessionFiles.t) (trace : list (session_io * session_request)) : SessionFiles.t :=
  fold_left session_execute trace state.

(** An open store whose session directory is empty. *)
Definition session_start (store : Store) : SessionFiles.t := SessionFiles.mk store ∅ ∅.
