(* ===== verification/SessionProps.v ===== *)
(** * SessionProps: sessions, lineages and the index over them

    Theorems about the session store of SessionStore.v along every sequence
    of requests, whatever file operations fail: the index of a lineage agrees
    with a scan of the journals, a lineage has one live session at most, a
    session keeps its identity and its history, a stop certificate is
    consumed once, and every session can be closed. *)

From stdpp Require Import sorting.
From S2P Require Import Prelude Sha256 Json Authority Protocol Journal Validation Store Session SessionOps LateUsage.
From S2P Require Import SessionStore SessionSteps.
Import GoalSessionJournal.
Import goalSessionLineageIndex (Lineage, Dirty, Entries).
Import SessionFiles (store, sessions, indexes, with_sessions, with_indexes).
Open Scope string_scope.
Open Scope Z_scope.

(** ** The name of a session file *)

Lemma substring_head (s t : string) : String.substring 0 (String.length s) (s ++ t) = s.
Proof. induction s as [|c s IH]; [by destruct t|].
  change (String c (String.substring 0 (String.length s) (s ++ t)) = String c s). by rewrite IH.
Qed.

Lemma substring_tail (s t : string) n : String.substring (String.length s) n (s ++ t) = String.substring 0 n t.
Proof. induction s as [|c s IH]; [done|]. exact IH. Qed.

Lemma session_name_listed digest :
  len digest = 64 -> hex_decodes digest = true -> isGoalSessionFile ("session-" ++ digest ++ ".json") = true.
Proof.
  intros Hlen Hhex. unfold isGoalSessionFile.
  assert (String.length ("session-" ++ digest ++ ".json") = 8 + String.length digest + 5)%nat as Hlength
    by (rewrite !append_length; cbn [String.length]; lia).
  rewrite Hlength. cbv zeta.
  replace (8 + String.length digest + 5 - 5)%nat with (8 + String.length digest)%nat by lia.
  replace (8 + String.length digest + 5 - 13)%nat with (String.length digest) by lia.
  replace (String.substring (8 + String.length digest) 5 ("session-" ++ digest ++ ".json"))
    with ".json" by (symmetry; exact (substring_tail digest ".json" 5)).
  replace (String.substring 8 (String.length digest) ("session-" ++ digest ++ ".json"))
    with digest by (symmetry; exact (substring_head digest ".json")).
  replace (String.substring 0 8 ("session-" ++ digest ++ ".json"))
    with "session-" by (symmetry; exact (substring_head "session-" (digest ++ ".json"))).
  rewrite Hhex, Hlen. reflexivity.
Qed.

Lemma goalSessionPath_listed key : isGoalSessionFile (goalSessionPath key) = true.
Proof. apply session_name_listed; [apply sha256_hex_len|apply sha256_hex_decodes]. Qed.

(** ** A listing is the set of journals on disk *)

(** The journal [j] is on disk under the name of its key. *)
Definition in_files (files : gmap string session_file) (journal : GoalSessionJournal.t) : Prop :=
  files !! goalSessionPath (GoalSessionJournal.Key journal) = Some (SessionDecodes journal).

Definition sessions_ok (files : gmap string session_file) : Prop :=
  forall path content, files !! path = Some content ->
    exists journal, content = SessionDecodes journal /\ GoalSessionJournal.validate journal = true /\
      path = goalSessionPath (GoalSessionJournal.Key journal) /\ settled journal.

Definition is_listing (files : gmap string session_file) (journals : list GoalSessionJournal.t) : Prop :=
  NoDup journals /\ forall journal, journal ∈ journals <-> in_files files journal.

Lemma load_session readable files path journal :
  loadGoalSessionPathLocked readable files path = Ok journal ->
  files !! path = Some (SessionDecodes journal) /\ GoalSessionJournal.validate journal = true /\
  path = goalSessionPath (GoalSessionJournal.Key journal).
Proof.
  unfold loadGoalSessionPathLocked. intros Hload. destruct (files !! path) as [[found|]|]; inv_ok; [|done..].
  subst found. by breflect.
Qed.

Lemma load_session_ok files path journal :
  sessions_ok files -> files !! path = Some (SessionDecodes journal) -> loadGoalSessionPathLocked true files path = Ok journal.
Proof.
  intros Hok Hfile. destruct (Hok _ _ Hfile) as (? & [= <-] & Hvalid & Hpath & _). unfold loadGoalSessionPathLocked.
  rewrite Hfile, Hvalid, <- Hpath, String.eqb_refl. done.
Qed.

Lemma load_loop fs files names listed journals :
  for_each (fun listed name =>
      try journal <- loadGoalSessionPathLocked (fs.(file_readable) name) files name ;;
      Ok (listed ++ [journal])%list) listed names = Ok journals ->
  exists rest, journals = (listed ++ rest)%list /\
    Forall2 (fun name journal => files !! name = Some (SessionDecodes journal) /\
                                 name = goalSessionPath (GoalSessionJournal.Key journal)) names rest.
Proof.
  revert listed. induction names as [|name names IH]; cbn [for_each]; intros listed Hrun.
  { inv_ok. exists []. by rewrite app_nil_r. }
  inv_ok. subst. destruct (IH _ Hrun) as (rest & -> & Hall).
  match goal with Hl : loadGoalSessionPathLocked _ _ _ = Ok ?j |- _ => apply load_session in Hl as (? & _ & ?); exists (j :: rest) end.
  rewrite <- app_assoc. split; [done|]. by constructor.
Qed.

Lemma load_loop_ok files names listed :
  sessions_ok files -> Forall (fun name => is_Some (files !! name)) names ->
  exists journals, for_each (fun listed name =>
      try journal <- loadGoalSessionPathLocked true files name ;; Ok (listed ++ [journal])%list) listed names = Ok journals.
Proof.
  intros Hok Hall. revert listed. induction Hall as [|name names [content Hfile] _ IH]; intros listed; cbn [for_each]; [by eexists|].
  destruct (Hok _ _ Hfile) as (journal & -> & _). rewrite (load_session_ok _ _ _ Hok Hfile). apply IH.
Qed.

Lemma sessionNames_spec files :
  NoDup (sessionNames files) /\
  forall name, name ∈ sessionNames files <-> is_Some (files !! name) /\ isGoalSessionFile name = true.
Proof.
  unfold sessionNames. split.
  - rewrite merge_sort_Permutation. apply NoDup_ListNoDup, List.NoDup_filter, NoDup_ListNoDup, NoDup_fst_map_to_list.
  - intros name. rewrite merge_sort_Permutation, list_elem_of_In, filter_In, <- list_elem_of_In, list_elem_of_fmap. split.
    + intros [([] & -> & Hin%elem_of_map_to_list) ?]. split; [by eexists|done].
    + intros [[content Hfile] ?]. split; [|done]. exists (name, content). split; [done|]. by apply elem_of_map_to_list.
Qed.

(** What a listing returns, when it does, is the set of journals on disk. *)
Lemma listing_spec fs files journals :
  sessions_ok files -> listGoalSessionsLocked fs files = Ok journals -> is_listing files journals.
Proof.
  unfold listGoalSessionsLocked. intros Hok Hrun. inv_ok. subst journals.
  destruct (load_loop _ _ _ _ _ E0) as (rest & Hrest & Hall). cbn [app] in Hrest. subst a.
  destruct (sessionNames_spec files) as [Hnodup Hnames]. unfold is_listing, sort_by. split.
  - rewrite merge_sort_Permutation. apply (NoDup_fmap_1 (fun journal => goalSessionPath (GoalSessionJournal.Key journal))).
    replace ((fun journal => goalSessionPath (GoalSessionJournal.Key journal)) <$> rest) with (sessionNames files); [done|].
    clear -Hall. induction Hall as [|name journal names rest [_ ->] _ IH]; [done|]. cbn [fmap list_fmap]. by rewrite IH at 1.
  - intros journal. rewrite merge_sort_Permutation. split.
    + intros (i & Hi)%list_elem_of_lookup. destruct (Forall2_lookup_r _ _ _ _ _ Hall Hi) as (name & _ & Hfile & ->). done.
    + intros Hfile. assert (goalSessionPath (GoalSessionJournal.Key journal) ∈ sessionNames files) as (i & Hi)%list_elem_of_lookup
        by (apply Hnames; split; [by eexists|apply goalSessionPath_listed]).
      destruct (Forall2_lookup_l _ _ _ _ _ Hall Hi) as (found & Hfound & Hfile' & _).
      unfold in_files in Hfile. rewrite Hfile in Hfile'. injection Hfile' as ->. by eapply list_elem_of_lookup_2.
Qed.

Lemma listing_ok files : sessions_ok files -> exists journals, listGoalSessionsLocked scan_ok files = Ok journals.
Proof.
  intros Hok. unfold listGoalSessionsLocked. cbn [listable scan_ok negb file_readable].
  destruct (load_loop_ok files (sessionNames files) [] Hok) as [journals Hrun].
  { apply Forall_forall. intros name Hin. by apply (sessionNames_spec files) in Hin as [? _]. }
  rewrite Hrun. by eexists.
Qed.

(** ** The entries of a lineage *)

Lemma key_le_total a b : Is_true (key_le a b) \/ Is_true (key_le b a).
Proof.
  unfold key_le. rewrite (String.eqb_sym (GoalSessionKey.GoalID b)).
  destruct (_ =s _); (destruct (String.leb_total (GoalSessionKey.GoalID a) (GoalSessionKey.GoalID b)) as [Hg|Hg];
    destruct (String.leb_total (GoalSessionKey.LocalHandleID a) (GoalSessionKey.LocalHandleID b)) as [Hh|Hh];
    rewrite ?Hg, ?Hh; auto; by left).
Qed.

Lemma key_le_antisym a b : Is_true (key_le a b) -> Is_true (key_le b a) -> a = b.
Proof.
  destruct a as [g h], b as [g' h']. unfold key_le. cbn [GoalSessionKey.GoalID GoalSessionKey.LocalHandleID].
  rewrite (String.eqb_sym g' g). destruct (g =s g') eqn:Hg.
  - apply String.eqb_eq in Hg as ->. intros H1%Is_true_true H2%Is_true_true. f_equal. by apply String.leb_antisym.
  - intros H1%Is_true_true H2%Is_true_true. apply String.eqb_neq in Hg. destruct Hg. by apply String.leb_antisym.
Qed.

Lemma key_le_trans a b c : Is_true (key_le a b) -> Is_true (key_le b c) -> Is_true (key_le a c).
Proof.
  destruct a as [g h], b as [g' h'], c as [g'' h'']. unfold key_le. cbn [GoalSessionKey.GoalID GoalSessionKey.LocalHandleID].
  assert (forall s1 s2 s3, Is_true (String.leb s1 s2) -> Is_true (String.leb s2 s3) -> Is_true (String.leb s1 s3)) as Htrans
    by (intros s1 s2 s3; exact (transitivity (R:=String.le) (x:=s1) (y:=s2) (z:=s3))).
  destruct (g =s g') eqn:H1, (g' =s g'') eqn:H2; intros Ha Hb; breflect; subst.
  - rewrite String.eqb_refl. eauto.
  - by rewrite (proj2 (String.eqb_neq g' g'') H2).
  - by rewrite (proj2 (String.eqb_neq g g'') H1).
  - assert (g <> g'') as Hne.
    { intros <-. apply H1. apply String.leb_antisym; by apply Is_true_true. }
    rewrite (proj2 (String.eqb_neq g g'') Hne). eauto.
Qed.

#[local] Instance sort_by_trans {A} (key : A -> GoalSessionKey.t) : Transitive (fun x y => Is_true (key_le (key x) (key y))).
Proof. intros x y z. apply key_le_trans. Qed.

#[local] Instance sort_by_total {A} (key : A -> GoalSessionKey.t) : Total (fun x y => Is_true (key_le (key x) (key y))).
Proof. intros x y. apply key_le_total. Qed.

(** Sorting by key is determined by the set of elements when the key
    determines the element. *)
Lemma sort_by_ext {A} (key : A -> GoalSessionKey.t) l l' :
  l ≡ₚ l' -> (forall x y, x ∈ l -> y ∈ l' -> key x = key y -> x = y) -> sort_by key l = sort_by key l'.
Proof.
  intros Hperm Hkey. unfold sort_by.
  apply (StronglySorted_unique_strong (fun x y => Is_true (key_le (key x) (key y)))).
  - intros x y. rewrite !merge_sort_Permutation. intros Hx Hy H1 H2. apply Hkey; [done..|]. by apply key_le_antisym.
  - apply StronglySorted_merge_sort; apply _.
  - apply StronglySorted_merge_sort; apply _.
  - by rewrite !merge_sort_Permutation.
Qed.

Lemma elem_of_filterb {A} (p : A -> bool) l x : x ∈ List.filter p l <-> x ∈ l /\ p x = true.
Proof. by rewrite !list_elem_of_In, filter_In. Qed.

(** The entries of a lineage depend on its own live sessions only. *)
Lemma entries_ext lineage files files' l l' :
  is_listing files l -> is_listing files' l' ->
  (forall journal, blocksLineage lineage journal = true -> in_files files journal <-> in_files files' journal) ->
  lineageEntries lineage l = lineageEntries lineage l'.
Proof.
  intros [Hnd Hl] [Hnd' Hl'] Hsame. unfold lineageEntries.
  assert (List.filter (blocksLineage lineage) l ≡ₚ List.filter (blocksLineage lineage) l') as Hperm.
  { apply NoDup_Permutation; [by apply NoDup_ListNoDup, List.NoDup_filter, NoDup_ListNoDup..|].
    intros journal. rewrite !elem_of_filterb, Hl, Hl'. split; intros [? ?]; (split; [|done]); by apply Hsame. }
  apply sort_by_ext; [by apply Permutation_map|]. intros x y Hx Hy Hkey.
  apply list_elem_of_In, in_map_iff in Hx as (jx & <- & Hx). apply list_elem_of_In, in_map_iff in Hy as (jy & <- & Hy).
  apply list_elem_of_In, elem_of_filterb in Hx as [Hx Hbx]. apply list_elem_of_In, elem_of_filterb in Hy as [Hy Hby].
  apply Hl in Hx. apply Hl', Hsame in Hy; [|done]. unfold in_files in *.
  change (GoalSessionJournal.Key jx = GoalSessionJournal.Key jy) in Hkey. rewrite Hkey, Hy in Hx. by injection Hx as ->.
Qed.

Corollary listing_entries lineage files l l' :
  is_listing files l -> is_listing files l' -> lineageEntries lineage l = lineageEntries lineage l'.
Proof. intros Hl Hl'. by eapply entries_ext. Qed.

(** ** The invariant of the session store *)

(** A clean index is what a scan of the journals would make of it. *)
Definition index_agrees (files : gmap string session_file) (path : string) (content : index_file) : Prop :=
  exists index, content = IndexDecodes index /\ goalSessionLineageIndex.validate index = true /\
    path = goalSessionLineagePath index.(Lineage) /\
    (index.(Dirty) = false -> forall l, is_listing files l -> index.(Entries) = lineageEntries index.(Lineage) l).

Definition live_in (files : gmap string session_file) (lineage : GoalSessionLineageKey.t) (journal : GoalSessionJournal.t) : Prop :=
  in_files files journal /\ GoalSessionJournal.LineageKey journal = lineage /\ fullyClosed journal = false.

Record session_inv (state : SessionFiles.t) : Prop := {
  inv_sessions : sessions_ok state.(sessions);
  inv_indexes : map_Forall (index_agrees state.(sessions)) state.(indexes);
  inv_single : forall lineage j1 j2, live_in state.(sessions) lineage j1 -> live_in state.(sessions) lineage j2 -> j1 = j2
}.

(** No clean index of [lineage] is on disk. *)
Definition marked (state : SessionFiles.t) (lineage : GoalSessionLineageKey.t) : Prop :=
  forall index, state.(indexes) !! goalSessionLineagePath lineage = Some (IndexDecodes index) ->
    index.(Lineage) = lineage -> index.(Dirty) = true.

Lemma free_iff journal : goalSessionLineageStateForJournal journal = GoalSessionLineageStateFree <-> fullyClosed journal = true.
Proof. unfold goalSessionLineageStateForJournal. destruct (fullyClosed journal); [done|]. repeat case_match; done. Qed.

Lemma blocks_iff lineage journal :
  blocksLineage lineage journal = true <-> GoalSessionJournal.LineageKey journal = lineage /\ fullyClosed journal = false.
Proof.
  unfold blocksLineage. rewrite andb_true_iff, bool_decide_eq_true, negb_true_iff, String.eqb_neq, free_iff.
  by rewrite not_true_iff_false.
Qed.

(** A change of the journals that leaves every unmarked lineage alone keeps
    the indexes right. *)
Lemma inv_change state files :
  session_inv state -> sessions_ok files ->
  (forall lineage, marked state lineage \/
    forall journal, live_in state.(sessions) lineage journal <-> live_in files lineage journal) ->
  (forall lineage j1 j2, live_in files lineage j1 -> live_in files lineage j2 -> j1 = j2) ->
  session_inv (with_sessions state files).
Proof.
  intros [Hok Hidx _] Hok' Hchange Hsingle. split; [done| |done]. cbn [indexes sessions with_sessions].
  intros path content Hfile. destruct (Hidx _ _ Hfile) as (index & -> & Hvalid & Hpath & Hclean). exists index.
  split; [done|]. split; [done|]. split; [done|]. intros Hdirty l Hl.
  destruct (Hchange index.(Lineage)) as [Hmarked|Hsame].
  { subst path. rewrite (Hmarked index Hfile eq_refl) in Hdirty. done. }
  destruct (listing_ok _ Hok) as [l0 Hl0]. apply listing_spec in Hl0; [|done]. rewrite (Hclean Hdirty l0 Hl0).
  eapply entries_ext; [done..|]. intros journal [Hlin Hopen]%blocks_iff. specialize (Hsame journal).
  unfold live_in in Hsame. naive_solver.
Qed.

(** Writing an index that agrees with the journals keeps the invariant. *)
Lemma inv_index outcome state index :
  session_inv state ->
  (index.(Dirty) = false -> forall l, is_listing state.(sessions) l -> index.(Entries) = lineageEntries index.(Lineage) l) ->
  session_inv (saveGoalSessionLineageIndexLocked outcome state index).1.
Proof.
  intros [Hok Hidx Hsingle] Hindex. unfold saveGoalSessionLineageIndexLocked.
  destruct (goalSessionLineageIndex.validate index) eqn:Hvalid; [|done]. cbn [negb].
  assert (session_inv (with_indexes state (<[goalSessionLineagePath index.(Lineage) := IndexDecodes index]> state.(indexes)))) as Hnew.
  { split; [done| |done]. apply map_Forall_insert_2; [|done]. by exists index. }
  by destruct outcome; destruct state.
Qed.

Lemma index_sessions outcome state index : (saveGoalSessionLineageIndexLocked outcome state index).1.(sessions) = state.(sessions).
Proof. unfold saveGoalSessionLineageIndexLocked. case_match; [done|]. by destruct outcome. Qed.

Lemma begin_inv outcome state lineage :
  session_inv state -> session_inv (beginGoalSessionLineageMutationLocked outcome state lineage).1.
Proof. intros Hinv. unfold beginGoalSessionLineageMutationLocked. case_match; [done|]. by apply inv_index. Qed.

Lemma begin_sessions outcome state lineage :
  (beginGoalSessionLineageMutationLocked outcome state lineage).1.(sessions) = state.(sessions).
Proof. unfold beginGoalSessionLineageMutationLocked. case_match; [done|]. apply index_sessions. Qed.

Lemma refresh_inv scan outcome state lineage :
  session_inv state -> session_inv (refreshGoalSessionLineageIndexLocked scan outcome state lineage).1.
Proof.
  intros Hinv. unfold refreshGoalSessionLineageIndexLocked. case_match; [done|].
  destruct (listGoalSessionsLocked scan _) as [journals|] eqn:Hlist; [|done].
  apply listing_spec in Hlist; [|apply Hinv]. apply inv_index; [done|]. intros _ l Hl. by eapply listing_entries.
Qed.

Lemma refresh_sessions scan outcome state lineage :
  (refreshGoalSessionLineageIndexLocked scan outcome state lineage).1.(sessions) = state.(sessions).
Proof. unfold refreshGoalSessionLineageIndexLocked. repeat case_match; [done| |done]. apply index_sessions. Qed.

(** ** The query of an index *)

(** The status a scan of the journals gives. *)
Definition scanned_status (lineage : GoalSessionLineageKey.t) (journals : list GoalSessionJournal.t) : GoalSessionLineageStatus.t :=
  goalSessionLineageStatus (goalSessionLineageIndex.mk goalSessionLineageSchemaVersion lineage false
    (lineageEntries lineage journals)).

Lemma load_index readable state lineage index :
  session_inv state -> loadGoalSessionLineageIndexLocked readable state.(indexes) lineage = Ok index ->
  index.(Lineage) = lineage /\
  (index.(Dirty) = false -> forall l, is_listing state.(sessions) l ->
     goalSessionLineageStatus index = scanned_status lineage l).
Proof.
  intros Hinv. unfold loadGoalSessionLineageIndexLocked. intros Hload. inv_ok.
  destruct (state.(indexes) !! _) as [[found|]|] eqn:Hfile; inv_ok; [|done..]. subst found. breflect.
  match goal with Hd : bool_decide _ = true |- _ => apply bool_decide_eq_true in Hd as Hlin end. split; [done|].
  intros Hdirty l Hl. destruct (inv_indexes _ Hinv _ _ Hfile) as (? & [= <-] & _ & _ & Hclean).
  unfold scanned_status, goalSessionLineageStatus. cbn [Entries Lineage]. rewrite (Hclean Hdirty l Hl), Hlin. done.
Qed.

Lemma check_inv fs state lineage :
  session_inv state -> session_inv (checkGoalSessionLineageLocked fs state lineage).1.
Proof.
  intros Hinv. unfold checkGoalSessionLineageLocked. cbv zeta.
  pose proof (refresh_inv fs.(rebuild_scan) fs.(rebuild_write) state lineage Hinv) as Hrefresh.
  destruct (refreshGoalSessionLineageIndexLocked _ _ _ _) as [state' [[]|]];
    destruct (loadGoalSessionLineageIndexLocked _ state.(indexes) _) as [index|[]]; try done; by destruct (Dirty index).
Qed.

Lemma check_sessions fs state lineage : (checkGoalSessionLineageLocked fs state lineage).1.(sessions) = state.(sessions).
Proof.
  unfold checkGoalSessionLineageLocked. cbv zeta.
  pose proof (refresh_sessions fs.(rebuild_scan) fs.(rebuild_write) state lineage) as Hrefresh.
  destruct (refreshGoalSessionLineageIndexLocked _ _ _ _) as [state' [[]|]];
    destruct (loadGoalSessionLineageIndexLocked _ state.(indexes) _) as [index|[]]; try done; by destruct (Dirty index).
Qed.

(** A rebuild that succeeds leaves a clean index of the lineage. *)
Lemma refresh_loads scan outcome state state' readable lineage index :
  refreshGoalSessionLineageIndexLocked scan outcome state lineage = (state', Ok tt) ->
  loadGoalSessionLineageIndexLocked readable state'.(indexes) lineage = Ok index -> index.(Dirty) = false.
Proof.
  unfold refreshGoalSessionLineageIndexLocked, saveGoalSessionLineageIndexLocked. intros Hrefresh.
  destruct (negb _); [done|]. destruct (listGoalSessionsLocked _ _); [|done]. destruct (negb _); [done|].
  destruct outcome; try done. injection Hrefresh as <-.
  unfold loadGoalSessionLineageIndexLocked. cbn [indexes with_indexes Lineage]. intros Hload. inv_ok.
  rewrite lookup_insert_eq in Hload. inv_ok. by subst index.
Qed.

(** The indexed query answers as the scan does. *)
Lemma check_status fs state state' lineage status l :
  session_inv state -> is_listing state.(sessions) l ->
  checkGoalSessionLineageLocked fs state lineage = (state', Ok status) -> status = scanned_status lineage l.
Proof.
  intros Hinv Hl Hcheck.
  pose proof (refresh_inv fs.(rebuild_scan) fs.(rebuild_write) state lineage Hinv) as Hinv'.
  pose proof (refresh_sessions fs.(rebuild_scan) fs.(rebuild_write) state lineage) as Hsame.
  assert (forall s, match refreshGoalSessionLineageIndexLocked fs.(rebuild_scan) fs.(rebuild_write) state lineage with
    | (state', Err e) => (state', Err e)
    | (state', Ok _) =>
        (state', try index <- loadGoalSessionLineageIndexLocked fs.(rebuilt_readable) state'.(indexes) lineage ;;
                 Ok (goalSessionLineageStatus index))
    end = (s, Ok status) -> status = scanned_status lineage l) as Hrebuild.
  { intros s Hrun. destruct (refreshGoalSessionLineageIndexLocked _ _ _ _) as [rebuilt [[]|]] eqn:Hrefresh; [|done].
    injection Hrun as _ Hrun. inv_ok. subst status. eapply refresh_loads in Hrefresh; [|exact E].
    cbn [fst] in *. apply load_index in E as [_ Hclean]; [|done]. apply Hclean; [done|by rewrite Hsame]. }
  unfold checkGoalSessionLineageLocked in Hcheck. cbv zeta in Hcheck.
  destruct (loadGoalSessionLineageIndexLocked _ state.(indexes) _) as [index|[]] eqn:Hload;
    try discriminate Hcheck; [|by eapply Hrebuild].
  destruct (Dirty index) eqn:Hdirty; [by eapply Hrebuild|]. apply load_index in Hload as [_ Hclean]; [|done].
  injection Hcheck as _ <-. by apply Hclean.
Qed.

Lemma scanned_blocks lineage files l :
  is_listing files l ->
  GoalSessionLineageStatus.BlocksNewLaunch (scanned_status lineage l) = false <->
  forall journal, live_in files lineage journal -> False.
Proof.
  intros [_ Hl]. unfold scanned_status, goalSessionLineageStatus, GoalSessionLineageStatus.BlocksNewLaunch.
  cbn [Entries Lineage].
  assert (llen (lineageEntries lineage l) = llen (List.filter (blocksLineage lineage) l)) as ->.
  { unfold llen, lineageEntries, sort_by. f_equal. by rewrite merge_sort_Permutation, length_map. }
  assert (forall journal, journal ∈ List.filter (blocksLineage lineage) l <-> live_in files lineage journal) as Hin.
  { intros journal. rewrite elem_of_filterb, Hl, blocks_iff. unfold live_in. tauto. }
  destruct (List.filter (blocksLineage lineage) l) as [|first rest] eqn:Hfilter; cbn.
  - split; [|done]. intros _ journal Hlive. apply Hin in Hlive. by apply elem_of_nil in Hlive.
  - split; [done|]. intros Hnone. exfalso. apply (Hnone first). apply Hin. apply list_elem_of_here.
Qed.

(** A launch barrier that lets a launch pass means that the lineage is free. *)
Lemma barrier_free fs state state' lineage status :
  session_inv state -> checkGoalSessionLineageLocked fs state lineage = (state', Ok status) ->
  launchBarrier status = Ok tt -> forall journal, live_in state.(sessions) lineage journal -> False.
Proof.
  intros Hinv Hcheck Hpass. destruct (listing_ok _ (inv_sessions _ Hinv)) as [l Hl]. apply listing_spec in Hl; [|apply Hinv].
  rewrite (check_status _ _ _ _ _ _ Hinv Hl Hcheck) in Hpass. apply (scanned_blocks _ _ _ Hl).
  unfold launchBarrier in Hpass. destruct (GoalSessionLineageStatus.BlocksNewLaunch _); [|done]. cbn [negb] in Hpass. by case_match.
Qed.

(** ** Publishing a journal *)

Lemma begin_marks outcome state state' lineage :
  beginGoalSessionLineageMutationLocked outcome state lineage = (state', Ok tt) -> marked state' lineage.
Proof.
  unfold beginGoalSessionLineageMutationLocked, saveGoalSessionLineageIndexLocked. intros Hbegin.
  destruct (negb _); [done|]. destruct (negb _); [done|]. destruct outcome; try done. injection Hbegin as <-.
  intros index. cbn [indexes with_indexes Lineage]. rewrite lookup_insert_eq. intros [= <-] _. done.
Qed.

Lemma begin_keeps_mark outcome state lineage other :
  marked state other -> marked (beginGoalSessionLineageMutationLocked outcome state lineage).1 other.
Proof.
  intros Hmark. unfold beginGoalSessionLineageMutationLocked, saveGoalSessionLineageIndexLocked.
  destruct (negb _); [done|]. destruct (negb _); [done|].
  destruct outcome; [|done|]; intros index; cbn [indexes with_indexes Lineage fst written_under]; rewrite lookup_insert_Some;
    (intros [[_ [= <-]]|[_ Hfile]]; [done|by apply Hmark]).
Qed.

(** The effect of one operation on the journals; [deleted] are the files it
    may delete. *)
Section Operations.
Variable deleted : string -> Prop.

Inductive session_change (files : gmap string session_file) : gmap string session_file -> Prop :=
| change_none : session_change files files
| change_launch journal :
    files !! goalSessionPath (GoalSessionJournal.Key journal) = None -> consumed journal = [] -> fullyClosed journal = false ->
    (forall other, live_in files (GoalSessionJournal.LineageKey journal) other -> False) ->
    session_change files (<[goalSessionPath (GoalSessionJournal.Key journal) := SessionDecodes journal]> files)
| change_evolve before after :
    in_files files before -> evolves before after ->
    session_change files (<[goalSessionPath (GoalSessionJournal.Key before) := SessionDecodes after]> files)
| change_delete journal :
    in_files files journal -> fullyClosed journal = true -> deleted (goalSessionPath (GoalSessionJournal.Key journal)) ->
    session_change files (delete (goalSessionPath (GoalSessionJournal.Key journal)) files).

Lemma live_at_path files lineage journal path content :
  live_in (<[path := content]> files) lineage journal ->
  path = goalSessionPath (GoalSessionJournal.Key journal) /\ content = SessionDecodes journal \/
  path <> goalSessionPath (GoalSessionJournal.Key journal) /\ live_in files lineage journal.
Proof. intros (Hfile & ? & ?). apply lookup_insert_Some in Hfile as [[? ?]|[? ?]]; [by left|by right]. Qed.

(** A lineage that neither the new nor the replaced journal belongs to. *)
Lemma insert_live files lineage journal :
  lineage <> GoalSessionJournal.LineageKey journal ->
  (forall old, files !! goalSessionPath (GoalSessionJournal.Key journal) = Some (SessionDecodes old) ->
     lineage <> GoalSessionJournal.LineageKey old) ->
  forall other, live_in files lineage other <->
    live_in (<[goalSessionPath (GoalSessionJournal.Key journal) := SessionDecodes journal]> files) lineage other.
Proof.
  intros Hne Hold other. split.
  - intros (Hin & Hlin & Hopen). split; [|done]. unfold in_files in *. rewrite lookup_insert_ne; [done|].
    intros Hpath. rewrite <- Hpath in Hin. by apply (Hold _ Hin).
  - intros Hlive. pose proof Hlive as (_ & Hlin & _). by apply live_at_path in Hlive as [[_ [= ->]]|[_ ?]]; [congruence|].
Qed.

(** A journal written under its own name, its lineage and that of the file
    it replaces marked. *)
Lemma insert_inv state journal :
  session_inv state -> GoalSessionJournal.validate journal = true -> settled journal ->
  marked state (GoalSessionJournal.LineageKey journal) ->
  (forall old, state.(sessions) !! goalSessionPath (GoalSessionJournal.Key journal) = Some (SessionDecodes old) ->
     marked state (GoalSessionJournal.LineageKey old)) ->
  (forall other, live_in state.(sessions) (GoalSessionJournal.LineageKey journal) other -> fullyClosed journal = false ->
     goalSessionPath (GoalSessionJournal.Key other) = goalSessionPath (GoalSessionJournal.Key journal)) ->
  session_inv (with_sessions state
    (<[goalSessionPath (GoalSessionJournal.Key journal) := SessionDecodes journal]> state.(sessions))).
Proof.
  intros Hinv Hvalid Hsettled Hmark Hold Halone. apply inv_change; [done| | |].
  - intros path content Hfile. apply lookup_insert_Some in Hfile as [[<- <-]|[_ Hfile]]; [by exists journal|].
    by apply (inv_sessions _ Hinv).
  - intros lineage. destruct (decide (lineage = GoalSessionJournal.LineageKey journal)) as [->|Hne]; [by left|].
    destruct (state.(sessions) !! goalSessionPath (GoalSessionJournal.Key journal)) as [content|] eqn:Hfile.
    + destruct (inv_sessions _ Hinv _ _ Hfile) as (old & -> & _).
      destruct (decide (lineage = GoalSessionJournal.LineageKey old)) as [->|Hne']; [left; by apply Hold|]. right.
      apply insert_live; [done|]. rewrite Hfile. by intros ? [= <-].
    + right. apply insert_live; [done|]. by rewrite Hfile.
  - intros lineage j1 j2 H1 H2. pose proof H1 as (_ & Hlin1 & Hopen1). pose proof H2 as (_ & Hlin2 & Hopen2).
    apply live_at_path in H1 as [[Hp1 [= E1]]|[Hp1 H1]], H2 as [[Hp2 [= E2]]|[Hp2 H2]].
    + congruence.
    + subst j1. destruct Hp2. symmetry. apply Halone; [|done]. by rewrite Hlin1.
    + subst j2. destruct Hp1. symmetry. apply Halone; [|done]. by rewrite Hlin2.
    + by eapply (inv_single _ Hinv).
Qed.

(** What an operation does to the store: the invariant stays, and the
    journals change in one of the four ways. *)
Definition operation (before after : SessionFiles.t) : Prop :=
  session_inv after /\ session_change before.(sessions) after.(sessions) /\ after.(store) = before.(store).

Lemma operation_idle before after :
  session_inv after -> after.(sessions) = before.(sessions) -> after.(store) = before.(store) -> operation before after.
Proof. intros Hinv Hsame Hstore. split; [done|]. split; [|done]. rewrite Hsame. constructor. Qed.

Lemma index_store outcome state index : (saveGoalSessionLineageIndexLocked outcome state index).1.(store) = state.(store).
Proof. unfold saveGoalSessionLineageIndexLocked. case_match; [done|]. by destruct outcome. Qed.

Lemma begin_store outcome state lineage :
  (beginGoalSessionLineageMutationLocked outcome state lineage).1.(store) = state.(store).
Proof. unfold beginGoalSessionLineageMutationLocked. case_match; [done|]. apply index_store. Qed.

Lemma refresh_store scan outcome state lineage :
  (refreshGoalSessionLineageIndexLocked scan outcome state lineage).1.(store) = state.(store).
Proof. unfold refreshGoalSessionLineageIndexLocked. repeat case_match; [done| |done]. apply index_store. Qed.

Lemma check_store fs state lineage : (checkGoalSessionLineageLocked fs state lineage).1.(store) = state.(store).
Proof.
  unfold checkGoalSessionLineageLocked. cbv zeta.
  pose proof (refresh_store fs.(rebuild_scan) fs.(rebuild_write) state lineage) as Hrefresh.
  destruct (refreshGoalSessionLineageIndexLocked _ _ _ _) as [state' [[]|]];
    destruct (loadGoalSessionLineageIndexLocked _ state.(indexes) _) as [index|[]]; try done; by destruct (Dirty index).
Qed.

Lemma begin_idle outcome state lineage :
  session_inv state -> operation state (beginGoalSessionLineageMutationLocked outcome state lineage).1.
Proof. intros Hinv. apply operation_idle; [by apply begin_inv|apply begin_sessions|apply begin_store]. Qed.

Lemma refresh_idle scan outcome state lineage :
  session_inv state -> operation state (refreshGoalSessionLineageIndexLocked scan outcome state lineage).1.
Proof. intros Hinv. apply operation_idle; [by apply refresh_inv|apply refresh_sessions|apply refresh_store]. Qed.

Lemma check_idle fs state lineage :
  session_inv state -> operation state (checkGoalSessionLineageLocked fs state lineage).1.
Proof. intros Hinv. apply operation_idle; [by apply check_inv|apply check_sessions|apply check_store]. Qed.

(** An operation between two that leave the journals alone. *)
Lemma operation_frame s1 s2 s3 s4 :
  s1.(sessions) = s2.(sessions) -> s1.(store) = s2.(store) -> operation s2 s3 ->
  session_inv s4 -> s4.(sessions) = s3.(sessions) -> s4.(store) = s3.(store) -> operation s1 s4.
Proof. intros H1 H1' (_ & Hchange & Hstore) Hinv H4 H4'. split; [done|]. rewrite H1, H4, H1', H4'. done. Qed.

(** A journal committed by [saveGoalSessionJournalLocked]. *)
Lemma save_operation outcome state journal :
  session_inv state -> GoalSessionJournal.validate journal = true ->
  operation state (with_sessions state
    (<[goalSessionPath (GoalSessionJournal.Key journal) := SessionDecodes journal]> state.(sessions))) ->
  operation state (saveGoalSessionJournalLocked outcome state journal).1.
Proof.
  intros Hinv Hvalid Hinsert. unfold saveGoalSessionJournalLocked. rewrite Hvalid. cbn [negb].
  destruct outcome; cbn [written_under fst]; [done| |done]. apply operation_idle; [by destruct state|done|done].
Qed.

Lemma publish_operation fs state journal :
  session_inv state -> GoalSessionJournal.validate journal = true ->
  (forall mid, session_inv mid -> mid.(sessions) = state.(sessions) -> marked mid (GoalSessionJournal.LineageKey journal) ->
     operation mid (with_sessions mid
       (<[goalSessionPath (GoalSessionJournal.Key journal) := SessionDecodes journal]> mid.(sessions)))) ->
  operation state (publish fs state journal).1.
Proof.
  intros Hinv Hvalid Hinsert. unfold publish.
  pose proof (begin_idle fs.(mark_write) state (GoalSessionJournal.LineageKey journal) Hinv) as Hbegin.
  pose proof (begin_sessions fs.(mark_write) state (GoalSessionJournal.LineageKey journal)) as Hsame.
  destruct (beginGoalSessionLineageMutationLocked _ _ _) as [mid [[]|]] eqn:Hmark; [|done].
  apply begin_marks in Hmark. destruct Hbegin as (Hmid & _ & Hstore). cbn [fst] in *.
  pose proof (save_operation fs.(save_write) mid journal Hmid Hvalid (Hinsert mid Hmid Hsame Hmark)) as Hsave.
  destruct (saveGoalSessionJournalLocked _ _ _) as [saved [[]|]]; cbn [fst] in *.
  - eapply operation_frame; [by symmetry|by symmetry|exact Hsave|apply refresh_inv, Hsave|apply refresh_sessions|apply refresh_store].
  - eapply operation_frame; [by symmetry|by symmetry|exact Hsave|apply Hsave|done|done].
Qed.

Lemma load_key readable state key journal :
  session_inv state -> LoadGoalSession readable state key = Ok journal ->
  in_files state.(sessions) journal /\ settled journal /\ GoalSessionJournal.validate journal = true /\
  goalSessionPath key = goalSessionPath (GoalSessionJournal.Key journal).
Proof.
  intros Hinv. unfold LoadGoalSession. intros Hload. inv_ok. apply load_session in Hload as (Hfile & Hvalid & Hpath).
  destruct (inv_sessions _ Hinv _ _ Hfile) as (? & [= <-] & _ & _ & Hsettled). unfold in_files. by rewrite <- Hpath.
Qed.

(** A mutation commits a successor of the journal it loaded. *)
Lemma mutate_operation fs state key m :
  session_inv state -> operation state (mutateGoalSession fs state key (session_callback m)).1.
Proof.
  intros Hinv. unfold mutateGoalSession. destruct (rbind _ _) as [after|] eqn:Hrun; [|by apply operation_idle].
  apply rbind_ok in Hrun as (before & Hload & Hrun). apply load_key in Hload as (Hin & Hsettled & _ & _); [|done].
  destruct (session_callback_frame _ _ _ Hsettled Hrun) as [Hevolves Hlineage Hsettled'].
  destruct (GoalSessionJournal.validate after) eqn:Hvalid; [|by apply operation_idle]. cbn [negb].
  pose proof (evolves_key _ _ Hevolves) as Hkey. apply publish_operation; [done..|].
  intros mid Hmid Hsame Hmark. split; [|split; [|done]]; cbn [sessions with_sessions].
  - apply insert_inv; [done..| |].
    + rewrite Hsame, Hkey. unfold in_files in Hin. rewrite Hin. intros old [= <-]. by rewrite <- Hlineage.
    + rewrite Hsame, Hlineage. intros other Hother Hopen. rewrite Hkey. f_equal. f_equal.
      apply (inv_single _ Hinv (GoalSessionJournal.LineageKey before)); [done|]. split; [done|]. split; [done|].
      destruct (fullyClosed before) eqn:Hclosed; [|done]. by rewrite (evolves_closed _ _ Hevolves Hclosed), Hclosed in Hopen.
  - rewrite Hsame, Hkey. by apply change_evolve.
Qed.

Lemma launch_operation fs newLaunchID newHandleID now state launch :
  session_inv state -> operation state (SaveGoalSessionLaunchIntent fs newLaunchID newHandleID now state launch).1.
Proof.
  intros Hinv. unfold SaveGoalSessionLaunchIntent. destruct (rbind _ _) as [normal|]; [|by apply operation_idle].
  destruct (loadGoalSessionPathLocked _ _ _) as [existing|[]] eqn:Hload; try by apply operation_idle.
  assert (state.(sessions) !! goalSessionPath (GoalSessionLaunchIntent.Key normal) = None) as Hnone.
  { unfold loadGoalSessionPathLocked in Hload. destruct (state.(sessions) !! _) as [[]|]; [|by case_match|done].
    by repeat case_match. }
  unfold ensureLocalHandleAvailableLocked.
  pose proof (check_idle fs.(guard_io) state (GoalSessionLaunchIntent.LineageKey normal) Hinv) as Hidle.
  pose proof (check_sessions fs.(guard_io) state (GoalSessionLaunchIntent.LineageKey normal)) as Hsame.
  destruct (checkGoalSessionLineageLocked _ _ _) as [checked status] eqn:Hcheck. cbn [fst] in *.
  destruct (rbind status _) as [[]|] eqn:Hguard; [|done].
  destruct (GoalSessionJournal.validate (launchJournal normal now)) eqn:Hvalid; [|done]. cbn [negb].
  apply rbind_ok in Hguard as (answer & -> & Hguard). inv_ok. match goal with u : unit |- _ => destruct u end.
  pose proof (barrier_free _ _ _ _ _ Hinv Hcheck E) as Hfree.
  destruct Hidle as (Hchecked & _ & Hstore).
  assert (operation checked (publish fs checked (launchJournal normal now)).1) as Hpublish.
  { apply publish_operation; [done..|]. intros mid Hmid Hsame' Hmark. rewrite Hsame in Hsame'. split; [|split; [|done]].
    - apply insert_inv; [done..| |].
      + rewrite Hsame'. intros old Hold.
        change (state.(sessions) !! goalSessionPath (GoalSessionLaunchIntent.Key normal) = Some (SessionDecodes old)) in Hold.
        congruence.
      + rewrite Hsame'. intros other Hother _. destruct (Hfree _ Hother).
    - cbn [sessions with_sessions]. rewrite Hsame'. by apply change_launch. }
  eapply operation_frame; [by symmetry|by symmetry|exact Hpublish|apply Hpublish|done|done].
Qed.

(** Both lineages of a rebind are marked before the journal is written. *)
Lemma markBoth_marks fs state state' previous target :
  session_inv state -> markBoth fs state previous target = (state', Ok tt) ->
  marked state' previous /\ marked state' target.
Proof.
  intros Hinv. unfold markBoth.
  destruct (beginGoalSessionLineageMutationLocked fs.(mark_write) state previous) as [mid [[]|]] eqn:Hfirst; [|done].
  apply begin_marks in Hfirst. case_bool_decide as Heq; [by intros [= <-]; subst|]. intros Hsecond.
  pose proof (begin_keeps_mark fs.(target_mark_write) mid target previous Hfirst) as Hkeeps. rewrite Hsecond in Hkeeps.
  split; [done|]. by eapply begin_marks.
Qed.

Lemma operation_trans s1 s2 s3 :
  operation s1 s2 -> s2.(sessions) = s1.(sessions) -> operation s2 s3 -> operation s1 s3.
Proof. intros (_ & _ & Hst) Hsame (? & Hchange & Hst'). split; [done|]. rewrite Hsame in Hchange. split; [done|congruence]. Qed.

Lemma markBoth_idle fs state previous target :
  session_inv state -> operation state (markBoth fs state previous target).1 /\
  (markBoth fs state previous target).1.(sessions) = state.(sessions).
Proof.
  intros Hinv. unfold markBoth.
  pose proof (begin_idle fs.(mark_write) state previous Hinv) as Hfirst.
  pose proof (begin_sessions fs.(mark_write) state previous) as Hsame.
  destruct (beginGoalSessionLineageMutationLocked fs.(mark_write) state previous) as [mid [[]|]]; cbn [fst] in *; [|done].
  case_bool_decide; [done|]. pose proof (begin_sessions fs.(target_mark_write) mid target) as Hsame'.
  split; [|congruence]. eapply operation_trans; [done..|]. apply begin_idle, Hfirst.
Qed.

Lemma refreshBoth_idle fs state previous target :
  session_inv state -> operation state (refreshBoth fs state previous target) /\
  (refreshBoth fs state previous target).(sessions) = state.(sessions).
Proof.
  intros Hinv. unfold refreshBoth. cbv zeta.
  pose proof (refresh_idle fs.(refresh_scan) fs.(refresh_write) state previous Hinv) as Hfirst.
  pose proof (refresh_sessions fs.(refresh_scan) fs.(refresh_write) state previous) as Hsame.
  case_bool_decide; [done|]. rewrite refresh_sessions. split; [|done].
  eapply operation_trans; [done..|]. apply refresh_idle, Hfirst.
Qed.

(** The guard of a rebind: the session moves within its lineage, or to one
    that is free. *)
Lemma rebindTarget_spec fs state previous target :
  session_inv state -> operation state (rebindTarget fs state previous target).1 /\
  (rebindTarget fs state previous target).1.(sessions) = state.(sessions) /\
  ((rebindTarget fs state previous target).2 = Ok tt ->
     target = previous \/ forall journal, live_in state.(sessions) target journal -> False).
Proof.
  intros Hinv. unfold rebindTarget. case_bool_decide; [by split; [apply operation_idle|auto]|].
  pose proof (check_idle fs.(guard_io) state target Hinv) as Hidle.
  pose proof (check_sessions fs.(guard_io) state target) as Hsame.
  destruct (checkGoalSessionLineageLocked _ _ _) as [checked [status|]] eqn:Hcheck; cbn [fst snd rbind] in *; [|done].
  split; [done|]. split; [done|]. intros Hpass. right. by eapply barrier_free.
Qed.

Lemma rebindPublish_operation fs now state journal rebind :
  session_inv state -> in_files state.(sessions) journal -> validateResumeSource rebind journal = Ok tt ->
  operation state (rebindPublish fs now state journal rebind).1.
Proof.
  intros Hinv Hin Hsource. unfold rebindPublish. cbv zeta.
  destruct (rebindTarget_spec fs state (GoalSessionJournal.LineageKey journal) (targetLineage rebind journal) Hinv)
    as (Hchecked & Hsame & Hfree).
  destruct (rebindTarget _ _ _ _) as [checked [[]|]]; cbn [fst snd] in *; [|done]. specialize (Hfree eq_refl).
  destruct (markBoth_idle fs checked (GoalSessionJournal.LineageKey journal) (targetLineage rebind journal)
    (proj1 Hchecked)) as [Hmarked Hsame'].
  destruct (markBoth _ _ _ _) as [mid outcome] eqn:Hmark. cbn [fst] in *.
  assert (operation state mid) as Hmid by by eapply operation_trans.
  assert (mid.(sessions) = state.(sessions)) as Hsessions by congruence.
  destruct outcome as [[]|]; [|done]. apply markBoth_marks in Hmark as [Hprevious Htarget]; [|apply Hchecked].
  destruct (applyRebind _ _ _) as [rebound|] eqn:Hrebind; [|done].
  destruct (applyRebind_evolves _ _ _ _ Hsource Hrebind) as (Hevolves & Hsettled & Hlineage & _).
  destruct (GoalSessionJournal.validate rebound) eqn:Hvalid; [|done]. cbn [negb].
  pose proof (evolves_key _ _ Hevolves) as Hkey.
  assert (operation mid (saveGoalSessionJournalLocked fs.(save_write) mid rebound).1) as Hsave.
  { apply save_operation; [apply Hmid|done|]. split; [|split; [|done]]; cbn [sessions with_sessions].
    - apply insert_inv; [apply Hmid|done|done|by rewrite Hlineage| |].
      + rewrite Hsessions, Hkey. unfold in_files in Hin. rewrite Hin. intros old Hold. injection Hold as <-. exact Hprevious.
      + rewrite Hsessions, Hlineage. intros other Hother _. rewrite Hkey. f_equal. f_equal.
        destruct Hfree as [Heq|Hfree]; [|destruct (Hfree _ Hother)]. rewrite Heq in Hother.
        apply (inv_single _ Hinv (GoalSessionJournal.LineageKey journal)); [done|]. split; [done|]. split; [done|].
        by eapply source_open.
    - rewrite Hsessions, Hkey. by apply change_evolve. }
  destruct (saveGoalSessionJournalLocked _ _ _) as [saved [[]|]]; cbn [fst] in *; [|by eapply operation_trans].
  destruct (refreshBoth_idle fs saved (GoalSessionJournal.LineageKey journal) (targetLineage rebind journal)
    (proj1 Hsave)) as [Hrefresh Hsame''].
  eapply operation_frame; [by symmetry|symmetry; apply Hmid|exact Hsave|apply Hrefresh|done|apply Hrefresh].
Qed.

Lemma rebind_operation fs now state key rebind :
  session_inv state -> operation state (RebindGoalSessionForResume fs now state key rebind).1.
Proof.
  intros Hinv. unfold RebindGoalSessionForResume.
  match goal with |- context [match ?e with Ok _ => _ | Err _ => _ end] => destruct e as [journal|] eqn:Hload end;
    [|by apply operation_idle].
  inv_ok. apply load_key in Hload as (Hin & _); [|done].
  destruct (resumeTargetConflicts _ _); [by apply operation_idle|].
  destruct (sameResumeTarget _ _); [by apply operation_idle|].
  destruct (validateResumeSource _ _) as [[]|] eqn:Hsource; [|by apply operation_idle]. by apply rebindPublish_operation.
Qed.

Lemma delete_live files journal lineage other :
  in_files files journal -> fullyClosed journal = true ->
  live_in (delete (goalSessionPath (GoalSessionJournal.Key journal)) files) lineage other <-> live_in files lineage other.
Proof.
  intros Hin Hclosed. unfold live_in, in_files in *. rewrite lookup_delete_Some. split; [tauto|].
  intros (Hfile & Hlin & Hopen). split; [|done]. split; [|done]. intros Hpath. rewrite <- Hpath, Hin in Hfile. congruence.
Qed.

Lemma remove_operation outcome state key journal :
  session_inv state -> in_files state.(sessions) journal -> fullyClosed journal = true ->
  goalSessionPath key = goalSessionPath (GoalSessionJournal.Key journal) -> deleted (goalSessionPath key) ->
  operation state (removeSession outcome state key).1.
Proof.
  intros Hinv Hin Hclosed Hpath Hdeleted.
  assert (operation state (with_sessions state (delete (goalSessionPath key) state.(sessions)))) as Hremove.
  { rewrite Hpath in *. split; [|split; [by apply change_delete|done]]. apply inv_change; [done| | |].
    - intros path content [_ Hfile]%lookup_delete_Some. by apply (inv_sessions _ Hinv).
    - intros lineage. right. intros other. by rewrite delete_live.
    - intros lineage j1 j2. rewrite !delete_live by done. apply (inv_single _ Hinv). }
  unfold removeSession. destruct outcome; try done. by apply operation_idle.
Qed.

Lemma delete_operation fs state key :
  session_inv state -> deleted (goalSessionPath key) -> operation state (DeleteGoalSession fs state key).1.
Proof.
  intros Hinv Hdeleted. unfold DeleteGoalSession. destruct (rbind _ _) as [journal|] eqn:Hload; [|by apply operation_idle].
  inv_ok. subst. apply load_key in E as (Hin & Hsettled & _ & Hpath); [|done].
  assert (fullyClosed journal = true) as Hclosed.
  { apply Hsettled. unfold isClosed. apply andb_false_iff in E1 as [Hs|Hs]; apply negb_false_iff in Hs; rewrite Hs; [apply orb_true_r|done]. }
  pose proof (begin_idle fs.(mark_write) state (GoalSessionJournal.LineageKey journal) Hinv) as Hbegin.
  pose proof (begin_sessions fs.(mark_write) state (GoalSessionJournal.LineageKey journal)) as Hsame. cbv zeta.
  destruct (beginGoalSessionLineageMutationLocked _ _ _) as [mid [[]|]]; cbn [fst] in *; [|done].
  assert (in_files mid.(sessions) journal) as Hin' by by rewrite Hsame.
  pose proof (remove_operation fs.(removal) mid key journal (proj1 Hbegin) Hin' Hclosed Hpath Hdeleted) as Hremove.
  destruct (removeSession _ _ _) as [removed [[]|]]; cbn [fst] in *; [|by eapply operation_trans].
  eapply operation_frame; [by symmetry|symmetry; apply Hbegin|exact Hremove|apply refresh_inv, Hremove|apply refresh_sessions|apply refresh_store].
Qed.

End Operations.

(** The session file a request deletes. *)
Definition deletes (call : session_io * session_request) (path : string) : Prop :=
  match call.2 with SessionDelete key => path = goalSessionPath key | _ => False end.

Lemma session_execute_operation state call :
  session_inv state -> operation (deletes call) state (session_execute state call).
Proof.
  intros Hinv. destruct call as [fs request]. destruct request as [id1 id2 now launch|key m|now key rebind|key|lineage]; cbn [session_execute].
  - by apply launch_operation.
  - destruct (session_method_mutates m fs state key) as [[e ->]| ->]; [by apply operation_idle|by apply mutate_operation].
  - by apply rebind_operation.
  - by apply delete_operation.
  - unfold CheckGoalSessionLineage. case_match; [by apply check_idle|by apply operation_idle].
Qed.

Lemma session_start_inv store : session_inv (session_start store).
Proof.
  split; cbn [session_start sessions indexes].
  - intros path content Hfile. by rewrite lookup_empty in Hfile.
  - apply map_Forall_empty.
  - intros lineage j1 j2 (Hin & _) _. unfold in_files in Hin. by rewrite lookup_empty in Hin.
Qed.

Lemma session_run_inv state trace : session_inv state -> session_inv (session_run state trace).
Proof.
  revert state. induction trace as [|call trace IH]; intros state Hinv; [done|]. apply IH.
  by apply session_execute_operation.
Qed.

(** ** The properties *)

(** The rebuilt index of a lineage is valid: it has one entry at most, and
    the entry of a valid journal is valid. *)
Lemma entry_valid journal :
  GoalSessionJournal.validate journal = true -> fullyClosed journal = false -> goalSessionLineageEntry.valid (entryFor journal) = true.
Proof.
  unfold GoalSessionJournal.validate, GoalSessionJournal.validShape, GoalSessionLaunchIntent.validate. intros Hvalid Hopen.
  rewrite !andb_true_iff in Hvalid. destruct Hvalid as [[[Hshape _] _] _]. unfold goalSessionLineageEntry.valid, entryFor.
  cbn [goalSessionLineageEntry.SessionKey goalSessionLineageEntry.State goalSessionLineageEntry.UpdatedAt].
  change (GoalSessionJournal.Key journal) with (GoalSessionLaunchIntent.Key journal.(intent)).
  assert (validateGoalSessionKey (GoalSessionLaunchIntent.Key journal.(intent)) = true /\ IsZero journal.(UpdatedAt) = false) as [-> ->]
    by (rewrite !negb_true_iff in Hshape; tauto).
  cbn [andb negb]. rewrite andb_true_r. unfold goalSessionLineageStateForJournal. rewrite Hopen. by repeat case_match.
Qed.

Lemma entries_valid state lineage l :
  session_inv state -> is_listing state.(sessions) l -> validateGoalSessionLineageKey lineage = true ->
  goalSessionLineageIndex.validate (goalSessionLineageIndex.mk goalSessionLineageSchemaVersion lineage false (lineageEntries lineage l)) = true.
Proof.
  intros Hinv [Hnodup Hl] Hlineage. unfold goalSessionLineageIndex.validate.
  cbn [goalSessionLineageIndex.SchemaVersion goalSessionLineageIndex.Lineage goalSessionLineageIndex.Entries].
  rewrite Z.eqb_refl, Hlineage. unfold lineageEntries.
  assert (forall journal, journal ∈ List.filter (blocksLineage lineage) l -> live_in state.(sessions) lineage journal) as Hlive.
  { intros journal. rewrite elem_of_filterb, Hl, blocks_iff. unfold live_in. tauto. }
  assert (NoDup (List.filter (blocksLineage lineage) l)) as Hnd by by apply NoDup_ListNoDup, List.NoDup_filter, NoDup_ListNoDup.
  destruct (List.filter (blocksLineage lineage) l) as [|first [|second rest]]; [done| |].
  - assert (goalSessionLineageEntry.valid (entryFor first) = true) as Hentry.
    { destruct (Hlive first) as (Hin & _ & Hopen); [by apply list_elem_of_here|]. apply entry_valid; [|done].
      destruct (inv_sessions _ Hinv _ _ Hin) as (? & [= <-] & ? & _). done. }
    change (sort_by goalSessionLineageEntry.SessionKey (map entryFor [first])) with [entryFor first].
    cbn [goalSessionLineageIndex.distinct_valid]. rewrite Hentry. done.
  - exfalso. apply NoDup_cons in Hnd as [Hnotin _]. apply Hnotin.
    rewrite (inv_single _ Hinv lineage first second); [by apply list_elem_of_here|apply Hlive; set_solver|apply Hlive; set_solver].
Qed.

Lemma load_index_ok files lineage index :
  validateGoalSessionLineageKey lineage = true -> files !! goalSessionLineagePath lineage = Some (IndexDecodes index) ->
  goalSessionLineageIndex.validate index = true -> index.(Lineage) = lineage ->
  loadGoalSessionLineageIndexLocked true files lineage = Ok index.
Proof.
  intros Hlineage Hfile Hvalid Hsame. unfold loadGoalSessionLineageIndexLocked.
  rewrite Hlineage, Hfile, Hvalid, Hsame, bool_decide_true, String.eqb_refl by done. done.
Qed.

(** With working files the query returns, unless another lineage holds the
    name of the index. *)
Lemma check_answers state lineage l :
  session_inv state -> is_listing state.(sessions) l -> validateGoalSessionLineageKey lineage = true ->
  (forall index, state.(indexes) !! goalSessionLineagePath lineage = Some (IndexDecodes index) -> index.(Lineage) = lineage) ->
  exists state', checkGoalSessionLineageLocked index_ok state lineage = (state', Ok (scanned_status lineage l)).
Proof.
  intros Hinv Hl Hlineage Hname. unfold checkGoalSessionLineageLocked. cbv zeta. cbn [index_readable index_ok rebuild_scan rebuild_write rebuilt_readable].
  assert (refreshGoalSessionLineageIndexLocked scan_ok WriteOK state lineage =
    (with_indexes state (<[goalSessionLineagePath lineage := IndexDecodes (goalSessionLineageIndex.mk
       goalSessionLineageSchemaVersion lineage false (lineageEntries lineage l))]> state.(indexes)), Ok tt)) as Hrefresh.
  { unfold refreshGoalSessionLineageIndexLocked. rewrite Hlineage. cbn [negb].
    destruct (listing_ok _ (inv_sessions _ Hinv)) as [l' Hl']. rewrite Hl'. apply listing_spec in Hl'; [|apply Hinv].
    rewrite (listing_entries lineage _ _ _ Hl' Hl). unfold saveGoalSessionLineageIndexLocked.
    by rewrite (entries_valid _ _ _ Hinv Hl Hlineage). }
  rewrite Hrefresh, (load_index_ok (indexes (with_indexes _ _)) lineage (goalSessionLineageIndex.mk goalSessionLineageSchemaVersion
    lineage false (lineageEntries lineage l))) by (first [done|apply lookup_insert_eq|by eapply entries_valid]).
  destruct (state.(indexes) !! goalSessionLineagePath lineage) as [content|] eqn:Hfile.
  - destruct (inv_indexes _ Hinv _ _ Hfile) as (index & -> & Hvalid & Hpath & Hclean).
    pose proof (Hname index eq_refl) as Hsame. rewrite (load_index_ok _ _ _ Hlineage Hfile Hvalid Hsame).
    destruct (Dirty index) eqn:Hdirty; [by eexists|]. exists state. f_equal. f_equal.
    unfold scanned_status, goalSessionLineageStatus. cbn [Entries Lineage]. by rewrite (Hclean eq_refl l Hl), Hsame.
  - unfold loadGoalSessionLineageIndexLocked. rewrite Hlineage, Hfile. by eexists.
Qed.

(** C6: the index is only an acceleration. After every sequence of launches,
    mutations, rebinds, deletions and queries, whatever reads and writes
    failed on the way, a lineage query that answers gives the status a scan
    of the session journals gives; and with working files it does answer,
    unless the file of the index belongs to another lineage. *)
Theorem lineage_query_matches_scan store trace lineage :
  let state := session_run (session_start store) trace in
  exists journals, listGoalSessionsLocked scan_ok state.(sessions) = Ok journals /\
  (forall fs state' status, CheckGoalSessionLineage fs state lineage = (state', Ok status) ->
     status = scanned_status lineage journals) /\
  (validateGoalSessionLineageKey lineage = true -> ensureOpenLocked state.(SessionFiles.store) = Ok tt ->
   (forall index, state.(indexes) !! goalSessionLineagePath lineage = Some (IndexDecodes index) -> index.(Lineage) = lineage) ->
   exists state', CheckGoalSessionLineage index_ok state lineage = (state', Ok (scanned_status lineage journals))).
Proof.
  intros state. assert (session_inv state) as Hinv by apply session_run_inv, session_start_inv.
  destruct (listing_ok _ (inv_sessions _ Hinv)) as [journals Hlist]. exists journals. split; [done|].
  apply listing_spec in Hlist; [|apply Hinv]. unfold CheckGoalSessionLineage. split.
  - intros fs state' status Hcheck. case_match; [|done]. by eapply check_status.
  - intros Hlineage Hopen Hname. rewrite Hlineage, Hopen. cbn [negb]. by apply check_answers.
Qed.

(** C4: retries never run side by side. After every sequence of requests,
    two sessions of one Goal, work item and task that are both not closed are
    the same session. *)
Theorem one_live_session_per_lineage store trace key1 key2 j1 j2 :
  let state := session_run (session_start store) trace in
  LoadGoalSession true state key1 = Ok j1 -> LoadGoalSession true state key2 = Ok j2 ->
  GoalSessionJournal.LineageKey j1 = GoalSessionJournal.LineageKey j2 ->
  fullyClosed j1 = false -> fullyClosed j2 = false -> j1 = j2.
Proof.
  intros state Hload1 Hload2 Hlineage Hopen1 Hopen2.
  assert (session_inv state) as Hinv by apply session_run_inv, session_start_inv.
  apply load_key in Hload1 as (Hin1 & _); [|done]. apply load_key in Hload2 as (Hin2 & _); [|done].
  by apply (inv_single _ Hinv (GoalSessionJournal.LineageKey j2)).
Qed.

(** A request that does not delete the file of a session leaves a successor
    of its journal there. *)
Lemma change_kept deleted files files' journal :
  sessions_ok files -> session_change deleted files files' -> in_files files journal ->
  ~ deleted (goalSessionPath (GoalSessionJournal.Key journal)) ->
  exists journal', in_files files' journal' /\ evolves journal journal'.
Proof.
  intros Hok Hchange Hin Hkept. unfold in_files in *. destruct Hchange as [|fresh Hnone|before after Hbefore Hevolves|gone Hgone ? Hdeleted].
  - by exists journal.
  - exists journal. split; [|done]. rewrite lookup_insert_ne; [done|]. intros Hpath. congruence.
  - destruct (decide (goalSessionPath (GoalSessionJournal.Key before) = goalSessionPath (GoalSessionJournal.Key journal))) as [Hpath|Hne].
    + assert (journal = before) as -> by (rewrite <- Hpath, Hbefore in Hin; by injection Hin).
      exists after. rewrite (evolves_key _ _ Hevolves), lookup_insert_eq. done.
    + exists journal. by rewrite lookup_insert_ne.
  - exists journal. split; [|done]. rewrite lookup_delete_ne; [done|]. intros Hpath. by rewrite Hpath in Hdeleted.
Qed.

Lemma run_kept key state trace journal :
  session_inv state -> in_files state.(sessions) journal -> goalSessionPath (GoalSessionJournal.Key journal) = goalSessionPath key ->
  Forall (fun call => ~ deletes call (goalSessionPath key)) trace ->
  exists journal', in_files (session_run state trace).(sessions) journal' /\ evolves journal journal' /\
    (session_run state trace).(SessionFiles.store) = state.(SessionFiles.store).
Proof.
  revert state journal. induction trace as [|call trace IH]; intros state journal Hinv Hin Hpath Hkept; [by exists journal|].
  apply Forall_cons_1 in Hkept as [Hcall Hkept].
  destruct (session_execute_operation state call Hinv) as (Hinv' & Hchange & Hstore). rewrite <- Hpath in Hcall.
  destruct (change_kept _ _ _ _ (inv_sessions _ Hinv) Hchange Hin Hcall) as (next & Hnext & Hevolves).
  destruct (IH _ next Hinv' Hnext) as (final & Hfinal & Hevolves' & Hstore'); [by rewrite (evolves_key _ _ Hevolves)|done|].
  exists final. split; [done|]. split; [by etrans|]. exact (eq_trans Hstore' Hstore).
Qed.

(** C26: a session on disk stays until it is deleted, whatever reads and
    writes fail. Its successor has the same key, creation time, launch,
    harness, workspace and owner, an epoch of the runtime that is no older,
    the same original attachment once it has one, and a history of consumed
    stop certificates that only grows; a closed session does not change. *)
Theorem session_is_kept store trace trace' key journal :
  let state := session_run (session_start store) trace in
  LoadGoalSession true state key = Ok journal ->
  Forall (fun call => ~ deletes call (goalSessionPath key)) trace' ->
  exists journal', LoadGoalSession true (session_run state trace') key = Ok journal' /\ evolves journal journal'.
Proof.
  intros state Hload Hkept. assert (session_inv state) as Hinv by apply session_run_inv, session_start_inv.
  pose proof (load_key _ _ _ _ Hinv Hload) as (Hin & _ & _ & Hpath).
  destruct (run_kept key state trace' journal Hinv Hin (eq_sym Hpath) Hkept) as (journal' & Hin' & Hevolves & Hstore).
  exists journal'. split; [|done]. unfold LoadGoalSession in *. inv_ok. rewrite Hstore, E, E0. cbn [negb rbind].
  apply load_session_ok; [apply session_run_inv; apply Hinv|]. unfold in_files in Hin'.
  by rewrite Hpath, <- (evolves_key _ _ Hevolves).
Qed.

Lemma load_readable readable state key journal :
  LoadGoalSession readable state key = Ok journal -> LoadGoalSession true state key = Ok journal.
Proof.
  unfold LoadGoalSession, loadGoalSessionPathLocked. intros Hload. inv_ok. rewrite E, E0. cbn [rbind].
  destruct (state.(sessions) !! _) as [content|]; [|done]. destruct readable; [done|discriminate Hload].
Qed.

(** A rebind with a certificate in the history changes no journal. *)
Lemma rebindPublish_consumed fs now state journal rebind :
  session_inv state -> rebind.(GoalSessionResumeRebind.ExactStopCertificate) ∈ consumed journal ->
  validateResumeSource rebind journal = Ok tt ->
  (rebindPublish fs now state journal rebind).1.(sessions) = state.(sessions) /\
  exists e, (rebindPublish fs now state journal rebind).2 = Err e.
Proof.
  intros Hinv Hconsumed Hsource. unfold rebindPublish. cbv zeta.
  destruct (rebindTarget_spec (fun _ => False) fs state (GoalSessionJournal.LineageKey journal) (targetLineage rebind journal) Hinv)
    as (Hchecked & Hsame & _).
  destruct (rebindTarget _ _ _ _) as [checked [[]|]]; cbn [fst snd] in *; [|by eauto].
  destruct (markBoth_idle (fun _ => False) fs checked (GoalSessionJournal.LineageKey journal) (targetLineage rebind journal)
    (proj1 Hchecked)) as [_ Hsame'].
  destruct (markBoth _ _ _ _) as [mid [[]|]]; cbn [fst snd] in *; [|split; [congruence|eauto]].
  destruct (applyRebind _ _ _) as [rebound|] eqn:Hrebind; [|split; [cbn; congruence|cbn; eauto]].
  destruct (applyRebind_evolves _ _ _ _ Hsource Hrebind) as (_ & _ & _ & Hfresh & _). done.
Qed.

(** C28: a stop certificate is consumed once. When it is in the history of a
    session, then after every later sequence of requests that does not delete
    the session a rebind that presents it again writes no journal, whatever
    run it names: it fails, or it is the replay that returns the journal on
    disk. *)
Theorem stop_certificate_is_consumed_once store trace trace' key journal fs now rebind :
  let state := session_run (session_start store) trace in
  let later := session_run state trace' in
  LoadGoalSession true state key = Ok journal ->
  rebind.(GoalSessionResumeRebind.ExactStopCertificate) ∈ consumed journal ->
  Forall (fun call => ~ deletes call (goalSessionPath key)) trace' ->
  (RebindGoalSessionForResume fs now later key rebind).1.(sessions) = later.(sessions) /\
  forall journal', (RebindGoalSessionForResume fs now later key rebind).2 = Ok journal' ->
    LoadGoalSession true later key = Ok journal'.
Proof.
  intros state later Hload Hconsumed Hkept. assert (session_inv state) as Hinv by apply session_run_inv, session_start_inv.
  pose proof (load_key _ _ _ _ Hinv Hload) as (Hin & _ & _ & Hpath).
  destruct (run_kept key state trace' journal Hinv Hin (eq_sym Hpath) Hkept) as (current & Hin' & Hevolves & Hstore).
  fold later in Hin', Hstore. assert (session_inv later) as Hinv' by by apply session_run_inv.
  assert (rebind.(GoalSessionResumeRebind.ExactStopCertificate) ∈ consumed current) as Hconsumed'
    by (destruct (evolves_history _ _ Hevolves) as [rest ->]; apply elem_of_app; by left).
  unfold RebindGoalSessionForResume.
  match goal with |- context [match ?e with Ok _ => _ | Err _ => _ end] => destruct e as [loaded|] eqn:Hloaded end; [|done].
  inv_ok. assert (loaded = current) as ->.
  { unfold LoadGoalSession in Hloaded. inv_ok. apply load_session in Hloaded as (Hfile & _ & _). unfold in_files in Hin'.
    rewrite (evolves_key _ _ Hevolves), <- Hpath, Hfile in Hin'. by injection Hin'. }
  pose proof (load_readable _ _ _ _ Hloaded) as Hreload.
  destruct (resumeTargetConflicts _ _); [done|].
  destruct (sameResumeTarget _ _); [split; [done|]; cbn [snd]; intros journal' Hrun; inv_ok; by subst|].
  destruct (validateResumeSource _ _) as [[]|] eqn:Hsource; [|done].
  destruct (rebindPublish_consumed fs now later current rebind Hinv' Hconsumed' Hsource) as [Hsame [e He]].
  split; [done|]. intros journal' Hrun. congruence.
Qed.
