(* ===== verification/SessionClosing.v ===== *)
(** * SessionClosing: a session can always be brought to an end

    Whatever state a valid session journal is in, one operation of the store
    closes it: the abort of a launch that did not start, the reconciliation
    of an uncertain one as stopped, the close of an attached one. *)

From S2P Require Import Prelude Sha256 Json Authority Protocol Journal Validation Store Session SessionOps LateUsage.
From S2P Require Import SessionStore SessionSteps SessionProps.
Import GoalSessionJournal.
Import SessionFiles (store, sessions, indexes, with_sessions, with_indexes).
Open Scope string_scope.
Open Scope Z_scope.

(** A journal that holds no native handle, attachment or stop certificate. *)
Record handle_free (journal : GoalSessionJournal.t) : Prop := {
  free_native : journal.(NativeSessionID) = "" /\ journal.(NativeSessionFilename) = "";
  free_control : journal.(ControlSessionID) = "" /\ journal.(ControlAttachmentReceiptID) = "";
  free_stop : journal.(StopCertificate) = None;
  free_resume : journal.(ResumeStartPending) = false /\ journal.(ResumeNativeStopKnown) = false /\ journal.(ResumeTerminalReason) = ""
}.

(** What a closing operation leaves of the journal. *)
Definition closing_frame (journal : GoalSessionJournal.t) :=
  (journal.(intent), journal.(SchemaVersion), journal.(LaunchAttempted), journal.(LaunchAttemptedAt),
   journal.(ControlAttachmentLineage), journal.(ResumeSourceStopCertificate), journal.(ConsumedStopCertificates), journal.(CreatedAt)).

Lemma closed_valid before after :
  GoalSessionJournal.validate before = true -> closing_frame after = closing_frame before -> handle_free after ->
  fullyClosed after = true -> after.(RecoveryRequired) = false -> after.(UncertainReason) = "" -> IsZero after.(UpdatedAt) = false ->
  GoalSessionJournal.validate after = true.
Proof.
  intros Hvalid Hframe [[Hn Hf] [Hc Hr] Hs (Hp & Hk & Ht)] Hclosed Hrec Hreason Hnow.
  apply andb_true_iff in Hclosed as [Hlaunch%String.eqb_eq Hstate%String.eqb_eq].
  unfold closing_frame in Hframe. destruct before, after. cbn in *. simplify_eq.
  unfold GoalSessionJournal.validate, validShape, validLaunch, validAttachment, validCertificates, NeedsReconciliation in *.
  cbn in *. rewrite !andb_true_iff in *. rewrite Hnow.
  split_and!; first [tauto|reflexivity|by rewrite andb_false_r|idtac].
  match goal with |- none_or ?o _ = true => destruct o end; [|done]. cbn [none_or] in *. rewrite !andb_true_iff in *. tauto.
Qed.

(** A journal that is not attached holds none of them. *)
Lemma unattached_free journal :
  GoalSessionJournal.validate journal = true -> (journal.(LaunchState) =s GoalSessionLaunchStateAttached) = false -> handle_free journal.
Proof.
  unfold GoalSessionJournal.validate, validLaunch, validAttachment, validCertificates, HasKnownRetainedResumeNativeStop. cbv zeta.
  intros Hvalid Hnot. rewrite Hnot in Hvalid.
  rewrite !andb_true_iff in Hvalid. destruct Hvalid as [[[_ (_ & Hnative)] (Hcontrol & _)] Hcert].
  destruct Hcert as [[[[_ Hpending] Hknown] Hreason] Hstop].
  repeat (rewrite ?andb_false_r, ?andb_false_l, ?orb_true_r, ?andb_true_r, ?orb_true_l in *; cbn [negb andb orb] in *).
  rewrite ?andb_true_r, ?negb_true_iff, ?negb_involutive in *. breflect. split; [done..| |done].
  destruct (StopCertificate journal) as [certificate|]; [|done]. exfalso. cbn [none_or] in Hstop. unfold GoalSessionStopCertificate.valid in Hstop.
  breflect.
  match goal with
  | Hu : validGoalSessionUUID certificate.(GoalSessionStopCertificate.SessionID) = true,
    Hs : journal.(ControlSessionID) = certificate.(GoalSessionStopCertificate.SessionID),
    Hz : journal.(ControlSessionID) = "" |- _ => rewrite <- Hs, Hz in Hu; discriminate Hu
  end.
Qed.

(** ** The operation that closes a journal *)

Definition closing_mutation (journal : GoalSessionJournal.t) (now : time) : session_mutation :=
  if NeedsReconciliation journal then MutResolveStopped (Compatibility journal) now
  else if journal.(LaunchState) =s GoalSessionLaunchStateAttached then MutClose now
  else MutAbort now.

Lemma missing_self recorded : missing recorded recorded = false.
Proof. unfold missing. by destruct (recorded =s ""). Qed.

Lemma strict_self journal :
  GoalSessionJournal.validate journal = true -> compareGoalSessionIdentityStrict journal (Compatibility journal) = Ok tt.
Proof.
  intros Hvalid. unfold compareGoalSessionIdentityStrict. cbv zeta. rewrite !missing_self, !String.eqb_refl, !Z.eqb_refl.
  assert (bool_decide (Compatibility journal = GoalSessionCompatibility.zero) = false) as ->.
  { apply bool_decide_eq_false. intros Hzero. apply (f_equal GoalSessionCompatibility.HarnessKind) in Hzero.
    unfold GoalSessionJournal.validate, validShape, GoalSessionLaunchIntent.validate in Hvalid. rewrite !andb_true_iff in Hvalid.
    change (journal.(intent).(GoalSessionLaunchIntent.HarnessKind) = "") in Hzero. rewrite Hzero in Hvalid.
    assert (validRequiredString "" 4096 = true) as Hbad by tauto. discriminate Hbad. }
  cbn [orb negb].
  assert (forall n, (0 <? n) && (n <=? 0) = false) as Hn by (intros n; destruct (0 <? n) eqn:Hlt; [|done]; lia).
  rewrite !Hn. done.
Qed.

(** A launch that needs no reconciliation has not started, is attached, or
    is closed. *)
Lemma launch_phases journal :
  GoalSessionJournal.validate journal = true -> NeedsReconciliation journal = false ->
  (journal.(LaunchState) =s GoalSessionLaunchStateAttached) = false -> fullyClosed journal = true \/ beforeLaunch journal = true.
Proof.
  intros Hvalid Hneeds Hnot. pose proof (unattached_free _ Hvalid Hnot) as [[Hn Hf] _ _ _].
  unfold GoalSessionJournal.validate in Hvalid. rewrite !andb_true_iff in Hvalid. destruct Hvalid as [[[Hshape Hlaunch] _] _].
  assert (validGoalSessionLaunchState journal.(LaunchState) = true) as Hphase
    by (unfold validShape in Hshape; rewrite !andb_true_iff in Hshape; tauto).
  unfold validLaunch in Hlaunch. cbv zeta in Hlaunch. rewrite Hneeds in Hlaunch. rewrite !andb_true_iff in Hlaunch.
  destruct Hlaunch as ((((((((_ & Hintent) & Hlaunching) & _) & Huncertain) & Hclosed) & Hrecovery) & _) & _).
  unfold NeedsReconciliation in Hneeds. unfold fullyClosed, beforeLaunch. rewrite Hn, Hf.
  apply Bool.eqb_prop in Hrecovery. rewrite Hrecovery in *. cbn [orb] in Hneeds. rewrite Hnot in Hneeds.
  unfold validGoalSessionLaunchState in Hphase. cbn [string_in existsb] in Hphase. rewrite Hnot in Hphase.
  destruct (journal.(LaunchState) =s GoalSessionLaunchStateClosed) eqn:Hc.
  { left. apply negb_true_iff in Hclosed. by destruct (journal.(SessionState) =s GoalSessionStateClosed). }
  right. cbn [negb] in Hneeds. rewrite !andb_true_r in Hneeds. rewrite Hneeds in *.
  destruct (journal.(LaunchState) =s GoalSessionLaunchStateIntent); [done|].
  destruct (journal.(LaunchState) =s GoalSessionLaunchStateLaunching); [done|].
  destruct (journal.(LaunchState) =s GoalSessionLaunchStateUncertain); done.
Qed.

Lemma attached_facts journal :
  GoalSessionJournal.validate journal = true -> (journal.(LaunchState) =s GoalSessionLaunchStateAttached) = true ->
  notAttached journal = false /\ journal.(UncertainReason) = "".
Proof.
  unfold GoalSessionJournal.validate, validLaunch, notAttached. cbv zeta. intros Hvalid Hattached. rewrite Hattached in *.
  rewrite !andb_true_iff in Hvalid. destruct Hvalid as [[[_ Hlaunch] _] _].
  destruct Hlaunch as ((((((_ & Hnative) & _) & _) & _) & Hreason) & _). cbn [negb andb orb] in *. rewrite !negb_true_iff in *.
  breflect. split; [|done]. by apply String.eqb_neq.
Qed.

(** The closing operation of a valid journal succeeds, with a valid closed
    journal of the same session. *)
Lemma closing_closes journal now :
  GoalSessionJournal.validate journal = true -> now <> 0 ->
  exists journal', session_callback (closing_mutation journal now) journal = Ok journal' /\
    GoalSessionJournal.validate journal' = true /\ fullyClosed journal' = true.
Proof.
  intros Hvalid Hnow%Z.eqb_neq. unfold closing_mutation.
  destruct (NeedsReconciliation journal) eqn:Hneeds.
  { cbn [session_callback]. unfold resolveUncertainStopped. rewrite (strict_self _ Hvalid), Hneeds. cbn [rbind negb].
    eexists. split; [done|]. split; [|done]. eapply closed_valid; [exact Hvalid|done|by split|done..]. }
  destruct (journal.(LaunchState) =s GoalSessionLaunchStateAttached) eqn:Hattached; cbn [session_callback].
  - unfold closeSession. destruct (fullyClosed journal) eqn:Hclosed; [by eauto|]. rewrite Hneeds.
    destruct (attached_facts _ Hvalid Hattached) as [-> Hreason].
    eexists. split; [done|]. split; [|done]. eapply closed_valid; [exact Hvalid|done|by split|done| |exact Hreason|done].
    unfold NeedsReconciliation in Hneeds. by apply orb_false_iff in Hneeds as [? _].
  - unfold abortBeforeNativeStart. destruct (launch_phases _ Hvalid Hneeds Hattached) as [Hclosed|Hbefore].
    + rewrite Hclosed. eauto.
    + destruct (fullyClosed journal) eqn:Hclosed; [by eauto|]. rewrite Hbefore. eexists. split; [done|]. split; [|done].
      pose proof (unattached_free _ Hvalid Hattached) as [].
      eapply closed_valid; [exact Hvalid|done|by split|done..].
Qed.

(** ** Closing in the store *)

Lemma closing_method journal now fs state key :
  session_method (closing_mutation journal now) fs state key =
  mutateGoalSession fs state key (session_callback (closing_mutation journal now)).
Proof. unfold closing_mutation. by repeat case_match. Qed.

Lemma valid_lineage journal :
  GoalSessionJournal.validate journal = true -> validateGoalSessionLineageKey (GoalSessionJournal.LineageKey journal) = true.
Proof.
  unfold GoalSessionJournal.validate, validShape, GoalSessionLaunchIntent.validate, validateGoalSessionKey, validateGoalSessionLineageKey.
  intros Hvalid. rewrite !andb_true_iff in *. cbn. tauto.
Qed.

(** With working files a valid journal is committed. *)
Lemma publish_commits state journal :
  GoalSessionJournal.validate journal = true ->
  (publish session_ok state journal).1.(sessions) =
    <[goalSessionPath (GoalSessionJournal.Key journal) := SessionDecodes journal]> state.(sessions) /\
  (publish session_ok state journal).1.(store) = state.(store).
Proof.
  intros Hvalid. unfold publish.
  assert (exists files, beginGoalSessionLineageMutationLocked WriteOK state (GoalSessionJournal.LineageKey journal) =
    (with_indexes state files, Ok tt)) as [files Hbegin].
  { unfold beginGoalSessionLineageMutationLocked, saveGoalSessionLineageIndexLocked, goalSessionLineageIndex.validate.
    cbn [goalSessionLineageIndex.SchemaVersion goalSessionLineageIndex.Lineage goalSessionLineageIndex.Entries].
    rewrite (valid_lineage _ Hvalid). by eexists. }
  cbn [mark_write session_ok save_write refresh_scan refresh_write]. rewrite Hbegin. unfold saveGoalSessionJournalLocked.
  rewrite Hvalid. cbn [negb written_under fst]. by rewrite refresh_sessions, refresh_store.
Qed.

(** C30: no lineage is blocked for good. After every sequence of requests, an
    open session on disk is closed by one operation when its file operations
    succeed (the abort of a launch that did not start, the reconciliation of
    an uncertain one with its own recorded identity, or the close of an
    attached one), and then no answer about its lineage blocks a new
    launch. *)
Theorem session_can_be_closed store trace key journal now :
  let state := session_run (session_start store) trace in
  LoadGoalSession true state key = Ok journal -> fullyClosed journal = false -> now <> 0 ->
  exists m journal', let state' := (session_method m session_ok state key).1 in
    LoadGoalSession true state' key = Ok journal' /\ fullyClosed journal' = true /\ evolves journal journal' /\
    forall fs state'' status, CheckGoalSessionLineage fs state' (GoalSessionJournal.LineageKey journal) = (state'', Ok status) ->
      GoalSessionLineageStatus.BlocksNewLaunch status = false.
Proof.
  intros state Hload Hopen Hnow. assert (session_inv state) as Hinv by apply session_run_inv, session_start_inv.
  pose proof (load_key _ _ _ _ Hinv Hload) as (Hin & Hsettled & Hvalid & Hpath).
  destruct (closing_closes journal now Hvalid Hnow) as (journal' & Hrun & Hvalid' & Hclosed).
  destruct (session_callback_frame _ _ _ Hsettled Hrun) as [Hevolves Hlineage _].
  exists (closing_mutation journal now), journal'. cbv zeta. rewrite closing_method.
  pose proof (mutate_operation (fun _ => False) session_ok state key (closing_mutation journal now) Hinv) as (Hinv' & _).
  revert Hinv'. unfold mutateGoalSession. cbn [session_readable session_ok].
  rewrite Hload. cbn [rbind]. rewrite Hrun, Hvalid'. cbn [negb].
  destruct (publish_commits state journal' Hvalid') as [Hfiles Hstore].
  destruct (publish session_ok state journal') as [state' outcome]. cbn [fst] in *. intros Hinv'.
  pose proof (evolves_key _ _ Hevolves) as Hkey. rewrite Hkey, <- Hpath in Hfiles.
  split; [|split; [done|split; [done|]]].
  - unfold LoadGoalSession in *. inv_ok. rewrite Hstore, E, E0. cbn [negb rbind].
    apply load_session_ok; [apply Hinv'|]. by rewrite Hfiles, lookup_insert_eq.
  - intros fs state'' status Hcheck. unfold CheckGoalSessionLineage in Hcheck. case_match; [|done].
    destruct (listing_ok _ (inv_sessions _ Hinv')) as [l Hl]. apply listing_spec in Hl; [|apply Hinv'].
    rewrite (check_status _ _ _ _ _ _ Hinv' Hl Hcheck). apply (scanned_blocks _ _ _ Hl). rewrite Hfiles. intros other Hlive.
    pose proof Hlive as (_ & Hother & Hopen'). apply live_at_path in Hlive as [[_ [= <-]]|[Hne Hlive]]; [congruence|].
    apply Hne. rewrite Hpath. f_equal. f_equal. symmetry. by apply (inv_single _ Hinv (GoalSessionJournal.LineageKey journal)).
Qed.
