(* ===== verification/ContainmentProps.v ===== *)
(** * ContainmentProps: the owner of a process along every trace

    What the requests of the daemon can do to the containment of a run: a
    recorded owner is never replaced and leaves only with proof that its
    process stopped, a reservation only grows, and a run whose cgroup was
    released is never launched again. *)

From S2P Require Import Prelude Sha256 Json Authority Protocol Journal Validation Store Outbox ProviderAction.
From S2P Require Import Session Delivery Cgroup Containment Clone Native Lifecycle OutboxFacts Traces.
From stdpp Require Import relations.
Import RunJournal.
Open Scope string_scope.
Open Scope Z_scope.

(** The process and containment of a run, and the evidence of its clone. *)
Definition containment (journal : RunJournal.t) :=
  (journal.(PID), journal.(ProcessIdentity), journal.(StartedAt), journal.(ContainmentAuthority),
   journal.(ContainmentHandoff), journal.(ContainmentScans), journal.(ContainmentUnproven), journal.(ContainmentCgroup),
   journal.(ContainmentCgroupReleaseProof), journal.(ContainmentCgroupPreGateReleaseProof)).

Definition clone_evidence (journal : RunJournal.t) :=
  (journal.(LinuxCloneIntent), journal.(LinuxCloneSeedReceipt), journal.(LinuxCloneCheckoutReceipt),
   journal.(LinuxClonePromotionIntent), journal.(LinuxClonePromotionReceipt), journal.(LinuxCloneAbortPending),
   journal.(LinuxCloneAbortProof), journal.(LinuxCloneCleanupPending), journal.(LinuxCloneCleanupIntent),
   journal.(LinuxCloneTargetRemovalProof), journal.(LinuxCloneCleanupProof)).

Section Steps.
Context `{AdmissionParser} `{JournalEncoder} `{Platform}.

Lemma delivery_containment key op before after :
  delivery_callback key op before = Ok after ->
  containment after = containment before /\ clone_evidence after = clone_evidence before.
Proof.
  apply (delivery_lift (fun j j' => containment j' = containment j /\ clone_evidence j' = clone_evidence j)); [done| |].
  - intros j1 j2 j3 Honly [-> ->]. split; by apply delivery_only_field.
  - intros transition pendingAt j j' Hrun. open_callback Hrun. by invert_callback.
Qed.

(** The requests of the outbox, of deliveries, of commands and of provider
    actions leave both alone. *)
Lemma plain_frame admits key r before after :
  callback admits key r before = Ok after ->
  (exists op, r = ReqNative op) \/
  containment after = containment before /\ clone_evidence after = clone_evidence before.
Proof.
  intros Hrun. destruct r; [..|by right; eapply delivery_containment|by left; eexists]; right; open_callback Hrun; invert_callback; try (split; reflexivity).
  all: match goal with p : RunJournal.t * bool |- _ => destruct p; simplify_eq; split; reflexivity end.
Qed.

(** A step is a native callback, or it leaves containment and clone alone. *)
Lemma step_native before after :
  step before after ->
  exists updated, valid_journal before /\ valid_journal updated /\
    containment after = containment updated /\ clone_evidence after = clone_evidence updated /\
    ((exists admits op, native_callback admits (Key before) op before = Ok updated) \/
     containment updated = containment before /\ clone_evidence updated = clone_evidence before).
Proof.
  intros [admits r updated Hvalid _ Hrun Hvalid']. exists updated. split_and!; [done..|].
  destruct (plain_frame _ _ _ _ _ Hrun) as [[op ->]|?]; [|by right]. left. by exists admits, op.
Qed.

Lemma valid_authority journal value :
  valid_journal journal -> journal.(ContainmentAuthority) = Some value -> Supervisor.Validate value = true.
Proof.
  unfold valid_journal, validateJournal, validateAuthority. intros Hvalid Hvalue. rewrite Hvalue in Hvalid.
  inv_ok. by breflect.
Qed.

Lemma valid_stop_receipt journal value receipt :
  valid_journal journal -> journal.(ContainmentAuthority) = Some value -> value.(Supervisor.StopReceipt) = Some receipt ->
  Supervisor.ReceiptValidFor receipt value = true.
Proof.
  intros Hvalid Hvalue Hreceipt. pose proof (valid_authority _ _ Hvalid Hvalue) as Hv. unfold Supervisor.Validate in Hv.
  case_match; breflect; rewrite none_or_true in Hv; auto.
Qed.

(** What a request may do to a recorded owner. *)
Inductive owner_after (before : RunJournal.t) (owner : Supervisor.t) (after : RunJournal.t) : Prop :=
| owner_kept : after.(ContainmentAuthority) = Some owner -> owner_after before owner after
| owner_stopped receipt :
    owner.(Supervisor.StopReceipt) = None ->
    after.(ContainmentAuthority) = Some (owner <| Supervisor.StopReceipt := Some receipt |>) -> owner_after before owner after
| owner_released receipt :
    owner.(Supervisor.StopReceipt) = Some receipt -> Supervisor.ReceiptValidFor receipt owner = true ->
    after.(ContainmentAuthority) = None -> HasProcessDetails after = false ->
    (owner.(Supervisor.Version) = SupervisorVersionV2 ->
       exists proof, after.(ContainmentCgroupReleaseProof) = Some proof /\
         SupervisorHandoffReleaseProof.ValidForSupervisor proof owner = true) ->
    (owner.(Supervisor.Version) <> SupervisorVersionV2 -> requireLinuxScansSealedForAuthority before owner = Ok tt) ->
    owner_after before owner after.

Lemma native_owner admits key op before after owner :
  native_callback admits key op before = Ok after -> before.(ContainmentAuthority) = Some owner -> owner_after before owner after.
Proof.
  intros Hrun Howner. destruct op; open_native Hrun; rewrite ?Howner in Hrun; invert_native; try (by apply owner_kept).
  all: unfold retainedAuthority, HasProcessDetails in *; try congruence; try (by eapply owner_stopped).
  all: breflect; repeat match goal with Hr : some_and _ _ = true |- _ => apply some_and_true in Hr as (? & ? & Hr) end;
    breflect.
  - change (ContainmentAuthority before = None) in Heqo. congruence.
  - cbn [some_and] in E0. breflect. destruct a1. by eapply owner_released; try done.
  - done.
  - eapply owner_released; try done; eauto.

Qed.

(** ** Release *)

Definition released (journal : RunJournal.t) : Prop :=
  journal.(ContainmentCgroupReleaseProof) <> None \/ journal.(ContainmentCgroupPreGateReleaseProof) <> None.

Definition release_proofs (journal : RunJournal.t) :=
  (journal.(ContainmentCgroupReleaseProof), journal.(ContainmentCgroupPreGateReleaseProof)).

Lemma released_empty journal : valid_journal journal -> released journal -> containmentRemains journal = false.
Proof.
  unfold valid_journal, validateJournal, validateReleaseProofs. intros Hvalid [Hr|Hr]; inv_ok;
    destruct (ContainmentCgroupReleaseProof journal), (ContainmentCgroupPreGateReleaseProof journal);
    try done; cbn [some_and non_nil is_nil negb] in *; breflect; done.
Qed.

Lemma native_released admits key op before after :
  native_callback admits key op before = Ok after -> valid_journal before -> released before ->
  release_proofs after = release_proofs before.
Proof.
  intros Hrun Hvalid Hreleased. pose proof (released_empty _ Hvalid Hreleased) as Hempty.
  unfold containmentRemains, non_nil in Hempty. breflect.
  destruct op; open_native Hrun; repeat match goal with E : _ before = None |- _ => rewrite E in Hrun end;
    invert_native; try reflexivity.
Qed.

Lemma step_released before after :
  step before after -> released before -> release_proofs after = release_proofs before.
Proof.
  intros (updated & Hvalid & _ & Hc & _ & Hcase)%step_native Hreleased.
  transitivity (release_proofs updated); [unfold containment in Hc; unfold release_proofs; congruence|].
  destruct Hcase as [(admits & op & Hrun)|[Hsame _]]; [by eapply native_released|].
  unfold containment in Hsame. unfold release_proofs. congruence.
Qed.

Lemma same_proofs_released before after : release_proofs after = release_proofs before -> released before -> released after.
Proof.
  unfold release_proofs, released. intros E.
  replace (ContainmentCgroupReleaseProof after) with (ContainmentCgroupReleaseProof before) by congruence.
  by replace (ContainmentCgroupPreGateReleaseProof after) with (ContainmentCgroupPreGateReleaseProof before) by congruence.
Qed.

Lemma step_containment_valid before after : step before after -> released after -> containmentRemains after = false.
Proof.
  intros [admits r updated _ _ _ Hvalid] Hreleased. change (containmentRemains updated = false). by apply released_empty.
Qed.

Lemma steps_released before after :
  rtc step before after -> released before -> containmentRemains before = false ->
  release_proofs after = release_proofs before /\ containmentRemains after = false.
Proof.
  induction 1 as [|j1 j2 j3 Hstep _ IH]; intros Hreleased Hempty; [done|].
  pose proof (step_released _ _ Hstep Hreleased) as Hsame. rewrite <- Hsame.
  assert (released j2) as Hreleased' by by eapply same_proofs_released.
  apply IH; [done|by eapply step_containment_valid].
Qed.

(** ** Reservations *)

(** A pointer that, once set, keeps its value. *)
Definition set_once {A} (before after : option A) : Prop := before <> None -> after = before.

#[export] Instance set_once_preorder {A} : PreOrder (@set_once A).
Proof.
  split; [by intros a|]. intros a b c Hab Hbc Ha. rewrite Hbc; [by apply Hab|]. by rewrite Hab.
Qed.

Definition reserved_identity (r : LinuxCgroupReservation.t) :=
  (r.(LinuxCgroupReservation.Version), r.(LinuxCgroupReservation.LaunchToken), r.(LinuxCgroupReservation.Secret),
   r.(LinuxCgroupReservation.PipeToken), r.(LinuxCgroupReservation.JobID), r.(LinuxCgroupReservation.OwnerUID),
   r.(LinuxCgroupReservation.LauncherUID), r.(LinuxCgroupReservation.RecoveryEndpoint),
   r.(LinuxCgroupReservation.Parent), r.(LinuxCgroupReservation.LeafName), r.(LinuxCgroupReservation.Anchor),
   r.(LinuxCgroupReservation.Mirror)).

(** The stages of a reservation: what was reserved is fixed, and each fact is
    recorded once. *)
Record reservation_grows (r r' : LinuxCgroupReservation.t) : Prop := {
  grows_identity : reserved_identity r' = reserved_identity r;
  grows_created : Is_true r.(LinuxCgroupReservation.CreateStarted) -> Is_true r'.(LinuxCgroupReservation.CreateStarted);
  grows_granted : Is_true r.(LinuxCgroupReservation.LauncherGrantPossible) ->
                  Is_true r'.(LinuxCgroupReservation.LauncherGrantPossible);
  grows_leaf : set_once r.(LinuxCgroupReservation.LeafIdentity) r'.(LinuxCgroupReservation.LeafIdentity);
  grows_helper : set_once r.(LinuxCgroupReservation.Helper) r'.(LinuxCgroupReservation.Helper);
  grows_launcher : set_once r.(LinuxCgroupReservation.Launcher) r'.(LinuxCgroupReservation.Launcher);
  grows_launcher_exit : set_once r.(LinuxCgroupReservation.LauncherExit) r'.(LinuxCgroupReservation.LauncherExit);
  grows_gate : set_once r.(LinuxCgroupReservation.Gate) r'.(LinuxCgroupReservation.Gate);
  grows_helper_exit : set_once r.(LinuxCgroupReservation.HelperExit) r'.(LinuxCgroupReservation.HelperExit);
  grows_abort : set_once r.(LinuxCgroupReservation.AbortProof) r'.(LinuxCgroupReservation.AbortProof);
  grows_receipt : set_once r.(LinuxCgroupReservation.PreGateStopReceipt) r'.(LinuxCgroupReservation.PreGateStopReceipt)
}.

#[export] Instance reservation_grows_preorder : PreOrder reservation_grows.
Proof.
  split; [intros r; split; (done || reflexivity)|].
  intros a b c [] []. split; try (by etrans; eauto); eauto.
Qed.

Definition reservation_after (reservation : LinuxCgroupReservation.t) (after : RunJournal.t) : Prop :=
  (exists reservation', after.(ContainmentCgroup) = Some reservation' /\ reservation_grows reservation reservation') \/
  after.(ContainmentCgroup) = None /\ released after.

Lemma reservation_kept reservation after :
  after.(ContainmentCgroup) = Some reservation -> reservation_after reservation after.
Proof. left. by exists reservation. Qed.

Lemma reservation_staged reservation reservation' after :
  after.(ContainmentCgroup) = Some reservation' -> reservation_grows reservation reservation' ->
  reservation_after reservation after.
Proof. left. by exists reservation'. Qed.

Lemma native_reservation admits key op before after reservation :
  native_callback admits key op before = Ok after -> before.(ContainmentCgroup) = Some reservation ->
  reservation_after reservation after.
Proof.
  intros Hrun Hcgroup. destruct op; open_native Hrun; rewrite ?Hcgroup in Hrun;
    cbv [createStartedArguments leafArguments grantArguments preGateArguments] in Hrun;
    invert_native; try (by apply reservation_kept);
    try (right; split; [reflexivity|]; journal_simpl; first [by left | by right]).
  all: simplify_eq; unfold non_nil in *; breflect.
  all: eapply reservation_staged; [reflexivity|].
  all: split; try reflexivity; try done; intros Hset; by exfalso.
Qed.

Lemma step_reservation before after reservation :
  step before after -> before.(ContainmentCgroup) = Some reservation -> reservation_after reservation after.
Proof.
  intros (updated & _ & _ & Hc & _ & Hcase)%step_native Hcgroup.
  assert (reservation_after reservation updated) as Hafter.
  { destruct Hcase as [(admits & op & Hrun)|[Hsame _]]; [by eapply native_reservation|].
    apply reservation_kept. unfold containment in Hsame. congruence. }
  unfold reservation_after, released in *. unfold containment in Hc.
  assert (ContainmentCgroup after = ContainmentCgroup updated /\
    ContainmentCgroupReleaseProof after = ContainmentCgroupReleaseProof updated /\
    ContainmentCgroupPreGateReleaseProof after = ContainmentCgroupPreGateReleaseProof updated)
    as (-> & -> & ->) by (split_and!; congruence). done.
Qed.

Lemma steps_reservation before after reservation :
  rtc step before after -> before.(ContainmentCgroup) = Some reservation -> reservation_after reservation after.
Proof.
  intros Hsteps. revert reservation. induction Hsteps as [|j1 j2 j3 Hstep Hsteps IH]; intros reservation Hcgroup.
  { by apply reservation_kept. }
  destruct (step_reservation _ _ _ Hstep Hcgroup) as [(next & Hnext & Hgrows)|[Hnone Hreleased]].
  - destruct (IH _ Hnext) as [(final & Hfinal & Hgrows')|?]; [|by right]. left. exists final. split; [done|by etrans].
  - right. destruct (steps_released _ _ Hsteps Hreleased) as [Hsame Hempty]; [by eapply step_containment_valid|].
    split; [|by eapply same_proofs_released]. unfold containmentRemains, non_nil in Hempty. by breflect.
Qed.

(** ** Clones *)

(** The evidence of a clone is recorded once. *)
Record clone_extends (before after : RunJournal.t) : Prop := {
  extends_intent : set_once before.(LinuxCloneIntent) after.(LinuxCloneIntent);
  extends_seed : set_once before.(LinuxCloneSeedReceipt) after.(LinuxCloneSeedReceipt);
  extends_checkout : set_once before.(LinuxCloneCheckoutReceipt) after.(LinuxCloneCheckoutReceipt);
  extends_candidate : set_once before.(LinuxClonePromotionIntent) after.(LinuxClonePromotionIntent);
  extends_promotion : set_once before.(LinuxClonePromotionReceipt) after.(LinuxClonePromotionReceipt);
  extends_abort : set_once before.(LinuxCloneAbortProof) after.(LinuxCloneAbortProof);
  extends_cleanup : set_once before.(LinuxCloneCleanupIntent) after.(LinuxCloneCleanupIntent);
  extends_removal : set_once before.(LinuxCloneTargetRemovalProof) after.(LinuxCloneTargetRemovalProof);
  extends_removed : set_once before.(LinuxCloneCleanupProof) after.(LinuxCloneCleanupProof)
}.

#[export] Instance clone_extends_preorder : PreOrder clone_extends.
Proof.
  split; [intros r; split; reflexivity|]. intros a b c [] []. split; by etrans; eauto.
Qed.

Lemma clone_same before after : clone_evidence after = clone_evidence before -> clone_extends before after.
Proof. unfold clone_evidence. intros E. split; intros _; congruence. Qed.

Lemma native_clone admits key op before after :
  native_callback admits key op before = Ok after -> clone_extends before after.
Proof.
  intros Hrun. destruct op; open_native Hrun; invert_native; try reflexivity; try (by apply clone_same).
  all: unfold abortFenced, non_nil in *; breflect.
  all: split; intros Hset; try reflexivity; by exfalso.
Qed.

Lemma step_clone before after : step before after -> clone_extends before after.
Proof.
  intros (updated & _ & _ & _ & Hc & Hcase)%step_native. transitivity updated; [|by apply clone_same].
  destruct Hcase as [(admits & op & Hrun)|[_ Hsame]]; [by eapply native_clone|by apply clone_same].
Qed.

Lemma steps_clone before after : rtc step before after -> clone_extends before after.
Proof. induction 1 as [|j1 j2 j3 Hstep _ IH]; [done|]. etrans; [by apply step_clone|done]. Qed.

(** An abort is never beside a checkout. *)
Definition clone_exclusive (journal : RunJournal.t) : Prop :=
  journal.(LinuxCloneAbortPending) = true \/ journal.(LinuxCloneAbortProof) <> None ->
  journal.(LinuxCloneCheckoutReceipt) = None /\ journal.(LinuxClonePromotionIntent) = None /\
  journal.(LinuxClonePromotionReceipt) = None /\ journal.(LinuxCloneCleanupIntent) = None.

Lemma valid_clone_exclusive journal : valid_journal journal -> clone_exclusive journal.
Proof.
  unfold valid_journal, validateJournal, clone_exclusive. intros Hvalid Habort. inv_ok.
  match goal with Hv : validateLinuxCloneJournal _ = _ |- _ => rename Hv into Hclone end.
  assert (LinuxCloneAbortPending journal || non_nil (LinuxCloneAbortProof journal) = true) as Hfenced.
  { unfold non_nil. destruct Habort as [->|Hp]; [done|]. destruct (LinuxCloneAbortProof journal); [by rewrite orb_true_r|done]. }
  unfold validateLinuxCloneJournal in Hclone. rewrite Hfenced in Hclone. destruct (LinuxCloneIntent journal); inv_ok.
  - unfold validateCloneAbort, noCloneCleanup, non_nil in *. inv_ok. breflect. done.
  - unfold non_nil in *. breflect. destruct Habort; congruence.
Qed.

(** [validateLinuxCloneJournal] reads the seed receipt of a clone that has a
    checkout receipt without testing that there is one: on such a journal
    the check does not report an error, it panics. *)
Lemma checkout_without_seed_panics journal intent :
  journal.(LinuxCloneIntent) = Some intent -> journal.(LinuxCloneCheckoutReceipt) <> None ->
  journal.(LinuxCloneSeedReceipt) = None -> journal.(LinuxCloneAbortPending) = false ->
  journal.(LinuxCloneAbortProof) = None -> LinuxCloneIntent.ValidateForJournal intent = true ->
  intent.(LinuxCloneIntent.RunID) = journal.(RunID) -> intent.(LinuxCloneIntent.Generation) = journal.(Generation) ->
  intent.(LinuxCloneIntent.BindingKey) = journal.(WorkspaceBindingKey) -> hasClaimGrant journal = true ->
  requireLinuxCloneJournalFenceSubject journal intent = true ->
  validateLinuxCloneJournal journal = Err NilDereference.
Proof.
  intros Hintent Hcheckout Hseed Hpending Habort Hvalid Hrun Hgeneration Hbinding Hgrant Hsubject.
  unfold validateLinuxCloneJournal. rewrite Hintent, Hvalid, Hrun, Hgeneration, Hbinding, Hgrant, Hsubject, Hseed, Hpending, Habort.
  rewrite !String.eqb_refl, Z.eqb_refl. simpl. by destruct (LinuxCloneCheckoutReceipt journal).
Qed.

(** ** The claims *)

(** C34: a request for a run whose process has a recorded owner keeps that
    owner unchanged, or records its one stop receipt, or releases it. It is
    released only with a recorded stop receipt that is valid for exactly this
    owner, and takes the process marker with it; a v2 owner leaves a release
    proof of the platform that matches it, a v1 Linux owner only leaves after
    both its scans were sealed. *)
Theorem owner_leaves_only_stopped before after owner :
  step before after -> before.(ContainmentAuthority) = Some owner -> owner_after before owner after.
Proof.
  intros (updated & Hvalid & _ & Hc & _ & Hcase)%step_native Howner. unfold containment in *.
  assert (owner_after before owner updated) as Hafter.
  { destruct Hcase as [(admits & op & Hrun)|[Hsame _]]; [by eapply native_owner|]. apply owner_kept. congruence. }
  assert (HasProcessDetails after = HasProcessDetails updated) as Hmarker.
  { unfold HasProcessDetails. by replace (PID after) with (PID updated) by congruence;
    replace (ProcessIdentity after) with (ProcessIdentity updated) by congruence;
    replace (StartedAt after) with (StartedAt updated) by congruence. }
  destruct Hafter as [?|receipt ? ?|receipt ? ? ? ? Hproof ?].
  - apply owner_kept. congruence.
  - apply (owner_stopped _ _ _ receipt); congruence.
  - apply (owner_released _ _ _ receipt); [done|done|congruence|congruence| |done].
    intros (proof & ? & ?)%Hproof. exists proof. split; [congruence|done].
Qed.

(** C35: a released run is never launched again. Once the journal of a run
    carries a release proof, then along every trace of requests, whatever
    fails, the proof stays as it is and no process, owner, handoff, scan
    ledger or reservation is ever recorded for the run. *)
Theorem released_run_stays_empty store trace key before after :
  on_disk store key before -> valid_journal before -> released before -> on_disk (run store trace) key after ->
  release_proofs after = release_proofs before /\ containmentRemains after = false.
Proof.
  intros Hbefore Hvalid Hreleased Hafter.
  eapply steps_released; [exact (run_on_disk _ _ _ _ _ Hbefore Hafter)|done|by apply released_empty].
Qed.

(** A cgroup reservation only grows. Along every trace the reservation
    of a run either is still there, for the same launch, parent, leaf and
    anchor, with every process, exit, gate, abort proof and stop receipt that
    was recorded still the same, or it is gone and the release of its cgroup
    is on record. *)
Theorem reservation_only_grows store trace key before after reservation :
  on_disk store key before -> before.(ContainmentCgroup) = Some reservation -> on_disk (run store trace) key after ->
  reservation_after reservation after.
Proof. intros Hbefore Hcgroup Hafter. eapply steps_reservation; [exact (run_on_disk _ _ _ _ _ Hbefore Hafter)|done]. Qed.

(** The evidence of a clone is written once. Along every trace the
    intent, the seed, the checkout, the promotion, the abort and the cleanup
    of a clone keep the value they were recorded with, and a clone that was
    fenced or aborted never has a checkout, a promotion or a cleanup. *)
Theorem clone_evidence_is_final store trace key before after :
  on_disk store key before -> valid_journal before -> on_disk (run store trace) key after ->
  clone_extends before after /\ clone_exclusive after.
Proof.
  intros Hbefore Hvalid Hafter. assert (rtc step before after) as Hsteps by by eapply run_on_disk.
  split; [by apply steps_clone|]. apply rtc_inv_r in Hsteps as [->|(last & _ & Hstep)]; [by apply valid_clone_exclusive|].
  destruct Hstep as [admits r updated _ _ _ Hupdated]. change (clone_exclusive updated). by apply valid_clone_exclusive.
Qed.
End Steps.
