(* ===== verification/ScanProps.v ===== *)
(** * ScanProps: the scan ledger of a Linux owner

    A v1 Linux helper and its mirror report every scan of the process tree to
    a ledger. Reports may be repeated or come late; the ledger counts one
    scan at a time, does not wrap at the end of the counter, and keeps a
    failure or a seal for good. *)

From S2P Require Import Prelude Sha256 Json Authority Protocol Journal Validation Store Outbox ProviderAction.
From S2P Require Import Session Delivery Cgroup Containment Clone Native Lifecycle OutboxFacts Traces ContainmentProps.
Import RunJournal.
Open Scope string_scope.
Open Scope Z_scope.

Definition counter_in_range (progress : ContainmentScanProgress.t) : Prop :=
  0 <= progress.(ContainmentScanProgress.CompletedSequence) <= maxUint64.

Record scan_advances (before after : ContainmentScanProgress.t) : Prop := {
  advances_one : before.(ContainmentScanProgress.CompletedSequence) <= after.(ContainmentScanProgress.CompletedSequence) <=
                 before.(ContainmentScanProgress.CompletedSequence) + 1;
  advances_in_range : counter_in_range after;
  advances_sealed : before.(ContainmentScanProgress.SealedSequence) <> 0 -> after = before;
  advances_failed : before.(ContainmentScanProgress.UnprovenSequence) <> 0 -> after = before
}.

Lemma scan_same progress : counter_in_range progress -> scan_advances progress progress.
Proof. intros Hrange. split; [lia|done|done|done]. Qed.

Lemma next_in_range n : 0 <= n <= maxUint64 -> n <> maxUint64 -> wrapu64 (n + 1) = n + 1.
Proof. unfold wrapu64, maxUint64. intros. apply Z.mod_small. lia. Qed.

(** A pending scan is the one after the last completed. *)
Lemma pending_next progress :
  ContainmentScanProgress.valid progress = true -> counter_in_range progress ->
  progress.(ContainmentScanProgress.PendingSequence) <> 0 ->
  progress.(ContainmentScanProgress.CompletedSequence) <> maxUint64 /\
  progress.(ContainmentScanProgress.PendingSequence) = progress.(ContainmentScanProgress.CompletedSequence) + 1.
Proof.
  unfold ContainmentScanProgress.valid. cbv zeta. intros Hvalid Hrange Hpending. breflect.
  destruct (ContainmentScanProgress.PendingSequence progress =? 0) eqn:E; breflect; [done|].
  match goal with Hn : negb false && _ = false |- _ => cbn [negb andb] in Hn end. breflect.
  split; [done|]. rewrite next_in_range in * by done. done.
Qed.

Lemma scanStep_advances update unproven scans progress progress' unproven' :
  update.(SupervisorScanUpdate.Sequence) <> 0 ->
  ContainmentScanProgress.valid progress = true -> counter_in_range progress ->
  scanStep update unproven scans progress = Ok (progress', unproven') -> scan_advances progress progress'.
Proof.
  intros Hsequence Hvalid Hrange. unfold scanStep. cbv zeta. intros Hrun.
  repeat (case_match; inv_ok; breflect; simplify_eq; try (by apply scan_same)).
  all: try (split; [simpl; lia|done|by intros|by intros]).
  destruct (pending_next _ Hvalid Hrange) as [? Hnext]; [congruence|]. unfold counter_in_range in Hrange.
  split; [simpl; lia|unfold counter_in_range; simpl; lia|by intros|by intros].
Qed.

Definition ledger_identity (scans : ContainmentScanJournal.t) :=
  (scans.(ContainmentScanJournal.Version), scans.(ContainmentScanJournal.LaunchToken),
   scans.(ContainmentScanJournal.TargetPID), scans.(ContainmentScanJournal.TargetIdentity),
   scans.(ContainmentScanJournal.SupervisorPID), scans.(ContainmentScanJournal.SupervisorIdentity),
   scans.(ContainmentScanJournal.MirrorIdentity)).

(** The helper's and the mirror's counters advance, for the same owner. *)
Record ledger_advances (before after : ContainmentScanJournal.t) : Prop := {
  ledger_same : ledger_identity after = ledger_identity before;
  ledger_helper : scan_advances before.(ContainmentScanJournal.Helper) after.(ContainmentScanJournal.Helper);
  ledger_mirror : scan_advances before.(ContainmentScanJournal.Mirror) after.(ContainmentScanJournal.Mirror)
}.

Definition ledger_in_range (scans : ContainmentScanJournal.t) : Prop :=
  counter_in_range scans.(ContainmentScanJournal.Helper) /\ counter_in_range scans.(ContainmentScanJournal.Mirror).

Lemma ledger_kept scans : ledger_in_range scans -> ledger_advances scans scans.
Proof. intros [? ?]. split; [done|by apply scan_same..]. Qed.

Section Ledger.
Context `{AdmissionParser} `{JournalEncoder} `{Platform}.

Lemma valid_ledger journal scans :
  valid_journal journal -> journal.(ContainmentScans) = Some scans ->
  ContainmentScanProgress.valid scans.(ContainmentScanJournal.Helper) = true /\
  ContainmentScanProgress.valid scans.(ContainmentScanJournal.Mirror) = true /\
  (scans.(ContainmentScanJournal.Helper).(ContainmentScanProgress.UnprovenSequence) <> 0 \/
   scans.(ContainmentScanJournal.Mirror).(ContainmentScanProgress.UnprovenSequence) <> 0 ->
   journal.(ContainmentUnproven) = true).
Proof.
  unfold valid_journal, validateJournal. intros Hvalid Hscans. inv_ok.
  match goal with Hv : validateScans _ = _ |- _ => unfold validateScans in Hv; rewrite Hscans in Hv end.
  inv_ok. breflect. split_and!; [done..|]. intros Hfailed.
  match goal with Hs : (_ || _) && negb _ = false |- _ => apply andb_false_iff in Hs as [Hs|Hs] end; breflect; [|done].
  naive_solver.
Qed.

Lemma scan_update_sequence handoff update :
  SupervisorHandoff.Validate handoff = true -> handoff.(SupervisorHandoff.ScanUpdate) = Some update ->
  update.(SupervisorScanUpdate.Sequence) <> 0.
Proof.
  unfold SupervisorHandoff.Validate. intros Hvalid Hupdate. rewrite Hupdate in Hvalid. case_match; breflect; [done|].
  cbn [none_or] in Hvalid. unfold SupervisorHandoff.validScanUpdate in Hvalid. by breflect.
Qed.

Lemma native_ledger admits key op before after scans scans' :
  native_callback admits key op before = Ok after -> valid_journal before ->
  before.(ContainmentScans) = Some scans -> ledger_in_range scans -> after.(ContainmentScans) = Some scans' ->
  ledger_advances scans scans'.
Proof.
  intros Hrun Hvalid Hscans Hrange Hscans'. destruct (valid_ledger _ _ Hvalid Hscans) as (Hvh & Hvm & _).
  destruct op; open_native Hrun; rewrite ?Hscans in Hrun;
    cbv [prepareHandoffArguments] in Hrun; invert_native;
    cbv [with_marker claim_workspace drop_workspace] in Hscans'; journal_simpl_in Hscans'; simplify_eq;
    try (by apply ledger_kept).
  all: destruct Hrange as [Hh Hm];
    try match goal with
    | Hs : scanStep _ _ _ _ = Ok ?next |- _ =>
        destruct next as [progress unproven]; breflect;
        eapply scanStep_advances in Hs; [|by eapply scan_update_sequence|done|done];
        split; [done|first [done|by apply scan_same]..]
    end.
  - by apply orb_false_iff in E0 as [_ ?].
  - breflect. unfold counter_in_range in Hh. split; [done| |by apply scan_same].
    match goal with Hn : sequence = wrapu64 _ |- _ => rewrite next_in_range in Hn by done; subst end.
    split; simpl; [lia|unfold counter_in_range; simpl|by intros|by intros].
    unfold maxUint64 in *. lia.
Qed.

(** C39: a request for a run with a scan ledger that leaves one behind moves
    it forward only: it is the ledger of the same owner, each of the two
    counters of completed scans stays or goes up by exactly one and never
    wraps around, a sealed ledger and a recorded failure are final, and the
    containment of a run with a recorded failure stays unproven. *)
Theorem scan_ledger_only_advances before after scans scans' :
  step before after -> before.(ContainmentScans) = Some scans -> ledger_in_range scans ->
  after.(ContainmentScans) = Some scans' ->
  ledger_advances scans scans' /\
  (scans'.(ContainmentScanJournal.Helper).(ContainmentScanProgress.UnprovenSequence) <> 0 \/
   scans'.(ContainmentScanJournal.Mirror).(ContainmentScanProgress.UnprovenSequence) <> 0 ->
   after.(ContainmentUnproven) = true).
Proof.
  intros (updated & Hvalid & Hvalid' & Hc & _ & Hcase)%step_native Hscans Hrange Hscans'. unfold containment in *.
  assert (updated.(ContainmentScans) = Some scans') as Hupdated by congruence. split.
  - destruct Hcase as [(admits & op & Hrun)|[Hsame _]]; [by eapply native_ledger|].
    assert (scans' = scans) as -> by congruence. by apply ledger_kept.
  - replace (after.(ContainmentUnproven)) with (updated.(ContainmentUnproven)) by congruence.
    by apply (valid_ledger _ _ Hvalid' Hupdated).
Qed.
End Ledger.
