(* ===== verification/AdmissionProps.v ===== *)
(** * AdmissionProps: who else may run when a cgroup is reserved

    A native effect is admitted by a scan of every journal of the store, made
    under the store's lock together with the write it admits. *)

From S2P Require Import Prelude Sha256 Json Authority Protocol Journal Validation Store Cgroup.
Import RunJournal.
Open Scope string_scope.
Open Scope Z_scope.

Section Admission.
Context `{AdmissionParser} `{JournalEncoder} `{Platform}.

Lemma readEntry_inv fs path content journal :
  readJournalEntryLocked fs (path, content) = Ok journal ->
  content = Decodes journal /\ valid_journal journal /\ path = journalPath (Key journal).
Proof.
  unfold readJournalEntryLocked, valid_journal. cbn [fst snd]. intros Hread. inv_ok. destruct content as [stored|]; [|done].
  destruct (validateJournal stored) as [[]|e] eqn:Hvalid; [|by destruct e]. inv_ok. breflect. by subst.
Qed.

(** The journals of a scan that ended well, in the order it read them. *)
Inductive scanned {A} (fs : io) (visit : A -> RunJournal.t -> result A) :
    list (string * file) -> A -> list RunJournal.t -> A -> Prop :=
| scanned_end acc : scanned fs visit [] acc [] acc
| scanned_next path journal entries journals acc acc' final :
    valid_journal journal -> path = journalPath (Key journal) -> visit acc journal = Ok acc' ->
    scanned fs visit entries acc' journals final ->
    scanned fs visit ((path, Decodes journal) :: entries) acc (journal :: journals) final.

Lemma forEachJournal_scanned {A} fs (visit : A -> RunJournal.t -> result A) entries acc final :
  forEachJournal fs visit entries acc = Ok final -> exists journals, scanned fs visit entries acc journals final.
Proof.
  revert acc. induction entries as [|[path content] entries IH]; intros acc; cbn [forEachJournal].
  - intros Hrun. inv_ok. subst. exists []. constructor.
  - intros Hrun. inv_ok. apply IH in Hrun as [journals Hscanned].
    apply readEntry_inv in E as (-> & Hvalid & Hpath). exists (a :: journals). by econstructor.
Qed.

Lemma scanned_entries {A} fs (visit : A -> RunJournal.t -> result A) entries acc journals final :
  scanned fs visit entries acc journals final ->
  entries = map (fun journal => (journalPath (Key journal), Decodes journal)) journals /\
  Forall valid_journal journals.
Proof.
  induction 1 as [|path journal entries journals acc acc' final Hvalid -> _ _ [-> IH]]; [done|]. by repeat constructor.
Qed.

Section Visit.
Variables (targetKey : option RunKey.t) (targetFence : Fence.t) (now : time) (liveOwners : owners).
Variables (reservation : option LinuxCgroupReservation.t) (cloneIntent : option LinuxCloneIntent.t).

Let visit := visitAdmission targetKey targetFence now liveOwners reservation cloneIntent.

(** What the scan finds of a run other than the target: an owner the daemon
    attests with the same fence and that is healthy, or nothing that could
    still act; and no path of it is the one asked for. *)
Definition admitted_beside (foreign : RunJournal.t) : Prop :=
  match liveOwners !! Key foreign with
  | Some liveFence => sameFence liveFence (fence foreign) = true /\ linuxV2ForeignOwnerIsHealthy foreign now = true
  | None => linuxV2ForeignJournalIsSafelyRetired foreign = true
  end /\
  clonePathsFree cloneIntent foreign = true /\ leafPathFree reservation foreign = true.

Definition live_key (key : RunKey.t) : bool := non_nil (liveOwners !! key).

Lemma visit_inv acc foreign acc' :
  visit acc foreign = Ok acc' ->
  (targetKey = Some (Key foreign) \/ admitted_beside foreign) /\
  acc'.1 = ((if live_key (Key foreign) then 1 else 0) + acc.1)%nat.
Proof.
  unfold visit, visitAdmission. intros Hrun.
  destruct (some_and targetKey _) eqn:Htarget.
  - apply some_and_true in Htarget as (target & Htarget & Hkey). apply bool_decide_eq_true in Hkey. inv_ok. subst.
    split; [by left|]. unfold live_key. by destruct (non_nil _).
  - unfold live_key, admitted_beside. destruct (liveOwners !! Key foreign) eqn:Hlive; inv_ok; subst; breflect;
      (split; [right; by split_and!|done]).
Qed.

(** The scan of the whole store. *)
Lemma scan_inv fs entries acc journals final :
  scanned fs visit entries acc journals final ->
  Forall (fun foreign => targetKey = Some (Key foreign) \/ admitted_beside foreign) journals /\
  final.1 = (length (List.filter live_key (map Key journals)) + acc.1)%nat.
Proof.
  induction 1 as [|path journal entries journals acc acc' final _ _ Hvisit _ [IH Hcount]]; [done|].
  apply visit_inv in Hvisit as [Hadmitted Hone]. split; [by constructor|]. rewrite Hcount, Hone. cbn [map List.filter].
  destruct (live_key _); cbn [length]; lia.
Qed.
End Visit.

(** As many distinct live keys as there are live owners are all of them. *)
Lemma all_owners_found (liveOwners : owners) (keys : list RunKey.t) key :
  NoDup keys -> length (List.filter (live_key liveOwners) keys) = size liveOwners ->
  is_Some (liveOwners !! key) -> key ∈ keys.
Proof.
  intros Hnodup Hcount Hlive. set (found := List.filter (live_key liveOwners) keys) in *.
  assert (NoDup found) as Hfound by (apply NoDup_ListNoDup, List.NoDup_filter, NoDup_ListNoDup, Hnodup).
  assert (list_to_set found =@{gset RunKey.t} dom liveOwners) as Hall.
  { apply set_subseteq_size_eq.
    - intros k Hk. apply elem_of_list_to_set, list_elem_of_In, filter_In in Hk as [_ Hk].
      apply elem_of_dom. unfold live_key, non_nil in Hk. by destruct (liveOwners !! k).
    - rewrite size_list_to_set by done. rewrite Hcount, size_dom. done. }
  apply elem_of_dom in Hlive. rewrite <- Hall, elem_of_list_to_set in Hlive.
  apply list_elem_of_In, filter_In in Hlive as [Hin _]. by apply list_elem_of_In.
Qed.

(** What an admitted scan says of every file of the store. *)
Lemma admission_inv fs store target key fence' now liveOwners reservation cloneIntent :
  checkLinuxV2NativeAdmissionLocked fs store target key fence' now liveOwners reservation cloneIntent = Ok tt ->
  (forall path content, store.(runs) !! path = Some content ->
     exists foreign, content = Decodes foreign /\ valid_journal foreign /\ path = journalPath (Key foreign) /\
       (Key foreign <> key -> admitted_beside now liveOwners reservation cloneIntent foreign)) /\
  (forall owner, is_Some (liveOwners !! owner) ->
     exists foreign, store.(runs) !! journalPath owner = Some (Decodes foreign) /\ Key foreign = owner).
Proof.
  unfold checkLinuxV2NativeAdmissionLocked, scanLinuxV2NativeAdmissionLocked. intros Hrun. inv_ok.
  match goal with Hs : forEachJournal _ _ _ _ = Ok _ |- _ => apply forEachJournal_scanned in Hs as (journals & Hscan) end.
  pose proof (scanned_entries _ _ _ _ _ _ Hscan) as [Hentries Hvalid].
  apply scan_inv in Hscan as [Hadmitted Hcount].
  assert (forall path content, store.(runs) !! path = Some content <->
    exists journal, journal ∈ journals /\ path = journalPath (Key journal) /\ content = Decodes journal) as Hfiles.
  { intros path content. rewrite <- elem_of_map_to_list, Hentries, list_elem_of_fmap. clear.
    naive_solver. }
  split.
  - intros path content (foreign & Hin & -> & ->)%Hfiles. exists foreign. rewrite Forall_forall in Hvalid, Hadmitted.
    split_and!; [done|by apply Hvalid|done|]. intros Hne. destruct (Hadmitted _ Hin); [congruence|done].
  - intros owner Hlive. apply (all_owners_found _ (map Key journals)) in Hlive.
    + apply list_elem_of_fmap in Hlive as (foreign & -> & Hin). exists foreign. split; [|done]. apply Hfiles. eauto.
    + apply (NoDup_fmap_1 journalPath). pose proof (NoDup_fst_map_to_list store.(runs)) as Hnodup.
      rewrite Hentries in Hnodup.
      change (NoDup (map journalPath (map Key journals))).
      rewrite map_map. change (NoDup (map fst (map (fun journal => (journalPath (Key journal), Decodes journal)) journals))) in Hnodup.
      by rewrite map_map in Hnodup.
    + breflect. match goal with Hs : (_ =? _)%nat = true |- _ => apply Nat.eqb_eq in Hs; rewrite <- Hs, Hcount end.
      cbn [fst]. lia.
Qed.

Lemma mutateJournal_ok fs store key f journal :
  (mutateJournal fs store key f).2 = Ok journal ->
  exists loaded, loadJournalLocked fs store key = Ok loaded /\ f loaded = Ok journal.
Proof.
  unfold mutateJournal. destruct (negb (validateKey key)); [done|]. destruct (ensureOpenLocked store); [|done].
  destruct (rbind _ _) as [updated|] eqn:E; [|done]. cbn [saved fst snd]. intros Hsaved. inv_ok. subst. eauto.
Qed.

(** The leaf cgroup a reservation names. *)
Definition leaf_path (reservation : LinuxCgroupReservation.t) : string * string :=
  (reservation.(LinuxCgroupReservation.Parent).(LinuxCgroupParentIdentity.Path),
   reservation.(LinuxCgroupReservation.LeafName)).

(** C38: a cgroup is reserved only beside runs that cannot interfere. When
    [ReserveLinuxCgroup] succeeds, every file of the store is a valid journal
    under its own name; every other run is an owner the daemon attests, with
    the fence it attests and healthy, or is safely retired, and reserves
    another leaf cgroup; and every owner the daemon attests has a journal. *)
Theorem reservation_is_exclusive fs store key fence' reservation now liveOwners journal :
  (ReserveLinuxCgroup fs store key fence' reservation now liveOwners).2 = Ok journal ->
  journal.(ContainmentCgroup) = Some reservation /\
  (forall path content, store.(runs) !! path = Some content ->
     exists foreign, content = Decodes foreign /\ valid_journal foreign /\ path = journalPath (Key foreign) /\
       (Key foreign <> key ->
          (forall other, foreign.(ContainmentCgroup) = Some other -> leaf_path other <> leaf_path reservation) /\
          match liveOwners !! Key foreign with
          | Some liveFence => sameFence liveFence (fence foreign) = true /\ linuxV2ForeignOwnerIsHealthy foreign now = true
          | None => linuxV2ForeignJournalIsSafelyRetired foreign = true
          end)) /\
  (forall owner, is_Some (liveOwners !! owner) ->
     exists foreign, store.(runs) !! journalPath owner = Some (Decodes foreign) /\ Key foreign = owner).
Proof.
  unfold ReserveLinuxCgroup, checked. destruct (reserveArguments reservation); [|done].
  intros (loaded & Hload & Hrun)%mutateJournal_ok. unfold reserveLinuxCgroup in Hrun. inv_ok.
  match goal with Ha : checkLinuxV2NativeAdmissionLocked _ _ _ _ _ _ _ _ _ = Ok ?u |- _ =>
    destruct u; apply admission_inv in Ha as [Hfiles Howners] end. split_and!; [|clear Hrun|exact Howners].
  - destruct (ContainmentCgroup loaded) as [current|] eqn:Hcurrent; [|inv_ok; by subst].
    destruct (LinuxCgroupReservation.Equal current reservation) eqn:Hequal; inv_ok. eqb_subst Hequal. by subst.
  - intros path content (foreign & -> & Hvalid & -> & Hbeside)%Hfiles. exists foreign. split_and!; [done..|].
    intros (Howner & _ & Hleaf)%Hbeside. split; [|exact Howner]. intros other Hother Hsame.
    unfold leafPathFree in Hleaf. rewrite Hother in Hleaf. cbn [none_or] in Hleaf. injection Hsame as Hp Hn.
    rewrite Hp, Hn, !String.eqb_refl in Hleaf. done.
Qed.
End Admission.
