(* ===== verification/GateProps.v ===== *)
(** * GateProps: the launcher's word that no gate was produced

    The root launcher signs "never created" with the secret of the
    reservation; the daemon accepts a pre-gate stop receipt on that word. *)

From S2P Require Import Prelude Sha256 Json Authority Protocol Journal Validation Store Cgroup.
Open Scope string_scope.
Open Scope Z_scope.

Lemma nibble_roundtrip d : 0 <= d < 16 -> hex_value (nibble_char d) = d.
Proof.
  intros H. assert (exists n : nat, (n < 16)%nat /\ d = Z.of_nat n) as (n & Hn & ->) by (exists (Z.to_nat d); lia).
  do 16 (destruct n as [|n]; [reflexivity|]). lia.
Qed.

Lemma digit_roundtrip a : lower_hex_digit a = true -> nibble_char (hex_value a) = a /\ 0 <= hex_value a < 16.
Proof. by destruct a as [[] [] [] [] [] [] [] []]; vm_compute; intros H; split; try split. Qed.

Lemma byte_split b : 0 <= b < 256 -> 16 * Z.shiftr b 4 + Z.land b 15 = b /\ 0 <= Z.shiftr b 4 < 16 /\ 0 <= Z.land b 15 < 16.
Proof.
  intros Hb. change 15 with (Z.ones 4). rewrite Z.land_ones, Z.shiftr_div_pow2 by lia. change (2 ^ 4) with 16.
  pose proof (Z.div_mod b 16). pose proof (Z.mod_pos_bound b 16). lia.
Qed.

Lemma byte_join h l : 0 <= h < 16 -> 0 <= l < 16 -> Z.shiftr (16 * h + l) 4 = h /\ Z.land (16 * h + l) 15 = l.
Proof.
  intros Hh Hl. change 15 with (Z.ones 4). rewrite Z.land_ones, Z.shiftr_div_pow2 by lia. change (2 ^ 4) with 16.
  split; symmetry; [apply Z.div_unique with l; lia|apply Z.mod_unique with h; lia].
Qed.

Lemma hex_bytes_encode l : Forall (fun b => 0 <= b < 256) l -> hex_bytes (hex_encode l) = l.
Proof.
  induction 1 as [|b l Hb _ IH]; [done|]. cbn [hex_encode hex_bytes]. destruct (byte_split _ Hb) as (Hsplit & Hh & Hl).
  by rewrite IH, !nibble_roundtrip, Hsplit.
Qed.

Lemma hex_encode_bytes n s :
  String.length s = (2 * n)%nat -> string_forallb lower_hex_digit s = true -> hex_encode (hex_bytes s) = s.
Proof.
  revert s. induction n as [|n IH]; intros s Hlen Hhex.
  - by destruct s.
  - destruct s as [|a [|b s]]; [done|simpl in Hlen; lia|]. cbn [string_forallb] in Hhex. breflect.
    cbn [hex_bytes hex_encode]. rewrite IH; [|simpl in Hlen; lia|done].
    destruct (digit_roundtrip a) as [Ea Ha]; [done|]. destruct (digit_roundtrip b) as [Eb Hb]; [done|].
    destruct (byte_join _ _ Ha Hb) as [-> ->]. by rewrite Ea, Eb.
Qed.

Lemma hmac_range key message : Forall (fun b => 0 <= b < 256) (hmac_sha256 key message).
Proof. apply sha_out_range. Qed.

Lemma hmac_length key message : length (hmac_sha256 key message) = 32%nat.
Proof. apply sha_out_length. Qed.

(** The authenticator is the canonical form of thirty-two bytes. *)
Lemma signed_canonical secret token launcher mac :
  SignGateNeverProducedAuthenticator secret token launcher = Some mac ->
  decodeCanonicalHex mac 32 = Some (hex_bytes mac) /\ hex_encode (hex_bytes mac) = mac.
Proof.
  unfold SignGateNeverProducedAuthenticator. destruct (decodeCanonicalHex secret SecretBytes) as [key|]; [|done].
  destruct (_ || _); [done|]. cbv zeta. intros <-%(inj Some). rewrite hex_bytes_encode by apply hmac_range. split; [|done].
  unfold decodeCanonicalHex. rewrite hex_encode_hex by apply hmac_range.
  unfold len. rewrite hex_encode_length, hmac_length. change (Z.of_nat (2 * 32) =? 2 * 32) with true.
  cbn [andb]. by rewrite hex_bytes_encode by apply hmac_range.
Qed.

(** C40: verification accepts exactly what the launcher signs. With the
    secret the launcher signed with, a result for its launch token and
    launcher is accepted if and only if it is well formed and carries the
    authenticator the signing produced. *)
Theorem gate_authenticator_roundtrip secret result mac :
  SignGateNeverProducedAuthenticator secret result.(LinuxCgroupGateProductionResult.LaunchToken)
    result.(LinuxCgroupGateProductionResult.Launcher) = Some mac ->
  VerifyGateNeverProducedAuthenticator secret result = true <->
  LinuxCgroupGateProductionResult.ValidateFor result result.(LinuxCgroupGateProductionResult.LaunchToken)
    result.(LinuxCgroupGateProductionResult.Launcher) = true /\
  result.(LinuxCgroupGateProductionResult.Authenticator) = mac.
Proof.
  intros Hsign. destruct (signed_canonical _ _ _ _ Hsign) as [Hdecode Hencode].
  unfold VerifyGateNeverProducedAuthenticator. rewrite Hsign, andb_true_iff. cbn [some_and]. split.
  - intros [Hvalid Hsame]. split; [done|]. apply some_and_true in Hsame as (got & Hgot & ->%bool_decide_eq_true).
    unfold decodeCanonicalHex in Hgot. destruct (_ && _) eqn:Hcanonical; [|done]. injection Hgot as Hbytes. breflect.
    unfold len in *. rewrite <- Hencode, <- Hbytes. symmetry. apply (hex_encode_bytes 32); [lia|done].
  - intros [Hvalid ->]. split; [done|]. rewrite Hdecode. cbn [some_and]. by apply bool_decide_eq_true.
Qed.
