(* ===== verification/WireProps.v ===== *)
(** * WireProps: the frames mean what was sent

    Facts on the byte algebra of [Wire] ([slice], [put], [le], [unle]), the
    readers against the appenders in both directions, and the round trips of
    the frames. [DecodeRelease] is the Go reader of a RELEASE, which the tests
    call; the gate reads the frame with its own C code. *)

From S2P Require Import Prelude Sha256 Json Authority Protocol Journal Validation Store Cgroup Wire.
Open Scope string_scope.
Open Scope Z_scope.

(** ** Little-endian integers *)

Definition is_byte (b : Z) : Prop := 0 <= b < 256.

Lemma le_length n v : length (le n v) = n.
Proof. revert v. induction n as [|n IH]; intros v; simpl; [done|]. by rewrite IH. Qed.

Lemma le_bytes n v : Forall is_byte (le n v).
Proof.
  revert v. induction n as [|n IH]; intros v; simpl; constructor; [|done]. unfold is_byte. apply Z.mod_pos_bound. lia.
Qed.

Lemma unle_le n v : 0 <= v < 256 ^ Z.of_nat n -> unle (le n v) = v.
Proof.
  revert v. induction n as [|n IH]; intros v Hv; cbn [le unle]; [simpl in Hv; lia|].
  rewrite Nat2Z.inj_succ, Z.pow_succ_r in Hv by lia.
  rewrite IH; [pose proof (Z.div_mod v 256); lia|].
  split; [apply Z.div_pos; lia|apply Z.div_lt_upper_bound; lia].
Qed.

Lemma le_unle bytes : Forall is_byte bytes -> le (length bytes) (unle bytes) = bytes.
Proof.
  induction 1 as [|b bytes Hb _ IH]; cbn [le unle length]; [done|]. unfold is_byte in Hb. f_equal.
  - rewrite (Z.mul_comm 256), Z.mod_add by lia. by apply Z.mod_small.
  - rewrite (Z.mul_comm 256), Z.div_add, (Z.div_small b) by lia. by rewrite Z.add_0_l.
Qed.

Lemma unle_range bytes : Forall is_byte bytes -> 0 <= unle bytes < 256 ^ llen bytes.
Proof.
  unfold llen. induction 1 as [|b bytes Hb _ IH]; cbn [unle length]; [simpl; lia|].
  rewrite Nat2Z.inj_succ, Z.pow_succ_r by lia. unfold is_byte in Hb. lia.
Qed.

#[local] Arguments le : simpl never.
#[local] Arguments slice : simpl never.
#[local] Arguments zeros : simpl never.

(** ** Slices *)

Lemma slice_length packet from to : (from <= to <= length packet)%nat -> length (slice packet from to) = (to - from)%nat.
Proof. intros H. unfold slice. rewrite length_take, length_drop. lia. Qed.

Lemma slice_bytes packet from to : Forall is_byte packet -> Forall is_byte (slice packet from to).
Proof. intros H. unfold slice. by apply Forall_take, Forall_drop. Qed.

Lemma le_slice packet from to n : Forall is_byte packet -> (from <= to <= length packet)%nat -> n = (to - from)%nat ->
  le n (unle (slice packet from to)) = slice packet from to.
Proof. intros Hb H ->. rewrite <- (slice_length packet) by done. by apply le_unle, slice_bytes. Qed.

Lemma slice_all packet : slice packet 0 (length packet) = packet.
Proof. unfold slice. rewrite drop_0. apply take_ge. lia. Qed.

Lemma slice_split packet from mid to :
  (from <= mid <= to)%nat -> slice packet from to = (slice packet from mid ++ slice packet mid to)%list.
Proof.
  intros H. unfold slice. replace (to - from)%nat with ((mid - from) + (to - mid))%nat by lia.
  rewrite <- take_take_drop, drop_drop. by replace (from + (mid - from))%nat with mid by lia.
Qed.

Lemma drop_slice packet from to : (from <= to <= length packet)%nat ->
  drop from packet = (slice packet from to ++ drop to packet)%list.
Proof.
  intros H. unfold slice. rewrite <- (take_drop (to - from) (drop from packet)) at 1.
  rewrite drop_drop. by replace (from + (to - from))%nat with to by lia.
Qed.

Lemma slice_here (a b : list Z) n : length a = n -> slice (a ++ b) 0 n = a.
Proof. intros <-. unfold slice. rewrite drop_0, Nat.sub_0_r. by apply take_app_length. Qed.

Lemma slice_full (a : list Z) n : length a = n -> slice a 0 n = a.
Proof. intros <-. apply slice_all. Qed.

Lemma slice_skip (a b : list Z) n from to : length a = n -> (n <= from)%nat -> slice (a ++ b) from to = slice b (from - n) (to - n).
Proof.
  intros <- H. unfold slice. rewrite drop_app_ge by done. f_equal. lia.
Qed.

(** ** Building a frame in place *)

Lemma zeros_length n : length (zeros n) = n.
Proof. apply repeat_length. Qed.

Lemma zeros_app n m : zeros (n + m) = (zeros n ++ zeros m)%list.
Proof. apply repeat_app. Qed.

(** A field written into the zeros behind what is written already, [gap]
    bytes further on. *)
Lemma put_zeros a gap n off bytes : off = (length a + gap)%nat -> (gap + length bytes <= n)%nat ->
  put (a ++ zeros n) off bytes = (a ++ zeros gap ++ bytes ++ zeros (n - gap - length bytes))%list.
Proof.
  intros -> H. unfold put. set (m := (n - gap - length bytes)%nat).
  assert (a ++ zeros n = (a ++ zeros gap) ++ (zeros (length bytes) ++ zeros m))%list as ->.
  { rewrite <- app_assoc, <- !zeros_app. do 2 f_equal. subst m. lia. }
  rewrite take_app_length' by (rewrite length_app, zeros_length; lia). rewrite <- app_assoc. do 3 f_equal.
  rewrite !app_assoc, <- (app_assoc (a ++ zeros gap)), app_assoc.
  rewrite drop_app_length'; [done|]. rewrite !length_app, !zeros_length. lia.
Qed.

Lemma put_next a n off bytes : off = length a -> (length bytes <= n)%nat ->
  put (a ++ zeros n) off bytes = (a ++ bytes ++ zeros (n - length bytes))%list.
Proof. intros -> H. rewrite (put_zeros a 0) by lia. simpl. by rewrite Nat.sub_0_r. Qed.

Definition frame_header (version kind : Z) : list Z := (launchMagic ++ le 2 version ++ le 2 kind)%list.

Lemma frame_header_length version kind : length (frame_header version kind) = 12%nat.
Proof. done. Qed.

Lemma fixedFrame_bytes kind n : fixedFrame kind (12 + n) = (frame_header wireVersion kind ++ zeros n)%list.
Proof. done. Qed.

Lemma put_version version kind rest :
  put (frame_header wireVersion kind ++ rest)%list 8 (le 2 version) = (frame_header version kind ++ rest)%list.
Proof. done. Qed.

Lemma header_bytes version kind rest : 0 <= version < 2 ^ 16 -> 0 <= kind < 2 ^ 16 ->
  header (frame_header version kind ++ rest) version kind = true.
Proof.
  intros Hv Hk. unfold header, frame_header. rewrite <- !app_assoc.
  rewrite (slice_here launchMagic) by done. rewrite bool_decide_eq_true_2 by done.
  rewrite (slice_skip launchMagic _ 8), (slice_skip launchMagic _ 8) by (done || lia). cbn [Nat.sub].
  rewrite (slice_here (le 2 version)) by apply le_length.
  rewrite (slice_skip (le 2 version) _ 2) by (apply le_length || lia). cbn [Nat.sub].
  rewrite (slice_here (le 2 kind)) by apply le_length. rewrite !unle_le by (simpl; lia). by rewrite !Z.eqb_refl.
Qed.

Lemma header_inv packet version kind : Forall is_byte packet -> (12 <= length packet)%nat ->
  header packet version kind = true -> packet = (frame_header version kind ++ drop 12 packet)%list.
Proof.
  intros Hb Hlen H. unfold header in H. breflect.
  pose proof (le_slice packet 8 10 2 Hb ltac:(lia) eq_refl) as Hversion.
  pose proof (le_slice packet 10 12 2 Hb ltac:(lia) eq_refl) as Hkind. subst version kind.
  unfold frame_header. rewrite Hversion, Hkind.
  match goal with H : bool_decide (_ = launchMagic) = true |- _ => apply bool_decide_eq_true in H as <- end.
  rewrite <- !app_assoc, <- !drop_slice by lia. by rewrite drop_0.
Qed.

(** ** Fields *)

(** The fields of a frame that is a concatenation, at numeric positions. *)
Ltac field_size a :=
  lazymatch a with
  | le ?n _ => constr:(n)
  | zeros ?n => constr:(n)
  | frame_header _ _ => constr:(12%nat)
  | _ => match goal with H : length a = ?n |- _ => constr:(n) end
  end.
Ltac solve_size := first [eassumption|apply le_length|apply zeros_length|apply frame_header_length|done|lia].
Ltac slice_fields :=
  repeat match goal with
  | |- context [slice (?a ++ ?b) 0 ?to] => let n := field_size a in rewrite (slice_here a b n) by solve_size
  | |- context [slice (?a ++ ?b) ?from ?to] =>
      let n := field_size a in rewrite (slice_skip a b n from to) by solve_size; cbn [Nat.sub]
  | |- context [slice ?a 0 ?n] => rewrite (slice_full a n) by solve_size
  end.

Definition uint32 (v : Z) : Prop := 0 <= v < 2 ^ 32.
Definition uint64 (v : Z) : Prop := 0 <= v < 2 ^ 64.

Lemma unle_le4 v : uint32 v -> unle (le 4 v) = v.
Proof. intros H. by apply unle_le. Qed.
Lemma unle_le8 v : uint64 v -> unle (le 8 v) = v.
Proof. intros H. by apply unle_le. Qed.

Lemma unle_slice n packet from to : Forall is_byte packet -> (from + n = to)%nat -> (to <= length packet)%nat ->
  0 <= unle (slice packet from to) < 256 ^ Z.of_nat n.
Proof.
  intros Hb <- H. pose proof (unle_range _ (slice_bytes packet from (from + n) Hb)) as Hr.
  unfold llen in Hr. rewrite slice_length in Hr by lia. by replace (from + n - from)%nat with n in Hr by lia.
Qed.

(** ** The launch result *)

(** The Go types of the fields; a PID is an int, which the frame truncates. *)
Definition launch_result_typed (r : LaunchResult.t) : Prop :=
  uint32 r.(LaunchResult.Status) /\ uint32 r.(LaunchResult.Errno) /\
  length r.(LaunchResult.Token) = 32%nat /\ Forall is_byte r.(LaunchResult.Token) /\
  length r.(LaunchResult.Authenticator) = 32%nat /\ Forall is_byte r.(LaunchResult.Authenticator) /\
  (let i := r.(LaunchResult.Identity) in
   uint32 i.(ProcessIdentity.PID) /\ uint32 i.(ProcessIdentity.OwnerPID) /\ uint32 i.(ProcessIdentity.HostUID) /\
   uint32 i.(ProcessIdentity.HostGID) /\ uint64 i.(ProcessIdentity.StartTime) /\ uint64 i.(ProcessIdentity.UserNSDevice) /\
   uint64 i.(ProcessIdentity.UserNSInode)).

Definition launch_result_bytes (r : LaunchResult.t) : list Z :=
  let i := r.(LaunchResult.Identity) in
  (frame_header wireVersion frameLaunchResult ++ le 4 r.(LaunchResult.Status) ++ le 4 r.(LaunchResult.Errno) ++
   r.(LaunchResult.Token) ++ le 4 i.(ProcessIdentity.PID) ++ le 4 i.(ProcessIdentity.HostUID) ++
   le 4 i.(ProcessIdentity.HostGID) ++ le 4 i.(ProcessIdentity.OwnerPID) ++ zeros 4 ++ le 8 i.(ProcessIdentity.StartTime) ++
   le 8 i.(ProcessIdentity.UserNSDevice) ++ le 8 i.(ProcessIdentity.UserNSInode) ++ r.(LaunchResult.Authenticator))%list.

(** Write the next field, or one behind a gap. *)
Ltac frame_length := rewrite ?length_app, ?le_length, ?zeros_length, ?frame_header_length; simpl; lia.
Ltac put_field :=
  rewrite put_next by frame_length;
  match goal with |- context [zeros (?n - length ?f)] =>
    (let k := fresh in assert (length f = _) as k by (apply le_length || eassumption); rewrite k; clear k); cbn [Nat.sub]
  end; rewrite ?app_assoc.

Lemma EncodeLaunchResult_bytes r : length r.(LaunchResult.Token) = 32%nat -> length r.(LaunchResult.Authenticator) = 32%nat ->
  LaunchResult.validStatus r = true -> EncodeLaunchResult r = Ok (launch_result_bytes r).
Proof.
  destruct r as [status errno token [pid start dev ino uid gid owner] auth]. simpl LaunchResult.Token.
  simpl LaunchResult.Authenticator. intros Ht Ha Hs. unfold EncodeLaunchResult. rewrite Hs. cbn [negb].
  f_equal. change launchResultSize with (12 + 116)%nat. rewrite fixedFrame_bytes. unfold launch_result_bytes.
  cbn [LaunchResult.Status LaunchResult.Errno LaunchResult.Token LaunchResult.Identity LaunchResult.Authenticator
    ProcessIdentity.PID ProcessIdentity.HostUID ProcessIdentity.HostGID ProcessIdentity.OwnerPID ProcessIdentity.StartTime
    ProcessIdentity.UserNSDevice ProcessIdentity.UserNSInode].
  do 7 put_field. rewrite (put_zeros _ 4) by frame_length. rewrite le_length. cbn [Nat.sub]. rewrite ?app_assoc.
  do 3 put_field. by rewrite app_nil_r.
Qed.

Lemma drop_end (packet : list Z) n : length packet = n -> drop n packet = [].
Proof. intros <-. apply drop_all. Qed.

Lemma launch_result_fields packet : Forall is_byte packet -> length packet = launchResultSize ->
  header packet wireVersion frameLaunchResult = true -> unle (slice packet 68 72) = 0 ->
  packet = (frame_header wireVersion frameLaunchResult ++ slice packet 12 16 ++ slice packet 16 20 ++ slice packet 20 52 ++
    slice packet 52 56 ++ slice packet 56 60 ++ slice packet 60 64 ++ slice packet 64 68 ++ zeros 4 ++ slice packet 72 80 ++
    slice packet 80 88 ++ slice packet 88 96 ++ slice packet 96 128)%list.
Proof.
  unfold launchResultSize. intros Hb Hlen Hh H0.
  assert (zeros 4 = slice packet 68 72) as ->.
  { rewrite <- (le_slice packet 68 72 4) by (done || lia). by rewrite H0. }
  rewrite (header_inv packet _ _ Hb ltac:(lia) Hh) at 1. f_equal.
  rewrite <- (app_nil_r (slice packet 96 128)), <- (drop_end packet 128 Hlen).
  by rewrite <- !drop_slice by lia.
Qed.

Lemma DecodeLaunchResult_encodes packet r : Forall is_byte packet -> DecodeLaunchResult packet = Ok r ->
  launch_result_typed r /\ EncodeLaunchResult r = Ok packet /\ LaunchResult.validIdentity r = true.
Proof.
  intros Hb H. unfold DecodeLaunchResult in H. cbv zeta in H. inv_ok. breflect.
  match goal with H : (_ =? _)%nat = true |- _ => apply Nat.eqb_eq in H as Hlen end. subst r.
  assert (length packet = 128%nat) as Hlen' by done.
  split; [|split; [|done]].
  - unfold launch_result_typed. cbn -[slice]. split_and!;
      first [by apply slice_bytes|rewrite slice_length; lia|apply (unle_slice 4); (done || lia)|apply (unle_slice 8); (done || lia)].
  - rewrite EncodeLaunchResult_bytes by (done || (cbn -[slice]; rewrite slice_length; lia)).
    f_equal. unfold launch_result_bytes. cbn -[le slice zeros frame_header].
    rewrite !le_slice by (done || lia). symmetry. by apply launch_result_fields.
Qed.

Lemma EncodeLaunchResult_decodes packet r : launch_result_typed r -> EncodeLaunchResult r = Ok packet ->
  LaunchResult.validIdentity r = true -> DecodeLaunchResult packet = Ok r.
Proof.
  intros Ht He Hi. assert (LaunchResult.validStatus r = true) as Hs by (unfold EncodeLaunchResult in He; inv_ok; by breflect).
  unfold launch_result_typed in Ht. rewrite EncodeLaunchResult_bytes in He by (done || apply Ht). injection He as <-.
  destruct r as [status errno token [pid start dev ino uid gid owner] auth]. cbn in Ht. destruct_and!.
  unfold DecodeLaunchResult. rewrite (proj2 (Nat.eqb_eq _ _)); [|unfold launch_result_bytes, launchResultSize; frame_length].
  unfold launch_result_bytes at 1. rewrite header_bytes by done. cbn [negb orb].
  unfold launch_result_bytes.
  cbn [LaunchResult.Status LaunchResult.Errno LaunchResult.Token LaunchResult.Identity LaunchResult.Authenticator
    ProcessIdentity.PID ProcessIdentity.HostUID ProcessIdentity.HostGID ProcessIdentity.OwnerPID ProcessIdentity.StartTime
    ProcessIdentity.UserNSDevice ProcessIdentity.UserNSInode].
  slice_fields. rewrite !unle_le4, !unle_le8 by done. cbv zeta. by rewrite Hs, Hi.
Qed.

(** ** Strings as bytes *)

Lemma string_bytes_length s : llen (string_bytes s) = len s.
Proof. unfold llen, len. f_equal. induction s as [|a s IH]; simpl; [done|]. by rewrite IH. Qed.

Lemma string_bytes_range s : Forall is_byte (string_bytes s).
Proof.
  induction s as [|a s IH]; simpl; constructor; [|done]. unfold is_byte, byte_at. pose proof (nat_ascii_bounded a). lia.
Qed.

Lemma bytes_string_bytes s : bytes_string (string_bytes s) = s.
Proof.
  induction s as [|a s IH]; cbn [string_bytes bytes_string]; [done|]. unfold byte_at. by rewrite Nat2Z.id, ascii_nat_embedding, IH.
Qed.

Lemma string_bytes_string l : Forall is_byte l -> string_bytes (bytes_string l) = l.
Proof.
  induction 1 as [|b l Hb _ IH]; cbn [string_bytes bytes_string]; [done|]. unfold is_byte in Hb. unfold byte_at.
  by rewrite nat_ascii_embedding, Z2Nat.id, IH by lia.
Qed.

Lemma string_bytes_nul s : existsb (fun b => b =? 0) (string_bytes s) = contains_nul s.
Proof. unfold contains_nul. induction s as [|a s IH]; simpl; [done|]. by rewrite IH. Qed.

(** ** Reading what was appended *)

(** The reader stands before [rest]. *)
Definition at_rest (body : list Z) (position : nat) (rest : list Z) : Prop :=
  (position <= length body)%nat /\ drop position body = rest.

Lemma at_rest_start a rest n : length a = n -> at_rest (a ++ rest) n rest.
Proof. intros <-. split; [rewrite length_app; lia|by rewrite drop_app_length]. Qed.

Lemma at_rest_step body position a rest : at_rest body position (a ++ rest) -> at_rest body (position + length a) rest.
Proof.
  intros [Hle Hd]. assert (length (drop position body) = length a + length rest)%nat as Hl by (by rewrite Hd, length_app).
  rewrite length_drop in Hl. split; [lia|]. rewrite <- drop_drop, Hd. by apply drop_app_length.
Qed.

Lemma at_rest_slice body position a rest : at_rest body position (a ++ rest) -> slice body position (position + length a) = a.
Proof.
  intros [_ Hd]. unfold slice. rewrite Hd. replace (position + length a - position)%nat with (length a) by lia.
  by apply take_app_length.
Qed.

Lemma at_rest_room body position a rest : at_rest body position (a ++ rest) -> llen a <= llen body - Z.of_nat position.
Proof.
  intros [Hle Hd]. assert (length (drop position body) = length a + length rest)%nat as Hl by (by rewrite Hd, length_app).
  rewrite length_drop in Hl. unfold llen. lia.
Qed.

Lemma at_rest_end body position : at_rest body position [] -> position = length body.
Proof. intros [Hle Hd]. apply (f_equal length) in Hd. rewrite length_drop in Hd. simpl in Hd. lia. Qed.

Lemma readWireUint32_ok body position v rest : uint32 v -> at_rest body position (le 4 v ++ rest) ->
  readWireUint32 body position = Ok (v, (position + 4)%nat) /\ at_rest body (position + 4) rest.
Proof.
  intros Hv H. pose proof (at_rest_room _ _ _ _ H) as Hroom. pose proof (at_rest_slice _ _ _ _ H) as Hs.
  apply at_rest_step in H. unfold llen in Hroom. rewrite le_length in *. unfold readWireUint32.
  rewrite Hs, unle_le4 by done. unfold llen. by rewrite (proj2 (Z.ltb_ge _ _)) by lia.
Qed.

Lemma readWireUint64_ok body position v rest : uint64 v -> at_rest body position (le 8 v ++ rest) ->
  readWireUint64 body position = Ok (v, (position + 8)%nat) /\ at_rest body (position + 8) rest.
Proof.
  intros Hv H. pose proof (at_rest_room _ _ _ _ H) as Hroom. pose proof (at_rest_slice _ _ _ _ H) as Hs.
  apply at_rest_step in H. unfold llen in Hroom. rewrite le_length in *. unfold readWireUint64.
  rewrite Hs, unle_le8 by done. unfold llen. by rewrite (proj2 (Z.ltb_ge _ _)) by lia.
Qed.

(** A string as it travels. *)
Definition wire_string (s : string) : list Z := (le 4 (len s) ++ string_bytes s)%list.

Lemma appendWireString_bytes destination s : appendWireString destination s = (destination ++ wire_string s)%list.
Proof. unfold appendWireString, appendWireUint32, wire_string. by rewrite app_assoc. Qed.

(** What a reader takes: bounded and without NUL. *)
Definition travels (s : string) : bool := (len s <=? maxCommandString) && negb (contains_nul s).

Lemma len_nonneg s : 0 <= len s.
Proof. unfold len. lia. Qed.

Lemma readWireString_ok body position s rest : travels s = true -> at_rest body position (wire_string s ++ rest) ->
  exists next, readWireString body position = Ok (s, next) /\ at_rest body next rest.
Proof.
  unfold travels. intros Hs H. breflect. pose proof (len_nonneg s).
  unfold wire_string in H. rewrite <- app_assoc in H.
  apply readWireUint32_ok in H as [Hread H]; [|unfold uint32, maxCommandString in *; lia].
  pose proof (at_rest_room _ _ _ _ H) as Hroom. pose proof (at_rest_slice _ _ _ _ H) as Hsl. apply at_rest_step in H.
  rewrite string_bytes_length in Hroom. assert (length (string_bytes s) = Z.to_nat (len s)) as Hl.
  { rewrite <- (string_bytes_length s). unfold llen. lia. }
  rewrite Hl in *. eexists. split; [|exact H]. unfold readWireString. rewrite Hread. cbn [rbind].
  rewrite (proj2 (Z.ltb_ge _ _)) by lia. rewrite (proj2 (Z.ltb_ge _ _)) by lia. cbn [orb].
  rewrite Hsl, string_bytes_nul. match goal with H : contains_nul _ = _ |- _ => rewrite H end. by rewrite bytes_string_bytes.
Qed.

Definition wire_strings (values : list string) : list Z := concat (map wire_string values).

Definition readNext (body : list Z) : list string * nat -> nat -> result (list string * nat) :=
  fun '(values, position) _ => try (value, position) <- readWireString body position ;; Ok ((values ++ [value])%list, position).

Lemma readNext_ok body values : forall before position rest from, forallb travels values = true ->
  at_rest body position (wire_strings values ++ rest) ->
  exists next, for_each (readNext body) (before, position) (seq from (length values)) = Ok ((before ++ values)%list, next) /\
    at_rest body next rest.
Proof.
  induction values as [|s values IH]; intros before position rest from Ht H; simpl in *.
  - exists position. by rewrite app_nil_r.
  - breflect. unfold wire_strings in H. simpl in H. rewrite <- app_assoc in H.
    apply readWireString_ok in H as (next & Hread & H); [|done]. rewrite Hread. cbn [rbind].
    destruct (IH (before ++ [s])%list next rest (S from)) as (last & Hlast & Hrest); [done|exact H|].
    exists last. by rewrite Hlast, <- app_assoc.
Qed.

Lemma readWireStrings_ok body position values rest n : n = length values -> forallb travels values = true ->
  at_rest body position (wire_strings values ++ rest) ->
  exists next, readWireStrings body position n = Ok (values, next) /\ at_rest body next rest.
Proof. intros -> Ht H. exact (readNext_ok body values [] position rest 0 Ht H). Qed.

Lemma appendWireStrings_bytes destination values :
  appendWireStrings destination values = (destination ++ le 4 (llen values) ++ wire_strings values)%list.
Proof.
  unfold appendWireStrings, appendWireUint32. rewrite (app_assoc destination). generalize (destination ++ le 4 (llen values))%list.
  induction values as [|s values IH]; intros before; cbn [fold_left]; [by rewrite app_nil_r|].
  rewrite IH, appendWireString_bytes, <- app_assoc. done.
Qed.

(** ** What was read was appended *)

(** The reader went over [a] to stand at [next]. *)
Definition went_over (body : list Z) (position : nat) (a : list Z) (next : nat) : Prop :=
  (next <= length body)%nat /\ drop position body = (a ++ drop next body)%list.

Lemma went_over_slice body position next : (position <= next <= length body)%nat ->
  went_over body position (slice body position next) next.
Proof. intros H. split; [lia|]. by apply drop_slice. Qed.

Lemma went_over_app body p a q b r : went_over body p a q -> went_over body q b r -> went_over body p (a ++ b) r.
Proof. intros [_ Ha] [Hr Hb]. split; [done|]. by rewrite Ha, Hb, app_assoc. Qed.

Lemma readWireUint32_inv body position v next : Forall is_byte body -> (position <= length body)%nat ->
  readWireUint32 body position = Ok (v, next) -> uint32 v /\ went_over body position (le 4 v) next.
Proof.
  intros Hb Hp H. unfold readWireUint32 in H. inv_ok. simplify_eq. unfold llen in *. apply Z.ltb_ge in E.
  split; [apply (unle_slice 4); (done || lia)|]. rewrite le_slice by (done || lia). apply went_over_slice. lia.
Qed.

Lemma readWireUint64_inv body position v next : Forall is_byte body -> (position <= length body)%nat ->
  readWireUint64 body position = Ok (v, next) -> uint64 v /\ went_over body position (le 8 v) next.
Proof.
  intros Hb Hp H. unfold readWireUint64 in H. inv_ok. simplify_eq. unfold llen in *. apply Z.ltb_ge in E.
  split; [apply (unle_slice 8); (done || lia)|]. rewrite le_slice by (done || lia). apply went_over_slice. lia.
Qed.

Lemma readWireString_inv body position s next : Forall is_byte body -> (position <= length body)%nat ->
  readWireString body position = Ok (s, next) -> travels s = true /\ went_over body position (wire_string s) next.
Proof.
  intros Hb Hp H. unfold readWireString in H. inv_ok. destruct a as [length start]. inv_ok. injection H as <- <-. breflect.
  match goal with H : readWireUint32 _ _ = _ |- _ => apply readWireUint32_inv in H as [Hl Hover] end; [|done|done].
  pose proof Hover as [Hstart _]. unfold uint32, llen in *.
  assert (Forall is_byte (slice body start (start + Z.to_nat length))) as Hsb by (by apply slice_bytes).
  assert (len (bytes_string (slice body start (start + Z.to_nat length))) = length) as Hlen.
  { rewrite <- string_bytes_length, string_bytes_string by done. unfold llen. rewrite slice_length; lia. }
  split.
  - unfold travels. rewrite Hlen, <- string_bytes_nul, string_bytes_string by done.
    apply andb_true_intro. split; [apply Z.leb_le; lia|by apply negb_true_iff].
  - unfold wire_string. rewrite Hlen, string_bytes_string by done.
    eapply went_over_app; [exact Hover|]. apply went_over_slice. lia.
Qed.

Lemma readNext_inv body count : forall before position from values next, Forall is_byte body -> (position <= length body)%nat ->
  for_each (readNext body) (before, position) (seq from count) = Ok (values, next) ->
  exists read, values = (before ++ read)%list /\ length read = count /\ forallb travels read = true /\
    went_over body position (wire_strings read) next.
Proof.
  induction count as [|count IH]; intros before position from values next Hb Hp H; simpl in H.
  - injection H as <- <-. exists []. rewrite app_nil_r. by repeat split.
  - inv_ok. destruct a as [values' middle], a0 as [s start]. injection E as <- <-.
    match goal with H : readWireString _ _ = _ |- _ => apply readWireString_inv in H as [Ht Hover] end; [|done|done].
    apply IH in H as (read & -> & Hcount & Hread & Hrest); [|done|apply Hover].
    exists (s :: read). rewrite <- app_assoc. split_and!; [done|simpl; by rewrite Hcount|simpl; by rewrite Ht|].
    by eapply went_over_app.
Qed.

Lemma readWireStrings_inv body position count values next : Forall is_byte body -> (position <= length body)%nat ->
  readWireStrings body position count = Ok (values, next) ->
  length values = count /\ forallb travels values = true /\ went_over body position (wire_strings values) next.
Proof. intros Hb Hp H. apply (readNext_inv body count) in H as (read & -> & H); [exact H|done|done]. Qed.

Lemma instead_ok {A} (r : result A) e x : instead r e = Ok x <-> r = Ok x.
Proof. destruct r; simpl; split; congruence. Qed.

(** ** The checkout receipt *)

Import LinuxCloneCheckoutReceipt (Version, RunID, Generation, BindingKey, ResourceID, Target, Nonce, SeedDigest, BaseCommit,
  TargetDevice, TargetInode).

Definition receipt_fields (r : LinuxCloneCheckoutReceipt.t) : list Z :=
  (le 4 r.(Version) ++ wire_string r.(RunID) ++ le 8 r.(Generation) ++ wire_string r.(BindingKey) ++
   wire_string r.(ResourceID) ++ wire_string r.(Target) ++ wire_string r.(Nonce) ++ wire_string r.(SeedDigest) ++
   wire_string r.(BaseCommit) ++ le 8 r.(TargetDevice) ++ le 8 r.(TargetInode))%list.

Definition receipt_bytes (kind : Z) (r : LinuxCloneCheckoutReceipt.t) : list Z :=
  (frame_header cloneStatusWireVersion kind ++ receipt_fields r)%list.

Lemma encodeCloneCheckoutReceipt_bytes kind r : encodeCloneCheckoutReceipt kind r =
  if LinuxCloneCheckoutReceipt.Validate r then
    if maxCloneStatusFrameSize <? llen (receipt_bytes kind r)
    then Err (Errorf "Linux clone checkout receipt exceeds the status frame bound") else Ok (receipt_bytes kind r)
  else Err (Errorf "Linux clone checkout receipt is invalid").
Proof.
  unfold encodeCloneCheckoutReceipt. destruct (LinuxCloneCheckoutReceipt.Validate r); cbn [negb]; [|done].
  cbv zeta. change (cloneStatusFrame kind 12) with (frame_header cloneStatusWireVersion kind ++ zeros 0)%list.
  rewrite !appendWireString_bytes. unfold appendWireUint32, appendWireUint64. change (zeros 0) with (@nil Z). rewrite app_nil_r.
  unfold receipt_bytes, receipt_fields. by rewrite !app_assoc.
Qed.

(** What the validators accept has no NUL byte. *)

Lemma contains_nul_get s : contains_nul s = true -> exists n, String.get n s = Some "000"%char.
Proof.
  unfold contains_nul. induction s as [|a s IH]; simpl; [done|]. intros H. apply orb_prop in H as [H|H].
  - exists 0%nat. apply Z.eqb_eq in H. unfold byte_at in H. rewrite <- (ascii_nat_embedding a). by replace (nat_of_ascii a) with 0%nat by lia.
  - destruct (IH H) as [n Hn]. by exists (S n).
Qed.

Lemma string_forallb_at_get p s : forall k n a, string_forallb_at p k s = true -> String.get n s = Some a -> p (k + n)%nat a = true.
Proof.
  induction s as [|b s IH]; intros k [|n] a H Hn; simpl in *; try done; breflect.
  - injection Hn as ->. by rewrite Nat.add_0_r.
  - replace (k + S n)%nat with (S k + n)%nat by lia. by apply IH.
Qed.

Lemma forallb_no_nul p s : p "000"%char = false -> string_forallb p s = true -> contains_nul s = false.
Proof.
  intros Hp H. unfold contains_nul. induction s as [|a s IH]; simpl in *; [done|]. breflect. rewrite IH, orb_false_r by done.
  apply Z.eqb_neq. intros Hzero. unfold byte_at in Hzero.
  assert (a = "000"%char) as -> by (rewrite <- (ascii_nat_embedding a); by replace (nat_of_ascii a) with 0%nat by lia). congruence.
Qed.

Lemma contains_byte_weaken (p q : ascii -> bool) s : (forall a, q a = true -> p a = true) -> contains_byte p s = false -> contains_byte q s = false.
Proof.
  intros Hpq. induction s as [|a s IH]; simpl; [done|]. intros H. apply orb_false_iff in H as [Ha Hs]. rewrite IH, orb_false_r by done.
  destruct (q a) eqn:E; [|done]. apply Hpq in E. congruence.
Qed.

Lemma runID_travels s : validLinuxCloneRunID s = true -> travels s = true.
Proof.
  intros H. unfold travels. unfold validLinuxCloneRunID in H. destruct s as [|a s]; [done|]. breflect.
  rewrite (forallb_no_nul (fun c => isASCIIAlphaNumeric c || Ascii.eqb c "." || Ascii.eqb c "_" || Ascii.eqb c "-")); [|done|].
  - rewrite andb_true_r. apply Z.leb_le. unfold maxCommandString. lia.
  - simpl. by match goal with H : isASCIIAlphaNumeric _ = _ |- _ => rewrite H end.
Qed.

Lemma lowerHex_travels s n : n <= maxCommandString -> validLowerHex s n = true -> travels s = true.
Proof.
  intros Hn H. unfold validLowerHex, validHex, hex_decodes in H. breflect. unfold travels.
  rewrite (forallb_no_nul hex_digit) by done. rewrite andb_true_r. apply Z.leb_le. lia.
Qed.

Lemma digest_travels s : validLinuxCloneDigest s = true -> travels s = true.
Proof.
  intros H. unfold validLinuxCloneDigest in H. breflect.
  assert (exists hex, s = "sha256:" ++ hex /\ validLowerHex hex 64 = true) as (hex & -> & Hhex).
  { do 7 (destruct s as [|? s]; [done|]). cbn [has_prefix trim_prefix_len] in *. breflect.
    repeat match goal with H : Ascii.eqb _ _ = true |- _ => apply Ascii.eqb_eq in H; subst end. by exists s. }
  apply lowerHex_travels in Hhex as Ht; [|done]. unfold travels in *. apply andb_true_iff in Ht as [_ Ht].
  change (contains_nul ("sha256:" ++ hex)) with (contains_nul hex). rewrite Ht, andb_true_r.
  apply Z.leb_le. unfold maxCommandString. lia.
Qed.

Lemma resourceID_travels s : validLinuxCloneResourceID s = true -> travels s = true.
Proof.
  intros H. unfold validLinuxCloneResourceID in H. breflect. unfold travels.
  destruct (contains_nul s) eqn:E; [exfalso|rewrite andb_true_r; apply Z.leb_le; unfold maxCommandString; lia].
  apply contains_nul_get in E as [n Hn]. 
  match goal with H : string_forallb_at _ _ _ = true |- _ => apply (string_forallb_at_get _ _ _ n _ H) in Hn as Hp end.
  unfold byte_is in *. apply orb_prop in Hp as [Hp|Hp]; [|done]. unfold dash_position in Hp.
  assert (n = 8 \/ n = 13 \/ n = 18 \/ n = 23)%nat as Hcases.
  { rewrite !orb_true_iff, !Nat.eqb_eq in Hp. lia. }
  destruct Hcases as [-> | [-> | [-> | ->]]]; by rewrite Hn in *.
Qed.

Lemma gitObjectID_travels s : validLinuxCloneGitObjectID s = true -> travels s = true.
Proof.
  intros H. unfold validLinuxCloneGitObjectID in H. breflect. eapply lowerHex_travels; [|done].
  match goal with H : _ || _ = true |- _ => apply orb_prop in H as [H|H]; apply Z.eqb_eq in H; rewrite H end; done.
Qed.

Lemma clonePath_no_nul s : validLinuxClonePath s = true -> contains_nul s = false.
Proof.
  intros H. unfold validLinuxClonePath in H. breflect. unfold contains_nul.
  match goal with H : contains_byte _ _ = false |- _ => revert H end. apply contains_byte_weaken. intros a ->. done.
Qed.

(** The Go types of the receipt. *)
Definition receipt_typed (r : LinuxCloneCheckoutReceipt.t) : Prop :=
  r.(Generation) <= maxInt64 /\ uint64 r.(TargetDevice) /\ uint64 r.(TargetInode).

Lemma wire_string_length s : llen (wire_string s) = 4 + len s.
Proof. unfold wire_string, llen. rewrite length_app, le_length, Nat2Z.inj_add. f_equal. apply string_bytes_length. Qed.

Lemma llen_app {A} (a b : list A) : llen (a ++ b) = llen a + llen b.
Proof. unfold llen. rewrite length_app. lia. Qed.

Lemma llen_le n v : llen (le n v) = Z.of_nat n.
Proof. unfold llen. by rewrite le_length. Qed.

Lemma receipt_bytes_length kind r : llen (receipt_bytes kind r) =
  68 + len r.(RunID) + len r.(BindingKey) + len r.(ResourceID) + len r.(Target) + len r.(Nonce) + len r.(SeedDigest) +
  len r.(BaseCommit).
Proof.
  unfold receipt_bytes, receipt_fields. rewrite !llen_app, !wire_string_length, !llen_le.
  change (llen (frame_header cloneStatusWireVersion kind)) with 12. lia.
Qed.

(** Read the next field of the frame the reader stands before. *)
Ltac read_next H :=
  first [apply readWireString_ok in H as (? & -> & H)
        |apply readWireUint32_ok in H as [-> H]
        |apply readWireUint64_ok in H as [-> H]]; cbn [rbind instead]; [|try done..].

Lemma receipt_travels r : LinuxCloneCheckoutReceipt.Validate r = true -> receipt_typed r -> len r.(Target) <= maxCommandString ->
  uint32 r.(Version) /\ uint64 r.(Generation) /\ 0 < len r.(RunID) /\
  forallb travels [r.(RunID); r.(BindingKey); r.(ResourceID); r.(Target); r.(Nonce); r.(SeedDigest); r.(BaseCommit)] = true.
Proof.
  intros Hv (Hg & _) Ht. unfold LinuxCloneCheckoutReceipt.Validate in Hv. breflect. split_and!.
  - by replace r.(Version) with LinuxCloneVersion.
  - unfold uint64, maxInt64 in *. lia.
  - destruct r.(RunID); [done|unfold len; simpl; lia].
  - cbn [forallb]. rewrite (runID_travels r.(RunID)), (runID_travels r.(BindingKey)), (resourceID_travels r.(ResourceID)),
      (digest_travels r.(SeedDigest)), (gitObjectID_travels r.(BaseCommit)) by done.
    rewrite (lowerHex_travels r.(Nonce) (LinuxCloneNonceBytes * 2)) by done.
    unfold travels at 1. by rewrite clonePath_no_nul, (proj2 (Z.leb_le _ _)) by done.
Qed.

Lemma encodeCloneCheckoutReceipt_decodes kind r packet : 0 <= kind < 2 ^ 16 -> receipt_typed r ->
  len r.(Target) <= maxCommandString -> encodeCloneCheckoutReceipt kind r = Ok packet ->
  decodeCloneCheckoutReceipt packet kind = Ok r.
Proof.
  intros Hk (Hg & Hd & Hi) Ht He. rewrite encodeCloneCheckoutReceipt_bytes in He.
  destruct (LinuxCloneCheckoutReceipt.Validate r) eqn:Hv; [|done]. inv_ok. subst packet. rename E into Hmax.
  destruct (receipt_travels r Hv) as (Hversion & Hgen & Hrun & Htravels); [done|done|].
  cbn [forallb] in Htravels. rewrite andb_true_r in Htravels. breflect.
  assert (at_rest (receipt_bytes kind r) 12 (receipt_fields r)) as Hat by (apply at_rest_start, frame_header_length).
  pose proof (receipt_bytes_length kind r) as Hlen. unfold decodeCloneCheckoutReceipt.
  rewrite (proj2 (Z.ltb_ge (llen _) _)) by (rewrite Hlen; clear -Hrun; unfold len in *; lia).
  rewrite (proj2 (Z.ltb_ge maxCloneStatusFrameSize _)) by done.
  unfold receipt_bytes at 1. rewrite header_bytes by done. cbn [negb orb]. unfold receipt_fields in Hat.
  do 3 read_next Hat. rewrite (proj2 (Z.ltb_ge maxInt64 _)) by done. do 6 read_next Hat.
  pose proof (at_rest_slice _ _ _ _ Hat) as Hdev. pose proof (at_rest_step _ _ _ _ Hat) as Hat'. rewrite le_length in *.
  rewrite <- (app_nil_r (le 8 r.(TargetInode))) in Hat'.
  pose proof (at_rest_slice _ _ _ _ Hat') as Hino. apply at_rest_step, at_rest_end in Hat'. rewrite le_length in *.
  rewrite (proj2 (Z.eqb_eq _ 16)) by (unfold llen; rewrite <- Hat'; lia). cbn [negb].
  replace (x5 + 16)%nat with (x5 + 8 + 8)%nat by lia. rewrite Hdev, Hino, !unle_le8 by done.
  destruct r. cbn in *. by rewrite Hv.
Qed.

(** Undo the reads of a successful decoder, one field at a time. *)
Ltac unread :=
  repeat match goal with
  | H : instead _ _ = Ok _ |- _ => apply instead_ok in H
  | H : (let '(_, _) := ?a in _) = Ok _ |- _ => destruct a; inv_ok
  | H : (match ?a with (_, _) => _ end) = Ok _ |- _ => destruct a; inv_ok
  end.

Ltac inside body := first [done|lia|match goal with O : went_over body _ _ ?p |- (?p <= _)%nat => exact (proj1 O) end].
Ltac over :=
  repeat match goal with
  | H : readWireUint32 ?body _ = Ok _ |- _ => apply readWireUint32_inv in H as [? ?]; [|done|inside body]
  | H : readWireUint64 ?body _ = Ok _ |- _ => apply readWireUint64_inv in H as [? ?]; [|done|inside body]
  | H : readWireString ?body _ = Ok _ |- _ => apply readWireString_inv in H as [? ?]; [|done|inside body]
  | H : readWireStrings ?body _ _ = Ok _ |- _ => apply readWireStrings_inv in H as (? & ? & ?); [|done|inside body]
  end.
(** Write a remainder of the packet as the fields that were read. *)
Ltac spell_out := repeat match goal with O : went_over ?body ?p _ _ |- context [drop ?p ?body] => rewrite (proj2 O); clear O end.

Lemma decodeCloneCheckoutReceipt_encodes kind r packet : Forall is_byte packet ->
  decodeCloneCheckoutReceipt packet kind = Ok r ->
  receipt_typed r /\ len r.(Target) <= maxCommandString /\ encodeCloneCheckoutReceipt kind r = Ok packet.
Proof.
  intros Hb H. unfold decodeCloneCheckoutReceipt in H. inv_ok. unread. breflect.
  assert (12 <= length packet)%nat by (unfold llen in *; lia). over. unfold llen in *.
  assert (went_over packet n7 (slice packet n7 (n7 + 8)) (n7 + 8)) by (apply went_over_slice; lia).
  assert (went_over packet (n7 + 8) (slice packet (n7 + 8) (n7 + 16)) (n7 + 16)) by (apply went_over_slice; lia).
  assert (receipt_bytes kind r = packet) as Hbytes.
  { rewrite (header_inv packet _ _ Hb ltac:(done) E). unfold receipt_bytes. f_equal.
    spell_out. rewrite (drop_end packet) by lia. subst r. unfold receipt_fields. cbn -[le].
    by rewrite !le_slice, app_nil_r by (done || lia). }
  split_and!.
  - subst r. unfold receipt_typed. cbn -[slice]. split_and!; [done|apply (unle_slice 8)..]; (done || lia).
  - subst r. cbn. unfold travels in *. by breflect.
  - rewrite encodeCloneCheckoutReceipt_bytes, Hbytes. subst r. unfold llen.
    match goal with H : LinuxCloneCheckoutReceipt.Validate _ = true |- _ => rewrite H end.
    by rewrite (proj2 (Z.ltb_ge _ _)) by done.
Qed.

(** ** The guarded RELEASE *)

Import NativeCommand (Path, Args, Env, Dir, Stdin, Stdout, Stderr, Clone).

Definition command_bytes (c : NativeCommand.t) : list Z :=
  (wire_string c.(Path) ++ le 4 (llen c.(Args)) ++ wire_strings c.(Args) ++ le 4 (llen c.(Env)) ++ wire_strings c.(Env) ++
   wire_string c.(Dir))%list.

Lemma commandBody_bytes c : commandBody c = command_bytes c.
Proof.
  unfold commandBody, command_bytes. cbv zeta. rewrite !appendWireString_bytes, !appendWireStrings_bytes.
  by rewrite app_nil_l, <- !app_assoc.
Qed.

Definition release_bytes (version : Z) (token : list Z) (deadlineNS : Z) (body : list Z) : list Z :=
  (frame_header version frameRelease ++ token ++ le 4 (llen body) ++ le 4 releaseFDCount ++ le 8 deadlineNS ++ body)%list.

Lemma release_put token deadlineNS version body : length token = 32%nat ->
  put (put (put (put (put (put (fixedFrame frameRelease (releaseHeaderSize + length body)) 8 (le 2 version)) 12 token)
    44 (le 4 (llen body))) 48 (le 4 releaseFDCount)) 52 (le 8 deadlineNS)) releaseHeaderSize body =
  release_bytes version token deadlineNS body.
Proof.
  intros Ht. unfold releaseHeaderSize. change (60 + length body)%nat with (12 + (48 + length body))%nat.
  rewrite fixedFrame_bytes, put_version.
  rewrite put_next by frame_length. rewrite Ht, app_assoc.
  rewrite put_next by frame_length. rewrite le_length, app_assoc.
  rewrite put_next by frame_length. rewrite le_length, app_assoc.
  rewrite put_next by frame_length. rewrite le_length, app_assoc.
  rewrite put_next by frame_length. unfold release_bytes.
  replace (48 + length body - 32 - 4 - 4 - 8 - length body)%nat with 0%nat by lia. change (zeros 0) with (@nil Z).
  by rewrite app_nil_r, <- !app_assoc.
Qed.

Lemma release_length version token deadlineNS body : length token = 32%nat ->
  length (release_bytes version token deadlineNS body) = (60 + length body)%nat.
Proof. intros Ht. unfold release_bytes. rewrite !length_app, !le_length, frame_header_length, Ht. lia. Qed.

Lemma put_token a old new rest : length a = 12%nat -> length old = length new ->
  put (a ++ old ++ rest) 12 new = (a ++ new ++ rest)%list.
Proof.
  intros Ha Ho. unfold put. rewrite take_app_length' by done. do 2 f_equal. rewrite app_assoc.
  apply drop_app_length'. rewrite length_app. lia.
Qed.

Section Release.
Context `{GrantCodec} `{Credentials}.

(** What is read from the JSON of the grant is the grant. *)
Definition grant_survives (c : NativeCommand.t) : Prop :=
  forall grant encoded, c.(Clone) = Some grant -> marshalGrant grant = Some encoded -> unmarshalGrant encoded = Some grant.

Definition scrubbed (c : NativeCommand.t) : NativeCommand.t := withPipes c None None None.

Definition grant_bytes (c : NativeCommand.t) (rest : list Z) (version : Z) : Prop :=
  match c.(Clone) with
  | None => rest = [] /\ version = releaseWireVersion
  | Some grant => exists encoded, marshalGrant grant = Some encoded /\ 0 < llen encoded < 2 ^ 32 /\
      rest = (le 4 (llen encoded) ++ encoded)%list /\ version = releaseCloneWireVersion
  end.

Lemma grantBody_ok c before body version : grantBody c before = Ok (body, version) ->
  exists rest, body = (before ++ rest)%list /\ grant_bytes c rest version.
Proof.
  unfold grantBody, grant_bytes. intros Hb. destruct (Clone c) as [grant|].
  - destruct (marshalGrant grant) as [encoded|] eqn:E; [|done]. inv_ok. injection Hb as <- <-. breflect.
    exists (le 4 (llen encoded) ++ encoded)%list. unfold appendWireUint32. rewrite <- app_assoc. split; [done|].
    exists encoded. split_and!; try done; unfold llen, maxReleaseSize, releaseHeaderSize in *; lia.
  - injection Hb as <- <-. exists []. by rewrite app_nil_r.
Qed.

Lemma decodeGrant_ok c version body position rest : grant_bytes c rest version -> grant_survives c ->
  (forall grant, c.(Clone) = Some grant -> LinuxCloneGrant.Validate grant = true) -> at_rest body position rest ->
  decodeGrant version body position = Ok (c.(Clone), length body).
Proof.
  unfold grant_bytes, decodeGrant. intros Hg Hs Hv Hat. destruct (Clone c) as [grant|] eqn:Ec.
  - destruct Hg as (encoded & Hm & Hlen & -> & ->). change (releaseCloneWireVersion =? releaseCloneWireVersion) with true.
    cbn [negb]. apply readWireUint32_ok in Hat as [-> Hat]; [|unfold uint32; lia]. cbn [instead rbind].
    rewrite <- (app_nil_r encoded) in Hat. pose proof (at_rest_room _ _ _ _ Hat). pose proof (at_rest_slice _ _ _ _ Hat) as Hsl.
    apply at_rest_step, at_rest_end in Hat. unfold llen in *. rewrite Nat2Z.id, Hsl.
    rewrite (proj2 (Z.eqb_neq _ 0)) by lia. rewrite (proj2 (Z.ltb_ge _ _)) by lia. cbn [orb].
    rewrite (Hs grant encoded Ec Hm), (Hv grant eq_refl). cbn [negb]. by rewrite Hat.
  - destruct Hg as [-> ->]. cbn. by rewrite (at_rest_end _ _ Hat).
Qed.

Lemma forallb_impl {A} (p q : A -> bool) l : (forall x, p x = true -> q x = true) -> forallb p l = true -> forallb q l = true.
Proof. intros Hpq. induction l as [|x l IH]; simpl; [done|]. intros Hx. breflect. by rewrite Hpq, IH. Qed.

Lemma travels_intro s : len s <= maxCommandString -> contains_nul s = false -> travels s = true.
Proof. intros Hl Hn. unfold travels. by rewrite Hn, (proj2 (Z.leb_le _ _)). Qed.

(** What a valid command needs to travel. *)
Lemma validateFields_travels c : validateFields c = true ->
  travels c.(Path) = true /\ 0 < llen c.(Args) <= maxCommandVector /\ forallb travels c.(Args) = true /\
  llen c.(Env) <= maxCommandVector /\ forallb travels c.(Env) = true /\ travels c.(Dir) = true /\
  (forall grant, c.(Clone) = Some grant -> LinuxCloneGrant.Validate grant = true).
Proof.
  intros Hv. unfold validateFields in Hv. breflect. split_and!.
  - by apply travels_intro.
  - unfold llen in *. lia.
  - done.
  - match goal with H : forallb validArgument _ = true |- _ => revert H end. apply forallb_impl. intros s Hs.
    unfold validArgument in Hs. breflect. by apply travels_intro.
  - done.
  - match goal with H : forallb validEnvironment _ = true |- _ => revert H end. apply forallb_impl. intros s Hs.
    unfold validEnvironment in Hs. breflect. by apply travels_intro.
  - by apply travels_intro.
  - intros grant Hgrant. match goal with H : none_or _ _ = true |- _ => rewrite Hgrant in H; simpl in H end. by breflect.
Qed.

Lemma decodeCommand_ok c version rest : validateFields c = true -> grant_bytes c rest version -> grant_survives c ->
  decodeCommand version (command_bytes c ++ rest) = Ok (scrubbed c).
Proof.
  intros Hv Hg Hs. destruct (validateFields_travels c Hv) as (Hp & Ha & Has & He & Hes & Hd & Hgrant).
  set (body := (command_bytes c ++ rest)%list).
  assert (at_rest body 0 (command_bytes c ++ rest)) as Hat by (split; [lia|apply drop_0]).
  unfold command_bytes in Hat. rewrite <- !app_assoc in Hat. unfold decodeCommand.
  read_next Hat. read_next Hat; [|unfold uint32, maxCommandVector in *; lia].
  rewrite (proj2 (Z.eqb_neq _ 0)), (proj2 (Z.ltb_ge _ _)) by lia. cbn [orb].
  apply (readWireStrings_ok _ _ _ _ (Z.to_nat (llen c.(Args)))) in Hat as (? & -> & Hat); [|unfold llen; lia|done]. cbn [rbind].
  read_next Hat; [|unfold uint32, maxCommandVector, llen in *; lia].
  rewrite (proj2 (Z.ltb_ge _ _)) by lia.
  apply (readWireStrings_ok _ _ _ _ (Z.to_nat (llen c.(Env)))) in Hat as (? & -> & Hat); [|unfold llen; lia|done]. cbn [rbind].
  read_next Hat. rewrite (decodeGrant_ok c version body _ rest) by done. cbn [rbind].
  by rewrite Nat.eqb_refl.
Qed.

Lemma encodeGuardedRelease_ok token c deadlineNS packet : length token = 32%nat ->
  encodeGuardedRelease token c deadlineNS = Ok packet ->
  exists version rest, grant_bytes c rest version /\ deadlineNS <> 0 /\ llen (command_bytes c ++ rest) <= maxReleaseSize - 60 /\
    packet = release_bytes version token deadlineNS (command_bytes c ++ rest).
Proof.
  intros Ht He. unfold encodeGuardedRelease in He. inv_ok. destruct a as [body version]. inv_ok. breflect.
  match goal with H : grantBody _ _ = _ |- _ => apply grantBody_ok in H as (rest & -> & Hg) end.
  rewrite commandBody_bytes in *. exists version, rest. rewrite release_put in He by done. by split_and!.
Qed.

Lemma release_fields version token deadlineNS body : length token = 32%nat -> uint64 deadlineNS -> uint32 (llen body) ->
  let packet := release_bytes version token deadlineNS body in
  slice packet 12 44 = token /\ unle (slice packet 48 52) = releaseFDCount /\ unle (slice packet 44 48) = llen body /\
  unle (slice packet 52 60) = deadlineNS /\ drop releaseHeaderSize packet = body.
Proof.
  intros Ht Hd Hb packet. subst packet. unfold release_bytes. slice_fields. rewrite !unle_le4, unle_le8 by done.
  split_and!; try done. unfold releaseHeaderSize. rewrite !app_assoc.
  apply drop_app_length'. rewrite !length_app, !le_length, frame_header_length, Ht. lia.
Qed.

(** What [DecodeRelease] makes of a frame [encodeGuardedRelease] built. *)
Lemma decodeReleaseFrame_release version token expected deadlineNS body descriptors bootstrap :
  length token = 32%nat -> uint64 deadlineNS -> deadlineNS <> 0 -> llen body <= maxReleaseSize - 60 ->
  version = releaseWireVersion \/ version = releaseCloneWireVersion ->
  decodeReleaseFrame (release_bytes version token deadlineNS body) expected descriptors bootstrap =
  (reject bootstrap && negb (version =? releaseCloneWireVersion) with Errorf "clone bootstrap requires RELEASE v3" ;;
   reject negb (bool_decide (token = expected)) with Errorf "Linux owner RELEASE token is stale" ;;
   try command <- decodeCommand version body ;;
   try command <- (match descriptors with
                   | Some (stdin, stdout, stderr, ownerPipe) =>
                       let command := withPipes command stdin stdout stderr in
                       check validateCommand command ;;
                       check validateReleaseOwnerPipe ownerPipe command ;;
                       Ok command
                   | None =>
                       reject negb (validateFields command) with Errorf "Linux owner native command is invalid" ;;
                       Ok command
                   end) ;;
   reject bootstrap && is_nil command.(Clone) with Errorf "clone bootstrap request lacks an A-authorized grant" ;;
   Ok (command, deadlineNS)).
Proof.
  intros Ht Hd Hd0 Hb Hv. unfold decodeReleaseFrame.
  assert (llen (release_bytes version token deadlineNS body) = 60 + llen body) as Hlen.
  { unfold llen. rewrite release_length by done. lia. }
  assert (0 <= llen body) by (unfold llen; lia). assert (uint32 (llen body)) by (unfold uint32, maxReleaseSize in *; lia).
  assert (header (release_bytes version token deadlineNS body) version frameRelease = true) as Hh.
  { apply header_bytes; [destruct Hv as [-> | ->]; done|done]. }
  rewrite (proj2 (Z.ltb_ge (llen _) _)) by (rewrite Hlen; unfold releaseHeaderSize; lia).
  rewrite (proj2 (Z.ltb_ge maxReleaseSize _)) by lia.
  replace (header _ releaseWireVersion frameRelease || header _ releaseCloneWireVersion frameRelease) with true
    by (destruct Hv as [-> | ->]; rewrite Hh; [done|by rewrite orb_true_r]).
  cbn [negb orb]. destruct (release_fields version token deadlineNS body) as (-> & -> & -> & -> & ->); [done..|].
  unfold header in Hh. apply andb_true_iff in Hh as [Hh _]. apply andb_true_iff in Hh as [_ Hh]. apply Z.eqb_eq in Hh.
  rewrite Hh, Hlen. change (releaseFDCount =? releaseFDCount) with true.
  replace (60 + llen body - Z.of_nat releaseHeaderSize) with (llen body) by (unfold releaseHeaderSize; lia).
  by rewrite Z.eqb_refl, (proj2 (Z.eqb_neq deadlineNS 0)) by done.
Qed.

(** The deadline is the sum of the clock and the rest of the lease, and the
    checks leave no room for a wrap. *)
Lemma monotonicDeadlineNS_exact now lease deadlineNS : monotonicDeadlineNS now lease = Ok deadlineNS ->
  exists sec nsec, now = Some (sec, nsec) /\ 0 <= sec /\ 0 <= nsec < nanosecondsPerSecond /\ 0 < lease.(Deadline.Until) /\
    deadlineNS = sec * nanosecondsPerSecond + nsec + lease.(Deadline.Until) /\ 0 < deadlineNS < 2 ^ 64.
Proof.
  unfold monotonicDeadlineNS. intros Hm. inv_ok. destruct now as [[sec nsec]|]; [|done]. inv_ok. breflect.
  unfold maxUint64, nanosecondsPerSecond in *.
  assert (sec * 1000000000 <= 2 ^ 64 - 1) as Hsec.
  { transitivity ((2 ^ 64 - 1) / 1000000000 * 1000000000); [|vm_compute; discriminate]. apply Z.mul_le_mono_nonneg_r; lia. }
  rewrite (Z.mod_small (sec * _)) in * by lia. rewrite (Z.mod_small (_ + nsec)) in * by lia.
  rewrite Z.mod_small in Hm by lia. exists sec, nsec. repeat split; lia.
Qed.

Lemma withPipes_same c : withPipes c c.(Stdin) c.(Stdout) c.(Stderr) = c.
Proof. by destruct c. Qed.

Lemma withPipes_scrubbed c a b d : withPipes (scrubbed c) a b d = withPipes c a b d.
Proof. done. Qed.

Lemma grant_version c rest version : grant_bytes c rest version ->
  (version = releaseWireVersion \/ version = releaseCloneWireVersion) /\
  (version =? releaseCloneWireVersion) = non_nil c.(Clone).
Proof.
  unfold grant_bytes. destruct (Clone c); [intros (? & _ & _ & _ & ->)|intros [_ ->]]; split; auto.
Qed.

(** The round trip of the Go codec of a RELEASE, in the process that built the
    frame and for a grant whose JSON reads back: a frame EncodeRelease builds
    decodes, with the token and the descriptors it was sent with, to the same
    command and to the deadline of the lease; under any other token it is
    stale; and with its token scrubbed it is a bootstrap request exactly when
    the command has a clone grant. *)
Theorem release_roundtrip now token command ownerPipe lease packet :
  length token = 32%nat -> grant_survives command ->
  EncodeRelease now token command ownerPipe lease = Ok packet ->
  exists deadlineNS, monotonicDeadlineNS now lease = Ok deadlineNS /\
    DecodeRelease packet token (command.(Stdin), command.(Stdout), command.(Stderr), ownerPipe) = Ok (command, deadlineNS) /\
    (forall stale descriptors, stale <> token ->
       DecodeRelease packet stale descriptors = Err (Errorf "Linux owner RELEASE token is stale")) /\
    DecodeCloneBootstrapRequest (put packet 12 (zeros 32)) =
      match command.(Clone) with
      | Some _ => Ok (scrubbed command, deadlineNS)
      | None => Err (Errorf "clone bootstrap requires RELEASE v3")
      end.
Proof.
  intros Ht Hs He. unfold EncodeRelease in He. inv_ok. destruct a, a0. rename a1 into deadlineNS.
  exists deadlineNS. split; [done|].
  match goal with H : monotonicDeadlineNS _ _ = _ |- _ => apply monotonicDeadlineNS_exact in H as (_ & _ & _ & _ & _ & _ & _ & Hd) end.
  apply encodeGuardedRelease_ok in He as (version & rest & Hg & Hd0 & Hlen & ->); [|done].
  destruct (grant_version _ _ _ Hg) as [Hversion Hclone].
  assert (uint64 deadlineNS) by (unfold uint64; lia).
  assert (validateFields command = true) as Hfields.
  { match goal with H : validateCommand _ = _ |- _ => unfold validateCommand in H end. inv_ok. by breflect. }
  split_and!.
  - unfold DecodeRelease. rewrite decodeReleaseFrame_release by done. cbn [andb]. rewrite bool_decide_eq_true_2 by done.
    cbn [negb]. rewrite decodeCommand_ok by done. cbn [rbind]. rewrite withPipes_scrubbed, withPipes_same.
    match goal with H : validateCommand _ = _ |- _ => rewrite H end. cbn [rbind].
    match goal with H : validateReleaseOwnerPipe _ _ = _ |- _ => rewrite H end. done.
  - intros stale descriptors Hstale. unfold DecodeRelease. rewrite decodeReleaseFrame_release by done.
    cbn [andb]. by rewrite bool_decide_eq_false_2 by congruence.
  - replace (put _ 12 (zeros 32)) with (release_bytes version (zeros 32) deadlineNS (command_bytes command ++ rest)).
    2:{ unfold release_bytes. symmetry. by apply put_token. }
    unfold DecodeCloneBootstrapRequest. rewrite decodeReleaseFrame_release by done. cbn [andb]. rewrite Hclone.
    destruct (Clone command) eqn:Ec; cbn [non_nil negb]; [|done]. rewrite bool_decide_eq_true_2 by done. cbn [negb].
    rewrite decodeCommand_ok by done. cbn [rbind]. change (validateFields (scrubbed command)) with (validateFields command).
    rewrite Hfields. cbn [negb rbind]. unfold scrubbed at 1. cbn [withPipes Clone]. by rewrite Ec.
Qed.

(** *** What [DecodeRelease] accepts *)

Lemma decodeCommand_inv version body c : Forall is_byte body -> decodeCommand version body = Ok c -> c.(Clone) = None ->
  version <> releaseCloneWireVersion /\ body = command_bytes c.
Proof.
  intros Hb Hc Hn. unfold decodeCommand in Hc. inv_ok. unread. breflect. subst c. cbn in Hn. subst.
  unfold decodeGrant in *. destruct (Z.eqb_spec version releaseCloneWireVersion) as [->|Hversion]; cbn [negb] in *.
  - exfalso. inv_ok. unread. destruct (unmarshalGrant _) as [grant|]; [|done]. inv_ok. congruence.
  - split; [done|]. inv_ok. simplify_eq. over. unfold command_bytes. cbn [Path Args Env Dir].
    rewrite <- (drop_0 body) at 1. spell_out.
    apply Nat.eqb_eq in E8. rewrite drop_end, app_nil_r by done. unfold llen, uint32 in *.
    by replace (Z.of_nat (length l)) with z by lia; replace (Z.of_nat (length l0)) with z0 by lia.
Qed.

(** One end of a pipe of the owner, open in direction [access]. *)
Definition owned_pipe (file : option File.t) (access : Z) (stat : File.stat) : Prop :=
  exists f flags, file = Some f /\ 0 <= f.(File.Fd) /\ f.(File.Stat) = Some stat /\ ownedFifo stat = true /\
    f.(File.Flags) = Some flags /\ Z.land flags O_ACCMODE = access.

(** The four descriptors a command runs with: three distinct pipes in the
    right directions, and an owner pipe that is none of them. *)
Definition release_descriptors (stdin stdout stderr ownerPipe : option File.t) : Prop :=
  exists s0 s1 s2 s3, owned_pipe stdin O_RDONLY s0 /\ owned_pipe stdout O_WRONLY s1 /\ owned_pipe stderr O_WRONLY s2 /\
    owned_pipe ownerPipe O_RDONLY s3 /\ samePipe s0 s1 = false /\ samePipe s0 s2 = false /\ samePipe s1 s2 = false /\
    samePipe s3 s0 = false /\ samePipe s3 s1 = false /\ samePipe s3 s2 = false.

Lemma runnerPipe_ok prior file access after : runnerPipe prior (file, access) = Ok after ->
  exists fd stat, owned_pipe file access stat /\ after = (prior ++ [(fd, stat)])%list /\
    forall fd' earlier, (fd', earlier) ∈ prior -> samePipe earlier stat = false.
Proof.
  unfold runnerPipe. intros Hr. destruct file as [f|]; [|done]. inv_ok. destruct (File.Stat f) as [stat|] eqn:Es; [|done].
  inv_ok. breflect. apply some_and_true in E1 as (flags & Hf & Ha). apply Z.eqb_eq in Ha.
  exists (File.Fd f), stat. split_and!; [|done|].
  - exists f, flags. split_and!; try done.
  - intros fd' earlier Hin. destruct (samePipe earlier stat) eqn:Esame; [|done]. exfalso.
    apply not_true_iff_false in E2. apply E2. apply existsb_exists. exists (fd', earlier).
    split; [by apply list_elem_of_In|]. by rewrite Esame, orb_true_r.
Qed.

Lemma validateRunnerPipes_ok stdin stdout stderr : validateRunnerPipes stdin stdout stderr = Ok tt ->
  exists s0 s1 s2, owned_pipe stdin O_RDONLY s0 /\ owned_pipe stdout O_WRONLY s1 /\ owned_pipe stderr O_WRONLY s2 /\
    samePipe s0 s1 = false /\ samePipe s0 s2 = false /\ samePipe s1 s2 = false.
Proof.
  unfold validateRunnerPipes. intros Hv. inv_ok. cbn [for_each] in E. inv_ok.
  apply runnerPipe_ok in E0 as (fd0 & s0 & ? & -> & _). apply runnerPipe_ok in E1 as (fd1 & s1 & ? & -> & H01).
  apply runnerPipe_ok in E2 as (fd2 & s2 & ? & -> & H02). exists s0, s1, s2.
  split_and!; [done..|apply (H01 fd0)|apply (H02 fd0)|apply (H02 fd1)]; cbn; set_solver.
Qed.

Lemma aliases_ok stat pipe access other : owned_pipe pipe access other -> aliases stat pipe = Ok tt -> samePipe stat other = false.
Proof.
  intros (f & flags & -> & _ & Hs & _) Ha. unfold aliases in Ha. rewrite Hs in Ha. by inv_ok.
Qed.

Lemma accepted_descriptors c ownerPipe : validateCommand c = Ok tt -> validateReleaseOwnerPipe ownerPipe c = Ok tt ->
  validateFields c = true /\ release_descriptors c.(Stdin) c.(Stdout) c.(Stderr) ownerPipe.
Proof.
  intros Hc Ho. unfold validateCommand in Hc. inv_ok. breflect. split; [done|].
  apply validateRunnerPipes_ok in Hc as (s0 & s1 & s2 & Hin & Hout & Herr & H01 & H02 & H12).
  unfold validateReleaseOwnerPipe in Ho. destruct ownerPipe as [f|]; [|done]. inv_ok. destruct (File.Stat f) as [s3|] eqn:Es; [|done].
  inv_ok. destruct a, a0. breflect.
  match goal with H : some_and _ _ = true |- _ => apply some_and_true in H as (flags & Hf & Ha) end. breflect.
  exists s0, s1, s2, s3. split_and!; try done; [exists f, flags; split_and!; done|by eapply aliases_ok..].
Qed.

Lemma release_spelled packet token : Forall is_byte packet -> (60 <= length packet)%nat ->
  header packet releaseWireVersion frameRelease = true -> slice packet 12 44 = token ->
  unle (slice packet 48 52) = releaseFDCount -> unle (slice packet 44 48) = llen packet - 60 ->
  packet = release_bytes releaseWireVersion token (unle (slice packet 52 60)) (drop 60 packet).
Proof.
  intros Hb Hlen Hh Ht Hf Hs. rewrite (header_inv packet _ _ Hb ltac:(lia) Hh) at 1. unfold release_bytes. f_equal.
  assert (llen (drop 60 packet) = unle (slice packet 44 48)) as ->.
  { rewrite Hs. unfold llen. rewrite length_drop. lia. }
  rewrite <- Hf, <- Ht, !le_slice by (done || lia). by rewrite <- !drop_slice by lia.
Qed.

Lemma release_reencodes packet token c : Forall is_byte packet -> 60 <= llen packet <= maxReleaseSize ->
  header packet releaseWireVersion frameRelease || header packet releaseCloneWireVersion frameRelease = true ->
  slice packet 12 44 = token -> unle (slice packet 48 52) = releaseFDCount -> unle (slice packet 44 48) = llen packet - 60 ->
  unle (slice packet 52 60) <> 0 -> decodeCommand (unle (slice packet 8 10)) (drop 60 packet) = Ok c -> c.(Clone) = None ->
  encodeGuardedRelease token c (unle (slice packet 52 60)) = Ok packet.
Proof.
  intros Hb Hlen Hh Ht Hf Hs Hd Hc Hn. apply decodeCommand_inv in Hc as [Hversion Hbody]; [|by apply Forall_drop|done].
  assert (header packet releaseWireVersion frameRelease = true) as Hh2.
  { destruct (header packet releaseWireVersion _); [done|]. exfalso. cbn in Hh. unfold header in Hh. breflect. congruence. }
  unfold llen in Hlen. pose proof (release_spelled packet token Hb ltac:(lia) Hh2 Ht Hf Hs) as Hp.
  unfold encodeGuardedRelease. rewrite (proj2 (Z.eqb_neq _ 0)) by done. unfold grantBody. rewrite Hn. cbn [rbind].
  rewrite commandBody_bytes, <- Hbody. assert (length token = 32%nat) by (subst token; rewrite slice_length; lia).
  rewrite (proj2 (Z.ltb_ge _ _)) by (unfold llen, releaseHeaderSize; rewrite length_drop; lia).
  by rewrite release_put, <- Hp.
Qed.

(** A RELEASE [DecodeRelease] accepts carries the token, a valid command, a
    deadline and four sound descriptors; without a clone it is, byte for
    byte, the frame the owner builds for that command. *)
Theorem accepted_release_is_exact packet token stdin stdout stderr ownerPipe command deadlineNS :
  Forall is_byte packet -> DecodeRelease packet token (stdin, stdout, stderr, ownerPipe) = Ok (command, deadlineNS) ->
  slice packet 12 44 = token /\ validateFields command = true /\ 0 < deadlineNS < 2 ^ 64 /\
  release_descriptors stdin stdout stderr ownerPipe /\
  (command.(Clone) = None -> encodeGuardedRelease token command deadlineNS = Ok packet).
Proof.
  intros Hb Hd. unfold DecodeRelease, decodeReleaseFrame in Hd. cbn [andb] in Hd. inv_ok. destruct a1, a2.
  injection Hd as <- <-. subst a0. destruct (accepted_descriptors _ _ E6 E7) as [Hfields Hdesc]. breflect.
  apply bool_decide_eq_true in E0. assert (60 <= length packet)%nat by (unfold llen, releaseHeaderSize in *; lia).
  split_and!; [done|done|..|done|].
  - pose proof (unle_slice 8 packet 52 60 Hb eq_refl ltac:(lia)). lia.
  - by apply (unle_slice 8 packet 52 60 Hb).
  - intros Hn. change (encodeGuardedRelease token a (unle (slice packet 52 60)) = Ok packet).
    by apply release_reencodes.
Qed.

(** A valid command without a clone always fits the frame. *)
Lemma wire_strings_length values : llen (wire_strings values) = 4 * llen values + total_length values.
Proof.
  induction values as [|s values IH]; [done|]. unfold wire_strings in *. cbn [map concat].
  rewrite llen_app, wire_string_length, IH. unfold llen. cbn [length total_length fold_right]. 
  unfold total_length. lia.
Qed.

Theorem valid_command_fits token c deadlineNS : length token = 32%nat -> validateFields c = true -> c.(Clone) = None ->
  deadlineNS <> 0 -> exists packet, encodeGuardedRelease token c deadlineNS = Ok packet /\ llen packet <= maxReleaseSize - 3056.
Proof.
  intros Ht Hv Hn Hd. unfold encodeGuardedRelease. rewrite (proj2 (Z.eqb_neq _ 0)) by done. unfold grantBody. rewrite Hn.
  cbn [rbind]. rewrite commandBody_bytes, release_put by done.
  assert (llen (command_bytes c) <= maxReleaseSize - 60 - 4096 + 1040) as Hbody.
  { destruct (validateFields_travels c Hv) as (_ & Ha & _ & He & _). unfold validateFields in Hv. breflect.
    unfold command_bytes. rewrite !llen_app, !wire_string_length, !llen_le, !wire_strings_length.
    unfold maxReleaseSize, releaseHeaderSize, maxCommandVector in *. lia. }
  rewrite (proj2 (Z.ltb_ge _ _)) by (unfold maxReleaseSize, releaseHeaderSize in *; lia).
  eexists. split; [done|]. unfold llen in *. rewrite release_length by done. lia.
Qed.
End Release.

(** ** The theorems on the fixed frames *)

(** C25: the owner's and the root launcher's view of a launch agree: a packet
    decodes at the owner to a result exactly when it is what the launcher
    encodes for that result, the fields of the result fit the frame, and a
    gate that is ready has a complete identity. *)
Theorem launch_result_roundtrip packet r : Forall is_byte packet ->
  DecodeLaunchResult packet = Ok r <->
  launch_result_typed r /\ EncodeLaunchResult r = Ok packet /\ LaunchResult.validIdentity r = true.
Proof.
  intros Hb. split; [by apply DecodeLaunchResult_encodes|]. intros (Ht & He & Hi). by apply EncodeLaunchResult_decodes.
Qed.

(** C24: a checkout frame decodes to a receipt exactly when it is the encoding of
    that receipt and the target is no longer than a wire string may be: the
    receipt itself may have a target of up to 32768 bytes. *)
Theorem checkout_receipt_roundtrip kind packet r : 0 <= kind < 2 ^ 16 -> Forall is_byte packet ->
  decodeCloneCheckoutReceipt packet kind = Ok r <->
  receipt_typed r /\ len r.(Target) <= maxCommandString /\ encodeCloneCheckoutReceipt kind r = Ok packet.
Proof.
  intros Hk Hb. split; [by apply decodeCloneCheckoutReceipt_encodes|].
  intros (Ht & Hl & He). by eapply encodeCloneCheckoutReceipt_decodes.
Qed.

(** ** The owner configuration *)

Fixpoint join_lines (lines : list string) : string :=
  match lines with
  | [] => ""
  | [line] => line
  | line :: rest => line ++ String "010" (join_lines rest)
  end.

Lemma split_lines_cons s : exists line rest, split_lines s = line :: rest.
Proof.
  destruct s as [|a s]; simpl; [eauto|]. destruct (byte_at a =? 10); [eauto|]. destruct (split_lines s); eauto.
Qed.

Lemma join_split s : join_lines (split_lines s) = s.
Proof.
  induction s as [|a s IH]; [done|]. cbn [split_lines]. destruct (split_lines_cons s) as (line & rest & E).
  rewrite E in *. destruct (byte_at a =? 10) eqn:Ea.
  - apply Z.eqb_eq in Ea. change (join_lines ("" :: line :: rest)) with (String "010" (join_lines (line :: rest))).
    rewrite IH. f_equal. unfold byte_at in Ea. rewrite <- (ascii_nat_embedding a).
    by replace (nat_of_ascii a) with 10%nat by lia.
  - rewrite <- IH. by destruct rest.
Qed.

Definition config_line (key : string) (value : Z) : string := (key ++ "=") ++ FormatInt value.

(** The one text of a configuration. *)
Definition config_text (c : OwnerConfig.t) : string :=
  let ids := [config_line "a_uid" c.(OwnerConfig.AUID); config_line "a_gid" c.(OwnerConfig.AGID);
              config_line "b_uid" c.(OwnerConfig.BUID); config_line "b_gid" c.(OwnerConfig.BGID)] in
  if c.(OwnerConfig.StateDir) =s "" then join_lines ("version=1" :: ids ++ [""])%list
  else join_lines ("version=2" :: ids ++ [("state_dir=" ++ c.(OwnerConfig.StateDir))%string; ""])%list.

Lemma has_prefix_split p s : has_prefix p s = true -> s = p ++ trim_prefix_len (String.length p) s.
Proof.
  revert s. induction p as [|a p IH]; intros [|b s]; simpl; try done. intros H. breflect.
  match goal with H : Ascii.eqb _ _ = true |- _ => apply Ascii.eqb_eq in H as -> end. by rewrite (IH s H) at 1.
Qed.

Lemma configLine_text key line value : configLine key line = Ok value -> line = config_line key value.
Proof.
  unfold configLine. intros H. inv_ok. breflect. apply has_prefix_split in E as Hl.
  destruct (canonicalUint32 _) as [v|] eqn:Ev; [|done]. inv_ok. subst v.
  unfold canonicalUint32 in Ev. destruct (_ && _); [|done]. destruct (_ && _) eqn:Ec; [|done]. injection Ev as <-. breflect.
  unfold config_line. rewrite Hl at 1. f_equal. by symmetry.
Qed.

Lemma ownerConfigOf_text auid agid buid bgid stateDir c : ownerConfigOf auid agid buid bgid stateDir = Ok c ->
  [auid; agid; buid; bgid] =
    [config_line "a_uid" c.(OwnerConfig.AUID); config_line "a_gid" c.(OwnerConfig.AGID);
     config_line "b_uid" c.(OwnerConfig.BUID); config_line "b_gid" c.(OwnerConfig.BGID)] /\
  OwnerConfig.Validate c = true /\
  match stateDir with
  | None => c.(OwnerConfig.StateDir) = ""
  | Some line => c.(OwnerConfig.StateDir) <> "" /\ line = "state_dir=" ++ c.(OwnerConfig.StateDir)
  end.
Proof.
  intros H. unfold ownerConfigOf in H. inv_ok. subst c. cbn [OwnerConfig.AUID OwnerConfig.AGID OwnerConfig.BUID OwnerConfig.BGID
    OwnerConfig.StateDir].
  repeat match goal with H : configLine _ _ = _ |- _ => apply configLine_text in H as -> end. split; [done|].
  breflect. split; [done|]. destruct stateDir as [line|]; [|by inv_ok].
  inv_ok. breflect. subst. split.
  - match goal with H : OwnerConfig.validateOwnerStateDir _ = true |- _ => unfold OwnerConfig.validateOwnerStateDir in H end.
    breflect. congruence.
  - match goal with H : has_prefix _ _ = true |- _ => exact (has_prefix_split _ _ H) end.
Qed.

(** A configuration has one accepted text, so that no two files on disk name
    the same owner. *)
Theorem owner_config_has_one_text data c : parseOwnerConfig data = Ok c -> OwnerConfig.Validate c = true /\ data = config_text c.
Proof.
  intros H. unfold parseOwnerConfig in H. rewrite <- (join_split data).
  destruct (split_lines data) as [|v [|l1 [|l2 [|l3 [|l4 [|l5 rest]]]]]]; try done.
  assert ((l5 = "" /\ rest = [] /\ v = "version=1" /\ ownerConfigOf l1 l2 l3 l4 None = Ok c) \/
          (rest = [""] /\ v = "version=2" /\ ownerConfigOf l1 l2 l3 l4 (Some l5) = Ok c)) as Hcases.
  { destruct l5 as [|a l5], rest as [|[|b l6] [|l7 rest]]; try discriminate; inv_ok; breflect; auto. }
  destruct Hcases as [(-> & -> & -> & Hc)|(-> & -> & Hc)]; apply ownerConfigOf_text in Hc as (Hids & Hv & Hdir);
    injection Hids as -> -> -> ->; (split; [done|]); unfold config_text.
  - by rewrite Hdir.
  - destruct Hdir as [Hne ->]. by rewrite (proj2 (String.eqb_neq _ _) Hne).
Qed.
