(* ===== verification/ControlProps.v ===== *)
(** * ControlProps: what an accepted answer of the control plane tells

    Theorems about Control.v: the UUID checks of the packages agree, the
    comparison of JSON payloads is an equivalence that sees neither the order
    of members nor the spelling of numbers, a session registration answers
    exactly the runtimes that were registered, and an accepted command
    acknowledgement is the one that was sent. *)

From S2P Require Import Prelude Sha256 Json Authority Protocol Journal Session Control.
From stdpp Require Import fin_maps.
Open Scope string_scope.
Open Scope Z_scope.

(** ** UUIDs *)

Lemma string_forallb_at_ext p q n s :
  (forall n a, p n a = q n a) -> string_forallb_at p n s = string_forallb_at q n s.
Proof. intros Heq. revert n. induction s as [|a s IH]; simpl; intros n; [done|]. by rewrite Heq, IH. Qed.

Lemma uuid_byte_hex a :
  negb ((65 <=? byte_at a) && (byte_at a <=? 70) || (byte_at a <? 48) || (102 <? byte_at a) ||
        (57 <? byte_at a) && (byte_at a <? 97)) = lower_hex_digit a.
Proof.
  unfold lower_hex_digit. set (b := byte_at a). apply eq_true_iff_eq.
  rewrite negb_true_iff, !orb_false_iff, orb_true_iff, !andb_false_iff, !andb_true_iff, ?Z.leb_le, ?Z.leb_gt, ?Z.ltb_ge. lia.
Qed.

Lemma uuid_same value : validateGoalUUID value = validateUUID value.
Proof.
  unfold validateGoalUUID, validateUUID, Json.between. rewrite <- !andb_assoc. do 2 f_equal.
  apply string_forallb_at_ext. intros n a. unfold uuid_byte. by rewrite uuid_byte_hex.
Qed.

(** ** Comparing JSON *)

(** Induction through the arrays and objects of a value. *)
Section Induction.
Variable P : json -> Prop.
Hypothesis null_case : P JNull.
Hypothesis bool_case : forall b, P (JBool b).
Hypothesis number_case : forall s, P (JNumber s).
Hypothesis string_case : forall s, P (JString s).
Hypothesis array_case : forall l, Forall P l -> P (JArray l).
Hypothesis object_case : forall l, Forall (fun m => P m.2) l -> P (JObject l).

Fixpoint json_induction (v : json) : P v :=
  match v with
  | JNull => null_case
  | JBool b => bool_case b
  | JNumber s => number_case s
  | JString s => string_case s
  | JArray l => array_case l ((fix go l : Forall P l :=
      match l with [] => Forall_nil_2 _ | x :: l' => Forall_cons_2 _ _ _ (json_induction x) (go l') end) l)
  | JObject l => object_case l ((fix go l : Forall (fun m : string * json => P m.2) l :=
      match l with [] => Forall_nil_2 _ | m :: l' => Forall_cons_2 _ _ _ (json_induction m.2) (go l') end) l)
  end.
End Induction.

Section Members.
Context {A : Type}.
Implicit Types l : list (string * A).

Lemma member_In key l v : member key l = Some v -> In (key, v) l.
Proof.
  induction l as [|[k x] l IH]; simpl; [done|]. destruct (member key l); [intros [= ->]; right; auto|].
  destruct (k =s key) eqn:Hk; [|done]. intros [= ->]. apply String.eqb_eq in Hk. left. congruence.
Qed.

Lemma member_keys key l : is_Some (member key l) <-> key ∈ (list_to_set (map fst l) : gset string).
Proof.
  induction l as [|[k x] l IH]; simpl; [split; [by intros []|set_solver]|].
  rewrite elem_of_union, elem_of_singleton, <- IH. destruct (member key l) as [v|]; [split; [by right|by eauto]|].
  destruct (k =s key) eqn:Hk; [apply String.eqb_eq in Hk; split; [by left|by eauto]|].
  apply String.eqb_neq in Hk. split; [by intros []|intros [->|[]]; done].
Qed.
End Members.

(** Two maps compared member by member. *)
Definition same_members {A} (same : A -> A -> Prop) (l r : list (string * A)) : Prop :=
  forall key, option_Forall2 same (member key l) (member key r).

Lemma same_array l r :
  sameJSONValue (JArray l) (JArray r) = true <-> Forall2 (fun x y => sameJSONValue x y = true) l r.
Proof.
  cbn [sameJSONValue]. revert r. induction l as [|x l IH]; intros [|y r]; simpl.
  - split; [constructor|done].
  - split; [done|by inversion 1].
  - split; [done|by inversion 1].
  - specialize (IH r). rewrite andb_true_iff in IH.
    rewrite !andb_true_iff, Forall2_cons. tauto.
Qed.

Lemma same_object_loop l r :
  ((fix go l :=
      match l with
      | [] => true
      | (k, x) :: l' =>
          (non_nil (member k l') || match member k r with Some y => sameJSONValue x y | None => false end) && go l'
      end) l = true) <->
  forall key x, member key l = Some x -> exists y, member key r = Some y /\ sameJSONValue x y = true.
Proof.
  induction l as [|[k x] l IH]; [split; [done|done]|]. rewrite andb_true_iff, IH, orb_true_iff. cbn [member]. split.
  - intros [Hfirst Hrest] key z. destruct (member key l) as [v|] eqn:Hl; [intros [= <-]; by apply Hrest|].
    destruct (k =s key) eqn:Hk; [|done]. apply String.eqb_eq in Hk as ->. intros [= <-]. rewrite Hl in Hfirst.
    destruct Hfirst as [?|Hfirst]; [done|]. destruct (member key r); [by eauto|done].
  - intros Hall. split.
    + destruct (member k l) as [v|] eqn:Hl; [by left|]. right. destruct (Hall k x) as (y & -> & ?); [|done].
      by rewrite Hl, String.eqb_refl.
    + intros key z Hz. apply (Hall key). by rewrite Hz.
Qed.

Lemma same_object l r :
  sameJSONValue (JObject l) (JObject r) = true <-> same_members (fun x y => sameJSONValue x y = true) l r.
Proof.
  cbn [sameJSONValue]. rewrite andb_true_iff, same_object_loop, Nat.eqb_eq. unfold Control.map_size. split.
  - intros [Hsize Hall] key. destruct (member key l) as [x|] eqn:Hl.
    + destruct (Hall _ _ Hl) as (y & -> & ?). by constructor.
    + assert (list_to_set (map fst l) =@{gset string} list_to_set (map fst r)) as Hkeys.
      { apply set_subseteq_size_eq; [|lia]. intros k (x & Hx)%member_keys. apply member_keys.
        destruct (Hall _ _ Hx) as (y & -> & _). by eauto. }
      destruct (member key r) as [y|] eqn:Hr; [|constructor].
      assert (is_Some (member key l)) as [? ?]; [|congruence].
      apply member_keys. rewrite Hkeys. apply member_keys. by eauto.
  - intros Hall. split.
    + f_equal. apply leibniz_equiv. intros key. rewrite <- !member_keys. specialize (Hall key).
      by destruct Hall; split; intros []; eauto.
    + intros key x Hx. specialize (Hall key). rewrite Hx in Hall. inversion Hall; subst. by eauto.
Qed.

(** [v * 10^p] for any common lower bound of the powers *)
Lemma same_rat v p w q :
  sameRat (v, p) (w, q) = true <-> forall m, m <= p -> m <= q -> v * 10 ^ (p - m) = w * 10 ^ (q - m).
Proof.
  unfold sameRat. rewrite Z.eqb_eq. split; [|intros Hall; apply Hall; lia].
  intros Heq m Hp Hq. set (low := Z.min p q) in *.
  replace (p - m) with ((p - low) + (low - m)) by lia. replace (q - m) with ((q - low) + (low - m)) by lia.
  rewrite !Z.pow_add_r by lia. rewrite !Z.mul_assoc. by rewrite Heq.
Qed.

Lemma sameRat_sym l r : sameRat l r = sameRat r l.
Proof.
  destruct l as [v p], r as [w q]. apply eq_true_iff_eq. rewrite !same_rat.
  split; intros Hall m Hp Hq; symmetry; auto.
Qed.

Lemma sameRat_trans l m r : sameRat l m = true -> sameRat m r = true -> sameRat l r = true.
Proof.
  destruct l as [v p], m as [w q], r as [u s]. rewrite !same_rat. intros H1 H2.
  assert (forall low, low <= p -> low <= q -> low <= s -> v * 10 ^ (p - low) = u * 10 ^ (s - low)) as Hall
    by (intros low ???; rewrite H1 by done; by apply H2).
  intros low Hp Hs. set (k := Z.min low q).
  assert (v * 10 ^ (p - k) = u * 10 ^ (s - k)) as Heq by (apply Hall; lia).
  replace (p - k) with ((p - low) + (low - k)) in Heq by lia. replace (s - k) with ((s - low) + (low - k)) in Heq by lia.
  rewrite !Z.pow_add_r, !Z.mul_assoc in Heq by lia.
  apply Z.mul_cancel_r in Heq; [done|]. pose proof (Z.pow_pos_nonneg 10 (low - k)). lia.
Qed.

Lemma sameJSONNumber_sym l r : sameJSONNumber l r = sameJSONNumber r l.
Proof. unfold sameJSONNumber. destruct (SetString l), (SetString r); [apply sameRat_sym|done..]. Qed.

Lemma sameJSONNumber_trans l m r : sameJSONNumber l m = true -> sameJSONNumber m r = true -> sameJSONNumber l r = true.
Proof.
  unfold sameJSONNumber. destruct (SetString l), (SetString m), (SetString r); try done. apply sameRat_trans.
Qed.

(** The relation, once. *)
Definition same (left right : json) : Prop := sameJSONValue left right = true.

Lemma same_symmetric left : forall right, same left right -> same right left.
Proof.
  unfold same. induction left as [|b|s|s|l IH|l IH] using json_induction; intros [| |s'|s'|r|r];
    try (cbn [sameJSONValue]; done).
  - cbn [sameJSONValue]. by rewrite !Bool.eqb_true_iff.
  - cbn [sameJSONValue]. by rewrite sameJSONNumber_sym.
  - cbn [sameJSONValue]. by rewrite String.eqb_sym.
  - rewrite !same_array. intros Hall. revert IH. induction Hall; intros IH; inversion IH; subst; constructor; eauto.
  - rewrite !same_object. intros Hall key. specialize (Hall key). inversion Hall as [x y Hxy Hl Hr|]; [|constructor].
    constructor. symmetry in Hl. apply member_In in Hl. rewrite Forall_forall in IH.
    apply (IH (key, x)); [by apply list_elem_of_In|done].
Qed.

Lemma same_transitive left : forall middle right, same left middle -> same middle right -> same left right.
Proof.
  unfold same. induction left as [|b|s|s|l IH|l IH] using json_induction; intros [| |s'|s'|m|m] [| |s''|s''|r|r];
    try (cbn [sameJSONValue]; done).
  - cbn [sameJSONValue]. rewrite !Bool.eqb_true_iff. by intros -> ->.
  - cbn [sameJSONValue]. apply sameJSONNumber_trans.
  - cbn [sameJSONValue]. rewrite !String.eqb_eq. by intros -> ->.
  - rewrite !same_array. intros Hall. revert r IH. induction Hall; intros r IH Hr; inversion Hr; inversion IH; subst; constructor; eauto.
  - rewrite !same_object. intros Hlm Hmr key. specialize (Hlm key). specialize (Hmr key).
    destruct (member key l) as [x|] eqn:Hl, (member key m) as [y|], (member key r) as [z|]; inversion Hlm; inversion Hmr; subst;
      constructor. apply member_In in Hl. rewrite Forall_forall in IH.
    apply (IH (key, x)) with y; [by apply list_elem_of_In|done|done].
Qed.

(** Every number of a value is one [big.Rat] reads. *)
Fixpoint numbers_scan (v : json) : bool :=
  match v with
  | JNumber s => non_nil (SetString s)
  | JArray l => forallb numbers_scan l
  | JObject l => forallb (fun m => numbers_scan m.2) l
  | _ => true
  end.

Lemma same_reflexive v : numbers_scan v = true -> same v v.
Proof.
  unfold same. induction v as [|b|s|s|l IH|l IH] using json_induction; cbn [numbers_scan sameJSONValue]; intros Hscan; try done.
  - by destruct b.
  - unfold sameJSONNumber. destruct (SetString s) as [[w p]|]; [|done]. by apply same_rat.
  - apply String.eqb_refl.
  - apply same_array. rewrite forallb_forall in Hscan. rewrite Forall_forall in IH. apply Forall2_same_length_lookup_2; [done|].
    intros i x y Hx Hy. rewrite Hx in Hy. injection Hy as <-. apply list_elem_of_lookup_2 in Hx.
    apply IH; [done|]. by apply Hscan, list_elem_of_In.
  - apply same_object. intros key. destruct (member key l) as [x|] eqn:Hl; constructor. apply member_In in Hl.
    rewrite forallb_forall in Hscan. rewrite Forall_forall in IH.
    apply (IH (key, x)); [by apply list_elem_of_In|]. by apply (Hscan (key, x)).
Qed.

#[export] Instance same_sym : Symmetric same.
Proof. exact same_symmetric. Qed.
#[export] Instance same_trans : Transitive same.
Proof. exact same_transitive. Qed.

(** ** Registration *)

Import SessionRegistrationResponse.

Definition runtimeKeys (runtimes : list RegisteredRuntime.t) : list string := map RegisteredRuntime.RuntimeKey runtimes.

Definition assigned (runtime : RegisteredRuntime.t) : Prop :=
  runtime.(RegisteredRuntime.RuntimeKey) <> "" /\ runtime.(RegisteredRuntime.RuntimeID) <> "" /\
  0 < runtime.(RegisteredRuntime.RuntimeEpoch).

Lemma expectedKeys_spec expected keys result :
  expectedKeys expected keys = Some result <->
  Forall (fun key => key <> "" /\ key ∉ expected) keys /\ NoDup keys /\ result = list_to_set keys ∪ expected.
Proof.
  revert expected. induction keys as [|key keys IH]; simpl; intros expected.
  { split; [intros [= <-]|intros (_ & _ & ->)]; [split_and!; [constructor..|set_solver]|f_equal; set_solver]. }
  rewrite Forall_cons, NoDup_cons. destruct ((key =s "") || bool_decide (key ∈ expected)) eqn:Hbad.
  - split; [done|]. intros ([[Hne Hnew] _] & _). apply orb_true_iff in Hbad as [Hbad|Hbad].
    + by apply String.eqb_eq in Hbad.
    + by apply bool_decide_eq_true in Hbad.
  - apply orb_false_iff in Hbad as [Hne%String.eqb_neq Hnew%bool_decide_eq_false]. rewrite IH.
    rewrite !Forall_forall. split.
    + intros (Hall & Hnodup & ->). split_and!; [done|done| | |done|set_solver];
        [intros k Hk; specialize (Hall k Hk); set_solver|intros Hk; specialize (Hall key Hk); set_solver].
    + intros ([_ Hall] & [Hfresh Hnodup] & ->). split_and!; [|done|set_solver].
      intros k Hk. specialize (Hall k Hk). set_solver.
Qed.

Lemma answeredKeys_spec expected runtimes left :
  answeredKeys expected runtimes = Some left <->
  Forall assigned runtimes /\ NoDup (runtimeKeys runtimes) /\ list_to_set (runtimeKeys runtimes) ⊆ expected /\
  left = expected ∖ list_to_set (runtimeKeys runtimes).
Proof.
  revert expected. induction runtimes as [|runtime runtimes IH]; intros expected.
  { cbn. split; [intros [= <-]|intros (_ & _ & _ & ->)]; [split_and!; [constructor..|set_solver|set_solver]|f_equal; set_solver]. }
  cbn [answeredKeys runtimeKeys map list_to_set]. rewrite Forall_cons, NoDup_cons. fold (runtimeKeys runtimes).
  set (key := RegisteredRuntime.RuntimeKey runtime). unfold assigned at 1. fold key.
  destruct ((key =s "") || (RegisteredRuntime.RuntimeID runtime =s "") || (RegisteredRuntime.RuntimeEpoch runtime <=? 0)) eqn:Hbad.
  - split; [done|]. intros ([(H1 & H2 & H3) _] & _). rewrite !orb_true_iff, !String.eqb_eq, Z.leb_le in Hbad. naive_solver lia.
  - rewrite !orb_false_iff, !String.eqb_neq, Z.leb_gt in Hbad. destruct (bool_decide (key ∈ expected)) eqn:Hin; cbn [negb].
    + apply bool_decide_eq_true in Hin. rewrite IH. split.
      * intros (Hall & Hnodup & Hsub & ->). split_and!; [naive_solver..|done|set_solver|done|set_solver|set_solver].
      * intros ([_ Hall] & [Hfresh Hnodup] & Hsub & ->). split_and!; [done|done|set_solver|set_solver].
    + apply bool_decide_eq_false in Hin. split; [done|]. intros (_ & _ & Hsub & _). set_solver.
Qed.

(** What the intervals of a registration must be. *)
Definition usable (response : SessionRegistrationResponse.t) : Prop :=
  0 < response.(HeartbeatIntervalMS) /\ 0 < response.(PollIntervalMS) /\ response.(WebSocketPath) <> "" /\
  MinimumLeaseDurationMS <= response.(LeaseDurationMS).

Lemma answered_permutation keys runtimes :
  some_and (expectedKeys ∅ keys) (fun expected =>
    some_and (answeredKeys expected runtimes) (fun left => bool_decide (left = ∅))) = true <->
  Forall (fun key => key <> "") keys /\ NoDup keys /\ Forall assigned runtimes /\ Permutation (runtimeKeys runtimes) keys.
Proof.
  split.
  - destruct (expectedKeys ∅ keys) as [expected|] eqn:He; [|done]. cbn [some_and].
    destruct (answeredKeys expected runtimes) as [left|] eqn:Ha; [|done]. cbn [some_and]. intros Hleft%bool_decide_eq_true.
    apply expectedKeys_spec in He as (Hkeys & Hnodup & ->). apply answeredKeys_spec in Ha as (Hall & Hnodup' & Hsub & ->).
    split_and!; [|done|done|].
    + eapply Forall_impl; [exact Hkeys|]. by intros key [].
    + apply NoDup_Permutation; [done..|]. intros key. split; intros Hin.
      * assert (key ∈ (list_to_set keys ∪ ∅ : gset string)) by set_solver. set_solver.
      * assert (key ∉ ((list_to_set keys ∪ ∅) ∖ list_to_set (runtimeKeys runtimes) : gset string)) as Hnot
          by (rewrite Hleft; apply not_elem_of_empty).
        destruct (decide (key ∈ runtimeKeys runtimes)); [done|set_solver].
  - intros (Hkeys & Hnodup & Hall & Hperm).
    assert (expectedKeys ∅ keys = Some (list_to_set keys ∪ ∅)) as ->.
    { apply expectedKeys_spec. split_and!; [|done|done]. eapply Forall_impl; [exact Hkeys|]. set_solver. }
    cbn [some_and]. assert (list_to_set (runtimeKeys runtimes) = (list_to_set keys : gset string)) as Hset
      by (apply leibniz_equiv; by rewrite Hperm).
    destruct (answeredKeys _ _) as [left|] eqn:Ha.
    + cbn [some_and]. apply answeredKeys_spec in Ha as (_ & _ & _ & ->). rewrite Hset. apply bool_decide_eq_true. set_solver.
    + assert (answeredKeys (list_to_set keys ∪ ∅) runtimes =
              Some ((list_to_set keys ∪ ∅) ∖ list_to_set (runtimeKeys runtimes))); [|congruence].
      apply answeredKeys_spec. rewrite Hset. split_and!; [done|by rewrite Hperm|set_solver|done].
Qed.

(** C20: a session registration is accepted exactly when it answers the
    runtimes that were registered. The keys of the request are distinct and
    not empty, the answer names each of them once and nothing else, in any
    order, each with an ID and a positive epoch, and the intervals, the
    socket path and the lease of at least 30 seconds can be used. *)
Theorem registration_answers_every_runtime keys response :
  validateSessionResponse keys response = true <->
  exists runtimes, response.(Runtimes) = Some runtimes /\
    Forall (fun key => key <> "") keys /\ NoDup keys /\ Forall assigned runtimes /\ Permutation (runtimeKeys runtimes) keys /\
    usable response.
Proof.
  unfold validateSessionResponse, usable. destruct (Runtimes response) as [runtimes|]; [|split; [done|by intros (? & ? & _)]].
  rewrite !andb_true_iff, answered_permutation, Nat.eqb_eq, !Z.ltb_lt, Z.leb_le, negb_true_iff, String.eqb_neq. split.
  - intros. exists runtimes. naive_solver.
  - intros (? & [= <-] & ? & ? & ? & Hperm & ?). apply Permutation_length in Hperm as Hlength.
    unfold runtimeKeys in Hlength. rewrite length_map in Hlength. naive_solver.
Qed.

(** ** Acknowledgements *)

Import TaskCommand.

(** All three parts of an acknowledgement, or none. *)
Lemma three_acknowledged response :
  acknowledgementCount response = 3%nat ->
  exists id outcome at_, response.(AcknowledgementID) = Some id /\ response.(AcknowledgementOutcome) = Some outcome /\
    response.(AcknowledgedAt) = Some at_.
Proof.
  unfold acknowledgementCount. destruct (AcknowledgementID response), (AcknowledgementOutcome response), (AcknowledgedAt response);
    simpl; intros [=]; by eauto 6.
Qed.

(** What the record of an acknowledged command says. *)
Record acknowledged (response : TaskCommand.t) (id outcome : string) : Prop := {
  ack_state : response.(State) = "acknowledged";
  ack_id : response.(AcknowledgementID) = Some id;
  ack_outcome : response.(AcknowledgementOutcome) = Some outcome;
  ack_known : In outcome ["applied"; "rejected"; "failed"];
  ack_time : exists at_, response.(AcknowledgedAt) = Some at_ /\ IsZero at_ = false;
  ack_kind : In response.(Kind) ["cancel"; "provide_input"; "guidance"; "pause"; "resume"];
  ack_applied : forall at_, response.(AppliedAt) = Some at_ ->
    outcome = "applied" /\ response.(Kind) <> "cancel" /\ IsZero at_ = false
}.

Lemma kind_known response :
  validPayload response = true -> In response.(Kind) ["cancel"; "provide_input"; "retry"; "guidance"; "pause"; "resume"].
Proof.
  unfold validPayload, supervisory, isSupervisoryCommand. rewrite !andb_true_iff, orb_true_iff. intros [[[Hkind _] _] _].
  destruct Hkind as [Hkind|Hkind]; [apply string_in_spec in Hkind|rewrite !orb_true_iff, !String.eqb_eq in Hkind]; cbn [In] in *; intuition congruence.
Qed.

Lemma acknowledged_record response id outcome :
  validateTaskCommandResource "" response = true -> response.(State) = "acknowledged" ->
  response.(AcknowledgementID) = Some id -> response.(AcknowledgementOutcome) = Some outcome ->
  acknowledged response id outcome.
Proof.
  unfold validateTaskCommandResource. rewrite !andb_true_iff. intros [[[_ Hpayload] Hack] Hstate] Hst Hid Hout.
  unfold validState in Hstate. rewrite Hst in Hstate.
  change ("acknowledged" =s "pending") with false in Hstate. change ("acknowledged" =s "applied") with false in Hstate.
  cbv match in Hstate. cbv zeta in Hstate.
  assert (serverRejected response = false) as Hserver by (unfold serverRejected; rewrite Hid; simpl; by rewrite !andb_false_r).
  rewrite Hserver, orb_false_r in Hstate. apply andb_true_iff in Hstate as [_ Hstate].
  rewrite !andb_true_iff, negb_true_iff, String.eqb_neq, Nat.eqb_eq in Hstate. destruct Hstate as [[[Hretry _] Happlied] Hcount].
  apply three_acknowledged in Hcount as (id' & outcome' & at_ & Hid' & Hout' & Hat).
  unfold validAcknowledgement in Hack. rewrite Hid, Hout, Hat in Hack. cbn [none_or] in Hack.
  rewrite !andb_true_iff in Hack. destruct Hack as [[_ [[_ _] Htime]] Hknown].
  split; [done..|by apply string_in_spec|exists at_; split; [done|by apply negb_true_iff]| |].
  - apply kind_known in Hpayload. cbn [In] in *. intuition congruence.
  - intros applied Happ. rewrite Happ in Happlied. cbn [is_nil orb] in Happlied. unfold outcome_is, set in Happlied.
    rewrite Hout in Happlied. cbn [some_and] in Happlied. rewrite !andb_true_iff, String.eqb_eq, negb_true_iff in Happlied.
    destruct Happlied as [[Hanswered Ho] Hzero]. split_and!; [done| |done]. intros Hkind.
    unfold answered, supervisory in Hanswered. by rewrite Hkind in Hanswered.
Qed.

Lemma call_ok {R} allowed statuses invalid (valid : Z -> R -> bool) answer response :
  call allowed statuses invalid valid answer = inr response ->
  allowed = true /\ exists statusCode, answer = inr (statusCode, response) /\
    (statuses = [] \/ In statusCode statuses) /\ valid statusCode response = true.
Proof.
  unfold call. destruct allowed; [|done]. cbn [negb]. destruct answer as [err|[statusCode r]]; [done|].
  destruct (negb _) eqn:Hstatus; [done|]. destruct (valid statusCode r) eqn:Hvalid; [|done]. intros [= ->].
  split; [done|]. exists statusCode. split_and!; [done| |done]. apply negb_false_iff, orb_true_iff in Hstatus as [Hstatus|Hstatus].
  - left. apply Z.eqb_eq in Hstatus. destruct statuses; [done|]. unfold llen in Hstatus. simpl in Hstatus. lia.
  - right. apply existsb_exists in Hstatus as (s & Hin & Heq). apply Z.eqb_eq in Heq. by subst.
Qed.

(** An acknowledgement is settled only by an answer about exactly that
    acknowledgement. When [AcknowledgeCommand] succeeds, the answer has the
    status 200 and is the record of the command sent, of the run and
    generation of the request, acknowledged under the request's
    acknowledgement ID with its outcome and a time; such a record was applied
    before only if it is not a cancellation and its outcome is applied. *)
Theorem acknowledgement_is_the_one_sent commandID request answer response :
  AcknowledgeCommand commandID request answer = inr response ->
  answer = inr (StatusOK, response) /\ request.(CommandAcknowledgement.CommandID) = commandID /\
  response.(CommandID) = commandID /\ response.(RunID) = Some request.(CommandAcknowledgement.RunID) /\
  response.(Generation) = Some request.(CommandAcknowledgement.fence).(Fence.Generation) /\
  acknowledged response request.(CommandAcknowledgement.AckID) request.(CommandAcknowledgement.Outcome).
Proof.
  unfold AcknowledgeCommand. intros (Hallowed & statusCode & -> & Hstatus & Hvalid)%call_ok.
  assert (statusCode = StatusOK) as -> by (destruct Hstatus as [?|[?|[]]]; by subst).
  unfold validateAcknowledgementResponse in Hvalid. rewrite !andb_true_iff in Hvalid.
  destruct Hvalid as [[[[[[Hresource Hcommand] Hrun] Hgeneration] Hstate] Hid] Houtcome].
  apply some_and_true in Hrun as (? & ? & Hrun), Hgeneration as (? & ? & Hgeneration), Hid as (? & ? & Hid),
    Houtcome as (? & ? & Houtcome).
  breflect. subst. split_and!; [done..|]. by apply acknowledged_record.
Qed.

(** The comparison of payloads is an equivalence on values whose numbers can
    be read; objects are compared member by member. *)
Theorem payload_comparison_is_equivalence :
  (forall v, numbers_scan v = true -> same v v) /\ Symmetric same /\ Transitive same /\
  (forall l r, same (JObject l) (JObject r) <-> same_members same l r).
Proof. split_and!; [exact same_reflexive|exact same_sym|exact same_trans|exact same_object]. Qed.

(** The UUID checks of the packages control, protocol and state agree. *)
Theorem uuid_checks_agree value :
  validateGoalUUID value = validateUUID value /\ validGoalSessionUUID value = validateGoalUUID value.
Proof. split; [apply uuid_same|]. unfold validGoalSessionUUID. by rewrite uuid_same. Qed.
