(* ===== verification/FlushProps.v ===== *)
(** * FlushProps: a record leaves the queue only by an answer

    Theorems about Flush.v: what a flush takes off the queue of a run was
    answered by the control plane, with a receipt that matches the record or
    a rejection that ends it; the loop ends; and the receipts the client of
    Control.v accepts are the ones the daemon accepts. *)

From S2P Require Import Prelude Sha256 Json Authority Protocol Journal Validation Store Session SessionOps.
From S2P Require Import Cgroup Containment Clone Outbox Delivery LateUsage SessionStore Control Flush.
From S2P Require Import Lifecycle OutboxFacts Traces DeliveryProps SessionSteps SessionProps ControlProps.
Import RunJournal.
Open Scope string_scope.
Open Scope Z_scope.

(** ** The client is a checked control API *)

#[export] Instance client_checked answers : CheckedAPI (clientAPI answers).
Proof.
  split; [done..| | | |]; intros *; (intros (_ & statusCode & _ & _ & Hvalid)%call_ok); exact Hvalid.
Qed.

(** ** What the methods do to the file of a run *)

Lemma with_store_store state store' : (with_store state store').(SessionFiles.store) = store'.
Proof. done. Qed.

Section Files.
Context `{AdmissionParser} `{JournalEncoder}.

(** A mutation of a journal, successful or not. *)
Lemma mutate_result fs store key f store' r :
  mutateJournal fs store key f = (store', r) ->
  (store' = store /\ exists e, r = Err e) \/
  exists loaded upd, on_disk store key loaded /\ valid_journal loaded /\ f loaded = Ok upd /\ valid_journal upd /\
    store' = with_runs store (<[journalPath (Key upd) := written upd]> store.(runs)) /\ (r = Ok upd \/ exists e, r = Err e).
Proof.
  unfold mutateJournal. destruct (negb (validateKey key)); [intros [= <- <-]; by left; eauto|].
  destruct (ensureOpenLocked store); [|intros [= <- <-]; left; by eauto].
  destruct (rbind _ _) as [upd|e] eqn:Hrun; [|intros [= <- <-]; left; by eauto]. inv_ok.
  apply load_inv in E as [Hdisk Hvalid]. unfold saved, saveJournalWithCapacityGuardLocked, saveJournalLocked.
  destruct (validateJournalSaveCapacity upd); [|intros [= <- <-]; left; by eauto].
  destruct (validateJournal upd) as [[]|] eqn:Hupd; [|intros [= <- <-]; left; by eauto].
  destruct (fits upd); [|intros [= <- <-]; left; by eauto].
  destruct (write fs); intros [= <- <-]; [right|left; by eauto|right]; exists a0, upd; split_and!; eauto.
Qed.

(** The journal a read of the key finds afterwards comes from the one that
    was there before, changed as [R] allows. *)
Definition follows (R : RunJournal.t -> RunJournal.t -> Prop) (key : RunKey.t) (before after : Store) : Prop :=
  forall journal', on_disk after key journal' -> exists journal, on_disk before key journal /\ R journal journal'.

#[export] Instance follows_preorder R key : PreOrder R -> PreOrder (follows R key).
Proof.
  intros HR. split; [intros store journal Hdisk; by exists journal|].
  intros s1 s2 s3 H12 H23 j3 (j2 & (j1 & ? & ?)%H12 & ?)%H23. exists j1. split; [done|by etrans].
Qed.

Lemma runs_with_runs store files : (with_runs store files).(runs) = files.
Proof. done. Qed.

Lemma written_inv upd journal' : written upd = Decodes journal' -> journal' = reread_fields upd /\ decodable (reread_fields upd) = true.
Proof.
  unfold written. generalize (reread_fields upd). intros stored. cbv zeta. destruct (decodable stored); [|done].
  by intros [= ->].
Qed.

Lemma written_on_disk store upd key journal' :
  on_disk (with_runs store (<[journalPath (Key upd) := written upd]> store.(runs))) key journal' -> Key upd = key ->
  journal' = reread_fields upd /\ decodable (reread_fields upd) = true.
Proof.
  unfold on_disk. rewrite runs_with_runs. intros [Hfile _] <-. rewrite lookup_insert_eq in Hfile.
  apply written_inv. by injection Hfile.
Qed.

Lemma mutate_follows (R : RunJournal.t -> RunJournal.t -> Prop) fs store key f store' r :
  PreOrder R -> (forall journal, R journal (reread_fields journal)) ->
  (forall loaded upd, f loaded = Ok upd -> Key upd = Key loaded /\ R loaded upd) ->
  mutateJournal fs store key f = (store', r) -> follows R key store store'.
Proof.
  intros HR Hreread Hf [[-> _]|(loaded & upd & Hdisk & _ & Hrun & _ & -> & _)]%mutate_result; [done|].
  apply Hf in Hrun as [Hkey HRu]. intros journal' [-> _]%written_on_disk; [|rewrite Hkey; apply Hdisk].
  exists loaded. split; [done|]. by etrans.
Qed.
End Files.

(** ** Session operations leave the run journals alone *)

Lemma save_session_store outcome state journal :
  (saveGoalSessionJournalLocked outcome state journal).1.(SessionFiles.store) = state.(SessionFiles.store).
Proof. unfold saveGoalSessionJournalLocked. by repeat case_match. Qed.

Lemma publish_store fs state journal : (publish fs state journal).1.(SessionFiles.store) = state.(SessionFiles.store).
Proof.
  unfold publish. destruct (beginGoalSessionLineageMutationLocked _ _ _) as [marked [|]] eqn:Hmark;
    apply (f_equal (fun r => r.1.(SessionFiles.store))) in Hmark; rewrite begin_store in Hmark; cbn [fst] in Hmark; [|done].
  destruct (saveGoalSessionJournalLocked _ _ _) as [saved [|]] eqn:Hsave;
    apply (f_equal (fun r => r.1.(SessionFiles.store))) in Hsave; rewrite save_session_store in Hsave; cbn [fst] in Hsave; cbn [fst].
  - rewrite refresh_store. congruence.
  - congruence.
Qed.

Lemma mutateSession_store fs state key m : (mutateGoalSession fs state key m).1.(SessionFiles.store) = state.(SessionFiles.store).
Proof. unfold mutateGoalSession. repeat case_match; [done|apply publish_store|done]. Qed.

Lemma guarded_store {A} state arguments (method : SessionFiles.t * result A) :
  method.1.(SessionFiles.store) = state.(SessionFiles.store) ->
  (SessionStore.guarded state arguments method).1.(SessionFiles.store) = state.(SessionFiles.store).
Proof. by destruct arguments. Qed.

(** ** The answer to a record *)

(** What a record is matched by when it leaves the queue. *)
Definition ident (delivery : GoalDelivery.t) :=
  (delivery.(GoalDelivery.Kind), delivery.(GoalDelivery.DeliveryID), delivery.(GoalDelivery.PayloadDigest)).

(** A request for the record was answered in this attempt with a receipt that
    matches it, or with a rejection that ends it. *)
Definition accepted_by (a : attempt) (runID : string) (d : GoalDelivery.t) : Prop :=
  exists state sent receipt, ident sent = ident d /\ send a state runID sent = inr receipt /\
    validateGoalDeliveryReceipt runID sent receipt = true.

Definition rejected_by (a : attempt) (runID : string) (retired : GoalDeliveryRetirement.t) : Prop :=
  exists state sent err, ident sent = ident retired.(GoalDeliveryRetirement.Delivery) /\
    send a state runID sent = inl (ControlFailed err) /\
    definitiveGoalDeliveryRejection sent.(GoalDelivery.Kind) err =
      Some (retired.(GoalDeliveryRetirement.StatusCode), retired.(GoalDeliveryRetirement.Code),
            retired.(GoalDeliveryRetirement.Message)).

Definition verdict (retired : GoalDeliveryRetirement.t) :=
  (ident retired.(GoalDeliveryRetirement.Delivery), retired.(GoalDeliveryRetirement.StatusCode),
   retired.(GoalDeliveryRetirement.Code), retired.(GoalDeliveryRetirement.Message)).

(** From one journal to a later one, every settled record is an old one or
    was answered in one of the attempts. *)
Record answered (attempts : nat -> attempt) (runID : string) (before after : RunJournal.t) : Prop := {
  answered_kept : deliveries_kept before after;
  answered_delivered : forall d, In d after.(DeliveredGoalDeliveries) ->
    In (ident d) (map ident before.(DeliveredGoalDeliveries)) \/ exists n, accepted_by (attempts n) runID d;
  answered_retired : forall r, In r after.(RetiredGoalDeliveries) ->
    In (verdict r) (map verdict before.(RetiredGoalDeliveries)) \/ exists n, rejected_by (attempts n) runID r
}.

Lemma accepted_same a runID d d' : ident d = ident d' -> accepted_by a runID d -> accepted_by a runID d'.
Proof. intros Hid (state & sent & receipt & ? & ? & ?). exists state, sent, receipt. split_and!; [congruence|done..]. Qed.

Lemma rejected_same a runID r r' : verdict r = verdict r' -> rejected_by a runID r -> rejected_by a runID r'.
Proof.
  unfold verdict. intros Hid (state & sent & err & ? & ? & ?). exists state, sent, err.
  pose proof (f_equal (fun v => v.1.1.1) Hid) as E1. pose proof (f_equal (fun v => v.1.1.2) Hid) as E2.
  pose proof (f_equal (fun v => v.1.2) Hid) as E3. pose proof (f_equal snd Hid) as E4. cbn [fst snd] in *.
  split_and!; [congruence|done|congruence].
Qed.

#[export] Instance answered_preorder attempts runID : PreOrder (answered attempts runID).
Proof.
  split.
  - intros journal. split; [done|intros; left; by apply in_map..].
  - intros j1 j2 j3 [K12 D12 R12] [K23 D23 R23]. split; [by etrans|..].
    + intros d [(d2 & Hid & Hd2)%in_map_iff|Hnew]%D23; [|by right].
      apply D12 in Hd2 as [Hold|(n & Hnew)]; [left; congruence|right]. exists n. by eapply accepted_same.
    + intros r [(r2 & Hid & Hr2)%in_map_iff|Hnew]%R23; [|by right].
      apply R12 in Hr2 as [Hold|(n & Hnew)]; [left; congruence|right]. exists n. by eapply rejected_same.
Qed.

Lemma answered_reread attempts runID journal : answered attempts runID journal (reread_fields journal).
Proof.
  split; [apply reread_deliveries|..].
  - intros d (d0 & <- & Hd)%in_map_iff. left. by apply (in_map ident) in Hd.
  - intros r (r0 & <- & Hr)%in_map_iff. left. by apply (in_map verdict) in Hr.
Qed.

(** The queue grows by a stop. *)
Lemma queue_answered attempts runID record journal journal' :
  queueGoalDeliveryOnJournal record journal = Ok journal' ->
  Key journal' = Key journal /\ answered attempts runID journal journal'.
Proof.
  intros Hrun. pose proof (queueGoalDelivery_kept _ _ _ Hrun) as Hkept. unfold queueGoalDeliveryOnJournal in Hrun. inv_ok.
  apply enqueueGoalDelivery_inv in Hrun as [[-> _]|[_ ->]]; [done|]. split; [done|]. split; [done|intros; left; by apply in_map..].
Qed.

Lemma isDelivery_ident kind deliveryID d :
  isDelivery kind deliveryID d = true -> d.(GoalDelivery.Kind) = kind /\ d.(GoalDelivery.DeliveryID) = deliveryID.
Proof. unfold isDelivery. by rewrite andb_true_iff, !String.eqb_eq. Qed.

(** A record that was accepted is marked delivered. *)
Lemma mark_answered attempts runID n sent journal journal' :
  accepted_by (attempts n) runID sent ->
  markGoalDeliveryDelivered sent.(GoalDelivery.Kind) sent.(GoalDelivery.DeliveryID) sent.(GoalDelivery.PayloadDigest) journal
    = Ok journal' ->
  Key journal' = Key journal /\ answered attempts runID journal journal'.
Proof.
  intros Haccepted Hrun. unfold markGoalDeliveryDelivered in Hrun.
  destruct (List.find _ _) as [found|]; inv_ok; [by subst|].
  destruct (take_first _ _) as [[pending rest]|] eqn:Htake; inv_ok. subst. breflect. split; [done|].
  split; [|intros d [Hd|[<-|[]]]%in_app_or|intros r Hr; left; by apply in_map].
  - split; unfold delivered_receipts, rejected_receipts, ready_receipts; journal_simpl; rewrite ?map_app; [by apply prefix_app_r|done|].
    intros r [->|Hin]%(taken_kept _ _ _ _ _ Htake); [right; left|by left]. apply in_or_app. right. by left.
  - left. by apply in_map.
  - right. exists n. eapply accepted_same; [|exact Haccepted]. unfold ident.
    apply take_first_some in Htake as [[-> ->]%isDelivery_ident _]. congruence.
Qed.

Lemma retire_answered attempts runID n sent statusCode code message at_ journal journal' :
  (exists state err, send (attempts n) state runID sent = inl (ControlFailed err) /\
     definitiveGoalDeliveryRejection sent.(GoalDelivery.Kind) err = Some (statusCode, code, message)) ->
  retireGoalDelivery sent.(GoalDelivery.Kind) sent.(GoalDelivery.DeliveryID) sent.(GoalDelivery.PayloadDigest)
    statusCode code message at_ journal = Ok journal' ->
  Key journal' = Key journal /\ answered attempts runID journal journal'.
Proof.
  intros (state & err & Hsend & Hrejected) Hrun. unfold retireGoalDelivery in Hrun.
  destruct (take_first _ _) as [[pending rest]|] eqn:Htake; inv_ok. subst. breflect. split; [done|].
  split; [|intros d Hd; left; by apply in_map|intros r [Hr|[<-|[]]]%in_app_or].
  - split; unfold delivered_receipts, rejected_receipts, ready_receipts; journal_simpl; rewrite ?map_app; [done|by apply prefix_app_r|].
    intros r [->|Hin]%(taken_kept _ _ _ _ _ Htake); [right; right|by left]. rewrite ?map_app. apply in_or_app. right. by left.
  - left. by apply in_map.
  - right. exists n, state, sent, err. split_and!; [|done|done]. unfold ident. cbn [GoalDeliveryRetirement.Delivery].
    apply take_first_some in Htake as [[-> ->]%isDelivery_ident _]. congruence.
Qed.

Section Delivering.
Context `{AdmissionParser} `{JournalEncoder}.
Context (attempts : nat -> attempt) (runID : string).

(** A relation between journals that rereading a file keeps, and every change
    a round makes to the queue: a stop that is queued, a record answered with
    its receipt, a record retired by a rejection. *)
Context (R : RunJournal.t -> RunJournal.t -> Prop) {HR : PreOrder R} (Hreread : forall journal, R journal (reread_fields journal)).
Context (Hqueue : forall record journal journal',
  queueGoalDeliveryOnJournal record journal = Ok journal' -> Key journal' = Key journal /\ R journal journal').
Context (Hmark : forall n sent journal journal',
  accepted_by (attempts n) runID sent ->
  markGoalDeliveryDelivered sent.(GoalDelivery.Kind) sent.(GoalDelivery.DeliveryID) sent.(GoalDelivery.PayloadDigest) journal
    = Ok journal' -> Key journal' = Key journal /\ R journal journal').
Context (Hretire : forall n sent statusCode code message at_ journal journal',
  (exists state err, send (attempts n) state runID sent = inl (ControlFailed err) /\
     definitiveGoalDeliveryRejection sent.(GoalDelivery.Kind) err = Some (statusCode, code, message)) ->
  retireGoalDelivery sent.(GoalDelivery.Kind) sent.(GoalDelivery.DeliveryID) sent.(GoalDelivery.PayloadDigest)
    statusCode code message at_ journal = Ok journal' -> Key journal' = Key journal /\ R journal journal').

Lemma related_mutation fs store key f store' r :
  (forall loaded upd, f loaded = Ok upd -> Key upd = Key loaded /\ R loaded upd) ->
  mutateJournal fs store key f = (store', r) ->
  follows R key store store' /\ forall upd, r = Ok upd -> Key upd = key.
Proof using HR Hreread.
  intros Hf Hrun. split; [eapply mutate_follows; [exact _|exact Hreread|exact Hf|exact Hrun]|].
  apply mutate_result in Hrun as [[_ [e ->]]|(loaded & upd & [_ Hkey] & _ & Hupd & _ & _ & [->|[e ->]])]; [done| |done].
  intros upd' [= <-]. apply Hf in Hupd as [-> _]. done.
Qed.

Lemma related_checked fs store key arguments f store' r :
  (forall loaded upd, f loaded = Ok upd -> Key upd = Key loaded /\ R loaded upd) ->
  checked store arguments (mutateJournal fs store key f) = (store', r) ->
  follows R key store store' /\ forall upd, r = Ok upd -> Key upd = key.
Proof using HR Hreread.
  intros Hf. unfold checked. destruct arguments; [by apply related_mutation|]. intros [= <- <-]. by split.
Qed.

Lemma closeRejected_store a state delivery : (closeRejected a state delivery).1.(SessionFiles.store) = state.(SessionFiles.store).
Proof.
  unfold closeRejected. destruct (GoalDelivery.SessionStopped delivery); [|done].
  destruct (_ =s GoalDeliverySessionStopped); [|done]. destruct (LoadGoalSessionByHandle _ _ _) as [session|]; [|done].
  destruct (CloseGoalSession _ _ _ _) as [state' [|]] eqn:Hclose;
    apply (f_equal (fun r => r.1.(SessionFiles.store))) in Hclose; unfold CloseGoalSession in Hclose;
    rewrite mutateSession_store in Hclose; by cbn [fst] in *.
Qed.

Lemma settleStopped_store a state journal delivery payload receipt :
  (settleStopped a state journal delivery payload receipt).1.(SessionFiles.store) = state.(SessionFiles.store).
Proof.
  unfold settleStopped. destruct (LoadGoalSessionByHandle _ _ _) as [session|]; [|done].
  destruct (MarkGoalSessionAvailable _ _ _ _ _) as [state' [|]] eqn:Hmarked;
    apply (f_equal (fun r => r.1.(SessionFiles.store))) in Hmarked; unfold MarkGoalSessionAvailable in Hmarked;
    rewrite guarded_store in Hmarked by apply mutateSession_store; by cbn [fst] in *.
Qed.

Lemma settleAttach_follows a state key payload receipt :
  follows R key state.(SessionFiles.store) (settleAttach a state key payload receipt).1.(SessionFiles.store).
Proof.
  unfold settleAttach. destruct (LoadGoalSessionByHandle _ _ _) as [session|]; [|done]. cbv zeta.
  destruct (_ || _); [done|].
  destruct (PersistGoalSessionControlAttachment _ _ _ _ _ _ _ _) as [state' persisted] eqn:Hpersist.
  apply (f_equal (fun r => r.1.(SessionFiles.store))) in Hpersist. unfold PersistGoalSessionControlAttachment in Hpersist.
  rewrite guarded_store in Hpersist by apply mutateSession_store. cbn [fst] in Hpersist. rewrite Hpersist.
  destruct persisted as [persisted|]; [|done]. destruct (_ =s GoalSessionStateUnavailable); [|done].
  destruct (QueueGoalSessionStopped _ _ _ _) as [store' queued] eqn:Hqueued. cbn [fst]. rewrite with_store_store.
  eapply related_mutation; [|exact Hqueued]. intros loaded upd. apply Hqueue.
Qed.

Lemma settleSession_follows a state journal delivery receipt :
  follows R (Key journal) state.(SessionFiles.store) (settleSession a state journal delivery receipt).1.(SessionFiles.store).
Proof.
  unfold settleSession. destruct receipt, (GoalDelivery.SessionAttach delivery), (GoalDelivery.SessionStopped delivery); try done;
    first [apply settleAttach_follows|by rewrite settleStopped_store].
Qed.

(** The journal an outcome hands on is the one of the same run. *)
Definition continues (key : RunKey.t) (o : outcome) : Prop :=
  match o.(failure) with None | Some (Rejected _) => Key o.(updated) = key | _ => True end.

Lemma retire_follows n before state journal delivery err rejection :
  send (attempts n) before runID delivery = inl (ControlFailed err) ->
  definitiveGoalDeliveryRejection delivery.(GoalDelivery.Kind) err = Some rejection ->
  let o := retire (attempts n) state journal delivery err rejection in
  follows R (Key journal) state.(SessionFiles.store) o.(files).(SessionFiles.store) /\ continues (Key journal) o.
Proof.
  intros Hsend Hrejected. destruct rejection as [[statusCode code] message]. unfold retire, continues.
  destruct (RetireGoalDelivery _ _ _ _ _ _ _ _ _ _) as [store' r] eqn:Hretired.
  apply related_checked in Hretired as [Hfollows Hkey]; [|intros loaded upd; apply (Hretire n); by eauto].
  destruct r as [retired|]; [|done].
  pose proof (closeRejected_store (attempts n) (with_store state store') delivery) as Hstore.
  destruct (closeRejected _ _ _) as [state' closed]. cbn [fst files failure updated] in *. rewrite Hstore. split; [done|].
  destruct closed as [[]|]; auto.
Qed.

Lemma settle_follows n before state journal delivery receipt :
  send (attempts n) before runID delivery = inr receipt -> validateGoalDeliveryReceipt runID delivery receipt = true ->
  let o := settle (attempts n) state journal delivery receipt in
  follows R (Key journal) state.(SessionFiles.store) o.(files).(SessionFiles.store) /\ continues (Key journal) o.
Proof.
  intros Hsend Hvalid. unfold settle, continues.
  pose proof (settleSession_follows (attempts n) state journal delivery receipt) as Hsession.
  destruct (settleSession _ _ _ _ _) as [state' [e|]]; cbn [fst files failure updated] in *;
    [split; [done|by destruct e]|].
  destruct (MarkGoalDeliveryDelivered _ _ _ _ _ _) as [store' r] eqn:Hmarked.
  apply related_checked in Hmarked as [Hfollows Hkey];
    [|intros loaded upd; apply (Hmark n); exists before, delivery, receipt; by split_and!].
  destruct r as [delivered|]; cbn [files failure updated]; rewrite with_store_store; (split; [by etrans|]); [by apply Hkey|done].
Qed.

Lemma find_kind kind deliveryID l delivery :
  List.find (isDelivery kind deliveryID) l = Some delivery -> delivery.(GoalDelivery.Kind) = kind /\ In delivery l.
Proof. intros [Hin [? _]%isDelivery_ident]%find_some. done. Qed.

(** What the rest of the daemon does to the files of the run is related too. *)
Context (meanwhile : nat -> SessionFiles.t -> SessionFiles.t) (key : RunKey.t).
Context (Hmeanwhile : forall n state, follows R key state.(SessionFiles.store) (meanwhile n state).(SessionFiles.store)).

Lemma deliver_follows n state journal kind deliveryID validateAttach :
  journal.(RunID) = runID -> Key journal = key ->
  let o := deliverGoalDelivery (meanwhile n) (attempts n) state journal kind deliveryID validateAttach in
  follows R key state.(SessionFiles.store) o.(files).(SessionFiles.store) /\ continues key o.
Proof using All.
  intros HrunID <-. unfold deliverGoalDelivery, continues. rewrite HrunID. cbv zeta.
  destruct (List.find _ _) as [delivery|] eqn:Hfind; [|done].
  destruct (_ && negb (GoalDelivery.Ready delivery)); [done|]. destruct (negb (goalAPI _)); [done|].
  assert (forall o, follows R (Key journal) (meanwhile n state).(SessionFiles.store) o.(files).(SessionFiles.store) /\ continues (Key journal) o ->
            follows R (Key journal) state.(SessionFiles.store) o.(files).(SessionFiles.store) /\ continues (Key journal) o) as Hafter
    by (intros o [Ho ?]; split; [etrans; [apply Hmeanwhile|exact Ho]|done]).
  destruct (send (attempts n) state runID delivery) as [e|receipt] eqn:Hsend; apply Hafter.
  - destruct e as [err|e| | |err]; try done.
    destruct (definitiveGoalDeliveryRejection _ _) as [rejection|] eqn:Hrejected; [by eapply retire_follows|done].
  - destruct (validateGoalDeliveryReceipt runID delivery receipt) eqn:Hvalid; [|done]. cbn [negb].
    destruct (match attach_of receipt with Some _ => _ | None => _ end); [done|]. by eapply settle_follows.
Qed.

Lemma flush_follows fuel n state journal attached o :
  journal.(RunID) = runID -> Key journal = key -> flush fuel meanwhile attempts n state journal attached = Some o ->
  follows R key state.(SessionFiles.store) o.(files).(SessionFiles.store).
Proof using All.
  revert n state journal attached. induction fuel as [|fuel IH]; intros n state journal attached HrunID Hjournal; [done|]. cbn [flush].
  destruct (List.find _ _) as [delivery|]; [|by intros [= <-]].
  pose proof (deliver_follows n state journal (GoalDelivery.Kind delivery) (GoalDelivery.DeliveryID delivery) None HrunID Hjournal)
    as [Hfollows Hkey].
  set (round := deliverGoalDelivery _ _ _ _ _ _ _) in *. unfold continues in Hkey.
  assert (Key (updated round) = key -> RunID (updated round) = runID) as Hrun
    by (rewrite <- Hjournal; unfold Key; intros [= ? _]; congruence).
  destruct (failure round) as [[err|e| | |err]|]; try (intros [= <-]; exact Hfollows);
    intros Hrest; (etrans; [exact Hfollows|]); by eapply IH; [apply Hrun| |].
Qed.
End Delivering.

(** C5: a record leaves the queue of a run only by an answer of the control
    plane. Between the journal on disk before a flush and the one after it,
    whatever the files and the control API did, nothing else changing the
    files: what was settled stays
    settled, and a ready record is still ready or was settled; a record newly
    marked delivered was sent in one of the attempts and answered with a
    receipt that matches it, and a record newly retired was answered with a
    definitive rejection, whose status, code and message are recorded. *)
Theorem flush_settles_only_answered `{AdmissionParser} `{JournalEncoder} fuel attempts state journal o before after :
  flushGoalDeliveries fuel attempts state journal = Some o ->
  on_disk state.(SessionFiles.store) (Key journal) before -> on_disk o.(files).(SessionFiles.store) (Key journal) after ->
  answered attempts journal.(RunID) before after.
Proof.
  intros Hflush [Hbefore _] Hafter. unfold flushGoalDeliveries, flushGoalDeliveriesWhile in Hflush.
  apply (flush_follows attempts journal.(RunID) (answered attempts journal.(RunID)) (answered_reread _ _)) with (key := Key journal) in Hflush;
    [|intros *; apply queue_answered|intros n *; apply (mark_answered _ _ n)|intros n *; apply (retire_answered _ _ n)|done..].
  destruct (Hflush after Hafter) as (journal' & [Hfile _] & Hanswered).
  rewrite Hbefore in Hfile. by injection Hfile as ->.
Qed.

(** ** The two checks of a receipt *)

Lemma uuid_not_empty value : validateGoalUUID value = true -> (value <>s "") = true.
Proof. by destruct value. Qed.

Lemma stopped_passes runID request receipt payload fence :
  request = GoalSessionStoppedRequest.mk fence payload.(GoalSessionStoppedDelivery.SessionID)
              payload.(GoalSessionStoppedDelivery.LocalHandleID) payload.(GoalSessionStoppedDelivery.BindingID) ->
  validateGoalSessionStoppedReceipt runID request receipt = true -> stoppedReceiptMatches runID payload receipt = true.
Proof.
  intros ->. unfold validateGoalSessionStoppedReceipt, stoppedReceiptMatches. cbn [forallb GoalSessionStoppedRequest.SessionID
    GoalSessionStoppedRequest.LocalHandleID GoalSessionStoppedRequest.BindingID]. rewrite !andb_true_iff.
  intros ((((((([_ [Hid _]] & Hrun) & Hsession) & Hhandle) & Hbinding) & Hstate) & Hactive) & Hlock).
  apply uuid_not_empty in Hid. by split_and!.
Qed.

Lemma evidence_passes runID evidence receipt :
  validateGoalEvidenceReceipt runID evidence receipt = true -> evidenceReceiptMatches runID evidence receipt = true.
Proof. unfold validateGoalEvidenceReceipt, evidenceReceiptMatches. rewrite !andb_true_iff. tauto. Qed.

Lemma usage_passes runID usage receipt :
  validateGoalUsageReceipt runID usage receipt = true -> usageReceiptMatches runID usage receipt = true.
Proof.
  unfold validateGoalUsageReceipt, usageReceiptMatches. cbv zeta. rewrite !andb_true_iff.
  change sameOptionalString with equalGoalOptionalString. tauto.
Qed.

(** A binding that was given, or that the server is asked to issue. *)
Definition bindable (payload : GoalSessionAttachDelivery.t) : Prop :=
  if payload.(GoalSessionAttachDelivery.BindingID) =s "" then payload.(GoalSessionAttachDelivery.ServerIssuedBinding) = true
  else blank payload.(GoalSessionAttachDelivery.BindingID) = false.

Lemma attach_passes runID fence payload receipt :
  bindable payload -> validateGoalSessionReceipt runID (attachRequest fence payload) receipt = true ->
  attachReceiptMatches runID fence payload receipt =
    (receipt.(GoalSessionReceipt.GoalID) =s payload.(GoalSessionAttachDelivery.GoalID)).
Proof.
  intros Hbindable Hvalid. apply eq_true_iff_eq. unfold attachReceiptMatches. split; [rewrite !andb_true_iff; tauto|]. intros Hgoal.
  unfold validateGoalSessionReceipt, validateGoalSessionAttachmentReceipt in Hvalid. rewrite !andb_true_iff in Hvalid.
  cbn [attachRequest GoalSessionAttachRequest.fence GoalSessionAttachRequest.LocalHandleID GoalSessionAttachRequest.BindingID
       GoalSessionAttachRequest.HarnessKind GoalSessionAttachRequest.HarnessVersion GoalSessionAttachRequest.AdapterVersion
       GoalSessionAttachRequest.WorkspaceFingerprint GoalSessionAttachRequest.Workspace
       GoalSessionAttachRequest.RepositoryResourceID] in Hvalid.
  destruct_and!.
  assert (negb ((payload.(GoalSessionAttachDelivery.BindingID) <>s "") &&
                (receipt.(GoalSessionReceipt.BindingID) <>s payload.(GoalSessionAttachDelivery.BindingID)) ||
                (payload.(GoalSessionAttachDelivery.BindingID) =s "") &&
                negb payload.(GoalSessionAttachDelivery.ServerIssuedBinding)) = true) as Hbinding.
  { unfold bindable in Hbindable. destruct (GoalSessionAttachDelivery.BindingID payload =s "") eqn:Hempty.
    - by rewrite Hbindable.
    - rewrite Hbindable in *. cbn [none_or] in *. by match goal with Hb : (GoalSessionReceipt.BindingID receipt =s _) = true |- _ => rewrite Hb end. }
  rewrite Hbinding, !andb_true_iff. split_and!; first [done|by apply uuid_not_empty].
Qed.

(** C12: the second check of a receipt never keeps a record that the client
    let pass. Whatever the control plane answers, a receipt of a stop, of
    evidence or of usage that the client returned matches the record it was
    sent for, so the record is settled; of the receipt of a new attachment
    the second check only adds the Goal, which the request does not name. *)
Theorem second_check_agrees_with_client a `{CheckedAPI a.(control)} runID :
  (forall state delivery receipt, delivery.(GoalDelivery.Kind) <> GoalDeliverySessionAttach ->
     send a state runID delivery = inr receipt -> validateGoalDeliveryReceipt runID delivery receipt = true) /\
  (forall fence payload receipt, bindable payload ->
     a.(control).(attachSession) runID (attachRequest fence payload) = inr receipt ->
     attachReceiptMatches runID fence payload receipt =
       (receipt.(GoalSessionReceipt.GoalID) =s payload.(GoalSessionAttachDelivery.GoalID))).
Proof.
  split; [|intros; apply attach_passes; [done|by apply checked_attach]].
  intros state delivery receipt Hkind%String.eqb_neq. unfold send, validateGoalDeliveryReceipt. cbv zeta. rewrite Hkind.
  destruct (GoalDelivery.Kind delivery =s GoalDeliverySessionStopped).
  { destruct (GoalDelivery.SessionStopped delivery) as [payload|]; [|done]. rewrite checked_stop. cbn [negb].
    destruct (markStopped _ _ _) as [|r] eqn:Hanswer; [done|]. intros [= <-].
    eapply stopped_passes; [reflexivity|by eapply checked_stopped]. }
  destruct (GoalDelivery.Kind delivery =s GoalDeliveryEvidence).
  { destruct (GoalDelivery.evidence delivery) as [evidence|]; [|done].
    destruct (appendEvidence _ _ _ _) as [|r] eqn:Hanswer; [done|]. intros [= <-]. by eapply evidence_passes, checked_evidence. }
  destruct (GoalDelivery.Kind delivery =s GoalDeliveryUsage); [|done].
  destruct (GoalDelivery.usage delivery) as [usage|]; [|done].
  destruct (recordUsage _ _ _ _) as [|r] eqn:Hanswer; [done|]. intros [= <-]. by eapply usage_passes, checked_usage.
Qed.

(** ** The loop ends *)

(** An attachment may put a stop in its place, so it weighs two rounds. *)
Definition weight (kind : string) : nat := if kind =s GoalDeliverySessionAttach then 2%nat else 1%nat.
Definition weights (l : list GoalDelivery.t) : nat := list_sum (map (fun d => weight d.(GoalDelivery.Kind)) l).
Definition queue_weight (journal : RunJournal.t) : nat := weights journal.(PendingGoalDeliveries).

Lemma weights_app l r : weights (l ++ r)%list = (weights l + weights r)%nat.
Proof. unfold weights. by rewrite map_app, list_sum_app. Qed.

Lemma weights_permutation l r : Permutation l r -> weights l = weights r.
Proof. unfold weights. induction 1; simpl; lia. Qed.

Lemma weights_bound l : (weights l <= 2 * length l)%nat.
Proof. unfold weights. induction l as [|d l IH]; simpl; [done|]. unfold weight at 1. destruct (_ =s _); lia. Qed.

Lemma weights_reread l : weights (map reread_delivery l) = weights l.
Proof. unfold weights. by rewrite map_map. Qed.

(** A record of that kind and ID is pending. *)
Definition pends (kind deliveryID : string) (journal : RunJournal.t) : Prop :=
  exists d, In d journal.(PendingGoalDeliveries) /\ isDelivery kind deliveryID d = true.

Lemma pends_reread kind deliveryID journal : pends kind deliveryID journal -> pends kind deliveryID (reread_fields journal).
Proof. intros (d & Hin & Hd). exists (reread_delivery d). split; [by apply in_map|done]. Qed.

Lemma reread_weight journal : queue_weight (reread_fields journal) = queue_weight journal.
Proof. apply weights_reread. Qed.

Lemma taken_weight kind deliveryID l pending rest :
  take_first (isDelivery kind deliveryID) l = Some (pending, rest) -> weights l = (weight kind + weights rest)%nat.
Proof. intros ([<- _]%isDelivery_ident & HP & _)%take_first_some. by rewrite (weights_permutation _ _ HP). Qed.

Lemma retire_weight kind deliveryID digest statusCode code message at_ journal journal' :
  retireGoalDelivery kind deliveryID digest statusCode code message at_ journal = Ok journal' ->
  queue_weight journal = (weight kind + queue_weight journal')%nat.
Proof.
  unfold retireGoalDelivery, queue_weight. destruct (take_first _ _) as [[pending rest]|] eqn:Htake; intros Hrun; inv_ok. subst.
  by apply taken_weight in Htake.
Qed.

Lemma pends_not_delivered `{AdmissionParser} kind deliveryID journal :
  valid_journal journal -> pends kind deliveryID journal ->
  List.find (isDelivery kind deliveryID) journal.(DeliveredGoalDeliveries) = None.
Proof.
  intros Hvalid%valid_identities (d & Hin & [Hk Hi]%isDelivery_ident). destruct (List.find _ _) as [d'|] eqn:Hfind; [|done].
  apply find_some in Hfind as [Hin' [Hk' Hi']%isDelivery_ident]. exfalso.
  unfold history in Hvalid. rewrite map_app in Hvalid.
  eapply NoDup_app_disjoint; [exact Hvalid|by apply (in_map deliveryIdentity) in Hin; exact Hin|].
  rewrite map_app. apply in_or_app. left. apply in_map_iff. exists d'. split; [|done]. unfold deliveryIdentity. congruence.
Qed.

Lemma mark_weight `{AdmissionParser} kind deliveryID digest journal journal' :
  markGoalDeliveryDelivered kind deliveryID digest journal = Ok journal' ->
  (queue_weight journal' <= queue_weight journal)%nat /\
  (valid_journal journal -> pends kind deliveryID journal -> queue_weight journal = (weight kind + queue_weight journal')%nat).
Proof.
  unfold markGoalDeliveryDelivered, queue_weight. intros Hrun.
  destruct (List.find _ _) as [delivered|] eqn:Hfind; inv_ok.
  { subst. split; [done|]. intros Hvalid Hpends. by rewrite (pends_not_delivered _ _ _ Hvalid Hpends) in Hfind. }
  destruct (take_first _ _) as [[pending rest]|] eqn:Htake; inv_ok. subst. apply taken_weight in Htake. journal_simpl. lia.
Qed.

Lemma queue_stop_weight payload journal journal' :
  queueGoalDeliveryOnJournal (stoppedDelivery payload) journal = Ok journal' ->
  (queue_weight journal' <= queue_weight journal + 1)%nat /\
  forall kind deliveryID, pends kind deliveryID journal -> pends kind deliveryID journal'.
Proof.
  unfold queueGoalDeliveryOnJournal. intros Hrun. inv_ok.
  match goal with E : GoalDelivery.prepare _ _ = Ok _ |- _ => apply prepare_inv in E as -> end.
  apply enqueueGoalDelivery_inv in Hrun as [[-> _]|[_ ->]]; [split; [lia|done]|]. unfold queue_weight. journal_simpl.
  rewrite weights_app. split; [done|]. intros kind deliveryID (d & Hin & Hd). exists d. split; [|done].
  apply in_or_app. by left.
Qed.

Section Rounds.
Context `{AdmissionParser} `{JournalEncoder}.

(** The weight of the queue a read of the key finds. *)
Definition disk_weight (store : Store) (key : RunKey.t) : nat :=
  match store.(runs) !! journalPath key with Some (Decodes journal) => queue_weight journal | _ => 0%nat end.

(** The file is what was written of this journal. *)
Definition synced (store : Store) (journal : RunJournal.t) : Prop :=
  store.(runs) !! journalPath (Key journal) = Some (written journal) /\ valid_journal journal.

Lemma synced_disk store journal loaded : synced store journal -> on_disk store (Key journal) loaded -> loaded = reread_fields journal.
Proof. intros [Hfile _] [Hloaded _]. rewrite Hfile in Hloaded. apply written_inv. congruence. Qed.

Lemma synced_weight store journal loaded :
  synced store journal -> on_disk store (Key journal) loaded -> queue_weight loaded = queue_weight journal.
Proof. intros Hsynced ->%(synced_disk _ _ _ Hsynced). apply reread_weight. Qed.

Lemma on_disk_same store key j1 j2 : on_disk store key j1 -> on_disk store key j2 -> j1 = j2.
Proof. intros [H1 _] [H2 _]. rewrite H1 in H2. by injection H2. Qed.

Lemma disk_weight_loaded store key loaded : on_disk store key loaded -> disk_weight store key = queue_weight loaded.
Proof. unfold disk_weight. by intros [-> _]. Qed.

Lemma written_synced store upd :
  valid_journal upd -> synced (with_runs store (<[journalPath (Key upd) := written upd]> store.(runs))) upd.
Proof. intros Hvalid. split; [|done]. rewrite runs_with_runs. apply lookup_insert_eq. Qed.

(** What settling the session may do to the queue: an attachment adds one
    record at most, and nothing leaves. *)
Definition grows (by_ : nat) (before after : RunJournal.t) : Prop :=
  (queue_weight after <= queue_weight before + by_)%nat /\
  forall kind deliveryID, pends kind deliveryID before -> pends kind deliveryID after.

Lemma grows_reread journal : grows 0 journal (reread_fields journal).
Proof. split; [rewrite reread_weight; lia|intros kind deliveryID; apply pends_reread]. Qed.

Lemma settleAttach_grows a state key payload receipt :
  follows (grows 1) key state.(SessionFiles.store) (settleAttach a state key payload receipt).1.(SessionFiles.store).
Proof.
  assert (forall store, follows (grows 1) key store store) as Hrefl
    by (intros store journal Hdisk; exists journal; split; [done|split; [lia|done]]).
  unfold settleAttach. destruct (LoadGoalSessionByHandle _ _ _) as [session|]; [|done]. cbv zeta.
  destruct (_ || _); [done|].
  destruct (PersistGoalSessionControlAttachment _ _ _ _ _ _ _ _) as [state' persisted] eqn:Hpersist.
  apply (f_equal (fun r => r.1.(SessionFiles.store))) in Hpersist. unfold PersistGoalSessionControlAttachment in Hpersist.
  rewrite guarded_store in Hpersist by apply mutateSession_store. cbn [fst] in Hpersist. rewrite Hpersist.
  destruct persisted as [persisted|]; [|done]. destruct (_ =s GoalSessionStateUnavailable); [|done].
  destruct (QueueGoalSessionStopped _ _ _ _) as [store' queued] eqn:Hqueue. cbn [fst]. rewrite with_store_store.
  apply mutate_result in Hqueue as [[-> _]|(loaded & upd & Hdisk & _ & Hrun & _ & -> & _)]; [done|].
  pose proof (queue_answered (fun _ => a) "" _ _ _ Hrun) as [Hkey _].
  intros journal' [-> _]%written_on_disk; [|rewrite Hkey; apply Hdisk]. exists loaded. split; [done|].
  apply queue_stop_weight in Hrun as [Hweight Hpends]. split; [by rewrite reread_weight|]. intros. by apply pends_reread, Hpends.
Qed.

Lemma settleSession_grows a state journal delivery receipt :
  validateGoalDeliveryReceipt journal.(RunID) delivery receipt = true ->
  follows (grows (weight delivery.(GoalDelivery.Kind) - 1)) (Key journal) state.(SessionFiles.store)
    (settleSession a state journal delivery receipt).1.(SessionFiles.store).
Proof.
  intros Hvalid. assert (forall n store, follows (grows n) (Key journal) store store) as Hrefl
    by (intros n store j Hdisk; exists j; split; [done|split; [lia|done]]).
  unfold settleSession. destruct receipt as [attach| | |]; [|destruct (GoalDelivery.SessionAttach delivery);
    destruct (GoalDelivery.SessionStopped delivery); try done; by rewrite settleStopped_store..].
  destruct (GoalDelivery.SessionAttach delivery) as [payload|]; [|destruct (GoalDelivery.SessionStopped delivery); done].
  unfold validateGoalDeliveryReceipt in Hvalid. unfold weight.
  destruct (GoalDelivery.Kind delivery =s GoalDeliverySessionAttach); [apply settleAttach_grows|].
  exfalso. cbv zeta in Hvalid. by repeat case_match.
Qed.

(** A round that goes on has settled a record on disk. *)
Record settled_round (store : Store) (journal : RunJournal.t) (kind deliveryID : string) (o : outcome) : Prop := {
  round_synced : synced o.(files).(SessionFiles.store) o.(updated);
  round_key : Key o.(updated) = Key journal;
  round_disk : exists before, on_disk store (Key journal) before;
  round_weight : (queue_weight o.(updated) <= disk_weight store (Key journal) + 1)%nat;
  round_progress : forall before, on_disk store (Key journal) before -> pends kind deliveryID before ->
    (queue_weight o.(updated) < queue_weight before)%nat
}.

Definition goes_on (o : outcome) : Prop := match o.(failure) with None | Some (Rejected _) => True | _ => False end.

Lemma checked_result fs store key arguments f store' upd :
  checked store arguments (mutateJournal fs store key f) = (store', Ok upd) ->
  exists loaded, on_disk store key loaded /\ valid_journal loaded /\ f loaded = Ok upd /\ valid_journal upd /\
    store' = with_runs store (<[journalPath (Key upd) := written upd]> store.(runs)).
Proof.
  unfold checked. destruct arguments; [|done].
  intros [[_ [e ?]]|(loaded & upd' & ? & ? & ? & ? & ? & [[= <-]|[e ?]])]%mutate_result; [done| |done]. by exists loaded.
Qed.

Lemma weight_positive kind : (1 <= weight kind)%nat.
Proof. unfold weight. destruct (_ =s _); lia. Qed.

Lemma retire_round a state journal delivery err rejection :
  let o := retire a state journal delivery err rejection in
  goes_on o -> settled_round state.(SessionFiles.store) journal delivery.(GoalDelivery.Kind) delivery.(GoalDelivery.DeliveryID) o.
Proof.
  destruct rejection as [[statusCode code] message]. unfold retire, goes_on.
  destruct (RetireGoalDelivery _ _ _ _ _ _ _ _ _ _) as [store' [retired|]] eqn:Hretire; [|done].
  pose proof (closeRejected_store a (with_store state store') delivery) as Hstore.
  destruct (closeRejected _ _ _) as [state' closed]. cbn [fst files failure updated] in *. intros _.
  apply checked_result in Hretire as (loaded & Hdisk & _ & Hrun & Hvalid & ->).
  pose proof (weight_positive (GoalDelivery.Kind delivery)) as Hpositive.
  assert (Key retired = Key loaded) as Hkey
    by (unfold retireGoalDelivery in Hrun; destruct (take_first _ _) as [[]|]; inv_ok; by subst).
  apply retire_weight in Hrun. split; cbn [files updated].
  - rewrite Hstore, with_store_store. by apply written_synced.
  - rewrite Hkey. apply Hdisk.
  - by exists loaded.
  - rewrite (disk_weight_loaded _ _ _ Hdisk). lia.
  - intros before Hbefore _. rewrite <- (disk_weight_loaded _ _ _ Hbefore), (disk_weight_loaded _ _ _ Hdisk). lia.
Qed.

Lemma settleSession_error a state journal delivery receipt err :
  (settleSession a state journal delivery receipt).2 <> Some (Rejected err).
Proof.
  unfold settleSession, settleAttach, settleStopped. repeat (case_match; simplify_eq/=); try done.
Qed.

Lemma settle_round a state journal delivery receipt :
  validateGoalDeliveryReceipt journal.(RunID) delivery receipt = true ->
  let o := settle a state journal delivery receipt in
  goes_on o -> settled_round state.(SessionFiles.store) journal delivery.(GoalDelivery.Kind) delivery.(GoalDelivery.DeliveryID) o.
Proof.
  intros Hreceipt. unfold settle, goes_on.
  pose proof (settleSession_grows a state journal delivery receipt Hreceipt) as Hgrows.
  pose proof (settleSession_error a state journal delivery receipt) as Herror.
  destruct (settleSession _ _ _ _ _) as [state' [e|]]; cbn [fst snd files failure updated] in *.
  { destruct e as [| | | |err]; try done. by destruct (Herror err). }
  destruct (MarkGoalDeliveryDelivered _ _ _ _ _ _) as [store' [delivered|]] eqn:Hmark; [|done]. intros _.
  apply checked_result in Hmark as (loaded & Hdisk & Hloaded & Hrun & Hvalid & ->).
  pose proof (weight_positive (GoalDelivery.Kind delivery)) as Hpositive.
  assert (weight (GoalDelivery.Kind delivery) <= 2)%nat by (unfold weight; destruct (_ =s _); lia).
  assert (Key delivered = Key loaded) as Hkey
    by (unfold markGoalDeliveryDelivered in Hrun; repeat case_match; inv_ok; by subst).
  apply mark_weight in Hrun as [Hless Hmarked]. apply Hgrows in Hdisk as Hdisk'. destruct Hdisk' as (before & Hbefore & Hweight & Hpends).
  split; cbn [files updated].
  - rewrite with_store_store. by apply written_synced.
  - rewrite Hkey. apply Hdisk.
  - by exists before.
  - rewrite (disk_weight_loaded _ _ _ Hbefore). lia.
  - intros before' Hbefore' Hpending. rewrite (on_disk_same _ _ _ _ Hbefore' Hbefore) in *.
    specialize (Hmarked Hloaded (Hpends _ _ Hpending)). lia.
Qed.

(** ** A valid queue has one record of a kind and ID *)

Lemma NoDup_map_same {A B} (f : A -> B) l x y : List.NoDup (map f l) -> In x l -> In y l -> f x = f y -> x = y.
Proof.
  induction l as [|z l IH]; simpl; [done|]. intros Hnodup. inversion Hnodup as [|? ? Hnew Hrest]; subst.
  intros [->|Hx] [->|Hy] Hf; [done| | |by apply IH]; exfalso; apply Hnew, in_map_iff; eauto.
Qed.

Lemma find_pending journal delivery :
  valid_journal journal -> In delivery journal.(PendingGoalDeliveries) ->
  List.find (isDelivery delivery.(GoalDelivery.Kind) delivery.(GoalDelivery.DeliveryID)) journal.(PendingGoalDeliveries) = Some delivery.
Proof.
  intros Hvalid%valid_identities Hin. unfold history in Hvalid. rewrite map_app in Hvalid. apply List.NoDup_app_remove_r in Hvalid.
  destruct (List.find _ _) as [found|] eqn:Hfind.
  - apply find_some in Hfind as [Hfound [Hk Hi]%isDelivery_ident]. f_equal.
    eapply NoDup_map_same; [exact Hvalid|done..|]. unfold deliveryIdentity. congruence.
  - apply (find_none _ _ Hfind) in Hin. unfold isDelivery in Hin. by rewrite !String.eqb_refl in Hin.
Qed.

Lemma send_error a state runID delivery err : send a state runID delivery <> inl (Rejected err).
Proof. unfold send, sendAttach, from_control. repeat (case_match; simplify_eq/=); done. Qed.

Lemma deliver_round meanwhile a state journal delivery :
  valid_journal journal -> In delivery journal.(PendingGoalDeliveries) -> delivery.(GoalDelivery.Ready) = true ->
  let o := deliverGoalDelivery meanwhile a state journal delivery.(GoalDelivery.Kind) delivery.(GoalDelivery.DeliveryID) None in
  goes_on o -> settled_round (meanwhile state).(SessionFiles.store) journal delivery.(GoalDelivery.Kind) delivery.(GoalDelivery.DeliveryID) o.
Proof.
  intros Hvalid Hin Hready. unfold deliverGoalDelivery. rewrite (find_pending _ _ Hvalid Hin), Hready, andb_false_r.
  destruct (negb (goalAPI _)); [done|]. cbv zeta.
  pose proof (send_error a state (RunID journal) delivery) as Herror.
  destruct (send _ _ _ _) as [e|receipt].
  - destruct e as [err| | | |err]; try done; [|by destruct (Herror err)].
    destruct (definitiveGoalDeliveryRejection _ _); [apply retire_round|done].
  - destruct (validateGoalDeliveryReceipt _ _ _) eqn:Hreceipt; [|done]. cbn [negb].
    destruct (attach_of receipt); by apply settle_round.
Qed.

Lemma flush_ends_synced fuel attempts n state journal attached :
  synced state.(SessionFiles.store) journal -> (queue_weight journal < fuel)%nat ->
  is_Some (flush fuel (fun _ state => state) attempts n state journal attached).
Proof.
  revert n state journal attached. induction fuel as [|fuel IH]; intros n state journal attached Hsynced Hfuel; [lia|]. cbn [flush].
  destruct (List.find _ _) as [delivery|] eqn:Hfind; [|done]. apply find_some in Hfind as [Hin Hready].
  assert (GoalDelivery.Ready delivery = true) as Hflag
    by (unfold goalDeliveryReadyForFlush in Hready; by destruct (GoalDelivery.Ready delivery)).
  pose proof (deliver_round (fun state => state) (attempts n) state journal delivery (proj2 Hsynced) Hin Hflag) as Hround. cbv zeta in Hround.
  set (o := deliverGoalDelivery _ _ _ _ _ _ _) in *. unfold goes_on in Hround.
  assert (forall attached', settled_round (SessionFiles.store state) journal (GoalDelivery.Kind delivery) (GoalDelivery.DeliveryID delivery) o ->
            is_Some (flush fuel (fun _ state => state) attempts (S n) (files o) (updated o) attached')) as Hnext.
  { intros attached' [Hs _ (before & Hbefore) _ Hprogress]. apply IH; [done|].
    specialize (Hprogress _ Hbefore). rewrite (synced_weight _ _ _ Hsynced Hbefore) in Hprogress.
    rewrite (synced_disk _ _ _ Hsynced Hbefore) in Hprogress.
    assert (pends (GoalDelivery.Kind delivery) (GoalDelivery.DeliveryID delivery) (reread_fields journal)) as Hpends
      by (apply pends_reread; exists delivery; split; [done|]; unfold isDelivery; by rewrite !String.eqb_refl).
    specialize (Hprogress Hpends). lia. }
  destruct (failure o) as [[]|]; eauto.
Qed.

(** When the loop ends without an error nothing is ready any more. *)
Lemma flush_drains fuel meanwhile attempts n state journal attached o :
  flush fuel meanwhile attempts n state journal attached = Some o -> o.(failure) = None ->
  Forall (fun d => goalDeliveryReadyForFlush o.(updated) d = false) o.(updated).(PendingGoalDeliveries).
Proof.
  revert n state journal attached. induction fuel as [|fuel IH]; intros n state journal attached; [done|]. cbn [flush].
  destruct (List.find _ _) as [delivery|] eqn:Hfind.
  - set (round := deliverGoalDelivery _ _ _ _ _ _ _). destruct (failure round) as [[]|]; try (intros [= <-]; done); apply IH.
  - intros [= <-] _. cbn [updated]. rewrite List.Forall_forall. intros d Hin. by apply (find_none _ _ Hfind).
Qed.
End Rounds.

(** C31: a flush ends. For a valid journal, whatever the files and the control
    API do at each attempt and whatever is on disk when it begins, nothing
    else changing the files, the loop is over
    after at most two rounds for every record pending on disk and three more:
    an accepted attachment may queue a stop, everything else only shortens
    the queue. If it ends without an error, no pending record is ready. *)
Theorem flush_terminates `{AdmissionParser} `{JournalEncoder} fuel attempts state journal :
  valid_journal journal ->
  (2 * match state.(SessionFiles.store).(runs) !! journalPath (Key journal) with
       | Some (Decodes disk) => length disk.(PendingGoalDeliveries) | _ => 0 end + 3 <= fuel)%nat ->
  exists o, flushGoalDeliveries fuel attempts state journal = Some o /\
    (o.(failure) = None -> Forall (fun d => goalDeliveryReadyForFlush o.(updated) d = false) o.(updated).(PendingGoalDeliveries)).
Proof.
  intros Hvalid Hfuel. assert (is_Some (flushGoalDeliveries fuel attempts state journal)) as [o Ho].
  2: { exists o. split; [done|]. by eapply flush_drains. }
  assert (disk_weight (SessionFiles.store state) (Key journal) + 3 <= fuel)%nat as Hbound.
  { unfold disk_weight. destruct (_ !! _) as [[disk|]|]; try lia. unfold queue_weight.
    pose proof (weights_bound (PendingGoalDeliveries disk)). lia. }
  unfold flushGoalDeliveries, flushGoalDeliveriesWhile. destruct fuel as [|fuel]; [lia|]. cbn [flush].
  destruct (List.find _ _) as [delivery|] eqn:Hfind; [|done]. apply find_some in Hfind as [Hin Hready].
  assert (GoalDelivery.Ready delivery = true) as Hflag
    by (unfold goalDeliveryReadyForFlush in Hready; by destruct (GoalDelivery.Ready delivery)).
  pose proof (deliver_round (fun state => state) (attempts 0%nat) state journal delivery Hvalid Hin Hflag) as Hround. cbv zeta in Hround.
  set (o := deliverGoalDelivery _ _ _ _ _ _ _) in *. unfold goes_on in Hround.
  destruct (failure o) as [[]|]; try done; destruct (Hround I) as [Hs _ _ Hweight _]; (apply flush_ends_synced; [done|lia]).
Qed.

(** A conflict of an attachment is settled by the readback alone: its error
    replaces the conflict, and a readback that finds nothing retires the
    record. *)
Theorem conflict_is_settled_by_readback a state runID fence payload session message retryAfter set err :
  bindable payload ->
  LoadGoalSessionByHandle a.(readback_scan) state payload.(GoalSessionAttachDelivery.LocalHandleID) = Ok session ->
  session.(GoalSessionJournal.ControlSessionID) <> "" -> a.(control).(readbackAPI) = true ->
  a.(control).(attachSession) runID (attachRequest fence payload) = inl (APIError 409 IdempotencyConflict message retryAfter set) ->
  a.(control).(refetchAttachment) runID fence = inl err ->
  sendAttach a state runID fence payload = inl (ControlFailed err) /\
  (goalSessionAttachmentAbsent err = true -> is_Some (definitiveGoalDeliveryRejection GoalDeliverySessionAttach err)).
Proof.
  intros Hbindable Hload Hmapped%String.eqb_neq Hreadback Hattach Hrefetch. split.
  - unfold sendAttach. rewrite Hload, Hmapped. cbn [andb].
    assert (blank payload.(GoalSessionAttachDelivery.BindingID) && negb payload.(GoalSessionAttachDelivery.ServerIssuedBinding) = false) as ->.
    { unfold bindable in Hbindable. destruct (_ =s ""); rewrite Hbindable; [apply andb_false_r|done]. }
    rewrite Hattach. cbn [goalSessionAttachmentIdempotencyConflict]. by rewrite Hreadback, Hrefetch.
  - destruct err as [statusCode code| | | |]; try done. cbn [goalSessionAttachmentAbsent definitiveGoalDeliveryRejection].
    intros ->%Z.eqb_eq. done.
Qed.
