(* ===== verification/LateFlushProps.v ===== *)
(** * LateFlushProps: late usage is sent until it is answered

    The theorem about [flushLateGoalUsage] of Flush.v: with the ledgers of
    deleted runs on disk it ends, it changes nothing but those ledgers, and a
    usage record is settled only by the answer of the control plane to
    exactly that usage. *)

From stdpp Require Import sorting.
From S2P Require Import Prelude Sha256 Json Authority Protocol Journal Validation Store Session SessionOps.
From S2P Require Import Cgroup Containment Clone Outbox Delivery LateUsage SessionStore Control Flush.
From S2P Require Import DeliveryProps LateUsageProps SessionSteps SessionProps FlushProps.
Import LateGoalUsageLedger (PendingUsageDeliveries, DeliveredDeliveries, RetiredDeliveries, UpdatedAt).
Open Scope string_scope.
Open Scope Z_scope.

(** ** One record per ID *)

Lemma addDeliveryID_inv seen deliveryID seen' :
  LateGoalUsageLedger.addDeliveryID seen deliveryID = Ok seen' -> string_in deliveryID seen = false /\ seen' = deliveryID :: seen.
Proof. unfold LateGoalUsageLedger.addDeliveryID. intros Hrun. inv_ok. by subst. Qed.

Lemma pending_not_delivered ledger d d' :
  LateGoalUsageLedger.validate ledger = Ok tt -> In d ledger.(PendingUsageDeliveries) -> In d' ledger.(DeliveredDeliveries) ->
  d.(GoalDelivery.DeliveryID) <> d'.(GoalDelivery.DeliveryID).
Proof.
  unfold LateGoalUsageLedger.validate. intros Hvalid Hd Hd' Heq.
  destruct (_ || _); [done|]. apply rbind_ok in Hvalid as (s1 & H1 & Hvalid). apply rbind_ok in Hvalid as (s2 & H2 & _).
  apply (identities_loop GoalDelivery.DeliveryID) in H1 as [N1 Hseen1]; [|intros; inv_ok; by apply addDeliveryID_inv|constructor].
  apply (identities_loop GoalDelivery.DeliveryID) in H2 as [N2 Hseen2]; [|intros; inv_ok; by apply addDeliveryID_inv|done].
  subst. rewrite app_nil_r in N2.
  eapply NoDup_app_disjoint; [exact N2|rewrite <- in_rev; by apply (in_map GoalDelivery.DeliveryID) in Hd'; exact Hd'|].
  rewrite <- in_rev. rewrite <- Heq. by apply in_map.
Qed.

(** ** A change to a ledger *)

Lemma mutateLate_result fs state key f now state' r :
  (forall loaded upd, f loaded = Ok upd -> late_extends loaded upd) ->
  mutateLateGoalUsage fs state key f now = (state', r) ->
  (state' = state /\ exists e, r = Err e) \/
  exists loaded upd, state.(late) !! lateGoalUsagePath key = Some (LedgerDecodes loaded) /\ f loaded = Ok upd /\
    let stored := upd <| UpdatedAt := now |> in
    LateGoalUsageLedger.validate stored = Ok tt /\
    state' = with_late state (<[lateGoalUsagePath key := LedgerDecodes stored]> state.(late)) /\
    (r = Ok stored \/ exists e, r = Err e).
Proof.
  intros Hf. unfold mutateLateGoalUsage. destruct (rbind _ _) as [upd|] eqn:Hrun; [|intros [= <- <-]; left; by eauto]. inv_ok.
  apply LoadLate_ok, load_ledger in E as (Hfile & _ & Hpath). rename a into loaded.
  assert (LateGoalUsageLedger.Key upd = LateGoalUsageLedger.Key loaded) as Hkey
    by (apply Hf in Hrun as [Hid _ _ _]; unfold ledger_identity in Hid; congruence).
  set (stored := upd <| UpdatedAt := now |>). unfold saveLateGoalUsageLocked.
  change (LateGoalUsageLedger.Key stored) with (LateGoalUsageLedger.Key upd). rewrite Hkey, <- Hpath.
  destruct (LateGoalUsageLedger.validate stored) as [[]|] eqn:Hvalid.
  2: { intros [= <- <-]. left. split; [by destruct state|by eauto]. }
  rewrite (ledger_written _ Hvalid). destruct (write fs); intros [= <- <-].
  - right. exists loaded, upd. split_and!; [done..|by left].
  - left. split; [by destruct state|by eauto].
  - right. exists loaded, upd. split_and!; [done..|right; by eauto].
Qed.

Lemma inserted_well_formed late key stored :
  late_well_formed late -> LateGoalUsageLedger.validate stored = Ok tt ->
  lateGoalUsagePath key = lateGoalUsagePath (LateGoalUsageLedger.Key stored) ->
  late_well_formed (<[lateGoalUsagePath key := LedgerDecodes stored]> late).
Proof.
  intros Hwf Hvalid Hpath path content [[<- <-]|[_ Hfile]]%lookup_insert_Some; [by exists stored|by apply Hwf].
Qed.

(** ** Answers *)

(** The usage of a record was sent under the fence of its run and answered. *)
Definition usage_accepted (attempts : nat -> attempt) (ledger : LateGoalUsageLedger.t) (d : GoalDelivery.t) : Prop :=
  exists n usage receipt, d.(GoalDelivery.usage) = Some usage /\
    (attempts n).(control).(recordUsage) ledger.(LateGoalUsageLedger.RunID) ledger.(LateGoalUsageLedger.fence) usage = inr receipt /\
    validateGoalDeliveryReceipt ledger.(LateGoalUsageLedger.RunID) d (UsageReceipt receipt) = true.

Definition usage_rejected (attempts : nat -> attempt) (ledger : LateGoalUsageLedger.t) (r : GoalDeliveryRetirement.t) : Prop :=
  exists n usage err, r.(GoalDeliveryRetirement.Delivery).(GoalDelivery.usage) = Some usage /\
    (attempts n).(control).(recordUsage) ledger.(LateGoalUsageLedger.RunID) ledger.(LateGoalUsageLedger.fence) usage = inl err /\
    definitiveGoalDeliveryRejection GoalDeliveryUsage err =
      Some (r.(GoalDeliveryRetirement.StatusCode), r.(GoalDeliveryRetirement.Code), r.(GoalDeliveryRetirement.Message)).

Record late_answered (attempts : nat -> attempt) (before after : LateGoalUsageLedger.t) : Prop := {
  late_answered_kept : late_extends before after;
  late_answered_delivered : forall d, In d after.(DeliveredDeliveries) ->
    In d before.(DeliveredDeliveries) \/ usage_accepted attempts before d;
  late_answered_retired : forall r, In r after.(RetiredDeliveries) ->
    In r before.(RetiredDeliveries) \/ usage_rejected attempts before r
}.

Lemma extends_identity before after :
  late_extends before after ->
  LateGoalUsageLedger.Key after = LateGoalUsageLedger.Key before /\
  after.(LateGoalUsageLedger.RunID) = before.(LateGoalUsageLedger.RunID) /\
  after.(LateGoalUsageLedger.fence) = before.(LateGoalUsageLedger.fence).
Proof. intros [Hid _ _ _]. unfold ledger_identity, LateGoalUsageLedger.Key in *. by injection Hid as -> -> -> _. Qed.

#[export] Instance late_answered_preorder attempts : PreOrder (late_answered attempts).
Proof.
  split; [intros before; split; [done|intros; by left..]|].
  intros l1 l2 l3 [K12 D12 R12] [K23 D23 R23]. pose proof (extends_identity _ _ K12) as (_ & Hrun & Hfence).
  split; [by etrans|..].
  - intros d [Hd|Hd]%D23; [by apply D12|right]. unfold usage_accepted in *. by rewrite Hrun, Hfence in Hd.
  - intros r [Hr|Hr]%R23; [by apply R12|right]. unfold usage_rejected in *. by rewrite Hrun, Hfence in Hr.
Qed.

Lemma touched_answered attempts before ledger now :
  late_answered attempts before ledger -> late_answered attempts before (ledger <| UpdatedAt := now |>).
Proof. intros [K D R]. split; [etrans; [exact K|apply touched_kept]|done|done]. Qed.

(** The head of the pending records is the one that is taken. *)
Lemma take_head delivery rest :
  take_first (lateID delivery.(GoalDelivery.DeliveryID)) (delivery :: rest) = Some (delivery, rest).
Proof. cbn [take_first]. unfold lateID at 1. by rewrite String.eqb_refl. Qed.

Lemma mark_head attempts ledger delivery rest upd :
  LateGoalUsageLedger.validate ledger = Ok tt -> ledger.(PendingUsageDeliveries) = delivery :: rest ->
  usage_accepted attempts ledger delivery ->
  markLateDelivered delivery.(GoalDelivery.DeliveryID) delivery.(GoalDelivery.PayloadDigest) ledger = Ok upd ->
  late_answered attempts ledger upd /\ upd.(PendingUsageDeliveries) = rest.
Proof.
  intros Hvalid Hpending Haccepted Hrun. pose proof (markLate_kept _ _ _ _ Hrun) as Hkept.
  unfold markLateDelivered in Hrun. rewrite Hpending, take_head in Hrun.
  destruct (List.find _ _) as [d|] eqn:Hfind; inv_ok; [|subst].
  - apply find_some in Hfind as [Hin Hid]. unfold lateID in Hid. apply String.eqb_eq in Hid.
    destruct (pending_not_delivered ledger delivery d Hvalid); [rewrite Hpending; by left|done|done].
  - split; [|done]. split; [done| |by left]. intros d [Hd|[<-|[]]]%in_app_or; [by left|by right].
Qed.

Lemma retire_head attempts ledger delivery rest statusCode code message at_ upd :
  ledger.(PendingUsageDeliveries) = delivery :: rest ->
  usage_rejected attempts ledger (GoalDeliveryRetirement.mk delivery statusCode code message at_) ->
  retireLate delivery.(GoalDelivery.DeliveryID) delivery.(GoalDelivery.PayloadDigest) statusCode code message at_ ledger = Ok upd ->
  late_answered attempts ledger upd /\ upd.(PendingUsageDeliveries) = rest.
Proof.
  intros Hpending Hrejected Hrun. pose proof (retireLate_kept _ _ _ _ _ _ _ _ Hrun) as Hkept.
  unfold retireLate in Hrun. rewrite Hpending, take_head in Hrun. inv_ok. subst.
  split; [|done]. split; [done|by left|]. intros r [Hr|[<-|[]]]%in_app_or; [by left|by right].
Qed.

(** ** The loop *)

Section Rounds.
Context (attempts : nat -> attempt).

(** What a flush of one ledger leaves: its own file, answered further, and
    every other file as it was. *)
Record flushed (state state' : LateUsage.files) (ledger : LateGoalUsageLedger.t) : Prop := {
  flushed_well_formed : late_well_formed state'.(late);
  flushed_store : state'.(store) = state.(store);
  flushed_file : exists after, state'.(late) !! lateGoalUsagePath (LateGoalUsageLedger.Key ledger) = Some (LedgerDecodes after) /\
    late_answered attempts ledger after;
  flushed_others : forall path, path <> lateGoalUsagePath (LateGoalUsageLedger.Key ledger) ->
    state'.(late) !! path = state.(late) !! path
}.

Definition listed (state : LateUsage.files) (ledger : LateGoalUsageLedger.t) : Prop :=
  state.(late) !! lateGoalUsagePath (LateGoalUsageLedger.Key ledger) = Some (LedgerDecodes ledger).

Lemma flushed_refl state ledger : late_well_formed state.(late) -> listed state ledger -> flushed state state ledger.
Proof. intros Hwf Hlisted. split; [done|done| |done]. by exists ledger. Qed.

(** One settled record. *)
Lemma round fs state ledger f now state' r rest :
  late_well_formed state.(late) -> listed state ledger ->
  (forall loaded upd, f loaded = Ok upd -> late_extends loaded upd) ->
  (forall upd, f ledger = Ok upd -> late_answered attempts ledger upd /\ upd.(PendingUsageDeliveries) = rest) ->
  mutateLateGoalUsage fs state (LateGoalUsageLedger.Key ledger) f now = (state', r) ->
  flushed state state' ledger /\
  forall upd, r = Ok upd -> listed state' upd /\ LateGoalUsageLedger.Key upd = LateGoalUsageLedger.Key ledger /\
    late_answered attempts ledger upd /\ upd.(PendingUsageDeliveries) = rest.
Proof.
  intros Hwf Hlisted Hkept Hf Hrun.
  apply mutateLate_result in Hrun as [[-> [e ->]]|(loaded & upd & Hfile & Hupd & Hvalid & -> & Hr)]; [..|done].
  { split; [by apply flushed_refl|done]. }
  unfold listed in Hlisted. rewrite Hlisted in Hfile. injection Hfile as <-.
  destruct (Hf _ Hupd) as [Hanswered Hrest]. destruct (extends_identity _ _ (Hkept _ _ Hupd)) as (Hkey & _ & _).
  split.
  - split; cbn [late store with_late]; [|done| |].
    + apply inserted_well_formed; [done..|]. change (LateGoalUsageLedger.Key (upd <| UpdatedAt := now |>)) with (LateGoalUsageLedger.Key upd).
      by rewrite Hkey.
    + eexists. rewrite lookup_insert_eq. split; [done|]. by apply touched_answered.
    + intros path Hne. by rewrite lookup_insert_ne.
  - intros upd' ->. destruct Hr as [Hr|[e ?]]; [|done]. assert (upd' = upd <| UpdatedAt := now |>) as -> by congruence.
    assert (LateGoalUsageLedger.Key (upd <| UpdatedAt := now |>) = LateGoalUsageLedger.Key ledger) as Hkey' by exact Hkey.
    unfold listed. rewrite Hkey'.
    cbn [late with_late]. rewrite lookup_insert_eq. split_and!; [done|done|by apply touched_answered|done].
Qed.

Lemma flushed_trans state state' state'' ledger upd :
  flushed state state' ledger -> late_answered attempts ledger upd -> LateGoalUsageLedger.Key upd = LateGoalUsageLedger.Key ledger ->
  flushed state' state'' upd -> flushed state state'' ledger.
Proof.
  intros [_ S1 _ O1] Hanswered Hkey [W2 S2 (after & F2 & A2) O2]. rewrite Hkey in *. split; [done|congruence|exists after; split; [done|by etrans]|].
  intros path Hne. rewrite O2, O1 by done. done.
Qed.

Lemma flushLedger_ends fuel n state ledger :
  late_well_formed state.(late) -> listed state ledger -> (length ledger.(PendingUsageDeliveries) < fuel)%nat ->
  exists state' n' next, flushLedger fuel attempts n state ledger = Some (state', n', next) /\ flushed state state' ledger.
Proof.
  revert n state ledger. induction fuel as [|fuel IH]; intros n state ledger Hwf Hlisted Hfuel; [lia|]. cbn [flushLedger].
  pose proof (flushed_refl _ _ Hwf Hlisted) as Hrefl.
  destruct (PendingUsageDeliveries ledger) as [|delivery rest] eqn:Hpending; [by eauto|].
  destruct (GoalDelivery.usage delivery) as [usage|] eqn:Husage; [|by eauto]. cbv zeta.
  assert (LateGoalUsageLedger.validate ledger = Ok tt) as Hvalid by (by apply Hwf in Hlisted as (? & [= <-] & ? & _)).
  assert (forall state' r, (flushed state state' ledger /\ forall upd, r = Ok upd -> listed state' upd /\
            LateGoalUsageLedger.Key upd = LateGoalUsageLedger.Key ledger /\ late_answered attempts ledger upd /\
            upd.(PendingUsageDeliveries) = rest) ->
          exists state'' n' next, match r with
            | Ok upd => flushLedger fuel attempts (S n) state' upd
            | Err _ => Some (state', S n, true)
            end = Some (state'', n', next) /\ flushed state state'' ledger) as Hnext.
  { intros state' [upd|e] [Hflushed Hupd]; [|by eauto].
    destruct (Hupd upd eq_refl) as (Hlisted' & Hkey & Hanswered & Hrest).
    destruct (IH (S n) state' upd) as (state'' & n' & next & Hrun & Hflushed'); [apply Hflushed|done|rewrite Hrest; simpl in Hfuel; lia|].
    exists state'', n', next. split; [done|]. by eapply flushed_trans. }
  destruct (recordUsage _ _ _ _) as [err|receipt] eqn:Hanswer.
  - destruct (definitiveGoalDeliveryRejection _ _) as [[[statusCode code] message]|] eqn:Hrejected; [|by eauto].
    destruct (RetireLateGoalUsage _ _ _ _ _ _ _ _ _ _) as [state' r] eqn:Hretire. apply Hnext.
    eapply round; [done|done| | |exact Hretire]; [intros *; apply retireLate_kept|].
    intros upd. apply retire_head; [done|]. by exists n, usage, err.
  - destruct (validateGoalDeliveryReceipt _ _ _) eqn:Hreceipt; [|by eauto]. cbn [negb].
    destruct (MarkLateGoalUsageDelivered _ _ _ _ _ _) as [state' r] eqn:Hmark. apply Hnext.
    eapply round; [done|done| | |exact Hmark]; [intros *; apply markLate_kept|].
    intros upd. apply mark_head; [done|done|]. by exists n, usage, receipt.
Qed.

(** ** All ledgers *)

Definition ledgerPath (ledger : LateGoalUsageLedger.t) : string := lateGoalUsagePath (LateGoalUsageLedger.Key ledger).

(** Every ledger on disk is still there, answered further. *)
Definition all_answered (before after : LateUsage.files) : Prop :=
  forall path ledger, before.(late) !! path = Some (LedgerDecodes ledger) ->
    exists ledger', after.(late) !! path = Some (LedgerDecodes ledger') /\ late_answered attempts ledger ledger'.

#[local] Instance all_answered_preorder : PreOrder all_answered.
Proof.
  split; [intros state path ledger Hfile; by exists ledger|].
  intros s1 s2 s3 H12 H23 path ledger (l2 & Hl2 & ?)%H12. apply H23 in Hl2 as (l3 & ? & ?). exists l3. split; [done|by etrans].
Qed.

Lemma flushed_answered state state' ledger : listed state ledger -> flushed state state' ledger -> all_answered state state'.
Proof.
  intros Hlisted [_ _ (after & Hafter & Hanswered) Hothers] path before Hfile.
  destruct (decide (path = ledgerPath ledger)) as [->|Hne]; [|exists before; by rewrite Hothers].
  unfold listed in Hlisted. unfold ledgerPath in Hfile. rewrite Hlisted in Hfile. injection Hfile as <-. by exists after.
Qed.

Lemma flushLedgers_ends fuel n state ledgers :
  late_well_formed state.(late) -> Forall (listed state) ledgers -> NoDup (map ledgerPath ledgers) ->
  Forall (fun ledger => length ledger.(PendingUsageDeliveries) < fuel)%nat ledgers ->
  exists state', flushLedgers fuel attempts n state ledgers = Some state' /\ state'.(store) = state.(store) /\
    late_well_formed state'.(late) /\ all_answered state state'.
Proof.
  revert n state. induction ledgers as [|ledger rest IH]; intros n state Hwf Hlisted Hnodup Hfuel; cbn [flushLedgers]; [by exists state|].
  apply Forall_cons in Hlisted as [Hledger Hlisted]. apply Forall_cons in Hfuel as [Hbound Hfuel].
  apply NoDup_cons in Hnodup as [Hfresh Hnodup].
  destruct (flushLedger_ends fuel n state ledger Hwf Hledger Hbound) as (state' & n' & next & -> & Hflushed).
  pose proof (flushed_answered _ _ _ Hledger Hflushed) as Hall. destruct Hflushed as [Hwf' Hstore _ Hothers].
  destruct next; [|by exists state'].
  destruct (IH n' state') as (final & Hrun & Hstore' & Hwf'' & Hall'); [done| |done|done|].
  - rewrite Forall_forall in Hlisted |- *. intros other Hin. unfold listed. rewrite Hothers; [by apply Hlisted|].
    intros Heq. apply Hfresh, list_elem_of_fmap. by exists other.
  - exists final. split_and!; [done|congruence|done|by etrans].
Qed.

Lemma list_loop readable late names acc ledgers :
  for_each (fun listed name => try ledger <- loadLateGoalUsagePathLocked (readable name) late name ;; Ok (listed ++ [ledger])%list)
    acc names = Ok ledgers ->
  exists loaded, ledgers = (acc ++ loaded)%list /\ map ledgerPath loaded = names /\
    Forall (fun ledger => late !! ledgerPath ledger = Some (LedgerDecodes ledger)) loaded.
Proof.
  revert acc. induction names as [|name names IH]; intros acc Hrun.
  { injection Hrun as <-. exists []. by rewrite app_nil_r. }
  cbn [for_each] in Hrun. inv_ok. subst. rename a0 into ledger. apply IH in Hrun as (loaded & -> & Hnames & Hall).
  exists (ledger :: loaded). rewrite <- app_assoc. split; [done|].
  unfold loadLateGoalUsagePathLocked in *. destruct (late !! name) as [[found|]|] eqn:Hfile; inv_ok. subst found. breflect.
  cbn [map]. fold (ledgerPath ledger) in *.
  split; [congruence|]. constructor; [congruence|done].
Qed.

Lemma listing listable readable state ledgers :
  ListLateGoalUsage listable readable state = Ok ledgers -> Forall (listed state) ledgers /\ NoDup (map ledgerPath ledgers).
Proof.
  unfold ListLateGoalUsage. intros Hrun. inv_ok. subst. rename a0 into loaded.
  apply list_loop in E1 as (? & -> & Hnames & Hall). rewrite merge_sort_Permutation. split; [done|].
  rewrite app_nil_l, Hnames. unfold ledgerNames. rewrite merge_sort_Permutation.
  apply NoDup_ListNoDup, List.NoDup_filter, NoDup_ListNoDup, NoDup_fst_map_to_list.
Qed.

(** C36: late usage is settled only by the answer to it. With valid ledgers
    on disk and fuel for more rounds than any of them has pending records,
    [flushLateGoalUsage] ends, whatever the files and the control API do; it
    leaves the run journals alone and keeps every ledger; a record it marked
    delivered was sent, under the run and fence of its ledger, and answered
    with a receipt that matches it, and a record it retired was answered with
    the rejection that is recorded. *)
Theorem late_flush_settles_only_answered fuel scan state :
  late_well_formed state.(late) ->
  (forall path ledger, state.(late) !! path = Some (LedgerDecodes ledger) -> (length ledger.(PendingUsageDeliveries) < fuel)%nat) ->
  exists state', flushLateGoalUsage fuel attempts scan state = Some state' /\ state'.(store) = state.(store) /\
    late_well_formed state'.(late) /\ all_answered state state'.
Proof.
  intros Hwf Hfuel. unfold flushLateGoalUsage. destruct (ListLateGoalUsage _ _ _) as [ledgers|] eqn:Hlist; [|by exists state].
  destruct (negb _); [by exists state|]. apply listing in Hlist as [Hlisted Hnodup].
  apply flushLedgers_ends; [done..|]. eapply Forall_impl; [exact Hlisted|]. intros ledger. apply Hfuel.
Qed.
End Rounds.

(** ** Late usage drains *)

Lemma usage_name_listed digest :
  len digest = 64 -> hex_decodes digest = true -> isLateGoalUsageFile ("usage-" ++ digest ++ ".json") = true.
Proof.
  intros Hlen Hhex. unfold isLateGoalUsageFile.
  assert (String.length ("usage-" ++ digest ++ ".json") = 6 + String.length digest + 5)%nat as Hlength
    by (rewrite !append_length; cbn [String.length]; lia).
  rewrite Hlength. cbv zeta.
  replace (6 + String.length digest + 5 - 5)%nat with (6 + String.length digest)%nat by lia.
  replace (6 + String.length digest + 5 - 11)%nat with (String.length digest) by lia.
  replace (String.substring (6 + String.length digest) 5 ("usage-" ++ digest ++ ".json"))
    with ".json" by (symmetry; exact (substring_tail digest ".json" 5)).
  replace (String.substring 6 (String.length digest) ("usage-" ++ digest ++ ".json"))
    with digest by (symmetry; exact (substring_head digest ".json")).
  replace (String.substring 0 6 ("usage-" ++ digest ++ ".json"))
    with "usage-" by (symmetry; exact (substring_head "usage-" (digest ++ ".json"))).
  rewrite Hhex, Hlen. reflexivity.
Qed.

Lemma lateGoalUsagePath_listed key : isLateGoalUsageFile (lateGoalUsagePath key) = true.
Proof. apply usage_name_listed; [apply sha256_hex_len|apply sha256_hex_decodes]. Qed.

(** A record of a valid ledger carries usage and is ready. *)
Lemma valid_usage ledger d :
  LateGoalUsageLedger.validDelivery ledger d = true ->
  d.(GoalDelivery.Kind) = GoalDeliveryUsage /\ d.(GoalDelivery.Ready) = true /\ exists usage, d.(GoalDelivery.usage) = Some usage.
Proof.
  unfold LateGoalUsageLedger.validDelivery. rewrite !andb_true_iff, String.eqb_eq. intros [[Hkind _] Hvalid]. split; [done|].
  unfold is_ok in Hvalid. destruct (GoalDelivery.validatePersisted _ d) as [[]|] eqn:Hp; [|done].
  unfold GoalDelivery.validatePersisted, GoalDelivery.prepare in Hp. inv_ok.
  match goal with Hb : negb (GoalDelivery.validBody _ _) = false |- _ => apply negb_false_iff in Hb; rename Hb into Hbody end.
  clear -Hkind Hbody. destruct d as [kind id digest fence ready attach stopped evidence usage].
  cbn [GoalDelivery.Kind] in Hkind. subst kind. destruct attach, stopped, evidence, ready; try discriminate Hbody.
  destruct usage as [usage|]; [|discriminate Hbody]. by eauto.
Qed.

(** The checks of [validateLateGoalUsageLedger], one by one. *)
Definition valid_header (ledger : LateGoalUsageLedger.t) : Prop :=
  negb (ledger.(LateGoalUsageLedger.SchemaVersion) =? lateGoalUsageLedgerSchemaVersion) || negb (validateKey (LateGoalUsageLedger.Key ledger)) ||
  negb (ledger.(LateGoalUsageLedger.fence).(Fence.Generation) =? ledger.(LateGoalUsageLedger.Generation)) ||
  isZeroFence ledger.(LateGoalUsageLedger.fence) || IsZero ledger.(LateGoalUsageLedger.CreatedAt) || IsZero ledger.(UpdatedAt) = false.

Definition ledger_ids (ledger : LateGoalUsageLedger.t) : list string :=
  map GoalDelivery.DeliveryID (ledger_records ledger).

Definition invalid_retirement (ledger : LateGoalUsageLedger.t) (retired : GoalDeliveryRetirement.t) : bool :=
  negb (is_ok (GoalDeliveryRetirement.validate ledger.(LateGoalUsageLedger.RunID) ledger.(LateGoalUsageLedger.fence) retired)) ||
  (retired.(GoalDeliveryRetirement.Delivery).(GoalDelivery.Kind) <>s GoalDeliveryUsage).

Lemma id_loop {A} (bad : A -> bool) (identity : A -> string) e seen l seen' :
  List.NoDup seen ->
  for_each (fun seen x => reject bad x with e ;; LateGoalUsageLedger.addDeliveryID seen (identity x)) seen l = Ok seen' <->
  Forall (fun x => bad x = false) l /\ List.NoDup (map identity l ++ seen)%list /\ seen' = (rev (map identity l) ++ seen)%list.
Proof.
  revert seen. induction l as [|x l IH]; intros seen Hseen; cbn [for_each map].
  { cbn [app rev]. split; [intros [= <-]; split_and!; [constructor|done|done]|by intros (_ & _ & ->)]. }
  rewrite Forall_cons. cbn [rev app]. destruct (bad x) eqn:Hbad; [split; [done|by intros [[] _]]|].
  unfold LateGoalUsageLedger.addDeliveryID at 1. destruct (string_in (identity x) seen) eqn:Hin; cbn [rbind].
  - split; [done|]. intros (_ & Hnodup & _). apply string_in_spec in Hin. inversion Hnodup as [|? ? Hnot _]; subst.
    exfalso. apply Hnot, in_or_app. by right.
  - apply string_in_false in Hin. rewrite IH by (by constructor). rewrite <- app_assoc.
    assert (Permutation (map identity l ++ identity x :: seen) (identity x :: map identity l ++ seen)) as HP
      by (symmetry; apply Permutation_middle).
    split; [intros (? & Hnodup & ?)|intros ([_ ?] & Hnodup & ?)]; split_and!; try done;
      (eapply Permutation_NoDup; [|exact Hnodup]); by rewrite HP.
Qed.

Lemma reversed_ids {A} (p d r : list A) : Permutation (r ++ rev d ++ rev p)%list (p ++ d ++ r)%list.
Proof. rewrite <- !Permutation_rev, (Permutation_app_comm r), (Permutation_app_comm d p). by rewrite <- app_assoc. Qed.

Lemma ledger_valid ledger :
  LateGoalUsageLedger.validate ledger = Ok tt <->
  valid_header ledger /\ Forall (fun d => LateGoalUsageLedger.validDelivery ledger d = true) ledger.(PendingUsageDeliveries) /\
  Forall (fun d => d.(GoalDelivery.Ready) = true /\ LateGoalUsageLedger.validDelivery ledger d = true) ledger.(DeliveredDeliveries) /\
  Forall (fun r => invalid_retirement ledger r = false) ledger.(RetiredDeliveries) /\ List.NoDup (ledger_ids ledger).
Proof.
  unfold LateGoalUsageLedger.validate, valid_header. destruct (_ || _); [split; [done|by intros [? _]]|].
  unfold ledger_ids, ledger_records. rewrite !map_app, map_map. split.
  - intros Hrun. apply rbind_ok in Hrun as (s1 & H1 & Hrun). apply rbind_ok in Hrun as (s2 & H2 & Hrun).
    apply rbind_ok in Hrun as (s3 & H3 & _).
    apply (id_loop (fun d => negb (LateGoalUsageLedger.validDelivery ledger d))) in H1 as (Hp & N1 & ->); [|constructor].
    rewrite app_nil_r in *.
    apply (id_loop (fun d => negb (GoalDelivery.Ready d) || negb (LateGoalUsageLedger.validDelivery ledger d))) in H2 as (Hd & N2 & ->);
      [|by apply NoDup_rev].
    apply (id_loop (invalid_retirement ledger) (fun r => GoalDelivery.DeliveryID (GoalDeliveryRetirement.Delivery r)))
      in H3 as (Hr & N3 & _); [|eapply Permutation_NoDup; [|exact N2]; by rewrite <- (Permutation_rev (map _ (DeliveredDeliveries ledger)))].
    split_and!; [done| | |done|].
    + eapply Forall_impl; [exact Hp|]. cbn beta. intros d. by rewrite negb_false_iff.
    + eapply Forall_impl; [exact Hd|]. cbn beta. intros d. by rewrite orb_false_iff, !negb_false_iff.
    + eapply Permutation_NoDup; [apply reversed_ids|exact N3].
  - intros (_ & Hp & Hd & Hr & N). apply rbind_ok. eexists. split.
    { apply (id_loop (fun d => negb (LateGoalUsageLedger.validDelivery ledger d))); [constructor|]. split_and!; [| |done].
      - eapply Forall_impl; [exact Hp|]. cbn beta. intros d. by rewrite negb_false_iff.
      - rewrite app_nil_r. by eapply List.NoDup_app_remove_r. }
    assert (List.NoDup (map GoalDelivery.DeliveryID (DeliveredDeliveries ledger) ++ rev (map GoalDelivery.DeliveryID (PendingUsageDeliveries ledger)))%list)
      as N2.
    { rewrite app_assoc in N. apply List.NoDup_app_remove_r in N. eapply Permutation_NoDup; [|exact N].
      by rewrite <- Permutation_rev, Permutation_app_comm. }
    apply rbind_ok. eexists. rewrite app_nil_r. split.
    { apply (id_loop (fun d => negb (GoalDelivery.Ready d) || negb (LateGoalUsageLedger.validDelivery ledger d)));
        [by eapply List.NoDup_app_remove_l|]. split_and!; [|done|done].
      eapply Forall_impl; [exact Hd|]. cbn beta. intros d. by rewrite orb_false_iff, !negb_false_iff. }
    apply rbind_ok. eexists. split; [|done].
    apply (id_loop (invalid_retirement ledger) (fun r => GoalDelivery.DeliveryID (GoalDeliveryRetirement.Delivery r))).
    + eapply Permutation_NoDup; [|exact N2]. by rewrite <- (Permutation_rev (map _ (DeliveredDeliveries ledger))).
    + split_and!; [done| |done]. eapply Permutation_NoDup; [symmetry; apply reversed_ids|exact N].
Qed.

(** A control API that accepts the pending usage of a ledger, and files that
    work. *)
Section Draining.
Context (attempts : nat -> attempt).
Context (checked : forall n, CheckedAPI (attempts n).(control)).
Context (written : forall n, (attempts n).(settle_io) = io_ok /\ IsZero (attempts n).(store_clock) = false).

Definition accepts (ledger : LateGoalUsageLedger.t) : Prop :=
  forall n d usage, In d ledger.(PendingUsageDeliveries) -> d.(GoalDelivery.usage) = Some usage ->
    exists receipt, (attempts n).(control).(recordUsage) ledger.(LateGoalUsageLedger.RunID) ledger.(LateGoalUsageLedger.fence) usage = inr receipt.

Lemma mark_head_ok ledger delivery rest now :
  LateGoalUsageLedger.validate ledger = Ok tt -> ledger.(PendingUsageDeliveries) = delivery :: rest -> IsZero now = false ->
  exists upd, markLateDelivered delivery.(GoalDelivery.DeliveryID) delivery.(GoalDelivery.PayloadDigest) ledger = Ok upd /\
    LateGoalUsageLedger.validate (upd <| UpdatedAt := now |>) = Ok tt.
Proof.
  intros Hvalid Hpending Hnow. unfold markLateDelivered. rewrite Hpending, take_head, String.eqb_refl.
  destruct (List.find _ _) as [d|] eqn:Hfind.
  { apply find_some in Hfind as [Hin Hid]. unfold lateID in Hid. apply String.eqb_eq in Hid.
    destruct (pending_not_delivered ledger delivery d Hvalid); [rewrite Hpending; by left|done|done]. }
  cbn [negb]. eexists. split; [done|]. apply ledger_valid in Hvalid as (Hheader & Hp & Hd & Hr & N). apply ledger_valid.
  rewrite Hpending in Hp. apply Forall_cons in Hp as [Hdelivery Hp].
  pose proof (valid_usage _ _ Hdelivery) as (_ & Hready & _). split_and!; [|done| |done|].
  - unfold valid_header in *. cbn. cbn in Hheader. rewrite !orb_false_iff in Hheader |- *. tauto.
  - apply Forall_app. split; [done|]. constructor; [done|constructor].
  - unfold ledger_ids, ledger_records in *. rewrite Hpending in N. eapply Permutation_NoDup; [|exact N]. apply Permutation_map. cbn.
    rewrite <- app_assoc. cbn. rewrite (app_assoc rest). rewrite (app_assoc rest). by rewrite <- Permutation_middle.
Qed.

Lemma save_ok late stored :
  LateGoalUsageLedger.validate stored = Ok tt ->
  saveLateGoalUsageLocked io_ok late stored =
    (<[lateGoalUsagePath (LateGoalUsageLedger.Key stored) := written_ledger stored]> late, Ok tt).
Proof. intros Hvalid. unfold saveLateGoalUsageLocked. by rewrite Hvalid. Qed.

Lemma load_listed state ledger :
  late_well_formed state.(late) -> listed state ledger -> ensureOpenLocked state.(store) = Ok tt ->
  LoadLateGoalUsage io_ok state (LateGoalUsageLedger.Key ledger) = Ok ledger.
Proof.
  intros Hwf Hlisted Hopen. assert (LateGoalUsageLedger.validate ledger = Ok tt) as Hvalid
    by (by apply Hwf in Hlisted as (? & [= <-] & ? & _)).
  unfold LoadLateGoalUsage, loadLateGoalUsageLocked, loadLateGoalUsagePathLocked. rewrite Hlisted, Hopen, Hvalid.
  assert (validateKey (LateGoalUsageLedger.Key ledger) = true) as ->.
  { apply ledger_valid in Hvalid as (Hheader & _). unfold valid_header in Hheader. rewrite !orb_false_iff, !negb_false_iff in Hheader. tauto. }
  cbn. by rewrite String.eqb_refl.
Qed.

Lemma accepted_receipt ledger n d :
  LateGoalUsageLedger.validDelivery ledger d = true -> accepts ledger -> In d ledger.(PendingUsageDeliveries) ->
  exists usage receipt, d.(GoalDelivery.usage) = Some usage /\
    (attempts n).(control).(recordUsage) ledger.(LateGoalUsageLedger.RunID) ledger.(LateGoalUsageLedger.fence) usage = inr receipt /\
    validateGoalDeliveryReceipt ledger.(LateGoalUsageLedger.RunID) d (UsageReceipt receipt) = true.
Proof.
  intros (Hkind & _ & usage & Husage)%valid_usage Haccepts Hin.
  destruct (Haccepts n d usage Hin Husage) as (receipt & Hanswer). exists usage, receipt. split_and!; [done|done|].
  unfold validateGoalDeliveryReceipt. rewrite Hkind, Husage. cbn. by eapply usage_passes, checked_usage.
Qed.

Lemma flushLedger_drains fuel n state ledger :
  late_well_formed state.(late) -> listed state ledger -> ensureOpenLocked state.(store) = Ok tt -> accepts ledger ->
  (length ledger.(PendingUsageDeliveries) < fuel)%nat ->
  exists state' n' after, flushLedger fuel attempts n state ledger = Some (state', n', true) /\ flushed attempts state state' ledger /\
    state'.(late) !! ledgerPath ledger = Some (LedgerDecodes after) /\ after.(PendingUsageDeliveries) = [].
Proof.
  revert n state ledger. induction fuel as [|fuel IH]; intros n state ledger Hwf Hlisted Hopen Haccepts Hfuel; [lia|]. cbn [flushLedger].
  destruct (PendingUsageDeliveries ledger) as [|delivery rest] eqn:Hpending.
  { exists state, n, ledger. split_and!; [done|by apply flushed_refl|done|done]. }
  assert (LateGoalUsageLedger.validate ledger = Ok tt) as Hvalid by (by apply Hwf in Hlisted as (? & [= <-] & ? & _)).
  assert (LateGoalUsageLedger.validDelivery ledger delivery = true) as Hdelivery
    by (apply ledger_valid in Hvalid as (_ & Hp & _); rewrite Hpending in Hp; by apply Forall_cons in Hp as [? _]).
  destruct (accepted_receipt ledger n delivery Hdelivery Haccepts) as (usage & receipt & Husage & Hanswer & Hreceipt);
    [rewrite Hpending; by left|]. rewrite Husage, Hanswer, Hreceipt. cbv zeta. cbn [negb].
  destruct (written n) as [Hio Hclock]. rewrite Hio.
  destruct (mark_head_ok ledger delivery rest _ Hvalid Hpending Hclock) as (upd & Hmark & Hstored).
  destruct (MarkLateGoalUsageDelivered io_ok state _ _ _ _) as [state' r] eqn:Hrun.
  pose proof Hrun as Hround. eapply (round attempts _ _ _ _ _ _ _ rest) in Hround as [Hflushed Hupd];
    [|done|done|intros *; apply markLate_kept|intros upd'; apply mark_head; [done|done|by exists n, usage, receipt]].
  assert (r = Ok (upd <| UpdatedAt := (attempts n).(store_clock) |>)) as ->.
  { unfold MarkLateGoalUsageDelivered, mutateLateGoalUsage in Hrun. rewrite load_listed in Hrun by done. cbn [rbind] in Hrun.
    rewrite Hmark in Hrun. rewrite (save_ok _ _ Hstored) in Hrun. cbn [fst snd rbind] in Hrun. by injection Hrun as _ <-. }
  destruct (Hupd _ eq_refl) as (Hlisted' & Hkey & Hanswered & Hrest). set (stored := upd <| UpdatedAt := _ |>) in *.
  destruct (extends_identity _ _ (late_answered_kept _ _ _ Hanswered)) as (_ & HrunID & Hfence).
  destruct (IH (S n) state' stored) as (state'' & n' & after & Hrest' & Hflushed' & Hfile & Hempty); [apply Hflushed|done| | | |].
  - by rewrite (flushed_store _ _ _ _ Hflushed).
  - intros m d usage' Hin. rewrite HrunID, Hfence. apply Haccepts. rewrite Hpending. right. by rewrite <- Hrest.
  - rewrite Hrest. simpl in Hfuel. lia.
  - exists state'', n', after. split_and!; [done|by eapply flushed_trans| |done]. unfold ledgerPath in *. by rewrite Hkey in Hfile.
Qed.
Lemma flushLedgers_drains fuel n state ledgers :
  late_well_formed state.(late) -> ensureOpenLocked state.(store) = Ok tt -> Forall (listed state) ledgers ->
  NoDup (map ledgerPath ledgers) -> Forall accepts ledgers ->
  Forall (fun ledger => length ledger.(PendingUsageDeliveries) < fuel)%nat ledgers ->
  exists state', flushLedgers fuel attempts n state ledgers = Some state' /\
    (forall path, path ∈ map ledgerPath ledgers -> exists after, state'.(late) !! path = Some (LedgerDecodes after) /\
       after.(PendingUsageDeliveries) = []) /\
    (forall path, path ∉ map ledgerPath ledgers -> state'.(late) !! path = state.(late) !! path).
Proof.
  revert n state. induction ledgers as [|ledger rest IH]; intros n state Hwf Hopen Hlisted Hnodup Haccepts Hfuel; cbn [flushLedgers].
  { exists state. split_and!; [done|intros path Hin; by apply not_elem_of_nil in Hin|done]. }
  apply Forall_cons in Hlisted as [Hledger Hlisted]. apply Forall_cons in Hfuel as [Hbound Hfuel].
  apply Forall_cons in Haccepts as [Haccept Haccepts]. apply NoDup_cons in Hnodup as [Hfresh Hnodup].
  destruct (flushLedger_drains fuel n state ledger Hwf Hledger Hopen Haccept Hbound) as (state' & n' & after & -> & Hflushed & Hfile & Hempty).
  destruct Hflushed as [Hwf' Hstore _ Hothers].
  destruct (IH n' state') as (final & Hrun & Hin & Hout); [done|by rewrite Hstore| |done|done|done|].
  { rewrite Forall_forall in Hlisted |- *. intros other Hin. unfold listed. rewrite Hothers; [by apply Hlisted|].
    intros Heq. apply Hfresh, list_elem_of_fmap. by exists other. }
  exists final. cbn [map]. split_and!; [done| |].
  - intros path [->|Hpath]%elem_of_cons; [|by apply Hin]. exists after. by rewrite Hout.
  - intros path [Hne Hnot]%not_elem_of_cons. rewrite Hout by done. by apply Hothers.
Qed.

Lemma list_loop_ok late names acc :
  late_well_formed late -> Forall (fun name => is_Some (late !! name)) names ->
  exists ledgers, for_each (fun listed name => try ledger <- loadLateGoalUsagePathLocked true late name ;; Ok (listed ++ [ledger])%list)
    acc names = Ok ledgers.
Proof.
  intros Hwf Hnames. revert acc. induction Hnames as [|name names [content Hfile] _ IH]; intros acc; cbn [for_each]; [by eauto|].
  pose proof (Hwf _ _ Hfile) as (ledger & -> & Hvalid & Hpath). unfold loadLateGoalUsagePathLocked at 1. rewrite Hfile, Hvalid.
  cbn [negb is_ok orb rbind]. rewrite <- Hpath, String.eqb_refl. cbn [negb rbind]. apply IH.
Qed.

Lemma listing_complete state :
  late_well_formed state.(late) -> ensureOpenLocked state.(store) = Ok tt ->
  exists ledgers, ListLateGoalUsage true (fun _ => true) state = Ok ledgers /\
    forall path content, state.(late) !! path = Some content -> path ∈ map ledgerPath ledgers.
Proof.
  intros Hwf Hopen. unfold ListLateGoalUsage. rewrite Hopen. cbn [rbind negb].
  assert (forall path, path ∈ ledgerNames state.(late) <-> is_Some (state.(late) !! path) /\ isLateGoalUsageFile path = true) as Hnames.
  { intros path. unfold ledgerNames. rewrite merge_sort_Permutation, list_elem_of_In, filter_In, <- list_elem_of_In, list_elem_of_fmap. split.
    - intros [([] & -> & Hin%elem_of_map_to_list) ?]. split; [by eexists|done].
    - intros [[content Hfile] ?]. split; [|done]. exists (path, content). split; [done|]. by apply elem_of_map_to_list. }
  destruct (list_loop_ok state.(late) (ledgerNames state.(late)) [] Hwf) as (loaded & Hloop).
  { rewrite Forall_forall. intros path Hin. by apply Hnames in Hin as [? _]. }
  rewrite Hloop. cbn [rbind]. eexists. split; [done|]. intros path content Hfile.
  apply (list_loop (fun _ => true)) in Hloop as (? & -> & Heq & _). rewrite app_nil_l.
  assert (path ∈ ledgerNames state.(late)) as Hin.
  { apply Hnames. split; [by eexists|]. apply Hwf in Hfile as (ledger & _ & _ & ->). apply lateGoalUsagePath_listed. }
  rewrite <- Heq in Hin. change (map ledgerPath) with (fmap (M := list) ledgerPath) in *. by rewrite merge_sort_Permutation.
Qed.
End Draining.

(** C19: late usage drains. With an open store, valid ledgers on disk, files
    that work and a control plane that answers every pending usage with a
    receipt the client accepts, one [flushLateGoalUsage] with more fuel than
    any ledger has pending records leaves no pending usage on disk. *)
Theorem late_usage_drains fuel attempts state :
  late_well_formed state.(late) -> ensureOpenLocked state.(store) = Ok tt ->
  (forall n, CheckedAPI (attempts n).(control)) ->
  (forall n, (attempts n).(settle_io) = io_ok /\ IsZero (attempts n).(store_clock) = false) ->
  (forall path ledger, state.(late) !! path = Some (LedgerDecodes ledger) ->
     accepts attempts ledger /\ (length ledger.(PendingUsageDeliveries) < fuel)%nat) ->
  exists state', flushLateGoalUsage fuel attempts scan_ok state = Some state' /\
    forall path ledger, state'.(late) !! path = Some (LedgerDecodes ledger) -> ledger.(PendingUsageDeliveries) = [].
Proof.
  intros Hwf Hopen Hchecked Hwritten Hledgers. unfold flushLateGoalUsage, scan_ok. cbn [listable file_readable].
  destruct (listing_complete state Hwf Hopen) as (ledgers & Hlist & Hall). rewrite Hlist, checked_goal. cbn [negb].
  apply listing in Hlist as [Hlisted Hnodup].
  destruct (flushLedgers_drains attempts Hchecked Hwritten fuel 0 state ledgers) as (state' & Hrun & Hin & Hout); [done..| | |].
  - eapply Forall_impl; [exact Hlisted|]. intros ledger Hledger. by apply (Hledgers _ _ Hledger).
  - eapply Forall_impl; [exact Hlisted|]. intros ledger Hledger. by apply (Hledgers _ _ Hledger).
  - exists state'. split; [done|]. intros path ledger Hfile. destruct (decide (path ∈ map ledgerPath ledgers)) as [Hpath|Hpath].
    + destruct (Hin _ Hpath) as (after & Hafter & Hempty). rewrite Hfile in Hafter. by injection Hafter as ->.
    + rewrite Hout in Hfile by done. by apply Hall in Hfile.
Qed.
