(* ===== verification/RetryProps.v ===== *)
(** * RetryProps: a delivery is given up only on a conclusive answer

    Theorems about Retry.v over every interleaving of its operations: which
    runs the table holds back for good, how long it holds back the others,
    and that a failed delivery of a Goal receipt is always due again. *)

From S2P Require Import Prelude Sha256 Json Authority Protocol Journal Validation Store Cgroup Outbox Control Retry.
Import RunJournal.
Open Scope string_scope.
Open Scope Z_scope.

(** A failure between its two critical sections. *)
Record failing : Type := mkFailing {
  failed_journal : RunJournal.t;
  failed_with : control_error;
  failed_fallback : Z
}.

(** A failure that was recorded: the journal and the error it was about, the
    delay to fall back on, and whether the context was over by then. *)
Record recorded_failure : Type := mkRecorded {
  recorded_journal : RunJournal.t;
  recorded_error : control_error;
  recorded_fallback : Z;
  recorded_done : bool
}.

(** The table, the failures between their two sections, and every failure
    recorded so far, the newest first. *)
Record retry_state : Type := mkRetryState {
  table : gmap RunKey.t outboxRetry.t;
  failing_now : list failing;
  recorded : list recorded_failure
}.

Section Retries.
Context `{FingerprintEncoder}.

(** The operations in any order; the second section of a failure comes some
    time after the first. *)
Inductive retry_step : retry_state -> retry_state -> Prop :=
| step_due s now journal :
    retry_step s (mkRetryState (outboxDue s.(table) now journal).1 s.(failing_now) s.(recorded))
| step_note s journal err :
    retry_step s (mkRetryState (noteOutboxFailure s.(table) journal).1
                    (mkFailing journal err (noteOutboxFailure s.(table) journal).2 :: s.(failing_now)) s.(recorded))
| step_settle s before after journal err fallback done now :
    s.(failing_now) = (before ++ mkFailing journal err fallback :: after)%list ->
    retry_step s (mkRetryState (settleOutboxFailure s.(table) journal (outboxRetryDelay done journal err fallback) fallback now)
                    (before ++ after) (mkRecorded journal err fallback done :: s.(recorded)))
| step_clear s key : retry_step s (mkRetryState (clearOutboxRetry s.(table) key) s.(failing_now) s.(recorded))
| step_prune s seen : retry_step s (mkRetryState (pruneOutboxRetries s.(table) seen) s.(failing_now) s.(recorded)).

Definition reachable : retry_state -> Prop := rtc retry_step (mkRetryState ∅ [] []).

(** ** The entries of a reachable table *)

Definition bounded_delay (delay : Z) : Prop := minimumInterval <= delay <= retryMaximum.

(** What a journal must be like for its run to be held back for good. *)
Definition given_up (journal : RunJournal.t) (err : control_error) : Prop :=
  HasPendingGoalDeliveries journal = false /\
  (journal.(LocalState) = "stale" -> journal.(PendingCommandAcknowledgements) = []) /\
  isAmbiguousTerminalDeliveryFailure journal err = false /\
  isOutboxMaintenanceFailure journal err = false.

(** An error that is not worth another attempt: not a rate limit, not a
    server failure, and no transport failure that may pass. *)
Definition not_retryable (err : control_error) : Prop :=
  match err with
  | APIError statusCode _ _ _ _ => statusCode <> 429 /\ statusCode < 500
  | TransportError retryable => retryable = false
  | _ => True
  end.

(** A failure is about an entry: the run and the fingerprint are its. *)
Definition about_entry (key : RunKey.t) (fingerprint : string) (failure : recorded_failure) : bool :=
  bool_decide (Key failure.(recorded_journal) = key) && (journalFingerprint failure.(recorded_journal) =s fingerprint).

(** The last failure recorded of this run with this fingerprint. *)
Definition last_failure (failures : list recorded_failure) (key : RunKey.t) (fingerprint : string) : option recorded_failure :=
  List.find (about_entry key fingerprint) failures.

(** An entry's delay is bounded, and one that holds its run back for good
    was written by the last failure about it. *)
Record sound_entry (failures : list recorded_failure) (key : RunKey.t) (entry : outboxRetry.t) : Prop := {
  sound_delay : bounded_delay entry.(outboxRetry.delay);
  sound_permanent : entry.(outboxRetry.permanent) = true ->
    exists failure, last_failure failures key entry.(outboxRetry.fingerprint) = Some failure /\
      outboxRetryDelay failure.(recorded_done) failure.(recorded_journal) failure.(recorded_error)
        failure.(recorded_fallback) = None
}.

Record sound (s : retry_state) : Prop := {
  sound_table : map_Forall (sound_entry s.(recorded)) s.(table);
  sound_failing : Forall (fun f => bounded_delay f.(failed_fallback)) s.(failing_now)
}.

Lemma bounded_minimum : bounded_delay minimumInterval.
Proof. by unfold bounded_delay, minimumInterval, retryMaximum. Qed.

Lemma bounded_next delay : bounded_delay delay -> bounded_delay (nextRetryDelay delay).
Proof.
  unfold bounded_delay, nextRetryDelay, minimumInterval, retryMaximum. change (30 * 10 ^ 9 / 2) with 15000000000.
  destruct (delay <? 15000000000) eqn:Hd; lia.
Qed.

Lemma fresh_sound failures key fingerprint : sound_entry failures key (freshEntry fingerprint).
Proof. split; [exact bounded_minimum|done]. Qed.

Lemma current_lookup tbl key fingerprint entry :
  current_entry tbl key fingerprint = Some entry -> tbl !! key = Some entry /\ entry.(outboxRetry.fingerprint) = fingerprint.
Proof.
  unfold current_entry. destruct (tbl !! key) as [e|]; [|done].
  destruct (_ =s _) eqn:Heq; [|done]. intros [= <-]. apply String.eqb_eq in Heq. done.
Qed.

Lemma note_sound failures tbl journal : map_Forall (sound_entry failures) tbl ->
  map_Forall (sound_entry failures) (noteOutboxFailure tbl journal).1 /\ bounded_delay (noteOutboxFailure tbl journal).2.
Proof.
  intros Htbl. unfold noteOutboxFailure. destruct (current_entry _ _ _) as [entry|] eqn:Hentry; cbn.
  - apply current_lookup in Hentry as [Hentry _]. split; [done|].
    destruct (Htbl _ _ Hentry) as [Hdelay _]. unfold bounded_delay, minimumInterval in *.
    destruct (_ <=? 0) eqn:?; unfold retryMaximum in *; lia.
  - split; [|exact bounded_minimum]. apply map_Forall_insert_2; [apply fresh_sound|done].
Qed.

(** Every error that is not retried leaves nothing owed. *)
Lemma no_delay_given_up done journal err fallback :
  outboxRetryDelay done journal err fallback = None -> (done = true \/ not_retryable err) /\ given_up journal err.
Proof.
  unfold outboxRetryDelay, given_up. intros Hnone. split.
  - destruct done; [by left|right]. destruct (RetryDelay false err fallback) as [d|] eqn:E; [done|]. clear Hnone.
    destruct err as [status ? ? ? ?| | | |retryable]; cbn in *; try done; [|by destruct retryable].
    destruct (negb (status =? 429) && (status <? 500)) eqn:Hs; [|by case_match].
    apply andb_prop in Hs as [H1 H2]. lia.
  - destruct (RetryDelay _ _ _); [done|].
    destruct (isAmbiguousTerminalDeliveryFailure _ _); [done|]. destruct (HasPendingGoalDeliveries _); [done|].
    destruct ((_ =s "stale") && _) eqn:Hstale; [done|]. destruct (isOutboxMaintenanceFailure _ _); [done|].
    split_and!; try done. intros Heq. rewrite Heq in Hstale. cbn in Hstale.
    by destruct (PendingCommandAcknowledgements journal).
Qed.

(** A failure about something else leaves an entry sound. *)
Lemma sound_entry_cons failures failure key entry :
  about_entry key entry.(outboxRetry.fingerprint) failure = false ->
  sound_entry failures key entry -> sound_entry (failure :: failures) key entry.
Proof. intros Hother [Hdelay Hperm]. split; [done|]. intros (f & Hf & Hnone)%Hperm. exists f. cbn. by rewrite Hother. Qed.

Lemma about_itself failure :
  about_entry (Key failure.(recorded_journal)) (journalFingerprint failure.(recorded_journal)) failure = true.
Proof. unfold about_entry. by rewrite bool_decide_eq_true_2, String.eqb_refl. Qed.

Lemma settle_sound failures tbl journal err done fallback now : map_Forall (sound_entry failures) tbl -> bounded_delay fallback ->
  map_Forall (sound_entry (mkRecorded journal err fallback done :: failures))
    (settleOutboxFailure tbl journal (outboxRetryDelay done journal err fallback) fallback now).
Proof.
  intros Htbl Hfall. unfold settleOutboxFailure. pose proof (about_itself (mkRecorded journal err fallback done)) as Hself.
  cbn [recorded_journal] in Hself.
  assert (forall key entry, tbl !! key = Some entry ->
    key <> Key journal \/ entry.(outboxRetry.fingerprint) <> journalFingerprint journal ->
    sound_entry (mkRecorded journal err fallback done :: failures) key entry) as Hother.
  { intros key entry Hentry Hne. apply sound_entry_cons; [|by apply Htbl]. unfold about_entry. cbn [recorded_journal].
    apply andb_false_iff. destruct Hne as [Hne|Hne]; [left; apply bool_decide_eq_false; congruence|].
    right. apply String.eqb_neq. congruence. }
  destruct (some_and _ _) eqn:Hcurrent.
  { intros key entry Hentry. apply Hother; [done|]. destruct (decide (key = Key journal)) as [->|]; [right|by left].
    rewrite Hentry in Hcurrent. cbn in Hcurrent. apply negb_true_iff in Hcurrent. by apply String.eqb_neq. }
  assert (forall written, sound_entry (mkRecorded journal err fallback done :: failures) (Key journal) written ->
    map_Forall (sound_entry (mkRecorded journal err fallback done :: failures)) (<[Key journal := written]> tbl)) as Hwrite.
  { intros written Hw key entry [[<- <-]|[Hne Hentry]]%lookup_insert_Some; [done|]. apply Hother; [done|]. left. congruence. }
  destruct (outboxRetryDelay _ _ _ _) as [delay|] eqn:Hdelay; apply Hwrite; split; cbn [outboxRetry.delay outboxRetry.permanent]; try done.
  - by apply bounded_next.
  - intros _. eexists. unfold last_failure. cbn [List.find outboxRetry.fingerprint]. rewrite Hself. split; [done|]. exact Hdelay.
Qed.

Lemma due_sound failures tbl now journal :
  map_Forall (sound_entry failures) tbl -> map_Forall (sound_entry failures) (outboxDue tbl now journal).1.
Proof.
  intros Htbl. unfold outboxDue. destruct (current_entry _ _ _); cbn; [done|].
  apply map_Forall_insert_2; [apply fresh_sound|done].
Qed.

Lemma step_sound s s' : retry_step s s' -> sound s -> sound s'.
Proof.
  intros Hstep [Htbl Hfail]. destruct Hstep as [s now journal|s journal err|s before after journal err fallback done now Heq|s key|s seen];
    split; cbn; try assumption.
  - by apply due_sound.
  - by apply note_sound.
  - constructor; [|done]. by apply (note_sound (recorded s)).
  - rewrite Heq in Hfail. apply Forall_app in Hfail as [_ Hfail%Forall_cons]. apply settle_sound; [done|apply Hfail].
  - rewrite Heq in Hfail. apply Forall_app in Hfail as [? [_ ?]%Forall_cons]. by apply Forall_app.
  - by apply map_Forall_delete.
  - intros k entry [Hentry _]%map_lookup_filter_Some. by apply (Htbl k).
Qed.

Lemma reachable_sound s : reachable s -> sound s.
Proof.
  apply (rtc_ind_r sound); [split; [apply map_Forall_empty|constructor]|].
  intros ? ? _ Hstep. by apply (step_sound _ _ Hstep).
Qed.

(** ** Claims *)

(** C32: however the operations of the retry table interleave, a run is held
    back for good only by the last failure that was recorded of it with the
    fingerprint its journal has. That failure was conclusive or came after
    the daemon began to stop: the control plane's answer was no rate limit and
    no server failure, and the transport could not recover. And its journal
    owed the control plane nothing it could not lose: no Goal delivery was
    pending, no acknowledgement of a stale run, the terminal was not answered
    ambiguously, and no local work of an accepted terminal was left. The
    delays of all entries stay between one and thirty seconds. *)
Theorem held_back_only_when_conclusive s key entry :
  reachable s -> s.(table) !! key = Some entry ->
  bounded_delay entry.(outboxRetry.delay) /\
  (entry.(outboxRetry.permanent) = true ->
   exists failure, last_failure s.(recorded) key entry.(outboxRetry.fingerprint) = Some failure /\
     Key failure.(recorded_journal) = key /\
     entry.(outboxRetry.fingerprint) = journalFingerprint failure.(recorded_journal) /\
     (failure.(recorded_done) = true \/ not_retryable failure.(recorded_error)) /\
     given_up failure.(recorded_journal) failure.(recorded_error)).
Proof.
  intros Hreach Hentry. destruct (sound_table _ (reachable_sound _ Hreach) _ _ Hentry) as [Hdelay Hperm].
  split; [done|]. intros (failure & Hlast & Hnone)%Hperm. exists failure. apply no_delay_given_up in Hnone as [Hc Hg].
  apply List.find_some in Hlast as Habout. destruct Habout as [_ [Hkey Hfp]%andb_prop].
  apply bool_decide_eq_true in Hkey. apply String.eqb_eq in Hfp. done.
Qed.

(** The delay the control plane asks for. *)
Definition requested (err : control_error) : Z :=
  match err with APIError _ _ _ retryAfter _ => retryAfter | _ => 0 end.

Lemma outbox_delay_bound done journal err fallback delay : bounded_delay fallback ->
  outboxRetryDelay done journal err fallback = Some delay -> delay <= Z.max retryMaximum (requested err).
Proof.
  unfold bounded_delay, outboxRetryDelay, RetryDelay, requested. intros Hfall Hdelay.
  repeat case_match; simplify_eq; lia.
Qed.

Lemma retry_time_bound journal now delay : retryTime journal now delay <= now + delay.
Proof. unfold retryTime. repeat case_match; lia. Qed.

Lemma current_insert tbl key entry :
  current_entry (<[key := entry]> tbl) key entry.(outboxRetry.fingerprint) = Some entry.
Proof. unfold current_entry. by rewrite lookup_insert_eq, String.eqb_refl. Qed.

Lemma note_current tbl journal entry : (noteOutboxFailure tbl journal).1 !! Key journal = Some entry ->
  entry.(outboxRetry.fingerprint) = journalFingerprint journal.
Proof.
  unfold noteOutboxFailure. destruct (current_entry _ _ _) as [e|] eqn:Hcur; cbn.
  - apply current_lookup in Hcur as [-> Hfp]. by intros [= <-].
  - rewrite lookup_insert_eq. by intros [= <-].
Qed.

(** C27: a failure to deliver a Goal receipt is always retried. Whatever the
    control plane answered, thirty seconds after the failure, or the time it
    asked for, the run is due again unless its journal has changed. *)
Theorem pending_receipts_are_due_again s done journal err now later :
  reachable s -> HasPendingGoalDeliveries journal = true -> now + Z.max retryMaximum (requested err) <= later ->
  (outboxDue (recordOutboxFailure false done s.(table) journal err now) later journal).2 = true.
Proof.
  intros Hreach Hpending Hlater. destruct (note_sound s.(recorded) s.(table) journal) as [_ Hfall];
    [apply (sound_table _ (reachable_sound _ Hreach))|]. unfold recordOutboxFailure.
  pose proof (note_current s.(table) journal) as Hnote.
  destruct (noteOutboxFailure s.(table) journal) as [tbl fallback] eqn:Hn. cbn [fst snd] in *.
  assert (exists delay, outboxRetryDelay done journal err fallback = Some delay) as [delay Hdelay].
  { unfold outboxRetryDelay. rewrite Hpending. repeat case_match; eauto. }
  rewrite Hdelay. pose proof (outbox_delay_bound _ _ _ _ _ Hfall Hdelay) as Hbound. unfold settleOutboxFailure.
  replace (some_and _ _) with false; last first.
  { destruct (tbl !! Key journal) as [entry|] eqn:Hentry; cbn; [|done]. by rewrite (Hnote _ eq_refl), String.eqb_refl. }
  unfold outboxDue.
  match goal with |- context [<[_ := ?e]> tbl] => set (entry := e) end.
  pose proof (current_insert tbl (Key journal) entry) as Hcur. change (outboxRetry.fingerprint entry) with (journalFingerprint journal) in Hcur.
  destruct (current_entry _ _ _) as [e|]; [|done]. injection Hcur as ->. cbn.
  match goal with |- (retryTime _ _ ?d <=? _) = true => pose proof (retry_time_bound journal now d) as Hrt; revert Hrt end.
  assert (minimumInterval <= retryMaximum) by (by unfold minimumInterval, retryMaximum).
  destruct (_ && _); intros; apply Z.leb_le; lia.
Qed.
End Retries.
