(* ===== verification/RunFlushProps.v ===== *)
(** * RunFlushProps: a terminal is the last thing a run sends

    Theorems about RunFlush.v, for every file fault, every answer of the
    control plane, and everything the rest of the daemon does while a request
    is in flight. *)

From S2P Require Import Prelude Sha256 Json Authority Protocol Journal Validation Store Session SessionOps.
From S2P Require Import Cgroup Containment Clone Outbox Delivery LateUsage SessionStore Control Flush Retry RunFlush.
From S2P Require Import Lifecycle OutboxFacts Traces DeliveryProps SessionSteps SessionProps ControlProps FlushProps RetryProps.
Import RunJournal.
Open Scope string_scope.
Open Scope Z_scope.

(** ** The journal in memory and the one on disk *)

(** What the flush decides on; a journal read back has the same. *)
Definition view (journal : RunJournal.t) :=
  (Key journal, journal.(LocalState), journal.(TerminalVerdict),
   map (fun t => (t.(StateTransitionRequest.TransitionID), t.(StateTransitionRequest.State))) journal.(PendingTransitions),
   map RunEvent.EventID journal.(PendingEvents),
   map (fun d => (d.(GoalDelivery.Kind), d.(GoalDelivery.Ready))) journal.(PendingGoalDeliveries)).

Lemma view_reread journal : view (reread_fields journal) = view journal.
Proof.
  unfold view. cbn [PendingTransitions PendingEvents PendingGoalDeliveries]. unfold reread_fields. journal_simpl.
  by rewrite !map_map.
Qed.

Definition disk_of (w : world) : Store := w.(disk_files).(SessionFiles.store).

(** No Goal delivery is ready to be sent. *)
Definition no_ready (journal : RunJournal.t) : Prop :=
  Forall (fun d => goalDeliveryReadyForFlush journal d = false) journal.(PendingGoalDeliveries).

Definition ready_view (state verdict : string) (transitions : Z) (kr : string * bool) : bool :=
  if negb kr.2 then false
  else if kr.1 <>s GoalDeliverySessionStopped then true
  else if state =s "terminal_pending" then
    (verdict =s TerminalVerdictAccepted) && (transitions =? 0) || IsConclusiveTerminalVerdict verdict
  else (state =s "stale") || (state =s "cleanup_pending").

Lemma no_ready_view journal :
  no_ready journal <-> Forall (fun kr => ready_view journal.(LocalState) journal.(TerminalVerdict) (llen journal.(PendingTransitions)) kr = false)
                         (map (fun d => (d.(GoalDelivery.Kind), d.(GoalDelivery.Ready))) journal.(PendingGoalDeliveries)).
Proof. unfold no_ready. rewrite Forall_map. done. Qed.

Lemma view_no_ready j j' : view j = view j' -> no_ready j -> no_ready j'.
Proof.
  rewrite !no_ready_view. unfold view. intros Hview.
  assert (llen (PendingTransitions j) = llen (PendingTransitions j')) as ->.
  { unfold llen. f_equal. apply (f_equal (fun v => length v.1.1.2)) in Hview. cbn [fst snd] in Hview. by rewrite !length_map in Hview. }
  pose proof (f_equal (fun v => v.2) Hview) as Hd. pose proof (f_equal (fun v => v.1.1.1.1.2) Hview) as Hs.
  pose proof (f_equal (fun v => v.1.1.1.2) Hview) as Hv. cbn [fst snd] in *. by rewrite Hd, Hs, Hv.
Qed.

Lemma view_no_events j j' : view j = view j' -> j.(PendingEvents) = [] -> j'.(PendingEvents) = [].
Proof.
  intros Hview%(f_equal (fun v => v.1.2)) Hnil. cbn [fst snd view] in Hview. rewrite Hnil in Hview.
  symmetry in Hview. by apply map_eq_nil in Hview.
Qed.

Lemma view_key j j' : view j = view j' -> Key j = Key j'.
Proof. intros Hview. exact (f_equal (fun v => v.1.1.1.1.1) Hview). Qed.

Section Flushing.
Context `{AdmissionParser} `{JournalEncoder}.

(** The journal in memory agrees with the file of its run. *)
Definition in_step (store : Store) (journal : RunJournal.t) : Prop :=
  valid_journal journal /\ forall stored, on_disk store (Key journal) stored -> view stored = view journal.

Lemma synced_in_step store journal : synced store journal -> in_step store journal.
Proof. intros Hsynced. split; [apply Hsynced|]. intros stored ->%(synced_disk _ _ _ Hsynced). apply view_reread. Qed.

Lemma load_in_step fs store key journal :
  LoadJournal fs store key = Ok journal -> on_disk store key journal /\ in_step store journal.
Proof.
  unfold LoadJournal. intros Hload. inv_ok. apply load_inv in Hload as [Hdisk Hvalid]. split; [done|]. split; [done|].
  destruct Hdisk as [Hfile Hkey]. intros stored [Hstored _]. rewrite Hkey, Hfile in Hstored. by injection Hstored as ->.
Qed.

(** A mutation that succeeds. *)
Lemma mutate_ok fs store key f store' upd :
  (forall loaded upd, f loaded = Ok upd -> Key upd = Key loaded) -> mutateJournal fs store key f = (store', Ok upd) ->
  exists loaded, on_disk store key loaded /\ f loaded = Ok upd /\ in_step store' upd /\ Key upd = key.
Proof.
  intros Hf [[_ [e ?]]|(loaded & upd' & Hdisk & _ & Hrun & Hvalid & -> & [[= <-]|[e ?]])]%mutate_result; [done| |done].
  exists loaded. split_and!; [done..|by apply synced_in_step, written_synced|]. rewrite (Hf _ _ Hrun). apply Hdisk.
Qed.

(** ** Goal deliveries *)

(** No event is pending afterwards if none was before. *)
Definition keeps_events (before after : RunJournal.t) : Prop := before.(PendingEvents) = [] -> after.(PendingEvents) = [].

#[export] Instance keeps_events_preorder : PreOrder keeps_events.
Proof. split; [by intros j ?|]. intros j1 j2 j3 H12 H23 Hnil. by apply H23, H12. Qed.

Lemma keeps_reread journal : keeps_events journal (reread_fields journal).
Proof. intros Hnil. unfold reread_fields. journal_simpl. by rewrite Hnil. Qed.

(** The rest of the daemon queues no event of the run. *)
Definition queues_no_event (key : RunKey.t) (change : SessionFiles.t -> SessionFiles.t) : Prop :=
  forall state, follows keeps_events key state.(SessionFiles.store) (change state).(SessionFiles.store).

Lemma flush_keeps_events fuel meanwhile attempts n state journal attached o :
  (forall i, queues_no_event (Key journal) (meanwhile i)) -> flush fuel meanwhile attempts n state journal attached = Some o ->
  follows keeps_events (Key journal) state.(SessionFiles.store) o.(files).(SessionFiles.store).
Proof.
  intros Hmeanwhile. apply (flush_follows attempts journal.(RunID) keeps_events keeps_reread); [| | |intros i; apply Hmeanwhile|done..].
  - intros record j j' Hrun. unfold queueGoalDeliveryOnJournal in Hrun. inv_ok.
    apply enqueueGoalDelivery_inv in Hrun as [[-> _]|[_ ->]]; by split; [|intros Hnil; exact Hnil].
  - intros _ sent j j' _ Hrun. unfold markGoalDeliveryDelivered in Hrun.
    repeat case_match; inv_ok; subst; by split; [|intros Hnil; exact Hnil].
  - intros _ sent statusCode code message at_ j j' _ Hrun. unfold retireGoalDelivery in Hrun.
    destruct (take_first _ _) as [[pending rest]|]; inv_ok. subst. by split; [|intros Hnil; exact Hnil].
Qed.

Lemma flush_in_step fuel meanwhile attempts n state journal attached o :
  flush fuel meanwhile attempts n state journal attached = Some o -> o.(failure) = None -> in_step state.(SessionFiles.store) journal ->
  in_step o.(files).(SessionFiles.store) o.(updated) /\ Key o.(updated) = Key journal.
Proof.
  revert n state journal attached. induction fuel as [|fuel IH]; intros n state journal attached; [done|]. cbn [flush].
  destruct (List.find _ _) as [delivery|] eqn:Hfind; [|by intros [= <-]].
  apply find_some in Hfind as [Hin Hready]. intros Hflush Hok Hstep.
  assert (GoalDelivery.Ready delivery = true) as Hflag
    by (unfold goalDeliveryReadyForFlush in Hready; by destruct (GoalDelivery.Ready delivery)).
  pose proof (deliver_round (meanwhile n) (attempts n) state journal delivery (proj1 Hstep) Hin Hflag) as Hround. cbv zeta in Hround.
  set (round := deliverGoalDelivery _ _ _ _ _ _ _) in *. unfold goes_on in Hround.
  destruct (failure round) as [[]|]; try (revert Hok; by injection Hflush as <-); destruct (Hround I) as [Hsynced Hkey _ _ _];
    apply IH in Hflush as [? ->]; [by split|done|by apply synced_in_step|by split|done|by apply synced_in_step].
Qed.

(** ** Operations that hand on the journal they wrote *)

(** A successful operation leaves a journal of the run in step with its file. *)
Definition settles (key : RunKey.t) (operation : moment -> Store -> Store * result RunJournal.t) : Prop :=
  forall m store store' journal, operation m store = (store', Ok journal) -> in_step store' journal /\ Key journal = key.

Lemma mutation_settles key (fs : moment -> io) (f : moment -> RunJournal.t -> result RunJournal.t) :
  (forall m loaded upd, f m loaded = Ok upd -> Key upd = Key loaded) -> settles key (fun m store => mutateJournal (fs m) store key (f m)).
Proof. intros Hf m store store' journal (loaded & _ & _ & ? & ?)%mutate_ok; [done|]. intros. by eapply Hf. Qed.

Lemma guarded_settles key (guard : moment -> bool) e operation :
  settles key operation -> settles key (fun m store => if guard m then (store, Err e) else operation m store).
Proof. intros Hop m store store' journal. destruct (guard m); [done|apply Hop]. Qed.

Lemma flag_settles key (fs : moment -> io) (f : moment -> RunJournal.t -> result (RunJournal.t * bool)) :
  (forall m loaded upd, f m loaded = Ok upd -> Key upd.1 = Key loaded) ->
  settles key (fun m store => let '(store', (_, result)) := mutateJournalFlag (fs m) store key (f m) in (store', result)).
Proof.
  intros Hf m store store' journal. unfold mutateJournalFlag. cbn [fst snd].
  destruct (mutateJournal _ _ _ _) as [s r] eqn:Hrun. cbn [fst snd]. intros [= <- ->].
  apply mutate_ok in Hrun as (loaded & _ & _ & ? & ?); [done|]. intros l u Hu. destruct (f m l) as [[u' b]|] eqn:Hfl; [|done].
  cbn [rbind] in Hu. injection Hu as <-. by apply (Hf m l (u', b)).
Qed.

Lemma append_event_key journal event message upd : appendEvent journal event message = Ok upd -> Key upd = Key journal.
Proof. unfold appendEvent. intros Hrun. inv_ok. by subst. Qed.

Lemma marker_key at_ newEventID journal upd : appendOutputTruncatedMarker at_ newEventID journal = Ok upd -> Key upd.1 = Key journal.
Proof.
  unfold appendOutputTruncatedMarker. intros Hrun. repeat case_match; inv_ok; subst; try done.
  match goal with E : appendEvent _ _ _ = Ok _ |- _ => apply append_event_key in E; exact E end.
Qed.

Lemma mark_acks_key ids journal upd : markCommandAcknowledgementsDelivered ids journal = Ok upd -> Key upd = Key journal.
Proof. unfold markCommandAcknowledgementsDelivered. intros Hrun. inv_ok. by subst. Qed.

Lemma attempted_view id journal upd : markTransitionAttempted id journal = Ok upd -> view upd = view journal.
Proof. unfold markTransitionAttempted. intros Hrun. repeat case_match; inv_ok; by subst. Qed.

Lemma resolve_key verdict at_ journal upd : Outbox.resolveTerminal verdict at_ journal = Ok upd -> Key upd = Key journal.
Proof. unfold Outbox.resolveTerminal. intros Hrun. repeat case_match; inv_ok; by subst. Qed.

Lemma resolve_cleanup_key verdict at_ journal upd : resolveTerminalForCleanup verdict at_ journal = Ok upd -> Key upd = Key journal.
Proof.
  unfold resolveTerminalForCleanup, settleUnresolvedProviderActions. intros Hrun. repeat case_match; inv_ok; by subst.
Qed.

Lemma queue_marker_settles key :
  settles key (fun m store => let '(store', (_, result)) :=
    QueueOutputTruncatedMarker m.(disk) store key m.(now) m.(newID) in (store', result)).
Proof. apply flag_settles. intros m loaded upd. apply marker_key. Qed.

Lemma mark_events_settles key ids :
  settles key (fun m store => let '(store', (_, result)) :=
    MarkEventsDeliveredAndQueueOutputTruncatedMarker m.(disk) store key ids m.(now) m.(newID) in (store', result)).
Proof. apply flag_settles. intros m loaded upd Hrun%marker_key. exact Hrun. Qed.

Lemma retire_events_settles key ids : settles key (fun m store => MarkEventsDelivered m.(disk) store key ids).
Proof. apply mutation_settles. intros m loaded upd [= <-]. done. Qed.

Lemma mark_transitions_settles key ids : settles key (fun m store => MarkTransitionsDelivered m.(disk) store key ids).
Proof. apply mutation_settles. intros m loaded upd [= <-]. done. Qed.

Lemma mark_acks_settles key ids : settles key (fun m store => MarkCommandAcknowledgementsDelivered m.(disk) store key ids).
Proof. apply mutation_settles. intros m loaded upd. apply mark_acks_key. Qed.

Lemma resolve_settles key verdict : settles key (fun m store => ResolveTerminal m.(disk) store key verdict m.(now)).
Proof. apply guarded_settles, mutation_settles. intros m loaded upd. apply resolve_key. Qed.

Lemma resolve_cleanup_settles key verdict : settles key (fun m store => ResolveTerminalForCleanup m.(disk) store key verdict m.(now)).
Proof. apply guarded_settles, mutation_settles. intros m loaded upd. apply resolve_cleanup_key. Qed.

Lemma clear_usage_settles key usage : settles key (fun m store => ClearNativeUsageRecoveryRequired m.(disk) store key usage).
Proof.
  intros m store store' journal. unfold ClearNativeUsageRecoveryRequired, checked. destruct (clearUsageArguments _ _); [|done].
  intros (loaded & _ & _ & ? & ?)%mutate_ok; [done|]. intros l u Hu. unfold clearNativeUsageRecoveryRequired in Hu.
  repeat case_match; inv_ok; by subst.
Qed.

Lemma load_settles key : settles key (fun m store => (store, LoadJournal m.(disk) store key)).
Proof. intros m store store' journal [= <- Hload]. apply load_in_step in Hload as [[_ Hkey] Hstep]. done. Qed.

(** ** What is logged *)

(** Not a request about a transition. *)
Definition quiet (entry : action) : Prop := match entry with Sent (TransitionRequest _ _) _ _ => False | _ => True end.

(** Steps that send no transition. *)
Definition extends (w w' : world) : Prop := exists entries, w'.(log) = (w.(log) ++ entries)%list /\ Forall quiet entries.

#[export] Instance extends_preorder : PreOrder extends.
Proof.
  split; [intros w; exists []; by rewrite app_nil_r|].
  intros w1 w2 w3 (l1 & E1 & Q1) (l2 & E2 & Q2). exists (l1 ++ l2)%list. rewrite E2, E1, app_assoc. split; [done|by apply Forall_app].
Qed.

Lemma same_log_extends w w' : w'.(log) = w.(log) -> extends w w'.
Proof. intros E. exists []. by rewrite E, app_nil_r. Qed.

Lemma with_log_extends entry w : quiet entry -> extends w (with_log entry w).
Proof. intros Hq. exists [entry]. split; [done|by constructor]. Qed.

(** An earlier request was answered: the control plane takes no more events of
    this run. *)
Definition refused (entries : list action) : Prop :=
  exists request from err, In (Sent request from (Some err)) entries /\ predecessorUnavailable err = true.

Lemma refused_app entries more : refused entries -> refused (entries ++ more)%list.
Proof. intros (request & from & err & Hin & Herr). exists request, from, err. split; [apply in_or_app; by left|done]. Qed.

Lemma extends_refused w w' : extends w w' -> refused w.(log) -> refused w'.(log).
Proof. intros (l & -> & _). apply refused_app. Qed.

Section World.
Context (moments : nat -> moment) (restarting : bool).

Lemma store_op_inv {A} operation w w' (r : A) : store_op moments operation w = (w', r) ->
  operation (moments w.(tick)) (disk_of w) = (disk_of w', r) /\ w'.(log) = w.(log).
Proof.
  unfold store_op, disk_of. destruct (operation _ _) as [store' r'] eqn:Hop. by intros [= <- <-].
Qed.

Lemma settled_op key operation w w' journal : settles key operation -> store_op moments operation w = (w', Ok journal) ->
  in_step (disk_of w') journal /\ Key journal = key.
Proof. intros Hop [Hrun _]%store_op_inv. by apply Hop in Hrun. Qed.

Lemma store_op_extends {A} operation w w' (r : A) : store_op moments operation w = (w', r) -> extends w w'.
Proof. intros [_ Hlog]%store_op_inv. by apply same_log_extends. Qed.

Lemma or_keep_ok key operation journal w w' upd : settles key operation ->
  or_keep journal (store_op moments operation w) = (w', (upd, None)) -> in_step (disk_of w') upd /\ Key upd = key.
Proof.
  unfold or_keep. destruct (store_op _ _ _) as [w1 [j|]] eqn:Hop; [|done]. intros Hsettles [= <- <-]. by eapply settled_op.
Qed.

Lemma or_keep_extends operation journal w : extends w (or_keep journal (store_op moments operation w)).1.
Proof.
  unfold or_keep. destruct (store_op _ _ _) as [w1 [j|]] eqn:Hop; cbn [fst]; by eapply store_op_extends.
Qed.

Lemma exchange_extends request w : quiet (Sent request w.(disk_files) None) -> extends w (exchange moments request w).1.
Proof. intros Hq. exists [Sent request w.(disk_files) ((moments w.(tick)).(answer) request)]. split; [done|by constructor]. Qed.

Lemma reload_extends key w : extends w (reload moments key w).1.
Proof. by apply same_log_extends. Qed.

Lemma terminate_extends journal reason w : extends w (terminateForLease moments journal reason w).
Proof. unfold terminateForLease. destruct (isTerminalPending _); [done|]. by apply with_log_extends. Qed.

Lemma ordinary_extends journal err reason w : extends w (handleOrdinaryDeliveryError moments restarting journal err reason w).1.
Proof. unfold handleOrdinaryDeliveryError. destruct (_ && _); [apply terminate_extends|done]. Qed.

Lemma terminal_extends journal err w : extends w (handleTerminalDeliveryError moments journal err w).1.
Proof.
  unfold handleTerminalDeliveryError. cbv zeta. destruct (_ && _); [|done].
  destruct (store_op _ _ _) as [w1 [j|]] eqn:Hop; by eapply store_op_extends.
Qed.

(** ** Events *)

Lemma deliver_events_extends journal events w : extends w (deliverEvents moments restarting journal events w).1.
Proof.
  unfold deliverEvents. destruct events as [|event events].
  { destruct (0 <? _); [apply or_keep_extends|done]. }
  pose proof (exchange_extends (EventsRequest journal.(RunID) (fence journal) (event :: events)) w I) as Hx.
  destruct (exchange _ _ _) as [w1 [err|]]; cbn [fst] in *; [|etrans; [exact Hx|apply or_keep_extends]].
  pose proof (reload_extends (Key journal) w1) as Hr. destruct (reload _ _ _) as [w2 [current|]]; cbn [fst] in *; [|by etrans].
  destruct (_ && _); [by etrans|]. pose proof (ordinary_extends current err "event ownership lost" w2) as Ho.
  destruct (handleOrdinaryDeliveryError _ _ _ _ _ _) as [w3 e]. cbn [fst] in *. by do 2 (etrans; [eassumption|]).
Qed.

Lemma deliver_pending_extends journal w : extends w (deliverPendingEvents moments restarting journal w).1.
Proof. unfold deliverPendingEvents. destruct (_ && _); [apply or_keep_extends|apply deliver_events_extends]. Qed.

Lemma deliver_before_extends journal w : extends w (deliverEventsBeforeAppliedInputAcknowledgement moments restarting journal w).1.
Proof.
  unfold deliverEventsBeforeAppliedInputAcknowledgement. repeat case_match; auto using deliver_pending_extends, deliver_events_extends.
Qed.

(** Delivered events leave the journal in step; a refusal is in the log. *)
Definition events_handed (w w' : world) (journal : RunJournal.t) (h : handed) : Prop :=
  Key h.1 = Key journal /\
  match h.2 with
  | None => in_step (disk_of w) journal -> in_step (disk_of w') h.1
  | Some e => terminalPredecessorUnavailable e = true -> refused w'.(log)
  end.

Lemma queue_marker_handed journal w w' h : queueOutputTruncatedMarker moments journal w = (w', h) -> events_handed w w' journal h.
Proof.
  unfold queueOutputTruncatedMarker. intros Hrun. destruct h as [upd [e|]].
  - unfold or_keep in Hrun. destruct (store_op _ _ _) as [w1 [j|]]; [done|]. injection Hrun as <- <- <-. by split.
  - apply (or_keep_ok (Key journal)) in Hrun as [? ?]; [|apply queue_marker_settles]. by split; cbn [fst snd].
Qed.

Lemma deliver_events_handed journal events w w' h :
  deliverEvents moments restarting journal events w = (w', h) -> events_handed w w' journal h.
Proof.
  unfold deliverEvents. destruct events as [|event events].
  { destruct (0 <? _); [apply queue_marker_handed|]. intros [= <- <-]. by split; cbn [fst snd]. }
  destruct (exchange _ _ _) as [w1 [err|]] eqn:Hx.
  - destruct (reload _ _ _) as [w2 [current|]] eqn:Hreload; [|intros [= <- <-]; by split; cbn [fst snd]].
    pose proof Hreload as [_ Hkey]%(settled_op (Key journal) _ _ _ _ (load_settles _)).
    pose proof (store_op_extends _ _ _ _ Hreload) as Hext.
    destruct (_ && _); [intros [= <- <-]; by split; cbn [fst snd]|].
    pose proof (ordinary_extends current err "event ownership lost" w2) as Ho.
    unfold handleOrdinaryDeliveryError in *. cbn [fst] in Ho. intros [= <- <-]. split; [done|]. cbn [snd]. intros Hun.
    eapply extends_refused; [exact Ho|]. eapply extends_refused; [exact Hext|]. unfold exchange in Hx. injection Hx as <- Hans.
    cbn [log]. eexists _, _, err. split; [|exact Hun]. apply in_or_app. right. left. by rewrite Hans.
  - intros Hrun. destruct h as [upd [e|]].
    + unfold or_keep in Hrun. destruct (store_op _ _ _) as [w2 [j|]]; [done|]. injection Hrun as <- <- <-. by split.
    + apply (or_keep_ok (Key journal)) in Hrun as [? ?]; [|apply mark_events_settles]. by split; cbn [fst snd].
Qed.

Lemma deliver_pending_handed journal w w' h :
  deliverPendingEvents moments restarting journal w = (w', h) -> events_handed w w' journal h.
Proof. unfold deliverPendingEvents. destruct (_ && _); [apply queue_marker_handed|apply deliver_events_handed]. Qed.

Lemma deliver_before_handed journal w w' h :
  deliverEventsBeforeAppliedInputAcknowledgement moments restarting journal w = (w', h) -> events_handed w w' journal h.
Proof.
  unfold deliverEventsBeforeAppliedInputAcknowledgement.
  repeat case_match; first [apply deliver_pending_handed|apply deliver_events_handed].
Qed.

(** ** Acknowledgements *)

Lemma ack_error_extends journal err w : extends w (handleAcknowledgementDeliveryError moments restarting journal err w).1.
Proof.
  unfold handleAcknowledgementDeliveryError. destruct (isTerminalPending _); [apply terminal_extends|apply ordinary_extends].
Qed.

Lemma deliver_ack_extends journal ack w : extends w (deliverAcknowledgement moments restarting journal ack w).1.
Proof.
  unfold deliverAcknowledgement. cbv zeta.
  pose proof (exchange_extends (AcknowledgementRequest ack.(CommandAcknowledgement.CommandID) ack) w I) as Hx.
  destruct (exchange _ _ _) as [w1 answered]. pose proof (reload_extends (Key journal) w1) as Hr.
  destruct (reload _ _ _) as [w2 [current|]]; cbn [fst] in *; [|by etrans].
  destruct (negb _); [by etrans|]. destruct answered as [err|].
  - destruct (_ && _); [by etrans|]. destruct (_ || _); [do 2 (etrans; [eassumption|]); apply or_keep_extends|].
    pose proof (ack_error_extends current err w2) as He.
    destruct (handleAcknowledgementDeliveryError _ _ _ _ _) as [w3 e]. cbn [fst] in *. by do 2 (etrans; [eassumption|]).
  - do 2 (etrans; [eassumption|]). etrans; [|apply or_keep_extends]. destruct (isTerminalPending _); [by apply with_log_extends|done].
Qed.

Lemma deliver_ack_ok journal ack w w' upd :
  deliverAcknowledgement moments restarting journal ack w = (w', (upd, None)) -> in_step (disk_of w') upd /\ Key upd = Key journal.
Proof.
  unfold deliverAcknowledgement. cbv zeta. destruct (exchange _ _ _) as [w1 answered].
  destruct (reload _ _ _) as [w2 [current|]]; [|done]. destruct (negb _); [done|]. destruct answered as [err|].
  - destruct (_ && _); [done|]. destruct (_ || _); [apply or_keep_ok, mark_acks_settles|].
    by destruct (handleAcknowledgementDeliveryError _ _ _ _ _).
  - apply or_keep_ok, mark_acks_settles.
Qed.

(** The acknowledgement of something applied: sent, or nothing happened. *)
Definition applied_handed (w w' : world) (journal : RunJournal.t) (h : RunJournal.t * bool * option run_error) : Prop :=
  extends w w' /\
  match h with
  | (upd, true, None) => in_step (disk_of w') upd /\ Key upd = Key journal
  | (upd, false, None) => upd = journal /\ w' = w
  | _ => True
  end.

Lemma sent_first_handed journal ackID w w' h : sent_first moments restarting journal ackID w = (w', h) -> applied_handed w w' journal h.
Proof.
  unfold sent_first. destruct (List.find _ _) as [ack|]; [|by intros [= <- <-]].
  pose proof (deliver_ack_extends journal ack w) as Hext.
  destruct (deliverAcknowledgement _ _ _ _ _) as [w1 [upd [e|]]] eqn:Hrun; intros [= <- <-]; split; try done.
  by apply deliver_ack_ok in Hrun.
Qed.

Lemma deliver_applied_handed journal w w' h :
  deliverAppliedInputAcknowledgement moments restarting journal w = (w', h) -> applied_handed w w' journal h.
Proof.
  unfold deliverAppliedInputAcknowledgement, deliverAppliedControlAcknowledgement.
  repeat case_match; first [apply sent_first_handed|by intros [= <- <-]].
Qed.

Lemma deliver_acks_extends fuel journal w : extends w (deliverAcknowledgements moments restarting fuel journal w).1.
Proof.
  revert journal w. induction fuel as [|fuel IH]; intros journal w; cbn [deliverAcknowledgements];
    (destruct (PendingCommandAcknowledgements journal) as [|ack acks]; [done|]); [done|].
  pose proof (deliver_ack_extends journal ack w) as Hext.
  destruct (deliverAcknowledgement _ _ _ _ _) as [w1 [upd [e|]]]; cbn [fst] in *; [done|]. etrans; [exact Hext|apply IH].
Qed.

(** ** Goal deliveries and retirement *)

Lemma flush_goals_ok fuel journal w w' upd :
  flushGoals moments fuel journal w = (w', (upd, None)) ->
  w'.(log) = (w.(log) ++ [GoalsFlushed w.(disk_files)])%list /\ no_ready upd /\
  ((forall i, queues_no_event (Key journal) ((moments w.(tick)).(delivering) i)) ->
     follows keeps_events (Key journal) (disk_of w) (disk_of w')) /\
  (in_step (disk_of w) journal -> in_step (disk_of w') upd /\ Key upd = Key journal).
Proof.
  unfold flushGoals, flushGoalDeliveriesWhile. cbv zeta. destruct (flush _ _ _ _ _ _ _) as [o|] eqn:Hflush; [|done].
  destruct (failure o) eqn:Hfail; [done|]. intros [= <- <-]. split_and!; [done|by eapply flush_drains|by intros; eapply flush_keeps_events|].
  by apply (flush_in_step _ _ _ _ _ _ _ _ Hflush).
Qed.

Lemma flush_goals_extends fuel journal w : extends w (flushGoals moments fuel journal w).1.
Proof.
  unfold flushGoals. cbv zeta. destruct (flushGoalDeliveriesWhile _ _ _ _ _); exists [GoalsFlushed w.(disk_files)]; (split; [done|by constructor]).
Qed.

Definition all_terminal (journal : RunJournal.t) : Prop :=
  Forall (fun t => isTerminalTransition t.(StateTransitionRequest.State) = true) journal.(PendingTransitions).

Lemma llen_nil {A} (l : list A) : (llen l =? 0) = true -> l = [].
Proof. by destruct l. Qed.

Lemma no_ordinary {A} (f : A -> bool) (B : Type) (g : A -> B) l :
  (llen (map g (List.filter (fun x => negb (f x)) l)) =? 0) = true -> Forall (fun x => f x = true) l.
Proof.
  intros Hnil%llen_nil%map_eq_nil. induction l as [|x l IH]; [constructor|]. cbn [List.filter] in Hnil.
  destruct (f x) eqn:Hfx; [|done]. constructor; [done|by apply IH].
Qed.

Lemma retire_extends journal w : extends w (retireOrdinaryTerminalOutbox moments journal w).1.
Proof.
  unfold retireOrdinaryTerminalOutbox.
  destruct (if llen _ =? 0 then _ else _) as [w1 [j|]] eqn:Hevents; cbv zeta; cbn [fst].
  - assert (extends w w1) as Hext by (destruct (llen _ =? 0) in Hevents; [by injection Hevents as <- _|by eapply store_op_extends]).
    clear Hevents. destruct (llen _ =? 0); [exact Hext|]. etrans; [exact Hext|]. destruct (store_op _ _ _) eqn:Hop. by eapply store_op_extends.
  - destruct (llen _ =? 0) in Hevents; [done|by eapply store_op_extends].
Qed.

(** Afterwards the journal is in step or has terminals only. *)
Lemma retire_ok journal w w' upd :
  retireOrdinaryTerminalOutbox moments journal w = (w', Ok upd) ->
  Key upd = Key journal /\ (in_step (disk_of w') upd \/ all_terminal upd).
Proof.
  unfold retireOrdinaryTerminalOutbox.
  destruct (if llen _ =? 0 then _ else _) as [w1 [j|]] eqn:Hevents; [|done]. cbv zeta.
  assert (Key j = Key journal) as Hkey.
  { destruct (llen _ =? 0) in Hevents; [by injection Hevents as _ <-|]. 
    by apply (settled_op _ _ _ _ _ (retire_events_settles _ _)) in Hevents as [_ ?]. }
  clear Hevents. destruct (llen _ =? 0) eqn:Hnone.
  - intros [= <- <-]. split; [done|]. right. by apply no_ordinary in Hnone.
  - intros [Hstep Hk]%(settled_op _ _ _ _ _ (mark_transitions_settles _ _)). split; [congruence|by left].
Qed.

(** ** The order of requests *)

(** What holds of the file of the run when its terminal is sent: nothing is
    ready, and the last thing done was a flush of the Goal deliveries, begun
    with no event pending. *)
Definition drained (key : RunKey.t) (entries : list action) (store : Store) : Prop :=
  forall stored, on_disk store key stored -> no_ready stored /\
    exists earlier start, entries = (earlier ++ [GoalsFlushed start])%list /\
      ((forall begun, on_disk start.(SessionFiles.store) key begun -> begun.(PendingEvents) = []) /\
       ((forall k i, queues_no_event key ((moments k).(delivering) i)) -> stored.(PendingEvents) = []) \/ refused earlier).

Definition terminal_last (key : RunKey.t) (entries : list action) : Prop :=
  forall before runID transition from answered after,
    entries = (before ++ Sent (TransitionRequest runID transition) from answered :: after)%list ->
    isTerminalTransition transition.(StateTransitionRequest.State) = true ->
    drained key before from.(SessionFiles.store).

Lemma terminal_last_snoc key entries entry :
  terminal_last key entries ->
  (forall runID transition from answered, entry = Sent (TransitionRequest runID transition) from answered ->
     isTerminalTransition transition.(StateTransitionRequest.State) = true -> drained key entries from.(SessionFiles.store)) ->
  terminal_last key (entries ++ [entry])%list.
Proof.
  intros Hlast Hentry before runID transition from answered after Heq Hterminal.
  destruct after as [|x after _] using rev_ind.
  - apply app_inj_tail in Heq as [-> ->]. by eapply Hentry.
  - rewrite app_comm_cons, app_assoc in Heq. apply app_inj_tail in Heq as [-> _]. by eapply Hlast.
Qed.

Lemma terminal_last_extends key w w' : extends w w' -> terminal_last key w.(log) -> terminal_last key w'.(log).
Proof.
  intros (entries & -> & Hquiet). revert Hquiet. induction entries as [|entry entries IH] using rev_ind; [by rewrite app_nil_r|].
  intros [Hentries [Hentry _]%Forall_cons]%Forall_app Hlast. rewrite app_assoc. apply terminal_last_snoc; [by apply IH|].
  by intros runID transition from answered ->.
Qed.

(** ** The loop over the transitions *)

(** The journal of the run at the top of the loop. *)
Definition at_top (key : RunKey.t) (w : world) (journal : RunJournal.t) (unavailable : bool) : Prop :=
  Key journal = key /\
  if unavailable then refused w.(log) /\ (in_step (disk_of w) journal \/ all_terminal journal) else in_step (disk_of w) journal.

Definition goes_top (key : RunKey.t) (w : world) (p : progress) : Prop :=
  match p with Proceed journal unavailable | Again journal unavailable => at_top key w journal unavailable | Leave _ => True end.

Lemma in_step_top key w journal unavailable :
  in_step (disk_of w) journal -> Key journal = key -> (unavailable = true -> refused w.(log)) -> at_top key w journal unavailable.
Proof. intros Hstep Hkey Hrefused. split; [done|]. destruct unavailable; [split; [by apply Hrefused|by left]|done]. Qed.

Lemma retired_top key journal w w' next p :
  retired_or_leave journal (retireOrdinaryTerminalOutbox moments journal w) next = (w', p) ->
  Key journal = key -> refused w.(log) -> (forall upd, next upd = Proceed upd true \/ next upd = Again upd true) ->
  extends w w' /\ goes_top key w' p.
Proof.
  intros Hrun Hkey Hrefused Hnext. pose proof (retire_extends journal w) as Hext. unfold retired_or_leave in Hrun.
  destruct (retireOrdinaryTerminalOutbox _ _ _) as [w1 [upd|]] eqn:Hretire; cbn [fst] in Hext; injection Hrun as <- <-; [|done].
  split; [done|]. apply retire_ok in Hretire as [Hk Hstep]. assert (at_top key w1 upd true) as Htop.
  { split; [congruence|]. split; [by eapply extends_refused|done]. }
  by destruct (Hnext upd) as [-> | ->].
Qed.

(** Before a terminal goes on to be sent its events are gone or refused. *)
Lemma before_terminal_top key journal unavailable w w' p :
  at_top key w journal unavailable -> beforeTerminal moments restarting journal unavailable w = (w', p) ->
  extends w w' /\ goes_top key w' p /\ forall journal', p = Proceed journal' false -> journal'.(PendingEvents) = [].
Proof.
  intros [Hkey Htop]. unfold beforeTerminal. destruct unavailable; [by intros [= <- <-]|].
  destruct (deliverAppliedInputAcknowledgement _ _ _ _) as [w1 [[j1 delivered] [e|]]] eqn:Hack;
    apply deliver_applied_handed in Hack as [Hext1 Hack]; [by intros [= <- <-]|].
  assert (in_step (disk_of w1) j1 /\ Key j1 = key) as [Hstep1 Hkey1].
  { destruct delivered; [destruct Hack; split; congruence|]. by destruct Hack as [-> ->]. }
  cbv zeta. pose proof (deliver_pending_extends j1 w1) as Hext2.
  destruct (deliverPendingEvents _ _ _ _) as [w2 [j2 [e|]]] eqn:Hevents; cbn [fst] in Hext2;
    apply deliver_pending_handed in Hevents as [Hkey2 Hevents]; cbn [fst snd] in *.
  - destruct (terminalPredecessorUnavailable e); [|intros [= <- <-]; split_and!; [by etrans|done..]].
    intros Hrun. assert (forall j', p <> Proceed j' false) as Hnot.
    { unfold retired_or_leave in Hrun. repeat case_match; congruence. }
    apply (retired_top key) in Hrun as [Hext3 Hgoes]; [|congruence|by apply Hevents|intros upd; destruct (_ || _); auto].
    split_and!; [by do 2 (etrans; [eassumption|])|done|]. intros j' ->. by destruct (Hnot j').
  - intros Hrun. assert (at_top key w2 j2 false) as Htop2 by (apply in_step_top; [by apply Hevents|congruence|done]).
    destruct (delivered || _) eqn:Hagain; injection Hrun as <- <-; (split_and!; [by etrans|done|]); [done|].
    intros j' [= <-]. apply orb_false_iff in Hagain as [_ Hnil]. by apply negb_false_iff, llen_nil in Hnil.
Qed.

(** Before an ordinary transition: the loop starts again or nothing happened. *)
Lemma before_ordinary_top key journal unavailable w w' p :
  at_top key w journal unavailable -> beforeOrdinary moments restarting journal unavailable w = (w', p) ->
  extends w w' /\ goes_top key w' p /\ forall journal' u, p = Proceed journal' u -> journal' = journal /\ u = unavailable.
Proof.
  intros [Hkey Htop]. unfold beforeOrdinary.
  destruct (deliverAppliedInputAcknowledgement _ _ _ _) as [w1 [[j1 delivered] [e|]]] eqn:Hack;
    apply deliver_applied_handed in Hack as [Hext1 Hack]; [destruct delivered; by intros [= <- <-]|]. destruct delivered.
  - destruct Hack as [Hstep1 Hkey1]. pose proof (deliver_pending_extends j1 w1) as Hext2.
    destruct (deliverPendingEvents _ _ _ _) as [w2 [j2 [e|]]] eqn:Hevents; cbn [fst] in Hext2;
      apply deliver_pending_handed in Hevents as [Hkey2 Hevents]; cbn [fst snd] in *; intros [= <- <-];
      (split_and!; [by etrans| |done]); [done|]. apply in_step_top; [by apply Hevents|congruence|]. intros ->.
    eapply extends_refused; [|apply Htop]. by etrans.
  - destruct Hack as [-> ->]. intros [= <- <-]. split_and!; [done|by split|]. by intros j u [= <- <-].
Qed.

(** What the next request may rely on: the run is drained, or the transition
    is an ordinary one. *)
Definition may_send (key : RunKey.t) (w : world) (journal : RunJournal.t) (unavailable : bool) : Prop :=
  (unavailable = true -> refused w.(log)) /\
  (drained key w.(log) (disk_of w) \/
   in_step (disk_of w) journal /\ Key journal = key /\
   forall t rest, journal.(PendingTransitions) = t :: rest -> isTerminalTransition t.(StateTransitionRequest.State) = false).

Lemma drain_top fuel key journal unavailable w w' p :
  at_top key w journal unavailable ->
  (unavailable = false -> forall t rest, journal.(PendingTransitions) = t :: rest ->
     isTerminalTransition t.(StateTransitionRequest.State) = true -> journal.(PendingEvents) = []) ->
  drainEvidence moments fuel key journal unavailable w = (w', p) ->
  extends w w' /\
  match p with
  | Proceed journal' unavailable' => may_send key w' journal' unavailable'
  | Again journal' unavailable' => at_top key w' journal' unavailable'
  | Leave _ => True
  end.
Proof.
  intros [Hkey Htop] Hevents. unfold drainEvidence. destruct (PendingTransitions journal) as [|t rest] eqn:Hpending; [by intros [= <- <-]|].
  destruct (isTerminalTransition _) eqn:Hterminal.
  - destruct (reload _ _ _) as [w1 [current|]] eqn:Hreload; [|intros [= <- <-]; split; [by apply (store_op_extends _ _ _ _ Hreload)|done]].
    pose proof (store_op_extends _ _ _ _ Hreload) as Hext1. unfold reload in Hreload.
    apply store_op_inv in Hreload as [Hload Hlog1]. injection Hload as Hsame Hload.
    apply load_in_step in Hload as [Hdisk Hstep1]. rewrite Hsame in Hdisk, Hstep1. pose proof (proj2 Hdisk) as Hkey1.
    pose proof (flush_goals_extends fuel current w1) as Hext2.
    destruct (flushGoals _ _ _ _) as [w2 [j2 [e|]]] eqn:Hgoals; cbn [fst] in Hext2; [intros [= <- <-]; split; [by etrans|done]|].
    apply flush_goals_ok in Hgoals as (Hlog2 & Hnone & Hkeeps & Hstep2). destruct (Hstep2 Hstep1) as [Hin2 Hkey2]. clear Hstep2.
    assert (unavailable = true -> refused (log w1)) as Hrefused1 by (intros ->; rewrite Hlog1; apply Htop).
    assert (unavailable = true -> refused (log w2)) as Hrefused by (intros Hu; rewrite Hlog2; by apply refused_app, Hrefused1).
    intros [= <- <-]. split; [by etrans|]. destruct (llen _ =? 0); [by apply in_step_top; [|congruence|]|].
    split; [done|]. left. intros stored Hstored. split; [eapply view_no_ready; [symmetry; apply Hin2; congruence|done]|].
    exists (log w1), (disk_files w1). split; [done|]. destruct unavailable; [right; by apply Hrefused1|left].
    assert (forall begun, on_disk (disk_of w1) key begun -> PendingEvents begun = []) as Hbegun.
    { intros begun Hb. eapply view_no_events; [|by eapply Hevents]. symmetry. apply Htop. by rewrite Hkey, Hsame. }
    split; [done|]. intros Hquiet. rewrite Hkey1 in Hkeeps. apply Hkeeps in Hstored as (begun & Hb & Hkept); [|intros i; apply Hquiet].
    by apply Hkept, Hbegun.
  - intros [= <- <-]. split; [done|]. assert (forall P : Prop, all_terminal journal -> P) as Hnot.
    { intros P Hall. unfold all_terminal in Hall. rewrite Hpending in Hall. inversion Hall; congruence. }
    split; [intros ->; apply Htop|]. right. split_and!; [|done|rewrite Hpending; by intros t' rest' [= <- <-]].
    destruct unavailable; [destruct Htop as [_ [?|Hall]]; [done|by apply Hnot]|done].
Qed.

(** The head of the queue a journal in step has on disk. *)
Lemma in_step_head store journal stored t rest :
  in_step store journal -> on_disk store (Key journal) stored -> stored.(PendingTransitions) = t :: rest ->
  exists t' rest', journal.(PendingTransitions) = t' :: rest' /\ t'.(StateTransitionRequest.State) = t.(StateTransitionRequest.State).
Proof.
  intros [_ Hstep] Hdisk%Hstep Hpending. apply (f_equal (fun v => v.1.1.2)) in Hdisk. cbn [fst snd view] in Hdisk.
  rewrite Hpending in Hdisk. destruct (PendingTransitions journal) as [|t' rest']; [done|]. cbn in Hdisk. injection Hdisk as _ Hstate _.
  by exists t', rest'.
Qed.

Lemma settle_top key wasTerminal journal transition unavailable answered w w' p :
  in_step (disk_of w) journal -> Key journal = key -> (unavailable = true -> refused w.(log)) ->
  (forall err, answered = Some err -> predecessorUnavailable err = true -> refused w.(log)) ->
  settleTransition moments restarting key wasTerminal journal transition unavailable answered w = (w', p) ->
  extends w w' /\ goes_top key w' p.
Proof.
  intros Hstep Hkey Hrefused Hanswer. unfold settleTransition. cbv zeta. destruct answered as [err|].
  - destruct (_ && negb _); [by intros [= <- <-]|]. destruct (isTerminalTransition _).
    { pose proof (terminal_extends journal err w) as Hext. destruct (handleTerminalDeliveryError _ _ _ _). by intros [= <- <-]. }
    destruct (isTerminalPending journal && predecessorUnavailable err) eqn:Hlost.
    { apply andb_true_iff in Hlost as [_ Hlost]. intros Hrun. eapply retired_top; [exact Hrun|done|by eapply Hanswer|by right]. }
    pose proof (ordinary_extends journal err "transition ownership lost" w) as Hext.
    destruct (handleOrdinaryDeliveryError _ _ _ _ _ _). by intros [= <- <-].
  - destruct (if _ && _ then _ else _) as [w1 resolved] eqn:Hresolve.
    assert (extends w w1) as Hext1.
    { destruct (_ && _); [|by injection Hresolve as <- _]. unfold resolveTerminal in Hresolve.
      destruct (store_op _ _ _) as [w0 [upd|]] eqn:Hop; injection Hresolve as <- _; apply store_op_extends in Hop; [|done].
      etrans; [exact Hop|by apply with_log_extends]. }
    clear Hresolve. destruct resolved as [resolved|]; [|by intros [= <- <-]]. unfold retired_or_leave.
    destruct (store_op _ _ _) as [w2 [upd|]] eqn:Hop; pose proof (store_op_extends _ _ _ _ Hop) as Hext2; intros [= <- <-];
      (split; [by etrans|]); [|done].
    apply (settled_op _ _ _ _ _ (mark_transitions_settles key _)) in Hop as [Hin Hk]. apply in_step_top; [done..|].
    intros Hu. eapply extends_refused; [|by apply Hrefused]. by etrans.
Qed.

Lemma send_top key journal unavailable w w' p :
  may_send key w journal unavailable -> terminal_last key w.(log) ->
  sendTransition moments restarting key journal unavailable w = (w', p) -> terminal_last key w'.(log) /\ goes_top key w' p.
Proof.
  intros [Hrefused Hsend] Hlast. unfold sendTransition. destruct (PendingTransitions journal) as [|first rest] eqn:Hfirst; [by intros [= <- <-]|].
  destruct (store_op _ _ _) as [w1 [marked|]] eqn:Hmark; apply store_op_inv in Hmark as [Hmark Hlog1];
    [|intros [= <- <-]; split; [by rewrite Hlog1|done]].
  unfold MarkTransitionAttempted in Hmark. destruct (negb _); [done|].
  apply mutate_ok in Hmark as (loaded & Hloaded & Hview%attempted_view & Hstep1 & Hkey1);
    [|intros l u Hu%attempted_view; by apply view_key].
  destruct (PendingTransitions marked) as [|transition more] eqn:Hmarked; [intros [= <- <-]; split; [by rewrite Hlog1|done]|].
  destruct (exchange _ _ _) as [w2 answered] eqn:Hx. unfold exchange in Hx. injection Hx as <- Hanswered.
  set (w2 := mkWorld _ _ _). assert (terminal_last key (log w2)) as Hlast2.
  { apply terminal_last_snoc; [by rewrite Hlog1|]. intros runID t from ans [= <- <- <- <-] Hterminal stored Hstored.
    assert (view stored = view loaded) as Hsame by (rewrite <- Hview; apply Hstep1; by rewrite Hkey1).
    destruct Hsend as [Hdrained|(Hstep & Hkey & Hordinary)].
    - destruct (Hdrained _ Hloaded) as [Hnone Hevents]. rewrite Hlog1. split; [by eapply view_no_ready|].
      destruct Hevents as (earlier & start & Hentries & Hevents). exists earlier, start. split; [done|].
      destruct Hevents as [[Hbegun Hnil]|]; [left|by right]. split; [done|]. intros Hq. eapply view_no_events; [done|by apply Hnil].
    - exfalso. pose proof (f_equal (fun v => v.1.1.2) Hview) as Hheads. cbn [fst snd view] in Hheads. rewrite Hmarked in Hheads.
      destruct (PendingTransitions loaded) as [|t rest'] eqn:Hl; [done|]. injection Hheads as _ Hstate _.
      destruct (in_step_head (disk_of w) journal loaded t rest') as (t' & rest'' & Heq & Hst); [done|congruence|done|].
      rewrite Hfirst in Heq. injection Heq as <- <-. specialize (Hordinary _ _ eq_refl). congruence. }
  assert (unavailable = true -> refused (log w2)) as Hrefused2 by (intros Hu; apply refused_app; rewrite Hlog1; by apply Hrefused).
  destruct (reload _ _ _) as [w3 [current|]] eqn:Hreload; pose proof (store_op_extends _ _ _ _ Hreload) as Hext3;
    [|intros [= <- <-]; split; [by eapply terminal_last_extends|done]].
  apply (settled_op _ _ _ _ _ (load_settles key)) in Hreload as [Hstep3 Hkey3].
  destruct (negb _); [intros [= <- <-]; split; [by eapply terminal_last_extends|done]|]. intros Hrun.
  apply settle_top in Hrun as [Hext4 Hgoes]; [split; [do 2 (eapply terminal_last_extends; [eassumption|]); done|done]|done..| |].
  - intros Hu. eapply extends_refused; [exact Hext3|by apply Hrefused2].
  - intros err Herr Hun. eapply extends_refused; [exact Hext3|]. eexists _, _, err. split; [|exact Hun].
    apply in_or_app. right. left. by rewrite Hanswered, Herr.
Qed.

Lemma flush_transition_top fuel key journal next rest unavailable w w' p :
  journal.(PendingTransitions) = next :: rest -> at_top key w journal unavailable -> terminal_last key w.(log) ->
  flushTransition moments restarting fuel key journal next unavailable w = (w', p) -> terminal_last key w'.(log) /\ goes_top key w' p.
Proof.
  intros Hpending Htop Hlast. unfold flushTransition.
  assert (forall w1 p1, (if isTerminalTransition (StateTransitionRequest.State next) then beforeTerminal moments restarting journal unavailable w
            else beforeOrdinary moments restarting journal unavailable w) = (w1, p1) ->
          extends w w1 /\ goes_top key w1 p1 /\
          forall j, p1 = Proceed j false -> forall t r, j.(PendingTransitions) = t :: r ->
            isTerminalTransition t.(StateTransitionRequest.State) = true -> j.(PendingEvents) = []) as Hbefore.
  { intros w1 p1. destruct (isTerminalTransition _) eqn:Hterminal; intros Hrun.
    - apply (before_terminal_top key) in Hrun as (? & ? & Hevents); [|done]. split_and!; [done..|]. intros j Hp t r _ _. by eapply Hevents.
    - apply (before_ordinary_top key) in Hrun as (? & ? & Hsame); [|done]. split_and!; [done..|]. intros j Hp t r Hj Ht.
      destruct (Hsame _ _ Hp) as [-> _]. rewrite Hpending in Hj. injection Hj as -> _. congruence. }
  destruct (if isTerminalTransition _ then _ else _) as [w1 p1] eqn:Hrun1. destruct (Hbefore _ _ eq_refl) as (Hext1 & Hgoes1 & Hevents).
  assert (terminal_last key (log w1)) as Hlast1 by (by eapply terminal_last_extends).
  destruct p1 as [j1 u1|j1 u1|result]; [|by intros [= <- <-]..].
  destruct (drainEvidence _ _ _ _ _ _) as [w2 p2] eqn:Hrun2.
  apply drain_top in Hrun2 as [Hext2 Hp2]; [|done|intros ->; by apply Hevents].
  assert (terminal_last key (log w2)) as Hlast2 by (by eapply terminal_last_extends).
  destruct p2 as [j2 u2|j2 u2|result]; [|by intros [= <- <-]..]. by apply send_top.
Qed.

Lemma flush_transitions_top fuel key journal unavailable w w' r :
  at_top key w journal unavailable -> terminal_last key w.(log) ->
  flushTransitions moments restarting fuel key journal unavailable w = (w', r) -> terminal_last key w'.(log).
Proof.
  revert journal unavailable w. induction fuel as [|fuel IH]; intros journal unavailable w Htop Hlast; cbn [flushTransitions];
    (destruct (PendingTransitions journal) as [|next rest] eqn:Hpending; [by intros [= <- <-]|]); [by intros [= <- <-]|].
  destruct (flushTransition _ _ _ _ _ _ _ _) as [w1 p] eqn:Hrun.
  apply (flush_transition_top _ key _ _ _ _ _ _ _ Hpending Htop Hlast) in Hrun as [Hlast1 Hgoes].
  destruct p as [j u|j u|result]; [by apply IH..|by intros [= <- <-]].
Qed.

(** ** The whole flush *)

Lemma finish_extends fuel key journal w : extends w (finishRun moments fuel key journal w).1.
Proof.
  unfold finishRun. pose proof (flush_goals_extends fuel journal w) as Hext.
  destruct (flushGoals _ _ _ _) as [w1 [j1 [e|]]]; cbn [fst] in Hext; [done|]. destruct (_ && _); [|done]. destruct (_ || _).
  - cbn [fst]. etrans; [exact Hext|by apply with_log_extends].
  - destruct (store_op _ _ _) as [w2 [upd|]] eqn:Hop; cbn [fst]; (etrans; [exact Hext|by eapply store_op_extends]).
Qed.

Lemma flush_rest_extends fuel key journal w : extends w (flushRest moments restarting fuel key journal w).1.
Proof.
  unfold flushRest. destruct (deliverAppliedInputAcknowledgement _ _ _ _) as [w1 [[j1 delivered] [e|]]] eqn:Hack;
    apply deliver_applied_handed in Hack as [Hext1 _]; [destruct delivered; done|].
  assert (extends w1 (if delivered then deliverPendingEvents moments restarting j1 w1 else (w1, (j1, None))).1) as Hext2
    by (destruct delivered; [apply deliver_pending_extends|done]).
  destruct (if delivered then _ else _) as [w2 [j2 [e|]]]; cbn [fst] in Hext2; [by etrans|].
  pose proof (deliver_acks_extends fuel j2 w2) as Hext3.
  destruct (deliverAcknowledgements _ _ _ _ _) as [w3 [j3 [e|]]]; cbn [fst] in *; do 2 (etrans; [eassumption|]); [done|].
  etrans; [exact Hext3|apply finish_extends].
Qed.

Lemma flush_events_top key journal w w' p :
  in_step (disk_of w) journal -> Key journal = key -> flushEvents moments restarting journal w = (w', p) ->
  extends w w' /\ goes_top key w' p.
Proof.
  intros Hstep Hkey. unfold flushEvents. pose proof (deliver_before_extends journal w) as Hext.
  destruct (deliverEventsBeforeAppliedInputAcknowledgement _ _ _ _) as [w1 [j1 [e|]]] eqn:Hevents; cbn [fst] in Hext;
    apply deliver_before_handed in Hevents as [Hkey1 Hevents]; cbn [fst snd] in *.
  - destruct (isTerminalPending j1 && terminalPredecessorUnavailable e) eqn:Hun; [|by intros [= <- <-]].
    apply andb_true_iff in Hun as [_ Hun]. intros Hrun.
    apply (retired_top key) in Hrun as [Hext1 Hgoes]; [|congruence|by apply Hevents|by left]. split; [by etrans|done].
  - intros [= <- <-]. split; [done|]. apply in_step_top; [by apply Hevents|congruence|done].
Qed.

Lemma flush_live_last fuel key journal w :
  in_step (disk_of w) journal -> Key journal = key -> terminal_last key w.(log) ->
  terminal_last key (flushLive moments restarting fuel key journal w).1.(log).
Proof.
  intros Hstep Hkey Hlast. unfold flushLive. pose proof (flush_goals_extends fuel journal w) as Hext.
  destruct (flushGoals _ _ _ _) as [w1 [j1 [e|]]] eqn:Hgoals; cbn [fst] in Hext; [by eapply terminal_last_extends|].
  apply flush_goals_ok in Hgoals as (_ & _ & _ & Hstep1). destruct (Hstep1 Hstep) as [Hin1 Hkey1]. clear Hstep1.
  destruct (flushEvents _ _ _ _) as [w2 p] eqn:Hevents. apply (flush_events_top key) in Hevents as [Hext2 Hgoes]; [|done|congruence].
  assert (terminal_last key (log w2)) as Hlast2 by (do 2 (eapply terminal_last_extends; [eassumption|]); done).
  assert (forall j u, at_top key w2 j u -> terminal_last key
    (match flushTransitions moments restarting fuel key j u w2 with
     | (w, inl result) => (w, result)
     | (w, inr journal) => flushRest moments restarting fuel key journal w end).1.(log)) as Hloop.
  { intros j u Htop. destruct (flushTransitions _ _ _ _ _ _ _) as [w3 [result|j3]] eqn:Hrun; apply flush_transitions_top in Hrun; try done.
    eapply terminal_last_extends; [apply flush_rest_extends|done]. }
  destruct p as [j u|j u|result]; [by apply Hloop..|done].
Qed.

Lemma flush_stale_extends fuel journal w : extends w (flushStale moments restarting fuel journal w).1.
Proof.
  unfold flushStale. pose proof (flush_goals_extends fuel journal w) as Hext.
  destruct (flushGoals _ _ _ _) as [w1 [j1 [e|]]]; cbn [fst] in Hext; [done|]. pose proof (deliver_acks_extends fuel j1 w1) as Hext1.
  destruct (deliverAcknowledgements _ _ _ _ _) as [w2 [j2 [e|]]]; cbn [fst] in *; by etrans.
Qed.

Lemma flush_cleanup_extends fuel journal w : extends w (flushCleanup moments fuel journal w).1.
Proof.
  unfold flushCleanup. pose proof (flush_goals_extends fuel journal w) as Hext. by destruct (flushGoals _ _ _ _) as [w1 [j1 [e|]]].
Qed.

Lemma recover_in_step journal w w' r :
  recoverUsage moments journal w = (w', r) -> in_step (disk_of w) journal ->
  extends w w' /\ forall upd, r = inr upd -> in_step (disk_of w') upd /\ Key upd = Key journal.
Proof.
  unfold recoverUsage. destruct (negb _); [intros [= <- <-]; split; [done|by intros upd [= <-]]|].
  destruct (recover _ _ _) as [state' recovered]. set (w1 := mkWorld _ _ _).
  assert (extends w w1) as Hext by (by apply same_log_extends). clearbody w1.
  destruct recovered as [[failedJournal e]|[[queued usage]|]]; [by intros [= <- <-]| |by intros [= <- <-]].
  destruct (store_op _ _ _) as [w2 [upd|e]] eqn:Hop; intros [= <- <-] _; (split; [etrans; [exact Hext|by eapply store_op_extends]|]); [|done].
  intros upd' [= <-]. by apply (settled_op _ _ _ _ _ (clear_usage_settles _ _)) in Hop.
Qed.

Lemma flush_run_last fuel journal w :
  in_step (disk_of w) journal -> terminal_last (Key journal) w.(log) ->
  terminal_last (Key journal) (flushRun moments restarting fuel journal w).1.(log).
Proof.
  revert journal w. induction fuel as [|fuel IH]; intros journal w Hstep Hlast; cbn [flushRun]; [done|].
  destruct (recoverUsage _ _ _) as [w0 [result|j0]] eqn:Hrecover; apply recover_in_step in Hrecover as [Hext0 Hin0]; try exact Hstep;
    apply (terminal_last_extends _ _ _ Hext0) in Hlast; [done|]. destruct (Hin0 _ eq_refl) as [Hstep0 Hkey0]. clear Hin0.
  destruct (_ =s "stale"); [eapply terminal_last_extends; [apply flush_stale_extends|done]|].
  destruct (_ =s "cleanup_pending"); [eapply terminal_last_extends; [apply flush_cleanup_extends|done]|].
  destruct (starting _); [done|]. destruct (conclusive j0); [|by apply flush_live_last].
  destruct (store_op _ _ _) as [w1 [upd|]] eqn:Hop; pose proof (store_op_extends _ _ _ _ Hop) as Hext;
    apply (terminal_last_extends _ _ _ Hext) in Hlast; [|done].
  apply (settled_op _ _ _ _ _ (resolve_cleanup_settles _ _)) in Hop as [Hin Hkey].
  destruct (negb _); [rewrite <- Hkey; apply IH; [done|by rewrite Hkey]|]. apply flush_live_last; [done..|].
  eapply terminal_last_extends; [by apply (with_log_extends (SlotReleased (Key journal)))|done].
Qed.
End World.
End Flushing.

(** ** Claims *)


(** ** A flush that does not end *)

(** A conclusive verdict is recorded and no process is known, but the cgroup,
    handoff or scans of the run are still held. *)
Definition held_after_verdict (journal : RunJournal.t) : bool :=
  conclusive journal && negb (HasProcessDetails journal) && HasPendingContainment journal &&
  negb journal.(NativeUsageRecoveryRequired).

Lemma conclusive_state journal : conclusive journal = true -> journal.(LocalState) = "terminal_pending" /\ journal.(TerminalVerdict) <> "".
Proof.
  unfold conclusive, isTerminalPending. rewrite !andb_true_iff, !negb_true_iff. intros [[Hstate%String.eqb_eq Hverdict%String.eqb_neq] _]. done.
Qed.

Lemma resolve_held verdict at_ loaded upd :
  resolveTerminalForCleanup verdict at_ loaded = Ok upd -> held_after_verdict loaded = true -> held_after_verdict upd = true.
Proof.
  unfold resolveTerminalForCleanup. intros Hrun Hheld. pose proof Hheld as Hparts. unfold held_after_verdict in Hparts.
  rewrite !andb_true_iff in Hparts. destruct Hparts as [[[Hconclusive Hprocess] Hcontainment] Hrecovery].
  destruct (conclusive_state _ Hconclusive) as [Hstate Hverdict]. rewrite Hstate in Hrun.
  change ("terminal_pending" =s "cleanup_pending") with false in Hrun. cbv iota in Hrun. inv_ok.
  destruct (TerminalVerdict loaded =s "") eqn:Hempty; [by apply String.eqb_eq in Hempty|]. cbn [fst settleUnresolvedProviderActions] in Hrun.
  match type of Hrun with (if ownershipRemains ?j then _ else _) = _ =>
    assert (ownershipRemains j = true) as Howned by
      (unfold ownershipRemains; apply orb_true_iff; right; destruct ((_ <>s "completed") && _); exact Hcontainment) end.
  rewrite Howned in Hrun. subst upd. clear Howned. destruct ((_ <>s "completed") && _); exact Hheld.
Qed.

Lemma held_reread journal : held_after_verdict (reread_fields journal) = held_after_verdict journal.
Proof. done. Qed.

Section Recursion.
Context `{AdmissionParser} `{JournalEncoder} (moments : nat -> moment) (restarting : bool).

(** C17: a flush of a run with a conclusive verdict whose containment is still
    held calls itself without end: whatever the fuel, it is still running, or
    a file operation failed. It settles nothing and never returns otherwise. *)
Theorem held_run_recurses_forever fuel journal w :
  (forall n, (moments n).(starting) = false) -> held_after_verdict journal = true ->
  (forall stored, on_disk (disk_of w) (Key journal) stored -> held_after_verdict stored = true) ->
  exists last, (flushRun moments restarting fuel journal w).2 = Failed last Running \/
    exists e, (flushRun moments restarting fuel journal w).2 = Failed last (StoreError e).
Proof.
  intros Hstarting. revert journal w. induction fuel as [|fuel IH]; intros journal w Hheld Hdisk; cbn [flushRun]; [eauto|].
  pose proof Hheld as Hparts. unfold held_after_verdict in Hparts. rewrite !andb_true_iff in Hparts.
  destruct Hparts as [[[Hconclusive Hprocess] _] Hrecovery]. destruct (conclusive_state _ Hconclusive) as [Hstate _].
  unfold recoverUsage. rewrite Hrecovery, Hstate, Hstarting, Hconclusive.
  change ("terminal_pending" =s "stale") with false. change ("terminal_pending" =s "cleanup_pending") with false. cbv iota.
  destruct (store_op _ _ _) as [w1 [upd|e]] eqn:Hop; [|eauto]. apply store_op_inv in Hop as [Hrun _].
  unfold ResolveTerminalForCleanup in Hrun. destruct (_ || _); [done|].
  apply mutate_result in Hrun as [[_ [e ?]]|(loaded & upd' & Hloaded & _ & Hres & _ & Hstore & [[= <-]|[e ?]])]; [done| |done].
  pose proof (resolve_cleanup_key _ _ _ _ Hres) as Hkey. apply resolve_held in Hres as Hupd; [|by apply Hdisk].
  assert (negb (HasProcessDetails upd) = true) as ->
    by (unfold held_after_verdict in Hupd; rewrite !andb_true_iff in Hupd; by destruct Hupd as [[[_ ?] _] _]).
  apply IH; [done|]. intros stored. rewrite Hstore. intros [-> _]%written_on_disk; [|done]. by rewrite held_reread.
Qed.
End Recursion.

(** ** The retry table across a pass *)

Section Pass.
Context `{AdmissionParser} `{JournalEncoder} `{FingerprintEncoder}.
Context (moments : nat -> moment) (rounds : nat -> round) (flushFuel : nat).

(** Some history of operations, none of them under way, leaves this table. *)
Definition reached (retries : gmap RunKey.t outboxRetry.t) : Prop :=
  exists failures, reachable (mkRetryState retries [] failures).

Lemma due_reachable retries now journal : reached retries -> reached (outboxDue retries now journal).1.
Proof. intros [failures Hreach]. exists failures. eapply rtc_r; [exact Hreach|]. apply (step_due (mkRetryState retries [] failures)). Qed.

Lemma clear_reachable retries key : reached retries -> reached (clearOutboxRetry retries key).
Proof. intros [failures Hreach]. exists failures. eapply rtc_r; [exact Hreach|]. apply (step_clear (mkRetryState retries [] failures)). Qed.

Lemma record_reachable cancelled cancelled' retries journal err now :
  reached retries -> reached (recordOutboxFailure cancelled cancelled' retries journal err now).
Proof.
  unfold recordOutboxFailure. destruct cancelled; [done|]. intros [failures Hreach].
  pose proof (step_note (mkRetryState retries [] failures) journal err) as Hnote. cbn [table failing_now recorded] in Hnote.
  destruct (noteOutboxFailure retries journal) as [noted fallback]. cbn [fst snd] in Hnote.
  exists (mkRecorded journal err fallback cancelled' :: failures).
  eapply rtc_r; [eapply rtc_r; [exact Hreach|exact Hnote]|].
  by apply (step_settle (mkRetryState noted [mkFailing journal err fallback] failures) [] [] journal err fallback cancelled' now).
Qed.

(** Whatever a pass over a run meets, the table it leaves is one of those
    RetryProps.v is about. *)
Theorem pass_keeps_retries_reachable fuel n journal p :
  reached p.(pass_retries) -> reached (flushJournal moments rounds flushFuel fuel n journal p).(pass_retries).
Proof.
  revert n journal p. induction fuel as [|fuel IH]; intros n journal p Hreach; cbn [flushJournal]; [done|].
  destruct (cancelled _); [done|]. destruct (_ && _); [done|]. cbv zeta.
  destruct (if awaitsDelivery journal then _ else _) as [retries due] eqn:Hdue.
  assert (reached retries) as Hretries.
  { pose proof (due_reachable (pass_retries p) (round_now (rounds n)) journal Hreach) as Hr.
    destruct (awaitsDelivery journal); [by rewrite Hdue in Hr|by injection Hdue as <- _]. }
  clear Hdue. destruct (negb due); [done|]. destruct (flushRun _ _ _ _ _) as [w result]. destruct (negb _); [done|].
  destruct (LoadJournal _ _ _) as [current|e].
  - destruct (flush_error _ _) as [[[failedJournal changed] e]|]; [|by apply clear_reachable].
    destruct (_ || _); [apply IH; by apply clear_reachable|]. cbn [pass_retries].
    destruct (awaitsDelivery current); [by apply record_reachable|done].
  - destruct e; try (by apply clear_reachable); cbn [pass_retries]; destruct (flush_error _ _) as [[[? ?] ?]|]; try done;
      destruct (awaitsDelivery journal); try done; by apply record_reachable.
Qed.
End Pass.
