(* ===== verification/TerminalQueueProps.v ===== *)
(** * TerminalQueueProps: the end that is recorded is the one that was meant

    Theorems about TerminalQueue.v, for every sequence of file faults and
    everything the rest of the daemon does between two attempts. *)

From S2P Require Import Prelude Sha256 Json Authority Protocol Journal Validation Store Session SessionOps.
From S2P Require Import Cgroup Containment Clone Outbox Delivery LateUsage SessionStore Control Flush Retry RunFlush TerminalQueue.
From S2P Require Import Lifecycle OutboxFacts Traces TerminalProps DeliveryProps SessionSteps SessionProps ControlProps FlushProps.
Import RunJournal.
Open Scope string_scope.
Open Scope Z_scope.

(** The store and the daemon agree on what the terminal of a journal is. *)
Lemma durable_is_authoritative journal : durableTerminalTransition journal = authoritativeTerminalTransition journal.
Proof. reflexivity. Qed.

(** The body of a request; its fence is the one of the journal. *)
Definition same_request (t transition : StateTransitionRequest.t) : Prop :=
  t.(StateTransitionRequest.TransitionID) = transition.(StateTransitionRequest.TransitionID) /\
  t.(StateTransitionRequest.State) = transition.(StateTransitionRequest.State) /\
  t.(StateTransitionRequest.Payload) = transition.(StateTransitionRequest.Payload).

Lemma with_fence_request transition journal t :
  sameStateTransitionRequest t (transitionWithJournalFence transition journal) = true -> same_request t transition.
Proof.
  unfold sameStateTransitionRequest, transitionWithJournalFence, same_request. rewrite !andb_true_iff, !String.eqb_eq.
  destruct (isZeroFence _); tauto.
Qed.

(** A terminal the store accepted is pending as it was given. *)
Lemma queued_as_requested transition pendingAt journal upd :
  queueTerminalTransition transition pendingAt journal = Ok upd ->
  exists t, pendingTerminal upd.(PendingTransitions) = Some t /\ same_request t transition.
Proof.
  intros Hrun. destruct (authoritativeTerminalTransition journal) as [existing|] eqn:Hauth.
  - unfold queueTerminalTransition in Hrun. inv_ok. rewrite Hauth in Hrun. inv_ok. subst upd.
    unfold authoritativeTerminalTransition in Hauth. destruct (pendingTerminal (PendingTransitions journal)) as [t|] eqn:Hpending.
    + injection Hauth as <-. exists t. split; [exact Hpending|].
      match goal with E : prepareTransition _ _ = Ok _ |- _ => apply prepareTransition_inv in E as (_ & Hid & Hstate & Hpayload & _) end.
      match goal with E : negb (some_and _ _) = false |- _ => apply negb_false_iff in E; cbn [some_and] in E;
        unfold sameStateTransition in E; rewrite !andb_true_iff, !String.eqb_eq in E; destruct E as [[[_ H1] H2] H3] end.
      split_and!; congruence.
    + assert (existing = None) as -> by (destruct (isTerminalTransitionState (TerminalState journal)); congruence). done.
  - destruct (queueTerminalTransition_enter _ _ _ _ Hauth Hrun) as (settled & prepared & Hent). exists prepared.
    split; [by eapply entered_found|]. apply entered_prepared, prepareTransition_inv in Hent as (_ & ? & ? & ? & _). done.
Qed.

Lemma reread_request transitions transition t :
  reread_payload transition.(StateTransitionRequest.Payload) = transition.(StateTransitionRequest.Payload) ->
  pendingTerminal transitions = Some t -> same_request t transition ->
  exists t', pendingTerminal (map reread_transition transitions) = Some t' /\ same_request t' transition.
Proof.
  intros Hcompact Hpending (Hid & Hstate & Hpayload). exists (reread_transition t). rewrite pendingTerminal_reread, Hpending.
  split; [done|]. split_and!; cbn; [done..|]. congruence.
Qed.

Section Queueing.
Context `{AdmissionParser} `{JournalEncoder} (attempts : nat -> queue_attempt).

(** What an outcome says about the journal on disk. *)
Definition exact_outcome (store : Store) (key : RunKey.t) (transition : StateTransitionRequest.t) (outcome : queue_outcome) : Prop :=
  match outcome with
  | Queued _ => forall journal, on_disk store key journal ->
      exists t, durableTerminalTransition journal = Some (Some t) /\ same_request t transition
  | TerminalConflict expected actual =>
      expected = transition.(StateTransitionRequest.State) /\
      exists journal, on_disk store key journal /\
        match durableTerminalTransition journal with
        | Some (Some t) => t.(StateTransitionRequest.State) = actual /\ t <> transitionWithJournalFence transition journal
        | Some None => journal.(TerminalState) = actual
        | None => False
        end
  | _ => True
  end.

Lemma same_request_refl t : sameStateTransitionRequest t t = true.
Proof.
  unfold sameStateTransitionRequest. by rewrite (proj2 (eqb_iff (eqb := sameFence) _ _) eq_refl), !String.eqb_refl.
Qed.

Lemma queued_exact fs store key transition enteredAt store' upd :
  reread_payload transition.(StateTransitionRequest.Payload) = transition.(StateTransitionRequest.Payload) ->
  QueueTerminalTransitionAt fs store key transition enteredAt = (store', Ok upd) -> forall at_, exact_outcome store' key transition (Queued at_).
Proof.
  intros Hcompact Hrun at_. unfold QueueTerminalTransitionAt in Hrun. destruct (IsZero enteredAt); [done|].
  apply mutate_result in Hrun as [[_ [e ?]]|(loaded & upd' & [_ Hkey] & _ & Hqueue & _ & -> & [[= <-]|[e ?]])]; [done| |done].
  pose proof Hqueue as (? & ? & ? & ? & ? & ? & ? & ? & ? & ? & ? & ? & Hframe)%queueTerminalTransition_frame.
  assert (Key upd = key) as Hk by (rewrite Hframe; exact Hkey). clear Hframe.
  intros journal [-> _]%written_on_disk; [|done]. apply queued_as_requested in Hqueue as (t & Hpending & Hsame).
  destruct (reread_request _ _ _ Hcompact Hpending Hsame) as (t' & Hpending' & Hsame'). exists t'. split; [|done].
  rewrite durable_is_authoritative. unfold authoritativeTerminalTransition.
  change (PendingTransitions (reread_fields upd)) with (map reread_transition (PendingTransitions upd)). by rewrite Hpending'.
Qed.

Lemma matched_exact store key transition existing :
  on_disk store key existing ->
  match terminalTransitionMatches existing transition with
  | (true, _, _) => forall at_, exact_outcome store key transition (Queued at_)
  | (false, true, actual) => exact_outcome store key transition (TerminalConflict transition.(StateTransitionRequest.State) actual)
  | (false, false, _) => True
  end.
Proof.
  intros Hdisk. unfold terminalTransitionMatches. destruct (durableTerminalTransition existing) as [[t|]|] eqn:Hdurable; [|split; [done|]|done].
  - destruct (sameStateTransitionRequest _ _) eqn:Hsame.
    + intros at_ journal Hj. rewrite (on_disk_same _ _ _ _ Hj Hdisk). exists t. split; [done|by eapply with_fence_request].
    + split; [done|]. exists existing. split; [done|]. rewrite Hdurable. split; [done|]. intros ->. by rewrite same_request_refl in Hsame.
  - exists existing. split; [done|]. by rewrite Hdurable.
Qed.

(** C37: recording the end of a run is exact. Whatever fails at each attempt,
    a write that may have landed included, and whatever happens between them:
    when the loop reports success, the journal on disk has this terminal
    transition pending, with its ID, state and payload; when it reports a
    conflict, the journal on disk has a terminal that is not this transition,
    or one that was already delivered, in the state it names. *)
Theorem terminal_retry_is_exact fuel n store key transition enteredAt store' outcome :
  reread_payload transition.(StateTransitionRequest.Payload) = transition.(StateTransitionRequest.Payload) ->
  queueTerminalTransitionWithRetry attempts fuel n store key transition enteredAt = (store', outcome) ->
  exact_outcome store' key transition outcome.
Proof.
  intros Hcompact. revert n store. induction fuel as [|fuel IH]; intros n store; cbn [queueTerminalTransitionWithRetry]; [by intros [= <- <-]|].
  destruct (QueueTerminalTransitionAt _ _ _ _ _) as [store1 [journal|e]] eqn:Hqueue.
  { intros [= <- <-]. by eapply queued_exact. }
  clear Hqueue. assert (forall s, (if root_cancelled (attempts n) then (s, ContextCancelled)
      else queueTerminalTransitionWithRetry attempts fuel (S n) s key transition enteredAt) = (store', outcome) ->
    exact_outcome store' key transition outcome) as Hwait.
  { intros s. destruct (root_cancelled _); [by intros [= <- <-]|apply IH]. }
  destruct (LoadJournal _ _ _) as [existing|] eqn:Hload; [|apply Hwait].
  unfold LoadJournal in Hload. inv_ok. apply load_inv in Hload as [Hdisk _].
  pose proof (matched_exact _ _ transition _ Hdisk) as Hmatched.
  destruct (terminalTransitionMatches existing transition) as [[[] []] actual]; try (intros [= <- <-]; apply Hmatched); apply Hwait.
Qed.

(** ** With the acknowledgement of a command *)

Lemma settlement_digest_frame journal journal' transition ack :
  fence journal' = fence journal -> hasClaimGrant journal' = hasClaimGrant journal -> journal'.(RunID) = journal.(RunID) ->
  terminalSettlementDigest journal' transition ack = terminalSettlementDigest journal transition ack.
Proof.
  intros Hfence Hgrant Hrun. unfold terminalSettlementDigest, completeAcknowledgement.
  by rewrite (prepareTransition_fence journal journal'), Hfence, Hrun.
Qed.

Lemma recorded_recognised journal digest transition ack :
  terminalSettlementDigest journal transition ack = Ok digest ->
  terminalReceiptMatches (reread_fields (journal <| TerminalSettlementDigest := digest |>)) transition ack = (true, false).
Proof.
  intros Hdigest. assert (digest <> "") as Hset.
  { unfold terminalSettlementDigest in Hdigest. inv_ok. rewrite <- Hdigest. apply sha256_hex_nonempty. }
  unfold terminalReceiptMatches, TerminalSettlementMatches.
  rewrite (settlement_digest_frame journal) by reflexivity.
  change (TerminalSettlementDigest (reread_fields (journal <| TerminalSettlementDigest := digest |>))) with digest.
  by rewrite (proj2 (String.eqb_neq _ _) Hset), Hdigest, String.eqb_refl.
Qed.

(** A settlement that was accepted and read back is recognised. *)
Lemma settled_recognised transition ack pendingAt required journal upd :
  queueTerminalSettlement transition ack pendingAt required journal = Ok upd ->
  terminalReceiptMatches (reread_fields upd) transition ack = (true, false).
Proof.
  unfold queueTerminalSettlement. intros Hrun. inv_ok.
  match goal with E : terminalSettlementDigest _ _ _ = Ok _ |- _ => apply recorded_recognised in E; rewrite <- Hrun; exact E end.
Qed.

Definition recognised_outcome (store : Store) (key : RunKey.t) (transition : StateTransitionRequest.t) (ack : CommandAcknowledgement.t)
    (outcome : queue_outcome) : Prop :=
  match outcome with
  | Queued _ => forall journal, on_disk store key journal -> terminalReceiptMatches journal transition ack = (true, false)
  | TerminalConflict expected actual =>
      expected = transition.(StateTransitionRequest.State) /\
      exists journal, on_disk store key journal /\ terminalReceiptMatches journal transition ack = (false, true) /\
        journal.(TerminalState) = actual
  | _ => True
  end.

Lemma settled_outcome fs store key transition ack enteredAt store' upd :
  QueueTerminalTransitionAndAcknowledgementAt fs store key transition ack enteredAt = (store', Ok upd) ->
  forall at_, recognised_outcome store' key transition ack (Queued at_).
Proof.
  intros Hrun at_. unfold QueueTerminalTransitionAndAcknowledgementAt in Hrun. destruct (IsZero enteredAt); [done|].
  apply mutate_result in Hrun as [[_ [e ?]]|(loaded & upd' & [_ Hkey] & _ & Hqueue & _ & -> & [[= <-]|[e ?]])]; [done| |done].
  assert (Key upd = key) as Hk.
  { pose proof Hqueue as (queued & ? & ? & ? & Hq & _ & _ & _ & Hframe)%queueTerminalSettlement_inv.
    apply queueTerminalTransition_frame in Hq as (? & ? & ? & ? & ? & ? & ? & ? & ? & ? & ? & ? & ->). rewrite Hframe. exact Hkey. }
  intros journal [-> _]%written_on_disk; [|done]. by eapply settled_recognised.
Qed.

(** The end of a run with the acknowledgement of its command: on success the
    journal on disk recognises exactly this settlement, so that a replay is
    answered and not recorded again; on a conflict it refuses it. *)
Theorem settlement_retry_is_recognised fuel n store key transition ack enteredAt store' outcome :
  queueSettlementWithRetry attempts fuel n store key transition ack enteredAt = (store', outcome) ->
  recognised_outcome store' key transition ack outcome.
Proof.
  revert n store. induction fuel as [|fuel IH]; intros n store; cbn [queueSettlementWithRetry]; [by intros [= <- <-]|].
  destruct (QueueTerminalTransitionAndAcknowledgementAt _ _ _ _ _ _) as [store1 [journal|e]] eqn:Hqueue.
  { intros [= <- <-]. by eapply settled_outcome. }
  clear Hqueue. assert ((if commandAcknowledgementRetired (retired_disk (attempts n)) store1 key then (store1, AcknowledgementRetired)
      else if root_cancelled (attempts n) then (others (attempts n) store1, ContextCancelled)
      else queueSettlementWithRetry attempts fuel (S n) (others (attempts n) store1) key transition ack enteredAt) = (store', outcome) ->
    recognised_outcome store' key transition ack outcome) as Hwait.
  { destruct (commandAcknowledgementRetired _ _ _); [by intros [= <- <-]|]. destruct (root_cancelled _); [by intros [= <- <-]|apply IH]. }
  destruct (LoadJournal _ _ _) as [existing|] eqn:Hload; [|apply Hwait].
  unfold LoadJournal in Hload. inv_ok. apply load_inv in Hload as [Hdisk _].
  destruct (terminalReceiptMatches existing transition ack) as [[] conflict] eqn:Hmatches.
  - intros [= <- <-] journal Hj. rewrite (on_disk_same _ _ _ _ Hj Hdisk), Hmatches. f_equal.
    unfold terminalReceiptMatches in Hmatches. repeat case_match; simplify_eq; try done; by destruct (some_and _ _).
  - destruct conflict; [|apply Hwait]. intros [= <- <-]. split; [done|]. by exists existing.
Qed.
End Queueing.
