(* ===== verification/Witnesses.v ===== *)
(** * Witnesses: the theorems at a concrete run

    Each theorem with hypotheses, instantiated on the run of Samples.v, so
    that its hypotheses are known to be satisfiable together. *)

From S2P Require Import Prelude Sha256 Json Authority Protocol Journal Validation Store Outbox ProviderAction.
From S2P Require Import Session Delivery LateUsage Cgroup Containment Clone Native.
From S2P Require Import Lifecycle OutboxFacts Traces StoreProps TerminalProps Samples.
From S2P Require Import EventProps CommandProps RunProps DeliveryProps LateUsageProps AuthorityProps JsonProps CompactProps RereadProps.
From S2P Require Import Refinement ContainmentProps ScanProps AdmissionProps GateProps.
From stdpp Require Import relations.
Import RunJournal Samples.
Open Scope string_scope.
Open Scope Z_scope.

#[local] Existing Instance Samples.parser.
#[local] Existing Instance Samples.encoder.
#[local] Existing Instance Samples.platform.

Ltac by_compute := vm_compute; reflexivity.

(** A claim whose input is written with white space. *)
Definition spaced_claim : ClaimIntent.t :=
  ClaimIntent.mk key "runtime-key" "runtime-1" 1 "claim-1" "" (Work.mk "goal" "profile" "workspace" "[ 1, 2 ]" ∅) "" "binding-1".
Definition spaced_store : Store := (SaveClaimIntent io_ok opened spaced_claim).1.

#[local] Instance parser_layout : LayoutFree.
Proof. intros s admission _ E. exact E. Qed.

Definition spaced_stored : RunJournal.t := reread_fields (claimJournal spaced_claim).

Example reachable_stores_well_formed_witness :
  spaced_stored.(RunJournal.Work).(Work.Input) = "[1,2]" /\
  journalPath key = journalPath (Key spaced_stored) /\ valid_journal spaced_stored /\
  forall fs, fs.(readable) = true -> loadJournalLocked fs spaced_store (Key spaced_stored) = Ok spaced_stored.
Proof.
  split; [by_compute|]. refine (proj2 (reachable_stores_well_formed spaced_store _) (journalPath key) spaced_stored _).
  - apply rtc_once. exact (step_claim opened io_ok spaced_claim).
  - by_compute.
Defined.

Example journalPath_injective_witness :
  in_range_key key = true /\
  (key = key \/ sha256_collision ("run-1" ++ nul ++ FormatInt 1) ("run-1" ++ nul ++ FormatInt 1)).
Proof. split; [reflexivity|]. apply (journalPath_injective key key); reflexivity. Defined.

Example requests_are_isolated_witness :
  journalPath (RunKey.mk "run-2" 1) <> journalPath key /\
  (execute io_ok (store_of running) key ReqRetainWorkspace).(runs) !! journalPath (RunKey.mk "run-2" 1) =
    (store_of running).(runs) !! journalPath (RunKey.mk "run-2" 1).
Proof.
  assert (journalPath (RunKey.mk "run-2" 1) <> journalPath key) as Hne by (vm_compute; discriminate).
  split; [exact Hne|]. apply (requests_are_isolated _ _ _ _ _ Hne).
Defined.

Example claim_never_overwrites_witness :
  (SaveClaimIntent io_ok (store_of running) claim).1 = store_of running /\
  is_ok (SaveClaimIntent io_ok (store_of running) claim).2 = true.
Proof.
  split; [|by_compute].
  pose proof (claim_never_overwrites io_ok (store_of running) claim (Decodes running)) as Hw.
  cbv zeta in Hw. destruct Hw as [Hs _]; [by_compute|exact Hs].
Defined.

Example closed_store_serves_nothing_witness :
  execute io_ok (Close (store_of running)) key ReqRetainWorkspace = Close (store_of running).
Proof.
  refine (proj1 (closed_store_serves_nothing io_ok (Close (store_of running)) key ReqRetainWorkspace running Ok _)).
  reflexivity.
Defined.

Definition end_trace : list served :=
  [(io_ok, key, ReqSetLocalState "running"); (mkIO true WriteFailed, key, ReqEnterCleanupPending);
   (io_ok, key, ReqResolveTerminal "accepted" 70)].

Example terminal_outcome_is_final_witness :
  let after := stored (run (store_of ended) end_trace) key in
  after.(TerminalVerdict) = "accepted" /\ terminal after /\ same_outcome ended after.
Proof.
  split; [by_compute|].
  apply (terminal_outcome_is_final (store_of ended) end_trace key ended); [|by_compute|].
  - split; by_compute.
  - split; by_compute.
Defined.

Example terminal_transition_settles_witness :
  queueTerminalTransition (failed "{}") 50 running = Ok ended /\ controlsSettled ended /\ answered running ended.
Proof.
  assert (queueTerminalTransition (failed "{}") 50 running = Ok ended) as Hrun by by_compute.
  split; [exact Hrun|].
  destruct (terminal_transition_settles (failed "{}") 50 running ended) as (_ & _ & _ & _ & _ & ? & _ & ?);
    [by_compute|by_compute|exact Hrun|split; assumption].
Defined.

Example terminal_replay_after_reload_witness :
  queueTerminalTransition (failed "{}") 99 (reread_fields ended) = Ok (reread_fields ended).
Proof. apply (terminal_replay_after_reload (failed "{}") 50 99 running ended); by_compute. Defined.

(** ** Events *)

Definition event_trace : list served :=
  [(io_ok, key, ReqQueueNextEvent (RunEvent.mk "event-2" 0 "agent_event" 6 "{}"));
   (mkIO true WriteFailed, key, ReqQueueNextEvent (RunEvent.mk "event-3" 0 "agent_event" 7 "{}"));
   (io_ok, key, ReqMarkEventsDelivered ["event-1"])].

Example event_numbers_never_reused_witness :
  let after := stored (run (store_of running) event_trace) key in
  map event_id after.(PendingEvents) = [event_id (RunEvent.mk "event-2" 2 "agent_event" 6 "{}")] /\
  running.(LastEventSequence) <= after.(LastEventSequence).
Proof.
  split; [by_compute|].
  refine (proj1 (event_numbers_never_reused (store_of running) event_trace key running _ _ _ _)).
  - unfold in_int64; simpl; lia.
  - split; by_compute.
  - split; by_compute.
Defined.

Definition exhausted : RunJournal.t := claimed <| LocalState := "running" |> <| LastEventSequence := maxInt64 |>.

Example exhausted_sequence_fails_closed_witness :
  (QueueNextEvent io_ok (store_of exhausted) key event).1 = store_of exhausted.
Proof.
  refine (proj1 (exhausted_sequence_fails_closed io_ok (store_of exhausted) key exhausted event _ _)).
  - split; by_compute.
  - reflexivity.
Defined.

Definition output : RunEvent.t := RunEvent.mk "event-2" 0 "output" 6 "123456".

Definition truncated : RunJournal.t :=
  running <| DroppedOutputChunks := 1 |> <| DroppedOutputBytes := 6 |>.

Example output_stays_within_budget_witness :
  queueOutputEvent output 5 running = Ok (truncated, true) /\ truncated.(PendingEvents) = running.(PendingEvents).
Proof.
  assert (queueOutputEvent output 5 running = Ok (truncated, true)) as Hrun by by_compute.
  split; [exact Hrun|].
  destruct (output_stays_within_budget output 5 running truncated true ltac:(lia) Hrun) as (_ & Hsame & _). exact Hsame.
Defined.

Definition marked : RunJournal.t :=
  match appendOutputTruncatedMarker 7 (Some "event-2") truncated with Ok (journal, _) => journal | Err _ => truncated end.

Example truncation_marker_reports_drops_witness :
  marked.(DroppedOutputChunks) = 0 /\ length marked.(PendingEvents) = 2%nat.
Proof.
  destruct (truncation_marker_reports_drops 7 (Some "event-2") truncated marked true) as (_ & id & _ & _ & Hc & _);
    [by_compute|]. split; [exact Hc|by_compute].
Defined.

(** ** Commands and provider actions *)

Definition settled : list served :=
  [(io_ok, key, ReqRecoverProviderActions "daemon_restart"); (io_ok, key, ReqRecordNativeUsageObservation
     (NativeUsageObservation.mk 1 10 20 0 0 30 9))].

Example provider_action_outcome_is_final_witness :
  exists intent', In intent' (stored (run (store_of running) settled) key).(ProviderActionIntents) /\
    action_evolves action intent'.
Proof.
  apply (provider_action_outcome_is_final (store_of running) settled key running); [split; by_compute..|left; reflexivity].
Defined.

Definition ready : RunJournal.t := claimed <| LocalState := "running" |>.
Definition dispatched : RunJournal.t := ready <| ProviderActionIntents := [action] |>.
Definition action2 : ProviderActionIntent.t :=
  ProviderActionIntent.mk "action-2" "key-2" digest "resource-1" "change.upsert" "" "" "".

Example provider_action_dispatched_once_witness :
  "key-2" <> "key-1" /\ "action-2" <> "action-1".
Proof.
  refine (provider_action_dispatched_once (store_of (reread_fields dispatched)) settled key ready dispatched action
            (stored (run (store_of (reread_fields dispatched)) settled) key) action2
            (match prepareProviderAction action2 (stored (run (store_of (reread_fields dispatched)) settled) key) with
             | Ok (journal, _) => journal | Err _ => ready end) _ _ _ _);
    [by_compute|split; by_compute..|by_compute].
Defined.

Definition commanded : RunJournal.t := ready <| ControlCommandIntents := [control] |>.

Example control_command_accepted_once_witness :
  prepareControlCommand control (stored (run (store_of (reread_fields commanded)) settled) key) =
    Ok (stored (run (store_of (reread_fields commanded)) settled) key, false).
Proof.
  assert (exists later' created, prepareControlCommand control
            (stored (run (store_of (reread_fields commanded)) settled) key) = Ok (later', created)) as (later' & c & Hrun)
    by (eexists _, _; by_compute).
  rewrite Hrun.
  destruct (control_command_accepted_once (store_of (reread_fields commanded)) settled key ready commanded control
              (stored (run (store_of (reread_fields commanded)) settled) key) control later' c) as [Hc Hl]; [by_compute|split; by_compute..|reflexivity|exact Hrun|].
  rewrite Hc, Hl. reflexivity.
Defined.

Example control_outcome_is_final_witness :
  exists intent', In intent' (stored (run (store_of running) settled) key).(ControlCommandIntents) /\
    control_evolves control intent'.
Proof.
  apply (control_outcome_is_final (store_of running) settled key running); [split; by_compute..| |left; reflexivity].
  vm_compute. intros Hend; discriminate Hend.
Defined.

(** ** The run as a whole *)

Example run_identity_is_fixed_witness :
  identity (stored (run (store_of running) settled) key) = identity running.
Proof. apply (run_identity_is_fixed (store_of running) settled key); split; by_compute. Defined.

Definition observed : RunJournal.t :=
  running <| NativeUsageObservation := Some (NativeUsageObservation.mk 1 5 5 0 0 10 4) |>.

Example native_usage_is_monotone_witness :
  exists next, (stored (run (store_of observed) settled) key).(NativeUsageObservation) = Some next /\
    NativeUsageObservation.Covers next (NativeUsageObservation.mk 1 5 5 0 0 10 4) = true.
Proof.
  apply (native_usage_is_monotone (store_of observed) settled key observed); [split; by_compute..|reflexivity].
Defined.

Example terminal_intent_matches_exactly_witness :
  TerminalIntentMatches ended "failed" " { } " = (true, true).
Proof.
  refine (proj1 (terminal_intent_matches_exactly ended "failed" "{}" "failed" " { } " _ _ _) _);
    [by_compute..|split; by_compute].
Defined.

Definition sent : StateTransitionRequest.t :=
  StateTransitionRequest.mk (fence running) "transition-wait" "waiting_for_input" "{}".
Definition interrupted : RunJournal.t :=
  running <| PendingTransitions := [sent] |> <| AttemptedTransitionIDs := ["transition-wait"] |>.
Definition asked : RunEvent.t := RunEvent.mk "event-2" 0 "waiting_for_input" 6 "{}".
Definition again : StateTransitionRequest.t :=
  StateTransitionRequest.mk Fence.zero "transition-wait-2" "waiting_for_input" "12".

Example waiting_keeps_attempted_transitions_witness :
  exists journal', queueWaitingForInput asked again interrupted = Ok journal' /\ In sent journal'.(PendingTransitions).
Proof.
  eexists; split; [by_compute|].
  refine (proj1 (waiting_keeps_attempted_transitions asked again interrupted _ sent _ _ _));
    [by_compute|left; reflexivity..].
Defined.

Example lease_only_advances_witness :
  advanceLeaseExpiry 10 running = Ok running /\ running.(LeaseExpiresAt) = Z.max 1000 10.
Proof.
  split; [by_compute|]. refine (proj1 (lease_only_advances 10 running running _)). by_compute.
Defined.

Definition pending_ack : CommandAcknowledgement.t :=
  CommandAcknowledgement.mk Fence.zero "" "command-1" "rejected" "ack-other".

Example pending_acknowledgement_is_kept_witness :
  queueCommandAcknowledgement pending_ack ended = Ok ended.
Proof.
  assert (exists journal', queueCommandAcknowledgement pending_ack ended = Ok journal') as (journal' & Hrun)
    by (eexists; by_compute).
  rewrite Hrun. f_equal.
  refine (proj1 (pending_acknowledgement_is_kept pending_ack ended journal'
                   (CommandAcknowledgement.mk (fence running) "run-1" "command-1" "rejected" "ack-1") _ _ _ Hrun));
    [by_compute|vm_compute; left; reflexivity|reflexivity].
Defined.

Example accepted_cleanup_discards_nothing_witness :
  exists journal', enterCleanupPending accepted = Ok journal' /\ journal'.(LocalState) = "cleanup_pending".
Proof.
  eexists; split; [by_compute|].
  refine (proj1 (accepted_cleanup_discards_nothing accepted _ _ _ _)); by_compute.
Defined.

Example parse_fuel_is_enough_witness :
  parse_value 1000 0 "[1,{}]" = Some (JArray [JNumber "1"; JObject []], "") /\
  parse_value 1000 0 "[1,{}]" = parse_value (parse_fuel "[1,{}]") 0 "[1,{}]".
Proof. split; [by_compute|]. apply (parse_fuel_is_enough 1000 0 "[1,{}]"). vm_compute. lia. Defined.

(** ** Containment and clone evidence *)

Example bound_handoff_becomes_authority_witness :
  SupervisorHandoff.ToSupervisor handoff = Some (authority_of handoff) /\
  Supervisor.Validate (authority_of handoff) = true.
Proof. apply (bound_handoff_becomes_authority handoff); by_compute. Defined.

Example authority_roles_are_distinct_witness :
  exists m, (authority_of handoff).(Supervisor.Mirror) = Some m /\ m <> Supervisor.helperProcess (authority_of handoff).
Proof.
  destruct (authority_roles_are_distinct (authority_of handoff)) as (m & Hm & _); [by_compute..|].
  exists m. split; [exact Hm|]. injection Hm as <-. vm_compute. discriminate.
Defined.

Example v2_release_proves_stop_witness :
  exists receipt, release.(SupervisorHandoffReleaseProof.StopReceipt) = Some receipt /\
    receipt.(StopReceipt.ActiveProcesses) = 0.
Proof.
  destruct (v2_release_proves_stop release) as (receipt & _ & Hr & _ & Hz & _); [by_compute..|].
  exists receipt. split; assumption.
Defined.

Definition stopped_before_gate : LinuxCgroupReservation.t :=
  granted <| LinuxCgroupReservation.PreGateStopReceipt := Some pre_gate_receipt |>.

Example reservation_ends_once_witness :
  LinuxCgroupReservation.Validate stopped_before_gate = true /\
  stopped_before_gate.(LinuxCgroupReservation.Gate) = None.
Proof.
  assert (LinuxCgroupReservation.Validate stopped_before_gate = true) as Hvalid by by_compute.
  split; [exact Hvalid|].
  destruct (proj2 (reservation_ends_once stopped_before_gate Hvalid)) as (_ & Hgate & _); [discriminate|exact Hgate].
Defined.

Example promotion_ref_identifies_run_witness :
  exists ref, LinuxClonePromotionRef "run-1" 1 = Some ref /\ validLinuxClonePromotionRef ref = true.
Proof.
  eexists; split; [vm_compute; reflexivity|].
  refine (proj1 (promotion_ref_identifies_run "run-1" 1 _ _ _)); [vm_compute; discriminate|by_compute].
Defined.

Example workspace_root_and_target_witness :
  LinuxCloneIntent.LinuxCloneWorkspaceRoot clone = Some "/work" /\ validLinuxClonePath "/work" = true.
Proof.
  assert (LinuxCloneIntent.LinuxCloneWorkspaceRoot clone = Some "/work") as Hroot by by_compute.
  split; [exact Hroot|]. exact (proj1 (proj2 (workspace_root_and_target clone "/work" Hroot))).
Defined.

Example import_keeps_dedicated_state_witness : dedicated observed = dedicated running.
Proof. refine (proj1 (import_keeps_dedicated_state running observed _)). by_compute. Defined.

(** ** The refinement, containment and clones *)

Example store_refines_spec_witness :
  rtc spec_step (contents opened) (contents (SaveClaimIntent io_ok opened claim).1) /\
  contents (SaveClaimIntent io_ok opened claim).1 key <> None.
Proof. split; [apply store_refines_spec, rtc_once, step_claim|vm_compute; discriminate]. Defined.

Definition owner_of (journal : RunJournal.t) : Supervisor.t :=
  match journal.(ContainmentAuthority) with Some owner => owner | None => authority_of bound end.

(** The journal a native request makes of another one, and the step it is. *)
Definition admit_all : admission := fun _ _ _ _ _ _ _ => Ok tt.
Definition native_result (op : native) (before : RunJournal.t) : RunJournal.t :=
  match native_callback admit_all (Key before) op before with Ok after => after | Err _ => before end.

Lemma native_step op before :
  valid_journal before -> native_callback admit_all (Key before) op before = Ok (native_result op before) ->
  valid_journal (native_result op before) -> step before (reread_fields (native_result op before)).
Proof. intros. by apply (step_request _ admit_all (ReqNative op)). Qed.

Definition let_go : native := OpClearProcessDetailsV2 14 "agent" (OwnerRelease release).

Example owner_leaves_only_stopped_witness :
  (owner_of stopped).(Supervisor.StopReceipt) = Some stop_receipt /\
  owner_after stopped (owner_of stopped) (reread_fields (native_result let_go stopped)).
Proof.
  split; [by_compute|].
  refine (owner_leaves_only_stopped stopped _ (owner_of stopped) (native_step let_go _ _ _ _) _); by_compute.
Defined.

Definition natives : list native -> list served := map (fun op => (io_ok, key, ReqNative op)).

(** A launch is asked for again, and refused. *)
Definition still_gone : RunJournal.t := Eval vm_compute in stored (run (store_of gone) (natives launch)) key.

Example released_run_stays_empty_witness :
  released gone /\ containmentRemains still_gone = false.
Proof.
  assert (released gone) as Hreleased by (left; vm_compute; discriminate). split; [exact Hreleased|].
  refine (proj2 (released_run_stays_empty (store_of gone) (natives launch) key gone still_gone _ _ Hreleased _));
    first [by_compute | split; by_compute].
Defined.

Definition gated : RunJournal.t := Eval vm_compute in stored (run (store_of holding) (natives (take 7 (drop 1 launch)))) key.
Definition freed : RunJournal.t := Eval vm_compute in stored (run (store_of holding) (natives (drop 1 launch))) key.

(** The reservation grows to the gate, and goes with the release. *)
Example reservation_only_grows_witness :
  holding.(ContainmentCgroup) = Some reserved /\ reservation_after reserved gated /\ reservation_after reserved freed.
Proof.
  assert (on_disk (store_of holding) key holding) as Hbefore by (split; by_compute).
  assert (holding.(ContainmentCgroup) = Some reserved) as Hcgroup by by_compute. split_and!; [exact Hcgroup| |].
  - refine (reservation_only_grows _ (natives (take 7 (drop 1 launch))) key holding gated reserved Hbefore Hcgroup _).
    split; by_compute.
  - refine (reservation_only_grows _ (natives (drop 1 launch)) key holding freed reserved Hbefore Hcgroup _).
    split; by_compute.
Defined.

Definition clone_trace : list served :=
  natives [OpReserveLinuxCloneIntent (fence claimed) clone 30 ∅; OpBindLinuxCloneSeed (fence claimed) clone seed;
           OpFenceLinuxCloneBeforeCheckout (fence claimed) clone].

Definition fenced : RunJournal.t := Eval vm_compute in stored (run (store_of admitted) clone_trace) key.

Example clone_evidence_is_final_witness :
  fenced.(LinuxCloneAbortPending) = true /\ clone_extends admitted fenced /\ clone_exclusive fenced.
Proof.
  split; [by_compute|].
  refine (clone_evidence_is_final (store_of admitted) clone_trace key admitted fenced _ _ _);
    first [by_compute | split; by_compute].
Defined.

(** A store with another run, whose cgroup was released. *)
Definition other_run : RunJournal.t := gone <| RunID := "run-2" |>.
Definition two_runs : Store :=
  mkStore true false {[ journalPath key := Decodes claimed; journalPath (Key other_run) := Decodes other_run ]}.

Example reservation_is_exclusive_witness :
  (ReserveLinuxCgroup io_ok two_runs key (fence claimed) reserved 30 ∅).2 =
    Ok (claimed <| ContainmentCgroup := Some reserved |>) /\
  linuxV2ForeignJournalIsSafelyRetired other_run = true.
Proof.
  assert ((ReserveLinuxCgroup io_ok two_runs key (fence claimed) reserved 30 ∅).2 =
    Ok (claimed <| ContainmentCgroup := Some reserved |>)) as Hrun by by_compute. split; [exact Hrun|].
  destruct (reservation_is_exclusive _ _ _ _ _ _ _ _ Hrun) as (_ & Hfiles & _).
  destruct (Hfiles (journalPath (Key other_run)) (Decodes other_run)) as (foreign & Hf & _ & _ & Hbeside); [by_compute|].
  injection Hf as <-. apply Hbeside. vm_compute. discriminate.
Defined.

Example scan_ledger_only_advances_witness :
  exists scans scans', scanning.(ContainmentScans) = Some scans /\
    scans.(ContainmentScanJournal.Helper).(ContainmentScanProgress.CompletedSequence) = 0 /\
    scans'.(ContainmentScanJournal.Helper).(ContainmentScanProgress.CompletedSequence) = 1 /\
    ledger_advances scans scans'.
Proof.
  eexists _, _. split_and!; [reflexivity|reflexivity| |].
  2: { refine (proj1 (scan_ledger_only_advances scanning _ _ _ (native_step (scan "helper" "retire") _ _ _ _) eq_refl _ _));
       [by_compute..| |by_compute]. split; vm_compute; split; discriminate. }
  reflexivity.
Defined.

Definition never_created (mac : string) : LinuxCgroupGateProductionResult.t :=
  LinuxCgroupGateProductionResult.mk 2 (token "a") launcher "never_created" mac.
Definition launcher_mac : string := Eval vm_compute in
  match SignGateNeverProducedAuthenticator (repeat_ascii "c" 64) (token "a") launcher with Some mac => mac | None => "" end.

Example gate_authenticator_roundtrip_witness :
  VerifyGateNeverProducedAuthenticator (repeat_ascii "c" 64) (never_created launcher_mac) = true.
Proof.
  apply (gate_authenticator_roundtrip (repeat_ascii "c" 64) (never_created launcher_mac) launcher_mac); [by_compute|].
  split; by_compute.
Defined.

Example empty_review_does_not_reload_witness :
  Evidence.Validate review = true /\ Evidence.Validate (Evidence.reread review) = false.
Proof. split; [by_compute|apply empty_review_does_not_reload; reflexivity]. Defined.

(** ** Goal deliveries *)

Definition owing : RunJournal.t := Eval vm_compute in
  stored (delivery_execute io_ok (store_of running) key (OpQueueGoalSessionStopped session_stop)) key.
Definition stop_digest : string := Eval vm_compute in
  match owing.(PendingGoalDeliveries) with d :: _ => d.(GoalDelivery.PayloadDigest) | [] => "" end.
Definition acknowledge : list served :=
  [(io_ok, key, ReqDelivery (OpMarkGoalDeliveryDelivered GoalDeliverySessionStopped resource stop_digest));
   (io_ok, key, ReqDelivery (OpQueueGoalSessionStopped session_stop))].
Definition paid : RunJournal.t := Eval vm_compute in stored (run (store_of owing) acknowledge) key.

Example delivery_is_answered_once_witness :
  length (delivered_receipts paid) = 1%nat /\ length (map receipt owing.(PendingGoalDeliveries)) = 1%nat /\
  valid_journal owing /\ deliveries_kept owing paid /\
  (forall r, In r (delivered_receipts owing) \/ In r (map (fun x => x.1.1.1.1) (rejected_receipts owing)) ->
     ~ In r (map receipt paid.(PendingGoalDeliveries))) /\
  (valid_journal owing -> forall delivery, In delivery owing.(PendingGoalDeliveries) ->
     delivery.(GoalDelivery.Kind) <> GoalDeliverySessionAttach \/ delivery.(GoalDelivery.Ready) = true ->
     In (receipt delivery) (ready_receipts paid) \/ In (receipt delivery) (delivered_receipts paid) \/
     In (receipt delivery) (map (fun x => x.1.1.1.1) (rejected_receipts paid))).
Proof.
  split; [by_compute|]. split; [by_compute|]. split; [by_compute|].
  refine (delivery_is_answered_once io_ok (store_of owing) acknowledge key owing paid _ _); [split; by_compute|].
  by_compute.
Defined.

Definition reviewed_end : RunJournal.t := Eval vm_compute in
  match queueGoalEvidenceAndTerminalTransition [review] review_failed 50 reviewed with Ok j => j | Err _ => RunJournal.zero end.


(** ** Late accounting *)

Definition goal_key : RunKey.t := RunKey.mk resource 1.
Definition goal_run : RunJournal.t := claimed <| RunID := resource |> <| GoalDeliveryEnabled := true |>.
Definition usage : Usage.t :=
  Usage.mk "symmetry.usage.v1" resource resource "usage-1" "provider" "model" (Some 10) (Some 20) None None "unknown"
    None None "2026-01-02T03:04:05Z".
Definition usage_digest : string := Eval vm_compute in
  match GoalDelivery.prepare resource ((usageDelivery usage) <| GoalDelivery.fence := fence goal_run |>) with
  | Ok d => d.(GoalDelivery.PayloadDigest) | Err _ => "" end.
Definition goal_store : Store := mkStore true false {[ journalPath goal_key := Decodes goal_run ]}.
Definition billed : RunJournal.t := Eval vm_compute in
  stored (run goal_store
    [(io_ok, goal_key, ReqDelivery (OpQueueGoalUsage usage));
     (io_ok, goal_key, ReqDelivery (OpMarkGoalDeliveryDelivered GoalDeliveryUsage "usage-1" usage_digest))]) goal_key.
Definition billed_store : Store := mkStore true false {[ journalPath goal_key := Decodes billed ]}.
Definition files_ok : file_io := mkFileIO io_ok io_ok io_ok.
Definition archived : files := Eval vm_compute in (DeleteJournal files_ok RemoveOK (mkFiles billed_store ∅) goal_key 60).1.
Definition usage2 : Usage.t :=
  Usage.mk "symmetry.usage.v1" resource resource "usage-1" "provider" "model" (Some 99) None None None "unknown"
    None None "2026-01-02T03:04:05Z".

Definition late_file : LateGoalUsageLedger.t := newLedger billed 60.
Definition late_again : files := (QueueLateGoalUsage io_ok archived goal_key
  (Usage.mk "symmetry.usage.v1" resource resource "usage-2" "provider" "model" (Some 1) None None None "unknown"
     None None "2026-01-02T03:04:05Z") 80).1.

(** Another usage record is queued in the ledger before the settled one is
    offered again. *)
Example usage_is_counted_once_witness :
  archived.(store).(runs) !! journalPath goal_key = None /\ (QueueGoalUsage files_ok late_again goal_key usage2 70).1 = late_again.
Proof.
  refine (usage_is_counted_once files_ok RemoveOK (mkFiles billed_store ∅) archived goal_key 60 billed
            (hd (usageDelivery usage) billed.(DeliveredGoalDeliveries)) late_again files_ok usage2 70 _ _ _ _ _ _ _);
    [|by_compute|by_compute|by_compute|vm_compute; by left|by_compute|].
  - intros path content Hfile. cbn [late] in Hfile. by rewrite lookup_empty in Hfile.
  - apply rtc_once. exact (files_late_usage archived io_ok goal_key _ 80).
Defined.

(** The removal of the journal fails, so its ledger is left beside it; the
    run then settles a second usage record before it is deleted for good. *)
Definition left_behind : files := Eval vm_compute in
  (DeleteJournal files_ok RemoveFailed (mkFiles billed_store ∅) goal_key 60).1.
Definition recovered_usage : Usage.t :=
  Usage.mk "symmetry.usage.v1" resource resource "usage-2" "provider" "model" (Some 1) None None None "unknown"
    None None "2026-01-02T03:04:05Z".
Definition recovered_digest : string := Eval vm_compute in
  match GoalDelivery.prepare resource ((usageDelivery recovered_usage) <| GoalDelivery.fence := fence goal_run |>) with
  | Ok d => d.(GoalDelivery.PayloadDigest) | Err _ => "" end.
Definition recovered : RunJournal.t := Eval vm_compute in
  stored (run left_behind.(store)
    [(io_ok, goal_key, ReqDelivery (OpQueueNativeUsageRecoverySettlement recovered_usage None));
     (io_ok, goal_key, ReqDelivery (OpMarkGoalDeliveryDelivered GoalDeliveryUsage "usage-2" recovered_digest));
     (io_ok, goal_key, ReqNative (OpClearNativeUsageRecoveryRequired recovered_usage))]) goal_key.
Definition recovered_files : files :=
  mkFiles (mkStore true false {[ journalPath goal_key := Decodes recovered ]}) left_behind.(late).
Definition removed_files : files := Eval vm_compute in (DeleteJournal files_ok RemoveOK recovered_files goal_key 90).1.
Definition requeued : files := Eval vm_compute in (QueueGoalUsage files_ok removed_files goal_key recovered_usage 95).1.

Example archive_forgets_settled_usage_witness :
  exists record, In record (usageRecords recovered) /\ record.(GoalDelivery.usage) = Some recovered_usage /\
  exists ledger, requeued.(late) !! lateGoalUsagePath goal_key = Some (LedgerDecodes ledger) /\ In (receipt record) (late_pending ledger).
Proof.
  exists (nth 1 recovered.(DeliveredGoalDeliveries) (usageDelivery usage)). split; [vm_compute; by right; left|]. split; [by_compute|].
  refine (archive_forgets_settled_usage files_ok RemoveOK recovered_files removed_files goal_key 90 recovered (newLedger billed 60)
            _ recovered_usage files_ok 95 requeued (keyOnly goal_key) _ _ _ _ _ _ _ _ _);
    [by_compute|by_compute|by_compute|vm_compute; discriminate|vm_compute; by right; left|by_compute|vm_compute; by intros [|]|
     by_compute|by_compute].
Defined.

Example late_ledger_is_kept_witness :
  exists ledger, late_again.(late) !! lateGoalUsagePath goal_key = Some (LedgerDecodes ledger) /\
    LateGoalUsageLedger.validate ledger = Ok tt /\ late_extends late_file ledger.
Proof.
  refine (late_ledger_is_kept archived late_again (lateGoalUsagePath goal_key) late_file _ _ _).
  - intros path content Hfile. exists late_file.
    assert (({[ lateGoalUsagePath goal_key := LedgerDecodes late_file ]} : gmap string ledger_file) !! path = Some content) as Hs
      by exact Hfile.
    apply lookup_singleton_Some in Hs as [<- <-]. split; [done|]. split; by_compute.
  - apply rtc_once, files_late_usage.
  - by_compute.
Defined.
