(* ===== verification/SessionWitnesses.v ===== *)
(** * SessionWitnesses: the session theorems on a concrete session

    One session from its launch to its resume by another run, and the
    theorems of SessionProps.v and SessionClosing.v applied to it. *)

From S2P Require Import Prelude Sha256 Json Authority Protocol Journal Validation Store Session SessionOps LateUsage.
From S2P Require Import SessionStore SessionSteps SessionProps SessionClosing.
Import GoalSessionJournal.
Import SessionFiles (store, sessions, indexes).
Open Scope string_scope.
Open Scope Z_scope.

Ltac decided := vm_compute; reflexivity.

Definition uuid1 : string := "11111111-1111-4111-8111-111111111111".
Definition uuid2 : string := "22222222-2222-4222-8222-222222222222".
Definition uuid3 : string := "33333333-3333-4333-8333-333333333333".
Definition uuid4 : string := "44444444-4444-4444-8444-444444444444".
Definition uuid5 : string := "55555555-5555-4555-8555-555555555555".

Definition open_store : Store := mkStore true false ∅.
Definition session_key : GoalSessionKey.t := GoalSessionKey.mk "goal" uuid1.
Definition session_launch : GoalSessionLaunchIntent.t :=
  GoalSessionLaunchIntent.mk "launch" "goal" 1 "item" "task" "run-1" 1 "admission-1" "" uuid1 "" "owner" "machine" "runtime" 3
    "daemon" "codex" "1.0" "2.0" 1 "fingerprint" "/work" WorkspaceOwnerRunKey.zero uuid2 "".
Definition session_certificate : GoalSessionStopCertificate.t :=
  GoalSessionStopCertificate.mk "run-1" 1 uuid3 uuid1 uuid4 (repeat_ascii "a" 64) uuid5.
Definition session_compatibility : GoalSessionCompatibility.t :=
  GoalSessionCompatibility.mk "owner" "machine" "runtime" 4 "daemon-2" "codex" "1.0" "2.0" 1 "fingerprint" uuid2.
Definition session_rebind : GoalSessionResumeRebind.t :=
  GoalSessionResumeRebind.mk "run-2" 2 "task-2" "admission-2" uuid5 session_certificate session_compatibility.

Definition session_prefix : list (session_io * session_request) :=
  [(session_ok, SessionLaunch None None 10 session_launch);
   (session_ok, SessionMutate session_key (MutLaunchStarted 11));
   (session_ok, SessionMutate session_key (MutHandle (GoalSessionHandle.mk "native" "file") None 12));
   (session_ok, SessionMutate session_key (MutControl uuid3 uuid4 uuid5 true 13));
   (session_ok, SessionMutate session_key (MutStoppedPending 14));
   (session_ok, SessionMutate session_key (MutAvailable session_certificate 15));
   (session_ok, SessionRebind 16 session_key session_rebind)].

Definition loaded (state : SessionFiles.t) : GoalSessionJournal.t :=
  match LoadGoalSession true state session_key with
  | Ok journal => journal
  | Err _ => launchJournal session_launch 0
  end.

Definition at_launch : GoalSessionJournal.t := Eval vm_compute in loaded (session_run (session_start open_store) (take 2 session_prefix)).
Definition at_resume : GoalSessionJournal.t := Eval vm_compute in loaded (session_run (session_start open_store) session_prefix).

Example resume_runs : at_resume.(ResumeStartPending) = true /\ at_resume.(UpdatedAt) = 16 /\ consumed at_resume = [session_certificate].
Proof. split_and!; decided. Qed.

(** Two of the requests fail on the way: the rebuild of an index, and the
    write of a journal. *)
Definition refresh_lost : session_io :=
  mkSessionIO true index_ok scan_ok WriteOK WriteOK WriteOK RemoveOK (mkScan false (fun _ => true)) WriteOK scan_ok WriteOK.
Definition save_lost : session_io :=
  mkSessionIO true index_ok scan_ok WriteOK WriteOK WriteFailed RemoveOK scan_ok WriteOK scan_ok WriteOK.
Definition session_trouble : list (session_io * session_request) :=
  [(refresh_lost, SessionLaunch None None 10 session_launch); (save_lost, SessionMutate session_key (MutLaunchStarted 11))].
Definition lineage : GoalSessionLineageKey.t := GoalSessionLineageKey.mk "goal" "item" "task".

Example lineage_query_matches_scan_witness :
  exists state' status, CheckGoalSessionLineage index_ok (session_run (session_start open_store) session_trouble) lineage =
    (state', Ok status) /\ GoalSessionLineageStatus.State status = GoalSessionLineageStateReserved.
Proof.
  destruct (lineage_query_matches_scan open_store session_trouble lineage) as (journals & Hlist & _ & Hanswer).
  destruct Hanswer as [state' Hcheck].
  - decided.
  - decided.
  - intros index Hfile. vm_compute in Hfile. by injection Hfile as <-.
  - exists state', (scanned_status lineage journals). split; [exact Hcheck|].
    vm_compute in Hlist. injection Hlist as <-. decided.
Defined.

Example one_live_session_per_lineage_witness :
  loaded (session_run (session_start open_store) (take 2 session_prefix)) = at_launch.
Proof.
  refine (one_live_session_per_lineage open_store (take 2 session_prefix) session_key session_key _ at_launch _ _ _ _ _); decided.
Defined.

Example session_is_kept_witness :
  exists journal', LoadGoalSession true (session_run (session_run (session_start open_store) (take 2 session_prefix)) (drop 2 session_prefix))
    session_key = Ok journal' /\ evolves at_launch journal'.
Proof.
  refine (session_is_kept open_store (take 2 session_prefix) (drop 2 session_prefix) session_key at_launch _ _); [decided|].
  repeat constructor; intros [].
Defined.

Definition late_stop : list (session_io * session_request) :=
  [(session_ok, SessionMutate session_key (MutResumeAttempted 17)); (save_lost, SessionMutate session_key (MutResumeStopped 18))].
Definition second_rebind : GoalSessionResumeRebind.t :=
  GoalSessionResumeRebind.mk "run-3" 3 "task" "admission-3" uuid2 session_certificate session_compatibility.

Example stop_certificate_is_consumed_once_witness :
  (RebindGoalSessionForResume session_ok 20 (session_run (session_run (session_start open_store) session_prefix) late_stop)
     session_key second_rebind).1.(sessions) =
  (session_run (session_run (session_start open_store) session_prefix) late_stop).(sessions).
Proof.
  refine (proj1 (stop_certificate_is_consumed_once open_store session_prefix late_stop session_key at_resume session_ok 20
    second_rebind _ _ _)); [decided|vm_compute; by left|].
  repeat constructor; intros [].
Defined.

Example session_can_be_closed_witness :
  exists m journal', LoadGoalSession true
      (session_method m session_ok (session_run (session_start open_store) (take 2 session_prefix)) session_key).1 session_key = Ok journal' /\
    fullyClosed journal' = true.
Proof.
  destruct (session_can_be_closed open_store (take 2 session_prefix) session_key at_launch 30) as (m & journal' & Hload & Hclosed & _);
    [decided|decided|done|].
  exists m, journal'. exact (conj Hload Hclosed).
Defined.
