(* ===== verification/WireWitnesses.v ===== *)
(** * WireWitnesses: the theorems on the wire at concrete frames

    A clone command released by an owner with user and group 1000 and its
    frame, the receipt its bootstrap sends back, and the result of a launch. *)

From S2P Require Import Prelude Sha256 Json Authority Protocol Journal Validation Store Cgroup Wire WireProps Samples.
Import Samples.
Open Scope string_scope.
Open Scope Z_scope.

Ltac evaluated := vm_compute; reflexivity.

Definition sample_grant : LinuxCloneGrant.t := LinuxCloneGrant.mk clone seed.

(** A codec that knows one grant. *)
#[local] Instance sample_codec : GrantCodec := {|
  marshalGrant grant := if LinuxCloneGrant.Equal grant sample_grant then Some [123; 125] else None;
  unmarshalGrant bytes := if bool_decide (bytes = [123; 125]) then Some sample_grant else None
|}.

#[local] Instance sample_credentials : Credentials := {| getuid := 1000; getgid := 1000 |}.

Definition pipe (fd flags inode : Z) : option File.t :=
  Some (File.mk fd (Some (File.mkstat 4480 1000 1000 12 inode)) (Some flags)).

Definition sample_command (grant : option LinuxCloneGrant.t) : NativeCommand.t :=
  NativeCommand.mk "/usr/bin/codex" ["codex"; "exec"] ["HOME=/home/b"; "LANG=C"] clone.(LinuxCloneIntent.Target)
    (pipe 5 0 101) (pipe 6 1 102) (pipe 7 1 103) grant.

Definition sample_token : list Z := repeat 7 32.
Definition sample_lease : Deadline.t := Deadline.mk false true 30000000000.

Definition frame_of (command : NativeCommand.t) : list Z :=
  match EncodeRelease (Some (100, 5)) sample_token command (pipe 8 0 104) sample_lease with Ok packet => packet | Err _ => [] end.

Lemma sample_survives : grant_survives (sample_command (Some sample_grant)).
Proof. intros grant encoded [= <-] H. vm_compute in H. injection H as <-. evaluated. Defined.

Definition bytes_of (packet : list Z) : bool := forallb (fun b => (0 <=? b) && (b <? 256)) packet.

Lemma all_bytes packet : bytes_of packet = true -> Forall is_byte packet.
Proof.
  intros H. apply Forall_forall. intros b Hb. unfold bytes_of in H. rewrite forallb_forall in H.
  specialize (H b ltac:(by apply list_elem_of_In)). unfold is_byte. breflect. lia.
Qed.

(** Releasing a clone command and reading its frame. *)
Example release_roundtrip_witness :
  DecodeRelease (frame_of (sample_command (Some sample_grant))) sample_token
    (pipe 5 0 101, pipe 6 1 102, pipe 7 1 103, pipe 8 0 104) = Ok (sample_command (Some sample_grant), 130000000005).
Proof.
  destruct (release_roundtrip (Some (100, 5)) sample_token (sample_command (Some sample_grant)) (pipe 8 0 104) sample_lease
    (frame_of (sample_command (Some sample_grant))) eq_refl sample_survives) as (deadlineNS & Hd & Hdecode & _); [evaluated|].
  vm_compute in Hd. injection Hd as <-. exact Hdecode.
Defined.

(** The frame of a command without a clone is the only one [DecodeRelease]
    accepts for it. *)
Example accepted_release_is_exact_witness :
  encodeGuardedRelease sample_token (sample_command None) 130000000005 = Ok (frame_of (sample_command None)).
Proof.
  refine (proj2 (proj2 (proj2 (proj2 (accepted_release_is_exact (frame_of (sample_command None)) sample_token (pipe 5 0 101)
    (pipe 6 1 102) (pipe 7 1 103) (pipe 8 0 104) (sample_command None) 130000000005 _ _)))) eq_refl); [|evaluated].
  apply all_bytes. evaluated.
Defined.

Definition sample_receipt : LinuxCloneCheckoutReceipt.t :=
  LinuxCloneCheckoutReceipt.mk LinuxCloneVersion "run-1" 1 "binding-1" resource clone.(LinuxCloneIntent.Target)
    (repeat_ascii "3" 64) ("sha256:" ++ digest) (repeat_ascii "1" 40) 12 99.

Definition receipt_frame : list Z :=
  match EncodeCloneCheckoutReady sample_receipt with Ok packet => packet | Err _ => [] end.

(** The receipt of the bootstrap read by the owner. *)
Example checkout_receipt_roundtrip_witness : DecodeCloneCheckoutReady receipt_frame = Ok sample_receipt.
Proof.
  refine (proj2 (checkout_receipt_roundtrip frameCheckoutReady receipt_frame sample_receipt _ _) _).
  - done.
  - apply all_bytes. evaluated.
  - split_and!; evaluated || (split; evaluated) || done.
Defined.

Definition sample_result : LaunchResult.t :=
  LaunchResult.mk LaunchStatusReady 0 sample_token (ProcessIdentity.mk 4242 77 5 4026531837 2001 2002 4200) (repeat 9 32).

Definition result_frame : list Z :=
  match EncodeLaunchResult sample_result with Ok packet => packet | Err _ => [] end.

(** A launch that succeeded, read by the owner. *)
Example launch_result_roundtrip_witness : length result_frame = 128%nat /\ DecodeLaunchResult result_frame = Ok sample_result.
Proof.
  split; [evaluated|]. refine (proj2 (launch_result_roundtrip result_frame sample_result _) _).
  - apply all_bytes. evaluated.
  - split; [|split; evaluated].
    unfold launch_result_typed, uint32, uint64. cbn.
    split_and!; first [lia|done|by apply all_bytes].
Defined.
