(* ===== verification/FlushWitnesses.v ===== *)
(** * FlushWitnesses: the theorems about sending at a concrete run

    One run with a usage record to send, a ledger of a deleted run, and a
    server that answers every usage with its receipt. *)

From S2P Require Import Prelude Sha256 Json Authority Protocol Journal Validation Store Session SessionOps.
From S2P Require Import Cgroup Containment Clone Native Outbox Delivery LateUsage SessionStore ProviderAction Control Flush Samples.
From S2P Require Import Lifecycle OutboxFacts Traces DeliveryProps LateUsageProps SessionSteps SessionProps.
From S2P Require Import ControlProps FlushProps LateFlushProps.
Import RunJournal Samples.
Open Scope string_scope.
Open Scope Z_scope.

#[local] Existing Instance Samples.parser.
#[local] Existing Instance Samples.encoder.

Ltac by_evaluation := vm_compute; reflexivity.

(** ** A run that owes usage *)

Definition sent_key : RunKey.t := RunKey.mk resource 1.
Definition sending : RunJournal.t := claimed <| RunID := resource |> <| RuntimeID := resource |> <| ClaimID := resource |>
  <| LeaseToken := resource |> <| GoalDeliveryEnabled := true |>.
Definition spent (key : string) : Usage.t :=
  Usage.mk "symmetry.usage.v1" resource resource key "provider" "model" (Some 10) (Some 20) None None "unknown"
    None None "2026-01-02T03:04:05Z".
Definition sending_store (journal : RunJournal.t) : Store := mkStore true false {[ journalPath sent_key := Decodes journal ]}.
Definition indebted : RunJournal.t := Eval vm_compute in
  stored (delivery_execute io_ok (sending_store sending) sent_key (OpQueueGoalUsage (spent "usage-1"))) sent_key.

(** A server that takes every usage. *)
Definition unreachable {R} : reply R := inl (TransportError true).
Definition accepting : server :=
  mkServer (fun _ _ => unreachable) (fun _ _ => unreachable) (fun _ _ => unreachable) (fun _ _ => unreachable)
    (fun _ _ _ => unreachable)
    (fun runID _ usage => inr (201, GoalUsageReceipt.mk usage.(Usage.UsageID) runID usage.(Usage.UsageKey)
                                      usage.(Usage.CostMicrousd) usage.(Usage.CostBasis))).
Definition sent_attempts (n : nat) : attempt :=
  mkAttempt (clientAPI accepting) scan_ok scan_ok session_ok io_ok io_ok 100 100.

Definition before_flush : SessionFiles.t := SessionFiles.mk (sending_store indebted) ∅ ∅.
Definition after_flush : outcome := Eval vm_compute in
  match flushGoalDeliveries 5 sent_attempts before_flush indebted with
  | Some o => o
  | None => mkOutcome before_flush indebted None None
  end.
Definition settled_run : RunJournal.t := Eval vm_compute in after_flush.(updated).

Example flush_settles_only_answered_witness :
  length settled_run.(DeliveredGoalDeliveries) = 1%nat /\ answered sent_attempts resource indebted settled_run.
Proof.
  split; [by_evaluation|].
  refine (flush_settles_only_answered 5 sent_attempts before_flush indebted after_flush indebted settled_run _ _ _);
    [by_evaluation|split; by_evaluation..].
Defined.

Example flush_terminates_witness :
  exists o, flushGoalDeliveries 5 sent_attempts before_flush indebted = Some o /\
    (o.(failure) = None -> Forall (fun d => goalDeliveryReadyForFlush o.(updated) d = false) o.(updated).(PendingGoalDeliveries)).
Proof. refine (flush_terminates 5 sent_attempts before_flush indebted _ _); [by_evaluation|vm_compute; lia]. Defined.

Example second_check_agrees_with_client_witness :
  exists receipt, send (sent_attempts 0) before_flush resource (hd (usageDelivery (spent "")) indebted.(PendingGoalDeliveries)) = inr receipt /\
    validateGoalDeliveryReceipt resource (hd (usageDelivery (spent "")) indebted.(PendingGoalDeliveries)) receipt = true.
Proof.
  eexists. split; [by_evaluation|].
  refine (proj1 (second_check_agrees_with_client (sent_attempts 0) resource) before_flush _ _ _ _); [vm_compute; discriminate|by_evaluation].
Defined.

(** ** A ledger that owes usage *)

Definition closing_ledger : LateGoalUsageLedger.t := Eval vm_compute in
  match queueLateUsage (spent "usage-2") (newLedger sending 60) with Ok (ledger, _) => ledger | Err _ => newLedger sending 60 end.
Definition ledger_files : LateUsage.files :=
  mkFiles (mkStore true false ∅) {[ lateGoalUsagePath sent_key := LedgerDecodes closing_ledger ]}.

Lemma one_ledger path content :
  ledger_files.(late) !! path = Some content -> path = lateGoalUsagePath sent_key /\ content = LedgerDecodes closing_ledger.
Proof. unfold ledger_files. cbn [late]. by intros [-> ->]%lookup_singleton_Some. Qed.

Lemma ledger_files_ok : late_well_formed ledger_files.(late).
Proof. intros path content [-> ->]%one_ledger. exists closing_ledger. split_and!; [done|by_evaluation..]. Qed.

Lemma closing_bound path ledger :
  ledger_files.(late) !! path = Some (LedgerDecodes ledger) -> (length ledger.(LateGoalUsageLedger.PendingUsageDeliveries) < 3)%nat.
Proof. intros [_ Hledger]%one_ledger. injection Hledger as ->. vm_compute. lia. Qed.

Example late_flush_settles_only_answered_witness :
  exists state', flushLateGoalUsage 3 sent_attempts scan_ok ledger_files = Some state' /\ state'.(store) = ledger_files.(store) /\
    late_well_formed state'.(late) /\ all_answered sent_attempts ledger_files state'.
Proof. refine (late_flush_settles_only_answered sent_attempts 3 scan_ok ledger_files _ _); [exact ledger_files_ok|exact closing_bound]. Defined.

Lemma closing_accepted : accepts sent_attempts closing_ledger.
Proof.
  intros n d usage [<-|[]] Husage. injection Husage as <-. eexists. by_evaluation.
Qed.

Example late_usage_drains_witness :
  exists state', flushLateGoalUsage 3 sent_attempts scan_ok ledger_files = Some state' /\
    forall path ledger, state'.(late) !! path = Some (LedgerDecodes ledger) -> ledger.(LateGoalUsageLedger.PendingUsageDeliveries) = [].
Proof.
  refine (late_usage_drains 3 sent_attempts ledger_files ledger_files_ok _ _ _ _).
  - by_evaluation.
  - intros n. split; by_evaluation.
  - intros path ledger Hfile. split; [|exact (closing_bound _ _ Hfile)].
    apply one_ledger in Hfile as [_ Hledger]. injection Hledger as ->. exact closing_accepted.
Defined.

(** ** An acknowledged command *)

Definition acknowledgement : CommandAcknowledgement.t :=
  CommandAcknowledgement.mk (Fence.mk resource 1 1 resource resource) resource "command-1" "applied" "ack-1".
Definition acknowledged_command : TaskCommand.t :=
  TaskCommand.mk "command-1" "task-1" (Some resource) (Some 1) "guidance"
    (String (ascii_of_nat 123) (String (ascii_of_nat 34) "message") ++ String (ascii_of_nat 34) (":" ++ String (ascii_of_nat 34) "go") ++
     String (ascii_of_nat 34) "}")
    "acknowledged" 10 (Some 20) (Some "ack-1") (Some "applied") (Some 30) (list_to_set TaskCommand.required).

Example acknowledgement_is_the_one_sent_witness :
  AcknowledgeCommand "command-1" acknowledgement (inr (200, acknowledged_command)) = inr acknowledged_command /\
  acknowledged acknowledged_command "ack-1" "applied".
Proof.
  split; [by_evaluation|].
  refine (proj2 (proj2 (proj2 (proj2 (proj2 (acknowledgement_is_the_one_sent "command-1" acknowledgement
            (inr (200, acknowledged_command)) acknowledged_command _)))))). by_evaluation.
Defined.
