(* ===== verification/RunFlushWitnesses.v ===== *)
(** * RunFlushWitnesses: the flush of a run and its retries at concrete runs

    A run that ends with an event, a usage record and a failed transition to
    send, while the daemon queues more of both; the table after its delivery
    was refused; a run whose cgroup is still held when its ownership is lost;
    and a run whose end is written by a write that reports a failure. *)

From S2P Require Import Prelude Sha256 Json Authority Protocol Journal Validation Store Session SessionOps.
From S2P Require Import Cgroup Containment Clone Native Outbox Delivery LateUsage SessionStore ProviderAction Control Flush.
From S2P Require Import Retry RunFlush TerminalQueue Samples Lifecycle OutboxFacts Traces DeliveryProps LateUsageProps SessionSteps SessionProps.
From S2P Require Import ControlProps FlushProps LateFlushProps RetryProps RunFlushProps TerminalProps TerminalQueueProps FlushWitnesses.
Import RunJournal Samples.
Open Scope string_scope.
Open Scope Z_scope.

#[local] Existing Instance Samples.parser.
#[local] Existing Instance Samples.encoder.

(** ** Retries *)

Definition fingerprints : FingerprintEncoder := fun value =>
  value.(FingerprintValue.LocalState) ++ " " ++ join_comma value.(FingerprintValue.PendingGoalDeliveryIDs).
#[local] Existing Instance fingerprints.

Definition conflict : control_error := APIError 409 StateConflict "" 0 false.

(** Two failures of the ended run: a server failure, then a conflict. *)
Definition noted : retries * Z := noteOutboxFailure ∅ ended.
Definition overloaded : control_error := APIError 503 "service_unavailable" "" 0 false.
Definition failed_once : retries := settleOutboxFailure noted.1 ended (outboxRetryDelay false ended overloaded noted.2) noted.2 50.
Definition noted_again : retries * Z := noteOutboxFailure failed_once ended.
Definition first_failure : recorded_failure := mkRecorded ended overloaded noted.2 false.
Definition second_failure : recorded_failure := mkRecorded ended conflict noted_again.2 false.

Definition gave_up : retry_state :=
  mkRetryState (settleOutboxFailure noted_again.1 ended (outboxRetryDelay false ended conflict noted_again.2) noted_again.2 100) []
    [second_failure; first_failure].

Lemma gave_up_reachable : reachable gave_up.
Proof.
  eapply rtc_l; [apply (step_note (mkRetryState ∅ [] []) ended overloaded)|].
  eapply rtc_l; [by apply (step_settle _ [] [] ended overloaded noted.2 false 50)|].
  eapply rtc_l; [apply (step_note (mkRetryState failed_once [] [first_failure]) ended conflict)|].
  eapply rtc_l; [by apply (step_settle _ [] [] ended conflict noted_again.2 false 100)|]. apply rtc_refl.
Qed.

(** The run is retried after the first failure and given up after the second. *)
Example held_back_only_when_conclusive_witness :
  (exists entry, failed_once !! key = Some entry /\ entry.(outboxRetry.permanent) = false) /\
  exists entry, gave_up.(table) !! key = Some entry /\ entry.(outboxRetry.permanent) = true /\
  bounded_delay entry.(outboxRetry.delay) /\
  (entry.(outboxRetry.permanent) = true ->
   exists failure, last_failure gave_up.(recorded) key entry.(outboxRetry.fingerprint) = Some failure /\
     Key failure.(recorded_journal) = key /\
     entry.(outboxRetry.fingerprint) = journalFingerprint failure.(recorded_journal) /\
     (failure.(recorded_done) = true \/ not_retryable failure.(recorded_error)) /\
     given_up failure.(recorded_journal) failure.(recorded_error)).
Proof.
  split.
  { eexists. split; [by_evaluation|reflexivity]. }
  exists (outboxRetry.mk (journalFingerprint ended) 0 (2 * minimumInterval) true). split; [by_evaluation|]. split; [reflexivity|].
  refine (held_back_only_when_conclusive gave_up key _ gave_up_reachable _). by_evaluation.
Defined.

Example pending_receipts_are_due_again_witness :
  (outboxDue (recordOutboxFailure false false gave_up.(table) indebted conflict 100) (100 + 30 * 10 ^ 9) indebted).2 = true.
Proof.
  refine (pending_receipts_are_due_again gave_up false indebted conflict 100 (100 + 30 * 10 ^ 9) gave_up_reachable _ _); [by_evaluation|].
  vm_compute. discriminate.
Defined.

(** ** A run that ends *)

Definition run_event : RunEvent.t := RunEvent.mk "event-1" 1 "agent_event" 5 "{}".
Definition closing : RunJournal.t := Eval vm_compute in
  match QueueEvent io_ok (sending_store indebted) sent_key run_event with
  | (store, _) =>
      match QueueTerminalTransitionAt io_ok store sent_key (Samples.failed "{}") 50 with
      | (_, Ok journal) => journal
      | (_, Err _) => indebted
      end
  end.
Definition closing_files : SessionFiles.t := SessionFiles.mk (sending_store closing) ∅ ∅.
Definition accepting_moment : moment :=
  mkMoment (fun _ => None) id id (fun _ files => (files, inr None)) sent_attempts (fun _ => id) io_ok 100 None false false.

(** The daemon queues more usage while the event is on its way, and a second
    event while that usage is. *)
Definition late_event : RunEvent.t := RunEvent.mk "event-2" 2 "agent_event" 6 "{}".
Definition queue_usage (files : SessionFiles.t) : SessionFiles.t :=
  with_store files (delivery_execute io_ok files.(SessionFiles.store) sent_key (OpQueueGoalUsage (spent "usage-2"))).
Definition queue_event (files : SessionFiles.t) : SessionFiles.t :=
  with_store files (QueueEvent io_ok files.(SessionFiles.store) sent_key late_event).1.
Definition busy_moment : moment :=
  mkMoment (fun _ => None) queue_usage id (fun _ files => (files, inr None)) sent_attempts (fun _ => queue_event) io_ok 100 None
    false false.
Definition closing_moments (k : nat) : moment := if (k =? 0)%nat then accepting_moment else busy_moment.
Definition closing_log : list RunFlush.action := Eval vm_compute in
  (flushRun closing_moments false 20 closing (mkWorld closing_files 0 [])).1.(log).

(** The flushes of Goal deliveries, the events and the terminal, in order. *)
Definition describe (entry : RunFlush.action) : string :=
  match entry with
  | Sent (EventsRequest _ _ _) _ _ => "events"
  | Sent (TransitionRequest _ transition) _ _ => transition.(StateTransitionRequest.State)
  | Sent (AcknowledgementRequest _ _) _ _ => "acknowledgement"
  | GoalsFlushed _ => "goals"
  | SlotReleased _ => "slot"
  | LeaseTerminated _ _ => "lease"
  end.

(** The files when the transition was sent, and the journal in them. *)
Definition closing_sent : SessionFiles.t := Eval vm_compute in
  match drop 3 closing_log with Sent _ from _ :: _ => from | _ => closing_files end.
Definition closing_stored : RunJournal.t := Eval vm_compute in stored closing_sent.(SessionFiles.store) sent_key.
Definition closing_transition : StateTransitionRequest.t := Eval vm_compute in
  match drop 3 closing_log with Sent (TransitionRequest _ transition) _ _ :: _ => transition | _ => Samples.failed "{}" end.

Lemma closing_in_step : in_step closing_files.(SessionFiles.store) closing.
Proof.
  split; [by_evaluation|]. intros journal [Hfile _]. vm_compute in Hfile. injection Hfile as <-. by_evaluation.
Qed.


(** ** A run whose cgroup is held when its ownership is lost *)

(** A cgroup is reserved, the start fails, and the control plane answers the
    failed transition that the run is no longer ours. *)
Definition lost_run : RunJournal.t := Eval vm_compute in
  match QueueTerminalTransitionAt io_ok (store_of holding) key (Samples.failed "{}") 50 with
  | (store, _) =>
      match ResolveTerminalForCleanup io_ok store key TerminalVerdictOwnershipLost 60 with
      | (_, Ok journal) => journal
      | (_, Err _) => holding
      end
  end.
Definition lost_files : SessionFiles.t := SessionFiles.mk (store_of lost_run) ∅ ∅.

Lemma lost_on_disk journal : on_disk lost_files.(SessionFiles.store) (Key lost_run) journal -> held_after_verdict journal = true.
Proof. intros [Hfile _]. vm_compute in Hfile. injection Hfile as <-. by_evaluation. Qed.

(** Thirty calls deep the flush is still running. *)
Example held_run_recurses_forever_witness :
  (flushRun (fun _ => accepting_moment) false 30 lost_run (mkWorld lost_files 0 [])).2 = Failed lost_run Running /\
  exists last, (flushRun (fun _ => accepting_moment) false 30 lost_run (mkWorld lost_files 0 [])).2 = Failed last Running \/
    exists e, (flushRun (fun _ => accepting_moment) false 30 lost_run (mkWorld lost_files 0 [])).2 = Failed last (StoreError e).
Proof.
  split; [by_evaluation|].
  refine (held_run_recurses_forever (fun _ => accepting_moment) false 30 lost_run (mkWorld lost_files 0 []) _ _ lost_on_disk);
    [reflexivity|by_evaluation].
Defined.

(** ** An end that is written by an uncertain write *)

(** The file is replaced and the write reports a failure; the journal read
    back is recognised at the first attempt. *)
Definition uncertain_attempts (n : nat) : queue_attempt :=
  mkQueueAttempt (mkIO true SyncFailed) io_ok io_ok id false.
Definition uncertain_end := Eval vm_compute in
  queueTerminalTransitionWithRetry uncertain_attempts 1 0 (store_of running) key (Samples.failed "{}") 50.

Example terminal_retry_is_exact_witness :
  uncertain_end.2 = Queued 50 /\ exact_outcome uncertain_end.1 key (Samples.failed "{}") (Queued 50).
Proof.
  split; [by_evaluation|].
  refine (terminal_retry_is_exact uncertain_attempts 1 0 (store_of running) key (Samples.failed "{}") 50 uncertain_end.1 (Queued 50) _ _);
    by_evaluation.
Defined.
